(* ===== verification/_CoqProject ===== *)
-Q . S2P
Prelude.v
Errors.v
Effects.v
Tokens.v
Text.v
Rbac.v
Email.v
Entities.v
Ports.v
Uuid.v
Schema.v
World.v
Sql.v
Demo.v
Integrity.v
Eval.v
PgUsers.v
PgTokens.v
PgInvites.v
PgContent.v
Calls.v
Credentials.v
Adapters.v
Google.v
AuthService.v
Sessions.v
Services.v
UseCases.v
Invites.v
Oidc.v
OidcFlow.v
Authorize.v
Zod.v
Contracts.v
Wire.v
Http.v
Requests.v
Mail.v
Config.v
Json.v
TailEvent.v
LogTail.v
Utf8.v
WebSession.v
Bff.v
WebUrl.v
BffOidc.v
TailProxy.v
WebFlows.v
WebGoogle.v
WebDemo.v
LogSearch.v
Relays.v
Panels.v
AdminBff.v
React.v
Pages.v
Fields.v
AdminPages.v
AlertPages.v
DashboardPages.v
PageFlows.v
ExplorerPages.v
SignInPages.v
