(* ===== verification/Prelude.v ===== *)
(** * logalot: verification library

    logalot is a multi-tenant log platform.  This library models its control plane
    ([services/control-plane], TypeScript on Fastify, Postgres and Redis), the shared
    contracts ([packages/contracts]) and the web application in front of it
    ([apps/web], TanStack Start and React), and proves what they promise.

    ** The program

    The control plane serves an HTTP API.  A request passes two pre-handlers (access
    token, permission of the route), is validated with a zod contract, and runs a use
    case of an application service as the verified caller.  Services reach the world
    through ports; the adapters are Postgres repositories under row-level security,
    crypto and clock adapters, OAuth state stores in memory and in Redis, Google's OIDC
    endpoints, and mail.  Sessions are an access token (a JWT) and a refresh token that
    is rotated on use, in families that die when a used token comes back.

    The web application holds the tokens in httpOnly cookies.  Its server functions
    relay to the control plane and to the query service, and exchange expired sessions;
    in the browser, hooks keep the state of the live tail, of the paged search and of
    the dashboard panels, and the pages show what the role of the session may do and
    call the server functions.

    ** The model

    Pure functions are functions.  A control-plane [async] function is a [prog world
    A] ([Effects.v]): atomic steps on the shared [world] ([World.v]) with awaits
    between them; [run] executes one alone, [pstep] interleaves a pool of them, lets
    the clock move and lets steps fail.  Exceptions are values of [result].  A
    server function of the web application is a [web W A] ([Bff.v]): it acts on the
    state [W] of the services behind it and leaves cookies and headers on its
    response.  The browser's hooks are step relations over records of their React
    state, refs and platform objects.  A page is a [component] ([React.v]): a state
    and a view, a list of widgets with the handlers they start; handlers set state
    and await calls, and a run interleaves them at every await, with answers in any
    order, lost answers, and data that changes meanwhile.  Strings are lists of
    UTF-16 units, integers are [Z] with the double's limits stated where they
    matter, JSON values and JSON text are both modelled.

    Third-party code is a parameter: a class of operations with the documented laws
    the code relies on.  [Entropy], [Crypto], [Bcrypt], [Jose], [Unicode], [Net],
    [Smtp], [StateCodec]; [Zod] and [Formats] for the zod package; [HttpServer] for
    the framework's routing and printing between the two services; [JwtTextLaws] for
    the compact form of tokens; [Backend], [QueryService], [QueryApi], [Dates] for
    what the web application calls; [LocalTime], [WallClock] for the time zone of
    the browser and [Entries] for the order of an object's keys.  [Demo.v] and
    [WebDemo.v] have concrete instances that satisfy the laws; the witness of each
    theorem runs it on one.

    ** Files

    Basics.  [Prelude] (results, strings, lists, tactics), [Errors]
    ([domain/errors.ts]), [Effects], [Tokens] ([domain/api-key.ts], [refresh-token.ts],
    [invite.ts], [split.ts], [secret-hash.ts]), [Text] (encodings of the platform),
    [Rbac] ([domain/rbac.ts], [roles.ts], [contracts/rbac.ts]), [Email], [Entities],
    [Ports] ([app/ports.ts]), [Uuid].

    Storage.  [Schema] (the tables of [migrations/] with their constraints and
    policies), [World], [Sql] (transactions, savepoints, statements under row-level
    security, [tenant-tx.ts]), [Integrity], [Eval]; [PgUsers], [PgTokens], [PgInvites],
    [PgContent] (every repository of [adapters/postgres/]); [Calls] (every repository
    call as one type), [Credentials].

    Control plane.  [Adapters] ([adapters/crypto], [audit], [redis]), [Google] (token
    exchange and id-token verification), [AuthService] with [Sessions], [Services] with
    [UseCases] and [Invites] (every service of [app/]), [Oidc] with [OidcFlow] and
    [Authorize] ([app/oidc-authenticator.ts]), [Zod] and [Contracts] (every schema of
    [packages/contracts]), [Wire] (response bodies), [Http] and [Requests]
    ([adapters/http/]), [Mail], [Config] ([config/env.ts], [container.ts]).

    Web application.  [Json] and [Utf8] (JSON text, base64url and UTF-8, read and
    written), [WebUrl] (query strings), [WebSession] ([server/session.ts]), [Bff]
    ([server/control-plane.ts], [auth.ts]), [BffOidc] ([server/oidc.ts] and the routes
    around it), [TailProxy] ([server/tail-proxy.ts]), [TailEvent] and [LogTail]
    ([features/log-explorer/]), [LogSearch] ([features/log-search/]), [Relays]
    ([server/search.ts]), [Panels] ([features/dashboards/], [server/panel-data.ts]),
    [AdminBff] ([server/admin.ts], [dashboards.ts]).
    [React] (components and their runs), [Pages] (the calls of the pages, the dialog that
    confirms a removal), [Fields] (numbers in form fields), [AdminPages]
    ([features/admin/]), [AlertPages] ([features/alerts/]), [DashboardPages]
    ([features/dashboards/]), [ExplorerPages] ([routes/_authed/explorer.tsx] and the
    components of both explorer features), [SignInPages] ([routes/login.tsx],
    [components/shell/]).  [PageFlows] puts the pages in front of the server functions
    and these in front of the control plane; [WebFlows], [WebGoogle] and the
    end of [AdminBff] put the server functions in front of the control plane of [Http].

    ** What the theorems show

    Isolation: from a sound database (its constraints hold and every author is a user of
    the row's own tenant, [Integrity.db_sound]) a repository call of a tenant and a
    request of its user outside the tenant registry leave the rows of other tenants
    alone, answer from their own, and keep the database sound; deleting a user forgets
    exactly that user ([Calls], [UseCases], [Requests]).  Access:
    every route is gated by token, permission and contract and otherwise answers as its
    use case does ([Requests.promised] lists the routes), and what the contracts of path
    ids, tenants, retention, invites and alert rules accept the database accepts, with
    one exception for patches of rules ([Requests]).
    Sessions: login, refresh, logout on every branch, malformed tokens
    included; of concurrent uses of one refresh token one wins; reuse kills the family
    for good ([Sessions], [Credentials]).
    Google sign-in: what the flow stores, checks, writes and logs, alone and under
    concurrency ([Oidc], [OidcFlow], [Authorize]).  Invitations: issue, provisioning and
    single use ([Invites]).  Configuration ([Config]), state stores as implementations
    of one contract ([Adapters]).

    Web sessions: signing in, silent refresh and logout, from the browser's cookies
    through both services and back, and that the tail proxy keeps a session, or,
    when the query service fails, loses it; what two simultaneous refreshes do
    ([WebFlows]).  A Google callback is bound to the browser that began the flow
    ([BffOidc], [WebGoogle]).  The relays fail closed (the load of the admin page
    shows an ended session instead of redirecting), and the admin forms have the
    effect of the use case they stand for ([AdminBff]).  The live tail never has two
    sources and gives up after a bounded number of steps ([LogTail]); the search
    list is never torn and paging ends with all results ([LogSearch]); the search
    request and the panel series are exact ([Relays], [Panels]).

    Pages, for every run, whatever is clicked and in whatever order answers come:
    what a page offers to a role is permitted, and each call its contract accepts
    has the effect of its use case on the stored data
    ([PageFlows.clicks_carried_out]); the admin page asks only for what the role may
    list ([PageFlows.admin_page_gated]); removals go one at a time
    ([PageFlows.removals_guarded]); a rule with an inline query and plain
    labels and channels, saved unchanged, is sent unchanged
    ([AlertPages.edit_unchanged]); the range of a dashboard changes only to valid
    ones ([PageFlows.ranges_picked]); the explorer shows the rows it received and
    the results of one query, and its address reproduces them ([ExplorerPages]); the
    sign-in page never locks itself ([SignInPages]).  A few theorems state defects
    of the code: [UseCases.alert_source_gap], [Sessions.non_uuid_ids_fail], a branch
    of [AdminBff.relays_fail_closed], [WebFlows.tail_failure_loses_session],
    [WebFlows.concurrent_refresh_signs_out].

    ** Bounds and fuel

    [JSON_parse] has fuel twice the length of its text and one more: every call uses up
    a character, or is one of the two calls a character pays for; [JSON_round_trip]
    shows it is enough for every printed value.  The printer of numbers has the binary
    size of the number as fuel, which bounds its decimal digits ([width_bound]).  The
    text of a double ([Fields.number_text]) searches at most 17 digits, with 330 places
    for the leading zeros of the least double; reading it back gives the number wherever
    a text is found ([Fields.number_round_trip]), and one is found for every integer up
    to 2^53 ([Fields.int_text]).
    Everything else recurses on its data.  [JSON_stringify] is partial: it prints
    integers up to 2^53, the only numbers the code prints on the modelled paths.
    Doubles are exact rationals with rounding ([nearest], [Panels.rounded]).

    ** Not modelled

    Interleaving inside a transaction: each is one atomic step, so a row that another
    transaction has written and not committed is never missed, as READ COMMITTED allows
    (a revocation of a family can miss a successor that is being inserted).  The tables
    and columns that only the Go services use, and the refusal of U+0000 in text.  In the
    explorer, the parsing, printing and throttling of the address are the address
    library's: the model has the filters it stands for; and the service's results of a
    query are one fixed list for a run.
    Fastify before a handler runs: path matching (a parameter where the two services
    are composed), body reading, the per-address rate limit; request logging and the
    text of console lines.  Pools, connections, process start and shutdown.  Markup,
    styles, icons, the theme and the drawing of charts: a page is what it says and what
    can be done with it.  Of React's scheduling only that updates of state are rendered
    later ([LogSearch]) or at once (elsewhere); the form, dialog and address libraries
    are an environment that may act at any time.  The session check of the explorer
    when the tail gives up, the overview page, which is static text, and the build
    scripts.  The bytes of the proxied
    event stream.  Requests started together with [Promise.all] are run in the order
    they start.  The Go services ([ingest-service], [processor], [query-service],
    [alert-evaluator], [retention-worker], [pkg]), which share the database but not this
    code, infrastructure and scripts. *)

From stdpp Require Import base list option numbers strings gmap.
From Stdlib Require Import Ascii.

(** ** Results

    A JavaScript call returns a value or throws; [result E A] is the pair of
    outcomes. *)

Inductive result (E A : Type) : Type :=
| Ok (a : A)
| Err (e : E).

Arguments Ok {E A} a.
Arguments Err {E A} e.

#[export] Instance result_ret E : MRet (result E) := fun A a => Ok a.

#[export] Instance result_bind E : MBind (result E) := fun A B f r =>
  match r with
  | Ok a => f a
  | Err e => Err e
  end.

#[export] Instance result_fmap E : FMap (result E) := fun A B f r =>
  match r with
  | Ok a => Ok (f a)
  | Err e => Err e
  end.

#[export] Instance result_eq_dec `{EqDecision E, EqDecision A} : EqDecision (result E A).
Proof. solve_decision. Defined.

Definition is_ok {E A} (r : result E A) : bool :=
  match r with Ok _ => true | Err _ => false end.

(** ** JavaScript strings

    A JavaScript string is a sequence of UTF-16 code units; a code unit is an
    [N].  [js] turns a (byte) literal into such a string. *)

Abbreviation jsstr := (list N).

Fixpoint js (s : string) : jsstr :=
  match s with
  | EmptyString => []
  | String c s' => N_of_ascii c :: js s'
  end.

(** [s.startsWith(p)]. *)
Fixpoint startsWith (s p : jsstr) {struct p} : bool :=
  match p, s with
  | [], _ => true
  | c :: p', d :: s' => bool_decide (c = d) && startsWith s' p'
  | _ :: _, [] => false
  end.

(** [s.indexOf(p)]; [None] is the JavaScript [-1]. *)
Fixpoint indexOf (s p : jsstr) : option nat :=
  if startsWith s p then Some 0
  else match s with
       | [] => None
       | _ :: s' => S <$> indexOf s' p
       end.

(** [s.includes(p)]. *)
Definition includes (s p : jsstr) : bool :=
  match indexOf s p with Some _ => true | None => false end.

(** [xs.join(sep)]. *)
Fixpoint join (xs : list jsstr) (sep : jsstr) : jsstr :=
  match xs with
  | [] => []
  | [x] => x
  | x :: xs' => x ++ sep ++ join xs' sep
  end.

(** ECMAScript WhiteSpace and LineTerminator code units, what [trim] strips. *)
Definition is_js_space (c : N) : bool :=
  bool_decide (c ∈ [9; 10; 11; 12; 13; 32; 160; 5760; 8232; 8233; 8239; 8287; 12288; 65279]%N)
  || ((8192 <=? c) && (c <=? 8202))%N.

Fixpoint trimStart (s : jsstr) : jsstr :=
  match s with
  | c :: s' => if is_js_space c then trimStart s' else s
  | [] => []
  end.

(** [s.trim()]. *)
Definition trim (s : jsstr) : jsstr := reverse (trimStart (reverse (trimStart s))).

(** A string is falsy exactly when it is empty. *)
Definition truthy (s : jsstr) : bool :=
  match s with [] => false | _ => true end.

Definition is_hex (c : N) : bool :=
  ((48 <=? c) && (c <=? 57) || (97 <=? c) && (c <=? 102) || (65 <=? c) && (c <=? 70))%N.

Definition is_lower_hex (c : N) : bool :=
  ((48 <=? c) && (c <=? 57) || (97 <=? c) && (c <=? 102))%N.

(** ASCII lower-casing of one code unit. *)
Definition ascii_lower (c : N) : N :=
  if ((65 <=? c) && (c <=? 90))%N then (c + 32)%N else c.

Definition is_ascii (s : jsstr) : bool := forallb (fun c => (c <? 128)%N) s.

(** ** Tactics *)

(** Case analysis on the scrutinee of a match in a hypothesis or in the goal. *)
Ltac break_match_hyp H :=
  match type of H with
  | context [match ?x with _ => _ end] =>
      lazymatch x with
      | context [match _ with _ => _ end] => fail
      | _ => let E := fresh "E" in destruct x eqn:E; simplify_eq/=
      end
  end.

Ltac break_match_goal :=
  match goal with
  | |- context [match ?x with _ => _ end] =>
      lazymatch x with
      | context [match _ with _ => _ end] => fail
      | _ => let E := fresh "E" in destruct x eqn:E; simplify_eq/=
      end
  end.

Ltac break_all H := repeat (break_match_hyp H; try done).

Create HintDb logalot.
Create Rewrite HintDb logalot.

(** ** Lemmas on results *)

Lemma bind_Ok {E A B} (f : A -> result E B) (a : A) : (Ok a ≫= f) = f a.
Proof. done. Qed.

Lemma bind_Ok_inv {E A B} (r : result E A) (f : A -> result E B) b :
  (r ≫= f) = Ok b -> exists a, r = Ok a /\ f a = Ok b.
Proof. destruct r; [eauto|done]. Qed.

Lemma bind_Err {E A B} (f : A -> result E B) (e : E) : (Err e ≫= f) = Err e.
Proof. done. Qed.

(** The steps behind a successful result. *)
Ltac result_inv :=
  repeat match goal with
         | E : (_ ≫= _) = Ok _ |- _ => apply bind_Ok_inv in E as (? & ? & E)
         end.

#[export] Hint Rewrite @bind_Ok @bind_Err : logalot.

(** ** Lemmas on strings *)

Lemma startsWith_spec s p : startsWith s p = true <-> exists t, s = p ++ t.
Proof.
  revert s; induction p as [|c p IH]; intros s; simpl.
  - split; [intros _; by exists s|intros _; done].
  - destruct s as [|d s]; [split; [discriminate|by intros [t ?]]|].
    rewrite andb_true_iff, bool_decide_eq_true, IH.
    split; [intros [-> [t ->]]; by exists t|intros [t ?]; simplify_eq; eauto].
Qed.

Lemma indexOf_Some_app s p i :
  indexOf s p = Some i -> s = take i s ++ p ++ drop (i + length p) s.
Proof.
  revert i; induction s as [|c s IH]; intros i H; simpl in H.
  - destruct p; simplify_eq/=; done.
  - destruct (startsWith (c :: s) p) eqn:E.
    + simplify_eq. apply startsWith_spec in E as [t E]. rewrite E; simpl.
      by rewrite drop_app_length.
    + destruct (indexOf s p) eqn:E'; simplify_eq/=. f_equal. by apply IH.
Qed.

Lemma indexOf_char_Some s c i :
  indexOf s [c] = Some i -> c ∉ take i s.
Proof.
  revert i; induction s as [|d s IH]; intros i H; simpl in H; [done|].
  destruct (bool_decide (c = d)) eqn:Hc; simpl in H.
  - simplify_eq/=. apply not_elem_of_nil.
  - apply bool_decide_eq_false in Hc.
    destruct (indexOf s [c]) eqn:E'; simplify_eq/=.
    apply not_elem_of_cons; split; [done|by apply IH].
Qed.

Lemma indexOf_char_None s c : indexOf s [c] = None <-> c ∉ s.
Proof.
  induction s as [|d s IH]; simpl; [split; [intros _; apply not_elem_of_nil|done]|].
  rewrite not_elem_of_cons, andb_true_r.
  destruct (decide (c = d)) as [->|Hne].
  - rewrite bool_decide_eq_true_2 by done. naive_solver.
  - rewrite bool_decide_eq_false_2 by done. rewrite fmap_None. naive_solver.
Qed.

Lemma indexOf_char_app s c t :
  c ∉ s -> indexOf (s ++ c :: t) [c] = Some (length s).
Proof.
  induction s as [|d s IH]; intros H; simpl.
  - by rewrite bool_decide_eq_true_2.
  - apply not_elem_of_cons in H as [Hne H].
    rewrite bool_decide_eq_false_2 by done. simpl. by rewrite IH.
Qed.

Lemma join_cons x y xs sep : join (x :: y :: xs) sep = x ++ sep ++ join (y :: xs) sep.
Proof. done. Qed.

Lemma join_cons_ne x xs sep : xs <> [] -> join (x :: xs) sep = x ++ sep ++ join xs sep.
Proof. by destruct xs. Qed.

Lemma truthy_spec s : truthy s = true <-> s <> [].
Proof. by destruct s. Qed.

(** ** Lemmas on [trim] *)

Lemma trimStart_suffix s : exists p, s = p ++ trimStart s.
Proof.
  induction s as [|c s [p IH]]; simpl; [by exists []|].
  destruct (is_js_space c); [exists (c :: p); by rewrite IH at 1|by exists []].
Qed.

Lemma trimStart_id s :
  trimStart s = s <-> match s with c :: _ => is_js_space c = false | [] => True end.
Proof.
  destruct s as [|c s]; simpl; [done|]. destruct (is_js_space c) eqn:E; [|done].
  split; [|done]. intros H. destruct (trimStart_suffix s) as [p Hp].
  apply (f_equal length) in Hp, H. rewrite length_app in Hp. simpl in H. lia.
Qed.

Lemma trimStart_idem s : trimStart (trimStart s) = trimStart s.
Proof.
  induction s as [|c s IH]; simpl; [done|].
  destruct (is_js_space c) eqn:E; [done|]. simpl. by rewrite E.
Qed.

Lemma trim_prefix s : exists p, trimStart s = trim s ++ p.
Proof.
  unfold trim. destruct (trimStart_suffix (reverse (trimStart s))) as [p Hp].
  exists (reverse p). apply (f_equal reverse) in Hp.
  by rewrite reverse_involutive, reverse_app in Hp.
Qed.

Lemma trim_idem s : trim (trim s) = trim s.
Proof.
  assert (Hs : trimStart (trim s) = trim s).
  { destruct (trim_prefix s) as [p Hp]. pose proof (proj1 (trimStart_id (trimStart s)) (trimStart_idem s)) as H.
    rewrite Hp in H. apply trimStart_id. by destruct (trim s). }
  unfold trim at 1. rewrite Hs. unfold trim at 1. rewrite reverse_involutive, trimStart_idem.
  done.
Qed.

Lemma trimStart_fmap (f : N -> N) s :
  (forall c, is_js_space (f c) = is_js_space c) -> trimStart (f <$> s) = f <$> trimStart s.
Proof.
  intros Hf. induction s as [|c s IH]; [done|]. rewrite fmap_cons. simpl. rewrite Hf.
  by destruct (is_js_space c).
Qed.

Lemma trim_fmap (f : N -> N) s :
  (forall c, is_js_space (f c) = is_js_space c) -> trim (f <$> s) = f <$> trim s.
Proof.
  intros Hf. unfold trim. by rewrite trimStart_fmap, <-fmap_reverse, trimStart_fmap, fmap_reverse.
Qed.
