(* ===== verification/Errors.v ===== *)
(** * Errors

    The domain error taxonomy of [domain/errors.ts], and the values a
    control-plane call can throw: a [DomainError], a Postgres error carrying its
    SQLSTATE, a plain JavaScript [Error], or an infrastructure failure (lost
    connection, timeout). *)

From stdpp Require Import base list option numbers strings.
From S2P Require Import Prelude.

Inductive error_class :=
| ValidationErrorC
| UnauthorizedErrorC
| ForbiddenErrorC
| NotFoundErrorC
| ConflictErrorC
| ServiceUnavailableErrorC.

#[export] Instance error_class_eq_dec : EqDecision error_class.
Proof. solve_decision. Defined.

(** [error_class] is [this.name] (the constructor the error was built with),
    what [instanceof] tests. *)
Record DomainError := mkDomainError {
  de_class : error_class;
  de_status : Z;
  de_code : jsstr;
  de_message : jsstr;
  de_expose : bool;
  de_details : option (list jsstr)
}.

#[export] Instance DomainError_eq_dec : EqDecision DomainError.
Proof. solve_decision. Defined.

Inductive exn :=
| EDomain (d : DomainError)
| EPg (sqlstate : jsstr)
| EError (message : jsstr)
| EInfra.

#[export] Instance exn_eq_dec : EqDecision exn.
Proof. solve_decision. Defined.

Definition ValidationError (message : jsstr) (details : option (list jsstr)) : exn :=
  EDomain (mkDomainError ValidationErrorC 400 (js "validation_error") message true details).

Definition UnauthorizedError (message : jsstr) : exn :=
  EDomain (mkDomainError UnauthorizedErrorC 401 (js "unauthorized") message true None).

(** The default message of [new UnauthorizedError()]. *)
Definition invalid_credentials : jsstr := js "invalid credentials".

Definition ForbiddenError (message : jsstr) : exn :=
  EDomain (mkDomainError ForbiddenErrorC 403 (js "forbidden") message true None).

Definition NotFoundError (message : jsstr) : exn :=
  EDomain (mkDomainError NotFoundErrorC 404 (js "not_found") message true None).

Definition ConflictError (message : jsstr) : exn :=
  EDomain (mkDomainError ConflictErrorC 409 (js "conflict") message true None).

Definition ServiceUnavailableError (message : jsstr) : exn :=
  EDomain (mkDomainError ServiceUnavailableErrorC 503 (js "service_unavailable") message true None).

(** [err instanceof C]. *)
Definition instanceof (e : exn) (c : error_class) : bool :=
  match e with
  | EDomain d => bool_decide (de_class d = c)
  | _ => false
  end.

(** The [code] property of a thrown value, when it has one. *)
Definition err_code (e : exn) : option jsstr :=
  match e with
  | EDomain d => Some (de_code d)
  | EPg s => Some s
  | _ => None
  end.

(** ** SQLSTATEs the model raises *)

Definition PG_UNIQUE_VIOLATION : jsstr := js "23505".
Definition pg_foreign_key_violation : jsstr := js "23503".
Definition pg_check_violation : jsstr := js "23514".
Definition pg_invalid_text_representation : jsstr := js "22P02".
Definition pg_in_failed_transaction : jsstr := js "25P02".

Definition isUniqueViolation (e : exn) : bool :=
  bool_decide (err_code e = Some PG_UNIQUE_VIOLATION).
