(* ===== verification/Effects.v ===== *)
(** * Asynchronous programs

    An [async] function of the control plane is a sequence of atomic steps on
    the shared world (one database transaction, one clock read, one store
    command), separated by [await] points at which other requests run.
    [prog W A] is such a program.  [run] executes it alone; [pstep] interleaves
    a pool of programs, lets the environment change the world (the clock), and
    lets any step fail because of the infrastructure, before or after its
    effect took place. *)

From stdpp Require Import base list option numbers relations.
From S2P Require Import Prelude Errors.

Section Programs.
Context {W : Type}.

Inductive prog (A : Type) : Type :=
| Ret (r : result exn A)
| Step {X : Type} (op : W -> result exn X * W) (k : result exn X -> prog A).

#[global] Arguments Ret {A} r.
#[global] Arguments Step {A X} op k.

Definition ret {A} (a : A) : prog A := Ret (Ok a).
Definition throw {A} (e : exn) : prog A := Ret (Err e).

Fixpoint pbind {A B} (f : A -> prog B) (p : prog A) : prog B :=
  match p with
  | Ret (Ok a) => f a
  | Ret (Err e) => Ret (Err e)
  | Step op k => Step op (fun x => pbind f (k x))
  end.

(** [try { p } catch (e) { h(e) }]. *)
Fixpoint catch {A} (h : exn -> prog A) (p : prog A) : prog A :=
  match p with
  | Ret (Ok a) => Ret (Ok a)
  | Ret (Err e) => h e
  | Step op k => Step op (fun x => catch h (k x))
  end.

(** One atomic step and its outcome. *)
Definition atomic {X} (op : W -> result exn X * W) : prog X := Step op Ret.

Fixpoint run {A} (p : prog A) (w : W) : result exn A * W :=
  match p with
  | Ret r => (r, w)
  | Step op k => let '(x, w') := op w in run (k x) w'
  end.

(** ** Interleaving *)

(** The next state of a thread that takes its step in world [w]. *)
Definition exec1 {A} (p : prog A) (w : W) : option (prog A * W) :=
  match p with
  | Ret _ => None
  | Step op k => let '(x, w') := op w in Some (k x, w')
  end.

(** The step fails and had no effect. *)
Definition fault1 {A} (p : prog A) : option (prog A) :=
  match p with
  | Ret _ => None
  | Step _ k => Some (k (Err EInfra))
  end.

(** The step took effect and its acknowledgement was lost. *)
Definition lost1 {A} (p : prog A) (w : W) : option (prog A * W) :=
  match p with
  | Ret _ => None
  | Step op k => Some (k (Err EInfra), (op w).2)
  end.

Inductive pstep {A} (env : W -> W -> Prop) : W * list (prog A) -> W * list (prog A) -> Prop :=
| pstep_exec w ts i p q w' :
    ts !! i = Some p -> exec1 p w = Some (q, w') ->
    pstep env (w, ts) (w', <[i := q]> ts)
| pstep_fault w ts i p q :
    ts !! i = Some p -> fault1 p = Some q ->
    pstep env (w, ts) (w, <[i := q]> ts)
| pstep_lost w ts i p q w' :
    ts !! i = Some p -> lost1 p w = Some (q, w') ->
    pstep env (w, ts) (w', <[i := q]> ts)
| pstep_env w w' ts :
    env w w' -> pstep env (w, ts) (w', ts).

(** ** Specifications

    [spec I guar p Q]: started in any world that satisfies [I] and under any
    interference that keeps [I], every step of [p] satisfies [guar], and the
    outcome of [p] satisfies [Q]. *)

Fixpoint spec {A} (I : W -> Prop) (guar : W -> W -> Prop) (p : prog A)
    (Q : result exn A -> Prop) : Prop :=
  match p with
  | Ret r => Q r
  | Step op k =>
      (forall w, I w -> guar w (op w).2 /\ spec I guar (k (op w).1) Q) /\
      spec I guar (k (Err EInfra)) Q
  end.

(** [claims I G win p]: whenever [p] returns a winning value, one of its own
    steps turned the resource [G] from available to taken; no step of [p] makes
    [G] available again. *)

Definition no_release (I : W -> Prop) (G : W -> bool) (w w' : W) : Prop :=
  I w' /\ (G w = false -> G w' = false).

Fixpoint claims {A} (I : W -> Prop) (G : W -> bool) (win : A -> bool) (p : prog A) : Prop :=
  match p with
  | Ret (Ok a) => win a = false
  | Ret (Err _) => True
  | Step op k =>
      (forall w, I w ->
         no_release I G w (op w).2 /\
         ((G w = true /\ G (op w).2 = false /\
           spec I (no_release I G) (k (op w).1) (fun _ => True)) \/
          claims I G win (k (op w).1))) /\
      claims I G win (k (Err EInfra))
  end.

End Programs.

Arguments prog W A : clear implicits.

#[export] Instance prog_ret {W} : MRet (prog W) := fun A a => Ret (Ok a).
#[export] Instance prog_bind {W} : MBind (prog W) := fun A B f p => pbind f p.

(** * Lemmas *)

Section ProgramFacts.
Context {W : Type}.
Implicit Types (w : W) (I : W -> Prop) (G : W -> bool).

Lemma run_bind {A B} (p : prog W A) (f : A -> prog W B) w :
  run (p ≫= f) w =
  match run p w with
  | (Ok a, w') => run (f a) w'
  | (Err e, w') => (Err e, w')
  end.
Proof.
  unfold mbind, prog_bind.
  revert w; induction p as [[a|e]|X op k IH]; intros w; simpl; try done.
  destruct (op w) as [x w']. apply IH.
Qed.

Lemma bind_Ret_Ok {A B} (a : A) (f : A -> prog W B) : (Ret (Ok a) ≫= f) = f a.
Proof. done. Qed.

Lemma run_catch {A} (p : prog W A) h w :
  run (catch h p) w =
  match run p w with
  | (Ok a, w') => (Ok a, w')
  | (Err e, w') => run (h e) w'
  end.
Proof.
  revert w; induction p as [[a|e]|X op k IH]; intros w; simpl; try done.
  destruct (op w) as [x w']. apply IH.
Qed.

Lemma run_atomic {X} (op : W -> result exn X * W) w : run (atomic op) w = op w.
Proof. unfold atomic; simpl. by destruct (op w). Qed.

Lemma run_ret {A} (r : result exn A) w : run (Ret r) w = (r, w).
Proof. done. Qed.

Lemma spec_mono {A} I guar (p : prog W A) (Q Q' : result exn A -> Prop) :
  spec I guar p Q -> (forall r, Q r -> Q' r) -> spec I guar p Q'.
Proof.
  intros H HQ. induction p as [r|X op k IH]; simpl in *; [by apply HQ|].
  destruct H as [H1 H2]. split; [|by apply IH].
  intros w Hw. destruct (H1 w Hw) as [Hg Hk]. split; [done|by apply IH].
Qed.

Lemma spec_mono_guar {A} I (g g' : W -> W -> Prop) (p : prog W A) Q :
  spec I g p Q -> (forall w w', I w -> g w w' -> g' w w') -> spec I g' p Q.
Proof.
  intros H Hg. induction p as [r|X op k IH]; simpl in *; [done|].
  destruct H as [H1 H2]. split; [|by apply IH].
  intros w Hw. destruct (H1 w Hw) as [Hgw Hk]. split; [by apply Hg|by apply IH].
Qed.

Lemma spec_bind {A B} I guar (p : prog W A) (f : A -> prog W B) (Q : result exn B -> Prop) :
  spec I guar p (fun r => match r with
                          | Ok a => spec I guar (f a) Q
                          | Err e => Q (Err e)
                          end) ->
  spec I guar (p ≫= f) Q.
Proof.
  unfold mbind, prog_bind.
  induction p as [[a|e]|X op k IH]; simpl; try done.
  intros [H1 H2]. split; [|by apply IH].
  intros w Hw. destruct (H1 w Hw) as [Hg Hk]. split; [done|by apply IH].
Qed.

Lemma spec_catch {A} I guar (p : prog W A) h (Q : result exn A -> Prop) :
  spec I guar p (fun r => match r with
                          | Ok a => Q (Ok a)
                          | Err e => spec I guar (h e) Q
                          end) ->
  spec I guar (catch h p) Q.
Proof.
  induction p as [[a|e]|X op k IH]; simpl; try done.
  intros [H1 H2]. split; [|by apply IH].
  intros w Hw. destruct (H1 w Hw) as [Hg Hk]. split; [done|by apply IH].
Qed.

Lemma spec_atomic {X} I guar (op : W -> result exn X * W) (Q : result exn X -> Prop) :
  (forall w, I w -> guar w (op w).2 /\ Q (op w).1) -> Q (Err EInfra) ->
  spec I guar (atomic op) Q.
Proof. intros H1 H2. split; [|done]. intros w Hw. by apply H1. Qed.

Lemma claims_bind {A B} I G win (p : prog W A) (f : A -> prog W B) :
  spec I (no_release I G) p
    (fun r => match r with Ok a => claims I G win (f a) | Err _ => True end) ->
  claims I G win (p ≫= f).
Proof.
  unfold mbind, prog_bind.
  induction p as [[a|e]|X op k IH]; simpl; try done.
  intros [H1 H2]. split; [|by apply IH].
  intros w Hw. destruct (H1 w Hw) as [Hg Hk]. split; [done|right; by apply IH].
Qed.

(** One step whose success either takes [G] or leads to a program that claims. *)
Lemma claims_step {X B} I G win (op : W -> result exn X * W) (f : X -> prog W B) :
  (forall w, I w -> no_release I G w (op w).2 /\
     match (op w).1 with
     | Ok a => (G w = true /\ G (op w).2 = false /\
                spec I (no_release I G) (f a) (fun _ => True)) \/ claims I G win (f a)
     | Err _ => True
     end) ->
  claims I G win (atomic op ≫= f).
Proof.
  intros Hop. split; [|done]. intros w Hw. destruct (Hop w Hw) as [Hn Hr]. split; [done|].
  destruct (op w) as [[a|e] w']; simpl in *; [|by right]. done.
Qed.

(** A program that keeps [G] taken and whose results never win. *)
Lemma claims_spec {A} I G win (p : prog W A) :
  spec I (no_release I G) p
    (fun r => match r with Ok a => win a = false | Err _ => True end) ->
  claims I G win p.
Proof.
  induction p as [[a|e]|X op k IH]; simpl; try done.
  intros [H1 H2]. split; [|by apply IH].
  intros w Hw. destruct (H1 w Hw) as [Hg Hk]. split; [done|right; by apply IH].
Qed.

Lemma claims_catch {A} I G win (p : prog W A) h :
  claims I G win p ->
  (forall e, claims I G win (h e)) ->
  (forall e, spec I (no_release I G) (h e) (fun _ => True)) ->
  claims I G win (catch h p).
Proof.
  intros Hp Hh Hs. induction p as [[a|e]|X op k IH]; simpl in *; [done|apply Hh|].
  destruct Hp as [H1 H2]. split; [|by apply IH].
  intros w Hw. destruct (H1 w Hw) as [Hg [(Ha & Hb & Hk)|Hk]]; split; try done.
  - left. split_and!; try done. apply spec_catch.
    eapply spec_mono; [exact Hk|]. intros [a|e] _; [done|apply Hs].
  - right. by apply IH.
Qed.

(** A program that claims, followed by one that never gives back, and that does not
    win when the first lost. *)
Lemma claims_then {A B} I G (win : A -> bool) (win' : B -> bool) (p : prog W A) (f : A -> prog W B) :
  claims I G win p ->
  (forall a, spec I (no_release I G) (f a) (fun _ => True)) ->
  (forall a, win a = false -> claims I G win' (f a)) ->
  claims I G win' (p ≫= f).
Proof.
  intros Hp Hs Hw. unfold mbind, prog_bind.
  induction p as [[a|e]|X op k IH]; simpl in *; [by apply Hw|done|].
  destruct Hp as [H1 H2]. split; [|by apply IH].
  intros w Hwd. destruct (H1 w Hwd) as [Hg [(Ha & Hb & Hk)|Hk]]; split; try done.
  - left. split_and!; try done. apply (spec_bind _ _ (k (op w).1) f).
    eapply spec_mono; [exact Hk|]. by intros [a|e] _.
  - right. by apply IH.
Qed.

(** Post-processing the result by a function that cannot turn a loss into a win. *)
Lemma claims_map {A B} I G (win : A -> bool) (win' : B -> bool) (f : A -> B) (p : prog W A) :
  claims I G win p -> (forall a, win a = false -> win' (f a) = false) ->
  claims I G win' (a ← p; mret (f a)).
Proof.
  intros Hp Hw. unfold mbind, prog_bind.
  induction p as [[a|e]|X op k IH]; simpl in *; [by apply Hw|done|].
  destruct Hp as [H1 H2]. split; [|by apply IH].
  intros w Hwd. destruct (H1 w Hwd) as [Hg [(Ha & Hb & Hk)|Hk]]; split; try done.
  - left. split_and!; try done. apply (spec_bind _ _ (k (op w).1) (fun a => mret (f a))).
    eapply spec_mono; [exact Hk|]. by intros [a|e] _.
  - right. by apply IH.
Qed.

Lemma spec_map {A B} I guar (f : A -> B) (p : prog W A) :
  spec I guar p (fun _ => True) -> spec I guar (a ← p; mret (f a)) (fun _ => True).
Proof. intros Hp. apply spec_bind. eapply spec_mono; [exact Hp|]. by intros [a|e] _. Qed.

End ProgramFacts.

(** ** Pools *)

Section Pools.
Context {W A : Type} (env : W -> W -> Prop).
Implicit Types (w : W) (ts : list (prog W A)).

(** A thread may run to its end undisturbed. *)
Lemma run_pool ts i p w r w' :
  ts !! i = Some p -> run p w = (r, w') -> rtc (pstep env) (w, ts) (w', <[i := Ret r]> ts).
Proof.
  revert ts w. induction p as [r0|X op k IH]; intros ts w Hi Hr; simpl in Hr.
  - simplify_eq. rewrite list_insert_id by done. apply rtc_refl.
  - destruct (op w) as [x w1] eqn:E.
    eapply rtc_l; [apply (pstep_exec env w ts i (Step op k) (k x) w1); [done|]|].
    { simpl. by rewrite E. }
    rewrite <-(list_insert_insert_eq ts i (Ret r) (k x)). apply (IH x); [|done].
    apply list_lookup_insert_eq. by eapply lookup_lt_Some.
Qed.

(** An invariant that every thread's steps and the environment preserve holds
    after any interleaving. *)
Lemma pool_invariant (I : W -> Prop) w ts w' ts' :
  (forall v v', env v v' -> I v -> I v') ->
  I w ->
  Forall (fun p => spec I (fun _ v' => I v') p (fun _ => True)) ts ->
  rtc (pstep env) (w, ts) (w', ts') ->
  I w' /\ Forall (fun p => spec I (fun _ v' => I v') p (fun _ => True)) ts'.
Proof.
  intros Henv HI Hts Hsteps.
  remember (w, ts) as c eqn:Ec. remember (w', ts') as c' eqn:Ec'.
  revert w ts Ec HI Hts w' ts' Ec'.
  induction Hsteps as [c|c c1 c2 Hstep Hrest IH];
    intros w ts -> HI Hts w' ts' Ec'; [by simplify_eq|].
  destruct c1 as [w1 ts1]. eapply IH; [done| | |exact Ec']; clear IH Hrest Ec' w' ts' c2.
  - inversion Hstep as [??? p q ? Hi Hx|??? p q Hi Hx|??? p q ? Hi Hx|]; subst; [| done | |by eapply Henv].
    + pose proof (Forall_lookup_1 _ _ _ _ Hts Hi) as Hp.
      destruct p as [|X op k]; simplify_eq/=. destruct (op w) as [x v] eqn:E. simplify_eq.
      destruct Hp as [Hp _]. destruct (Hp w HI) as [Hg _]. by rewrite E in Hg.
    + pose proof (Forall_lookup_1 _ _ _ _ Hts Hi) as Hp.
      destruct p as [|X op k]; simplify_eq/=. destruct Hp as [Hp _]. by apply Hp.
  - inversion Hstep as [??? p q ? Hi Hx|??? p q Hi Hx|??? p q ? Hi Hx|]; subst; try done;
      apply Forall_insert; try done;
      pose proof (Forall_lookup_1 _ _ _ _ Hts Hi) as Hp;
      destruct p as [|X op k]; simplify_eq/=; destruct Hp as [Hp Hf]; try done.
    destruct (Hp w HI) as [_ Hk]. destruct (op w) as [x v] eqn:E. by simplify_eq/=.
Qed.

(** The configuration invariant behind [single_winner]: at most one thread [j]
    has taken the resource, and only when the resource is gone. *)
Definition race_inv (I : W -> Prop) (G : W -> bool) (win : A -> bool)
    (w : W) (ts : list (prog W A)) (j : option nat) : Prop :=
  I w /\ (is_Some j -> G w = false) /\
  forall i p, ts !! i = Some p ->
    claims I G win p \/ (j = Some i /\ spec I (no_release I G) p (fun _ => True)).

Lemma race_inv_insert I G win w w1 ts i q j :
  race_inv I G win w ts j -> I w1 -> (G w = false -> G w1 = false) ->
  (claims I G win q \/ (j = Some i /\ spec I (no_release I G) q (fun _ => True))) ->
  race_inv I G win w1 (<[i := q]> ts) j.
Proof.
  intros (HI & Hj & Hts) HI1 HG Hq. split_and!; [done|auto|].
  intros i' p Hp. destruct (decide (i = i')) as [<-|Hne].
  - apply list_lookup_insert_Some in Hp as [(? & <- & ?)|[? ?]]; [|done]. done.
  - rewrite list_lookup_insert_ne in Hp by done. by apply Hts.
Qed.

Lemma race_inv_step I G win w ts w1 ts1 j :
  (forall v v', env v v' -> I v -> no_release I G v v') ->
  race_inv I G win w ts j ->
  pstep env (w, ts) (w1, ts1) ->
  exists j', race_inv I G win w1 ts1 j'.
Proof.
  intros Henv Hinv Hstep. pose proof Hinv as (HI & Hj & Hts).
  inversion Hstep as [??? p q ? Hi Hx|??? p q Hi Hx|??? p q ? Hi Hx|? ? ? He]; subst.
  - destruct (Hts _ _ Hi) as [Hc|[-> Hs]]; destruct p as [|X op k]; simplify_eq/=;
      destruct (op w) as [x v] eqn:E; simplify_eq.
    + destruct Hc as [Hc _]. destruct (Hc w HI) as [[HIv HGv] Hk]. rewrite E in *; simpl in *.
      destruct Hk as [(HG & HG' & Hk)|Hk].
      * assert (j = None) as -> by (destruct j; [by rewrite Hj in HG|done]).
        exists (Some i). split_and!; [done|done|]. intros i' p' Hp'.
        destruct (decide (i = i')) as [<-|Hne].
        -- apply list_lookup_insert_Some in Hp' as [(? & <- & ?)|[? ?]]; [|done]. by right.
        -- rewrite list_lookup_insert_ne in Hp' by done.
           destruct (Hts _ _ Hp') as [|[? _]]; [by left|done].
      * exists j. eapply race_inv_insert; eauto.
    + exists (Some i). destruct Hs as [Hs _]. destruct (Hs w HI) as [[HIv HGv] Hk].
      rewrite E in *; simpl in *. eapply race_inv_insert; eauto.
  - exists j. destruct (Hts _ _ Hi) as [Hc|[-> Hs]]; destruct p as [|X op k]; simplify_eq/=;
      eapply race_inv_insert; eauto.
    + left. by destruct Hc.
    + right. split; [done|by destruct Hs].
  - exists j. destruct (Hts _ _ Hi) as [Hc|[-> Hs]]; destruct p as [|X op k]; simplify_eq/=.
    + destruct Hc as [Hc Hf]. destruct (Hc w HI) as [[HIv HGv] _].
      eapply race_inv_insert; eauto.
    + destruct Hs as [Hs Hf]. destruct (Hs w HI) as [[HIv HGv] _].
      eapply race_inv_insert; eauto.
  - exists j. destruct (Henv _ _ He HI) as [HI1 HG1]. split_and!; auto.
Qed.

(** Among any number of interleaved threads that win only by taking [G], at
    most one wins. *)
Lemma single_winner I G win w ts w' ts' i1 i2 a1 a2 :
  (forall v v', env v v' -> I v -> no_release I G v v') ->
  I w -> Forall (claims I G win) ts ->
  rtc (pstep env) (w, ts) (w', ts') ->
  ts' !! i1 = Some (Ret (Ok a1)) -> win a1 = true ->
  ts' !! i2 = Some (Ret (Ok a2)) -> win a2 = true ->
  i1 = i2.
Proof.
  intros Henv HI Hts Hsteps H1 Hw1 H2 Hw2.
  assert (exists j, race_inv I G win w' ts' j) as [j (_ & _ & Hinv)].
  { assert (Hinv : exists j, race_inv I G win w ts j).
    { exists None. split_and!; [done|by intros []|].
      intros i p Hp. left. by eapply Forall_lookup_1. }
    clear HI Hts H1 H2.
    remember (w, ts) as c eqn:Ec. remember (w', ts') as c' eqn:Ec'.
    revert w ts Ec Hinv w' ts' Ec'.
    induction Hsteps as [c|c [w1 ts1] c2 Hstep Hrest IH];
      intros w ts -> Hinv w' ts' Ec'; [by simplify_eq|].
    destruct Hinv as [j Hj]. eapply IH; [done| |exact Ec']. by eapply race_inv_step. }
  destruct (Hinv _ _ H1) as [Hc|[-> _]]; [simpl in Hc; congruence|].
  destruct (Hinv _ _ H2) as [Hc|[? _]]; [simpl in Hc; congruence|]. by simplify_eq.
Qed.

End Pools.
