(* ===== verification/Tokens.v ===== *)
(** * One-time credentials

    The wire formats of the three bearer credentials the control plane mints:
    API keys [lgk_<slug>_<keyId>_<secret>] ([domain/api-key.ts]), refresh tokens
    [lgr_<tenantId>_<tokenId>_<secret>] ([domain/refresh-token.ts]) and invite
    tokens [lginv_<slug>_<secret>] ([domain/invite.ts]), on top of Go-style
    [splitN] ([domain/split.ts]) and SHA-256 hashing ([domain/secret-hash.ts],
    [domain/pii-log.ts]). *)

From stdpp Require Import base list option numbers strings sets.
From S2P Require Import Prelude Errors.

(** ** Hashing

    [sha256_digest s] is node's [createHash('sha256').update(s, 'utf8').digest()]. *)

Class Crypto := {
  sha256_digest : jsstr -> list N
}.

Class CryptoLaws `{Crypto} : Prop := {
  sha256_length s : length (sha256_digest s) = 32;
  sha256_bytes s : Forall (fun b => (b < 256)%N) (sha256_digest s)
}.

Definition hex_digit (n : N) : N := if (n <? 10)%N then (48 + n)%N else (87 + n)%N.

(** [buf.toString('hex')]. *)
Definition toHex (bs : list N) : jsstr :=
  concat (map (fun b => [hex_digit (b / 16); hex_digit (b mod 16)]%N) bs).

Section Hash.
Context `{Crypto}.

Definition sha256 (secret : jsstr) : list N := sha256_digest secret.

(** [timingSafeEqual] throws on unequal lengths, hence the guard. *)
Definition constantTimeEqual (a b : list N) : bool :=
  (length a =? length b) && bool_decide (a = b).

Definition piiHash (value : jsstr) : jsstr := take 8 (toHex (sha256_digest value)).

End Hash.

(** ** Splitting *)

(** The loop of [splitN]: at most [k] more cuts. *)
Fixpoint splitN_loop (k : nat) (rest sep : jsstr) : list jsstr :=
  match k with
  | O => [rest]
  | S k' =>
      match indexOf rest sep with
      | None => [rest]
      | Some idx => take idx rest :: splitN_loop k' (drop (idx + length sep) rest) sep
      end
  end.

Definition splitN (s sep : jsstr) (n : Z) : list jsstr :=
  if (n <=? 0)%Z then [] else splitN_loop (Z.to_nat (n - 1)) s sep.

(** ** API keys *)

Definition KEY_PREFIX : jsstr := js "lgk".
Definition KEY_SEPARATOR : jsstr := js "_".
Definition KEY_ID_BYTES : nat := 16.
Definition SECRET_BYTES : nat := 32.

Record KeyMaterial := mkKeyMaterial { km_keyId : jsstr; km_secret : jsstr }.

Record MintedApiKey := mkMintedApiKey {
  mk_keyId : jsstr;
  mk_secret : jsstr;
  mk_plaintext : jsstr;
  mk_keyHash : list N
}.

Record ParsedApiKey := mkParsedApiKey {
  pk_publicId : jsstr;
  pk_keyId : jsstr;
  pk_secret : jsstr
}.

Definition hashSecret `{Crypto} (secret : jsstr) : list N := sha256 secret.

Definition assemblePlaintext (publicId : jsstr) (material : KeyMaterial) : jsstr :=
  join [KEY_PREFIX; publicId; km_keyId material; km_secret material] KEY_SEPARATOR.

Definition mintApiKey `{Crypto} (publicId : jsstr) (material : KeyMaterial) : MintedApiKey :=
  {| mk_keyId := km_keyId material;
     mk_secret := km_secret material;
     mk_plaintext := assemblePlaintext publicId material;
     mk_keyHash := hashSecret (km_secret material) |}.

Definition parseApiKey (raw : jsstr) : result exn ParsedApiKey :=
  let malformed := ValidationError (js "malformed api key") None in
  match splitN raw KEY_SEPARATOR 4 with
  | [prefix; publicId; keyId; secret] =>
      if negb (bool_decide (prefix = KEY_PREFIX)) || negb (truthy publicId)
         || negb (truthy keyId) || negb (truthy secret)
      then Err malformed
      else Ok (mkParsedApiKey publicId keyId secret)
  | _ => Err malformed
  end.

(** ** Refresh tokens *)

Definition REFRESH_PREFIX : jsstr := js "lgr".
Definition REFRESH_SEPARATOR : jsstr := js "_".
Definition REFRESH_SECRET_BYTES : nat := 32.

Record ParsedRefreshToken := mkParsedRefreshToken {
  pr_tenantId : jsstr;
  pr_tokenId : jsstr;
  pr_secret : jsstr
}.

Definition assembleRefreshToken (tenantId tokenId secret : jsstr) : jsstr :=
  join [REFRESH_PREFIX; tenantId; tokenId; secret] REFRESH_SEPARATOR.

Definition parseRefreshToken (raw : jsstr) : result exn ParsedRefreshToken :=
  let malformed := ValidationError (js "malformed refresh token") None in
  match splitN raw REFRESH_SEPARATOR 4 with
  | [prefix; tenantId; tokenId; secret] =>
      if negb (bool_decide (prefix = REFRESH_PREFIX)) || negb (truthy tenantId)
         || negb (truthy tokenId) || negb (truthy secret)
      then Err malformed
      else Ok (mkParsedRefreshToken tenantId tokenId secret)
  | _ => Err malformed
  end.

(** ** Invite tokens *)

Definition INVITE_PREFIX : jsstr := js "lginv".
Definition INVITE_SEPARATOR : jsstr := js "_".
Definition INVITE_SECRET_BYTES : nat := 32.

Record InviteToken := mkInviteToken {
  it_publicId : jsstr;
  it_secret : jsstr;
  it_plaintext : jsstr
}.

Record ParsedInviteToken := mkParsedInviteToken {
  pi_publicId : jsstr;
  pi_secret : jsstr
}.

Definition hashInviteSecret `{Crypto} (secret : jsstr) : list N := sha256 secret.

Definition assembleInviteToken (publicId secret : jsstr) : jsstr :=
  join [INVITE_PREFIX; publicId; secret] INVITE_SEPARATOR.

Definition parseInviteToken (raw : jsstr) : result exn ParsedInviteToken :=
  let malformed := ValidationError (js "malformed invite token") None in
  match splitN raw INVITE_SEPARATOR 3 with
  | [prefix; publicId; secret] =>
      if negb (bool_decide (prefix = INVITE_PREFIX)) || negb (truthy publicId)
         || negb (truthy secret)
      then Err malformed
      else Ok (mkParsedInviteToken publicId secret)
  | _ => Err malformed
  end.

Definition mintInviteToken (publicId secret : jsstr) : InviteToken :=
  {| it_publicId := publicId;
     it_secret := secret;
     it_plaintext := assembleInviteToken publicId secret |}.

(** ** The tenant slug, and the slug embedded in an invite token

    [tenantPublicIdSchema] is the regular expression
    [^[a-z0-9][a-z0-9-]{1,38}[a-z0-9]$] of [contracts/tenant.ts]. *)

Definition is_slug_edge (c : N) : bool :=
  ((97 <=? c) && (c <=? 122) || (48 <=? c) && (c <=? 57))%N.

Definition is_slug_char (c : N) : bool := is_slug_edge c || (c =? 45)%N.

Definition tenantPublicIdSchema (s : jsstr) : bool :=
  (3 <=? length s) && (length s <=? 40) && forallb is_slug_char s
  && match head s with Some c => is_slug_edge c | None => false end
  && match last s with Some c => is_slug_edge c | None => false end.

Definition INVITE_TOKEN_PREFIX : jsstr := js "lginv_".

Definition parseInviteTenantSlug (token : jsstr) : option jsstr :=
  if negb (startsWith token INVITE_TOKEN_PREFIX) then None
  else
    let rest := drop (length INVITE_TOKEN_PREFIX) token in
    match indexOf rest (js "_") with
    | None => None
    | Some sepIdx =>
        if (sepIdx =? 0) || (sepIdx =? length rest - 1) then None
        else
          let candidate := take sepIdx rest in
          if tenantPublicIdSchema candidate then Some candidate else None
    end.

(** * Lemmas *)

Lemma splitN_loop_nonempty k s sep : splitN_loop k s sep <> [].
Proof. destruct k; simpl; [done|]. by destruct (indexOf s sep). Qed.

Lemma splitN_loop_join k s sep : join (splitN_loop k s sep) sep = s.
Proof.
  revert s; induction k as [|k IH]; intros s; simpl; [done|].
  destruct (indexOf s sep) as [i|] eqn:E; [|done].
  rewrite join_cons_ne by apply splitN_loop_nonempty.
  rewrite IH. symmetry. by apply indexOf_Some_app.
Qed.

Lemma splitN_loop_length k s sep : length (splitN_loop k s sep) <= S k.
Proof.
  revert s; induction k as [|k IH]; intros s; simpl; [lia|].
  destruct (indexOf s sep); simpl; [specialize (IH (drop (n + length sep) s))|]; lia.
Qed.

Lemma join_snoc_elem c ini (lst : jsstr) : ini <> [] -> c ∈ join (ini ++ [lst]) [c].
Proof.
  destruct ini as [|x ini]; [done|]. intros _. simpl.
  destruct (ini ++ [lst]) eqn:E; [by destruct ini|]. set_solver.
Qed.

(** The cuts of [splitN] at a one-unit separator, characterised: the parts join
    back to the string, all but the last are separator free, and so is the last
    unless the number of cuts was exhausted. *)
Lemma splitN_loop_spec k s c ini lst :
  splitN_loop k s [c] = ini ++ [lst] <->
  join (ini ++ [lst]) [c] = s /\ length ini <= k /\
  Forall (fun x => c ∉ x) ini /\ (length ini < k -> c ∉ lst).
Proof.
  revert s ini; induction k as [|k IH]; intros s ini; simpl.
  - split.
    + intros H. destruct ini as [|? [|]]; simplify_eq/=. split_and!; [done|lia|done|lia].
    + intros (Hj & Hl & _). destruct ini; simpl in *; [by subst|lia].
  - destruct (indexOf s [c]) as [i|] eqn:E.
    + pose proof (indexOf_Some_app _ _ _ E) as Hs. pose proof (indexOf_char_Some _ _ _ E) as Hi.
      simpl in Hs. split.
      * intros H. destruct ini as [|x ini]; injection H as Hx H.
        { by destruct (splitN_loop_nonempty k (drop (i + 1) s) [c]). }
        subst x. apply IH in H as (Hj & Hl & Hf & Hlast). split_and!;
          [|simpl; lia|by constructor|simpl; intros; apply Hlast; lia].
        rewrite <-app_comm_cons, join_cons_ne by (by destruct ini). rewrite Hj. by symmetry.
      * intros (Hj & Hl & Hf & Hlast). destruct ini as [|x ini]; cbn [length app] in *.
        { exfalso. apply Hlast; [lia|]. simpl in Hj. subst lst. rewrite Hs. set_solver. }
        rewrite join_cons_ne in Hj by (by destruct ini).
        apply Forall_cons in Hf as [Hx Hf]. subst s. simpl in *.
        rewrite indexOf_char_app in E by done. simplify_eq.
        rewrite take_app_length. f_equal.
        apply IH. split_and!; [|lia|done|intros; apply Hlast; lia].
        by rewrite drop_app, drop_ge, Nat.add_sub_swap, Nat.sub_diag by lia.
    + apply indexOf_char_None in E. split.
      * intros H. destruct ini as [|? [|]]; simplify_eq/=. split_and!; [done|lia|done|done].
      * intros (Hj & Hl & Hf & Hlast). destruct ini; simpl in *; [by subst|].
        exfalso. apply E. rewrite <-Hj. by apply (join_snoc_elem c (_ :: ini)).
Qed.

Lemma splitN_snoc (s : jsstr) c n ini lst :
  (0 < n)%Z ->
  splitN s [c] n = ini ++ [lst] <->
  join (ini ++ [lst]) [c] = s /\ (Z.of_nat (length ini) < n)%Z /\
  Forall (fun x => c ∉ x) ini /\ ((Z.of_nat (length ini) < n - 1)%Z -> c ∉ lst).
Proof.
  intros Hn. unfold splitN. destruct (n <=? 0)%Z eqn:E; [lia|].
  rewrite splitN_loop_spec.
  assert (length ini <= Z.to_nat (n - 1) <-> (Z.of_nat (length ini) < n)%Z) as -> by lia.
  assert (length ini < Z.to_nat (n - 1) <-> (Z.of_nat (length ini) < n - 1)%Z) as -> by lia.
  done.
Qed.

Lemma splitN_4 (s : jsstr) c p x y z :
  splitN s [c] 4 = [p; x; y; z] <->
  s = p ++ c :: x ++ c :: y ++ c :: z /\ c ∉ p /\ c ∉ x /\ c ∉ y.
Proof.
  rewrite (splitN_snoc s c 4 [p; x; y] z) by lia. simpl.
  rewrite !Forall_cons, Forall_nil. naive_solver lia.
Qed.

Lemma splitN_3 (s : jsstr) c p x z :
  splitN s [c] 3 = [p; x; z] <-> s = p ++ c :: x ++ c :: z /\ c ∉ p /\ c ∉ x.
Proof.
  rewrite (splitN_snoc s c 3 [p; x] z) by lia. simpl.
  rewrite !Forall_cons, Forall_nil. naive_solver lia.
Qed.

(** The underscore, as the code unit the credentials are cut at. *)
Definition us : N := 95%N.

Lemma prefixes_no_us : us ∉ KEY_PREFIX /\ us ∉ REFRESH_PREFIX /\ us ∉ INVITE_PREFIX.
Proof. apply (bool_decide_eq_true_1 _). by vm_compute. Qed.

Lemma parseRefreshToken_Ok raw p :
  parseRefreshToken raw = Ok p <->
  raw = assembleRefreshToken (pr_tenantId p) (pr_tokenId p) (pr_secret p) /\
  pr_tenantId p <> [] /\ pr_tokenId p <> [] /\ pr_secret p <> [] /\
  us ∉ pr_tenantId p /\ us ∉ pr_tokenId p.
Proof.
  unfold parseRefreshToken, assembleRefreshToken. destruct p as [t k s]; simpl. split.
  - intros H. destruct (splitN raw REFRESH_SEPARATOR 4) as [|p0 [|x [|y [|z [|]]]]] eqn:E; simplify_eq.
    apply splitN_4 in E as (-> & _ & Hx & Hy).
    destruct (bool_decide_reflect (p0 = REFRESH_PREFIX)) as [->|]; simpl in H; [|done].
    destruct x; [done|]. destruct y; [done|]. destruct z; simplify_eq/=. by split_and!.
  - intros (-> & Ht & Hk & Hs & Ht' & Hk').
    replace (splitN _ _ _) with [REFRESH_PREFIX; t; k; s];
      [by destruct t, k, s|].
    symmetry. apply splitN_4. split_and!; [done|apply prefixes_no_us|done|done].
Qed.

Lemma parseApiKey_Ok raw p :
  parseApiKey raw = Ok p <->
  raw = assemblePlaintext (pk_publicId p) (mkKeyMaterial (pk_keyId p) (pk_secret p)) /\
  pk_publicId p <> [] /\ pk_keyId p <> [] /\ pk_secret p <> [] /\
  us ∉ pk_publicId p /\ us ∉ pk_keyId p.
Proof.
  unfold parseApiKey, assemblePlaintext. destruct p as [t k s]; simpl. split.
  - intros H. destruct (splitN raw KEY_SEPARATOR 4) as [|p0 [|x [|y [|z [|]]]]] eqn:E; simplify_eq.
    apply splitN_4 in E as (-> & _ & Hx & Hy).
    destruct (bool_decide_reflect (p0 = KEY_PREFIX)) as [->|]; simpl in H; [|done].
    destruct x; [done|]. destruct y; [done|]. destruct z; simplify_eq/=. by split_and!.
  - intros (-> & Ht & Hk & Hs & Ht' & Hk').
    replace (splitN _ _ _) with [KEY_PREFIX; t; k; s];
      [by destruct t, k, s|].
    symmetry. apply splitN_4. split_and!; [done|apply prefixes_no_us|done|done].
Qed.

Lemma parseInviteToken_Ok raw p :
  parseInviteToken raw = Ok p <->
  raw = assembleInviteToken (pi_publicId p) (pi_secret p) /\
  pi_publicId p <> [] /\ pi_secret p <> [] /\ us ∉ pi_publicId p.
Proof.
  unfold parseInviteToken, assembleInviteToken. destruct p as [t s]; simpl. split.
  - intros H. destruct (splitN raw INVITE_SEPARATOR 3) as [|p0 [|x [|z [|]]]] eqn:E; simplify_eq.
    apply splitN_3 in E as (-> & _ & Hx).
    destruct (bool_decide_reflect (p0 = INVITE_PREFIX)) as [->|]; simpl in H; [|done].
    destruct x; [done|]. destruct z; simplify_eq/=. by split_and!.
  - intros (-> & Ht & Hs & Ht').
    replace (splitN _ _ _) with [INVITE_PREFIX; t; s]; [by destruct t, s|].
    symmetry. apply splitN_3. split_and!; [done|apply prefixes_no_us|done].
Qed.

Lemma slug_no_us s : tenantPublicIdSchema s = true -> us ∉ s /\ s <> [].
Proof.
  unfold tenantPublicIdSchema. rewrite !andb_true_iff. intros [[[[Hl _] Hf] _] _].
  split; [|by intros ->]. intros Hin. rewrite forallb_forall in Hf.
  apply list_elem_of_In in Hin. by apply Hf in Hin.
Qed.

Lemma hex_no_us s : forallb is_lower_hex s = true -> us ∉ s.
Proof.
  intros Hf Hin. rewrite forallb_forall in Hf. apply list_elem_of_In in Hin. by apply Hf in Hin.
Qed.

Lemma toHex_lower bs : Forall (fun b => (b < 256)%N) bs -> forallb is_lower_hex (toHex bs) = true.
Proof.
  assert (Hd : forall n, (n < 16)%N -> is_lower_hex (hex_digit n) = true).
  { intros n Hn. unfold hex_digit, is_lower_hex.
    rewrite orb_true_iff, !andb_true_iff, !N.leb_le. destruct (N.ltb_spec n 10); lia. }
  induction 1 as [|b bs Hb Hbs IH]; [done|]. unfold toHex in *; simpl in *.
  rewrite IH, !Hd; [done| |].
  - apply N.mod_lt. done.
  - apply N.Div0.div_lt_upper_bound. lia.
Qed.

Lemma constantTimeEqual_spec a b : constantTimeEqual a b = true <-> a = b.
Proof.
  unfold constantTimeEqual. rewrite andb_true_iff, Nat.eqb_eq, bool_decide_eq_true.
  naive_solver.
Qed.

Lemma toHex_length bs : length (toHex bs) = 2 * length bs.
Proof. unfold toHex. induction bs as [|b bs IH]; simpl; [done|]. rewrite IH. lia. Qed.

(** A digest that has the documented shape of SHA-256 (32 bytes), for the
    concrete instances. *)
Definition pad_digest (s : jsstr) : list N :=
  take 32 (map (fun c => c mod 256)%N s ++ replicate 32 0%N).

Definition demo_crypto : Crypto := {| sha256_digest := pad_digest |}.

Lemma demo_crypto_laws : @CryptoLaws demo_crypto.
Proof.
  split; intros s; unfold sha256_digest, demo_crypto, pad_digest.
  - rewrite length_take, length_app, length_map, length_replicate. lia.
  - apply Forall_take, Forall_app; split.
    + apply Forall_map, Forall_true. intros x. by apply N.mod_lt.
    + apply Forall_replicate. lia.
Qed.

(** * Theorems *)

(** [splitN] with a one-character separator is Go's [strings.SplitN]: for a
    positive count its result is the one list of parts that joins back to the
    input, has at most [n] parts, all of them separator free except that the
    last keeps the remaining separators once [n] parts are reached. *)
Theorem splitN_cuts (s : jsstr) c n xs (Hn : (0 < n)%Z) :
  splitN s [c] n = xs <->
  exists ini lst, xs = ini ++ [lst] /\ join xs [c] = s /\
    (Z.of_nat (length xs) <= n)%Z /\ Forall (fun x => c ∉ x) ini /\
    ((Z.of_nat (length xs) < n)%Z -> c ∉ lst).
Proof.
  split.
  - intros E. destruct xs as [|lst ini _] using rev_ind.
    + unfold splitN in E. destruct (n <=? 0)%Z eqn:En; [lia|]. by apply splitN_loop_nonempty in E.
    + exists ini, lst. apply splitN_snoc in E as (Hj & Hl & Hf & Hlast); [|done].
      rewrite length_app; simpl. split_and!; try done; [lia|intros; apply Hlast; lia].
  - intros (ini & lst & -> & Hj & Hl & Hf & Hlast). rewrite length_app in *; simpl in *.
    apply splitN_snoc; [done|]. split_and!; try done; [lia|intros; apply Hlast; lia].
Qed.

Lemma splitN_cuts_witness :
  (0 < 3)%Z /\
  exists ini lst, splitN (js "a_b_c_d") [us] 3 = ini ++ [lst] /\
    join (splitN (js "a_b_c_d") [us] 3) [us] = js "a_b_c_d" /\
    (Z.of_nat (length (splitN (js "a_b_c_d") [us] 3)) <= 3)%Z /\
    Forall (fun x => us ∉ x) ini /\
    ((Z.of_nat (length (splitN (js "a_b_c_d") [us] 3)) < 3)%Z -> us ∉ lst).
Proof. split; [lia|]. by apply (splitN_cuts (js "a_b_c_d") us 3 _ ltac:(lia)). Defined.

(** The three credential parsers accept exactly the strings their assembler
    produces from non-empty components whose leading components hold no
    separator, and return those components: no accepted string loses or invents
    a character. *)
Theorem parsers_exact raw pk pr pi :
  (parseApiKey raw = Ok pk <->
   raw = assemblePlaintext (pk_publicId pk) (mkKeyMaterial (pk_keyId pk) (pk_secret pk)) /\
   pk_publicId pk <> [] /\ pk_keyId pk <> [] /\ pk_secret pk <> [] /\
   us ∉ pk_publicId pk /\ us ∉ pk_keyId pk) /\
  (parseRefreshToken raw = Ok pr <->
   raw = assembleRefreshToken (pr_tenantId pr) (pr_tokenId pr) (pr_secret pr) /\
   pr_tenantId pr <> [] /\ pr_tokenId pr <> [] /\ pr_secret pr <> [] /\
   us ∉ pr_tenantId pr /\ us ∉ pr_tokenId pr) /\
  (parseInviteToken raw = Ok pi <->
   raw = assembleInviteToken (pi_publicId pi) (pi_secret pi) /\
   pi_publicId pi <> [] /\ pi_secret pi <> [] /\ us ∉ pi_publicId pi).
Proof. split_and!; [apply parseApiKey_Ok|apply parseRefreshToken_Ok|apply parseInviteToken_Ok]. Qed.

(** A key minted for a valid tenant slug parses back to the slug, key id and
    secret it was minted from, and the stored hash verifies the presented
    secret. *)
Theorem mintApiKey_parses `{Crypto} publicId material
    (Hslug : tenantPublicIdSchema publicId = true)
    (Hid : forallb is_lower_hex (km_keyId material) = true /\ km_keyId material <> [])
    (Hsec : km_secret material <> []) :
  exists p, parseApiKey (mk_plaintext (mintApiKey publicId material)) = Ok p /\
    pk_publicId p = publicId /\ pk_keyId p = km_keyId material /\
    constantTimeEqual (hashSecret (pk_secret p)) (mk_keyHash (mintApiKey publicId material)) = true.
Proof.
  exists (mkParsedApiKey publicId (km_keyId material) (km_secret material)); simpl.
  destruct Hid as [Hid Hid']. apply slug_no_us in Hslug as [Hslug Hne].
  split_and!; [|done|done|by apply constantTimeEqual_spec].
  apply parseApiKey_Ok; simpl. destruct material; simpl in *.
  split_and!; try done. by apply hex_no_us.
Qed.

Lemma mintApiKey_parses_witness :
  exists p, parseApiKey (mk_plaintext (@mintApiKey demo_crypto (js "acme-co")
              (mkKeyMaterial (js "00ff") (js "s_e_c")))) = Ok p /\
    pk_publicId p = js "acme-co" /\ pk_keyId p = js "00ff" /\
    constantTimeEqual (@hashSecret demo_crypto (pk_secret p))
      (mk_keyHash (@mintApiKey demo_crypto (js "acme-co") (mkKeyMaterial (js "00ff") (js "s_e_c")))) = true.
Proof.
  apply (@mintApiKey_parses demo_crypto (js "acme-co") (mkKeyMaterial (js "00ff") (js "s_e_c")));
    [by vm_compute|split; [by vm_compute|done]|done].
Defined.

(** The slug the browser extracts from an invite token is the slug the server
    parses out of it, and it is extracted exactly when the server accepts the
    token and the slug is well formed. *)
Theorem parseInviteTenantSlug_agrees token slug :
  parseInviteTenantSlug token = Some slug <->
  tenantPublicIdSchema slug = true /\
  exists p, parseInviteToken token = Ok p /\ pi_publicId p = slug.
Proof.
  unfold parseInviteTenantSlug. split.
  - destruct (startsWith token INVITE_TOKEN_PREFIX) eqn:Es; cbn [negb]; [|done].
    apply startsWith_spec in Es as [rest ->].
    cbv zeta. rewrite drop_app_length. destruct (indexOf rest (js "_")) as [i|] eqn:Ei; [|done].
    destruct (i =? 0) eqn:E0; [done|]. destruct (i =? length rest - 1) eqn:E1; [done|].
    simpl. destruct (tenantPublicIdSchema (take i rest)) eqn:Et; intros; simplify_eq.
    split; [done|]. exists (mkParsedInviteToken (take i rest) (drop (S i) rest)). split; [|done].
    pose proof (indexOf_Some_app _ _ _ Ei) as Hr. simpl in Hr. rewrite Nat.add_1_r in Hr.
    apply slug_no_us in Et as [Hus Hne]. apply parseInviteToken_Ok; simpl.
    split_and!; [|done| |done].
    + unfold assembleInviteToken, INVITE_TOKEN_PREFIX. simpl. by rewrite Hr at 1.
    + intros Hd. apply (f_equal length) in Hd. apply (f_equal length) in Hr.
      rewrite length_app in Hr. simpl in Hr. rewrite Hd in Hr. rewrite length_take in Hr.
      simpl in Hr. apply Nat.eqb_neq in E1. lia.
  - intros (Hslug & [pid sec] & Hp & <-).
    apply parseInviteToken_Ok in Hp as (-> & Hne & Hs & Hus). cbn [pi_publicId pi_secret] in *.
    change (assembleInviteToken pid sec) with (INVITE_TOKEN_PREFIX ++ pid ++ [us] ++ sec).
    rewrite (proj2 (startsWith_spec _ INVITE_TOKEN_PREFIX)) by eauto. cbn [negb].
    cbv beta iota zeta. rewrite drop_app_length.
    change (js "_") with [us]. simpl ([us] ++ sec). rewrite indexOf_char_app by done.
    rewrite take_app_length, Hslug, length_app. simpl.
    assert (length pid <> 0 /\ length sec <> 0) as [] by (destruct pid, sec; done).
    rewrite !(proj2 (Nat.eqb_neq _ _)) by lia. done.
Qed.
