(* ===== verification/Text.v ===== *)
(** * Text encodings of the platform

    What the source uses of the JavaScript platform's text functions: UTF-8 of a
    string, [buf.toString('base64url')], [URLSearchParams.toString()],
    [date.toISOString()] and the decimal numerals of template strings. *)

From stdpp Require Import base list option numbers strings.
From S2P Require Import Prelude Tokens.

(** ** UTF-8 *)

Definition is_high (c : N) : bool := ((0xD800 <=? c) && (c <=? 0xDBFF))%N.
Definition is_low (c : N) : bool := ((0xDC00 <=? c) && (c <=? 0xDFFF))%N.

(** The code points of a string of UTF-16 units; a lone surrogate is U+FFFD. *)
Fixpoint code_points (s : jsstr) : list N :=
  match s with
  | [] => []
  | c :: s' =>
      if is_high c then
        match s' with
        | d :: s'' =>
            if is_low d then (0x10000 + (c - 0xD800) * 0x400 + (d - 0xDC00))%N :: code_points s''
            else 0xFFFD%N :: code_points s'
        | [] => [0xFFFD%N]
        end
      else if is_low c then 0xFFFD%N :: code_points s'
      else c :: code_points s'
  end.

Definition utf8_bytes (cp : N) : list N :=
  if (cp <? 0x80)%N then [cp]
  else if (cp <? 0x800)%N then [0xC0 + cp / 0x40; 0x80 + cp mod 0x40]%N
  else if (cp <? 0x10000)%N then [0xE0 + cp / 0x1000; 0x80 + (cp / 0x40) mod 0x40; 0x80 + cp mod 0x40]%N
  else [0xF0 + cp / 0x40000; 0x80 + (cp / 0x1000) mod 0x40; 0x80 + (cp / 0x40) mod 0x40;
        0x80 + cp mod 0x40]%N.

Definition utf8 (s : jsstr) : list N := concat (map utf8_bytes (code_points s)).

(** ** base64url *)

Definition base64url_char (n : N) : N :=
  if (n <? 26)%N then (65 + n)%N
  else if (n <? 52)%N then (97 + (n - 26))%N
  else if (n <? 62)%N then (48 + (n - 52))%N
  else if (n =? 62)%N then 45%N else 95%N.

(** Three bytes make four characters; there is no padding. *)
Fixpoint base64url (bs : list N) : jsstr :=
  match bs with
  | a :: b :: c :: bs' =>
      base64url_char (a / 4) :: base64url_char ((a mod 4) * 16 + b / 16)
      :: base64url_char ((b mod 16) * 4 + c / 64) :: base64url_char (c mod 64) :: base64url bs'
  | [a; b] => [base64url_char (a / 4); base64url_char ((a mod 4) * 16 + b / 16);
               base64url_char ((b mod 16) * 4)]
  | [a] => [base64url_char (a / 4); base64url_char ((a mod 4) * 16)]
  | [] => []
  end%N.

(** The bytes of a hexadecimal string. *)
Definition hex_value (c : N) : N :=
  if (c <=? 57)%N then (c - 48)%N else if (c <=? 70)%N then (c - 55)%N else (c - 87)%N.

Fixpoint fromHex (s : jsstr) : list N :=
  match s with
  | a :: b :: s' => (hex_value a * 16 + hex_value b)%N :: fromHex s'
  | _ => []
  end.

(** ** application/x-www-form-urlencoded *)

Definition is_alnum (c : N) : bool :=
  ((48 <=? c) && (c <=? 57) || (65 <=? c) && (c <=? 90) || (97 <=? c) && (c <=? 122))%N.

(** The bytes left as they are: letters, digits and [*-._]. *)
Definition form_safe (c : N) : bool :=
  is_alnum c || bool_decide (c ∈ [42; 45; 46; 95]%N).

Definition upper_hex_digit (n : N) : N := if (n <? 10)%N then (48 + n)%N else (55 + n)%N.

Definition form_byte (b : N) : jsstr :=
  if form_safe b then [b]
  else if (b =? 32)%N then [43%N]
  else [37; upper_hex_digit (b / 16); upper_hex_digit (b mod 16)]%N.

Definition form_encode (s : jsstr) : jsstr := concat (map form_byte (utf8 s)).

(** [new URLSearchParams(pairs).toString()]. *)
Definition urlSearchParams (pairs : list (jsstr * jsstr)) : jsstr :=
  join (map (fun '(k, v) => form_encode k ++ js "=" ++ form_encode v) pairs) (js "&").

(** ** Dates *)

(** [len] decimal digits of [n], most significant first. *)
Fixpoint digitsN (len : nat) (n : N) : jsstr :=
  match len with
  | 0 => []
  | S len' => digitsN len' (n / 10)%N ++ [(48 + n mod 10)%N]
  end.

(** Year, month and day of a day number counted from 1970-01-01, in the proleptic
    Gregorian calendar. *)
Definition civil_of_days (days : Z) : Z * Z * Z :=
  let z := (days + 719468)%Z in
  let era := (z / 146097)%Z in
  let doe := (z - era * 146097)%Z in
  let yoe := ((doe - doe / 1460 + doe / 36524 - doe / 146096) / 365)%Z in
  let doy := (doe - (365 * yoe + yoe / 4 - yoe / 100))%Z in
  let mp := ((5 * doy + 2) / 153)%Z in
  let d := (doy - (153 * mp + 2) / 5 + 1)%Z in
  let m := (if mp <? 10 then mp + 3 else mp - 9)%Z in
  ((yoe + era * 400 + (if m <=? 2 then 1 else 0))%Z, m, d).

Definition year_digits (y : Z) : jsstr :=
  if ((0 <=? y) && (y <=? 9999))%Z then digitsN 4 (Z.to_N y)
  else (if (y <? 0)%Z then js "-" else js "+") ++ digitsN 6 (Z.to_N (Z.abs y)).

(** [date.toISOString()] of a time in milliseconds. *)
Definition toISOString (ms : Z) : jsstr :=
  let '(y, m, d) := civil_of_days (ms / 86400000) in
  let t := (ms mod 86400000)%Z in
  let two n := digitsN 2 (Z.to_N n) in
  year_digits y ++ js "-" ++ two m ++ js "-" ++ two d ++ js "T"
  ++ two (t / 3600000)%Z ++ js ":" ++ two (t / 60000 mod 60)%Z ++ js ":" ++ two (t / 1000 mod 60)%Z
  ++ js "." ++ digitsN 3 (Z.to_N (t mod 1000)) ++ js "Z".

(** * Lemmas *)

Definition is_base64url (c : N) : bool := is_alnum c || bool_decide (c ∈ [45; 95]%N).

Lemma base64url_char_safe n : (n < 64)%N -> is_base64url (base64url_char n) = true.
Proof.
  intros Hn. unfold is_base64url, base64url_char, is_alnum.
  repeat match goal with |- context [(?a <? ?b)%N] => destruct (N.ltb_spec a b) end;
    try (apply orb_true_iff; left; rewrite !orb_true_iff, !andb_true_iff, !N.leb_le; lia).
  destruct (N.eqb_spec n 62); done.
Qed.

(** Three-step induction. *)
Lemma list_ind3 {A} (P : list A -> Prop) :
  P [] -> (forall a, P [a]) -> (forall a b, P [a; b]) -> (forall a b c l, P l -> P (a :: b :: c :: l)) ->
  forall l, P l.
Proof.
  intros H0 H1 H2 H3. fix IH 1. intros [|a [|b [|c l]]]; [done|done|done|]. apply H3, IH.
Qed.

Lemma base64url_length bs : length (base64url bs) = (4 * length bs + 2) / 3.
Proof.
  induction bs as [|a|a b|a b c l IH] using list_ind3; try done. cbn [base64url length].
  rewrite IH. replace (4 * S (S (S (length l))) + 2) with (4 * length l + 2 + 4 * 3) by lia.
  rewrite Nat.div_add by lia. lia.
Qed.

Lemma base64url_safe bs :
  Forall (fun b => (b < 256)%N) bs -> forallb is_base64url (base64url bs) = true.
Proof.
  induction bs as [|a|a b|a b c l IH] using list_ind3; intros HF; decompose_Forall_hyps; try done;
    cbn [base64url forallb]; rewrite ?IH by done; rewrite !base64url_char_safe; try done;
    repeat match goal with
           | |- (?x / ?k < _)%N => apply N.Div0.div_lt_upper_bound; lia
           | |- (?x mod ?k < _)%N => apply N.mod_lt; lia
           end.
  all: try (pose proof (N.mod_lt a 4); lia).
  all: try (pose proof (N.mod_lt b 16); lia).
  all: try (pose proof (N.mod_lt a 4); assert (b / 16 < 16)%N by (apply N.Div0.div_lt_upper_bound; lia); lia).
  all: pose proof (N.mod_lt b 16); assert (c / 64 < 4)%N by (apply N.Div0.div_lt_upper_bound; lia); lia.
Qed.

(** URL-safe text is its own encoding. *)
Lemma form_encode_base64url s : forallb is_base64url s = true -> form_encode s = s.
Proof.
  unfold form_encode, utf8. induction s as [|c s IH]; [done|]. cbn [forallb].
  rewrite andb_true_iff. intros [Hc Hs].
  assert (Hlt : (c < 128)%N).
  { unfold is_base64url, is_alnum in Hc. rewrite !orb_true_iff, !andb_true_iff, !N.leb_le, bool_decide_eq_true in Hc.
    rewrite !elem_of_cons, elem_of_nil in Hc. lia. }
  assert (Hcp : code_points (c :: s) = c :: code_points s).
  { cbn [code_points]. unfold is_high, is_low.
    rewrite (proj2 (N.leb_gt 0xD800 c)), (proj2 (N.leb_gt 0xDC00 c)) by lia. done. }
  rewrite Hcp. cbn [map concat]. unfold utf8_bytes at 1. rewrite (proj2 (N.ltb_lt c 0x80)) by lia.
  cbn [app map concat]. rewrite IH by done. unfold form_byte.
  assert (form_safe c = true) as ->; [|done]. unfold form_safe.
  apply orb_true_iff in Hc as [->|E]; [done|]. apply orb_true_iff. right.
  rewrite bool_decide_eq_true, !elem_of_cons in E. rewrite bool_decide_eq_true, !elem_of_cons. naive_solver.
Qed.

Lemma hex_value_bound c : is_lower_hex c = true -> (hex_value c < 16)%N.
Proof.
  unfold is_lower_hex, hex_value. rewrite orb_true_iff, !andb_true_iff, !N.leb_le.
  intros Hc. destruct (N.leb_spec c 57), (N.leb_spec c 70); lia.
Qed.

(** Two-step induction. *)
Lemma list_ind2 {A} (P : list A -> Prop) :
  P [] -> (forall a, P [a]) -> (forall a b l, P l -> P (a :: b :: l)) -> forall l, P l.
Proof. intros H0 H1 H2. fix IH 1. intros [|a [|b l]]; [done|done|]. apply H2, IH. Qed.

Lemma fromHex_bytes s : forallb is_lower_hex s = true -> Forall (fun b => (b < 256)%N) (fromHex s).
Proof.
  induction s as [|a|a b l IH] using list_ind2; try done. cbn [forallb fromHex].
  rewrite !andb_true_iff. intros (Ha & Hb & Hl). apply hex_value_bound in Ha, Hb.
  constructor; [lia|auto].
Qed.

Lemma fromHex_length s : length (fromHex s) = length s / 2.
Proof.
  induction s as [|a|a b l IH] using list_ind2; try done. cbn [fromHex length]. rewrite IH.
  replace (S (S (length l))) with (length l + 1 * 2) by lia. rewrite Nat.div_add by lia. lia.
Qed.

Lemma hex_value_digit n : (n < 16)%N -> hex_value (hex_digit n) = n.
Proof.
  intros Hn. unfold hex_value, hex_digit. destruct (N.ltb_spec n 10).
  - rewrite (proj2 (N.leb_le _ _)) by lia. lia.
  - rewrite (proj2 (N.leb_gt _ _)) by lia. rewrite (proj2 (N.leb_gt _ _)) by lia. lia.
Qed.

(** [randomBytes] and its hexadecimal form determine each other. *)
Lemma fromHex_toHex bs : Forall (fun b => (b < 256)%N) bs -> fromHex (toHex bs) = bs.
Proof.
  induction 1 as [|b bs Hb Hbs IH]; [done|]. unfold toHex in *. cbn [map concat app fromHex].
  rewrite IH, !hex_value_digit.
  - f_equal. rewrite (N.div_mod b 16) at 3 by done. lia.
  - by apply N.mod_lt.
  - apply N.Div0.div_lt_upper_bound. lia.
Qed.
