(* ===== verification/Rbac.v ===== *)
(** * Roles and authorization

    The role vocabulary ([domain/roles.ts]), the authorization matrix
    ([domain/rbac.ts]) and its assertion in the application core
    ([app/authorize.ts]), the tenant context built at the edge
    ([domain/tenant-context.ts]), and the display-only mirror of the matrix the
    browser uses ([contracts/rbac.ts], [contracts/roles.ts]). *)

From stdpp Require Import base list option numbers strings.
From S2P Require Import Prelude Errors.

(** ** Roles *)

Inductive Role := tenant_admin | member | platform_operator.

#[export] Instance Role_eq_dec : EqDecision Role.
Proof. solve_decision. Defined.

Inductive MembershipRole := m_tenant_admin | m_member.

#[export] Instance MembershipRole_eq_dec : EqDecision MembershipRole.
Proof. solve_decision. Defined.

Definition ROLES : list Role := [tenant_admin; member; platform_operator].
Definition MEMBERSHIP_ROLES : list MembershipRole := [m_tenant_admin; m_member].

(** The string a role is, on the wire and in the database. *)
Definition role_str (r : Role) : jsstr :=
  match r with
  | tenant_admin => js "tenant_admin"
  | member => js "member"
  | platform_operator => js "platform_operator"
  end.

Definition membership_str (r : MembershipRole) : jsstr :=
  match r with
  | m_tenant_admin => js "tenant_admin"
  | m_member => js "member"
  end.

(** [isRole(value) ? value : null]: the narrowing of a string to a role. *)
Definition isRole (value : jsstr) : option Role :=
  find (fun r => bool_decide (role_str r = value)) ROLES.

(** ** Operations *)

Inductive Operation :=
| tenant_create
| tenant_read
| tenant_update
| tenant_delete
| tenant_list
| tenant_provision_admin
| user_create
| user_read
| user_list
| user_update
| user_delete
| apikey_create
| apikey_list
| apikey_revoke
| retention_read
| retention_update
| alert_create
| alert_read
| alert_list
| alert_update
| alert_delete
| savedquery_create
| savedquery_read
| savedquery_list
| savedquery_update
| savedquery_delete
| dashboard_create
| dashboard_read
| dashboard_list
| dashboard_update
| dashboard_delete
| invite_create
| invite_list
| invite_revoke.

#[export] Instance Operation_eq_dec : EqDecision Operation.
Proof. solve_decision. Defined.

Definition OPERATIONS : list Operation :=
  [tenant_create; tenant_read; tenant_update; tenant_delete; tenant_list;
   tenant_provision_admin; user_create; user_read; user_list; user_update; user_delete;
   apikey_create; apikey_list; apikey_revoke; retention_read; retention_update;
   alert_create; alert_read; alert_list; alert_update; alert_delete; savedquery_create;
   savedquery_read; savedquery_list; savedquery_update; savedquery_delete;
   dashboard_create; dashboard_read; dashboard_list; dashboard_update; dashboard_delete;
   invite_create; invite_list; invite_revoke].

Definition op_name (o : Operation) : jsstr :=
  match o with
  | tenant_create => js "tenant:create"
  | tenant_read => js "tenant:read"
  | tenant_update => js "tenant:update"
  | tenant_delete => js "tenant:delete"
  | tenant_list => js "tenant:list"
  | tenant_provision_admin => js "tenant:provision_admin"
  | user_create => js "user:create"
  | user_read => js "user:read"
  | user_list => js "user:list"
  | user_update => js "user:update"
  | user_delete => js "user:delete"
  | apikey_create => js "apikey:create"
  | apikey_list => js "apikey:list"
  | apikey_revoke => js "apikey:revoke"
  | retention_read => js "retention:read"
  | retention_update => js "retention:update"
  | alert_create => js "alert:create"
  | alert_read => js "alert:read"
  | alert_list => js "alert:list"
  | alert_update => js "alert:update"
  | alert_delete => js "alert:delete"
  | savedquery_create => js "savedquery:create"
  | savedquery_read => js "savedquery:read"
  | savedquery_list => js "savedquery:list"
  | savedquery_update => js "savedquery:update"
  | savedquery_delete => js "savedquery:delete"
  | dashboard_create => js "dashboard:create"
  | dashboard_read => js "dashboard:read"
  | dashboard_list => js "dashboard:list"
  | dashboard_update => js "dashboard:update"
  | dashboard_delete => js "dashboard:delete"
  | invite_create => js "invite:create"
  | invite_list => js "invite:list"
  | invite_revoke => js "invite:revoke"
  end.

(** ** The matrix *)

Definition MATRIX (r : Role) : list Operation :=
  match r with
  | platform_operator =>
    [tenant_create; tenant_read; tenant_update; tenant_delete; tenant_list;
     tenant_provision_admin]
  | tenant_admin =>
    [tenant_read; user_create; user_read; user_list; user_update; user_delete;
     apikey_create; apikey_list; apikey_revoke; retention_read; retention_update;
     alert_create; alert_read; alert_list; alert_update; alert_delete;
     savedquery_create; savedquery_read; savedquery_list; savedquery_update;
     savedquery_delete; dashboard_create; dashboard_read; dashboard_list;
     dashboard_update; dashboard_delete; invite_create; invite_list; invite_revoke]
  | member =>
    [tenant_read; retention_read; alert_read; alert_list; savedquery_read;
     savedquery_list; dashboard_read; dashboard_list]
  end.

Definition can (role : Role) (operation : Operation) : bool :=
  bool_decide (operation ∈ MATRIX role).

(** ** The browser's mirror *)

Definition UI_OPERATIONS : list Operation :=
  [tenant_read; tenant_update; user_create; user_read; user_list; user_update;
   user_delete; apikey_create; apikey_list; apikey_revoke; retention_read;
   retention_update; alert_create; alert_read; alert_list; alert_update; alert_delete;
   invite_create; invite_list; invite_revoke; dashboard_create; dashboard_read;
   dashboard_list; dashboard_update; dashboard_delete].

Definition UI_MATRIX (r : Role) : list Operation :=
  match r with
  | platform_operator => [tenant_read; tenant_update]
  | tenant_admin =>
    [tenant_read; user_create; user_read; user_list; user_update; user_delete;
     apikey_create; apikey_list; apikey_revoke; retention_read; retention_update;
     alert_create; alert_read; alert_list; alert_update; alert_delete; invite_create;
     invite_list; invite_revoke; dashboard_create; dashboard_read; dashboard_list;
     dashboard_update; dashboard_delete]
  | member =>
    [tenant_read; retention_read; alert_read; alert_list; dashboard_read;
     dashboard_list]
  end.

Definition ui_can (role : Role) (operation : Operation) : bool :=
  bool_decide (operation ∈ UI_MATRIX role).

(** ** The tenant context and its assertion *)

Record TenantContext := mkTenantContext {
  ctx_tenantId : jsstr;
  ctx_principalId : jsstr;
  ctx_role : Role;
  ctx_scopes : option (list jsstr)
}.

Definition assertCan (ctx : TenantContext) (operation : Operation) : result exn unit :=
  if can (ctx_role ctx) operation then Ok tt
  else Err (ForbiddenError (js "role '" ++ role_str (ctx_role ctx) ++ js "' may not perform '"
                            ++ op_name operation ++ js "'")).

(** ** The parts of an operation name [<resource>:<verb>] *)

Definition op_resource (o : Operation) : jsstr :=
  match indexOf (op_name o) (js ":") with
  | Some i => take i (op_name o)
  | None => op_name o
  end.

Definition op_verb (o : Operation) : jsstr :=
  match indexOf (op_name o) (js ":") with
  | Some i => drop (S i) (op_name o)
  | None => []
  end.

Definition read_verb (o : Operation) : bool :=
  bool_decide (op_verb o ∈ [js "read"; js "list"]).

(** * Theorems *)

Lemma isRole_spec s r : isRole s = Some r <-> s = role_str r.
Proof.
  unfold isRole. split.
  - intros H. apply find_some in H as [_ H]. by apply bool_decide_eq_true in H.
  - intros ->. by destruct r; vm_compute.
Qed.

Lemma assertCan_Ok ctx o : assertCan ctx o = Ok tt <-> can (ctx_role ctx) o = true.
Proof. unfold assertCan. destruct (can _ _); split; by intros. Qed.

(** The browser's matrix is the server's matrix restricted to the operations
    the browser knows: for every role and operation it shows an action exactly
    when the server grants it. *)
Theorem ui_can_mirrors role o :
  ui_can role o = can role o && bool_decide (o ∈ UI_OPERATIONS).
Proof. by destruct role, o; vm_compute. Qed.

(** The shape of the matrix.  A platform operator is granted exactly the
    tenant-registry operations, so no tenant-owned resource; a tenant
    administrator is granted everything else plus reading its tenant; a member
    is granted a subset of the administrator's operations, all of them reads;
    and every operation is granted to someone. *)
Theorem matrix_separation o :
  (can platform_operator o = true <-> op_resource o = js "tenant") /\
  (can tenant_admin o = true <-> op_resource o <> js "tenant" \/ o = tenant_read) /\
  (can member o = true <->
     can tenant_admin o = true /\ read_verb o = true /\
     op_resource o <> js "user" /\ op_resource o <> js "apikey" /\ op_resource o <> js "invite").
Proof. apply (bool_decide_eq_true_1 _). by destruct o; vm_compute. Qed.
