(* ===== verification/Email.v ===== *)
(** * Email canonicalisation

    [normalizeEmail] of [domain/email.ts].  The Unicode tables behind
    [String.prototype.normalize('NFC')] and [toLowerCase] are a parameter; what
    is used of them is that on ASCII strings the first is the identity and the
    second the ASCII case folding. *)

From stdpp Require Import base list option numbers strings.
From S2P Require Import Prelude.

Class Unicode := {
  nfc : jsstr -> jsstr;
  toLowerCase : jsstr -> jsstr
}.

Class UnicodeLaws `{Unicode} : Prop := {
  nfc_ascii s : is_ascii s = true -> nfc s = s;
  toLowerCase_ascii s : is_ascii s = true -> toLowerCase s = ascii_lower <$> s
}.

Definition normalizeEmail `{Unicode} (raw : jsstr) : jsstr := toLowerCase (trim (nfc raw)).

(** ASCII-only tables, for the concrete instances. *)
Definition ascii_unicode : Unicode :=
  {| nfc := fun s => s; toLowerCase := fun s => ascii_lower <$> s |}.

(** The tables of the strings that show where canonicalisation is not
    idempotent: U+01F0 (j with caron) has no upper-case code point. *)
Fixpoint compose_j_caron (s : jsstr) : jsstr :=
  match s with
  | 106%N :: ((780%N :: s') as t) => 496%N :: compose_j_caron s'
  | c :: s' => c :: compose_j_caron s'
  | [] => []
  end.

Definition caron_unicode : Unicode :=
  {| nfc := compose_j_caron; toLowerCase := fun s => ascii_lower <$> s |}.

(** * Lemmas *)

Lemma is_ascii_Forall s : is_ascii s = true <-> Forall (fun c => (c < 128)%N) s.
Proof.
  unfold is_ascii. rewrite forallb_forall, Forall_forall.
  setoid_rewrite N.ltb_lt. setoid_rewrite list_elem_of_In. done.
Qed.

Lemma is_ascii_app s t : is_ascii (s ++ t) = is_ascii s && is_ascii t.
Proof. apply forallb_app. Qed.

Lemma is_ascii_trim s : is_ascii s = true -> is_ascii (trim s) = true.
Proof.
  intros H. destruct (trimStart_suffix s) as [p Hp]. destruct (trim_prefix s) as [q Hq].
  rewrite Hq in Hp. rewrite Hp, !is_ascii_app in H.
  by apply andb_true_iff in H as [_ [H _]%andb_true_iff].
Qed.

Lemma is_ascii_lower s : is_ascii s = true -> is_ascii (ascii_lower <$> s) = true.
Proof.
  rewrite !is_ascii_Forall. intros H. apply Forall_fmap. eapply Forall_impl; [exact H|].
  intros c Hc. cbn beta in Hc. change (ascii_lower c < 128)%N. unfold ascii_lower.
  destruct (N.leb_spec 65 c), (N.leb_spec c 90); cbn [andb]; lia.
Qed.

Lemma ascii_lower_space c : is_js_space (ascii_lower c) = is_js_space c.
Proof.
  unfold ascii_lower. destruct (N.leb_spec 65 c) as [H1|], (N.leb_spec c 90) as [H2|]; cbn [andb]; try done.
  assert (Hs : forall d, (65 <= d <= 122)%N -> is_js_space d = false).
  { intros d Hd. unfold is_js_space. apply orb_false_iff; split.
    - apply bool_decide_eq_false. rewrite !elem_of_cons, elem_of_nil. lia.
    - apply andb_false_iff. left. apply N.leb_gt. lia. }
  rewrite !Hs by lia. done.
Qed.

Lemma ascii_lower_idem c : ascii_lower (ascii_lower c) = ascii_lower c.
Proof.
  unfold ascii_lower. destruct (N.leb_spec 65 c), (N.leb_spec c 90); cbn [andb];
    destruct (N.leb_spec 65 c), (N.leb_spec c 90); cbn [andb]; try done; try lia;
    destruct (N.leb_spec 65 (c + 32)), (N.leb_spec (c + 32) 90); cbn [andb]; try done; lia.
Qed.

Lemma normalizeEmail_ascii `{UnicodeLaws} raw :
  is_ascii raw = true -> normalizeEmail raw = ascii_lower <$> trim raw.
Proof.
  intros Ha. unfold normalizeEmail. rewrite nfc_ascii by done.
  apply toLowerCase_ascii. by apply is_ascii_trim.
Qed.

Lemma normalizeEmail_is_ascii `{UnicodeLaws} raw :
  is_ascii raw = true -> is_ascii (normalizeEmail raw) = true.
Proof. intros Ha. rewrite normalizeEmail_ascii by done. by apply is_ascii_lower, is_ascii_trim. Qed.

Lemma ascii_unicode_laws : @UnicodeLaws ascii_unicode.
Proof. by split. Qed.

Lemma caron_unicode_laws : @UnicodeLaws caron_unicode.
Proof.
  split; [|done]. intros s Hs. apply is_ascii_Forall in Hs.
  cut (forall n s, length s <= n -> Forall (fun c => (c < 128)%N) s -> compose_j_caron s = s).
  { intros Hc. by apply (Hc (length s)). }
  clear s Hs. intros n. induction n as [|n IH]; intros [|c s] Hl Hs; simpl in *; try done; try lia.
  apply Forall_cons in Hs as [Hc Hs].
  assert (E : compose_j_caron s = s) by (apply IH; [lia|done]).
  destruct s as [|d s]; [by repeat case_match|].
  apply Forall_cons in Hs as [Hd Hs].
  repeat case_match; subst; try lia; by rewrite ?E.
Qed.

(** * Theorems *)

(** On ASCII addresses the canonical form is a fixed point, has no
    surrounding white space and no upper-case letter, and it identifies exactly
    the addresses that agree up to surrounding white space and letter case. *)
Theorem normalizeEmail_canonical `{UnicodeLaws} raw raw'
    (Ha : is_ascii raw = true) (Ha' : is_ascii raw' = true) :
  normalizeEmail (normalizeEmail raw) = normalizeEmail raw /\
  trim (normalizeEmail raw) = normalizeEmail raw /\
  Forall (fun c => ascii_lower c = c) (normalizeEmail raw) /\
  (normalizeEmail raw = normalizeEmail raw' <->
   (ascii_lower <$> trim raw) = (ascii_lower <$> trim raw')).
Proof.
  assert (Htrim : trim (normalizeEmail raw) = normalizeEmail raw).
  { rewrite normalizeEmail_ascii by done.
    by rewrite trim_fmap, trim_idem by apply ascii_lower_space. }
  assert (Hlow : Forall (fun c => ascii_lower c = c) (normalizeEmail raw)).
  { rewrite normalizeEmail_ascii by done. apply Forall_fmap, Forall_true.
    intros c. apply ascii_lower_idem. }
  split_and!; [|done|done|by rewrite !normalizeEmail_ascii].
  rewrite (normalizeEmail_ascii (normalizeEmail raw)) by by apply normalizeEmail_is_ascii.
  rewrite Htrim. rewrite <-(list_fmap_id (normalizeEmail raw)) at 2.
  apply Forall_fmap_ext_1. exact Hlow.
Qed.

Lemma normalizeEmail_canonical_witness :
  @normalizeEmail ascii_unicode (@normalizeEmail ascii_unicode (js " Ada@Example.COM ")) =
    @normalizeEmail ascii_unicode (js " Ada@Example.COM ") /\
  @normalizeEmail ascii_unicode (js " Ada@Example.COM ") = js "ada@example.com".
Proof.
  split; [|by vm_compute].
  apply (@normalizeEmail_canonical ascii_unicode ascii_unicode_laws
           (js " Ada@Example.COM ") (js "ada@example.com")); by vm_compute.
Defined.

(** Beyond ASCII the canonical form is not a fixed point: with the Unicode
    data of J followed by U+030C (which NFC leaves alone) and of j followed by
    U+030C (which NFC composes to U+01F0), normalising once and normalising
    twice give different keys for one address. *)
Theorem normalizeEmail_not_idempotent `{UnicodeLaws}
    (Hnfc : nfc ([74; 780]%N ++ js "@x.io") = [74; 780]%N ++ js "@x.io")
    (Hlow : toLowerCase ([74; 780]%N ++ js "@x.io") = [106; 780]%N ++ js "@x.io")
    (Hnfc' : nfc ([106; 780]%N ++ js "@x.io") = [496]%N ++ js "@x.io")
    (Hlow' : toLowerCase ([496]%N ++ js "@x.io") = [496]%N ++ js "@x.io") :
  normalizeEmail (normalizeEmail ([74; 780]%N ++ js "@x.io"))
    <> normalizeEmail ([74; 780]%N ++ js "@x.io").
Proof.
  assert (E : normalizeEmail ([74; 780]%N ++ js "@x.io") = [106; 780]%N ++ js "@x.io").
  { unfold normalizeEmail. rewrite Hnfc. exact Hlow. }
  rewrite E. unfold normalizeEmail. rewrite Hnfc'.
  change (trim ([496]%N ++ js "@x.io")) with ([496]%N ++ js "@x.io"). by rewrite Hlow'.
Qed.

Lemma normalizeEmail_not_idempotent_witness :
  @normalizeEmail caron_unicode (@normalizeEmail caron_unicode ([74; 780]%N ++ js "@x.io"))
    <> @normalizeEmail caron_unicode ([74; 780]%N ++ js "@x.io").
Proof.
  apply (@normalizeEmail_not_idempotent caron_unicode caron_unicode_laws); by vm_compute.
Defined.
