(* ===== verification/Entities.v ===== *)
(** * Entities

    The aggregates of [domain/entities.ts].  A [Date] is its time value in
    milliseconds; a JavaScript number that need not be an integer is a dyadic
    rational (every finite double is one); [Record<string, string>] is a finite
    map and [Record<string, unknown>] an object of JSON values. *)

From stdpp Require Import base list option numbers strings gmap.
From S2P Require Import Prelude Rbac.

Abbreviation date := Z (only parsing).

(** The number [jn_mant * 2 ^ jn_exp]. *)
Record jsnum := mkNum { jn_mant : Z; jn_exp : Z }.

#[export] Instance jsnum_eq_dec : EqDecision jsnum.
Proof. solve_decision. Defined.

Inductive json :=
| JNull
| JBool (b : bool)
| JNum (n : jsnum)
| JStr (s : jsstr)
| JArr (l : list json)
| JObj (l : list (jsstr * json)).

Abbreviation jsobject := (list (jsstr * json)).

(** ** Tenants and users *)

Inductive TenantStatus := t_active | t_suspended | t_deleted.

#[export] Instance TenantStatus_eq_dec : EqDecision TenantStatus.
Proof. solve_decision. Defined.

Record Tenant := mkTenant {
  tn_id : jsstr;
  tn_publicId : jsstr;
  tn_name : jsstr;
  tn_status : TenantStatus;
  tn_createdAt : date;
  tn_updatedAt : date
}.

Record User := mkUser {
  us_id : jsstr;
  us_tenantId : jsstr;
  us_email : jsstr;
  us_displayName : option jsstr;
  us_status : jsstr;
  us_isPlatformOperator : bool;
  us_role : option MembershipRole;
  us_createdAt : date;
  us_updatedAt : date
}.

(** ** API keys and retention *)

Record ApiKeyRecord := mkApiKeyRecord {
  ak_id : jsstr;
  ak_tenantId : jsstr;
  ak_name : jsstr;
  ak_scopes : list jsstr;
  ak_createdBy : option jsstr;
  ak_createdAt : date;
  ak_expiresAt : option date;
  ak_revokedAt : option date;
  ak_lastUsedAt : option date
}.

Record RetentionPolicy := mkRetentionPolicy {
  rp_tenantId : jsstr;
  rp_hotDays : Z;
  rp_coldDays : Z;
  rp_createdAt : date;
  rp_updatedAt : date
}.

(** ** Alert rules *)

Inductive AlertComparator := c_gt | c_gte | c_lt | c_lte | c_eq.
Inductive AlertState := a_ok | a_firing | a_no_data.

#[export] Instance AlertComparator_eq_dec : EqDecision AlertComparator.
Proof. solve_decision. Defined.

#[export] Instance AlertState_eq_dec : EqDecision AlertState.
Proof. solve_decision. Defined.

Record RuleQuery := mkRuleQuery {
  rq_text : option jsstr;
  rq_service : option jsstr;
  rq_level : option jsstr;
  rq_labels : option (gmap jsstr jsstr)
}.

#[export] Instance RuleQuery_eq_dec : EqDecision RuleQuery.
Proof. solve_decision. Defined.

(** The object [{}]; a field that is [undefined] is not serialised. *)
Definition empty_query : RuleQuery := mkRuleQuery None None None None.

Inductive NotifyChannel :=
| webhook (url : jsstr)
| email_channel (to : jsstr).

#[export] Instance NotifyChannel_eq_dec : EqDecision NotifyChannel.
Proof. solve_decision. Defined.

Record AlertRule := mkAlertRule {
  ar_id : jsstr;
  ar_tenantId : jsstr;
  ar_name : jsstr;
  ar_savedQueryId : option jsstr;
  ar_query : RuleQuery;
  ar_comparator : AlertComparator;
  ar_threshold : jsnum;
  ar_windowSeconds : Z;
  ar_severity : jsstr;
  ar_enabled : bool;
  ar_notifyChannels : list NotifyChannel;
  ar_state : AlertState;
  ar_lastEvaluatedAt : option date;
  ar_lastTriggeredAt : option date;
  ar_createdBy : option jsstr;
  ar_createdAt : date;
  ar_updatedAt : date
}.

(** ** Saved queries and dashboards *)

Record SavedQueryFilters := mkSavedQueryFilters {
  sf_service : option jsstr;
  sf_level : option jsstr;
  sf_labels : option (gmap jsstr jsstr)
}.

Record SavedQuery := mkSavedQuery {
  sq_id : jsstr;
  sq_tenantId : jsstr;
  sq_name : jsstr;
  sq_description : option jsstr;
  sq_queryText : jsstr;
  sq_filters : SavedQueryFilters;
  sq_timeRange : jsobject;
  sq_createdBy : option jsstr;
  sq_createdAt : date;
  sq_updatedAt : date
}.

Inductive PanelType := p_timeseries | p_stat | p_logs.

Record PanelGrid := mkPanelGrid { pg_x : Z; pg_y : Z; pg_w : Z; pg_h : Z }.

Record Panel := mkPanel {
  pn_id : jsstr;
  pn_type : PanelType;
  pn_title : jsstr;
  pn_savedQueryId : jsstr;
  pn_viz : jsobject;
  pn_grid : PanelGrid
}.

Record DashboardLayout := mkDashboardLayout { dl_panels : list Panel }.

Record Dashboard := mkDashboard {
  dh_id : jsstr;
  dh_tenantId : jsstr;
  dh_name : jsstr;
  dh_description : option jsstr;
  dh_layout : DashboardLayout;
  dh_createdBy : option jsstr;
  dh_createdAt : date;
  dh_updatedAt : date
}.

(** ** OAuth identities *)

Inductive OAuthProvider := google.

#[export] Instance OAuthProvider_eq_dec : EqDecision OAuthProvider.
Proof. solve_decision. Defined.

Record OAuthIdentity := mkOAuthIdentity {
  oi_id : jsstr;
  oi_tenantId : jsstr;
  oi_userId : jsstr;
  oi_provider : OAuthProvider;
  oi_providerSub : jsstr;
  oi_email : jsstr;
  oi_lastLoginAt : option date;
  oi_createdAt : date;
  oi_updatedAt : date
}.

(** ** Invites *)

Inductive InviteStatus := i_pending | i_consumed | i_revoked.

#[export] Instance InviteStatus_eq_dec : EqDecision InviteStatus.
Proof. solve_decision. Defined.

Definition INVITE_STATUSES : list InviteStatus := [i_pending; i_consumed; i_revoked].

Definition invite_status_str (s : InviteStatus) : jsstr :=
  match s with
  | i_pending => js "pending"
  | i_consumed => js "consumed"
  | i_revoked => js "revoked"
  end.

(** [isInviteStatus(value)], with the narrowed value. *)
Definition isInviteStatus (value : jsstr) : option InviteStatus :=
  find (fun s => bool_decide (invite_status_str s = value)) INVITE_STATUSES.

Record Invite := mkInvite {
  iv_id : jsstr;
  iv_tenantId : jsstr;
  iv_email : jsstr;
  iv_role : jsstr;
  iv_status : InviteStatus;
  iv_createdBy : option jsstr;
  iv_expiresAt : date;
  iv_consumedAt : option date;
  iv_createdAt : date;
  iv_updatedAt : date
}.

Record InviteRef := mkInviteRef {
  ir_id : jsstr;
  ir_tenantId : jsstr;
  ir_email : jsstr
}.

Record ConsumedInvite := mkConsumedInvite {
  ci_inviteId : jsstr;
  ci_role : jsstr;
  ci_email : jsstr;
  ci_consumedAt : date
}.

(** * Lemmas *)

Lemma isInviteStatus_spec s v : isInviteStatus v = Some s <-> v = invite_status_str s.
Proof.
  unfold isInviteStatus. split.
  - intros H. apply find_some in H as [_ H]. by apply bool_decide_eq_true in H.
  - intros ->. by destruct s; vm_compute.
Qed.
