(* ===== verification/Ports.v ===== *)
(** * Ports

    The driven ports of the application core ([app/ports.ts]): the commands and
    projections they exchange, and one record of operations per port.  A port
    whose methods return promises holds programs over a world [W]; the ones whose
    methods are synchronous but read or write shared state (clock, random
    generators, audit loggers) are one-step programs too.  An optional property
    [x?: T] is [option T]; an optional nullable one is [option (option T)], the
    outer [None] being [undefined]. *)

From stdpp Require Import base list option numbers strings gmap.
From S2P Require Import Prelude Errors Effects Tokens Rbac Entities.

(** ** Sessions *)

Record SessionClaims := mkSessionClaims {
  sc_tenantId : jsstr;
  sc_principalId : jsstr;
  sc_role : Role
}.

(** [tokenType] is the constant ['Bearer']. *)
Record SessionTokens := mkSessionTokens {
  st_accessToken : jsstr;
  st_refreshToken : jsstr;
  st_expiresIn : Z;
  st_tokenType : jsstr;
  st_role : Role;
  st_tenantId : jsstr;
  st_userId : jsstr
}.

Record IssuedAccess := mkIssuedAccess { ia_token : jsstr; ia_expiresInSeconds : Z }.

Record AuthRecord := mkAuthRecord {
  au_id : jsstr;
  au_passwordHash : jsstr;
  au_status : jsstr;
  au_role : option Role
}.

(** ** Tenants and users *)

Record NewTenant := mkNewTenant { nt_publicId : jsstr; nt_name : jsstr }.

Record TenantPatch := mkTenantPatch {
  tp_name : option jsstr;
  tp_status : option TenantStatus
}.

Record NewUser := mkNewUser {
  nu_email : jsstr;
  nu_passwordHash : jsstr;
  nu_displayName : option (option jsstr);
  nu_role : MembershipRole
}.

Record UserPatch := mkUserPatch {
  up_displayName : option (option jsstr);
  up_status : option jsstr;
  up_role : option MembershipRole;
  up_passwordHash : option jsstr
}.

(** ** API keys and retention *)

Record NewApiKey := mkNewApiKey {
  nk_keyId : jsstr;
  nk_name : jsstr;
  nk_keyHash : list N;
  nk_scopes : list jsstr;
  nk_createdBy : option jsstr;
  nk_expiresAt : option date
}.

Record RetentionInput := mkRetentionInput {
  ri_hotDays : Z;
  ri_coldDays : Z;
  ri_updatedBy : option jsstr
}.

(** ** Alert rules, saved queries, dashboards *)

Record NewAlertRule := mkNewAlertRule {
  na_name : jsstr;
  na_savedQueryId : option jsstr;
  na_query : RuleQuery;
  na_comparator : AlertComparator;
  na_threshold : jsnum;
  na_windowSeconds : Z;
  na_severity : jsstr;
  na_enabled : bool;
  na_notifyChannels : list NotifyChannel;
  na_createdBy : option jsstr
}.

Record AlertRulePatch := mkAlertRulePatch {
  ap_name : option jsstr;
  ap_savedQueryId : option (option jsstr);
  ap_query : option RuleQuery;
  ap_comparator : option AlertComparator;
  ap_threshold : option jsnum;
  ap_windowSeconds : option Z;
  ap_severity : option jsstr;
  ap_enabled : option bool;
  ap_notifyChannels : option (list NotifyChannel)
}.

Record NewSavedQuery := mkNewSavedQuery {
  nq_name : jsstr;
  nq_description : option (option jsstr);
  nq_queryText : jsstr;
  nq_filters : SavedQueryFilters;
  nq_timeRange : jsobject;
  nq_createdBy : option jsstr
}.

Record SavedQueryPatch := mkSavedQueryPatch {
  sp_name : option jsstr;
  sp_description : option (option jsstr);
  sp_queryText : option jsstr;
  sp_filters : option SavedQueryFilters;
  sp_timeRange : option jsobject
}.

Record NewDashboard := mkNewDashboard {
  nd_name : jsstr;
  nd_description : option (option jsstr);
  nd_layout : DashboardLayout;
  nd_createdBy : option jsstr
}.

Record DashboardPatch := mkDashboardPatch {
  dp_name : option jsstr;
  dp_description : option (option jsstr);
  dp_layout : option DashboardLayout
}.

(** ** OAuth *)

Record OAuthStateRecord := mkOAuthStateRecord {
  os_state : jsstr;
  os_tenantId : jsstr;
  os_meta : gmap jsstr jsstr;
  os_createdAt : jsstr
}.

Record GoogleIdTokenClaims := mkGoogleIdTokenClaims {
  gc_sub : jsstr;
  gc_email : jsstr;
  gc_email_verified : bool;
  gc_nonce : jsstr;
  (* unchecked casts of the payload's properties *)
  gc_iss : option json;
  gc_aud : option json;
  gc_iat : option json;
  gc_exp : option json;
  gc_name : option jsstr;
  gc_picture : option jsstr
}.

Record GoogleTokenExchangeResult := mkGoogleTokenExchangeResult {
  ge_idToken : jsstr;
  ge_accessToken : jsstr;
  ge_tokenType : jsstr;
  ge_expiresIn : jsnum;
  ge_scope : option json                       (* unchecked *)
}.

Record ExchangeParams := mkExchangeParams {
  ep_code : jsstr;
  ep_redirectUri : jsstr;
  ep_codeVerifier : jsstr
}.

Inductive OAuthAuditOutcome :=
| first_link
| login_outcome
| reject_invalid_state
| reject_exchange_failure
| reject_invalid_token
| reject_no_provisioned_user
| reject_account_inactive
| reject_identity_conflict
| invite_provisioned
| reject_no_valid_invite.

#[export] Instance OAuthAuditOutcome_eq_dec : EqDecision OAuthAuditOutcome.
Proof. solve_decision. Defined.

Record OAuthAuditEvent := mkOAuthAuditEvent {
  oe_tenantId : option jsstr;
  oe_userId : option jsstr;
  oe_provider : OAuthProvider;
  oe_hashedSub : option jsstr;
  oe_outcome : OAuthAuditOutcome;
  oe_ts : date
}.

Record OAuthIdentityRef := mkOAuthIdentityRef { or_id : jsstr; or_userId : jsstr }.

Record NewOAuthIdentity := mkNewOAuthIdentity {
  ni_userId : jsstr;
  ni_provider : OAuthProvider;
  ni_providerSub : jsstr;
  ni_email : jsstr
}.

(** ** Refresh tokens *)

Record NewRefreshToken := mkNewRefreshToken {
  nr_familyId : jsstr;
  nr_userId : jsstr;
  nr_tokenHash : list N;
  nr_expiresAt : date
}.

Record RefreshTokenRow := mkRefreshTokenRow {
  rr_id : jsstr;
  rr_userId : jsstr;
  rr_familyId : jsstr;
  rr_tokenHash : list N;
  rr_expiresAt : date;
  rr_rotatedAt : option date;
  rr_revokedAt : option date
}.

(** ** Invites *)

Record NewInvite := mkNewInvite {
  nv_role : jsstr;
  nv_email : jsstr;
  nv_secretHash : list N;
  nv_invitedBy : option jsstr;
  nv_expiresAt : date
}.

Record ConsumeInput := mkConsumeInput {
  cn_tokenHash : list N;
  cn_email : jsstr;
  cn_now : date
}.

Record EmailMessage := mkEmailMessage {
  em_to : jsstr;
  em_subject : jsstr;
  em_text : jsstr;
  em_html : option jsstr
}.

Inductive InviteAuditOutcome := invite_created | invite_revoked.

Record InviteAuditEvent := mkInviteAuditEvent {
  ie_tenantId : jsstr;
  ie_inviteId : jsstr;
  ie_actorId : jsstr;
  ie_outcome : InviteAuditOutcome;
  ie_email : jsstr;
  ie_role : jsstr;
  ie_ts : date
}.

Record InviteProvisionInput := mkInviteProvisionInput {
  vi_email : jsstr;
  vi_inviteTokenHash : list N;
  vi_providerSub : jsstr;
  vi_now : date
}.

(** ** The ports *)

Section Ports.
Context {W : Type}.

Record PasswordHasher := mkPasswordHasher {
  hasher_hash : jsstr -> prog W jsstr;
  hasher_verify : jsstr -> jsstr -> prog W bool
}.

Record TokenService := mkTokenService {
  tokens_issueAccess : SessionClaims -> prog W IssuedAccess;
  tokens_verifyAccess : jsstr -> prog W SessionClaims
}.

Record KeyMaterialGenerator := mkKeyMaterialGenerator { keymat_generate : prog W KeyMaterial }.
Record SecretGenerator := mkSecretGenerator { secrets_generate : prog W jsstr }.
Record IdGenerator := mkIdGenerator { ids_uuid : prog W jsstr }.
Record Clock := mkClock { clock_now : prog W date }.

Record TenantRepository := mkTenantRepository {
  tenants_create : NewTenant -> prog W Tenant;
  tenants_list : prog W (list Tenant);
  tenants_findById : jsstr -> prog W (option Tenant);
  tenants_findByPublicId : jsstr -> prog W (option Tenant);
  tenants_update : jsstr -> TenantPatch -> prog W (option Tenant);
  tenants_delete : jsstr -> prog W bool
}.

Record UserRepository := mkUserRepository {
  users_create : jsstr -> NewUser -> prog W User;
  users_list : jsstr -> prog W (list User);
  users_findById : jsstr -> jsstr -> prog W (option User);
  users_update : jsstr -> jsstr -> UserPatch -> prog W (option User);
  users_delete : jsstr -> jsstr -> prog W bool;
  users_findCredentialsByEmail : jsstr -> jsstr -> prog W (option AuthRecord);
  users_findCredentialsById : jsstr -> jsstr -> prog W (option AuthRecord)
}.

Record ApiKeyRepository := mkApiKeyRepository {
  apikeys_create : jsstr -> NewApiKey -> prog W ApiKeyRecord;
  apikeys_list : jsstr -> prog W (list ApiKeyRecord);
  apikeys_revoke : jsstr -> jsstr -> date -> prog W bool
}.

Record RetentionRepository := mkRetentionRepository {
  retention_get : jsstr -> prog W (option RetentionPolicy);
  retention_upsert : jsstr -> RetentionInput -> prog W RetentionPolicy
}.

Record AlertRuleRepository := mkAlertRuleRepository {
  rules_create : jsstr -> NewAlertRule -> prog W AlertRule;
  rules_list : jsstr -> prog W (list AlertRule);
  rules_findById : jsstr -> jsstr -> prog W (option AlertRule);
  rules_update : jsstr -> jsstr -> AlertRulePatch -> prog W (option AlertRule);
  rules_delete : jsstr -> jsstr -> prog W bool
}.

Record SavedQueryRepository := mkSavedQueryRepository {
  queries_create : jsstr -> NewSavedQuery -> prog W SavedQuery;
  queries_list : jsstr -> prog W (list SavedQuery);
  queries_findById : jsstr -> jsstr -> prog W (option SavedQuery);
  queries_update : jsstr -> jsstr -> SavedQueryPatch -> prog W (option SavedQuery);
  queries_delete : jsstr -> jsstr -> prog W bool
}.

Record DashboardRepository := mkDashboardRepository {
  dashboards_create : jsstr -> NewDashboard -> prog W Dashboard;
  dashboards_list : jsstr -> prog W (list Dashboard);
  dashboards_findById : jsstr -> jsstr -> prog W (option Dashboard);
  dashboards_update : jsstr -> jsstr -> DashboardPatch -> prog W (option Dashboard);
  dashboards_delete : jsstr -> jsstr -> prog W bool
}.

Record OAuthStateStore := mkOAuthStateStore {
  states_put : OAuthStateRecord -> Z -> prog W unit;
  states_consume : jsstr -> prog W (option OAuthStateRecord)
}.

Record RefreshTokenRepository := mkRefreshTokenRepository {
  refresh_create : jsstr -> NewRefreshToken -> prog W jsstr;
  refresh_findById : jsstr -> jsstr -> prog W (option RefreshTokenRow);
  refresh_rotate : jsstr -> jsstr -> date -> NewRefreshToken -> prog W (option jsstr);
  refresh_revokeFamily : jsstr -> jsstr -> date -> prog W unit
}.

Record GoogleIdTokenVerifier := mkGoogleIdTokenVerifier {
  verifier_verify : jsstr -> jsstr -> prog W GoogleIdTokenClaims
}.

Record GoogleTokenExchangeClient := mkGoogleTokenExchangeClient {
  exchange_exchange : ExchangeParams -> prog W GoogleTokenExchangeResult
}.

Record OAuthAuditLogger := mkOAuthAuditLogger { oauth_log : OAuthAuditEvent -> prog W unit }.

Record OAuthIdentityRepository := mkOAuthIdentityRepository {
  identities_findByProviderSub : jsstr -> OAuthProvider -> jsstr -> prog W (option OAuthIdentityRef);
  identities_linkFirst : jsstr -> NewOAuthIdentity -> prog W OAuthIdentityRef;
  identities_touchLastLogin : jsstr -> jsstr -> date -> prog W unit;
  identities_findById : jsstr -> jsstr -> prog W (option OAuthIdentity)
}.

Record InviteRepository := mkInviteRepository {
  invites_create : jsstr -> NewInvite -> prog W Invite;
  invites_findValidByTokenHash : jsstr -> list N -> date -> prog W (option InviteRef);
  invites_consume : jsstr -> ConsumeInput -> prog W (option ConsumedInvite);
  invites_countPending : jsstr -> prog W Z;
  invites_listByTenant : jsstr -> prog W (list Invite);
  invites_revoke : jsstr -> jsstr -> date -> prog W bool
}.

Record EmailSender := mkEmailSender { email_send : EmailMessage -> prog W unit }.
Record InviteAuditLogger := mkInviteAuditLogger { invite_log : InviteAuditEvent -> prog W unit }.

Record InviteProvisioner := mkInviteProvisioner {
  provisioner_provisionFromInvite : jsstr -> InviteProvisionInput -> prog W (option jsstr)
}.

End Ports.

Arguments PasswordHasher W : clear implicits.
Arguments TokenService W : clear implicits.
Arguments KeyMaterialGenerator W : clear implicits.
Arguments SecretGenerator W : clear implicits.
Arguments IdGenerator W : clear implicits.
Arguments Clock W : clear implicits.
Arguments TenantRepository W : clear implicits.
Arguments UserRepository W : clear implicits.
Arguments ApiKeyRepository W : clear implicits.
Arguments RetentionRepository W : clear implicits.
Arguments AlertRuleRepository W : clear implicits.
Arguments SavedQueryRepository W : clear implicits.
Arguments DashboardRepository W : clear implicits.
Arguments OAuthStateStore W : clear implicits.
Arguments RefreshTokenRepository W : clear implicits.
Arguments GoogleIdTokenVerifier W : clear implicits.
Arguments GoogleTokenExchangeClient W : clear implicits.
Arguments OAuthAuditLogger W : clear implicits.
Arguments OAuthIdentityRepository W : clear implicits.
Arguments InviteRepository W : clear implicits.
Arguments EmailSender W : clear implicits.
Arguments InviteAuditLogger W : clear implicits.
Arguments InviteProvisioner W : clear implicits.
