(* ===== verification/Uuid.v ===== *)
(** * UUID text

    Identifiers cross the boundary to Postgres as text and are compared as the
    [uuid] type.  [uuid_in] is that type's documented input syntax (hexadecimal
    digits of either case, optional braces, an optional hyphen after any group of
    four digits), and its result is the canonical output form. *)

From stdpp Require Import base list option numbers strings sets.
From S2P Require Import Prelude Errors Tokens.

(** The lower-case form of a hexadecimal digit. *)
Definition lower_hex (c : N) : N := if ((65 <=? c) && (c <=? 70))%N then (c + 32)%N else c.

(** [n] more bytes of two digits each; the digits, lower-cased, and the rest. *)
Fixpoint uuid_bytes (n : nat) (src : jsstr) : option (jsstr * jsstr) :=
  match n with
  | O => Some ([], src)
  | S n' =>
      match src with
      | a :: b :: src1 =>
          if is_hex a && is_hex b then
            let src2 :=
              match src1 with
              | c :: r => if (c =? 45)%N && Nat.odd n && (1 <? n) then r else src1
              | [] => src1
              end in
            match uuid_bytes n' src2 with
            | Some (ds, rest) => Some (lower_hex a :: lower_hex b :: ds, rest)
            | None => None
            end
          else None
      | _ => None
      end
  end.

(** The output form: 8-4-4-4-12 digits. *)
Definition uuid_out (ds : jsstr) : jsstr :=
  take 8 ds ++ [45%N] ++ take 4 (drop 8 ds) ++ [45%N] ++ take 4 (drop 12 ds) ++ [45%N]
  ++ take 4 (drop 16 ds) ++ [45%N] ++ drop 20 ds.

Definition uuid_in (s : jsstr) : option jsstr :=
  let '(braces, src) := match s with
                        | 123%N :: r => (true, r)
                        | _ => (false, s)
                        end in
  match uuid_bytes 16 src with
  | Some (ds, rest) =>
      if bool_decide (rest = if braces then [125%N] else []) then Some (uuid_out ds) else None
  | None => None
  end.

(** A bind parameter of type [uuid]. *)
Definition uuid_param (s : jsstr) : result exn jsstr :=
  match uuid_in s with
  | Some u => Ok u
  | None => Err (EPg pg_invalid_text_representation)
  end.

(** A nullable bind parameter of type [uuid]. *)
Definition uuid_param_opt (s : option jsstr) : result exn (option jsstr) :=
  match s with
  | None => Ok None
  | Some t => Some <$> uuid_param t
  end.

(** Text in output form. *)
Definition is_uuid (s : jsstr) : bool := bool_decide (uuid_in s = Some s).

(** * Lemmas *)

Lemma lower_hex_spec c :
  is_hex c = true -> is_lower_hex (lower_hex c) = true /\ lower_hex (lower_hex c) = lower_hex c.
Proof.
  unfold is_hex, is_lower_hex, lower_hex. intros H.
  rewrite !orb_true_iff, !andb_true_iff, !N.leb_le in H.
  destruct (N.leb_spec 65 c), (N.leb_spec c 70); cbn [andb];
    rewrite orb_true_iff, !andb_true_iff, !N.leb_le;
    (split; [lia|]);
    destruct (N.leb_spec 65 c), (N.leb_spec c 70); cbn [andb]; try lia; try done;
    destruct (N.leb_spec 65 (c + 32)), (N.leb_spec (c + 32) 70); cbn [andb]; lia.
Qed.

Lemma lower_hex_id c : is_lower_hex c = true -> is_hex c = true /\ lower_hex c = c /\ (c =? 45)%N = false.
Proof.
  unfold is_hex, is_lower_hex, lower_hex. intros H.
  rewrite orb_true_iff, !andb_true_iff, !N.leb_le in H.
  rewrite !orb_true_iff, !andb_true_iff, !N.leb_le, N.eqb_neq.
  destruct (N.leb_spec 65 c), (N.leb_spec c 70); cbn [andb]; split_and!; lia.
Qed.

Lemma uuid_bytes_digits n src ds rest :
  uuid_bytes n src = Some (ds, rest) ->
  length ds = 2 * n /\ Forall (fun c => is_lower_hex c = true) ds.
Proof.
  revert src ds; induction n as [|n IH]; intros src ds H; [by simplify_eq/=|].
  cbn [uuid_bytes] in H. destruct src as [|a [|b src]]; try done.
  destruct (is_hex a) eqn:Ea, (is_hex b) eqn:Eb; try done. cbn [andb] in H.
  destruct (uuid_bytes n _) as [[ds' r]|] eqn:E; [|done]. simplify_eq.
  apply IH in E as [Hl Hf]. simpl. split; [lia|].
  repeat constructor; try done; by apply lower_hex_spec.
Qed.

Lemma is_hex_not_hyphen c : is_hex c = true -> (c =? 45)%N = false.
Proof. unfold is_hex. rewrite !orb_true_iff, !andb_true_iff, !N.leb_le, N.eqb_neq. lia. Qed.

(** Thirty-two digits of either case, in 8-4-4-4-12 form, read as their lower-case
    form. *)
Lemma uuid_in_hex ds :
  length ds = 32 -> Forall (fun c => is_hex c = true) ds ->
  uuid_in (uuid_out ds) = Some (uuid_out (lower_hex <$> ds)).
Proof.
  intros Hl Hf.
  do 32 (destruct ds as [|? ds]; [discriminate Hl|]; simpl in Hl).
  destruct ds; [|discriminate Hl]. clear Hl.
  repeat match goal with
         | H : Forall _ (?c :: _) |- _ =>
             apply Forall_cons in H as [? H]; assert ((c =? 45)%N = false) by by apply is_hex_not_hyphen
         end.
  unfold uuid_in, uuid_out. cbn [take drop app fmap list_fmap].
  assert (Hb : forall c (s : jsstr), is_hex c = true ->
            match c :: s with 123%N :: r => (true, r) | _ => (false, c :: s) end = (false, c :: s)).
  { intros c s Hc. repeat case_match; subst; try done. }
  rewrite Hb by done. clear Hb.
  repeat (cbn [uuid_bytes Nat.odd Nat.even negb Nat.ltb Nat.leb];
    repeat match goal with
           | H : is_hex ?c = true |- context [is_hex ?c] => rewrite H
           | H : (?c =? 45)%N = false |- context [(?c =? 45)%N] => rewrite H
           end; cbn [andb N.eqb Pos.eqb]).
  by rewrite bool_decide_eq_true_2.
Qed.

(** Thirty-two lower-case digits, written in output form, read back. *)
Lemma uuid_in_out ds :
  length ds = 32 -> Forall (fun c => is_lower_hex c = true) ds ->
  uuid_in (uuid_out ds) = Some (uuid_out ds).
Proof.
  intros Hl Hf. rewrite uuid_in_hex; [|done|eapply Forall_impl; [exact Hf|]; by intros c [? _]%lower_hex_id].
  do 2 f_equal. clear Hl. induction Hf as [|c ds Hc Hds IH]; [done|]. cbn [fmap list_fmap].
  apply lower_hex_id in Hc as (_ & -> & _). f_equal. exact IH.
Qed.

Lemma uuid_in_digits s u :
  uuid_in s = Some u ->
  exists ds, u = uuid_out ds /\ length ds = 32 /\ Forall (fun c => is_lower_hex c = true) ds.
Proof.
  unfold uuid_in. intros H.
  destruct (match s with 123%N :: r => (true, r) | _ => (false, s) end) as [b src].
  destruct (uuid_bytes 16 src) as [[ds rest]|] eqn:E; [|done].
  destruct (bool_decide _); simplify_eq. exists ds. split; [done|].
  by apply uuid_bytes_digits in E.
Qed.

Lemma uuid_in_canonical s u : uuid_in s = Some u -> uuid_in u = Some u.
Proof. intros (ds & -> & Hl & Hf)%uuid_in_digits. by apply uuid_in_out. Qed.

Lemma uuid_out_chars ds c :
  Forall (fun c => is_lower_hex c = true) ds -> c ∈ uuid_out ds -> c = 45%N \/ is_lower_hex c = true.
Proof.
  intros Hf Hc. rewrite Forall_forall in Hf. unfold uuid_out in Hc.
  rewrite !elem_of_app, !list_elem_of_singleton in Hc.
  assert (Ht : forall n k, c ∈ take n (drop k ds) -> is_lower_hex c = true).
  { intros n k H. apply Hf. eapply subseteq_drop, subseteq_take. exact H. }
  pose proof (Ht 8 0) as H0. rewrite drop_0 in H0.
  assert (Hd : c ∈ drop 20 ds -> is_lower_hex c = true).
  { intros H. apply Hf. by eapply subseteq_drop. }
  naive_solver.
Qed.

Lemma is_uuid_spec u : is_uuid u = true <-> uuid_in u = Some u.
Proof. apply bool_decide_eq_true. Qed.

Lemma uuid_in_is_uuid s u : uuid_in s = Some u -> is_uuid u = true.
Proof. intros H. apply is_uuid_spec. by eapply uuid_in_canonical. Qed.

(** UUID text can be a component of an underscore-separated credential. *)
Lemma is_uuid_component u : is_uuid u = true -> us ∉ u /\ u <> [].
Proof.
  intros (ds & -> & Hl & Hf)%is_uuid_spec%uuid_in_digits. split.
  - intros [?|?]%(uuid_out_chars ds us Hf); done.
  - by do 9 (destruct ds; [done|]).
Qed.

Lemma uuid_param_Ok s u : uuid_param s = Ok u <-> uuid_in s = Some u.
Proof. unfold uuid_param. destruct (uuid_in s); naive_solver. Qed.

Lemma uuid_param_uuid u : is_uuid u = true -> uuid_param u = Ok u.
Proof. intros H. by apply uuid_param_Ok, is_uuid_spec. Qed.

#[export] Hint Resolve uuid_in_is_uuid : logalot.
#[export] Hint Rewrite uuid_param_uuid using (by auto with logalot) : logalot.
