(* ===== verification/Schema.v ===== *)
(** * Database schema

    The tables of [migrations/*.up.sql] as lists of rows, with their column
    types, CHECK, PRIMARY KEY / UNIQUE and FOREIGN KEY constraints and their
    referential actions.  [Table] is the interface between a table and the SQL
    statements of [Sql]: every tenant-owned table is an instance.

    Left out: [log_events] and [alert_notifications], which only the Go services use,
    and the columns of [alert_rules] that the evaluator keeps for itself
    ([transition_seq], [last_notified_at]; the control plane neither reads nor sets
    them).  A text column takes any string; Postgres refuses U+0000. *)

From stdpp Require Import base list option numbers strings gmap.
From S2P Require Import Prelude Errors Tokens Rbac Entities.

(** ** Rows *)

Record tenants_row := mk_tenants {
  tr_id : jsstr;
  tr_public_id : jsstr;
  tr_name : jsstr;
  tr_status : TenantStatus;
  tr_created_at : date;
  tr_updated_at : date
}.

Record users_row := mk_users {
  ur_id : jsstr;
  ur_tenant_id : jsstr;
  ur_email : jsstr;
  ur_password_hash : jsstr;
  ur_display_name : option jsstr;
  ur_status : jsstr;
  ur_is_platform_operator : bool;
  ur_created_at : date;
  ur_updated_at : date
}.

Record memberships_row := mk_memberships {
  mr_tenant_id : jsstr;
  mr_user_id : jsstr;
  mr_role : MembershipRole;
  mr_created_at : date;
  mr_updated_at : date
}.

Record api_keys_row := mk_api_keys {
  kr_id : jsstr;
  kr_tenant_id : jsstr;
  kr_name : jsstr;
  kr_key_hash : list N;
  kr_scopes : list jsstr;
  kr_created_by : option jsstr;
  kr_created_at : date;
  kr_last_used_at : option date;
  kr_expires_at : option date;
  kr_revoked_at : option date
}.

Record retention_policies_row := mk_retention_policies {
  rpr_tenant_id : jsstr;
  rpr_hot_days : Z;
  rpr_cold_days : Z;
  rpr_updated_by : option jsstr;
  rpr_created_at : date;
  rpr_updated_at : date
}.

Record saved_queries_row := mk_saved_queries {
  sqr_id : jsstr;
  sqr_tenant_id : jsstr;
  sqr_name : jsstr;
  sqr_description : option jsstr;
  sqr_query_text : jsstr;
  sqr_filters : SavedQueryFilters;
  sqr_time_range : jsobject;
  sqr_created_by : option jsstr;
  sqr_created_at : date;
  sqr_updated_at : date
}.

Record dashboards_row := mk_dashboards {
  dsr_id : jsstr;
  dsr_tenant_id : jsstr;
  dsr_name : jsstr;
  dsr_description : option jsstr;
  dsr_layout : DashboardLayout;
  dsr_created_by : option jsstr;
  dsr_created_at : date;
  dsr_updated_at : date
}.

Record alert_rules_row := mk_alert_rules {
  arr_id : jsstr;
  arr_tenant_id : jsstr;
  arr_name : jsstr;
  arr_saved_query_id : option jsstr;
  arr_query : RuleQuery;
  arr_comparator : AlertComparator;
  arr_threshold : jsnum;
  arr_window_seconds : Z;
  arr_severity : jsstr;
  arr_enabled : bool;
  arr_notify_channels : list NotifyChannel;
  arr_state : AlertState;
  arr_last_evaluated_at : option date;
  arr_last_triggered_at : option date;
  arr_created_by : option jsstr;
  arr_created_at : date;
  arr_updated_at : date
}.

Record refresh_tokens_row := mk_refresh_tokens {
  rtr_id : jsstr;
  rtr_tenant_id : jsstr;
  rtr_user_id : jsstr;
  rtr_family_id : jsstr;
  rtr_token_hash : list N;
  rtr_issued_at : date;
  rtr_expires_at : date;
  rtr_rotated_at : option date;
  rtr_revoked_at : option date
}.

Record oauth_identities_row := mk_oauth_identities {
  oir_id : jsstr;
  oir_tenant_id : jsstr;
  oir_user_id : jsstr;
  oir_provider : OAuthProvider;
  oir_provider_sub : jsstr;
  oir_email : jsstr;
  oir_last_login_at : option date;
  oir_created_at : date;
  oir_updated_at : date
}.

Record invites_row := mk_invites {
  ivr_id : jsstr;
  ivr_tenant_id : jsstr;
  ivr_email : jsstr;
  ivr_role : jsstr;
  ivr_token_hash : list N;
  ivr_status : jsstr;
  ivr_expires_at : date;
  ivr_created_by : option jsstr;
  ivr_consumed_at : option date;
  ivr_created_at : date;
  ivr_updated_at : date
}.

Record database := mkDatabase {
  d_tenants : list tenants_row;
  d_users : list users_row;
  d_memberships : list memberships_row;
  d_api_keys : list api_keys_row;
  d_retention_policies : list retention_policies_row;
  d_saved_queries : list saved_queries_row;
  d_dashboards : list dashboards_row;
  d_alert_rules : list alert_rules_row;
  d_refresh_tokens : list refresh_tokens_row;
  d_oauth_identities : list oauth_identities_row;
  d_invites : list invites_row
}.

(** Replacing one table. *)

Definition set_tenants (l : list tenants_row) (d : database) : database :=
  mkDatabase l (d_users d) (d_memberships d) (d_api_keys d) (d_retention_policies d)
    (d_saved_queries d) (d_dashboards d) (d_alert_rules d) (d_refresh_tokens d)
    (d_oauth_identities d) (d_invites d).

Definition set_users (l : list users_row) (d : database) : database :=
  mkDatabase (d_tenants d) l (d_memberships d) (d_api_keys d) (d_retention_policies d)
    (d_saved_queries d) (d_dashboards d) (d_alert_rules d) (d_refresh_tokens d)
    (d_oauth_identities d) (d_invites d).

Definition set_memberships (l : list memberships_row) (d : database) : database :=
  mkDatabase (d_tenants d) (d_users d) l (d_api_keys d) (d_retention_policies d)
    (d_saved_queries d) (d_dashboards d) (d_alert_rules d) (d_refresh_tokens d)
    (d_oauth_identities d) (d_invites d).

Definition set_api_keys (l : list api_keys_row) (d : database) : database :=
  mkDatabase (d_tenants d) (d_users d) (d_memberships d) l (d_retention_policies d)
    (d_saved_queries d) (d_dashboards d) (d_alert_rules d) (d_refresh_tokens d)
    (d_oauth_identities d) (d_invites d).

Definition set_retention_policies (l : list retention_policies_row) (d : database) : database :=
  mkDatabase (d_tenants d) (d_users d) (d_memberships d) (d_api_keys d) l
    (d_saved_queries d) (d_dashboards d) (d_alert_rules d) (d_refresh_tokens d)
    (d_oauth_identities d) (d_invites d).

Definition set_saved_queries (l : list saved_queries_row) (d : database) : database :=
  mkDatabase (d_tenants d) (d_users d) (d_memberships d) (d_api_keys d)
    (d_retention_policies d) l (d_dashboards d) (d_alert_rules d) (d_refresh_tokens d)
    (d_oauth_identities d) (d_invites d).

Definition set_dashboards (l : list dashboards_row) (d : database) : database :=
  mkDatabase (d_tenants d) (d_users d) (d_memberships d) (d_api_keys d)
    (d_retention_policies d) (d_saved_queries d) l (d_alert_rules d) (d_refresh_tokens d)
    (d_oauth_identities d) (d_invites d).

Definition set_alert_rules (l : list alert_rules_row) (d : database) : database :=
  mkDatabase (d_tenants d) (d_users d) (d_memberships d) (d_api_keys d)
    (d_retention_policies d) (d_saved_queries d) (d_dashboards d) l (d_refresh_tokens d)
    (d_oauth_identities d) (d_invites d).

Definition set_refresh_tokens (l : list refresh_tokens_row) (d : database) : database :=
  mkDatabase (d_tenants d) (d_users d) (d_memberships d) (d_api_keys d)
    (d_retention_policies d) (d_saved_queries d) (d_dashboards d) (d_alert_rules d) l
    (d_oauth_identities d) (d_invites d).

Definition set_oauth_identities (l : list oauth_identities_row) (d : database) : database :=
  mkDatabase (d_tenants d) (d_users d) (d_memberships d) (d_api_keys d)
    (d_retention_policies d) (d_saved_queries d) (d_dashboards d) (d_alert_rules d)
    (d_refresh_tokens d) l (d_invites d).

Definition set_invites (l : list invites_row) (d : database) : database :=
  mkDatabase (d_tenants d) (d_users d) (d_memberships d) (d_api_keys d)
    (d_retention_policies d) (d_saved_queries d) (d_dashboards d) (d_alert_rules d)
    (d_refresh_tokens d) (d_oauth_identities d) l.

(** ** Referenced rows *)

Definition tenant_exists (d : database) (t : jsstr) : bool :=
  existsb (fun r => bool_decide (tr_id r = t)) (d_tenants d).

(** REFERENCES users (id). *)
Definition user_id_exists (d : database) (u : jsstr) : bool :=
  existsb (fun r => bool_decide (ur_id r = u)) (d_users d).

(** REFERENCES users (tenant_id, id). *)
Definition user_exists (d : database) (t u : jsstr) : bool :=
  existsb (fun r => bool_decide (ur_tenant_id r = t /\ ur_id r = u)) (d_users d).

(** A nullable reference to [users (id)]. *)
Definition actor_exists (d : database) (a : option jsstr) : bool :=
  match a with
  | None => true
  | Some u => user_id_exists d u
  end.

(** ** Tables *)

Class Table (R : Type) := {
  t_rows : database -> list R;
  t_put : list R -> database -> database;
  t_tenant : R -> jsstr;
  t_check : R -> bool;                          (* CHECK constraints *)
  t_conflict : R -> R -> bool;                  (* PRIMARY KEY and UNIQUE constraints *)
  t_refs : database -> R -> bool;               (* FOREIGN KEY constraints *)
  t_on_delete : Z -> R -> database -> database  (* ON DELETE actions, at time now() *)
}.

(** No two rows share a key. *)
Fixpoint conflict_free {R} (c : R -> R -> bool) (l : list R) : bool :=
  match l with
  | [] => true
  | r :: l' => forallb (fun r' => negb (c r r')) l' && conflict_free c l'
  end.

(** BEFORE UPDATE triggers and ON DELETE SET NULL, per table. *)

Definition null_api_keys (u : jsstr) (r : api_keys_row) : api_keys_row :=
  if bool_decide (kr_created_by r = Some u) then
    mk_api_keys (kr_id r) (kr_tenant_id r) (kr_name r) (kr_key_hash r) (kr_scopes r) None
      (kr_created_at r) (kr_last_used_at r) (kr_expires_at r) (kr_revoked_at r)
  else r.

Definition null_retention_policies (now : Z) (u : jsstr) (r : retention_policies_row) :=
  if bool_decide (rpr_updated_by r = Some u) then
    mk_retention_policies (rpr_tenant_id r) (rpr_hot_days r) (rpr_cold_days r) None
      (rpr_created_at r) now
  else r.

Definition null_saved_queries (now : Z) (u : jsstr) (r : saved_queries_row) :=
  if bool_decide (sqr_created_by r = Some u) then
    mk_saved_queries (sqr_id r) (sqr_tenant_id r) (sqr_name r) (sqr_description r)
      (sqr_query_text r) (sqr_filters r) (sqr_time_range r) None (sqr_created_at r) now
  else r.

Definition null_dashboards (now : Z) (u : jsstr) (r : dashboards_row) :=
  if bool_decide (dsr_created_by r = Some u) then
    mk_dashboards (dsr_id r) (dsr_tenant_id r) (dsr_name r) (dsr_description r)
      (dsr_layout r) None (dsr_created_at r) now
  else r.

Definition null_alert_rules (now : Z) (u : jsstr) (r : alert_rules_row) :=
  if bool_decide (arr_created_by r = Some u) then
    mk_alert_rules (arr_id r) (arr_tenant_id r) (arr_name r) (arr_saved_query_id r)
      (arr_query r) (arr_comparator r) (arr_threshold r) (arr_window_seconds r)
      (arr_severity r) (arr_enabled r) (arr_notify_channels r) (arr_state r)
      (arr_last_evaluated_at r) (arr_last_triggered_at r) None (arr_created_at r) now
  else r.

Definition null_invites (now : Z) (u : jsstr) (r : invites_row) :=
  if bool_decide (ivr_created_by r = Some u) then
    mk_invites (ivr_id r) (ivr_tenant_id r) (ivr_email r) (ivr_role r) (ivr_token_hash r)
      (ivr_status r) (ivr_expires_at r) None (ivr_consumed_at r) (ivr_created_at r) now
  else r.

(** Deleting a user: memberships, refresh tokens and OAuth identities go with it,
    authorship columns become NULL. *)
Definition users_on_delete (now : Z) (u : users_row) (d : database) : database :=
  let of_user (t v : jsstr) := bool_decide (t = ur_tenant_id u /\ v = ur_id u) in
  mkDatabase (d_tenants d) (d_users d)
    (List.filter (fun r => negb (of_user (mr_tenant_id r) (mr_user_id r))) (d_memberships d))
    (map (null_api_keys (ur_id u)) (d_api_keys d))
    (map (null_retention_policies now (ur_id u)) (d_retention_policies d))
    (map (null_saved_queries now (ur_id u)) (d_saved_queries d))
    (map (null_dashboards now (ur_id u)) (d_dashboards d))
    (map (null_alert_rules now (ur_id u)) (d_alert_rules d))
    (List.filter (fun r => negb (of_user (rtr_tenant_id r) (rtr_user_id r))) (d_refresh_tokens d))
    (List.filter (fun r => negb (of_user (oir_tenant_id r) (oir_user_id r))) (d_oauth_identities d))
    (map (null_invites now (ur_id u)) (d_invites d)).

#[export] Instance users_table : Table users_row := {
  t_rows := d_users;
  t_put := set_users;
  t_tenant := ur_tenant_id;
  t_check _ := true;
  t_conflict a b := bool_decide (ur_id a = ur_id b)
    || bool_decide (ur_tenant_id a = ur_tenant_id b /\ ur_email a = ur_email b);
  t_refs d r := tenant_exists d (ur_tenant_id r);
  t_on_delete := users_on_delete
}.

#[export] Instance memberships_table : Table memberships_row := {
  t_rows := d_memberships;
  t_put := set_memberships;
  t_tenant := mr_tenant_id;
  t_check _ := true;
  t_conflict a b := bool_decide (mr_tenant_id a = mr_tenant_id b /\ mr_user_id a = mr_user_id b);
  t_refs d r := tenant_exists d (mr_tenant_id r) && user_exists d (mr_tenant_id r) (mr_user_id r);
  t_on_delete _ _ d := d
}.

#[export] Instance api_keys_table : Table api_keys_row := {
  t_rows := d_api_keys;
  t_put := set_api_keys;
  t_tenant := kr_tenant_id;
  t_check r := length (kr_key_hash r) =? 32;
  t_conflict a b := bool_decide (kr_id a = kr_id b);
  t_refs d r := tenant_exists d (kr_tenant_id r) && actor_exists d (kr_created_by r);
  t_on_delete _ _ d := d
}.

#[export] Instance retention_policies_table : Table retention_policies_row := {
  t_rows := d_retention_policies;
  t_put := set_retention_policies;
  t_tenant := rpr_tenant_id;
  t_check r := ((1 <=? rpr_hot_days r) && (rpr_hot_days r <=? 90)
                && (rpr_hot_days r <=? rpr_cold_days r))%Z;
  t_conflict a b := bool_decide (rpr_tenant_id a = rpr_tenant_id b);
  t_refs d r := tenant_exists d (rpr_tenant_id r) && actor_exists d (rpr_updated_by r);
  t_on_delete _ _ d := d
}.

#[export] Instance saved_queries_table : Table saved_queries_row := {
  t_rows := d_saved_queries;
  t_put := set_saved_queries;
  t_tenant := sqr_tenant_id;
  t_check _ := true;
  t_conflict a b := bool_decide (sqr_id a = sqr_id b)
    || bool_decide (sqr_tenant_id a = sqr_tenant_id b /\ sqr_name a = sqr_name b);
  t_refs d r := tenant_exists d (sqr_tenant_id r) && actor_exists d (sqr_created_by r);
  t_on_delete _ _ d := d
}.

#[export] Instance dashboards_table : Table dashboards_row := {
  t_rows := d_dashboards;
  t_put := set_dashboards;
  t_tenant := dsr_tenant_id;
  t_check _ := true;
  t_conflict a b := bool_decide (dsr_id a = dsr_id b)
    || bool_decide (dsr_tenant_id a = dsr_tenant_id b /\ dsr_name a = dsr_name b);
  t_refs d r := tenant_exists d (dsr_tenant_id r) && actor_exists d (dsr_created_by r);
  t_on_delete _ _ d := d
}.

#[export] Instance alert_rules_table : Table alert_rules_row := {
  t_rows := d_alert_rules;
  t_put := set_alert_rules;
  t_tenant := arr_tenant_id;
  t_check r := ((30 <=? arr_window_seconds r) && (arr_window_seconds r <=? 86400))%Z
    && (bool_decide (arr_saved_query_id r <> None) || bool_decide (arr_query r <> empty_query));
  t_conflict a b := bool_decide (arr_id a = arr_id b)
    || bool_decide (arr_tenant_id a = arr_tenant_id b /\ arr_name a = arr_name b);
  t_refs d r := tenant_exists d (arr_tenant_id r) && actor_exists d (arr_created_by r);
  t_on_delete _ _ d := d
}.

#[export] Instance refresh_tokens_table : Table refresh_tokens_row := {
  t_rows := d_refresh_tokens;
  t_put := set_refresh_tokens;
  t_tenant := rtr_tenant_id;
  t_check r := length (rtr_token_hash r) =? 32;
  t_conflict a b := bool_decide (rtr_id a = rtr_id b);
  t_refs d r := tenant_exists d (rtr_tenant_id r) && user_exists d (rtr_tenant_id r) (rtr_user_id r);
  t_on_delete _ _ d := d
}.

#[export] Instance oauth_identities_table : Table oauth_identities_row := {
  t_rows := d_oauth_identities;
  t_put := set_oauth_identities;
  t_tenant := oir_tenant_id;
  t_check _ := true;
  t_conflict a b := bool_decide (oir_id a = oir_id b)
    || bool_decide (oir_tenant_id a = oir_tenant_id b /\ oir_provider a = oir_provider b
                    /\ oir_provider_sub a = oir_provider_sub b)
    || bool_decide (oir_tenant_id a = oir_tenant_id b /\ oir_user_id a = oir_user_id b
                    /\ oir_provider a = oir_provider b);
  t_refs d r := tenant_exists d (oir_tenant_id r) && user_exists d (oir_tenant_id r) (oir_user_id r);
  t_on_delete _ _ d := d
}.

#[export] Instance invites_table : Table invites_row := {
  t_rows := d_invites;
  t_put := set_invites;
  t_tenant := ivr_tenant_id;
  t_check r := bool_decide (ivr_role r ∈ [js "member"; js "admin"])
    && bool_decide (ivr_status r ∈ [js "pending"; js "consumed"; js "revoked"])
    && (length (ivr_token_hash r) =? 32);
  t_conflict a b := bool_decide (ivr_id a = ivr_id b)
    || bool_decide (ivr_token_hash a = ivr_token_hash b)
    || bool_decide (ivr_status a = js "pending" /\ ivr_status b = js "pending"
                    /\ ivr_tenant_id a = ivr_tenant_id b /\ ivr_email a = ivr_email b);
  t_refs d r := tenant_exists d (ivr_tenant_id r) && actor_exists d (ivr_created_by r);
  t_on_delete _ _ d := d
}.

(** ** The tenant registry, which has no row-level security *)

Definition tenants_check (r : tenants_row) : bool := tenantPublicIdSchema (tr_public_id r).

Definition tenants_conflict (a b : tenants_row) : bool :=
  bool_decide (tr_id a = tr_id b) || bool_decide (tr_public_id a = tr_public_id b).

(** The rows of every tenant but [t]. *)
Definition not_of {R} `{Table R} (t : jsstr) (l : list R) : list R :=
  List.filter (fun r => negb (bool_decide (t_tenant r = t))) l.

(** The database without the rows owned by tenant [t]. *)
Definition others (t : jsstr) (d : database) : database :=
  mkDatabase (d_tenants d) (not_of t (d_users d)) (not_of t (d_memberships d))
    (not_of t (d_api_keys d)) (not_of t (d_retention_policies d)) (not_of t (d_saved_queries d))
    (not_of t (d_dashboards d)) (not_of t (d_alert_rules d)) (not_of t (d_refresh_tokens d))
    (not_of t (d_oauth_identities d)) (not_of t (d_invites d)).

(** Deleting a tenant row: its users go (with their own actions), then everything
    it owns. *)
Definition tenants_on_delete (now : Z) (r : tenants_row) (d : database) : database :=
  others (tr_id r)
    (fold_right (users_on_delete now) d
       (List.filter (fun u => bool_decide (ur_tenant_id u = tr_id r)) (d_users d))).

(** * Lemmas

    What the statements may assume of every table: reading back a written table,
    the independence of the tables, and that constraints only depend on the
    referenced rows. *)

(** Every tenant and every user of [d] is still there in [d']. *)
Definition refs_kept (d d' : database) : Prop :=
  (forall t, tenant_exists d t = true -> tenant_exists d' t = true) /\
  (forall t u, user_exists d t u = true -> user_exists d' t u = true).

Class TableLaws (R : Type) `{Table R} : Prop := {
  t_rows_put l d : t_rows (t_put l d) = l;
  t_put_rows d : t_put (t_rows d) d = d;
  t_put_tenants l d : d_tenants (t_put l d) = d_tenants d;
  t_others_put t l d : others t (t_put l d) = t_put (not_of t l) (others t d);
  t_others_rows t d : t_rows (others t d) = not_of t (t_rows d);
  t_conflict_sym a b : t_conflict a b = t_conflict b a;
  t_refs_mono d d' r : refs_kept d d' -> t_refs d r = true -> t_refs d' r = true
}.

Lemma user_id_exists_spec d u :
  user_id_exists d u = true <-> exists t, user_exists d t u = true.
Proof.
  unfold user_id_exists, user_exists. rewrite existsb_exists.
  setoid_rewrite existsb_exists. setoid_rewrite bool_decide_eq_true. naive_solver.
Qed.

Lemma refs_kept_refl d : refs_kept d d.
Proof. by split. Qed.

Lemma refs_kept_trans d1 d2 d3 : refs_kept d1 d2 -> refs_kept d2 d3 -> refs_kept d1 d3.
Proof. intros [] []. split; auto. Qed.

Lemma actor_exists_mono d d' a : refs_kept d d' -> actor_exists d a = true -> actor_exists d' a = true.
Proof.
  intros [_ Hu]. destruct a as [u|]; [|done]. simpl. rewrite !user_id_exists_spec.
  intros [t Ht]. exists t. auto.
Qed.

#[export] Hint Resolve actor_exists_mono refs_kept_refl : logalot.

(** Boolean equality of disjunctions of symmetric key comparisons. *)
Ltac solve_sym :=
  repeat match goal with
         | |- (_ || _) = (_ || _) => f_equal
         | |- bool_decide _ = bool_decide _ => apply bool_decide_ext; naive_solver
         end.

Ltac solve_table_laws :=
  split;
  [ done
  | by intros []
  | done
  | done
  | done
  | intros a b; simpl; solve_sym
  | intros d d' r Hk; simpl; rewrite ?andb_true_iff; pose proof Hk as [Ht Hu];
    intuition (eauto with logalot) ].

#[export] Instance users_laws : TableLaws users_row.
Proof. solve_table_laws. Qed.
#[export] Instance memberships_laws : TableLaws memberships_row.
Proof. solve_table_laws. Qed.
#[export] Instance api_keys_laws : TableLaws api_keys_row.
Proof. solve_table_laws. Qed.
#[export] Instance retention_policies_laws : TableLaws retention_policies_row.
Proof. solve_table_laws. Qed.
#[export] Instance saved_queries_laws : TableLaws saved_queries_row.
Proof. solve_table_laws. Qed.
#[export] Instance dashboards_laws : TableLaws dashboards_row.
Proof. solve_table_laws. Qed.
#[export] Instance alert_rules_laws : TableLaws alert_rules_row.
Proof. solve_table_laws. Qed.
#[export] Instance refresh_tokens_laws : TableLaws refresh_tokens_row.
Proof. solve_table_laws. Qed.
#[export] Instance oauth_identities_laws : TableLaws oauth_identities_row.
Proof. solve_table_laws. Qed.
#[export] Instance invites_laws : TableLaws invites_row.
Proof. solve_table_laws. Qed.
