(* ===== verification/World.v ===== *)
(** * The world

    The shared state the control plane's requests act on: the database, the
    stores, the clocks, the random sources, and the outputs a request leaves
    behind (audit lines, mail, calls to Google).  Third-party code that computes
    on it (SHA-256, bcrypt, JOSE, random sources, JSON serialisation) is a set of
    operation classes, each with the documented behaviour the code relies on as a
    class of laws. *)

From stdpp Require Import base list option numbers strings gmap.
From S2P Require Import Prelude Errors Effects Tokens Rbac Email Entities Ports Uuid Schema.

(** ** Third-party operations *)

(** Random sources; the argument is the index of the draw. *)
Class Entropy := {
  pg_uuid : nat -> jsstr;                       (* gen_random_uuid() *)
  node_uuid : nat -> jsstr;                     (* crypto.randomUUID() *)
  node_hex : nat -> nat -> jsstr                (* randomBytes(n).toString('hex') *)
}.

Class EntropyLaws `{Entropy} : Prop := {
  pg_uuid_form n : is_uuid (pg_uuid n) = true;
  node_uuid_form n : is_uuid (node_uuid n) = true;
  node_hex_length n k : length (node_hex n k) = 2 * k;
  node_hex_chars n k : forallb is_lower_hex (node_hex n k) = true
}.

(** bcryptjs; the first argument of [bcrypt_hash] is the index of the salt draw. *)
Class Bcrypt := {
  bcrypt_hash : nat -> Z -> jsstr -> jsstr;
  bcrypt_compare : jsstr -> jsstr -> bool
}.

Class BcryptLaws `{Bcrypt} : Prop := {
  bcrypt_correct n c p : bcrypt_compare p (bcrypt_hash n c p) = true;
  bcrypt_not_a_hash p h : length h <> 60 -> bcrypt_compare p h = false
}.

(** jose: an HS256 JWT over the claims the service sets. *)
Record JwtPayload := mkJwtPayload {
  jp_tenant_id : option jsstr;
  jp_sub : option jsstr;
  jp_role : option jsstr;
  jp_iss : jsstr;
  jp_aud : jsstr;
  jp_iat : Z;
  jp_exp : Z
}.

Class Jose := {
  jwt_sign : jsstr -> JwtPayload -> jsstr;
  (* secret, issuer, audience, now (seconds), token *)
  jwt_verify : jsstr -> jsstr -> jsstr -> Z -> jsstr -> option JwtPayload
}.

Class JoseLaws `{Jose} : Prop := {
  jwt_verify_sign secret iss aud now p :
    jp_iss p = iss -> jp_aud p = aud -> (now < jp_exp p)%Z ->
    jwt_verify secret iss aud now (jwt_sign secret p) = Some p
}.

(** JSON serialisation of an OAuth state record. *)
Class StateCodec := {
  state_stringify : OAuthStateRecord -> jsstr;
  state_parse : jsstr -> option OAuthStateRecord
}.

Class StateCodecLaws `{StateCodec} : Prop := {
  state_parse_stringify r : state_parse (state_stringify r) = Some r;
  state_stringify_ne r : state_stringify r <> []
}.

(** ** The state *)

Record StateEntry := mkStateEntry { se_record : OAuthStateRecord; se_expiresAt : Z }.

Record world := mkWorld {
  w_db : database;
  w_pgseq : nat;                              (* draws of gen_random_uuid() *)
  w_dbnow : Z;                                (* the database's clock *)
  w_now : Z;                                  (* the service's clock *)
  w_rand : nat;                               (* draws of the service's random source *)
  w_states : gmap jsstr StateEntry;           (* the in-memory state store *)
  w_redis : gmap jsstr (jsstr * Z);           (* Redis: value and expiry *)
  w_oauth_audit : list OAuthAuditEvent;       (* oldest first *)
  w_invite_audit : list InviteAuditEvent;
  w_mail : list EmailMessage;
  w_google : list (jsstr * jsstr);            (* requests to Google: URL and form body *)
  w_dummy : option (result exn jsstr)         (* AuthService.dummyHashPromise, settled *)
}.

Definition set_w_db (x : database) (w : world) : world :=
  mkWorld x (w_pgseq w) (w_dbnow w) (w_now w) (w_rand w) (w_states w) (w_redis w)
    (w_oauth_audit w) (w_invite_audit w) (w_mail w) (w_google w) (w_dummy w).

Definition set_w_rand (x : nat) (w : world) : world :=
  mkWorld (w_db w) (w_pgseq w) (w_dbnow w) (w_now w) x (w_states w) (w_redis w)
    (w_oauth_audit w) (w_invite_audit w) (w_mail w) (w_google w) (w_dummy w).

Definition set_w_states (x : gmap jsstr StateEntry) (w : world) : world :=
  mkWorld (w_db w) (w_pgseq w) (w_dbnow w) (w_now w) (w_rand w) x (w_redis w)
    (w_oauth_audit w) (w_invite_audit w) (w_mail w) (w_google w) (w_dummy w).

Definition set_w_redis (x : gmap jsstr (jsstr * Z)) (w : world) : world :=
  mkWorld (w_db w) (w_pgseq w) (w_dbnow w) (w_now w) (w_rand w) (w_states w) x
    (w_oauth_audit w) (w_invite_audit w) (w_mail w) (w_google w) (w_dummy w).

Definition set_w_oauth_audit (x : list OAuthAuditEvent) (w : world) : world :=
  mkWorld (w_db w) (w_pgseq w) (w_dbnow w) (w_now w) (w_rand w) (w_states w) (w_redis w) x
    (w_invite_audit w) (w_mail w) (w_google w) (w_dummy w).

Definition set_w_invite_audit (x : list InviteAuditEvent) (w : world) : world :=
  mkWorld (w_db w) (w_pgseq w) (w_dbnow w) (w_now w) (w_rand w) (w_states w) (w_redis w)
    (w_oauth_audit w) x (w_mail w) (w_google w) (w_dummy w).

Definition set_w_mail (x : list EmailMessage) (w : world) : world :=
  mkWorld (w_db w) (w_pgseq w) (w_dbnow w) (w_now w) (w_rand w) (w_states w) (w_redis w)
    (w_oauth_audit w) (w_invite_audit w) x (w_google w) (w_dummy w).

Definition set_w_google (x : list (jsstr * jsstr)) (w : world) : world :=
  mkWorld (w_db w) (w_pgseq w) (w_dbnow w) (w_now w) (w_rand w) (w_states w) (w_redis w)
    (w_oauth_audit w) (w_invite_audit w) (w_mail w) x (w_dummy w).

Definition set_w_dummy (x : option (result exn jsstr)) (w : world) : world :=
  mkWorld (w_db w) (w_pgseq w) (w_dbnow w) (w_now w) (w_rand w) (w_states w) (w_redis w)
    (w_oauth_audit w) (w_invite_audit w) (w_mail w) (w_google w) x.

(** The database and its random source after a transaction. *)
Definition set_db_seq (d : database) (n : nat) (w : world) : world :=
  mkWorld d n (w_dbnow w) (w_now w) (w_rand w) (w_states w) (w_redis w) (w_oauth_audit w)
    (w_invite_audit w) (w_mail w) (w_google w) (w_dummy w).

(** Both clocks moved forward. *)
Definition advance (dt dt' : Z) (w : world) : world :=
  mkWorld (w_db w) (w_pgseq w) (w_dbnow w + dt) (w_now w + dt') (w_rand w) (w_states w)
    (w_redis w) (w_oauth_audit w) (w_invite_audit w) (w_mail w) (w_google w) (w_dummy w).

(** What the environment of the requests does: time passes. *)
Inductive env_step : world -> world -> Prop :=
| env_time w dt dt' : (0 <= dt)%Z -> (0 <= dt')%Z -> env_step w (advance dt dt' w).
