(* ===== verification/Sql.v ===== *)
(** * Transactions and statements

    The part of Postgres the repositories use: a transaction with its
    [app.tenant_id] setting, its aborted state and its savepoints; SELECT,
    INSERT, UPDATE and DELETE on a table under row-level security (the policies
    of the migrations, with the application connected as a role they govern); and
    [withTenantTx] of [adapters/postgres/tenant-tx.ts].

    A transaction is one atomic step of the world: transactions do not interleave, so
    what READ COMMITTED lets a statement miss (a row another transaction has not yet
    committed) is not modelled.  The policies' tenant is
    [app.current_tenant_id()]; a setting that is not UUID text makes every
    statement on a tenant-owned table fail.  Referential and uniqueness checks
    see all rows, as in Postgres.  Checks run in the order row-level security,
    CHECK, UNIQUE, FOREIGN KEY.  A DELETE is never refused: every foreign key of the
    migrations is ON DELETE CASCADE or SET NULL, the actions of [t_on_delete]. *)

From stdpp Require Import base list option numbers strings gmap sorting.
From S2P Require Import Prelude Errors Effects Uuid Schema Entities World.

(** ** Transactions *)

Record tx_state := mkTx {
  tx_db : database;
  tx_seq : nat;                                (* draws of gen_random_uuid() *)
  tx_guc : jsstr;                              (* app.tenant_id; empty when unset *)
  tx_now : Z;                                  (* now(): the transaction's start *)
  tx_aborted : bool;
  tx_savepoints : list (jsstr * database)      (* innermost first *)
}.

Definition tx_set_db (d : database) (st : tx_state) : tx_state :=
  mkTx d (tx_seq st) (tx_guc st) (tx_now st) (tx_aborted st) (tx_savepoints st).

Definition tx_bump (st : tx_state) : tx_state :=
  mkTx (tx_db st) (S (tx_seq st)) (tx_guc st) (tx_now st) (tx_aborted st) (tx_savepoints st).

Definition tx_abort (st : tx_state) : tx_state :=
  mkTx (tx_db st) (tx_seq st) (tx_guc st) (tx_now st) true (tx_savepoints st).

Definition txM (A : Type) : Type := tx_state -> result exn A * tx_state.

#[export] Instance txM_ret : MRet txM := fun A a st => (Ok a, st).

#[export] Instance txM_bind : MBind txM := fun A B f p st =>
  match p st with
  | (Ok a, st') => f a st'
  | (Err e, st') => (Err e, st')
  end.

Definition tx_throw {A} (e : exn) : txM A := fun st => (Err e, st).

Definition tx_lift {A} (r : result exn A) : txM A := fun st => (r, st).

(** [try { p } catch (e) { h(e) }] around statements. *)
Definition tx_catch {A} (h : exn -> txM A) (p : txM A) : txM A := fun st =>
  match p st with
  | (Ok a, st') => (Ok a, st')
  | (Err e, st') => h e st'
  end.

(** A statement: refused in an aborted transaction, aborting it when it fails. *)
Definition query {A} (f : tx_state -> result exn (A * database)) : txM A := fun st =>
  if tx_aborted st then (Err (EPg pg_in_failed_transaction), st)
  else match f st with
       | Ok (a, d) => (Ok a, tx_set_db d st)
       | Err e => (Err e, tx_abort st)
       end.

(** ** Savepoints *)

Definition pg_no_savepoint : jsstr := js "3B001".

Definition sql_savepoint (name : jsstr) : txM unit := fun st =>
  if tx_aborted st then (Err (EPg pg_in_failed_transaction), st)
  else (Ok tt, mkTx (tx_db st) (tx_seq st) (tx_guc st) (tx_now st) false
                 ((name, tx_db st) :: tx_savepoints st)).

(** The savepoints from the innermost one called [name] outwards. *)
Fixpoint savepoints_from (name : jsstr) (l : list (jsstr * database)) : list (jsstr * database) :=
  match l with
  | [] => []
  | (n, d) :: l' => if bool_decide (n = name) then l else savepoints_from name l'
  end.

(** [ROLLBACK TO SAVEPOINT name]: allowed in an aborted transaction. *)
Definition sql_rollback_to (name : jsstr) : txM unit := fun st =>
  match savepoints_from name (tx_savepoints st) with
  | [] => (Err (EPg pg_no_savepoint), tx_abort st)
  | (n, d) :: l => (Ok tt, mkTx d (tx_seq st) (tx_guc st) (tx_now st) false ((n, d) :: l))
  end.

(** ** Row-level security *)

Definition pg_insufficient_privilege : jsstr := js "42501".

(** [app.current_tenant_id()]. *)
Definition current_tenant_id (st : tx_state) : result exn (option jsstr) :=
  if truthy (tx_guc st) then Some <$> uuid_param (tx_guc st) else Ok None.

(** The policy [tenant_id = app.current_tenant_id()]. *)
Definition policy {R} `{Table R} (cur : option jsstr) (r : R) : bool :=
  bool_decide (cur = Some (t_tenant r)).

(** ** Statements *)

Definition pg_fail {A} (b : bool) (code : jsstr) (k : result exn A) : result exn A :=
  if b then Err (EPg code) else k.

Section Statements.
Context {R : Type} `{Table R}.

Definition sql_select (where_ : result exn (R -> bool)) : txM (list R) :=
  query (fun st =>
    p ← where_;
    cur ← current_tenant_id st;
    Ok (List.filter (fun r => policy cur r && p r) (t_rows (tx_db st)), tx_db st)).

(** [INSERT ... RETURNING]; [mk] builds the row from a fresh [gen_random_uuid()]
    and [now()]. *)
Definition sql_insert `{Entropy} (mk : jsstr -> Z -> result exn R) : txM R := fun st =>
  let '(res, st') := query (fun st =>
    r ← mk (pg_uuid (tx_seq st)) (tx_now st);
    cur ← current_tenant_id st;
    pg_fail (negb (policy cur r)) pg_insufficient_privilege (
    pg_fail (negb (t_check r)) pg_check_violation (
    pg_fail (existsb (t_conflict r) (t_rows (tx_db st))) PG_UNIQUE_VIOLATION (
    let d := t_put (t_rows (tx_db st) ++ [r]) (tx_db st) in
    pg_fail (negb (t_refs d r)) pg_foreign_key_violation (
    Ok (r, d)))))) st in
  (res, tx_bump st').

(** [UPDATE ... SET ... WHERE ... RETURNING]: the updated rows.  [upd] gets
    [now()] for the [updated_at] triggers. *)
Definition sql_update (where_upd : result exn ((R -> bool) * (Z -> R -> R))) : txM (list R) :=
  query (fun st =>
    wu ← where_upd;
    cur ← current_tenant_id st;
    let hit r := policy cur r && wu.1 r in
    let upd := wu.2 (tx_now st) in
    let rows' := map (fun r => if hit r then upd r else r) (t_rows (tx_db st)) in
    let changed := map upd (List.filter hit (t_rows (tx_db st))) in
    let d := t_put rows' (tx_db st) in
    pg_fail (negb (forallb (policy cur) changed)) pg_insufficient_privilege (
    pg_fail (negb (forallb t_check changed)) pg_check_violation (
    pg_fail (negb (conflict_free t_conflict rows')) PG_UNIQUE_VIOLATION (
    pg_fail (negb (forallb (t_refs d) changed)) pg_foreign_key_violation (
    Ok (changed, d)))))).

(** [INSERT ... ON CONFLICT DO UPDATE ... RETURNING], the arbiter being the
    table's key: [merge] builds the updated row from the proposed one, [now()]
    and the existing one. *)
Definition sql_upsert (mk : Z -> result exn R) (merge : R -> Z -> R -> R) : txM R :=
  query (fun st =>
    r ← mk (tx_now st);
    cur ← current_tenant_id st;
    let rows := t_rows (tx_db st) in
    pg_fail (negb (policy cur r)) pg_insufficient_privilege (
    pg_fail (negb (t_check r)) pg_check_violation (
    match List.filter (t_conflict r) rows with
    | [] =>
        let d := t_put (rows ++ [r]) (tx_db st) in
        pg_fail (negb (t_refs d r)) pg_foreign_key_violation (Ok (r, d))
    | old :: _ =>
        let r' := merge r (tx_now st) old in
        let d := t_put (map (fun o => if t_conflict r o then merge r (tx_now st) o else o) rows)
                   (tx_db st) in
        pg_fail (negb (policy cur old && policy cur r')) pg_insufficient_privilege (
        pg_fail (negb (t_check r')) pg_check_violation (
        pg_fail (negb (t_refs d r')) pg_foreign_key_violation (Ok (r', d))))
    end))).

(** [DELETE ... WHERE]: the number of deleted rows. *)
Definition sql_delete (where_ : result exn (R -> bool)) : txM nat :=
  query (fun st =>
    p ← where_;
    cur ← current_tenant_id st;
    let hit r := policy cur r && p r in
    let gone := List.filter hit (t_rows (tx_db st)) in
    let kept := List.filter (fun r => negb (hit r)) (t_rows (tx_db st)) in
    Ok (length gone, fold_right (t_on_delete (tx_now st)) (t_put kept (tx_db st)) gone)).

End Statements.

(** [const row = res.rows[0]; row ? f(row) : null]. *)
Definition first_row {R A} (f : R -> A) (rows : list R) : option A :=
  match rows with
  | row :: _ => Some (f row)
  | [] => None
  end.

(** [ORDER BY k DESC]; rows with equal keys keep their order. *)
Fixpoint insert_desc {R} (key : R -> Z) (r : R) (l : list R) : list R :=
  match l with
  | [] => [r]
  | r' :: l' => if (key r' <=? key r)%Z then r :: l else r' :: insert_desc key r l'
  end.

Definition order_by_desc {R} (key : R -> Z) (l : list R) : list R :=
  fold_right (insert_desc key) [] l.

(** ** [withTenantTx] *)

(** BEGIN; set_config('app.tenant_id', tenantId, true); fn; COMMIT — or ROLLBACK
    and rethrow.  COMMIT of an aborted transaction rolls back without an error. *)
Definition run_tx {A} (tenantId : jsstr) (fn : txM A) (w : world) : result exn A * world :=
  let '(res, st) := fn (mkTx (w_db w) (w_pgseq w) tenantId (w_dbnow w) false []) in
  match res with
  | Ok a => (Ok a, set_db_seq (if tx_aborted st then w_db w else tx_db st) (tx_seq st) w)
  | Err e => (Err e, set_db_seq (w_db w) (tx_seq st) w)
  end.

Definition withTenantTx {A} (tenantId : jsstr) (fn : txM A) : prog world A :=
  atomic (run_tx tenantId fn).

(** A plain [pool.query]: one statement in its own transaction, no tenant armed. *)
Definition pool_query {A} (fn : txM A) : prog world A := atomic (run_tx [] fn).

(** * Lemmas *)

Lemma filter_none {A} (f : A -> bool) l : (forall x, f x = false) -> List.filter f l = [].
Proof. intros Hf. induction l as [|x l IH]; simpl; [done|]. by rewrite Hf. Qed.

Lemma filter_all {A} (f : A -> bool) l : (forall x, f x = true) -> List.filter f l = l.
Proof. intros Hf. induction l as [|x l IH]; simpl; [done|]. by rewrite Hf, IH. Qed.

(** ** A logic of transactions

    [tx_keeps P t p]: run with tenant [t] armed, [p] keeps the predicate [P] of
    the random source's position and the database, at every savepoint too. *)

Section Keeps.
Context (P : nat -> database -> Prop) (t : jsstr).

Definition tx_inv (st : tx_state) : Prop :=
  P (tx_seq st) (tx_db st) /\ Forall (fun s => P (tx_seq st) s.2) (tx_savepoints st) /\
  tx_guc st = t.

Definition tx_keeps {A} (p : txM A) : Prop := forall st,
  tx_inv st -> tx_inv (p st).2 /\ tx_seq st <= tx_seq (p st).2.

Lemma keeps_ret {A} (a : A) : tx_keeps (mret a).
Proof. intros st Hst. by split. Qed.

Lemma keeps_throw {A} e : tx_keeps (A := A) (tx_throw e).
Proof. intros st Hst. by split. Qed.

Lemma keeps_lift {A} (r : result exn A) : tx_keeps (tx_lift r).
Proof. intros st Hst. by split. Qed.

Lemma keeps_bind {A B} (p : txM A) (f : A -> txM B) :
  tx_keeps p -> (forall a, tx_keeps (f a)) -> tx_keeps (p ≫= f).
Proof.
  intros Hp Hf st Hst. unfold mbind, txM_bind. specialize (Hp st Hst).
  destruct (p st) as [[a|e] st']; simpl in *; [|done]. destruct Hp as [Hi Hs].
  destruct (Hf a st' Hi). split; [done|lia].
Qed.

Lemma keeps_catch {A} (p : txM A) h :
  tx_keeps p -> (forall e, tx_keeps (h e)) -> tx_keeps (tx_catch h p).
Proof.
  intros Hp Hh st Hst. unfold tx_catch. specialize (Hp st Hst).
  destruct (p st) as [[a|e] st']; simpl in *; [done|]. destruct Hp as [Hi Hs].
  destruct (Hh e st' Hi). split; [done|lia].
Qed.

Lemma keeps_query {A} (f : tx_state -> result exn (A * database)) :
  (forall st a d, tx_inv st -> f st = Ok (a, d) -> P (tx_seq st) d) -> tx_keeps (query f).
Proof.
  intros Hf st Hst. unfold query. destruct (tx_aborted st); [by split|].
  destruct (f st) as [[a d]|e] eqn:E; simpl; [|by split].
  split; [|done]. pose proof Hst as (? & ? & ?). split_and!; simpl; eauto.
Qed.

Lemma keeps_savepoint name : tx_keeps (sql_savepoint name).
Proof.
  intros st Hst. unfold sql_savepoint. destruct (tx_aborted st); [by split|].
  destruct Hst as (? & ? & ?). simpl. split; [|done]. split_and!; simpl; auto.
Qed.

Lemma keeps_rollback name : tx_keeps (sql_rollback_to name).
Proof.
  intros st Hst. unfold sql_rollback_to. pose proof Hst as (HP & Hs & Hg).
  assert (Forall (fun s => P (tx_seq st) s.2) (savepoints_from name (tx_savepoints st))) as H.
  { induction (tx_savepoints st) as [|[n d] l IH]; simpl; [done|].
    apply Forall_cons in Hs as [? ?]. case_bool_decide; auto. }
  destruct (savepoints_from _ _) as [|[n d] l]; simpl; [by split|].
  apply Forall_cons in H as [? ?]. split; [|done]. split_and!; simpl; auto.
Qed.

Section Table.
Context {R : Type} `{Table R}.

Lemma keeps_select wh : tx_keeps (sql_select (R := R) wh).
Proof.
  apply keeps_query. intros st a d (HP & _) Hq.
  destruct wh as [p|]; simpl in Hq; [|done].
  destruct (current_tenant_id st); simplify_eq/=. done.
Qed.

Lemma keeps_insert `{Entropy} (mk : jsstr -> Z -> result exn R) :
  (forall n d, P n d -> P (S n) d) ->
  (forall n now d r u, P n d -> mk (pg_uuid n) now = Ok r -> uuid_in t = Some u -> t_tenant r = u ->
     t_check r = true -> existsb (t_conflict r) (t_rows d) = false ->
     t_refs (t_put (t_rows d ++ [r]) d) r = true -> P (S n) (t_put (t_rows d ++ [r]) d)) ->
  tx_keeps (sql_insert mk).
Proof.
  intros Hm Hins st Hst. unfold sql_insert, query. pose proof Hst as (HP & Hs & Hg).
  assert (HsS : Forall (fun s => P (S (tx_seq st)) s.2) (tx_savepoints st)).
  { eapply Forall_impl; [exact Hs|]. simpl. auto. }
  destruct (tx_aborted st); [split; [split_and!; simpl; auto|simpl; lia]|].
  destruct (mk _ _) as [r|] eqn:Emk; simpl; [|split; [split_and!; simpl; auto|simpl; lia]].
  unfold current_tenant_id. rewrite Hg.
  destruct (truthy t) eqn:Et; simpl; [|split; [split_and!; simpl; auto|simpl; lia]].
  unfold uuid_param. destruct (uuid_in t) as [u|] eqn:Eu; simpl;
    [|split; [split_and!; simpl; auto|simpl; lia]].
  unfold pg_fail. unfold policy. case_bool_decide; simplify_eq/=;
    [|split; [split_and!; simpl; auto|simpl; lia]].
  destruct (t_check r) eqn:Ec; simpl; [|split; [split_and!; simpl; auto|simpl; lia]].
  destruct (existsb _ _) eqn:Ex; simpl; [split; [split_and!; simpl; auto|simpl; lia]|].
  destruct (t_refs _ r) eqn:Er; simpl; split; try lia; split_and!; simpl; eauto.
Qed.

Lemma policy_Some u r : policy (Some u) r = true <-> t_tenant r = u.
Proof. unfold policy. rewrite bool_decide_eq_true. naive_solver. Qed.

Lemma policy_None r : policy None r = false.
Proof. by apply bool_decide_eq_false. Qed.

Lemma keeps_update wu :
  (forall n now d u p upd, P n d -> wu = Ok (p, upd) -> uuid_in t = Some u ->
     let hit r := policy (Some u) r && p r in
     let rows' := map (fun r => if hit r then upd now r else r) (t_rows d) in
     let changed := map (upd now) (List.filter hit (t_rows d)) in
     forallb (policy (Some u)) changed = true ->
     forallb t_check changed = true -> conflict_free t_conflict rows' = true ->
     forallb (t_refs (t_put rows' d)) changed = true -> P n (t_put rows' d)) ->
  (forall d, t_put (t_rows d) d = d) ->
  tx_keeps (sql_update (R := R) wu).
Proof.
  intros Hupd Hput. apply keeps_query. intros st a d (HP & _ & Hg) Hq.
  destruct wu as [[p upd]|]; simpl in Hq; [|done].
  unfold current_tenant_id in Hq. rewrite Hg in Hq.
  destruct (truthy t) eqn:Et; simpl in Hq.
  - unfold uuid_param in Hq. destruct (uuid_in t) as [u|] eqn:Eu; simpl in Hq; [|done].
    unfold pg_fail in Hq. repeat (case_match; simplify_eq/=). rewrite !negb_false_iff in *.
    eapply Hupd; eauto.
  - unfold pg_fail in Hq. repeat (case_match; simplify_eq/=).
    by rewrite map_id, Hput.
Qed.

Lemma keeps_upsert mk merge :
  (forall n now d r u, P n d -> mk now = Ok r -> uuid_in t = Some u -> t_tenant r = u ->
     t_check r = true -> List.filter (t_conflict r) (t_rows d) = [] ->
     t_refs (t_put (t_rows d ++ [r]) d) r = true -> P n (t_put (t_rows d ++ [r]) d)) ->
  (forall n now d r u old l, P n d -> mk now = Ok r -> uuid_in t = Some u -> t_tenant r = u ->
     t_check r = true -> List.filter (t_conflict r) (t_rows d) = old :: l ->
     let d' := t_put (map (fun o => if t_conflict r o then merge r now o else o) (t_rows d)) d in
     t_tenant old = u -> t_tenant (merge r now old) = u -> t_check (merge r now old) = true ->
     t_refs d' (merge r now old) = true -> P n d') ->
  tx_keeps (sql_upsert (R := R) mk merge).
Proof.
  intros Hins Hupd. apply keeps_query. intros st a d (HP & _ & Hg) Hq.
  destruct (mk (tx_now st)) as [r|] eqn:Emk; simpl in Hq; [|done].
  unfold current_tenant_id in Hq. rewrite Hg in Hq.
  destruct (truthy t) eqn:Et; simpl in Hq; [|done].
  unfold uuid_param in Hq. destruct (uuid_in t) as [u|] eqn:Eu; simpl in Hq; [|done].
  unfold pg_fail in Hq. destruct (policy (Some u) r) eqn:Ep; simpl in Hq; [|done].
  rewrite policy_Some in Ep. destruct (t_check r) eqn:Ec; simpl in Hq; [|done].
  destruct (List.filter _ _) as [|old l] eqn:Ef.
  - destruct (t_refs _ _) eqn:Er; simplify_eq/=. by eapply Hins.
  - destruct (policy (Some u) old && _) eqn:Ep'; simpl in Hq; [|done].
    apply andb_true_iff in Ep' as [Eo Em]. rewrite policy_Some in Eo, Em.
    destruct (t_check (merge _ _ _)) eqn:Ec'; simpl in Hq; [|done].
    destruct (t_refs _ _) eqn:Er; simplify_eq/=. by eapply Hupd.
Qed.

Lemma keeps_delete wh :
  (forall n now d u p, P n d -> wh = Ok p -> uuid_in t = Some u ->
     let hit r := policy (Some u) r && p r in
     P n (fold_right (t_on_delete now) (t_put (List.filter (fun r => negb (hit r)) (t_rows d)) d)
            (List.filter hit (t_rows d)))) ->
  (forall d, t_put (t_rows d) d = d) ->
  tx_keeps (sql_delete (R := R) wh).
Proof.
  intros Hdel Hput. apply keeps_query. intros st a d (HP & _ & Hg) Hq.
  destruct wh as [p|]; simpl in Hq; [|done].
  unfold current_tenant_id in Hq. rewrite Hg in Hq.
  destruct (truthy t) eqn:Et; simpl in Hq.
  - unfold uuid_param in Hq. destruct (uuid_in t) as [u|] eqn:Eu; simplify_eq/=. by eapply Hdel.
  - simplify_eq. rewrite (filter_none (fun _ => false)), filter_all by done.
    simpl. by rewrite Hput.
Qed.

End Table.

Lemma run_tx_keeps {A} (fn : txM A) w :
  (forall n d, P n d -> P (S n) d) -> tx_keeps fn -> P (w_pgseq w) (w_db w) ->
  let w' := (run_tx t fn w).2 in P (w_pgseq w') (w_db w') /\ w_pgseq w <= w_pgseq w'.
Proof.
  intros Hm Hk HP. unfold run_tx.
  assert (Hmono : forall n m d, n <= m -> P n d -> P m d).
  { intros n m d Hle HPn. induction Hle; auto. }
  destruct (Hk (mkTx (w_db w) (w_pgseq w) t (w_dbnow w) false [])) as [(HP' & _) Hs]; [by split_and!|].
  destruct (fn _) as [[a|e] st]; simpl in *; [|split; [eauto|done]].
  destruct (tx_aborted st); simpl; eauto.
Qed.

End Keeps.

(** The structure of a transaction's body; [leaf] handles the writing statements. *)
Ltac tx_auto leaf :=
  repeat first
    [ leaf
    | apply keeps_select
    | apply keeps_savepoint
    | apply keeps_rollback
    | apply keeps_ret
    | apply keeps_throw
    | apply keeps_lift
    | apply keeps_bind; [|intros ?]
    | apply keeps_catch; [|intros ?]
    | match goal with
      | |- tx_keeps _ _ (match ?x with _ => _ end) => destruct x
      | |- tx_keeps _ _ (let '(_, _) := ?x in _) => destruct x
      end ].
