(* ===== verification/Demo.v ===== *)
(** * Concrete instances

    Small third-party operations that satisfy the laws, and a small world (two
    tenants, their users, a refresh token, an invite), on which the theorems'
    hypotheses are checked by evaluation. *)

From stdpp Require Import base list option numbers strings gmap countable.
From S2P Require Import Prelude Errors Effects Tokens Rbac Email Entities Ports Uuid Schema World Sql.

(** ** Operations *)

Fixpoint hexN (len : nat) (n : N) : jsstr :=
  match len with
  | O => []
  | S l => hexN l (n / 16)%N ++ [hex_digit (n mod 16)%N]
  end.

(** UUIDs of the database's source start with a or 0, of the service's source with 1,
    the rows of the small world with f. *)
Definition demo_uuid (lead : N) (n : nat) : jsstr := uuid_out (lead :: hexN 31 (N.of_nat n)).

(** The first draw is not drawn again. *)
Definition demo_pg_uuid (n : nat) : jsstr :=
  match n with O => demo_uuid 97 0 | S _ => demo_uuid 48 n end.

Definition demo_entropy : Entropy :=
  {| pg_uuid := demo_pg_uuid;
     node_uuid := demo_uuid 49;
     node_hex := fun n k => hexN (2 * k) (N.of_nat n) |}.

Definition demo_hash (p : jsstr) : jsstr := take 60 (js "$2b$10$" ++ p ++ replicate 60 46%N).

Definition demo_bcrypt : Bcrypt :=
  {| bcrypt_hash := fun _ _ p => demo_hash p;
     bcrypt_compare := fun p h => bool_decide (h = demo_hash p) |}.

#[export] Instance JwtPayload_eq_dec : EqDecision JwtPayload.
Proof. solve_decision. Defined.

#[export] Instance JwtPayload_countable : Countable JwtPayload.
Proof.
  refine (inj_countable'
    (fun p => (jp_tenant_id p, jp_sub p, jp_role p, jp_iss p, jp_aud p, jp_iat p, jp_exp p))
    (fun '(a, b, c, d, e, f, g) => mkJwtPayload a b c d e f g) _).
  by intros [].
Defined.

Definition demo_jose : Jose :=
  {| jwt_sign := fun secret p => [Npos (encode (secret, p))];
     jwt_verify := fun secret iss aud now token =>
       match token with
       | [Npos k] =>
           match decode (A := jsstr * JwtPayload) k with
           | Some (s, p) =>
               if bool_decide (s = secret) && bool_decide (jp_iss p = iss)
                  && bool_decide (jp_aud p = aud) && (now <? jp_exp p)%Z
               then Some p else None
           | None => None
           end
       | _ => None
       end |}.

#[export] Instance OAuthStateRecord_eq_dec : EqDecision OAuthStateRecord.
Proof. solve_decision. Defined.

#[export] Instance OAuthStateRecord_countable : Countable OAuthStateRecord.
Proof.
  refine (inj_countable'
    (fun r => (os_state r, os_tenantId r, os_meta r, os_createdAt r))
    (fun '(a, b, c, d) => mkOAuthStateRecord a b c d) _).
  by intros [].
Defined.

Definition demo_codec : StateCodec :=
  {| state_stringify := fun r => [Npos (encode r)];
     state_parse := fun s => match s with [Npos k] => decode k | _ => None end |}.

(** ** A small world *)

Definition did (k : nat) : jsstr := demo_uuid 102 k.

Definition acme : jsstr := did 1.
Definition globex : jsstr := did 2.
Definition alice : jsstr := did 3.
Definition bob : jsstr := did 4.
Definition alice_token : jsstr := did 5.
Definition alice_family : jsstr := did 6.

Definition demo_db : database := {|
  d_tenants := [mk_tenants acme (js "acme") (js "Acme") t_active 0 0;
                mk_tenants globex (js "globex") (js "Globex") t_active 0 0];
  d_users := [mk_users alice acme (js "alice@acme.io") (demo_hash (js "secret")) None (js "active")
                false 0 0;
              mk_users bob globex (js "bob@globex.io") (demo_hash (js "hunter2")) None (js "active")
                false 0 0];
  d_memberships := [mk_memberships acme alice m_tenant_admin 0 0;
                    mk_memberships globex bob m_member 0 0];
  d_api_keys := [];
  d_retention_policies := [mk_retention_policies acme 30 365 (Some alice) 0 0];
  d_saved_queries := [];
  d_dashboards := [mk_dashboards (did 7) globex (js "errors") None (mkDashboardLayout []) (Some bob) 0 0];
  d_alert_rules := [];
  d_refresh_tokens := [mk_refresh_tokens alice_token acme alice alice_family
                         (pad_digest (js "s3cret")) 0 1000000 None None];
  d_oauth_identities := [];
  d_invites := [mk_invites (did 8) acme (js "carol@acme.io") (js "admin") (pad_digest (js "inv"))
                  (js "pending") 1000000 (Some alice) None 0 0]
|}.

Definition demo_world : world := {|
  w_db := demo_db;
  w_pgseq := 0;
  w_dbnow := 5000;
  w_now := 5000;
  w_rand := 0;
  w_states := ∅;
  w_redis := ∅;
  w_oauth_audit := [];
  w_invite_audit := [];
  w_mail := [];
  w_google := [];
  w_dummy := None
|}.

(** * Lemmas *)

Lemma hexN_length len n : length (hexN len n) = len.
Proof. revert n; induction len; intros n; simpl; [done|]. rewrite length_app, IHlen. simpl. lia. Qed.

Lemma hex_digit_lower n : (n < 16)%N -> is_lower_hex (hex_digit n) = true.
Proof.
  intros Hn. unfold hex_digit, is_lower_hex.
  rewrite orb_true_iff, !andb_true_iff, !N.leb_le. destruct (N.ltb_spec n 10); lia.
Qed.

Lemma hexN_lower len n : forallb is_lower_hex (hexN len n) = true.
Proof.
  revert n; induction len; intros n; simpl; [done|].
  rewrite forallb_app, IHlen. simpl. rewrite hex_digit_lower; [done|]. by apply N.mod_lt.
Qed.

Lemma demo_uuid_form lead n : is_lower_hex lead = true -> is_uuid (demo_uuid lead n) = true.
Proof.
  intros Hl. apply is_uuid_spec, uuid_in_out.
  - cbn [length]. by rewrite hexN_length.
  - constructor; [done|]. pose proof (hexN_lower 31 (N.of_nat n)) as H.
    rewrite forallb_forall in H. apply List.Forall_forall. exact H.
Qed.

Lemma demo_uuid_lead a b n m : a <> b -> demo_uuid a n <> demo_uuid b m.
Proof. intros Hab H. unfold demo_uuid, uuid_out in H. cbn [take app] in H. by simplify_eq. Qed.

Lemma demo_entropy_laws : @EntropyLaws demo_entropy.
Proof.
  split; intros.
  - destruct n; by apply demo_uuid_form.
  - by apply demo_uuid_form.
  - apply hexN_length.
  - apply hexN_lower.
Qed.

Lemma demo_hash_length p : length (demo_hash p) = 60.
Proof. unfold demo_hash. rewrite length_take, !length_app, length_replicate. lia. Qed.

Lemma demo_bcrypt_laws : @BcryptLaws demo_bcrypt.
Proof.
  split; simpl; intros.
  - by apply bool_decide_eq_true.
  - apply bool_decide_eq_false. intros ->. by rewrite demo_hash_length in *.
Qed.

Lemma demo_jose_laws : @JoseLaws demo_jose.
Proof.
  split; simpl. intros secret iss aud now p <- <- Hexp. rewrite decode_encode.
  rewrite !bool_decide_eq_true_2 by done. simpl. apply Z.ltb_lt in Hexp. by rewrite Hexp.
Qed.

Lemma demo_codec_laws : @StateCodecLaws demo_codec.
Proof. split; simpl; [|done]. intros r. apply decode_encode. Qed.
