(* ===== verification/Integrity.v ===== *)
(** * Database integrity and tenant isolation

    Two predicates every repository keeps.  [db_ok]: all constraints of the
    schema hold.  [others t d = D]: the rows of every tenant but [t] are [D].
    Each statement keeps both; the rules of [Sql] lift that to transactions. *)

From stdpp Require Import base list option numbers strings gmap.
From S2P Require Import Prelude Errors Effects Tokens Uuid Schema World Sql.

(** ** The integrity of the database *)

Definition rows_ok {R} `{Table R} (d : database) (l : list R) : Prop :=
  Forall (fun r => t_check r = true) l /\ conflict_free t_conflict l = true /\
  Forall (fun r => t_refs d r = true) l.

Definition tenants_ok (l : list tenants_row) : Prop :=
  Forall (fun r => tenants_check r = true) l /\ conflict_free tenants_conflict l = true.

Record db_ok (d : database) : Prop := mk_db_ok {
  ok_tenants : tenants_ok (d_tenants d);
  ok_users : rows_ok d (d_users d);
  ok_memberships : rows_ok d (d_memberships d);
  ok_api_keys : rows_ok d (d_api_keys d);
  ok_retention_policies : rows_ok d (d_retention_policies d);
  ok_saved_queries : rows_ok d (d_saved_queries d);
  ok_dashboards : rows_ok d (d_dashboards d);
  ok_alert_rules : rows_ok d (d_alert_rules d);
  ok_refresh_tokens : rows_ok d (d_refresh_tokens d);
  ok_oauth_identities : rows_ok d (d_oauth_identities d);
  ok_invites : rows_ok d (d_invites d)
}.

(** What the integrity of the database asks of one table. *)
Class TableOk (R : Type) `{Table R} : Prop := {
  to_rows d : db_ok d -> rows_ok d (t_rows d);
  to_put d l : db_ok d -> refs_kept d (t_put l d) -> rows_ok (t_put l d) l -> db_ok (t_put l d);
  to_append d l : refs_kept d (t_put (t_rows d ++ l) d)
}.

(** * Lemmas *)

Lemma rows_ok_kept {R} `{TableLaws R} d d' (l : list R) :
  refs_kept d d' -> rows_ok d l -> rows_ok d' l.
Proof.
  intros Hk (Hc & Hf & Hr). split_and!; try done.
  eapply Forall_impl; [exact Hr|]. intros r. by apply t_refs_mono.
Qed.

(** [conflict_free] as a statement on pairs. *)
Lemma conflict_free_cons {R} c (r : R) l :
  conflict_free c (r :: l) = true <->
  Forall (fun r' => c r r' = false) l /\ conflict_free c l = true.
Proof.
  simpl. rewrite andb_true_iff, forallb_forall, Forall_forall.
  setoid_rewrite negb_true_iff. setoid_rewrite list_elem_of_In. done.
Qed.

Lemma conflict_free_app {R} c (l l' : list R) :
  conflict_free c (l ++ l') = true <->
  conflict_free c l = true /\ conflict_free c l' = true /\
  Forall (fun r => Forall (fun r' => c r r' = false) l') l.
Proof.
  induction l as [|r l IH]; [simpl; naive_solver|].
  rewrite <-app_comm_cons, !conflict_free_cons, IH, Forall_app, Forall_cons. naive_solver.
Qed.

Lemma conflict_free_filter {R} c (f : R -> bool) l :
  conflict_free c l = true -> conflict_free c (List.filter f l) = true.
Proof.
  induction l as [|r l IH]; [done|]. rewrite conflict_free_cons. intros [Hr Hl]. simpl.
  destruct (f r); [|auto]. rewrite conflict_free_cons. split; [|auto].
  apply Forall_forall. intros x Hx. rewrite Forall_forall in Hr. apply Hr.
  apply list_elem_of_In in Hx. apply filter_In in Hx as [? _]. by apply list_elem_of_In.
Qed.

Lemma Forall_filter_bool {R} (Q : R -> Prop) (f : R -> bool) l :
  Forall Q l -> Forall Q (List.filter f l).
Proof. induction 1; simpl; [done|]. destruct (f x); auto. Qed.

Lemma conflict_free_map {R} c (f : R -> R) l :
  (forall a b, c (f a) (f b) = c a b) -> conflict_free c (map f l) = conflict_free c l.
Proof.
  intros Hc. induction l as [|r l IH]; simpl; [done|]. rewrite IH. f_equal.
  clear IH. induction l as [|x l IH]; simpl; [done|]. by rewrite Hc, IH.
Qed.

Lemma conflict_free_shrink {R} c (f : R -> R) l :
  (forall a b, c (f a) (f b) = true -> c a b = true) ->
  conflict_free c l = true -> conflict_free c (map f l) = true.
Proof.
  intros Hc. induction l as [|r l IH]; simpl; [done|]. rewrite !andb_true_iff, !forallb_forall.
  intros [Hr Hl]. split; [|by apply IH]. intros x (y & <- & Hy)%in_map_iff.
  specialize (Hr y Hy). rewrite negb_true_iff in Hr |- *. apply not_true_is_false. intros Hf.
  apply Hc in Hf. congruence.
Qed.

Lemma existsb_false {R} (f : R -> bool) l : existsb f l = false <-> Forall (fun x => f x = false) l.
Proof.
  induction l as [|x l IH]; simpl; [split; auto|].
  rewrite orb_false_iff, IH, Forall_cons. done.
Qed.

Lemma forallb_Forall {R} (f : R -> bool) l : forallb f l = true <-> Forall (fun x => f x = true) l.
Proof.
  induction l as [|x l IH]; simpl; [split; auto|].
  rewrite andb_true_iff, IH, Forall_cons. done.
Qed.

Ltac solve_table_ok :=
  split;
  [ by intros d []
  | intros d l [] Hk Hl; split; simpl; try done; by eapply rows_ok_kept
  | intros d l; split; intros; simpl; try done ].

#[export] Instance users_table_ok : TableOk users_row.
Proof.
  solve_table_ok. unfold user_exists in *; simpl. rewrite existsb_app. by rewrite H.
Qed.
#[export] Instance memberships_table_ok : TableOk memberships_row.
Proof. solve_table_ok. Qed.
#[export] Instance api_keys_table_ok : TableOk api_keys_row.
Proof. solve_table_ok. Qed.
#[export] Instance retention_policies_table_ok : TableOk retention_policies_row.
Proof. solve_table_ok. Qed.
#[export] Instance saved_queries_table_ok : TableOk saved_queries_row.
Proof. solve_table_ok. Qed.
#[export] Instance dashboards_table_ok : TableOk dashboards_row.
Proof. solve_table_ok. Qed.
#[export] Instance alert_rules_table_ok : TableOk alert_rules_row.
Proof. solve_table_ok. Qed.
#[export] Instance refresh_tokens_table_ok : TableOk refresh_tokens_row.
Proof. solve_table_ok. Qed.
#[export] Instance oauth_identities_table_ok : TableOk oauth_identities_row.
Proof. solve_table_ok. Qed.
#[export] Instance invites_table_ok : TableOk invites_row.
Proof. solve_table_ok. Qed.

(** ** Statements keep the integrity *)

Section KeepOk.
Context (t : jsstr).
Abbreviation keeps_ok := (tx_keeps (fun _ d => db_ok d) t).

Section AnyTable.
Context {R : Type} `{TableLaws R} `{!TableOk R}.

Lemma rows_ok_append d (r : R) :
  db_ok d -> t_check r = true -> existsb (t_conflict r) (t_rows d) = false ->
  t_refs (t_put (t_rows d ++ [r]) d) r = true -> db_ok (t_put (t_rows d ++ [r]) d).
Proof.
  intros Hd Hc Hx Hr. apply to_put; [done|apply to_append|].
  pose proof (to_rows d Hd) as (Hc' & Hf & Hr').
  split_and!; [by apply Forall_app; auto| |apply Forall_app; split; [|auto]].
  - rewrite conflict_free_app. split_and!; [done|done|].
    apply existsb_false in Hx. eapply Forall_impl; [exact Hx|].
    intros a Ha. simpl in Ha. rewrite t_conflict_sym in Ha. auto.
  - eapply Forall_impl; [exact Hr'|]. intros a. apply t_refs_mono, to_append.
Qed.

Lemma ok_insert `{Entropy} (mk : jsstr -> Z -> result exn R) : keeps_ok (sql_insert mk).
Proof. apply keeps_insert; [done|]. intros. by apply rows_ok_append. Qed.

(** An update that leaves the referenced keys alone. *)
Lemma ok_update wu :
  (forall d g, (forall r, g r = r \/ exists p upd now, wu = Ok (p, upd) /\ g r = upd now r) ->
     refs_kept d (t_put (map g (t_rows d)) d)) ->
  keeps_ok (sql_update (R := R) wu).
Proof.
  intros Hk. apply keeps_update; [|apply t_put_rows].
  intros n now d u p upd Hd -> Hu hit rows' changed _ Hc Hf Hr.
  assert (Hkept : refs_kept d (t_put rows' d)).
  { apply Hk. intros r. destruct (hit r); eauto 10. }
  apply to_put; [done|done|]. pose proof (to_rows d Hd) as (Hc' & _ & Hr').
  rewrite forallb_Forall in Hc, Hr. unfold changed in Hc, Hr. rewrite Forall_map in Hc, Hr.
  assert (Hsplit : forall Q : R -> Prop, Forall Q (t_rows d) ->
            Forall (Q ∘ upd now) (List.filter hit (t_rows d)) -> Forall Q rows').
  { intros Q HQ HQ'. unfold rows'. rewrite Forall_map. rewrite Forall_forall in HQ, HQ' |- *.
    intros r Hr0. destruct (hit r) eqn:E; simpl; rewrite ?E; [|auto].
    apply HQ'. apply list_elem_of_In, filter_In. split; [by apply list_elem_of_In|done]. }
  split_and!; [by apply Hsplit|done|]. apply Hsplit; [|done].
  eapply Forall_impl; [exact Hr'|]. intros a. by apply t_refs_mono.
Qed.

(** An upsert whose merge keeps the key and the tenant. *)
Lemma ok_upsert (mk : Z -> result exn R) merge :
  (forall d l, refs_kept d (t_put (R := R) l d)) ->
  (forall r now a b, t_conflict (merge r now a) b = t_conflict a b) ->
  (forall d r now a b, t_conflict r a = true -> t_conflict r b = true ->
     t_check (merge r now a) = t_check (merge r now b) /\
     t_refs d (merge r now a) = t_refs d (merge r now b)) ->
  keeps_ok (sql_upsert mk merge).
Proof.
  intros Hk Hm Hs. apply keeps_upsert.
  - intros n now d r u Hd _ _ _ Hc Hf Hr. apply rows_ok_append; try done.
    apply existsb_false, Forall_forall. intros x Hx.
    destruct (t_conflict r x) eqn:E; [|done]. exfalso.
    assert (In x (List.filter (t_conflict r) (t_rows d))) as Hin.
    { apply filter_In. split; [by apply list_elem_of_In|done]. }
    by rewrite Hf in Hin.
  - intros n now d r u old l Hd _ _ _ _ Hf d' _ _ Hc Hr.
    assert (Ho : t_conflict r old = true).
    { assert (In old (List.filter (t_conflict r) (t_rows d))) as [_ ?]%filter_In
        by (rewrite Hf; by left). done. }
    apply to_put; [done|apply Hk|]. pose proof (to_rows d Hd) as (Hc' & Hf' & Hr').
    split_and!.
    + rewrite Forall_map. eapply Forall_impl; [exact Hc'|]. intros x Hx. simpl.
      destruct (t_conflict r x) eqn:E; [|done]. by rewrite (proj1 (Hs d _ now _ _ E Ho)).
    + rewrite conflict_free_map; [done|]. intros a b.
      destruct (t_conflict r a), (t_conflict r b); rewrite ?Hm, ?(t_conflict_sym _ (merge _ _ _)), ?Hm;
        rewrite ?(t_conflict_sym b); done.
    + rewrite Forall_map. eapply Forall_impl; [exact Hr'|]. intros x Hx. simpl.
      destruct (t_conflict r x) eqn:E; [by rewrite (proj2 (Hs _ r now x old E Ho))|].
      eapply t_refs_mono; [apply Hk|done].
Qed.

(** A delete on a table nothing refers to. *)
Lemma ok_delete wh :
  (forall now r d, t_on_delete (R := R) now r d = d) -> (forall d l, refs_kept d (t_put (R := R) l d)) ->
  keeps_ok (sql_delete (R := R) wh).
Proof.
  intros Hd Hk. apply keeps_delete; [|apply t_put_rows]. intros n now d u p Hok _ _ hit.
  replace (fold_right _ _ _) with (t_put (List.filter (fun r => negb (hit r)) (t_rows d)) d).
  2: { generalize (List.filter hit (t_rows d)). intros l. induction l as [|r l IH]; simpl; [done|].
       by rewrite Hd. }
  apply to_put; [done|apply Hk|]. pose proof (to_rows d Hok) as (Hc' & Hf & Hr').
  split_and!; [by apply Forall_filter_bool|by apply conflict_free_filter|].
  apply Forall_filter_bool. eapply Forall_impl; [exact Hr'|]. intros a. by apply t_refs_mono.
Qed.

End AnyTable.
End KeepOk.

(** ** Deleting users keeps the integrity

    While the rows of deleted users are being removed or detached, references to
    the users [X] still to be processed may dangle. *)

Definition ref_mod (X : list users_row) (d : database) (t u : jsstr) : Prop :=
  user_exists d t u = true \/ Exists (fun x => ur_tenant_id x = t /\ ur_id x = u) X.

Definition actor_mod (X : list users_row) (d : database) (a : option jsstr) : Prop :=
  actor_exists d a = true \/ Exists (fun x => a = Some (ur_id x)) X.

Definition rows_mod {R} `{Table R} (d : database) (refs : R -> Prop) (l : list R) : Prop :=
  Forall (fun r => t_check r = true) l /\ conflict_free t_conflict l = true /\
  Forall (fun r => tenant_exists d (t_tenant r) = true /\ refs r) l.

Record db_mod (X : list users_row) (d : database) : Prop := mk_db_mod {
  md_tenants : tenants_ok (d_tenants d);
  md_users : rows_ok d (d_users d);
  md_memberships : rows_mod d (fun r => ref_mod X d (mr_tenant_id r) (mr_user_id r)) (d_memberships d);
  md_api_keys : rows_mod d (fun r => actor_mod X d (kr_created_by r)) (d_api_keys d);
  md_retention_policies :
    rows_mod d (fun r => actor_mod X d (rpr_updated_by r)) (d_retention_policies d);
  md_saved_queries : rows_mod d (fun r => actor_mod X d (sqr_created_by r)) (d_saved_queries d);
  md_dashboards : rows_mod d (fun r => actor_mod X d (dsr_created_by r)) (d_dashboards d);
  md_alert_rules : rows_mod d (fun r => actor_mod X d (arr_created_by r)) (d_alert_rules d);
  md_refresh_tokens :
    rows_mod d (fun r => ref_mod X d (rtr_tenant_id r) (rtr_user_id r)) (d_refresh_tokens d);
  md_oauth_identities :
    rows_mod d (fun r => ref_mod X d (oir_tenant_id r) (oir_user_id r)) (d_oauth_identities d);
  md_invites : rows_mod d (fun r => actor_mod X d (ivr_created_by r)) (d_invites d)
}.

Lemma rows_mod_filter {R} `{Table R} d d' (Q Q' : R -> Prop) f l :
  (forall r, f r = true -> Q r -> Q' r) ->
  (forall t, tenant_exists d t = true -> tenant_exists d' t = true) ->
  rows_mod d Q l -> rows_mod d' Q' (List.filter f l).
Proof.
  intros HQ Ht (Hc & Hf & Hr).
  split_and!; [by apply Forall_filter_bool|by apply conflict_free_filter|].
  rewrite Forall_forall in Hr |- *. intros r [Hi Hfr]%list_elem_of_In%filter_In.
  apply list_elem_of_In, Hr in Hi as [? ?]. auto.
Qed.

Lemma rows_mod_map {R} `{Table R} d d' (Q Q' : R -> Prop) f l :
  (forall r, Q r -> Q' (f r)) ->
  (forall t, tenant_exists d t = true -> tenant_exists d' t = true) ->
  (forall r, t_tenant (f r) = t_tenant r) -> (forall r, t_check (f r) = t_check r) ->
  (forall a b, t_conflict (f a) (f b) = t_conflict a b) ->
  rows_mod d Q l -> rows_mod d' Q' (map f l).
Proof.
  intros HQ Ht Hten Hchk Hcon (Hc & Hf & Hr).
  split_and!; [|by rewrite conflict_free_map|]; rewrite Forall_map.
  - eapply Forall_impl; [exact Hc|]. intros r Hr0. simpl. by rewrite Hchk.
  - eapply Forall_impl; [exact Hr|]. intros r [? ?]. simpl. rewrite Hten. auto.
Qed.

Lemma ref_mod_cons u X d t v :
  ref_mod (u :: X) d t v -> bool_decide (t = ur_tenant_id u /\ v = ur_id u) = false ->
  ref_mod X d t v.
Proof.
  intros [?|[[]|?]%Exists_cons] Hb%bool_decide_eq_false; [by left| |by right]. naive_solver.
Qed.

(** An authorship column after [ON DELETE SET NULL] of user [u]. *)
Lemma actor_mod_null u X d (a : option jsstr) :
  actor_mod (u :: X) d a ->
  actor_mod X d (if bool_decide (a = Some (ur_id u)) then None else a).
Proof.
  case_bool_decide; [by left|]. intros [?|[|?]%Exists_cons]; [by left|done|by right].
Qed.

Lemma users_on_delete_mod now u X d :
  db_mod (u :: X) d -> db_mod X (users_on_delete now u d).
Proof.
  intros []. split; simpl; try done.
  all: first [ eapply rows_mod_filter; [| |eassumption]; [|done]; simpl;
               intros r Hr%negb_true_iff ?; by eapply ref_mod_cons
             | eapply rows_mod_map; [| | | | |eassumption]; [| done| | | ];
               [ intros r Hr%actor_mod_null; revert Hr | intros r | intros r | intros a b ];
               simpl; unfold null_api_keys, null_retention_policies, null_saved_queries,
                 null_dashboards, null_alert_rules, null_invites; repeat case_bool_decide; simpl; done ].
Qed.

Lemma users_on_delete_fold now l X d :
  db_mod (l ++ X) d -> db_mod X (fold_right (users_on_delete now) d l).
Proof.
  revert X; induction l as [|u l IH]; intros X Hd; [done|]. simpl.
  apply users_on_delete_mod, IH.
  assert (Hp : forall (Q : users_row -> Prop), Exists Q ((u :: l) ++ X) -> Exists Q (l ++ u :: X)).
  { intros Q. rewrite <-app_comm_cons, Exists_cons, !Exists_app, Exists_cons. naive_solver. }
  destruct Hd. split; try done.
  all: match goal with H : rows_mod _ _ ?l |- rows_mod _ _ ?l => destruct H as (? & ? & Hr) end;
    split_and!; try done; (eapply Forall_impl; [exact Hr|]); intros r; simpl;
    intros [? [?|?]]; (split; [done|]); [by left|right; by apply Hp].
Qed.

Lemma db_mod_nil d : db_mod [] d -> db_ok d.
Proof.
  intros []. split; try done.
  all: match goal with H : rows_mod _ _ ?l |- rows_ok _ ?l => destruct H as (? & ? & Hr) end;
    split_and!; try done; (eapply Forall_impl; [exact Hr|]); intros r [? [?|?%Exists_nil]];
    simpl; [|done]; by apply andb_true_iff.
Qed.

(** Removing some users leaves the references to them dangling. *)
Lemma ref_mod_split d (hit : users_row -> bool) t u :
  user_exists d t u = true ->
  ref_mod (List.filter hit (d_users d))
    (set_users (List.filter (fun r => negb (hit r)) (d_users d)) d) t u.
Proof.
  unfold ref_mod, user_exists. rewrite !existsb_exists.
  intros (x & Hx & Hk%bool_decide_eq_true). destruct (hit x) eqn:E.
  - right. apply Exists_exists. exists x. split; [|done].
    apply list_elem_of_In, filter_In. done.
  - left. exists x. simpl. split; [|by apply bool_decide_eq_true].
    apply filter_In. by rewrite E.
Qed.

Lemma actor_mod_split d (hit : users_row -> bool) a :
  actor_exists d a = true ->
  actor_mod (List.filter hit (d_users d))
    (set_users (List.filter (fun r => negb (hit r)) (d_users d)) d) a.
Proof.
  destruct a as [u|]; [|by left]. simpl. rewrite user_id_exists_spec. intros [t Ht].
  apply (ref_mod_split d hit) in Ht as [Ht|Hx].
  - left. simpl. apply user_id_exists_spec. eauto.
  - right. eapply Exists_impl; [exact Hx|]. by intros x [_ <-].
Qed.

Lemma db_ok_remove_users d (hit : users_row -> bool) :
  db_ok d ->
  db_mod (List.filter hit (d_users d))
    (set_users (List.filter (fun r => negb (hit r)) (d_users d)) d).
Proof.
  intros []. split; [done|..].
  { destruct ok_users0 as (? & ? & Hr). split_and!;
      [by apply Forall_filter_bool|by apply conflict_free_filter|by apply Forall_filter_bool]. }
  all: match goal with H : rows_ok _ ?l |- rows_mod _ _ ?l => destruct H as (? & ? & Hr) end;
    split_and!; try done; (eapply Forall_impl; [exact Hr|]); intros r;
    simpl; rewrite andb_true_iff; intros [? ?]; split;
    [done|by apply ref_mod_split || by apply actor_mod_split].
Qed.

Lemma ok_delete_users t wh : tx_keeps (fun _ d => db_ok d) t (sql_delete (R := users_row) wh).
Proof.
  apply keeps_delete; [|apply t_put_rows]. intros n now d u p Hok _ _ hit.
  apply db_mod_nil, users_on_delete_fold. rewrite app_nil_r. by apply db_ok_remove_users.
Qed.

(** Updates of users that keep the key. *)
Lemma refs_kept_users d (g : users_row -> users_row) :
  (forall r, ur_id (g r) = ur_id r /\ ur_tenant_id (g r) = ur_tenant_id r) ->
  refs_kept d (set_users (map g (d_users d)) d).
Proof.
  intros Hg. split; [done|]. intros t u. unfold user_exists. simpl.
  rewrite !existsb_exists. intros (x & Hx & Hk%bool_decide_eq_true).
  exists (g x). split; [by apply in_map|]. apply bool_decide_eq_true.
  destruct (Hg x) as [-> ->]. done.
Qed.

(** ** Deleting a tenant *)

Lemma not_of_rows_ok {R} `{TableLaws R} d d' t (l : list R) :
  (forall r, t_tenant r <> t -> t_refs d r = true -> t_refs d' r = true) ->
  rows_ok d l -> rows_ok d' (not_of t l).
Proof.
  intros Ht (Hc & Hf & Hr). unfold not_of.
  split_and!; [by apply Forall_filter_bool|by apply conflict_free_filter|].
  rewrite Forall_forall in Hr |- *.
  intros r [Hi Hn%negb_true_iff%bool_decide_eq_false]%list_elem_of_In%filter_In.
  apply list_elem_of_In in Hi. auto.
Qed.

Lemma not_of_idem {R} `{Table R} t (l : list R) : not_of t (not_of t l) = not_of t l.
Proof.
  unfold not_of. induction l as [|r l IH]; simpl; [done|].
  destruct (negb _) eqn:E; simpl; rewrite ?E, ?IH; done.
Qed.

(** A tenant whose users are gone can be removed with everything it owns. *)
Lemma db_ok_remove_tenant d t :
  db_ok d -> not_of t (d_users d) = d_users d ->
  db_ok (set_tenants (List.filter (fun r => negb (bool_decide (tr_id r = t))) (d_tenants d))
           (others t d)).
Proof.
  intros Hd Hu.
  set (d' := set_tenants _ _).
  assert (Ht : forall x, x <> t -> tenant_exists d x = true -> tenant_exists d' x = true).
  { intros x Hx. unfold tenant_exists, d'. simpl. rewrite !existsb_exists.
    intros (r & Hr & <-%bool_decide_eq_true). exists r. split; [|by apply bool_decide_eq_true].
    apply filter_In. split; [done|]. by rewrite bool_decide_eq_false_2. }
  assert (Hue : forall x u, user_exists d' x u = user_exists d x u).
  { intros x u. unfold user_exists, d'. simpl. by rewrite Hu. }
  assert (Hae : forall a, actor_exists d a = true -> actor_exists d' a = true).
  { intros [u|]; [|done]. simpl. rewrite !user_id_exists_spec. setoid_rewrite Hue. done. }
  destruct Hd. split; simpl.
  { destruct ok_tenants0. split; [by apply Forall_filter_bool|by apply conflict_free_filter]. }
  all: eapply not_of_rows_ok; [|eassumption]; intros r Hr; simpl; rewrite ?andb_true_iff, ?Hue;
    naive_solver.
Qed.

Lemma users_on_delete_set_users now l L d :
  fold_right (users_on_delete now) (set_users L d) l
  = set_users L (fold_right (users_on_delete now) d l).
Proof. induction l as [|u l IH]; simpl; [done|]. by rewrite IH. Qed.

Lemma users_on_delete_set_tenants now l L d :
  fold_right (users_on_delete now) (set_tenants L d) l
  = set_tenants L (fold_right (users_on_delete now) d l).
Proof. induction l as [|u l IH]; simpl; [done|]. by rewrite IH. Qed.

Lemma users_on_delete_users now l d :
  d_users (fold_right (users_on_delete now) d l) = d_users d /\
  d_tenants (fold_right (users_on_delete now) d l) = d_tenants d.
Proof. by induction l as [|u l [IH1 IH2]]. Qed.

Lemma tenants_on_delete_ok now r d :
  db_ok d ->
  db_ok (tenants_on_delete now r
           (set_tenants (List.filter (fun x => negb (bool_decide (tr_id x = tr_id r))) (d_tenants d)) d)).
Proof.
  intros Hd. unfold tenants_on_delete. rewrite users_on_delete_set_tenants. simpl.
  set (hit := fun u => bool_decide (ur_tenant_id u = tr_id r)).
  pose proof (db_ok_remove_users d hit Hd) as Hm. rewrite <-(app_nil_r (List.filter hit _)) in Hm.
  apply users_on_delete_fold with (now := now), db_mod_nil in Hm.
  rewrite users_on_delete_set_users in Hm.
  apply (db_ok_remove_tenant _ (tr_id r)) in Hm; [|exact (not_of_idem (tr_id r) (d_users d))].
  simpl in Hm. rewrite (proj2 (users_on_delete_users _ _ _)) in Hm.
  refine (eq_ind _ db_ok Hm _ _). unfold others, set_tenants; simpl.
  rewrite (proj1 (users_on_delete_users _ _ _)). f_equal.
  exact (not_of_idem (tr_id r) (d_users d)).
Qed.

(** ** Statements leave the other tenants' rows alone *)

(** The tenant a transaction armed with [t] acts for. *)
Definition armed (t : jsstr) : jsstr := default [] (uuid_in t).

Lemma not_of_app {R} `{Table R} t (l l' : list R) : not_of t (l ++ l') = not_of t l ++ not_of t l'.
Proof. apply List.filter_app. Qed.

Lemma not_of_map {R} `{Table R} t (g : R -> R) l :
  Forall (fun r => g r = r \/ t_tenant r = t /\ t_tenant (g r) = t) l ->
  not_of t (map g l) = not_of t l.
Proof.
  unfold not_of. induction 1 as [|r l [Hg|[H1 H2]] Hl IH]; simpl; [done|by rewrite Hg, IH|].
  by rewrite (bool_decide_eq_true_2 _ H1), (bool_decide_eq_true_2 _ H2).
Qed.

Lemma not_of_filter {R} `{Table R} t (f : R -> bool) l :
  (forall r, f r = false -> t_tenant r = t) -> not_of t (List.filter f l) = not_of t l.
Proof.
  intros Hf. unfold not_of. induction l as [|r l IH]; simpl; [done|].
  destruct (f r) eqn:E; simpl; rewrite IH; [done|].
  by rewrite (bool_decide_eq_true_2 _ (Hf r E)).
Qed.

Section Isolation.
Context (t : jsstr) (D : database).
Abbreviation isolated := (tx_keeps (fun _ d => others (armed t) d = D) t).

Section AnyTable.
Context {R : Type} `{TableLaws R}.

Lemma others_put_same d (l : list R) u :
  others u d = D -> not_of u l = not_of u (t_rows d) -> others u (t_put l d) = D.
Proof. intros <- Hl. by rewrite t_others_put, Hl, <-t_others_rows, t_put_rows. Qed.

Lemma iso_insert `{Entropy} (mk : jsstr -> Z -> result exn R) : isolated (sql_insert mk).
Proof.
  apply keeps_insert; [done|]. intros n now d r u HD _ Hu Hr _ _ _.
  apply others_put_same; [done|]. unfold armed. rewrite Hu. simpl.
  rewrite not_of_app. unfold not_of at 2. simpl.
  by rewrite bool_decide_eq_true_2, app_nil_r.
Qed.

Lemma iso_update wu : isolated (sql_update (R := R) wu).
Proof.
  apply keeps_update; [|apply t_put_rows].
  intros n now d u p upd HD _ Hu hit rows' changed Hp _ _ _.
  apply others_put_same; [done|]. unfold armed. rewrite Hu. apply not_of_map.
  rewrite forallb_Forall in Hp. unfold changed in Hp. rewrite Forall_map in Hp.
  rewrite Forall_forall in Hp |- *. intros r Hr.
  destruct (hit r) eqn:E; [right|by left].
  pose proof E as [Ht _]%andb_true_iff. rewrite policy_Some in Ht. split; [done|].
  rewrite <-policy_Some. apply Hp, list_elem_of_In, filter_In.
  split; [by apply list_elem_of_In|done].
Qed.

Lemma iso_upsert (mk : Z -> result exn R) merge :
  (forall r now o, t_conflict r o = true -> t_tenant o = t_tenant r /\ t_tenant (merge r now o) = t_tenant r) ->
  isolated (sql_upsert mk merge).
Proof.
  intros Hm. apply keeps_upsert.
  - intros n now d r u HD _ Hu Hr _ _ _. apply others_put_same; [done|]. unfold armed. rewrite Hu.
    rewrite not_of_app. unfold not_of at 2. simpl.
    by rewrite bool_decide_eq_true_2, app_nil_r.
  - intros n now d r u old l HD _ Hu Hr _ _ d' _ _ _ _. apply others_put_same; [done|].
    unfold armed. rewrite Hu. apply not_of_map, Forall_true. intros o.
    destruct (t_conflict r o) eqn:E; [right|by left]. destruct (Hm r now o E) as [-> ->]. done.
Qed.

Lemma iso_delete wh :
  (forall now r d, t_on_delete (R := R) now r d = d) -> isolated (sql_delete (R := R) wh).
Proof.
  intros Hd. apply keeps_delete; [|apply t_put_rows]. intros n now d u p HD _ Hu hit.
  replace (fold_right _ _ _) with (t_put (List.filter (fun r => negb (hit r)) (t_rows d)) d).
  2: { generalize (List.filter hit (t_rows d)). intros l. induction l as [|r l IH]; simpl; [done|].
       by rewrite Hd. }
  apply others_put_same; [done|]. unfold armed. rewrite Hu. apply not_of_filter.
  intros r [Ht _]%negb_false_iff%andb_true_iff. by apply policy_Some in Ht.
Qed.

End AnyTable.
End Isolation.

(** Authorship columns name users of the row's own tenant. *)
Definition author_local (d : database) (t : jsstr) (a : option jsstr) : Prop :=
  Forall (fun x => a = Some (ur_id x) -> ur_tenant_id x = t) (d_users d).

Record authors_local (d : database) : Prop := mk_authors_local {
  al_api_keys : Forall (fun r => author_local d (kr_tenant_id r) (kr_created_by r)) (d_api_keys d);
  al_retention_policies :
    Forall (fun r => author_local d (rpr_tenant_id r) (rpr_updated_by r)) (d_retention_policies d);
  al_saved_queries :
    Forall (fun r => author_local d (sqr_tenant_id r) (sqr_created_by r)) (d_saved_queries d);
  al_dashboards :
    Forall (fun r => author_local d (dsr_tenant_id r) (dsr_created_by r)) (d_dashboards d);
  al_alert_rules :
    Forall (fun r => author_local d (arr_tenant_id r) (arr_created_by r)) (d_alert_rules d);
  al_invites : Forall (fun r => author_local d (ivr_tenant_id r) (ivr_created_by r)) (d_invites d)
}.

(** Every row that names user [x] as its author belongs to tenant [t]. *)
Record author_in (t : jsstr) (x : users_row) (d : database) : Prop := mk_author_in {
  ai_api_keys : Forall (fun r => kr_created_by r = Some (ur_id x) -> kr_tenant_id r = t) (d_api_keys d);
  ai_retention_policies :
    Forall (fun r => rpr_updated_by r = Some (ur_id x) -> rpr_tenant_id r = t) (d_retention_policies d);
  ai_saved_queries :
    Forall (fun r => sqr_created_by r = Some (ur_id x) -> sqr_tenant_id r = t) (d_saved_queries d);
  ai_dashboards :
    Forall (fun r => dsr_created_by r = Some (ur_id x) -> dsr_tenant_id r = t) (d_dashboards d);
  ai_alert_rules :
    Forall (fun r => arr_created_by r = Some (ur_id x) -> arr_tenant_id r = t) (d_alert_rules d);
  ai_invites : Forall (fun r => ivr_created_by r = Some (ur_id x) -> ivr_tenant_id r = t) (d_invites d)
}.

Ltac unfold_nulls :=
  unfold null_api_keys, null_retention_policies, null_saved_queries,
    null_dashboards, null_alert_rules, null_invites.

Lemma authors_local_in d x :
  authors_local d -> x ∈ d_users d -> author_in (ur_tenant_id x) x d.
Proof.
  intros [] Hx. split; (eapply Forall_impl; [eassumption|]); intros r Hr Ha;
    unfold author_local in Hr; rewrite Forall_forall in Hr; symmetry; by apply Hr.
Qed.

Lemma users_on_delete_author_in now x y t d :
  author_in t x d -> author_in t x (users_on_delete now y d).
Proof.
  intros []. split; simpl; rewrite Forall_map; (eapply Forall_impl; [eassumption|]); intros r Hr;
    unfold compose; unfold_nulls; case_bool_decide; simpl; done.
Qed.

Lemma users_on_delete_others now x d t :
  ur_tenant_id x = t -> author_in t x d -> others t (users_on_delete now x d) = others t d.
Proof.
  intros Hx []. unfold others, users_on_delete. simpl. f_equal.
  all: [> first [ apply not_of_filter; intros r [Hr _]%negb_false_iff%bool_decide_eq_true; simpl; congruence
                | apply not_of_map; (eapply Forall_impl; [eassumption|]); intros r Hr; unfold_nulls;
                  case_bool_decide; [right; simpl in *; auto|by left] ] ..].
Qed.

Lemma users_on_delete_fold_others now l d t :
  Forall (fun x => ur_tenant_id x = t /\ author_in t x d) l ->
  others t (fold_right (users_on_delete now) d l) = others t d.
Proof.
  intros Hl. assert (Hin : forall x, author_in t x d ->
    author_in t x (fold_right (users_on_delete now) d l)).
  { clear Hl. intros x Hx. induction l as [|y l IH]; simpl; [done|].
    by apply users_on_delete_author_in. }
  revert Hin. induction Hl as [|x l [Hx Ha] Hl IH]; intros Hin; simpl; [done|].
  assert (Hin' : forall y, author_in t y d -> author_in t y (fold_right (users_on_delete now) d l)).
  { clear -Hl. intros y Hy. induction l as [|z l IH]; simpl; [done|].
    apply users_on_delete_author_in, IH. by apply Forall_cons in Hl as [_ ?]. }
  rewrite users_on_delete_others; auto.
Qed.

Lemma iso_delete_users t wh st :
  tx_guc st = t -> authors_local (tx_db st) ->
  others (armed t) (tx_db (sql_delete (R := users_row) wh st).2) = others (armed t) (tx_db st).
Proof.
  intros Hg Hal. unfold sql_delete, query.
  destruct (tx_aborted st); [done|]. destruct wh as [p|]; simpl; [|done].
  unfold current_tenant_id. rewrite Hg. destruct (truthy t) eqn:Et; simpl.
  2: { rewrite (filter_none (fun _ => false)), filter_all by done. simpl. by destruct (tx_db st). }
  unfold uuid_param, armed. destruct (uuid_in t) as [u|] eqn:Eu; simpl; [|done].
  rewrite users_on_delete_set_users.
  set (hit := fun r => policy (Some u) r && p r).
  assert (Hl : Forall (fun x => ur_tenant_id x = u /\ author_in u x (tx_db st))
                 (List.filter hit (d_users (tx_db st)))).
  { apply Forall_forall. intros x [Hx [Hp _]%andb_true_iff]%list_elem_of_In%filter_In.
    rewrite policy_Some in Hp. simpl in Hp. split; [done|]. rewrite <-Hp.
    apply authors_local_in; [done|by apply list_elem_of_In]. }
  change set_users with (t_put (R := users_row)).
  rewrite t_others_put, users_on_delete_fold_others by done. rewrite not_of_filter.
  2: { intros r [Hp _]%negb_false_iff%andb_true_iff. by apply policy_Some in Hp. }
  reflexivity.
Qed.

(** ** Statements keep the authors local *)

(** The authorship column of a table, and what [authors_local] asks of it. *)
Class Authored (R : Type) `{Table R} := { t_author : R -> option jsstr }.

Class AuthoredLaws (R : Type) `{Authored R} : Prop := {
  aw_rows d : authors_local d -> Forall (fun r => author_local d (t_tenant r) (t_author r)) (t_rows d);
  aw_put d l : authors_local d -> Forall (fun r => author_local d (t_tenant r) (t_author r)) l ->
    authors_local (t_put l d);
  aw_users d l : d_users (t_put l d) = d_users d
}.

#[export] Instance memberships_authored : Authored memberships_row := {| t_author _ := None |}.
#[export] Instance refresh_tokens_authored : Authored refresh_tokens_row := {| t_author _ := None |}.
#[export] Instance oauth_identities_authored : Authored oauth_identities_row := {| t_author _ := None |}.
#[export] Instance api_keys_authored : Authored api_keys_row := {| t_author := kr_created_by |}.
#[export] Instance retention_policies_authored : Authored retention_policies_row := {| t_author := rpr_updated_by |}.
#[export] Instance saved_queries_authored : Authored saved_queries_row := {| t_author := sqr_created_by |}.
#[export] Instance dashboards_authored : Authored dashboards_row := {| t_author := dsr_created_by |}.
#[export] Instance alert_rules_authored : Authored alert_rules_row := {| t_author := arr_created_by |}.
#[export] Instance invites_authored : Authored invites_row := {| t_author := ivr_created_by |}.

Lemma author_local_none d t : author_local d t None.
Proof. apply Forall_true. done. Qed.

Ltac solve_authored_laws :=
  split; [intros d Hd; first [apply Hd | apply Forall_true; intros r; apply author_local_none]
         |intros d l Hd Hl; destruct Hd; by split|done].

#[export] Instance memberships_authored_laws : AuthoredLaws memberships_row.
Proof. solve_authored_laws. Qed.
#[export] Instance refresh_tokens_authored_laws : AuthoredLaws refresh_tokens_row.
Proof. solve_authored_laws. Qed.
#[export] Instance oauth_identities_authored_laws : AuthoredLaws oauth_identities_row.
Proof. solve_authored_laws. Qed.
#[export] Instance api_keys_authored_laws : AuthoredLaws api_keys_row.
Proof. solve_authored_laws. Qed.
#[export] Instance retention_policies_authored_laws : AuthoredLaws retention_policies_row.
Proof. solve_authored_laws. Qed.
#[export] Instance saved_queries_authored_laws : AuthoredLaws saved_queries_row.
Proof. solve_authored_laws. Qed.
#[export] Instance dashboards_authored_laws : AuthoredLaws dashboards_row.
Proof. solve_authored_laws. Qed.
#[export] Instance alert_rules_authored_laws : AuthoredLaws alert_rules_row.
Proof. solve_authored_laws. Qed.
#[export] Instance invites_authored_laws : AuthoredLaws invites_row.
Proof. solve_authored_laws. Qed.

(** All constraints hold and every author is a user of the row's tenant. *)
Record db_sound (d : database) : Prop := mk_db_sound { so_ok : db_ok d; so_authors : authors_local d }.

Lemma keeps_conj (P Q : nat -> database -> Prop) t {A} (p : txM A) :
  tx_keeps P t p -> tx_keeps Q t p -> tx_keeps (fun n d => P n d /\ Q n d) t p.
Proof.
  intros HP HQ st ([Hp Hq] & Hs & Hg). apply Forall_and in Hs as [Hs1 Hs2].
  destruct (HP st) as [(Hp' & Hs1' & Hg') Hle]; [done|]. destruct (HQ st) as [(Hq' & Hs2' & _) _]; [done|].
  split; [|done]. split_and!; try done. by apply Forall_and.
Qed.

Section Authors.
Context (t : jsstr) (a : option jsstr).

(** Every author is local, and [a] is not a user of another tenant than [t]. *)
Definition authored (d : database) : Prop := authors_local d /\ author_local d (armed t) a.
Abbreviation keeps_authors := (tx_keeps (fun _ d => authored d) t).

Section AuthoredTable.
Context {R : Type} `{AuthoredLaws R} `{!TableLaws R}.

Lemma authored_put d (l : list R) :
  authored d -> Forall (fun r => author_local d (t_tenant r) (t_author r)) l -> authored (t_put l d).
Proof. intros [Ha Hl] Hr. split; [by apply aw_put|]. unfold author_local in *. by rewrite aw_users. Qed.

Lemma au_append d r u :
  authored d -> uuid_in t = Some u -> t_tenant r = u -> t_author r = None \/ t_author r = a ->
  authored (t_put (t_rows d ++ [r]) d).
Proof.
  intros Hd Hu Hr Ha. apply authored_put; [done|]. destruct Hd as [Hd Hl]. apply Forall_app. split; [by apply aw_rows|].
  constructor; [|done]. unfold armed in Hl. rewrite Hu in Hl. destruct Ha as [->| ->]; [apply author_local_none|by rewrite Hr].
Qed.

Lemma au_insert `{Entropy} (mk : jsstr -> Z -> result exn R) :
  (forall id now r, mk id now = Ok r -> t_author r = None \/ t_author r = a) -> keeps_authors (sql_insert mk).
Proof. intros Hmk. apply keeps_insert; [done|]. intros n now d r u Hd E Hu Hr _ _ _. eapply au_append; eauto. Qed.

Lemma au_update wu :
  (forall p upd now r, wu = Ok (p, upd) -> t_author (upd now r) = t_author r) -> keeps_authors (sql_update (R := R) wu).
Proof.
  intros Hupd. apply keeps_update; [|apply t_put_rows]. intros n now d u p upd Hd E Hu hit rows' changed Hp _ _ _.
  apply authored_put; [done|]. pose proof (aw_rows d (proj1 Hd)) as Hr. unfold rows'. rewrite Forall_map.
  rewrite forallb_Forall in Hp. unfold changed in Hp. rewrite Forall_map in Hp. rewrite Forall_forall in Hp, Hr |- *.
  intros r Hin. simpl. destruct (hit r) eqn:Eh; [|by apply Hr]. rewrite (Hupd p upd now r E).
  replace (t_tenant (upd now r)) with (t_tenant r); [by apply Hr|].
  apply andb_true_iff in Eh as Ht. destruct Ht as [Ht%policy_Some _]. rewrite Ht. symmetry. apply policy_Some, Hp, list_elem_of_In, filter_In.
  split; [by apply list_elem_of_In|done].
Qed.

Lemma au_upsert mk merge :
  (forall now r, mk now = Ok r -> t_author r = None \/ t_author r = a) ->
  (forall r now o, t_conflict r o = true -> t_author (merge r now o) = t_author r /\ t_tenant (merge r now o) = t_tenant r) ->
  keeps_authors (sql_upsert (R := R) mk merge).
Proof.
  intros Hmk Hm. apply keeps_upsert.
  - intros n now d r u Hd E Hu Hr _ _ _. eapply au_append; eauto.
  - intros n now d r u old l Hd E Hu Hr _ _ d' _ _ _ _. apply authored_put; [done|]. destruct Hd as [Hd Hl].
    rewrite Forall_map. eapply Forall_impl; [by apply aw_rows|]. intros o Ho. simpl. destruct (t_conflict r o) eqn:Ec; [|done].
    destruct (Hm r now o Ec) as [-> ->]. unfold armed in Hl. rewrite Hu in Hl.
    destruct (Hmk now r E) as [->| ->]; [apply author_local_none|by rewrite Hr].
Qed.

Lemma au_delete wh : (forall now r d, t_on_delete (R := R) now r d = d) -> keeps_authors (sql_delete (R := R) wh).
Proof.
  intros Hdel. apply keeps_delete; [|apply t_put_rows]. intros n now d u p Hd _ _ hit.
  replace (fold_right _ _ _) with (t_put (List.filter (fun r => negb (hit r)) (t_rows d)) d).
  - apply authored_put; [done|]. by apply Forall_filter_bool, aw_rows, Hd.
  - generalize (List.filter hit (t_rows d)). intros l. induction l as [|r l IH]; simpl; [done|]. by rewrite Hdel.
Qed.

End AuthoredTable.

(** *** Users *)

(** Users that keep their ids and tenants, or go. *)
Lemma authored_users d (l : list users_row) :
  authored d -> Forall (fun x => exists y, y ∈ d_users d /\ ur_id x = ur_id y /\ ur_tenant_id x = ur_tenant_id y) l ->
  authored (set_users l d).
Proof.
  intros [[] Ha] Hl.
  assert (Hk : forall u b, author_local d u b -> author_local (set_users l d) u b).
  { intros u b Hb. unfold author_local in *. eapply Forall_impl; [exact Hl|]. intros x (y & Hy & -> & ->).
    rewrite Forall_forall in Hb. by apply Hb. }
  split; [|by apply Hk]. split; simpl; (eapply Forall_impl; [eassumption|]); intros r; apply Hk.
Qed.

Lemma au_update_users p upd :
  (forall now r, ur_id (upd now r) = ur_id r /\ ur_tenant_id (upd now r) = ur_tenant_id r) ->
  keeps_authors (sql_update (R := users_row) (q ← p; Ok (q, upd))).
Proof.
  intros Hupd. apply keeps_update; [|apply t_put_rows]. intros n now d u q upd' Hd E Hu hit rows' _ _ _ _ _.
  assert (upd' = upd) as ->. { destruct p; simplify_eq/=. done. }
  apply authored_users; [done|]. unfold rows'. rewrite Forall_map, Forall_forall. intros x Hx. exists x. split; [done|].
  simpl. destruct (hit x); [apply Hupd|done].
Qed.

Lemma users_on_delete_authored now x d : authored d -> authored (users_on_delete now x d).
Proof.
  intros [[] Ha]. split; [|done].
  split; simpl; rewrite Forall_map; (eapply Forall_impl; [eassumption|]); intros r Hr; unfold compose; unfold_nulls;
    case_bool_decide; simpl; first [apply author_local_none|exact Hr].
Qed.

Lemma au_delete_users wh : keeps_authors (sql_delete (R := users_row) wh).
Proof.
  apply keeps_delete; [|apply t_put_rows]. intros n now d u p Hd _ _ hit.
  assert (Hs : authored (t_put (List.filter (fun r => negb (hit r)) (d_users d)) d)).
  { apply authored_users; [done|]. apply Forall_forall. intros x [Hx _]%list_elem_of_In%filter_In. exists x.
    split; [by apply list_elem_of_In|done]. }
  induction (List.filter hit _) as [|x l IH]; [exact Hs|]. by apply users_on_delete_authored.
Qed.

(** A new user is nobody's author: authors exist, and the new id does not. *)
Lemma au_insert_users `{Entropy} (mk : jsstr -> Z -> result exn users_row) :
  tx_keeps (fun _ d => db_ok d /\ authored d) t (sql_insert mk).
Proof.
  apply keeps_insert; [done|]. intros n now d r u [Hok Hd] _ Hu Hr Hc Hx Hrefs. split; [by apply rows_ok_append|].
  assert (Hid : user_id_exists d (ur_id r) = false).
  { apply existsb_false. apply existsb_false in Hx. eapply Forall_impl; [exact Hx|]. intros x. simpl.
    rewrite orb_false_iff, !bool_decide_eq_false. intros [? _]. congruence. }
  assert (Hk : forall v b, actor_exists d b = true -> author_local d v b ->
    author_local (t_put (d_users d ++ [r]) d) v b).
  { intros v b He Hb. unfold author_local in *. simpl. apply Forall_app. split; [done|]. constructor; [|done]. intros ->.
    simpl in He. congruence. }
  destruct Hd as [[] Ha]. split.
  - destruct Hok. split; simpl;
      match goal with K : rows_ok d ?l |- Forall _ ?l =>
        eapply Forall_impl; [apply Forall_and; split; [eassumption|exact (proj2 (proj2 K))]|] end;
      intros x [Hx1 Hx2]; apply Hk; try done;
      simpl in Hx2; apply andb_true_iff in Hx2; apply Hx2.
  - unfold author_local in *. simpl. apply Forall_app. split; [done|]. constructor; [|done]. intros _.
    unfold armed. by rewrite Hu.
Qed.

End Authors.
