(* ===== verification/Eval.v ===== *)
(** * Evaluating statements and transactions

    What a statement returns and does when nothing goes wrong: the tenant is
    armed with UUID text, the database satisfies its constraints, and an update
    leaves keys and references alone. *)

From stdpp Require Import base list option numbers strings gmap.
From S2P Require Import Prelude Errors Effects Uuid Schema World Sql Integrity.

Lemma set_db_seq_id w : set_db_seq (w_db w) (w_pgseq w) w = w.
Proof. by destruct w. Qed.

(** The state a transaction armed with [t] starts in. *)
Definition tx_begin (t : jsstr) (w : world) : tx_state :=
  mkTx (w_db w) (w_pgseq w) t (w_dbnow w) false [].

Lemma current_tenant_uuid st u :
  uuid_in (tx_guc st) = Some u -> current_tenant_id st = Ok (Some u).
Proof.
  intros Hu. unfold current_tenant_id, uuid_param. rewrite Hu.
  destruct (tx_guc st); [by vm_compute in Hu|done].
Qed.

Lemma current_tenant_bad st :
  uuid_in (tx_guc st) = None -> truthy (tx_guc st) = true ->
  current_tenant_id st = Err (EPg pg_invalid_text_representation).
Proof. intros Hu Ht. unfold current_tenant_id, uuid_param. by rewrite Ht, Hu. Qed.

(** [find] as the first row of a selection. *)
Lemma first_row_filter {R A} (f : R -> A) p l :
  first_row f (List.filter p l) = f <$> find p l.
Proof. induction l as [|r l IH]; simpl; [done|]. by destruct (p r). Qed.

Section Table.
Context {R : Type} `{TableLaws R} `{!TableOk R}.

Lemma eval_select st u p :
  tx_aborted st = false -> uuid_in (tx_guc st) = Some u ->
  sql_select (R := R) (Ok p) st =
    (Ok (List.filter (fun r => policy (Some u) r && p r) (t_rows (tx_db st))), st).
Proof.
  intros Ha Hu. unfold sql_select, query. rewrite Ha. simpl.
  rewrite (current_tenant_uuid st u Hu). simpl. by destruct st.
Qed.

Lemma eval_select_err st e :
  tx_aborted st = false -> sql_select (R := R) (Err e) st = (Err e, tx_abort st).
Proof. intros Ha. unfold sql_select, query. by rewrite Ha. Qed.

(** An update function that keeps the tenant and the constraints, and creates no
    conflict. *)
Definition harmless (upd : Z -> R -> R) : Prop :=
  (forall now r, t_tenant (upd now r) = t_tenant r) /\
  (forall now r, t_check r = true -> t_check (upd now r) = true) /\
  (forall now a b, t_conflict (upd now a) b = true -> t_conflict a b = true) /\
  (forall now d r, t_refs d r = true -> t_refs d (upd now r) = true).

Lemma eval_update st u p upd :
  tx_aborted st = false -> uuid_in (tx_guc st) = Some u -> db_ok (tx_db st) ->
  harmless upd -> (forall d l, refs_kept d (t_put (R := R) l d)) ->
  let hit r := policy (Some u) r && p r in
  sql_update (R := R) (Ok (p, upd)) st =
    (Ok (map (upd (tx_now st)) (List.filter hit (t_rows (tx_db st)))),
     tx_set_db (t_put (map (fun r => if hit r then upd (tx_now st) r else r) (t_rows (tx_db st)))
                  (tx_db st)) st).
Proof.
  intros Ha Hu Hok (Ht & Hc & Hx & Hr) Hk hit. unfold sql_update, query. rewrite Ha. simpl.
  rewrite (current_tenant_uuid st u Hu). simpl. fold hit. unfold pg_fail.
  pose proof (to_rows (tx_db st) Hok) as (Hok1 & Hok2 & Hok3).
  assert (Hin : forall (Q : R -> Prop), Forall Q (t_rows (tx_db st)) ->
            Forall Q (List.filter hit (t_rows (tx_db st)))) by (intros; by apply Forall_filter_bool).
  rewrite !(proj2 (forallb_Forall _ _)); simpl.
  - rewrite conflict_free_shrink; [done| |exact Hok2]. intros a b Hab.
    assert (Hy : forall x y, t_conflict x (upd (tx_now st) y) = true -> t_conflict x y = true).
    { intros x y. rewrite !(t_conflict_sym x). apply Hx. }
    destruct (policy _ a && _), (policy _ b && _); eauto.
  - rewrite Forall_map. eapply Forall_impl; [apply Hin, Hok3|]. intros r Hr0. simpl. apply Hr.
    eapply t_refs_mono; [apply Hk|done].
  - rewrite Forall_map. eapply Forall_impl; [apply Hin, Hok1|]. intros r Hr0. simpl. by apply Hc.
  - rewrite Forall_map. apply List.Forall_forall. intros r [_ [Hp _]%andb_true_iff]%filter_In.
    simpl. rewrite policy_Some in Hp |- *. by rewrite Ht.
Qed.

Lemma eval_insert `{Entropy} st u (mk : jsstr -> Z -> result exn R) r :
  tx_aborted st = false -> uuid_in (tx_guc st) = Some u ->
  mk (pg_uuid (tx_seq st)) (tx_now st) = Ok r -> t_tenant r = u -> t_check r = true ->
  existsb (t_conflict r) (t_rows (tx_db st)) = false ->
  t_refs (t_put (t_rows (tx_db st) ++ [r]) (tx_db st)) r = true ->
  sql_insert mk st = (Ok r, tx_bump (tx_set_db (t_put (t_rows (tx_db st) ++ [r]) (tx_db st)) st)).
Proof.
  intros Ha Hu Hmk Ht Hc Hx Hr. unfold sql_insert, query. rewrite Ha, Hmk. simpl.
  rewrite (current_tenant_uuid st u Hu). simpl. unfold pg_fail.
  rewrite (proj2 (policy_Some u r) Ht), Hc, Hx, Hr. done.
Qed.

Lemma eval_insert_conflict `{Entropy} st u (mk : jsstr -> Z -> result exn R) r :
  tx_aborted st = false -> uuid_in (tx_guc st) = Some u ->
  mk (pg_uuid (tx_seq st)) (tx_now st) = Ok r -> t_tenant r = u -> t_check r = true ->
  existsb (t_conflict r) (t_rows (tx_db st)) = true ->
  sql_insert mk st = (Err (EPg PG_UNIQUE_VIOLATION), tx_bump (tx_abort st)).
Proof.
  intros Ha Hu Hmk Ht Hc Hx. unfold sql_insert, query. rewrite Ha, Hmk, bind_Ok.
  rewrite (current_tenant_uuid st u Hu), bind_Ok. unfold pg_fail.
  rewrite (proj2 (policy_Some u r) Ht), Hc, Hx. done.
Qed.

End Table.

(** A transaction that is one query. *)
Lemma run_tx_select {R A} `{TableLaws R} t u (p : R -> bool) (f : list R -> A) w :
  uuid_in t = Some u ->
  run (withTenantTx t (res ← sql_select (Ok p); mret (f res))) w =
  (Ok (f (List.filter (fun r => policy (Some u) r && p r) (t_rows (w_db w)))), w).
Proof.
  intros Hu. unfold withTenantTx. rewrite run_atomic. unfold run_tx, mbind, txM_bind.
  rewrite (eval_select (mkTx (w_db w) (w_pgseq w) t (w_dbnow w) false []) u p) by done.
  simpl. by rewrite set_db_seq_id.
Qed.

Lemma run_tx_select_err {R A} `{TableLaws R} t (e : exn) (f : list R -> A) w :
  run (withTenantTx t (res ← sql_select (R := R) (Err e); mret (f res))) w = (Err e, w).
Proof.
  unfold withTenantTx. rewrite run_atomic. unfold run_tx, mbind, txM_bind.
  rewrite eval_select_err by done. simpl. by rewrite set_db_seq_id.
Qed.

(** A transaction that is one insert. *)
Section Insert.
Context {R : Type} `{TableLaws R} `{Entropy}.
Context (t u : jsstr) (mk : jsstr -> Z -> result exn R) (r : R) (w : world).
Context (Hu : uuid_in t = Some u) (Hmk : mk (pg_uuid (w_pgseq w)) (w_dbnow w) = Ok r)
        (Ht : t_tenant r = u) (Hc : t_check r = true).

(** The database with the row appended. *)
Definition inserted : database := t_put (t_rows (w_db w) ++ [r]) (w_db w).

Lemma run_tx_insert {A} (f : R -> txM A) a :
  existsb (t_conflict r) (t_rows (w_db w)) = false -> t_refs inserted r = true ->
  (forall st, f r st = (a, st)) ->
  run (withTenantTx t (x ← sql_insert mk; f x)) w =
  (a, set_db_seq (match a with Ok _ => inserted | Err _ => w_db w end) (S (w_pgseq w)) w).
Proof.
  intros Hx Hr Hf. unfold withTenantTx. rewrite run_atomic. unfold run_tx, mbind, txM_bind.
  rewrite (eval_insert (mkTx (w_db w) (w_pgseq w) t (w_dbnow w) false []) u mk r) by done.
  rewrite Hf. by destruct a.
Qed.

Lemma run_tx_insert_conflict {A} (f : R -> txM A) :
  existsb (t_conflict r) (t_rows (w_db w)) = true ->
  run (withTenantTx t (x ← sql_insert mk; f x)) w =
  (Err (EPg PG_UNIQUE_VIOLATION), set_db_seq (w_db w) (S (w_pgseq w)) w).
Proof.
  intros Hx. unfold withTenantTx. rewrite run_atomic. unfold run_tx, mbind, txM_bind.
  by rewrite (eval_insert_conflict (mkTx (w_db w) (w_pgseq w) t (w_dbnow w) false []) u mk r).
Qed.

End Insert.

(** An update that would break a check of some row it reaches is refused whole. *)
Lemma run_tx_update_check {R A} `{TableLaws R} t u (p : R -> bool) (upd : Z -> R -> R)
    (f : list R -> txM A) r w :
  uuid_in t = Some u -> (forall x, t_tenant (upd (w_dbnow w) x) = t_tenant x) ->
  In r (t_rows (w_db w)) -> t_tenant r = u -> p r = true -> t_check (upd (w_dbnow w) r) = false ->
  run (withTenantTx t (x ← sql_update (Ok (p, upd)); f x)) w = (Err (EPg pg_check_violation), w).
Proof.
  intros Hu Htn Hr Ht Hp Hck. unfold withTenantTx. rewrite run_atomic.
  unfold run_tx, mbind, txM_bind, sql_update, query. cbn [tx_aborted]. rewrite bind_Ok.
  rewrite (current_tenant_uuid (mkTx _ _ t _ _ _) u Hu), bind_Ok. cbn [tx_db tx_now fst snd]. unfold pg_fail.
  rewrite (proj2 (forallb_forall (policy (Some u)) _)).
  - destruct (forallb t_check _) eqn:E; [|simpl; by rewrite set_db_seq_id]. exfalso.
    rewrite forallb_forall in E. rewrite E in Hck; [done|]. apply in_map, filter_In. split; [done|].
    by rewrite (proj2 (policy_Some u r) Ht), Hp.
  - intros x (y & <- & [_ [Hy _]%andb_true_iff]%filter_In)%in_map_iff.
    apply policy_Some. rewrite Htn. by apply policy_Some in Hy.
Qed.

(** The row just appended is the one a query by its key returns. *)
Lemma find_appended {R} `{TableLaws R} (p : R -> bool) u l r :
  t_tenant r = u -> p r = true -> existsb (t_conflict r) l = false ->
  (forall a, p a = true -> t_conflict r a = true) ->
  find (fun a => policy (Some u) a && p a) (l ++ [r]) = Some r.
Proof.
  intros Ht Hp Hx Hc. induction l as [|a l IH]; simpl in *.
  - by rewrite (proj2 (policy_Some u r) Ht), Hp.
  - apply orb_false_iff in Hx as [Ha Hl]. destruct (p a) eqn:E; [by rewrite Hc in Ha|].
    rewrite andb_false_r. auto.
Qed.

(** ** Rows with a key column *)

Section Keyed.
Context {R : Type} `{TableLaws R} (key : R -> jsstr).
Context (Hkey : forall a b, key a = key b -> t_conflict a b = true).

Definition by_key (id : jsstr) : result exn (R -> bool) :=
  u ← uuid_param id; Ok (fun r => bool_decide (key r = u)).

Lemma run_find_key {A} (f : R -> A) t u id i w :
  uuid_in t = Some u -> uuid_in id = Some i ->
  run (withTenantTx t (res ← sql_select (by_key id); mret (first_row f res))) w =
  (Ok (f <$> find (fun r => policy (Some u) r && bool_decide (key r = i)) (t_rows (w_db w))), w).
Proof.
  intros Hu Hi. unfold by_key, uuid_param. rewrite Hi, bind_Ok.
  etrans; [by apply (run_tx_select t u)|]. by rewrite first_row_filter.
Qed.

(** The row just inserted is found by its key, and removing it again leaves the
    rows that were there. *)
Lemma run_find_inserted {A} (f : R -> A) t u r w w' :
  uuid_in t = Some u -> is_uuid (key r) = true -> t_tenant r = u ->
  existsb (t_conflict r) (t_rows (w_db w)) = false -> w_db w' = inserted r w ->
  run (withTenantTx t (res ← sql_select (by_key (key r)); mret (first_row f res))) w' = (Ok (Some (f r)), w').
Proof.
  intros Hu Hk%is_uuid_spec Ht Hx Hw. rewrite (run_find_key f t u (key r) (key r)) by done.
  rewrite Hw. unfold inserted. rewrite t_rows_put.
  rewrite (find_appended (fun a => bool_decide (key a = key r)) u (t_rows (w_db w)) r); try done.
  - by apply bool_decide_eq_true.
  - intros a Ha%bool_decide_eq_true. by apply Hkey.
Qed.

Lemma run_delete_inserted t u r w w' :
  uuid_in t = Some u -> is_uuid (key r) = true -> t_tenant r = u ->
  existsb (t_conflict r) (t_rows (w_db w)) = false -> w_db w' = inserted r w ->
  (forall now x d, t_on_delete (R := R) now x d = d) ->
  (forall l l' d, t_put (R := R) l (t_put l' d) = t_put l d) ->
  run (withTenantTx t (n ← sql_delete (by_key (key r)); mret (0 <? n))) w' =
  (Ok true, set_db_seq (w_db w) (w_pgseq w') w').
Proof.
  intros Hu Hk%is_uuid_spec Ht Hx Hw Hod Hpp. unfold by_key, uuid_param. rewrite Hk, bind_Ok.
  unfold withTenantTx. rewrite run_atomic. unfold run_tx, mbind, txM_bind, sql_delete, query.
  cbn [tx_aborted]. rewrite bind_Ok. rewrite (current_tenant_uuid (mkTx _ _ t _ _ _) u Hu), bind_Ok.
  cbn [tx_db tx_now]. rewrite Hw. unfold inserted. rewrite t_rows_put, !List.filter_app.
  assert (Hno : forall a, In a (t_rows (w_db w)) -> policy (Some u) a && bool_decide (key a = key r) = false).
  { intros a Ha. destruct (bool_decide (key a = key r)) eqn:E; [|by rewrite andb_false_r].
    apply bool_decide_eq_true in E. apply existsb_false in Hx.
    rewrite List.Forall_forall in Hx. specialize (Hx a Ha). by rewrite Hkey in Hx. }
  assert (Hl : List.filter (fun a => policy (Some u) a && bool_decide (key a = key r)) (t_rows (w_db w)) = []).
  { induction (t_rows (w_db w)) as [|a l IH]; simpl; [done|].
    rewrite (Hno a) by (by left). apply IH; [|by intros b Hb; apply Hno; right].
    simpl in Hx. by apply orb_false_iff in Hx as [_ ?]. }
  assert (Hl' : List.filter (fun a => negb (policy (Some u) a && bool_decide (key a = key r)))
                  (t_rows (w_db w)) = t_rows (w_db w)).
  { clear Hl Hx. induction (t_rows (w_db w)) as [|a l IH]; simpl; [done|].
    rewrite (Hno a) by (by left). simpl. f_equal. apply IH. intros b Hb. apply Hno. by right. }
  rewrite Hl, Hl'. simpl.
  rewrite (proj2 (policy_Some u r) Ht), (bool_decide_eq_true_2 (key r = key r) eq_refl). simpl.
  by rewrite Hod, app_nil_r, Hpp, t_put_rows.
Qed.

End Keyed.
