(* ===== verification/PgUsers.v ===== *)
(** * Tenant and user repositories

    [adapters/postgres/tenant-repository.ts] (the tenant registry, which has no
    row-level security) and [adapters/postgres/user-repository.ts] (users and
    memberships under the tenant's policies). *)

From stdpp Require Import base list option numbers strings gmap.
From S2P Require Import Prelude Errors Effects Rbac Entities Ports Uuid Schema World Sql Integrity Eval.

(** ** The tenant registry *)

Module PgTenantRepository.

Definition toTenant (row : tenants_row) : Tenant :=
  {| tn_id := tr_id row;
     tn_publicId := tr_public_id row;
     tn_name := tr_name row;
     tn_status := tr_status row;
     tn_createdAt := tr_created_at row;
     tn_updatedAt := tr_updated_at row |}.

(** The statements on [tenants]. *)

Definition select_tenants (where_ : result exn (tenants_row -> bool)) : txM (list tenants_row) :=
  query (fun st =>
    p ← where_;
    Ok (List.filter p (d_tenants (tx_db st)), tx_db st)).

Definition insert_tenant `{Entropy} (input : NewTenant) : txM tenants_row := fun st =>
  let '(res, st') := query (fun st =>
    let r := mk_tenants (pg_uuid (tx_seq st)) (nt_publicId input) (nt_name input) t_active
               (tx_now st) (tx_now st) in
    pg_fail (negb (tenants_check r)) pg_check_violation (
    pg_fail (existsb (tenants_conflict r) (d_tenants (tx_db st))) PG_UNIQUE_VIOLATION (
    Ok (r, set_tenants (d_tenants (tx_db st) ++ [r]) (tx_db st))))) st in
  (res, tx_bump st').

Definition patch_tenant (patch : TenantPatch) (now : Z) (r : tenants_row) : tenants_row :=
  mk_tenants (tr_id r) (tr_public_id r) (default (tr_name r) (tp_name patch))
    (default (tr_status r) (tp_status patch)) (tr_created_at r) now.

Definition update_tenants (id : jsstr) (patch : TenantPatch) : txM (list tenants_row) :=
  query (fun st =>
    u ← uuid_param id;
    let hit r := bool_decide (tr_id r = u) in
    let upd := patch_tenant patch (tx_now st) in
    Ok (map upd (List.filter hit (d_tenants (tx_db st))),
        set_tenants (map (fun r => if hit r then upd r else r) (d_tenants (tx_db st))) (tx_db st))).

Definition delete_tenants (id : jsstr) : txM nat :=
  query (fun st =>
    u ← uuid_param id;
    let hit r := bool_decide (tr_id r = u) in
    let gone := List.filter hit (d_tenants (tx_db st)) in
    let kept := List.filter (fun r => negb (hit r)) (d_tenants (tx_db st)) in
    Ok (length gone,
        fold_right (tenants_on_delete (tx_now st)) (set_tenants kept (tx_db st)) gone)).

(** The methods. *)

Definition create `{Entropy} (input : NewTenant) : prog world Tenant :=
  catch (fun err =>
      if isUniqueViolation err
      then throw (ConflictError (js "tenant slug '" ++ nt_publicId input ++ js "' already exists"))
      else throw err)
    (res ← pool_query (insert_tenant input); mret (toTenant res)).

Definition list_ : prog world (list Tenant) :=
  res ← pool_query (select_tenants (Ok (fun _ => true)));
  mret (map toTenant (order_by_desc tr_created_at res)).

Definition findById (id : jsstr) : prog world (option Tenant) :=
  res ← pool_query (select_tenants (u ← uuid_param id; Ok (fun r => bool_decide (tr_id r = u))));
  mret (first_row toTenant res).

Definition findByPublicId (publicId : jsstr) : prog world (option Tenant) :=
  res ← pool_query (select_tenants (Ok (fun r => bool_decide (tr_public_id r = publicId))));
  mret (first_row toTenant res).

Definition update (id : jsstr) (patch : TenantPatch) : prog world (option Tenant) :=
  res ← pool_query (update_tenants id patch);
  mret (first_row toTenant res).

Definition delete (id : jsstr) : prog world bool :=
  n ← pool_query (delete_tenants id);
  mret (0 <? n).

Definition repository `{Entropy} : TenantRepository world :=
  {| tenants_create := create;
     tenants_list := list_;
     tenants_findById := findById;
     tenants_findByPublicId := findByPublicId;
     tenants_update := update;
     tenants_delete := delete |}.

End PgTenantRepository.

(** ** Users and memberships *)

Module PgUserRepository.

(** A row of [SELECT_USER]: a user and the role of its membership. *)
Definition UserRow : Type := users_row * option MembershipRole.

Definition toUser (row : UserRow) : User :=
  let '(u, role) := row in
  {| us_id := ur_id u;
     us_tenantId := ur_tenant_id u;
     us_email := ur_email u;
     us_displayName := ur_display_name u;
     us_status := ur_status u;
     us_isPlatformOperator := ur_is_platform_operator u;
     us_role := role;
     us_createdAt := ur_created_at u;
     us_updatedAt := ur_updated_at u |}.

(** [users u LEFT JOIN memberships m ON m.tenant_id = u.tenant_id AND m.user_id = u.id],
    both tables under the policy. *)
Definition left_join (us : list users_row) (ms : list memberships_row)
    : list (users_row * option memberships_row) :=
  concat (map (fun u =>
    match List.filter (fun m => bool_decide (mr_tenant_id m = ur_tenant_id u
                                             /\ mr_user_id m = ur_id u)) ms with
    | [] => [(u, None)]
    | l => map (fun m => (u, Some m)) l
    end) us).

Definition joined (where_ : result exn (users_row -> bool))
    : txM (list (users_row * option memberships_row)) :=
  query (fun st =>
    p ← where_;
    cur ← current_tenant_id st;
    Ok (left_join (List.filter (fun u => policy cur u && p u) (d_users (tx_db st)))
                  (List.filter (policy cur) (d_memberships (tx_db st))),
        tx_db st)).

Definition SELECT_USER (where_ : result exn (users_row -> bool)) : txM (list UserRow) :=
  rows ← joined where_;
  mret (map (fun '(u, m) => (u, mr_role <$> m)) rows).

Record AuthRow := mkAuthRow {
  aw_id : jsstr;
  aw_password_hash : jsstr;
  aw_status : jsstr;
  aw_role : option jsstr
}.

Definition SELECT_AUTH (where_ : result exn (users_row -> bool)) : txM (list AuthRow) :=
  rows ← joined where_;
  mret (map (fun '(u, m) =>
    mkAuthRow (ur_id u) (ur_password_hash u) (ur_status u)
      (if ur_is_platform_operator u then Some (js "platform_operator")
       else membership_str <$> (mr_role <$> m))) rows).

Definition toAuthRecord (row : AuthRow) : AuthRecord :=
  {| au_id := aw_id row;
     au_passwordHash := aw_password_hash row;
     au_status := aw_status row;
     au_role := r ← aw_role row; isRole r |}.

Definition by_id (id : jsstr) : result exn (users_row -> bool) :=
  u ← uuid_param id; Ok (fun r => bool_decide (ur_id r = u)).

Definition insertUserWithMembership `{Entropy} (tenantId : jsstr) (input : NewUser) : txM User :=
  tx_catch (fun err =>
      if isUniqueViolation err
      then tx_throw (ConflictError (js "a user with email '" ++ nu_email input ++ js "' already exists"))
      else tx_throw err)
    (inserted ← sql_insert (fun uuid now =>
       t ← uuid_param tenantId;
       Ok (mk_users uuid t (nu_email input) (nu_passwordHash input)
             (default None (nu_displayName input)) (js "active") false now now));
     let userId := ur_id inserted in
     _ ← sql_insert (fun _ now =>
       t ← uuid_param tenantId;
       u ← uuid_param userId;
       Ok (mk_memberships t u (nu_role input) now now));
     res ← SELECT_USER (by_id userId);
     match res with
     | row :: _ => mret (toUser row)
     | [] => tx_throw (EError (js "TypeError"))
     end).

Definition create `{Entropy} (tenantId : jsstr) (input : NewUser) : prog world User :=
  withTenantTx tenantId (insertUserWithMembership tenantId input).

Definition list_ (tenantId : jsstr) : prog world (list User) :=
  withTenantTx tenantId (
    res ← SELECT_USER (Ok (fun _ => true));
    mret (map toUser (order_by_desc (fun r : UserRow => ur_created_at r.1) res))).

Definition findById (tenantId id : jsstr) : prog world (option User) :=
  withTenantTx tenantId (
    res ← SELECT_USER (by_id id);
    mret (first_row toUser res)).

(** [COALESCE($n, column)] for each column, and the [updated_at] trigger. *)
Definition patch_user (patch : UserPatch) (now : Z) (r : users_row) : users_row :=
  mk_users (ur_id r) (ur_tenant_id r) (ur_email r)
    (default (ur_password_hash r) (up_passwordHash patch))
    (match mjoin (up_displayName patch) with Some n => Some n | None => ur_display_name r end)
    (default (ur_status r) (up_status patch)) (ur_is_platform_operator r) (ur_created_at r) now.

Definition set_role (role : MembershipRole) (now : Z) (r : memberships_row) : memberships_row :=
  mk_memberships (mr_tenant_id r) (mr_user_id r) role (mr_created_at r) now.

Definition update (tenantId id : jsstr) (patch : UserPatch) : prog world (option User) :=
  withTenantTx tenantId (
    updated ← sql_update (p ← by_id id; Ok (p, patch_user patch));
    match updated with
    | [] => mret None
    | _ =>
        _ ← match up_role patch with
            | Some role =>
                _ ← sql_update (u ← uuid_param id;
                                Ok (fun r => bool_decide (mr_user_id r = u), set_role role));
                mret tt
            | None => mret tt
            end;
        res ← SELECT_USER (by_id id);
        match res with
        | row :: _ => mret (Some (toUser row))
        | [] => tx_throw (EError (js "TypeError"))
        end
    end).

Definition delete (tenantId id : jsstr) : prog world bool :=
  withTenantTx tenantId (
    n ← sql_delete (by_id id);
    mret (0 <? n)).

Definition findCredentialsByEmail (tenantId email : jsstr) : prog world (option AuthRecord) :=
  withTenantTx tenantId (
    res ← SELECT_AUTH (Ok (fun r => bool_decide (ur_email r = email)));
    mret (first_row toAuthRecord res)).

Definition findCredentialsById (tenantId id : jsstr) : prog world (option AuthRecord) :=
  withTenantTx tenantId (
    res ← SELECT_AUTH (by_id id);
    mret (first_row toAuthRecord res)).

Definition repository `{Entropy} : UserRepository world :=
  {| users_create := create;
     users_list := list_;
     users_findById := findById;
     users_update := update;
     users_delete := delete;
     users_findCredentialsByEmail := findCredentialsByEmail;
     users_findCredentialsById := findCredentialsById |}.

End PgUserRepository.

(** * Lookups

    The rows the reading methods are about. *)

Definition tenant_by_slug (d : database) (slug : jsstr) : option tenants_row :=
  find (fun r => bool_decide (tr_public_id r = slug)) (d_tenants d).

Definition tenant_by_id (d : database) (id : jsstr) : option tenants_row :=
  find (fun r => bool_decide (tr_id r = id)) (d_tenants d).

Definition user_by_email (d : database) (t email : jsstr) : option users_row :=
  find (fun r => bool_decide (ur_tenant_id r = t) && bool_decide (ur_email r = email)) (d_users d).

Definition user_by_id (d : database) (t id : jsstr) : option users_row :=
  find (fun r => bool_decide (ur_tenant_id r = t) && bool_decide (ur_id r = id)) (d_users d).

Definition membership_of (d : database) (u : users_row) : option memberships_row :=
  find (fun m => bool_decide (mr_tenant_id m = ur_tenant_id u /\ mr_user_id m = ur_id u))
    (d_memberships d).

Definition role_of_membership (r : MembershipRole) : Role :=
  match r with m_tenant_admin => tenant_admin | m_member => member end.

(** The platform-operator flag, else the membership's role, else none. *)
Definition effective_role (d : database) (u : users_row) : option Role :=
  if ur_is_platform_operator u then Some platform_operator
  else (fun m => role_of_membership (mr_role m)) <$> membership_of d u.

Definition auth_record (d : database) (u : users_row) : AuthRecord :=
  mkAuthRecord (ur_id u) (ur_password_hash u) (ur_status u) (effective_role d u).

(** * Lemmas *)

Lemma find_filter {R} (p q : R -> bool) l :
  (forall r, p r = true -> q r = true) -> find p (List.filter q l) = find p l.
Proof.
  intros Hq. induction l as [|r l IH]; simpl; [done|].
  destruct (q r) eqn:E; simpl; destruct (p r) eqn:E'; try done. by rewrite Hq in E.
Qed.

Lemma find_ext {R} (p q : R -> bool) l : (forall r, p r = q r) -> find p l = find q l.
Proof. intros Hpq. induction l as [|r l IH]; simpl; [done|]. by rewrite Hpq, IH. Qed.

Lemma policy_eq {R} `{Table R} u (r : R) : policy (Some u) r = bool_decide (t_tenant r = u).
Proof. unfold policy. apply bool_decide_ext. naive_solver. Qed.

Lemma run_pool_select_tenants wh w :
  run (pool_query (PgTenantRepository.select_tenants wh)) w =
  match wh with
  | Ok p => (Ok (List.filter p (d_tenants (w_db w))), w)
  | Err e => (Err e, w)
  end.
Proof.
  unfold pool_query. rewrite run_atomic. unfold run_tx.
  destruct wh; simpl; by rewrite set_db_seq_id.
Qed.

Lemma run_tenants_findByPublicId slug w :
  run (PgTenantRepository.findByPublicId slug) w =
  (Ok (PgTenantRepository.toTenant <$> tenant_by_slug (w_db w) slug), w).
Proof.
  unfold PgTenantRepository.findByPublicId. rewrite run_bind, run_pool_select_tenants.
  simpl. by rewrite first_row_filter.
Qed.

Lemma run_tenants_findById id u w :
  uuid_in id = Some u ->
  run (PgTenantRepository.findById id) w =
  (Ok (PgTenantRepository.toTenant <$> tenant_by_id (w_db w) u), w).
Proof.
  intros Hu. unfold PgTenantRepository.findById, uuid_param. rewrite Hu, run_bind, run_pool_select_tenants.
  simpl. by rewrite first_row_filter.
Qed.

(** The first row of the join is the first user's, with its membership. *)
Lemma left_join_first {A} (f : users_row * option memberships_row -> A) us ms :
  first_row f (PgUserRepository.left_join us ms) =
  match us with
  | [] => None
  | u :: _ => Some (f (u, find (fun m => bool_decide (mr_tenant_id m = ur_tenant_id u
                                                     /\ mr_user_id m = ur_id u)) ms))
  end.
Proof.
  destruct us as [|u us]; [done|]. unfold PgUserRepository.left_join. simpl.
  assert (Hf : forall p (l : list memberships_row), find p l = head (List.filter p l)).
  { intros p l. induction l as [|m l IH]; simpl; [done|]. by destruct (p m). }
  rewrite Hf. by destruct (List.filter _ ms).
Qed.

Lemma first_row_map {R S A} (f : S -> A) (g : R -> S) l :
  first_row f (map g l) = first_row (fun r => f (g r)) l.
Proof. by destruct l. Qed.

Lemma isRole_membership r : isRole (membership_str r) = Some (role_of_membership r).
Proof. by destruct r; vm_compute. Qed.

(** The authentication projection of a selection of users. *)
Lemma run_select_auth t u (p : users_row -> bool) w :
  uuid_in t = Some u ->
  run (withTenantTx t (
         res ← PgUserRepository.SELECT_AUTH (Ok p);
         mret (first_row PgUserRepository.toAuthRecord res))) w =
  (Ok (auth_record (w_db w) <$>
       find (fun r => bool_decide (ur_tenant_id r = u) && p r) (d_users (w_db w))), w).
Proof.
  intros Hu. unfold withTenantTx. rewrite run_atomic.
  unfold run_tx, PgUserRepository.SELECT_AUTH, PgUserRepository.joined, mbind, txM_bind, query. simpl.
  rewrite (current_tenant_uuid (mkTx _ _ t _ _ _) u Hu). simpl. rewrite set_db_seq_id.
  rewrite first_row_map, left_join_first. f_equal. f_equal.
  rewrite (find_ext _ (fun r => policy (Some u) r && p r)).
  2: { intros r. by rewrite policy_eq. }
  assert (Hfind : forall (l : list users_row) q, find q l = head (List.filter q l)).
  { intros l q. induction l as [|x l IH]; simpl; [done|]. by destruct (q x). }
  rewrite Hfind. destruct (List.filter _ (d_users (w_db w))) as [|x l] eqn:E; simpl; [done|].
  assert (In x (List.filter (fun r => policy (Some u) r && p r) (d_users (w_db w)))) as Hx
    by (rewrite E; by left).
  apply filter_In in Hx as [_ [Hx _]%andb_true_iff]. rewrite policy_Some in Hx. simpl in Hx.
  f_equal. unfold auth_record, PgUserRepository.toAuthRecord, effective_role, membership_of. simpl.
  rewrite find_filter.
  2: { intros m [Hm _]%bool_decide_eq_true. rewrite policy_Some. simpl. congruence. }
  f_equal. destruct (ur_is_platform_operator x); [done|].
  destruct (find _ (d_memberships (w_db w))) as [m|]; simpl; [apply isRole_membership|done].
Qed.

Lemma run_credentials_by_email t u email w :
  uuid_in t = Some u ->
  run (PgUserRepository.findCredentialsByEmail t email) w =
  (Ok (auth_record (w_db w) <$> user_by_email (w_db w) u email), w).
Proof. apply run_select_auth. Qed.

Lemma run_credentials_by_id t u id i w :
  uuid_in t = Some u -> uuid_in id = Some i ->
  run (PgUserRepository.findCredentialsById t id) w =
  (Ok (auth_record (w_db w) <$> user_by_id (w_db w) u i), w).
Proof.
  intros Hu Hi. unfold PgUserRepository.findCredentialsById, PgUserRepository.by_id, uuid_param.
  rewrite Hi. simpl. by apply run_select_auth.
Qed.
