(* ===== verification/PgTokens.v ===== *)
(** * Refresh-token repository

    [adapters/postgres/refresh-token-repository.ts]. *)

From stdpp Require Import base list option numbers strings gmap.
From S2P Require Import Prelude Errors Effects Tokens Entities Ports Uuid Schema World Sql.
From S2P Require Import Integrity Eval PgUsers.

Module PgRefreshTokenRepository.

Definition toRow (row : refresh_tokens_row) : RefreshTokenRow :=
  {| rr_id := rtr_id row;
     rr_userId := rtr_user_id row;
     rr_familyId := rtr_family_id row;
     rr_tokenHash := rtr_token_hash row;
     rr_expiresAt := rtr_expires_at row;
     rr_rotatedAt := rtr_rotated_at row;
     rr_revokedAt := rtr_revoked_at row |}.

(** [INSERT INTO refresh_tokens (tenant_id, user_id, family_id, token_hash, expires_at)]. *)
Definition insert_token `{Entropy} (tenantId : jsstr) (input : NewRefreshToken)
    : txM refresh_tokens_row :=
  sql_insert (fun uuid now =>
    t ← uuid_param tenantId;
    u ← uuid_param (nr_userId input);
    f ← uuid_param (nr_familyId input);
    Ok (mk_refresh_tokens uuid t u f (nr_tokenHash input) now (nr_expiresAt input) None None)).

Definition create `{Entropy} (tenantId : jsstr) (input : NewRefreshToken) : prog world jsstr :=
  withTenantTx tenantId (
    res ← insert_token tenantId input;
    mret (rtr_id res)).

Definition findById (tenantId id : jsstr) : prog world (option RefreshTokenRow) :=
  withTenantTx tenantId (
    res ← sql_select (u ← uuid_param id; Ok (fun r => bool_decide (rtr_id r = u)));
    mret (first_row toRow res)).

Definition is_live (r : refresh_tokens_row) : bool :=
  bool_decide (rtr_rotated_at r = None) && bool_decide (rtr_revoked_at r = None).

Definition set_rotated (now : date) (r : refresh_tokens_row) : refresh_tokens_row :=
  mk_refresh_tokens (rtr_id r) (rtr_tenant_id r) (rtr_user_id r) (rtr_family_id r)
    (rtr_token_hash r) (rtr_issued_at r) (rtr_expires_at r) (Some now) (rtr_revoked_at r).

Definition set_revoked (now : date) (r : refresh_tokens_row) : refresh_tokens_row :=
  mk_refresh_tokens (rtr_id r) (rtr_tenant_id r) (rtr_user_id r) (rtr_family_id r)
    (rtr_token_hash r) (rtr_issued_at r) (rtr_expires_at r) (rtr_rotated_at r) (Some now).

(** The conditional consume and the successor's insert, in one transaction. *)
Definition rotate `{Entropy} (tenantId presentedId : jsstr) (now : date)
    (successor : NewRefreshToken) : prog world (option jsstr) :=
  withTenantTx tenantId (
    consumed ← sql_update (u ← uuid_param presentedId;
                           Ok (fun r => bool_decide (rtr_id r = u) && is_live r,
                               fun _ => set_rotated now));
    match consumed with
    | [] => mret None
    | _ =>
        inserted ← insert_token tenantId successor;
        mret (Some (rtr_id inserted))
    end).

Definition revokeFamily (tenantId familyId : jsstr) (now : date) : prog world unit :=
  withTenantTx tenantId (
    _ ← sql_update (f ← uuid_param familyId;
                    Ok (fun r => bool_decide (rtr_family_id r = f)
                                 && bool_decide (rtr_revoked_at r = None),
                        fun _ => set_revoked now));
    mret tt).

Definition repository `{Entropy} : RefreshTokenRepository world :=
  {| refresh_create := create;
     refresh_findById := findById;
     refresh_rotate := rotate;
     refresh_revokeFamily := revokeFamily |}.

End PgRefreshTokenRepository.

(** * The methods as functions of the database *)

Import PgRefreshTokenRepository.

Definition token_of (d : database) (t id : jsstr) : option refresh_tokens_row :=
  find (fun r => bool_decide (rtr_tenant_id r = t) && bool_decide (rtr_id r = id))
    (d_refresh_tokens d).

(** Every token of the family [f] of tenant [t] that is not yet revoked, revoked. *)
Definition revoke_in (t f : jsstr) (now : date) (r : refresh_tokens_row) : refresh_tokens_row :=
  if bool_decide (rtr_tenant_id r = t)
     && (bool_decide (rtr_family_id r = f) && bool_decide (rtr_revoked_at r = None))
  then set_revoked now r else r.

Definition revoke_family (t f : jsstr) (now : date) (d : database) : database :=
  set_refresh_tokens (map (revoke_in t f now) (d_refresh_tokens d)) d.

Definition rotate_in (t id : jsstr) (now : date) (r : refresh_tokens_row) : refresh_tokens_row :=
  if bool_decide (rtr_tenant_id r = t) && (bool_decide (rtr_id r = id) && is_live r)
  then set_rotated now r else r.

(** The new row of a mint, live, issued at the database's time. *)
Definition new_token (id t u f : jsstr) (hash : list N) (issued expires : date)
    : refresh_tokens_row :=
  mk_refresh_tokens id t u f hash issued expires None None.

Definition add_token (r : refresh_tokens_row) (d : database) : database :=
  set_refresh_tokens (d_refresh_tokens d ++ [r]) d.

(** * Lemmas *)

Lemma run_token_findById t u id i w :
  uuid_in t = Some u -> uuid_in id = Some i ->
  run (findById t id) w = (Ok (toRow <$> token_of (w_db w) u i), w).
Proof.
  intros Hu Hi. unfold findById, uuid_param. rewrite Hi.
  etrans; [by apply (run_tx_select t u)|]. rewrite first_row_filter. unfold token_of. f_equal. f_equal.
  f_equal. apply find_ext. intros r. by rewrite policy_eq.
Qed.

Lemma run_token_findById_bad t id w :
  uuid_in id = None ->
  run (findById t id) w = (Err (EPg pg_invalid_text_representation), w).
Proof. intros Hi. unfold findById, uuid_param. rewrite Hi. apply run_tx_select_err. Qed.

Lemma run_token_findById_bad_tenant t id w :
  uuid_in t = None -> t <> [] ->
  run (findById t id) w = (Err (EPg pg_invalid_text_representation), w).
Proof.
  intros Ht Hne. destruct (uuid_in id) as [i|] eqn:Hi; [|by apply run_token_findById_bad].
  unfold findById, uuid_param, withTenantTx. rewrite Hi, bind_Ok, run_atomic.
  unfold run_tx, mbind, txM_bind, sql_select, query. cbn [tx_aborted]. rewrite bind_Ok.
  rewrite (current_tenant_bad (mkTx _ _ t _ _ _) Ht) by by apply truthy_spec.
  simpl. by rewrite set_db_seq_id.
Qed.

Lemma set_revoked_harmless now : harmless (fun _ => set_revoked now).
Proof. by split_and!. Qed.

Lemma set_rotated_harmless now : harmless (fun _ => set_rotated now).
Proof. by split_and!. Qed.

Lemma refresh_refs_kept d (l : list refresh_tokens_row) : refs_kept d (t_put l d).
Proof. by split. Qed.

Lemma run_revokeFamily t u f g now w :
  uuid_in t = Some u -> uuid_in f = Some g -> db_ok (w_db w) ->
  run (revokeFamily t f now) w = (Ok tt, set_db_seq (revoke_family u g now (w_db w)) (w_pgseq w) w).
Proof.
  intros Hu Hf Hok. unfold revokeFamily, uuid_param. rewrite Hf, bind_Ok.
  unfold withTenantTx. rewrite run_atomic. unfold run_tx, mbind at 1, txM_bind.
  rewrite (eval_update (mkTx (w_db w) (w_pgseq w) t (w_dbnow w) false []) u) by
    (done || apply set_revoked_harmless || apply refresh_refs_kept).
  simpl. f_equal. unfold revoke_family. f_equal. f_equal. apply map_ext. intros r.
  unfold revoke_in. by rewrite policy_eq.
Qed.

(** The successor's insert. *)
Lemma eval_insert_token `{EntropyLaws} st t u i v f g hash expires :
  tx_aborted st = false -> tx_guc st = t -> uuid_in t = Some u ->
  uuid_in i = Some v -> uuid_in f = Some g -> length hash = 32 ->
  tenant_exists (tx_db st) u = true -> user_exists (tx_db st) u v = true ->
  Forall (fun r => rtr_id r <> pg_uuid (tx_seq st)) (d_refresh_tokens (tx_db st)) ->
  let r := new_token (pg_uuid (tx_seq st)) u v g hash (tx_now st) expires in
  insert_token t (mkNewRefreshToken f i hash expires) st =
    (Ok r, tx_bump (tx_set_db (add_token r (tx_db st)) st)).
Proof.
  intros Ha Hg Hu Hi Hf Hl Ht Hv Hfresh r. subst t. unfold insert_token.
  rewrite (eval_insert st u _ r); try done.
  - simpl. unfold uuid_param. by rewrite Hu, Hi, Hf.
  - simpl. by rewrite Hl.
  - apply existsb_false. eapply Forall_impl; [exact Hfresh|]. intros x Hx. simpl.
    apply bool_decide_eq_false. intros E. by apply Hx.
  - simpl. apply andb_true_iff. split; [exact Ht|exact Hv].
Qed.

Lemma run_token_create `{EntropyLaws} t u i v f g hash expires w :
  uuid_in t = Some u -> uuid_in i = Some v -> uuid_in f = Some g -> length hash = 32 ->
  tenant_exists (w_db w) u = true -> user_exists (w_db w) u v = true ->
  Forall (fun r => rtr_id r <> pg_uuid (w_pgseq w)) (d_refresh_tokens (w_db w)) ->
  run (create t (mkNewRefreshToken f i hash expires)) w =
  (Ok (pg_uuid (w_pgseq w)),
   set_db_seq (add_token (new_token (pg_uuid (w_pgseq w)) u v g hash (w_dbnow w) expires) (w_db w))
     (S (w_pgseq w)) w).
Proof.
  intros. unfold create, withTenantTx. rewrite run_atomic. unfold run_tx, mbind, txM_bind.
  by erewrite eval_insert_token.
Qed.

Definition rotate_db (t id : jsstr) (now : date) (d : database) : database :=
  set_refresh_tokens (map (rotate_in t id now) (d_refresh_tokens d)) d.

(** The row a rotation may consume. *)
Definition live_token (d : database) (t id : jsstr) : option refresh_tokens_row :=
  find (fun r => bool_decide (rtr_tenant_id r = t) && (bool_decide (rtr_id r = id) && is_live r))
    (d_refresh_tokens d).

Lemma rotate_in_id t id now r : rtr_id (rotate_in t id now r) = rtr_id r.
Proof. unfold rotate_in. by destruct (_ && _). Qed.

Lemma find_filter_nil {R} (p : R -> bool) l : find p l = None <-> List.filter p l = [].
Proof. induction l as [|r l IH]; simpl; [done|]. by destruct (p r). Qed.

(** The conditional UPDATE of [rotate]. *)
Lemma eval_consume w t u id i now :
  uuid_in t = Some u -> uuid_in id = Some i -> db_ok (w_db w) ->
  let st := mkTx (w_db w) (w_pgseq w) t (w_dbnow w) false [] in
  exists rows,
    sql_update (Ok (fun r => bool_decide (rtr_id r = i) && is_live r, fun _ => set_rotated now)) st
      = (Ok rows, tx_set_db (rotate_db u i now (w_db w)) st) /\
    (rows = [] <-> live_token (w_db w) u i = None).
Proof.
  intros Hu Hi Hok st. eexists. split.
  - rewrite (eval_update st u) by (done || apply set_rotated_harmless || apply refresh_refs_kept).
    f_equal. f_equal. unfold rotate_db. simpl. f_equal. apply map_ext. intros r.
    unfold rotate_in. by rewrite policy_eq.
  - unfold live_token. rewrite find_filter_nil. simpl.
    rewrite (filter_ext _ (fun r => bool_decide (rtr_tenant_id r = u)
                                    && (bool_decide (rtr_id r = i) && is_live r))).
    2: { intros r. by rewrite policy_eq. }
    by destruct (List.filter _ _).
Qed.

Lemma run_rotate_miss `{EntropyLaws} t u id i now s w :
  uuid_in t = Some u -> uuid_in id = Some i -> db_ok (w_db w) ->
  live_token (w_db w) u i = None ->
  run (rotate t id now s) w = (Ok None, w).
Proof.
  intros Hu Hi Hok Hn. unfold rotate, uuid_param. rewrite Hi, bind_Ok.
  unfold withTenantTx. rewrite run_atomic. unfold run_tx, mbind at 1, txM_bind at 1.
  destruct (eval_consume w t u id i now Hu Hi Hok) as (rows & -> & Hrows).
  apply Hrows in Hn as Hrows'. subst rows. simpl. f_equal.
  replace (rotate_db u i now (w_db w)) with (w_db w); [apply set_db_seq_id|].
  unfold rotate_db. rewrite map_ext_in with (g := fun r => r).
  { rewrite map_id. by destruct (w_db w). }
  intros r Hr. unfold rotate_in. destruct (_ && _) eqn:E; [|done].
  unfold live_token in Hn. eapply find_none in Hn; [|exact Hr]. simpl in Hn. congruence.
Qed.

Lemma run_rotate_hit `{EntropyLaws} t u id i now v x f g hash expires w :
  uuid_in t = Some u -> uuid_in id = Some i -> uuid_in v = Some x -> uuid_in f = Some g ->
  db_ok (w_db w) -> length hash = 32 ->
  tenant_exists (w_db w) u = true -> user_exists (w_db w) u x = true ->
  Forall (fun r => rtr_id r <> pg_uuid (w_pgseq w)) (d_refresh_tokens (w_db w)) ->
  is_Some (live_token (w_db w) u i) ->
  run (rotate t id now (mkNewRefreshToken f v hash expires)) w =
  (Ok (Some (pg_uuid (w_pgseq w))),
   set_db_seq
     (add_token (new_token (pg_uuid (w_pgseq w)) u x g hash (w_dbnow w) expires)
        (rotate_db u i now (w_db w)))
     (S (w_pgseq w)) w).
Proof.
  intros Hu Hi Hv Hf Hok Hl Ht Hx Hfresh Hlive. unfold rotate, uuid_param. rewrite Hi, bind_Ok.
  unfold withTenantTx. rewrite run_atomic. unfold run_tx, mbind at 1, txM_bind at 1.
  destruct (eval_consume w t u id i now Hu Hi Hok) as (rows & -> & Hrows).
  destruct rows as [|row rows].
  { destruct Hlive as [? Hlive]. by rewrite (proj1 Hrows eq_refl) in Hlive. }
  unfold mbind, txM_bind. erewrite eval_insert_token; try done. simpl.
  rewrite Forall_map. eapply Forall_impl; [exact Hfresh|]. intros r. simpl. by rewrite rotate_in_id.
Qed.
