(* ===== verification/PgInvites.v ===== *)
(** * Invite and OAuth-identity repositories, and the invite provisioner

    [adapters/postgres/invite-repository.ts],
    [adapters/postgres/oauth-identity-repository.ts] and
    [adapters/postgres/pg-invite-provisioner.ts]. *)

From stdpp Require Import base list option numbers strings gmap.
From S2P Require Import Prelude Errors Effects Tokens Rbac Entities Ports Uuid Schema World Sql PgUsers.

(** ** Invites *)

Module PgInviteRepository.

(** The projection; an unrecognised status is a loud failure. *)
Definition toInvite (row : invites_row) : result exn Invite :=
  match isInviteStatus (ivr_status row) with
  | None => Err (EError (js "invite " ++ ivr_id row ++ js " has an unrecognized status: "
                         ++ ivr_status row))
  | Some status =>
      Ok {| iv_id := ivr_id row;
            iv_tenantId := ivr_tenant_id row;
            iv_email := ivr_email row;
            iv_role := ivr_role row;
            iv_status := status;
            iv_createdBy := ivr_created_by row;
            iv_expiresAt := ivr_expires_at row;
            iv_consumedAt := ivr_consumed_at row;
            iv_createdAt := ivr_created_at row;
            iv_updatedAt := ivr_updated_at row |}
  end.

(** [res.rows.map(toInvite)]: the first failure throws. *)
Fixpoint toInvites (rows : list invites_row) : result exn (list Invite) :=
  match rows with
  | [] => Ok []
  | row :: rows' => i ← toInvite row; l ← toInvites rows'; Ok (i :: l)
  end.

Definition set_consumed (at_ : date) (now : Z) (r : invites_row) : invites_row :=
  mk_invites (ivr_id r) (ivr_tenant_id r) (ivr_email r) (ivr_role r) (ivr_token_hash r)
    (js "consumed") (ivr_expires_at r) (ivr_created_by r) (Some at_) (ivr_created_at r) now.

Definition consumeWithClient (input : ConsumeInput) : txM (option ConsumedInvite) :=
  res ← sql_update (Ok (fun r => bool_decide (ivr_token_hash r = cn_tokenHash input)
                                 && bool_decide (ivr_email r = cn_email input)
                                 && bool_decide (ivr_status r = js "pending")
                                 && (cn_now input <? ivr_expires_at r)%Z,
                        set_consumed (cn_now input)));
  match res with
  | [] => mret None
  | row :: _ =>
      mret (Some {| ci_inviteId := ivr_id row;
                    ci_role := ivr_role row;
                    ci_email := ivr_email row;
                    ci_consumedAt := default (cn_now input) (ivr_consumed_at row) |})
  end.

Definition create `{Entropy} (tenantId : jsstr) (input : NewInvite) : prog world Invite :=
  withTenantTx tenantId (
    res ← sql_insert (fun uuid now =>
      t ← uuid_param tenantId;
      by_ ← uuid_param_opt (nv_invitedBy input);
      Ok (mk_invites uuid t (nv_email input) (nv_role input) (nv_secretHash input) (js "pending")
            (nv_expiresAt input) by_ None now now));
    tx_lift (toInvite res)).

Definition findValidByTokenHash (tenantId : jsstr) (tokenHash : list N) (now : date)
    : prog world (option InviteRef) :=
  withTenantTx tenantId (
    res ← sql_select (Ok (fun r => bool_decide (ivr_token_hash r = tokenHash)
                                   && bool_decide (ivr_status r = js "pending")
                                   && (now <? ivr_expires_at r)%Z));
    mret (first_row (fun row => mkInviteRef (ivr_id row) (ivr_tenant_id row) (ivr_email row)) res)).

Definition consume (tenantId : jsstr) (input : ConsumeInput) : prog world (option ConsumedInvite) :=
  withTenantTx tenantId (consumeWithClient input).

Definition countPending (tenantId : jsstr) : prog world Z :=
  withTenantTx tenantId (
    res ← sql_select (Ok (fun r : invites_row => bool_decide (ivr_status r = js "pending")));
    mret (Z.of_nat (length res))).

Definition listByTenant (tenantId : jsstr) : prog world (list Invite) :=
  withTenantTx tenantId (
    res ← sql_select (Ok (fun _ => true));
    tx_lift (toInvites (order_by_desc ivr_created_at res))).

Definition set_status_revoked (now : Z) (r : invites_row) : invites_row :=
  mk_invites (ivr_id r) (ivr_tenant_id r) (ivr_email r) (ivr_role r) (ivr_token_hash r)
    (js "revoked") (ivr_expires_at r) (ivr_created_by r) (ivr_consumed_at r) (ivr_created_at r) now.

Definition revoke (tenantId id : jsstr) (_now : date) : prog world bool :=
  withTenantTx tenantId (
    res ← sql_update (u ← uuid_param id;
                      Ok (fun r => bool_decide (ivr_id r = u)
                                   && bool_decide (ivr_status r = js "pending"),
                          set_status_revoked));
    mret (0 <? length res)).

Definition repository `{Entropy} : InviteRepository world :=
  {| invites_create := create;
     invites_findValidByTokenHash := findValidByTokenHash;
     invites_consume := consume;
     invites_countPending := countPending;
     invites_listByTenant := listByTenant;
     invites_revoke := revoke |}.

End PgInviteRepository.

(** ** OAuth identities *)

Module PgOAuthIdentityRepository.

Definition toIdentity (row : oauth_identities_row) : OAuthIdentity :=
  {| oi_id := oir_id row;
     oi_tenantId := oir_tenant_id row;
     oi_userId := oir_user_id row;
     oi_provider := oir_provider row;
     oi_providerSub := oir_provider_sub row;
     oi_email := oir_email row;
     oi_lastLoginAt := oir_last_login_at row;
     oi_createdAt := oir_created_at row;
     oi_updatedAt := oir_updated_at row |}.

Definition toRef (row : oauth_identities_row) : OAuthIdentityRef :=
  {| or_id := oir_id row; or_userId := oir_user_id row |}.

(** [SELECT id, user_id FROM oauth_identities WHERE provider = $1 AND provider_sub = $2]. *)
Definition select_by_sub (provider : OAuthProvider) (providerSub : jsstr)
    : txM (list oauth_identities_row) :=
  sql_select (Ok (fun r => bool_decide (oir_provider r = provider)
                           && bool_decide (oir_provider_sub r = providerSub))).

Definition linkFirstWithClient `{Entropy} (tenantId : jsstr) (input : NewOAuthIdentity)
    : txM OAuthIdentityRef :=
  _ ← sql_savepoint (js "link_first");
  tx_catch (fun err =>
      if isUniqueViolation err then
        _ ← sql_rollback_to (js "link_first");
        existing ← select_by_sub (ni_provider input) (ni_providerSub input);
        match existing with
        | [] => tx_throw (ConflictError
                  (js "user is already linked to a different identity for this provider"))
        | row :: _ => mret (toRef row)
        end
      else tx_throw err)
    (row ← sql_insert (fun uuid now =>
       t ← uuid_param tenantId;
       u ← uuid_param (ni_userId input);
       Ok (mk_oauth_identities uuid t u (ni_provider input) (ni_providerSub input)
             (ni_email input) None now now));
     mret (toRef row)).

Definition findByProviderSub (tenantId : jsstr) (provider : OAuthProvider) (providerSub : jsstr)
    : prog world (option OAuthIdentityRef) :=
  withTenantTx tenantId (
    res ← select_by_sub provider providerSub;
    mret (first_row toRef res)).

Definition linkFirst `{Entropy} (tenantId : jsstr) (input : NewOAuthIdentity)
    : prog world OAuthIdentityRef :=
  withTenantTx tenantId (linkFirstWithClient tenantId input).

Definition set_last_login (at_ : date) (now : Z) (r : oauth_identities_row) : oauth_identities_row :=
  mk_oauth_identities (oir_id r) (oir_tenant_id r) (oir_user_id r) (oir_provider r)
    (oir_provider_sub r) (oir_email r) (Some at_) (oir_created_at r) now.

Definition touchLastLogin (tenantId id : jsstr) (now : date) : prog world unit :=
  withTenantTx tenantId (
    _ ← sql_update (u ← uuid_param id;
                    Ok (fun r => bool_decide (oir_id r = u), set_last_login now));
    mret tt).

Definition findById (tenantId id : jsstr) : prog world (option OAuthIdentity) :=
  withTenantTx tenantId (
    res ← sql_select (u ← uuid_param id; Ok (fun r => bool_decide (oir_id r = u)));
    mret (first_row toIdentity res)).

Definition repository `{Entropy} : OAuthIdentityRepository world :=
  {| identities_findByProviderSub := findByProviderSub;
     identities_linkFirst := linkFirst;
     identities_touchLastLogin := touchLastLogin;
     identities_findById := findById |}.

End PgOAuthIdentityRepository.

(** ** Provisioning a user from an invite, in one transaction *)

Module PgInviteProvisioner.
Import PgInviteRepository PgOAuthIdentityRepository.

Definition DISABLED_PASSWORD : jsstr := js "!disabled".

Definition translateRole (inviteRole : jsstr) : MembershipRole :=
  if bool_decide (inviteRole = js "admin") then m_tenant_admin else m_member.

Definition hashForAudit `{Crypto} (value : jsstr) : jsstr := toHex (sha256_digest value).

(** The body of the transaction. *)
Definition provision_tx `{Entropy} (tenantId : jsstr) (input : InviteProvisionInput)
    : txM (option jsstr) :=
  consumed ← consumeWithClient (mkConsumeInput (vi_inviteTokenHash input) (vi_email input) (vi_now input));
  match consumed with
  | None => mret None
  | Some c =>
      let membershipRole := translateRole (ci_role c) in
      user ← PgUserRepository.insertUserWithMembership tenantId
               (mkNewUser (vi_email input) DISABLED_PASSWORD None membershipRole);
      link ← linkFirstWithClient tenantId
               (mkNewOAuthIdentity (us_id user) google (vi_providerSub input) (vi_email input));
      if bool_decide (or_userId link <> us_id user)
      then tx_throw (ConflictError
             (js "Google account is already linked to a different user in this tenant"))
      else mret (Some (us_id user))
  end.

Definition provisionFromInvite `{Entropy, Crypto} (auditLogger : OAuthAuditLogger world)
    (tenantId : jsstr) (input : InviteProvisionInput) : prog world (option jsstr) :=
  catch (fun err => if instanceof err ConflictErrorC then mret None else throw err)
    (res ← withTenantTx tenantId (provision_tx tenantId input);
     match res with
     | None => mret None
     | Some userId =>
         _ ← catch (fun _ => mret tt)
               (oauth_log auditLogger
                  {| oe_tenantId := Some tenantId;
                     oe_userId := Some userId;
                     oe_provider := google;
                     oe_hashedSub := Some (hashForAudit (vi_providerSub input));
                     oe_outcome := invite_provisioned;
                     oe_ts := vi_now input |});
         mret (Some userId)
     end).

Definition provisioner `{Entropy, Crypto} (auditLogger : OAuthAuditLogger world)
    : InviteProvisioner world :=
  {| provisioner_provisionFromInvite := provisionFromInvite auditLogger |}.

End PgInviteProvisioner.
