(* ===== verification/PgContent.v ===== *)
(** * API-key, retention, alert-rule, saved-query and dashboard repositories

    [adapters/postgres/api-key-repository.ts], [retention-repository.ts],
    [alert-rule-repository.ts], [saved-query-repository.ts] and
    [dashboard-repository.ts].  A JavaScript number stored as [numeric] and read
    back with [Number(...)] is the same number, and a JSON value stored as
    [jsonb] the same value. *)

From stdpp Require Import base list option numbers strings gmap.
From S2P Require Import Prelude Errors Effects Entities Ports Uuid Schema World Sql.

Definition pg_numeric_out_of_range : jsstr := js "22003".

(** A bind parameter of type [integer]. *)
Definition int4_param (n : Z) : result exn Z :=
  if ((-2147483648 <=? n) && (n <=? 2147483647))%Z then Ok n
  else Err (EPg pg_numeric_out_of_range).

Definition int4_param_opt (n : option Z) : result exn (option Z) :=
  match n with
  | None => Ok None
  | Some k => Some <$> int4_param k
  end.

(** ** API keys *)

Module PgApiKeyRepository.

Definition toRecord (row : api_keys_row) : ApiKeyRecord :=
  {| ak_id := kr_id row;
     ak_tenantId := kr_tenant_id row;
     ak_name := kr_name row;
     ak_scopes := kr_scopes row;
     ak_createdBy := kr_created_by row;
     ak_createdAt := kr_created_at row;
     ak_expiresAt := kr_expires_at row;
     ak_revokedAt := kr_revoked_at row;
     ak_lastUsedAt := kr_last_used_at row |}.

Definition create `{Entropy} (tenantId : jsstr) (input : NewApiKey) : prog world ApiKeyRecord :=
  withTenantTx tenantId (
    res ← sql_insert (fun _ now =>
      t ← uuid_param tenantId;
      by_ ← uuid_param_opt (nk_createdBy input);
      Ok (mk_api_keys (nk_keyId input) t (nk_name input) (nk_keyHash input) (nk_scopes input)
            by_ now None (nk_expiresAt input) None));
    mret (toRecord res)).

Definition list_ (tenantId : jsstr) : prog world (list ApiKeyRecord) :=
  withTenantTx tenantId (
    res ← sql_select (Ok (fun _ => true));
    mret (map toRecord (order_by_desc kr_created_at res))).

Definition set_key_revoked (at_ : date) (r : api_keys_row) : api_keys_row :=
  mk_api_keys (kr_id r) (kr_tenant_id r) (kr_name r) (kr_key_hash r) (kr_scopes r)
    (kr_created_by r) (kr_created_at r) (kr_last_used_at r) (kr_expires_at r) (Some at_).

Definition revoke (tenantId keyId : jsstr) (now : date) : prog world bool :=
  withTenantTx tenantId (
    res ← sql_update (Ok (fun r => bool_decide (kr_id r = keyId)
                                   && bool_decide (kr_revoked_at r = None),
                          fun _ => set_key_revoked now));
    mret (0 <? length res)).

Definition repository `{Entropy} : ApiKeyRepository world :=
  {| apikeys_create := create; apikeys_list := list_; apikeys_revoke := revoke |}.

End PgApiKeyRepository.

(** ** Retention policies *)

Module PgRetentionRepository.

Definition toPolicy (row : retention_policies_row) : RetentionPolicy :=
  {| rp_tenantId := rpr_tenant_id row;
     rp_hotDays := rpr_hot_days row;
     rp_coldDays := rpr_cold_days row;
     rp_createdAt := rpr_created_at row;
     rp_updatedAt := rpr_updated_at row |}.

Definition get (tenantId : jsstr) : prog world (option RetentionPolicy) :=
  withTenantTx tenantId (
    res ← sql_select (Ok (fun _ => true));
    mret (first_row toPolicy res)).

(** [DO UPDATE SET ... = EXCLUDED...], and the [updated_at] trigger. *)
Definition merge_policy (excluded : retention_policies_row) (now : Z) (r : retention_policies_row)
    : retention_policies_row :=
  mk_retention_policies (rpr_tenant_id r) (rpr_hot_days excluded) (rpr_cold_days excluded)
    (rpr_updated_by excluded) (rpr_created_at r) now.

(** [INSERT ... ON CONFLICT (tenant_id) DO UPDATE ... RETURNING]. *)
Definition upsert_policy (tenantId : jsstr) (input : RetentionInput) : txM retention_policies_row :=
  sql_upsert (fun now =>
      t ← uuid_param tenantId;
      hot ← int4_param (ri_hotDays input);
      cold ← int4_param (ri_coldDays input);
      by_ ← uuid_param_opt (ri_updatedBy input);
      Ok (mk_retention_policies t hot cold by_ now now))
    merge_policy.

Definition upsert (tenantId : jsstr) (input : RetentionInput) : prog world RetentionPolicy :=
  withTenantTx tenantId (
    res ← upsert_policy tenantId input;
    mret (toPolicy res)).

Definition repository : RetentionRepository world :=
  {| retention_get := get; retention_upsert := upsert |}.

End PgRetentionRepository.

(** ** Alert rules *)

Module PgAlertRuleRepository.

Definition toRule (row : alert_rules_row) : AlertRule :=
  {| ar_id := arr_id row;
     ar_tenantId := arr_tenant_id row;
     ar_name := arr_name row;
     ar_savedQueryId := arr_saved_query_id row;
     ar_query := arr_query row;
     ar_comparator := arr_comparator row;
     ar_threshold := arr_threshold row;
     ar_windowSeconds := arr_window_seconds row;
     ar_severity := arr_severity row;
     ar_enabled := arr_enabled row;
     ar_notifyChannels := arr_notify_channels row;
     ar_state := arr_state row;
     ar_lastEvaluatedAt := arr_last_evaluated_at row;
     ar_lastTriggeredAt := arr_last_triggered_at row;
     ar_createdBy := arr_created_by row;
     ar_createdAt := arr_created_at row;
     ar_updatedAt := arr_updated_at row |}.

Definition create `{Entropy} (tenantId : jsstr) (input : NewAlertRule) : prog world AlertRule :=
  withTenantTx tenantId (
    res ← sql_insert (fun uuid now =>
      t ← uuid_param tenantId;
      sq ← uuid_param_opt (na_savedQueryId input);
      win ← int4_param (na_windowSeconds input);
      by_ ← uuid_param_opt (na_createdBy input);
      Ok (mk_alert_rules uuid t (na_name input) sq (na_query input) (na_comparator input)
            (na_threshold input) win (na_severity input) (na_enabled input)
            (na_notifyChannels input) a_ok None None by_ now now));
    mret (toRule res)).

Definition list_ (tenantId : jsstr) : prog world (list AlertRule) :=
  withTenantTx tenantId (
    res ← sql_select (Ok (fun _ => true));
    mret (map toRule (order_by_desc arr_created_at res))).

Definition by_id (id : jsstr) : result exn (alert_rules_row -> bool) :=
  u ← uuid_param id; Ok (fun r => bool_decide (arr_id r = u)).

Definition findById (tenantId id : jsstr) : prog world (option AlertRule) :=
  withTenantTx tenantId (
    res ← sql_select (by_id id);
    mret (first_row toRule res)).

(** The [SET] list built from the provided fields, [sq] and [win] being the
    converted parameters. *)
Definition patch_rule (patch : AlertRulePatch) (sq : option (option jsstr)) (win : option Z)
    (now : Z) (r : alert_rules_row) : alert_rules_row :=
  mk_alert_rules (arr_id r) (arr_tenant_id r) (default (arr_name r) (ap_name patch))
    (default (arr_saved_query_id r) sq) (default (arr_query r) (ap_query patch))
    (default (arr_comparator r) (ap_comparator patch))
    (default (arr_threshold r) (ap_threshold patch))
    (default (arr_window_seconds r) win)
    (default (arr_severity r) (ap_severity patch)) (default (arr_enabled r) (ap_enabled patch))
    (default (arr_notify_channels r) (ap_notifyChannels patch)) (arr_state r)
    (arr_last_evaluated_at r) (arr_last_triggered_at r) (arr_created_by r) (arr_created_at r) now.

(** [sets.length === 0]. *)
Definition patch_empty (patch : AlertRulePatch) : bool :=
  match patch with
  | mkAlertRulePatch None None None None None None None None None => true
  | _ => false
  end.

Definition saved_query_param (p : option (option jsstr)) : result exn (option (option jsstr)) :=
  match p with
  | None => Ok None
  | Some sq => Some <$> uuid_param_opt sq
  end.

Definition update (tenantId id : jsstr) (patch : AlertRulePatch) : prog world (option AlertRule) :=
  if patch_empty patch then findById tenantId id
  else
    withTenantTx tenantId (
      res ← sql_update (
        sq ← saved_query_param (ap_savedQueryId patch);
        win ← int4_param_opt (ap_windowSeconds patch);
        p ← by_id id;
        Ok (p, patch_rule patch sq win));
      mret (first_row toRule res)).

Definition delete (tenantId id : jsstr) : prog world bool :=
  withTenantTx tenantId (
    n ← sql_delete (by_id id);
    mret (0 <? n)).

Definition repository `{Entropy} : AlertRuleRepository world :=
  {| rules_create := create;
     rules_list := list_;
     rules_findById := findById;
     rules_update := update;
     rules_delete := delete |}.

End PgAlertRuleRepository.

(** ** Saved queries *)

Module PgSavedQueryRepository.

Definition toSavedQuery (row : saved_queries_row) : SavedQuery :=
  {| sq_id := sqr_id row;
     sq_tenantId := sqr_tenant_id row;
     sq_name := sqr_name row;
     sq_description := sqr_description row;
     sq_queryText := sqr_query_text row;
     sq_filters := sqr_filters row;
     sq_timeRange := sqr_time_range row;
     sq_createdBy := sqr_created_by row;
     sq_createdAt := sqr_created_at row;
     sq_updatedAt := sqr_updated_at row |}.

Definition create `{Entropy} (tenantId : jsstr) (input : NewSavedQuery) : prog world SavedQuery :=
  withTenantTx tenantId (
    res ← sql_insert (fun uuid now =>
      t ← uuid_param tenantId;
      by_ ← uuid_param_opt (nq_createdBy input);
      Ok (mk_saved_queries uuid t (nq_name input) (default None (nq_description input))
            (nq_queryText input) (nq_filters input) (nq_timeRange input) by_ now now));
    mret (toSavedQuery res)).

Definition list_ (tenantId : jsstr) : prog world (list SavedQuery) :=
  withTenantTx tenantId (
    res ← sql_select (Ok (fun _ => true));
    mret (map toSavedQuery (order_by_desc sqr_created_at res))).

Definition by_id (id : jsstr) : result exn (saved_queries_row -> bool) :=
  u ← uuid_param id; Ok (fun r => bool_decide (sqr_id r = u)).

Definition findById (tenantId id : jsstr) : prog world (option SavedQuery) :=
  withTenantTx tenantId (
    res ← sql_select (by_id id);
    mret (first_row toSavedQuery res)).

Definition patch_query (patch : SavedQueryPatch) (now : Z) (r : saved_queries_row)
    : saved_queries_row :=
  mk_saved_queries (sqr_id r) (sqr_tenant_id r) (default (sqr_name r) (sp_name patch))
    (default (sqr_description r) (sp_description patch))
    (default (sqr_query_text r) (sp_queryText patch))
    (default (sqr_filters r) (sp_filters patch))
    (default (sqr_time_range r) (sp_timeRange patch))
    (sqr_created_by r) (sqr_created_at r) now.

Definition patch_empty (patch : SavedQueryPatch) : bool :=
  match patch with
  | mkSavedQueryPatch None None None None None => true
  | _ => false
  end.

Definition update (tenantId id : jsstr) (patch : SavedQueryPatch) : prog world (option SavedQuery) :=
  if patch_empty patch then findById tenantId id
  else
    withTenantTx tenantId (
      res ← sql_update (p ← by_id id; Ok (p, patch_query patch));
      mret (first_row toSavedQuery res)).

Definition delete (tenantId id : jsstr) : prog world bool :=
  withTenantTx tenantId (
    n ← sql_delete (by_id id);
    mret (0 <? n)).

Definition repository `{Entropy} : SavedQueryRepository world :=
  {| queries_create := create;
     queries_list := list_;
     queries_findById := findById;
     queries_update := update;
     queries_delete := delete |}.

End PgSavedQueryRepository.

(** ** Dashboards *)

Module PgDashboardRepository.

Definition toDashboard (row : dashboards_row) : Dashboard :=
  {| dh_id := dsr_id row;
     dh_tenantId := dsr_tenant_id row;
     dh_name := dsr_name row;
     dh_description := dsr_description row;
     dh_layout := dsr_layout row;
     dh_createdBy := dsr_created_by row;
     dh_createdAt := dsr_created_at row;
     dh_updatedAt := dsr_updated_at row |}.

Definition create `{Entropy} (tenantId : jsstr) (input : NewDashboard) : prog world Dashboard :=
  withTenantTx tenantId (
    res ← sql_insert (fun uuid now =>
      t ← uuid_param tenantId;
      by_ ← uuid_param_opt (nd_createdBy input);
      Ok (mk_dashboards uuid t (nd_name input) (default None (nd_description input))
            (nd_layout input) by_ now now));
    mret (toDashboard res)).

Definition list_ (tenantId : jsstr) : prog world (list Dashboard) :=
  withTenantTx tenantId (
    res ← sql_select (Ok (fun _ => true));
    mret (map toDashboard (order_by_desc dsr_created_at res))).

Definition by_id (id : jsstr) : result exn (dashboards_row -> bool) :=
  u ← uuid_param id; Ok (fun r => bool_decide (dsr_id r = u)).

Definition findById (tenantId id : jsstr) : prog world (option Dashboard) :=
  withTenantTx tenantId (
    res ← sql_select (by_id id);
    mret (first_row toDashboard res)).

Definition patch_dashboard (patch : DashboardPatch) (now : Z) (r : dashboards_row)
    : dashboards_row :=
  mk_dashboards (dsr_id r) (dsr_tenant_id r) (default (dsr_name r) (dp_name patch))
    (default (dsr_description r) (dp_description patch))
    (default (dsr_layout r) (dp_layout patch))
    (dsr_created_by r) (dsr_created_at r) now.

Definition patch_empty (patch : DashboardPatch) : bool :=
  match patch with
  | mkDashboardPatch None None None => true
  | _ => false
  end.

Definition update (tenantId id : jsstr) (patch : DashboardPatch) : prog world (option Dashboard) :=
  if patch_empty patch then findById tenantId id
  else
    withTenantTx tenantId (
      res ← sql_update (p ← by_id id; Ok (p, patch_dashboard patch));
      mret (first_row toDashboard res)).

Definition delete (tenantId id : jsstr) : prog world bool :=
  withTenantTx tenantId (
    n ← sql_delete (by_id id);
    mret (0 <? n)).

Definition repository `{Entropy} : DashboardRepository world :=
  {| dashboards_create := create;
     dashboards_list := list_;
     dashboards_findById := findById;
     dashboards_update := update;
     dashboards_delete := delete |}.

End PgDashboardRepository.
