(* ===== verification/Calls.v ===== *)
(** * Every repository call

    One constructor per method of the Postgres repositories (and the
    transaction of the invite provisioner), so that a property of the persistence
    layer is one statement: integrity, isolation of writes, isolation of reads. *)

From stdpp Require Import base list option numbers strings gmap.
From S2P Require Import Prelude Errors Effects Rbac Entities Ports Uuid Schema World Sql Integrity Eval.
From S2P Require Import Demo PgUsers PgTokens PgInvites PgContent.

Inductive repo_call : Type -> Type :=
| TenantsCreate (i : NewTenant) : repo_call Tenant
| TenantsList : repo_call (list Tenant)
| TenantsFindById (id : jsstr) : repo_call (option Tenant)
| TenantsFindByPublicId (p : jsstr) : repo_call (option Tenant)
| TenantsUpdate (id : jsstr) (p : TenantPatch) : repo_call (option Tenant)
| TenantsDelete (id : jsstr) : repo_call bool
| UsersCreate (t : jsstr) (i : NewUser) : repo_call User
| UsersList (t : jsstr) : repo_call (list User)
| UsersFindById (t id : jsstr) : repo_call (option User)
| UsersUpdate (t id : jsstr) (p : UserPatch) : repo_call (option User)
| UsersDelete (t id : jsstr) : repo_call bool
| UsersCredentialsByEmail (t e : jsstr) : repo_call (option AuthRecord)
| UsersCredentialsById (t id : jsstr) : repo_call (option AuthRecord)
| ApiKeysCreate (t : jsstr) (i : NewApiKey) : repo_call ApiKeyRecord
| ApiKeysList (t : jsstr) : repo_call (list ApiKeyRecord)
| ApiKeysRevoke (t k : jsstr) (now : date) : repo_call bool
| RetentionGet (t : jsstr) : repo_call (option RetentionPolicy)
| RetentionUpsert (t : jsstr) (i : RetentionInput) : repo_call RetentionPolicy
| RulesCreate (t : jsstr) (i : NewAlertRule) : repo_call AlertRule
| RulesList (t : jsstr) : repo_call (list AlertRule)
| RulesFindById (t id : jsstr) : repo_call (option AlertRule)
| RulesUpdate (t id : jsstr) (p : AlertRulePatch) : repo_call (option AlertRule)
| RulesDelete (t id : jsstr) : repo_call bool
| QueriesCreate (t : jsstr) (i : NewSavedQuery) : repo_call SavedQuery
| QueriesList (t : jsstr) : repo_call (list SavedQuery)
| QueriesFindById (t id : jsstr) : repo_call (option SavedQuery)
| QueriesUpdate (t id : jsstr) (p : SavedQueryPatch) : repo_call (option SavedQuery)
| QueriesDelete (t id : jsstr) : repo_call bool
| DashboardsCreate (t : jsstr) (i : NewDashboard) : repo_call Dashboard
| DashboardsList (t : jsstr) : repo_call (list Dashboard)
| DashboardsFindById (t id : jsstr) : repo_call (option Dashboard)
| DashboardsUpdate (t id : jsstr) (p : DashboardPatch) : repo_call (option Dashboard)
| DashboardsDelete (t id : jsstr) : repo_call bool
| RefreshCreate (t : jsstr) (i : NewRefreshToken) : repo_call jsstr
| RefreshFindById (t id : jsstr) : repo_call (option RefreshTokenRow)
| RefreshRotate (t id : jsstr) (now : date) (s : NewRefreshToken) : repo_call (option jsstr)
| RefreshRevokeFamily (t f : jsstr) (now : date) : repo_call unit
| IdentitiesFindBySub (t : jsstr) (p : OAuthProvider) (s : jsstr) : repo_call (option OAuthIdentityRef)
| IdentitiesLinkFirst (t : jsstr) (i : NewOAuthIdentity) : repo_call OAuthIdentityRef
| IdentitiesTouch (t id : jsstr) (now : date) : repo_call unit
| IdentitiesFindById (t id : jsstr) : repo_call (option OAuthIdentity)
| InvitesCreate (t : jsstr) (i : NewInvite) : repo_call Invite
| InvitesFindValid (t : jsstr) (h : list N) (now : date) : repo_call (option InviteRef)
| InvitesConsume (t : jsstr) (i : ConsumeInput) : repo_call (option ConsumedInvite)
| InvitesCountPending (t : jsstr) : repo_call Z
| InvitesList (t : jsstr) : repo_call (list Invite)
| InvitesRevoke (t id : jsstr) (now : date) : repo_call bool
| InvitesProvision (t : jsstr) (i : InviteProvisionInput) : repo_call (option jsstr).

Section Calls.
Context `{Entropy}.

(** The repository method a call stands for. *)
Definition perform {A} (c : repo_call A) : prog world A :=
  match c in repo_call A return prog world A with
  | TenantsCreate i => PgTenantRepository.create i
  | TenantsList => PgTenantRepository.list_
  | TenantsFindById id => PgTenantRepository.findById id
  | TenantsFindByPublicId p => PgTenantRepository.findByPublicId p
  | TenantsUpdate id p => PgTenantRepository.update id p
  | TenantsDelete id => PgTenantRepository.delete id
  | UsersCreate t i => PgUserRepository.create t i
  | UsersList t => PgUserRepository.list_ t
  | UsersFindById t id => PgUserRepository.findById t id
  | UsersUpdate t id p => PgUserRepository.update t id p
  | UsersDelete t id => PgUserRepository.delete t id
  | UsersCredentialsByEmail t e => PgUserRepository.findCredentialsByEmail t e
  | UsersCredentialsById t id => PgUserRepository.findCredentialsById t id
  | ApiKeysCreate t i => PgApiKeyRepository.create t i
  | ApiKeysList t => PgApiKeyRepository.list_ t
  | ApiKeysRevoke t k now => PgApiKeyRepository.revoke t k now
  | RetentionGet t => PgRetentionRepository.get t
  | RetentionUpsert t i => PgRetentionRepository.upsert t i
  | RulesCreate t i => PgAlertRuleRepository.create t i
  | RulesList t => PgAlertRuleRepository.list_ t
  | RulesFindById t id => PgAlertRuleRepository.findById t id
  | RulesUpdate t id p => PgAlertRuleRepository.update t id p
  | RulesDelete t id => PgAlertRuleRepository.delete t id
  | QueriesCreate t i => PgSavedQueryRepository.create t i
  | QueriesList t => PgSavedQueryRepository.list_ t
  | QueriesFindById t id => PgSavedQueryRepository.findById t id
  | QueriesUpdate t id p => PgSavedQueryRepository.update t id p
  | QueriesDelete t id => PgSavedQueryRepository.delete t id
  | DashboardsCreate t i => PgDashboardRepository.create t i
  | DashboardsList t => PgDashboardRepository.list_ t
  | DashboardsFindById t id => PgDashboardRepository.findById t id
  | DashboardsUpdate t id p => PgDashboardRepository.update t id p
  | DashboardsDelete t id => PgDashboardRepository.delete t id
  | RefreshCreate t i => PgRefreshTokenRepository.create t i
  | RefreshFindById t id => PgRefreshTokenRepository.findById t id
  | RefreshRotate t id now s => PgRefreshTokenRepository.rotate t id now s
  | RefreshRevokeFamily t f now => PgRefreshTokenRepository.revokeFamily t f now
  | IdentitiesFindBySub t p s => PgOAuthIdentityRepository.findByProviderSub t p s
  | IdentitiesLinkFirst t i => PgOAuthIdentityRepository.linkFirst t i
  | IdentitiesTouch t id now => PgOAuthIdentityRepository.touchLastLogin t id now
  | IdentitiesFindById t id => PgOAuthIdentityRepository.findById t id
  | InvitesCreate t i => PgInviteRepository.create t i
  | InvitesFindValid t h now => PgInviteRepository.findValidByTokenHash t h now
  | InvitesConsume t i => PgInviteRepository.consume t i
  | InvitesCountPending t => PgInviteRepository.countPending t
  | InvitesList t => PgInviteRepository.listByTenant t
  | InvitesRevoke t id now => PgInviteRepository.revoke t id now
  | InvitesProvision t i => withTenantTx t (PgInviteProvisioner.provision_tx t i)
  end.

(** The tenant a call is armed with; the registry calls have none. *)
Definition call_tenant {A} (c : repo_call A) : option jsstr :=
  match c with
  | UsersCreate t _ | UsersList t | UsersFindById t _ | UsersUpdate t _ _ |
    UsersDelete t _ | UsersCredentialsByEmail t _ | UsersCredentialsById t _ |
    ApiKeysCreate t _ | ApiKeysList t | ApiKeysRevoke t _ _ | RetentionGet t |
    RetentionUpsert t _ | RulesCreate t _ | RulesList t | RulesFindById t _ |
    RulesUpdate t _ _ | RulesDelete t _ | QueriesCreate t _ | QueriesList t |
    QueriesFindById t _ | QueriesUpdate t _ _ | QueriesDelete t _ | DashboardsCreate t _ |
    DashboardsList t | DashboardsFindById t _ | DashboardsUpdate t _ _ |
    DashboardsDelete t _ | RefreshCreate t _ | RefreshFindById t _ | RefreshRotate t _ _ _ |
    RefreshRevokeFamily t _ _ | IdentitiesFindBySub t _ _ | IdentitiesLinkFirst t _ |
    IdentitiesTouch t _ _ | IdentitiesFindById t _ | InvitesCreate t _ |
    InvitesFindValid t _ _ | InvitesConsume t _ | InvitesCountPending t | InvitesList t |
    InvitesRevoke t _ _ | InvitesProvision t _ => Some t
  | _ => None
  end.

(** The calls that are queries. *)
Definition is_read {A} (c : repo_call A) : bool :=
  match c with
  | TenantsList | TenantsFindById _ | TenantsFindByPublicId _ | UsersList _ |
    UsersFindById _ _ | UsersCredentialsByEmail _ _ | UsersCredentialsById _ _ |
    ApiKeysList _ | RetentionGet _ | RulesList _ | RulesFindById _ _ | QueriesList _ |
    QueriesFindById _ _ | DashboardsList _ | DashboardsFindById _ _ | RefreshFindById _ _ |
    IdentitiesFindBySub _ _ _ | IdentitiesFindById _ _ | InvitesFindValid _ _ _ |
    InvitesCountPending _ | InvitesList _ => true
  | _ => false
  end.

(** The user a call writes into an authorship column. *)
Definition call_author {A} (c : repo_call A) : option jsstr :=
  match c with
  | ApiKeysCreate _ i => nk_createdBy i
  | RetentionUpsert _ i => ri_updatedBy i
  | RulesCreate _ i => na_createdBy i
  | QueriesCreate _ i => nq_createdBy i
  | DashboardsCreate _ i => nd_createdBy i
  | InvitesCreate _ i => nv_invitedBy i
  | _ => None
  end.

(** The call does not name a user of another tenant as the author. *)
Definition own_author {A} (c : repo_call A) (d : database) : Prop :=
  forall t, call_tenant c = Some t -> author_local d (armed t) (call_author c ≫= uuid_in).

(** The worlds that such calls lead to, in any number and order, whatever else happens
    outside the database. *)
Inductive history (w0 : world) : world -> Prop :=
| h_start : history w0 w0
| h_call {A} (c : repo_call A) w : history w0 w -> own_author c (w_db w) -> history w0 (run (perform c) w).2
| h_else w w' : history w0 w -> w_db w' = w_db w -> history w0 w'.

End Calls.

(** *** A deleted user, as the tables show it *)

(** The rows are there with their content, and the author [u] is cleared. *)
Definition cleared {R C} (u : jsstr) (author : R -> option jsstr) (content : R -> C) (l l' : list R) : Prop :=
  content <$> l' = content <$> l /\
  author <$> l' = (fun a => if bool_decide (a = Some u) then None else a) <$> (author <$> l).

(** The content of a row: all its columns but the author and the time of the last change. *)
Definition key_content (r : api_keys_row) :=
  (kr_id r, kr_tenant_id r, kr_name r, kr_key_hash r, kr_scopes r, kr_created_at r, kr_last_used_at r, kr_expires_at r, kr_revoked_at r).
Definition policy_content (r : retention_policies_row) := (rpr_tenant_id r, rpr_hot_days r, rpr_cold_days r, rpr_created_at r).
Definition query_content (r : saved_queries_row) :=
  (sqr_id r, sqr_tenant_id r, sqr_name r, sqr_description r, sqr_query_text r, sqr_filters r, sqr_time_range r, sqr_created_at r).
Definition dashboard_content (r : dashboards_row) :=
  (dsr_id r, dsr_tenant_id r, dsr_name r, dsr_description r, dsr_layout r, dsr_created_at r).
Definition rule_content (r : alert_rules_row) :=
  (arr_id r, arr_tenant_id r, arr_name r, arr_saved_query_id r, arr_query r, arr_comparator r, arr_threshold r,
   arr_window_seconds r, arr_severity r, arr_enabled r, arr_notify_channels r, arr_state r, arr_last_evaluated_at r,
   arr_last_triggered_at r, arr_created_at r).
Definition invite_content (r : invites_row) :=
  (ivr_id r, ivr_tenant_id r, ivr_email r, ivr_role r, ivr_token_hash r, ivr_status r, ivr_expires_at r, ivr_consumed_at r, ivr_created_at r).

(** The rows that do not belong to user [u]. *)
Definition without {R} (user : R -> jsstr) (u : jsstr) (l : list R) : list R :=
  List.filter (fun r => negb (bool_decide (user r = u))) l.

(** [d'] is [d] without user [u]: what belonged to the user is gone, what the user made is
    there without an author, and everything else is as it was. *)
Record forgotten (u : jsstr) (d d' : database) : Prop := mk_forgotten {
  fg_tenants : d_tenants d' = d_tenants d;
  fg_users : d_users d' = without ur_id u (d_users d);
  fg_memberships : d_memberships d' = without mr_user_id u (d_memberships d);
  fg_refresh_tokens : d_refresh_tokens d' = without rtr_user_id u (d_refresh_tokens d);
  fg_oauth_identities : d_oauth_identities d' = without oir_user_id u (d_oauth_identities d);
  fg_api_keys : cleared u kr_created_by key_content (d_api_keys d) (d_api_keys d');
  fg_retention_policies : cleared u rpr_updated_by policy_content (d_retention_policies d) (d_retention_policies d');
  fg_saved_queries : cleared u sqr_created_by query_content (d_saved_queries d) (d_saved_queries d');
  fg_dashboards : cleared u dsr_created_by dashboard_content (d_dashboards d) (d_dashboards d');
  fg_alert_rules : cleared u arr_created_by rule_content (d_alert_rules d) (d_alert_rules d');
  fg_invites : cleared u ivr_created_by invite_content (d_invites d) (d_invites d')
}.

(** * Lemmas *)

Lemma keeps_joined P t wh : tx_keeps P t (PgUserRepository.joined wh).
Proof.
  apply keeps_query. intros st a d (HP & _) Hq.
  destruct wh as [p|]; simpl in Hq; [|done].
  destruct (current_tenant_id st); simplify_eq/=. done.
Qed.

(** ** Integrity *)

Lemma run_withTenantTx {A} t (fn : txM A) w : run (withTenantTx t fn) w = run_tx t fn w.
Proof. apply run_atomic. Qed.

Ltac unfold_repositories :=
  unfold PgUserRepository.create, PgUserRepository.list_, PgUserRepository.findById,
    PgUserRepository.update, PgUserRepository.delete, PgUserRepository.findCredentialsByEmail,
    PgUserRepository.findCredentialsById, PgUserRepository.insertUserWithMembership,
    PgUserRepository.SELECT_USER, PgUserRepository.SELECT_AUTH,
    PgApiKeyRepository.create, PgApiKeyRepository.list_, PgApiKeyRepository.revoke,
    PgRetentionRepository.get, PgRetentionRepository.upsert, PgRetentionRepository.upsert_policy,
    PgAlertRuleRepository.create, PgAlertRuleRepository.list_, PgAlertRuleRepository.findById,
    PgAlertRuleRepository.update, PgAlertRuleRepository.delete,
    PgSavedQueryRepository.create, PgSavedQueryRepository.list_, PgSavedQueryRepository.findById,
    PgSavedQueryRepository.update, PgSavedQueryRepository.delete,
    PgDashboardRepository.create, PgDashboardRepository.list_, PgDashboardRepository.findById,
    PgDashboardRepository.update, PgDashboardRepository.delete,
    PgRefreshTokenRepository.create, PgRefreshTokenRepository.findById,
    PgRefreshTokenRepository.rotate, PgRefreshTokenRepository.revokeFamily,
    PgRefreshTokenRepository.insert_token,
    PgOAuthIdentityRepository.findByProviderSub, PgOAuthIdentityRepository.linkFirst,
    PgOAuthIdentityRepository.touchLastLogin, PgOAuthIdentityRepository.findById,
    PgOAuthIdentityRepository.linkFirstWithClient, PgOAuthIdentityRepository.select_by_sub,
    PgInviteRepository.create, PgInviteRepository.findValidByTokenHash,
    PgInviteRepository.consume, PgInviteRepository.countPending, PgInviteRepository.listByTenant,
    PgInviteRepository.revoke, PgInviteRepository.consumeWithClient,
    PgInviteProvisioner.provision_tx.

(** A call on tenant-owned tables is one transaction, whose body satisfies
    whatever the statements of its body satisfy. *)
Ltac call_cases c :=
  destruct c; try discriminate; cbn [perform]; unfold_repositories; unfold_repositories;
  repeat match goal with
         | |- context [if ?b then withTenantTx _ _ else withTenantTx _ _] => destruct b
         end.

Lemma ok_update_simple {R} `{TableLaws R} `{!TableOk R} t wu :
  (forall d l, refs_kept d (t_put (R := R) l d)) ->
  tx_keeps (fun _ d => db_ok d) t (sql_update (R := R) wu).
Proof. intros Hk. refine (ok_update t wu _). intros d g _. apply Hk. Qed.

Lemma ok_update_users t p patch :
  tx_keeps (fun _ d => db_ok d) t
    (sql_update (q ← p; Ok (q, PgUserRepository.patch_user patch))).
Proof.
  refine (ok_update t _ _). intros d g Hg. apply refs_kept_users. intros r.
  destruct (Hg r) as [->|(q & upd & now & E & ->)]; [done|].
  destruct p; simplify_eq/=. done.
Qed.

Lemma ok_upsert_policy t mk :
  tx_keeps (fun _ d => db_ok d) t (sql_upsert mk PgRetentionRepository.merge_policy).
Proof.
  refine (ok_upsert _ _ _ _ _ _); [by split|done|].
  intros d r now a b Ha%bool_decide_eq_true Hb%bool_decide_eq_true. simpl.
  by rewrite <-Ha, <-Hb.
Qed.

Ltac ok_leaf :=
  first
    [ apply keeps_joined
    | refine (ok_insert _ _)
    | apply ok_update_users
    | apply ok_update_simple; by split
    | apply ok_delete_users
    | refine (ok_delete _ _ _ _); [done|by split]
    | apply ok_upsert_policy ].

Section CallFacts.
Context `{Entropy}.

Lemma tenant_call_ok {A} (c : repo_call A) t w :
  call_tenant c = Some t -> db_ok (w_db w) -> db_ok (w_db (run (perform c) w).2).
Proof.
  intros Ht Hok. revert Ht.
  call_cases c; intros Ht; injection Ht as <-; rewrite run_withTenantTx;
    (eapply (run_tx_keeps (fun _ d => db_ok d)); [done| |exact Hok]); tx_auto ok_leaf.
Qed.

Lemma db_ok_set_tenants d l :
  db_ok d -> tenants_ok l -> refs_kept d (set_tenants l d) -> db_ok (set_tenants l d).
Proof. intros [] Hl Hk. split; simpl; try done; by eapply rows_ok_kept. Qed.

Lemma tenants_conflict_sym a b : tenants_conflict a b = tenants_conflict b a.
Proof. unfold tenants_conflict. solve_sym. Qed.

Lemma ok_insert_tenant i :
  tx_keeps (fun _ d => db_ok d) [] (PgTenantRepository.insert_tenant i).
Proof.
  intros st (Hok & Hs & Hg). unfold PgTenantRepository.insert_tenant, query.
  destruct (tx_aborted st); [split; [by split_and!|simpl; lia]|].
  set (r := mk_tenants _ _ _ _ _ _). unfold pg_fail.
  destruct (tenants_check r) eqn:Ec; simpl; [|split; [by split_and!|simpl; lia]].
  destruct (existsb _ _) eqn:Ex; simpl; [split; [by split_and!|simpl; lia]|].
  split; [|simpl; lia]. split_and!; try done. simpl.
  apply db_ok_set_tenants; [done| |].
  - destruct (ok_tenants _ Hok) as [Hc Hf]. apply existsb_false in Ex.
    split; [by apply Forall_app; auto|]. rewrite conflict_free_app. split_and!; try done.
    eapply Forall_impl; [exact Ex|]. intros a Ha. constructor; [|done].
    by rewrite tenants_conflict_sym.
  - split; [|done]. intros x. unfold tenant_exists. simpl. rewrite existsb_app. by intros ->.
Qed.

Lemma ok_update_tenants id p :
  tx_keeps (fun _ d => db_ok d) [] (PgTenantRepository.update_tenants id p).
Proof.
  apply keeps_query. intros st a d (Hok & _) Hq. unfold PgTenantRepository.update_tenants in Hq.
  destruct (uuid_param id) as [u|]; simplify_eq/=.
  set (g := fun r => if bool_decide (tr_id r = u) then _ else r).
  assert (Hg : forall r, tr_id (g r) = tr_id r /\ tr_public_id (g r) = tr_public_id r).
  { intros r. unfold g. by case_bool_decide. }
  apply db_ok_set_tenants; [done| |].
  - destruct (ok_tenants _ Hok) as [Hc Hf]. split.
    + rewrite Forall_map. eapply Forall_impl; [exact Hc|]. intros r Hr. simpl.
      unfold tenants_check. by rewrite (proj2 (Hg r)).
    + rewrite conflict_free_map; [done|]. intros r r'. unfold tenants_conflict.
      destruct (Hg r) as [-> ->], (Hg r') as [-> ->]. done.
  - split; [|done]. intros x. unfold tenant_exists. simpl. rewrite !existsb_exists.
    intros (r & Hr & Hx%bool_decide_eq_true). exists (g r). split; [by apply in_map|].
    apply bool_decide_eq_true. by rewrite (proj1 (Hg r)).
Qed.

(** The primary key: at most one tenant row has a given id. *)
Lemma tenants_by_id l u :
  conflict_free tenants_conflict l = true ->
  List.filter (fun r => bool_decide (tr_id r = u)) l = [] \/
  exists r, tr_id r = u /\ List.filter (fun r => bool_decide (tr_id r = u)) l = [r].
Proof.
  induction l as [|r l IH]; [by left|]. rewrite conflict_free_cons. intros [Hr Hl]. simpl.
  case_bool_decide as Hu; [|auto]. right. exists r. split; [done|]. f_equal.
  destruct (IH Hl) as [->|(r' & Hu' & Hf)]; [done|]. exfalso.
  assert (In r' (List.filter (fun r => bool_decide (tr_id r = u)) l)) as [Hin _]%filter_In
    by (rewrite Hf; by left).
  rewrite Forall_forall in Hr. apply list_elem_of_In, Hr in Hin.
  unfold tenants_conflict in Hin. rewrite bool_decide_eq_true_2 in Hin by congruence. done.
Qed.

Lemma ok_delete_tenants id :
  tx_keeps (fun _ d => db_ok d) [] (PgTenantRepository.delete_tenants id).
Proof.
  apply keeps_query. intros st a d (Hok & _) Hq. unfold PgTenantRepository.delete_tenants in Hq.
  destruct (uuid_param id) as [u|]; simplify_eq/=.
  destruct (ok_tenants _ Hok) as [_ Hf].
  destruct (tenants_by_id _ u Hf) as [E|(r & <- & E)]; rewrite E; simpl.
  - replace (List.filter _ _) with (d_tenants (tx_db st)); [by destruct (tx_db st)|].
    clear -E. induction (d_tenants (tx_db st)) as [|r l IH]; simpl in *; [done|].
    case_bool_decide; [done|]. simpl. by rewrite <-IH.
  - by apply tenants_on_delete_ok.
Qed.

(** The registry's calls keep what its statements keep. *)
Lemma registry_call_keeps {A} (c : repo_call A) (P : nat -> database -> Prop) w :
  (forall n d, P n d -> P (S n) d) ->
  (forall i, tx_keeps P [] (PgTenantRepository.insert_tenant i)) ->
  (forall id p, tx_keeps P [] (PgTenantRepository.update_tenants id p)) ->
  (forall id, tx_keeps P [] (PgTenantRepository.delete_tenants id)) ->
  call_tenant c = None -> P (w_pgseq w) (w_db w) ->
  P (w_pgseq (run (perform c) w).2) (w_db (run (perform c) w).2).
Proof.
  intros HS Hins Hupd Hdel Ht HP.
  assert (Hk : forall B C (fn : txM B) (k : B -> prog world C),
            tx_keeps P [] fn -> (forall b v, (run (k b) v).2 = v) ->
            P (w_pgseq (run (b ← pool_query fn; k b) w).2) (w_db (run (b ← pool_query fn; k b) w).2)).
  { intros B C fn k Hfn Hkb. unfold pool_query. rewrite run_bind, run_atomic.
    destruct (run_tx_keeps P [] fn w HS Hfn HP) as [HP' _].
    destruct (run_tx [] fn w) as [[b|e] w']; simpl in *; [by rewrite Hkb|done]. }
  assert (Hsel : forall wh, tx_keeps P [] (PgTenantRepository.select_tenants wh)).
  { intros wh. apply keeps_query. intros st a d (HQ & _) Hq. destruct wh; by simplify_eq/=. }
  destruct c; try discriminate; cbn [perform].
  - unfold PgTenantRepository.create. rewrite run_catch.
    specialize (Hk _ _ _ (fun r => mret (PgTenantRepository.toTenant r)) (Hins i) (fun _ _ => eq_refl)).
    destruct (run (b ← _; _) w) as [[x|e] w']; simpl in *; [done|]. by destruct (isUniqueViolation e).
  - by apply Hk.
  - by apply Hk.
  - by apply Hk.
  - by apply Hk.
  - by apply Hk.
Qed.

Lemma registry_call_ok {A} (c : repo_call A) w :
  call_tenant c = None -> db_ok (w_db w) -> db_ok (w_db (run (perform c) w).2).
Proof.
  apply (registry_call_keeps c (fun _ d => db_ok d)); [done| | |].
  - apply ok_insert_tenant.
  - apply ok_update_tenants.
  - apply ok_delete_tenants.
Qed.

Lemma call_ok {A} (c : repo_call A) w : db_ok (w_db w) -> db_ok (w_db (run (perform c) w).2).
Proof.
  destruct (call_tenant c) eqn:Et; [by eapply tenant_call_ok|by apply registry_call_ok].
Qed.

(** ** Isolation of writes *)

Lemma iso_upsert_policy t D mk :
  tx_keeps (fun _ d => others (armed t) d = D) t (sql_upsert mk PgRetentionRepository.merge_policy).
Proof. refine (iso_upsert _ _ _ _ _). intros r now o Ho%bool_decide_eq_true. by simpl in *. Qed.

Ltac iso_leaf :=
  first
    [ apply keeps_joined
    | refine (iso_insert _ _ _)
    | refine (iso_update _ _ _)
    | refine (iso_delete _ _ _ _); done
    | apply iso_upsert_policy ].

Lemma users_delete_isolated t id w :
  authors_local (w_db w) ->
  others (armed t) (w_db (run (PgUserRepository.delete t id) w).2) = others (armed t) (w_db w).
Proof.
  intros Hal. unfold PgUserRepository.delete. rewrite run_withTenantTx. unfold run_tx.
  set (st0 := mkTx _ _ _ _ _ _).
  unfold mbind, txM_bind.
  match goal with |- context [sql_delete ?p st0] => pose proof (iso_delete_users t p st0 eq_refl Hal) as Hd end.
  destruct (sql_delete _ st0) as [[n|e] st]; simpl in *; [|done].
  by destruct (tx_aborted st).
Qed.

Lemma tenant_call_isolated {A} (c : repo_call A) t w :
  call_tenant c = Some t -> authors_local (w_db w) ->
  others (armed t) (w_db (run (perform c) w).2) = others (armed t) (w_db w).
Proof.
  intros Ht Hal. revert Ht.
  destruct c; try discriminate; intros Ht; injection Ht as <-; cbn [perform];
    try by apply users_delete_isolated.
  all: unfold_repositories; unfold_repositories;
    repeat match goal with
           | |- context [if ?b then withTenantTx _ _ else withTenantTx _ _] => destruct b
           end;
    rewrite run_withTenantTx;
    (eapply (run_tx_keeps (fun _ d => others (armed t0) d = others (armed t0) (w_db w)));
       [done| |done]); tx_auto iso_leaf.
Qed.

(** ** Authors stay local *)

Lemma uuid_param_opt_author x b : uuid_param_opt x = Ok b -> b = x ≫= uuid_in.
Proof.
  destruct x as [x|]; simpl; [|by intros [= <-]]. unfold uuid_param. by destruct (uuid_in x); intros; simplify_eq/=.
Qed.

(** The row that a statement writes, from the parameters it reads first. *)
Ltac read_row :=
  result_inv; repeat match goal with Hm : uuid_param_opt _ = Ok _ |- _ => apply uuid_param_opt_author in Hm end;
  simplify_eq; simpl; auto.

Ltac authors_leaf :=
  first
    [ apply au_update_users; by intros
    | apply au_delete_users
    | refine (au_insert _ _ _ _); intros ? ? ? Hmk; read_row
    | refine (au_update _ _ _ _); intros ? ? ? ? Hwu; read_row
    | refine (au_upsert _ _ _ _ _ _); [intros ? ? Hmk; read_row|by intros ? ? ? ?%bool_decide_eq_true]
    | refine (au_delete _ _ _ _); done ].

Ltac sound_leaf :=
  first [ apply keeps_joined
        | apply au_insert_users
        | apply (keeps_conj (fun _ d => db_ok d) (fun _ d => authored _ _ d)); [ok_leaf|authors_leaf] ].

Lemma tenant_call_sound {A} (c : repo_call A) t w :
  call_tenant c = Some t -> own_author c (w_db w) -> db_sound (w_db w) -> db_sound (w_db (run (perform c) w).2).
Proof.
  intros Ht Hown [Hok Hal]. specialize (Hown t Ht).
  enough (Hs : db_ok (w_db (run (perform c) w).2) /\ authored t (call_author c ≫= uuid_in) (w_db (run (perform c) w).2))
    by (destruct Hs as [? []]; done).
  revert Ht Hown. call_cases c; intros Ht; injection Ht as <-; intros Hown; rewrite run_withTenantTx;
    (eapply (run_tx_keeps (fun _ d => db_ok d /\ authored _ _ d)); [done| |done]); tx_auto sound_leaf.
Qed.

Lemma authors_set_tenants d l : authors_local d -> authors_local (set_tenants l d).
Proof. by intros []. Qed.

Lemma authors_others d t : authors_local d -> authors_local (others t d).
Proof.
  intros []. assert (Hk : forall u b, author_local d u b -> author_local (others t d) u b).
  { intros u b Hb. by apply Forall_filter_bool. }
  split; simpl; (apply Forall_filter_bool; eapply Forall_impl; [eassumption|]); intros r; apply Hk.
Qed.

Lemma authors_insert_tenant i : tx_keeps (fun _ d => authors_local d) [] (PgTenantRepository.insert_tenant i).
Proof.
  intros st (Hd & Hs & Hg). unfold PgTenantRepository.insert_tenant, query.
  destruct (tx_aborted st); [split; [by split_and!|simpl; lia]|]. unfold pg_fail.
  destruct (tenants_check _); simpl; [|split; [by split_and!|simpl; lia]].
  destruct (existsb _ _); simpl; (split; [|simpl; lia]); split_and!; try done. by apply authors_set_tenants.
Qed.

Lemma authors_update_tenants id p : tx_keeps (fun _ d => authors_local d) [] (PgTenantRepository.update_tenants id p).
Proof.
  apply keeps_query. intros st a d (Hd & _) Hq. unfold PgTenantRepository.update_tenants in Hq.
  destruct (uuid_param id); simplify_eq/=. by apply authors_set_tenants.
Qed.

Lemma authors_users_on_delete now x d : authors_local d -> authors_local (users_on_delete now x d).
Proof. intros Hd. apply (users_on_delete_authored [] None). split; [done|apply author_local_none]. Qed.

Lemma authors_tenants_on_delete now r d : authors_local d -> authors_local (tenants_on_delete now r d).
Proof.
  intros Hd. apply authors_others. induction (List.filter _ _) as [|x l IH]; [done|]. by apply authors_users_on_delete.
Qed.

Lemma authors_delete_tenants id : tx_keeps (fun _ d => authors_local d) [] (PgTenantRepository.delete_tenants id).
Proof.
  apply keeps_query. intros st a d (Hd & _) Hq. unfold PgTenantRepository.delete_tenants in Hq.
  destruct (uuid_param id) as [u|]; simplify_eq/=. generalize (List.filter (fun r => bool_decide (tr_id r = u)) (d_tenants (tx_db st))).
  intros gone. induction gone as [|r l IH].
  - by apply authors_set_tenants.
  - by apply authors_tenants_on_delete.
Qed.

Lemma call_sound {A} (c : repo_call A) w :
  own_author c (w_db w) -> db_sound (w_db w) -> db_sound (w_db (run (perform c) w).2).
Proof.
  intros Hown Hs. destruct (call_tenant c) as [t|] eqn:Et; [by eapply tenant_call_sound|]. destruct Hs as [Hok Hal].
  split; [by apply registry_call_ok|].
  revert Hal. apply (registry_call_keeps c (fun _ d => authors_local d)); [done| | | |done].
  - apply authors_insert_tenant.
  - apply authors_update_tenants.
  - apply authors_delete_tenants.
Qed.

Lemma history_sound w0 w : history w0 w -> db_sound (w_db w0) -> db_sound (w_db w).
Proof. induction 1 as [|? ? ? ? IH|? ? ? IH E]; intros Hs; [done|by apply call_sound; auto|rewrite E; auto]. Qed.

(** ** Deleting a user *)

Lemma cleared_map {R C} u (author : R -> option jsstr) (content : R -> C) (f : R -> R) l :
  (forall r, content (f r) = content r /\ author (f r) = if bool_decide (author r = Some u) then None else author r) ->
  cleared u author content l (map f l).
Proof.
  intros Hf. split; (induction l as [|r l IH]; [done|]); cbn; destruct (Hf r) as [E1 E2]; f_equal; (done || apply IH).
Qed.

(** The primary key of users. *)
Lemma user_by_key d x y : db_ok d -> x ∈ d_users d -> y ∈ d_users d -> ur_id x = ur_id y -> x = y.
Proof.
  intros Hok. destruct (ok_users _ Hok) as (_ & Hf & _). revert Hf. induction (d_users d) as [|z l IH]; [by rewrite elem_of_nil|].
  rewrite conflict_free_cons. intros [Hz Hl]. rewrite Forall_forall in Hz.
  rewrite !elem_of_cons. intros [->|Hx] [->|Hy] E; [done| | |by apply IH].
  - apply Hz in Hy. simpl in Hy. by rewrite bool_decide_eq_true_2 in Hy.
  - apply Hz in Hx. simpl in Hx. by rewrite bool_decide_eq_true_2 in Hx.
Qed.

(** A reference to a user names its tenant too. *)
Lemma of_user_without {R} d x (tenant user : R -> jsstr) l :
  db_ok d -> x ∈ d_users d -> Forall (fun r => user_exists d (tenant r) (user r) = true) l ->
  List.filter (fun r => negb (bool_decide (tenant r = ur_tenant_id x /\ user r = ur_id x))) l = without user (ur_id x) l.
Proof.
  intros Hok Hx. induction 1 as [|r l Hr Hl IH]; [done|]. unfold without in *. simpl. rewrite <-IH.
  replace (bool_decide (tenant r = ur_tenant_id x /\ user r = ur_id x)) with (bool_decide (user r = ur_id x)); [done|].
  apply bool_decide_ext. split; [|naive_solver]. intros E. split; [|done].
  apply existsb_exists in Hr as (y & Hy%list_elem_of_In & [Ht Hu]%bool_decide_eq_true).
  rewrite <-Ht. f_equal. eapply user_by_key; eauto. congruence.
Qed.

Lemma users_on_delete_forgotten d x now :
  db_ok d -> x ∈ d_users d ->
  forgotten (ur_id x) d (users_on_delete now x (set_users (without ur_id (ur_id x) (d_users d)) d)).
Proof.
  intros Hok Hx. pose proof Hok as []. split; simpl; try done.
  1-3: apply (of_user_without _ _ _ _ _ Hok Hx);
    match goal with K : rows_ok _ ?l |- Forall _ ?l => eapply Forall_impl; [exact (proj2 (proj2 K))|] end;
    by intros r [_ ?]%andb_true_iff.
  all: apply cleared_map; intros r; unfold_nulls; by case_bool_decide.
Qed.

Lemma filter_false_in {A} (f : A -> bool) l : Forall (fun x => f x = false) l -> List.filter f l = [].
Proof. induction 1 as [|x l Hx _ IH]; [done|]. simpl. by rewrite Hx. Qed.

Lemma filter_true_in {A} (f : A -> bool) l : Forall (fun x => f x = true) l -> List.filter f l = l.
Proof. induction 1 as [|x l Hx _ IH]; [done|]. simpl. by rewrite Hx, IH. Qed.

Lemma conflict_free_single {R} (c : R -> R -> bool) (f : R -> bool) l x :
  conflict_free c l = true -> (forall a b, f a = true -> f b = true -> c a b = true) -> x ∈ l -> f x = true ->
  List.filter f l = [x].
Proof.
  intros Hl Hc. induction l as [|r l IH]; [by rewrite elem_of_nil|]. rewrite conflict_free_cons in Hl. destruct Hl as [Hr Hl].
  rewrite Forall_forall in Hr. rewrite elem_of_cons. intros [->|Hx] Hf; simpl.
  - rewrite Hf, filter_false_in; [done|]. apply Forall_forall. intros y Hy. destruct (f y) eqn:E; [|done].
    specialize (Hr y Hy). simpl in Hr. by rewrite (Hc r y) in Hr.
  - destruct (f r) eqn:E; [|by apply IH]. specialize (Hr x Hx). simpl in Hr. by rewrite (Hc r x) in Hr.
Qed.

(** The rows a delete of user [u] in tenant [tn] hits. *)
Lemma users_hit d tn u :
  db_ok d ->
  let hit r := policy (Some tn) r && bool_decide (ur_id r = u) in
  if user_exists d tn u
  then exists x, x ∈ d_users d /\ ur_id x = u /\ List.filter hit (d_users d) = [x] /\
         List.filter (fun r => negb (hit r)) (d_users d) = without ur_id u (d_users d)
  else List.filter hit (d_users d) = [] /\ List.filter (fun r => negb (hit r)) (d_users d) = d_users d.
Proof.
  intros Hok hit.
  assert (Hh : forall r, hit r = bool_decide (ur_tenant_id r = tn /\ ur_id r = u)).
  { intros r. unfold hit, policy. rewrite <-bool_decide_and. apply bool_decide_ext. simpl. naive_solver. }
  destruct (user_exists d tn u) eqn:Ex.
  - apply existsb_exists in Ex as (x & Hx%list_elem_of_In & [Ht Hu]%bool_decide_eq_true). exists x. split_and!; [done..| |].
    + eapply conflict_free_single; [apply (ok_users _ Hok)| |done|].
      * intros a b. rewrite !Hh, !bool_decide_eq_true. intros [_ ?] [_ ?]. simpl. by rewrite bool_decide_eq_true_2 by congruence.
      * rewrite Hh. by apply bool_decide_eq_true.
    + apply filter_ext_in. intros r Hr%list_elem_of_In. rewrite Hh. f_equal. apply bool_decide_ext. split; [by intros []|].
      intros E. assert (r = x) as -> by (apply (user_by_key d); congruence). done.
  - apply existsb_false in Ex. split; [apply filter_false_in|apply filter_true_in]; (eapply Forall_impl; [exact Ex|]);
      intros r Hr; simpl in Hr; by rewrite Hh, Hr.
Qed.

(** ** Isolation of reads *)

(** The rows of tenant [t]. *)
Definition of_tenant {R} `{Table R} (t : jsstr) (l : list R) : list R :=
  List.filter (fun r => bool_decide (t_tenant r = t)) l.

(** The database as tenant [t] sees it. *)
Definition only (t : jsstr) (d : database) : database :=
  mkDatabase (d_tenants d) (of_tenant t (d_users d)) (of_tenant t (d_memberships d))
    (of_tenant t (d_api_keys d)) (of_tenant t (d_retention_policies d))
    (of_tenant t (d_saved_queries d)) (of_tenant t (d_dashboards d))
    (of_tenant t (d_alert_rules d)) (of_tenant t (d_refresh_tokens d))
    (of_tenant t (d_oauth_identities d)) (of_tenant t (d_invites d)).

Definition restrict (st : tx_state) : tx_state :=
  tx_set_db (only (armed (tx_guc st)) (tx_db st)) st.

(** [p] changes nothing but the aborted flag, and does the same when the other
    tenants' rows are not there. *)
Definition sees_own {A} (p : txM A) : Prop := forall st,
  p (restrict st) = ((p st).1, restrict (p st).2) /\
  ((p st).2 = st \/ (p st).2 = tx_abort st /\ is_ok (p st).1 = false).

Lemma own_ret {A} (a : A) : sees_own (mret a).
Proof. intros st. auto. Qed.

Lemma own_lift {A} (r : result exn A) : sees_own (tx_lift r).
Proof. intros st. auto. Qed.

Lemma own_bind {A B} (p : txM A) (f : A -> txM B) :
  sees_own p -> (forall a, sees_own (f a)) -> sees_own (p ≫= f).
Proof.
  intros Hp Hf st. destruct (Hp st) as [Hr Hs]. unfold mbind, txM_bind.
  rewrite Hr. destruct (p st) as [[a|e] st']; simpl in *; [|done].
  destruct Hs as [->|[_ ?]]; [|done]. apply Hf.
Qed.

Lemma filter_policy_own {R} `{Table R} u (p : R -> bool) l :
  List.filter (fun r => policy (Some u) r && p r) (of_tenant u l)
  = List.filter (fun r => policy (Some u) r && p r) l.
Proof.
  unfold of_tenant. induction l as [|r l IH]; simpl; [done|].
  case_bool_decide as Ht; simpl.
  - destruct (policy (Some u) r && p r); by rewrite IH.
  - destruct (policy (Some u) r) eqn:E; simpl; [by apply policy_Some in E|done].
Qed.

(** The tenant the policies compare with, in a restricted state. *)
Lemma current_restrict st : current_tenant_id (restrict st) = current_tenant_id st.
Proof. done. Qed.

Lemma current_armed st u : current_tenant_id st = Ok (Some u) -> armed (tx_guc st) = u.
Proof.
  unfold current_tenant_id, armed, uuid_param. destruct (truthy _); [|done].
  destruct (uuid_in (tx_guc st)); intros; by simplify_eq/=.
Qed.

Lemma own_select {R} `{Table R} wh :
  (forall u d, t_rows (only u d) = of_tenant u (t_rows d)) -> sees_own (sql_select (R := R) wh).
Proof.
  intros Ho st. unfold sql_select, query. rewrite current_restrict.
  change (tx_aborted (restrict st)) with (tx_aborted st).
  destruct (tx_aborted st) eqn:Ea; [by auto|].
  destruct wh as [p|e]; simpl; [|by auto].
  destruct (current_tenant_id st) as [[u|]|e] eqn:Ec; simpl; [| |by auto].
  - apply current_armed in Ec as <-. rewrite Ho, filter_policy_own. destruct st; split; [done|by left].
  - rewrite !(filter_none (fun _ => false)) by done. destruct st; split; [done|by left].
Qed.

Lemma own_joined wh : sees_own (PgUserRepository.joined wh).
Proof.
  intros st. unfold PgUserRepository.joined, query. rewrite current_restrict.
  change (tx_aborted (restrict st)) with (tx_aborted st).
  destruct (tx_aborted st) eqn:Ea; [by auto|].
  destruct wh as [p|e]; simpl; [|by auto].
  assert (Hm : forall cur (l : list memberships_row),
    List.filter (policy cur) l = List.filter (fun r => policy cur r && true) l).
  { intros cur l. apply filter_ext. intros r. by rewrite andb_true_r. }
  destruct (current_tenant_id st) as [[u|]|e] eqn:Ec; simpl; [| |by auto]; rewrite !Hm.
  - apply current_armed in Ec as <-. rewrite !filter_policy_own. destruct st; split; [done|by left].
  - rewrite !(filter_none (fun _ => false)) by done. destruct st; split; [done|by left].
Qed.

Ltac own_auto :=
  repeat first
    [ apply own_joined
    | apply own_select; done
    | apply own_ret
    | apply own_lift
    | apply own_bind; [|intros ?] ].

Lemma run_tx_own {A} t (p : txM A) w :
  sees_own p ->
  run_tx t p w = ((run_tx t p w).1, w) /\
  (run_tx t p (set_db_seq (only (armed t) (w_db w)) (w_pgseq w) w)).1 = (run_tx t p w).1.
Proof.
  intros Hp. unfold run_tx. simpl.
  change (mkTx (only (armed t) (w_db w)) _ _ _ _ _)
    with (restrict (mkTx (w_db w) (w_pgseq w) t (w_dbnow w) false [])).
  destruct (Hp (mkTx (w_db w) (w_pgseq w) t (w_dbnow w) false [])) as [-> Hs].
  destruct (p _) as [[a|e] st]; simpl in *; destruct Hs as [->|[-> ?]]; try done; by destruct w.
Qed.

Lemma tenant_read_own {A} (c : repo_call A) t w :
  call_tenant c = Some t -> is_read c = true ->
  run (perform c) w = ((run (perform c) w).1, w) /\
  (run (perform c) (set_db_seq (only (armed t) (w_db w)) (w_pgseq w) w)).1 = (run (perform c) w).1.
Proof.
  intros Ht Hr. revert Ht Hr. destruct c; try discriminate; intros Ht _; injection Ht as <-;
    cbn [perform]; unfold_repositories; unfold_repositories;
    rewrite !run_withTenantTx; apply run_tx_own; own_auto.
Qed.
End CallFacts.

Lemma demo_db_ok : db_ok demo_db.
Proof.
  split; split_and!; rewrite <-?forallb_Forall; by vm_compute.
Qed.

Lemma demo_authors_local : authors_local demo_db.
Proof.
  split; unfold author_local; simpl; repeat constructor; simpl; intros E;
    first [done | vm_compute in E; discriminate E].
Qed.

Lemma demo_sound : db_sound demo_db.
Proof. split; [apply demo_db_ok|apply demo_authors_local]. Qed.

(** Nothing is in an empty database. *)
Lemma empty_sound : db_sound (mkDatabase [] [] [] [] [] [] [] [] [] [] []).
Proof. split; repeat constructor. Qed.

(** * Theorems *)




(** Alice makes a dashboard, and is then deleted. *)
Definition demo_dashboard : repo_call Dashboard :=
  DashboardsCreate acme (mkNewDashboard (js "traffic") None (mkDashboardLayout []) (Some alice)).


(** C2. A query armed with tenant [t] changes nothing, and its answer depends on
    [t]'s own rows only: it is the answer it gives on the database from which
    every other tenant's rows have been removed. *)
Theorem repository_read_isolation `{Entropy} {A} (c : repo_call A) t w
    (Ht : call_tenant c = Some t) (Hr : is_read c = true) :
  run (perform c) w = ((run (perform c) w).1, w) /\
  (run (perform c) (set_db_seq (only (armed t) (w_db w)) (w_pgseq w) w)).1 = (run (perform c) w).1.
Proof. by apply tenant_read_own. Qed.

Lemma repository_read_isolation_witness :
  let listed := run (@perform demo_entropy _ (UsersList acme)) demo_world in
  (exists user, listed.1 = Ok [user] /\ us_id user = alice) /\ listed = (listed.1, demo_world).
Proof.
  split; [by eexists|].
  apply (@repository_read_isolation demo_entropy (list User) (UsersList acme) acme demo_world eq_refl eq_refl).
Defined.
