(* ===== verification/Credentials.v ===== *)
(** * The life of refresh tokens and invites

    A refresh token that has been rotated or revoked, and an invite that has been
    consumed or revoked, never comes back to life, whatever calls the
    repositories perform afterwards. *)

From stdpp Require Import base list option numbers strings gmap relations.
From S2P Require Import Prelude Errors Effects Tokens Rbac Entities Ports Uuid Schema World Sql Integrity.
From S2P Require Import Demo PgUsers PgTokens PgInvites PgContent Calls.
Import PgRefreshTokenRepository PgInviteRepository.

(** The database's random source never draws [i] from position [n] on. *)
Definition never_drawn `{Entropy} (i : jsstr) (n : nat) : Prop :=
  forall m, n <= m -> pg_uuid m <> i.

(** Row [i] of tenant [t] is not a live refresh token. *)
Definition dead_token (t i : jsstr) (r : refresh_tokens_row) : Prop :=
  rtr_tenant_id r = t -> rtr_id r = i -> is_live r = false.

(** Row [i] of tenant [t] is not a pending invite. *)
Definition spent_invite (t i : jsstr) (r : invites_row) : Prop :=
  ivr_tenant_id r = t -> ivr_id r = i -> ivr_status r <> js "pending".

(** What happens between the steps of a request: time passes, and other requests
    perform repository calls. *)
Inductive busy_env `{Entropy} : world -> world -> Prop :=
| busy_time w w' : env_step w w' -> busy_env w w'
| busy_call w {A} (c : repo_call A) : busy_env w (run (perform c) w).2.

(** * Row predicates kept by every call

    Predicates of the rows of four tables that hold of every row the insert
    statements can make, and that every update keeps. *)

Definition typed_tenant (r : tenants_row) : Prop := is_uuid (tr_id r) = true.

Definition typed_user (r : users_row) : Prop :=
  is_uuid (ur_id r) = true /\ is_uuid (ur_tenant_id r) = true.

Definition typed_token (r : refresh_tokens_row) : Prop :=
  is_uuid (rtr_id r) = true /\ is_uuid (rtr_tenant_id r) = true /\
  is_uuid (rtr_user_id r) = true /\ is_uuid (rtr_family_id r) = true.

(** The call creates no invite whose token hash is outside [Nh]. *)
Definition invites_within (Nh : list N -> Prop) {A} (c : repo_call A) : Prop :=
  match c with
  | InvitesCreate _ input => Nh (nv_secretHash input)
  | _ => True
  end.

Section Watch.
Context `{EntropyLaws} (i : jsstr).
Context (Qn : tenants_row -> Prop) (Qu : users_row -> Prop)
        (Qt : refresh_tokens_row -> Prop) (Qi : invites_row -> Prop) (Nh : list N -> Prop).
Context (Hn_new : forall r, typed_tenant r -> Qn r)
        (Hn_patch : forall p now r, Qn r -> Qn (PgTenantRepository.patch_tenant p now r))
        (Hu_new : forall r, typed_user r -> Qu r)
        (Hu_patch : forall p now r, Qu r -> Qu (PgUserRepository.patch_user p now r))
        (Ht_new : forall r, typed_token r -> rtr_id r <> i -> Qt r)
        (Ht_rotate : forall now r, Qt r -> Qt (set_rotated now r))
        (Ht_revoke : forall now r, Qt r -> Qt (set_revoked now r))
        (Hi_new : forall r, ivr_id r <> i -> Nh (ivr_token_hash r) -> Qi r)
        (Hi_consume : forall at_ now r, Qi r -> Qi (set_consumed at_ now r))
        (Hi_revoke : forall now r, Qi r -> Qi (set_status_revoked now r))
        (Hi_null : forall now u r, Qi r -> Qi (null_invites now u r)).

Definition watched (n : nat) (d : database) : Prop :=
  never_drawn i n /\ Forall Qn (d_tenants d) /\ Forall Qu (d_users d) /\
  Forall Qt (d_refresh_tokens d) /\ Forall Qi (d_invites d).

Lemma watched_S n d : watched n d -> watched (S n) d.
Proof. intros (Hn & ? & ? & ? & ?). split_and!; try done. intros m Hm. apply Hn. lia. Qed.

Section Other.
Context {R : Type} `{TableLaws R}.
Context (Husr : forall l d, d_users (t_put (R := R) l d) = d_users d)
        (Htok : forall l d, d_refresh_tokens (t_put (R := R) l d) = d_refresh_tokens d)
        (Hinv : forall l d, d_invites (t_put (R := R) l d) = d_invites d).

Lemma watched_put n (l : list R) d : watched n d -> watched n (t_put l d).
Proof. intros (? & ? & ? & ? & ?). split_and!; by rewrite ?t_put_tenants, ?Husr, ?Htok, ?Hinv. Qed.

Lemma watch_insert t mk : tx_keeps watched t (sql_insert (R := R) mk).
Proof. apply keeps_insert; [apply watched_S|]. intros. by apply watched_put, watched_S. Qed.

Lemma watch_update t wu : tx_keeps watched t (sql_update (R := R) wu).
Proof. apply keeps_update; [|apply t_put_rows]. intros. by apply watched_put. Qed.

Lemma watch_upsert t mk merge : tx_keeps watched t (sql_upsert (R := R) mk merge).
Proof. apply keeps_upsert; intros; by apply watched_put. Qed.

Lemma watch_delete t wh :
  (forall now r d, t_on_delete (R := R) now r d = d) ->
  tx_keeps watched t (sql_delete (R := R) wh).
Proof.
  intros Hd. apply keeps_delete; [|apply t_put_rows]. intros n now d u p HP _ _ hit.
  generalize (List.filter hit (t_rows d)). intros gone.
  induction gone as [|r gone IH]; simpl; [by apply watched_put|by rewrite Hd].
Qed.

End Other.

Lemma watched_users_on_delete n now u d : watched n d -> watched n (users_on_delete now u d).
Proof.
  intros (? & ? & ? & ? & HI). split_and!; [done|done|done|by apply Forall_filter_bool|]. simpl.
  rewrite Forall_map. eapply Forall_impl; [exact HI|]. intros r. apply Hi_null.
Qed.

Lemma watched_users_fold n now us d :
  watched n d -> watched n (fold_right (users_on_delete now) d us).
Proof. intros HP. induction us as [|u us IH]; simpl; [done|by apply watched_users_on_delete]. Qed.

Lemma watch_delete_users t wh : tx_keeps watched t (sql_delete (R := users_row) wh).
Proof.
  apply keeps_delete; [|by intros []]. intros n now d u p (? & ? & ? & ? & ?) _ _ hit.
  apply watched_users_fold. split_and!; try done. by apply Forall_filter_bool.
Qed.

Lemma watch_insert_user t mk :
  (forall u now r, is_uuid u = true -> mk u now = Ok r -> typed_user r) ->
  tx_keeps watched t (sql_insert (R := users_row) mk).
Proof.
  intros Hmk. apply keeps_insert; [apply watched_S|]. intros n now d r u HP Er _ _ _ _ _.
  destruct (watched_S _ _ HP) as (? & ? & ? & ? & ?). split_and!; try done.
  apply Forall_app. split; [done|]. constructor; [|done].
  eapply Hu_new, Hmk; [|exact Er]. apply pg_uuid_form.
Qed.

Lemma watch_insert_token t mk :
  (forall u now r, is_uuid u = true -> mk u now = Ok r -> rtr_id r = u /\ typed_token r) ->
  tx_keeps watched t (sql_insert (R := refresh_tokens_row) mk).
Proof.
  intros Hmk. apply keeps_insert; [apply watched_S|]. intros n now d r u HP Er _ _ _ _ _.
  pose proof HP as (Hn & _). destruct (watched_S _ _ HP) as (? & ? & ? & ? & ?).
  destruct (Hmk _ _ _ (pg_uuid_form n) Er) as [Hid Hty].
  split_and!; try done. apply Forall_app. split; [done|]. constructor; [|done].
  apply Ht_new; [done|]. rewrite Hid. by apply Hn.
Qed.

Lemma watch_insert_invite t mk :
  (forall u now r, mk u now = Ok r -> ivr_id r = u /\ Nh (ivr_token_hash r)) ->
  tx_keeps watched t (sql_insert (R := invites_row) mk).
Proof.
  intros Hmk. apply keeps_insert; [apply watched_S|]. intros n now d r u HP Er _ _ _ _ _.
  pose proof HP as (Hn & _). destruct (watched_S _ _ HP) as (? & ? & ? & ? & ?).
  split_and!; try done. apply Forall_app. split; [done|]. constructor; [|done].
  destruct (Hmk _ _ _ Er) as [Hid Hnh]. apply Hi_new; [|done]. rewrite Hid. by apply Hn.
Qed.

(** An update by a function that keeps the table's predicate. *)
Lemma Forall_update {R} (Q : R -> Prop) (hit : R -> bool) (upd : R -> R) l :
  Forall Q l -> (forall r, Q r -> Q (upd r)) -> Forall Q (map (fun r => if hit r then upd r else r) l).
Proof.
  intros HF Hu. rewrite Forall_map. eapply Forall_impl; [exact HF|].
  intros r Hr. simpl. destruct (hit r); auto.
Qed.

Lemma watch_update_user t wu :
  (forall p upd, wu = Ok (p, upd) -> forall now r, Qu r -> Qu (upd now r)) ->
  tx_keeps watched t (sql_update (R := users_row) wu).
Proof.
  intros Hwu. apply keeps_update; [|by intros []].
  intros n now d u p upd (? & ? & ? & ? & ?) Ewu _ hit rows' _ _ _ _ _.
  split_and!; try done. apply Forall_update; [done|]. by eapply Hwu.
Qed.

Lemma watch_update_token t wu :
  (forall p upd, wu = Ok (p, upd) -> forall now r, Qt r -> Qt (upd now r)) ->
  tx_keeps watched t (sql_update (R := refresh_tokens_row) wu).
Proof.
  intros Hwu. apply keeps_update; [|by intros []].
  intros n now d u p upd (? & ? & ? & ? & ?) Ewu _ hit rows' _ _ _ _ _.
  split_and!; try done. apply Forall_update; [done|]. by eapply Hwu.
Qed.

Lemma watch_update_invite t wu :
  (forall p upd, wu = Ok (p, upd) -> forall now r, Qi r -> Qi (upd now r)) ->
  tx_keeps watched t (sql_update (R := invites_row) wu).
Proof.
  intros Hwu. apply keeps_update; [|by intros []].
  intros n now d u p upd (? & ? & ? & ? & ?) Ewu _ hit rows' _ _ _ _ _.
  split_and!; try done. apply Forall_update; [done|]. by eapply Hwu.
Qed.

Ltac typed_row :=
  result_inv; simplify_eq/=;
  repeat match goal with E : uuid_param _ = Ok _ |- _ => apply uuid_param_Ok, uuid_in_is_uuid in E end;
  by split_and!.

Ltac watch_leaf :=
  first
    [ apply keeps_joined
    | apply watch_insert_user; intros ? ? ? ? E; unfold typed_user; typed_row
    | apply watch_insert_token; intros ? ? ? ? E; unfold typed_token; typed_row
    | apply watch_insert_invite; intros ? ? ? E; result_inv; by simplify_eq/=
    | apply watch_insert; done
    | apply watch_update_user; intros ? ? E; result_inv; simplify_eq/=; by auto
    | apply watch_update_token; intros ? ? E; result_inv; simplify_eq/=; by auto
    | apply watch_update_invite; intros ? ? E; result_inv; simplify_eq/=; by auto
    | apply watch_update; done
    | apply watch_upsert; done
    | apply watch_delete_users
    | apply watch_delete; done ].

Lemma watch_tenant_call {A} (c : repo_call A) t w :
  invites_within Nh c -> call_tenant c = Some t -> watched (w_pgseq w) (w_db w) ->
  watched (w_pgseq (run (perform c) w).2) (w_db (run (perform c) w).2).
Proof.
  intros Hnh Ht HP. revert Hnh Ht.
  call_cases c; intros Hnh Ht; simpl in Hnh; injection Ht as <-; rewrite run_withTenantTx;
    (eapply (run_tx_keeps watched); [apply watched_S| |exact HP]); tx_auto watch_leaf.
Qed.

Lemma watched_tenants_on_delete n now r d : watched n d -> watched n (tenants_on_delete now r d).
Proof.
  intros HP. unfold tenants_on_delete.
  destruct (watched_users_fold n now (List.filter (fun u => bool_decide (ur_tenant_id u = tr_id r))
              (d_users d)) d HP) as (? & ? & ? & ? & ?).
  split_and!; simpl; try done; by apply Forall_filter_bool.
Qed.

Lemma watch_insert_tenant t : forall x, tx_keeps watched t (PgTenantRepository.insert_tenant x).
Proof.
  intros x st Hst. unfold PgTenantRepository.insert_tenant, query. pose proof Hst as (HP & Hs & Hg).
  assert (Forall (fun s => watched (S (tx_seq st)) s.2) (tx_savepoints st)).
  { eapply Forall_impl; [exact Hs|]. simpl. intros. by apply watched_S. }
  apply watched_S in HP. pose proof HP as (? & ? & ? & ? & ?). unfold pg_fail.
  destruct (tx_aborted st); [split; [by split_and!|simpl; lia]|].
  repeat case_match; simplify_eq/=; (split; [split_and!; try done|simpl; lia]).
  simpl. split_and!; try done. apply Forall_app. split; [done|]. constructor; [|done].
  apply Hn_new, pg_uuid_form.
Qed.

Lemma watch_registry_call {A} (c : repo_call A) w :
  call_tenant c = None -> watched (w_pgseq w) (w_db w) ->
  watched (w_pgseq (run (perform c) w).2) (w_db (run (perform c) w).2).
Proof.
  apply registry_call_keeps; [apply watched_S|apply watch_insert_tenant| |].
  - intros id p. apply keeps_query. intros st a d ((? & ? & ? & ? & ?) & _) Hq.
    destruct (uuid_param id); simplify_eq/=. split_and!; try done. by apply Forall_update; auto.
  - intros id. apply keeps_query. intros st a d (HP & _) Hq.
    destruct (uuid_param id) as [u|]; simplify_eq/=.
    generalize (List.filter (fun r => bool_decide (tr_id r = u)) (d_tenants (tx_db st))).
    intros gone. induction gone as [|r gone IH]; simpl; [|by apply watched_tenants_on_delete].
    destruct HP as (? & ? & ? & ? & ?). split_and!; try done. by apply Forall_filter_bool.
Qed.

Lemma watch_call {A} (c : repo_call A) w :
  invites_within Nh c -> watched (w_pgseq w) (w_db w) ->
  watched (w_pgseq (run (perform c) w).2) (w_db (run (perform c) w).2).
Proof.
  intros Hnh. destruct (call_tenant c) eqn:Et; [by eapply watch_tenant_call|by apply watch_registry_call].
Qed.

Lemma watch_busy w w' :
  (forall h, Nh h) -> busy_env w w' -> watched (w_pgseq w) (w_db w) -> watched (w_pgseq w') (w_db w').
Proof. intros Hnh [? ? []|? ? c]; [done|]. apply watch_call. by destruct c; simpl. Qed.

End Watch.

Arguments watched {_} i Qn Qu Qt Qi n d.

Definition any_row {R} (r : R) : Prop := True.

Lemma any_rows {R} (l : list R) : Forall any_row l.
Proof. by apply Forall_true. Qed.

(** ** Refresh tokens and invites *)

Lemma is_live_revoked now r : is_live (set_revoked now r) = false.
Proof. unfold is_live. simpl. apply andb_false_r. Qed.

(** Invite [i] of tenant [t], when it is pending. *)
Definition pending_invite (d : database) (t i : jsstr) : option invites_row :=
  find (fun r => bool_decide (ivr_tenant_id r = t)
                 && (bool_decide (ivr_id r = i) && bool_decide (ivr_status r = js "pending")))
    (d_invites d).

Lemma find_none_Forall {R} (p : R -> bool) l : find p l = None <-> Forall (fun r => p r = false) l.
Proof.
  induction l as [|r l IH]; simpl; [done|]. rewrite Forall_cons. destruct (p r); [naive_solver|].
  rewrite IH. naive_solver.
Qed.

Lemma live_token_dead d t i :
  live_token d t i = None <-> Forall (dead_token t i) (d_refresh_tokens d).
Proof.
  unfold live_token. rewrite find_none_Forall. unfold dead_token.
  split; intros HF; (eapply Forall_impl; [exact HF|]); intros r; simpl.
  - intros Hr Ht Hi. by rewrite !bool_decide_eq_true_2 in Hr.
  - intros Hr. repeat case_bool_decide; simpl; auto.
Qed.

Lemma pending_invite_spent d t i :
  pending_invite d t i = None <-> Forall (spent_invite t i) (d_invites d).
Proof.
  unfold pending_invite. rewrite find_none_Forall. unfold spent_invite.
  split; intros HF; (eapply Forall_impl; [exact HF|]); intros r; simpl.
  - intros Hr Ht Hi. rewrite (bool_decide_eq_true_2 _ Ht), (bool_decide_eq_true_2 _ Hi) in Hr. simpl in Hr.
    by apply bool_decide_eq_false in Hr.
  - intros Hr. repeat case_bool_decide; simpl; naive_solver.
Qed.

Lemma never_drawn_demo lead n k :
  lead <> 48%N -> lead <> 97%N -> @never_drawn demo_entropy (demo_uuid lead k) n.
Proof. intros Hl Hl' [|m] _; apply demo_uuid_lead; congruence. Qed.

Lemma first_draw_demo n : 0 < n -> @never_drawn demo_entropy (demo_pg_uuid 0) n.
Proof. intros Hn [|m] Hm; [lia|]. by apply demo_uuid_lead. Qed.

Lemma dead_token_busy `{EntropyLaws} t i w w' :
  busy_env w w' -> never_drawn i (w_pgseq w) -> live_token (w_db w) t i = None ->
  never_drawn i (w_pgseq w') /\ live_token (w_db w') t i = None.
Proof.
  rewrite !live_token_dead. intros Hb Hn Hd.
  destruct (watch_busy i any_row any_row (dead_token t i) any_row (fun _ => True)) with (w := w) (w' := w')
    as (? & _ & _ & ? & _); unfold dead_token; try done.
  - intros. by apply is_live_revoked.
  - split_and!; try done; apply any_rows.
Qed.

Lemma spent_invite_busy `{EntropyLaws} t i w w' :
  busy_env w w' -> never_drawn i (w_pgseq w) -> pending_invite (w_db w) t i = None ->
  never_drawn i (w_pgseq w') /\ pending_invite (w_db w') t i = None.
Proof.
  rewrite !pending_invite_spent. intros Hb Hn Hd.
  destruct (watch_busy i any_row any_row any_row (spent_invite t i) (fun _ => True)) with (w := w) (w' := w')
    as (? & _ & _ & _ & ?); unfold spent_invite; try done.
  - intros now u r. unfold null_invites. by case_bool_decide.
  - split_and!; try done; apply any_rows.
Qed.

(** Inserting a token does not revive another one. *)
Lemma insert_token_dead `{EntropyLaws} t0 t i s st :
  tx_guc st = t0 -> tx_aborted st = false -> tx_savepoints st = [] ->
  never_drawn i (tx_seq st) -> live_token (tx_db st) t i = None ->
  let '(r, st') := insert_token t0 s st in
  live_token (tx_db st') t i = None /\ (is_ok r = true -> tx_aborted st' = false).
Proof.
  intros Hg Ha Hsp Hn Hd. rewrite live_token_dead in Hd.
  assert (Hk : tx_keeps (watched i any_row any_row (dead_token t i) any_row) t0 (insert_token t0 s)).
  { apply watch_insert_token; [by unfold dead_token|]. intros ? ? ? ? E. unfold typed_token. result_inv. simplify_eq/=.
    repeat match goal with E : uuid_param _ = Ok _ |- _ => apply uuid_param_Ok, uuid_in_is_uuid in E end.
    by split_and!. }
  destruct (Hk st) as [(Hw & _) _].
  { unfold tx_inv, watched. split_and!; rewrite ?Hsp; try done; apply any_rows. }
  destruct (insert_token t0 s st) as [r st'] eqn:E. rewrite live_token_dead.
  split; [by destruct Hw as (_ & _ & _ & ? & _)|]. intros Hr.
  unfold insert_token, sql_insert, query in E. rewrite Ha in E.
  repeat (case_match; simplify_eq/=); done.
Qed.

(** The uuid columns hold UUIDs in their canonical form. *)
Definition uuid_columns (d : database) : Prop :=
  Forall typed_tenant (d_tenants d) /\ Forall typed_user (d_users d) /\
  Forall typed_token (d_refresh_tokens d).

Lemma uuid_columns_busy `{EntropyLaws} w w' :
  busy_env w w' -> uuid_columns (w_db w) -> uuid_columns (w_db w').
Proof.
  intros Hb (? & ? & ?).
  destruct (watch_busy [] typed_tenant typed_user typed_token any_row (fun _ => True)) with (w := w) (w' := w')
    as (_ & ? & ? & ? & _); try done.
  split_and!; try done; [|apply any_rows].
  intros m _ E. pose proof (pg_uuid_form m) as Hm. rewrite E in Hm. by vm_compute in Hm.
Qed.

Lemma db_ok_busy `{Entropy} w w' : busy_env w w' -> db_ok (w_db w) -> db_ok (w_db w').
Proof. intros [? ? []|? ? c]; [done|apply call_ok]. Qed.

(** * Theorems *)

(** C23. Spent credentials stay spent.  A refresh token that has been rotated or
    revoked never becomes live again, and an invite that has been consumed or
    revoked never becomes pending again, after any number of repository calls by
    any requests and any passage of time.  ([gen_random_uuid()] is assumed not to
    draw the credential's own id again.) *)
Theorem credentials_stay_spent `{EntropyLaws} t i w w'
    (Hn : never_drawn i (w_pgseq w)) (Hsteps : rtc busy_env w w') :
  (live_token (w_db w) t i = None -> live_token (w_db w') t i = None) /\
  (pending_invite (w_db w) t i = None -> pending_invite (w_db w') t i = None).
Proof.
  split.
  - induction Hsteps as [|w w1 w' Hs _ IH]; intros Hd; [done|].
    destruct (dead_token_busy t i _ _ Hs Hn Hd). auto.
  - induction Hsteps as [|w w1 w' Hs _ IH]; intros Hd; [done|].
    destruct (spent_invite_busy t i _ _ Hs Hn Hd). auto.
Qed.

Lemma credentials_stay_spent_witness :
  let revoked := (run (@perform demo_entropy _ (RefreshRevokeFamily acme alice_family 6000)) demo_world).2 in
  let later := (run (@perform demo_entropy _ (RefreshCreate acme
                  (mkNewRefreshToken alice_family alice (pad_digest (js "x")) 9000))) revoked).2 in
  live_token (w_db revoked) acme alice_token = None /\ live_token (w_db later) acme alice_token = None.
Proof.
  split; [by vm_compute|].
  apply (@credentials_stay_spent demo_entropy demo_entropy_laws acme alice_token
           (run (@perform demo_entropy _ (RefreshRevokeFamily acme alice_family 6000)) demo_world).2).
  - by apply never_drawn_demo.
  - apply rtc_once. apply (@busy_call demo_entropy).
  - by vm_compute.
Defined.
