(* ===== verification/Adapters.v ===== *)
(** * Clock, random, password, token, audit and state-store adapters

    [adapters/crypto/*.ts], [adapters/audit/*.ts], [adapters/email/noop-email-sender.ts]
    and the two OAuth state stores of [adapters/redis/].  [StateStoreSpec] is what a
    state store promises to the OIDC flow; both stores are instances. *)

From stdpp Require Import base list option numbers strings gmap.
From S2P Require Import Prelude Errors Effects Tokens Rbac Entities Ports Uuid Schema World Demo.

(** ** Clock and random sources *)

Definition SystemClock : Clock world :=
  {| clock_now := atomic (fun w => (Ok (w_now w), w)) |}.

(** One draw of the random source. *)
Definition draw {A} (f : nat -> A) : prog world A :=
  atomic (fun w => (Ok (f (w_rand w)), set_w_rand (S (w_rand w)) w)).

Section Random.
Context `{Entropy}.

Definition NodeSecretGenerator : SecretGenerator world :=
  {| secrets_generate := draw (fun n => node_hex n REFRESH_SECRET_BYTES) |}.

Definition NodeIdGenerator : IdGenerator world := {| ids_uuid := draw node_uuid |}.

Definition NodeKeyMaterialGenerator : KeyMaterialGenerator world :=
  {| keymat_generate :=
       keyId ← draw (fun n => node_hex n KEY_ID_BYTES);
       secret ← draw (fun n => node_hex n SECRET_BYTES);
       mret (mkKeyMaterial keyId secret) |}.

End Random.

(** ** Passwords *)

Definition BcryptHasher `{Bcrypt} (cost : Z) : PasswordHasher world :=
  {| hasher_hash := fun plaintext => draw (fun n => bcrypt_hash n cost plaintext);
     hasher_verify := fun plaintext hash => atomic (fun w => (Ok (bcrypt_compare plaintext hash), w)) |}.

(** ** Access tokens *)

Definition ISSUER : jsstr := js "logalot-control-plane".
Definition AUDIENCE : jsstr := js "logalot".

Record JoseTokenConfig := mkJoseTokenConfig {
  jc_secret : jsstr;
  jc_accessTtlSeconds : Z
}.

Section Jose.
Context `{Jose} (config : JoseTokenConfig).

(** [iat] is the time in seconds; [exp] is [accessTtlSeconds] later. *)
Definition access_payload (claims : SessionClaims) (now : Z) : JwtPayload :=
  {| jp_tenant_id := Some (sc_tenantId claims);
     jp_sub := Some (sc_principalId claims);
     jp_role := Some (role_str (sc_role claims));
     jp_iss := ISSUER;
     jp_aud := AUDIENCE;
     jp_iat := now / 1000;
     jp_exp := now / 1000 + jc_accessTtlSeconds config |}.

Definition issueAccess (claims : SessionClaims) : prog world IssuedAccess :=
  token ← atomic (fun w => (Ok (jwt_sign (jc_secret config) (access_payload claims (w_now w))), w));
  mret (mkIssuedAccess token (jc_accessTtlSeconds config)).

Definition verifyAccess (token : jsstr) : prog world SessionClaims :=
  payload ← atomic (fun w =>
    (match jwt_verify (jc_secret config) ISSUER AUDIENCE (w_now w / 1000) token with
     | Some p => Ok p
     | None => Err (EError (js "JWTInvalid"))
     end, w));
  match jp_tenant_id payload, jp_sub payload, jp_role payload ≫= isRole with
  | Some tenantId, Some principalId, Some role => mret (mkSessionClaims tenantId principalId role)
  | _, _, _ => throw (EError (js "malformed token claims"))
  end.

Definition JoseTokenService : TokenService world :=
  {| tokens_issueAccess := issueAccess; tokens_verifyAccess := verifyAccess |}.

End Jose.

(** ** Audit and mail *)

Definition ConsoleOAuthAuditLogger : OAuthAuditLogger world :=
  {| oauth_log := fun event =>
       atomic (fun w => (Ok tt, set_w_oauth_audit (w_oauth_audit w ++ [event]) w)) |}.

Definition ConsoleInviteAuditLogger : InviteAuditLogger world :=
  {| invite_log := fun event =>
       atomic (fun w => (Ok tt, set_w_invite_audit (w_invite_audit w ++ [event]) w)) |}.

Definition NoOpEmailSender : EmailSender world := {| email_send := fun _ => mret tt |}.

(** ** OAuth state stores *)

Module InMemoryOAuthStateStore.

Definition put (record : OAuthStateRecord) (ttlSeconds : Z) : prog world unit :=
  atomic (fun w =>
    (Ok tt, set_w_states (<[os_state record :=
               mkStateEntry record (w_now w + ttlSeconds * 1000)]> (w_states w)) w)).

Definition consume (state : jsstr) : prog world (option OAuthStateRecord) :=
  atomic (fun w =>
    match w_states w !! state with
    | None => (Ok None, w)
    | Some entry =>
        let w' := set_w_states (delete state (w_states w)) w in
        if (se_expiresAt entry <? w_now w)%Z then (Ok None, w')
        else (Ok (Some (se_record entry)), w')
    end).

Definition store : OAuthStateStore world := {| states_put := put; states_consume := consume |}.

End InMemoryOAuthStateStore.

Module RedisOAuthStateStore.

Definition KEY_PREFIX : jsstr := js "oauth:state:".

(** [SET key value EX seconds]. *)
Definition redis_set (key value : jsstr) (seconds : Z) : prog world unit :=
  atomic (fun w =>
    if (seconds <=? 0)%Z then (Err (EError (js "ERR invalid expire time in 'set' command")), w)
    else (Ok tt, set_w_redis (<[key := (value, (w_now w + seconds * 1000)%Z)]> (w_redis w)) w)).

(** [GETDEL key]: one command; an expired key is absent. *)
Definition getdel (key : jsstr) (w : world) : result exn (option jsstr) * world :=
  match w_redis w !! key with
  | Some (value, expiry) =>
      (Ok (if (w_now w <? expiry)%Z then Some value else None),
       set_w_redis (delete key (w_redis w)) w)
  | None => (Ok None, w)
  end.

Definition redis_getdel (key : jsstr) : prog world (option jsstr) := atomic (getdel key).

Section Store.
Context `{StateCodec}.

Definition put (record : OAuthStateRecord) (ttlSeconds : Z) : prog world unit :=
  let key := KEY_PREFIX ++ os_state record in
  redis_set key (state_stringify record) ttlSeconds.

Definition consume (state : jsstr) : prog world (option OAuthStateRecord) :=
  let key := KEY_PREFIX ++ state in
  raw ← redis_getdel key;
  match raw with
  | None => mret None
  | Some r => if truthy r then mret (state_parse r) else mret None
  end.

Definition store : OAuthStateStore world := {| states_put := put; states_consume := consume |}.

End Store.

End RedisOAuthStateStore.

(** ** What a state store promises

    [live w k] is the record stored under [k], when it is there and unexpired. *)

(** Nothing but the stores differs. *)
Definition store_frame (w w' : world) : Prop :=
  w' = set_w_redis (w_redis w') (set_w_states (w_states w') w).

Class StateStoreSpec (s : OAuthStateStore world)
    (live : world -> jsstr -> option OAuthStateRecord) : Prop := {
  (* a stored record is live under its key, and the other keys are untouched *)
  store_put r ttl w :
    (0 < ttl)%Z ->
    exists w', run (states_put s r ttl) w = (Ok tt, w') /\ store_frame w w' /\
      live w' (os_state r) = Some r /\ forall k, k <> os_state r -> live w' k = live w k;
  (* consuming returns the live record and removes it *)
  store_consume k w :
    exists w', run (states_consume s k) w = (Ok (live w k), w') /\ store_frame w w' /\
      live w' k = None /\ forall k', k' <> k -> live w' k' = live w k';
  (* under interference, a consumer gets a record only by removing it *)
  store_claims k :
    claims (fun _ => True) (fun w => bool_decide (is_Some (live w k)))
      (fun r => bool_decide (is_Some r)) (states_consume s k);
  (* and a consumer of another key brings nothing back *)
  store_keeps k k' :
    spec (fun _ => True) (no_release (fun _ => True) (fun w => bool_decide (is_Some (live w k))))
      (states_consume s k') (fun _ => True);
  (* it depends on the stores and the clock only *)
  store_local k w w' :
    w_states w' = w_states w -> w_redis w' = w_redis w -> w_now w' = w_now w -> live w' k = live w k;
  (* time only ends lives *)
  store_time k w w' : env_step w w' -> is_Some (live w' k) -> is_Some (live w k)
}.

Definition memory_live (w : world) (k : jsstr) : option OAuthStateRecord :=
  match w_states w !! k with
  | Some entry => if (se_expiresAt entry <? w_now w)%Z then None else Some (se_record entry)
  | None => None
  end.

Definition redis_live `{StateCodec} (w : world) (k : jsstr) : option OAuthStateRecord :=
  match w_redis w !! (RedisOAuthStateStore.KEY_PREFIX ++ k) with
  | Some (value, expiry) =>
      if (w_now w <? expiry)%Z && truthy value then state_parse value else None
  | None => None
  end.

(** * Lemmas *)

Lemma no_release_intro {W} (live live' : option W) :
  (is_Some live' -> is_Some live) ->
  bool_decide (is_Some live) = false -> bool_decide (is_Some live') = false.
Proof. rewrite !bool_decide_eq_false. auto. Qed.

Lemma memory_consume_eq k w :
  exists w', run (InMemoryOAuthStateStore.consume k) w = (Ok (memory_live w k), w') /\
    w' = set_w_states (delete k (w_states w)) w.
Proof.
  unfold InMemoryOAuthStateStore.consume. rewrite run_atomic. unfold memory_live.
  destruct (w_states w !! k) as [e|] eqn:E.
  - destruct (_ <? _)%Z; eauto.
  - rewrite delete_id by done. exists w. by destruct w.
Qed.

Lemma memory_live_delete k k' w :
  memory_live (set_w_states (delete k (w_states w)) w) k' =
  if decide (k' = k) then None else memory_live w k'.
Proof.
  unfold memory_live. simpl. destruct (decide (k' = k)) as [->|Hne].
  - by rewrite lookup_delete_eq.
  - by rewrite lookup_delete_ne.
Qed.

#[export] Instance memory_store_spec : StateStoreSpec InMemoryOAuthStateStore.store memory_live.
Proof.
  split.
  - intros r ttl w Httl. eexists. split; [reflexivity|]. split_and!; [by destruct w| |].
    + unfold memory_live. simpl. rewrite lookup_insert_eq. simpl.
      destruct (Z.ltb_spec (w_now w + ttl * 1000) (w_now w)); [lia|done].
    + intros k Hk. unfold memory_live. simpl. by rewrite lookup_insert_ne.
  - intros k w. destruct (memory_consume_eq k w) as (w' & Hrun & ->).
    eexists. split; [exact Hrun|]. split_and!; [by destruct w| |].
    + by rewrite memory_live_delete, decide_True.
    + intros k' Hne. by rewrite memory_live_delete, decide_False.
  - intros k. split; [|done]. intros w _.
    destruct (memory_consume_eq k w) as (w' & Hrun & ->).
    unfold InMemoryOAuthStateStore.consume in Hrun. rewrite run_atomic in Hrun. simpl. rewrite Hrun.
    simpl. unfold no_release. rewrite memory_live_delete, decide_True by done. split; [done|].
    destruct (memory_live w k); [by left|by right].
  - intros k k'. split; [|done]. intros w _.
    destruct (memory_consume_eq k' w) as (w' & Hrun & ->).
    unfold InMemoryOAuthStateStore.consume in Hrun. rewrite run_atomic in Hrun. simpl. rewrite Hrun.
    split; [|done]. split; [done|]. apply no_release_intro. simpl.
    rewrite memory_live_delete. case_decide; [by intros []|done].
  - intros k w w' Es _ En. unfold memory_live. by rewrite Es, En.
  - intros k w w' [w0 dt dt' Hdt Hdt']. unfold memory_live. simpl.
    destruct (w_states w0 !! k) as [e|]; [|done].
    destruct (Z.ltb_spec (se_expiresAt e) (w_now w0 + dt')), (Z.ltb_spec (se_expiresAt e) (w_now w0));
      try done; lia.
Qed.

Lemma redis_consume_eq `{StateCodec} k w :
  run (RedisOAuthStateStore.consume k) w =
  (Ok (redis_live w k), set_w_redis (delete (RedisOAuthStateStore.KEY_PREFIX ++ k) (w_redis w)) w).
Proof.
  unfold RedisOAuthStateStore.consume, RedisOAuthStateStore.redis_getdel.
  rewrite run_bind, run_atomic. unfold redis_live, RedisOAuthStateStore.getdel.
  destruct (w_redis w !! _) as [[v e]|] eqn:E; simpl.
  - destruct (_ <? _)%Z; simpl; [|done]. by destruct (truthy v).
  - rewrite delete_id by done. by destruct w.
Qed.

Lemma redis_live_delete `{StateCodec} k k' w :
  redis_live (set_w_redis (delete (RedisOAuthStateStore.KEY_PREFIX ++ k) (w_redis w)) w) k' =
  if decide (k' = k) then None else redis_live w k'.
Proof.
  unfold redis_live. cbn [w_redis set_w_redis]. destruct (decide (k' = k)) as [->|Hne].
  - by rewrite lookup_delete_eq.
  - rewrite lookup_delete_ne; [done|]. intros ?%app_inv_head. done.
Qed.

Lemma getdel_world key w :
  (RedisOAuthStateStore.getdel key w).2 = set_w_redis (delete key (w_redis w)) w.
Proof.
  unfold RedisOAuthStateStore.getdel. destruct (w_redis w !! _) as [[v e]|] eqn:E; simpl; [done|].
  rewrite delete_id by done. by destruct w.
Qed.

#[export] Instance redis_store_spec `{StateCodecLaws} :
  StateStoreSpec RedisOAuthStateStore.store redis_live.
Proof.
  split.
  - intros r ttl w Httl. cbn [states_put RedisOAuthStateStore.store].
    unfold RedisOAuthStateStore.put, RedisOAuthStateStore.redis_set.
    rewrite run_atomic. destruct (Z.leb_spec ttl 0); [lia|].
    eexists. split; [reflexivity|]. split_and!; [by destruct w| |].
    + unfold redis_live. cbn [w_redis set_w_redis w_now]. rewrite lookup_insert_eq.
      destruct (Z.ltb_spec (w_now w) (w_now w + ttl * 1000)); [|lia].
      rewrite (proj2 (truthy_spec _) (state_stringify_ne r)). apply state_parse_stringify.
    + intros k Hk. unfold redis_live. cbn [w_redis set_w_redis w_now].
      rewrite lookup_insert_ne; [done|]. intros ?%app_inv_head. done.
  - intros k w. eexists. split; [apply redis_consume_eq|]. split_and!; [by destruct w| |].
    + by rewrite redis_live_delete, decide_True.
    + intros k' Hne. by rewrite redis_live_delete, decide_False.
  - intros k. split; [|done]. intros w _. rewrite getdel_world. split.
    + split; [done|]. apply no_release_intro. rewrite redis_live_delete, decide_True by done. by intros [].
    + pose proof (redis_live_delete k k w) as Hd. rewrite decide_True in Hd by done. rewrite Hd.
      unfold redis_live, RedisOAuthStateStore.getdel.
      destruct (w_redis w !! _) as [[v e]|] eqn:E; simpl; [|by right].
      destruct (_ <? _)%Z; simpl; [|by right]. destruct (truthy v); simpl; [|by right].
      destruct (state_parse v); [by left|by right].
  - intros k k'. split; [|by simpl]. intros w _. rewrite getdel_world. split.
    + split; [done|]. apply no_release_intro. rewrite redis_live_delete. case_decide; [by intros []|done].
    + unfold RedisOAuthStateStore.getdel.
      destruct (w_redis w !! _) as [[v e]|]; simpl; [|done]. destruct (_ <? _)%Z; simpl; [|done].
      by destruct (truthy v).
  - intros k w w' _ Er En. unfold redis_live. by rewrite Er, En.
  - intros k w w' [w0 dt dt' Hdt Hdt']. unfold redis_live. simpl.
    destruct (w_redis w0 !! _) as [[v e]|]; [|done].
    destruct (Z.ltb_spec (w_now w0 + dt') e), (Z.ltb_spec (w_now w0) e); simpl; try done; lia.
Qed.

(** * Theorems *)

(** A consumer of key [k], answering with the key it asked for. *)
Definition consumer (s : OAuthStateStore world) (k : jsstr)
    : prog world (jsstr * option OAuthStateRecord) :=
  r ← states_consume s k; mret (k, r).

(** C29. Both stores keep the port's contract: in the Redis store (keys with the
    prefix, JSON values, SET EX and GETDEL) and in the in-memory one, a stored
    record is returned by the next consume of its key and only by that one, the
    other keys are untouched, and an expired record is absent. *)
Theorem state_stores_refine `{StateCodecLaws} :
  StateStoreSpec RedisOAuthStateStore.store redis_live /\
  StateStoreSpec InMemoryOAuthStateStore.store memory_live.
Proof. split; apply _. Qed.

Lemma state_stores_refine_witness :
  StateStoreSpec (@RedisOAuthStateStore.store demo_codec) (@redis_live demo_codec) /\
  StateStoreSpec InMemoryOAuthStateStore.store memory_live.
Proof. apply (@state_stores_refine demo_codec demo_codec_laws). Defined.

(** A state value is consumed at most once: of any number of concurrent
    consumers of any keys, in any interleaving and with any infrastructure
    failures, at most one obtains the record of a given key. *)
Theorem state_single_use s live `{!StateStoreSpec s live} keys w w' ts' i j k r r'
    (Hsteps : rtc (pstep env_step) (w, map (consumer s) keys) (w', ts'))
    (Hi : ts' !! i = Some (Ret (Ok (k, Some r)))) (Hj : ts' !! j = Some (Ret (Ok (k, Some r')))) :
  i = j.
Proof.
  set (win := fun a : jsstr * option OAuthStateRecord =>
                bool_decide (a.1 = k) && bool_decide (is_Some a.2)).
  eapply (single_winner env_step (fun _ => True) (fun v => bool_decide (is_Some (live v k))) win);
    [| |  |exact Hsteps|exact Hi| |exact Hj|]; try done.
  - intros v v' Hv _. split; [done|]. apply no_release_intro. by eapply store_time.
  - apply Forall_map, Forall_true. intros k'. unfold consumer. simpl.
    destruct (decide (k' = k)) as [->|Hne].
    + eapply claims_map; [apply store_claims|]. intros a Ha. unfold win. simpl. rewrite Ha.
      apply andb_false_r.
    + apply claims_spec. eapply spec_bind, spec_mono; [apply store_keeps|].
      intros [a|e] _; [|done]. simpl. unfold win. simpl. by rewrite bool_decide_eq_false_2.
  - unfold win. simpl. by rewrite bool_decide_eq_true_2.
  - unfold win. simpl. by rewrite bool_decide_eq_true_2.
Qed.

Definition demo_record : OAuthStateRecord := mkOAuthStateRecord (js "st") acme ∅ (js "now").

Definition demo_state_world : world :=
  set_w_states {[ js "st" := mkStateEntry demo_record 9000 ]} demo_world.

Lemma demo_consumers_run :
  rtc (pstep env_step)
    (demo_state_world, map (consumer InMemoryOAuthStateStore.store) [js "st"; js "st"])
    (set_w_states (delete (js "st") (w_states demo_state_world)) demo_state_world,
     [Ret (Ok (js "st", Some demo_record)); Ret (Ok (js "st", None))]).
Proof.
  eapply rtc_l; [eapply (pstep_exec _ _ _ 0); [reflexivity|reflexivity]|].
  eapply rtc_l; [eapply (pstep_exec _ _ _ 1); [reflexivity|reflexivity]|]. apply rtc_refl.
Qed.

Lemma state_single_use_witness : 0 = 0.
Proof.
  apply (state_single_use InMemoryOAuthStateStore.store memory_live [js "st"; js "st"]
           demo_state_world _ _ 0 0 (js "st") demo_record demo_record demo_consumers_run);
    reflexivity.
Defined.

(** An access token verifies, with the claims it was issued for, for as long
    as its time to live (in whole seconds) has not passed. *)
Theorem access_token_roundtrip `{JoseLaws} config claims w w'
    (Hlive : (w_now w' / 1000 < w_now w / 1000 + jc_accessTtlSeconds config)%Z) :
  exists token,
    run (issueAccess config claims) w
      = (Ok (mkIssuedAccess token (jc_accessTtlSeconds config)), w) /\
    run (verifyAccess config token) w' = (Ok claims, w').
Proof.
  eexists. split.
  - unfold issueAccess. rewrite run_bind, run_atomic. reflexivity.
  - unfold verifyAccess. rewrite run_bind, run_atomic, jwt_verify_sign by done. simpl.
    rewrite (proj2 (isRole_spec _ (sc_role claims)) eq_refl). by destruct claims.
Qed.

Lemma access_token_roundtrip_witness :
  exists token,
    run (@issueAccess demo_jose (mkJoseTokenConfig (js "k") 900) (mkSessionClaims acme alice member))
      demo_world = (Ok (mkIssuedAccess token 900), demo_world) /\
    run (@verifyAccess demo_jose (mkJoseTokenConfig (js "k") 900) token) (advance 0 60000 demo_world)
      = (Ok (mkSessionClaims acme alice member), advance 0 60000 demo_world).
Proof.
  apply (@access_token_roundtrip demo_jose demo_jose_laws (mkJoseTokenConfig (js "k") 900)
           (mkSessionClaims acme alice member) demo_world (advance 0 60000 demo_world)).
  by vm_compute.
Defined.
