(* ===== verification/Google.v ===== *)
(** * Google adapters

    [adapters/http/google-token-exchange-client.ts] and
    [adapters/crypto/jose-google-verifier.ts].  The network and the [jose] package
    are parameters: what an HTTP request gets back, and what [jwtVerify] with
    Google's key set answers. *)

From stdpp Require Import base list option numbers strings gmap.
From S2P Require Import Prelude Errors Effects Tokens Text Rbac Entities Ports Uuid Schema World Demo.

Record HttpResponse := mkHttpResponse {
  hr_status : Z;
  hr_json : option json                        (* None: the body is not JSON *)
}.

Inductive jose_failure := JWKSTimeout | JOSEError | OtherError.

Record JwtVerifyOptions := mkJwtVerifyOptions {
  jv_algorithms : list jsstr;
  jv_audience : jsstr;
  jv_issuer : list jsstr;
  jv_clockTolerance : Z
}.

Class Net := {
  (* a POST of a form body, by time; None: network failure or timeout *)
  net_post : Z -> jsstr -> jsstr -> option HttpResponse;
  (* jwtVerify with Google's remote key set, by time in seconds *)
  net_jwtVerify : Z -> jsstr -> JwtVerifyOptions -> result jose_failure jsobject
}.

(** [object[key]]: of duplicate keys the last one counts. *)
Definition get (o : jsobject) (key : jsstr) : option json :=
  snd <$> find (fun kv => bool_decide (kv.1 = key)) (reverse o).

(** The claims [jwtVerify] checks. *)
Definition claims_string (o : jsobject) (key : jsstr) (allowed : list jsstr) : Prop :=
  exists s, get o key = Some (JStr s) /\ s ∈ allowed.

Definition audience_of (o : jsobject) : list jsstr :=
  match get o (js "aud") with
  | Some (JStr s) => [s]
  | Some (JArr l) => omap (fun j => match j with JStr s => Some s | _ => None end) l
  | _ => []
  end.

Class NetLaws `{Net} : Prop := {
  jwtVerify_issuer now token opts p :
    net_jwtVerify now token opts = Ok p -> claims_string p (js "iss") (jv_issuer opts);
  jwtVerify_audience now token opts p :
    net_jwtVerify now token opts = Ok p -> jv_audience opts ∈ audience_of p
}.

(** ** Token exchange *)

Definition GOOGLE_TOKEN_ENDPOINT : jsstr := js "https://oauth2.googleapis.com/token".

Record GoogleTokenExchangeConfig := mkGoogleTokenExchangeConfig {
  gx_clientId : jsstr;
  gx_clientSecret : jsstr
}.

Module GoogleTokenExchangeHttpClient.
Section Client.
Context `{Net} (config : GoogleTokenExchangeConfig).

Definition request_body (params : ExchangeParams) : jsstr :=
  urlSearchParams
    [(js "grant_type", js "authorization_code");
     (js "code", ep_code params);
     (js "redirect_uri", ep_redirectUri params);
     (js "client_id", gx_clientId config);
     (js "client_secret", gx_clientSecret config);
     (js "code_verifier", ep_codeVerifier params)].

(** [fetch(url, { method: 'POST', body })], rejecting on a network failure. *)
Definition fetch_post (url body : jsstr) : prog world HttpResponse :=
  atomic (fun w =>
    (match net_post (w_now w) url body with
     | Some r => Ok r
     | None => Err EInfra
     end, set_w_google (w_google w ++ [(url, body)]) w)).

(** The checked fields of the answer.  Reading a property of [null] throws a
    TypeError; any other value that is not an object has none of them. *)
Definition read_response (data : json) : result exn GoogleTokenExchangeResult :=
  match data with
  | JNull => Err (EError (js "TypeError"))
  | JObj o =>
      match get o (js "id_token"), get o (js "access_token"), get o (js "token_type"),
            get o (js "expires_in") with
      | Some (JStr i), Some (JStr a), Some (JStr t), Some (JNum e) =>
          Ok (mkGoogleTokenExchangeResult i a t e (get o (js "scope")))
      | _, _, _, _ => Err (UnauthorizedError (js "token exchange failed"))
      end
  | _ => Err (UnauthorizedError (js "token exchange failed"))
  end.

Definition exchange (params : ExchangeParams) : prog world GoogleTokenExchangeResult :=
  response ← catch (fun _ => throw (ServiceUnavailableError (js "Google token endpoint unavailable")))
               (fetch_post GOOGLE_TOKEN_ENDPOINT (request_body params));
  (* response.ok *)
  if negb ((200 <=? hr_status response) && (hr_status response <=? 299))%Z then
    if (500 <=? hr_status response)%Z
    then throw (ServiceUnavailableError (js "Google token endpoint error"))
    else throw (UnauthorizedError (js "token exchange failed"))
  else
    match hr_json response with
    | None => throw (UnauthorizedError (js "token exchange failed"))
    | Some data => Ret (read_response data)
    end.

Definition client : GoogleTokenExchangeClient world := {| exchange_exchange := exchange |}.

End Client.
End GoogleTokenExchangeHttpClient.

(** ** Verification of id tokens *)

Definition CLOCK_TOLERANCE_SECONDS : Z := 30.
Definition GOOGLE_ISSUERS : list jsstr := [js "https://accounts.google.com"; js "accounts.google.com"].

Module JoseGoogleIdTokenVerifier.
Section Verifier.
Context `{Net} (clientId : jsstr).

Definition verify_options : JwtVerifyOptions :=
  mkJwtVerifyOptions [js "RS256"] clientId GOOGLE_ISSUERS CLOCK_TOLERANCE_SECONDS.

Definition string_prop (o : jsobject) (key : jsstr) : option jsstr :=
  match get o key with Some (JStr s) => Some s | _ => None end.

(** The checks on the verified payload. *)
Definition read_claims (payload : jsobject) (expectedNonce : jsstr) : result exn GoogleIdTokenClaims :=
  let invalid := Err (UnauthorizedError (js "invalid id_token")) in
  match get payload (js "email_verified") with
  | Some (JBool true) =>
      match string_prop payload (js "nonce") with
      | None => invalid
      | Some nonce =>
          if negb (bool_decide (nonce = expectedNonce)) then invalid
          else
            match string_prop payload (js "email"), string_prop payload (js "sub") with
            | Some email, Some sub =>
                Ok {| gc_sub := sub;
                      gc_email := email;
                      gc_email_verified := true;
                      gc_nonce := nonce;
                      gc_iss := get payload (js "iss");
                      gc_aud := get payload (js "aud");
                      gc_iat := get payload (js "iat");
                      gc_exp := get payload (js "exp");
                      gc_name := string_prop payload (js "name");
                      gc_picture := string_prop payload (js "picture") |}
            | _, _ => invalid
            end
      end
  | _ => invalid
  end.

Definition verify (idToken expectedNonce : jsstr) : prog world GoogleIdTokenClaims :=
  payload ← atomic (fun w =>
    (match net_jwtVerify (w_now w / 1000) idToken verify_options with
     | Ok p => Ok p
     | Err JOSEError => Err (UnauthorizedError (js "invalid id_token"))
     | Err _ => Err (ServiceUnavailableError (js "Google JWKS endpoint unavailable"))
     end, w));
  Ret (read_claims payload expectedNonce).

Definition verifier : GoogleIdTokenVerifier world := {| verifier_verify := verify |}.

End Verifier.
End JoseGoogleIdTokenVerifier.
