(* ===== verification/AuthService.v ===== *)
(** * Authentication service

    [app/auth-service.ts]: password login, rotating refresh tokens with
    family-wide reuse detection, logout.  The service is a set of programs over
    its dependencies ([AuthDeps]); [pg_auth_deps] is the composition root's choice
    of them. *)

From stdpp Require Import base list option numbers strings gmap.
From S2P Require Import Prelude Errors Effects Tokens Rbac Email Entities Ports Uuid Schema World.
From S2P Require Import Sql Demo Integrity PgUsers PgTokens Adapters.

Record LoginCommand := mkLoginCommand {
  lc_tenantSlug : jsstr;
  lc_email : jsstr;
  lc_password : jsstr
}.

Record AuthDeps := mkAuthDeps {
  ad_tenants : TenantRepository world;
  ad_users : UserRepository world;
  ad_refreshTokens : RefreshTokenRepository world;
  ad_hasher : PasswordHasher world;
  ad_tokens : TokenService world;
  ad_secrets : SecretGenerator world;
  ad_ids : IdGenerator world;
  ad_clock : Clock world;
  ad_refreshTtlSeconds : Z
}.

Definition DUMMY_SECRET : jsstr := js "logalot-nonexistent-user-timing-equalizer".

Definition invalid_refresh_token : jsstr := js "invalid refresh token".

Section AuthService.
Context `{Crypto, Unicode} (deps : AuthDeps).

(** The memoised promise: what it settled to, success or failure, is kept. *)
Definition dummyHash : prog world jsstr :=
  memo ← atomic (fun w => (Ok (w_dummy w), w));
  match memo with
  | Some r => Ret r
  | None =>
      r ← catch (fun e => mret (Err e))
            (h ← hasher_hash (ad_hasher deps) DUMMY_SECRET; mret (Ok h));
      _ ← atomic (fun w => (Ok tt, set_w_dummy (Some r) w));
      Ret r
  end.

Definition mintRefreshToken (tenantId userId familyId : jsstr) : prog world jsstr :=
  secret ← secrets_generate (ad_secrets deps);
  now ← clock_now (ad_clock deps);
  let expiresAt := (now + ad_refreshTtlSeconds deps * 1000)%Z in
  id ← refresh_create (ad_refreshTokens deps) tenantId
         (mkNewRefreshToken familyId userId (sha256 secret) expiresAt);
  mret (assembleRefreshToken tenantId id secret).

Definition login (cmd : LoginCommand) : prog world SessionTokens :=
  tenant ← tenants_findByPublicId (ad_tenants deps) (lc_tenantSlug cmd);
  record ← match tenant with
           | Some t =>
               if bool_decide (tn_status t = t_active)
               then users_findCredentialsByEmail (ad_users deps) (tn_id t) (normalizeEmail (lc_email cmd))
               else mret None
           | None => mret None
           end;
  passwordHash ← match record with
                 | Some r => mret (au_passwordHash r)
                 | None => dummyHash
                 end;
  ok ← hasher_verify (ad_hasher deps) (lc_password cmd) passwordHash;
  match tenant, record, ok with
  | Some t, Some r, true =>
      match bool_decide (au_status r = js "active"), au_role r with
      | true, Some role =>
          familyId ← ids_uuid (ad_ids deps);
          refreshToken ← mintRefreshToken (tn_id t) (au_id r) familyId;
          access ← tokens_issueAccess (ad_tokens deps) (mkSessionClaims (tn_id t) (au_id r) role);
          mret {| st_accessToken := ia_token access;
                  st_refreshToken := refreshToken;
                  st_expiresIn := ia_expiresInSeconds access;
                  st_tokenType := js "Bearer";
                  st_role := role;
                  st_tenantId := tn_id t;
                  st_userId := au_id r |}
      | _, _ => throw (UnauthorizedError invalid_credentials)
      end
  | _, _, _ => throw (UnauthorizedError invalid_credentials)
  end.

(** A malformed token looks like a wrong one. *)
Definition safeParse (rawToken : jsstr) : result exn ParsedRefreshToken :=
  match parseRefreshToken rawToken with
  | Ok p => Ok p
  | Err _ => Err (UnauthorizedError invalid_refresh_token)
  end.

(** [await revokeFamily(...); throw new UnauthorizedError(...)]. *)
Definition revoke_and_reject (tenantId familyId : jsstr) (now : date) : prog world SessionTokens :=
  _ ← refresh_revokeFamily (ad_refreshTokens deps) tenantId familyId now;
  throw (UnauthorizedError invalid_refresh_token).

Definition refresh (rawToken : jsstr) : prog world SessionTokens :=
  parsed ← Ret (safeParse rawToken);
  row ← refresh_findById (ad_refreshTokens deps) (pr_tenantId parsed) (pr_tokenId parsed);
  match row with
  | None => throw (UnauthorizedError invalid_refresh_token)
  | Some row =>
      if negb (constantTimeEqual (sha256 (pr_secret parsed)) (rr_tokenHash row))
      then throw (UnauthorizedError invalid_refresh_token)
      else
        now ← clock_now (ad_clock deps);
        if bool_decide (rr_revokedAt row <> None) || bool_decide (rr_rotatedAt row <> None)
        then revoke_and_reject (pr_tenantId parsed) (rr_familyId row) now
        else if (rr_expiresAt row <=? now)%Z
        then throw (UnauthorizedError invalid_refresh_token)
        else
          tenant ← tenants_findById (ad_tenants deps) (pr_tenantId parsed);
          if negb (bool_decide (tn_status <$> tenant = Some t_active))
          then revoke_and_reject (pr_tenantId parsed) (rr_familyId row) now
          else
            record ← users_findCredentialsById (ad_users deps) (pr_tenantId parsed) (rr_userId row);
            match record with
            | Some (mkAuthRecord uid _ status (Some role)) =>
                if negb (bool_decide (status = js "active"))
                then revoke_and_reject (pr_tenantId parsed) (rr_familyId row) now
                else
                  secret ← secrets_generate (ad_secrets deps);
                  let expiresAt := (now + ad_refreshTtlSeconds deps * 1000)%Z in
                  successor ← refresh_rotate (ad_refreshTokens deps) (pr_tenantId parsed) (rr_id row) now
                    (mkNewRefreshToken (rr_familyId row) (rr_userId row) (sha256 secret) expiresAt);
                  match successor with
                  | None => revoke_and_reject (pr_tenantId parsed) (rr_familyId row) now
                  | Some id =>
                      access ← tokens_issueAccess (ad_tokens deps)
                                 (mkSessionClaims (pr_tenantId parsed) uid role);
                      mret {| st_accessToken := ia_token access;
                              st_refreshToken := assembleRefreshToken (pr_tenantId parsed) id secret;
                              st_expiresIn := ia_expiresInSeconds access;
                              st_tokenType := js "Bearer";
                              st_role := role;
                              st_tenantId := pr_tenantId parsed;
                              st_userId := uid |}
                  end
            | _ => revoke_and_reject (pr_tenantId parsed) (rr_familyId row) now
            end
  end.

Definition logout (rawToken : jsstr) : prog world unit :=
  match parseRefreshToken rawToken with
  | Err _ => mret tt
  | Ok parsed =>
      now ← clock_now (ad_clock deps);
      row ← refresh_findById (ad_refreshTokens deps) (pr_tenantId parsed) (pr_tokenId parsed);
      match row with
      | Some row =>
          if constantTimeEqual (sha256 (pr_secret parsed)) (rr_tokenHash row)
          then refresh_revokeFamily (ad_refreshTokens deps) (pr_tenantId parsed) (rr_familyId row) now
          else mret tt
      | None => mret tt
      end
  end.

End AuthService.

(** The dependencies the composition root wires. *)
Definition pg_auth_deps `{Entropy, Bcrypt, Jose} (cost : Z) (jwt : JoseTokenConfig)
    (refreshTtlSeconds : Z) : AuthDeps :=
  {| ad_tenants := PgTenantRepository.repository;
     ad_users := PgUserRepository.repository;
     ad_refreshTokens := PgRefreshTokenRepository.repository;
     ad_hasher := BcryptHasher cost;
     ad_tokens := JoseTokenService jwt;
     ad_secrets := NodeSecretGenerator;
     ad_ids := NodeIdGenerator;
     ad_clock := SystemClock;
     ad_refreshTtlSeconds := refreshTtlSeconds |}.
