(* ===== verification/Sessions.v ===== *)
(** * Session lifecycle

    What login, refresh and logout of [AuthService] do, over the Postgres
    repositories: who is let in, which rows are written, and how a reused or
    stolen refresh token kills its family — alone and under concurrency. *)

From stdpp Require Import base list option numbers strings gmap relations.
From S2P Require Import Prelude Errors Effects Tokens Rbac Email Entities Ports Uuid Schema World.
From S2P Require Import Sql Demo Integrity Eval PgUsers PgTokens Calls Credentials Adapters AuthService.
Import PgRefreshTokenRepository.

(** ** Specification *)

Section Spec.
Context `{Entropy, Crypto, Unicode, Bcrypt, Jose}.

(** Whom the credentials of [cmd] identify: an active tenant, one of its users by
    normalised email, whose password matches, who is active and has a role. *)
Definition authenticates (d : database) (cmd : LoginCommand) : option (tenants_row * users_row * Role) :=
  t ← tenant_by_slug d (lc_tenantSlug cmd);
  if bool_decide (tr_status t = t_active) then
    u ← user_by_email d (tr_id t) (normalizeEmail (lc_email cmd));
    if bcrypt_compare (lc_password cmd) (ur_password_hash u) && bool_decide (ur_status u = js "active")
    then role ← effective_role d u; Some (t, u, role)
    else None
  else None.

(** What becomes of a presented refresh token. *)
Inductive verdict :=
| Reject                                    (* unknown, wrong secret, or expired *)
| Revoke (family : jsstr)                   (* reuse, or the tenant or user is no longer allowed *)
| Grant (row : refresh_tokens_row) (role : Role).

Definition grants (v : verdict) : bool :=
  match v with Grant _ _ => true | _ => false end.

Definition judge (d : database) (now : date) (t id secret : jsstr) : verdict :=
  match token_of d t id with
  | None => Reject
  | Some row =>
      if negb (constantTimeEqual (sha256 secret) (rtr_token_hash row)) then Reject
      else if negb (is_live row) then Revoke (rtr_family_id row)
      else if (rtr_expires_at row <=? now)%Z then Reject
      else
        match tr_status <$> tenant_by_id d t, user_by_id d t (rtr_user_id row) with
        | Some t_active, Some u =>
            match bool_decide (ur_status u = js "active"), effective_role d u with
            | true, Some role => Grant row role
            | _, _ => Revoke (rtr_family_id row)
            end
        | _, _ => Revoke (rtr_family_id row)
        end
  end.

(** The session of user [u] of tenant [t], with refresh token [id], issued at [now]. *)
Definition session (jwt : JoseTokenConfig) (t : jsstr) (u : jsstr) (role : Role) (id secret : jsstr)
    (now : date) : SessionTokens :=
  {| st_accessToken := jwt_sign (jc_secret jwt) (access_payload jwt (mkSessionClaims t u role) now);
     st_refreshToken := assembleRefreshToken t id secret;
     st_expiresIn := jc_accessTtlSeconds jwt;
     st_tokenType := js "Bearer";
     st_role := role;
     st_tenantId := t;
     st_userId := u |}.

(** Only the random source and the memoised dummy hash differ. *)
Definition quiet (w w' : world) : Prop :=
  w' = set_w_dummy (w_dummy w') (set_w_rand (w_rand w') w).

(** The memoised dummy hash, if computed, did not fail. *)
Definition memo_ok (w : world) : Prop := forall e, w_dummy w <> Some (Err e).

(** The next id of the database's random source is not a refresh token's. *)
Definition fresh_token_id (w : world) : Prop :=
  Forall (fun r => rtr_id r <> pg_uuid (w_pgseq w)) (d_refresh_tokens (w_db w)).

(** The next [k] ids of the database's random source are distinct, and none is a
    refresh token's. *)
Definition fresh_ids (k : nat) (w : world) : Prop := forall n, n < k ->
  Forall (fun r => rtr_id r <> pg_uuid (n + w_pgseq w)) (d_refresh_tokens (w_db w)) /\
  forall m, n < m < k -> pg_uuid (n + w_pgseq w) <> pg_uuid (m + w_pgseq w).

End Spec.

(** * Lemmas *)

Lemma run_draw {A} (f : nat -> A) w :
  run (draw f) w = (Ok (f (w_rand w)), set_w_rand (S (w_rand w)) w).
Proof. done. Qed.

Lemma run_now w : run (clock_now SystemClock) w = (Ok (w_now w), w).
Proof. done. Qed.

Lemma run_issueAccess `{Jose} config claims w :
  run (issueAccess config claims) w =
  (Ok (mkIssuedAccess (jwt_sign (jc_secret config) (access_payload config claims (w_now w)))
         (jc_accessTtlSeconds config)), w).
Proof. done. Qed.

Lemma tenant_exists_in d r : In r (d_tenants d) -> tenant_exists d (tr_id r) = true.
Proof. intros Hr. apply existsb_exists. exists r. split; [done|by apply bool_decide_eq_true]. Qed.

Lemma user_exists_in d r : In r (d_users d) -> user_exists d (ur_tenant_id r) (ur_id r) = true.
Proof. intros Hr. apply existsb_exists. exists r. split; [done|by apply bool_decide_eq_true]. Qed.

Lemma Forall_In {A} (P : A -> Prop) l x : Forall P l -> In x l -> P x.
Proof. rewrite List.Forall_forall. auto. Qed.

Lemma tenant_by_slug_Some d slug r :
  tenant_by_slug d slug = Some r -> In r (d_tenants d) /\ tr_public_id r = slug.
Proof. intros [Hr E]%find_some. by apply bool_decide_eq_true in E. Qed.

Lemma user_by_email_Some d t e r :
  user_by_email d t e = Some r -> In r (d_users d) /\ ur_tenant_id r = t /\ ur_email r = e.
Proof. intros [Hr [E1 E2]%andb_true_iff]%find_some. by rewrite !bool_decide_eq_true in E1, E2. Qed.

Lemma user_by_id_Some d t i r :
  user_by_id d t i = Some r -> In r (d_users d) /\ ur_tenant_id r = t /\ ur_id r = i.
Proof. intros [Hr [E1 E2]%andb_true_iff]%find_some. by rewrite !bool_decide_eq_true in E1, E2. Qed.

Lemma tenant_by_id_Some d i r :
  tenant_by_id d i = Some r -> In r (d_tenants d) /\ tr_id r = i.
Proof. intros [Hr E]%find_some. by apply bool_decide_eq_true in E. Qed.

Lemma tenant_by_id_exists d i r : tenant_by_id d i = Some r -> tenant_exists d i = true.
Proof.
  intros [Hr Hi]%tenant_by_id_Some. apply existsb_exists. exists r. by rewrite bool_decide_eq_true.
Qed.

Lemma tenant_by_id_slug d i r :
  db_ok d -> tenant_by_id d i = Some r -> tenantPublicIdSchema (tr_public_id r) = true.
Proof. intros [[Hc _] _ _ _ _ _ _ _ _ _ _] [Hr _]%tenant_by_id_Some. exact (Forall_In _ _ _ Hc Hr). Qed.

Lemma token_of_Some d t i r :
  token_of d t i = Some r -> In r (d_refresh_tokens d) /\ rtr_tenant_id r = t /\ rtr_id r = i.
Proof. intros [Hr [E1 E2]%andb_true_iff]%find_some. by rewrite !bool_decide_eq_true in E1, E2. Qed.

(** ** Primary keys *)

Lemma find_unique {R} (c : R -> R -> bool) (p : R -> bool) l r :
  conflict_free c l = true -> In r l -> p r = true ->
  (forall a b, p a = true -> p b = true -> c a b = true) -> find p l = Some r.
Proof.
  intros Hcf Hin Hp Hc. induction l as [|a l IH]; [done|]. simpl.
  apply conflict_free_cons in Hcf as [Ha Hl]. destruct Hin as [->|Hin]; [by rewrite Hp|].
  destruct (p a) eqn:Ea; [|auto]. exfalso.
  apply (Forall_In _ _ _ Ha) in Hin. by rewrite Hc in Hin.
Qed.

Lemma user_by_id_in d u :
  db_ok d -> In u (d_users d) -> user_by_id d (ur_tenant_id u) (ur_id u) = Some u.
Proof.
  intros Hok Hin. destruct (to_rows (R := users_row) d Hok) as (_ & Hcf & _).
  eapply find_unique; [exact Hcf|done|by rewrite !bool_decide_eq_true_2|].
  intros a b [_ Ha%bool_decide_eq_true]%andb_true_iff [_ Hb%bool_decide_eq_true]%andb_true_iff.
  simpl. by rewrite bool_decide_eq_true_2 by congruence.
Qed.

Lemma tenant_by_id_in d t : db_ok d -> In t (d_tenants d) -> tenant_by_id d (tr_id t) = Some t.
Proof.
  intros Hok Hin. destruct (ok_tenants d Hok) as [_ Hcf].
  eapply find_unique; [exact Hcf|done|by rewrite bool_decide_eq_true_2|].
  intros a b Ha%bool_decide_eq_true Hb%bool_decide_eq_true. unfold tenants_conflict.
  by rewrite bool_decide_eq_true_2 by congruence.
Qed.

Lemma token_of_in d r :
  db_ok d -> In r (d_refresh_tokens d) -> token_of d (rtr_tenant_id r) (rtr_id r) = Some r.
Proof.
  intros Hok Hin. destruct (to_rows (R := refresh_tokens_row) d Hok) as (_ & Hcf & _).
  eapply find_unique; [exact Hcf|done|by rewrite !bool_decide_eq_true_2|].
  intros a b [_ Ha%bool_decide_eq_true]%andb_true_iff [_ Hb%bool_decide_eq_true]%andb_true_iff.
  simpl. by rewrite bool_decide_eq_true_2 by congruence.
Qed.

Lemma token_unique d t a b :
  db_ok d -> In a (d_refresh_tokens d) -> In b (d_refresh_tokens d) ->
  rtr_tenant_id a = t -> rtr_tenant_id b = t -> rtr_id a = rtr_id b -> a = b.
Proof.
  intros Hok Ha%(token_of_in d) Hb%(token_of_in d) <- Hab Hid; [|done|done]. congruence.
Qed.

Section Login.
Context `{EntropyLaws, CryptoLaws, Unicode, Bcrypt, Jose}.
Context (cost : Z) (jwt : JoseTokenConfig) (ttl : Z).
Abbreviation deps := (pg_auth_deps cost jwt ttl).

Lemma run_dummyHash w :
  memo_ok w -> exists h w', run (dummyHash deps) w = (Ok h, w') /\ quiet w w'.
Proof.
  intros Hm. unfold dummyHash. rewrite run_bind, run_atomic.
  destruct (w_dummy w) as [[h|e]|] eqn:E; [|by destruct (Hm e)|].
  - exists h, w. split; [done|]. by destruct w.
  - eexists _, _. split; [reflexivity|]. by destruct w.
Qed.

Lemma run_verify p h w : run (hasher_verify (ad_hasher deps) p h) w = (Ok (bcrypt_compare p h), w).
Proof. done. Qed.

(** Minting a refresh token for a user of the tenant. *)
Lemma run_mint t u f w :
  is_uuid t = true -> is_uuid u = true -> is_uuid f = true ->
  tenant_exists (w_db w) t = true -> user_exists (w_db w) t u = true -> fresh_token_id w ->
  let secret := node_hex (w_rand w) REFRESH_SECRET_BYTES in
  let id := pg_uuid (w_pgseq w) in
  run (mintRefreshToken deps t u f) w =
  (Ok (assembleRefreshToken t id secret),
   set_db_seq (add_token (new_token id t u f (sha256 secret) (w_dbnow w) (w_now w + ttl * 1000)) (w_db w))
     (S (w_pgseq w)) (set_w_rand (S (w_rand w)) w)).
Proof.
  intros Ht%is_uuid_spec Hu%is_uuid_spec Hf%is_uuid_spec Hte Hue Hfr secret id.
  unfold mintRefreshToken. rewrite run_bind.
  change (run (secrets_generate (ad_secrets deps)) w) with (Ok (A := jsstr) (E := exn) secret, set_w_rand (S (w_rand w)) w).
  cbn match. rewrite run_bind. rewrite run_now. cbn match. rewrite run_bind.
  change (refresh_create (ad_refreshTokens deps)) with PgRefreshTokenRepository.create.
  rewrite (run_token_create t t u u f f); try done. apply sha256_length.
Qed.

(** The state after a login of [u] in tenant [t]. *)
Definition logged_in (t u : jsstr) (w : world) : world :=
  set_db_seq
    (add_token (new_token (pg_uuid (w_pgseq w)) t u (node_uuid (w_rand w))
                  (sha256 (node_hex (S (w_rand w)) REFRESH_SECRET_BYTES)) (w_dbnow w)
                  (w_now w + ttl * 1000)) (w_db w))
    (S (w_pgseq w)) (set_w_rand (S (S (w_rand w))) w).

Lemma run_login_ok cmd w t u role :
  uuid_columns (w_db w) -> fresh_token_id w ->
  authenticates (w_db w) cmd = Some (t, u, role) ->
  run (login deps cmd) w =
  (Ok (session jwt (tr_id t) (ur_id u) role (pg_uuid (w_pgseq w))
         (node_hex (S (w_rand w)) REFRESH_SECRET_BYTES) (w_now w)),
   logged_in (tr_id t) (ur_id u) w).
Proof.
  intros (HT & HU & _) Hfr Ha. unfold authenticates in Ha.
  destruct (tenant_by_slug _ _) as [t'|] eqn:Et; simpl in Ha; [|done].
  case_bool_decide as Hact; [|done].
  destruct (user_by_email _ _ _) as [u'|] eqn:Eu; simpl in Ha; [|done].
  destruct (bcrypt_compare _ _) eqn:Ep; simpl in Ha; [|done].
  case_bool_decide as Hst; [|done].
  destruct (effective_role _ _) as [role'|] eqn:Er; simpl in Ha; [|done].
  injection Ha as -> -> ->.
  apply tenant_by_slug_Some in Et as Ht. destruct Ht as [Htin _].
  apply user_by_email_Some in Eu as Hu. destruct Hu as (Huin & Hut & _).
  pose proof (Forall_In _ _ _ HT Htin) as Htu. destruct (Forall_In _ _ _ HU Huin) as [Huu _].
  unfold login. rewrite run_bind. change (run (tenants_findByPublicId _ _) w) with
    (run (PgTenantRepository.findByPublicId (lc_tenantSlug cmd)) w).
  rewrite run_tenants_findByPublicId, Et. cbn [fmap option_fmap option_map tn_status PgTenantRepository.toTenant].
  rewrite (bool_decide_eq_true_2 _ Hact), run_bind.
  change (users_findCredentialsByEmail (ad_users deps)) with PgUserRepository.findCredentialsByEmail.
  rewrite (run_credentials_by_email _ (tr_id t)) by by apply is_uuid_spec.
  rewrite Eu. cbn [fmap option_fmap option_map]. rewrite run_bind. cbn [run mret prog_ret].
  rewrite run_bind, run_verify. cbn [au_passwordHash auth_record au_status au_role].
  rewrite Ep, (bool_decide_eq_true_2 _ Hst), Er. cbn match.
  rewrite run_bind. change (run (ids_uuid (ad_ids deps)) w) with
    (Ok (E := exn) (node_uuid (w_rand w)), set_w_rand (S (w_rand w)) w). cbn match.
  rewrite run_bind. cbn [tn_id au_id PgTenantRepository.toTenant auth_record]. rewrite run_mint; try done.
  - apply node_uuid_form.
  - by apply tenant_exists_in.
  - rewrite <-Hut. by apply user_exists_in.
Qed.

Lemma run_login_bad cmd w :
  uuid_columns (w_db w) -> memo_ok w -> authenticates (w_db w) cmd = None ->
  exists w', run (login deps cmd) w = (Err (UnauthorizedError invalid_credentials), w') /\ quiet w w'.
Proof.
  intros (HT & _ & _) Hm Ha. unfold authenticates in Ha. unfold login. rewrite run_bind.
  change (run (tenants_findByPublicId _ _) w) with
    (run (PgTenantRepository.findByPublicId (lc_tenantSlug cmd)) w).
  rewrite run_tenants_findByPublicId.
  destruct (run_dummyHash w Hm) as (h & w' & Hr & Hq).
  destruct (tenant_by_slug _ _) as [t|] eqn:Et;
    cbn [fmap option_fmap option_map tn_status PgTenantRepository.toTenant].
  2: { exists w'. rewrite run_bind. cbn [run mret prog_ret]. rewrite run_bind, Hr. by rewrite run_bind, run_verify. }
  simpl in Ha. case_bool_decide as Hact.
  2: { exists w'. rewrite run_bind. cbn [run mret prog_ret]. rewrite run_bind, Hr. by rewrite run_bind, run_verify. }
  rewrite run_bind. change (users_findCredentialsByEmail (ad_users deps)) with PgUserRepository.findCredentialsByEmail.
  apply tenant_by_slug_Some in Et as [Htin _].
  rewrite (run_credentials_by_email _ (tr_id t)) by by apply is_uuid_spec, (Forall_In _ _ _ HT Htin).
  destruct (user_by_email _ _ _) as [u|] eqn:Eu; cbn [fmap option_fmap option_map].
  2: { exists w'. rewrite run_bind, Hr. by rewrite run_bind, run_verify. }
  exists w. split; [|by destruct w]. rewrite run_bind. cbn [run mret prog_ret].
  rewrite run_bind, run_verify. simpl in Ha. cbn [au_passwordHash auth_record au_status au_role].
  destruct (bcrypt_compare _ _); [|done]. destruct (bool_decide (ur_status u = _)); [|done].
  by destruct (effective_role _ _).
Qed.

End Login.

Section Refresh.
Context `{EntropyLaws, CryptoLaws, Unicode, Bcrypt, Jose}.
Context (cost : Z) (jwt : JoseTokenConfig) (ttl : Z).
Abbreviation deps := (pg_auth_deps cost jwt ttl).
Abbreviation rejected := (Err (UnauthorizedError invalid_refresh_token)).

(** The state after a family is revoked. *)
Definition family_revoked (t f : jsstr) (w : world) : world :=
  set_db_seq (revoke_family t f (w_now w) (w_db w)) (w_pgseq w) w.

(** The state after the live token [row] is exchanged for its successor. *)
Definition rotated (row : refresh_tokens_row) (w : world) : world :=
  set_db_seq
    (add_token
       (new_token (pg_uuid (w_pgseq w)) (rtr_tenant_id row) (rtr_user_id row) (rtr_family_id row)
          (sha256 (node_hex (w_rand w) REFRESH_SECRET_BYTES)) (w_dbnow w) (w_now w + ttl * 1000))
       (rotate_db (rtr_tenant_id row) (rtr_id row) (w_now w) (w_db w)))
    (S (w_pgseq w)) (set_w_rand (S (w_rand w)) w).

Lemma run_revoke_and_reject t u f w :
  uuid_in t = Some u -> is_uuid f = true -> db_ok (w_db w) ->
  run (revoke_and_reject deps t f (w_now w)) w = (rejected, family_revoked u f w).
Proof.
  intros Hu Hf%is_uuid_spec Hok. unfold revoke_and_reject. rewrite run_bind.
  change (refresh_revokeFamily (ad_refreshTokens deps)) with revokeFamily.
  by rewrite (run_revokeFamily t u f f).
Qed.

(** A token of the tenant that is live is the one a rotation consumes. *)
Lemma token_of_live d t i r : token_of d t i = Some r -> is_live r = true -> is_Some (live_token d t i).
Proof.
  intros (Hin & Ht & Hi)%token_of_Some Hl. destruct (live_token d t i) eqn:E; [done|].
  unfold live_token in E. eapply find_none in E; [|exact Hin]. simpl in E.
  rewrite (bool_decide_eq_true_2 _ Ht), (bool_decide_eq_true_2 _ Hi), Hl in E. done.
Qed.

Lemma token_owner d r :
  db_ok d -> In r (d_refresh_tokens d) ->
  tenant_exists d (rtr_tenant_id r) = true /\ user_exists d (rtr_tenant_id r) (rtr_user_id r) = true.
Proof.
  intros Hok Hin. destruct (to_rows (R := refresh_tokens_row) d Hok) as (_ & _ & Hr).
  apply (Forall_In _ _ _ Hr) in Hin. by apply andb_true_iff in Hin.
Qed.

Lemma run_rotated t u row w :
  uuid_in t = Some u -> db_ok (w_db w) -> fresh_token_id w -> typed_token row ->
  token_of (w_db w) u (rtr_id row) = Some row -> is_live row = true ->
  let secret := node_hex (w_rand w) REFRESH_SECRET_BYTES in
  run (refresh_rotate (ad_refreshTokens deps) t (rtr_id row) (w_now w)
         (mkNewRefreshToken (rtr_family_id row) (rtr_user_id row) (sha256 secret)
            (w_now w + ttl * 1000))) (set_w_rand (S (w_rand w)) w)
  = (Ok (Some (pg_uuid (w_pgseq w))), rotated row w).
Proof.
  intros Hu Hok Hfr (Hi & _ & Hv & Hf) Hrow Hlive secret. rewrite is_uuid_spec in *.
  apply token_of_Some in Hrow as Hr. destruct Hr as (Hin & <- & _).
  destruct (token_owner _ _ Hok Hin).
  change (refresh_rotate (ad_refreshTokens deps)) with rotate.
  rewrite (run_rotate_hit t (rtr_tenant_id row) (rtr_id row) (rtr_id row) (w_now w) (rtr_user_id row)
             (rtr_user_id row) (rtr_family_id row) (rtr_family_id row)); try done.
  - apply sha256_length.
  - by eapply token_of_live.
Qed.

Definition refresh_outcome (t : jsstr) (u : jsstr) (v : verdict) (w : world)
    : result exn SessionTokens * world :=
  match v with
  | Reject => (rejected, w)
  | Revoke f => (rejected, family_revoked u f w)
  | Grant row role =>
      (Ok (session jwt t (rtr_user_id row) role (pg_uuid (w_pgseq w))
             (node_hex (w_rand w) REFRESH_SECRET_BYTES) (w_now w)), rotated row w)
  end.

Lemma run_refresh raw p u i w :
  parseRefreshToken raw = Ok p ->
  uuid_in (pr_tenantId p) = Some u -> uuid_in (pr_tokenId p) = Some i ->
  db_ok (w_db w) -> uuid_columns (w_db w) ->
  (grants (judge (w_db w) (w_now w) u i (pr_secret p)) = true -> fresh_token_id w) ->
  run (refresh deps raw) w =
  refresh_outcome (pr_tenantId p) u (judge (w_db w) (w_now w) u i (pr_secret p)) w.
Proof.
  intros Hp Hu Hi Hok (HT & HU & HK) Hfr. unfold refresh, safeParse. rewrite Hp, run_bind.
  cbn [run]. rewrite run_bind. change (refresh_findById (ad_refreshTokens deps)) with findById.
  rewrite (run_token_findById _ u _ i) by done. unfold judge in *.
  destruct (token_of _ _ _) as [row|] eqn:Erow; cbn [fmap option_fmap option_map]; [|done].
  apply token_of_Some in Erow as Hrow. destruct Hrow as (Hin & Ht & Hid).
  pose proof (Forall_In _ _ _ HK Hin) as Hty. pose proof Hty as (_ & _ & Huid & Hfam).
  cbn [rr_tokenHash rr_revokedAt rr_rotatedAt rr_expiresAt rr_familyId rr_userId rr_id toRow].
  destruct (constantTimeEqual _ _); cbn [negb] in *; [|done].
  rewrite run_bind. change (run (clock_now (ad_clock deps)) w) with (Ok (E := exn) (w_now w), w).
  cbn match.
  replace (bool_decide (rtr_revoked_at row <> None) || bool_decide (rtr_rotated_at row <> None))
    with (negb (is_live row)).
  2: { unfold is_live. by destruct (rtr_revoked_at row), (rtr_rotated_at row). }
  destruct (is_live row) eqn:Elive; cbn [negb]; [|by apply run_revoke_and_reject].
  cbn [negb] in Hfr. destruct (_ <=? _)%Z; [done|]. rewrite run_bind.
  change (tenants_findById (ad_tenants deps)) with PgTenantRepository.findById.
  rewrite (run_tenants_findById _ u) by done.
  destruct (tenant_by_id _ _) as [tn|]; cbn [fmap option_fmap option_map] in *.
  2: { by apply run_revoke_and_reject. }
  cbn [tn_status PgTenantRepository.toTenant].
  destruct (tr_status tn); try (by apply run_revoke_and_reject).
  change (bool_decide (Some t_active = Some t_active)) with true. cbn [negb]. rewrite run_bind.
  change (users_findCredentialsById (ad_users deps)) with PgUserRepository.findCredentialsById.
  rewrite (run_credentials_by_id _ u _ (rtr_user_id row)) by (done || by apply is_uuid_spec).
  destruct (user_by_id _ _ _) as [us|] eqn:Eus; cbn [fmap option_fmap option_map].
  2: { by apply run_revoke_and_reject. }
  apply user_by_id_Some in Eus as (_ & _ & Eid). unfold auth_record.
  destruct (effective_role _ _) as [role|]; cbn match.
  2: { destruct (bool_decide (ur_status us = _)); by apply run_revoke_and_reject. }
  destruct (bool_decide (ur_status us = _)); cbn [negb]; [|by apply run_revoke_and_reject].
  specialize (Hfr eq_refl).
  rewrite run_bind. change (run (secrets_generate (ad_secrets deps)) w) with
    (Ok (E := exn) (node_hex (w_rand w) REFRESH_SECRET_BYTES), set_w_rand (S (w_rand w)) w). cbn match.
  rewrite run_bind, (run_rotated _ u) by (done || by rewrite Hid). cbn match.
  rewrite Eid. by rewrite run_bind.
Qed.

(** *** Dead families *)

Lemma judge_grant d now t i secret row role :
  judge d now t i secret = Grant row role -> token_of d t i = Some row /\ is_live row = true.
Proof.
  unfold judge. destruct (token_of d t i) as [r|]; [|done].
  destruct (constantTimeEqual _ _), (is_live r) eqn:E, (_ <=? _)%Z; simpl; try done.
  intros Hg. by repeat (case_match; simplify_eq/=).
Qed.

Lemma dead_refused raw p u i w :
  parseRefreshToken raw = Ok p ->
  uuid_in (pr_tenantId p) = Some u -> uuid_in (pr_tokenId p) = Some i ->
  db_ok (w_db w) -> uuid_columns (w_db w) -> live_token (w_db w) u i = None ->
  (run (refresh deps raw) w).1 = rejected.
Proof.
  intros Hp Hu Hi Hok Hty Hdead.
  assert (Hng : grants (judge (w_db w) (w_now w) u i (pr_secret p)) = false).
  { destruct (judge _ _ _ _ _) as [| |row role] eqn:E; try done.
    apply judge_grant in E as [Ht Hl]. destruct (token_of_live _ _ _ _ Ht Hl). congruence. }
  rewrite (run_refresh raw p u i) by (done || by rewrite Hng).
  by destruct (judge _ _ _ _ _).
Qed.

Lemma family_revoked_dead t f r w :
  db_ok (w_db w) -> In r (d_refresh_tokens (w_db w)) -> rtr_tenant_id r = t -> rtr_family_id r = f ->
  live_token (w_db (family_revoked t f w)) t (rtr_id r) = None.
Proof.
  intros Hok Hr Ht Hf. apply live_token_dead. simpl. apply Forall_map, List.Forall_forall.
  intros x Hx Hxt Hxi. unfold revoke_in in *.
  assert (Heq : x = r).
  { eapply (token_unique (w_db w) t); try done; destruct (_ && _) in Hxt, Hxi; done. }
  subst x. clear Hxt Hxi. rewrite (bool_decide_eq_true_2 _ Ht), (bool_decide_eq_true_2 _ Hf). simpl.
  case_bool_decide as Hrev; [apply is_live_revoked|]. unfold is_live.
  by rewrite (bool_decide_eq_false_2 _ Hrev), andb_false_r.
Qed.

Lemma family_revoked_busy t f w :
  is_uuid t = true -> is_uuid f = true -> db_ok (w_db w) -> busy_env w (family_revoked t f w).
Proof.
  intros Ht%is_uuid_spec Hf%is_uuid_spec Hok.
  pose proof (busy_call w (RefreshRevokeFamily t f (w_now w))) as Hb.
  cbn [perform] in Hb. by rewrite (run_revokeFamily t t f f) in Hb.
Qed.

(** Once its family is revoked, a token is refused forever. *)
Lemma family_dead_forever t f r w w' raw p :
  db_ok (w_db w) -> uuid_columns (w_db w) ->
  In r (d_refresh_tokens (w_db w)) -> rtr_tenant_id r = t -> rtr_family_id r = f ->
  never_drawn (rtr_id r) (w_pgseq w) ->
  rtc busy_env (family_revoked t f w) w' ->
  parseRefreshToken raw = Ok p ->
  uuid_in (pr_tenantId p) = Some t -> uuid_in (pr_tokenId p) = Some (rtr_id r) ->
  (run (refresh deps raw) w').1 = rejected.
Proof.
  intros Hok Hty Hr Ht Hf Hn Hsteps Hp Hpt Hpi.
  assert (Hb : busy_env w (family_revoked t f w)).
  { destruct Hty as (_ & _ & HK). destruct (Forall_In _ _ _ HK Hr) as (_ & ? & _ & ?).
    apply family_revoked_busy; congruence. }
  apply (db_ok_busy _ _ Hb) in Hok as Hok1. apply (uuid_columns_busy _ _ Hb) in Hty as Hty1.
  pose proof (family_revoked_dead t f r w Hok Hr Ht Hf) as Hdead.
  assert (Hn1 : never_drawn (rtr_id r) (w_pgseq (family_revoked t f w))) by done.
  clear Hb Hok Hty Hn. induction Hsteps as [w1|w1 w2 w' Hs _ IH].
  - by eapply dead_refused.
  - destruct (dead_token_busy t _ _ _ Hs Hn1 Hdead). apply IH; try done.
    + by eapply db_ok_busy.
    + by eapply uuid_columns_busy.
Qed.

(** *** After a login *)

Lemma authenticates_Some d cmd t u role :
  authenticates d cmd = Some (t, u, role) ->
  In t (d_tenants d) /\ tr_public_id t = lc_tenantSlug cmd /\ tr_status t = t_active /\
  In u (d_users d) /\ ur_tenant_id u = tr_id t /\ ur_status u = js "active" /\
  effective_role d u = Some role.
Proof.
  unfold authenticates. intros Ha.
  destruct (tenant_by_slug _ _) as [t'|] eqn:Et; simpl in Ha; [|done].
  case_bool_decide; [|done]. destruct (user_by_email _ _ _) as [u'|] eqn:Eu; simpl in Ha; [|done].
  destruct (bcrypt_compare _ _); simpl in Ha; [|done]. case_bool_decide; [|done].
  destruct (effective_role d u') as [r|] eqn:Er; simplify_eq/=.
  apply tenant_by_slug_Some in Et as [? ?]. apply user_by_email_Some in Eu as (? & ? & ?). auto 10.
Qed.

Lemma logged_in_sound t u w :
  In t (d_tenants (w_db w)) -> In u (d_users (w_db w)) -> ur_tenant_id u = tr_id t ->
  db_ok (w_db w) -> uuid_columns (w_db w) -> fresh_token_id w ->
  db_ok (w_db (logged_in ttl (tr_id t) (ur_id u) w)) /\
  uuid_columns (w_db (logged_in ttl (tr_id t) (ur_id u) w)).
Proof.
  intros Ht Hu Hut Hok Hty Hfr. pose proof Hty as (HT & HU & _).
  pose proof (Forall_In _ _ _ HT Ht) as Htu. destruct (Forall_In _ _ _ HU Hu) as [Huu _].
  pose proof (busy_call w (RefreshCreate (tr_id t) (mkNewRefreshToken (node_uuid (w_rand w)) (ur_id u)
    (sha256 (node_hex (S (w_rand w)) REFRESH_SECRET_BYTES)) (w_now w + ttl * 1000)))) as Hb.
  cbn [perform] in Hb.
  rewrite (run_token_create (tr_id t) (tr_id t) (ur_id u) (ur_id u) (node_uuid (w_rand w))
             (node_uuid (w_rand w))) in Hb; try (by apply is_uuid_spec).
  - split; [by apply (db_ok_busy _ _ Hb)|by apply (uuid_columns_busy _ _ Hb)].
  - apply is_uuid_spec, node_uuid_form.
  - apply sha256_length.
  - by apply tenant_exists_in.
  - rewrite <-Hut. by apply user_exists_in.
  - done.
Qed.

Lemma fresh_ids_token k w : fresh_ids (S k) w -> fresh_token_id w.
Proof. intros Hf. destruct (Hf 0) as [Hf0 _]; [lia|done]. Qed.

Lemma fresh_ids_after_login k t u w : fresh_ids (S k) w -> fresh_ids k (logged_in ttl t u w).
Proof.
  intros Hf n Hn. destruct (Hf (S n)) as [Hr Hd]; [lia|]. simpl. rewrite Nat.add_succ_r. split.
  - apply Forall_app. split; [done|]. constructor; [|done]. simpl.
    destruct (Hf 0) as [_ Hz]; [lia|]. apply (Hz (S n)). lia.
  - intros m Hm. rewrite Nat.add_succ_r. apply (Hd (S m)). lia.
Qed.

Lemma judge_logged_in t u role secret now w :
  In t (d_tenants (w_db w)) -> tr_status t = t_active -> In u (d_users (w_db w)) ->
  ur_tenant_id u = tr_id t -> ur_status u = js "active" -> effective_role (w_db w) u = Some role ->
  db_ok (w_db w) -> db_ok (w_db (logged_in ttl (tr_id t) (ur_id u) w)) ->
  secret = node_hex (S (w_rand w)) REFRESH_SECRET_BYTES -> (now < w_now w + ttl * 1000)%Z ->
  exists row,
    judge (w_db (logged_in ttl (tr_id t) (ur_id u) w)) now (tr_id t) (pg_uuid (w_pgseq w)) secret
      = Grant row role /\ rtr_user_id row = ur_id u.
Proof.
  intros Ht Hact Hu Hut Hst Hrole Hok Hok' -> Hnow. eexists. split; [|shelve]. unfold judge.
  set (d := w_db (logged_in _ _ _ _)).
  match goal with |- context [token_of d ?t0 ?i0] =>
    pose proof (token_of_in d (new_token i0 t0 (ur_id u) (node_uuid (w_rand w))
      (sha256 (node_hex (S (w_rand w)) REFRESH_SECRET_BYTES)) (w_dbnow w) (w_now w + ttl * 1000)) Hok')
      as Htok end.
  simpl in Htok. rewrite Htok by (apply in_app_iff; right; by left).
  cbn [rtr_token_hash rtr_expires_at rtr_user_id new_token].
  rewrite (proj2 (constantTimeEqual_spec _ _) eq_refl). cbn [negb is_live].
  change (is_live _) with true. cbn [negb].
  destruct (Z.leb_spec (w_now w + ttl * 1000) now); [lia|].
  change (tenant_by_id d) with (tenant_by_id (w_db w)).
  change (user_by_id d) with (user_by_id (w_db w)).
  change (effective_role d) with (effective_role (w_db w)).
  rewrite (tenant_by_id_in (w_db w) t) by done. cbn [fmap option_fmap option_map]. rewrite Hact.
  rewrite <-Hut, (user_by_id_in (w_db w) u) by done.
  rewrite (bool_decide_eq_true_2 _ Hst), Hrole. reflexivity.
  Unshelve. done.
Qed.

Lemma refresh_after_login t u role dt dt' w :
  In t (d_tenants (w_db w)) -> tr_status t = t_active -> In u (d_users (w_db w)) ->
  ur_tenant_id u = tr_id t -> ur_status u = js "active" -> effective_role (w_db w) u = Some role ->
  db_ok (w_db w) -> uuid_columns (w_db w) -> fresh_ids 2 w -> (0 <= dt' < ttl * 1000)%Z ->
  let w1 := advance dt dt' (logged_in ttl (tr_id t) (ur_id u) w) in
  exists row,
    rtr_user_id row = ur_id u /\
    run (refresh deps (assembleRefreshToken (tr_id t) (pg_uuid (w_pgseq w))
                         (node_hex (S (w_rand w)) REFRESH_SECRET_BYTES))) w1
    = refresh_outcome (tr_id t) (tr_id t) (Grant row role) w1.
Proof.
  intros Ht Hact Hu Hut Hst Hrole Hok Hty Hnr Hdt w1. pose proof Hty as (HT & _ & _).
  pose proof (Forall_In _ _ _ HT Ht) as Htu.
  destruct (logged_in_sound t u w) as [Hok1 Hty1]; try done; [by eapply fresh_ids_token|].
  destruct (judge_logged_in t u role (node_hex (S (w_rand w)) REFRESH_SECRET_BYTES)
              (w_now w + dt') w) as (row & Hj & Hrow); try done; [lia|].
  exists row. split; [done|]. rewrite <-Hj.
  refine (run_refresh _ (mkParsedRefreshToken (tr_id t) (pg_uuid (w_pgseq w))
            (node_hex (S (w_rand w)) REFRESH_SECRET_BYTES)) (tr_id t) (pg_uuid (w_pgseq w)) w1
            _ _ _ Hok1 Hty1 _).
  - apply parseRefreshToken_Ok. cbn [pr_tenantId pr_tokenId pr_secret].
    destruct (is_uuid_component _ Htu), (is_uuid_component _ (pg_uuid_form (w_pgseq w))).
    split_and!; try done. intros E. pose proof (node_hex_length (S (w_rand w)) REFRESH_SECRET_BYTES) as Hl.
    by rewrite E in Hl.
  - by apply is_uuid_spec.
  - apply is_uuid_spec, pg_uuid_form.
  - intros _. apply (fresh_ids_token 0 (logged_in ttl (tr_id t) (ur_id u) w)), fresh_ids_after_login, Hnr.
Qed.

(** *** Logout *)

Lemma run_logout raw p u i w :
  parseRefreshToken raw = Ok p ->
  uuid_in (pr_tenantId p) = Some u -> uuid_in (pr_tokenId p) = Some i ->
  db_ok (w_db w) -> uuid_columns (w_db w) ->
  run (logout deps raw) w =
  (Ok tt, match token_of (w_db w) u i with
          | Some row => if constantTimeEqual (sha256 (pr_secret p)) (rtr_token_hash row)
                        then family_revoked u (rtr_family_id row) w else w
          | None => w
          end).
Proof.
  intros Hp Hu Hi Hok (_ & _ & HK). unfold logout. rewrite Hp, run_bind.
  change (run (clock_now (ad_clock deps)) w) with (Ok (E := exn) (w_now w), w). cbn match.
  rewrite run_bind. change (refresh_findById (ad_refreshTokens deps)) with findById.
  rewrite (run_token_findById _ u _ i) by done.
  destruct (token_of _ _ _) as [row|] eqn:Erow; cbn [fmap option_fmap option_map]; [|done].
  cbn [rr_tokenHash rr_familyId toRow]. destruct (constantTimeEqual _ _); [|done].
  apply token_of_Some in Erow as (Hin & _ & _). destruct (Forall_In _ _ _ HK Hin) as (_ & _ & _ & Hf).
  change (refresh_revokeFamily (ad_refreshTokens deps)) with revokeFamily.
  by rewrite (run_revokeFamily _ u _ (rtr_family_id row)) by (done || by apply is_uuid_spec).
Qed.

(** Revoking a revoked family changes nothing. *)
Lemma revoke_family_idem t f now now' d :
  revoke_family t f now' (revoke_family t f now d) = revoke_family t f now d.
Proof.
  unfold revoke_family, set_refresh_tokens. simpl. f_equal. rewrite map_map. apply map_ext. intros r. unfold revoke_in.
  destruct (bool_decide (rtr_tenant_id r = t) && _) eqn:E; [|by rewrite E].
  simpl. by rewrite !andb_false_r.
Qed.

(** An id that is not a UUID is an error of the database, in both operations. *)
Lemma run_bad_ids raw p w :
  parseRefreshToken raw = Ok p ->
  uuid_in (pr_tenantId p) = None \/ uuid_in (pr_tokenId p) = None ->
  run (findById (pr_tenantId p) (pr_tokenId p)) w = (Err (EPg pg_invalid_text_representation), w).
Proof.
  intros Hp [Hb|Hb]; [|by apply run_token_findById_bad].
  apply run_token_findById_bad_tenant; [done|]. by apply parseRefreshToken_Ok in Hp as (_ & ? & _).
Qed.

End Refresh.

(** ** Concurrent presentations of one token *)

Section Race.
Context `{EntropyLaws, CryptoLaws, Unicode, Bcrypt, Jose}.
Context (cost : Z) (jwt : JoseTokenConfig) (ttl : Z).
Abbreviation deps := (pg_auth_deps cost jwt ttl).
Context (t u id i : jsstr) (Hu : uuid_in t = Some u) (Hi : uuid_in id = Some i).

Let I (w : world) : Prop := db_ok (w_db w) /\ never_drawn i (w_pgseq w).
Let G (w : world) : bool := bool_decide (is_Some (live_token (w_db w) u i)).

Lemma busy_no_release w w' : I w -> busy_env w w' -> no_release I G w w'.
Proof.
  intros [Hok Hn] Hb. split; [split; [by eapply db_ok_busy|]|].
  - destruct Hb as [? ? []|? A c]; [done|].
    destruct (watch_call i any_row any_row any_row any_row (fun _ => True)) with (w := w) (c := c) as (? & _); try done.
    + by destruct c.
    + split_and!; try done; apply any_rows.
  - unfold G. rewrite !bool_decide_eq_false, <-!eq_None_not_Some. intros Hd.
    by destruct (dead_token_busy u i _ _ Hb Hn Hd).
Qed.

(** A step that is one repository call. *)
Lemma spec_call_step {X} (op : world -> result exn X * world) (Q : result exn X -> Prop) :
  (forall w, busy_env w (op w).2) -> (forall w, Q (op w).1) -> Q (Err EInfra) ->
  spec I (no_release I G) (atomic op) Q.
Proof. intros Hb Hq He. apply spec_atomic; [|done]. intros w Hw. split; [by apply busy_no_release|done]. Qed.

Lemma spec_local_step {X} (op : world -> result exn X * world) (Q : result exn X -> Prop) :
  (forall w, w_db (op w).2 = w_db w /\ w_pgseq (op w).2 = w_pgseq w) ->
  (forall w, Q (op w).1) -> Q (Err EInfra) ->
  spec I (no_release I G) (atomic op) Q.
Proof.
  intros Hb Hq He. apply spec_atomic; [|done]. intros w Hw. split; [|done].
  destruct (Hb w) as [Hd Hs]. unfold no_release, I, G in *. by rewrite Hd, Hs.
Qed.

Lemma spec_revoke_and_reject f now (Q : result exn SessionTokens -> Prop) :
  (forall e, Q (Err e)) -> spec I (no_release I G) (revoke_and_reject deps t f now) Q.
Proof.
  intros Hq. unfold revoke_and_reject. apply spec_bind. eapply spec_call_step; [| |done].
  - intros w. pose proof (busy_call w (RefreshRevokeFamily t f now)) as Hb. cbn [perform] in Hb.
    unfold revokeFamily in Hb. by rewrite run_withTenantTx in Hb.
  - intros w. destruct (run_tx _ _ _) as [[[]|e] w']; simpl; auto.
Qed.

(** The rotation: it succeeds only by consuming the live row. *)
Lemma rotate_takes now s w :
  I w ->
  match run (rotate t i now s) w with
  | (Ok (Some _), w') => G w = true /\ G w' = false
  | _ => True
  end.
Proof.
  intros [Hok Hn]. apply uuid_in_canonical in Hi as Hii.
  destruct (live_token (w_db w) u i) as [row|] eqn:El; [|by rewrite (run_rotate_miss t u i i)].
  unfold rotate, uuid_param. rewrite Hii, bind_Ok. unfold withTenantTx. rewrite run_atomic.
  unfold run_tx, mbind at 1, txM_bind at 1.
  destruct (eval_consume w t u i i now Hu Hii Hok) as (rows & -> & Hrows).
  destruct rows as [|r rows]; [done|].
  set (st1 := tx_set_db _ _).
  pose proof (insert_token_dead t u i s st1 eq_refl eq_refl eq_refl Hn) as Hins.
  unfold mbind, txM_bind. destruct (insert_token t s st1) as [[row'|e] st'] eqn:E; [|done].
  destruct Hins as [Hd Ha].
  { apply live_token_dead. simpl. apply Forall_map, Forall_true. intros x Hx Hxi.
    unfold rotate_in in *. destruct (_ && _) eqn:Ex in |- *; [done|].
    rewrite Ex in Hx, Hxi. rewrite (bool_decide_eq_true_2 _ Hx), (bool_decide_eq_true_2 _ Hxi) in Ex.
    by destruct (is_live x). }
  simpl. rewrite Ha by done. unfold G. rewrite El. simpl. by rewrite Hd.
Qed.

Lemma spec_findById :
  spec I (no_release I G) (findById t id)
    (fun r => match r with Ok (Some row) => rr_id row = i | _ => True end).
Proof.
  unfold findById at 1, withTenantTx. eapply spec_call_step; [| |done].
  - intros w. pose proof (busy_call w (RefreshFindById t id)) as Hb. cbn [perform] in Hb.
    unfold findById in Hb. by rewrite run_withTenantTx in Hb.
  - intros w. pose proof (run_token_findById t u id i w Hu Hi) as Hr. unfold findById in Hr.
    rewrite run_withTenantTx in Hr. rewrite Hr. simpl.
    destruct (token_of _ _ _) as [row|] eqn:E; [|done]. by apply token_of_Some in E as (_ & _ & ?).
Qed.

Lemma spec_findTenant :
  spec I (no_release I G) (PgTenantRepository.findById t) (fun _ => True).
Proof.
  apply spec_map. eapply spec_call_step; [|done|done].
  intros w. pose proof (busy_call w (TenantsFindById t)) as Hb. cbn [perform] in Hb.
  unfold PgTenantRepository.findById in Hb. rewrite run_bind in Hb.
  unfold pool_query in Hb. rewrite run_atomic in Hb. by destruct (run_tx _ _ _) as [[]].
Qed.

Lemma spec_findCredentials v :
  spec I (no_release I G) (PgUserRepository.findCredentialsById t v) (fun _ => True).
Proof.
  eapply spec_call_step; [|done|done].
  intros w. pose proof (busy_call w (UsersCredentialsById t v)) as Hb. cbn [perform] in Hb.
  unfold PgUserRepository.findCredentialsById in Hb. by rewrite run_withTenantTx in Hb.
Qed.

Lemma claims_rotate {B} now s (f : option jsstr -> prog world B) :
  (forall x, spec I (no_release I G) (f x) (fun _ => True)) -> claims I G (fun _ => true) (f None) ->
  claims I G (fun _ => true) (rotate t i now s ≫= f).
Proof.
  intros Hf Hn. apply claims_step. intros w Hw.
  pose proof (busy_call w (RefreshRotate t i now s)) as Hb.
  pose proof (rotate_takes now s w Hw) as Ht. cbn [perform] in Hb. unfold rotate in Hb, Ht.
  rewrite run_withTenantTx in Hb, Ht. split; [by apply busy_no_release|].
  destruct (run_tx _ _ _) as [[[x|]|e] w']; [|by right|done]. left. by destruct Ht.
Qed.

Lemma claims_refresh raw p :
  parseRefreshToken raw = Ok p -> pr_tenantId p = t -> pr_tokenId p = id ->
  claims I G (fun _ => true) (refresh deps raw).
Proof.
  intros Hp Ht Hid. unfold refresh, safeParse. rewrite Hp.
  assert (Hrev : forall f now, claims I G (fun _ => true) (revoke_and_reject deps t f now)).
  { intros f now. apply claims_spec. by apply spec_revoke_and_reject. }
  rewrite bind_Ret_Ok. change (refresh_findById (ad_refreshTokens deps)) with findById.
  rewrite Hid, Ht. apply claims_bind. eapply spec_mono; [apply spec_findById|].
  intros [[row|]|e] Hrow; [|done|done]. destruct (negb _); [done|].
  apply claims_bind, spec_local_step; [done| |done]. intros w. cbn beta iota delta [fst].
  destruct (_ || _); [apply Hrev|]. destruct (_ <=? _)%Z; [done|].
  apply claims_bind. eapply spec_mono; [apply spec_findTenant|].
  intros [tn|e] _; [|done]. destruct (negb _); [apply Hrev|].
  apply claims_bind. eapply spec_mono; [apply spec_findCredentials|].
  intros [[[uid ph status [role|]]|]|e] _; [|apply Hrev|apply Hrev|done].
  destruct (negb _); [apply Hrev|].
  apply claims_bind, spec_local_step; [done| |done]. intros w'. cbn beta iota delta [fst].
  rewrite Hrow. apply claims_rotate; [|apply Hrev].
  intros [x|]; [|by apply spec_revoke_and_reject]. apply spec_map, spec_map. by apply spec_local_step.
Qed.

End Race.

(** ** Families *)

Definition same_live_family (a b : refresh_tokens_row) : bool :=
  is_live a && is_live b && bool_decide (rtr_tenant_id a = rtr_tenant_id b)
  && bool_decide (rtr_family_id a = rtr_family_id b).

(** A family has at most one live token. *)
Definition families_linear (d : database) : Prop :=
  conflict_free same_live_family (d_refresh_tokens d) = true.

(** The requests of the service. *)
Inductive auth_request :=
| Login (cmd : LoginCommand)
| Refresh (raw : jsstr)
| Logout (raw : jsstr).

Definition serve `{Crypto, Unicode} (deps : AuthDeps) (q : auth_request) (w : world) : world :=
  match q with
  | Login cmd => (run (login deps cmd) w).2
  | Refresh raw => (run (refresh deps raw) w).2
  | Logout raw => (run (logout deps raw) w).2
  end.

Lemma conflict_free_weaken {R} (c : R -> R -> bool) (f : R -> R) l :
  (forall a b, c (f a) (f b) = true -> c a b = true) ->
  conflict_free c l = true -> conflict_free c (map f l) = true.
Proof.
  intros Hc. induction l as [|a l IH]; [done|]. simpl map. rewrite !conflict_free_cons.
  intros [Ha Hl]. split; [|auto]. rewrite Forall_map. eapply Forall_impl; [exact Ha|].
  intros b Hb. simpl. destruct (c (f a) (f b)) eqn:E; [|done]. apply Hc in E. congruence.
Qed.

Lemma conflict_free_same {R} (c : R -> R -> bool) l a b :
  conflict_free c l = true -> In a l -> In b l -> c a b = true -> c b a = true -> a = b.
Proof.
  induction l as [|x l IH]; [done|]. rewrite conflict_free_cons. intros [Hx Hl] Ha Hb Hab Hba.
  destruct Ha as [->|Ha], Hb as [->|Hb]; auto.
  - apply (Forall_In _ _ _ Hx) in Hb. congruence.
  - apply (Forall_In _ _ _ Hx) in Ha. congruence.
Qed.

Lemma same_live_family_true a b :
  same_live_family a b = true <->
  is_live a = true /\ is_live b = true /\ rtr_tenant_id a = rtr_tenant_id b /\
  rtr_family_id a = rtr_family_id b.
Proof. unfold same_live_family. rewrite !andb_true_iff, !bool_decide_eq_true. naive_solver. Qed.

(** A step that only ends lives. *)
Definition ends_lives (f : refresh_tokens_row -> refresh_tokens_row) : Prop := forall r,
  rtr_tenant_id (f r) = rtr_tenant_id r /\ rtr_family_id (f r) = rtr_family_id r /\
  rtr_id (f r) = rtr_id r /\ (is_live (f r) = true -> f r = r).

Lemma revoke_ends_lives t f now : ends_lives (revoke_in t f now).
Proof.
  intros r. unfold revoke_in. destruct (_ && _); split_and!; try done. by rewrite is_live_revoked.
Qed.

Lemma rotate_ends_lives t i now : ends_lives (rotate_in t i now).
Proof. intros r. unfold rotate_in. destruct (_ && _); by split_and!. Qed.

Lemma ends_lives_linear f l :
  ends_lives f -> conflict_free same_live_family l = true ->
  conflict_free same_live_family (map f l) = true.
Proof.
  intros Hf. apply conflict_free_weaken. intros a b.
  destruct (Hf a) as (Ha1 & Ha2 & _ & Ha), (Hf b) as (Hb1 & Hb2 & _ & Hb).
  rewrite !same_live_family_true, Ha1, Ha2, Hb1, Hb2. intros (Hla & Hlb & ? & ?).
  pose proof (Ha Hla) as Ea. pose proof (Hb Hlb) as Eb. rewrite Ea in Hla. rewrite Eb in Hlb. done.
Qed.

Lemma append_linear l r :
  conflict_free same_live_family l = true -> Forall (fun a => same_live_family a r = false) l ->
  conflict_free same_live_family (l ++ [r]) = true.
Proof.
  intros Hl Hr. rewrite conflict_free_app. split_and!; [done|done|].
  eapply Forall_impl; [exact Hr|]. intros a Ha. by constructor.
Qed.

Lemma rotate_linear d row now r :
  families_linear d -> db_ok d -> In row (d_refresh_tokens d) -> is_live row = true ->
  rtr_tenant_id r = rtr_tenant_id row -> rtr_family_id r = rtr_family_id row ->
  families_linear (add_token r (rotate_db (rtr_tenant_id row) (rtr_id row) now d)).
Proof.
  intros Hlin Hok Hrow Hlive Ht Hf. apply append_linear.
  - apply ends_lives_linear; [apply rotate_ends_lives|done].
  - simpl. rewrite Forall_map. apply List.Forall_forall. intros x Hx. simpl.
    destruct (same_live_family _ r) eqn:E; [|done]. exfalso.
    apply same_live_family_true in E as (Hl & _ & Ext & Exf).
    destruct (rotate_ends_lives (rtr_tenant_id row) (rtr_id row) now x) as (_ & _ & _ & Hid).
    specialize (Hid Hl). rewrite Hid in Hl, Ext, Exf.
    assert (x = row) as ->.
    { eapply (conflict_free_same same_live_family); [exact Hlin|done|done| |];
        apply same_live_family_true; split_and!; congruence. }
    revert Hid. unfold rotate_in. rewrite !bool_decide_eq_true_2, Hlive by done. simpl. intros Hid.
    apply (f_equal is_live) in Hid. rewrite Hlive in Hid. done.
Qed.

(** * Theorems *)

(** C7. Login, in full.  With credentials of an active user with a role in an
    active tenant, and the right password, it answers a session for that user,
    tenant and role, and its only effect on the database is one new live refresh
    token, in a new family, of which the database holds the hash alone.  With any
    others, it answers the one generic error and changes nothing but the random
    source and the memoised dummy hash. *)
Theorem login_correct `{EntropyLaws, CryptoLaws, Unicode, Bcrypt, Jose} cost jwt ttl cmd w
    (Hty : uuid_columns (w_db w)) (Hfr : fresh_token_id w) (Hm : memo_ok w) :
  match authenticates (w_db w) cmd with
  | Some (t, u, role) =>
      run (login (pg_auth_deps cost jwt ttl) cmd) w =
      (Ok (session jwt (tr_id t) (ur_id u) role (pg_uuid (w_pgseq w))
             (node_hex (S (w_rand w)) REFRESH_SECRET_BYTES) (w_now w)),
       logged_in ttl (tr_id t) (ur_id u) w)
  | None =>
      exists w', run (login (pg_auth_deps cost jwt ttl) cmd) w
                   = (Err (UnauthorizedError invalid_credentials), w') /\ quiet w w'
  end.
Proof.
  destruct (authenticates _ _) as [[[t u] role]|] eqn:E; [by apply run_login_ok|by apply run_login_bad].
Qed.

(** C8. Refresh, in full, for every string presented.  A malformed token is rejected; one
    whose ids are not UUIDs fails with the database's error 22P02; both without effect.
    Any other is rejected without effect (unknown, wrong secret, expired), or rejected
    and its whole family revoked (already rotated or revoked; tenant not active; user
    gone, not active or without a role), or exchanged: the presented row is marked
    rotated and one successor of the same family, user and tenant is added, in one
    transaction. *)
Theorem refresh_correct `{EntropyLaws, CryptoLaws, Bcrypt, Jose} cost jwt ttl raw w
    (Hok : db_ok (w_db w)) (Hty : uuid_columns (w_db w)) (Hfr : fresh_token_id w) :
  run (refresh (pg_auth_deps cost jwt ttl) raw) w =
  match parseRefreshToken raw with
  | Err _ => (Err (UnauthorizedError invalid_refresh_token), w)
  | Ok p =>
      match uuid_in (pr_tenantId p), uuid_in (pr_tokenId p) with
      | Some u, Some i =>
          refresh_outcome jwt ttl (pr_tenantId p) u (judge (w_db w) (w_now w) u i (pr_secret p)) w
      | _, _ => (Err (EPg pg_invalid_text_representation), w)
      end
  end.
Proof.
  destruct (parseRefreshToken raw) as [p|e] eqn:Ep; [|by unfold refresh, safeParse; rewrite Ep].
  destruct (uuid_in (pr_tenantId p)) as [u|] eqn:Eu, (uuid_in (pr_tokenId p)) as [i|] eqn:Ei;
    [by apply run_refresh|..].
  all: unfold refresh, safeParse; rewrite Ep, bind_Ret_Ok, run_bind; change (refresh_findById _) with findById;
    by rewrite (run_bad_ids raw) by auto.
Qed.

(** A login's session works: its access token verifies to the user, tenant
    and role for its time to live, and its refresh token, presented within the
    refresh time to live, is exchanged for a session of the same user, tenant and
    role. *)
Theorem login_session_works `{EntropyLaws, CryptoLaws, Unicode, Bcrypt, JoseLaws}
    cost jwt ttl cmd w t u role
    (Hok : db_ok (w_db w)) (Hty : uuid_columns (w_db w)) (Hnr : fresh_ids 2 w)
    (Ha : authenticates (w_db w) cmd = Some (t, u, role)) :
  exists s w1,
    run (login (pg_auth_deps cost jwt ttl) cmd) w = (Ok s, w1) /\
    (forall w2, (w_now w2 / 1000 < w_now w / 1000 + jc_accessTtlSeconds jwt)%Z ->
       run (verifyAccess jwt (st_accessToken s)) w2
         = (Ok (mkSessionClaims (tr_id t) (ur_id u) role), w2)) /\
    (forall dt dt', (0 <= dt' < ttl * 1000)%Z ->
       exists s2 w3,
         run (refresh (pg_auth_deps cost jwt ttl) (st_refreshToken s)) (advance dt dt' w1)
           = (Ok s2, w3) /\
         st_userId s2 = ur_id u /\ st_tenantId s2 = tr_id t /\ st_role s2 = role).
Proof.
  apply fresh_ids_token in Hnr as Hfr.
  apply authenticates_Some in Ha as Hs. destruct Hs as (Ht & _ & Hact & Hu & Hut & Hst & Hrole).
  eexists _, _. split; [by apply run_login_ok|]. split.
  - intros w2 Hlive. unfold verifyAccess. rewrite run_bind, run_atomic.
    cbn [st_accessToken session]. rewrite jwt_verify_sign by done. simpl.
    by rewrite (proj2 (isRole_spec _ role) eq_refl).
  - intros dt dt' Hdt.
    destruct (refresh_after_login cost jwt ttl t u role dt dt' w) as (row & Hrow & Hrun); try done.
    eexists _, _. split; [exact Hrun|]. by split_and!.
Qed.

(** C9. Reuse detection.  Presenting a token that was already rotated or revoked,
    with its secret, is rejected, and from then on — after any later activity of
    any requests — no token of its family that existed then is ever accepted
    again: the successor a thief or the victim obtained is dead too. *)
Theorem reuse_kills_family `{EntropyLaws, CryptoLaws, Bcrypt, Jose}
    cost jwt ttl raw p t i w row
    (Hp : parseRefreshToken raw = Ok p)
    (Hu : uuid_in (pr_tenantId p) = Some t) (Hi : uuid_in (pr_tokenId p) = Some i)
    (Hok : db_ok (w_db w)) (Hty : uuid_columns (w_db w))
    (Hrow : token_of (w_db w) t i = Some row)
    (Hsecret : sha256 (pr_secret p) = rtr_token_hash row) (Hdead : is_live row = false) :
  exists w1,
    run (refresh (pg_auth_deps cost jwt ttl) raw) w
      = (Err (UnauthorizedError invalid_refresh_token), w1) /\
    forall w2 raw' p' r,
      rtc busy_env w1 w2 ->
      In r (d_refresh_tokens (w_db w)) -> rtr_tenant_id r = t -> rtr_family_id r = rtr_family_id row ->
      never_drawn (rtr_id r) (w_pgseq w) ->
      parseRefreshToken raw' = Ok p' ->
      uuid_in (pr_tenantId p') = Some t -> uuid_in (pr_tokenId p') = Some (rtr_id r) ->
      (run (refresh (pg_auth_deps cost jwt ttl) raw') w2).1
        = Err (UnauthorizedError invalid_refresh_token).
Proof.
  assert (Hj : judge (w_db w) (w_now w) t i (pr_secret p) = Revoke (rtr_family_id row)).
  { unfold judge. rewrite Hrow, (proj2 (constantTimeEqual_spec _ _) Hsecret), Hdead. done. }
  eexists. split.
  - rewrite (run_refresh cost jwt ttl raw p t i) by (done || by rewrite Hj). by rewrite Hj.
  - intros w2 raw' p' r Hsteps Hr Ht Hf Hn Hp' Hu' Hi'. by apply (family_dead_forever cost jwt ttl t (rtr_family_id row) r w w2 raw' p').
Qed.

(** C4. Of any number of concurrent presentations of one refresh token, at most
    one obtains a session, in every interleaving with each other, with any other
    repository calls, with the clock, and with failures of the infrastructure
    (including those where the step took effect and its answer was lost). *)
Theorem refresh_single_winner `{EntropyLaws, CryptoLaws, Bcrypt, Jose}
    cost jwt ttl raw p t i w n w' ts' j k s s'
    (Hp : parseRefreshToken raw = Ok p)
    (Hu : uuid_in (pr_tenantId p) = Some t) (Hi : uuid_in (pr_tokenId p) = Some i)
    (Hok : db_ok (w_db w)) (Hn : never_drawn i (w_pgseq w))
    (Hsteps : rtc (pstep busy_env) (w, replicate n (refresh (pg_auth_deps cost jwt ttl) raw)) (w', ts'))
    (Hj : ts' !! j = Some (Ret (Ok s))) (Hk : ts' !! k = Some (Ret (Ok s'))) :
  j = k.
Proof.
  eapply (single_winner busy_env (fun w => db_ok (w_db w) /\ never_drawn i (w_pgseq w))
            (fun w => bool_decide (is_Some (live_token (w_db w) t i))) (fun _ => true));
    [| | |exact Hsteps|exact Hj|done|exact Hk|done].
  - intros v v' Hv HI. by apply busy_no_release.
  - done.
  - apply Forall_replicate. by eapply claims_refresh.
Qed.

(** Logout of a valid token answers success and revokes its family: from then
    on no token of the family is ever accepted; logging out again succeeds and
    changes nothing in the database. *)
Theorem logout_ends_session `{EntropyLaws, CryptoLaws, Bcrypt, Jose}
    cost jwt ttl raw p t i w row
    (Hp : parseRefreshToken raw = Ok p)
    (Hu : uuid_in (pr_tenantId p) = Some t) (Hi : uuid_in (pr_tokenId p) = Some i)
    (Hok : db_ok (w_db w)) (Hty : uuid_columns (w_db w))
    (Hrow : token_of (w_db w) t i = Some row)
    (Hsecret : sha256 (pr_secret p) = rtr_token_hash row) :
  exists w1,
    run (logout (pg_auth_deps cost jwt ttl) raw) w = (Ok tt, w1) /\
    (exists w2, run (logout (pg_auth_deps cost jwt ttl) raw) w1 = (Ok tt, w2) /\ w_db w2 = w_db w1) /\
    forall w2 raw' p' r,
      rtc busy_env w1 w2 ->
      In r (d_refresh_tokens (w_db w)) -> rtr_tenant_id r = t -> rtr_family_id r = rtr_family_id row ->
      never_drawn (rtr_id r) (w_pgseq w) ->
      parseRefreshToken raw' = Ok p' ->
      uuid_in (pr_tenantId p') = Some t -> uuid_in (pr_tokenId p') = Some (rtr_id r) ->
      (run (refresh (pg_auth_deps cost jwt ttl) raw') w2).1
        = Err (UnauthorizedError invalid_refresh_token).
Proof.
  assert (Hrun : run (logout (pg_auth_deps cost jwt ttl) raw) w
                 = (Ok tt, family_revoked t (rtr_family_id row) w)).
  { rewrite (run_logout cost jwt ttl raw p t i) by done. rewrite Hrow.
    by rewrite (proj2 (constantTimeEqual_spec _ _) Hsecret). }
  apply token_of_Some in Hrow as Hin. destruct Hin as (Hin & Ht & Hid).
  assert (Hb : busy_env w (family_revoked t (rtr_family_id row) w)).
  { destruct Hty as (_ & _ & HK). destruct (Forall_In _ _ _ HK Hin) as (_ & ? & _ & ?).
    apply family_revoked_busy; congruence. }
  apply (db_ok_busy _ _ Hb) in Hok as Hok1. apply (uuid_columns_busy _ _ Hb) in Hty as Hty1.
  exists (family_revoked t (rtr_family_id row) w). split_and!; [done| |].
  - eexists. split; [by apply (run_logout cost jwt ttl raw p t i)|]. clear Hrow Hrun.
    destruct (token_of _ _ _) as [row'|] eqn:E; [|done].
    destruct (constantTimeEqual _ _); [|done].
    apply token_of_Some in E as (Hin' & Ht' & Hid'). simpl in Hin'.
    apply in_map_iff in Hin' as (x & <- & Hx). destruct (revoke_ends_lives t (rtr_family_id row) (w_now w) x)
      as (Ext & Exf & Exi & _). rewrite Exf. rewrite Ext in Ht'. rewrite Exi in Hid'.
    assert (x = row) as -> by (eapply (token_unique (w_db w) t); try done; congruence).
    simpl. apply revoke_family_idem.
  - intros w2 raw' p' r Hsteps Hr Htr Hf Hn Hp' Hu' Hi'. by apply (family_dead_forever cost jwt ttl t (rtr_family_id row) r w w2 raw' p').
Qed.

(** C24. In a family at most one token is live: login, refresh and logout, whatever
    they are given, keep it so.  (The new session's family id is assumed not to be
    in use, as are the ids the database draws.) *)
Theorem families_stay_linear `{EntropyLaws, CryptoLaws, Unicode, Bcrypt, Jose} cost jwt ttl q w
    (Hok : db_ok (w_db w)) (Hty : uuid_columns (w_db w)) (Hm : memo_ok w) (Hfr : fresh_token_id w)
    (Hfam : Forall (fun r => rtr_family_id r <> node_uuid (w_rand w)) (d_refresh_tokens (w_db w)))
    (Hlin : families_linear (w_db w)) :
  families_linear (w_db (serve (pg_auth_deps cost jwt ttl) q w)).
Proof.
  assert (Hrev : forall t f, families_linear (w_db (family_revoked t f w))).
  { intros t f. apply ends_lives_linear; [apply revoke_ends_lives|done]. }
  destruct q as [cmd|raw|raw]; cbn [serve].
  - destruct (authenticates (w_db w) cmd) as [[[t u] role]|] eqn:E.
    + erewrite run_login_ok by done. apply append_linear; [done|].
      eapply Forall_impl; [exact Hfam|]. intros r Hr. simpl.
      destruct (same_live_family r _) eqn:Es; [|done]. by apply same_live_family_true in Es as (_ & _ & _ & ?).
    + destruct (run_login_bad cost jwt ttl cmd w Hty Hm E) as (w' & -> & ->). done.
  - destruct (parseRefreshToken raw) as [p|e] eqn:Ep; [|by unfold refresh, safeParse; rewrite Ep].
    destruct (uuid_in (pr_tenantId p)) as [t|] eqn:Et, (uuid_in (pr_tokenId p)) as [i|] eqn:Ei.
    2-4: unfold refresh, safeParse; rewrite Ep, bind_Ret_Ok, run_bind;
      change (refresh_findById _) with findById; rewrite (run_bad_ids raw) by auto; done.
    rewrite (run_refresh cost jwt ttl raw p t i) by done.
    destruct (judge _ _ _ _ _) as [|f|row role] eqn:Ej; [done|apply Hrev|].
    apply judge_grant in Ej as [(Hin & <- & <-)%token_of_Some Hl]. by apply rotate_linear.
  - destruct (parseRefreshToken raw) as [p|e] eqn:Ep; [|by unfold logout; rewrite Ep].
    destruct (uuid_in (pr_tenantId p)) as [t|] eqn:Et, (uuid_in (pr_tokenId p)) as [i|] eqn:Ei.
    2-4: unfold logout; rewrite Ep, run_bind; cbn match; rewrite run_now; cbn match; rewrite run_bind;
      change (refresh_findById _) with findById; rewrite (run_bad_ids raw) by auto; done.
    rewrite (run_logout cost jwt ttl raw p t i) by done. simpl.
    destruct (token_of _ _ _); [|done]. destruct (constantTimeEqual _ _); [apply Hrev|done].
Qed.

(** A well-formed token whose tenant or token id is not a UUID is neither
    rejected as unauthorised by refresh nor accepted silently by logout: both fail
    with the database's error 22P02. *)
Theorem non_uuid_ids_fail `{EntropyLaws, CryptoLaws, Bcrypt, Jose} cost jwt ttl raw p w
    (Hp : parseRefreshToken raw = Ok p)
    (Hbad : uuid_in (pr_tenantId p) = None \/ uuid_in (pr_tokenId p) = None) :
  run (refresh (pg_auth_deps cost jwt ttl) raw) w = (Err (EPg pg_invalid_text_representation), w) /\
  run (logout (pg_auth_deps cost jwt ttl) raw) w = (Err (EPg pg_invalid_text_representation), w).
Proof.
  split.
  - unfold refresh, safeParse. rewrite Hp, bind_Ret_Ok, run_bind.
    change (refresh_findById _) with findById. by rewrite (run_bad_ids raw).
  - unfold logout. rewrite Hp, run_bind. cbn match. rewrite run_now. cbn match. rewrite run_bind.
    change (refresh_findById _) with findById. by rewrite (run_bad_ids raw).
Qed.

(** ** The theorems at work *)

Definition demo_jwt : JoseTokenConfig := mkJoseTokenConfig (js "k") 900.

Definition demo_deps : AuthDeps := @pg_auth_deps demo_entropy demo_bcrypt demo_jose 10 demo_jwt 1000.

Definition demo_login : LoginCommand := mkLoginCommand (js "acme") (js " Alice@Acme.IO") (js "secret").

Definition demo_parsed : ParsedRefreshToken := mkParsedRefreshToken acme alice_token (js "s3cret").

Definition demo_raw : jsstr := assembleRefreshToken acme alice_token (js "s3cret").

(** The world after Alice's refresh token was exchanged once. *)
Definition demo_rotated : world :=
  (run (@refresh demo_crypto demo_deps demo_raw) demo_world).2.

Lemma demo_uuid_columns : uuid_columns demo_db.
Proof.
  split_and!; simpl; repeat (constructor; [split_and!; apply demo_uuid_form; done|]);
    try done; repeat (constructor; [apply demo_uuid_form; done|]); done.
Qed.

Lemma demo_fresh : @fresh_token_id demo_entropy demo_world.
Proof. constructor; [|done]. by apply demo_uuid_lead. Qed.

Lemma demo_memo_ok : memo_ok demo_world.
Proof. by intros e. Qed.

Lemma demo_rotated_ok : db_ok (w_db demo_rotated).
Proof. split; split_and!; rewrite <-?forallb_Forall; by vm_compute. Qed.

Lemma uuid_columns_check d :
  forallb (fun r => is_uuid (tr_id r)) (d_tenants d)
  && forallb (fun r => is_uuid (ur_id r) && is_uuid (ur_tenant_id r)) (d_users d)
  && forallb (fun r => is_uuid (rtr_id r) && is_uuid (rtr_tenant_id r)
                       && is_uuid (rtr_user_id r) && is_uuid (rtr_family_id r)) (d_refresh_tokens d)
  = true -> uuid_columns d.
Proof.
  rewrite !andb_true_iff, !forallb_Forall. intros [[HT HU] HK].
  split_and!; (eapply Forall_impl; [eassumption|]); simpl; intros r;
    unfold typed_tenant, typed_user, typed_token; rewrite ?andb_true_iff; naive_solver.
Qed.

Lemma demo_rotated_columns : uuid_columns (w_db demo_rotated).
Proof. apply uuid_columns_check. by vm_compute. Qed.

Lemma demo_parse : parseRefreshToken demo_raw = Ok demo_parsed.
Proof. vm_compute. reflexivity. Qed.

Lemma demo_acme : uuid_in acme = Some acme.
Proof. vm_compute. reflexivity. Qed.

Lemma demo_token : uuid_in alice_token = Some alice_token.
Proof. vm_compute. reflexivity. Qed.

Lemma demo_fresh_ids : @fresh_ids demo_entropy 2 demo_world.
Proof.
  intros n Hn. split.
  - constructor; [|done]. simpl. destruct (n + 0); by apply demo_uuid_lead.
  - intros m Hm. assert (n = 0) as -> by lia. assert (m = 1) as -> by lia. by apply demo_uuid_lead.
Qed.

(** Alice's consumed token and its successor. *)
Definition demo_old : refresh_tokens_row :=
  mk_refresh_tokens alice_token acme alice alice_family (pad_digest (js "s3cret")) 0 1000000 (Some 5000%Z) None.

Definition demo_successor : refresh_tokens_row :=
  new_token (demo_pg_uuid 0) acme alice alice_family (pad_digest (hexN 64 0)) 5000 1005000.

Definition demo_successor_parsed : ParsedRefreshToken :=
  mkParsedRefreshToken acme (demo_pg_uuid 0) (hexN 64 0).

Definition demo_successor_raw : jsstr := assembleRefreshToken acme (demo_pg_uuid 0) (hexN 64 0).

Lemma demo_rotated_tokens : d_refresh_tokens (w_db demo_rotated) = [demo_old; demo_successor].
Proof. vm_compute. reflexivity. Qed.

Lemma login_correct_witness :
  exists s w1, run (@login demo_crypto ascii_unicode demo_deps demo_login) demo_world = (Ok s, w1) /\
    st_userId s = alice /\ st_role s = tenant_admin.
Proof.
  pose proof (@login_correct demo_entropy demo_entropy_laws demo_crypto demo_crypto_laws ascii_unicode
    demo_bcrypt demo_jose 10 demo_jwt 1000 demo_login demo_world demo_uuid_columns demo_fresh
    demo_memo_ok) as Hl.
  assert (E : exists t u, @authenticates ascii_unicode demo_bcrypt (w_db demo_world) demo_login
                          = Some (t, u, tenant_admin) /\ ur_id u = alice).
  { eexists _, _. split; vm_compute; reflexivity. }
  destruct E as (t & u & E & Hu). rewrite E in Hl. eexists _, _. split; [exact Hl|].
  split; [exact Hu|reflexivity].
Defined.

Lemma refresh_correct_witness :
  (exists s w1, run (@refresh demo_crypto demo_deps demo_raw) demo_world = (Ok s, w1) /\
    st_userId s = alice /\ st_role s = tenant_admin) /\
  run (@refresh demo_crypto demo_deps (js "lgr_1")) demo_world
    = (Err (UnauthorizedError invalid_refresh_token), demo_world).
Proof.
  pose proof (fun raw => @refresh_correct demo_entropy demo_entropy_laws demo_crypto demo_crypto_laws
    demo_bcrypt demo_jose 10 demo_jwt 1000 raw demo_world demo_db_ok demo_uuid_columns demo_fresh) as Hc.
  split; [|exact (Hc (js "lgr_1"))].
  pose proof (Hc demo_raw) as Hr. rewrite demo_parse in Hr. cbn [pr_tenantId pr_tokenId demo_parsed] in Hr.
  rewrite (demo_acme : uuid_in acme = _), (demo_token : uuid_in alice_token = _) in Hr.
  assert (E : exists row, @judge demo_crypto (w_db demo_world) (w_now demo_world) acme alice_token
                            (pr_secret demo_parsed) = Grant row tenant_admin /\ rtr_user_id row = alice).
  { eexists. split; vm_compute; reflexivity. }
  destruct E as (row & E & Hu). rewrite E in Hr. eexists _, _. split; [exact Hr|].
  split; [exact Hu|reflexivity].
Defined.

Lemma login_session_works_witness :
  exists s w1 s2 w3,
    run (@login demo_crypto ascii_unicode demo_deps demo_login) demo_world = (Ok s, w1) /\
    run (@refresh demo_crypto demo_deps (st_refreshToken s)) (advance 0 60000 w1) = (Ok s2, w3) /\
    st_userId s2 = alice.
Proof.
  assert (E : exists t u, @authenticates ascii_unicode demo_bcrypt (w_db demo_world) demo_login
                          = Some (t, u, tenant_admin) /\ ur_id u = alice).
  { eexists _, _. split; vm_compute; reflexivity. }
  destruct E as (t & u & E & Hu).
  destruct (@login_session_works demo_entropy demo_entropy_laws demo_crypto demo_crypto_laws ascii_unicode
    demo_bcrypt demo_jose demo_jose_laws 10 demo_jwt 1000 demo_login demo_world t u tenant_admin
    demo_db_ok demo_uuid_columns demo_fresh_ids E) as (s & w1 & Hl & _ & Hr).
  destruct (Hr 0%Z 60000%Z) as (s2 & w3 & Hrun & Hid & _); [lia|].
  exists s, w1, s2, w3. split; [exact Hl|]. split; [exact Hrun|]. congruence.
Defined.

Lemma reuse_kills_family_witness :
  exists w1,
    run (@refresh demo_crypto demo_deps demo_raw) demo_rotated
      = (Err (UnauthorizedError invalid_refresh_token), w1) /\
    (run (@refresh demo_crypto demo_deps demo_successor_raw) w1).1
      = Err (UnauthorizedError invalid_refresh_token).
Proof.
  destruct (@reuse_kills_family demo_entropy demo_entropy_laws demo_crypto demo_crypto_laws
    demo_bcrypt demo_jose 10 demo_jwt 1000 demo_raw demo_parsed acme alice_token demo_rotated demo_old
    demo_parse demo_acme demo_token demo_rotated_ok demo_rotated_columns) as (w1 & Hr & Hdead);
    [vm_compute; reflexivity|vm_compute; reflexivity|vm_compute; reflexivity|].
  exists w1. split; [exact Hr|].
  apply (Hdead w1 demo_successor_raw demo_successor_parsed demo_successor).
  - apply rtc_refl.
  - rewrite demo_rotated_tokens. right. left. reflexivity.
  - reflexivity.
  - reflexivity.
  - apply first_draw_demo. vm_compute. lia.
  - vm_compute. reflexivity.
  - exact demo_acme.
  - vm_compute. reflexivity.
Defined.

(** Two presentations of Alice's token, one after the other. *)
Definition demo_pool : list (prog world SessionTokens) :=
  replicate 2 (@refresh demo_crypto demo_deps demo_raw).

Lemma refresh_single_winner_witness : exists w' ts' s,
  rtc (pstep (@busy_env demo_entropy)) (demo_world, demo_pool) (w', ts') /\
  ts' !! 0 = Some (Ret (Ok s)) /\ ts' !! 1 = Some (Ret (Err (UnauthorizedError invalid_refresh_token))) /\
  (forall s' j, ts' !! j = Some (Ret (Ok s')) -> 0 = j).
Proof.
  destruct (run (@refresh demo_crypto demo_deps demo_raw) demo_world) as [r0 w0] eqn:E0.
  destruct (run (@refresh demo_crypto demo_deps demo_raw) w0) as [r1 w1] eqn:E1.
  assert (Hok : exists s, r0 = Ok s).
  { assert (Hr : is_ok r0 = true).
    { change r0 with (fst (r0, w0)). rewrite <-E0. vm_compute. reflexivity. }
    destruct r0 as [s|e]; [by exists s|discriminate Hr]. }
  assert (Hbad : r1 = Err (UnauthorizedError invalid_refresh_token)).
  { replace r1 with ((run (@refresh demo_crypto demo_deps demo_raw) demo_rotated).1).
    - vm_compute. reflexivity.
    - unfold demo_rotated. rewrite E0. cbn [snd]. rewrite E1. reflexivity. }
  destruct Hok as [s ->]. subst r1.
  assert (Hsteps : rtc (pstep (@busy_env demo_entropy)) (demo_world, demo_pool)
    (w1, [Ret (Ok s); Ret (Err (UnauthorizedError invalid_refresh_token))])).
  { etrans; [apply (run_pool _ demo_pool 0 _ _ _ _ eq_refl E0)|].
    apply (run_pool _ [Ret (Ok s); @refresh demo_crypto demo_deps demo_raw] 1 _ _ _ _ eq_refl E1). }
  eexists w1, _, s. split; [exact Hsteps|]. split; [reflexivity|]. split; [reflexivity|].
  intros s' j Hj.
  apply (@refresh_single_winner demo_entropy demo_entropy_laws demo_crypto demo_crypto_laws
    demo_bcrypt demo_jose 10 demo_jwt 1000 demo_raw demo_parsed acme alice_token demo_world 2 w1 _ 0 j s s'
    demo_parse demo_acme demo_token demo_db_ok (never_drawn_demo 102 _ _ ltac:(discriminate) ltac:(discriminate))
    Hsteps eq_refl Hj).
Defined.

Lemma logout_ends_session_witness :
  exists w1,
    run (@logout demo_crypto demo_deps demo_raw) demo_rotated = (Ok tt, w1) /\
    (run (@refresh demo_crypto demo_deps demo_successor_raw) w1).1
      = Err (UnauthorizedError invalid_refresh_token).
Proof.
  destruct (@logout_ends_session demo_entropy demo_entropy_laws demo_crypto demo_crypto_laws
    demo_bcrypt demo_jose 10 demo_jwt 1000 demo_raw demo_parsed acme alice_token demo_rotated demo_old
    demo_parse demo_acme demo_token demo_rotated_ok demo_rotated_columns) as (w1 & Hr & _ & Hdead);
    [vm_compute; reflexivity|vm_compute; reflexivity|].
  exists w1. split; [exact Hr|].
  apply (Hdead w1 demo_successor_raw demo_successor_parsed demo_successor).
  - apply rtc_refl.
  - rewrite demo_rotated_tokens. right. left. reflexivity.
  - reflexivity.
  - reflexivity.
  - apply first_draw_demo. vm_compute. lia.
  - vm_compute. reflexivity.
  - exact demo_acme.
  - vm_compute. reflexivity.
Defined.

Lemma families_stay_linear_witness :
  families_linear (w_db (serve (H := demo_crypto) (H0 := ascii_unicode) demo_deps (Refresh demo_raw) demo_world)).
Proof.
  apply (@families_stay_linear demo_entropy demo_entropy_laws demo_crypto demo_crypto_laws ascii_unicode
    demo_bcrypt demo_jose 10 demo_jwt 1000 (Refresh demo_raw) demo_world
    demo_db_ok demo_uuid_columns demo_memo_ok demo_fresh).
  - constructor; [|constructor]. apply demo_uuid_lead. discriminate.
  - vm_compute. reflexivity.
Defined.

Lemma non_uuid_ids_fail_witness :
  run (@refresh demo_crypto demo_deps (js "lgr_acme_1_x")) demo_world
    = (Err (EPg pg_invalid_text_representation), demo_world).
Proof.
  apply (@non_uuid_ids_fail demo_entropy demo_entropy_laws demo_crypto demo_crypto_laws
    demo_bcrypt demo_jose 10 demo_jwt 1000 (js "lgr_acme_1_x")
    (mkParsedRefreshToken (js "acme") (js "1") (js "x")) demo_world).
  - vm_compute. reflexivity.
  - left. vm_compute. reflexivity.
Defined.
