(* ===== verification/Services.v ===== *)
(** * Application services

    The use cases of [app/user-service.ts], [tenant-service.ts],
    [api-key-service.ts], [retention-service.ts], [alert-rule-service.ts],
    [saved-query-service.ts], [dashboard-service.ts] and [invite-service.ts], each
    over the ports its constructor receives. *)

From stdpp Require Import base list option numbers strings gmap pretty.
From S2P Require Import Prelude Errors Effects Tokens Rbac Email Entities Ports World.

(** [assertCan(ctx, operation)], which throws. *)
Definition authorize (ctx : TenantContext) (operation : Operation) : prog world unit :=
  Ret (assertCan ctx operation).

(** [if (!x) throw new NotFoundError(message); return x]. *)
Definition required {A} (message : jsstr) (x : option A) : prog world A :=
  match x with
  | Some a => mret a
  | None => throw (NotFoundError message)
  end.

(** [if (!done) throw new NotFoundError(message)]. *)
Definition must (message : jsstr) (done : bool) : prog world unit :=
  if done then mret tt else throw (NotFoundError message).

(** [try { p } catch (err) { if (isUniqueViolation(err)) throw new ConflictError(message); throw err }]. *)
Definition or_conflict {A} (message : jsstr) (p : prog world A) : prog world A :=
  catch (fun err => if isUniqueViolation err then throw (ConflictError message) else throw err) p.

(** ** Users *)

Record CreateUserCommand := mkCreateUserCommand {
  cu_email : jsstr;
  cu_password : jsstr;
  cu_displayName : option jsstr;
  cu_role : MembershipRole
}.

Record UpdateUserCommand := mkUpdateUserCommand {
  uu_displayName : option (option jsstr);
  uu_status : option jsstr;
  uu_role : option MembershipRole;
  uu_password : option jsstr
}.

Module UserService.
Section UserService.
Context `{Unicode} (users : UserRepository world) (hasher : PasswordHasher world).

Definition create (ctx : TenantContext) (cmd : CreateUserCommand) : prog world User :=
  _ ← authorize ctx user_create;
  passwordHash ← hasher_hash hasher (cu_password cmd);
  users_create users (ctx_tenantId ctx)
    (mkNewUser (normalizeEmail (cu_email cmd)) passwordHash (Some (cu_displayName cmd)) (cu_role cmd)).

Definition list_ (ctx : TenantContext) : prog world (list User) :=
  _ ← authorize ctx user_list;
  users_list users (ctx_tenantId ctx).

Definition get (ctx : TenantContext) (id : jsstr) : prog world User :=
  _ ← authorize ctx user_read;
  user ← users_findById users (ctx_tenantId ctx) id;
  required (js "user not found") user.

Definition update (ctx : TenantContext) (id : jsstr) (cmd : UpdateUserCommand) : prog world User :=
  _ ← authorize ctx user_update;
  passwordHash ← match uu_password cmd with
                 | Some p => if truthy p then h ← hasher_hash hasher p; mret (Some h) else mret None
                 | None => mret None
                 end;
  user ← users_update users (ctx_tenantId ctx) id
           (mkUserPatch (uu_displayName cmd) (uu_status cmd) (uu_role cmd) passwordHash);
  required (js "user not found") user.

Definition remove (ctx : TenantContext) (id : jsstr) : prog world unit :=
  _ ← authorize ctx user_delete;
  deleted ← users_delete users (ctx_tenantId ctx) id;
  must (js "user not found") deleted.

End UserService.
End UserService.

(** ** Tenants *)

Record CreateTenantCommand := mkCreateTenantCommand { ct_publicId : jsstr; ct_name : jsstr }.

Record ProvisionAdminCommand := mkProvisionAdminCommand {
  pa_email : jsstr;
  pa_password : jsstr;
  pa_displayName : option jsstr
}.

Module TenantService.
Section TenantService.
Context `{Unicode} (tenants : TenantRepository world) (users : UserRepository world)
  (hasher : PasswordHasher world).

Definition create (ctx : TenantContext) (cmd : CreateTenantCommand) : prog world Tenant :=
  _ ← authorize ctx tenant_create;
  tenants_create tenants (mkNewTenant (ct_publicId cmd) (ct_name cmd)).

Definition provisionAdmin (ctx : TenantContext) (tenantId : jsstr) (cmd : ProvisionAdminCommand)
    : prog world User :=
  _ ← authorize ctx tenant_provision_admin;
  tenant ← tenants_findById tenants tenantId;
  _ ← required (js "tenant not found") tenant;
  passwordHash ← hasher_hash hasher (pa_password cmd);
  users_create users tenantId
    (mkNewUser (normalizeEmail (pa_email cmd)) passwordHash (Some (pa_displayName cmd)) m_tenant_admin).

Definition list_ (ctx : TenantContext) : prog world (list Tenant) :=
  _ ← authorize ctx tenant_list;
  tenants_list tenants.

Definition get (ctx : TenantContext) (id : jsstr) : prog world Tenant :=
  _ ← authorize ctx tenant_read;
  if negb (bool_decide (ctx_role ctx = platform_operator)) && negb (bool_decide (id = ctx_tenantId ctx))
  then throw (NotFoundError (js "tenant not found"))
  else
    tenant ← tenants_findById tenants id;
    required (js "tenant not found") tenant.

Definition update (ctx : TenantContext) (id : jsstr) (patch : TenantPatch) : prog world Tenant :=
  _ ← authorize ctx tenant_update;
  tenant ← tenants_update tenants id patch;
  required (js "tenant not found") tenant.

Definition remove (ctx : TenantContext) (id : jsstr) : prog world unit :=
  _ ← authorize ctx tenant_delete;
  deleted ← tenants_delete tenants id;
  must (js "tenant not found") deleted.

End TenantService.
End TenantService.

(** ** API keys *)

Record IssueApiKeyCommand := mkIssueApiKeyCommand {
  ik_name : jsstr;
  ik_scopes : option (list jsstr);
  ik_expiresAt : option (option date)
}.

Record IssuedApiKey := mkIssuedApiKey { ika_plaintext : jsstr; ika_record : ApiKeyRecord }.

Definition DEFAULT_SCOPES : list jsstr := [js "ingest:write"].

Module ApiKeyService.
Section ApiKeyService.
Context `{Crypto} (keys : ApiKeyRepository world) (tenants : TenantRepository world)
  (generator : KeyMaterialGenerator world) (clock : Clock world).

Definition issue (ctx : TenantContext) (cmd : IssueApiKeyCommand) : prog world IssuedApiKey :=
  _ ← authorize ctx apikey_create;
  tenant ← tenants_findById tenants (ctx_tenantId ctx);
  tenant ← required (js "tenant not found") tenant;
  material ← keymat_generate generator;
  let minted := mintApiKey (tn_publicId tenant) material in
  let scopes := match ik_scopes cmd with
                | Some (s :: l) => s :: l
                | _ => DEFAULT_SCOPES
                end in
  record ← apikeys_create keys (ctx_tenantId ctx)
             (mkNewApiKey (mk_keyId minted) (ik_name cmd) (mk_keyHash minted) scopes
                (Some (ctx_principalId ctx)) (default None (ik_expiresAt cmd)));
  mret (mkIssuedApiKey (mk_plaintext minted) record).

Definition list_ (ctx : TenantContext) : prog world (list ApiKeyRecord) :=
  _ ← authorize ctx apikey_list;
  apikeys_list keys (ctx_tenantId ctx).

Definition revoke (ctx : TenantContext) (keyId : jsstr) : prog world unit :=
  _ ← authorize ctx apikey_revoke;
  if negb (truthy keyId) then throw (ValidationError (js "key id is required") None)
  else
    now ← clock_now clock;
    revoked ← apikeys_revoke keys (ctx_tenantId ctx) keyId now;
    must (js "api key not found") revoked.

End ApiKeyService.
End ApiKeyService.

(** ** Retention *)

Record UpsertRetentionCommand := mkUpsertRetentionCommand { ur_hotDays : Z; ur_coldDays : Z }.

Module RetentionService.
Section RetentionService.
Context (retention : RetentionRepository world).

Definition get (ctx : TenantContext) : prog world RetentionPolicy :=
  _ ← authorize ctx retention_read;
  policy ← retention_get retention (ctx_tenantId ctx);
  required (js "retention policy not found") policy.

Definition upsert (ctx : TenantContext) (cmd : UpsertRetentionCommand) : prog world RetentionPolicy :=
  _ ← authorize ctx retention_update;
  retention_upsert retention (ctx_tenantId ctx)
    (mkRetentionInput (ur_hotDays cmd) (ur_coldDays cmd) (Some (ctx_principalId ctx))).

End RetentionService.
End RetentionService.

(** ** Alert rules *)

Record CreateAlertRuleCommand := mkCreateAlertRuleCommand {
  ca_name : jsstr;
  ca_savedQueryId : option (option jsstr);
  ca_query : RuleQuery;
  ca_comparator : AlertComparator;
  ca_threshold : jsnum;
  ca_windowSeconds : Z;
  ca_severity : jsstr;
  ca_enabled : bool;
  ca_notifyChannels : list NotifyChannel
}.

(** [Boolean(query.text?.trim() || query.service?.trim() || query.level || ...)]. *)
Definition hasInlineQuery (query : RuleQuery) : bool :=
  truthy (default [] (trim <$> rq_text query))
  || truthy (default [] (trim <$> rq_service query))
  || truthy (default [] (rq_level query))
  || match rq_labels query with Some labels => bool_decide (labels <> ∅) | None => false end.

Definition isUniqueName (err : exn) : bool := bool_decide (err_code err = Some (js "23505")).

Module AlertRuleService.

Fixpoint assertChannels (channels : list NotifyChannel) : result exn unit :=
  match channels with
  | [] => Ok tt
  | webhook url :: l =>
      if negb (truthy url) then Err (ValidationError (js "webhook channel requires a url") None)
      else assertChannels l
  | email_channel to :: l =>
      if negb (truthy to) then Err (ValidationError (js "email channel requires a recipient") None)
      else assertChannels l
  end.

Definition assertQuerySource (savedQueryId : option jsstr) (query : RuleQuery) : result exn unit :=
  let hasSaved := bool_decide (savedQueryId <> None) in
  let hasQuery := hasInlineQuery query in
  if eqb hasSaved hasQuery
  then Err (ValidationError (js "provide exactly one of: savedQueryId, or a non-empty query") None)
  else Ok tt.

Section AlertRuleService.
Context (rules : AlertRuleRepository world).

Definition create (ctx : TenantContext) (cmd : CreateAlertRuleCommand) : prog world AlertRule :=
  _ ← authorize ctx alert_create;
  _ ← Ret (assertChannels (ca_notifyChannels cmd));
  _ ← Ret (assertQuerySource (default None (ca_savedQueryId cmd)) (ca_query cmd));
  catch (fun err =>
      if isUniqueName err
      then throw (ConflictError (js "an alert rule named '" ++ ca_name cmd ++ js "' already exists"))
      else throw err)
    (rules_create rules (ctx_tenantId ctx)
       {| na_name := ca_name cmd;
          na_savedQueryId := default None (ca_savedQueryId cmd);
          na_query := ca_query cmd;
          na_comparator := ca_comparator cmd;
          na_threshold := ca_threshold cmd;
          na_windowSeconds := ca_windowSeconds cmd;
          na_severity := ca_severity cmd;
          na_enabled := ca_enabled cmd;
          na_notifyChannels := ca_notifyChannels cmd;
          na_createdBy := Some (ctx_principalId ctx) |}).

Definition list_ (ctx : TenantContext) : prog world (list AlertRule) :=
  _ ← authorize ctx alert_list;
  rules_list rules (ctx_tenantId ctx).

Definition get (ctx : TenantContext) (id : jsstr) : prog world AlertRule :=
  _ ← authorize ctx alert_read;
  rule ← rules_findById rules (ctx_tenantId ctx) id;
  required (js "alert rule not found") rule.

Definition update (ctx : TenantContext) (id : jsstr) (patch : AlertRulePatch) : prog world AlertRule :=
  _ ← authorize ctx alert_update;
  _ ← Ret (match ap_notifyChannels patch with
           | Some channels => assertChannels channels
           | None => Ok tt
           end);
  if match ap_query patch with
     | Some q => negb (hasInlineQuery q) && bool_decide (default None (ap_savedQueryId patch) = None)
     | None => false
     end
  then throw (ValidationError
         (js "query cannot be emptied; set a savedQueryId to switch query source") None)
  else
    updated ← catch (fun err =>
                  if isUniqueName err
                  then throw (ConflictError (js "an alert rule with that name already exists"))
                  else throw err)
                (rules_update rules (ctx_tenantId ctx) id patch);
    required (js "alert rule not found") updated.

Definition remove (ctx : TenantContext) (id : jsstr) : prog world unit :=
  _ ← authorize ctx alert_delete;
  deleted ← rules_delete rules (ctx_tenantId ctx) id;
  must (js "alert rule not found") deleted.

End AlertRuleService.
End AlertRuleService.

(** ** Saved queries *)

Record CreateSavedQueryCommand := mkCreateSavedQueryCommand {
  cq_name : jsstr;
  cq_description : option (option jsstr);
  cq_queryText : jsstr;
  cq_filters : SavedQueryFilters;
  cq_timeRange : jsobject
}.

Module SavedQueryService.
Section SavedQueryService.
Context (queries : SavedQueryRepository world).

Definition create (ctx : TenantContext) (cmd : CreateSavedQueryCommand) : prog world SavedQuery :=
  _ ← authorize ctx savedquery_create;
  or_conflict (js "a saved query named '" ++ cq_name cmd ++ js "' already exists")
    (queries_create queries (ctx_tenantId ctx)
       {| nq_name := cq_name cmd;
          nq_description := Some (default None (cq_description cmd));
          nq_queryText := cq_queryText cmd;
          nq_filters := cq_filters cmd;
          nq_timeRange := cq_timeRange cmd;
          nq_createdBy := Some (ctx_principalId ctx) |}).

Definition list_ (ctx : TenantContext) : prog world (list SavedQuery) :=
  _ ← authorize ctx savedquery_list;
  queries_list queries (ctx_tenantId ctx).

Definition get (ctx : TenantContext) (id : jsstr) : prog world SavedQuery :=
  _ ← authorize ctx savedquery_read;
  sq ← queries_findById queries (ctx_tenantId ctx) id;
  required (js "saved query not found") sq.

Definition update (ctx : TenantContext) (id : jsstr) (patch : SavedQueryPatch) : prog world SavedQuery :=
  _ ← authorize ctx savedquery_update;
  updated ← or_conflict (js "a saved query with that name already exists")
              (queries_update queries (ctx_tenantId ctx) id patch);
  required (js "saved query not found") updated.

Definition remove (ctx : TenantContext) (id : jsstr) : prog world unit :=
  _ ← authorize ctx savedquery_delete;
  deleted ← queries_delete queries (ctx_tenantId ctx) id;
  must (js "saved query not found") deleted.

End SavedQueryService.
End SavedQueryService.

(** ** Dashboards *)

Record CreateDashboardCommand := mkCreateDashboardCommand {
  cd_name : jsstr;
  cd_description : option (option jsstr);
  cd_layout : DashboardLayout
}.

Module DashboardService.
Section DashboardService.
Context (dashboards : DashboardRepository world).

Definition create (ctx : TenantContext) (cmd : CreateDashboardCommand) : prog world Dashboard :=
  _ ← authorize ctx dashboard_create;
  or_conflict (js "a dashboard named '" ++ cd_name cmd ++ js "' already exists")
    (dashboards_create dashboards (ctx_tenantId ctx)
       (mkNewDashboard (cd_name cmd) (Some (default None (cd_description cmd))) (cd_layout cmd)
          (Some (ctx_principalId ctx)))).

Definition list_ (ctx : TenantContext) : prog world (list Dashboard) :=
  _ ← authorize ctx dashboard_list;
  dashboards_list dashboards (ctx_tenantId ctx).

Definition get (ctx : TenantContext) (id : jsstr) : prog world Dashboard :=
  _ ← authorize ctx dashboard_read;
  dash ← dashboards_findById dashboards (ctx_tenantId ctx) id;
  required (js "dashboard not found") dash.

Definition update (ctx : TenantContext) (id : jsstr) (patch : DashboardPatch) : prog world Dashboard :=
  _ ← authorize ctx dashboard_update;
  updated ← or_conflict (js "a dashboard with that name already exists")
              (dashboards_update dashboards (ctx_tenantId ctx) id patch);
  required (js "dashboard not found") updated.

Definition remove (ctx : TenantContext) (id : jsstr) : prog world unit :=
  _ ← authorize ctx dashboard_delete;
  deleted ← dashboards_delete dashboards (ctx_tenantId ctx) id;
  must (js "dashboard not found") deleted.

End DashboardService.
End DashboardService.

(** ** Invites *)

Definition INVITE_SECRET_HEX_LENGTH : nat := INVITE_SECRET_BYTES * 2.

Record CreateInviteCommand := mkCreateInviteCommand { cv_email : jsstr; cv_role : jsstr }.

Record IssuedInvite := mkIssuedInvite { ii_invite : Invite; ii_inviteUrl : jsstr }.

(** The configuration the service reads. *)
Record InviteConfig := mkInviteConfig {
  inviteTtlSeconds : Z;
  inviteMaxOutstandingPerTenant : Z;
  inviteAcceptBaseUrl : jsstr
}.

(** A number in a template string. *)
Definition js_number (n : Z) : jsstr := js (pretty n).

Module InviteService.
Section InviteService.
Context `{Crypto, Unicode} (invites : InviteRepository world) (tenants : TenantRepository world)
  (secretGenerator : SecretGenerator world) (clock : Clock world) (emailSender : EmailSender world)
  (auditLogger : InviteAuditLogger world) (config : InviteConfig).

(** The mail of an invite. *)
Definition invite_email (to inviteUrl : jsstr) : EmailMessage :=
  {| em_to := to;
     em_subject := js "You have been invited to Logalot";
     em_text := js "You have been invited. Use this link to accept your invitation: " ++ inviteUrl;
     em_html := Some (js "<p>You have been invited. <a href=" ++ [34%N] ++ inviteUrl ++ [34%N]
                      ++ js ">Accept your invitation</a>.</p>") |}.

Definition create (ctx : TenantContext) (cmd : CreateInviteCommand) : prog world IssuedInvite :=
  _ ← authorize ctx invite_create;
  tenant ← tenants_findById tenants (ctx_tenantId ctx);
  tenant ← required (js "tenant not found") tenant;
  pendingCount ← invites_countPending invites (ctx_tenantId ctx);
  if (inviteMaxOutstandingPerTenant config <=? pendingCount)%Z
  then throw (ConflictError (js "outstanding invite cap reached (max "
                             ++ js_number (inviteMaxOutstandingPerTenant config) ++ js ")"))
  else
    let email := normalizeEmail (cv_email cmd) in
    rawSecret ← secrets_generate secretGenerator;
    if negb (length rawSecret =? INVITE_SECRET_HEX_LENGTH)
    then throw (EError (js "secret generator must yield exactly "
                        ++ js_number (Z.of_nat INVITE_SECRET_HEX_LENGTH) ++ js " hex chars; got "
                        ++ js_number (Z.of_nat (length rawSecret))))
    else
      let secretHash := hashInviteSecret rawSecret in
      let plaintext := assembleInviteToken (tn_publicId tenant) rawSecret in
      now ← clock_now clock;
      let expiresAt := (now + inviteTtlSeconds config * 1000)%Z in
      invite ← invites_create invites (ctx_tenantId ctx)
                 {| nv_role := cv_role cmd;
                    nv_email := email;
                    nv_secretHash := secretHash;
                    nv_invitedBy := Some (ctx_principalId ctx);
                    nv_expiresAt := expiresAt |};
      let inviteUrl := inviteAcceptBaseUrl config ++ js "/invite/accept?token=" ++ plaintext in
      _ ← invite_log auditLogger
            {| ie_tenantId := ctx_tenantId ctx;
               ie_inviteId := iv_id invite;
               ie_actorId := ctx_principalId ctx;
               ie_outcome := invite_created;
               ie_email := iv_email invite;
               ie_role := iv_role invite;
               ie_ts := now |};
      _ ← catch (fun _ => mret tt) (email_send emailSender (invite_email (iv_email invite) inviteUrl));
      mret (mkIssuedInvite invite inviteUrl).

Definition list_ (ctx : TenantContext) : prog world (list Invite) :=
  _ ← authorize ctx invite_list;
  invites_listByTenant invites (ctx_tenantId ctx).

Definition revoke (ctx : TenantContext) (id : jsstr) : prog world unit :=
  _ ← authorize ctx Rbac.invite_revoke;
  now ← clock_now clock;
  revoked ← invites_revoke invites (ctx_tenantId ctx) id now;
  _ ← must (js "invite not found") revoked;
  invite_log auditLogger
    {| ie_tenantId := ctx_tenantId ctx;
       ie_inviteId := id;
       ie_actorId := ctx_principalId ctx;
       ie_outcome := invite_revoked;
       ie_email := [];
       ie_role := [];
       ie_ts := now |}.

End InviteService.
End InviteService.
