(* ===== verification/UseCases.v ===== *)
(** * Every use case

    One constructor per operation of the application services, served over any
    choice of ports; [pg_ports] is the composition root's choice.  The theorems
    say that a caller without the permission causes no step at all, that a use
    case writes rows of its own tenant only, and what the writing use cases do. *)

From stdpp Require Import base list option numbers strings gmap.
From S2P Require Import Prelude Errors Effects Tokens Rbac Email Entities Ports Uuid Schema World Sql.
From S2P Require Import Integrity Eval Demo PgUsers PgTokens PgInvites PgContent Calls Adapters Sessions Services.

(** The ports of the services ([container.ts]). *)
Record ServicePorts := mkServicePorts {
  sv_tenants : TenantRepository world;
  sv_users : UserRepository world;
  sv_apiKeys : ApiKeyRepository world;
  sv_retention : RetentionRepository world;
  sv_alertRules : AlertRuleRepository world;
  sv_savedQueries : SavedQueryRepository world;
  sv_dashboards : DashboardRepository world;
  sv_invites : InviteRepository world;
  sv_hasher : PasswordHasher world;
  sv_keyMaterial : KeyMaterialGenerator world;
  sv_secrets : SecretGenerator world;
  sv_clock : Clock world;
  sv_email : EmailSender world;
  sv_inviteAudit : InviteAuditLogger world;
  sv_config : InviteConfig
}.

Inductive use_case : Type -> Type :=
| UserCreate (cmd : CreateUserCommand) : use_case User
| UserList : use_case (list User)
| UserGet (id : jsstr) : use_case User
| UserUpdate (id : jsstr) (cmd : UpdateUserCommand) : use_case User
| UserRemove (id : jsstr) : use_case unit
| TenantCreate (cmd : CreateTenantCommand) : use_case Tenant
| TenantProvisionAdmin (tenantId : jsstr) (cmd : ProvisionAdminCommand) : use_case User
| TenantList : use_case (list Tenant)
| TenantGet (id : jsstr) : use_case Tenant
| TenantUpdate (id : jsstr) (patch : TenantPatch) : use_case Tenant
| TenantRemove (id : jsstr) : use_case unit
| ApiKeyIssue (cmd : IssueApiKeyCommand) : use_case IssuedApiKey
| ApiKeyList : use_case (list ApiKeyRecord)
| ApiKeyRevoke (keyId : jsstr) : use_case unit
| RetentionGetPolicy : use_case RetentionPolicy
| RetentionSet (cmd : UpsertRetentionCommand) : use_case RetentionPolicy
| RuleCreate (cmd : CreateAlertRuleCommand) : use_case AlertRule
| RuleList : use_case (list AlertRule)
| RuleGet (id : jsstr) : use_case AlertRule
| RuleUpdate (id : jsstr) (patch : AlertRulePatch) : use_case AlertRule
| RuleRemove (id : jsstr) : use_case unit
| QueryCreate (cmd : CreateSavedQueryCommand) : use_case SavedQuery
| QueryList : use_case (list SavedQuery)
| QueryGet (id : jsstr) : use_case SavedQuery
| QueryUpdate (id : jsstr) (patch : SavedQueryPatch) : use_case SavedQuery
| QueryRemove (id : jsstr) : use_case unit
| DashCreate (cmd : CreateDashboardCommand) : use_case Dashboard
| DashList : use_case (list Dashboard)
| DashGet (id : jsstr) : use_case Dashboard
| DashUpdate (id : jsstr) (patch : DashboardPatch) : use_case Dashboard
| DashRemove (id : jsstr) : use_case unit
| InviteCreate (cmd : CreateInviteCommand) : use_case IssuedInvite
| InviteList : use_case (list Invite)
| InviteRevoke (id : jsstr) : use_case unit.

Section Serve.
Context `{Crypto, Unicode} (P : ServicePorts) (ctx : TenantContext).

Definition perform_as {A} (c : use_case A) : prog world A :=
  let users := sv_users P in
  let hasher := sv_hasher P in
  let tenants := sv_tenants P in
  let keys := sv_apiKeys P in
  let rules := sv_alertRules P in
  let queries := sv_savedQueries P in
  let dashboards := sv_dashboards P in
  let invites := sv_invites P in
  match c in use_case A return prog world A with
  | UserCreate cmd => UserService.create users hasher ctx cmd
  | UserList => UserService.list_ users ctx
  | UserGet id => UserService.get users ctx id
  | UserUpdate id cmd => UserService.update users hasher ctx id cmd
  | UserRemove id => UserService.remove users ctx id
  | TenantCreate cmd => TenantService.create tenants ctx cmd
  | TenantProvisionAdmin t cmd => TenantService.provisionAdmin tenants users hasher ctx t cmd
  | TenantList => TenantService.list_ tenants ctx
  | TenantGet id => TenantService.get tenants ctx id
  | TenantUpdate id patch => TenantService.update tenants ctx id patch
  | TenantRemove id => TenantService.remove tenants ctx id
  | ApiKeyIssue cmd => ApiKeyService.issue keys tenants (sv_keyMaterial P) ctx cmd
  | ApiKeyList => ApiKeyService.list_ keys ctx
  | ApiKeyRevoke k => ApiKeyService.revoke keys (sv_clock P) ctx k
  | RetentionGetPolicy => RetentionService.get (sv_retention P) ctx
  | RetentionSet cmd => RetentionService.upsert (sv_retention P) ctx cmd
  | RuleCreate cmd => AlertRuleService.create rules ctx cmd
  | RuleList => AlertRuleService.list_ rules ctx
  | RuleGet id => AlertRuleService.get rules ctx id
  | RuleUpdate id patch => AlertRuleService.update rules ctx id patch
  | RuleRemove id => AlertRuleService.remove rules ctx id
  | QueryCreate cmd => SavedQueryService.create queries ctx cmd
  | QueryList => SavedQueryService.list_ queries ctx
  | QueryGet id => SavedQueryService.get queries ctx id
  | QueryUpdate id patch => SavedQueryService.update queries ctx id patch
  | QueryRemove id => SavedQueryService.remove queries ctx id
  | DashCreate cmd => DashboardService.create dashboards ctx cmd
  | DashList => DashboardService.list_ dashboards ctx
  | DashGet id => DashboardService.get dashboards ctx id
  | DashUpdate id patch => DashboardService.update dashboards ctx id patch
  | DashRemove id => DashboardService.remove dashboards ctx id
  | InviteCreate cmd =>
      InviteService.create invites tenants (sv_secrets P) (sv_clock P) (sv_email P)
        (sv_inviteAudit P) (sv_config P) ctx cmd
  | InviteList => InviteService.list_ invites ctx
  | InviteRevoke id => InviteService.revoke invites (sv_clock P) (sv_inviteAudit P) ctx id
  end.

End Serve.

(** The permission a use case asks for. *)
Definition operation_of {A} (c : use_case A) : Operation :=
  match c with
  | UserCreate _ => user_create
  | UserList => user_list
  | UserGet _ => user_read
  | UserUpdate _ _ => user_update
  | UserRemove _ => user_delete
  | TenantCreate _ => tenant_create
  | TenantProvisionAdmin _ _ => tenant_provision_admin
  | TenantList => tenant_list
  | TenantGet _ => tenant_read
  | TenantUpdate _ _ => tenant_update
  | TenantRemove _ => tenant_delete
  | ApiKeyIssue _ => apikey_create
  | ApiKeyList => apikey_list
  | ApiKeyRevoke _ => apikey_revoke
  | RetentionGetPolicy => retention_read
  | RetentionSet _ => retention_update
  | RuleCreate _ => alert_create
  | RuleList => alert_list
  | RuleGet _ => alert_read
  | RuleUpdate _ _ => alert_update
  | RuleRemove _ => alert_delete
  | QueryCreate _ => savedquery_create
  | QueryList => savedquery_list
  | QueryGet _ => savedquery_read
  | QueryUpdate _ _ => savedquery_update
  | QueryRemove _ => savedquery_delete
  | DashCreate _ => dashboard_create
  | DashList => dashboard_list
  | DashGet _ => dashboard_read
  | DashUpdate _ _ => dashboard_update
  | DashRemove _ => dashboard_delete
  | InviteCreate _ => Rbac.invite_create
  | InviteList => Rbac.invite_list
  | InviteRevoke _ => Rbac.invite_revoke
  end.

(** The tenant whose rows a use case may write; the registry has no owner. *)
Definition target_of {A} (ctx : TenantContext) (c : use_case A) : option jsstr :=
  match c with
  | TenantCreate _ | TenantList | TenantGet _ | TenantUpdate _ _ | TenantRemove _ => None
  | TenantProvisionAdmin t _ => Some t
  | _ => Some (ctx_tenantId ctx)
  end.

(** The composition root's ports, the mail sender excepted. *)
Definition pg_ports `{Entropy, Bcrypt} (cost : Z) (email : EmailSender world) (config : InviteConfig)
    : ServicePorts :=
  {| sv_tenants := PgTenantRepository.repository;
     sv_users := PgUserRepository.repository;
     sv_apiKeys := PgApiKeyRepository.repository;
     sv_retention := PgRetentionRepository.repository;
     sv_alertRules := PgAlertRuleRepository.repository;
     sv_savedQueries := PgSavedQueryRepository.repository;
     sv_dashboards := PgDashboardRepository.repository;
     sv_invites := PgInviteRepository.repository;
     sv_hasher := BcryptHasher cost;
     sv_keyMaterial := NodeKeyMaterialGenerator;
     sv_secrets := NodeSecretGenerator;
     sv_clock := SystemClock;
     sv_email := email;
     sv_inviteAudit := ConsoleInviteAuditLogger;
     sv_config := config |}.

(** * Lemmas *)

(** [p] leaves the database alone. *)
Definition leaves_db {A} (p : prog world A) : Prop := forall w, w_db (run p w).2 = w_db w.

(** On behalf of tenant [t] and user [a], [p] leaves the other tenants' rows alone and the
    authors local. *)
Definition isolated_to {A} (t : jsstr) (a : option jsstr) (p : prog world A) : Prop := forall w,
  db_sound (w_db w) -> author_local (w_db w) (armed t) a ->
  others (armed t) (w_db (run p w).2) = others (armed t) (w_db w) /\ db_sound (w_db (run p w).2).

Section Rules.
Context {A B : Type}.

Lemma leaves_ret (r : result exn A) : leaves_db (Ret r).
Proof. done. Qed.

Lemma leaves_atomic (op : world -> result exn A * world) :
  (forall w, w_db (op w).2 = w_db w) -> leaves_db (atomic op).
Proof. intros Hop w. by rewrite run_atomic. Qed.

Lemma leaves_bind (p : prog world A) (f : A -> prog world B) :
  leaves_db p -> (forall a, leaves_db (f a)) -> leaves_db (p ≫= f).
Proof.
  intros Hp Hf w. rewrite run_bind. specialize (Hp w).
  destruct (run p w) as [[a|e] w']; simpl in *; [by rewrite Hf|done].
Qed.

Lemma leaves_catch h (p : prog world A) :
  leaves_db p -> (forall e, leaves_db (h e)) -> leaves_db (catch h p).
Proof.
  intros Hp Hh w. rewrite run_catch. specialize (Hp w).
  destruct (run p w) as [[a|e] w']; simpl in *; [done|by rewrite Hh].
Qed.

Lemma isolated_leaves t a (p : prog world A) : leaves_db p -> isolated_to t a p.
Proof. intros Hp w Hs _. by rewrite Hp. Qed.

(** Reading first, then the write. *)
Lemma isolated_after_read t a (p : prog world A) (f : A -> prog world B) :
  leaves_db p -> (forall x, isolated_to t a (f x)) -> isolated_to t a (p ≫= f).
Proof.
  intros Hp Hf w Hs Ha. rewrite run_bind. specialize (Hp w).
  destruct (run p w) as [[x|e] w']; simpl in *; [|by rewrite Hp].
  rewrite <-Hp in Hs, Ha |- *. by apply Hf.
Qed.

(** The write, then the rest. *)
Lemma isolated_before_read t a (p : prog world A) (f : A -> prog world B) :
  isolated_to t a p -> (forall x, leaves_db (f x)) -> isolated_to t a (p ≫= f).
Proof.
  intros Hp Hf w Hs Ha. rewrite run_bind. specialize (Hp w Hs Ha).
  destruct (run p w) as [[x|e] w']; simpl in *; [by rewrite Hf|done].
Qed.

Lemma isolated_catch t a h (p : prog world A) :
  isolated_to t a p -> (forall e, leaves_db (h e)) -> isolated_to t a (catch h p).
Proof.
  intros Hp Hh w Hs Ha. rewrite run_catch. specialize (Hp w Hs Ha).
  destruct (run p w) as [[x|e] w']; simpl in *; [done|by rewrite Hh].
Qed.

End Rules.

Lemma isolated_call `{Entropy} {A} (c : repo_call A) t a :
  call_tenant c = Some t -> call_author c ≫= uuid_in = None \/ call_author c ≫= uuid_in = a -> isolated_to t a (perform c).
Proof.
  intros Ht Hc w Hs Ha. split; [by apply tenant_call_isolated, so_authors|]. apply call_sound; [|done].
  intros t' Ht'. simplify_eq. destruct Hc as [->| ->]; [apply author_local_none|done].
Qed.

Lemma leaves_call `{Entropy} {A} (c : repo_call A) t :
  call_tenant c = Some t -> is_read c = true -> leaves_db (perform c).
Proof. intros Ht Hr w. by rewrite (proj1 (tenant_read_own c t w Ht Hr)). Qed.

Lemma leaves_tenant_findById id : leaves_db (PgTenantRepository.findById id).
Proof.
  intros w. unfold PgTenantRepository.findById. rewrite run_bind, run_pool_select_tenants.
  by destruct (uuid_param id).
Qed.

Lemma leaves_required {A} m (x : option A) : leaves_db (required m x).
Proof. by destruct x. Qed.

Lemma leaves_must m b : leaves_db (must m b).
Proof. by destruct b. Qed.

Lemma leaves_draw {A} (f : nat -> A) : leaves_db (draw f).
Proof. by intros w. Qed.

Ltac leaves_auto :=
  repeat first
    [ apply leaves_ret
    | apply leaves_required
    | apply leaves_must
    | apply leaves_draw
    | lazymatch goal with
      | |- leaves_db (invites_countPending _ ?t) => exact (leaves_call (InvitesCountPending t) t eq_refl eq_refl)
      | |- leaves_db (users_list _ ?t) => exact (leaves_call (UsersList t) t eq_refl eq_refl)
      | |- leaves_db (users_findById _ ?t ?i) => exact (leaves_call (UsersFindById t i) t eq_refl eq_refl)
      | |- leaves_db (apikeys_list _ ?t) => exact (leaves_call (ApiKeysList t) t eq_refl eq_refl)
      | |- leaves_db (retention_get _ ?t) => exact (leaves_call (RetentionGet t) t eq_refl eq_refl)
      | |- leaves_db (rules_list _ ?t) => exact (leaves_call (RulesList t) t eq_refl eq_refl)
      | |- leaves_db (rules_findById _ ?t ?i) => exact (leaves_call (RulesFindById t i) t eq_refl eq_refl)
      | |- leaves_db (queries_list _ ?t) => exact (leaves_call (QueriesList t) t eq_refl eq_refl)
      | |- leaves_db (queries_findById _ ?t ?i) => exact (leaves_call (QueriesFindById t i) t eq_refl eq_refl)
      | |- leaves_db (dashboards_list _ ?t) => exact (leaves_call (DashboardsList t) t eq_refl eq_refl)
      | |- leaves_db (dashboards_findById _ ?t ?i) => exact (leaves_call (DashboardsFindById t i) t eq_refl eq_refl)
      | |- leaves_db (invites_listByTenant _ ?t) => exact (leaves_call (InvitesList t) t eq_refl eq_refl)
      | |- leaves_db (tenants_findById _ ?t) => exact (leaves_tenant_findById t)
      end
    | apply leaves_atomic; done
    | apply leaves_bind; [|intros ?]
    | apply leaves_catch; [|intros ?]
    | match goal with |- leaves_db (match ?x with _ => _ end) => destruct x end
    | by auto ].

(** The one writing call of a use case. *)
Ltac write_call :=
  lazymatch goal with
  | |- isolated_to _ _ (users_create _ ?t ?i) => refine (isolated_call (UsersCreate t i) t _ eq_refl _); by auto
  | |- isolated_to _ _ (users_update _ ?t ?i ?p) => refine (isolated_call (UsersUpdate t i p) t _ eq_refl _); by auto
  | |- isolated_to _ _ (users_delete _ ?t ?i) => refine (isolated_call (UsersDelete t i) t _ eq_refl _); by auto
  | |- isolated_to _ _ (apikeys_create _ ?t ?i) => refine (isolated_call (ApiKeysCreate t i) t _ eq_refl _); by auto
  | |- isolated_to _ _ (apikeys_revoke _ ?t ?k ?n) => refine (isolated_call (ApiKeysRevoke t k n) t _ eq_refl _); by auto
  | |- isolated_to _ _ (retention_upsert _ ?t ?i) => refine (isolated_call (RetentionUpsert t i) t _ eq_refl _); by auto
  | |- isolated_to _ _ (rules_create _ ?t ?i) => refine (isolated_call (RulesCreate t i) t _ eq_refl _); by auto
  | |- isolated_to _ _ (rules_update _ ?t ?i ?p) => refine (isolated_call (RulesUpdate t i p) t _ eq_refl _); by auto
  | |- isolated_to _ _ (rules_delete _ ?t ?i) => refine (isolated_call (RulesDelete t i) t _ eq_refl _); by auto
  | |- isolated_to _ _ (queries_create _ ?t ?i) => refine (isolated_call (QueriesCreate t i) t _ eq_refl _); by auto
  | |- isolated_to _ _ (queries_update _ ?t ?i ?p) => refine (isolated_call (QueriesUpdate t i p) t _ eq_refl _); by auto
  | |- isolated_to _ _ (queries_delete _ ?t ?i) => refine (isolated_call (QueriesDelete t i) t _ eq_refl _); by auto
  | |- isolated_to _ _ (dashboards_create _ ?t ?i) => refine (isolated_call (DashboardsCreate t i) t _ eq_refl _); by auto
  | |- isolated_to _ _ (dashboards_update _ ?t ?i ?p) => refine (isolated_call (DashboardsUpdate t i p) t _ eq_refl _); by auto
  | |- isolated_to _ _ (dashboards_delete _ ?t ?i) => refine (isolated_call (DashboardsDelete t i) t _ eq_refl _); by auto
  | |- isolated_to _ _ (invites_create _ ?t ?i) => refine (isolated_call (InvitesCreate t i) t _ eq_refl _); by auto
  | |- isolated_to _ _ (invites_revoke _ ?t ?i ?n) => refine (isolated_call (InvitesRevoke t i n) t _ eq_refl _); by auto
  end.

Ltac isolated_auto :=
  repeat first
    [ write_call
    | apply isolated_leaves; solve [leaves_auto]
    | apply isolated_catch; [|intros ?; solve [leaves_auto]]
    | apply isolated_after_read; [solve [leaves_auto]|intros ?]
    | apply isolated_before_read; [|intros ?; solve [leaves_auto]]
    | match goal with |- isolated_to _ _ (match ?x with _ => _ end) => destruct x end ].

Section Isolation.
Context `{Entropy, Bcrypt, Crypto, Unicode} (cost : Z) (email : EmailSender world) (config : InviteConfig).
Context (Hmail : forall m, leaves_db (email_send email m)).

Lemma use_case_isolated {A} (c : use_case A) ctx t :
  target_of ctx c = Some t ->
  isolated_to t (uuid_in (ctx_principalId ctx)) (perform_as (pg_ports cost email config) ctx c).
Proof.
  intros Ht. destruct c; try discriminate; injection Ht as <-; cbn [perform_as pg_ports];
    unfold UserService.create, UserService.list_, UserService.get, UserService.update, UserService.remove,
      TenantService.provisionAdmin, ApiKeyService.issue, ApiKeyService.list_, ApiKeyService.revoke,
      RetentionService.get, RetentionService.upsert, AlertRuleService.create, AlertRuleService.list_,
      AlertRuleService.get, AlertRuleService.update, AlertRuleService.remove,
      SavedQueryService.create, SavedQueryService.list_, SavedQueryService.get, SavedQueryService.update,
      SavedQueryService.remove, DashboardService.create, DashboardService.list_, DashboardService.get,
      DashboardService.update, DashboardService.remove, InviteService.create, InviteService.list_,
      InviteService.revoke, or_conflict, authorize; isolated_auto.
Qed.

End Isolation.

(** ** Creating tenant content *)

Section Content.
Context `{EntropyLaws, Bcrypt, Crypto, Unicode} (cost : Z) (email : EmailSender world) (config : InviteConfig).
Abbreviation P := (pg_ports cost email config).
Context (ctx : TenantContext) (t a : jsstr) (w : world).
Context (Ht : uuid_in (ctx_tenantId ctx) = Some t) (Ha : uuid_in (ctx_principalId ctx) = Some a)
        (Hte : tenant_exists (w_db w) t = true) (Hue : user_id_exists (w_db w) a = true).

(** The world after a failed or a successful insert. *)
Definition id_drawn : world := set_db_seq (w_db w) (S (w_pgseq w)) w.

Definition new_query (cmd : CreateSavedQueryCommand) : saved_queries_row :=
  mk_saved_queries (pg_uuid (w_pgseq w)) t (cq_name cmd) (default None (cq_description cmd))
    (cq_queryText cmd) (cq_filters cmd) (cq_timeRange cmd) (Some a) (w_dbnow w) (w_dbnow w).

Definition new_dashboard (cmd : CreateDashboardCommand) : dashboards_row :=
  mk_dashboards (pg_uuid (w_pgseq w)) t (cd_name cmd) (default None (cd_description cmd))
    (cd_layout cmd) (Some a) (w_dbnow w) (w_dbnow w).

Lemma run_authorize {A} op (p : prog world A) :
  can (ctx_role ctx) op = true -> run (_ ← authorize ctx op; p) w = run p w.
Proof. intros Hc. unfold authorize. by rewrite run_bind, (proj2 (assertCan_Ok ctx op) Hc). Qed.

Lemma uuid_param_tenant : uuid_param (ctx_tenantId ctx) = Ok t.
Proof. by apply uuid_param_Ok. Qed.

Lemma uuid_param_actor : uuid_param_opt (Some (ctx_principalId ctx)) = Ok (Some a).
Proof. simpl. by rewrite (proj2 (uuid_param_Ok _ _) Ha). Qed.

Lemma run_query_create cmd :
  can (ctx_role ctx) savedquery_create = true ->
  run (perform_as P ctx (QueryCreate cmd)) w =
  if existsb (t_conflict (new_query cmd)) (d_saved_queries (w_db w))
  then (Err (ConflictError (js "a saved query named '" ++ cq_name cmd ++ js "' already exists")), id_drawn)
  else (Ok (PgSavedQueryRepository.toSavedQuery (new_query cmd)),
        set_db_seq (inserted (new_query cmd) w) (S (w_pgseq w)) w).
Proof.
  intros Hc. cbn [perform_as]. unfold SavedQueryService.create. rewrite run_authorize by done.
  unfold or_conflict. rewrite run_catch.
  change (queries_create (sv_savedQueries P)) with PgSavedQueryRepository.create.
  unfold PgSavedQueryRepository.create. cbn [nq_createdBy nq_name nq_description nq_queryText nq_filters nq_timeRange].
  rewrite uuid_param_tenant, uuid_param_actor. simpl default.
  destruct (existsb _ _) eqn:E.
  - by rewrite (run_tx_insert_conflict _ t _ (new_query cmd) w).
  - rewrite (run_tx_insert _ t _ (new_query cmd) w) with
      (a := Ok (PgSavedQueryRepository.toSavedQuery (new_query cmd))); try done.
    apply andb_true_iff. split; [exact Hte|exact Hue].
Qed.

Lemma run_dashboard_create cmd :
  can (ctx_role ctx) dashboard_create = true ->
  run (perform_as P ctx (DashCreate cmd)) w =
  if existsb (t_conflict (new_dashboard cmd)) (d_dashboards (w_db w))
  then (Err (ConflictError (js "a dashboard named '" ++ cd_name cmd ++ js "' already exists")), id_drawn)
  else (Ok (PgDashboardRepository.toDashboard (new_dashboard cmd)),
        set_db_seq (inserted (new_dashboard cmd) w) (S (w_pgseq w)) w).
Proof.
  intros Hc. cbn [perform_as]. unfold DashboardService.create. rewrite run_authorize by done.
  unfold or_conflict. rewrite run_catch.
  change (dashboards_create (sv_dashboards P)) with PgDashboardRepository.create.
  unfold PgDashboardRepository.create. cbn [nd_createdBy nd_name nd_description nd_layout].
  rewrite uuid_param_tenant, uuid_param_actor. simpl default.
  destruct (existsb _ _) eqn:E.
  - by rewrite (run_tx_insert_conflict _ t _ (new_dashboard cmd) w).
  - rewrite (run_tx_insert _ t _ (new_dashboard cmd) w) with
      (a := Ok (PgDashboardRepository.toDashboard (new_dashboard cmd))); try done.
    apply andb_true_iff. split; [exact Hte|exact Hue].
Qed.

(** *** Alert rules *)

Definition new_rule (cmd : CreateAlertRuleCommand) (sq : option jsstr) : alert_rules_row :=
  mk_alert_rules (pg_uuid (w_pgseq w)) t (ca_name cmd) sq (ca_query cmd) (ca_comparator cmd)
    (ca_threshold cmd) (ca_windowSeconds cmd) (ca_severity cmd) (ca_enabled cmd)
    (ca_notifyChannels cmd) a_ok None None (Some a) (w_dbnow w) (w_dbnow w).

Definition valid_channels (l : list NotifyChannel) : bool :=
  forallb (fun c => match c with webhook url => truthy url | email_channel to => truthy to end) l.

Lemma assertChannels_spec l :
  is_ok (AlertRuleService.assertChannels l) = valid_channels l.
Proof. induction l as [|[x|x] l IH]; simpl; [done| |]; by destruct (truthy x). Qed.

Lemma hasInlineQuery_nonempty q : hasInlineQuery q = true -> q <> empty_query.
Proof. by intros Hq ->. Qed.

Lemma assertQuerySource_spec cmd sq :
  uuid_param_opt (default None (ca_savedQueryId cmd)) = Ok sq ->
  AlertRuleService.assertQuerySource (default None (ca_savedQueryId cmd)) (ca_query cmd) =
  if xorb (bool_decide (sq <> None)) (hasInlineQuery (ca_query cmd)) then Ok tt
  else Err (ValidationError (js "provide exactly one of: savedQueryId, or a non-empty query") None).
Proof.
  intros Hsq. unfold AlertRuleService.assertQuerySource.
  replace (bool_decide (default None (ca_savedQueryId cmd) <> None)) with (bool_decide (sq <> None)).
  - by destruct (bool_decide (sq <> None)), (hasInlineQuery (ca_query cmd)).
  - destruct (default None (ca_savedQueryId cmd)) as [x|]; simpl in Hsq; [|by simplify_eq].
    unfold uuid_param in Hsq. destruct (uuid_in x); by simplify_eq/=.
Qed.

Lemma run_rule_create cmd sq :
  can (ctx_role ctx) alert_create = true -> valid_channels (ca_notifyChannels cmd) = true ->
  uuid_param_opt (default None (ca_savedQueryId cmd)) = Ok sq ->
  bool_decide (sq <> None) = negb (hasInlineQuery (ca_query cmd)) ->
  (30 <= ca_windowSeconds cmd <= 86400)%Z ->
  run (perform_as P ctx (RuleCreate cmd)) w =
  if existsb (t_conflict (new_rule cmd sq)) (d_alert_rules (w_db w))
  then (Err (ConflictError (js "an alert rule named '" ++ ca_name cmd ++ js "' already exists")), id_drawn)
  else (Ok (PgAlertRuleRepository.toRule (new_rule cmd sq)),
        set_db_seq (inserted (new_rule cmd sq) w) (S (w_pgseq w)) w).
Proof.
  intros Hc Hch Hsq Hsrc Hwin. cbn [perform_as]. unfold AlertRuleService.create.
  rewrite run_authorize by done.
  assert (Hok : AlertRuleService.assertChannels (ca_notifyChannels cmd) = Ok tt).
  { pose proof (assertChannels_spec (ca_notifyChannels cmd)) as E. rewrite Hch in E.
    by destruct (AlertRuleService.assertChannels _) as [[]|]. }
  rewrite Hok, bind_Ret_Ok.
  assert (Hs : AlertRuleService.assertQuerySource (default None (ca_savedQueryId cmd)) (ca_query cmd) = Ok tt).
  { rewrite (assertQuerySource_spec cmd sq Hsq), Hsrc. by destruct (hasInlineQuery _). }
  rewrite Hs, bind_Ret_Ok, run_catch.
  change (rules_create (sv_alertRules P)) with PgAlertRuleRepository.create.
  unfold PgAlertRuleRepository.create.
  cbn [na_name na_savedQueryId na_query na_comparator na_threshold na_windowSeconds na_severity
       na_enabled na_notifyChannels na_createdBy].
  assert (Hint : int4_param (ca_windowSeconds cmd) = Ok (ca_windowSeconds cmd)).
  { unfold int4_param.
    destruct (Z.leb_spec (-2147483648) (ca_windowSeconds cmd)),
      (Z.leb_spec (ca_windowSeconds cmd) 2147483647); simpl; (done || lia). }
  rewrite uuid_param_tenant, uuid_param_actor, Hsq, Hint.
  assert (Hck : t_check (new_rule cmd sq) = true).
  { simpl. destruct (Z.leb_spec 30 (ca_windowSeconds cmd)), (Z.leb_spec (ca_windowSeconds cmd) 86400);
      simpl; try lia. rewrite Hsrc. destruct (hasInlineQuery (ca_query cmd)) eqn:E; simpl; [|done].
    by apply bool_decide_eq_true, hasInlineQuery_nonempty. }
  destruct (existsb _ _) eqn:E.
  - by rewrite (run_tx_insert_conflict _ t _ (new_rule cmd sq) w).
  - rewrite (run_tx_insert _ t _ (new_rule cmd sq) w) with
      (a := Ok (PgAlertRuleRepository.toRule (new_rule cmd sq))); try done.
    apply andb_true_iff. split; [exact Hte|exact Hue].
Qed.

Lemma run_rule_create_channels cmd :
  can (ctx_role ctx) alert_create = true -> valid_channels (ca_notifyChannels cmd) = false ->
  exists message, run (perform_as P ctx (RuleCreate cmd)) w = (Err (ValidationError message None), w).
Proof.
  intros Hc Hch. cbn [perform_as]. unfold AlertRuleService.create. rewrite run_authorize by done.
  generalize dependent (ca_notifyChannels cmd). intros l Hch.
  assert (He : exists m, AlertRuleService.assertChannels l = Err (ValidationError m None)).
  { induction l as [|[x|x] l IH]; simpl in *; [done| |]; destruct (truthy x); simpl; eauto. }
  destruct He as [m ->]. by exists m.
Qed.

Lemma run_rule_create_rejected cmd sq :
  can (ctx_role ctx) alert_create = true -> valid_channels (ca_notifyChannels cmd) = true ->
  uuid_param_opt (default None (ca_savedQueryId cmd)) = Ok sq ->
  xorb (bool_decide (sq <> None)) (hasInlineQuery (ca_query cmd)) = false ->
  exists message, run (perform_as P ctx (RuleCreate cmd)) w = (Err (ValidationError message None), w).
Proof.
  intros Hc Hch Hsq Hx. cbn [perform_as]. unfold AlertRuleService.create. rewrite run_authorize by done.
  pose proof (assertChannels_spec (ca_notifyChannels cmd)) as E. rewrite Hch in E.
  destruct (AlertRuleService.assertChannels _) as [[]|]; [|done]. rewrite bind_Ret_Ok.
  rewrite (assertQuerySource_spec cmd sq Hsq), Hx. by eexists.
Qed.

(** *** Reading back and removing what was created *)

Lemma existsb_ext {R} (f g : R -> bool) l : Forall (fun r => f r = g r) l -> existsb f l = existsb g l.
Proof. induction 1 as [|r l Hr _ IH]; simpl; [done|]. by rewrite Hr, IH. Qed.

(** The outcome of the repository call is [res], by lemma [lem]. *)
Ltac read_back res lem :=
  match goal with
  | |- match ?r with _ => _ end = _ =>
      let E := fresh "E" in
      assert (E : r = res);
      [ eapply lem; try done; intros ? ? E; simpl; by rewrite (bool_decide_eq_true_2 _ E)
      | rewrite E; done ]
  end.

Lemma run_query_get q w1 :
  can (ctx_role ctx) savedquery_read = true -> is_uuid (sqr_id q) = true -> sqr_tenant_id q = t ->
  existsb (t_conflict q) (d_saved_queries (w_db w)) = false -> w_db w1 = inserted q w ->
  run (perform_as P ctx (QueryGet (sqr_id q))) w1 = (Ok (PgSavedQueryRepository.toSavedQuery q), w1).
Proof.
  intros Hc Hid Hq Hx Hw1. cbn [perform_as]. unfold SavedQueryService.get, authorize.
  rewrite (proj2 (assertCan_Ok ctx _) Hc), bind_Ret_Ok, run_bind.
  read_back (Ok (E := exn) (Some (PgSavedQueryRepository.toSavedQuery q)), w1) (run_find_inserted sqr_id).
Qed.

Lemma run_query_remove q w1 :
  can (ctx_role ctx) savedquery_delete = true -> is_uuid (sqr_id q) = true -> sqr_tenant_id q = t ->
  existsb (t_conflict q) (d_saved_queries (w_db w)) = false -> w_db w1 = inserted q w ->
  run (perform_as P ctx (QueryRemove (sqr_id q))) w1 = (Ok tt, set_db_seq (w_db w) (w_pgseq w1) w1).
Proof.
  intros Hc Hid Hq Hx Hw1. cbn [perform_as]. unfold SavedQueryService.remove, authorize.
  rewrite (proj2 (assertCan_Ok ctx _) Hc), bind_Ret_Ok, run_bind.
  read_back (Ok (E := exn) true, set_db_seq (w_db w) (w_pgseq w1) w1) (run_delete_inserted sqr_id).
Qed.

Lemma run_dashboard_get q w1 :
  can (ctx_role ctx) dashboard_read = true -> is_uuid (dsr_id q) = true -> dsr_tenant_id q = t ->
  existsb (t_conflict q) (d_dashboards (w_db w)) = false -> w_db w1 = inserted q w ->
  run (perform_as P ctx (DashGet (dsr_id q))) w1 = (Ok (PgDashboardRepository.toDashboard q), w1).
Proof.
  intros Hc Hid Hq Hx Hw1. cbn [perform_as]. unfold DashboardService.get, authorize.
  rewrite (proj2 (assertCan_Ok ctx _) Hc), bind_Ret_Ok, run_bind.
  read_back (Ok (E := exn) (Some (PgDashboardRepository.toDashboard q)), w1) (run_find_inserted dsr_id).
Qed.

Lemma run_dashboard_remove q w1 :
  can (ctx_role ctx) dashboard_delete = true -> is_uuid (dsr_id q) = true -> dsr_tenant_id q = t ->
  existsb (t_conflict q) (d_dashboards (w_db w)) = false -> w_db w1 = inserted q w ->
  run (perform_as P ctx (DashRemove (dsr_id q))) w1 = (Ok tt, set_db_seq (w_db w) (w_pgseq w1) w1).
Proof.
  intros Hc Hid Hq Hx Hw1. cbn [perform_as]. unfold DashboardService.remove, authorize.
  rewrite (proj2 (assertCan_Ok ctx _) Hc), bind_Ret_Ok, run_bind.
  read_back (Ok (E := exn) true, set_db_seq (w_db w) (w_pgseq w1) w1) (run_delete_inserted dsr_id).
Qed.

Lemma run_rule_get q w1 :
  can (ctx_role ctx) alert_read = true -> is_uuid (arr_id q) = true -> arr_tenant_id q = t ->
  existsb (t_conflict q) (d_alert_rules (w_db w)) = false -> w_db w1 = inserted q w ->
  run (perform_as P ctx (RuleGet (arr_id q))) w1 = (Ok (PgAlertRuleRepository.toRule q), w1).
Proof.
  intros Hc Hid Hq Hx Hw1. cbn [perform_as]. unfold AlertRuleService.get, authorize.
  rewrite (proj2 (assertCan_Ok ctx _) Hc), bind_Ret_Ok, run_bind.
  read_back (Ok (E := exn) (Some (PgAlertRuleRepository.toRule q)), w1) (run_find_inserted arr_id).
Qed.

Lemma run_rule_remove q w1 :
  can (ctx_role ctx) alert_delete = true -> is_uuid (arr_id q) = true -> arr_tenant_id q = t ->
  existsb (t_conflict q) (d_alert_rules (w_db w)) = false -> w_db w1 = inserted q w ->
  run (perform_as P ctx (RuleRemove (arr_id q))) w1 = (Ok tt, set_db_seq (w_db w) (w_pgseq w1) w1).
Proof.
  intros Hc Hid Hq Hx Hw1. cbn [perform_as]. unfold AlertRuleService.remove, authorize.
  rewrite (proj2 (assertCan_Ok ctx _) Hc), bind_Ret_Ok, run_bind.
  read_back (Ok (E := exn) true, set_db_seq (w_db w) (w_pgseq w1) w1) (run_delete_inserted arr_id).
Qed.

(** *** API keys *)

Definition scopes_of (cmd : IssueApiKeyCommand) : list jsstr :=
  match ik_scopes cmd with Some (s :: l) => s :: l | _ => DEFAULT_SCOPES end.

(** The stored key: the hash of the secret, not the secret. *)
Definition new_key (cmd : IssueApiKeyCommand) : api_keys_row :=
  mk_api_keys (node_hex (w_rand w) KEY_ID_BYTES) t (ik_name cmd)
    (hashSecret (node_hex (S (w_rand w)) SECRET_BYTES)) (scopes_of cmd) (Some a) (w_dbnow w) None
    (default None (ik_expiresAt cmd)) None.

Lemma run_key_issue `{!CryptoLaws} cmd tn :
  can (ctx_role ctx) apikey_create = true -> tenant_by_id (w_db w) t = Some tn ->
  Forall (fun r => kr_id r <> node_hex (w_rand w) KEY_ID_BYTES) (d_api_keys (w_db w)) ->
  run (perform_as P ctx (ApiKeyIssue cmd)) w =
  (Ok (mkIssuedApiKey
         (assemblePlaintext (tr_public_id tn) (mkKeyMaterial (node_hex (w_rand w) KEY_ID_BYTES)
                                                 (node_hex (S (w_rand w)) SECRET_BYTES)))
         (PgApiKeyRepository.toRecord (new_key cmd))),
   set_db_seq (inserted (new_key cmd) w) (S (w_pgseq w)) (set_w_rand (S (S (w_rand w))) w)).
Proof.
  intros Hc Htn Hfr. cbn [perform_as]. unfold ApiKeyService.issue. rewrite run_authorize by done.
  rewrite run_bind. change (tenants_findById (sv_tenants P)) with PgTenantRepository.findById.
  rewrite (run_tenants_findById _ t) by done. rewrite Htn. cbn [fmap option_fmap option_map required].
  unfold mret, prog_ret. rewrite bind_Ret_Ok, run_bind. change (sv_keyMaterial P) with NodeKeyMaterialGenerator.
  change (run (keymat_generate NodeKeyMaterialGenerator) w) with
    (Ok (E := exn) (mkKeyMaterial (node_hex (w_rand w) KEY_ID_BYTES) (node_hex (S (w_rand w)) SECRET_BYTES)),
     set_w_rand (S (S (w_rand w))) w). cbn match.
  rewrite run_bind. change (apikeys_create (sv_apiKeys P)) with PgApiKeyRepository.create.
  unfold PgApiKeyRepository.create. fold (scopes_of cmd).
  cbn [nk_createdBy nk_name nk_keyId nk_keyHash nk_scopes nk_expiresAt].
  rewrite uuid_param_tenant, uuid_param_actor.
  rewrite (run_tx_insert _ t _ (new_key cmd) (set_w_rand (S (S (w_rand w))) w)) with
    (a := Ok (PgApiKeyRepository.toRecord (new_key cmd))); try done.
  - simpl. by rewrite sha256_length.
  - apply existsb_false. eapply Forall_impl; [exact Hfr|]. intros r Hr. simpl.
    apply bool_decide_eq_false. congruence.
  - apply andb_true_iff. split; [exact Hte|exact Hue].
Qed.

(** *** Changing the query source of an alert rule *)

Definition source_patch (sq : option jsstr) : AlertRulePatch :=
  mkAlertRulePatch None (Some sq) None None None None None None None.

Lemma run_rule_unset_source id i r :
  can (ctx_role ctx) alert_update = true -> uuid_in id = Some i ->
  In r (d_alert_rules (w_db w)) -> arr_tenant_id r = t -> arr_id r = i -> arr_query r = empty_query ->
  run (perform_as P ctx (RuleUpdate id (source_patch None))) w = (Err (EPg pg_check_violation), w).
Proof.
  intros Hc Hi Hr Hrt Hri Hq. cbn [perform_as]. unfold AlertRuleService.update.
  rewrite run_authorize by done. cbn [ap_notifyChannels ap_query ap_savedQueryId source_patch].
  rewrite bind_Ret_Ok, run_bind, run_catch.
  change (rules_update (sv_alertRules P)) with PgAlertRuleRepository.update.
  unfold PgAlertRuleRepository.update, source_patch. cbn [PgAlertRuleRepository.patch_empty].
  unfold PgAlertRuleRepository.by_id, uuid_param. cbn [ap_savedQueryId ap_windowSeconds].
  rewrite Hi. cbn [PgAlertRuleRepository.saved_query_param uuid_param_opt int4_param_opt fmap].
  cbv beta iota delta [fmap result_fmap]. rewrite !bind_Ok.
  rewrite (run_tx_update_check (ctx_tenantId ctx) t _ _ _ r); try done.
  - by apply bool_decide_eq_true.
  - simpl. rewrite Hq. apply andb_false_r.
Qed.

End Content.

(** The conflict of a new row whose id is fresh is the conflict of its name. *)
Definition name_taken {R} (tenant name_of : R -> jsstr) (t name : jsstr) (l : list R) : bool :=
  existsb (fun r => bool_decide (tenant r = t /\ name_of r = name)) l.

Lemma name_conflict {R} (id tenant name_of : R -> jsstr) (r : R) l :
  Forall (fun x => id x <> id r) l ->
  existsb (fun x => bool_decide (id r = id x)
                    || bool_decide (tenant r = tenant x /\ name_of r = name_of x)) l
  = name_taken tenant name_of (tenant r) (name_of r) l.
Proof.
  intros Hf. apply existsb_ext. eapply Forall_impl; [exact Hf|]. intros x Hx. simpl.
  rewrite (bool_decide_eq_false_2 (id r = id x)) by congruence. simpl. apply bool_decide_ext. naive_solver.
Qed.

(** * Theorems *)

(** A caller whose role lacks a use case's permission gets the forbidden error
    and causes no step at all: no query, no draw of randomness, no mail, no log
    line, whatever adapters are plugged in. *)
Theorem unauthorized_no_effect `{Crypto, Unicode} {A} (P : ServicePorts) ctx (c : use_case A)
    (Hc : can (ctx_role ctx) (operation_of c) = false) :
  exists message, perform_as P ctx c = throw (ForbiddenError message).
Proof.
  exists (js "role '" ++ role_str (ctx_role ctx) ++ js "' may not perform '"
          ++ op_name (operation_of c) ++ js "'").
  assert (Ha : forall o, o = operation_of c -> authorize ctx o = throw (ForbiddenError
            (js "role '" ++ role_str (ctx_role ctx) ++ js "' may not perform '"
             ++ op_name (operation_of c) ++ js "'"))).
  { intros o ->. unfold authorize, assertCan. by rewrite Hc. }
  destruct c; cbn [perform_as operation_of] in *;
    unfold UserService.create, UserService.list_, UserService.get, UserService.update, UserService.remove,
      TenantService.create, TenantService.list_, TenantService.get, TenantService.update,
      TenantService.remove, TenantService.provisionAdmin, ApiKeyService.issue, ApiKeyService.list_,
      ApiKeyService.revoke, RetentionService.get, RetentionService.upsert, AlertRuleService.create,
      AlertRuleService.list_, AlertRuleService.get, AlertRuleService.update, AlertRuleService.remove,
      SavedQueryService.create, SavedQueryService.list_, SavedQueryService.get, SavedQueryService.update,
      SavedQueryService.remove, DashboardService.create, DashboardService.list_, DashboardService.get,
      DashboardService.update, DashboardService.remove, InviteService.create, InviteService.list_,
      InviteService.revoke; by rewrite Ha.
Qed.

(** A use case on behalf of a tenant (every one but those of the registry)
    leaves every row of every other tenant as it was; the provisioning of a
    tenant's first administrator writes rows of that tenant only.  The database must be
    sound and the caller not a user of another tenant, and then it stays sound.  (Mail is
    assumed not to touch the database.) *)
Theorem use_cases_isolated `{Entropy, Bcrypt, Crypto, Unicode} {A} cost email config
    (c : use_case A) ctx t w
    (Hmail : forall m, leaves_db (email_send email m))
    (Ht : target_of ctx c = Some t) (Hs : db_sound (w_db w))
    (Ha : author_local (w_db w) (armed t) (uuid_in (ctx_principalId ctx))) :
  let w' := (run (perform_as (pg_ports cost email config) ctx c) w).2 in
  others (armed t) (w_db w') = others (armed t) (w_db w) /\ db_sound (w_db w').
Proof. by apply use_case_isolated. Qed.

(** The life of a saved query.  An administrator's create under a name the
    tenant already uses answers the conflict error and stores nothing; under a new
    name it stores the query, which reads back as returned, and removing it
    restores the database. *)
Theorem saved_query_lifecycle `{EntropyLaws, Bcrypt, Crypto, Unicode} cost email config ctx cmd t a w
    (Hrole : ctx_role ctx = tenant_admin)
    (Ht : uuid_in (ctx_tenantId ctx) = Some t) (Ha : uuid_in (ctx_principalId ctx) = Some a)
    (Hte : tenant_exists (w_db w) t = true) (Hue : user_id_exists (w_db w) a = true)
    (Hfr : Forall (fun r => sqr_id r <> pg_uuid (w_pgseq w)) (d_saved_queries (w_db w))) :
  let P := pg_ports cost email config in
  if name_taken sqr_tenant_id sqr_name t (cq_name cmd) (d_saved_queries (w_db w))
  then exists message, run (perform_as P ctx (QueryCreate cmd)) w = (Err (ConflictError message), id_drawn w)
  else exists q w1 w2,
    run (perform_as P ctx (QueryCreate cmd)) w = (Ok q, w1) /\
    sq_name q = cq_name cmd /\ sq_queryText q = cq_queryText cmd /\ sq_filters q = cq_filters cmd /\
    run (perform_as P ctx (QueryGet (sq_id q))) w1 = (Ok q, w1) /\
    run (perform_as P ctx (QueryRemove (sq_id q))) w1 = (Ok tt, w2) /\ w_db w2 = w_db w.
Proof.
  intros P.
  assert (Hx : existsb (t_conflict (new_query t a w cmd)) (d_saved_queries (w_db w))
               = name_taken sqr_tenant_id sqr_name t (cq_name cmd) (d_saved_queries (w_db w)))
    by exact (name_conflict sqr_id sqr_tenant_id sqr_name (new_query t a w cmd) _ Hfr).
  assert (Hcan : can (ctx_role ctx) savedquery_create = true /\ can (ctx_role ctx) savedquery_read = true
                 /\ can (ctx_role ctx) savedquery_delete = true) by by rewrite Hrole.
  destruct Hcan as (Hc & Hr & Hd).
  pose proof (run_query_create cost email config ctx t a w Ht Ha Hte Hue cmd Hc) as Hrun.
  rewrite Hx in Hrun. destruct (name_taken _ _ _ _ _); [eauto|].
  eexists _, _, _. split; [exact Hrun|]. do 3 (split; [done|]). split; [|split].
  - refine (run_query_get cost email config ctx t w Ht (new_query t a w cmd) _ Hr _ _ Hx _); try done. apply pg_uuid_form.
  - refine (run_query_remove cost email config ctx t w Ht (new_query t a w cmd) _ Hd _ _ Hx _); try done. apply pg_uuid_form.
  - done.
Qed.

(** The life of a dashboard, as of a saved query. *)
Theorem dashboard_lifecycle `{EntropyLaws, Bcrypt, Crypto, Unicode} cost email config ctx cmd t a w
    (Hrole : ctx_role ctx = tenant_admin)
    (Ht : uuid_in (ctx_tenantId ctx) = Some t) (Ha : uuid_in (ctx_principalId ctx) = Some a)
    (Hte : tenant_exists (w_db w) t = true) (Hue : user_id_exists (w_db w) a = true)
    (Hfr : Forall (fun r => dsr_id r <> pg_uuid (w_pgseq w)) (d_dashboards (w_db w))) :
  let P := pg_ports cost email config in
  if name_taken dsr_tenant_id dsr_name t (cd_name cmd) (d_dashboards (w_db w))
  then exists message, run (perform_as P ctx (DashCreate cmd)) w = (Err (ConflictError message), id_drawn w)
  else exists q w1 w2,
    run (perform_as P ctx (DashCreate cmd)) w = (Ok q, w1) /\
    dh_name q = cd_name cmd /\ dh_layout q = cd_layout cmd /\
    run (perform_as P ctx (DashGet (dh_id q))) w1 = (Ok q, w1) /\
    run (perform_as P ctx (DashRemove (dh_id q))) w1 = (Ok tt, w2) /\ w_db w2 = w_db w.
Proof.
  intros P.
  assert (Hx : existsb (t_conflict (new_dashboard t a w cmd)) (d_dashboards (w_db w))
               = name_taken dsr_tenant_id dsr_name t (cd_name cmd) (d_dashboards (w_db w)))
    by exact (name_conflict dsr_id dsr_tenant_id dsr_name (new_dashboard t a w cmd) _ Hfr).
  assert (Hcan : can (ctx_role ctx) dashboard_create = true /\ can (ctx_role ctx) dashboard_read = true
                 /\ can (ctx_role ctx) dashboard_delete = true) by by rewrite Hrole.
  destruct Hcan as (Hc & Hr & Hd).
  pose proof (run_dashboard_create cost email config ctx t a w Ht Ha Hte Hue cmd Hc) as Hrun.
  rewrite Hx in Hrun. destruct (name_taken _ _ _ _ _); [eauto|].
  eexists _, _, _. split; [exact Hrun|]. do 2 (split; [done|]). split; [|split].
  - refine (run_dashboard_get cost email config ctx t w Ht (new_dashboard t a w cmd) _ Hr _ _ Hx _); try done. apply pg_uuid_form.
  - refine (run_dashboard_remove cost email config ctx t w Ht (new_dashboard t a w cmd) _ Hd _ _ Hx _); try done. apply pg_uuid_form.
  - done.
Qed.

(** The life of an alert rule.  A rule with an empty notification target, or
    with both or neither of a saved query and a non-empty inline query, is a
    validation error without effect; a taken name is a conflict without effect;
    otherwise the rule is stored, reads back as returned, in state ok, and removing
    it restores the database. *)
Theorem alert_rule_lifecycle `{EntropyLaws, Bcrypt, Crypto, Unicode} cost email config ctx cmd t a sq w
    (Hrole : ctx_role ctx = tenant_admin)
    (Ht : uuid_in (ctx_tenantId ctx) = Some t) (Ha : uuid_in (ctx_principalId ctx) = Some a)
    (Hte : tenant_exists (w_db w) t = true) (Hue : user_id_exists (w_db w) a = true)
    (Hfr : Forall (fun r => arr_id r <> pg_uuid (w_pgseq w)) (d_alert_rules (w_db w)))
    (Hsq : uuid_param_opt (default None (ca_savedQueryId cmd)) = Ok sq)
    (Hwin : (30 <= ca_windowSeconds cmd <= 86400)%Z) :
  let P := pg_ports cost email config in
  if valid_channels (ca_notifyChannels cmd)
     && xorb (bool_decide (sq <> None)) (hasInlineQuery (ca_query cmd))
  then
    if name_taken arr_tenant_id arr_name t (ca_name cmd) (d_alert_rules (w_db w))
    then exists message, run (perform_as P ctx (RuleCreate cmd)) w = (Err (ConflictError message), id_drawn w)
    else exists q w1 w2,
      run (perform_as P ctx (RuleCreate cmd)) w = (Ok q, w1) /\
      ar_name q = ca_name cmd /\ ar_savedQueryId q = sq /\ ar_query q = ca_query cmd /\ ar_state q = a_ok /\
      run (perform_as P ctx (RuleGet (ar_id q))) w1 = (Ok q, w1) /\
      run (perform_as P ctx (RuleRemove (ar_id q))) w1 = (Ok tt, w2) /\ w_db w2 = w_db w
  else exists message, run (perform_as P ctx (RuleCreate cmd)) w = (Err (ValidationError message None), w).
Proof.
  intros P. assert (Hcan : can (ctx_role ctx) alert_create = true /\ can (ctx_role ctx) alert_read = true
                           /\ can (ctx_role ctx) alert_delete = true) by by rewrite Hrole.
  destruct Hcan as (Hc & Hr & Hd).
  destruct (valid_channels _) eqn:Ech; simpl; [destruct (xorb _ _) eqn:Ex|].
  - assert (Hx : existsb (t_conflict (new_rule t a w cmd sq)) (d_alert_rules (w_db w))
                 = name_taken arr_tenant_id arr_name t (ca_name cmd) (d_alert_rules (w_db w)))
      by exact (name_conflict arr_id arr_tenant_id arr_name (new_rule t a w cmd sq) _ Hfr).
    assert (Hsrc : bool_decide (sq <> None) = negb (hasInlineQuery (ca_query cmd)))
      by by destruct (bool_decide (sq <> None)), (hasInlineQuery (ca_query cmd)).
    pose proof (run_rule_create cost email config ctx t a w Ht Ha Hte Hue cmd sq Hc Ech Hsq Hsrc Hwin) as Hrun.
    rewrite Hx in Hrun. destruct (name_taken _ _ _ _ _); [eauto|].
    eexists _, _, _. split; [exact Hrun|]. do 4 (split; [done|]). split; [|split].
    + refine (run_rule_get cost email config ctx t w Ht (new_rule t a w cmd sq) _ Hr _ _ Hx _);
        try done. apply pg_uuid_form.
    + refine (run_rule_remove cost email config ctx t w Ht (new_rule t a w cmd sq) _ Hd _ _ Hx _);
        try done. apply pg_uuid_form.
    + done.
  - by apply (run_rule_create_rejected cost email config ctx w cmd sq).
  - by apply (run_rule_create_channels cost email config ctx w cmd).
Qed.

(** Issuing an API key.  The answer's plaintext parses to the tenant's slug,
    the stored key id and a secret; what is stored is exactly one more row, of the
    caller's tenant, live, holding the hash of that secret and the requested scopes
    (the ingest scope when none is given). *)
Theorem api_key_issued `{EntropyLaws, Bcrypt, Crypto, !CryptoLaws, Unicode} cost email config ctx cmd
    t a tn w
    (Hrole : can (ctx_role ctx) apikey_create = true)
    (Ht : uuid_in (ctx_tenantId ctx) = Some t) (Ha : uuid_in (ctx_principalId ctx) = Some a)
    (Hok : db_ok (w_db w)) (Htn : tenant_by_id (w_db w) t = Some tn)
    (Hue : user_id_exists (w_db w) a = true)
    (Hfr : Forall (fun r => kr_id r <> node_hex (w_rand w) KEY_ID_BYTES) (d_api_keys (w_db w))) :
  exists k w1 p r,
    run (perform_as (pg_ports cost email config) ctx (ApiKeyIssue cmd)) w = (Ok k, w1) /\
    parseApiKey (ika_plaintext k) = Ok p /\ pk_publicId p = tr_public_id tn /\
    w_db w1 = set_api_keys (d_api_keys (w_db w) ++ [r]) (w_db w) /\
    kr_tenant_id r = t /\ kr_id r = pk_keyId p /\ kr_key_hash r = hashSecret (pk_secret p) /\
    kr_scopes r = scopes_of cmd /\ kr_revoked_at r = None /\
    ika_record k = PgApiKeyRepository.toRecord r.
Proof.
  assert (Hte : tenant_exists (w_db w) t = true) by by apply (tenant_by_id_exists _ _ tn).
  pose proof (run_key_issue cost email config ctx t a w Ht Ha Hte Hue cmd tn Hrole Htn Hfr) as Hrun.
  eexists _, _, (mkParsedApiKey _ _ _), (new_key t a w cmd). split; [exact Hrun|].
  split; [apply parseApiKey_Ok; simpl; split; [reflexivity|]|done].
  destruct (slug_no_us (tr_public_id tn)) as [Hus Hne]; [by apply (tenant_by_id_slug (w_db w) t)|].
  split_and!; try done.
  - intros E. pose proof (node_hex_length (w_rand w) KEY_ID_BYTES) as Hl. by rewrite E in Hl.
  - intros E. pose proof (node_hex_length (S (w_rand w)) SECRET_BYTES) as Hl. by rewrite E in Hl.
  - apply hex_no_us, node_hex_chars.
Qed.

(** The patch of an alert rule that clears its saved query, without giving an
    inline query, passes the service's checks: on a rule whose inline query is
    empty the database refuses it, and the caller gets the driver's error instead
    of a validation error. *)
Theorem alert_source_gap `{EntropyLaws, Bcrypt, Crypto, Unicode} cost email config ctx id i t r w
    (Hrole : can (ctx_role ctx) alert_update = true)
    (Ht : uuid_in (ctx_tenantId ctx) = Some t) (Hi : uuid_in id = Some i)
    (Hr : In r (d_alert_rules (w_db w))) (Hid : arr_tenant_id r = t /\ arr_id r = i)
    (Hq : arr_query r = empty_query) :
  run (perform_as (pg_ports cost email config) ctx (RuleUpdate id (source_patch None))) w
  = (Err (EPg pg_check_violation), w).
Proof. destruct Hid. by apply (run_rule_unset_source cost email config ctx t w Ht id i r). Qed.

(** ** Witnesses *)

Definition demo_ctx : TenantContext := mkTenantContext acme alice tenant_admin None.
Definition demo_member : TenantContext := mkTenantContext acme alice member None.
Definition demo_config : InviteConfig := mkInviteConfig 3600 5 (js "https://app.logalot.io").

Definition demo_ports : ServicePorts :=
  @pg_ports demo_entropy demo_bcrypt 10 NoOpEmailSender demo_config.

Definition demo_query : CreateSavedQueryCommand :=
  mkCreateSavedQueryCommand (js "errors") None (js "level:error") (mkSavedQueryFilters None None None) [].

Definition demo_dashboard : CreateDashboardCommand :=
  mkCreateDashboardCommand (js "errors") None (mkDashboardLayout []).

Definition demo_rule (sq : option jsstr) (text : option jsstr) : CreateAlertRuleCommand :=
  mkCreateAlertRuleCommand (js "5xx") (Some sq) (mkRuleQuery text None None None) c_gt (mkNum 10 0) 300
    (js "warning") true [webhook (js "https://hooks.acme.io")].

Lemma unauthorized_no_effect_witness :
  exists message, @perform_as demo_crypto ascii_unicode demo_ports demo_member _ (UserRemove bob)
    = throw (ForbiddenError message).
Proof. apply (@unauthorized_no_effect demo_crypto ascii_unicode). reflexivity. Defined.

Lemma use_cases_isolated_witness :
  others acme (w_db (run (@perform_as demo_crypto ascii_unicode demo_ports demo_ctx _ (UserRemove alice))
                       demo_world).2) = others acme demo_db /\
  w_db (run (@perform_as demo_crypto ascii_unicode demo_ports demo_ctx _ (UserRemove alice))
          demo_world).2 <> demo_db.
Proof.
  split.
  - apply (@use_cases_isolated demo_entropy demo_bcrypt demo_crypto ascii_unicode _ 10 NoOpEmailSender
             demo_config (UserRemove alice) demo_ctx acme demo_world).
    + intros m w. reflexivity.
    + reflexivity.
    + exact demo_sound.
    + repeat constructor; vm_compute; congruence.
  - intros E. apply (f_equal (fun d => length (d_users d))) in E. vm_compute in E. discriminate E.
Defined.

Lemma saved_query_lifecycle_witness : exists q w1,
  run (@perform_as demo_crypto ascii_unicode demo_ports demo_ctx _ (QueryCreate demo_query)) demo_world
    = (Ok q, w1) /\
  run (@perform_as demo_crypto ascii_unicode demo_ports demo_ctx _ (QueryGet (sq_id q))) w1 = (Ok q, w1).
Proof.
  destruct (@saved_query_lifecycle demo_entropy demo_entropy_laws demo_bcrypt demo_crypto ascii_unicode 10
    NoOpEmailSender demo_config demo_ctx demo_query acme alice demo_world)
    as (q & w1 & w2 & Hc & _ & _ & _ & Hg & _);
    [reflexivity|reflexivity|reflexivity|reflexivity|reflexivity|constructor|].
  exists q, w1. split; [exact Hc|exact Hg].
Defined.

Lemma dashboard_lifecycle_witness : exists q w1,
  run (@perform_as demo_crypto ascii_unicode demo_ports demo_ctx _ (DashCreate demo_dashboard)) demo_world
    = (Ok q, w1) /\
  run (@perform_as demo_crypto ascii_unicode demo_ports demo_ctx _ (DashGet (dh_id q))) w1 = (Ok q, w1).
Proof.
  destruct (@dashboard_lifecycle demo_entropy demo_entropy_laws demo_bcrypt demo_crypto ascii_unicode 10
    NoOpEmailSender demo_config demo_ctx demo_dashboard acme alice demo_world)
    as (q & w1 & w2 & Hc & _ & _ & Hg & _);
    [reflexivity|reflexivity|reflexivity|reflexivity|reflexivity| |].
  { constructor; [intros E; vm_compute in E; discriminate E|constructor]. }
  exists q, w1. split; [exact Hc|exact Hg].
Defined.

Lemma alert_rule_lifecycle_witness : exists q w1,
  run (@perform_as demo_crypto ascii_unicode demo_ports demo_ctx _
         (RuleCreate (demo_rule None (Some (js "timeout"))))) demo_world = (Ok q, w1) /\
  run (@perform_as demo_crypto ascii_unicode demo_ports demo_ctx _ (RuleGet (ar_id q))) w1 = (Ok q, w1).
Proof.
  destruct (@alert_rule_lifecycle demo_entropy demo_entropy_laws demo_bcrypt demo_crypto ascii_unicode 10
    NoOpEmailSender demo_config demo_ctx (demo_rule None (Some (js "timeout"))) acme alice None demo_world)
    as (q & w1 & w2 & Hc & _ & _ & _ & _ & Hg & _);
    [reflexivity|reflexivity|reflexivity|reflexivity|reflexivity|constructor|reflexivity| |].
  { vm_compute. split; discriminate. }
  exists q, w1. split; [exact Hc|exact Hg].
Defined.

Lemma api_key_issued_witness : exists k w1 p,
  run (@perform_as demo_crypto ascii_unicode demo_ports demo_ctx _
         (ApiKeyIssue (mkIssueApiKeyCommand (js "shipper") None None))) demo_world = (Ok k, w1) /\
  parseApiKey (ika_plaintext k) = Ok p /\ pk_publicId p = js "acme" /\
  kr_scopes <$> d_api_keys (w_db w1) = [DEFAULT_SCOPES].
Proof.
  destruct (@api_key_issued demo_entropy demo_entropy_laws demo_bcrypt demo_crypto demo_crypto_laws
    ascii_unicode 10 NoOpEmailSender demo_config demo_ctx (mkIssueApiKeyCommand (js "shipper") None None)
    acme alice (mk_tenants acme (js "acme") (js "Acme") t_active 0 0) demo_world)
    as (k & w1 & p & r & Hr & Hp & Hs & Hdb & _ & _ & _ & Hsc & _);
    [reflexivity|reflexivity|reflexivity|exact demo_db_ok|vm_compute; reflexivity|reflexivity|constructor|].
  exists k, w1, p. split; [exact Hr|]. split; [exact Hp|]. split; [exact Hs|].
  rewrite Hdb. cbn. by rewrite Hsc.
Defined.

(** A rule on a saved query. *)
Definition demo_rules : list alert_rules_row :=
  [mk_alert_rules (did 9) acme (js "5xx") (Some (did 10)) empty_query c_gt (mkNum 10 0) 300 (js "warning") true
     [] a_ok None None (Some alice) 0 0].

Definition demo_rule_world : world := set_db_seq (set_alert_rules demo_rules demo_db) 0 demo_world.

Lemma alert_source_gap_witness :
  run (@perform_as demo_crypto ascii_unicode demo_ports demo_ctx _ (RuleUpdate (did 9) (source_patch None)))
    demo_rule_world = (Err (EPg pg_check_violation), demo_rule_world).
Proof.
  apply (@alert_source_gap demo_entropy demo_entropy_laws demo_bcrypt demo_crypto ascii_unicode 10
    NoOpEmailSender demo_config demo_ctx (did 9) (did 9) acme
    (mk_alert_rules (did 9) acme (js "5xx") (Some (did 10)) empty_query c_gt (mkNum 10 0) 300 (js "warning") true
     [] a_ok None None (Some alice) 0 0));
    [reflexivity|reflexivity|vm_compute; reflexivity|left; reflexivity|split; reflexivity|reflexivity].
Defined.
