(* ===== verification/Invites.v ===== *)
(** * Invites from issue to provisioning

    What [InviteService.create], the invite provisioner and user creation do on the
    database, and the life of an invite through them: issued once, consumed at
    most once, provisioning a user with the invite's role in one transaction or
    leaving nothing behind. *)

From stdpp Require Import base list option numbers strings gmap relations.
From S2P Require Import Prelude Errors Effects Tokens Rbac Email Entities Ports Uuid Schema World Sql.
From S2P Require Import Integrity Eval Demo PgUsers PgTokens PgInvites PgContent Calls Credentials.
From S2P Require Import Adapters Sessions Services UseCases.
Import PgInviteRepository PgInviteProvisioner PgOAuthIdentityRepository.

(** ** What provisioning looks at *)

(** The condition of the conditional UPDATE. *)
Definition consumable (h : list N) (email : jsstr) (now : date) (r : invites_row) : bool :=
  bool_decide (ivr_token_hash r = h) && bool_decide (ivr_email r = email)
  && bool_decide (ivr_status r = js "pending") && (now <? ivr_expires_at r)%Z.

(** The invite a presentation of [h] by [email] would consume. *)
Definition open_invite (d : database) (t : jsstr) (h : list N) (email : jsstr) (now : date)
    : option invites_row :=
  find (fun r => policy (Some t) r && consumable h email now r) (d_invites d).

Definition email_taken (d : database) (t email : jsstr) : bool :=
  name_taken ur_tenant_id ur_email t email (d_users d).

(** The identity of a provider account in a tenant. *)
Definition identity_of (d : database) (t : jsstr) (provider : OAuthProvider) (sub : jsstr)
    : option oauth_identities_row :=
  find (fun r => policy (Some t) r && (bool_decide (oir_provider r = provider)
                                       && bool_decide (oir_provider_sub r = sub)))
    (d_oauth_identities d).

(** ** What provisioning leaves *)

Definition consume_db (t : jsstr) (h : list N) (email : jsstr) (at_ now : Z) (d : database) : database :=
  set_invites (map (fun r => if policy (Some t) r && consumable h email at_ r
                             then set_consumed at_ now r else r) (d_invites d)) d.

Definition new_user (id t : jsstr) (input : NewUser) (now : Z) : users_row :=
  mk_users id t (nu_email input) (nu_passwordHash input) (default None (nu_displayName input))
    (js "active") false now now.

Definition user_db (id t : jsstr) (input : NewUser) (now : Z) (d : database) : database :=
  set_memberships (d_memberships d ++ [mk_memberships t id (nu_role input) now now])
    (set_users (d_users d ++ [new_user id t input now]) d).

Definition link_db (r : oauth_identities_row) (d : database) : database :=
  set_oauth_identities (d_oauth_identities d ++ [r]) d.

(** The database after a successful provisioning of [input] against an invite with
    role [role]. *)
Definition provisioned `{Entropy} (t : jsstr) (input : InviteProvisionInput) (role : jsstr) (w : world)
    : database :=
  let uid := pg_uuid (w_pgseq w) in
  link_db (mk_oauth_identities (pg_uuid (S (S (w_pgseq w)))) t uid google (vi_providerSub input)
             (vi_email input) None (w_dbnow w) (w_dbnow w))
    (user_db uid t (mkNewUser (vi_email input) DISABLED_PASSWORD None (translateRole role)) (w_dbnow w)
       (consume_db t (vi_inviteTokenHash input) (vi_email input) (vi_now input) (w_dbnow w) (w_db w))).

(** ** Consuming *)

Lemma policy_own {R} `{Table R} t (r : R) : t_tenant r = t -> policy (Some t) r = true.
Proof. apply policy_Some. Qed.

Lemma set_consumed_harmless at_ : harmless (set_consumed at_).
Proof.
  split_and!; try done.
  - intros now r. simpl. rewrite !andb_true_iff. by intros [[? _] ?].
  - intros now a b. cbn [t_conflict invites_table ivr_id ivr_token_hash ivr_status set_consumed].
    rewrite !orb_true_iff, !bool_decide_eq_true. intros [|[E _]]; [by left|discriminate E].
Qed.

Lemma invites_refs_kept d (l : list invites_row) : refs_kept d (t_put l d).
Proof. by split. Qed.

Lemma eval_consume_invite st t h email now :
  tx_aborted st = false -> uuid_in (tx_guc st) = Some t -> db_ok (tx_db st) ->
  consumeWithClient (mkConsumeInput h email now) st =
  match open_invite (tx_db st) t h email now with
  | None => (Ok None, st)
  | Some r => (Ok (Some (mkConsumedInvite (ivr_id r) (ivr_role r) (ivr_email r) now)),
               tx_set_db (consume_db t h email now (tx_now st) (tx_db st)) st)
  end.
Proof.
  intros Ha Hu Hok. unfold consumeWithClient, mbind, txM_bind.
  rewrite (eval_update st t) by (done || apply set_consumed_harmless || apply invites_refs_kept).
  cbn [cn_tokenHash cn_email cn_now]. fold (consumable h email now). unfold open_invite, consume_db.
  change (t_rows (R := invites_row)) with d_invites.
  pose proof (first_row_filter (fun r => r) (fun r => policy (Some t) r && consumable h email now r)
                (d_invites (tx_db st))) as Hf. rewrite option_fmap_id in Hf.
  destruct (find _ (d_invites (tx_db st))) as [r|] eqn:Ef.
  - destruct (List.filter _ _) as [|r0 l] eqn:El; cbn [first_row] in Hf; simplify_eq. done.
  - destruct (List.filter _ _) as [|r0 l] eqn:El; cbn [first_row] in Hf; simplify_eq.
    cbn [map]. unfold mret, txM_ret. f_equal.
    rewrite map_ext_in with (g := fun r => r).
    + rewrite map_id. by destruct st as [[] ? ? ? ? ?].
    + intros r Hr. pose proof (find_none _ _ Ef r Hr) as E. unfold consumable in E. by rewrite E.
Qed.

(** ** Creating a user *)

Definition fresh_user (d : database) (u : jsstr) : Prop := Forall (fun r => ur_id r <> u) (d_users d).

Lemma fresh_user_exists d t u : fresh_user d u -> user_exists d t u = false.
Proof.
  intros Hf. apply existsb_false. eapply Forall_impl; [exact Hf|]. intros r Hr. simpl.
  apply bool_decide_eq_false. naive_solver.
Qed.

Lemma filter_by_new {R} (p : R -> bool) l r :
  Forall (fun x => p x = false) l -> p r = true -> List.filter p (l ++ [r]) = [r].
Proof.
  intros Hl Hr. rewrite List.filter_app. simpl. rewrite Hr.
  induction Hl as [|x l Hx Hl IH]; simpl; [done|]. by rewrite Hx.
Qed.

Lemma find_by_new {R} (p : R -> bool) l r :
  Forall (fun x => p x = false) l -> p r = true -> find p (l ++ [r]) = Some r.
Proof. intros Hl Hr. induction Hl as [|x l Hx Hl IH]; simpl; [by rewrite Hr|by rewrite Hx]. Qed.

Lemma fresh_memberships d t u :
  db_ok d -> fresh_user d u ->
  Forall (fun m => bool_decide (mr_tenant_id m = t /\ mr_user_id m = u) = false) (d_memberships d).
Proof.
  intros Hok Hf. destruct (to_rows (R := memberships_row) d Hok) as (_ & _ & Hr).
  eapply Forall_impl; [exact Hr|]. intros m Hm. apply bool_decide_eq_false. intros [_ E].
  simpl in Hm. apply andb_true_iff in Hm as [_ Hm]. rewrite E, fresh_user_exists in Hm; done.
Qed.

Lemma eval_select_user st t p :
  tx_aborted st = false -> uuid_in (tx_guc st) = Some t ->
  PgUserRepository.SELECT_USER (Ok p) st =
  (Ok (map (fun '(u, m) => (u, mr_role <$> m))
         (PgUserRepository.left_join (List.filter (fun u => policy (Some t) u && p u) (d_users (tx_db st)))
            (List.filter (policy (Some t)) (d_memberships (tx_db st))))), st).
Proof.
  intros Ha Hu. unfold PgUserRepository.SELECT_USER, PgUserRepository.joined, query, mbind at 1, txM_bind.
  rewrite Ha, bind_Ok, (current_tenant_uuid st t Hu), bind_Ok. by destruct st.
Qed.

Section User.
Context `{EntropyLaws} (tenantId t : jsstr) (input : NewUser) (st : tx_state).
Context (Ha : tx_aborted st = false) (Hg : tx_guc st = tenantId) (Ht : uuid_in tenantId = Some t)
        (Hte : tenant_exists (tx_db st) t = true) (Hfr : fresh_user (tx_db st) (pg_uuid (tx_seq st)))
        (Hms : Forall (fun m => bool_decide (mr_tenant_id m = t /\ mr_user_id m = pg_uuid (tx_seq st)) = false)
                 (d_memberships (tx_db st))).

Let uid := pg_uuid (tx_seq st).
Let d1 := set_users (d_users (tx_db st) ++ [new_user uid t input (tx_now st)]) (tx_db st).

Lemma user_conflict :
  existsb (t_conflict (new_user uid t input (tx_now st))) (d_users (tx_db st))
  = email_taken (tx_db st) t (nu_email input).
Proof. exact (name_conflict ur_id ur_tenant_id ur_email (new_user uid t input (tx_now st)) _ Hfr). Qed.

(** The join reads back the one user with its membership. *)
Lemma left_join_new role now :
  PgUserRepository.left_join
    (List.filter (fun u => policy (Some t) u && bool_decide (ur_id u = uid))
       (d_users (user_db uid t input (tx_now st) (tx_db st))))
    (List.filter (policy (Some t)) (d_memberships (tx_db st) ++ [mk_memberships t uid role now now]))
  = [(new_user uid t input (tx_now st), Some (mk_memberships t uid role now now))].
Proof.
  cbn [d_users user_db set_memberships set_users]. rewrite filter_by_new.
  - unfold PgUserRepository.left_join. cbn [map concat]. rewrite app_nil_r, List.filter_app.
    cbn [List.filter]. rewrite policy_own by done.
    rewrite filter_by_new; [done| |by rewrite bool_decide_eq_true].
    by apply Forall_filter_bool.
  - eapply Forall_impl; [exact Hfr|]. intros r Hr. cbn beta in Hr. subst uid. rewrite (bool_decide_eq_false_2 _ Hr). apply andb_false_r.
  - rewrite policy_own by done. by apply bool_decide_eq_true.
Qed.

Lemma eval_create_user_taken :
  email_taken (tx_db st) t (nu_email input) = true ->
  exists st', PgUserRepository.insertUserWithMembership tenantId input st =
    (Err (ConflictError (js "a user with email '" ++ nu_email input ++ js "' already exists")), st').
Proof.
  intros Hx. rewrite <-user_conflict in Hx.
  unfold PgUserRepository.insertUserWithMembership, tx_catch, mbind at 1, txM_bind.
  rewrite (eval_insert_conflict st t _ (new_user uid t input (tx_now st))); try done.
  - eexists. reflexivity.
  - by rewrite Hg.
  - unfold uuid_param. by rewrite Ht.
Qed.

Lemma eval_create_user :
  email_taken (tx_db st) t (nu_email input) = false ->
  PgUserRepository.insertUserWithMembership tenantId input st =
  (Ok (PgUserRepository.toUser (new_user uid t input (tx_now st), Some (nu_role input))),
   tx_bump (tx_bump (tx_set_db (user_db uid t input (tx_now st) (tx_db st)) st))).
Proof.
  intros Hx. rewrite <-user_conflict in Hx.
  assert (Hu : uuid_in uid = Some uid) by (apply is_uuid_spec, pg_uuid_form).
  assert (Hcur : uuid_in (tx_guc st) = Some t) by by rewrite Hg.
  unfold PgUserRepository.insertUserWithMembership, tx_catch, mbind at 1, txM_bind.
  rewrite (eval_insert st t _ (new_user uid t input (tx_now st))); try done.
  2: { unfold uuid_param. by rewrite Ht. }
  unfold mbind at 1, txM_bind. set (st1 := tx_bump _).
  rewrite (eval_insert st1 t _ (mk_memberships t uid (nu_role input) (tx_now st) (tx_now st))); try done.
  - unfold PgUserRepository.by_id, uuid_param. cbn [ur_id new_user]. rewrite Hu, bind_Ok. unfold mbind, txM_bind.
    rewrite (eval_select_user _ t) by done. cbn [st1 tx_db tx_bump tx_set_db].
    pose proof (left_join_new (nu_role input) (tx_now st)) as Hj. unfold user_db in Hj.
    cbn [d_users d_memberships set_users set_memberships t_put t_rows memberships_table users_table] in *.
    rewrite Hj. done.
  - unfold uuid_param. cbn [ur_id new_user]. by rewrite Ht, Hu.
  - apply existsb_false. cbn [st1 tx_db tx_bump tx_set_db]. eapply Forall_impl; [exact Hms|].
    intros m Hm. simpl in *. rewrite bool_decide_eq_false in Hm |- *. naive_solver.
  - simpl. rewrite andb_true_iff. split; [exact Hte|]. unfold user_exists. simpl.
    rewrite existsb_app. simpl. rewrite (bool_decide_eq_true_2 (_ /\ _)) by done. apply orb_true_iff. by right.
Qed.
End User.

(** ** Linking an identity *)

Definition already_linked : exn :=
  ConflictError (js "user is already linked to a different identity for this provider").

Section Link.
Context `{EntropyLaws} (tenantId t : jsstr) (input : NewOAuthIdentity) (u : jsstr) (st : tx_state).
Context (Ha : tx_aborted st = false) (Hg : tx_guc st = tenantId) (Ht : uuid_in tenantId = Some t)
        (Hu : uuid_in (ni_userId input) = Some u)
        (Hte : tenant_exists (tx_db st) t = true) (Hue : user_exists (tx_db st) t u = true).

Definition new_link (id : jsstr) (now : Z) : oauth_identities_row :=
  mk_oauth_identities id t u (ni_provider input) (ni_providerSub input) (ni_email input) None now now.

(** After the savepoint and the draw of the insert. *)
Definition link_state (d : database) : tx_state :=
  mkTx d (S (tx_seq st)) (tx_guc st) (tx_now st) false ((js "link_first", tx_db st) :: tx_savepoints st).

Lemma eval_link :
  let r := new_link (pg_uuid (tx_seq st)) (tx_now st) in
  linkFirstWithClient tenantId input st =
  if existsb (t_conflict r) (d_oauth_identities (tx_db st)) then
    match identity_of (tx_db st) t (ni_provider input) (ni_providerSub input) with
    | Some row => (Ok (toRef row), link_state (tx_db st))
    | None => (Err already_linked, link_state (tx_db st))
    end
  else (Ok (toRef r), link_state (link_db r (tx_db st))).
Proof.
  intros r. assert (Hcur : uuid_in (tx_guc st) = Some t) by by rewrite Hg.
  unfold linkFirstWithClient, sql_savepoint, mbind at 1, txM_bind, tx_catch at 1. rewrite Ha.
  set (st1 := mkTx _ _ _ _ _ _). unfold mbind at 1, txM_bind.
  destruct (existsb _ _) eqn:Ex.
  - rewrite (eval_insert_conflict st1 t _ r); try done.
    2: { unfold uuid_param. by rewrite Ht, Hu. }
    change (isUniqueViolation (EPg PG_UNIQUE_VIOLATION)) with true. cbn match.
    unfold sql_rollback_to, mbind at 1, txM_bind. cbn [tx_savepoints tx_bump tx_abort st1 savepoints_from].
    rewrite (bool_decide_eq_true_2 (js "link_first" = js "link_first")) by done.
    unfold select_by_sub, mbind, txM_bind. rewrite (eval_select _ t) by done.
    cbn [tx_db t_rows oauth_identities_table]. unfold identity_of.
    pose proof (first_row_filter (fun r => r) (fun r => policy (Some t) r &&
      (bool_decide (oir_provider r = ni_provider input) && bool_decide (oir_provider_sub r = ni_providerSub input)))
      (d_oauth_identities (tx_db st))) as Hf. rewrite option_fmap_id in Hf. rewrite <-Hf.
    by destruct (List.filter _ _).
  - rewrite (eval_insert st1 t _ r); try done.
    + unfold uuid_param. by rewrite Ht, Hu.
    + simpl. apply andb_true_iff. split; [exact Hte|exact Hue].
Qed.
End Link.

(** ** Provisioning *)

Section Provision.
Context `{EntropyLaws} (tenantId t : jsstr) (input : InviteProvisionInput) (w : world).
Context (Ht : uuid_in tenantId = Some t) (Hok : db_ok (w_db w))
        (Hfu : fresh_user (w_db w) (pg_uuid (w_pgseq w)))
        (Hfl : Forall (fun r => oir_id r <> pg_uuid (S (S (w_pgseq w)))) (d_oauth_identities (w_db w))).

Let uid := pg_uuid (w_pgseq w).
Let h := vi_inviteTokenHash input.
Let email := vi_email input.
Let sub := vi_providerSub input.
Let nu role := mkNewUser email DISABLED_PASSWORD None (translateRole role).
Let ni := mkNewOAuthIdentity uid google sub email.

Lemma open_invite_tenant r :
  open_invite (w_db w) t h email (vi_now input) = Some r -> tenant_exists (w_db w) t = true.
Proof.
  intros [Hr [Hp _]%andb_true_iff]%find_some. apply policy_Some in Hp. simpl in Hp.
  destruct (to_rows (R := invites_row) (w_db w) Hok) as (_ & _ & Hrefs).
  apply (Forall_In _ _ _ Hrefs) in Hr. apply andb_true_iff in Hr as [Hr _]. by rewrite Hp in Hr.
Qed.

(** The new user has no identity yet, so only the provider account can conflict. *)
Lemma link_conflict :
  existsb (t_conflict (new_link t ni uid (pg_uuid (S (S (w_pgseq w)))) (w_dbnow w)))
    (d_oauth_identities (w_db w))
  = bool_decide (is_Some (identity_of (w_db w) t google sub)).
Proof.
  destruct (to_rows (R := oauth_identities_row) (w_db w) Hok) as (_ & _ & Hrefs).
  assert (Hn : forall r, In r (d_oauth_identities (w_db w)) ->
            t_conflict (new_link t ni uid (pg_uuid (S (S (w_pgseq w)))) (w_dbnow w)) r
            = policy (Some t) r && (bool_decide (oir_provider r = google) && bool_decide (oir_provider_sub r = sub))).
  { intros r Hr. pose proof (Forall_In _ _ _ Hfl Hr) as Hid. pose proof (Forall_In _ _ _ Hrefs Hr) as Hx.
    apply andb_true_iff in Hx as [_ Hx].
    assert (Hux : oir_user_id r <> uid) by (intros E; rewrite E, fresh_user_exists in Hx; done).
    cbn [t_conflict oauth_identities_table new_link oir_id oir_tenant_id oir_provider oir_provider_sub oir_user_id ni].
    rewrite (bool_decide_eq_false_2 (_ = oir_id r)) by congruence.
    rewrite (bool_decide_eq_false_2 (_ /\ uid = _ /\ _)) by naive_solver.
    rewrite policy_eq. cbn [orb]. rewrite orb_false_r, <-!bool_decide_and. apply bool_decide_ext. simpl. naive_solver. }
  unfold identity_of. clear Hrefs. induction (d_oauth_identities (w_db w)) as [|r l IH]; [done|].
  cbn [existsb find]. rewrite Hn by by left. destruct (policy _ _ && _); cbn [orb]; [by rewrite bool_decide_eq_true_2 by eauto|].
  apply IH; [by apply Forall_cons in Hfl as [_ ?]|]. intros x Hx. apply Hn. by right.
Qed.

Lemma identity_of_other row :
  identity_of (w_db w) t google sub = Some row -> oir_user_id row <> uid.
Proof.
  intros [Hr _]%find_some E. destruct (to_rows (R := oauth_identities_row) (w_db w) Hok) as (_ & _ & Hrefs).
  pose proof (Forall_In _ _ _ Hrefs Hr) as Hx. apply andb_true_iff in Hx as [_ Hx].
  rewrite E, fresh_user_exists in Hx; done.
Qed.

(** Nothing stands in the way of the new account. *)
Definition unclaimed : bool :=
  negb (email_taken (w_db w) t email) && bool_decide (identity_of (w_db w) t google sub = None).

Lemma run_provision_tx :
  exists res w', run (withTenantTx tenantId (provision_tx tenantId input)) w = (res, w') /\
  match open_invite (w_db w) t h email (vi_now input) with
  | None => res = Ok None /\ w' = w
  | Some r =>
      if unclaimed
      then res = Ok (Some uid) /\
           w' = set_db_seq (provisioned t input (ivr_role r) w) (S (S (S (w_pgseq w)))) w
      else (exists m, res = Err (ConflictError m)) /\ exists n, w' = set_db_seq (w_db w) n w
  end.
Proof.
  unfold withTenantTx. rewrite run_atomic. unfold run_tx, provision_tx, mbind at 1, txM_bind.
  set (st := mkTx _ _ _ _ _ _).
  change (mkConsumeInput _ _ _) with (mkConsumeInput h email (vi_now input)).
  rewrite (eval_consume_invite st t h email (vi_now input)) by done. cbn [tx_db tx_now st].
  destruct (open_invite _ _ _ _ _) as [r|] eqn:Eo.
  2: { eexists _, _. split; [reflexivity|]. split; [done|]. apply set_db_seq_id. }
  pose proof (open_invite_tenant r Eo) as Hte. unfold mbind at 1, txM_bind, unclaimed.
  set (st1 := tx_set_db _ st). cbn [ci_role].
  change (mkNewUser _ _ _ _) with (nu (ivr_role r)).
  assert (Hms := fresh_memberships (w_db w) t uid Hok Hfu).
  destruct (email_taken (w_db w) t email) eqn:Ee; cbn [negb andb].
  { destruct (eval_create_user_taken tenantId t (nu (ivr_role r)) st1) as [st' ->]; try done.
    eexists _, _. split; [reflexivity|]. eauto. }
  rewrite (eval_create_user tenantId t (nu (ivr_role r)) st1) by done. unfold mbind, txM_bind.
  cbn [PgUserRepository.toUser us_id new_user ur_id]. 
  change (mkNewOAuthIdentity _ _ _ _) with ni. set (st2 := tx_bump _).
  pose proof (eval_link tenantId t ni uid st2) as El. cbv zeta in El.
  rewrite El; clear El; try done.
  2: { apply is_uuid_spec, pg_uuid_form. }
  2: { unfold user_exists. cbn [st2 tx_db tx_bump tx_set_db user_db d_users set_memberships set_users].
       rewrite existsb_app. apply orb_true_iff. right. simpl. by rewrite (bool_decide_eq_true_2 (_ /\ _)). }
  change (d_oauth_identities (tx_db st2)) with (d_oauth_identities (w_db w)).
  change (tx_seq st2) with (S (S (w_pgseq w))). change (tx_now st2) with (w_dbnow w).
  change (identity_of (tx_db st2)) with (identity_of (w_db w)).
  rewrite link_conflict. cbn [ni_provider ni_providerSub ni].
  destruct (identity_of (w_db w) t google sub) as [row|] eqn:Ei.
  - rewrite (bool_decide_eq_true_2 (is_Some _)) by eauto. rewrite (bool_decide_eq_false_2 (Some row = None)) by done.
    cbn match. cbn [toRef or_userId]. rewrite bool_decide_eq_true_2 by by apply identity_of_other.
    eexists _, _. split; [reflexivity|]. eauto.
  - rewrite (bool_decide_eq_false_2 (is_Some _)) by (by intros []). rewrite (bool_decide_eq_true_2 (None = None)) by done.
    cbn match. cbn [toRef or_userId oir_user_id new_link]. rewrite bool_decide_eq_false_2 by naive_solver.
    eexists _, _. split; [reflexivity|]. done.
Qed.
End Provision.

(** ** Concurrent presentations of one token *)

(** Time passes, or another request performs a repository call, no invite being
    created with token hash [h]. *)
Inductive env_without `{Entropy} (h : list N) : world -> world -> Prop :=
| without_time w w' : env_step w w' -> env_without h w w'
| without_call w {A} (c : repo_call A) :
    invites_within (fun x => x <> h) c -> env_without h w (run (perform c) w).2.

(** Some invite with token hash [h] is pending. *)
Definition hash_pending (h : list N) (d : database) : bool :=
  existsb (fun r => bool_decide (ivr_token_hash r = h /\ ivr_status r = js "pending")) (d_invites d).

Definition hash_spent (h : list N) (r : invites_row) : Prop :=
  ivr_token_hash r = h -> ivr_status r <> js "pending".

Lemma hash_pending_spent h d : hash_pending h d = false <-> Forall (hash_spent h) (d_invites d).
Proof.
  unfold hash_pending. rewrite existsb_false. unfold hash_spent.
  split; intros HF; (eapply Forall_impl; [exact HF|]); intros r; simpl; rewrite bool_decide_eq_false; naive_solver.
Qed.

Lemma hash_spent_call `{EntropyLaws} h {A} (c : repo_call A) w :
  invites_within (fun x => x <> h) c ->
  hash_pending h (w_db w) = false -> hash_pending h (w_db (run (perform c) w).2) = false.
Proof.
  rewrite !hash_pending_spent. intros Hc HF.
  destruct (watch_call [] any_row any_row any_row (hash_spent h) (fun x => x <> h)) with (w := w) (c := c)
    as (_ & _ & _ & _ & ?); unfold hash_spent; try done.
  - intros now u r. unfold null_invites. by case_bool_decide.
  - split_and!; try apply any_rows; [|done]. intros m _ E. pose proof (pg_uuid_form m) as Hf. by rewrite E in Hf.
Qed.

Lemma hash_unique d a b :
  db_ok d -> In a (d_invites d) -> In b (d_invites d) -> ivr_token_hash a = ivr_token_hash b -> a = b.
Proof.
  intros Hok Ha Hb E. destruct (to_rows (R := invites_row) d Hok) as (_ & Hcf & _).
  assert (Hf : forall x, In x (d_invites d) -> ivr_token_hash x = ivr_token_hash b ->
            find (fun y => bool_decide (ivr_token_hash y = ivr_token_hash b)) (d_invites d) = Some x).
  { intros x Hx Ex. apply (find_unique _ _ _ _ Hcf); [done|by apply bool_decide_eq_true|].
    intros y z Hy%bool_decide_eq_true Hz%bool_decide_eq_true. simpl.
    rewrite (bool_decide_eq_true_2 (ivr_token_hash y = ivr_token_hash z)) by congruence. by rewrite orb_true_r. }
  pose proof (Hf a Ha E) as Hfa. rewrite (Hf b Hb eq_refl) in Hfa. by simplify_eq.
Qed.

Section Race.
Context `{EntropyLaws, Crypto} (tenantId t : jsstr) (h : list N) (Ht : uuid_in tenantId = Some t).

Let I (w : world) : Prop := db_ok (w_db w).
Let G (w : world) : bool := hash_pending h (w_db w).

Lemma without_no_release w w' : I w -> env_without h w w' -> no_release I G w w'.
Proof.
  intros Hok He. split.
  - eapply db_ok_busy; [|exact Hok]. destruct He; [by apply busy_time|by apply busy_call].
  - destruct He as [? ? []|? A c Hc]; [done|]. by apply hash_spent_call.
Qed.

(** Consuming spends the hash. *)
Lemma consume_spends email at_ now d r :
  db_ok d -> open_invite d t h email at_ = Some r ->
  hash_pending h d = true /\ hash_pending h (consume_db t h email at_ now d) = false.
Proof.
  intros Hok [Hr Hc]%find_some. pose proof Hc as [Hp Hx]%andb_true_iff. unfold consumable in Hx.
  rewrite !andb_true_iff, !bool_decide_eq_true in Hx. destruct Hx as [[[Hh He] Hs] _]. split.
  - apply existsb_exists. exists r. by rewrite bool_decide_eq_true.
  - apply hash_pending_spent. simpl. rewrite Forall_map. apply List.Forall_forall. intros x Hx Ex.
    destruct (_ && _) eqn:E in Ex |- *; [done|]. rewrite (hash_unique d x r) in E by congruence. congruence.
Qed.

(** What the transaction does after consuming leaves the invites alone. *)
Lemma provision_invites input st uid st' :
  tx_guc st = tenantId -> tx_savepoints st = [] ->
  provision_tx tenantId input st = (Ok (Some uid), st') ->
  exists c st1,
    consumeWithClient (mkConsumeInput (vi_inviteTokenHash input) (vi_email input) (vi_now input)) st
      = (Ok (Some c), st1) /\
    (tx_guc st1 = tenantId -> tx_savepoints st1 = [] -> d_invites (tx_db st') = d_invites (tx_db st1)).
Proof.
  intros Hg Hs Hp. unfold provision_tx, mbind at 1, txM_bind in Hp.
  destruct (consumeWithClient _ st) as [[[c|]|e] st1]; [|done|done]. exists c, st1. split; [done|].
  intros Hg1 Hs1. set (P := fun (_ : nat) d => d_invites d = d_invites (tx_db st1)).
  match type of Hp with ?q st1 = _ => assert (Hk : tx_keeps P tenantId q) end.
  { unfold PgUserRepository.insertUserWithMembership, linkFirstWithClient, select_by_sub, PgUserRepository.SELECT_USER.
    tx_auto ltac:(first [apply keeps_joined | apply keeps_insert; [done|by intros; subst P]]). }
  destruct (Hk st1) as [(HP & _) _].
  - split_and!; [done|by rewrite Hs1|done].
  - rewrite Hp in HP. exact HP.
Qed.

(** A transaction that ends in a link has not failed. *)
Lemma query_live {A} (f : tx_state -> result exn (A * database)) st a st' :
  query f st = (Ok a, st') -> tx_aborted st' = false.
Proof.
  unfold query. destruct (tx_aborted st) eqn:Ea; [done|]. destruct (f st) as [[? ?]|]; [|done].
  intros [= <- <-]. exact Ea.
Qed.

Lemma link_live x st r st' : linkFirstWithClient tenantId x st = (Ok r, st') -> tx_aborted st' = false.
Proof.
  unfold linkFirstWithClient, mbind, txM_bind, tx_catch. destruct (sql_savepoint _ _) as [[[]|] st1]; [|done].
  destruct (sql_insert _ st1) as [[row|e] st2] eqn:Ei.
  - intros [= <- <-]. unfold sql_insert in Ei. destruct (query _ st1) as [res st3] eqn:Eq.
    injection Ei as -> <-. simpl. by eapply query_live.
  - destruct (isUniqueViolation e); [|done]. destruct (sql_rollback_to _ st2) as [[[]|] st3]; [|done].
    destruct (select_by_sub _ _ st3) as [[[|row l]|] st4] eqn:Es; [done| |done].
    intros [= <- <-]. by eapply query_live.
Qed.

Lemma provision_live input st uid st' :
  provision_tx tenantId input st = (Ok (Some uid), st') -> tx_aborted st' = false.
Proof.
  unfold provision_tx, mbind, txM_bind. destruct (consumeWithClient _ st) as [[[c|]|e] st1]; [|done|done].
  destruct (PgUserRepository.insertUserWithMembership _ _ st1) as [[u|] st2]; [|done].
  destruct (linkFirstWithClient _ _ st2) as [[l|] st3] eqn:El; [|done].
  destruct (bool_decide _); [done|]. intros [= <- <-]. by eapply link_live.
Qed.

Lemma provision_takes input w uid w' :
  I w -> vi_inviteTokenHash input = h ->
  run_tx tenantId (provision_tx tenantId input) w = (Ok (Some uid), w') -> G w = true /\ G w' = false.
Proof.
  intros Hok Hh. unfold run_tx. set (st := mkTx _ _ _ _ _ _).
  destruct (provision_tx tenantId input st) as [[r|e] st'] eqn:Ep; [|done]. intros [= -> <-].
  destruct (provision_invites input st uid st' eq_refl eq_refl Ep) as (c & st1 & Hc & Hinv).
  rewrite Hh, (eval_consume_invite st t) in Hc by done. cbn [st tx_db tx_now] in Hc.
  destruct (open_invite (w_db w) t h (vi_email input) (vi_now input)) as [r|] eqn:Eo; [|done].
  injection Hc as <- <-. specialize (Hinv eq_refl eq_refl).
  destruct (consume_spends (vi_email input) (vi_now input) (w_dbnow w) (w_db w) r Hok Eo) as [Hbefore Hafter].
  rewrite (provision_live input st uid st' Ep). split; [exact Hbefore|].
  subst G. cbn [w_db set_db_seq]. apply hash_pending_spent. apply hash_pending_spent in Hafter.
  rewrite Hinv. exact Hafter.
Qed.

Lemma claims_provision input :
  vi_inviteTokenHash input = h ->
  claims I G (fun r => bool_decide (is_Some r)) (provisionFromInvite ConsoleOAuthAuditLogger tenantId input).
Proof.
  intros Hh. unfold provisionFromInvite.
  apply claims_catch; [|by intros e; destruct (instanceof _ _)|by intros e; destruct (instanceof _ _)].
  unfold withTenantTx. apply claims_step. intros w Hw.
  split; [apply without_no_release; [done|]|].
  - pose proof (without_call h w (InvitesProvision tenantId input) Logic.I) as He. cbn [perform] in He.
    by rewrite run_withTenantTx in He.
  - destruct (run_tx _ _ _) as [[[uid|]|e] w'] eqn:E; cbn [fst snd]; [left|by right|done].
    destruct (provision_takes input w uid w' Hw Hh E). split_and!; [done|done|].
    apply spec_bind, spec_catch. apply spec_atomic; done.
Qed.
End Race.

(** ** Issuing *)

Definition pending_count (d : database) (t : jsstr) : Z :=
  Z.of_nat (length (List.filter (fun r => policy (Some t) r && bool_decide (ivr_status r = js "pending"))
                      (d_invites d))).

(** A pending invite of the tenant for the same address, expired or not. *)
Definition already_invited (d : database) (t email : jsstr) : bool :=
  existsb (fun r => bool_decide (ivr_status r = js "pending" /\ ivr_tenant_id r = t /\ ivr_email r = email))
    (d_invites d).

Section Issue.
Context `{EntropyLaws, Bcrypt, CryptoLaws, Unicode} (cost : Z) (mail : EmailSender world)
  (config : InviteConfig).
Abbreviation P := (pg_ports cost mail config).
Context (ctx : TenantContext) (cmd : CreateInviteCommand) (t a : jsstr) (tn : tenants_row) (w : world).
Context (Hcan : can (ctx_role ctx) Rbac.invite_create = true)
        (Ht : uuid_in (ctx_tenantId ctx) = Some t) (Ha : uuid_in (ctx_principalId ctx) = Some a)
        (Htn : tenant_by_id (w_db w) t = Some tn) (Hue : user_id_exists (w_db w) a = true)
        (Hrole : cv_role cmd ∈ [js "member"; js "admin"]).

Definition invite_secret : jsstr := node_hex (w_rand w) REFRESH_SECRET_BYTES.
Definition invite_token : jsstr := assembleInviteToken (tr_public_id tn) invite_secret.
Definition invite_url : jsstr := inviteAcceptBaseUrl config ++ js "/invite/accept?token=" ++ invite_token.

Definition new_invite : invites_row :=
  mk_invites (pg_uuid (w_pgseq w)) t (normalizeEmail (cv_email cmd)) (cv_role cmd)
    (hashInviteSecret invite_secret) (js "pending") (w_now w + inviteTtlSeconds config * 1000) (Some a) None
    (w_dbnow w) (w_dbnow w).

Definition invite_view : Invite :=
  mkInvite (ivr_id new_invite) t (ivr_email new_invite) (ivr_role new_invite) i_pending (Some a)
    (ivr_expires_at new_invite) None (w_dbnow w) (w_dbnow w).

Definition issued_event : InviteAuditEvent :=
  mkInviteAuditEvent (ctx_tenantId ctx) (ivr_id new_invite) (ctx_principalId ctx) invite_created
    (ivr_email new_invite) (ivr_role new_invite) (w_now w).

(** Before the mail is sent. *)
Definition issued_world : world :=
  let w1 := set_db_seq (inserted new_invite w) (S (w_pgseq w)) (set_w_rand (S (w_rand w)) w) in
  set_w_invite_audit (w_invite_audit w1 ++ [issued_event]) w1.

Context (Hfr : Forall (fun r => ivr_id r <> pg_uuid (w_pgseq w)
                                /\ ivr_token_hash r <> hashInviteSecret invite_secret) (d_invites (w_db w))).

Lemma invite_conflict :
  existsb (t_conflict new_invite) (d_invites (w_db w))
  = already_invited (w_db w) t (normalizeEmail (cv_email cmd)).
Proof.
  apply existsb_ext. eapply Forall_impl; [exact Hfr|]. intros r [Hi Hh].
  cbn [t_conflict invites_table new_invite ivr_id ivr_token_hash ivr_status ivr_tenant_id ivr_email].
  rewrite (bool_decide_eq_false_2 (_ = ivr_id r)), (bool_decide_eq_false_2 (_ = ivr_token_hash r)) by congruence.
  cbn [orb]. apply bool_decide_ext. naive_solver.
Qed.

Lemma run_invite_store :
  run (PgInviteRepository.create (ctx_tenantId ctx)
         (mkNewInvite (cv_role cmd) (normalizeEmail (cv_email cmd)) (hashInviteSecret invite_secret)
            (Some (ctx_principalId ctx)) (w_now w + inviteTtlSeconds config * 1000)))
    (set_w_rand (S (w_rand w)) w) =
  if already_invited (w_db w) t (normalizeEmail (cv_email cmd))
  then (Err (EPg PG_UNIQUE_VIOLATION), set_db_seq (w_db w) (S (w_pgseq w)) (set_w_rand (S (w_rand w)) w))
  else (Ok invite_view,
        set_db_seq (inserted new_invite w) (S (w_pgseq w)) (set_w_rand (S (w_rand w)) w)).
Proof.
  assert (Hck : t_check new_invite = true).
  { cbn [t_check invites_table new_invite ivr_role ivr_status ivr_token_hash].
    unfold hashInviteSecret. rewrite sha256_length, (bool_decide_eq_true_2 _ Hrole). done. }
  unfold PgInviteRepository.create. 
  cbn [nv_invitedBy nv_email nv_role nv_secretHash nv_expiresAt uuid_param_opt].
  rewrite (proj2 (uuid_param_Ok _ _) Ht), (proj2 (uuid_param_Ok _ _) Ha), <-invite_conflict.
  destruct (existsb _ _) eqn:Ex.
  - rewrite (run_tx_insert_conflict (ctx_tenantId ctx) t _ new_invite (set_w_rand (S (w_rand w)) w)); done.
  - rewrite (run_tx_insert (ctx_tenantId ctx) t _ new_invite (set_w_rand (S (w_rand w)) w)) with (a := Ok invite_view);
      try done. apply andb_true_iff. split; [by apply (tenant_by_id_exists _ _ tn)|exact Hue].
Qed.

Lemma run_count_pending v :
  w_db v = w_db w ->
  run (PgInviteRepository.countPending (ctx_tenantId ctx)) v = (Ok (pending_count (w_db w) t), v).
Proof. intros <-. exact (run_tx_select (ctx_tenantId ctx) t _ (fun res => Z.of_nat (length res)) v Ht). Qed.

Definition cap_reached : bool := (inviteMaxOutstandingPerTenant config <=? pending_count (w_db w) t)%Z.

Lemma run_invite_create :
  run (perform_as P ctx (InviteCreate cmd)) w =
  if cap_reached
  then (Err (ConflictError (js "outstanding invite cap reached (max "
              ++ js_number (inviteMaxOutstandingPerTenant config) ++ js ")")), w)
  else if already_invited (w_db w) t (normalizeEmail (cv_email cmd))
  then (Err (EPg PG_UNIQUE_VIOLATION), set_db_seq (w_db w) (S (w_pgseq w)) (set_w_rand (S (w_rand w)) w))
  else (Ok (mkIssuedInvite invite_view invite_url),
        (run (email_send mail (InviteService.invite_email (ivr_email new_invite) invite_url)) issued_world).2).
Proof.
  cbn [perform_as]. unfold InviteService.create. rewrite run_authorize by done.
  rewrite run_bind. change (tenants_findById (sv_tenants P)) with PgTenantRepository.findById.
  rewrite (run_tenants_findById _ t) by done. rewrite Htn. cbn [fmap option_fmap option_map required].
  unfold mret, prog_ret. rewrite bind_Ret_Ok, run_bind.
  change (invites_countPending (sv_invites P)) with PgInviteRepository.countPending.
  rewrite run_count_pending by done. unfold cap_reached. destruct (_ <=? _)%Z; [done|].
  rewrite run_bind. change (run (secrets_generate (sv_secrets P)) w) with
    (Ok (E := exn) invite_secret, set_w_rand (S (w_rand w)) w). cbn match.
  assert (length invite_secret = INVITE_SECRET_HEX_LENGTH) as ->.
  { unfold invite_secret. by rewrite node_hex_length. }
  rewrite Nat.eqb_refl. cbn [negb]. rewrite run_bind.
  change (run (clock_now (sv_clock P)) (set_w_rand (S (w_rand w)) w)) with
    (Ok (E := exn) (w_now w), set_w_rand (S (w_rand w)) w). cbn match.
  rewrite run_bind. change (invites_create (sv_invites P)) with PgInviteRepository.create.
  change (sv_config P) with config. rewrite run_invite_store. destruct (already_invited _ _ _); [done|].
  rewrite run_bind. change (run (invite_log (sv_inviteAudit P) _) _) with (Ok (E := exn) tt, issued_world). cbn match.
  rewrite run_bind, run_catch. change (sv_email P) with mail. change (iv_email invite_view) with (ivr_email new_invite).
  fold invite_url. by destruct (run (email_send mail _) issued_world) as [[[]|e] w'].
Qed.

Lemma invite_token_parses :
  db_ok (w_db w) -> parseInviteToken invite_token = Ok (mkParsedInviteToken (tr_public_id tn) invite_secret).
Proof.
  intros Hok. apply parseInviteToken_Ok; simpl.
  destruct (slug_no_us (tr_public_id tn)) as [Hus Hne]; [by apply (tenant_by_id_slug (w_db w) t)|].
  split_and!; try done. intros E. pose proof (node_hex_length (w_rand w) REFRESH_SECRET_BYTES) as Hl.
  unfold invite_secret in E. by rewrite E in Hl.
Qed.

(** The issued invite is the one a presentation of its hash finds until it expires. *)
Lemma issued_open now :
  (now < w_now w + inviteTtlSeconds config * 1000)%Z ->
  open_invite (inserted new_invite w) t (hashInviteSecret invite_secret) (normalizeEmail (cv_email cmd)) now
  = Some new_invite.
Proof.
  intros Hnow. unfold open_invite, inserted. cbn [t_put t_rows invites_table d_invites set_invites].
  apply find_by_new.
  - eapply Forall_impl; [exact Hfr|]. intros r [_ Hr]. unfold consumable.
    rewrite (bool_decide_eq_false_2 _ Hr). cbn [andb]. apply andb_false_r.
  - rewrite policy_own by done. unfold consumable.
    cbn [new_invite ivr_token_hash ivr_email ivr_status ivr_expires_at].
    rewrite !bool_decide_eq_true_2 by done. apply Z.ltb_lt in Hnow. by rewrite Hnow.
Qed.
End Issue.

Lemma issued_ok `{EntropyLaws, Bcrypt, CryptoLaws, Unicode} config ctx cmd t a tn w :
  uuid_in (ctx_tenantId ctx) = Some t -> uuid_in (ctx_principalId ctx) = Some a ->
  tenant_by_id (w_db w) t = Some tn -> user_id_exists (w_db w) a = true ->
  cv_role cmd ∈ [js "member"; js "admin"] ->
  Forall (fun r => ivr_id r <> pg_uuid (w_pgseq w)
                   /\ ivr_token_hash r <> hashInviteSecret (invite_secret w)) (d_invites (w_db w)) ->
  already_invited (w_db w) t (normalizeEmail (cv_email cmd)) = false ->
  db_ok (w_db w) -> db_ok (inserted (new_invite config cmd t a w) w).
Proof.
  intros Ht Ha Htn Hue Hrole Hfr Hdup Hok.
  pose proof (run_invite_store config ctx cmd t a tn w Ht Ha Htn Hue Hrole Hfr) as Hr. rewrite Hdup in Hr.
  match type of Hr with run (_ ?x ?i) ?v = _ => pose proof (call_ok (InvitesCreate x i) v Hok) as Hc end.
  cbn [perform] in Hc. by rewrite Hr in Hc.
Qed.

(** * Theorems *)

Lemma spent_closed h d t email now : hash_pending h d = false -> open_invite d t h email now = None.
Proof.
  rewrite hash_pending_spent. intros HF. unfold open_invite. apply find_none_Forall.
  eapply Forall_impl; [exact HF|]. intros r Hr. unfold consumable.
  destruct (bool_decide_reflect (ivr_token_hash r = h)) as [E|E]; [|by rewrite andb_false_r].
  rewrite (bool_decide_eq_false_2 (ivr_status r = _)) by by apply Hr. cbn. by rewrite !andb_false_r.
Qed.

Definition provisioned_event `{Crypto} (tenantId uid : jsstr) (input : InviteProvisionInput) : OAuthAuditEvent :=
  mkOAuthAuditEvent (Some tenantId) (Some uid) google (Some (hashForAudit (vi_providerSub input)))
    invite_provisioned (vi_now input).

(** C22. Provisioning from an invite.  A presentation whose hash, address and time
    match a pending unexpired invite of the tenant consumes it, creates the active
    user without a usable password and with the invite's role, links the provider
    account and logs the event, all or nothing: when no invite matches, or the
    address or the account already belongs to a user of the tenant, the answer is
    null and the database is as it was. *)
Theorem provisioning_correct `{EntropyLaws, Crypto} tenantId t input w
    (Ht : uuid_in tenantId = Some t) (Hok : db_ok (w_db w))
    (Hfu : fresh_user (w_db w) (pg_uuid (w_pgseq w)))
    (Hfl : Forall (fun r => oir_id r <> pg_uuid (S (S (w_pgseq w)))) (d_oauth_identities (w_db w))) :
  let provision := provisionFromInvite ConsoleOAuthAuditLogger tenantId input in
  let uid := pg_uuid (w_pgseq w) in
  match open_invite (w_db w) t (vi_inviteTokenHash input) (vi_email input) (vi_now input) with
  | None => run provision w = (Ok None, w)
  | Some r =>
      if unclaimed t input w
      then run provision w =
           (Ok (Some uid),
            set_w_oauth_audit (w_oauth_audit w ++ [provisioned_event tenantId uid input])
              (set_db_seq (provisioned t input (ivr_role r) w) (S (S (S (w_pgseq w)))) w))
      else exists n, run provision w = (Ok None, set_db_seq (w_db w) n w)
  end.
Proof.
  intros provision uid. unfold provision, provisionFromInvite. rewrite run_catch, run_bind.
  destruct (run_provision_tx tenantId t input w Ht Hok Hfu Hfl) as (res & w' & -> & Hres).
  destruct (open_invite _ _ _ _ _) as [r|]; [|by destruct Hres as [-> ->]].
  destruct (unclaimed _ _ _); [by destruct Hres as [-> ->]|].
  destruct Hres as [[m ->] [n ->]]. by exists n.
Qed.

(** C13. Of any number of concurrent presentations of one invite token, by whichever
    accounts, at most one is provisioned, in every interleaving with each other,
    with the clock, with failures of the infrastructure and with any repository
    calls that do not create an invite with the same token hash. *)
Theorem invite_single_use `{EntropyLaws, Crypto} tenantId t h inputs w w' ts' j k u v
    (Ht : uuid_in tenantId = Some t) (Hok : db_ok (w_db w))
    (Hh : Forall (fun i => vi_inviteTokenHash i = h) inputs)
    (Hsteps : rtc (pstep (env_without h))
                (w, map (provisionFromInvite ConsoleOAuthAuditLogger tenantId) inputs) (w', ts'))
    (Hj : ts' !! j = Some (Ret (Ok (Some u)))) (Hk : ts' !! k = Some (Ret (Ok (Some v)))) :
  j = k.
Proof.
  eapply (single_winner (env_without h) (fun w => db_ok (w_db w)) (fun w => hash_pending h (w_db w))
            (fun r => bool_decide (is_Some r))); [| | |exact Hsteps|exact Hj|done|exact Hk|done].
  - intros x x' Hx HI. by apply without_no_release.
  - done.
  - rewrite Forall_map. eapply Forall_impl; [exact Hh|]. intros i Hi. by apply (claims_provision tenantId t h).
Qed.

(** C26. Issuing an invite.  At the tenant's cap the answer is the conflict error and
    nothing changes.  When a pending invite for the same address exists, expired or
    not, the database refuses the row and the caller gets the driver's
    unique-violation error, not a conflict.  Otherwise one pending row is stored
    with the hash of the secret, the normalised address and the expiry, the event
    is logged, and the answer carries the one-time link, whatever the mail sender
    does. *)
Theorem invite_issue_correct `{EntropyLaws, Bcrypt, CryptoLaws, Unicode} cost mail config ctx cmd t a tn w
    (Hcan : can (ctx_role ctx) Rbac.invite_create = true)
    (Ht : uuid_in (ctx_tenantId ctx) = Some t) (Ha : uuid_in (ctx_principalId ctx) = Some a)
    (Htn : tenant_by_id (w_db w) t = Some tn) (Hue : user_id_exists (w_db w) a = true)
    (Hrole : cv_role cmd ∈ [js "member"; js "admin"])
    (Hfr : Forall (fun r => ivr_id r <> pg_uuid (w_pgseq w)
                            /\ ivr_token_hash r <> hashInviteSecret (invite_secret w)) (d_invites (w_db w))) :
  let create := perform_as (pg_ports cost mail config) ctx (InviteCreate cmd) in
  let email := normalizeEmail (cv_email cmd) in
  if cap_reached config t w
  then exists m, run create w = (Err (ConflictError m), w)
  else if already_invited (w_db w) t email
  then exists w1, run create w = (Err (EPg PG_UNIQUE_VIOLATION), w1) /\ w_db w1 = w_db w
  else exists link w1,
    run create w = (Ok (mkIssuedInvite (invite_view config cmd t a w) link),
                    (run (email_send mail (InviteService.invite_email email link)) w1).2) /\
    link = invite_url config tn w /\
    w_db w1 = inserted (new_invite config cmd t a w) w /\
    w_invite_audit w1 = w_invite_audit w ++ [issued_event config ctx cmd t a w].
Proof.
  intros create email.
  pose proof (run_invite_create cost mail config ctx cmd t a tn w Hcan Ht Ha Htn Hue Hrole Hfr) as Hr.
  subst create. destruct (cap_reached _ _ _); [by eexists|]. fold email in Hr.
  destruct (already_invited _ _ _); [by eexists|]. eexists _, _. split; [exact Hr|done].
Qed.

(** An invite from issue to use.  The link of an issued invite carries a token
    that parses to the tenant's slug and the secret; presented before it expires
    by the invited address with a free provider account, it provisions the user
    with the invite's role; no further presentation, by anyone and at any time,
    is provisioned. *)
Theorem invite_round_trip `{EntropyLaws, Bcrypt, CryptoLaws, Unicode} cost mail config ctx cmd t a tn w
    (Hcan : can (ctx_role ctx) Rbac.invite_create = true)
    (Ht : uuid_in (ctx_tenantId ctx) = Some t) (Ha : uuid_in (ctx_principalId ctx) = Some a)
    (Htn : tenant_by_id (w_db w) t = Some tn) (Hue : user_id_exists (w_db w) a = true)
    (Hrole : cv_role cmd ∈ [js "member"; js "admin"])
    (Hfr : Forall (fun r => ivr_id r <> pg_uuid (w_pgseq w)
                            /\ ivr_token_hash r <> hashInviteSecret (invite_secret w)) (d_invites (w_db w)))
    (Hok : db_ok (w_db w)) (Hmail : forall m, leaves_db (email_send mail m))
    (Hcap : cap_reached config t w = false)
    (Hdup : already_invited (w_db w) t (normalizeEmail (cv_email cmd)) = false) :
  exists ii w1 token p,
    run (perform_as (pg_ports cost mail config) ctx (InviteCreate cmd)) w = (Ok ii, w1) /\
    ii_inviteUrl ii = inviteAcceptBaseUrl config ++ js "/invite/accept?token=" ++ token /\
    parseInviteToken token = Ok p /\ pi_publicId p = tr_public_id tn /\
    forall w2 sub now,
      w_db w2 = w_db w1 -> (now < w_now w + inviteTtlSeconds config * 1000)%Z ->
      fresh_user (w_db w2) (pg_uuid (w_pgseq w2)) ->
      Forall (fun r => oir_id r <> pg_uuid (S (S (w_pgseq w2)))) (d_oauth_identities (w_db w2)) ->
      let input := mkInviteProvisionInput (normalizeEmail (cv_email cmd)) (hashInviteSecret (pi_secret p)) sub now in
      unclaimed t input w2 = true ->
      exists uid w3,
        run (provisionFromInvite ConsoleOAuthAuditLogger (ctx_tenantId ctx) input) w2 = (Ok (Some uid), w3) /\
        (exists m, In m (d_memberships (w_db w3)) /\ mr_tenant_id m = t /\ mr_user_id m = uid /\
                   mr_role m = translateRole (cv_role cmd)) /\
        forall email' now',
          open_invite (w_db w3) t (hashInviteSecret (pi_secret p)) email' now' = None.
Proof.
  pose proof (run_invite_create cost mail config ctx cmd t a tn w Hcan Ht Ha Htn Hue Hrole Hfr) as Hr.
  rewrite Hcap, Hdup in Hr. eexists _, _, _, _. split; [exact Hr|]. split; [reflexivity|].
  split; [by apply (invite_token_parses t)|]. split; [done|].
  intros w2 sub now Hdb Hnow Hfu Hfl input Hun. rewrite (Hmail _ _) in Hdb.
  change (w_db (issued_world _ _ _ _ _ _)) with (inserted (new_invite config cmd t a w) w) in Hdb.
  assert (Hok2 : db_ok (w_db w2)) by (rewrite Hdb; by apply (issued_ok config ctx cmd t a tn w)).
  assert (Hopen : open_invite (w_db w2) t (hashInviteSecret (invite_secret w)) (normalizeEmail (cv_email cmd)) now
                  = Some (new_invite config cmd t a w)).
  { rewrite Hdb. by apply issued_open. }
  destruct (run_provision_tx (ctx_tenantId ctx) t input w2 Ht Hok2 Hfu Hfl) as (res & w3 & Hrun & Hres).
  cbn [input vi_inviteTokenHash vi_email vi_now] in Hres. cbn [pi_secret] in *.
  rewrite Hopen, Hun in Hres. destruct Hres as [-> ->].
  eexists _, _. split.
  { unfold provisionFromInvite. rewrite run_catch, run_bind, Hrun. reflexivity. }
  split.
  - eexists. split; [apply in_app_iff; right; left; reflexivity|]. done.
  - intros email' now'. apply spent_closed.
    destruct (consume_spends t (hashInviteSecret (invite_secret w)) (normalizeEmail (cv_email cmd)) now (w_dbnow w2)
                (w_db w2) _ Hok2 Hopen) as [_ Hs]. exact Hs.
Qed.

(** ** Witnesses *)

(** Carol presents the invite of the example world. *)
Definition demo_carol : InviteProvisionInput :=
  mkInviteProvisionInput (js "carol@acme.io") (pad_digest (js "inv")) (js "sub-carol") 6000.

Lemma demo_fresh_user : @fresh_user demo_db (@pg_uuid demo_entropy 0).
Proof. repeat constructor; intros E; vm_compute in E; discriminate E. Qed.

Definition demo_provision (i : InviteProvisionInput) : prog world (option jsstr) :=
  @provisionFromInvite demo_entropy demo_crypto ConsoleOAuthAuditLogger acme i.

Lemma provisioning_correct_witness : exists w1,
  run (demo_provision demo_carol) demo_world = (Ok (Some (@pg_uuid demo_entropy 0)), w1) /\
  map ivr_status (d_invites (w_db w1)) = [js "consumed"] /\
  map mr_role (d_memberships (w_db w1)) = [m_tenant_admin; m_member; m_tenant_admin].
Proof.
  pose proof (@provisioning_correct demo_entropy demo_entropy_laws demo_crypto acme acme demo_carol demo_world
    eq_refl demo_db_ok demo_fresh_user (List.Forall_nil _)) as Hp. cbv zeta in Hp.
  assert (E : exists r, open_invite (w_db demo_world) acme (vi_inviteTokenHash demo_carol) (vi_email demo_carol)
                (vi_now demo_carol) = Some r /\ ivr_role r = js "admin").
  { eexists. split; vm_compute; reflexivity. }
  destruct E as (r & E & Hr). rewrite E in Hp.
  assert (Hun : unclaimed acme demo_carol demo_world = true) by (vm_compute; reflexivity).
  rewrite Hun, Hr in Hp. eexists. split; [exact Hp|]. split; vm_compute; reflexivity.
Defined.

(** Two accounts present the token, one after the other. *)
Definition demo_mallory : InviteProvisionInput :=
  mkInviteProvisionInput (js "carol@acme.io") (pad_digest (js "inv")) (js "sub-mallory") 7000.

Lemma invite_single_use_witness : exists w' ts',
  rtc (pstep (@env_without demo_entropy (pad_digest (js "inv"))))
    (demo_world, map demo_provision [demo_carol; demo_mallory]) (w', ts') /\
  ts' !! 0 = Some (Ret (Ok (Some (@pg_uuid demo_entropy 0)))) /\ ts' !! 1 = Some (Ret (Ok None)) /\
  (forall v j, ts' !! j = Some (Ret (Ok (Some v))) -> 0 = j).
Proof.
  destruct (run (demo_provision demo_carol) demo_world) as [r0 w0] eqn:E0.
  destruct (run (demo_provision demo_mallory) w0) as [r1 w1] eqn:E1.
  assert (Hr0 : r0 = Ok (Some (@pg_uuid demo_entropy 0))).
  { change r0 with (fst (r0, w0)). rewrite <-E0. vm_compute. reflexivity. }
  assert (Hr1 : r1 = Ok None).
  { change r1 with (fst (r1, w1)). rewrite <-E1. change w0 with (snd (r0, w0)). rewrite <-E0.
    vm_compute. reflexivity. }
  exists w1, [Ret r0; Ret r1].
  assert (Hsteps : rtc (pstep (@env_without demo_entropy (pad_digest (js "inv"))))
    (demo_world, map demo_provision [demo_carol; demo_mallory]) (w1, [Ret r0; Ret r1])).
  { etrans.
    - apply (run_pool _ (map demo_provision [demo_carol; demo_mallory]) 0 (demo_provision demo_carol) _ r0 w0
               eq_refl E0).
    - apply (run_pool _ [Ret r0; demo_provision demo_mallory] 1 (demo_provision demo_mallory) _ r1 w1
               eq_refl E1). }
  split; [exact Hsteps|]. split; [rewrite Hr0; reflexivity|]. split; [rewrite Hr1; reflexivity|].
  intros v j Hj.
  refine (@invite_single_use demo_entropy demo_entropy_laws demo_crypto acme acme (pad_digest (js "inv"))
    [demo_carol; demo_mallory] demo_world w1 _ 0 j _ v eq_refl demo_db_ok _ Hsteps _ Hj).
  - repeat constructor.
  - rewrite Hr0. reflexivity.
Defined.

Definition demo_invite : CreateInviteCommand := mkCreateInviteCommand (js "Dave@Acme.io ") (js "member").

Lemma demo_invite_fresh : Forall (fun r => ivr_id r <> @pg_uuid demo_entropy (w_pgseq demo_world)
    /\ ivr_token_hash r <> @hashInviteSecret demo_crypto (@invite_secret demo_entropy demo_world))
  (d_invites (w_db demo_world)).
Proof. repeat constructor; intros E; vm_compute in E; discriminate E. Qed.

Definition demo_tenant : tenants_row := mk_tenants acme (js "acme") (js "Acme") t_active 0 0.

Lemma invite_issue_correct_witness : exists ii w1,
  run (@perform_as demo_crypto ascii_unicode demo_ports demo_ctx _ (InviteCreate demo_invite)) demo_world
    = (Ok ii, w1) /\
  iv_email (ii_invite ii) = js "dave@acme.io" /\ length (d_invites (w_db w1)) = 2.
Proof.
  pose proof (@invite_issue_correct demo_entropy demo_entropy_laws demo_bcrypt demo_crypto demo_crypto_laws
    ascii_unicode 10 NoOpEmailSender demo_config demo_ctx demo_invite acme alice demo_tenant demo_world
    eq_refl eq_refl eq_refl eq_refl eq_refl (list_elem_of_here _ _) demo_invite_fresh) as Hi. cbv zeta in Hi.
  assert (Ec : cap_reached demo_config acme demo_world = false) by (vm_compute; reflexivity).
  assert (Ed : already_invited (w_db demo_world) acme (@normalizeEmail ascii_unicode (cv_email demo_invite)) = false)
    by (vm_compute; reflexivity).
  rewrite Ec, Ed in Hi. destruct Hi as (link & w1 & Hr & _ & Hdb & _).
  eexists _, _. split; [exact Hr|]. split; [vm_compute; reflexivity|].
  change (w_db (run _ w1).2) with (w_db w1). rewrite Hdb. vm_compute. reflexivity.
Defined.

Lemma invite_round_trip_witness : exists ii w1 p uid w3,
  run (@perform_as demo_crypto ascii_unicode demo_ports demo_ctx _ (InviteCreate demo_invite)) demo_world
    = (Ok ii, w1) /\
  pi_publicId p = js "acme" /\
  run (demo_provision (mkInviteProvisionInput (@normalizeEmail ascii_unicode (cv_email demo_invite))
         (@hashInviteSecret demo_crypto (pi_secret p)) (js "sub-dave") 6000)) w1 = (Ok (Some uid), w3).
Proof.
  destruct (@invite_round_trip demo_entropy demo_entropy_laws demo_bcrypt demo_crypto demo_crypto_laws
    ascii_unicode 10 NoOpEmailSender demo_config demo_ctx demo_invite acme alice demo_tenant demo_world
    eq_refl eq_refl eq_refl eq_refl eq_refl (list_elem_of_here _ _) demo_invite_fresh demo_db_ok)
    as (ii & w1 & token & p & Hr & Hurl & Hp & Hslug & Huse);
    [intros m w; reflexivity|vm_compute; reflexivity|vm_compute; reflexivity|].
  assert (Ew : w1 = (run (@perform_as demo_crypto ascii_unicode demo_ports demo_ctx _ (InviteCreate demo_invite))
                       demo_world).2) by (unfold demo_ports; rewrite Hr; reflexivity).
  destruct (Huse w1 (js "sub-dave") 6000%Z) as (uid & w3 & Hrun & _).
  - reflexivity.
  - vm_compute. reflexivity.
  - rewrite Ew. repeat constructor; intros E; vm_compute in E; discriminate E.
  - rewrite Ew. constructor.
  - rewrite Ew. vm_compute. reflexivity.
  - exists ii, w1, p, uid, w3. split; [exact Hr|]. split; [exact Hslug|exact Hrun].
Defined.
