(* ===== verification/Oidc.v ===== *)
(** * OIDC authenticator

    [app/oidc-authenticator.ts]: the authorization-code flow with PKCE.
    [beginAuthorize] stores a single-use state and returns the provider URL;
    [handleCallback] consumes the state, exchanges the code, verifies the id token,
    resolves the account (linked identity, provisioned user, or invite) and mints a
    session.  The fire-and-forget update of the last login runs in line, its failure
    ignored. *)

From stdpp Require Import base list option numbers strings gmap.
From S2P Require Import Prelude Errors Effects Tokens Text Rbac Email Entities Ports Uuid Schema World.
From S2P Require Import Sql PgUsers PgTokens PgInvites Adapters Google.

Definition STATE_BYTES : nat := 32.
Definition NONCE_BYTES : nat := 32.
Definition CODE_VERIFIER_BYTES : nat := 32.
Definition DEFAULT_RETURN_TO : jsstr := js "/".
Definition OAUTH_STATE_TTL_SECONDS : Z := 600.
Definition GOOGLE_SCOPES : jsstr := js "openid email".

Record OidcAuthorizeCommand := mkOidcAuthorizeCommand {
  oa_tenantSlug : jsstr;
  oa_returnTo : option jsstr
}.

Record OidcAuthorizeResult := mkOidcAuthorizeResult { oar_redirectUrl : jsstr }.

Record OidcCallbackCommand := mkOidcCallbackCommand {
  cb_code : jsstr;
  cb_state : jsstr;
  cb_inviteTokenHash : option (list N)
}.

Record OidcCallbackResult := mkOidcCallbackResult {
  cr_tokens : SessionTokens;
  cr_returnTo : jsstr
}.

Record OidcAuthenticatorDeps := mkOidcAuthenticatorDeps {
  od_tenants : TenantRepository world;
  od_stateStore : OAuthStateStore world;
  od_clientId : jsstr;
  od_redirectUri : jsstr;
  od_authEndpoint : jsstr;
  od_stateTtlSeconds : option Z;
  od_tokenExchangeClient : GoogleTokenExchangeClient world;
  od_idTokenVerifier : GoogleIdTokenVerifier world;
  od_oauthIdentities : OAuthIdentityRepository world;
  od_users : UserRepository world;
  od_refreshTokens : RefreshTokenRepository world;
  od_tokens : TokenService world;
  od_secrets : SecretGenerator world;
  od_ids : IdGenerator world;
  od_clock : Clock world;
  od_refreshTtlSeconds : Z;
  od_auditLogger : option (OAuthAuditLogger world);
  od_inviteProvisioner : option (InviteProvisioner world)
}.

Definition NO_OP_AUDIT_LOGGER : OAuthAuditLogger world := {| oauth_log := fun _ => mret tt |}.

(** ** Return paths *)

(** No C0 control character and no DEL. *)
Definition no_control (v : jsstr) : bool :=
  forallb (fun c => negb ((c <=? 0x1f)%N || (c =? 0x7f)%N)) v.

(** [/^\/(?![/\\])/.test(v)]. *)
Definition single_slash (v : jsstr) : bool :=
  match v with
  | 47%N :: 47%N :: _ | 47%N :: 92%N :: _ => false
  | 47%N :: _ => true
  | _ => false
  end.

Definition isValidReturnTo (v : jsstr) : bool :=
  negb ((length v =? 0) || (2000 <? length v)) && single_slash v && no_control v.

Definition sanitizeReturnTo (value : option jsstr) : jsstr :=
  match value with
  | None => DEFAULT_RETURN_TO
  | Some v =>
      if negb (truthy v) then DEFAULT_RETURN_TO
      else
        let trimmed := trim v in
        if negb (isValidReturnTo trimmed) then DEFAULT_RETURN_TO else trimmed
  end.

Section Oidc.
Context `{Crypto, Unicode, Entropy} (deps : OidcAuthenticatorDeps).

Definition hashProviderSub (sub : jsstr) : jsstr := toHex (sha256_digest sub).

Definition codeVerifierToChallenge (verifier : jsstr) : jsstr := base64url (sha256_digest verifier).

(** [randomBytes(n).toString('base64url')]. *)
Definition random_base64url (n : nat) : prog world jsstr :=
  draw (fun k => base64url (fromHex (node_hex k n))).

Definition stateTtlSeconds : Z := default OAUTH_STATE_TTL_SECONDS (od_stateTtlSeconds deps).
Definition auditLogger : OAuthAuditLogger world := default NO_OP_AUDIT_LOGGER (od_auditLogger deps).

(** The keys of a state record's [meta]. *)
Definition state_meta (codeVerifier nonce returnTo : jsstr) : gmap jsstr jsstr :=
  <[js "provider" := js "google"]> (<[js "codeVerifier" := codeVerifier]>
    (<[js "nonce" := nonce]> (<[js "returnTo" := returnTo]> ∅))).

Definition authorize_params (state nonce codeChallenge : jsstr) : list (jsstr * jsstr) :=
  [(js "client_id", od_clientId deps);
   (js "redirect_uri", od_redirectUri deps);
   (js "response_type", js "code");
   (js "scope", GOOGLE_SCOPES);
   (js "state", state);
   (js "nonce", nonce);
   (js "code_challenge", codeChallenge);
   (js "code_challenge_method", js "S256")].

Definition beginAuthorize (cmd : OidcAuthorizeCommand) : prog world OidcAuthorizeResult :=
  tenant ← tenants_findByPublicId (od_tenants deps) (oa_tenantSlug cmd);
  match tenant with
  | Some t =>
      if negb (bool_decide (tn_status t = t_active))
      then throw (NotFoundError (js "tenant '" ++ oa_tenantSlug cmd ++ js "' not found"))
      else
        state ← random_base64url STATE_BYTES;
        nonce ← random_base64url NONCE_BYTES;
        codeVerifier ← random_base64url CODE_VERIFIER_BYTES;
        let codeChallenge := codeVerifierToChallenge codeVerifier in
        let returnTo := sanitizeReturnTo (oa_returnTo cmd) in
        createdAt ← atomic (fun w => (Ok (toISOString (w_now w)), w));
        _ ← states_put (od_stateStore deps)
              (mkOAuthStateRecord state (tn_id t) (state_meta codeVerifier nonce returnTo) createdAt)
              stateTtlSeconds;
        mret (mkOidcAuthorizeResult
                (od_authEndpoint deps ++ js "?"
                 ++ urlSearchParams (authorize_params state nonce codeChallenge)))
  | None => throw (NotFoundError (js "tenant '" ++ oa_tenantSlug cmd ++ js "' not found"))
  end.

Definition audit (tenantId userId hashedSub : option jsstr) (outcome : OAuthAuditOutcome) : prog world unit :=
  catch (fun _ => mret tt)
    (ts ← clock_now (od_clock deps);
     oauth_log auditLogger (mkOAuthAuditEvent tenantId userId google hashedSub outcome ts)).

(** [this.audit({...}); throw err]. *)
Definition reject {A} (tenantId userId hashedSub : option jsstr) (outcome : OAuthAuditOutcome) (err : exn)
    : prog world A :=
  _ ← audit tenantId userId hashedSub outcome;
  throw err.

Definition mintSession (tenantId userId : jsstr) (role : Role) : prog world SessionTokens :=
  familyId ← ids_uuid (od_ids deps);
  secret ← secrets_generate (od_secrets deps);
  now ← clock_now (od_clock deps);
  let expiresAt := (now + od_refreshTtlSeconds deps * 1000)%Z in
  tokenId ← refresh_create (od_refreshTokens deps) tenantId
              (mkNewRefreshToken familyId userId (sha256 secret) expiresAt);
  access ← tokens_issueAccess (od_tokens deps) (mkSessionClaims tenantId userId role);
  mret {| st_accessToken := ia_token access;
          st_refreshToken := assembleRefreshToken tenantId tokenId secret;
          st_expiresIn := ia_expiresInSeconds access;
          st_tokenType := js "Bearer";
          st_role := role;
          st_tenantId := tenantId;
          st_userId := userId |}.

Definition no_account : exn := UnauthorizedError (js "no provisioned account for this Google identity").

(** Step 2: the code for an id token. *)
Definition exchange_code (tenantId code codeVerifier : jsstr) : prog world jsstr :=
  catch (fun err =>
      _ ← audit (Some tenantId) None None reject_exchange_failure;
      if instanceof err ServiceUnavailableErrorC then throw err
      else throw (UnauthorizedError (js "token exchange failed")))
    (r ← exchange_exchange (od_tokenExchangeClient deps)
           (mkExchangeParams code (od_redirectUri deps) codeVerifier);
     mret (ge_idToken r)).

(** Step 3: the claims of the id token. *)
Definition verify_token (tenantId idToken nonce : jsstr) : prog world GoogleIdTokenClaims :=
  catch (fun err =>
      _ ← audit (Some tenantId) None None reject_invalid_token;
      if instanceof err ServiceUnavailableErrorC then throw err
      else throw (UnauthorizedError (js "id_token verification failed")))
    (verifier_verify (od_idTokenVerifier deps) idToken nonce).

(** Step 4, first login of the account: the user to link it to, by address or by
    invite. *)
Definition first_login (tenantId : jsstr) (claims : GoogleIdTokenClaims) (inviteTokenHash : option (list N))
    : prog world jsstr :=
  let hashedSub := hashProviderSub (gc_sub claims) in
  let normalizedEmail := normalizeEmail (gc_email claims) in
  userRecord ← users_findCredentialsByEmail (od_users deps) tenantId normalizedEmail;
  match userRecord with
  | None =>
      match od_inviteProvisioner deps, inviteTokenHash with
      | Some inviteProvisioner, Some hash =>
          now ← clock_now (od_clock deps);
          provisioned ← provisioner_provisionFromInvite inviteProvisioner tenantId
                          (mkInviteProvisionInput normalizedEmail hash (gc_sub claims) now);
          match provisioned with
          | Some userId => mret userId
          | None => reject (Some tenantId) None (Some hashedSub) reject_no_valid_invite no_account
          end
      | _, _ => reject (Some tenantId) None (Some hashedSub) reject_no_provisioned_user no_account
      end
  | Some user =>
      linked ← catch (fun err =>
                   if instanceof err ConflictErrorC
                   then reject (Some tenantId) None (Some hashedSub) reject_identity_conflict no_account
                   else throw err)
                 (identities_linkFirst (od_oauthIdentities deps) tenantId
                    (mkNewOAuthIdentity (au_id user) google (gc_sub claims) normalizedEmail));
      mret (or_userId linked)
  end.

(** Steps 5 to 7: the session of the resolved user. *)
Definition finish_login (tenantId hashedSub : jsstr) (existingIdentity : option OAuthIdentityRef)
    (userId returnTo : jsstr) : prog world OidcCallbackResult :=
  record ← users_findCredentialsById (od_users deps) tenantId userId;
  let inactive := reject (Some tenantId) (Some userId) (Some hashedSub) reject_account_inactive
                    (UnauthorizedError (js "account is not active")) in
  match record with
  | Some (mkAuthRecord uid _ status (Some role)) =>
      if negb (bool_decide (status = js "active")) then inactive
      else
        _ ← match existingIdentity with
            | Some link =>
                now ← clock_now (od_clock deps);
                catch (fun _ => mret tt)
                  (identities_touchLastLogin (od_oauthIdentities deps) tenantId (or_id link) now)
            | None => mret tt
            end;
        tokens ← mintSession tenantId uid role;
        _ ← audit (Some tenantId) (Some uid) (Some hashedSub)
              (match existingIdentity with Some _ => login_outcome | None => first_link end);
        mret (mkOidcCallbackResult tokens returnTo)
  | _ => inactive
  end.

(** Steps 4 to 7, the claims being verified. *)
Definition resolve_and_finish (tenantId returnTo : jsstr) (claims : GoogleIdTokenClaims)
    (inviteTokenHash : option (list N)) : prog world OidcCallbackResult :=
  existingIdentity ← identities_findByProviderSub (od_oauthIdentities deps) tenantId google (gc_sub claims);
  userId ← match existingIdentity with
           | Some link => mret (or_userId link)
           | None => first_login tenantId claims inviteTokenHash
           end;
  finish_login tenantId (hashProviderSub (gc_sub claims)) existingIdentity userId returnTo.

Definition handleCallback (cmd : OidcCallbackCommand) : prog world OidcCallbackResult :=
  stateRecord ← states_consume (od_stateStore deps) (cb_state cmd);
  match stateRecord with
  | None => reject None None None reject_invalid_state
              (UnauthorizedError (js "invalid or expired OAuth state"))
  | Some record =>
      let tenantId := os_tenantId record in
      let codeVerifier := default [] (os_meta record !! js "codeVerifier") in
      let nonce := default [] (os_meta record !! js "nonce") in
      let returnTo := default (js "/") (os_meta record !! js "returnTo") in
      if negb (truthy codeVerifier) || negb (truthy nonce)
      then reject (Some tenantId) None None reject_invalid_state
             (UnauthorizedError (js "malformed OAuth state record"))
      else
        idToken ← exchange_code tenantId (cb_code cmd) codeVerifier;
        claims ← verify_token tenantId idToken nonce;
        resolve_and_finish tenantId returnTo claims (cb_inviteTokenHash cmd)
  end.

End Oidc.

(** The Google settings of the configuration. *)
Record GoogleConfig := mkGoogleConfig {
  go_clientId : option jsstr;
  go_clientSecret : option jsstr;
  go_redirectUri : option jsstr;
  go_oidcClientId : option jsstr;
  go_oidcRedirectUri : option jsstr;
  go_oidcAuthEndpoint : jsstr;
  go_stateTtlSeconds : Z
}.

(** [config.x ? ... : ...] of an optional string. *)
Definition given (s : option jsstr) : option jsstr := v ← s; if truthy v then Some v else None.

(** The composition root's wiring. *)
Definition pg_oidc_deps `{Entropy, Crypto, Jose, Net} (store : OAuthStateStore world) (config : GoogleConfig)
    (jwt : JoseTokenConfig) (refreshTtlSeconds : Z) : OidcAuthenticatorDeps :=
  {| od_tenants := PgTenantRepository.repository;
     od_stateStore := store;
     od_clientId := default [] (go_oidcClientId config);
     od_redirectUri := default [] (match go_oidcRedirectUri config with
                                   | Some u => Some u
                                   | None => go_redirectUri config
                                   end);
     od_authEndpoint := go_oidcAuthEndpoint config;
     od_stateTtlSeconds := Some (go_stateTtlSeconds config);
     od_tokenExchangeClient :=
       match given (go_clientId config), given (go_clientSecret config) with
       | Some id, Some secret =>
           GoogleTokenExchangeHttpClient.client (mkGoogleTokenExchangeConfig id secret)
       | _, _ => {| exchange_exchange := fun _ => throw (EError (js "Google token exchange not configured")) |}
       end;
     od_idTokenVerifier :=
       match given (go_clientId config) with
       | Some id => JoseGoogleIdTokenVerifier.verifier id
       | None => {| verifier_verify := fun _ _ => throw (EError (js "Google id_token verifier not configured")) |}
       end;
     od_oauthIdentities := PgOAuthIdentityRepository.repository;
     od_users := PgUserRepository.repository;
     od_refreshTokens := PgRefreshTokenRepository.repository;
     od_tokens := JoseTokenService jwt;
     od_secrets := NodeSecretGenerator;
     od_ids := NodeIdGenerator;
     od_clock := SystemClock;
     od_refreshTtlSeconds := refreshTtlSeconds;
     od_auditLogger := Some ConsoleOAuthAuditLogger;
     od_inviteProvisioner := Some (PgInviteProvisioner.provisioner ConsoleOAuthAuditLogger) |}.
