(* ===== verification/OidcFlow.v ===== *)
(** * The OIDC flow

    What [handleCallback] decides, as a function of the consumed state, Google's
    answers and the database ([callback_outcome]), and that the program implements
    it; what [beginAuthorize] stores and returns; the two together. *)

From stdpp Require Import base list option numbers strings gmap relations.
From S2P Require Import Prelude Errors Effects Tokens Text Rbac Email Entities Ports Uuid Schema World Sql.
From S2P Require Import Integrity Eval Demo PgUsers PgTokens PgInvites PgContent Calls Credentials.
From S2P Require Import Adapters Google AuthService Sessions Services UseCases Invites Oidc.
Import PgRefreshTokenRepository PgInviteRepository PgInviteProvisioner PgOAuthIdentityRepository.

(** ** What Google answers *)

Inductive google_result :=
| ExchangeFailed (e : exn)
| TokenInvalid (e : exn)
| Confirmed (claims : GoogleIdTokenClaims).

(** What the callback turns a failure of a Google step into. *)
Definition google_error (message : jsstr) (e : exn) : exn :=
  if instanceof e ServiceUnavailableErrorC then e else UnauthorizedError message.

Section Spec.
Context `{Crypto, Unicode, Net, Entropy}.

Definition exchange_answer (now : Z) (gx : GoogleTokenExchangeConfig) (params : ExchangeParams)
    : result exn GoogleTokenExchangeResult :=
  match net_post now GOOGLE_TOKEN_ENDPOINT (GoogleTokenExchangeHttpClient.request_body gx params) with
  | None => Err (ServiceUnavailableError (js "Google token endpoint unavailable"))
  | Some r =>
      if ((200 <=? hr_status r) && (hr_status r <=? 299))%Z then
        match hr_json r with
        | None => Err (UnauthorizedError (js "token exchange failed"))
        | Some data => GoogleTokenExchangeHttpClient.read_response data
        end
      else if (500 <=? hr_status r)%Z
      then Err (ServiceUnavailableError (js "Google token endpoint error"))
      else Err (UnauthorizedError (js "token exchange failed"))
  end.

Definition verify_answer (now : Z) (clientId idToken nonce : jsstr) : result exn GoogleIdTokenClaims :=
  match net_jwtVerify (now / 1000) idToken (JoseGoogleIdTokenVerifier.verify_options clientId) with
  | Ok p => JoseGoogleIdTokenVerifier.read_claims p nonce
  | Err JOSEError => Err (UnauthorizedError (js "invalid id_token"))
  | Err _ => Err (ServiceUnavailableError (js "Google JWKS endpoint unavailable"))
  end.

Definition google_answer (now : Z) (gx : GoogleTokenExchangeConfig) (params : ExchangeParams) (nonce : jsstr)
    : google_result :=
  match exchange_answer now gx params with
  | Err e => ExchangeFailed e
  | Ok r =>
      match verify_answer now (gx_clientId gx) (ge_idToken r) nonce with
      | Err e => TokenInvalid e
      | Ok c => Confirmed c
      end
  end.

(** ** Whose account it is *)

Inductive account :=
| Known (link : oauth_identities_row)          (* the Google account is linked *)
| Linkable (u : users_row)                     (* a user with the address, not linked *)
| Invited (invite : invites_row)               (* an open invite for the address *)
| Nobody (outcome : OAuthAuditOutcome).

(** The user has an identity of the provider. *)
Definition user_linked (d : database) (t u : jsstr) : bool :=
  existsb (fun r => bool_decide (oir_tenant_id r = t /\ oir_user_id r = u /\ oir_provider r = google))
    (d_oauth_identities d).

Definition resolve_account (d : database) (t : jsstr) (claims : GoogleIdTokenClaims) (hash : option (list N))
    (now : Z) : account :=
  let email := normalizeEmail (gc_email claims) in
  match identity_of d t google (gc_sub claims) with
  | Some link => Known link
  | None =>
      match user_by_email d t email with
      | Some u => if user_linked d t (ur_id u) then Nobody reject_identity_conflict else Linkable u
      | None =>
          match hash with
          | None => Nobody reject_no_provisioned_user
          | Some h =>
              match open_invite d t h email now with
              | Some r => Invited r
              | None => Nobody reject_no_valid_invite
              end
          end
      end
  end.

(** An active user's role. *)
Definition standing (d : database) (t uid : jsstr) : option Role :=
  u ← user_by_id d t uid;
  if bool_decide (ur_status u = js "active") then effective_role d u else None.

(** The user of the account and its role, [new] being the id a provisioned user
    gets. *)
Definition account_user (d : database) (t : jsstr) (new : jsstr) (a : account) : jsstr * option Role :=
  match a with
  | Known link => (oir_user_id link, standing d t (oir_user_id link))
  | Linkable u => (ur_id u, standing d t (ur_id u))
  | Invited r => (new, Some (role_of_membership (translateRole (ivr_role r))))
  | Nobody _ => ([], None)
  end.

Definition verifier_of (r : OAuthStateRecord) : jsstr := default [] (os_meta r !! js "codeVerifier").
Definition nonce_of (r : OAuthStateRecord) : jsstr := default [] (os_meta r !! js "nonce").
Definition return_of (r : OAuthStateRecord) : jsstr := default (js "/") (os_meta r !! js "returnTo").

End Spec.

(** ** The steps *)

(** The audit line of an outcome, written at the service's time. *)
Definition logged (tenantId userId hashedSub : option jsstr) (outcome : OAuthAuditOutcome) (w : world) : world :=
  set_w_oauth_audit (w_oauth_audit w ++ [mkOAuthAuditEvent tenantId userId google hashedSub outcome (w_now w)]) w.

(** The call of the token endpoint. *)
Definition called_google (gx : GoogleTokenExchangeConfig) (params : ExchangeParams) (w : world) : world :=
  set_w_google (w_google w ++ [(GOOGLE_TOKEN_ENDPOINT, GoogleTokenExchangeHttpClient.request_body gx params)]) w.

Section Flow.
Context `{EntropyLaws, CryptoLaws, Unicode, Jose, Net} (store : OAuthStateStore world)
  (config : GoogleConfig) (jwt : JoseTokenConfig) (ttl : Z) (gx : GoogleTokenExchangeConfig).
Context (Hid : given (go_clientId config) = Some (gx_clientId gx))
        (Hsecret : given (go_clientSecret config) = Some (gx_clientSecret gx)).
Abbreviation deps := (pg_oidc_deps store config jwt ttl).

Lemma deps_exchange : od_tokenExchangeClient deps = GoogleTokenExchangeHttpClient.client gx.
Proof. unfold pg_oidc_deps. cbn [od_tokenExchangeClient]. rewrite Hid, Hsecret. by destruct gx. Qed.

Lemma deps_verifier : od_idTokenVerifier deps = JoseGoogleIdTokenVerifier.verifier (gx_clientId gx).
Proof. unfold pg_oidc_deps. cbn [od_idTokenVerifier]. by rewrite Hid. Qed.

Lemma run_audit t u h o w : run (audit deps t u h o) w = (Ok tt, logged t u h o w).
Proof. done. Qed.

Lemma run_reject {A} t u h o e w : run (reject (A := A) deps t u h o e) w = (Err e, logged t u h o w).
Proof. unfold reject. by rewrite run_bind, run_audit. Qed.

Lemma run_exchange params w :
  run (GoogleTokenExchangeHttpClient.exchange gx params) w
  = (exchange_answer (w_now w) gx params, called_google gx params w).
Proof.
  unfold GoogleTokenExchangeHttpClient.exchange, exchange_answer. rewrite run_bind, run_catch.
  unfold GoogleTokenExchangeHttpClient.fetch_post. rewrite run_atomic.
  destruct (net_post _ _ _) as [r|]; [|done]. destruct (_ && _)%Z; cbn [negb].
  - by destruct (hr_json r).
  - by destruct (500 <=? hr_status r)%Z.
Qed.

Lemma run_verify_token v nonce w :
  run (JoseGoogleIdTokenVerifier.verify (gx_clientId gx) v nonce) w
  = (verify_answer (w_now w) (gx_clientId gx) v nonce, w).
Proof.
  unfold JoseGoogleIdTokenVerifier.verify, verify_answer. rewrite run_bind, run_atomic.
  by destruct (net_jwtVerify _ _ _) as [p|[]].
Qed.

(** Both Google steps. *)
Lemma run_google {A} t code cv nonce (k : GoogleIdTokenClaims -> prog world A) w :
  let params := mkExchangeParams code (od_redirectUri deps) cv in
  let w1 := called_google gx params w in
  run (idToken ← exchange_code deps t code cv; claims ← verify_token deps t idToken nonce; k claims) w =
  match google_answer (w_now w) gx params nonce with
  | ExchangeFailed e =>
      (Err (google_error (js "token exchange failed") e), logged (Some t) None None reject_exchange_failure w1)
  | TokenInvalid e =>
      (Err (google_error (js "id_token verification failed") e), logged (Some t) None None reject_invalid_token w1)
  | Confirmed claims => run (k claims) w1
  end.
Proof.
  intros params w1. unfold exchange_code, google_answer. rewrite run_bind, run_catch, run_bind, deps_exchange.
  change (exchange_exchange (GoogleTokenExchangeHttpClient.client gx)) with (GoogleTokenExchangeHttpClient.exchange gx).
  rewrite run_exchange. fold params. fold w1. destruct (exchange_answer _ _ _) as [r|e].
  - cbn [mret prog_ret run]. unfold verify_token. rewrite run_bind, run_catch, deps_verifier.
    change (verifier_verify (JoseGoogleIdTokenVerifier.verifier (gx_clientId gx)))
      with (JoseGoogleIdTokenVerifier.verify (gx_clientId gx)).
    rewrite run_verify_token. change (w_now w1) with (w_now w).
    destruct (verify_answer _ _ _ _) as [c|e]; [done|]. rewrite run_bind, run_audit. unfold google_error.
    by destruct (instanceof _ _).
  - rewrite run_bind, run_audit. unfold google_error. by destruct (instanceof _ _).
Qed.

Lemma run_mintSession t u role w :
  is_uuid t = true -> is_uuid u = true ->
  tenant_exists (w_db w) t = true -> user_exists (w_db w) t u = true -> fresh_token_id w ->
  run (mintSession deps t u role) w =
  (Ok (session jwt t u role (pg_uuid (w_pgseq w)) (node_hex (S (w_rand w)) REFRESH_SECRET_BYTES) (w_now w)),
   logged_in ttl t u w).
Proof.
  intros Ht%is_uuid_spec Hu%is_uuid_spec Hte Hue Hfr. unfold mintSession. rewrite run_bind.
  change (run (ids_uuid (od_ids deps)) w) with (Ok (E := exn) (node_uuid (w_rand w)), set_w_rand (S (w_rand w)) w).
  cbn match. rewrite run_bind. change (run (secrets_generate (od_secrets deps)) (set_w_rand (S (w_rand w)) w))
    with (Ok (E := exn) (node_hex (S (w_rand w)) REFRESH_SECRET_BYTES), set_w_rand (S (S (w_rand w))) w).
  cbn match. rewrite run_bind. change (od_clock deps) with SystemClock. rewrite run_now. cbn match. rewrite run_bind.
  change (refresh_create (od_refreshTokens deps)) with PgRefreshTokenRepository.create.
  rewrite (run_token_create t t u u (node_uuid (w_rand w)) (node_uuid (w_rand w))); try done.
  - apply is_uuid_spec, node_uuid_form.
  - apply sha256_length.
Qed.

(** The login time of an identity, when its id is one: a failure is swallowed. *)
Definition touched (t : jsstr) (existing : option OAuthIdentityRef) (w : world) : world :=
  match i ← existing; uuid_in (or_id i) with
  | Some i =>
      let hit r := bool_decide (oir_tenant_id r = t) && bool_decide (oir_id r = i) in
      set_db_seq (set_oauth_identities
        (map (fun r => if hit r then set_last_login (w_now w) (w_dbnow w) r else r) (d_oauth_identities (w_db w)))
        (w_db w)) (w_pgseq w) w
  | None => w
  end.

Lemma set_last_login_harmless at_ : harmless (R := oauth_identities_row) (set_last_login at_).
Proof. by split_and!. Qed.

Lemma identities_refs_kept d l : refs_kept d (t_put (R := oauth_identities_row) l d).
Proof. by split. Qed.

Lemma run_touch t link w :
  uuid_in t = Some t -> db_ok (w_db w) ->
  run (catch (fun _ => mret tt) (touchLastLogin t (or_id link) (w_now w))) w = (Ok tt, touched t (Some link) w).
Proof.
  intros Ht Hok. rewrite run_catch. unfold touchLastLogin, withTenantTx, uuid_param, touched. cbn [mbind option_bind].
  destruct (uuid_in (or_id link)) as [i|]; rewrite run_atomic; unfold run_tx, mbind, txM_bind, result_bind.
  - rewrite (eval_update (mkTx (w_db w) (w_pgseq w) t (w_dbnow w) false []) t) by
      (done || apply set_last_login_harmless || apply identities_refs_kept).
    cbn. f_equal. f_equal. f_equal. apply map_ext. intros r. by rewrite policy_eq.
  - cbn. by rewrite set_db_seq_id.
Qed.

Definition link_outcome (existing : option OAuthIdentityRef) : OAuthAuditOutcome :=
  match existing with Some _ => login_outcome | None => first_link end.

(** Steps 5 to 7. *)
Definition finished (t hs : jsstr) (existing : option OAuthIdentityRef) (uid rt : jsstr) (role : option Role)
    (w : world) : result exn OidcCallbackResult * world :=
  match role with
  | Some role =>
      (Ok (mkOidcCallbackResult
             (session jwt t uid role (pg_uuid (w_pgseq w)) (node_hex (S (w_rand w)) REFRESH_SECRET_BYTES) (w_now w)) rt),
       logged (Some t) (Some uid) (Some hs) (link_outcome existing) (logged_in ttl t uid (touched t existing w)))
  | None =>
      (Err (UnauthorizedError (js "account is not active")),
       logged (Some t) (Some uid) (Some hs) reject_account_inactive w)
  end.

Lemma touched_frame t existing w :
  exists l, touched t existing w = set_db_seq (set_oauth_identities l (w_db w)) (w_pgseq w) w.
Proof.
  unfold touched. destruct (_ ≫= _); [by eexists|]. exists (d_oauth_identities (w_db w)). by destruct w as [[]].
Qed.

Lemma run_finish t hs existing uid rt w :
  is_uuid t = true -> is_uuid uid = true -> tenant_exists (w_db w) t = true -> fresh_token_id w ->
  (existing <> None -> db_ok (w_db w)) ->
  run (finish_login deps t hs existing uid rt) w = finished t hs existing uid rt (standing (w_db w) t uid) w.
Proof.
  intros Ht Hu Hte Hfr Hok. pose proof Ht as Ht'. pose proof Hu as Hu'. apply is_uuid_spec in Ht', Hu'.
  unfold finish_login. rewrite run_bind.
  change (users_findCredentialsById (od_users deps)) with PgUserRepository.findCredentialsById.
  rewrite (run_credentials_by_id t t uid uid) by done. unfold standing.
  destruct (user_by_id (w_db w) t uid) as [u|] eqn:Eu; [|apply run_reject].
  cbn [fmap option_fmap option_map mbind option_bind].
  apply user_by_id_Some in Eu as (Huin & Hut & Huid). unfold auth_record.
  destruct (effective_role (w_db w) u) as [role|]; [|by destruct (bool_decide _); apply run_reject].
  destruct (bool_decide (ur_status u = js "active")); [|apply run_reject]. cbn [negb finished].
  assert (Htouch : run (match existing with
      | Some link => now ← clock_now (od_clock deps);
          catch (fun _ => mret tt) (identities_touchLastLogin (od_oauthIdentities deps) t (or_id link) now)
      | None => mret tt end) w = (Ok tt, touched t existing w)).
  { destruct existing as [link|]; [|done].
    rewrite run_bind. change (run (clock_now (od_clock deps)) w) with (Ok (E := exn) (w_now w), w).
    by apply run_touch, Hok. }
  rewrite run_bind, Htouch. destruct (touched_frame t existing w) as [l ->].
  rewrite run_bind, Huid, run_mintSession; try done.
  unfold user_exists. cbn. rewrite <-Hut, <-Huid. by apply user_exists_in.
Qed.

(** *** Resolving the account *)

Context (t : jsstr) (Ht : is_uuid t = true).

Lemma email_taken_find d email : user_by_email d t email = None -> email_taken d t email = false.
Proof.
  unfold user_by_email. rewrite find_none_Forall. intros HF. unfold email_taken, name_taken.
  apply existsb_false. eapply Forall_impl; [exact HF|]. intros r. simpl. repeat case_bool_decide; naive_solver.
Qed.

Lemma link_conflict_user d u sub email id now :
  identity_of d t google sub = None -> Forall (fun r => oir_id r <> id) (d_oauth_identities d) ->
  existsb (t_conflict (new_link t (mkNewOAuthIdentity u google sub email) u id now)) (d_oauth_identities d)
  = user_linked d t u.
Proof.
  unfold identity_of. rewrite find_none_Forall. intros Hs Hf. apply existsb_ext.
  apply List.Forall_forall. intros r Hr. pose proof (Forall_In _ _ _ Hs Hr) as Hsr.
  pose proof (Forall_In _ _ _ Hf Hr) as Hfr. cbn beta in Hsr, Hfr.
  cbn [t_conflict oauth_identities_table new_link oir_id oir_tenant_id oir_provider oir_provider_sub oir_user_id
       ni_provider ni_providerSub].
  rewrite (bool_decide_eq_false_2 (id = _)) by congruence.
  rewrite (bool_decide_eq_false_2 (_ /\ _ /\ sub = _)).
  - apply bool_decide_ext. naive_solver.
  - intros (E1 & E2 & E3). rewrite policy_own in Hsr by done.
    by rewrite !bool_decide_eq_true_2 in Hsr.
Qed.

Section Account.
Context (claims : GoogleIdTokenClaims) (hash : option (list N)) (w : world).
Context (Hok : db_ok (w_db w)) (Hty : uuid_columns (w_db w))
        (Hfu : fresh_user (w_db w) (pg_uuid (w_pgseq w)))
        (Hfl : Forall (fun r => oir_id r <> pg_uuid (w_pgseq w) /\ oir_id r <> pg_uuid (S (S (w_pgseq w))))
                 (d_oauth_identities (w_db w))).

Let sub := gc_sub claims.
Let email := normalizeEmail (gc_email claims).
Let input h := mkInviteProvisionInput email h sub (w_now w).

Definition linked_world (u : jsstr) : world :=
  set_db_seq (link_db (new_link t (mkNewOAuthIdentity u google sub email) u (pg_uuid (w_pgseq w)) (w_dbnow w))
                (w_db w)) (S (w_pgseq w)) w.

Definition provisioned_world (h : list N) (r : invites_row) : world :=
  set_w_oauth_audit (w_oauth_audit w ++ [provisioned_event t (pg_uuid (w_pgseq w)) (input h)])
    (set_db_seq (provisioned t (input h) (ivr_role r) w) (S (S (S (w_pgseq w)))) w).

(** What step 4 leaves; a refused link has drawn an id. *)
Definition settled (a : account) : world :=
  match a with
  | Known _ => w
  | Linkable u => linked_world (ur_id u)
  | Invited r => provisioned_world (default [] hash) r
  | Nobody reject_identity_conflict => set_db_seq (w_db w) (S (w_pgseq w)) w
  | Nobody _ => w
  end.

Definition account_ref (a : account) : option OAuthIdentityRef :=
  match a with Known link => Some (toRef link) | _ => None end.

(** Steps 4 to 7: nobody's account is refused; anyone else's user gets a session, if
    active and with a role. *)
Definition account_outcome (rt : jsstr) : result exn OidcCallbackResult * world :=
  let a := resolve_account (w_db w) t claims hash (w_now w) in
  match a with
  | Nobody outcome => (Err no_account, logged (Some t) None (Some (hashProviderSub sub)) outcome (settled a))
  | _ =>
      let '(uid, role) := account_user (w_db w) t (pg_uuid (w_pgseq w)) a in
      finished t (hashProviderSub sub) (account_ref a) uid rt role (settled a)
  end.

Lemma run_linkFirst u :
  identity_of (w_db w) t google sub = None -> In u (d_users (w_db w)) -> ur_tenant_id u = t ->
  run (linkFirst t (mkNewOAuthIdentity (ur_id u) google sub email)) w =
  if user_linked (w_db w) t (ur_id u) then (Err already_linked, set_db_seq (w_db w) (S (w_pgseq w)) w)
  else (Ok (mkOAuthIdentityRef (pg_uuid (w_pgseq w)) (ur_id u)), linked_world (ur_id u)).
Proof.
  intros Hnone Hu Hut. destruct Hty as (_ & HU & _). destruct (Forall_In _ _ _ HU Hu) as [Huu%is_uuid_spec _].
  apply is_uuid_spec in Ht as Ht'.
  destruct (to_rows (R := users_row) (w_db w) Hok) as (_ & _ & Hrefs). pose proof (Forall_In _ _ _ Hrefs Hu) as Hte.
  simpl in Hte. rewrite Hut in Hte. pose proof (user_exists_in _ _ Hu) as Hue. rewrite Hut in Hue.
  unfold linkFirst, withTenantTx. rewrite run_atomic. unfold run_tx. set (st := mkTx _ _ _ _ _ _).
  pose proof (eval_link t t (mkNewOAuthIdentity (ur_id u) google sub email) (ur_id u) st) as El. cbv zeta in El.
  rewrite El by done. cbn [st tx_seq tx_now tx_db ni_provider ni_providerSub].
  rewrite link_conflict_user.
  - destruct (user_linked _ _ _); [rewrite Hnone|]; done.
  - done.
  - eapply Forall_impl; [exact Hfl|]. by intros r [? _].
Qed.

Lemma run_first_login :
  identity_of (w_db w) t google sub = None ->
  match resolve_account (w_db w) t claims hash (w_now w) with
  | Known _ => False
  | Linkable u => run (first_login deps t claims hash) w = (Ok (ur_id u), linked_world (ur_id u))
  | Invited r => exists h, hash = Some h /\ open_invite (w_db w) t h email (w_now w) = Some r /\
      run (first_login deps t claims hash) w = (Ok (pg_uuid (w_pgseq w)), provisioned_world h r)
  | Nobody o => run (first_login deps t claims hash) w =
      (Err no_account, logged (Some t) None (Some (hashProviderSub sub)) o (settled (Nobody o)))
  end.
Proof.
  intros Hnone. unfold resolve_account, first_login. fold sub. rewrite Hnone.
  change (users_findCredentialsByEmail (od_users deps)) with PgUserRepository.findCredentialsByEmail.
  rewrite !run_bind, (run_credentials_by_email t t) by by apply is_uuid_spec. fold email.
  destruct (user_by_email (w_db w) t email) as [u|] eqn:Eu; cbn [fmap option_fmap option_map].
  - apply user_by_email_Some in Eu as (Hu & Hut & _). rewrite run_bind, run_catch.
    change (identities_linkFirst (od_oauthIdentities deps)) with linkFirst. cbn [au_id auth_record].
    rewrite run_linkFirst by done. destruct (user_linked _ _ _); [|done]. apply run_reject.
  - change (od_inviteProvisioner deps) with (Some (provisioner ConsoleOAuthAuditLogger)).
    destruct hash as [h|].
    2: { apply run_reject. }
    rewrite run_bind. change (od_clock deps) with SystemClock. rewrite run_now, run_bind.
    change (provisioner_provisionFromInvite (provisioner ConsoleOAuthAuditLogger)) with
      (provisionFromInvite ConsoleOAuthAuditLogger).
    fold sub. change (mkInviteProvisionInput email h sub (w_now w)) with (input h).
    destruct (run_provision_tx t t (input h) w) as (res & w' & Hrun & Hres);
      [by apply is_uuid_spec|done|done|by eapply Forall_impl; [exact Hfl|]; intros r [_ ?]|].
    cbn [input vi_inviteTokenHash vi_email vi_now] in Hres.
    assert (Hun : unclaimed t (input h) w = true).
    { unfold unclaimed. cbn [input vi_email vi_providerSub]. rewrite (email_taken_find _ _ Eu), Hnone.
      by rewrite bool_decide_eq_true_2. }
    unfold provisionFromInvite. rewrite run_catch, run_bind, Hrun.
    destruct (open_invite (w_db w) t h email (w_now w)) as [r|] eqn:Eo.
    + rewrite Hun in Hres. destruct Hres as [-> ->]. exists h. done.
    + destruct Hres as [-> ->]. cbn. apply run_reject.
Qed.

Lemma run_findByProviderSub :
  run (findByProviderSub t google sub) w = (Ok (toRef <$> identity_of (w_db w) t google sub), w).
Proof.
  unfold findByProviderSub, select_by_sub. rewrite (run_tx_select t t) by by apply is_uuid_spec.
  by rewrite first_row_filter.
Qed.

Lemma known_user link :
  identity_of (w_db w) t google sub = Some link ->
  is_uuid (oir_user_id link) = true /\ tenant_exists (w_db w) t = true.
Proof.
  intros [Hl [Hp _]%andb_true_iff]%find_some. apply policy_Some in Hp. simpl in Hp.
  destruct (to_rows (R := oauth_identities_row) (w_db w) Hok) as (_ & _ & Hrefs).
  pose proof (Forall_In _ _ _ Hrefs Hl) as [Hte Hue]%andb_true_iff. rewrite Hp in Hte, Hue. split; [|exact Hte].
  apply existsb_exists in Hue as (u & Hu & [_ <-]%bool_decide_eq_true). destruct Hty as (_ & HU & _).
  by destruct (Forall_In _ _ _ HU Hu).
Qed.

(** A provisioned user is active and has the invite's role. *)
Lemma standing_provisioned h r :
  standing (w_db (provisioned_world h r)) t (pg_uuid (w_pgseq w))
  = Some (role_of_membership (translateRole (ivr_role r))).
Proof.
  set (uid := pg_uuid (w_pgseq w)).
  set (nu := mkNewUser email DISABLED_PASSWORD None (translateRole (ivr_role r))).
  assert (Eu : user_by_id (w_db (provisioned_world h r)) t uid = Some (new_user uid t nu (w_dbnow w))).
  { unfold user_by_id. cbn [w_db provisioned_world set_w_oauth_audit set_db_seq provisioned link_db user_db
      consume_db d_users set_users set_memberships set_oauth_identities set_invites].
    apply find_by_new; [|cbn; by rewrite !bool_decide_eq_true_2]. eapply Forall_impl; [exact Hfu|].
    intros x Hx. cbn beta in Hx |- *. rewrite (bool_decide_eq_false_2 (ur_id x = uid)) by done. apply andb_false_r. }
  unfold standing. rewrite Eu. cbn [mbind option_bind new_user ur_status].
  rewrite bool_decide_eq_true_2 by done. unfold effective_role. cbn [new_user ur_is_platform_operator].
  assert (Em : membership_of (w_db (provisioned_world h r)) (new_user uid t nu (w_dbnow w))
               = Some (mk_memberships t uid (translateRole (ivr_role r)) (w_dbnow w) (w_dbnow w))).
  { unfold membership_of. cbn [w_db provisioned_world set_w_oauth_audit set_db_seq provisioned link_db user_db
      consume_db d_memberships set_users set_memberships set_oauth_identities set_invites new_user ur_tenant_id ur_id].
    apply find_by_new; [by apply fresh_memberships|by rewrite bool_decide_eq_true_2]. }
  by rewrite Em.
Qed.

Context (Hft : forall n, n < 4 -> Forall (fun r => rtr_id r <> pg_uuid (n + w_pgseq w)) (d_refresh_tokens (w_db w))).

Lemma linkable_user u :
  resolve_account (w_db w) t claims hash (w_now w) = Linkable u ->
  is_uuid (ur_id u) = true /\ tenant_exists (w_db w) t = true.
Proof.
  unfold resolve_account. fold sub. destruct (identity_of _ _ _ _); [done|]. fold email.
  destruct (user_by_email (w_db w) t email) as [v|] eqn:Eu.
  - destruct (user_linked _ _ _); [done|]. intros [= ->].
    apply user_by_email_Some in Eu as (Hu & Hut & _). destruct Hty as (_ & HU & _).
    destruct (Forall_In _ _ _ HU Hu) as [Huu _]. split; [done|].
    destruct (to_rows (R := users_row) (w_db w) Hok) as (_ & _ & Hrefs).
    pose proof (Forall_In _ _ _ Hrefs Hu) as Hte. simpl in Hte. by rewrite Hut in Hte.
  - destruct hash; [|done]. by destruct (open_invite _ _ _ _ _).
Qed.

Lemma run_account rt : run (resolve_and_finish deps t rt claims hash) w = account_outcome rt.
Proof.
  unfold resolve_and_finish, account_outcome. rewrite run_bind. fold sub.
  change (identities_findByProviderSub (od_oauthIdentities deps)) with findByProviderSub.
  rewrite run_findByProviderSub. destruct (identity_of (w_db w) t google sub) as [link|] eqn:Ei.
  - replace (resolve_account _ _ _ _ _) with (Known link) by (unfold resolve_account; fold sub; by rewrite Ei).
    cbn [fmap option_fmap option_map account_user]. destruct (known_user link Ei) as [Hlu Hte].
    unfold mret at 1, prog_ret. rewrite bind_Ret_Ok. by apply run_finish; [..|apply (Hft 0); lia|].
  - pose proof (run_first_login Ei) as Hl. cbn [fmap option_fmap option_map]. rewrite run_bind.
    destruct (resolve_account (w_db w) t claims hash (w_now w)) as [|u|r|o] eqn:Ea; [done| | |];
      cbn [account_user].
    + destruct (linkable_user u Ea) as (Huu & Hte). rewrite Hl.
      change (standing (w_db w)) with (standing (w_db (linked_world (ur_id u)))).
      by apply run_finish; [..|apply (Hft 1); lia|].
    + destruct Hl as (h & Hh & Ho & ->).
      assert (Hte : tenant_exists (w_db w) t = true) by exact (open_invite_tenant t (input h) w Hok r Ho).
      cbn [settled]. rewrite Hh. cbn [from_option id]. rewrite <-(standing_provisioned h r).
      by apply run_finish; [done|apply pg_uuid_form|exact Hte|apply (Hft 3); lia|].
    + by rewrite Hl.
Qed.
End Account.
End Flow.

(** The next draws of the database's random source are unused. *)
Definition fresh_draws `{Entropy} (w : world) : Prop :=
  fresh_user (w_db w) (pg_uuid (w_pgseq w)) /\
  Forall (fun r => oir_id r <> pg_uuid (w_pgseq w) /\ oir_id r <> pg_uuid (S (S (w_pgseq w))))
    (d_oauth_identities (w_db w)) /\
  forall n, n < 4 -> Forall (fun r => rtr_id r <> pg_uuid (n + w_pgseq w)) (d_refresh_tokens (w_db w)).

(** The Google client the configuration gives. *)
Definition google_client (config : GoogleConfig) (gx : GoogleTokenExchangeConfig) : Prop :=
  given (go_clientId config) = Some (gx_clientId gx) /\
  given (go_clientSecret config) = Some (gx_clientSecret gx).

Definition google_settings (config : GoogleConfig) : option GoogleTokenExchangeConfig :=
  match given (go_clientId config), given (go_clientSecret config) with
  | Some id, Some secret => Some (mkGoogleTokenExchangeConfig id secret)
  | _, _ => None
  end.

(** ** The callback *)

(** What the callback answers and the world it leaves, from the record its state stood
    for. *)
Definition callback_outcome `{Entropy, Crypto, Unicode, Jose, Net} (config : GoogleConfig) (jwt : JoseTokenConfig)
    (ttl : Z) (redirectUri : jsstr) (state : option OAuthStateRecord) (cmd : OidcCallbackCommand) (w : world)
    : result exn OidcCallbackResult * world :=
  match state with
  | None => (Err (UnauthorizedError (js "invalid or expired OAuth state")), logged None None None reject_invalid_state w)
  | Some r =>
      let t := os_tenantId r in
      if truthy (verifier_of r) && truthy (nonce_of r) then
        match google_settings config with
        | None => (Err (UnauthorizedError (js "token exchange failed")), logged (Some t) None None reject_exchange_failure w)
        | Some gx =>
            let params := mkExchangeParams (cb_code cmd) redirectUri (verifier_of r) in
            let w1 := called_google gx params w in
            match google_answer (w_now w) gx params (nonce_of r) with
            | ExchangeFailed e =>
                (Err (google_error (js "token exchange failed") e), logged (Some t) None None reject_exchange_failure w1)
            | TokenInvalid e =>
                (Err (google_error (js "id_token verification failed") e), logged (Some t) None None reject_invalid_token w1)
            | Confirmed claims => account_outcome jwt ttl t claims (cb_inviteTokenHash cmd) w1 (return_of r)
            end
        end
      else (Err (UnauthorizedError (js "malformed OAuth state record")), logged (Some t) None None reject_invalid_state w)
  end.

Lemma store_frame_split w w1 : store_frame w w1 -> exists x y, w1 = set_w_redis x (set_w_states y w).
Proof. intros ->. by eexists _, _. Qed.

(** ** Steps that leave the state store alone *)

(** With [quiet], that also send nothing to Google. *)
Definition same_stores (quiet : bool) (w w' : world) : Prop :=
  w_states w' = w_states w /\ w_redis w' = w_redis w /\ w_now w' = w_now w /\
  (if quiet then w_google w' = w_google w else True).

Definition keeps_stores (quiet : bool) {A} (p : prog world A) : Prop :=
  spec (fun _ => True) (same_stores quiet) p (fun _ => True).

Lemma keeps_stores_ret g {A} (r : result exn A) : keeps_stores g (Ret r).
Proof. done. Qed.

Lemma keeps_stores_bind g {A B} (p : prog world A) (f : A -> prog world B) :
  keeps_stores g p -> (forall a, keeps_stores g (f a)) -> keeps_stores g (p ≫= f).
Proof. intros Hp Hf. apply spec_bind. eapply spec_mono; [exact Hp|]. intros [a|e] _; [apply Hf|done]. Qed.

Lemma keeps_stores_catch g {A} (p : prog world A) h :
  keeps_stores g p -> (forall e, keeps_stores g (h e)) -> keeps_stores g (catch h p).
Proof. intros Hp Hh. apply spec_catch. eapply spec_mono; [exact Hp|]. intros [a|e] _; [done|apply Hh]. Qed.

Lemma keeps_stores_atomic g {A} (op : world -> result exn A * world) :
  (forall w, same_stores g w (op w).2) -> keeps_stores g (atomic op).
Proof. intros Hop. apply spec_atomic; [|done]. intros w _. split; [apply Hop|done]. Qed.

Lemma keeps_stores_tx g {A} t (fn : txM A) : keeps_stores g (withTenantTx t fn).
Proof.
  apply keeps_stores_atomic. intros w. unfold run_tx. destruct (fn _) as [[a|e] st]; split_and!; by destruct g.
Qed.

Lemma keeps_stores_run g {A} (p : prog world A) w : keeps_stores g p -> same_stores g w (run p w).2.
Proof.
  revert w. induction p as [r|X op k IH]; intros w Hp; [by destruct g|].
  destruct Hp as [Hp _]. destruct (Hp w I) as [(E1 & E2 & E3 & E4) Hk]. cbn [run]. destruct (op w) as [x w1].
  cbn [fst snd] in *. destruct (IH x w1 Hk) as (F1 & F2 & F3 & F4).
  split_and!; [congruence..|]. destruct g; [congruence|done].
Qed.

Create HintDb stores.
#[export] Hint Resolve keeps_stores_ret keeps_stores_tx : stores.

(** Structural walk over a program. *)
Ltac stores_auto :=
  repeat first
    [ solve [eauto with stores]
    | apply keeps_stores_bind; [|intros ?]
    | apply keeps_stores_catch; [|intros ?]
    | apply keeps_stores_atomic; intros ?; by split_and!
    | match goal with
      | |- keeps_stores _ (match ?x with _ => _ end) => destruct x
      | |- keeps_stores _ (if ?b then _ else _) => destruct b
      end ].

Section Stores.
Context `{Entropy, Crypto, Unicode, Jose, Net} (store : OAuthStateStore world)
  (config : GoogleConfig) (jwt : JoseTokenConfig) (ttl : Z).
Abbreviation deps := (pg_oidc_deps store config jwt ttl).

Lemma audit_stores g t u h o : keeps_stores g (audit deps t u h o).
Proof.
  apply keeps_stores_catch; [|done]. apply keeps_stores_bind; [apply keeps_stores_atomic; intros w; by destruct g|]. intros ts.
  apply keeps_stores_atomic; intros w; by destruct g.
Qed.

Lemma reject_stores g {A} t u h o e : keeps_stores g (reject (A := A) deps t u h o e).
Proof. apply keeps_stores_bind; [apply audit_stores|done]. Qed.

Lemma exchange_stores params : keeps_stores false (exchange_exchange (od_tokenExchangeClient deps) params).
Proof.
  unfold pg_oidc_deps. cbn [od_tokenExchangeClient]. destruct (given _); [|done]. destruct (given _); [|done].
  cbn [exchange_exchange GoogleTokenExchangeHttpClient.client]. unfold GoogleTokenExchangeHttpClient.exchange.
  apply keeps_stores_bind.
  - apply keeps_stores_catch; [|done]. apply keeps_stores_atomic. by intros w.
  - intros r. stores_auto.
Qed.

Lemma verify_stores g v nonce : keeps_stores g (verifier_verify (od_idTokenVerifier deps) v nonce).
Proof.
  unfold pg_oidc_deps. cbn [od_idTokenVerifier]. destruct (given _); [|done].
  apply keeps_stores_bind; [apply keeps_stores_atomic; intros w; by destruct g|done].
Qed.

Lemma issue_stores g claims : keeps_stores g (tokens_issueAccess (od_tokens deps) claims).
Proof. apply keeps_stores_bind; [apply keeps_stores_atomic; intros w; by destruct g|done]. Qed.

Lemma draw_stores g {A} (f : nat -> A) : keeps_stores g (draw f).
Proof. apply keeps_stores_atomic; intros w; by destruct g. Qed.

Lemma now_stores g : keeps_stores g (clock_now (od_clock deps)).
Proof. apply keeps_stores_atomic; intros w; by destruct g. Qed.

#[local] Hint Resolve audit_stores reject_stores exchange_stores verify_stores issue_stores draw_stores
  now_stores : stores.

Lemma mint_stores g t u role : keeps_stores g (mintSession deps t u role).
Proof.
  unfold mintSession. apply keeps_stores_bind; [apply draw_stores|intros f].
  apply keeps_stores_bind; [apply draw_stores|intros x]. apply keeps_stores_bind; [apply now_stores|intros n].
  apply keeps_stores_bind; [apply keeps_stores_tx|intros i]. apply keeps_stores_bind; [apply issue_stores|done].
Qed.

Lemma provision_stores g t i : keeps_stores g (provisionFromInvite ConsoleOAuthAuditLogger t i).
Proof.
  apply keeps_stores_catch; [|intros e; by destruct (instanceof _ _)].
  apply keeps_stores_bind; [apply keeps_stores_tx|]. intros [u|]; [|done].
  apply keeps_stores_bind; [|done]. apply keeps_stores_catch; [apply keeps_stores_atomic; intros w; by destruct g|done].
Qed.

Lemma first_login_stores g t claims hash : keeps_stores g (first_login deps t claims hash).
Proof.
  unfold first_login. apply keeps_stores_bind; [apply keeps_stores_tx|]. intros [u|].
  - apply keeps_stores_bind; [|done]. apply keeps_stores_catch; [apply keeps_stores_tx|].
    intros e. destruct (instanceof _ _); [apply reject_stores|done].
  - change (od_inviteProvisioner deps) with (Some (provisioner ConsoleOAuthAuditLogger)).
    destruct hash as [h|]; [|apply reject_stores]. apply keeps_stores_bind; [apply now_stores|intros n].
    apply keeps_stores_bind; [apply provision_stores|]. intros [u|]; [done|apply reject_stores].
Qed.

Lemma finish_stores g t hs existing uid rt : keeps_stores g (finish_login deps t hs existing uid rt).
Proof.
  unfold finish_login. apply keeps_stores_bind; [apply keeps_stores_tx|].
  intros [[i p st [role|]]|]; [|apply reject_stores|apply reject_stores].
  destruct (negb _); [apply reject_stores|]. apply keeps_stores_bind.
  - destruct existing; [|done]. apply keeps_stores_bind; [apply now_stores|intros n].
    apply keeps_stores_catch; [apply keeps_stores_tx|done].
  - intros _. apply keeps_stores_bind; [apply mint_stores|intros s].
    apply keeps_stores_bind; [apply audit_stores|done].
Qed.

Lemma resolve_stores g t rt claims hash : keeps_stores g (resolve_and_finish deps t rt claims hash).
Proof.
  apply keeps_stores_bind; [apply keeps_stores_tx|intros existing].
  apply keeps_stores_bind; [destruct existing; [done|apply first_login_stores]|intros uid]. apply finish_stores.
Qed.

(** Everything after the state has been consumed. *)
Lemma callback_rest_stores cmd (r : OAuthStateRecord) :
  keeps_stores false
    (idToken ← exchange_code deps (os_tenantId r) (cb_code cmd) (verifier_of r);
     claims ← verify_token deps (os_tenantId r) idToken (nonce_of r);
     resolve_and_finish deps (os_tenantId r) (return_of r) claims (cb_inviteTokenHash cmd)).
Proof.
  assert (Hbad : forall A o e m, keeps_stores false (A := A)
            (_ ← audit deps (Some (os_tenantId r)) None None o;
             if instanceof e ServiceUnavailableErrorC then throw e else throw m)).
  { intros A o e m. apply keeps_stores_bind; [apply audit_stores|]. intros _. by destruct (instanceof _ _). }
  apply keeps_stores_bind.
  - apply keeps_stores_catch; [|intros e; apply Hbad]. apply keeps_stores_bind; [apply exchange_stores|done].
  - intros v. apply keeps_stores_bind; [apply keeps_stores_catch; [apply verify_stores|intros e; apply Hbad]|].
    intros claims. apply resolve_stores.
Qed.
End Stores.

(** A program that leaves the stores alone gives no state back. *)
Lemma stores_no_release `{StateStoreSpec store live} g k {A} (p : prog world A) :
  keeps_stores g p ->
  spec (fun _ => True) (no_release (fun _ => True) (fun w => bool_decide (is_Some (live w k)))) p (fun _ => True).
Proof.
  intros Hp. eapply spec_mono_guar; [exact Hp|]. intros w w' _ (E1 & E2 & E3 & _). split; [done|].
  by rewrite (store_local k w w') by done.
Qed.

(** A refusal is no session. *)
Lemma claims_reject `{Entropy, Crypto, Unicode, Jose, Net} `{StateStoreSpec store live} config jwt ttl k t u h o e :
  claims (fun _ => True) (fun w => bool_decide (is_Some (live w k))) (fun _ : OidcCallbackResult => true)
    (reject (pg_oidc_deps store config jwt ttl) t u h o e).
Proof.
  apply claims_spec, spec_bind. eapply spec_mono; [apply (stores_no_release false), audit_stores|].
  by intros [[]|x] _.
Qed.

(** The environment may do anything but store this state again. *)
Definition state_env (live : world -> jsstr -> option OAuthStateRecord) (k : jsstr) (w w' : world) : Prop :=
  live w k = None -> live w' k = None.

Lemma run_dead_state `{Crypto, Unicode, Entropy, Jose, Net} `{StateStoreSpec store live} config jwt ttl cmd w :
  live w (cb_state cmd) = None ->
  exists w', run (handleCallback (pg_oidc_deps store config jwt ttl) cmd) w
             = (Err (UnauthorizedError (js "invalid or expired OAuth state")), w') /\
    exists x y, w' = logged None None None reject_invalid_state (set_w_redis x (set_w_states y w)).
Proof.
  intros Hdead. destruct (store_consume (cb_state cmd) w) as (w1 & Hrun & Hframe & _ & _).
  unfold handleCallback. rewrite run_bind.
  change (states_consume (od_stateStore (pg_oidc_deps store config jwt ttl))) with (states_consume store).
  rewrite Hrun, Hdead. apply store_frame_split in Hframe as (x & y & ->).
  rewrite run_reject. eexists. split; [reflexivity|]. by exists x, y.
Qed.

Lemma google_settings_client config gx : google_settings config = Some gx -> google_client config gx.
Proof.
  unfold google_settings, google_client. destruct (given (go_clientId config)), (given (go_clientSecret config)); try done.
  by intros [= <-].
Qed.

(** Without a client the exchange fails before any request. *)
Lemma run_unconfigured `{Entropy, Crypto, Unicode, Jose, Net} store config jwt ttl t code cv {A} (k : jsstr -> prog world A) w :
  google_settings config = None ->
  run (idToken ← exchange_code (pg_oidc_deps store config jwt ttl) t code cv; k idToken) w
  = (Err (UnauthorizedError (js "token exchange failed")), logged (Some t) None None reject_exchange_failure w).
Proof.
  intros Hno. unfold exchange_code. rewrite run_bind, run_catch, run_bind.
  unfold google_settings in Hno. cbn [od_tokenExchangeClient pg_oidc_deps].
  by destruct (given (go_clientId config)), (given (go_clientSecret config)).
Qed.

(** * Theorems *)


(** A callback whose state is unknown, expired or already consumed is refused
    before any request to Google, changes no row, and leaves one audit line. *)
Theorem callback_bad_state `{Crypto, Unicode, Entropy, Jose, Net} `{StateStoreSpec store live}
    config jwt ttl cmd w (Hdead : live w (cb_state cmd) = None) :
  exists w', run (handleCallback (pg_oidc_deps store config jwt ttl) cmd) w
             = (Err (UnauthorizedError (js "invalid or expired OAuth state")), w') /\
    w_google w' = w_google w /\ w_db w' = w_db w /\
    w_oauth_audit w' = w_oauth_audit w ++ [mkOAuthAuditEvent None None google None reject_invalid_state (w_now w)].
Proof.
  destruct (run_dead_state config jwt ttl cmd w Hdead) as (w' & Hrun & x & y & ->). rewrite Hrun. by eexists.
Qed.

(** C12. A state value is good for one session: of any number of concurrent callbacks
    with one state, in any interleaving, with any infrastructure failures, and beside
    any activity that does not store that state again, at most one is answered with a
    session. *)
Theorem callback_single_session `{Entropy, Crypto, Unicode, Jose, Net} `{StateStoreSpec store live}
    config jwt ttl st cmds w w' ts' i j s1 s2
    (Hst : Forall (fun cmd => cb_state cmd = st) cmds)
    (Hsteps : rtc (pstep (state_env live st))
                (w, map (handleCallback (pg_oidc_deps store config jwt ttl)) cmds) (w', ts'))
    (Hi : ts' !! i = Some (Ret (Ok s1))) (Hj : ts' !! j = Some (Ret (Ok s2))) :
  i = j.
Proof.
  eapply (single_winner (state_env live st) (fun _ => True) (fun v => bool_decide (is_Some (live v st)))
            (fun _ => true)); [| | |exact Hsteps|exact Hi|done|exact Hj|done]; try done.
  - intros v v' Hv _. split; [done|]. rewrite !bool_decide_eq_false, <-!eq_None_not_Some. exact Hv.
  - apply Forall_map. eapply Forall_impl; [exact Hst|]. intros cmd <-. unfold handleCallback.
    eapply claims_then; [apply store_claims| |].
    + intros [r|]; apply (stores_no_release false); [|apply reject_stores].
      destruct (_ || _); [apply reject_stores|apply callback_rest_stores].
    + intros [r|] Hr; [done|]. apply claims_reject.
Qed.

(** C28. An id token is accepted only with a verified address, the nonce of the flow,
    one of Google's issuers, this client among its audiences, and a subject. *)
Theorem id_token_checked `{NetLaws} clientId idToken nonce w c w'
    (Hok : run (JoseGoogleIdTokenVerifier.verify clientId idToken nonce) w = (Ok c, w')) :
  exists p, net_jwtVerify (w_now w / 1000) idToken (JoseGoogleIdTokenVerifier.verify_options clientId) = Ok p /\
    gc_email_verified c = true /\ get p (js "email_verified") = Some (JBool true) /\
    gc_nonce c = nonce /\ get p (js "nonce") = Some (JStr nonce) /\
    get p (js "sub") = Some (JStr (gc_sub c)) /\ get p (js "email") = Some (JStr (gc_email c)) /\
    claims_string p (js "iss") GOOGLE_ISSUERS /\ clientId ∈ audience_of p /\ w' = w.
Proof.
  unfold JoseGoogleIdTokenVerifier.verify in Hok. rewrite run_bind, run_atomic in Hok.
  destruct (net_jwtVerify _ _ _) as [p|[]] eqn:Ev; try done. cbn [run] in Hok.
  apply (f_equal fst) in Hok as Hc. apply (f_equal snd) in Hok as Hw. cbn [fst snd] in Hc, Hw.
  exists p. unfold JoseGoogleIdTokenVerifier.read_claims, JoseGoogleIdTokenVerifier.string_prop in Hc.
  destruct (get p (js "email_verified")) as [[]|]; try done. destruct b; [|done].
  destruct (get p (js "nonce")) as [[]|]; try done. case_bool_decide as Hn; [|done]. cbn [negb] in Hc.
  destruct (get p (js "email")) as [[]|]; try done. destruct (get p (js "sub")) as [[]|]; try done.
  injection Hc as <-. cbn. subst. split_and!; try done.
  - by apply jwtVerify_issuer in Ev.
  - by apply jwtVerify_audience in Ev.
Qed.

(** ** Witnesses *)

Definition demo_google : GoogleConfig :=
  mkGoogleConfig (Some (js "client")) (Some (js "hush")) (Some (js "https://logs.example/cb")) (Some (js "client"))
    None (js "https://accounts.google.com/o/oauth2/v2/auth") 600.

Definition demo_gx : GoogleTokenExchangeConfig := mkGoogleTokenExchangeConfig (js "client") (js "hush").

Definition demo_exchange_answer : json :=
  JObj [(js "id_token", JStr (js "jwt")); (js "access_token", JStr (js "at")); (js "token_type", JStr (js "Bearer"));
        (js "expires_in", JNum (mkNum 3600 0))].

Definition demo_payload : jsobject :=
  [(js "iss", JStr (js "https://accounts.google.com")); (js "aud", JStr (js "client"));
   (js "sub", JStr (js "sub-alice")); (js "email", JStr (js "Alice@acme.io")); (js "email_verified", JBool true);
   (js "nonce", JStr (js "n1"))].

(** A Google that confirms one account to one client. *)
Definition demo_net : Net :=
  {| net_post := fun _ _ _ => Some (mkHttpResponse 200 (Some demo_exchange_answer));
     net_jwtVerify := fun _ token opts =>
       if bool_decide (token = js "jwt") && bool_decide (jv_audience opts = js "client")
          && bool_decide (js "https://accounts.google.com" ∈ jv_issuer opts)
       then Ok demo_payload else Err JOSEError |}.

Lemma demo_net_laws : @NetLaws demo_net.
Proof.
  split; simpl; intros now token opts p; do 3 case_bool_decide; simpl; try done; intros [= <-].
  - by exists (js "https://accounts.google.com").
  - subst. replace (jv_audience opts) with (js "client") by done. apply list_elem_of_here.
Qed.

Definition demo_flow_record : OAuthStateRecord :=
  mkOAuthStateRecord (js "st") acme (state_meta (js "v1") (js "n1") (js "/logs")) (js "now").

Definition demo_flow_world : world :=
  set_w_states {[ js "st" := mkStateEntry demo_flow_record 9000 ]} demo_world.

Definition demo_callback : OidcCallbackCommand := mkOidcCallbackCommand (js "code") (js "st") None.

Lemma demo_fresh_draws : @fresh_draws demo_entropy demo_flow_world.
Proof.
  split; [exact demo_fresh_user|]. split; [constructor|]. intros n Hn. repeat constructor.
  do 4 (destruct n as [|n]; [intros E; vm_compute in E; discriminate E|]). lia.
Qed.


Lemma callback_bad_state_witness : exists w',
  run (@handleCallback demo_crypto ascii_unicode (@pg_oidc_deps demo_entropy demo_crypto demo_jose demo_net
         InMemoryOAuthStateStore.store demo_google demo_jwt 1000) demo_callback) demo_world
    = (Err (UnauthorizedError (js "invalid or expired OAuth state")), w').
Proof.
  destruct (@callback_bad_state demo_crypto ascii_unicode demo_entropy demo_jose demo_net
    InMemoryOAuthStateStore.store memory_live memory_store_spec demo_google demo_jwt 1000 demo_callback demo_world)
    as (w' & Hrun & _).
  - vm_compute. reflexivity.
  - exists w'. exact Hrun.
Defined.

Lemma id_token_checked_witness : exists c,
  run (@JoseGoogleIdTokenVerifier.verify demo_net (js "client") (js "jwt") (js "n1")) demo_world = (Ok c, demo_world) /\
  gc_nonce c = js "n1".
Proof.
  assert (E : exists c, run (@JoseGoogleIdTokenVerifier.verify demo_net (js "client") (js "jwt") (js "n1")) demo_world
                        = (Ok c, demo_world)) by (eexists; vm_compute; reflexivity).
  destruct E as [c E]. exists c. split; [exact E|].
  destruct (@id_token_checked demo_net demo_net_laws (js "client") (js "jwt") (js "n1") demo_world c demo_world E)
    as (p & _ & _ & _ & Hn & _). exact Hn.
Defined.

Definition demo_handle (cmd : OidcCallbackCommand) : prog world OidcCallbackResult :=
  @handleCallback demo_crypto ascii_unicode (@pg_oidc_deps demo_entropy demo_crypto demo_jose demo_net
    InMemoryOAuthStateStore.store demo_google demo_jwt 1000) cmd.

(** The same answer of Google delivered twice. *)
Lemma callback_single_session_witness : exists w' ts' s,
  rtc (pstep (state_env memory_live (js "st")))
    (demo_flow_world, map demo_handle [demo_callback; demo_callback]) (w', ts') /\
  ts' !! 0 = Some (Ret (Ok s)) /\
  ts' !! 1 = Some (Ret (Err (UnauthorizedError (js "invalid or expired OAuth state")))) /\
  (forall s' j, ts' !! j = Some (Ret (Ok s')) -> 0 = j).
Proof.
  destruct (run (demo_handle demo_callback) demo_flow_world) as [r0 w0] eqn:E0.
  destruct (run (demo_handle demo_callback) w0) as [r1 w1] eqn:E1.
  assert (Hok : exists s, r0 = Ok s).
  { assert (Hr : is_ok r0 = true).
    { change r0 with (fst (r0, w0)). rewrite <-E0. vm_compute. reflexivity. }
    destruct r0 as [s|e]; [by exists s|discriminate Hr]. }
  destruct Hok as [s ->].
  assert (Hr1 : r1 = Err (UnauthorizedError (js "invalid or expired OAuth state"))).
  { change r1 with (fst (r1, w1)). rewrite <-E1. change w0 with (snd (Ok (E := exn) s, w0)). rewrite <-E0.
    vm_compute. reflexivity. }
  subst r1.
  assert (Hsteps : rtc (pstep (state_env memory_live (js "st")))
    (demo_flow_world, map demo_handle [demo_callback; demo_callback])
    (w1, [Ret (Ok s); Ret (Err (UnauthorizedError (js "invalid or expired OAuth state")))])).
  { etrans; [apply (run_pool _ (map demo_handle [demo_callback; demo_callback]) 0 _ _ _ _ eq_refl E0)|].
    apply (run_pool _ [Ret (Ok s); demo_handle demo_callback] 1 _ _ _ _ eq_refl E1). }
  eexists w1, _, s. split; [exact Hsteps|]. split; [reflexivity|]. split; [reflexivity|].
  intros s' j Hj.
  refine (@callback_single_session demo_entropy demo_crypto ascii_unicode demo_jose demo_net
    InMemoryOAuthStateStore.store memory_live memory_store_spec demo_google demo_jwt 1000 (js "st")
    [demo_callback; demo_callback] demo_flow_world w1 _ 0 j s s' _ Hsteps eq_refl Hj).
  repeat constructor.
Defined.
