(* ===== verification/Authorize.v ===== *)
(** * Starting the OIDC flow

    What [beginAuthorize] of [app/oidc-authenticator.ts] stores and answers, that the
    callback then uses the stored values, the form of the random values, and that a
    return path never leaves the site. *)

From stdpp Require Import base list option numbers strings gmap relations.
From S2P Require Import Prelude Errors Effects Tokens Text Rbac Email Entities Ports Uuid Schema World Sql.
From S2P Require Import Integrity Eval Demo PgUsers PgTokens PgInvites PgContent Calls Credentials.
From S2P Require Import Adapters Google AuthService Sessions Services UseCases Invites Oidc OidcFlow.

(** ** Specification *)

(** The [k]-th random value from here. *)
Definition drawn `{Entropy} (k : nat) (w : world) : jsstr :=
  base64url (fromHex (node_hex (k + w_rand w) 32)).

(** What an authorization in [w] stores. *)
Definition authorization `{Entropy} (t : jsstr) (cmd : OidcAuthorizeCommand) (w : world) : OAuthStateRecord :=
  mkOAuthStateRecord (drawn 0 w) t
    (state_meta (drawn 2 w) (drawn 1 w) (sanitizeReturnTo (oa_returnTo cmd))) (toISOString (w_now w)).

(** The query of the provider URL. *)
Definition authorization_query `{Crypto} (deps : OidcAuthenticatorDeps) (r : OAuthStateRecord) : jsstr :=
  js "client_id=" ++ form_encode (od_clientId deps)
  ++ js "&redirect_uri=" ++ form_encode (od_redirectUri deps)
  ++ js "&response_type=code&scope=openid+email&state=" ++ os_state r
  ++ js "&nonce=" ++ nonce_of r
  ++ js "&code_challenge=" ++ codeVerifierToChallenge (verifier_of r)
  ++ js "&code_challenge_method=S256".

(** RFC 7636: a code verifier is 43 to 128 unreserved characters. *)
Definition rfc7636_verifier (s : jsstr) : bool :=
  (43 <=? length s) && (length s <=? 128) && forallb is_base64url s.

(** ** Where a browser goes *)

(** The URL parser drops C0 controls and spaces at the ends, and tabs and line breaks
    everywhere. *)
Definition c0_or_space (c : N) : bool := (c <=? 0x20)%N.

Fixpoint drop_c0 (v : jsstr) : jsstr :=
  match v with
  | c :: v' => if c0_or_space c then drop_c0 v' else v
  | [] => []
  end.

Definition browser_clean (v : jsstr) : jsstr :=
  List.filter (fun c => negb ((c =? 9) || (c =? 10) || (c =? 13))%N)
    (reverse (drop_c0 (reverse (drop_c0 v)))).

(** A reference with one leading slash is a path on the current origin; two slashes
    of either kind start an authority. *)
Definition stays_on_origin (v : jsstr) : bool :=
  match browser_clean v with
  | 47%N :: c :: _ => negb ((c =? 47) || (c =? 92))%N
  | [47%N] => true
  | _ => false
  end.

(** ** Lemmas *)

Lemma drawn_length `{EntropyLaws} k w : length (drawn k w) = 43.
Proof. unfold drawn. by rewrite base64url_length, fromHex_length, node_hex_length. Qed.

Lemma drawn_safe `{EntropyLaws} k w : forallb is_base64url (drawn k w) = true.
Proof. apply base64url_safe, fromHex_bytes, node_hex_chars. Qed.

Lemma drawn_truthy `{EntropyLaws} k w : truthy (drawn k w) = true.
Proof. pose proof (drawn_length k w). by destruct (drawn k w). Qed.

Lemma challenge_safe `{CryptoLaws} v : forallb is_base64url (codeVerifierToChallenge v) = true.
Proof. apply base64url_safe, sha256_bytes. Qed.

Lemma challenge_length `{CryptoLaws} v : length (codeVerifierToChallenge v) = 43.
Proof. unfold codeVerifierToChallenge. by rewrite base64url_length, sha256_length. Qed.

Lemma authorization_fields `{Entropy} t cmd w :
  verifier_of (authorization t cmd w) = drawn 2 w /\ nonce_of (authorization t cmd w) = drawn 1 w /\
  return_of (authorization t cmd w) = sanitizeReturnTo (oa_returnTo cmd).
Proof.
  unfold verifier_of, nonce_of, return_of, authorization. cbn [os_meta]. unfold state_meta.
  rewrite !lookup_insert_ne by done. by rewrite !lookup_insert.
Qed.

Lemma authorize_params_text `{EntropyLaws, CryptoLaws} deps t cmd w :
  urlSearchParams (authorize_params deps (drawn 0 w) (drawn 1 w) (codeVerifierToChallenge (drawn 2 w)))
  = authorization_query deps (authorization t cmd w).
Proof.
  unfold authorization_query. destruct (authorization_fields t cmd w) as (-> & -> & _). cbn [os_state authorization].
  unfold urlSearchParams, authorize_params. cbn [map].
  rewrite !(form_encode_base64url (drawn _ _)) by apply drawn_safe.
  rewrite (form_encode_base64url (codeVerifierToChallenge _)) by apply challenge_safe.
  repeat match goal with |- context [form_encode (js ?x)] =>
    let v := eval vm_compute in (form_encode (js x)) in
    lazymatch x with
    | "openid email" => fail
    | _ => change (form_encode (js x)) with (js x)
    end
  end.
  change (form_encode GOOGLE_SCOPES) with (js "openid+email"). cbn [join].
  rewrite <-!app_assoc. done.
Qed.

Lemma run_beginAuthorize `{EntropyLaws, CryptoLaws, Jose, Net} `{StateStoreSpec store live} config jwt ttl cmd w :
  let deps := pg_oidc_deps store config jwt ttl in
  (0 < go_stateTtlSeconds config)%Z ->
  match tenant_by_slug (w_db w) (oa_tenantSlug cmd) with
  | Some t =>
      if bool_decide (tr_status t = t_active) then
        let r := authorization (tr_id t) cmd w in
        exists w', run (beginAuthorize deps cmd) w
          = (Ok (mkOidcAuthorizeResult (od_authEndpoint deps ++ js "?" ++ authorization_query deps r)), w') /\
          store_frame (set_w_rand (3 + w_rand w) w) w' /\
          live w' (os_state r) = Some r /\ forall k, k <> os_state r -> live w' k = live w k
      else run (beginAuthorize deps cmd) w
           = (Err (NotFoundError (js "tenant '" ++ oa_tenantSlug cmd ++ js "' not found")), w)
  | None => run (beginAuthorize deps cmd) w
            = (Err (NotFoundError (js "tenant '" ++ oa_tenantSlug cmd ++ js "' not found")), w)
  end.
Proof.
  intros deps Hpos. unfold beginAuthorize. rewrite run_bind.
  change (tenants_findByPublicId (od_tenants deps)) with PgTenantRepository.findByPublicId.
  rewrite run_tenants_findByPublicId. destruct (tenant_by_slug _ _) as [t|]; [|done].
  cbn [fmap option_fmap option_map PgTenantRepository.toTenant tn_status].
  destruct (bool_decide (tr_status t = t_active)); cbn [negb]; [|done]. set (r := authorization (tr_id t) cmd w).
  unfold random_base64url, draw. rewrite run_bind, run_atomic, run_bind, run_atomic, run_bind, run_atomic.
  rewrite run_bind, run_atomic, run_bind. cbn [w_rand set_w_rand w_now].
  destruct (store_put (s := store) r (stateTtlSeconds deps) (set_w_rand (3 + w_rand w) w) Hpos)
    as (w' & Hrun & Hfr & Hl & Hoth).
  change (states_put (od_stateStore deps)) with (states_put store).
  exists w'. split_and!; try done.
  - change (mkOAuthStateRecord _ _ _ _) with r. 
    match goal with |- context [run (states_put store r ?x) ?v] =>
      change (run (states_put store r x) v) with (run (states_put store r (stateTtlSeconds deps)) (set_w_rand (3 + w_rand w) w)) end.
    rewrite Hrun. cbn [run mret prog_ret]. do 5 f_equal. apply authorize_params_text.
  - intros k Hk. rewrite Hoth by done. by apply store_local.
Qed.

(** What a program answers when it succeeds. *)
Definition yields {A} (Q : A -> Prop) (p : prog world A) : Prop :=
  forall w a w', run p w = (Ok a, w') -> Q a.

Lemma yields_any {A} (p : prog world A) : yields (fun _ => True) p.
Proof. by intros w a w' _. Qed.

Lemma yields_bind {A B} (P : A -> Prop) (Q : B -> Prop) (p : prog world A) (f : A -> prog world B) :
  yields P p -> (forall a, P a -> yields Q (f a)) -> yields Q (p ≫= f).
Proof.
  intros Hp Hf w b w'. rewrite run_bind. destruct (run p w) as [[a|e] w1] eqn:E; [|done].
  apply Hf. by eapply Hp.
Qed.

Lemma yields_throw {A} (Q : A -> Prop) e : yields Q (throw e).
Proof. by intros w a w' [=]. Qed.

Lemma yields_ret {A} (Q : A -> Prop) a : Q a -> yields Q (mret a).
Proof. by intros HQ w b w' [= <- _]. Qed.

(** A session of the flow belongs to the state's tenant and returns to its path. *)
Lemma resolve_yields `{Entropy, Crypto, Unicode, Jose, Net} store config jwt ttl t rt claims hash :
  yields (fun s => st_tenantId (cr_tokens s) = t /\ cr_returnTo s = rt)
    (resolve_and_finish (pg_oidc_deps store config jwt ttl) t rt claims hash).
Proof.
  assert (Hrej : forall Q u h o e, yields (A := OidcCallbackResult) Q
            (reject (pg_oidc_deps store config jwt ttl) (Some t) u h o e)).
  { intros. eapply yields_bind; [apply yields_any|]. intros. apply yields_throw. }
  unfold resolve_and_finish. eapply yields_bind; [apply yields_any|intros existing _].
  eapply yields_bind; [apply yields_any|intros uid _].
  unfold finish_login. eapply yields_bind; [apply yields_any|]. intros [[i p st [role|]]|] _; [|apply Hrej..].
  destruct (negb _); [apply Hrej|]. eapply yields_bind; [apply yields_any|intros _ _].
  eapply (yields_bind (fun s => st_tenantId s = t)).
  - unfold mintSession. do 5 (eapply yields_bind; [apply yields_any|intros ? _]). by apply yields_ret.
  - intros s Hs. eapply yields_bind; [apply yields_any|intros _ _]. by apply yields_ret.
Qed.

(** A callback with a live state. *)
Lemma callback_of_live `{Crypto, Unicode, Entropy, Jose, Net} `{StateStoreSpec store live}
    config jwt ttl gx code hash r w :
  google_client config gx -> live w (os_state r) = Some r ->
  truthy (verifier_of r) = true -> truthy (nonce_of r) = true ->
  let deps := pg_oidc_deps store config jwt ttl in
  let '(out, w3) := run (handleCallback deps (mkOidcCallbackCommand code (os_state r) hash)) w in
  w_google w3 = w_google w ++ [(GOOGLE_TOKEN_ENDPOINT, GoogleTokenExchangeHttpClient.request_body gx
                   (mkExchangeParams code (od_redirectUri deps) (verifier_of r)))] /\
  (forall s, out = Ok s -> st_tenantId (cr_tokens s) = os_tenantId r /\ cr_returnTo s = return_of r) /\
  live w3 (os_state r) = None.
Proof.
  intros [Hid Hsec] Hl Hv Hn deps. subst deps. unfold handleCallback. cbn [cb_state cb_code cb_inviteTokenHash].
  destruct (store_consume (os_state r) w) as (w1 & Hrun & Hframe & Hdead & _). rewrite run_bind.
  change (states_consume (od_stateStore (pg_oidc_deps store config jwt ttl))) with (states_consume store).
  rewrite Hrun, Hl. fold (verifier_of r) (nonce_of r) (return_of r). rewrite Hv, Hn. cbn [negb orb].
  rewrite (run_google store config jwt ttl gx Hid Hsec). set (params := mkExchangeParams _ _ _).
  assert (Hg : w_google (called_google gx params w1) = w_google w ++
    [(GOOGLE_TOKEN_ENDPOINT, GoogleTokenExchangeHttpClient.request_body gx params)]).
  { by destruct (store_frame_split _ _ Hframe) as (x & y & ->). }
  assert (Hd : forall v, same_stores true (called_google gx params w1) v -> live v (os_state r) = None).
  { intros v (E1 & E2 & E3 & _). rewrite <-Hdead. by apply store_local. }
  destruct (google_answer _ _ _ _) as [e|e|claims].
  - split_and!; [done|done|by apply Hd].
  - split_and!; [done|done|by apply Hd].
  - match goal with |- context [run ?p ?v] =>
      assert (Hk : same_stores true v (run p v).2) by (apply keeps_stores_run, resolve_stores);
      pose proof (resolve_yields store config jwt ttl (os_tenantId r) (return_of r) claims hash v) as Hy;
      destruct (run p v) as [out w3] end.
    cbn [snd] in Hk. split_and!; [|intros s ->; by eapply Hy|by apply Hd].
    destruct Hk as (_ & _ & _ & ->). exact Hg.
Qed.

(** ** Return paths *)

Lemma drop_c0_suffix v : exists p, v = p ++ drop_c0 v /\ forallb c0_or_space p = true.
Proof.
  induction v as [|c v (p & E & Hp)]; [by exists []|]. cbn [drop_c0]. destruct (c0_or_space c) eqn:Ec.
  - exists (c :: p). cbn. by rewrite Ec, <-E.
  - by exists [].
Qed.

Lemma filter_keeps {A} (f : A -> bool) l : forallb f l = true -> List.filter f l = l.
Proof. induction l as [|x l IH]; simpl; [done|]. rewrite andb_true_iff. intros [-> Hl]. by rewrite IH. Qed.

(** The browser keeps a prefix of a text without controls that starts with a slash. *)
Lemma browser_clean_path rest :
  no_control (47%N :: rest) = true -> exists kept cut, rest = kept ++ cut /\ browser_clean (47%N :: rest) = 47%N :: kept.
Proof.
  intros Hc. unfold browser_clean. cbn [drop_c0]. change (c0_or_space 47) with false. cbn match.
  destruct (drop_c0_suffix (reverse (47%N :: rest))) as (p & E & Hp).
  destruct (drop_c0 (reverse (47%N :: rest))) as [|x q] using rev_ind.
  { rewrite app_nil_r in E. assert (H47 : 47%N ∈ p).
    { rewrite <-E. rewrite elem_of_reverse. apply list_elem_of_here. }
    rewrite forallb_forall in Hp. apply list_elem_of_In, Hp in H47. done. }
  clear IHq. apply (f_equal reverse) in E. rewrite reverse_involutive, !reverse_app in E. cbn in E.
  injection E as <- ->. exists (reverse q), (reverse p). split; [done|].
  rewrite reverse_app. cbn. rewrite filter_keeps; [done|].
  unfold no_control in Hc. cbn in Hc. rewrite forallb_app in Hc. apply andb_true_iff in Hc as [Hc _].
  rewrite forallb_forall in Hc |- *. intros c Hin. specialize (Hc c Hin).
  rewrite negb_true_iff, orb_false_iff, N.leb_gt, N.eqb_neq in Hc.
  rewrite negb_true_iff, !orb_false_iff, !N.eqb_neq. lia.
Qed.

Lemma single_slash_stays v : single_slash v = true -> no_control v = true -> stays_on_origin v = true.
Proof.
  intros Hs Hc. assert (exists rest, v = 47%N :: rest) as [rest ->].
  { destruct v as [|c v]; [done|]. destruct (N.eq_dec c 47%N) as [->|Hne]; [by exists v|]. exfalso.
    cbn [single_slash] in Hs. repeat case_match; done. }
  unfold stays_on_origin. destruct (browser_clean_path rest Hc) as (kept & cut & -> & ->).
  destruct kept as [|c kept]; [done|]. cbn [app single_slash] in Hs.
  destruct (N.eqb_spec c 47%N) as [->|H47]; [done|]. destruct (N.eqb_spec c 92%N) as [->|H92]; done.
Qed.

(** The return path kept with a state is at most 2000 code units long, is on
    the current origin however a browser reads it, and is what sanitizing it again
    gives; in particular a path that needs no change is kept. *)
Lemma return_to_safe value :
  let v := sanitizeReturnTo value in
  length v <= 2000 /\ stays_on_origin v = true /\ sanitizeReturnTo (Some v) = v.
Proof.
  assert (Hd : let v := DEFAULT_RETURN_TO in
    length v <= 2000 /\ stays_on_origin v = true /\ sanitizeReturnTo (Some v) = v).
  { split_and!; [by vm_compute; lia|done|done]. }
  destruct value as [v|]; [|exact Hd]. cbn [sanitizeReturnTo].
  destruct (truthy v); cbn [negb]; [|exact Hd].
  destruct (isValidReturnTo (trim v)) eqn:Ev; cbn [negb]; [|exact Hd]. pose proof Ev as Ev'.
  unfold isValidReturnTo in Ev'. rewrite !andb_true_iff, negb_true_iff, orb_false_iff, Nat.ltb_ge, Nat.eqb_neq in Ev'.
  destruct Ev' as (((Hne & Hlen) & Hs) & Hc). split_and!; [done|by apply single_slash_stays|].
  rewrite trim_idem, Ev. cbn [negb]. destruct (trim v); [done|]. done.
Qed.

(** * Theorems *)

(** Starting a flow for an active tenant stores one new live state with the
    tenant, a PKCE verifier, a nonce and the sanitized return path, touches no other
    state and no row, and answers the provider URL with the state and the nonce as
    they are and the verifier's challenge; an unknown or inactive tenant is answered
    not found, without effect. *)
Theorem authorize_correct `{EntropyLaws, CryptoLaws, Jose, Net} `{StateStoreSpec store live} config jwt ttl cmd w
    (Hpos : (0 < go_stateTtlSeconds config)%Z) :
  let deps := pg_oidc_deps store config jwt ttl in
  match tenant_by_slug (w_db w) (oa_tenantSlug cmd) with
  | Some t =>
      if bool_decide (tr_status t = t_active) then
        let r := authorization (tr_id t) cmd w in
        exists w', run (beginAuthorize deps cmd) w
          = (Ok (mkOidcAuthorizeResult (od_authEndpoint deps ++ js "?" ++ authorization_query deps r)), w') /\
          w_db w' = w_db w /\
          live w' (os_state r) = Some r /\ forall k, k <> os_state r -> live w' k = live w k
      else run (beginAuthorize deps cmd) w
           = (Err (NotFoundError (js "tenant '" ++ oa_tenantSlug cmd ++ js "' not found")), w)
  | None => run (beginAuthorize deps cmd) w
            = (Err (NotFoundError (js "tenant '" ++ oa_tenantSlug cmd ++ js "' not found")), w)
  end.
Proof.
  intros deps. pose proof (run_beginAuthorize config jwt ttl cmd w Hpos) as H'. cbv zeta in H'.
  destruct (tenant_by_slug _ _) as [t|]; [|done]. destruct (bool_decide _); [|done].
  destruct H' as (w' & Hrun & Hfr & Hl). exists w'. split_and!; [done| |apply Hl..].
  by destruct (store_frame_split _ _ Hfr) as (x & y & ->).
Qed.

(** The values of a flow have the lengths and the alphabet of the protocol:
    state, nonce and challenge are 43 URL-safe characters, and the verifier is one
    of RFC 7636 (43 to 128 unreserved characters). *)
Theorem authorize_bounds `{EntropyLaws, CryptoLaws, Jose, Net} `{StateStoreSpec store live} config jwt ttl cmd w res w'
    (Hpos : (0 < go_stateTtlSeconds config)%Z)
    (Hrun : run (beginAuthorize (pg_oidc_deps store config jwt ttl) cmd) w = (Ok res, w')) :
  exists r, live w' (os_state r) = Some r /\
    rfc7636_verifier (verifier_of r) = true /\
    length (os_state r) = 43 /\ length (nonce_of r) = 43 /\
    length (codeVerifierToChallenge (verifier_of r)) = 43 /\
    forallb is_base64url (os_state r ++ nonce_of r ++ codeVerifierToChallenge (verifier_of r)) = true.
Proof.
  pose proof (run_beginAuthorize config jwt ttl cmd w Hpos) as H'. cbv zeta in H'. rewrite Hrun in H'.
  destruct (tenant_by_slug _ _) as [t|]; [|done]. destruct (bool_decide _); [|done].
  destruct H' as (w2 & [= _ ->] & _ & Hl & _). exists (authorization (tr_id t) cmd w). split; [done|].
  destruct (authorization_fields (tr_id t) cmd w) as (-> & -> & _). cbn [os_state authorization].
  unfold rfc7636_verifier. rewrite !drawn_length, challenge_length, !forallb_app, !drawn_safe, challenge_safe. done.
Qed.

(** C25. The two halves of the flow fit.  When the state is still live, the callback
    sends Google the code with the verifier whose challenge the authorization URL had
    and the same redirect URI; a session it gives is for the tenant the flow began
    with and returns to the sanitized path; and no later callback with that state
    succeeds. *)
Theorem pkce_round_trip `{EntropyLaws, CryptoLaws, Unicode, Jose, Net} `{StateStoreSpec store live}
    config jwt ttl gx a res w w1 w2 code hash
    (Hgx : google_client config gx) (Hpos : (0 < go_stateTtlSeconds config)%Z)
    (Hrun : run (beginAuthorize (pg_oidc_deps store config jwt ttl) a) w = (Ok res, w1))
    (Hkept : forall k, live w2 k = live w1 k) :
  let deps := pg_oidc_deps store config jwt ttl in
  exists t r,
    tenant_by_slug (w_db w) (oa_tenantSlug a) = Some t /\
    oar_redirectUrl res = od_authEndpoint deps ++ js "?" ++ authorization_query deps r /\
    let '(out, w3) := run (handleCallback deps (mkOidcCallbackCommand code (os_state r) hash)) w2 in
    w_google w3 = w_google w2 ++ [(GOOGLE_TOKEN_ENDPOINT, GoogleTokenExchangeHttpClient.request_body gx
                     (mkExchangeParams code (od_redirectUri deps) (verifier_of r)))] /\
    (forall s, out = Ok s -> st_tenantId (cr_tokens s) = tr_id t /\
                             cr_returnTo s = sanitizeReturnTo (oa_returnTo a)) /\
    (forall cmd, cb_state cmd = os_state r ->
       (run (handleCallback deps cmd) w3).1 = Err (UnauthorizedError (js "invalid or expired OAuth state"))).
Proof.
  intros deps. pose proof (run_beginAuthorize config jwt ttl a w Hpos) as H'. cbv zeta in H'. rewrite Hrun in H'.
  destruct (tenant_by_slug _ _) as [t|]; [|done]. destruct (bool_decide _); [|done].
  destruct H' as (w1' & [= -> <-] & _ & Hl & _). exists t, (authorization (tr_id t) a w). split_and!; try done.
  rewrite <-Hkept in Hl.
  destruct (authorization_fields (tr_id t) a w) as (Ev & En & Er).
  pose proof (callback_of_live config jwt ttl gx code hash _ w2 Hgx Hl) as Hc. rewrite Ev, En, Er in *.
  specialize (Hc (drawn_truthy _ _) (drawn_truthy _ _)). cbv zeta in Hc. subst deps.
  destruct (run _ w2) as [out w3]. destruct Hc as (Hg & Hs & Hd). split_and!; [done|done|].
  intros cmd Hcmd. rewrite <-Hcmd in Hd. by destruct (run_dead_state config jwt ttl cmd w3 Hd) as (? & -> & _).
Qed.

(** ** Witnesses *)

Definition demo_authorize : OidcAuthorizeCommand := mkOidcAuthorizeCommand (js "acme") (Some (js " /logs?x=1 ")).

Definition demo_oidc_deps : OidcAuthenticatorDeps :=
  @pg_oidc_deps demo_entropy demo_crypto demo_jose demo_net InMemoryOAuthStateStore.store demo_google demo_jwt 1000.

Lemma authorize_correct_witness : exists res w',
  run (@beginAuthorize demo_crypto demo_entropy demo_oidc_deps demo_authorize) demo_world = (Ok res, w') /\
  return_of <$> memory_live w' (@drawn demo_entropy 0 demo_world) = Some (js "/logs?x=1").
Proof.
  pose proof (@authorize_correct demo_entropy demo_entropy_laws demo_crypto demo_crypto_laws demo_jose demo_net
    InMemoryOAuthStateStore.store memory_live memory_store_spec demo_google demo_jwt 1000 demo_authorize demo_world
    eq_refl) as H'. cbv zeta in H'.
  change (tenant_by_slug (w_db demo_world) (oa_tenantSlug demo_authorize)) with (Some demo_tenant) in H'.
  destruct H' as (w' & Hrun & _ & Hl & _).
  eexists _, w'. split; [exact Hrun|]. change (@drawn demo_entropy 0 demo_world) with
    (os_state (@authorization demo_entropy (tr_id demo_tenant) demo_authorize demo_world)).
  rewrite Hl. vm_compute. reflexivity.
Defined.

Lemma demo_authorize_run : exists res w',
  run (@beginAuthorize demo_crypto demo_entropy demo_oidc_deps demo_authorize) demo_world = (Ok res, w').
Proof. eexists _, _. vm_compute. reflexivity. Qed.

Lemma authorize_bounds_witness : exists w' r,
  memory_live w' (os_state r) = Some r /\ rfc7636_verifier (verifier_of r) = true.
Proof.
  destruct demo_authorize_run as (res & w' & E).
  destruct (@authorize_bounds demo_entropy demo_entropy_laws demo_crypto demo_crypto_laws demo_jose demo_net
    InMemoryOAuthStateStore.store memory_live memory_store_spec demo_google demo_jwt 1000 demo_authorize demo_world
    res w' eq_refl E) as (r & Hl & Hv & _).
  exists w', r. split; [exact Hl|exact Hv].
Defined.

Lemma pkce_round_trip_witness : exists w1 r,
  (exists res, run (@beginAuthorize demo_crypto demo_entropy demo_oidc_deps demo_authorize) demo_world = (Ok res, w1) /\
     oar_redirectUrl res = od_authEndpoint demo_oidc_deps ++ js "?"
                           ++ @authorization_query demo_crypto demo_oidc_deps r) /\
  length (w_google (run (@handleCallback demo_crypto ascii_unicode demo_oidc_deps
    (mkOidcCallbackCommand (js "code") (os_state r) None)) w1).2) = 1.
Proof.
  destruct demo_authorize_run as (res & w1 & E).
  destruct (@pkce_round_trip demo_entropy demo_entropy_laws demo_crypto demo_crypto_laws ascii_unicode demo_jose
    demo_net InMemoryOAuthStateStore.store memory_live memory_store_spec demo_google demo_jwt 1000 demo_gx
    demo_authorize res demo_world w1 w1 (js "code") None (conj eq_refl eq_refl) eq_refl E (fun _ => eq_refl))
    as (t & r & _ & Hurl & Hrest).
  exists w1, r. split; [exists res; split; [exact E|exact Hurl]|]. unfold demo_oidc_deps in *.
  assert (Eg : w_google w1 = []).
  { change w1 with (snd (Ok (E := exn) res, w1)). rewrite <-E. vm_compute. reflexivity. }
  destruct (run _ w1) as [out w3]. destruct Hrest as (Hg & _). cbn [snd]. rewrite Hg, Eg. reflexivity.
Defined.
