(* ===== verification/Zod.v ===== *)
(** * Schemas

    The request and response schemas of the repository are values of the zod package
    (version 4).  A schema is a value of [schema A], [A] being its inferred type; what
    the package does with it ([safeParse]) is a parameter, with the documented
    behaviour of every constructor the repository uses as laws.  The input is a JSON
    value, or [None] for [undefined] (a missing key).  [interpreter] is a concrete
    interpreter that satisfies the laws. *)

From stdpp Require Import base list option numbers strings gmap.
From S2P Require Import Prelude Tokens Rbac Entities Google.

(** ** Checks *)

Inductive string_check :=
| CTrim                                        (* .trim() *)
| CMin (n : nat)
| CMax (n : nat)
| CTest (p : jsstr -> bool)                    (* .regex(...), .refine(...) *)
| CEmail
| CUrl
| CDatetime.

Inductive number_check :=
| NInt
| NFinite
| NMin (n : Z)                                 (* .min(n), .nonnegative() *)
| NPositive
| NMax (n : Z).

Inductive array_check := ANonempty | AMax (n : nat).

Inductive unknown_keys := strict | strip.

(** ** Schemas *)

Inductive schema : Type -> Type :=
| ZString (checks : list string_check) : schema jsstr
| ZNumber (checks : list number_check) : schema jsnum
| ZCoerceNumber (checks : list number_check) : schema jsnum
| ZBoolean : schema bool
| ZUnknown : schema json
| ZEnum {A} (options : list (jsstr * A)) : schema A
| ZOptional {A} (s : schema A) : schema (option A)
| ZNullable {A} (s : schema A) : schema (option A)
| ZDefault {A} (d : A) (s : schema A) : schema A
| ZArray {A} (checks : list array_check) (s : schema A) : schema (list A)
| ZRecord {A} (s : schema A) : schema (list (jsstr * A))      (* z.record(z.string(), s) *)
| ZObject {A} (mode : unknown_keys) (f : fields A) : schema A
| ZRefine {A} (p : A -> bool) (s : schema A) : schema A
| ZUnion {A} (s1 s2 : schema A) : schema A                    (* z.union([s1, s2, ...]) *)
| ZTagged {A} (key tag : jsstr) (s other : schema A) : schema A  (* z.discriminatedUnion *)
| ZNever {A} : schema A
| ZView {A B} (f : A -> B) (s : schema A) : schema B          (* the inferred type, as a record *)
with fields : Type -> Type :=
| FEnd : fields unit
| FField {A B} (key : jsstr) (s : schema A) (rest : fields B) : fields (A * B).

Declare Scope zod_scope.
Delimit Scope zod_scope with zod.
Notation "k ~> s ;; r" := (FField (js k) s r) (at level 62, s at level 60, right associativity) : zod_scope.

Fixpoint field_keys {A} (f : fields A) : list jsstr :=
  match f with
  | FEnd => []
  | FField key _ rest => key :: field_keys rest
  end.

(** ** Meaning of checks *)

(** The value of a number that is an integer. *)
Definition int_value (n : jsnum) : option Z :=
  if (0 <=? jn_exp n)%Z then Some (jn_mant n * 2 ^ jn_exp n)%Z
  else if (jn_mant n mod 2 ^ (- jn_exp n) =? 0)%Z then Some (jn_mant n / 2 ^ (- jn_exp n))%Z
  else None.

(** [n <= z] and [z <= n] for an integer [z]. *)
Definition num_le (n : jsnum) (z : Z) : bool :=
  if (0 <=? jn_exp n)%Z then (jn_mant n * 2 ^ jn_exp n <=? z)%Z
  else (jn_mant n <=? z * 2 ^ (- jn_exp n))%Z.

Definition num_ge (n : jsnum) (z : Z) : bool :=
  if (0 <=? jn_exp n)%Z then (z <=? jn_mant n * 2 ^ jn_exp n)%Z
  else (z * 2 ^ (- jn_exp n) <=? jn_mant n)%Z.

(** [Number.MAX_SAFE_INTEGER]. *)
Definition MAX_SAFE_INTEGER : Z := 2 ^ 53 - 1.

Definition number_ok (c : number_check) (n : jsnum) : bool :=
  match c with
  | NInt => match int_value n with
            | Some z => (- MAX_SAFE_INTEGER <=? z)%Z && (z <=? MAX_SAFE_INTEGER)%Z
            | None => false
            end
  | NFinite => true
  | NMin z => num_ge n z
  | NPositive => negb (num_le n 0)
  | NMax z => num_le n z
  end.

Definition array_ok {A} (c : array_check) (l : list A) : bool :=
  match c with
  | ANonempty => negb (length l =? 0)
  | AMax n => length l <=? n
  end.

(** The package's text formats, and the language's reading of numbers. *)
Class Formats := {
  z_email : jsstr -> bool;
  z_url : jsstr -> option jsstr;                (* the accepted text *)
  z_datetime : jsstr -> bool;
  js_Date : jsstr -> Z;                         (* new Date(s), for an accepted datetime *)
  URL_hostname : jsstr -> option jsstr;         (* new URL(s).hostname *)
  js_Number : jsstr -> option jsnum             (* Number(s), when finite *)
}.

(** The package. *)
Class Zod `{Formats} := {
  safeParse {A} : schema A -> option json -> result (list jsstr) A
}.

Section Meaning.
Context `{Zod}.

Fixpoint string_checks (cs : list string_check) (s : jsstr) : option jsstr :=
  match cs with
  | [] => Some s
  | c :: cs' =>
      match c with
      | CTrim => string_checks cs' (trim s)
      | CMin n => if n <=? length s then string_checks cs' s else None
      | CMax n => if length s <=? n then string_checks cs' s else None
      | CTest p => if p s then string_checks cs' s else None
      | CEmail => if z_email s then string_checks cs' s else None
      | CUrl => s' ← z_url s; string_checks cs' s'
      | CDatetime => if z_datetime s then string_checks cs' s else None
      end
  end.

Definition number_checks (cs : list number_check) (n : jsnum) : option jsnum :=
  if forallb (fun c => number_ok c n) cs then Some n else None.

(** The data of a successful parse. *)
Definition parsed {A} (s : schema A) (v : option json) : option A :=
  match safeParse s v with Ok a => Some a | Err _ => None end.

(** The known keys of an object. *)
Fixpoint parsed_fields {A} (f : fields A) (o : jsobject) : option A :=
  match f in fields A return option A with
  | FEnd => Some tt
  | FField key s rest => a ← parsed s (get o key); b ← parsed_fields rest o; Some (a, b)
  end.

Definition keys_known (f : list jsstr) (o : jsobject) : bool :=
  forallb (fun kv => bool_decide (kv.1 ∈ f)) o.

End Meaning.

(** A property that is a string. *)
Definition string_field (o : jsobject) (key : jsstr) : option jsstr :=
  match get o key with Some (JStr s) => Some s | _ => None end.

(** Keys that are not special to the language. *)
Definition plain_keys (o : jsobject) : Prop := Forall (fun kv => kv.1 <> js "__proto__") o.

Definition lookup_tag {A} (options : list (jsstr * A)) (s : jsstr) : option A :=
  snd <$> find (fun o => bool_decide (o.1 = s)) options.

(** Documented behaviour. *)
Class ZodLaws `{Zod} : Prop := {
  parsed_string cs v :
    parsed (ZString cs) v = match v with Some (JStr s) => string_checks cs s | _ => None end;
  parsed_number cs v :
    parsed (ZNumber cs) v = match v with Some (JNum n) => number_checks cs n | _ => None end;
  parsed_coerce cs s :
    parsed (ZCoerceNumber cs) (Some (JStr s)) = n ← js_Number s; number_checks cs n;
  parsed_boolean v : parsed ZBoolean v = match v with Some (JBool b) => Some b | _ => None end;
  parsed_unknown v : parsed ZUnknown (Some v) = Some v;
  parsed_enum {A} (options : list (jsstr * A)) v :
    parsed (ZEnum options) v = match v with Some (JStr s) => lookup_tag options s | _ => None end;
  parsed_optional {A} (s : schema A) v :
    parsed (ZOptional s) v = match v with None => Some None | Some _ => Some <$> parsed s v end;
  parsed_nullable {A} (s : schema A) v :
    parsed (ZNullable s) v = match v with Some JNull => Some None | _ => Some <$> parsed s v end;
  parsed_default {A} (d : A) (s : schema A) v :
    parsed (ZDefault d s) v = match v with None => Some d | Some _ => parsed s v end;
  parsed_array {A} cs (s : schema A) v :
    parsed (ZArray cs s) v =
    match v with
    | Some (JArr l) =>
        r ← mapM (fun j => parsed s (Some j)) l;
        if forallb (fun c => array_ok c r) cs then Some r else None
    | _ => None
    end;
  (* a record has the object's own string keys, once each *)
  record_sound {A} (s : schema A) v l :
    parsed (ZRecord s) v = Some l ->
    exists o, v = Some (JObj o) /\ NoDup l.*1 /\
      Forall (fun ka => exists j, get o ka.1 = Some j /\ parsed s (Some j) = Some ka.2) l;
  record_complete {A} (s : schema A) o l :
    plain_keys o -> NoDup o.*1 ->
    mapM (fun kv => a ← parsed s (Some kv.2); Some (kv.1, a)) o = Some l ->
    parsed (ZRecord s) (Some (JObj o)) = Some l;
  object_sound {A} mode (f : fields A) v a :
    parsed (ZObject mode f) v = Some a ->
    exists o, v = Some (JObj o) /\ parsed_fields f o = Some a /\
      (mode = strict -> plain_keys o -> keys_known (field_keys f) o = true);
  object_complete {A} mode (f : fields A) o a :
    plain_keys o -> (mode = strict -> keys_known (field_keys f) o = true) ->
    parsed_fields f o = Some a -> parsed (ZObject mode f) (Some (JObj o)) = Some a;
  parsed_refine {A} (p : A -> bool) (s : schema A) v :
    parsed (ZRefine p s) v = a ← parsed s v; if p a then Some a else None;
  parsed_union {A} (s1 s2 : schema A) v :
    parsed (ZUnion s1 s2) v = match parsed s1 v with Some a => Some a | None => parsed s2 v end;
  parsed_tagged {A} key tag (s other : schema A) v :
    parsed (ZTagged key tag s other) v =
    match v with
    | Some (JObj o) => if bool_decide (string_field o key = Some tag) then parsed s v else parsed other v
    | _ => None
    end;
  parsed_never {A} v : parsed (ZNever (A := A)) v = None;
  parsed_view {A B} (f : A -> B) (s : schema A) v : parsed (ZView f s) v = f <$> parsed s v
}.

(** ** A concrete interpreter *)

Section Interpreter.
Context `{Formats}.

(** The last value of every key. *)
Fixpoint own (o : jsobject) : jsobject :=
  match o with
  | [] => []
  | kv :: o' => if bool_decide (kv.1 ∈ o'.*1) then own o' else kv :: own o'
  end.

Fixpoint interp {A} (s : schema A) (v : option json) {struct s} : option A :=
  match s in schema A return option A with
  | ZString cs => match v with Some (JStr x) => string_checks cs x | _ => None end
  | ZNumber cs => match v with Some (JNum n) => number_checks cs n | _ => None end
  | ZCoerceNumber cs =>
      match v with Some (JStr x) => n ← js_Number x; number_checks cs n | _ => None end
  | ZBoolean => match v with Some (JBool b) => Some b | _ => None end
  | ZUnknown => v
  | ZEnum options => match v with Some (JStr x) => lookup_tag options x | _ => None end
  | ZOptional s => match v with None => Some None | Some _ => Some <$> interp s v end
  | ZNullable s => match v with Some JNull => Some None | _ => Some <$> interp s v end
  | ZDefault d s => match v with None => Some d | Some _ => interp s v end
  | ZArray cs s =>
      match v with
      | Some (JArr l) =>
          r ← mapM (fun j => interp s (Some j)) l;
          if forallb (fun c => array_ok c r) cs then Some r else None
      | _ => None
      end
  | ZRecord s =>
      match v with
      | Some (JObj o) => mapM (fun kv => a ← interp s (Some kv.2); Some (kv.1, a)) (own o)
      | _ => None
      end
  | ZObject mode f =>
      match v with
      | Some (JObj o) =>
          if match mode with strict => keys_known (field_keys f) o | strip => true end
          then interp_fields f o else None
      | _ => None
      end
  | ZRefine p s => a ← interp s v; if p a then Some a else None
  | ZUnion s1 s2 => match interp s1 v with Some a => Some a | None => interp s2 v end
  | ZTagged key tag s other =>
      match v with
      | Some (JObj o) => if bool_decide (string_field o key = Some tag) then interp s v else interp other v
      | _ => None
      end
  | ZNever => None
  | ZView f s => f <$> interp s v
  end
with interp_fields {A} (f : fields A) (o : jsobject) {struct f} : option A :=
  match f in fields A return option A with
  | FEnd => Some tt
  | FField key s rest => a ← interp s (get o key); b ← interp_fields rest o; Some (a, b)
  end.

Definition interpreter : Zod :=
  {| safeParse := fun A s v => match interp s v with Some a => Ok a | None => Err [js "invalid"] end |}.
End Interpreter.

(** * Lemmas *)

Lemma own_keys o k : k ∈ (own o).*1 <-> k ∈ o.*1.
Proof.
  induction o as [|[k' v] o IH]; [done|]. cbn [own]. case_bool_decide as Hin; cbn [fmap list_fmap fst] in *.
  - rewrite IH, elem_of_cons. naive_solver.
  - by rewrite !elem_of_cons, IH.
Qed.

Lemma own_NoDup o : NoDup (own o).*1.
Proof.
  induction o as [|[k v] o IH]; [constructor|]. cbn [own]. case_bool_decide; [done|].
  cbn [fmap list_fmap fst]. constructor; [by rewrite own_keys|done].
Qed.

Lemma own_id o : NoDup o.*1 -> own o = o.
Proof.
  induction o as [|[k v] o IH]; [done|]. cbn [fmap list_fmap fst own]. rewrite NoDup_cons. intros [Hn Hd].
  rewrite bool_decide_eq_false_2 by done. by rewrite IH.
Qed.

Lemma get_cons k v o key :
  get ((k, v) :: o) key = match get o key with
                          | Some w => Some w
                          | None => if bool_decide (k = key) then Some v else None
                          end.
Proof.
  unfold get. rewrite reverse_cons. induction (reverse o) as [|x l IH]; simpl.
  - by case_bool_decide.
  - destruct (bool_decide (x.1 = key)); [done|exact IH].
Qed.

Lemma get_None o key : get o key = None <-> key ∉ o.*1.
Proof.
  induction o as [|[k v] o IH]; [split; [intros _; apply not_elem_of_nil|done]|].
  rewrite get_cons. cbn [fmap list_fmap fst]. rewrite not_elem_of_cons.
  destruct (get o key) eqn:E; [|case_bool_decide; naive_solver].
  split; [done|]. intros [_ Hn]. by apply IH in Hn.
Qed.

Lemma get_own o : Forall (fun kv => get o kv.1 = Some kv.2) (own o).
Proof.
  induction o as [|[k v] o IH]; [constructor|]. cbn [own].
  assert (IH' : Forall (fun kv => get ((k, v) :: o) kv.1 = Some kv.2) (own o)).
  { eapply Forall_impl; [exact IH|]. intros kv E. rewrite get_cons. by rewrite E. }
  case_bool_decide as Hin; [done|]. constructor; [|done]. cbn [fst snd] in *. rewrite get_cons.
  apply get_None in Hin. rewrite Hin. by rewrite bool_decide_eq_true_2.
Qed.

Section InterpreterLaws.
Context `{Formats}.
Existing Instance interpreter.

Lemma parsed_interp {A} (s : schema A) v : parsed s v = interp s v.
Proof. unfold parsed. cbn [safeParse interpreter]. by destruct (interp s v). Qed.

Lemma parsed_fields_interp {A} (f : fields A) o : parsed_fields f o = interp_fields f o.
Proof.
  induction f as [|A B key s rest IH]; [done|]. cbn [parsed_fields interp_fields]. by rewrite parsed_interp, IH.
Qed.

Lemma interpreter_laws : ZodLaws.
Proof.
  split.
  - intros. rewrite parsed_interp. cbn [interp]. destruct v as [[]|]; try done.
  - intros. rewrite parsed_interp. cbn [interp]. by destruct v as [[]|].
  - intros. by rewrite parsed_interp.
  - intros. rewrite parsed_interp. cbn [interp]. by destruct v as [[]|].
  - intros. by rewrite parsed_interp.
  - intros. rewrite parsed_interp. cbn [interp]. by destruct v as [[]|].
  - intros. rewrite !parsed_interp. cbn [interp]. by destruct v.
  - intros. rewrite !parsed_interp. cbn [interp]. by destruct v as [[]|].
  - intros. rewrite !parsed_interp. cbn [interp]. by destruct v.
  - intros. rewrite !parsed_interp. cbn [interp]. destruct v as [[]|]; try done.
    f_equal. induction l as [|j l IH]; [done|]. cbn. by rewrite parsed_interp, IH.
  - intros A s v l. rewrite parsed_interp. cbn [interp]. destruct v as [[| | | | |o]|]; try done. intros Hl.
    exists o. split; [done|]. apply mapM_Some in Hl.
    assert (El : l.*1 = (own o).*1).
    { clear -Hl. induction Hl as [|[k j] [k' a] o' l' Hk Hl IH]; [done|]. cbn in *.
      destruct (interp s (Some j)); simplify_eq/=. by rewrite IH. }
    rewrite El. split; [apply own_NoDup|]. pose proof (get_own o) as Hg. clear El.
    induction Hl as [|[k j] [k' a] o' l' Hk Hl IH]; [constructor|]. apply Forall_cons in Hg as [Hj Hg].
    constructor; [|by apply IH]. cbn in Hk. destruct (interp s (Some j)) eqn:E; simplify_eq/=.
    exists j. by rewrite parsed_interp.
  - intros A s o l _ Hd Hm. rewrite parsed_interp. cbn [interp]. rewrite own_id by done. rewrite <-Hm.
    clear. induction o as [|kv o IH]; [done|]. cbn. by rewrite parsed_interp, IH.
  - intros A mode f v a. rewrite parsed_interp. cbn [interp]. destruct v as [[| | | | |o]|]; try done. intros Ha.
    exists o. rewrite parsed_fields_interp. destruct mode; [|split_and!; done]. by destruct (keys_known _ _).
  - intros A mode f o a _ Hk Ha. rewrite parsed_interp. cbn [interp]. rewrite parsed_fields_interp in Ha.
    destruct mode; [by rewrite Hk|done].
  - intros. by rewrite !parsed_interp.
  - intros. by rewrite !parsed_interp.
  - intros. rewrite !parsed_interp. cbn [interp]. by destruct v as [[]|].
  - intros. by rewrite parsed_interp.
  - intros. by rewrite !parsed_interp.
Qed.
End InterpreterLaws.

(** Accepted addresses and URLs are not empty. *)
Class FormatLaws `{Formats} : Prop := {
  email_nonempty s : z_email s = true -> truthy s = true;
  url_nonempty s u : z_url s = Some u -> truthy u = true
}.

(** ** Reading schemas backwards *)

Lemma int_value_le n z k : int_value n = Some z -> num_le n k = (z <=? k)%Z /\ num_ge n k = (k <=? z)%Z.
Proof.
  unfold int_value, num_le, num_ge. destruct (Z.leb_spec 0 (jn_exp n)) as [He|He]; [by intros [= <-]|].
  destruct (Z.eqb_spec (jn_mant n mod 2 ^ (- jn_exp n)) 0) as [Hm|]; [|done]. intros [= <-].
  assert (Hp : (0 < 2 ^ (- jn_exp n))%Z) by (apply Z.pow_pos_nonneg; lia).
  rewrite (Z.div_mod (jn_mant n) (2 ^ (- jn_exp n))) at 1 3 by lia. rewrite Hm, Z.add_0_r.
  split; apply eq_bool_prop_intro; rewrite !Is_true_true, !Z.leb_le; nia.
Qed.

Lemma fields_inv `{Zod} {A B} key (s : schema A) (rest : fields B) o r :
  parsed_fields (FField key s rest) o = Some r ->
  exists a b, r = (a, b) /\ parsed s (get o key) = Some a /\ parsed_fields rest o = Some b.
Proof.
  cbn [parsed_fields]. destruct (parsed s _) as [a|]; [|done]. cbn [mbind option_bind].
  destruct (parsed_fields rest o) as [b|]; [|done]. intros [= <-]. by exists a, b.
Qed.

Lemma view_inv `{ZodLaws} {A B} (f : A -> B) (s : schema A) v b :
  parsed (ZView f s) v = Some b -> exists a, b = f a /\ parsed s v = Some a.
Proof. rewrite parsed_view. destruct (parsed s v) as [a|]; [|done]. intros [= <-]. by exists a. Qed.

Lemma refine_inv `{ZodLaws} {A} (p : A -> bool) (s : schema A) v a :
  parsed (ZRefine p s) v = Some a -> parsed s v = Some a /\ p a = true.
Proof.
  rewrite parsed_refine. destruct (parsed s v) as [x|]; [|done]. cbn [mbind option_bind].
  destruct (p x) eqn:E; [|done]. by intros [= <-].
Qed.

Lemma string_inv `{ZodLaws} cs v s :
  parsed (ZString cs) v = Some s -> exists t, v = Some (JStr t) /\ string_checks cs t = Some s.
Proof. rewrite parsed_string. destruct v as [[]|]; try done. intros Hs. by eexists. Qed.

Lemma number_inv `{ZodLaws} cs v n :
  parsed (ZNumber cs) v = Some n -> v = Some (JNum n) /\ forallb (fun c => number_ok c n) cs = true.
Proof.
  rewrite parsed_number. unfold number_checks. destruct v as [[| |m| | |]|]; try done.
  destruct (forallb _ cs) eqn:E; [|done]. by intros [= <-].
Qed.

Lemma optional_inv `{ZodLaws} {A} (s : schema A) v a :
  parsed (ZOptional s) v = Some (Some a) -> parsed s v = Some a.
Proof. rewrite parsed_optional. destruct v as [v|]; [|done]. destruct (parsed s _); [|done]. by intros [= <-]. Qed.

Lemma nullable_inv `{ZodLaws} {A} (s : schema A) v a :
  parsed (ZNullable s) v = Some (Some a) -> parsed s v = Some a.
Proof.
  rewrite parsed_nullable. destruct v as [[]|]; try done; destruct (parsed s _); try done; by intros [= <-].
Qed.

Lemma default_inv `{ZodLaws} {A} d (s : schema A) v a :
  parsed (ZDefault d s) v = Some a -> a = d \/ parsed s v = Some a.
Proof. rewrite parsed_default. destruct v; [by right|]. intros [= <-]. by left. Qed.

Lemma enum_inv `{ZodLaws} {A} (options : list (jsstr * A)) v a :
  parsed (ZEnum options) v = Some a -> a ∈ options.*2.
Proof.
  rewrite parsed_enum. destruct v as [[]|]; try done. unfold lookup_tag.
  destruct (find _ options) as [[k x]|] eqn:E; [|done]. intros [= <-].
  apply find_some in E as [E _]. apply list_elem_of_fmap. exists (k, x). split; [done|]. by apply list_elem_of_In.
Qed.

Lemma array_inv `{ZodLaws} {A} cs (s : schema A) v l :
  parsed (ZArray cs s) v = Some l ->
  Forall (fun a => exists j, parsed s (Some j) = Some a) l /\ forallb (fun c => array_ok c l) cs = true.
Proof.
  rewrite parsed_array. destruct v as [[]|]; try done. destruct (mapM _ _) as [r|] eqn:E; [|done].
  cbn [mbind option_bind]. destruct (forallb _ cs) eqn:Ec; [|done]. intros [= <-]. split; [|done].
  clear Ec. apply mapM_Some in E. induction E as [|j a l0 r0 Hj _ IH]; constructor; [by exists j|exact IH].
Qed.

Lemma object_inv `{ZodLaws} {A} mode (f : fields A) v a :
  parsed (ZObject mode f) v = Some a -> exists o, v = Some (JObj o) /\ parsed_fields f o = Some a.
Proof. intros (o & Hv & Hf & _)%object_sound. by exists o. Qed.

(** One level of a successful parse. *)
Ltac schema_inv :=
  match goal with
  | H : parsed (ZView _ _) _ = Some _ |- _ => apply view_inv in H as (? & ? & H)
  | H : parsed (ZRefine _ _) _ = Some _ |- _ => apply refine_inv in H as (H & ?)
  | H : parsed (ZObject _ _) _ = Some _ |- _ => apply object_inv in H as (? & ? & H)
  | H : parsed_fields (FField _ _ _) _ = Some _ |- _ =>
      apply fields_inv in H as (? & ? & ? & ? & H)
  | H : parsed_fields FEnd _ = Some _ |- _ => injection H as <-
  end.

(** ** A concrete package, for the witnesses *)

(** Formats that accept enough. *)
Definition demo_formats : Formats :=
  {| z_email := fun s => bool_decide (64%N ∈ s);
     z_url := fun s => if startsWith s (js "https://") then Some s else None;
     z_datetime := fun _ => true;
     js_Date := fun _ => 0%Z;
     URL_hostname := fun _ => None;
     js_Number := fun s =>
       if truthy s && forallb (fun c => (48 <=? c)%N && (c <=? 57)%N) s
       then Some (mkNum (foldl (fun n c => n * 10 + (Z.of_N c - 48))%Z 0%Z s) 0) else None |}.

Lemma demo_format_laws : @FormatLaws demo_formats.
Proof.
  split.
  - intros s Hs%bool_decide_eq_true. by destruct s; [apply not_elem_of_nil in Hs|].
  - intros [|c s] u; [by vm_compute|]. cbn [z_url demo_formats].
    destruct (startsWith (c :: s) (js "https://")); [|done]. by intros [= <-].
Qed.

Definition demo_zod : @Zod demo_formats := @interpreter demo_formats.

Lemma demo_zod_laws : @ZodLaws demo_formats demo_zod.
Proof. apply interpreter_laws. Qed.
