(* ===== verification/Contracts.v ===== *)
(** * Contracts

    The request and response schemas of the [packages/contracts] package, shared by
    the control plane and the web application, and the control plane's own path
    schemas.  A record of the inferred type is the command type of the service that
    takes it, where there is one. *)

From stdpp Require Import base list option numbers strings gmap.
From S2P Require Import Prelude Errors Effects Tokens Text Rbac Email Entities Ports Uuid World.
From S2P Require Import Google AuthService Services Oidc Authorize Zod.
Open Scope zod_scope.

(** ** Shared pieces *)

(** [^[0-9a-fA-F]{8}-[0-9a-fA-F]{4}-[0-9a-fA-F]{4}-[0-9a-fA-F]{4}-[0-9a-fA-F]{12}$]. *)
Definition uuid_regex (s : jsstr) : bool :=
  (length s =? 36)
  && forallb (fun '(i, c) => if existsb (Nat.eqb i) [8; 13; 18; 23] then (c =? 45)%N else is_hex c)
       (zip (seq 0 (length s)) s).

Definition uuidSchema : schema jsstr := ZString [CTest uuid_regex].

(** [tenantPublicIdSchema]. *)
Definition slugSchema : schema jsstr := ZString [CTest tenantPublicIdSchema].

(** [z.enum([...])] whose values stay strings. *)
Definition enum_of (l : list jsstr) : schema jsstr := ZEnum ((fun s => (s, s)) <$> l).

(** [z.number().int()...], as an integer. *)
Definition int_of (cs : list number_check) : schema Z :=
  ZView (fun n => default 0%Z (int_value n)) (ZNumber (NInt :: cs)).

(** [z.record(z.string(), z.string())]. *)
Definition labelsSchema : schema (gmap jsstr jsstr) := ZView list_to_map (ZRecord (ZString [])).

Definition nameSchema : schema jsstr := ZString [CTrim; CMin 1; CMax 200].
Definition emailSchema : schema jsstr := ZString [CEmail; CMax 320].

(** ** Roles, tenants and users *)

Definition membershipRoleSchema : schema MembershipRole :=
  ZEnum ((fun r => (membership_str r, r)) <$> MEMBERSHIP_ROLES).

Definition roleSchema : schema Role := ZEnum ((fun r => (role_str r, r)) <$> ROLES).

Definition tenant_status_str (s : TenantStatus) : jsstr :=
  match s with t_active => js "active" | t_suspended => js "suspended" | t_deleted => js "deleted" end.

Definition tenantStatusSchema : schema TenantStatus :=
  ZEnum ((fun s => (tenant_status_str s, s)) <$> [t_active; t_suspended; t_deleted]).

Definition createTenantRequestSchema : schema CreateTenantCommand :=
  ZView (fun '(p, (n, _)) => mkCreateTenantCommand p n)
    (ZObject strict ("publicId" ~> slugSchema ;; "name" ~> nameSchema ;; FEnd)).

Definition updateTenantRequestSchema : schema TenantPatch :=
  ZRefine (fun v => bool_decide (tp_name v <> None) || bool_decide (tp_status v <> None))
    (ZView (fun '(n, (s, _)) => mkTenantPatch n s)
       (ZObject strict ("name" ~> ZOptional nameSchema ;; "status" ~> ZOptional tenantStatusSchema ;; FEnd))).

Definition tenantResponseSchema :=
  ZObject strip
    ("id" ~> uuidSchema ;; "publicId" ~> slugSchema ;; "name" ~> ZString [] ;;
     "status" ~> tenantStatusSchema ;; "createdAt" ~> ZString [] ;; "updatedAt" ~> ZString [] ;; FEnd).

Definition userStatusSchema : schema jsstr := enum_of [js "active"; js "suspended"].

Definition passwordSchema : schema jsstr := ZString [CMin 8; CMax 200].

Definition createUserRequestSchema : schema CreateUserCommand :=
  ZView (fun '(e, (p, (d, (r, _)))) => mkCreateUserCommand e p d r)
    (ZObject strict
       ("email" ~> emailSchema ;; "password" ~> passwordSchema ;; "displayName" ~> ZOptional nameSchema ;;
        "role" ~> ZDefault m_member membershipRoleSchema ;; FEnd)).

Definition updateUserRequestSchema : schema UpdateUserCommand :=
  ZRefine (fun v => bool_decide (uu_displayName v <> None) || bool_decide (uu_status v <> None)
                    || bool_decide (uu_role v <> None) || bool_decide (uu_password v <> None))
    (ZView (fun '(d, (s, (r, (p, _)))) => mkUpdateUserCommand (Some <$> d) s r p)
       (ZObject strict
          ("displayName" ~> ZOptional nameSchema ;; "status" ~> ZOptional userStatusSchema ;;
           "role" ~> ZOptional membershipRoleSchema ;; "password" ~> ZOptional passwordSchema ;; FEnd))).

Definition userResponseSchema :=
  ZObject strip
    ("id" ~> uuidSchema ;; "tenantId" ~> uuidSchema ;; "email" ~> ZString [CEmail] ;;
     "displayName" ~> ZNullable (ZString []) ;; "status" ~> userStatusSchema ;;
     "role" ~> membershipRoleSchema ;; "isPlatformOperator" ~> ZBoolean ;;
     "createdAt" ~> ZString [] ;; "updatedAt" ~> ZString [] ;; FEnd).

(** The operator's bootstrap body ([routes.ts]). *)
Definition provisionAdminSchema : schema ProvisionAdminCommand :=
  ZView (fun '(e, (p, (d, _))) => mkProvisionAdminCommand e p d)
    (ZObject strict
       ("email" ~> emailSchema ;; "password" ~> ZString [CMin 8; CMax 200] ;;
        "displayName" ~> ZOptional nameSchema ;; FEnd)).

(** ** Sessions *)

Definition loginRequestSchema : schema LoginCommand :=
  ZView (fun '(t, (e, (p, _))) => mkLoginCommand t e p)
    (ZObject strict
       ("tenantSlug" ~> slugSchema ;; "email" ~> emailSchema ;; "password" ~> ZString [CMin 1; CMax 200] ;; FEnd)).

Definition refreshRequestSchema : schema jsstr :=
  ZView fst (ZObject strict ("refreshToken" ~> ZString [CMin 1] ;; FEnd)).

Definition logoutRequestSchema : schema jsstr :=
  ZView fst (ZObject strict ("refreshToken" ~> ZString [CMin 1] ;; FEnd)).

Definition tokenPairSchema : schema SessionTokens :=
  ZView (fun '(a, (r, (e, (k, (ro, (t, (u, _))))))) => mkSessionTokens a r e k ro t u)
    (ZObject strip
       ("accessToken" ~> ZString [] ;; "refreshToken" ~> ZString [] ;; "expiresIn" ~> int_of [NPositive] ;;
        "tokenType" ~> enum_of [js "Bearer"] ;; "role" ~> roleSchema ;; "tenantId" ~> uuidSchema ;;
        "userId" ~> uuidSchema ;; FEnd)).

Definition accessClaimsSchema :=
  ZObject strip
    ("sub" ~> uuidSchema ;; "tenant_id" ~> uuidSchema ;; "role" ~> roleSchema ;; "iat" ~> int_of [] ;;
     "exp" ~> int_of [] ;; FEnd).

(** ** OIDC *)

Definition containsControlChar (v : jsstr) : bool :=
  existsb (fun code => (code <=? 0x1f)%N || (code =? 0x7f)%N) v.

Definition returnToSchema : schema jsstr :=
  ZString [CTrim; CMin 1; CMax 2000; CTest (fun v => single_slash v && negb (containsControlChar v))].

Definition oidcAuthorizeRequestSchema : schema OidcAuthorizeCommand :=
  ZView (fun '(t, (r, _)) => mkOidcAuthorizeCommand t r)
    (ZObject strict ("tenantSlug" ~> slugSchema ;; "returnTo" ~> ZOptional returnToSchema ;; FEnd)).

Definition oidcAuthorizeResponseSchema `{Formats} : schema OidcAuthorizeResult :=
  ZView (fun '(u, _) => mkOidcAuthorizeResult u)
    (ZObject strict
       ("redirectUrl" ~> ZString [CUrl; CTest (fun url => bool_decide (URL_hostname url = Some (js "accounts.google.com")))]
        ;; FEnd)).

Record OidcCallbackRequest := mkOidcCallbackRequest {
  or_tenantSlug : jsstr;
  or_code : jsstr;
  or_state : jsstr;
  or_inviteToken : option jsstr
}.

Definition oidcCallbackRequestSchema : schema OidcCallbackRequest :=
  ZView (fun '(t, (c, (s, (i, _)))) => mkOidcCallbackRequest t c s i)
    (ZObject strict
       ("tenantSlug" ~> slugSchema ;; "code" ~> ZString [CMin 1; CMax 4096] ;; "state" ~> ZString [CMin 1; CMax 1024] ;;
        "inviteToken" ~> ZOptional (ZString [CMin 1; CMax 512]) ;; FEnd)).

(** The same without the invite token: what the browser may send. *)
Definition oidcCallbackClientRequestSchema : schema OidcCallbackRequest :=
  ZView (fun '(t, (c, (s, _))) => mkOidcCallbackRequest t c s None)
    (ZObject strict
       ("tenantSlug" ~> slugSchema ;; "code" ~> ZString [CMin 1; CMax 4096] ;; "state" ~> ZString [CMin 1; CMax 1024] ;;
        FEnd)).

(** ** API keys and retention *)

Definition SCOPES : list jsstr := [js "ingest:write"; js "logs:read"].

Definition scopeSchema : schema jsstr := enum_of SCOPES.

Record CreateApiKeyRequest := mkCreateApiKeyRequest {
  kq_name : jsstr;
  kq_scopes : list jsstr;
  kq_expiresAt : option jsstr
}.

Definition createApiKeyRequestSchema : schema CreateApiKeyRequest :=
  ZView (fun '(n, (s, (e, _))) => mkCreateApiKeyRequest n s e)
    (ZObject strict
       ("name" ~> nameSchema ;; "scopes" ~> ZDefault [js "ingest:write"] (ZArray [ANonempty] scopeSchema) ;;
        "expiresAt" ~> ZOptional (ZString [CDatetime]) ;; FEnd)).

Definition apiKeyResponse_fields {A} (rest : fields A) :=
  ("id" ~> ZString [] ;; "tenantId" ~> uuidSchema ;; "name" ~> ZString [] ;; "scopes" ~> ZArray [] scopeSchema ;;
   "createdBy" ~> ZNullable uuidSchema ;; "createdAt" ~> ZString [] ;; "lastUsedAt" ~> ZNullable (ZString []) ;;
   "expiresAt" ~> ZNullable (ZString []) ;; "revokedAt" ~> ZNullable (ZString []) ;; rest).

Definition apiKeyResponseSchema := ZObject strip (apiKeyResponse_fields FEnd).

Definition apiKeyCreatedResponseSchema :=
  ZObject strip (apiKeyResponse_fields ("plaintext" ~> ZString [] ;; FEnd)).

Definition upsertRetentionRequestSchema : schema UpsertRetentionCommand :=
  ZRefine (fun v => (ur_hotDays v <=? ur_coldDays v)%Z)
    (ZView (fun '(h, (c, _)) => mkUpsertRetentionCommand h c)
       (ZObject strict ("hotDays" ~> int_of [NMin 1; NMax 90] ;; "coldDays" ~> int_of [NMin 1; NMax 36500] ;; FEnd))).

Definition retentionResponseSchema :=
  ZObject strip
    ("tenantId" ~> uuidSchema ;; "hotDays" ~> ZNumber [] ;; "coldDays" ~> ZNumber [] ;; "createdAt" ~> ZString [] ;;
     "updatedAt" ~> ZString [] ;; FEnd).

(** ** Alert rules *)

Definition LOG_LEVELS : list jsstr := [js "trace"; js "debug"; js "info"; js "warn"; js "error"; js "fatal"].

Definition logLevelSchema : schema jsstr := enum_of LOG_LEVELS.

Definition comparator_str (c : AlertComparator) : jsstr :=
  match c with
  | c_gt => js "gt" | c_gte => js "gte" | c_lt => js "lt" | c_lte => js "lte" | c_eq => js "eq"
  end.

Definition alertComparatorSchema : schema AlertComparator :=
  ZEnum ((fun c => (comparator_str c, c)) <$> [c_gt; c_gte; c_lt; c_lte; c_eq]).

Definition alert_state_str (s : AlertState) : jsstr :=
  match s with a_ok => js "ok" | a_firing => js "firing" | a_no_data => js "no_data" end.

Definition alertStateSchema : schema AlertState :=
  ZEnum ((fun s => (alert_state_str s, s)) <$> [a_ok; a_firing; a_no_data]).

Definition alertSeveritySchema : schema jsstr := enum_of [js "info"; js "warning"; js "critical"].

Definition ruleQuerySchema : schema RuleQuery :=
  ZView (fun '(t, (s, (l, (ls, _)))) => mkRuleQuery t s l ls)
    (ZObject strict
       ("text" ~> ZOptional (ZString [CTrim; CMax 1000]) ;; "service" ~> ZOptional (ZString [CTrim; CMax 200]) ;;
        "level" ~> ZOptional logLevelSchema ;; "labels" ~> ZOptional labelsSchema ;; FEnd)).

(** The contract package's copy of [hasInlineQuery]. *)
Definition contract_hasInlineQuery (query : option RuleQuery) : bool :=
  match query with
  | None => false
  | Some q =>
      truthy (default [] (trim <$> rq_text q)) || truthy (default [] (trim <$> rq_service q))
      || truthy (default [] (rq_level q))
      || match rq_labels q with Some l => 0 <? size l | None => false end
  end.

Definition notifyChannelSchema : schema NotifyChannel :=
  ZTagged (js "type") (js "webhook")
    (ZView (fun '(_, (u, _)) => webhook u)
       (ZObject strict ("type" ~> enum_of [js "webhook"] ;; "url" ~> ZString [CUrl; CMax 2000] ;; FEnd)))
  (ZTagged (js "type") (js "email")
    (ZView (fun '(_, (t, _)) => email_channel t)
       (ZObject strict ("type" ~> enum_of [js "email"] ;; "to" ~> emailSchema ;; FEnd)))
   ZNever).

Definition thresholdSchema : schema jsnum := ZNumber [NFinite; NMin 0].
Definition windowSecondsSchema : schema Z := int_of [NMin 30; NMax 86400].
Definition notifyChannelsSchema : schema (list NotifyChannel) := ZArray [AMax 20] notifyChannelSchema.

Record CreateAlertRuleRequest := mkCreateAlertRuleRequest {
  aq_name : jsstr;
  aq_savedQueryId : option jsstr;
  aq_query : RuleQuery;
  aq_comparator : AlertComparator;
  aq_threshold : jsnum;
  aq_windowSeconds : Z;
  aq_severity : jsstr;
  aq_enabled : bool;
  aq_notifyChannels : list NotifyChannel
}.

Definition createAlertRuleRequestSchema : schema CreateAlertRuleRequest :=
  ZRefine (fun v => negb (eqb (bool_decide (aq_savedQueryId v <> None)) (contract_hasInlineQuery (Some (aq_query v)))))
    (ZView (fun '(n, (i, (q, (c, (t, (w, (s, (e, (ch, _))))))))) => mkCreateAlertRuleRequest n i q c t w s e ch)
       (ZObject strict
          ("name" ~> nameSchema ;; "savedQueryId" ~> ZOptional uuidSchema ;;
           "query" ~> ZDefault empty_query ruleQuerySchema ;; "comparator" ~> ZDefault c_gt alertComparatorSchema ;;
           "threshold" ~> thresholdSchema ;; "windowSeconds" ~> ZDefault 300%Z windowSecondsSchema ;;
           "severity" ~> ZDefault (js "warning") alertSeveritySchema ;; "enabled" ~> ZDefault true ZBoolean ;;
           "notifyChannels" ~> ZDefault [] notifyChannelsSchema ;; FEnd))).

(** [Object.keys(v).length > 0]. *)
Definition rule_patch_nonempty (v : AlertRulePatch) : bool :=
  bool_decide (ap_name v <> None) || bool_decide (ap_savedQueryId v <> None) || bool_decide (ap_query v <> None)
  || bool_decide (ap_comparator v <> None) || bool_decide (ap_threshold v <> None)
  || bool_decide (ap_windowSeconds v <> None) || bool_decide (ap_severity v <> None)
  || bool_decide (ap_enabled v <> None) || bool_decide (ap_notifyChannels v <> None).

Definition updateAlertRuleRequestSchema : schema AlertRulePatch :=
  ZRefine (fun v => bool_decide (ap_query v = None) || contract_hasInlineQuery (ap_query v)
                    || bool_decide (ap_savedQueryId v <> None))
  (ZRefine rule_patch_nonempty
    (ZView (fun '(n, (i, (q, (c, (t, (w, (s, (e, (ch, _))))))))) => mkAlertRulePatch n i q c t w s e ch)
       (ZObject strict
          ("name" ~> ZOptional nameSchema ;; "savedQueryId" ~> ZOptional (ZNullable uuidSchema) ;;
           "query" ~> ZOptional ruleQuerySchema ;; "comparator" ~> ZOptional alertComparatorSchema ;;
           "threshold" ~> ZOptional thresholdSchema ;; "windowSeconds" ~> ZOptional windowSecondsSchema ;;
           "severity" ~> ZOptional alertSeveritySchema ;; "enabled" ~> ZOptional ZBoolean ;;
           "notifyChannels" ~> ZOptional notifyChannelsSchema ;; FEnd)))).

Definition alertRuleResponseSchema :=
  ZObject strip
    ("id" ~> uuidSchema ;; "tenantId" ~> uuidSchema ;; "name" ~> ZString [] ;;
     "savedQueryId" ~> ZNullable uuidSchema ;; "query" ~> ruleQuerySchema ;; "comparator" ~> alertComparatorSchema ;;
     "threshold" ~> ZNumber [] ;; "windowSeconds" ~> ZNumber [] ;; "severity" ~> ZString [] ;; "enabled" ~> ZBoolean ;;
     "notifyChannels" ~> ZArray [] notifyChannelSchema ;; "state" ~> alertStateSchema ;;
     "lastEvaluatedAt" ~> ZNullable (ZString []) ;; "lastTriggeredAt" ~> ZNullable (ZString []) ;;
     "createdBy" ~> ZNullable uuidSchema ;; "createdAt" ~> ZString [] ;; "updatedAt" ~> ZString [] ;; FEnd).

(** ** Saved queries *)

(** [a < b] on strings: by code units. *)
Fixpoint str_lt (a b : jsstr) : bool :=
  match a, b with
  | [], [] => false
  | [], _ :: _ => true
  | _ :: _, [] => false
  | x :: a', y :: b' => (x <? y)%N || ((x =? y)%N && str_lt a' b')
  end.

Definition savedQueryFiltersSchema : schema SavedQueryFilters :=
  ZView (fun '(s, (l, (ls, _))) => mkSavedQueryFilters s l ls)
    (ZObject strict
       ("service" ~> ZOptional (ZString [CTrim; CMax 200]) ;; "level" ~> ZOptional logLevelSchema ;;
        "labels" ~> ZOptional labelsSchema ;; FEnd)).

Definition savedQueryTimeRangeSchema : schema jsobject :=
  ZUnion
    (ZView (fun '(r, _) => [(js "relative", JStr r)])
       (ZObject strict ("relative" ~> ZString [CTrim; CMin 1; CMax 50] ;; FEnd)))
  (ZUnion
    (ZView (fun '(f, (t, _)) => [(js "from", JStr f); (js "to", JStr t)])
       (ZRefine (fun '(f, (t, _)) => str_lt f t)
          (ZObject strict ("from" ~> ZString [] ;; "to" ~> ZString [] ;; FEnd))))
    (ZView (fun _ => []) (ZObject strict FEnd))).

Definition descriptionSchema : schema jsstr := ZString [CTrim; CMax 2000].

Definition no_filters : SavedQueryFilters := mkSavedQueryFilters None None None.

Record CreateSavedQueryRequest := mkCreateSavedQueryRequest {
  qq_name : jsstr;
  qq_description : option jsstr;
  qq_queryText : jsstr;
  qq_filters : SavedQueryFilters;
  qq_timeRange : jsobject
}.

Definition createSavedQueryRequestSchema : schema CreateSavedQueryRequest :=
  ZView (fun '(n, (d, (t, (f, (r, _))))) => mkCreateSavedQueryRequest n d t f r)
    (ZObject strict
       ("name" ~> nameSchema ;; "description" ~> ZOptional descriptionSchema ;;
        "queryText" ~> ZDefault [] (ZString [CMax 1000]) ;; "filters" ~> ZDefault no_filters savedQueryFiltersSchema ;;
        "timeRange" ~> ZDefault [] savedQueryTimeRangeSchema ;; FEnd)).

Definition query_patch_nonempty (v : SavedQueryPatch) : bool :=
  match sp_name v, sp_description v, sp_queryText v, sp_filters v, sp_timeRange v with
  | None, None, None, None, None => false
  | _, _, _, _, _ => true
  end.

Definition updateSavedQueryRequestSchema : schema SavedQueryPatch :=
  ZRefine query_patch_nonempty
    (ZView (fun '(n, (d, (t, (f, (r, _))))) => mkSavedQueryPatch n d t f r)
       (ZObject strict
          ("name" ~> ZOptional nameSchema ;; "description" ~> ZOptional (ZNullable descriptionSchema) ;;
           "queryText" ~> ZOptional (ZString [CMax 1000]) ;; "filters" ~> ZOptional savedQueryFiltersSchema ;;
           "timeRange" ~> ZOptional savedQueryTimeRangeSchema ;; FEnd))).

Definition savedQueryResponseSchema :=
  ZObject strip
    ("id" ~> uuidSchema ;; "tenantId" ~> uuidSchema ;; "name" ~> ZString [] ;; "description" ~> ZNullable (ZString []) ;;
     "queryText" ~> ZString [] ;; "filters" ~> savedQueryFiltersSchema ;; "timeRange" ~> ZRecord ZUnknown ;;
     "createdBy" ~> ZNullable uuidSchema ;; "createdAt" ~> ZString [] ;; "updatedAt" ~> ZString [] ;; FEnd).

(** ** Dashboards *)

Definition panelGridSchema : schema PanelGrid :=
  ZView (fun '(x, (y, (w, (h, _)))) => mkPanelGrid x y w h)
    (ZObject strict
       ("x" ~> int_of [NMin 0] ;; "y" ~> int_of [NMin 0] ;; "w" ~> int_of [NPositive] ;; "h" ~> int_of [NPositive] ;;
        FEnd)).

Definition panel_type_str (t : PanelType) : jsstr :=
  match t with p_timeseries => js "timeseries" | p_stat => js "stat" | p_logs => js "logs" end.

Definition panelTypeSchema : schema PanelType :=
  ZEnum ((fun t => (panel_type_str t, t)) <$> [p_timeseries; p_stat; p_logs]).

Definition panelSchema : schema Panel :=
  ZView (fun '(i, (k, (t, (q, (v, (g, _)))))) => mkPanel i k t q v g)
    (ZObject strict
       ("id" ~> ZString [CTrim; CMin 1; CMax 100] ;; "type" ~> panelTypeSchema ;; "title" ~> nameSchema ;;
        "savedQueryId" ~> uuidSchema ;; "viz" ~> ZDefault [] (ZRecord ZUnknown) ;; "grid" ~> panelGridSchema ;; FEnd)).

Definition dashboardLayoutSchema : schema DashboardLayout :=
  ZView (fun '(p, _) => mkDashboardLayout p)
    (ZObject strict ("panels" ~> ZArray [AMax 50] panelSchema ;; FEnd)).

Record CreateDashboardRequest := mkCreateDashboardRequest {
  dq_name : jsstr;
  dq_description : option jsstr;
  dq_layout : DashboardLayout
}.

Definition createDashboardRequestSchema : schema CreateDashboardRequest :=
  ZView (fun '(n, (d, (l, _))) => mkCreateDashboardRequest n d l)
    (ZObject strict
       ("name" ~> nameSchema ;; "description" ~> ZOptional descriptionSchema ;;
        "layout" ~> ZDefault (mkDashboardLayout []) dashboardLayoutSchema ;; FEnd)).

Definition dashboard_patch_nonempty (v : DashboardPatch) : bool :=
  match dp_name v, dp_description v, dp_layout v with None, None, None => false | _, _, _ => true end.

Definition updateDashboardRequestSchema : schema DashboardPatch :=
  ZRefine dashboard_patch_nonempty
    (ZView (fun '(n, (d, (l, _))) => mkDashboardPatch n d l)
       (ZObject strict
          ("name" ~> ZOptional nameSchema ;; "description" ~> ZOptional (ZNullable descriptionSchema) ;;
           "layout" ~> ZOptional dashboardLayoutSchema ;; FEnd))).

Definition dashboardResponseSchema :=
  ZObject strip
    ("id" ~> uuidSchema ;; "tenantId" ~> uuidSchema ;; "name" ~> ZString [] ;; "description" ~> ZNullable (ZString []) ;;
     "layout" ~> dashboardLayoutSchema ;; "createdBy" ~> ZNullable uuidSchema ;; "createdAt" ~> ZString [] ;;
     "updatedAt" ~> ZString [] ;; FEnd).

(** ** Invites *)

Definition INVITE_ROLES : list jsstr := [js "member"; js "admin"].

Definition inviteStatusSchema : schema InviteStatus :=
  ZEnum ((fun s => (invite_status_str s, s)) <$> INVITE_STATUSES).

Definition createInviteRequestSchema : schema CreateInviteCommand :=
  ZView (fun '(e, (r, _)) => mkCreateInviteCommand e r)
    (ZObject strict
       ("email" ~> emailSchema ;; "role" ~> ZDefault (js "member") (enum_of INVITE_ROLES) ;; FEnd)).

Definition inviteResponse_fields {A} (rest : fields A) :=
  ("id" ~> uuidSchema ;; "tenantId" ~> uuidSchema ;; "email" ~> ZString [CEmail] ;; "role" ~> enum_of INVITE_ROLES ;;
   "status" ~> inviteStatusSchema ;; "expiresAt" ~> ZString [] ;; "createdBy" ~> ZNullable uuidSchema ;;
   "consumedAt" ~> ZNullable (ZString []) ;; "createdAt" ~> ZString [] ;; "updatedAt" ~> ZString [] ;; rest).

Definition inviteResponseSchema := ZObject strip (inviteResponse_fields FEnd).

Definition inviteCreatedResponseSchema :=
  ZObject strip (inviteResponse_fields ("inviteUrl" ~> ZString [CUrl] ;; FEnd)).

Definition inviteListSchema := ZObject strip ("invites" ~> ZArray [] inviteResponseSchema ;; FEnd).

(** ** Path parameters ([routes.ts]) *)

Definition uuidParamSchema : schema jsstr := ZView fst (ZObject strip ("id" ~> uuidSchema ;; FEnd)).
Definition apiKeyIdParamSchema : schema jsstr := ZView fst (ZObject strip ("id" ~> ZString [CMin 1] ;; FEnd)).

(** * Lemmas *)

Lemma int_inv `{ZodLaws} cs v z :
  parsed (int_of cs) v = Some z ->
  exists n, int_value n = Some z /\ forallb (fun c => number_ok c n) cs = true /\
    (- MAX_SAFE_INTEGER <= z <= MAX_SAFE_INTEGER)%Z.
Proof.
  intros Hv. unfold int_of in Hv. schema_inv. subst. apply number_inv in Hv as [_ Hn]. cbn [forallb number_ok] in Hn.
  apply andb_true_iff in Hn as [Hi Hn]. destruct (int_value x) as [z|] eqn:Ez; [|done]. exists x.
  rewrite Ez. apply andb_true_iff in Hi as [?%Z.leb_le ?%Z.leb_le]. cbn [default]. done.
Qed.

(** Bounds of an integer field. *)
Lemma int_range `{ZodLaws} lo hi v z :
  parsed (int_of [NMin lo; NMax hi]) v = Some z -> (lo <= z <= hi)%Z.
Proof.
  intros (n & Hn & Hc & _)%int_inv. cbn in Hc. destruct (int_value_le n z lo Hn) as [_ Hlo].
  destruct (int_value_le n z hi Hn) as [Hhi _]. rewrite Hlo, Hhi, andb_true_r in Hc.
  apply andb_true_iff in Hc as [?%Z.leb_le ?%Z.leb_le]. done.
Qed.

Lemma enum_of_inv `{ZodLaws} l v s : parsed (enum_of l) v = Some s -> s ∈ l.
Proof. intros Hs%enum_inv. by rewrite <-list_fmap_compose, list_fmap_id in Hs. Qed.

Lemma name_inv `{ZodLaws} v s :
  parsed nameSchema v = Some s -> trim s = s /\ 1 <= length s <= 200.
Proof.
  intros (t & -> & Hs)%string_inv. cbn [string_checks] in Hs.
  destruct (1 <=? length (trim t)) eqn:E1; [|done]. destruct (length (trim t) <=? 200) eqn:E2; [|done].
  injection Hs as <-. apply Nat.leb_le in E1, E2. by rewrite trim_idem.
Qed.

Lemma test_inv `{ZodLaws} p v s : parsed (ZString [CTest p]) v = Some s -> p s = true.
Proof. intros (t & -> & Hs)%string_inv. cbn [string_checks] in Hs. destruct (p t) eqn:E; by simplify_eq. Qed.

Lemma contract_inline q : contract_hasInlineQuery (Some q) = hasInlineQuery q.
Proof.
  unfold contract_hasInlineQuery, hasInlineQuery. f_equal. destruct (rq_labels q) as [l|]; [|done].
  apply eq_bool_prop_intro. rewrite !Is_true_true, Nat.ltb_lt, bool_decide_eq_true.
  rewrite <-map_size_non_empty_iff. lia.
Qed.

Lemma channel_truthy `{ZodLaws, !FormatLaws} v c :
  parsed notifyChannelSchema v = Some c ->
  match c with webhook url => truthy url | email_channel to => truthy to end = true.
Proof.
  unfold notifyChannelSchema. rewrite !parsed_tagged. destruct v as [[| | | | |o]|]; try done.
  case_bool_decide.
  - intros Hv. repeat schema_inv. subst. simplify_eq/=. 
    match goal with H : parsed (ZString _) _ = _ |- _ => apply string_inv in H as (t & _ & Hs) end.
    cbn [string_checks] in Hs. destruct (z_url t) as [u|] eqn:Eu; [|done]. cbn [mbind option_bind] in Hs.
    destruct (length u <=? 2000); [|done]. injection Hs as <-. by eapply url_nonempty.
  - case_bool_decide; [|by rewrite parsed_never]. intros Hv. repeat schema_inv. subst. simplify_eq/=.
    match goal with H : parsed emailSchema _ = _ |- _ => apply string_inv in H as (t & _ & Hs) end.
    cbn [string_checks] in Hs. destruct (z_email t) eqn:Eu; [|done].
    destruct (length t <=? 320); [|done]. injection Hs as <-. by apply email_nonempty.
Qed.

(** Text of UUID shape is what the database reads as a [uuid]. *)
Lemma uuid_regex_shape s :
  uuid_regex s = true -> exists ds, s = uuid_out ds /\ length ds = 32 /\ Forall (fun c => is_hex c = true) ds.
Proof.
  unfold uuid_regex. rewrite andb_true_iff, Nat.eqb_eq. intros [Hl Hf].
  do 36 (destruct s as [|? s]; [discriminate Hl|]; simpl in Hl). destruct s; [|discriminate Hl]. clear Hl.
  cbn in Hf. rewrite !andb_true_iff in Hf. destruct_and!.
  repeat match goal with H : (?c =? 45)%N = true |- _ => apply N.eqb_eq in H as -> end.
  match goal with |- context [[?a0; ?a1; ?a2; ?a3; ?a4; ?a5; ?a6; ?a7; 45%N; ?b0; ?b1; ?b2; ?b3; 45%N;
      ?c0; ?c1; ?c2; ?c3; 45%N; ?d0; ?d1; ?d2; ?d3; 45%N; ?e0; ?e1; ?e2; ?e3; ?e4; ?e5; ?e6; ?e7; ?e8; ?e9; ?ea; ?eb]] =>
    exists [a0; a1; a2; a3; a4; a5; a6; a7; b0; b1; b2; b3; c0; c1; c2; c3; d0; d1; d2; d3;
            e0; e1; e2; e3; e4; e5; e6; e7; e8; e9; ea; eb] end.
  split; [done|]. split; [done|]. repeat constructor; done.
Qed.

Lemma uuid_regex_read s : uuid_regex s = true -> exists u, uuid_in s = Some u.
Proof. intros (ds & -> & Hl & Hf)%uuid_regex_shape. eexists. by apply uuid_in_hex. Qed.

Lemma uuid_regex_canonical s : is_uuid s = true -> uuid_regex s = true.
Proof.
  intros (ds & -> & Hl & Hf)%is_uuid_spec%uuid_in_digits.
  do 32 (destruct ds as [|? ds]; [discriminate Hl|]; simpl in Hl). destruct ds; [|discriminate Hl]. clear Hl.
  repeat match goal with
         | H : Forall _ (?c :: _) |- _ => apply Forall_cons in H as [[? _]%lower_hex_id H]
         end.
  unfold uuid_regex, uuid_out. cbn. by rewrite !andb_true_iff.
Qed.

Lemma uuid_inv `{ZodLaws} v s : parsed uuidSchema v = Some s -> exists u, uuid_in s = Some u.
Proof. intros Hs%test_inv. by apply uuid_regex_read. Qed.

Lemma containsControlChar_spec v : negb (containsControlChar v) = no_control v.
Proof.
  unfold containsControlChar, no_control. induction v as [|c v IH]; [done|]. cbn [existsb forallb].
  by rewrite negb_orb, IH.
Qed.

(** * Theorems *)

(** Return paths, checked twice.  What the contract makes of a text is what the
    authenticator keeps of it, the default path standing for a refusal; and the kept
    path is at most 2000 code units long and on the current origin however a browser
    reads it. *)
Theorem return_to_agrees `{ZodLaws} v :
  sanitizeReturnTo (Some v) = default DEFAULT_RETURN_TO (parsed returnToSchema (Some (JStr v))) /\
  length (sanitizeReturnTo (Some v)) <= 2000 /\ stays_on_origin (sanitizeReturnTo (Some v)) = true.
Proof.
  split; [|by destruct (return_to_safe (Some v)) as (? & ? & _)].
  unfold returnToSchema. rewrite parsed_string. cbn [string_checks sanitizeReturnTo].
  assert (Hv : isValidReturnTo (trim v) = (1 <=? length (trim v)) && (length (trim v) <=? 2000)
                 && (single_slash (trim v) && negb (containsControlChar (trim v)))).
  { unfold isValidReturnTo. rewrite containsControlChar_spec, negb_orb, <-!andb_assoc. f_equal.
    - by destruct (length (trim v)).
    - f_equal. by rewrite Nat.ltb_antisym, negb_involutive. }
  rewrite Hv. destruct v as [|c v]; [done|]. cbn [truthy negb].
  destruct (1 <=? length (trim (c :: v))); [|done]. destruct (length (trim (c :: v)) <=? 2000); [|done].
  by destruct (single_slash (trim (c :: v)) && negb (containsControlChar (trim (c :: v)))).
Qed.

Lemma return_to_agrees_witness :
  (sanitizeReturnTo (Some (js "/logs?q=1 ")) =
   default DEFAULT_RETURN_TO
     (@parsed demo_formats demo_zod _ returnToSchema (Some (JStr (js "/logs?q=1 "))))) /\
  (sanitizeReturnTo (Some (js "/logs?q=1 ")) = js "/logs?q=1").
Proof.
  split; [|by vm_compute].
  apply (@return_to_agrees demo_formats demo_zod demo_zod_laws (js "/logs?q=1 ")).
Defined.
