(* ===== verification/Wire.v ===== *)
(** * Response bodies

    The JSON text Fastify sends for a service's result ([JSON.stringify]): a [Date] is
    its ISO form, a property that is [undefined] is left out. *)

From stdpp Require Import base list option numbers strings gmap.
From S2P Require Import Prelude Errors Effects Tokens Text Rbac Email Entities Ports World.
From S2P Require Import AuthService Services Oidc Contracts.

Definition json_str (s : jsstr) : json := JStr s.
Definition json_date (d : date) : json := JStr (toISOString d).
Definition json_int (z : Z) : json := JNum (mkNum z 0).
Definition nullable {A} (f : A -> json) (v : option A) : json := match v with Some a => f a | None => JNull end.

(** A property that may be [undefined]. *)
Definition if_defined {A} (key : jsstr) (f : A -> json) (v : option A) : jsobject :=
  match v with Some a => [(key, f a)] | None => [] end.

Definition json_labels (m : gmap jsstr jsstr) : json := JObj (prod_map id JStr <$> map_to_list m).

Definition tenant_json (t : Tenant) : json :=
  JObj [(js "id", JStr (tn_id t)); (js "publicId", JStr (tn_publicId t)); (js "name", JStr (tn_name t));
        (js "status", JStr (tenant_status_str (tn_status t))); (js "createdAt", json_date (tn_createdAt t));
        (js "updatedAt", json_date (tn_updatedAt t))].

Definition user_json (u : User) : json :=
  JObj [(js "id", JStr (us_id u)); (js "tenantId", JStr (us_tenantId u)); (js "email", JStr (us_email u));
        (js "displayName", nullable JStr (us_displayName u)); (js "status", JStr (us_status u));
        (js "isPlatformOperator", JBool (us_isPlatformOperator u));
        (js "role", nullable (fun r => JStr (membership_str r)) (us_role u));
        (js "createdAt", json_date (us_createdAt u)); (js "updatedAt", json_date (us_updatedAt u))].

Definition api_key_object (k : ApiKeyRecord) : jsobject :=
  [(js "id", JStr (ak_id k)); (js "tenantId", JStr (ak_tenantId k)); (js "name", JStr (ak_name k));
   (js "scopes", JArr (JStr <$> ak_scopes k)); (js "createdBy", nullable JStr (ak_createdBy k));
   (js "createdAt", json_date (ak_createdAt k)); (js "expiresAt", nullable json_date (ak_expiresAt k));
   (js "revokedAt", nullable json_date (ak_revokedAt k)); (js "lastUsedAt", nullable json_date (ak_lastUsedAt k))].

(** [{ ...issued.record, plaintext: issued.plaintext }]. *)
Definition issued_key_json (k : IssuedApiKey) : json :=
  JObj (api_key_object (ika_record k) ++ [(js "plaintext", JStr (ika_plaintext k))]).

Definition retention_json (p : RetentionPolicy) : json :=
  JObj [(js "tenantId", JStr (rp_tenantId p)); (js "hotDays", json_int (rp_hotDays p));
        (js "coldDays", json_int (rp_coldDays p)); (js "createdAt", json_date (rp_createdAt p));
        (js "updatedAt", json_date (rp_updatedAt p))].

Definition rule_query_json (q : RuleQuery) : json :=
  JObj (if_defined (js "text") JStr (rq_text q) ++ if_defined (js "service") JStr (rq_service q)
        ++ if_defined (js "level") JStr (rq_level q) ++ if_defined (js "labels") json_labels (rq_labels q)).

Definition channel_json (c : NotifyChannel) : json :=
  match c with
  | webhook url => JObj [(js "type", JStr (js "webhook")); (js "url", JStr url)]
  | email_channel to => JObj [(js "type", JStr (js "email")); (js "to", JStr to)]
  end.

Definition rule_json (r : AlertRule) : json :=
  JObj [(js "id", JStr (ar_id r)); (js "tenantId", JStr (ar_tenantId r)); (js "name", JStr (ar_name r));
        (js "savedQueryId", nullable JStr (ar_savedQueryId r)); (js "query", rule_query_json (ar_query r));
        (js "comparator", JStr (comparator_str (ar_comparator r))); (js "threshold", JNum (ar_threshold r));
        (js "windowSeconds", json_int (ar_windowSeconds r)); (js "severity", JStr (ar_severity r));
        (js "enabled", JBool (ar_enabled r)); (js "notifyChannels", JArr (channel_json <$> ar_notifyChannels r));
        (js "state", JStr (alert_state_str (ar_state r)));
        (js "lastEvaluatedAt", nullable json_date (ar_lastEvaluatedAt r));
        (js "lastTriggeredAt", nullable json_date (ar_lastTriggeredAt r));
        (js "createdBy", nullable JStr (ar_createdBy r)); (js "createdAt", json_date (ar_createdAt r));
        (js "updatedAt", json_date (ar_updatedAt r))].

Definition filters_json (f : SavedQueryFilters) : json :=
  JObj (if_defined (js "service") JStr (sf_service f) ++ if_defined (js "level") JStr (sf_level f)
        ++ if_defined (js "labels") json_labels (sf_labels f)).

Definition saved_query_json (q : SavedQuery) : json :=
  JObj [(js "id", JStr (sq_id q)); (js "tenantId", JStr (sq_tenantId q)); (js "name", JStr (sq_name q));
        (js "description", nullable JStr (sq_description q)); (js "queryText", JStr (sq_queryText q));
        (js "filters", filters_json (sq_filters q)); (js "timeRange", JObj (sq_timeRange q));
        (js "createdBy", nullable JStr (sq_createdBy q)); (js "createdAt", json_date (sq_createdAt q));
        (js "updatedAt", json_date (sq_updatedAt q))].

Definition grid_json (g : PanelGrid) : json :=
  JObj [(js "x", json_int (pg_x g)); (js "y", json_int (pg_y g)); (js "w", json_int (pg_w g));
        (js "h", json_int (pg_h g))].

Definition panel_json (p : Panel) : json :=
  JObj [(js "id", JStr (pn_id p)); (js "type", JStr (panel_type_str (pn_type p))); (js "title", JStr (pn_title p));
        (js "savedQueryId", JStr (pn_savedQueryId p)); (js "viz", JObj (pn_viz p)); (js "grid", grid_json (pn_grid p))].

Definition layout_json (l : DashboardLayout) : json := JObj [(js "panels", JArr (panel_json <$> dl_panels l))].

Definition dashboard_json (d : Dashboard) : json :=
  JObj [(js "id", JStr (dh_id d)); (js "tenantId", JStr (dh_tenantId d)); (js "name", JStr (dh_name d));
        (js "description", nullable JStr (dh_description d)); (js "layout", layout_json (dh_layout d));
        (js "createdBy", nullable JStr (dh_createdBy d)); (js "createdAt", json_date (dh_createdAt d));
        (js "updatedAt", json_date (dh_updatedAt d))].

Definition invite_object (i : Invite) : jsobject :=
  [(js "id", JStr (iv_id i)); (js "tenantId", JStr (iv_tenantId i)); (js "email", JStr (iv_email i));
   (js "role", JStr (iv_role i)); (js "status", JStr (invite_status_str (iv_status i)));
   (js "createdBy", nullable JStr (iv_createdBy i)); (js "expiresAt", json_date (iv_expiresAt i));
   (js "consumedAt", nullable json_date (iv_consumedAt i)); (js "createdAt", json_date (iv_createdAt i));
   (js "updatedAt", json_date (iv_updatedAt i))].

(** [{ ...invite, inviteUrl }]. *)
Definition issued_invite_json (i : IssuedInvite) : json :=
  JObj (invite_object (ii_invite i) ++ [(js "inviteUrl", JStr (ii_inviteUrl i))]).

Definition session_object (s : SessionTokens) : jsobject :=
  [(js "accessToken", JStr (st_accessToken s)); (js "refreshToken", JStr (st_refreshToken s));
   (js "expiresIn", json_int (st_expiresIn s)); (js "tokenType", JStr (st_tokenType s));
   (js "role", JStr (role_str (st_role s))); (js "tenantId", JStr (st_tenantId s));
   (js "userId", JStr (st_userId s))].

(** [{ ...result.tokens, returnTo: result.returnTo }]. *)
Definition callback_json (r : OidcCallbackResult) : json :=
  JObj (session_object (cr_tokens r) ++ [(js "returnTo", JStr (cr_returnTo r))]).

Definition authorize_json (r : OidcAuthorizeResult) : json := JObj [(js "redirectUrl", JStr (oar_redirectUrl r))].

(** [{ key: items }]. *)
Definition listing {A} (key : jsstr) (f : A -> json) (l : list A) : json := JObj [(key, JArr (f <$> l))].
