(* ===== verification/Http.v ===== *)
(** * HTTP layer

    [adapters/http/]: the two pre-handlers, input validation, one handler per route
    of [routes.ts], and the central error handler of [server.ts].  A request is its
    Authorization header, its path parameters and its parsed body.  Matching of paths,
    reading of bodies, logging and the per-address rate limit are Fastify's and are
    not modelled. *)

From stdpp Require Import base list option numbers strings gmap.
From S2P Require Import Prelude Errors Effects Tokens Text Rbac Email Entities Ports Uuid Schema World Sql.
From S2P Require Import Integrity Eval Demo PgUsers PgTokens PgInvites PgContent Calls Credentials Adapters.
From S2P Require Import Google AuthService Sessions Services UseCases Oidc OidcFlow Zod Contracts Wire.

Record Request := mkRequest {
  req_authorization : option jsstr;
  req_params : jsobject;
  req_body : option json;
  req_tenantContext : option TenantContext
}.

Record Response := mkResponse { rs_status : Z; rs_body : option json }.

(** [reply.code(status).send(body)]. *)
Definition send (status : Z) (body : json) : prog world Response := mret (mkResponse status (Some body)).
Definition no_content : prog world Response := mret (mkResponse 204 None).

(** ** Validation *)

Definition parse `{Zod} {A} (s : schema A) (data : option json) : prog world A :=
  match safeParse s data with
  | Ok a => mret a
  | Err issues => throw (ValidationError (js "request validation failed") (Some issues))
  end.

(** ** Pre-handlers *)

Definition is_line_terminator (c : N) : bool := bool_decide (c ∈ [0x0A; 0x0D; 0x2028; 0x2029]%N).

(** [/^Bearer (.+)$/.exec(header)], the group. *)
Definition BEARER (header : jsstr) : option jsstr :=
  if startsWith header (js "Bearer ") then
    let token := drop 7 header in
    if truthy token && forallb (fun c => negb (is_line_terminator c)) token then Some token else None
  else None.

Definition set_tenantContext (ctx : TenantContext) (req : Request) : Request :=
  mkRequest (req_authorization req) (req_params req) (req_body req) (Some ctx).

Definition makeAuthenticate (tokens : TokenService world) (req : Request) : prog world Request :=
  match (header ← req_authorization req; if truthy header then BEARER header else None) with
  | None => throw (UnauthorizedError (js "missing bearer token"))
  | Some token =>
      claims ← catch (fun _ => throw (UnauthorizedError (js "invalid or expired token")))
                 (tokens_verifyAccess tokens token);
      mret (set_tenantContext (mkTenantContext (sc_tenantId claims) (sc_principalId claims) (sc_role claims) None) req)
  end.

Definition requireTenantContext (req : Request) : prog world TenantContext :=
  match req_tenantContext req with
  | Some ctx => mret ctx
  | None => throw (UnauthorizedError invalid_credentials)
  end.

Definition makeRequireOperation (operation : Operation) (req : Request) : prog world unit :=
  ctx ← requireTenantContext req;
  if negb (can (ctx_role ctx) operation)
  then throw (ForbiddenError (js "role '" ++ role_str (ctx_role ctx) ++ js "' may not perform '"
                              ++ op_name operation ++ js "'"))
  else mret tt.

(** ** Errors *)

(** The error handler: a domain error shows itself, anything else is hidden. *)
Definition error_response (err : exn) : Response :=
  match err with
  | EDomain d =>
      mkResponse (de_status d)
        (Some (JObj ([(js "error", JStr (de_code d));
                      (js "message", JStr (if de_expose d then de_message d else js "request failed"))]
                     ++ if_defined (js "details") (fun l => JArr (JStr <$> l)) (de_details d))))
  | _ =>
      mkResponse 500 (Some (JObj [(js "error", JStr (js "internal_error"));
                                  (js "message", JStr (js "internal server error"))]))
  end.

(** ** Routes *)

Inductive route :=
| GET_healthz | GET_readyz
| POST_oidc_authorize | POST_oidc_callback
| POST_login | POST_refresh | POST_logout
| POST_tenants | GET_tenants | GET_tenant | PATCH_tenant | DELETE_tenant | POST_tenant_admin
| POST_users | GET_users | GET_user | PATCH_user | DELETE_user
| POST_api_keys | GET_api_keys | DELETE_api_key
| GET_retention | PUT_retention
| POST_alert_rules | GET_alert_rules | GET_alert_rule | PATCH_alert_rule | DELETE_alert_rule
| POST_saved_queries | GET_saved_queries | GET_saved_query | PATCH_saved_query | DELETE_saved_query
| POST_dashboards | GET_dashboards | GET_dashboard | PATCH_dashboard | DELETE_dashboard
| POST_invites | GET_invites | POST_invite_revoke.

(** The operation a route's second pre-handler asks for; [None]: a public route. *)
Definition route_operation (r : route) : option Operation :=
  match r with
  | GET_healthz | GET_readyz | POST_oidc_authorize | POST_oidc_callback | POST_login | POST_refresh
  | POST_logout => None
  | POST_tenants => Some tenant_create
  | GET_tenants => Some tenant_list
  | GET_tenant => Some tenant_read
  | PATCH_tenant => Some tenant_update
  | DELETE_tenant => Some tenant_delete
  | POST_tenant_admin => Some tenant_provision_admin
  | POST_users => Some user_create
  | GET_users => Some user_list
  | GET_user => Some user_read
  | PATCH_user => Some user_update
  | DELETE_user => Some user_delete
  | POST_api_keys => Some apikey_create
  | GET_api_keys => Some apikey_list
  | DELETE_api_key => Some apikey_revoke
  | GET_retention => Some retention_read
  | PUT_retention => Some retention_update
  | POST_alert_rules => Some alert_create
  | GET_alert_rules => Some alert_list
  | GET_alert_rule => Some alert_read
  | PATCH_alert_rule => Some alert_update
  | DELETE_alert_rule => Some alert_delete
  | POST_saved_queries => Some savedquery_create
  | GET_saved_queries => Some savedquery_list
  | GET_saved_query => Some savedquery_read
  | PATCH_saved_query => Some savedquery_update
  | DELETE_saved_query => Some savedquery_delete
  | POST_dashboards => Some dashboard_create
  | GET_dashboards => Some dashboard_list
  | GET_dashboard => Some dashboard_read
  | PATCH_dashboard => Some dashboard_update
  | DELETE_dashboard => Some dashboard_delete
  | POST_invites => Some Rbac.invite_create
  | GET_invites => Some Rbac.invite_list
  | POST_invite_revoke => Some Rbac.invite_revoke
  end.

(** ** Handlers of protected routes

    What a handler makes of its input: the use case it runs and how it replies. *)

Inductive call : Type :=
| Call {A : Type} (c : use_case A) (reply : A -> prog world Response).

Section Handlers.
Context `{Zod}.

Definition created {A} (f : A -> json) (a : A) : prog world Response := send 201 (f a).
Definition found {A} (f : A -> json) (a : A) : prog world Response := send 200 (f a).
Definition removed (_ : unit) : prog world Response := no_content.

Definition id_param (req : Request) : prog world jsstr := parse uuidParamSchema (Some (JObj (req_params req))).

(** *** Tenants *)

Definition post_tenants (req : Request) : prog world call :=
  body ← parse createTenantRequestSchema (req_body req);
  mret (Call (TenantCreate body) (created tenant_json)).

Definition get_tenants (_ : Request) : prog world call :=
  mret (Call TenantList (found (listing (js "tenants") tenant_json))).

Definition get_tenant (req : Request) : prog world call :=
  id ← id_param req;
  mret (Call (TenantGet id) (found tenant_json)).

Definition patch_tenant (req : Request) : prog world call :=
  id ← id_param req;
  body ← parse updateTenantRequestSchema (req_body req);
  mret (Call (TenantUpdate id body) (found tenant_json)).

Definition delete_tenant (req : Request) : prog world call :=
  id ← id_param req;
  mret (Call (TenantRemove id) removed).

Definition post_tenant_admin (req : Request) : prog world call :=
  id ← id_param req;
  body ← parse provisionAdminSchema (req_body req);
  mret (Call (TenantProvisionAdmin id body) (created user_json)).

(** *** Users *)

Definition post_users (req : Request) : prog world call :=
  body ← parse createUserRequestSchema (req_body req);
  mret (Call (UserCreate body) (created user_json)).

Definition get_users (_ : Request) : prog world call :=
  mret (Call UserList (found (listing (js "users") user_json))).

Definition get_user (req : Request) : prog world call :=
  id ← id_param req;
  mret (Call (UserGet id) (found user_json)).

Definition patch_user (req : Request) : prog world call :=
  id ← id_param req;
  body ← parse updateUserRequestSchema (req_body req);
  mret (Call (UserUpdate id body) (found user_json)).

Definition delete_user (req : Request) : prog world call :=
  id ← id_param req;
  mret (Call (UserRemove id) removed).

(** *** API keys and retention *)

Definition post_api_keys (req : Request) : prog world call :=
  body ← parse createApiKeyRequestSchema (req_body req);
  let expiresAt := e ← kq_expiresAt body; if truthy e then Some (js_Date e) else None in
  mret (Call (ApiKeyIssue (mkIssueApiKeyCommand (kq_name body) (Some (kq_scopes body)) (Some expiresAt)))
          (created issued_key_json)).

Definition get_api_keys (_ : Request) : prog world call :=
  mret (Call ApiKeyList (found (listing (js "apiKeys") (fun k => JObj (api_key_object k))))).

Definition delete_api_key (req : Request) : prog world call :=
  id ← parse apiKeyIdParamSchema (Some (JObj (req_params req)));
  mret (Call (ApiKeyRevoke id) removed).

Definition get_retention (_ : Request) : prog world call :=
  mret (Call RetentionGetPolicy (found retention_json)).

Definition put_retention (req : Request) : prog world call :=
  body ← parse upsertRetentionRequestSchema (req_body req);
  mret (Call (RetentionSet body) (found retention_json)).

(** *** Alert rules *)

Definition rule_command (body : CreateAlertRuleRequest) : CreateAlertRuleCommand :=
  mkCreateAlertRuleCommand (aq_name body) (Some (aq_savedQueryId body)) (aq_query body) (aq_comparator body)
    (aq_threshold body) (aq_windowSeconds body) (aq_severity body) (aq_enabled body) (aq_notifyChannels body).

Definition post_alert_rules (req : Request) : prog world call :=
  body ← parse createAlertRuleRequestSchema (req_body req);
  mret (Call (RuleCreate (rule_command body)) (created rule_json)).

Definition get_alert_rules (_ : Request) : prog world call :=
  mret (Call RuleList (found (listing (js "alertRules") rule_json))).

Definition get_alert_rule (req : Request) : prog world call :=
  id ← id_param req;
  mret (Call (RuleGet id) (found rule_json)).

Definition patch_alert_rule (req : Request) : prog world call :=
  id ← id_param req;
  body ← parse updateAlertRuleRequestSchema (req_body req);
  mret (Call (RuleUpdate id body) (found rule_json)).

Definition delete_alert_rule (req : Request) : prog world call :=
  id ← id_param req;
  mret (Call (RuleRemove id) removed).

(** *** Saved queries *)

Definition query_command (body : CreateSavedQueryRequest) : CreateSavedQueryCommand :=
  mkCreateSavedQueryCommand (qq_name body) (Some (qq_description body)) (qq_queryText body) (qq_filters body)
    (qq_timeRange body).

Definition post_saved_queries (req : Request) : prog world call :=
  body ← parse createSavedQueryRequestSchema (req_body req);
  mret (Call (QueryCreate (query_command body)) (created saved_query_json)).

Definition get_saved_queries (_ : Request) : prog world call :=
  mret (Call QueryList (found (listing (js "savedQueries") saved_query_json))).

Definition get_saved_query (req : Request) : prog world call :=
  id ← id_param req;
  mret (Call (QueryGet id) (found saved_query_json)).

Definition patch_saved_query (req : Request) : prog world call :=
  id ← id_param req;
  body ← parse updateSavedQueryRequestSchema (req_body req);
  mret (Call (QueryUpdate id body) (found saved_query_json)).

Definition delete_saved_query (req : Request) : prog world call :=
  id ← id_param req;
  mret (Call (QueryRemove id) removed).

(** *** Dashboards *)

Definition dashboard_command (body : CreateDashboardRequest) : CreateDashboardCommand :=
  mkCreateDashboardCommand (dq_name body) (Some (dq_description body)) (dq_layout body).

Definition post_dashboards (req : Request) : prog world call :=
  body ← parse createDashboardRequestSchema (req_body req);
  mret (Call (DashCreate (dashboard_command body)) (created dashboard_json)).

Definition get_dashboards (_ : Request) : prog world call :=
  mret (Call DashList (found (listing (js "dashboards") dashboard_json))).

Definition get_dashboard (req : Request) : prog world call :=
  id ← id_param req;
  mret (Call (DashGet id) (found dashboard_json)).

Definition patch_dashboard (req : Request) : prog world call :=
  id ← id_param req;
  body ← parse updateDashboardRequestSchema (req_body req);
  mret (Call (DashUpdate id body) (found dashboard_json)).

Definition delete_dashboard (req : Request) : prog world call :=
  id ← id_param req;
  mret (Call (DashRemove id) removed).

(** *** Invites *)

Definition post_invites (req : Request) : prog world call :=
  body ← parse createInviteRequestSchema (req_body req);
  mret (Call (InviteCreate body) (created issued_invite_json)).

Definition get_invites (_ : Request) : prog world call :=
  mret (Call InviteList (found (listing (js "invites") (fun i => JObj (invite_object i))))).

Definition post_invite_revoke (req : Request) : prog world call :=
  id ← id_param req;
  mret (Call (InviteRevoke id) removed).

End Handlers.

(** ** The server *)

Record RouteDeps := mkRouteDeps {
  rd_auth : AuthDeps;
  rd_services : ServicePorts;
  rd_tokenService : TokenService world;
  rd_oidcAuthenticator : OidcAuthenticatorDeps;
  rd_ping : prog world bool
}.

Section Server.
Context `{Zod, Crypto, Unicode, Entropy} (deps : RouteDeps).

(** *** Public routes *)

Definition get_healthz (_ : Request) : prog world Response := send 200 (JObj [(js "status", JStr (js "ok"))]).

Definition get_readyz (_ : Request) : prog world Response :=
  ready ← catch (fun _ => mret false) (rd_ping deps);
  send (if ready : bool then 200 else 503)%Z
    (JObj [(js "status", JStr (if ready : bool then js "ready" else js "not_ready"))]).

Definition post_oidc_authorize (req : Request) : prog world Response :=
  body ← parse oidcAuthorizeRequestSchema (req_body req);
  result ← beginAuthorize (rd_oidcAuthenticator deps) (mkOidcAuthorizeCommand (oa_tenantSlug body) (oa_returnTo body));
  send 200 (authorize_json result).

(** The hash of the invite token's secret; a malformed token is as good as none. *)
Definition invite_hash (inviteToken : option jsstr) : option (list N) :=
  match inviteToken with
  | Some token =>
      if truthy token then
        match parseInviteToken token with
        | Ok p => Some (sha256 (pi_secret p))
        | Err _ => None
        end
      else None
  | None => None
  end.

Definition post_oidc_callback (req : Request) : prog world Response :=
  body ← parse oidcCallbackRequestSchema (req_body req);
  result ← handleCallback (rd_oidcAuthenticator deps)
             (mkOidcCallbackCommand (or_code body) (or_state body) (invite_hash (or_inviteToken body)));
  send 200 (callback_json result).

Definition post_login (req : Request) : prog world Response :=
  body ← parse loginRequestSchema (req_body req);
  session ← login (rd_auth deps) body;
  send 200 (JObj (session_object session)).

Definition post_refresh (req : Request) : prog world Response :=
  refreshToken ← parse refreshRequestSchema (req_body req);
  session ← refresh (rd_auth deps) refreshToken;
  send 200 (JObj (session_object session)).

Definition post_logout (req : Request) : prog world Response :=
  refreshToken ← parse logoutRequestSchema (req_body req);
  _ ← logout (rd_auth deps) refreshToken;
  no_content.

(** *** Dispatch *)

Definition public_handler (r : route) : Request -> prog world Response :=
  match r with
  | GET_healthz => get_healthz
  | GET_readyz => get_readyz
  | POST_oidc_authorize => post_oidc_authorize
  | POST_oidc_callback => post_oidc_callback
  | POST_login => post_login
  | POST_refresh => post_refresh
  | _ => post_logout
  end.

Definition protected_handler (r : route) : Request -> prog world call :=
  match r with
  | POST_tenants => post_tenants
  | GET_tenants => get_tenants
  | GET_tenant => get_tenant
  | PATCH_tenant => patch_tenant
  | DELETE_tenant => delete_tenant
  | POST_tenant_admin => post_tenant_admin
  | POST_users => post_users
  | GET_users => get_users
  | GET_user => get_user
  | PATCH_user => patch_user
  | DELETE_user => delete_user
  | POST_api_keys => post_api_keys
  | GET_api_keys => get_api_keys
  | DELETE_api_key => delete_api_key
  | GET_retention => get_retention
  | PUT_retention => put_retention
  | POST_alert_rules => post_alert_rules
  | GET_alert_rules => get_alert_rules
  | GET_alert_rule => get_alert_rule
  | PATCH_alert_rule => patch_alert_rule
  | DELETE_alert_rule => delete_alert_rule
  | POST_saved_queries => post_saved_queries
  | GET_saved_queries => get_saved_queries
  | GET_saved_query => get_saved_query
  | PATCH_saved_query => patch_saved_query
  | DELETE_saved_query => delete_saved_query
  | POST_dashboards => post_dashboards
  | GET_dashboards => get_dashboards
  | GET_dashboard => get_dashboard
  | PATCH_dashboard => patch_dashboard
  | DELETE_dashboard => delete_dashboard
  | POST_invites => post_invites
  | GET_invites => get_invites
  | _ => post_invite_revoke
  end.

(** A protected route's handler: validate, then run the use case with the verified
    context. *)
Definition run_handler (r : route) (req : Request) : prog world Response :=
  parsed ← protected_handler r req;
  ctx ← requireTenantContext req;
  match parsed with
  | Call c reply => result ← perform_as (rd_services deps) ctx c; reply result
  end.

Definition handle (r : route) (req : Request) : prog world Response :=
  match route_operation r with
  | None => public_handler r req
  | Some operation =>
      req' ← makeAuthenticate (rd_tokenService deps) req;
      _ ← makeRequireOperation operation req';
      run_handler r req'
  end.

(** A request and its response; errors go through the error handler. *)
Definition serve (r : route) (req : Request) : prog world Response :=
  catch (fun err => mret (error_response err)) (handle r req).

End Server.

(** The composition root. *)
Definition pg_route_deps `{Entropy, Bcrypt, Crypto, Jose, Net} (cost : Z) (jwt : JoseTokenConfig) (ttl : Z)
    (email : EmailSender world) (invites : InviteConfig) (store : OAuthStateStore world) (google : GoogleConfig)
    (ping : prog world bool) : RouteDeps :=
  {| rd_auth := pg_auth_deps cost jwt ttl;
     rd_services := pg_ports cost email invites;
     rd_tokenService := JoseTokenService jwt;
     rd_oidcAuthenticator := pg_oidc_deps store google jwt ttl;
     rd_ping := ping |}.
