(* ===== verification/Requests.v ===== *)
(** * Requests

    What the HTTP layer guarantees of every request: who gets past the pre-handlers,
    that both permission checks ask for the same operation, that validation happens
    before any effect, that a request touches its own tenant's rows only, and that
    what the contracts accept the services and the database accept. *)

From stdpp Require Import base list option numbers strings gmap.
From S2P Require Import Prelude Errors Effects Tokens Text Rbac Email Entities Ports Uuid Schema World Sql.
From S2P Require Import Integrity Eval Demo PgUsers PgTokens PgInvites PgContent Calls Credentials Adapters.
From S2P Require Import Google AuthService Sessions Services UseCases Oidc OidcFlow Zod Contracts Wire Http.

(** ** Specification *)

(** The token a request presents. *)
Definition bearer_of (req : Request) : option jsstr :=
  header ← req_authorization req; if truthy header then BEARER header else None.

(** The caller a token stands for at a time. *)
Definition caller_of `{Jose} (jwt : JoseTokenConfig) (now : Z) (token : jsstr) : option TenantContext :=
  p ← jwt_verify (jc_secret jwt) ISSUER AUDIENCE (now / 1000) token;
  t ← jp_tenant_id p;
  s ← jp_sub p;
  r ← jp_role p ≫= isRole;
  Some (mkTenantContext t s r None).

Definition forbidden (ctx : TenantContext) (operation : Operation) : exn :=
  ForbiddenError (js "role '" ++ role_str (ctx_role ctx) ++ js "' may not perform '" ++ op_name operation ++ js "'").

(** Tenant registry routes: their rows have no owner. *)
Definition registry_route (r : route) : bool :=
  match r with
  | POST_tenants | GET_tenants | GET_tenant | PATCH_tenant | DELETE_tenant | POST_tenant_admin => true
  | _ => false
  end.

(** What a protected route promises: the input its contracts read, the use case it stands
    for, and the response to the use case's answer. *)
Inductive promise :=
| Promise {I A : Type} (input : Request -> option I) (does : I -> use_case A) (status : Z) (shows : A -> option json).

Section Promises.
Context `{Zod}.

Definition no_input (_ : Request) : option unit := Some tt.
Definition an_id (req : Request) : option jsstr := parsed uuidParamSchema (Some (JObj (req_params req))).
Definition a_key_id (req : Request) : option jsstr := parsed apiKeyIdParamSchema (Some (JObj (req_params req))).
Definition a_body {A} (s : schema A) (req : Request) : option A := parsed s (req_body req).
Definition id_and_body {A} (s : schema A) (req : Request) : option (jsstr * A) :=
  match an_id req, a_body s req with Some id, Some body => Some (id, body) | _, _ => None end.

(** 201, 200 with a body, 204 without. *)
Definition creates {I A} (input : Request -> option I) (does : I -> use_case A) (f : A -> json) : promise :=
  Promise input does 201 (fun a => Some (f a)).
Definition reads {I A} (input : Request -> option I) (does : I -> use_case A) (f : A -> json) : promise :=
  Promise input does 200 (fun a => Some (f a)).
Definition deletes {I} (input : Request -> option I) (does : I -> use_case unit) : promise :=
  Promise input does 204 (fun _ => None).

Definition key_command (body : CreateApiKeyRequest) : IssueApiKeyCommand :=
  mkIssueApiKeyCommand (kq_name body) (Some (kq_scopes body))
    (Some (e ← kq_expiresAt body; if truthy e then Some (js_Date e) else None)).

Definition promised (r : route) : option promise :=
  match r with
  | POST_tenants => Some (creates (a_body createTenantRequestSchema) TenantCreate tenant_json)
  | GET_tenants => Some (reads no_input (fun _ => TenantList) (listing (js "tenants") tenant_json))
  | GET_tenant => Some (reads an_id TenantGet tenant_json)
  | PATCH_tenant => Some (reads (id_and_body updateTenantRequestSchema) (uncurry TenantUpdate) tenant_json)
  | DELETE_tenant => Some (deletes an_id TenantRemove)
  | POST_tenant_admin => Some (creates (id_and_body provisionAdminSchema) (uncurry TenantProvisionAdmin) user_json)
  | POST_users => Some (creates (a_body createUserRequestSchema) UserCreate user_json)
  | GET_users => Some (reads no_input (fun _ => UserList) (listing (js "users") user_json))
  | GET_user => Some (reads an_id UserGet user_json)
  | PATCH_user => Some (reads (id_and_body updateUserRequestSchema) (uncurry UserUpdate) user_json)
  | DELETE_user => Some (deletes an_id UserRemove)
  | POST_api_keys => Some (creates (a_body createApiKeyRequestSchema) (fun b => ApiKeyIssue (key_command b)) issued_key_json)
  | GET_api_keys => Some (reads no_input (fun _ => ApiKeyList) (listing (js "apiKeys") (fun k => JObj (api_key_object k))))
  | DELETE_api_key => Some (deletes a_key_id ApiKeyRevoke)
  | GET_retention => Some (reads no_input (fun _ => RetentionGetPolicy) retention_json)
  | PUT_retention => Some (reads (a_body upsertRetentionRequestSchema) RetentionSet retention_json)
  | POST_alert_rules => Some (creates (a_body createAlertRuleRequestSchema) (fun b => RuleCreate (rule_command b)) rule_json)
  | GET_alert_rules => Some (reads no_input (fun _ => RuleList) (listing (js "alertRules") rule_json))
  | GET_alert_rule => Some (reads an_id RuleGet rule_json)
  | PATCH_alert_rule => Some (reads (id_and_body updateAlertRuleRequestSchema) (uncurry RuleUpdate) rule_json)
  | DELETE_alert_rule => Some (deletes an_id RuleRemove)
  | POST_saved_queries => Some (creates (a_body createSavedQueryRequestSchema) (fun b => QueryCreate (query_command b)) saved_query_json)
  | GET_saved_queries => Some (reads no_input (fun _ => QueryList) (listing (js "savedQueries") saved_query_json))
  | GET_saved_query => Some (reads an_id QueryGet saved_query_json)
  | PATCH_saved_query => Some (reads (id_and_body updateSavedQueryRequestSchema) (uncurry QueryUpdate) saved_query_json)
  | DELETE_saved_query => Some (deletes an_id QueryRemove)
  | POST_dashboards => Some (creates (a_body createDashboardRequestSchema) (fun b => DashCreate (dashboard_command b)) dashboard_json)
  | GET_dashboards => Some (reads no_input (fun _ => DashList) (listing (js "dashboards") dashboard_json))
  | GET_dashboard => Some (reads an_id DashGet dashboard_json)
  | PATCH_dashboard => Some (reads (id_and_body updateDashboardRequestSchema) (uncurry DashUpdate) dashboard_json)
  | DELETE_dashboard => Some (deletes an_id DashRemove)
  | POST_invites => Some (creates (a_body createInviteRequestSchema) InviteCreate issued_invite_json)
  | GET_invites => Some (reads no_input (fun _ => InviteList) (listing (js "invites") (fun i => JObj (invite_object i))))
  | POST_invite_revoke => Some (deletes an_id InviteRevoke)
  | _ => None
  end.

End Promises.

(** ** Lemmas *)

Section Handlers.
Context `{Zod}.

(** A handler does what its route promises. *)
Lemma handler_promise r req ctx :
  match promised r with
  | None => route_operation r = None
  | Some (Promise input does status shows) =>
      match input req with
      | None => exists issues, protected_handler r (set_tenantContext ctx req) = throw (ValidationError (js "request validation failed") (Some issues))
      | Some i => exists reply, protected_handler r (set_tenantContext ctx req) = mret (Call (does i) reply) /\
          forall a, reply a = mret (mkResponse status (shows a))
      end
  end.
Proof.
  destruct r; cbn [promised]; try done;
    unfold creates, reads, deletes, no_input, an_id, a_key_id, a_body, id_and_body, an_id, a_body; cbn [protected_handler];
    unfold post_tenants, get_tenants, get_tenant, patch_tenant, delete_tenant, post_tenant_admin, post_users, get_users,
      get_user, patch_user, delete_user, post_api_keys, get_api_keys, delete_api_key, get_retention, put_retention,
      post_alert_rules, get_alert_rules, get_alert_rule, patch_alert_rule, delete_alert_rule, post_saved_queries,
      get_saved_queries, get_saved_query, patch_saved_query, delete_saved_query, post_dashboards, get_dashboards,
      get_dashboard, patch_dashboard, delete_dashboard, post_invites, get_invites, post_invite_revoke, id_param, parse, parsed;
    cbn [req_params req_body set_tenantContext];
    repeat match goal with |- context [safeParse ?s ?v] => destruct (safeParse s v); cbn [mbind prog_bind] end;
    by eexists.
Qed.

(** A parser takes no step, and fails with the validation error only. *)
Definition decodes {A} (p : prog world A) : Prop :=
  (exists a, p = mret a) \/
  exists issues, p = throw (ValidationError (js "request validation failed") (Some issues)).

Lemma decodes_parse {A} (s : schema A) v : decodes (parse s v).
Proof. unfold parse. destruct (safeParse s v); [left|right]; by eexists. Qed.

Lemma decodes_ret {A} (a : A) : decodes (mret a).
Proof. left. by exists a. Qed.

Lemma decodes_bind {A B} (p : prog world A) (f : A -> prog world B) :
  decodes p -> (forall a, decodes (f a)) -> decodes (p ≫= f).
Proof. intros [[a ->]|[i ->]] Hf; [apply Hf|right; by exists i]. Qed.

Lemma protected_decodes r req : decodes (protected_handler r req).
Proof.
  destruct r; cbn [protected_handler];
    repeat first [apply decodes_ret | apply decodes_bind; [apply decodes_parse|intros ?]].
Qed.

(** Every call a handler makes satisfies [P]. *)
Definition calls (P : call -> Prop) (p : prog world call) : Prop := forall c, p = mret c -> P c.

Lemma calls_ret (P : call -> Prop) c : P c -> calls P (mret c).
Proof. by intros HP c' [= <-]. Qed.

Lemma calls_bind {A} (P : call -> Prop) (s : schema A) v (f : A -> prog world call) :
  (forall a, parsed s v = Some a -> calls P (f a)) -> calls P (parse s v ≫= f).
Proof.
  intros Hf c. unfold parse, parsed in *. destruct (safeParse s v) as [a|i]; [|done]. by apply Hf.
Qed.

Lemma handler_operation r op req :
  route_operation r = Some op ->
  calls (fun '(Call c _) => operation_of c = op) (protected_handler r req).
Proof.
  intros Hop. destruct r; cbn [route_operation] in Hop; try done; injection Hop as <-; cbn [protected_handler];
    repeat first [by apply calls_ret | apply calls_bind; intros ? _].
Qed.

Lemma handler_target r req ctx :
  registry_route r = false -> route_operation r <> None ->
  calls (fun '(Call c _) => target_of ctx c = Some (ctx_tenantId ctx)) (protected_handler r req).
Proof.
  intros Hr Hop. destruct r; try done; cbn [protected_handler];
    repeat first [by apply calls_ret | apply calls_bind; intros ? _].
Qed.

(** A reply is one response. *)
Lemma handler_reply r req :
  calls (fun '(Call c reply) => forall a, exists resp, reply a = mret resp) (protected_handler r req).
Proof.
  destruct r; cbn [protected_handler];
    repeat first [apply calls_ret; intros res; by eexists | apply calls_bind; intros ? _].
Qed.
End Handlers.

Lemma run_verifyAccess `{Jose} jwt token w :
  exists r, run (verifyAccess jwt token) w = (r, w) /\
    caller_of jwt (w_now w) token =
      match r with
      | Ok c => Some (mkTenantContext (sc_tenantId c) (sc_principalId c) (sc_role c) None)
      | Err _ => None
      end.
Proof.
  unfold verifyAccess, caller_of. rewrite run_bind, run_atomic.
  destruct (jwt_verify _ _ _ _ _) as [p|]; [|by eexists]. simpl.
  destruct (jp_tenant_id p), (jp_sub p), (jp_role p ≫= isRole) as [ro|]; simpl; by eexists.
Qed.

(** The pre-handlers. *)
Lemma run_gate `{Jose} {A} jwt op req (k : Request -> prog world A) w :
  run (req' ← makeAuthenticate (JoseTokenService jwt) req; _ ← makeRequireOperation op req'; k req') w =
  match bearer_of req with
  | None => (Err (UnauthorizedError (js "missing bearer token")), w)
  | Some token =>
      match caller_of jwt (w_now w) token with
      | None => (Err (UnauthorizedError (js "invalid or expired token")), w)
      | Some ctx =>
          if can (ctx_role ctx) op then run (k (set_tenantContext ctx req)) w
          else (Err (forbidden ctx op), w)
      end
  end.
Proof.
  rewrite run_bind. unfold makeAuthenticate. fold (bearer_of req).
  destruct (bearer_of req) as [token|]; [|done]. rewrite run_bind, run_catch.
  change (tokens_verifyAccess (JoseTokenService jwt)) with (verifyAccess jwt).
  destruct (run_verifyAccess jwt token w) as (r & -> & ->). destruct r as [c|e]; [|done].
  cbn [run mret prog_ret]. set (ctx := mkTenantContext _ _ _ _). rewrite run_bind.
  unfold makeRequireOperation, requireTenantContext. cbn [req_tenantContext set_tenantContext].
  rewrite run_bind. cbn [run mret prog_ret]. by destruct (can (ctx_role ctx) op).
Qed.

(** After the gate. *)
Lemma run_handler_spec `{Zod, Crypto, Unicode} deps r ctx req w :
  let req' := set_tenantContext ctx req in
  (exists issues, run (run_handler deps r req') w
      = (Err (ValidationError (js "request validation failed") (Some issues)), w)) \/
  exists A (c : use_case A) reply, protected_handler r req' = mret (Call c reply) /\
    run (run_handler deps r req') w =
      match run (perform_as (rd_services deps) ctx c) w with
      | (Ok a, w') => run (reply a) w'
      | (Err e, w') => (Err e, w')
      end.
Proof.
  intros req'. unfold run_handler. destruct (protected_decodes r req') as [[[A c reply] E]|[issues E]].
  - right. exists A, c, reply. split; [done|]. rewrite run_bind, E. cbn [run mret prog_ret].
    rewrite run_bind. unfold requireTenantContext. cbn [req_tenantContext req' set_tenantContext].
    cbn [run mret prog_ret]. by rewrite run_bind.
  - left. exists issues. by rewrite run_bind, E.
Qed.

(** ** What the contracts accept *)

Lemma create_tenant_inv `{ZodLaws} v cmd :
  parsed createTenantRequestSchema v = Some cmd ->
  tenantPublicIdSchema (ct_publicId cmd) = true /\ trim (ct_name cmd) = ct_name cmd /\
  1 <= length (ct_name cmd) <= 200.
Proof.
  intros Hv. unfold createTenantRequestSchema in Hv. repeat schema_inv. simplify_eq.
  match goal with E : parsed slugSchema _ = _ |- _ => apply test_inv in E end.
  match goal with E : parsed nameSchema _ = _ |- _ => apply name_inv in E end. done.
Qed.

Lemma retention_inv `{ZodLaws} v cmd :
  parsed upsertRetentionRequestSchema v = Some cmd ->
  (1 <= ur_hotDays cmd <= 90 /\ ur_hotDays cmd <= ur_coldDays cmd <= 36500)%Z.
Proof.
  intros Hv. unfold upsertRetentionRequestSchema in Hv. repeat schema_inv. simplify_eq/=.
  repeat match goal with E : parsed (int_of _) _ = _ |- _ => apply int_range in E end.
  match goal with E : (_ <=? _)%Z = true |- _ => apply Z.leb_le in E end. lia.
Qed.

Lemma invite_inv `{ZodLaws} v cmd :
  parsed createInviteRequestSchema v = Some cmd -> cv_role cmd ∈ INVITE_ROLES.
Proof.
  intros Hv. unfold createInviteRequestSchema in Hv. repeat schema_inv. simplify_eq/=.
  match goal with E : parsed (ZDefault _ _) _ = _ |- _ => apply default_inv in E as [->|E%enum_of_inv] end; [|done].
  apply list_elem_of_here.
Qed.

Lemma rule_inv `{ZodLaws, !FormatLaws} v req :
  parsed createAlertRuleRequestSchema v = Some req ->
  let cmd := rule_command req in
  valid_channels (ca_notifyChannels cmd) = true /\ (30 <= ca_windowSeconds cmd <= 86400)%Z /\
  exists sq, uuid_param_opt (default None (ca_savedQueryId cmd)) = Ok sq /\
    bool_decide (sq <> None) = negb (hasInlineQuery (ca_query cmd)).
Proof.
  intros Hv cmd. unfold createAlertRuleRequestSchema in Hv. repeat schema_inv. simplify_eq. subst cmd.
  rewrite contract_inline in *. cbn [rule_command ca_notifyChannels ca_windowSeconds ca_savedQueryId ca_query
    aq_name aq_savedQueryId aq_query aq_comparator aq_threshold aq_windowSeconds aq_severity aq_enabled
    aq_notifyChannels default] in *.
  split; [|split].
  - match goal with E : parsed (ZDefault [] _) _ = _ |- _ => apply default_inv in E as [->|[Hl _]%array_inv] end;
      [done|]. unfold valid_channels. apply forallb_forall. intros c Hc.
    rewrite List.Forall_forall in Hl. destruct (Hl c Hc) as [j Hj]. by apply channel_truthy in Hj.
  - match goal with E : parsed (ZDefault 300%Z _) _ = _ |- _ => apply default_inv in E as [->|E%int_range] end; lia.
  - match goal with E : parsed (ZOptional uuidSchema) _ = Some ?o |- _ => destruct o as [i|];
      [apply optional_inv, uuid_inv in E as [u Hu]|] end.
    + exists (Some u). cbn. unfold uuid_param. rewrite Hu. split; [done|].
      rewrite bool_decide_eq_true_2 in * by done. by destruct (hasInlineQuery _).
    + exists None. split; [done|]. rewrite bool_decide_eq_false_2 in * by naive_solver.
      by destruct (hasInlineQuery _).
Qed.

(** An accepted patch of an alert rule: its channels have targets, its parameters convert,
    and a query replaces the old one alone only when it has a filter. *)
Lemma rule_patch_inv `{ZodLaws, !FormatLaws} v patch :
  parsed updateAlertRuleRequestSchema v = Some patch ->
  (forall channels, ap_notifyChannels patch = Some channels -> valid_channels channels = true) /\
  int4_param_opt (ap_windowSeconds patch) = Ok (ap_windowSeconds patch) /\
  (forall n, ap_windowSeconds patch = Some n -> (30 <= n <= 86400)%Z) /\
  (forall q, ap_query patch = Some q -> ap_savedQueryId patch = None -> hasInlineQuery q = true) /\
  exists sq, PgAlertRuleRepository.saved_query_param (ap_savedQueryId patch) = Ok sq /\
    bool_decide (sq = Some None) = bool_decide (ap_savedQueryId patch = Some None) /\
    (sq = None <-> ap_savedQueryId patch = None).
Proof.
  intros Hv. unfold updateAlertRuleRequestSchema in Hv. repeat schema_inv. simplify_eq. cbn [ap_notifyChannels
    ap_windowSeconds ap_savedQueryId ap_query] in *.
  assert (Hwin : forall w n, parsed (ZOptional windowSecondsSchema) w = Some (Some n) -> (30 <= n <= 86400)%Z)
    by (intros w n E%optional_inv%int_range; lia).
  split_and!.
  - intros l ->. match goal with E : parsed (ZOptional notifyChannelsSchema) _ = _ |- _ =>
      apply optional_inv, array_inv in E as [Hl _] end.
    apply forallb_forall. intros c Hc. rewrite List.Forall_forall in Hl. destruct (Hl c Hc) as [j Hj].
    by apply channel_truthy in Hj.
  - match goal with E : parsed (ZOptional windowSecondsSchema) _ = Some ?o |- _ => destruct o as [n|]; [|done];
      apply Hwin in E end. cbn [int4_param_opt]. unfold int4_param.
    by rewrite (proj2 (Z.leb_le (-2147483648) n)), (proj2 (Z.leb_le n 2147483647)) by lia.
  - intros n ->. eauto.
  - intros q -> ->. rewrite contract_inline in *. by destruct (hasInlineQuery q).
  - match goal with E : parsed (ZOptional (ZNullable uuidSchema)) _ = Some ?o |- _ => destruct o as [[i|]|];
      [apply optional_inv, nullable_inv, uuid_inv in E as [u Hu]| |] end; [exists (Some (Some u))|by exists (Some None)|by exists None].
    cbn [PgAlertRuleRepository.saved_query_param uuid_param_opt]. unfold uuid_param. rewrite Hu. by split_and!.
Qed.

(** A row that satisfies the table's CHECK still does after an accepted patch, unless the
    patch takes the saved query away and leaves an empty query. *)
Lemma patched_check `{ZodLaws, !FormatLaws} v patch sq now r :
  parsed updateAlertRuleRequestSchema v = Some patch ->
  PgAlertRuleRepository.saved_query_param (ap_savedQueryId patch) = Ok sq -> t_check r = true ->
  t_check (PgAlertRuleRepository.patch_rule patch sq (ap_windowSeconds patch) now r)
  = negb (bool_decide (ap_savedQueryId patch = Some None)
          && bool_decide (default (arr_query r) (ap_query patch) = empty_query)).
Proof.
  intros (_ & _ & Hw & Hq & sq' & Hsq' & Hnull & Hnone)%rule_patch_inv Hsq Hr. rewrite Hsq in Hsq'.
  injection Hsq' as <-. rewrite <- Hnull. cbn [t_check alert_rules_table] in *.
  apply andb_true_iff in Hr as [Hrw Hrq].
  cbn [PgAlertRuleRepository.patch_rule arr_window_seconds arr_saved_query_id arr_query].
  replace (((30 <=? default (arr_window_seconds r) (ap_windowSeconds patch))
    && (default (arr_window_seconds r) (ap_windowSeconds patch) <=? 86400))%Z) with true; cycle 1.
  { destruct (ap_windowSeconds patch) as [n|]; [|done]. specialize (Hw n eq_refl). cbn [from_option id].
    symmetry. apply andb_true_iff. rewrite !Z.leb_le. lia. }
  destruct sq as [[u|]|]; cbn [from_option id andb].
  - by rewrite bool_decide_eq_true_2, (bool_decide_eq_false_2 (Some (Some u) = Some None)).
  - rewrite bool_decide_eq_false_2, (bool_decide_eq_true_2 (Some None = Some None)) by naive_solver.
    by rewrite bool_decide_not.
  - rewrite (bool_decide_eq_false_2 (None = Some None)) by done. cbn [andb negb].
    destruct (ap_query patch) as [q|]; [|done]. cbn [from_option id].
    rewrite (bool_decide_eq_true_2 (q <> empty_query)); [by rewrite orb_true_r|].
    apply hasInlineQuery_nonempty, Hq; tauto.
Qed.

Lemma channels_pass channels : valid_channels channels = true -> AlertRuleService.assertChannels channels = Ok tt.
Proof.
  intros Hch. pose proof (assertChannels_spec channels) as E. rewrite Hch in E.
  by destruct (AlertRuleService.assertChannels channels) as [[]|].
Qed.

Lemma id_param_read `{ZodLaws} req id : id_param req = mret id -> exists u, uuid_in id = Some u.
Proof.
  unfold id_param, parse. intros Hp.
  assert (Hs : parsed uuidParamSchema (Some (JObj (req_params req))) = Some id).
  { unfold parsed. destruct (safeParse _ _); [by injection Hp as ->|done]. }
  unfold uuidParamSchema in Hs. repeat schema_inv. subst. simplify_eq/=.
  match goal with E : parsed uuidSchema _ = _ |- _ => by apply uuid_inv in E end.
Qed.

(** ** Responses *)

Lemma parsed_fields_cons `{Zod} {A B} key (s : schema A) (rest : fields B) o a b :
  parsed s (get o key) = Some a -> parsed_fields rest o = Some b ->
  parsed_fields (FField key s rest) o = Some (a, b).
Proof. intros Ha Hb. cbn [parsed_fields]. by rewrite Ha, Hb. Qed.

Lemma parsed_text `{ZodLaws} s : parsed (ZString []) (Some (JStr s)) = Some s.
Proof. by rewrite parsed_string. Qed.

Lemma parsed_uuid `{ZodLaws} s : is_uuid s = true -> parsed uuidSchema (Some (JStr s)) = Some s.
Proof. intros Hs. unfold uuidSchema. rewrite parsed_string. cbn [string_checks]. by rewrite uuid_regex_canonical. Qed.

Lemma parsed_int `{ZodLaws} cs z :
  (- MAX_SAFE_INTEGER <= z <= MAX_SAFE_INTEGER)%Z -> forallb (fun c => number_ok c (mkNum z 0)) cs = true ->
  parsed (int_of cs) (Some (json_int z)) = Some z.
Proof.
  intros Hz Hc. unfold int_of. rewrite parsed_view, parsed_number. unfold json_int, number_checks.
  assert (Ei : int_value (mkNum z 0) = Some z) by (unfold int_value; cbn; f_equal; lia).
  cbn [forallb]. rewrite Hc, andb_true_r. unfold number_ok. rewrite Ei.
  rewrite (proj2 (Z.leb_le _ _)), (proj2 (Z.leb_le z _)) by lia.
  cbn [andb fmap option_fmap option_map]. by rewrite Ei.
Qed.

Lemma parsed_role `{ZodLaws} r : parsed roleSchema (Some (JStr (role_str r))) = Some r.
Proof. unfold roleSchema. rewrite parsed_enum. by destruct r; vm_compute. Qed.

(** A session, sent and read with the contract; other properties are ignored. *)
Lemma session_read `{ZodLaws} s o :
  plain_keys o -> Forall (fun kv => get o kv.1 = Some kv.2) (session_object s) ->
  is_uuid (st_tenantId s) = true -> is_uuid (st_userId s) = true -> st_tokenType s = js "Bearer" ->
  (0 < st_expiresIn s <= MAX_SAFE_INTEGER)%Z ->
  parsed tokenPairSchema (Some (JObj o)) = Some s.
Proof.
  intros Hp Hx Ht Hu Hk He. unfold tokenPairSchema. rewrite parsed_view. unfold session_object in Hx.
  repeat match goal with Hf : Forall _ (_ :: _) |- _ => apply Forall_cons in Hf as [? Hf] end.
  cbn [fst snd] in *.
  rewrite (object_complete strip _ o
    (st_accessToken s, (st_refreshToken s, (st_expiresIn s, (st_tokenType s, (st_role s, (st_tenantId s,
      (st_userId s, tt)))))))); [by destruct s|done|done|].
  repeat (apply parsed_fields_cons;
    [match goal with E : get o ?k = _ |- parsed _ (get o ?k) = _ => rewrite E end|]); try done.
  - apply parsed_text.
  - apply parsed_text.
  - apply parsed_int; [unfold MAX_SAFE_INTEGER in *; lia|]. cbn [forallb number_ok].
    destruct (int_value_le (mkNum (st_expiresIn s) 0) (st_expiresIn s) 0) as [-> _].
    + unfold int_value. cbn. f_equal. lia.
    + rewrite (proj2 (Z.leb_gt _ 0)) by lia. done.
  - unfold enum_of. rewrite parsed_enum, Hk. by vm_compute.
  - apply parsed_role.
  - by apply parsed_uuid.
  - by apply parsed_uuid.
Qed.

(** ** A request that reaches its use case *)

Lemma serve_call `{Zod, Crypto, Unicode, Entropy, Bcrypt, Jose, Net} cost jwt ttl email invites store google ping
    r op req token ctx w {A} (c : use_case A) reply :
  route_operation r = Some op -> bearer_of req = Some token -> caller_of jwt (w_now w) token = Some ctx ->
  can (ctx_role ctx) op = true -> protected_handler r (set_tenantContext ctx req) = mret (Call c reply) ->
  run (serve (pg_route_deps cost jwt ttl email invites store google ping) r req) w =
  match run (perform_as (pg_ports cost email invites) ctx c) w with
  | (Ok a, w') => run (reply a) w'
  | (Err e, w') => (Ok (error_response e), w')
  end.
Proof.
  intros Hop Hb Hcl Hcan Hc. unfold serve, handle. rewrite run_catch, Hop.
  change (rd_tokenService _) with (JoseTokenService jwt). rewrite run_gate, Hb, Hcl, Hcan.
  unfold run_handler. rewrite run_bind, Hc. cbn [run mret prog_ret].
  rewrite run_bind. unfold requireTenantContext. cbn [req_tenantContext set_tenantContext run mret prog_ret].
  rewrite run_bind. change (rd_services _) with (pg_ports cost email invites).
  destruct (run (perform_as _ ctx c) w) as [[a|e] w']; [|done].
  destruct (handler_reply r (set_tenantContext ctx req) (Call c reply) Hc a) as [resp ->]. done.
Qed.

Lemma parse_Some `{Zod} {A} (s : schema A) v a : parsed s v = Some a -> parse s v = mret a.
Proof. unfold parsed, parse. destruct (safeParse s v); [by intros [= ->]|done]. Qed.

(** The parameters of a path with an id. *)
Definition with_id (auth : option jsstr) (id : jsstr) : Request := mkRequest auth [(js "id", JStr id)] None None.

Lemma id_param_ok `{ZodLaws} auth id ctx :
  is_uuid id = true -> id_param (set_tenantContext ctx (with_id auth id)) = mret id.
Proof.
  intros Hid. apply parse_Some. unfold uuidParamSchema. rewrite parsed_view.
  rewrite (object_complete strip _ _ (id, tt)); [done|by repeat constructor|done|].
  apply parsed_fields_cons; [|done]. by apply parsed_uuid.
Qed.

(** * Theorems *)

(** C5. Every protected route, for every request.  Without a bearer token, or with
    one that does not verify now, the answer is 401; with a verified caller whose role
    lacks the route's operation it is 403; with input the route's contracts refuse it is
    400; and none of these has any effect.  Otherwise the route's use case runs on the
    input read, as the verified caller: its result is answered with the route's status
    and body, and its error is answered as the error handler maps it. *)
Theorem requests_gated `{Zod, Crypto, Unicode, Entropy, Bcrypt, Jose, Net}
    cost jwt ttl email invites store google ping r op req w (Hop : route_operation r = Some op) :
  let served := run (serve (pg_route_deps cost jwt ttl email invites store google ping) r req) w in
  let answer e := served = (Ok (error_response e), w) in
  match bearer_of req with
  | None => answer (UnauthorizedError (js "missing bearer token"))
  | Some token =>
      match caller_of jwt (w_now w) token with
      | None => answer (UnauthorizedError (js "invalid or expired token"))
      | Some ctx =>
          if can (ctx_role ctx) op then
            match promised r with
            | None => False
            | Some (Promise input does status shows) =>
                match input req with
                | None => exists issues, answer (ValidationError (js "request validation failed") (Some issues))
                | Some i =>
                    served = match run (perform_as (pg_ports cost email invites) ctx (does i)) w with
                             | (Ok a, w') => (Ok (mkResponse status (shows a)), w')
                             | (Err e, w') => (Ok (error_response e), w')
                             end
                end
            end
          else answer (forbidden ctx op)
      end
  end.
Proof.
  intros served answer. subst served answer. cbv beta.
  destruct (bearer_of req) as [token|] eqn:Eb; [destruct (caller_of jwt (w_now w) token) as [ctx|] eqn:Ec;
    [destruct (can (ctx_role ctx) op) eqn:Ecan|]|].
  2-4: unfold serve, handle; rewrite run_catch, Hop; change (rd_tokenService _) with (JoseTokenService jwt);
    rewrite run_gate, Eb, ?Ec, ?Ecan; done.
  pose proof (handler_promise r req ctx) as Hp. destruct (promised r) as [[I A input does status shows]|]; [|congruence].
  destruct (input req) as [i|].
  - destruct Hp as (reply & Hh & Hr).
    rewrite (serve_call cost jwt ttl email invites store google ping r op req token ctx w (does i) reply) by done.
    destruct (run (perform_as _ ctx (does i)) w) as [[a|e] w']; [by rewrite Hr|done].
  - destruct Hp as [issues Hh]. exists issues. unfold serve, handle. rewrite run_catch, Hop.
    change (rd_tokenService _) with (JoseTokenService jwt). rewrite run_gate, Eb, Ec, Ecan.
    unfold run_handler. by rewrite run_bind, Hh.
Qed.

(** The two permission checks ask for the same operation: the use case a route
    runs is one whose own check is the route's.  So for a caller the edge lets through
    the service's check passes too, and the other way round. *)
Theorem edge_matches_service `{Zod} r op req A (c : use_case A) reply
    (Hop : route_operation r = Some op) (Hc : protected_handler r req = mret (Call c reply)) :
  operation_of c = op.
Proof. exact (handler_operation r op req Hop (Call c reply) Hc). Qed.

(** C10. A request to a protected route outside the tenant registry, in a sound database
    and from a caller whose user belongs to no other tenant, changes rows of the tenant
    its verified token names and of no other tenant, whatever its path and body say, and
    leaves the database sound; a request without a verified caller changes nothing. *)
Theorem requests_isolated `{Zod, Crypto, Unicode, Entropy, Bcrypt, Jose, Net}
    cost jwt ttl email invites store google ping r req w
    (Hmail : forall m, leaves_db (email_send email m))
    (Hop : route_operation r <> None) (Hreg : registry_route r = false) (Hs : db_sound (w_db w)) :
  let w' := (run (serve (pg_route_deps cost jwt ttl email invites store google ping) r req) w).2 in
  match bearer_of req ≫= caller_of jwt (w_now w) with
  | Some ctx =>
      author_local (w_db w) (armed (ctx_tenantId ctx)) (uuid_in (ctx_principalId ctx)) ->
      others (armed (ctx_tenantId ctx)) (w_db w') = others (armed (ctx_tenantId ctx)) (w_db w) /\
      db_sound (w_db w')
  | None => w' = w
  end.
Proof.
  intros w'. subst w'. destruct (route_operation r) as [op|] eqn:Eo; [|done]. unfold serve, handle.
  rewrite run_catch, Eo. change (rd_tokenService _) with (JoseTokenService jwt). rewrite run_gate.
  destruct (bearer_of req) as [token|]; [|done]. cbn [mbind option_bind].
  destruct (caller_of jwt (w_now w) token) as [ctx|]; [|done]. intros Ha. destruct (can _ _); [|done].
  set (deps := pg_route_deps _ _ _ _ _ _ _ _).
  destruct (run_handler_spec deps r ctx req w) as [[issues ->]|(A & c & reply & Ec & ->)]; [done|].
  pose proof (handler_target r (set_tenantContext ctx req) ctx Hreg ltac:(by rewrite Eo) (Call c reply) Ec) as Ht.
  pose proof (use_case_isolated cost email invites Hmail c ctx (ctx_tenantId ctx) Ht w Hs Ha) as Hi.
  change (rd_services deps) with (pg_ports cost email invites).
  destruct (run (perform_as _ ctx c) w) as [[a|e] w1]; [|done].
  destruct (handler_reply r (set_tenantContext ctx req) (Call c reply) Ec a) as [resp ->]. done.
Qed.

(** C27. What these contracts accept, the database accepts.  An accepted path id reads as
    a [uuid].  An accepted new tenant, retention policy, invite and alert rule satisfies
    the CHECK constraints of its table, and the alert rule the service's own checks.
    An accepted patch of an alert rule has channels the service accepts and parameters
    the columns accept, and keeps a row within the table's CHECK with exactly one
    exception: it sets the saved query to null and the query left is empty. *)
Theorem accepted_requests_fit `{ZodLaws, !FormatLaws} v :
  (forall req id, id_param req = mret id -> is_Some (uuid_in id)) /\
  (forall cmd id now, parsed createTenantRequestSchema v = Some cmd ->
     tenants_check (mk_tenants id (ct_publicId cmd) (ct_name cmd) t_active now now) = true) /\
  (forall cmd t by_ now, parsed upsertRetentionRequestSchema v = Some cmd ->
     t_check (mk_retention_policies t (ur_hotDays cmd) (ur_coldDays cmd) by_ now now) = true) /\
  (forall cmd id t hash exp by_ now, parsed createInviteRequestSchema v = Some cmd -> length hash = 32 ->
     t_check (mk_invites id t (cv_email cmd) (cv_role cmd) hash (js "pending") exp by_ None now now) = true) /\
  (forall req id t by_ now, parsed createAlertRuleRequestSchema v = Some req ->
     let cmd := rule_command req in
     AlertRuleService.assertChannels (ca_notifyChannels cmd) = Ok tt /\
     AlertRuleService.assertQuerySource (default None (ca_savedQueryId cmd)) (ca_query cmd) = Ok tt /\
     exists sq, uuid_param_opt (default None (ca_savedQueryId cmd)) = Ok sq /\
       t_check (mk_alert_rules id t (ca_name cmd) sq (ca_query cmd) (ca_comparator cmd) (ca_threshold cmd)
                  (ca_windowSeconds cmd) (ca_severity cmd) (ca_enabled cmd) (ca_notifyChannels cmd) a_ok None None
                  by_ now now) = true) /\
  (forall patch, parsed updateAlertRuleRequestSchema v = Some patch ->
     (forall channels, ap_notifyChannels patch = Some channels -> AlertRuleService.assertChannels channels = Ok tt) /\
     exists sq win, PgAlertRuleRepository.saved_query_param (ap_savedQueryId patch) = Ok sq /\
       int4_param_opt (ap_windowSeconds patch) = Ok win /\
       forall r now, t_check r = true ->
         t_check (PgAlertRuleRepository.patch_rule patch sq win now r)
         = negb (bool_decide (ap_savedQueryId patch = Some None)
                 && bool_decide (default (arr_query r) (ap_query patch) = empty_query))).
Proof.
  split_and!.
  - intros req id Hid. destruct (id_param_read req id Hid) as [u Hu]. by exists u.
  - intros cmd id now (Hp & _)%create_tenant_inv. done.
  - intros cmd t by_ now Hv%retention_inv. cbn [t_check retention_policies_table rpr_hot_days rpr_cold_days].
    rewrite !andb_true_iff, !Z.leb_le. lia.
  - intros cmd id t hash exp by_ now Hv%invite_inv Hh. cbn. rewrite Hh.
    rewrite (bool_decide_eq_true_2 (cv_role cmd ∈ _)) by done. done.
  - intros req id t by_ now (Hch & Hw & sq & Hsq & Hsrc)%rule_inv cmd. fold cmd in Hch, Hw, Hsq, Hsrc. split_and!.
    + by apply channels_pass.
    + rewrite (assertQuerySource_spec cmd sq Hsq), Hsrc. by destruct (hasInlineQuery _).
    + exists sq. split; [done|].
      cbn [t_check alert_rules_table arr_window_seconds arr_saved_query_id arr_query]. rewrite !andb_true_iff, !Z.leb_le, orb_true_iff. split; [lia|].
      rewrite !bool_decide_eq_true. destruct (hasInlineQuery (ca_query cmd)) eqn:Ei.
      * right. by apply hasInlineQuery_nonempty.
      * left. by apply bool_decide_eq_true in Hsrc.
  - intros patch Hv. destruct (rule_patch_inv v patch Hv) as (Hch & Hwin & _ & _ & sq & Hsq & _).
    split; [intros l Hl; by apply channels_pass, Hch|]. exists sq, (ap_windowSeconds patch).
    split; [done|]. split; [done|]. intros r now. by apply (patched_check v).
Qed.

(** Logging in over HTTP.  A body the contract refuses is answered 400 without
    effect.  Credentials that do not authenticate are answered 401 with one and the
    same body, changing nothing but the random source and the memoised dummy hash.
    Credentials that do are answered 200 with a body the contract reads as a session
    of that user, whose access token gets its owner past the pre-handlers until it
    expires. *)
Theorem login_request `{ZodLaws, EntropyLaws, CryptoLaws, Unicode, Bcrypt, JoseLaws, Net}
    cost jwt ttl email invites store google ping req w
    (Hty : uuid_columns (w_db w)) (Hfr : fresh_token_id w) (Hm : memo_ok w)
    (Httl : (0 < jc_accessTtlSeconds jwt <= MAX_SAFE_INTEGER)%Z) :
  let served := run (serve (pg_route_deps cost jwt ttl email invites store google ping) POST_login req) w in
  match parsed loginRequestSchema (req_body req) with
  | None => exists issues,
      served = (Ok (error_response (ValidationError (js "request validation failed") (Some issues))), w)
  | Some cmd =>
      match authenticates (w_db w) cmd with
      | None => exists w', quiet w w' /\
          served = (Ok (error_response (UnauthorizedError invalid_credentials)), w')
      | Some (t, u, role) => exists resp s,
          served = (Ok resp, logged_in ttl (tr_id t) (ur_id u) w) /\ rs_status resp = 200%Z /\
          parsed tokenPairSchema (rs_body resp) = Some s /\
          st_tenantId s = tr_id t /\ st_userId s = ur_id u /\ st_role s = role /\
          forall now, (now / 1000 < w_now w / 1000 + jc_accessTtlSeconds jwt)%Z ->
            caller_of jwt now (st_accessToken s) = Some (mkTenantContext (tr_id t) (ur_id u) role None)
      end
  end.
Proof.
  intros served. subst served. unfold serve, handle. cbn [route_operation]. rewrite run_catch.
  cbn [public_handler]. unfold post_login. rewrite run_bind. unfold parse, parsed.
  destruct (safeParse loginRequestSchema (req_body req)) as [cmd|issues]; cbn [run mret prog_ret throw]; [|by exists issues].
  rewrite run_bind. change (rd_auth _) with (pg_auth_deps cost jwt ttl).
  destruct (authenticates (w_db w) cmd) as [[[t u] role]|] eqn:Ea.
  - rewrite (run_login_ok cost jwt ttl cmd w t u role) by done.
    apply authenticates_Some in Ea as (Ht & _ & _ & Hu & _). destruct Hty as (HT & HU & _).
    pose proof (Forall_In _ _ _ HT Ht) as Htu. destruct (Forall_In _ _ _ HU Hu) as [Huu _].
    set (s := session _ _ _ _ _ _ _). exists (mkResponse 200 (Some (JObj (session_object s)))), s.
    split_and!; try done.
    + fold (parsed tokenPairSchema (rs_body (mkResponse 200 (Some (JObj (session_object s)))))).
      apply session_read; try done; repeat constructor; done.
    + intros now Hnow. unfold caller_of. cbn [st_accessToken s session]. rewrite jwt_verify_sign by done.
      cbn [mbind option_bind jp_tenant_id jp_sub jp_role access_payload sc_tenantId sc_principalId sc_role]. by rewrite (proj2 (isRole_spec _ role) eq_refl).
  - destruct (run_login_bad cost jwt ttl cmd w Hty Hm Ea) as (w' & -> & Hq). by exists w'.
Qed.

(** Creating an alert rule over HTTP, by an administrator with a valid token and
    a body the contract accepts: the answer is 409 without a new row when the name is
    taken, and otherwise 201, after which a GET of the new rule answers 200 with the
    same body and a DELETE answers 204 and restores the database.  In particular no
    accepted rule fails the service's checks or the table's. *)
Theorem alert_rule_request `{ZodLaws, !FormatLaws, EntropyLaws, Bcrypt, Crypto, Unicode, Jose, Net}
    cost jwt ttl email invites store google ping auth body params token ctx rq t a w
    (Htok : bearer_of (mkRequest auth params body None) = Some token)
    (Hcl : caller_of jwt (w_now w) token = Some ctx) (Hrole : ctx_role ctx = tenant_admin)
    (Hbody : parsed createAlertRuleRequestSchema body = Some rq)
    (Ht : uuid_in (ctx_tenantId ctx) = Some t) (Ha : uuid_in (ctx_principalId ctx) = Some a)
    (Hte : tenant_exists (w_db w) t = true) (Hue : user_id_exists (w_db w) a = true)
    (Hfr : Forall (fun r => arr_id r <> pg_uuid (w_pgseq w)) (d_alert_rules (w_db w))) :
  let deps := pg_route_deps cost jwt ttl email invites store google ping in
  let posted := run (serve deps POST_alert_rules (mkRequest auth params body None)) w in
  if name_taken arr_tenant_id arr_name t (aq_name rq) (d_alert_rules (w_db w))
  then exists message, posted = (Ok (error_response (ConflictError message)), id_drawn w)
  else exists rule w1 w2, posted = (Ok (mkResponse 201 (Some (rule_json rule))), w1) /\
    ar_name rule = aq_name rq /\ ar_query rule = aq_query rq /\ ar_tenantId rule = t /\
    run (serve deps GET_alert_rule (with_id auth (ar_id rule))) w1 = (Ok (mkResponse 200 (Some (rule_json rule))), w1) /\
    run (serve deps DELETE_alert_rule (with_id auth (ar_id rule))) w1 = (Ok (mkResponse 204 None), w2) /\
    w_db w2 = w_db w.
Proof.
  intros deps posted. subst posted deps. destruct (rule_inv body rq Hbody) as (Hch & Hwin & sq & Hsq & Hsrc).
  assert (Hcan : can (ctx_role ctx) alert_create = true /\ can (ctx_role ctx) alert_read = true
                 /\ can (ctx_role ctx) alert_delete = true) by by rewrite Hrole.
  destruct Hcan as (Hc & Hr & Hd). set (cmd := rule_command rq) in *.
  assert (Hx : existsb (t_conflict (new_rule t a w cmd sq)) (d_alert_rules (w_db w))
               = name_taken arr_tenant_id arr_name t (ca_name cmd) (d_alert_rules (w_db w)))
    by exact (name_conflict arr_id arr_tenant_id arr_name (new_rule t a w cmd sq) _ Hfr).
  pose proof (run_rule_create cost email invites ctx t a w Ht Ha Hte Hue cmd sq Hc Hch Hsq Hsrc Hwin) as Hrun.
  rewrite Hx in Hrun.
  rewrite (serve_call cost jwt ttl email invites store google ping POST_alert_rules alert_create _ token ctx w
             (RuleCreate cmd) (created rule_json)); try done.
  2: { cbn [protected_handler]. unfold post_alert_rules. cbn [req_body set_tenantContext].
       by rewrite (parse_Some _ _ _ Hbody). }
  rewrite Hrun. change (ca_name cmd) with (aq_name rq). destruct (name_taken _ _ _ _ _); [by eexists|].
  assert (Hid : is_uuid (arr_id (new_rule t a w cmd sq)) = true) by apply pg_uuid_form.
  eexists _, _, _. split; [reflexivity|]. do 3 (split; [done|]). split; [|split].
  - rewrite (serve_call cost jwt ttl email invites store google ping GET_alert_rule alert_read _ token ctx _
      (RuleGet (arr_id (new_rule t a w cmd sq))) (found rule_json)); try done.
    + rewrite (run_rule_get cost email invites ctx t w Ht (new_rule t a w cmd sq)); done.
    + cbn [protected_handler]. unfold get_alert_rule. by rewrite id_param_ok.
  - rewrite (serve_call cost jwt ttl email invites store google ping DELETE_alert_rule alert_delete _ token ctx _
      (RuleRemove (arr_id (new_rule t a w cmd sq))) removed); try done.
    + rewrite (run_rule_remove cost email invites ctx t w Ht (new_rule t a w cmd sq)); done.
    + cbn [protected_handler]. unfold delete_alert_rule. by rewrite id_param_ok.
  - done.
Qed.

(** ** Witnesses *)

(** One token, of Alice the administrator. *)
Definition alice_payload : JwtPayload := access_payload demo_jwt (mkSessionClaims acme alice tenant_admin) 5000.

Definition one_token : Jose :=
  {| jwt_sign := fun _ _ => js "tok";
     jwt_verify := fun _ _ _ _ token => if bool_decide (token = js "tok") then Some alice_payload else None |}.

Definition demo_auth : option jsstr := Some (js "Bearer tok").

Definition demo_rule_body : json :=
  JObj [(js "name", JStr (js "errors")); (js "threshold", JNum (mkNum 5 0));
        (js "query", JObj [(js "level", JStr (js "error"))]);
        (js "notifyChannels", JArr [JObj [(js "type", JStr (js "email")); (js "to", JStr (js "ops@acme.io"))]])].

Definition demo_post : Request := mkRequest demo_auth [] (Some demo_rule_body) None.

Definition demo_deps_of (J : Jose) : RouteDeps :=
  @pg_route_deps demo_entropy demo_bcrypt demo_crypto J demo_net 10 demo_jwt 1000 NoOpEmailSender demo_config
    InMemoryOAuthStateStore.store demo_google (mret true).

Definition demo_serve (J : Jose) (r : route) (req : Request) : prog world Response :=
  @serve demo_formats demo_zod demo_crypto ascii_unicode demo_entropy (demo_deps_of J) r req.

(** No token is answered 401; the administrator's token and an id that is no UUID 400;
    with the id of a user of the tenant the deletion runs and is answered 204. *)
Lemma requests_gated_witness :
  run (demo_serve one_token GET_users (mkRequest None [] None None)) demo_world
    = (Ok (error_response (UnauthorizedError (js "missing bearer token"))), demo_world) /\
  (exists issues, run (demo_serve one_token DELETE_user (with_id demo_auth (js "alice"))) demo_world
    = (Ok (error_response (ValidationError (js "request validation failed") (Some issues))), demo_world)) /\
  exists w', run (demo_serve one_token DELETE_user (with_id demo_auth alice)) demo_world = (Ok (mkResponse 204 None), w') /\
    length (d_users (w_db w')) = 1.
Proof.
  pose proof (@requests_gated demo_formats demo_zod demo_crypto ascii_unicode demo_entropy demo_bcrypt one_token demo_net
    10 demo_jwt 1000 NoOpEmailSender demo_config InMemoryOAuthStateStore.store demo_google (mret true)) as Hg.
  split; [|split].
  - exact (Hg GET_users user_list (mkRequest None [] None None) demo_world eq_refl).
  - exact (Hg DELETE_user user_delete (with_id demo_auth (js "alice")) demo_world eq_refl).
  - eexists. split; [etransitivity; [exact (Hg DELETE_user user_delete (with_id demo_auth alice) demo_world eq_refl)|]|];
      vm_compute; reflexivity.
Defined.

Lemma edge_matches_service_witness : operation_of UserList = user_list.
Proof.
  exact (@edge_matches_service demo_formats demo_zod GET_users user_list demo_post _ UserList _ eq_refl eq_refl).
Defined.

Lemma requests_isolated_witness :
  let w' := (run (demo_serve one_token DELETE_user (with_id demo_auth alice)) demo_world).2 in
  (others acme (w_db w') = others acme demo_db /\ db_sound (w_db w')) /\ length (d_users (w_db w')) = 1.
Proof.
  split; [|vm_compute; reflexivity].
  refine (@requests_isolated demo_formats demo_zod demo_crypto ascii_unicode demo_entropy demo_bcrypt one_token
    demo_net 10 demo_jwt 1000 NoOpEmailSender demo_config InMemoryOAuthStateStore.store demo_google (mret true)
    DELETE_user (with_id demo_auth alice) demo_world _ _ eq_refl demo_sound _).
  - intros m w. reflexivity.
  - discriminate.
  - repeat constructor; vm_compute; congruence.
Defined.

Lemma accepted_requests_fit_witness :
  t_check (mk_retention_policies acme 7 30 None 0 0) = true.
Proof.
  destruct (@accepted_requests_fit demo_formats demo_zod demo_zod_laws demo_format_laws
    (Some (JObj [(js "hotDays", JNum (mkNum 7 0)); (js "coldDays", JNum (mkNum 15 1))])))
    as (_ & _ & Hr & _).
  apply (Hr (mkUpsertRetentionCommand 7 30) acme None 0%Z). vm_compute. reflexivity.
Defined.

Definition demo_login_body : json :=
  JObj [(js "tenantSlug", JStr (js "acme")); (js "email", JStr (js "Alice@Acme.IO"));
        (js "password", JStr (js "secret"))].

Lemma login_request_witness : exists resp s w',
  run (demo_serve demo_jose POST_login (mkRequest None [] (Some demo_login_body) None)) demo_world = (Ok resp, w') /\
  @parsed demo_formats demo_zod _ tokenPairSchema (rs_body resp) = Some s /\ st_userId s = alice.
Proof.
  pose proof (@login_request demo_formats demo_zod demo_zod_laws demo_entropy demo_entropy_laws demo_crypto
    demo_crypto_laws ascii_unicode demo_bcrypt demo_jose demo_jose_laws demo_net 10 demo_jwt 1000 NoOpEmailSender
    demo_config InMemoryOAuthStateStore.store demo_google (mret true)
    (mkRequest None [] (Some demo_login_body) None) demo_world demo_uuid_columns demo_fresh demo_memo_ok) as Hl.
  cbv zeta in Hl.
  assert (E : exists cmd, @parsed demo_formats demo_zod _ loginRequestSchema (Some demo_login_body) = Some cmd /\
    exists t u, @authenticates ascii_unicode demo_bcrypt (w_db demo_world) cmd = Some (t, u, tenant_admin) /\
                ur_id u = alice).
  { eexists. split; [vm_compute; reflexivity|]. eexists _, _. split; [vm_compute; reflexivity|reflexivity]. }
  destruct E as (cmd & Ec & t & u & Ea & Eu). cbn [req_body] in Hl. rewrite Ec, Ea in Hl.
  destruct Hl as (resp & s & Hr & _ & Hp & _ & Hu & _); [vm_compute; split; [reflexivity|discriminate]|].
  eexists resp, s, _. split; [exact Hr|]. split; [exact Hp|]. congruence.
Defined.

Lemma alert_rule_request_witness : exists rule w1,
  run (demo_serve one_token POST_alert_rules demo_post) demo_world
    = (Ok (mkResponse 201 (Some (rule_json rule))), w1) /\
  run (demo_serve one_token GET_alert_rule (with_id demo_auth (ar_id rule))) w1
    = (Ok (mkResponse 200 (Some (rule_json rule))), w1).
Proof.
  assert (E : exists rq, @parsed demo_formats demo_zod _ createAlertRuleRequestSchema (Some demo_rule_body) = Some rq)
    by (eexists; vm_compute; reflexivity).
  destruct E as [rq E].
  pose proof (@alert_rule_request demo_formats demo_zod demo_zod_laws demo_format_laws demo_entropy demo_entropy_laws
    demo_bcrypt demo_crypto ascii_unicode one_token demo_net 10 demo_jwt 1000 NoOpEmailSender demo_config
    InMemoryOAuthStateStore.store demo_google (mret true) demo_auth (Some demo_rule_body) [] (js "tok")
    demo_ctx rq acme alice demo_world eq_refl) as Hq. cbv zeta in Hq.
  change (name_taken arr_tenant_id arr_name acme (aq_name rq) (d_alert_rules (w_db demo_world))) with false in Hq.
  destruct Hq as (rule & w1 & w2 & Hp & _ & _ & _ & Hg & _);
    [vm_compute; reflexivity|reflexivity|exact E|reflexivity|reflexivity|reflexivity|reflexivity|constructor|].
  exists rule, w1. split; [exact Hp|exact Hg].
Defined.
