(* ===== verification/Mail.v ===== *)
(** * Mail

    [adapters/email/]: the SMTP sender (delivery is a parameter) and the invitation
    template, with the proof that user text cannot break out of it. *)

From stdpp Require Import base list option numbers strings gmap.
From S2P Require Import Prelude Errors Effects Tokens Rbac Entities Ports World Adapters.

(** ** SMTP *)

Record SmtpConfig := mkSmtpConfig {
  sm_host : jsstr;
  sm_port : Z;
  sm_user : option jsstr;
  sm_pass : option jsstr;
  sm_from : jsstr;
  sm_secure : option bool
}.

Record TransportOptions := mkTransportOptions {
  to_host : jsstr;
  to_port : Z;
  to_secure : bool;
  to_auth : option (jsstr * jsstr)
}.

(** Whether a transport delivers a message from an address. *)
Class Smtp := { smtp_delivers : TransportOptions -> jsstr -> EmailMessage -> bool }.

Module SmtpEmailSender.
Section Sender.
Context `{Smtp} (cfg : SmtpConfig).

Definition transport : TransportOptions :=
  mkTransportOptions (sm_host cfg) (sm_port cfg) (default (sm_port cfg =? 465)%Z (sm_secure cfg))
    ((fun user => (user, default [] (sm_pass cfg))) <$> sm_user cfg).

Definition send (message : EmailMessage) : prog world unit :=
  atomic (fun w => if smtp_delivers transport (sm_from cfg) message
                   then (Ok tt, set_w_mail (w_mail w ++ [message]) w)
                   else (Err EInfra, w)).

Definition sender : EmailSender world := {| email_send := send |}.
End Sender.
End SmtpEmailSender.

(** ** The invitation template *)

(** [/\p{Cc}/u.test(value)]: the C0 and C1 controls and DEL. *)
Definition C0_PATTERN (value : jsstr) : bool :=
  existsb (fun c => (c <=? 0x1f)%N || ((0x7f <=? c) && (c <=? 0x9f))%N) value.

Definition assertNoControlChars (value field : jsstr) : result exn unit :=
  if C0_PATTERN value
  then Err (ValidationError (field ++ js " contains disallowed control character (header injection rejected)") None)
  else Ok tt.

(** [raw.replace(/c/g, by)] for a one-character pattern. *)
Definition replace_all (c : N) (by_ raw : jsstr) : jsstr :=
  concat (map (fun x => if (x =? c)%N then by_ else [x]) raw).

Definition escapeHtml (raw : jsstr) : jsstr :=
  replace_all 39 (js "&#39;")
    (replace_all 34 (js "&quot;")
       (replace_all 62 (js "&gt;") (replace_all 60 (js "&lt;") (replace_all 38 (js "&amp;") raw)))).

Record InviteEmailFields := mkInviteEmailFields {
  ie_recipientEmail : jsstr;
  ie_inviteUrl : jsstr;
  ie_inviteId : jsstr;
  ie_tenantName : jsstr
}.

(** A double quote and a line break. *)
Definition dq : jsstr := [34%N].
Definition nl : jsstr := [10%N].

(** The plain-text body. *)
Definition invite_text (tenantName inviteUrl : jsstr) : jsstr :=
  join
    [js "You've been invited to join " ++ tenantName ++ js " on Logalot."; [];
     js "Accept your invitation here:"; inviteUrl; [];
     js "This link will expire in 7 days. If you did not expect this invitation, you can safely ignore this email."]
    nl.

(** The HTML body, of the escaped address and tenant name. *)
Definition invite_html (safeEmail safeTenantName inviteUrl : jsstr) : jsstr :=
  concat [js "<!DOCTYPE html>"; nl; js "<html lang="; dq; js "en"; dq; js ">"; nl; js "<head><meta charset="; dq;
    js "utf-8"; dq; js "><title>Invitation to "; safeTenantName; js "</title></head>"; nl; js "<body style="; dq;
    js "font-family:sans-serif;max-width:600px;margin:0 auto;padding:24px"; dq; js ">"; nl; js "  <h1 style="; dq;
    js "font-size:1.25rem"; dq; js ">You've been invited to join "; safeTenantName; js "</h1>"; nl; js "  <p>Hi ";
    safeEmail; js ",</p>"; nl; js "  <p>An admin has invited you to join <strong>"; safeTenantName;
    js "</strong> on Logalot.</p>"; nl; js "  <p style="; dq; js "margin:24px 0"; dq; js ">"; nl;
    js "    <a href="; dq; inviteUrl; dq; nl; js "       style="; dq;
    js "background:#4f46e5;color:#fff;padding:12px 24px;border-radius:6px;text-decoration:none;display:inline-block";
    dq; js ">"; nl; js "      Accept invitation"; nl; js "    </a>"; nl; js "  </p>"; nl; js "  <p style="; dq;
    js "color:#6b7280;font-size:0.875rem"; dq; js ">"; nl;
    js "    This link will expire in 7 days. If you did not expect this invitation,"; nl;
    js "    you can safely ignore this email."; nl; js "  </p>"; nl; js "</body>"; nl; js "</html>"].

(** The message, of checked fields. *)
Definition invite_message (fields : InviteEmailFields) : EmailMessage :=
  let safeEmail := escapeHtml (ie_recipientEmail fields) in
  let safeTenantName := escapeHtml (ie_tenantName fields) in
  {| em_to := ie_recipientEmail fields;
     em_subject := js "You've been invited to " ++ ie_tenantName fields;
     em_text := invite_text (ie_tenantName fields) (ie_inviteUrl fields);
     em_html := Some (invite_html safeEmail safeTenantName (ie_inviteUrl fields)) |}.

Definition buildInviteEmail (fields : InviteEmailFields) : result exn EmailMessage :=
  _ ← assertNoControlChars (ie_recipientEmail fields) (js "recipientEmail");
  _ ← assertNoControlChars (ie_tenantName fields) (js "tenantName");
  Ok (invite_message fields).

(** * Lemmas *)

(** The characters that delimit tags and attribute values. *)
Definition is_markup (c : N) : bool := bool_decide (c ∈ [60; 62; 34; 39]%N).

(** What an HTML parser sees of the structure. *)
Definition skeleton (s : jsstr) : jsstr := List.filter is_markup s.

(** One-pass escaping. *)
Definition escape_char (c : N) : jsstr :=
  if (c =? 38)%N then js "&amp;" else if (c =? 60)%N then js "&lt;" else if (c =? 62)%N then js "&gt;"
  else if (c =? 34)%N then js "&quot;" else if (c =? 39)%N then js "&#39;" else [c].

Lemma replace_all_app c r a b : replace_all c r (a ++ b) = replace_all c r a ++ replace_all c r b.
Proof. unfold replace_all. by rewrite map_app, concat_app. Qed.

Lemma replace_all_other c r x : (x =? c)%N = false -> replace_all c r [x] = [x].
Proof. intros Hx. unfold replace_all. cbn [map concat app]. by rewrite Hx. Qed.

(** Five passes are one pass. *)
Lemma escapeHtml_map s : escapeHtml s = concat (map escape_char s).
Proof.
  induction s as [|c s IH]; [done|]. change (c :: s) with ([c] ++ s). unfold escapeHtml in *.
  rewrite !replace_all_app, IH, map_app, concat_app. f_equal. cbn [map concat]. rewrite app_nil_r.
  unfold escape_char.
  destruct (N.eqb_spec c 38) as [->|H1]; [done|]. destruct (N.eqb_spec c 60) as [->|H2]; [done|].
  destruct (N.eqb_spec c 62) as [->|H3]; [done|]. destruct (N.eqb_spec c 34) as [->|H4]; [done|].
  destruct (N.eqb_spec c 39) as [->|H5]; [done|]. apply N.eqb_neq in H1, H2, H3, H4, H5.
  by rewrite !replace_all_other.
Qed.

Lemma skeleton_app a b : skeleton (a ++ b) = skeleton a ++ skeleton b.
Proof. apply List.filter_app. Qed.

Lemma skeleton_concat l : skeleton (concat l) = concat (map skeleton l).
Proof. induction l as [|x l IH]; [done|]. cbn [concat map]. by rewrite skeleton_app, IH. Qed.

Lemma skeleton_escaped s : skeleton (escapeHtml s) = [].
Proof.
  rewrite escapeHtml_map. induction s as [|c s IH]; [done|]. cbn [map concat]. rewrite skeleton_app, IH, app_nil_r.
  unfold escape_char. repeat (case_match; [by vm_compute|]). unfold skeleton. cbn [List.filter].
  assert (is_markup c = false) as ->; [|done]. apply bool_decide_eq_false.
  rewrite !elem_of_cons, elem_of_nil. rewrite !N.eqb_neq in *. tauto.
Qed.

(** Reading the five entities back. *)
Fixpoint unescape (fuel : nat) (s : jsstr) : jsstr :=
  match fuel with
  | O => []
  | S fuel' =>
      match s with
      | [] => []
      | c :: r =>
          if startsWith s (js "&amp;") then 38%N :: unescape fuel' (drop 5 s)
          else if startsWith s (js "&lt;") then 60%N :: unescape fuel' (drop 4 s)
          else if startsWith s (js "&gt;") then 62%N :: unescape fuel' (drop 4 s)
          else if startsWith s (js "&quot;") then 34%N :: unescape fuel' (drop 6 s)
          else if startsWith s (js "&#39;") then 39%N :: unescape fuel' (drop 5 s)
          else c :: unescape fuel' r
      end
  end.

Lemma not_entity c x p : c <> 38%N -> startsWith (c :: x) (38%N :: p) = false.
Proof. intros Hc. cbn [startsWith]. by rewrite bool_decide_eq_false_2. Qed.

Lemma unescape_escaped s fuel : length s <= fuel -> unescape fuel (concat (map escape_char s)) = s.
Proof.
  revert fuel. induction s as [|c s IH]; intros [|fuel] Hf; cbn [length] in Hf; try lia; try done.
  cbn [map concat]. unfold escape_char at 1.
  destruct (N.eqb_spec c 38) as [->|H1]; [cbn; rewrite IH by lia; done|].
  destruct (N.eqb_spec c 60) as [->|H2]; [cbn; rewrite IH by lia; done|].
  destruct (N.eqb_spec c 62) as [->|H3]; [cbn; rewrite IH by lia; done|].
  destruct (N.eqb_spec c 34) as [->|H4]; [cbn; rewrite IH by lia; done|].
  destruct (N.eqb_spec c 39) as [->|H5]; [cbn; rewrite IH by lia; done|].
  cbn [app unescape]. change (js "&amp;") with (38%N :: js "amp;"). change (js "&lt;") with (38%N :: js "lt;").
  change (js "&gt;") with (38%N :: js "gt;"). change (js "&quot;") with (38%N :: js "quot;").
  change (js "&#39;") with (38%N :: js "#39;"). rewrite !not_entity by done. by rewrite IH by lia.
Qed.

Lemma buildInviteEmail_spec f :
  if C0_PATTERN (ie_recipientEmail f) || C0_PATTERN (ie_tenantName f)
  then exists e, buildInviteEmail f = Err e else buildInviteEmail f = Ok (invite_message f).
Proof.
  unfold buildInviteEmail, assertNoControlChars.
  destruct (C0_PATTERN (ie_recipientEmail f)); [by eexists|].
  destruct (C0_PATTERN (ie_tenantName f)); [by eexists|done].
Qed.

Lemma Ok_inj {E A} (a b : A) : Ok (E := E) a = Ok b -> a = b.
Proof. by intros [= ->]. Qed.

Lemma C0_PATTERN_app a b : C0_PATTERN (a ++ b) = C0_PATTERN a || C0_PATTERN b.
Proof. apply existsb_app. Qed.

Lemma skeleton_html e t e' t' url :
  skeleton e = [] -> skeleton t = [] -> skeleton e' = [] -> skeleton t' = [] ->
  skeleton (invite_html e t url) = skeleton (invite_html e' t' url).
Proof.
  intros He Ht He' Ht'. unfold invite_html. rewrite !skeleton_concat. cbn [map]. by rewrite He, Ht, He', Ht'.
Qed.

(** * Theorems *)

(** The invitation message cannot be broken out of.  It is refused exactly when
    the address or the tenant name has a control character, so neither header has one;
    the tags and attributes of the HTML body are the same whatever the address and the
    tenant name are; and the escaped text reads back as the original. *)
Theorem invite_mail_safe f :
  (is_ok (buildInviteEmail f) = negb (C0_PATTERN (ie_recipientEmail f) || C0_PATTERN (ie_tenantName f))) /\
  forall m, buildInviteEmail f = Ok m ->
    C0_PATTERN (em_to m) = false /\ C0_PATTERN (em_subject m) = false /\ em_to m = ie_recipientEmail f /\
    (forall f' m', buildInviteEmail f' = Ok m' -> ie_inviteUrl f' = ie_inviteUrl f ->
       skeleton <$> em_html m' = skeleton <$> em_html m) /\
    unescape (length (ie_tenantName f)) (escapeHtml (ie_tenantName f)) = ie_tenantName f.
Proof.
  pose proof (buildInviteEmail_spec f) as Hf.
  destruct (C0_PATTERN (ie_recipientEmail f)) eqn:E1; [destruct Hf as [e ->]; done|].
  destruct (C0_PATTERN (ie_tenantName f)) eqn:E2; [destruct Hf as [e ->]; done|]. cbn [orb] in Hf. rewrite Hf.
  split; [done|]. intros m Hm%Ok_inj. rewrite <-Hm. split_and!; [done| |done| |].
  - change (em_subject (invite_message f)) with (js "You've been invited to " ++ ie_tenantName f).
    rewrite C0_PATTERN_app, E2. by vm_compute.
  - intros f' m' Hm' Hu. pose proof (buildInviteEmail_spec f') as Hf'. rewrite Hm' in Hf'.
    destruct (_ || _); [by destruct Hf'|]. apply Ok_inj in Hf' as ->. unfold invite_message. cbn [em_html].
    rewrite Hu. refine (f_equal Some _). apply skeleton_html; apply skeleton_escaped.
  - rewrite escapeHtml_map. by apply unescape_escaped.
Qed.
