(* ===== verification/Config.v ===== *)
(** * Configuration and wiring

    [config/env.ts] and the choices [buildContainer] ([container.ts]) and [main]
    ([index.ts]) make from it: the environment is read through one schema, and the
    services, the mail sender and the OAuth state store are built from the result. *)

From stdpp Require Import base list option numbers strings gmap.
From S2P Require Import Prelude Errors Effects Tokens Rbac Entities Ports Schema World Adapters Google.
From S2P Require Import Services UseCases Oidc Zod Contracts Http Mail Demo AuthService Credentials.
Open Scope zod_scope.

(** ** The environment *)

Inductive NodeEnv := env_development | env_test | env_production.
Inductive EmailProvider := provider_none | provider_smtp | provider_ses.

#[export] Instance EmailProvider_eq_dec : EqDecision EmailProvider.
Proof. solve_decision. Defined.

Record Config := mkConfig {
  cf_nodeEnv : NodeEnv;
  cf_host : jsstr;
  cf_port : Z;
  cf_databaseUrl : jsstr;
  cf_jwtSecret : jsstr;
  cf_accessTokenTtlSeconds : Z;
  cf_refreshTokenTtlSeconds : Z;
  cf_bcryptCost : Z;
  cf_logLevel : jsstr;
  cf_redisUrl : option jsstr;
  cf_oauthStateTtlSeconds : Z;
  cf_googleClientId : option jsstr;
  cf_googleClientSecret : option jsstr;
  cf_googleRedirectUri : option jsstr;
  cf_googleOidcClientId : option jsstr;
  cf_googleOidcRedirectUri : option jsstr;
  cf_googleOidcAuthEndpoint : jsstr;
  cf_oidcRateLimitMax : Z;
  cf_oidcRateLimitWindowMs : Z;
  cf_inviteTtlSeconds : Z;
  cf_inviteMaxOutstandingPerTenant : Z;
  cf_inviteAcceptBaseUrl : jsstr;
  cf_emailProvider : EmailProvider;
  cf_smtpHost : option jsstr;
  cf_smtpPort : option Z;
  cf_smtpUser : option jsstr;
  cf_smtpPass : option jsstr;
  cf_smtpFrom : option jsstr
}.

(** [z.coerce.number().int()...], as an integer. *)
Definition coerce_int (cs : list number_check) : schema Z :=
  ZView (fun n => default 0%Z (int_value n)) (ZCoerceNumber (NInt :: cs)).

Definition positive_default (d : Z) : schema Z := ZDefault d (coerce_int [NPositive]).

(** The object, read into the configuration's fields. *)
Definition env_fields :=
  ("NODE_ENV" ~> ZDefault env_development
     (ZEnum [(js "development", env_development); (js "test", env_test); (js "production", env_production)]) ;;
   "CONTROL_PLANE_HOST" ~> ZDefault (js "0.0.0.0") (ZString []) ;;
   "CONTROL_PLANE_PORT" ~> positive_default 8082 ;;
   "LOGALOT_APP_DATABASE_URL" ~> ZString [CMin 1] ;;
   "JWT_SECRET" ~> ZString [CMin 16] ;;
   "ACCESS_TOKEN_TTL_SECONDS" ~> positive_default 900 ;;
   "REFRESH_TOKEN_TTL_SECONDS" ~> positive_default (60 * 60 * 24 * 7) ;;
   "BCRYPT_COST" ~> ZDefault 10%Z (coerce_int [NMin 4; NMax 15]) ;;
   "LOG_LEVEL" ~> ZDefault (js "info")
     (enum_of [js "fatal"; js "error"; js "warn"; js "info"; js "debug"; js "trace"; js "silent"]) ;;
   "REDIS_URL" ~> ZOptional (ZString []) ;;
   "OAUTH_STATE_TTL_SECONDS" ~> positive_default 600 ;;
   "GOOGLE_CLIENT_ID" ~> ZOptional (ZString []) ;;
   "GOOGLE_CLIENT_SECRET" ~> ZOptional (ZString []) ;;
   "GOOGLE_REDIRECT_URI" ~> ZOptional (ZString []) ;;
   "GOOGLE_OIDC_CLIENT_ID" ~> ZOptional (ZString []) ;;
   "GOOGLE_OIDC_REDIRECT_URI" ~> ZOptional (ZString [CUrl]) ;;
   "GOOGLE_OIDC_AUTH_ENDPOINT" ~> ZDefault (js "https://accounts.google.com/o/oauth2/v2/auth") (ZString [CUrl]) ;;
   "OIDC_RATE_LIMIT_MAX" ~> positive_default 20 ;;
   "OIDC_RATE_LIMIT_WINDOW_MS" ~> positive_default 60000 ;;
   "INVITE_TTL_SECONDS" ~> positive_default (60 * 60 * 24 * 7) ;;
   "INVITE_MAX_OUTSTANDING_PER_TENANT" ~> positive_default 50 ;;
   "INVITE_ACCEPT_BASE_URL" ~> ZDefault (js "http://localhost:5173") (ZString [CUrl]) ;;
   "EMAIL_PROVIDER" ~> ZDefault provider_none
     (ZEnum [(js "none", provider_none); (js "smtp", provider_smtp); (js "ses", provider_ses)]) ;;
   "SMTP_HOST" ~> ZOptional (ZString []) ;;
   "SMTP_PORT" ~> ZOptional (coerce_int [NPositive]) ;;
   "SMTP_USER" ~> ZOptional (ZString []) ;;
   "SMTP_PASS" ~> ZOptional (ZString []) ;;
   "SMTP_FROM" ~> ZOptional (ZString []) ;; FEnd)%zod.

(** The cross-field check: [undefined] and the empty text are missing. *)
Definition smtp_complete (c : Config) : bool :=
  match cf_emailProvider c with
  | provider_smtp =>
      match cf_smtpHost c, cf_smtpPort c, cf_smtpFrom c with
      | Some h, Some _, Some f => truthy h && truthy f
      | _, _, _ => false
      end
  | _ => true
  end.

Definition EnvSchema : schema Config :=
  ZRefine smtp_complete
    (ZView (fun '(ne, (ho, (po, (db, (jw, (at_, (rt, (bc, (ll, (re, (st, (ci, (cs, (ru, (oc, (or_, (oe, (rm, (rw,
              (it, (im, (ib, (ep, (sh, (sp, (su, (sw, (sf, _)))))))))))))))))))))))))))) =>
       mkConfig ne ho po db jw at_ rt bc ll re st ci cs ru oc or_ oe rm rw it im ib ep sh sp su sw sf)
      (ZObject strip env_fields)).

(** [process.env]. *)
Definition process_env (env : list (jsstr * jsstr)) : json := JObj ((fun kv => (kv.1, JStr kv.2)) <$> env).

Definition loadConfig `{Zod} (env : list (jsstr * jsstr)) : result (list jsstr) Config :=
  Zod.safeParse EnvSchema (Some (process_env env)).

(** ** The composition root *)

Section Container.
Context `{Smtp, StateCodec}.

Definition emailSender (config : Config) : EmailSender world :=
  match cf_emailProvider config, given (cf_smtpHost config), cf_smtpPort config, given (cf_smtpFrom config) with
  | provider_smtp, Some host, Some port, Some from =>
      if (port =? 0)%Z then NoOpEmailSender
      else SmtpEmailSender.sender (mkSmtpConfig host port (cf_smtpUser config) (cf_smtpPass config) from None)
  | _, _, _, _ => NoOpEmailSender
  end.

Definition oauthStateStore (config : Config) : OAuthStateStore world :=
  match given (cf_redisUrl config) with
  | Some _ => RedisOAuthStateStore.store
  | None => InMemoryOAuthStateStore.store
  end.

Definition inviteConfig (config : Config) : InviteConfig :=
  mkInviteConfig (cf_inviteTtlSeconds config) (cf_inviteMaxOutstandingPerTenant config)
    (cf_inviteAcceptBaseUrl config).

Definition googleConfig (config : Config) : GoogleConfig :=
  mkGoogleConfig (cf_googleClientId config) (cf_googleClientSecret config) (cf_googleRedirectUri config)
    (cf_googleOidcClientId config) (cf_googleOidcRedirectUri config) (cf_googleOidcAuthEndpoint config)
    (cf_oauthStateTtlSeconds config).

Definition jwtConfig (config : Config) : JoseTokenConfig :=
  mkJoseTokenConfig (cf_jwtSecret config) (cf_accessTokenTtlSeconds config).

(** [buildContainer], as [main] hands it to the server. *)
Definition buildContainer `{Entropy, Bcrypt, Crypto, Jose, Net} (ping : prog world bool) (config : Config) :
    RouteDeps :=
  pg_route_deps (cf_bcryptCost config) (jwtConfig config) (cf_refreshTokenTtlSeconds config)
    (emailSender config) (inviteConfig config) (oauthStateStore config) (googleConfig config) ping.

End Container.

(** What the services rely on. *)
Definition sound_config (c : Config) : Prop :=
  Forall (fun n => 0 < n <= MAX_SAFE_INTEGER)%Z
    [cf_port c; cf_accessTokenTtlSeconds c; cf_refreshTokenTtlSeconds c; cf_oauthStateTtlSeconds c;
     cf_oidcRateLimitMax c; cf_oidcRateLimitWindowMs c; cf_inviteTtlSeconds c;
     cf_inviteMaxOutstandingPerTenant c] /\
  (4 <= cf_bcryptCost c <= 15)%Z /\ 16 <= length (cf_jwtSecret c) /\ cf_databaseUrl c <> [] /\
  Forall (fun p => 0 < p <= MAX_SAFE_INTEGER)%Z (option_list (cf_smtpPort c)).

(** * Lemmas *)

(** The value of a variable. *)
Definition env_get (env : list (jsstr * jsstr)) (k : jsstr) : option json :=
  get ((fun kv => (kv.1, JStr kv.2)) <$> env) k.

Lemma env_get_str env k v : env_get env k = Some v -> exists s, v = JStr s.
Proof.
  unfold env_get. induction env as [|[k' s] env IH]; [done|]. cbn [fmap list_fmap fst snd]. rewrite get_cons.
  destruct (get _ k) as [w|]; [exact IH|]. case_bool_decide; [|done]. intros [= <-]. by exists s.
Qed.

Lemma coerce_inv `{ZodLaws} cs env k z v :
  env_get env k = Some v -> parsed (coerce_int cs) (Some v) = Some z ->
  exists n, int_value n = Some z /\ forallb (fun c => number_ok c n) cs = true /\ (z <= MAX_SAFE_INTEGER)%Z.
Proof.
  intros [s ->]%env_get_str Hz. unfold coerce_int in Hz. apply view_inv in Hz as (n & -> & Hn).
  rewrite parsed_coerce in Hn. destruct (js_Number s) as [m|]; [|done]. cbn [mbind option_bind] in Hn.
  unfold number_checks in Hn. destruct (forallb _ _) eqn:E; [|done]. injection Hn as ->.
  cbn [forallb number_ok] in E. apply andb_true_iff in E as [Ei E]. destruct (int_value n) as [z|] eqn:Ez; [|done].
  exists n. apply andb_true_iff in Ei as [_ ?%Z.leb_le]. by rewrite Ez.
Qed.

Lemma coerce_positive `{ZodLaws} env k z v :
  env_get env k = Some v -> parsed (coerce_int [NPositive]) (Some v) = Some z -> (0 < z <= MAX_SAFE_INTEGER)%Z.
Proof.
  intros Hv (n & Hn & Hc & Hm)%(coerce_inv _ _ _ _ _ Hv). cbn in Hc.
  destruct (int_value_le n z 0 Hn) as [Hle _]. rewrite Hle in Hc.
  rewrite andb_true_r in Hc. apply negb_true_iff, Z.leb_gt in Hc. lia.
Qed.

Lemma positive_default_inv `{ZodLaws} d env k z :
  (0 < d <= MAX_SAFE_INTEGER)%Z -> parsed (positive_default d) (env_get env k) = Some z ->
  (0 < z <= MAX_SAFE_INTEGER)%Z.
Proof.
  intros Hd. unfold positive_default. rewrite parsed_default. destruct (env_get env k) as [v|] eqn:Ev.
  - by apply coerce_positive with env k.
  - by intros [= <-].
Qed.

Lemma cost_inv `{ZodLaws} env k z :
  parsed (ZDefault 10%Z (coerce_int [NMin 4; NMax 15])) (env_get env k) = Some z -> (4 <= z <= 15)%Z.
Proof.
  rewrite parsed_default. destruct (env_get env k) as [v|] eqn:Ev; [|intros [= <-]; lia].
  intros (n & Hn & Hc & _)%(coerce_inv _ _ _ _ _ Ev). cbn in Hc.
  destruct (int_value_le n z 4 Hn) as [_ Hlo]. destruct (int_value_le n z 15 Hn) as [Hhi _].
  rewrite Hlo, Hhi, andb_true_r in Hc. apply andb_true_iff in Hc as [?%Z.leb_le ?%Z.leb_le]. done.
Qed.

Lemma min_inv `{ZodLaws} n v s : parsed (ZString [CMin n]) v = Some s -> n <= length s.
Proof.
  intros (t & _ & Ht)%string_inv. cbn [string_checks] in Ht. destruct (Nat.leb_spec n (length t)); [|done].
  by injection Ht as <-.
Qed.

Lemma optional_port_inv `{ZodLaws} env k p :
  parsed (ZOptional (coerce_int [NPositive])) (env_get env k) = Some p ->
  Forall (fun p => 0 < p <= MAX_SAFE_INTEGER)%Z (option_list p).
Proof.
  destruct p as [p|]; [|constructor]. rewrite parsed_optional. destruct (env_get env k) as [v|] eqn:Ev; [|done].
  destruct (parsed _ (Some v)) as [q|] eqn:Eq; [|done]. intros [= <-]. constructor; [|constructor].
  by apply coerce_positive with env k v.
Qed.

Lemma loadConfig_sound `{ZodLaws} env c : loadConfig env = Ok c -> sound_config c /\ smtp_complete c = true.
Proof.
  unfold loadConfig. intros Hl. assert (Hc : parsed EnvSchema (Some (process_env env)) = Some c)
    by (unfold parsed; by rewrite Hl). clear Hl. unfold EnvSchema in Hc. apply refine_inv in Hc as [Hc Hs].
  split; [|done]. clear Hs. apply view_inv in Hc as (r & -> & Hr). apply object_inv in Hr as (o & Ho & Hf).
  injection Ho as <-. unfold env_fields in Hf. repeat schema_inv. subst.
  repeat match goal with
  | H : parsed _ (get (_ <$> env) ?k) = Some _ |- _ => change (get _ k) with (env_get env k) in H
  end.
  assert (Hm : (604800 <= MAX_SAFE_INTEGER)%Z) by by vm_compute.
  repeat match goal with
  | H : parsed (positive_default _) _ = Some _ |- _ => apply positive_default_inv in H; [|lia]
  | H : parsed (ZDefault 10%Z (coerce_int _)) _ = Some _ |- _ => apply cost_inv in H
  | H : parsed (ZString [CMin _]) _ = Some _ |- _ => apply min_inv in H
  | H : parsed (ZOptional (coerce_int _)) _ = Some _ |- _ => apply optional_port_inv in H
  end.
  unfold sound_config. split; [do 8 (apply Forall_cons_2; [assumption|]); constructor|].
  do 2 (split; [assumption|]). split; [|assumption]. cbn [cf_databaseUrl]. intros E. subst. cbn [length] in *. lia.
Qed.

(** The smallest environment. *)
Definition minimal_env (db secret : jsstr) : list (jsstr * jsstr) :=
  [(js "LOGALOT_APP_DATABASE_URL", db); (js "JWT_SECRET", secret)].

Definition default_config (db secret : jsstr) : Config :=
  mkConfig env_development (js "0.0.0.0") 8082 db secret 900 604800 10 (js "info") None 600 None None None None None
    (js "https://accounts.google.com/o/oauth2/v2/auth") 20 60000 604800 50 (js "http://localhost:5173")
    provider_none None None None None None.

Lemma default_absent `{ZodLaws} {A} d (s : schema A) : parsed (ZDefault d s) None = Some d.
Proof. by rewrite parsed_default. Qed.

Lemma optional_absent `{ZodLaws} {A} (s : schema A) : parsed (ZOptional s) None = Some None.
Proof. by rewrite parsed_optional. Qed.

Lemma fields_step `{Zod} {A B} key (s : schema A) (rest : fields B) o a b :
  parsed s (get o key) = Some a -> parsed_fields rest o = Some b ->
  parsed_fields (FField key s rest) o = Some (a, b).
Proof. intros Ha Hb. cbn [parsed_fields]. by rewrite Ha, Hb. Qed.

Lemma min_present `{ZodLaws} n s : n <= length s -> parsed (ZString [CMin n]) (Some (JStr s)) = Some s.
Proof. intros Hn. rewrite parsed_string. cbn [string_checks]. by destruct (Nat.leb_spec n (length s)); [|lia]. Qed.

Lemma loadConfig_minimal `{ZodLaws} db secret :
  db <> [] -> 16 <= length secret -> loadConfig (minimal_env db secret) = Ok (default_config db secret).
Proof.
  intros Hdb Hs. assert (Hd : 1 <= length db) by (destruct db; [done|cbn; lia]).
  assert (Hp : parsed EnvSchema (Some (process_env (minimal_env db secret))) =
    Some (default_config db secret)).
  { unfold EnvSchema, process_env. rewrite parsed_refine, parsed_view.
    erewrite object_complete; [|by repeat constructor|done|].
    2: { unfold env_fields. repeat (eapply fields_step;
      [match goal with |- parsed _ ?g = _ => let v := eval vm_compute in g in change g with v end;
       first [apply default_absent|apply optional_absent|apply min_present; assumption]|]).
      reflexivity. }
    reflexivity. }
  unfold parsed in Hp. unfold loadConfig. destruct (Zod.safeParse _ _); [by injection Hp as ->|done].
Qed.

(** C30. Start-up configuration.  A configuration [loadConfig] accepts has a signing
    secret of 16 characters or more, a database URL, a bcrypt cost of 4 to 15, and
    positive lifetimes, caps, windows and ports that JavaScript represents exactly.
    With provider [smtp] mail goes to the SMTP sender, with the configured host, port
    and sender address; with [none], and also with [ses], which is not built, it goes to
    the no-op sender.  States are kept in Redis when a non-empty Redis URL is set and in
    memory otherwise; either way a state put with the configured lifetime is stored.
    The database URL and the secret are all a start needs: an environment of just these
    two gives the documented defaults. *)
Theorem config_sound `{ZodLaws, Smtp, StateCodecLaws} :
  (forall env c, loadConfig env = Ok c ->
     sound_config c /\
     match cf_emailProvider c with
     | provider_smtp =>
         exists host port from, cf_smtpHost c = Some host /\ cf_smtpPort c = Some port /\ cf_smtpFrom c = Some from /\
           host <> [] /\ from <> [] /\
           emailSender c = SmtpEmailSender.sender (mkSmtpConfig host port (cf_smtpUser c) (cf_smtpPass c) from None)
     | provider_none | provider_ses => emailSender c = NoOpEmailSender
     end /\
     exists live,
       (if decide (default [] (cf_redisUrl c) = []) then oauthStateStore c = InMemoryOAuthStateStore.store /\ live = memory_live
        else oauthStateStore c = RedisOAuthStateStore.store /\ live = redis_live) /\
       forall r w, exists w', run (states_put (oauthStateStore c) r (go_stateTtlSeconds (googleConfig c))) w = (Ok tt, w') /\
         live w' (os_state r) = Some r) /\
  (forall db secret, loadConfig (minimal_env db secret) = Ok (default_config db secret) <->
     db <> [] /\ 16 <= length secret).
Proof.
  split.
  - intros env c [Hc Hs]%loadConfig_sound. split; [done|]. split.
    + unfold smtp_complete, emailSender in *. destruct (cf_emailProvider c); [done| |done].
      destruct (cf_smtpHost c) as [h|], (cf_smtpPort c) as [p|] eqn:Ep, (cf_smtpFrom c) as [f|]; try done.
      apply andb_true_iff in Hs as [Hh Hf]. exists h, p, f. cbn [given mbind option_bind]. rewrite Hh, Hf.
      destruct Hc as (_ & _ & _ & _ & Hp). rewrite Ep in Hp. cbn [option_list] in Hp.
      apply Forall_cons in Hp as [Hp _]. destruct (Z.eqb_spec p 0); [lia|].
      split_and!; try done; [by destruct h|by destruct f].
    + destruct Hc as [Hc _]. rewrite !Forall_cons in Hc. destruct Hc as (_ & _ & _ & Ht & _).
      assert (Hstore : oauthStateStore c = if decide (default [] (cf_redisUrl c) = [])
                then InMemoryOAuthStateStore.store else RedisOAuthStateStore.store).
      { unfold oauthStateStore. by destruct (cf_redisUrl c) as [[|]|]. }
      rewrite Hstore. case_decide.
      * exists memory_live. split; [done|]. intros r w.
        destruct (store_put (live := memory_live) r (cf_oauthStateTtlSeconds c) w) as (w' & Hr & _ & Hl & _); [lia|].
        by exists w'.
      * exists redis_live. split; [done|]. intros r w.
        destruct (store_put (live := redis_live) r (cf_oauthStateTtlSeconds c) w) as (w' & Hr & _ & Hl & _); [lia|].
        by exists w'.
  - intros db secret. split; [|intros []; by apply loadConfig_minimal].
    by intros [(_ & _ & Hs & Hd & _) _]%loadConfig_sound.
Qed.

(** A mail server and a Redis URL. *)
Definition smtp_env : list (jsstr * jsstr) :=
  minimal_env (js "postgres://db") (js "0123456789abcdef") ++
  [(js "EMAIL_PROVIDER", js "smtp"); (js "SMTP_HOST", js "mail"); (js "SMTP_PORT", js "25");
   (js "SMTP_FROM", js "a@b"); (js "REDIS_URL", js "redis://r")].

Lemma config_sound_witness :
  exists c, @loadConfig demo_formats demo_zod smtp_env = Ok c /\ sound_config c /\ cf_smtpPort c = Some 25%Z /\
    @oauthStateStore demo_codec c = @RedisOAuthStateStore.store demo_codec.
Proof.
  assert (E : exists c, @loadConfig demo_formats demo_zod smtp_env = Ok c) by (eexists; vm_compute; reflexivity).
  destruct E as [c E]. exists c. split; [done|].
  destruct (@config_sound demo_formats demo_zod demo_zod_laws {| smtp_delivers := fun _ _ _ => true |}
    demo_codec demo_codec_laws) as [Hc _].
  destruct (Hc _ _ E) as (Hs & _ & live & Hstore & _). split; [done|]. vm_compute in E. injection E as <-.
  split; [done|]. exact (proj1 Hstore).
Defined.
