(* ===== verification/Json.v ===== *)
(** * JSON text

    [JSON.parse], of a string of UTF-16 units, and [JSON.stringify] of the values the
    source prints itself: their numbers are integers.  Parsing undoes printing. *)

From stdpp Require Import base list option numbers strings.
From S2P Require Import Prelude Tokens Text Rbac Entities.

(** ** Numbers *)

Definition is_digit (c : N) : bool := ((48 <=? c) && (c <=? 57))%N.

(** The longest prefix that satisfies a test, and the rest. *)
Fixpoint span (p : N -> bool) (s : jsstr) : jsstr * jsstr :=
  match s with
  | [] => ([], [])
  | c :: s' => if p c then let '(a, b) := span p s' in (c :: a, b) else ([], s)
  end.

Definition digits_value (s : jsstr) : Z := foldl (fun n c => n * 10 + (Z.of_N c - 48))%Z 0%Z s.

(** The double nearest to [n / d], ties to even; ±2^1024 stands for the infinities. *)
Definition nearest (n d : Z) : jsnum :=
  let e0 := (Z.log2 n - Z.log2 d - 52)%Z in
  let scaled e := if (0 <=? e)%Z then (n, d * 2 ^ e)%Z else (n * 2 ^ (- e), d)%Z in
  let e1 := let '(a, b) := scaled e0 in if (a / b <? 2 ^ 52)%Z then (e0 - 1)%Z else e0 in
  let e := Z.max (-1074) e1 in
  let '(a, b) := scaled e in
  let q := (a / b)%Z in
  let r := (2 * (a mod b) - b)%Z in
  let m := if (r <? 0)%Z then q else if (0 <? r)%Z then (q + 1)%Z else if Z.even q then q else (q + 1)%Z in
  if (971 <? e)%Z || ((e =? 971)%Z && (2 ^ 53 <=? m)%Z) then mkNum 1 1024 else mkNum m e.

(** The value of a decimal numeral [digits * 10 ^ e]: exact on integers up to 2^53. *)
Definition decimal (digits e : Z) : jsnum :=
  let n := if (0 <=? e)%Z then (digits * 10 ^ e)%Z else digits in
  let d := if (0 <=? e)%Z then 1%Z else (10 ^ (- e))%Z in
  if (n mod d =? 0)%Z && (n / d <=? 2 ^ 53)%Z then mkNum (n / d) 0 else nearest n d.

Definition negate (n : jsnum) : jsnum := mkNum (- jn_mant n) (jn_exp n).

(** The rest, when the text begins with a given unit. *)
Definition accept (c : N) (s : jsstr) : option jsstr :=
  match s with
  | d :: r => if (d =? c)%N then Some r else None
  | [] => None
  end.

(** Digits, at least one. *)
Definition some_digits (s : jsstr) : option (jsstr * jsstr) :=
  let '(d, r) := span is_digit s in if truthy d then Some (d, r) else None.

(** An integer part has no needless zeros. *)
Definition integer_part (s : jsstr) : option (jsstr * jsstr) :=
  '(d, r) ← some_digits s;
  if bool_decide (head d = Some 48%N) && (1 <? length d) then None else Some (d, r).

Definition fraction (s : jsstr) : option (jsstr * jsstr) :=
  match accept 46 s with
  | Some r => some_digits r
  | None => Some ([], s)
  end.

Definition exponent (s : jsstr) : option (Z * jsstr) :=
  match (match accept 101 s with Some r => Some r | None => accept 69 s end) with
  | Some r =>
      let '(sign, r) := match accept 45 r, accept 43 r with
                        | Some r', _ => ((-1)%Z, r')
                        | None, Some r' => (1%Z, r')
                        | None, None => (1%Z, r)
                        end in
      '(d, r') ← some_digits r; Some ((sign * digits_value d)%Z, r')
  | None => Some (0%Z, s)
  end.

(** A numeral: a sign, an integer part, a fraction and an exponent. *)
Definition parse_unsigned (s : jsstr) : option (jsnum * jsstr) :=
  '(int, s) ← integer_part s;
  '(frac, s) ← fraction s;
  '(exp, s) ← exponent s;
  Some (decimal (digits_value (int ++ frac)) (exp - Z.of_nat (length frac)), s).

Definition parse_number (s : jsstr) : option (jsnum * jsstr) :=
  match accept 45 s with
  | Some r => '(v, r) ← parse_unsigned r; Some (negate v, r)
  | None => parse_unsigned s
  end.

(** ** Strings *)

Definition hex4 (a b c d : N) : option N :=
  if forallb is_hex [a; b; c; d]
  then Some (((hex_value a * 16 + hex_value b) * 16 + hex_value c) * 16 + hex_value d)%N else None.

(** The one-letter escapes. *)
Definition escapes : list (N * N) :=
  [(34, 34); (92, 92); (47, 47); (98, 8); (102, 12); (110, 10); (114, 13); (116, 9)]%N.

(** The characters up to the closing quote. *)
Fixpoint parse_chars (s : jsstr) : option (jsstr * jsstr) :=
  match s with
  | [] => None
  | c :: r =>
      if (c =? 34)%N then Some ([], r)
      else if (c =? 92)%N then
        match r with
        | e :: r =>
            if (e =? 117)%N then
              match r with
              | a :: b :: c :: d :: r => u ← hex4 a b c d; '(t, q) ← parse_chars r; Some (u :: t, q)
              | _ => None
              end
            else
              x ← find (fun x => (x.1 =? e)%N) escapes; '(t, q) ← parse_chars r; Some (x.2 :: t, q)
        | [] => None
        end
      else if (c <? 32)%N then None
      else '(t, q) ← parse_chars r; Some (c :: t, q)
  end.

(** ** Values *)

Definition is_json_space (c : N) : bool := bool_decide (c ∈ [9; 10; 13; 32]%N).

Fixpoint skip (s : jsstr) : jsstr :=
  match s with
  | c :: s' => if is_json_space c then skip s' else s
  | [] => []
  end.

(** After a literal. *)
Definition literal (word : jsstr) (v : json) (s : jsstr) : option (json * jsstr) :=
  if startsWith s word then Some (v, drop (length word) s) else None.

(** [fuel] bounds the nesting and the number of members together; every level and
    every member takes a character, so twice the length of the text is enough. *)
Fixpoint parse_value (fuel : nat) (s : jsstr) : option (json * jsstr) :=
  match fuel, skip s with
  | S fuel, c :: r =>
      if (c =? 110)%N then literal (js "null") JNull (c :: r)
      else if (c =? 116)%N then literal (js "true") (JBool true) (c :: r)
      else if (c =? 102)%N then literal (js "false") (JBool false) (c :: r)
      else if (c =? 34)%N then '(t, q) ← parse_chars r; Some (JStr t, q)
      else if (c =? 91)%N then
        match accept 93 (skip r) with
        | Some q => Some (JArr [], q)
        | None => '(l, q) ← parse_elements fuel r; Some (JArr l, q)
        end
      else if (c =? 123)%N then
        match accept 125 (skip r) with
        | Some q => Some (JObj [], q)
        | None => '(l, q) ← parse_members fuel r; Some (JObj l, q)
        end
      else '(n, q) ← parse_number (c :: r); Some (JNum n, q)
  | _, _ => None
  end
with parse_elements (fuel : nat) (s : jsstr) : option (list json * jsstr) :=
  match fuel with
  | 0 => None
  | S fuel =>
      '(v, q) ← parse_value fuel s;
      match accept 93 (skip q) with
      | Some r => Some ([v], r)
      | None => r ← accept 44 (skip q); '(l, q') ← parse_elements fuel r; Some (v :: l, q')
      end
  end
with parse_members (fuel : nat) (s : jsstr) : option (jsobject * jsstr) :=
  match fuel with
  | 0 => None
  | S fuel =>
      r ← accept 34 (skip s);
      '(k, q) ← parse_chars r;
      r ← accept 58 (skip q);
      '(v, q) ← parse_value fuel r;
      match accept 125 (skip q) with
      | Some r => Some ([(k, v)], r)
      | None => r ← accept 44 (skip q); '(l, q') ← parse_members fuel r; Some ((k, v) :: l, q')
      end
  end.

(** [JSON.parse(s)]; [None]: a SyntaxError. *)
Definition JSON_parse (s : jsstr) : option json :=
  '(v, q) ← parse_value (S (2 * length s)) s;
  if truthy (skip q) then None else Some v.

(** ** Printing *)

(** The number of decimal digits; [fuel] is at least that number. *)
Fixpoint width (fuel : nat) (n : N) : nat :=
  match fuel with
  | 0 => 1
  | S fuel => if (n <? 10)%N then 1 else S (width fuel (n / 10))
  end.

Definition print_nat (n : N) : jsstr := digitsN (width (N.size_nat n) n) n.

Definition print_int (z : Z) : jsstr := (if (z <? 0)%Z then [45%N] else []) ++ print_nat (Z.abs_N z).

(** [\uXXXX]. *)
Definition escape_unit (c : N) : jsstr :=
  [92; 117; hex_digit (c / 4096); hex_digit ((c / 256) mod 16); hex_digit ((c / 16) mod 16); hex_digit (c mod 16)]%N.

(** The quotation mark, the backslash and the controls are escaped, the solidus is not. *)
Definition quote_unit (c : N) : jsstr :=
  match find (fun x => (x.2 =? c)%N) (List.filter (fun x => negb (x.1 =? 47)%N) escapes) with
  | Some x => [92%N; x.1]
  | None => if (c <? 32)%N then escape_unit c else [c]
  end.

(** A lone surrogate is escaped. *)
Fixpoint quote_chars (s : jsstr) : jsstr :=
  match s with
  | [] => []
  | c :: s' =>
      if is_high c then
        match s' with
        | d :: s'' => if is_low d then c :: d :: quote_chars s'' else escape_unit c ++ quote_chars s'
        | [] => escape_unit c
        end
      else if is_low c then escape_unit c ++ quote_chars s'
      else quote_unit c ++ quote_chars s'
  end.

Definition quote (s : jsstr) : jsstr := [34%N] ++ quote_chars s ++ [34%N].

(** [JSON.stringify(v)], of values whose numbers are integers up to 2^53. *)
Fixpoint JSON_stringify (v : json) : option jsstr :=
  match v with
  | JNull => Some (js "null")
  | JBool b => Some (if b then js "true" else js "false")
  | JNum (mkNum z 0) => if (Z.abs z <=? 2 ^ 53)%Z then Some (print_int z) else None
  | JNum _ => None
  | JStr s => Some (quote s)
  | JArr l =>
      ts ← (fix elements (l : list json) : option (list jsstr) :=
              match l with
              | [] => Some []
              | v :: l => t ← JSON_stringify v; ts ← elements l; Some (t :: ts)
              end) l;
      Some ([91%N] ++ join ts [44%N] ++ [93%N])
  | JObj l =>
      ts ← (fix members (l : jsobject) : option (list jsstr) :=
              match l with
              | [] => Some []
              | (k, v) :: l => t ← JSON_stringify v; ts ← members l; Some ((quote k ++ [58%N] ++ t) :: ts)
              end) l;
      Some ([123%N] ++ join ts [44%N] ++ [125%N])
  end.

(** * Lemmas *)

(** [lia] with quotients and remainders as unknowns. *)
Ltac div_lia :=
  repeat match goal with
  | |- context [N.modulo ?a ?b] => let m := fresh "m" in set (m := N.modulo a b) in *; clearbody m
  | H : context [N.modulo ?a ?b] |- _ => let m := fresh "m" in set (m := N.modulo a b) in *; clearbody m
  | |- context [N.div ?a ?b] => let m := fresh "m" in set (m := N.div a b) in *; clearbody m
  | H : context [N.div ?a ?b] |- _ => let m := fresh "m" in set (m := N.div a b) in *; clearbody m
  end; lia.

(** ** Strings *)

Lemma is_hex_digit n : (n < 16)%N -> is_hex (hex_digit n) = true.
Proof.
  intros Hn. unfold is_hex, hex_digit. rewrite !orb_true_iff, !andb_true_iff, !N.leb_le.
  destruct (N.ltb_spec n 10); lia.
Qed.

Lemma hex4_escape c :
  (c < 65536)%N ->
  hex4 (hex_digit (c / 4096)) (hex_digit ((c / 256) mod 16)) (hex_digit ((c / 16) mod 16)) (hex_digit (c mod 16)) = Some c.
Proof.
  intros Hc. assert (H1 : (c / 4096 < 16)%N) by (apply N.Div0.div_lt_upper_bound; lia).
  assert (H2 : ((c / 256) mod 16 < 16)%N) by (by apply N.mod_lt).
  assert (H3 : ((c / 16) mod 16 < 16)%N) by (by apply N.mod_lt).
  assert (H4 : (c mod 16 < 16)%N) by (by apply N.mod_lt).
  unfold hex4. cbn [forallb]. rewrite !is_hex_digit, !hex_value_digit by done. cbn [andb]. f_equal.
  replace (c / 4096)%N with (c / 16 / 16 / 16)%N by (rewrite !N.Div0.div_div; done).
  replace (c / 256)%N with (c / 16 / 16)%N by (rewrite N.Div0.div_div; done).
  pose proof (N.div_mod' c 16). pose proof (N.div_mod' (c / 16) 16). pose proof (N.div_mod' (c / 16 / 16) 16). lia.
Qed.

(** What reading one unit before [r] gives. *)
Definition before (c : N) (r : jsstr) : option (jsstr * jsstr) := '(t, q) ← parse_chars r; Some (c :: t, q).

Lemma parse_escape c r : (c < 65536)%N -> parse_chars (escape_unit c ++ r) = before c r.
Proof.
  intros Hc. unfold escape_unit. cbn [app parse_chars].
  replace (92 =? 34)%N with false by done. replace (92 =? 92)%N with true by done.
  replace (117 =? 117)%N with true by done. by rewrite hex4_escape.
Qed.

Lemma parse_plain c r : c <> 34%N -> c <> 92%N -> (32 <= c)%N -> parse_chars (c :: r) = before c r.
Proof.
  intros H1 H2 H3. cbn [parse_chars]. rewrite (proj2 (N.eqb_neq _ _) H1), (proj2 (N.eqb_neq _ _) H2).
  by rewrite (proj2 (N.ltb_ge _ _)).
Qed.

Lemma parse_quote_unit c r : parse_chars (quote_unit c ++ r) = before c r.
Proof.
  unfold quote_unit.
  change (List.filter _ escapes) with [(34, 34); (92, 92); (98, 8); (102, 12); (110, 10); (114, 13); (116, 9)]%N.
  cbn [fst snd find].
  repeat match goal with |- context [(?a =? c)%N] => destruct (N.eqb_spec a c) as [<-|]; [done|] end.
  destruct (N.ltb_spec c 32); [apply parse_escape; lia|]. by apply parse_plain; [congruence|congruence|].
Qed.

Lemma surrogate_bound c : is_high c = true \/ is_low c = true -> (0xD800 <= c < 65536)%N.
Proof. unfold is_high, is_low. rewrite !andb_true_iff, !N.leb_le. lia. Qed.

Lemma parse_quote s r : parse_chars (quote_chars s ++ 34%N :: r) = Some (s, r).
Proof.
  revert s. assert (Hn : forall n s, length s <= n -> parse_chars (quote_chars s ++ 34%N :: r) = Some (s, r));
    [|by intros s; apply (Hn (length s))].
  induction n as [|n IH]; intros [|c s] Hl; try done; cbn [length] in Hl; [lia|].
  assert (Hs : before c (quote_chars s ++ 34%N :: r) = Some (c :: s, r)) by (unfold before; by rewrite IH by lia).
  cbn [quote_chars]. destruct (is_high c) eqn:Eh.
  - pose proof (surrogate_bound c (or_introl Eh)). destruct s as [|d s].
    + rewrite parse_escape by lia. exact Hs.
    + destruct (is_low d) eqn:Ed; [|rewrite <-app_assoc, parse_escape by lia; exact Hs].
      pose proof (surrogate_bound d (or_intror Ed)). cbn [app length] in *.
      rewrite parse_plain by lia. unfold before. rewrite parse_plain by lia. unfold before. by rewrite IH by lia.
  - destruct (is_low c) eqn:El.
    + pose proof (surrogate_bound c (or_intror El)). rewrite <-app_assoc, parse_escape by lia. exact Hs.
    + rewrite <-app_assoc, parse_quote_unit. exact Hs.
Qed.

(** ** Numerals *)

Lemma span_app p a b :
  forallb p a = true -> match b with c :: _ => p c = false | [] => True end -> span p (a ++ b) = (a, b).
Proof.
  intros Ha Hb. induction a as [|c a IH]; cbn [app span] in *.
  - destruct b as [|c b]; [done|]. cbn [span]. by rewrite Hb.
  - apply andb_true_iff in Ha as [Hc Ha]. by rewrite Hc, (IH Ha).
Qed.

Lemma digitsN_digits len n : forallb is_digit (digitsN len n) = true.
Proof.
  revert n. induction len as [|len IH]; intros n; [done|]. cbn [digitsN]. rewrite forallb_app, IH. cbn [forallb andb].
  unfold is_digit. pose proof (N.mod_lt n 10 ltac:(done)). rewrite andb_true_r, andb_true_iff, !N.leb_le. div_lia.
Qed.

Lemma digitsN_length len n : length (digitsN len n) = len.
Proof. revert n. induction len as [|len IH]; intros n; [done|]. cbn [digitsN]. rewrite length_app, IH. cbn. lia. Qed.

Lemma digitsN_value len n : (n < 10 ^ N.of_nat len)%N -> digits_value (digitsN len n) = Z.of_N n.
Proof.
  revert n. induction len as [|len IH]; intros n Hn.
  - cbn in *. lia.
  - cbn [digitsN]. unfold digits_value. rewrite foldl_app. fold (digits_value (digitsN len (n / 10))).
    rewrite IH.
    + cbn [foldl]. pose proof (N.div_mod' n 10). div_lia.
    + apply N.Div0.div_lt_upper_bound. rewrite Nat2N.inj_succ, N.pow_succ_r' in Hn. lia.
Qed.

Lemma width_bound fuel n : (n < 2 ^ N.of_nat fuel)%N -> (n < 10 ^ N.of_nat (width fuel n))%N.
Proof.
  revert n. induction fuel as [|fuel IH]; intros n Hn; [cbn in *; lia|]. cbn [width].
  destruct (N.ltb_spec n 10) as [|Hge]; [cbn; lia|]. rewrite Nat2N.inj_succ, N.pow_succ_r'.
  assert (Hd : (n / 10 < 2 ^ N.of_nat fuel)%N).
  { apply N.Div0.div_lt_upper_bound. rewrite Nat2N.inj_succ, N.pow_succ_r' in Hn. lia. }
  apply IH in Hd. pose proof (N.div_mod' n 10). pose proof (N.mod_lt n 10 ltac:(done)). div_lia.
Qed.

Lemma width_head fuel n :
  (10 <= n)%N -> (n < 2 ^ N.of_nat fuel)%N -> exists d r, digitsN (width fuel n) n = d :: r /\ d <> 48%N.
Proof.
  revert n. induction fuel as [|fuel IH]; intros n Hge Hn; [cbn in *; lia|]. cbn [width].
  rewrite (proj2 (N.ltb_ge n 10)) by done. cbn [digitsN].
  destruct (N.ltb_spec (n / 10) 10) as [Hlt|Hge'].
  - assert (Hw : width fuel (n / 10) = 1).
    { destruct fuel; [done|]. cbn [width]. by rewrite (proj2 (N.ltb_lt _ _)). }
    rewrite Hw. cbn. eexists _, _. split; [done|]. rewrite N.mod_small by done.
    assert (1 <= n / 10)%N by (apply N.div_le_lower_bound; lia). lia.
  - destruct (IH (n / 10)%N) as (d & r & E & Hd); [done| |].
    + apply N.Div0.div_lt_upper_bound. rewrite Nat2N.inj_succ, N.pow_succ_r' in Hn. lia.
    + rewrite E. by eexists _, _.
Qed.

Lemma size_nat_bound n : (n < 2 ^ N.of_nat (N.size_nat n))%N.
Proof.
  destruct n as [|p]; [done|]. cbn [N.size_nat]. induction p as [p IH|p IH|]; [| |done];
    cbn [Pos.size_nat]; rewrite Nat2N.inj_succ, N.pow_succ_r'; lia.
Qed.

Lemma print_nat_value n : digits_value (print_nat n) = Z.of_N n.
Proof. apply digitsN_value, width_bound, size_nat_bound. Qed.

(** The text ends here, or goes on after a value. *)
Definition delimited (r : jsstr) : Prop :=
  match r with c :: _ => c ∈ [44; 93; 125]%N | [] => True end.

Lemma delimited_head r c : delimited r -> bool_decide (c ∈ [44; 93; 125]%N) = false -> accept c r = None.
Proof.
  destruct r as [|d r]; [done|]. intros Hd Hc%bool_decide_eq_false. cbn [accept].
  by destruct (N.eqb_spec d c) as [->|].
Qed.

Lemma print_nat_digits n : forallb is_digit (print_nat n) = true.
Proof. apply digitsN_digits. Qed.

Lemma print_nat_cons n : exists d r, print_nat n = d :: r /\ is_digit d = true.
Proof.
  pose proof (print_nat_digits n) as Hd. pose proof (digitsN_length (width (N.size_nat n) n) n) as Hl.
  fold (print_nat n) in Hl. destruct (print_nat n) as [|d r].
  - by destruct (N.size_nat n); cbn [width] in Hl; [|destruct (n <? 10)%N].
  - apply andb_true_iff in Hd as [Hd _]. by exists d, r.
Qed.

Lemma integer_part_print n r : delimited r -> integer_part (print_nat n ++ r) = Some (print_nat n, r).
Proof.
  intros Hr. unfold integer_part, some_digits. rewrite span_app; [|apply print_nat_digits|].
  2: { destruct r as [|c r]; [done|]. cbn in Hr. rewrite !elem_of_cons, elem_of_nil in Hr.
       by destruct Hr as [->|[->|[->|[]]]]. }
  destruct (print_nat_cons n) as (d & t & E & _). rewrite E. cbn [truthy mbind option_bind]. rewrite <-E.
  assert (Hz : bool_decide (head (print_nat n) = Some 48%N) && (1 <? length (print_nat n)) = false).
  { destruct (N.ltb_spec n 10) as [Hlt|Hge].
    - assert (Hl : length (print_nat n) = 1).
      { unfold print_nat. rewrite digitsN_length. destruct (N.size_nat n); [done|]. cbn [width].
        by rewrite (proj2 (N.ltb_lt _ _)). }
      rewrite Hl. apply andb_false_r.
    - destruct (width_head (N.size_nat n) n Hge (size_nat_bound n)) as (d' & r' & E' & Hd').
      unfold print_nat. rewrite E'. cbn [head]. rewrite bool_decide_eq_false_2; [done|congruence]. }
  by rewrite Hz.
Qed.

Lemma decimal_int z : (0 <= z <= 2 ^ 53)%Z -> decimal z 0 = mkNum z 0.
Proof.
  intros Hz. unfold decimal. cbn [Z.leb Z.compare]. change (10 ^ 0)%Z with 1%Z. rewrite Z.mul_1_r, Z.mod_1_r, Z.div_1_r.
  by rewrite (proj2 (Z.leb_le _ _)) by lia.
Qed.

Lemma parse_print_nat n r :
  (Z.of_N n <= 2 ^ 53)%Z -> delimited r -> parse_unsigned (print_nat n ++ r) = Some (mkNum (Z.of_N n) 0, r).
Proof.
  intros Hn Hr. unfold parse_unsigned. rewrite integer_part_print by done. cbn [mbind option_bind]. unfold fraction.
  rewrite delimited_head by done. cbn [mbind option_bind]. unfold exponent.
  rewrite !delimited_head by done. cbn [mbind option_bind length].
  by rewrite app_nil_r, print_nat_value, decimal_int by lia.
Qed.

Lemma parse_print_int z r :
  (Z.abs z <= 2 ^ 53)%Z -> delimited r -> parse_number (print_int z ++ r) = Some (mkNum z 0, r).
Proof.
  intros Hz Hr. pose proof (parse_print_nat (Z.abs_N z) r ltac:(lia) Hr) as Hp.
  unfold parse_number, print_int. destruct (Z.ltb_spec z 0) as [Hneg|Hpos].
  - cbn [app accept]. rewrite N.eqb_refl, Hp. cbn [mbind option_bind]. unfold negate. cbn [jn_mant jn_exp].
    do 3 f_equal. lia.
  - cbn [app]. destruct (print_nat_cons (Z.abs_N z)) as (d & t & E & Hd).
    assert (Ha : accept 45 (print_nat (Z.abs_N z) ++ r) = None).
    { rewrite E. cbn [app accept]. destruct (N.eqb_spec d 45) as [->|]; done. }
    rewrite Ha, Hp. do 3 f_equal. lia.
Qed.

(** ** Values *)

(** Induction with the members of arrays and objects. *)
Lemma json_ind_nested (P : json -> Prop) :
  P JNull -> (forall b, P (JBool b)) -> (forall n, P (JNum n)) -> (forall s, P (JStr s)) ->
  (forall l, Forall P l -> P (JArr l)) -> (forall l, Forall (fun kv => P kv.2) l -> P (JObj l)) ->
  forall v, P v.
Proof.
  intros H0 H1 H2 H3 H4 H5. fix IH 1. intros [| | | |l|l]; [apply H0|apply H1|apply H2|apply H3| |].
  - apply H4. induction l as [|v l IHl]; constructor; [apply IH|exact IHl].
  - apply H5. induction l as [|[k v] l IHl]; constructor; [apply IH|exact IHl].
Qed.

(** Printing of several values. *)
Definition printed (vs : list json) (ts : list jsstr) : Prop :=
  Forall2 (fun v t => JSON_stringify v = Some t) vs ts.

Definition printed_members (l : jsobject) (ts : list jsstr) : Prop :=
  Forall2 (fun kv t => exists x, JSON_stringify kv.2 = Some x /\ t = quote kv.1 ++ [58%N] ++ x) l ts.

Lemma stringify_arr l t :
  JSON_stringify (JArr l) = Some t -> exists ts, printed l ts /\ t = [91%N] ++ join ts [44%N] ++ [93%N].
Proof.
  cbn [JSON_stringify]. intros Ht. apply bind_Some in Ht as (ts & Hts & [= <-]). exists ts. split; [|done].
  revert ts Hts. induction l as [|v l IH]; intros ts Hts; [injection Hts as <-; constructor|].
  apply bind_Some in Hts as (x & Hx & Hts). apply bind_Some in Hts as (xs & Hxs & [= <-]).
  constructor; [done|by apply IH].
Qed.

Lemma stringify_obj l t :
  JSON_stringify (JObj l) = Some t -> exists ts, printed_members l ts /\ t = [123%N] ++ join ts [44%N] ++ [125%N].
Proof.
  cbn [JSON_stringify]. intros Ht. apply bind_Some in Ht as (ts & Hts & [= <-]). exists ts. split; [|done].
  revert ts Hts. induction l as [|[k v] l IH]; intros ts Hts; [injection Hts as <-; constructor|].
  apply bind_Some in Hts as (x & Hx & Hts). apply bind_Some in Hts as (xs & Hxs & [= <-]).
  constructor; [by exists x|by apply IH].
Qed.

Lemma print_int_head z : exists c t, print_int z = c :: t /\ (45 <= c <= 57)%N.
Proof.
  unfold print_int. destruct (z <? 0)%Z; [eexists _, _; split; [done|lia]|].
  destruct (print_nat_cons (Z.abs_N z)) as (d & r & E & Hd). exists d, r. cbn [app]. rewrite E. split; [done|].
  unfold is_digit in Hd. apply andb_true_iff in Hd as [?%N.leb_le ?%N.leb_le]. lia.
Qed.

(** A unit a value begins with. *)
Definition opens (c : N) : Prop := is_json_space c = false /\ c <> 93%N.

Lemma stringify_opens v t : JSON_stringify v = Some t -> exists c t', t = c :: t' /\ opens c.
Proof.
  destruct v as [|[]|[z e]|s|l|l]; intros Ht.
  - injection Ht as <-. by eexists _, _.
  - injection Ht as <-. by eexists _, _.
  - injection Ht as <-. by eexists _, _.
  - destruct e; try done. cbn [JSON_stringify] in Ht. destruct (_ <=? _)%Z; [|done]. injection Ht as <-.
    destruct (print_int_head z) as (c & r & E & Hc). exists c, r. split; [done|].
    split; [|lia]. unfold is_json_space. apply bool_decide_eq_false. rewrite !elem_of_cons, elem_of_nil. lia.
  - injection Ht as <-. by eexists _, _.
  - apply stringify_arr in Ht as (ts & _ & ->). by eexists _, _.
  - apply stringify_obj in Ht as (ts & _ & ->). by eexists _, _.
Qed.

Lemma skip_opens c s : is_json_space c = false -> skip (c :: s) = c :: s.
Proof. intros Hc. cbn [skip]. by rewrite Hc. Qed.

Lemma accept_refl c s : accept c (c :: s) = Some s.
Proof. cbn [accept]. by rewrite N.eqb_refl. Qed.

Lemma accept_ne c d s : d <> c -> accept c (d :: s) = None.
Proof. intros Hd. cbn [accept]. by rewrite (proj2 (N.eqb_neq _ _)). Qed.

(** Reading a printed value gives it back. *)
Definition reads (v : json) : Prop :=
  forall t, JSON_stringify v = Some t ->
  forall fuel r, 2 * length t <= fuel -> delimited r -> parse_value fuel (t ++ r) = Some (v, r).

Lemma delimited_comma r : delimited (44%N :: r).
Proof. cbn. by rewrite !elem_of_cons; left. Qed.

Lemma delimited_close c r : c = 93%N \/ c = 125%N -> delimited (c :: r).
Proof. intros Hc. cbn. rewrite !elem_of_cons. naive_solver. Qed.

Lemma join_cons2 (x y : jsstr) xs sep : join (x :: y :: xs) sep = x ++ sep ++ join (y :: xs) sep.
Proof. done. Qed.

Lemma parse_elements_printed l ts fuel r :
  Forall reads l -> printed l ts -> l <> [] -> 2 * S (length (join ts [44%N])) <= fuel ->
  parse_elements fuel (join ts [44%N] ++ 93%N :: r) = Some (l, r).
Proof.
  intros Hl Hp. revert fuel. induction Hp as [|v t l ts Hv Hp IH]; intros fuel Hne Hf; [done|].
  apply Forall_cons in Hl as [Hr Hl]. destruct fuel as [|fuel]; [lia|]. cbn [parse_elements].
  destruct Hp as [|v' t' l ts Hv' Hp].
  - cbn [join] in *. rewrite (Hr t Hv fuel (93%N :: r)) by (lia || (apply delimited_close; by left)).
    cbn [mbind option_bind]. rewrite skip_opens by done. by rewrite accept_refl.
  - rewrite join_cons2, !length_app in Hf. cbn [length] in Hf. rewrite join_cons2, <-app_assoc.
    rewrite (Hr t Hv fuel) by (lia || apply delimited_comma). cbn [mbind option_bind app].
    rewrite skip_opens, accept_ne, accept_refl by done. cbn [mbind option_bind].
    by rewrite IH by (done || lia).
Qed.

Lemma parse_members_printed l ts fuel r :
  Forall (fun kv => reads kv.2) l -> printed_members l ts -> l <> [] -> 2 * S (length (join ts [44%N])) <= fuel ->
  parse_members fuel (join ts [44%N] ++ 125%N :: r) = Some (l, r).
Proof.
  intros Hl Hp. revert fuel. induction Hp as [|[k v] t l ts Hv Hp IH]; intros fuel Hne Hf; [done|].
  apply Forall_cons in Hl as [Hr Hl]. destruct fuel as [|fuel]; [lia|]. cbn [parse_members].
  destruct Hv as (x & Hx & ->). cbn [fst snd] in *.
  destruct Hp as [|kv' t' l ts Hv' Hp].
  - cbn [join] in *. unfold quote in *. rewrite !length_app in Hf. cbn [length] in Hf. rewrite <-!app_assoc. cbn [app].
    rewrite skip_opens, accept_refl by done. cbn [mbind option_bind]. rewrite parse_quote. cbn [mbind option_bind].
    rewrite skip_opens, accept_refl by done. cbn [mbind option_bind].
    rewrite (Hr x Hx fuel (125%N :: r)) by (lia || (apply delimited_close; by right)).
    cbn [mbind option_bind]. rewrite skip_opens by done. by rewrite accept_refl.
  - rewrite join_cons2 in *. unfold quote in *. rewrite !length_app in Hf. cbn [length] in Hf. rewrite <-!app_assoc.
    cbn [app]. rewrite skip_opens, accept_refl by done. cbn [mbind option_bind]. rewrite parse_quote.
    cbn [mbind option_bind]. rewrite skip_opens, accept_refl by done. cbn [mbind option_bind].
    rewrite (Hr x Hx fuel) by (lia || apply delimited_comma). cbn [mbind option_bind].
    rewrite skip_opens, accept_ne, accept_refl by done. cbn [mbind option_bind].
    by rewrite IH by (done || lia).
Qed.

Lemma join_opens (ts : list jsstr) s c t' :
  ts <> [] -> head ts = Some (c :: t') -> exists q, join ts [44%N] ++ s = c :: q.
Proof. destruct ts as [|x [|y ts]]; [done|intros _ [= ->]|intros _ [= ->]]; by eexists. Qed.

Lemma parse_value_number fuel c s :
  (45 <= c <= 57)%N -> parse_value (S fuel) (c :: s) = '(n, q) ← parse_number (c :: s); Some (JNum n, q).
Proof.
  intros Hc. assert (Hs : is_json_space c = false).
  { unfold is_json_space. apply bool_decide_eq_false. rewrite !elem_of_cons, elem_of_nil. lia. }
  cbn [parse_value]. rewrite skip_opens by done.
  repeat match goal with |- context [(c =? ?k)%N] => rewrite (proj2 (N.eqb_neq c k)) by lia end. done.
Qed.

Lemma reads_all v : reads v.
Proof.
  induction v as [|b|[z e]|s|l IH|l IH] using json_ind_nested; intros t Ht fuel r Hf Hr.
  - injection Ht as <-. by destruct fuel; [cbn in Hf; lia|].
  - injection Ht as <-. destruct b, fuel; try (cbn in Hf; lia); done.
  - destruct e; try done. cbn [JSON_stringify] in Ht. destruct (Z.leb_spec (Z.abs z) (2 ^ 53)) as [Hz|]; [|done].
    injection Ht as <-. destruct (print_int_head z) as (c & t & E & Hc).
    pose proof (parse_print_int z r Hz Hr) as Hp. rewrite E in *. cbn [app length] in *.
    destruct fuel; [lia|]. rewrite parse_value_number by done. by rewrite Hp.
  - injection Ht as <-. destruct fuel; [cbn in Hf; lia|]. unfold quote. rewrite <-!app_assoc. cbn [app parse_value].
    rewrite skip_opens by done. cbn [N.eqb Pos.eqb]. by rewrite parse_quote.
  - apply stringify_arr in Ht as (ts & Hp & ->). rewrite !length_app in Hf. cbn [length] in Hf.
    destruct fuel as [|fuel]; [lia|]. rewrite <-!app_assoc. cbn [app parse_value].
    rewrite skip_opens by done. cbn [N.eqb Pos.eqb]. destruct Hp as [|v t l ts Hv Hp]; [done|].
    destruct (stringify_opens v t Hv) as (c & t' & -> & Hsp & Hc).
    destruct (join_opens ((c :: t') :: ts) (93%N :: r) c t') as [q Eq]; [done|done|].
    rewrite Eq, skip_opens, accept_ne by done. rewrite <-Eq.
    by rewrite (parse_elements_printed (v :: l)) by (done || lia || by constructor).
  - apply stringify_obj in Ht as (ts & Hp & ->). rewrite !length_app in Hf. cbn [length] in Hf.
    destruct fuel as [|fuel]; [lia|]. rewrite <-!app_assoc. cbn [app parse_value].
    rewrite skip_opens by done. cbn [N.eqb Pos.eqb]. destruct Hp as [|kv t l ts Hv Hp]; [done|].
    assert (Ht : exists t', t = 34%N :: t') by (destruct Hv as (x & _ & ->); by eexists). destruct Ht as [t' ->].
    destruct (join_opens ((34%N :: t') :: ts) (125%N :: r) 34%N t') as [q Eq]; [done|done|].
    rewrite Eq, skip_opens, accept_ne by done. rewrite <-Eq.
    by rewrite (parse_members_printed (kv :: l)) by (done || lia || by constructor).
Qed.

(** [JSON.parse(JSON.stringify(v))]. *)
Lemma JSON_round_trip v t : JSON_stringify v = Some t -> JSON_parse t = Some v.
Proof.
  intros Ht. unfold JSON_parse. pose proof (reads_all v t Ht (S (2 * length t)) []) as Hr. rewrite app_nil_r in Hr.
  by rewrite Hr by (lia || done).
Qed.
