(* ===== verification/TailEvent.v ===== *)
(** * Live-tail frames and filters

    [features/log-explorer/] of the web application, the pure part: the frames of the
    stream ([tail-event.ts]) and the browser-side filter ([filtering.ts]). *)

From stdpp Require Import base list option numbers strings gmap.
From S2P Require Import Prelude Tokens Email Rbac Entities Zod Contracts Json.
Open Scope zod_scope.

(** ** Frames *)

Record TailLogEvent := mkTailLogEvent {
  tl_tenant_id : jsstr;
  tl_ts : jsstr;
  tl_id : option jsstr;
  tl_service : jsstr;
  tl_level : jsstr;
  tl_message : jsstr;
  tl_labels : list (jsstr * jsstr);
  tl_trace_id : option jsstr;
  tl_span_id : option jsstr
}.

(** [z.record(z.string(), z.string()).nullish().transform((v) => v ?? {})]. *)
Definition nullishLabels : schema (list (jsstr * jsstr)) :=
  ZView (fun v => default [] (default None v)) (ZOptional (ZNullable (ZRecord (ZString [])))).

Definition tailLogEventSchema : schema TailLogEvent :=
  ZView (fun '(t, (ts, (i, (s, (l, (m, (ls, (tr, (sp, _))))))))) => mkTailLogEvent t ts i s l m ls tr sp)
    (ZObject strip
       ("tenant_id" ~> ZString [] ;; "ts" ~> ZString [] ;; "id" ~> ZOptional (ZString []) ;;
        "service" ~> ZString [] ;; "level" ~> logLevelSchema ;; "message" ~> ZString [] ;;
        "labels" ~> nullishLabels ;; "trace_id" ~> ZOptional (ZString []) ;;
        "span_id" ~> ZOptional (ZString []) ;; FEnd)).

Definition gapFrameSchema : schema Z :=
  ZView fst (ZObject strip ("dropped" ~> int_of [NMin 0] ;; FEnd)).

Section Frames.
Context `{Zod}.

(** [schema.parse(JSON.parse(data))] in a [try]. *)
Definition parseLogFrame (data : jsstr) : option TailLogEvent :=
  v ← JSON_parse data; parsed tailLogEventSchema (Some v).

Definition parseGapFrame (data : jsstr) : Z :=
  default 0%Z (v ← JSON_parse data; parsed gapFrameSchema (Some v)).

End Frames.

(** ** Filters *)

Record LogFilters := mkLogFilters {
  lf_service : jsstr;
  lf_levels : list jsstr;
  lf_label : jsstr;
  lf_text : jsstr
}.

Definition EMPTY_FILTERS : LogFilters := mkLogFilters [] [] [] [].

Definition filtersActive (f : LogFilters) : bool :=
  truthy (trim (lf_service f)) || negb (length (lf_levels f) =? 0) || truthy (trim (lf_label f))
  || truthy (trim (lf_text f)).

Section Filters.
Context `{Unicode}.

Definition matchesLabel (labels : list (jsstr * jsstr)) (query : jsstr) : bool :=
  let q := toLowerCase (trim query) in
  if negb (truthy q) then true
  else match indexOf q (js "=") with
       | Some eq =>
           let key := trim (take eq q) in
           let val := trim (drop (S eq) q) in
           existsb (fun '(k, v) => bool_decide (toLowerCase k = key) && includes (toLowerCase v) val) labels
       | None => existsb (fun '(k, v) => includes (toLowerCase k) q || includes (toLowerCase v) q) labels
       end.

Definition matchesFilters (ev : TailLogEvent) (f : LogFilters) : bool :=
  if negb (length (lf_levels f) =? 0) && negb (bool_decide (tl_level ev ∈ lf_levels f)) then false
  else
    let service := toLowerCase (trim (lf_service f)) in
    if truthy service && negb (includes (toLowerCase (tl_service ev)) service) then false
    else
      let text := toLowerCase (trim (lf_text f)) in
      if truthy text && negb (includes (toLowerCase (tl_message ev)) text) then false
      else matchesLabel (tl_labels ev) (lf_label f).

End Filters.

(** * Lemmas *)

(** Without an active filter every event is shown. *)
Lemma inactive_filters_pass `{UnicodeLaws} ev f : filtersActive f = false -> matchesFilters ev f = true.
Proof.
  unfold filtersActive. rewrite !orb_false_iff, negb_false_iff. intros [[[Hs Hl] Hb] Ht].
  assert (Hlow : forall s, truthy s = false -> toLowerCase s = []).
  { intros [|c s]; [|done]. intros _. by rewrite toLowerCase_ascii. }
  unfold matchesFilters, matchesLabel. rewrite Hl, (Hlow _ Hs), (Hlow _ Hb), (Hlow _ Ht). done.
Qed.
