(* ===== verification/LogTail.v ===== *)
(** * The live tail

    [features/log-explorer/use-log-tail.ts]: the browser's end of the log stream as a
    state machine.  The state has the hook's React state and refs, and the platform
    objects the hook creates: the open event sources, the pending timeouts, the running
    intervals.  An event is what the platform delivers (a frame, an error, a timer), what
    the user does, or React committing a render; [tail_step] says which events can happen
    and what they do.  Updates of React state apply at once, and the options do not
    change during the life of the component.  [ts_origin] records, for the theorems
    only, which source a log came from. *)

From stdpp Require Import base list option numbers strings gmap sorting relations.
From S2P Require Import Prelude Tokens Entities Zod Contracts TailEvent.

Inductive TailStatus := connecting | streaming | reconnecting | paused_status | offline.

#[export] Instance TailStatus_eq_dec : EqDecision TailStatus.
Proof. solve_decision. Defined.

Inductive gap_reason := gap_dropped | gap_reconnect.

Inductive TailItem :=
| item_log (seq : nat) (event : TailLogEvent)
| item_gap (seq : nat) (reason : gap_reason) (dropped : Z).

Definition item_seq (i : TailItem) : nat :=
  match i with item_log n _ | item_gap n _ _ => n end.

Definition is_log (i : TailItem) : bool := match i with item_log _ _ => true | _ => false end.

Record UseLogTailOptions := mkUseLogTailOptions {
  op_maxItems : nat;
  op_backoffMs : list Z;
  op_maxReconnectAttempts : nat
}.

Definition DEFAULT_MAX_ITEMS : nat := 1000.
Definition DEFAULT_BACKOFF : list Z := [500; 1000; 2000; 5000; 10000]%Z.
Definition DEFAULT_MAX_RECONNECT_ATTEMPTS : nat := 5.

Definition default_options : UseLogTailOptions :=
  mkUseLogTailOptions DEFAULT_MAX_ITEMS DEFAULT_BACKOFF DEFAULT_MAX_RECONNECT_ATTEMPTS.

Record Stats := mkStats { st_received : nat; st_dropped : Z; st_reconnects : nat }.

(** [effect_ran p]: mounted, and the effect last ran with [paused = p]. *)
Inductive lifecycle := not_mounted | effect_ran (paused : bool) | unmounted.

#[export] Instance lifecycle_eq_dec : EqDecision lifecycle.
Proof. solve_decision. Defined.

Record tail_state := mkTailState {
  (* React state *)
  ts_items : list TailItem;
  ts_status : TailStatus;
  ts_paused : bool;
  ts_stats : Stats;
  (* refs *)
  ts_es : option nat;
  ts_reconnectTimer : option nat;
  ts_flushTimer : option nat;
  ts_attempt : nat;
  ts_stopped : bool;
  ts_sawOpen : bool;
  ts_wantGapOnOpen : bool;
  ts_seq : nat;
  ts_pending : list TailItem;
  ts_statsRef : Stats;
  (* the platform: open sources (have they opened?), timeouts with their delay, intervals *)
  ts_sources : gmap nat bool;
  ts_timeouts : gmap nat Z;
  ts_intervals : gset nat;
  ts_next : nat;                         (* the next platform id *)
  ts_life : lifecycle;
  ts_exhausted : nat;                    (* calls of onReconnectExhausted *)
  (* history *)
  ts_origin : gmap nat nat
}.

Definition set_items (x : list TailItem) (s : tail_state) : tail_state :=
  mkTailState x (ts_status s) (ts_paused s) (ts_stats s) (ts_es s) (ts_reconnectTimer s) (ts_flushTimer s)
    (ts_attempt s) (ts_stopped s) (ts_sawOpen s) (ts_wantGapOnOpen s) (ts_seq s) (ts_pending s) (ts_statsRef s)
    (ts_sources s) (ts_timeouts s) (ts_intervals s) (ts_next s) (ts_life s) (ts_exhausted s) (ts_origin s).
Definition set_status (x : TailStatus) (s : tail_state) : tail_state :=
  mkTailState (ts_items s) x (ts_paused s) (ts_stats s) (ts_es s) (ts_reconnectTimer s) (ts_flushTimer s)
    (ts_attempt s) (ts_stopped s) (ts_sawOpen s) (ts_wantGapOnOpen s) (ts_seq s) (ts_pending s) (ts_statsRef s)
    (ts_sources s) (ts_timeouts s) (ts_intervals s) (ts_next s) (ts_life s) (ts_exhausted s) (ts_origin s).
Definition set_paused (x : bool) (s : tail_state) : tail_state :=
  mkTailState (ts_items s) (ts_status s) x (ts_stats s) (ts_es s) (ts_reconnectTimer s) (ts_flushTimer s)
    (ts_attempt s) (ts_stopped s) (ts_sawOpen s) (ts_wantGapOnOpen s) (ts_seq s) (ts_pending s) (ts_statsRef s)
    (ts_sources s) (ts_timeouts s) (ts_intervals s) (ts_next s) (ts_life s) (ts_exhausted s) (ts_origin s).
Definition set_stats (x : Stats) (s : tail_state) : tail_state :=
  mkTailState (ts_items s) (ts_status s) (ts_paused s) x (ts_es s) (ts_reconnectTimer s) (ts_flushTimer s)
    (ts_attempt s) (ts_stopped s) (ts_sawOpen s) (ts_wantGapOnOpen s) (ts_seq s) (ts_pending s) (ts_statsRef s)
    (ts_sources s) (ts_timeouts s) (ts_intervals s) (ts_next s) (ts_life s) (ts_exhausted s) (ts_origin s).
Definition set_es (x : option nat) (s : tail_state) : tail_state :=
  mkTailState (ts_items s) (ts_status s) (ts_paused s) (ts_stats s) x (ts_reconnectTimer s) (ts_flushTimer s)
    (ts_attempt s) (ts_stopped s) (ts_sawOpen s) (ts_wantGapOnOpen s) (ts_seq s) (ts_pending s) (ts_statsRef s)
    (ts_sources s) (ts_timeouts s) (ts_intervals s) (ts_next s) (ts_life s) (ts_exhausted s) (ts_origin s).
Definition set_reconnectTimer (x : option nat) (s : tail_state) : tail_state :=
  mkTailState (ts_items s) (ts_status s) (ts_paused s) (ts_stats s) (ts_es s) x (ts_flushTimer s) (ts_attempt s)
    (ts_stopped s) (ts_sawOpen s) (ts_wantGapOnOpen s) (ts_seq s) (ts_pending s) (ts_statsRef s) (ts_sources s)
    (ts_timeouts s) (ts_intervals s) (ts_next s) (ts_life s) (ts_exhausted s) (ts_origin s).
Definition set_flushTimer (x : option nat) (s : tail_state) : tail_state :=
  mkTailState (ts_items s) (ts_status s) (ts_paused s) (ts_stats s) (ts_es s) (ts_reconnectTimer s) x
    (ts_attempt s) (ts_stopped s) (ts_sawOpen s) (ts_wantGapOnOpen s) (ts_seq s) (ts_pending s) (ts_statsRef s)
    (ts_sources s) (ts_timeouts s) (ts_intervals s) (ts_next s) (ts_life s) (ts_exhausted s) (ts_origin s).
Definition set_attempt (x : nat) (s : tail_state) : tail_state :=
  mkTailState (ts_items s) (ts_status s) (ts_paused s) (ts_stats s) (ts_es s) (ts_reconnectTimer s)
    (ts_flushTimer s) x (ts_stopped s) (ts_sawOpen s) (ts_wantGapOnOpen s) (ts_seq s) (ts_pending s)
    (ts_statsRef s) (ts_sources s) (ts_timeouts s) (ts_intervals s) (ts_next s) (ts_life s) (ts_exhausted s)
    (ts_origin s).
Definition set_stopped (x : bool) (s : tail_state) : tail_state :=
  mkTailState (ts_items s) (ts_status s) (ts_paused s) (ts_stats s) (ts_es s) (ts_reconnectTimer s)
    (ts_flushTimer s) (ts_attempt s) x (ts_sawOpen s) (ts_wantGapOnOpen s) (ts_seq s) (ts_pending s)
    (ts_statsRef s) (ts_sources s) (ts_timeouts s) (ts_intervals s) (ts_next s) (ts_life s) (ts_exhausted s)
    (ts_origin s).
Definition set_sawOpen (x : bool) (s : tail_state) : tail_state :=
  mkTailState (ts_items s) (ts_status s) (ts_paused s) (ts_stats s) (ts_es s) (ts_reconnectTimer s)
    (ts_flushTimer s) (ts_attempt s) (ts_stopped s) x (ts_wantGapOnOpen s) (ts_seq s) (ts_pending s)
    (ts_statsRef s) (ts_sources s) (ts_timeouts s) (ts_intervals s) (ts_next s) (ts_life s) (ts_exhausted s)
    (ts_origin s).
Definition set_wantGapOnOpen (x : bool) (s : tail_state) : tail_state :=
  mkTailState (ts_items s) (ts_status s) (ts_paused s) (ts_stats s) (ts_es s) (ts_reconnectTimer s)
    (ts_flushTimer s) (ts_attempt s) (ts_stopped s) (ts_sawOpen s) x (ts_seq s) (ts_pending s) (ts_statsRef s)
    (ts_sources s) (ts_timeouts s) (ts_intervals s) (ts_next s) (ts_life s) (ts_exhausted s) (ts_origin s).
Definition set_seq (x : nat) (s : tail_state) : tail_state :=
  mkTailState (ts_items s) (ts_status s) (ts_paused s) (ts_stats s) (ts_es s) (ts_reconnectTimer s)
    (ts_flushTimer s) (ts_attempt s) (ts_stopped s) (ts_sawOpen s) (ts_wantGapOnOpen s) x (ts_pending s)
    (ts_statsRef s) (ts_sources s) (ts_timeouts s) (ts_intervals s) (ts_next s) (ts_life s) (ts_exhausted s)
    (ts_origin s).
Definition set_pending (x : list TailItem) (s : tail_state) : tail_state :=
  mkTailState (ts_items s) (ts_status s) (ts_paused s) (ts_stats s) (ts_es s) (ts_reconnectTimer s)
    (ts_flushTimer s) (ts_attempt s) (ts_stopped s) (ts_sawOpen s) (ts_wantGapOnOpen s) (ts_seq s) x
    (ts_statsRef s) (ts_sources s) (ts_timeouts s) (ts_intervals s) (ts_next s) (ts_life s) (ts_exhausted s)
    (ts_origin s).
Definition set_statsRef (x : Stats) (s : tail_state) : tail_state :=
  mkTailState (ts_items s) (ts_status s) (ts_paused s) (ts_stats s) (ts_es s) (ts_reconnectTimer s)
    (ts_flushTimer s) (ts_attempt s) (ts_stopped s) (ts_sawOpen s) (ts_wantGapOnOpen s) (ts_seq s)
    (ts_pending s) x (ts_sources s) (ts_timeouts s) (ts_intervals s) (ts_next s) (ts_life s) (ts_exhausted s)
    (ts_origin s).
Definition set_sources (x : gmap nat bool) (s : tail_state) : tail_state :=
  mkTailState (ts_items s) (ts_status s) (ts_paused s) (ts_stats s) (ts_es s) (ts_reconnectTimer s)
    (ts_flushTimer s) (ts_attempt s) (ts_stopped s) (ts_sawOpen s) (ts_wantGapOnOpen s) (ts_seq s)
    (ts_pending s) (ts_statsRef s) x (ts_timeouts s) (ts_intervals s) (ts_next s) (ts_life s) (ts_exhausted s)
    (ts_origin s).
Definition set_timeouts (x : gmap nat Z) (s : tail_state) : tail_state :=
  mkTailState (ts_items s) (ts_status s) (ts_paused s) (ts_stats s) (ts_es s) (ts_reconnectTimer s)
    (ts_flushTimer s) (ts_attempt s) (ts_stopped s) (ts_sawOpen s) (ts_wantGapOnOpen s) (ts_seq s)
    (ts_pending s) (ts_statsRef s) (ts_sources s) x (ts_intervals s) (ts_next s) (ts_life s) (ts_exhausted s)
    (ts_origin s).
Definition set_intervals (x : gset nat) (s : tail_state) : tail_state :=
  mkTailState (ts_items s) (ts_status s) (ts_paused s) (ts_stats s) (ts_es s) (ts_reconnectTimer s)
    (ts_flushTimer s) (ts_attempt s) (ts_stopped s) (ts_sawOpen s) (ts_wantGapOnOpen s) (ts_seq s)
    (ts_pending s) (ts_statsRef s) (ts_sources s) (ts_timeouts s) x (ts_next s) (ts_life s) (ts_exhausted s)
    (ts_origin s).
Definition set_next (x : nat) (s : tail_state) : tail_state :=
  mkTailState (ts_items s) (ts_status s) (ts_paused s) (ts_stats s) (ts_es s) (ts_reconnectTimer s)
    (ts_flushTimer s) (ts_attempt s) (ts_stopped s) (ts_sawOpen s) (ts_wantGapOnOpen s) (ts_seq s)
    (ts_pending s) (ts_statsRef s) (ts_sources s) (ts_timeouts s) (ts_intervals s) x (ts_life s)
    (ts_exhausted s) (ts_origin s).
Definition set_life (x : lifecycle) (s : tail_state) : tail_state :=
  mkTailState (ts_items s) (ts_status s) (ts_paused s) (ts_stats s) (ts_es s) (ts_reconnectTimer s)
    (ts_flushTimer s) (ts_attempt s) (ts_stopped s) (ts_sawOpen s) (ts_wantGapOnOpen s) (ts_seq s)
    (ts_pending s) (ts_statsRef s) (ts_sources s) (ts_timeouts s) (ts_intervals s) (ts_next s) x
    (ts_exhausted s) (ts_origin s).
Definition set_exhausted (x : nat) (s : tail_state) : tail_state :=
  mkTailState (ts_items s) (ts_status s) (ts_paused s) (ts_stats s) (ts_es s) (ts_reconnectTimer s)
    (ts_flushTimer s) (ts_attempt s) (ts_stopped s) (ts_sawOpen s) (ts_wantGapOnOpen s) (ts_seq s)
    (ts_pending s) (ts_statsRef s) (ts_sources s) (ts_timeouts s) (ts_intervals s) (ts_next s) (ts_life s) x
    (ts_origin s).
Definition set_origin (x : gmap nat nat) (s : tail_state) : tail_state :=
  mkTailState (ts_items s) (ts_status s) (ts_paused s) (ts_stats s) (ts_es s) (ts_reconnectTimer s)
    (ts_flushTimer s) (ts_attempt s) (ts_stopped s) (ts_sawOpen s) (ts_wantGapOnOpen s) (ts_seq s)
    (ts_pending s) (ts_statsRef s) (ts_sources s) (ts_timeouts s) (ts_intervals s) (ts_next s) (ts_life s)
    (ts_exhausted s) x.

Definition initial_tail : tail_state :=
  mkTailState [] connecting false (mkStats 0 0 0) None None None 0 false false false 0 [] (mkStats 0 0 0)
    ∅ ∅ ∅ 0 not_mounted 0 ∅.

(** ** Operations *)

Section Tail.
Context `{Zod} (cfg : UseLogTailOptions).

Definition pushItem (item : nat -> TailItem) (s : tail_state) : tail_state :=
  set_seq (S (ts_seq s)) (set_pending (ts_pending s ++ [item (ts_seq s)]) s).

(** [merged.length > max ? merged.slice(merged.length - max) : merged]. *)
Definition keep_last {A} (max : nat) (merged : list A) : list A :=
  if max <? length merged then drop (length merged - max) merged else merged.

Definition flush (s : tail_state) : tail_state :=
  let pending := ts_pending s in
  let s := set_pending [] s in
  let s := if 0 <? length pending then set_items (keep_last (op_maxItems cfg) (ts_items s ++ pending)) s else s in
  set_stats (ts_statsRef s) s.

Definition closeSource (s : tail_state) : tail_state :=
  match ts_es s with
  | Some i => set_es None (set_sources (delete i (ts_sources s)) s)
  | None => s
  end.

Definition connect (s : tail_state) : tail_state :=
  if ts_stopped s then s
  else
    let i := ts_next s in
    set_es (Some i) (set_sources (<[i := false]> (ts_sources s)) (set_next (S i) s)).

Definition bump_received (t : Stats) : Stats := mkStats (S (st_received t)) (st_dropped t) (st_reconnects t).
Definition bump_dropped (n : Z) (t : Stats) : Stats := mkStats (st_received t) (st_dropped t + n) (st_reconnects t).
Definition bump_reconnects (t : Stats) : Stats := mkStats (st_received t) (st_dropped t) (S (st_reconnects t)).

(** The listeners of a source. *)
Definition on_open (i : nat) (s : tail_state) : tail_state :=
  let s := set_sources (<[i := true]> (ts_sources s)) s in
  let s := set_attempt 0 s in
  let s := if ts_wantGapOnOpen s
           then set_wantGapOnOpen false
                  (set_statsRef (bump_reconnects (ts_statsRef s)) (pushItem (fun n => item_gap n gap_reconnect 0) s))
           else s in
  set_status streaming (set_sawOpen true s).

Definition on_message (i : nat) (data : jsstr) (s : tail_state) : tail_state :=
  match parseLogFrame data with
  | None => s
  | Some log =>
      let s := set_origin (<[ts_seq s := i]> (ts_origin s)) s in
      let s := pushItem (fun n => item_log n log) s in
      set_statsRef (bump_received (ts_statsRef s)) s
  end.

Definition on_gap (data : jsstr) (s : tail_state) : tail_state :=
  let dropped := parseGapFrame data in
  let s := pushItem (fun n => item_gap n gap_dropped dropped) s in
  set_statsRef (bump_dropped dropped (ts_statsRef s)) s.

(** [backoff[idx] ?? backoff[backoff.length - 1] ?? 1000]. *)
Definition retry_delay (attempt : nat) : Z :=
  default 1000%Z (op_backoffMs cfg !! (attempt `min` (length (op_backoffMs cfg) - 1))).

Definition on_error (s : tail_state) : tail_state :=
  if ts_stopped s then s
  else
    let s := set_wantGapOnOpen true (closeSource s) in
    if op_maxReconnectAttempts cfg <=? ts_attempt s
    then set_exhausted (S (ts_exhausted s)) (set_status offline s)
    else
      let s := set_status reconnecting s in
      let delay := retry_delay (ts_attempt s) in
      let s := set_attempt (S (ts_attempt s)) s in
      let t := ts_next s in
      set_reconnectTimer (Some t) (set_timeouts (<[t := delay]> (ts_timeouts s)) (set_next (S t) s)).

Definition clear_reconnectTimer (s : tail_state) : tail_state :=
  match ts_reconnectTimer s with
  | Some t => set_reconnectTimer None (set_timeouts (delete t (ts_timeouts s)) s)
  | None => s
  end.

Definition stop (s : tail_state) : tail_state :=
  let s := clear_reconnectTimer (set_stopped true s) in
  let s := match ts_flushTimer s with
           | Some t => set_flushTimer None (set_intervals (ts_intervals s ∖ {[t]}) s)
           | None => s
           end in
  flush (closeSource s).

Definition start_flushTimer (s : tail_state) : tail_state :=
  let t := ts_next s in
  set_flushTimer (Some t) (set_intervals ({[t]} ∪ ts_intervals s) (set_next (S t) s)).

(** The effect on [paused], and its cleanup. *)
Definition effect (s : tail_state) : tail_state :=
  let s := set_life (effect_ran (ts_paused s)) s in
  if ts_paused s then set_status paused_status s
  else
    let s := set_attempt 0 (set_stopped false s) in
    let s := if ts_sawOpen s then set_status reconnecting (set_wantGapOnOpen true s) else set_status connecting s in
    connect (start_flushTimer s).

Definition cleanup (s : tail_state) : tail_state :=
  if bool_decide (ts_life s = effect_ran false) then stop s else s.

Definition pause (s : tail_state) : tail_state := set_paused true s.
Definition resume (s : tail_state) : tail_state := set_paused false s.

Definition reconnect (s : tail_state) : tail_state :=
  if ts_stopped s then s
  else
    let s := set_wantGapOnOpen true (set_attempt 0 (clear_reconnectTimer s)) in
    let s := match ts_flushTimer s with Some _ => s | None => start_flushTimer s end in
    connect (set_status reconnecting s).

Definition clear (s : tail_state) : tail_state := set_items [] (set_pending [] s).

(** ** Steps *)

Inductive tail_event :=
| ev_mount
| ev_commit                                (* React commits a changed [paused] *)
| ev_unmount
| ev_open (source : nat)
| ev_message (source : nat) (data : jsstr)
| ev_gap (source : nat) (data : jsstr)
| ev_error (source : nat)
| ev_timeout (timer : nat)
| ev_interval (timer : nat)
| ev_pause
| ev_resume
| ev_reconnect
| ev_clear.

(** When an event can happen.  A source delivers frames once it has opened, and nothing
    once it is closed; the toolbar offers Reconnect when the tail is offline, and Pause
    or Resume otherwise. *)
Definition enabled (ev : tail_event) (s : tail_state) : bool :=
  let mounted := match ts_life s with effect_ran _ => true | _ => false end in
  match ev with
  | ev_mount => bool_decide (ts_life s = not_mounted)
  | ev_commit => mounted && negb (bool_decide (ts_life s = effect_ran (ts_paused s)))
  | ev_unmount => mounted
  | ev_open i => bool_decide (ts_sources s !! i = Some false)
  | ev_message i _ | ev_gap i _ => bool_decide (ts_sources s !! i = Some true)
  | ev_error i => bool_decide (is_Some (ts_sources s !! i))
  | ev_timeout t => bool_decide (is_Some (ts_timeouts s !! t))
  | ev_interval t => bool_decide (t ∈ ts_intervals s)
  | ev_pause => mounted && negb (ts_paused s) && negb (bool_decide (ts_status s = offline))
  | ev_resume => mounted && ts_paused s && negb (bool_decide (ts_status s = offline))
  | ev_reconnect => mounted && bool_decide (ts_status s = offline)
  | ev_clear => mounted
  end.

Definition react (ev : tail_event) (s : tail_state) : tail_state :=
  match ev with
  | ev_mount => effect s
  | ev_commit => effect (cleanup s)
  | ev_unmount => set_life unmounted (cleanup s)
  | ev_open i => on_open i s
  | ev_message i data => on_message i data s
  | ev_gap _ data => on_gap data s
  | ev_error _ => on_error s
  | ev_timeout t => connect (set_timeouts (delete t (ts_timeouts s)) s)
  | ev_interval _ => flush s
  | ev_pause => pause s
  | ev_resume => resume s
  | ev_reconnect => reconnect s
  | ev_clear => clear s
  end.

Inductive tail_step : tail_state -> tail_event -> tail_state -> Prop :=
| tail_step_intro s ev : enabled ev s = true -> tail_step s ev (react ev s).

Inductive reachable : tail_state -> Prop :=
| reachable_initial : reachable initial_tail
| reachable_step s ev s' : reachable s -> tail_step s ev s' -> reachable s'.

(** ** What is promised *)

(** All rows, shown or buffered, in stream order. *)
Definition rows (s : tail_state) : list TailItem := ts_items s ++ ts_pending s.

Definition from (s : tail_state) (i : TailItem) : option nat := ts_origin s !! item_seq i.

(** Between two logs of different connections there is a gap marker. *)
Definition gapped (o : gmap nat nat) (l : list TailItem) : Prop :=
  forall pre a mid b post,
    l = pre ++ a :: mid ++ b :: post -> is_log a = true -> is_log b = true ->
    o !! item_seq a <> o !! item_seq b -> Exists (fun i => is_log i = false) mid.

(** The logs with no gap marker after them came from source [i]. *)
Definition run_of (o : gmap nat nat) (i : nat) (l : list TailItem) : Prop :=
  forall pre a post, l = pre ++ a :: post -> Forall (fun x => is_log x = true) (a :: post) ->
    o !! item_seq a = Some i.

Definition ordered (n : nat) (l : list TailItem) : Prop :=
  StronglySorted lt (item_seq <$> l) /\ Forall (fun i => item_seq i < n) l.


(** The connection: at most one source, or else at most one retry, and neither when
    stopped; one interval; bounded retries; and while the tail runs it is not stuck. *)
Record conn_inv (s : tail_state) : Prop := {
  ci_one i b : ts_sources s !! i = Some b -> ts_es s = Some i;
  ci_es i : ts_es s = Some i -> is_Some (ts_sources s !! i);
  ci_timer t : is_Some (ts_timeouts s !! t) -> ts_reconnectTimer s = Some t;
  ci_idle : ts_es s <> None -> ts_timeouts s = ∅;
  ci_offline : ts_status s = offline -> ts_es s = None /\ ts_timeouts s = ∅;
  ci_flush t : t ∈ ts_intervals s -> ts_flushTimer s = Some t;
  ci_stop : ts_stopped s = true -> ts_es s = None /\ ts_timeouts s = ∅ /\ ts_intervals s = ∅;
  ci_life : match ts_life s with
            | not_mounted => ts_es s = None /\ ts_timeouts s = ∅ /\ ts_intervals s = ∅ /\ ts_paused s = false
            | effect_ran p => ts_stopped s = p
            | unmounted => ts_stopped s = true
            end;
  ci_live : ts_life s = effect_ran false -> ts_status s = offline \/ is_Some (ts_es s) \/ ts_timeouts s <> ∅;
  ci_attempt : ts_attempt s <= op_maxReconnectAttempts cfg
}.

(** * Lemmas *)

(** Reading and writing of fields. *)
Ltac tcbn :=
  cbn [ts_items ts_status ts_paused ts_stats ts_es ts_reconnectTimer ts_flushTimer ts_attempt ts_stopped ts_sawOpen
    ts_wantGapOnOpen ts_seq ts_pending ts_statsRef ts_sources ts_timeouts ts_intervals ts_next ts_life
    ts_exhausted ts_origin set_items set_status set_paused set_stats set_es set_reconnectTimer set_flushTimer
    set_attempt set_stopped set_sawOpen set_wantGapOnOpen set_seq set_pending set_statsRef set_sources
    set_timeouts set_intervals set_next set_life set_exhausted set_origin] in *.

Lemma sources_closed s : conn_inv s -> ts_es s = None -> ts_sources s = ∅.
Proof.
  intros Hi He. apply map_empty. intros i. destruct (ts_sources s !! i) eqn:E; [|done].
  apply (ci_one _ Hi) in E. congruence.
Qed.

Lemma sources_one s i : conn_inv s -> ts_es s = Some i -> delete i (ts_sources s) = ∅.
Proof.
  intros Hi He. apply map_empty. intros j. destruct (decide (i = j)) as [->|Hne]; [apply lookup_delete_eq|].
  rewrite lookup_delete_ne by done. destruct (ts_sources s !! j) eqn:E; [|done].
  apply (ci_one _ Hi) in E. congruence.
Qed.

Lemma timeouts_one s t : conn_inv s -> ts_reconnectTimer s = Some t -> delete t (ts_timeouts s) = ∅.
Proof.
  intros Hi He. apply map_empty. intros j. destruct (decide (t = j)) as [->|Hne]; [apply lookup_delete_eq|].
  rewrite lookup_delete_ne by done. destruct (ts_timeouts s !! j) eqn:E; [|done].
  assert (ts_reconnectTimer s = Some j) by (apply (ci_timer _ Hi); by rewrite E). congruence.
Qed.

(** A state with nothing running. *)
Definition idle (s : tail_state) : Prop :=
  ts_es s = None /\ ts_sources s = ∅ /\ ts_timeouts s = ∅ /\ ts_intervals s = ∅.

(** The connection is the same. *)
Definition same_conn (s s' : tail_state) : Prop :=
  ts_es s' = ts_es s /\ ts_reconnectTimer s' = ts_reconnectTimer s /\ ts_flushTimer s' = ts_flushTimer s /\
  ts_attempt s' = ts_attempt s /\ ts_stopped s' = ts_stopped s /\ ts_sources s' = ts_sources s /\
  ts_timeouts s' = ts_timeouts s /\ ts_intervals s' = ts_intervals s /\ ts_life s' = ts_life s /\
  ts_status s' = ts_status s /\ ts_paused s' = ts_paused s.

Lemma same_conn_inv s s' : same_conn s s' -> conn_inv s -> conn_inv s'.
Proof.
  intros (E1 & E2 & E3 & E4 & E5 & E6 & E7 & E8 & E9 & E10 & E11) [].
  split; rewrite ?E1, ?E2, ?E3, ?E4, ?E5, ?E6, ?E7, ?E8, ?E9, ?E10, ?E11; done.
Qed.

Lemma flush_conn s : same_conn s (flush s).
Proof. unfold flush. destruct (0 <? length (ts_pending s)); done. Qed.

Lemma on_message_conn i data s : same_conn s (on_message i data s).
Proof. unfold on_message. by destruct (parseLogFrame data). Qed.

Lemma stop_idle s :
  conn_inv s -> idle (stop s) /\ ts_stopped (stop s) = true /\ ts_attempt (stop s) = ts_attempt s.
Proof.
  intros Hi. unfold stop.
  set (s1 := clear_reconnectTimer (set_stopped true s)).
  set (s2 := match ts_flushTimer s1 with Some _ => _ | None => _ end).
  destruct (flush_conn (closeSource s2)) as (E1 & E2 & E3 & E4 & E5 & E6 & E7 & E8 & E9 & E10 & E11).
  unfold idle. rewrite E1, E4, E5, E6, E7, E8.
  assert (H1 : ts_timeouts s1 = ∅ /\ ts_es s1 = ts_es s /\ ts_sources s1 = ts_sources s /\
    ts_intervals s1 = ts_intervals s /\ ts_flushTimer s1 = ts_flushTimer s /\ ts_stopped s1 = true /\
    ts_attempt s1 = ts_attempt s).
  { subst s1. unfold clear_reconnectTimer. tcbn. destruct (ts_reconnectTimer s) as [t|] eqn:Et; tcbn.
    - by rewrite (timeouts_one _ _ Hi Et).
    - split_and!; try done. apply map_empty. intros t. destruct (ts_timeouts s !! t) eqn:E; [|done].
      assert (ts_reconnectTimer s = Some t) by (apply (ci_timer _ Hi); by rewrite E). congruence. }
  destruct H1 as (Ht & He & Hs & Hn & Hf & Hst & Ha).
  assert (H2 : ts_intervals s2 = ∅ /\ ts_timeouts s2 = ∅ /\ ts_es s2 = ts_es s /\ ts_sources s2 = ts_sources s /\
    ts_stopped s2 = true /\ ts_attempt s2 = ts_attempt s).
  { subst s2. rewrite Hf. destruct (ts_flushTimer s) as [t|] eqn:Ef; tcbn; rewrite ?Hn; split_and!; try done.
    - apply set_eq. intros x. pose proof (ci_flush _ Hi x). set_solver.
    - apply set_eq. intros x. pose proof (ci_flush _ Hi x). set_solver. }
  destruct H2 as (Hn2 & Ht2 & He2 & Hs2 & Hst2 & Ha2). unfold closeSource. rewrite He2.
  destruct (ts_es s) as [i|] eqn:Ei; tcbn; split_and!; try congruence; try done.
  - rewrite Hs2. by apply sources_one.
  - rewrite Hs2. by apply sources_closed.
Qed.

(** A connection opened from nothing. *)
Lemma connect_inv s :
  ts_stopped s = false -> ts_sources s = ∅ -> ts_timeouts s = ∅ ->
  (forall t, t ∈ ts_intervals s -> ts_flushTimer s = Some t) ->
  ts_life s = effect_ran false -> ts_status s <> offline -> ts_attempt s <= op_maxReconnectAttempts cfg ->
  conn_inv (connect s).
Proof.
  intros Hst Hs Ht Hf Hl Ho Ha. unfold connect. rewrite Hst.
  split; tcbn; rewrite ?Hs, ?Ht, ?Hl, ?Hst; try done.
  - intros i b. rewrite lookup_insert_Some, lookup_empty. naive_solver.
  - intros i [= <-]. by rewrite lookup_insert_eq.
  - intros t. rewrite lookup_empty. by intros [].
  - intros _. right. left. done.
Qed.

Lemma effect_inv s :
  idle s -> (ts_paused s = true -> ts_stopped s = true) ->
  ts_attempt s <= op_maxReconnectAttempts cfg -> conn_inv (effect s).
Proof.
  intros (He & Hs & Ht & Hn) Hp Ha. unfold effect. tcbn. destruct (ts_paused s) eqn:Ep.
  - split; tcbn; rewrite ?He, ?Hs, ?Ht, ?Hn; try done.
    + intros t. rewrite lookup_empty. by intros [].
    + by apply Hp.
  - destruct (ts_sawOpen s); apply connect_inv; unfold start_flushTimer; tcbn; try done; try lia; rewrite ?Hn; set_solver.
Qed.

Lemma on_error_inv s i : conn_inv s -> is_Some (ts_sources s !! i) -> conn_inv (on_error s).
Proof.
  intros Hi [b Hb]. apply (ci_one _ Hi) in Hb as He. pose proof (sources_one _ _ Hi He) as Hs.
  assert (Hst : ts_stopped s = false).
  { destruct (ts_stopped s) eqn:E; [|done]. apply (ci_stop _ Hi) in E as [E _]. congruence. }
  assert (Ht : ts_timeouts s = ∅) by (apply (ci_idle _ Hi); congruence).
  unfold on_error, closeSource. rewrite Hst, He. tcbn. pose proof (ci_life _ Hi) as Hl. pose proof (ci_flush _ Hi) as Hf.
  destruct (Nat.leb_spec (op_maxReconnectAttempts cfg) (ts_attempt s)) as [Hm|Hm].
  - split; tcbn; rewrite ?Hs, ?Ht, ?Hst; try done.
    + intros t. rewrite lookup_empty. by intros [].
    + destruct (ts_life s); [destruct Hl|..]; congruence.
    + intros _. by left.
    + apply (ci_attempt _ Hi).
  - split; tcbn; rewrite ?Hs, ?Ht, ?Hst; try done; try lia.
    + intros t [d Hd]. apply lookup_insert_Some in Hd as [[<- _]|[_ Hd]]; [done|]. by rewrite lookup_empty in Hd.
    + destruct (ts_life s); [destruct Hl|..]; congruence.
    + intros _. right. right. apply insert_non_empty.
Qed.

Lemma on_open_inv s i : conn_inv s -> ts_sources s !! i = Some false -> conn_inv (on_open i s).
Proof.
  intros Hi Hb. apply (ci_one _ Hi) in Hb as He. unfold on_open. tcbn.
  assert (Hn : forall (x : tail_state), same_conn (set_status streaming (set_attempt 0
    (set_sources (<[i := true]> (ts_sources s)) s))) x -> conn_inv x).
  { intros x Hx. eapply same_conn_inv; [exact Hx|]. destruct Hi as [I1 I2 I3 I4 I5 I6 I7 I8 I9 I10].
    split; tcbn; try done; try lia.
    - intros j b. rewrite lookup_insert_Some. intros [[<- _]|[_ Hj]]; [done|by apply I1 in Hj].
    - intros j Hj. assert (j = i) as -> by congruence. by rewrite lookup_insert_eq.
    - intros Hl. right. left. by rewrite He. }
  apply Hn. destruct (ts_wantGapOnOpen s); done.
Qed.

Lemma reconnect_inv s :
  conn_inv s -> ts_status s = offline -> (exists p, ts_life s = effect_ran p) -> conn_inv (reconnect s).
Proof.
  intros Hi Ho [p Hl]. unfold reconnect. destruct (ts_stopped s) eqn:Hst; [done|].
  assert (Hp : p = false) by (pose proof (ci_life _ Hi) as E; rewrite Hl in E; congruence). subst p.
  destruct (ci_offline _ Hi Ho) as [He Ht]. pose proof (sources_closed _ Hi He) as Hs. pose proof (ci_flush _ Hi) as Hf.
  unfold clear_reconnectTimer. destruct (ts_reconnectTimer s), (ts_flushTimer s) eqn:Ef; tcbn; rewrite ?Ef;
    apply connect_inv; unfold start_flushTimer; tcbn; rewrite ?Ht; try done; try lia; try apply delete_empty; set_solver.
Qed.

Lemma set_paused_inv b s : conn_inv s -> ts_life s <> not_mounted -> conn_inv (set_paused b s).
Proof. intros [] Hl. split; tcbn; try done. by destruct (ts_life s). Qed.

Lemma cleanup_idle s :
  conn_inv s -> match ts_life s with effect_ran _ => true | _ => false end = true ->
  idle (cleanup s) /\ ts_stopped (cleanup s) = true /\ ts_attempt (cleanup s) = ts_attempt s.
Proof.
  intros Hi Hm. unfold cleanup. case_bool_decide as Hl; [by apply stop_idle|].
  assert (Hst : ts_stopped s = true).
  { pose proof (ci_life _ Hi) as E. destruct (ts_life s) as [|[]|]; done. }
  destruct (ci_stop _ Hi Hst) as (He & Ht & Hn). split_and!; try done. split_and!; try done. by apply sources_closed.
Qed.

Lemma timeout_inv s t :
  conn_inv s -> is_Some (ts_timeouts s !! t) -> conn_inv (connect (set_timeouts (delete t (ts_timeouts s)) s)).
Proof.
  intros Hi Ht. apply (ci_timer _ Hi) in Ht as Hr. pose proof (timeouts_one _ _ Hi Hr) as Hd.
  assert (Hne : ts_timeouts s <> ∅) by (intros E; rewrite E, lookup_empty in Ht; by destruct Ht).
  assert (He : ts_es s = None).
  { destruct (ts_es s) eqn:E; [|done]. destruct Hne. apply (ci_idle _ Hi). congruence. }
  assert (Hst : ts_stopped s = false).
  { destruct (ts_stopped s) eqn:E; [|done]. destruct Hne. by apply (ci_stop _ Hi). }
  apply connect_inv; tcbn; try done.
  - by apply sources_closed.
  - apply (ci_flush _ Hi).
  - pose proof (ci_life _ Hi) as E. destruct (ts_life s) as [|p|]; [by destruct E as (_ & E & _)|congruence|congruence].
  - intros E. destruct Hne. by apply (ci_offline _ Hi).
  - apply (ci_attempt _ Hi).
Qed.

Lemma conn_inv_step s ev s' : conn_inv s -> tail_step s ev s' -> conn_inv s'.
Proof.
  intros Hi Hstep. destruct Hstep as [s ev He]. destruct ev as [| | |i|i data|i data|i|t|t| | | |]; cbn [react enabled] in *.
  - apply bool_decide_eq_true in He. pose proof (ci_life _ Hi) as Hl. rewrite He in Hl. destruct Hl as (H1 & H2 & H3 & H4).
    apply effect_inv; [|congruence|apply (ci_attempt _ Hi)].
    split_and!; try done. by apply sources_closed.
  - apply andb_true_iff in He as [Hm _]. destruct (cleanup_idle s Hi Hm) as (Hd & Hst & Ha).
    apply effect_inv; [done|done|]. rewrite Ha. apply (ci_attempt _ Hi).
  - destruct (cleanup_idle s Hi He) as ((He' & Hs & Ht & Hn) & Hst & Ha).
    split; tcbn; rewrite ?He', ?Hs, ?Ht, ?Hn, ?Ha; try done.
    + intros t. rewrite lookup_empty. by intros [].
    + apply (ci_attempt _ Hi).
  - by apply on_open_inv; [|apply bool_decide_eq_true in He].
  - eapply same_conn_inv; [apply on_message_conn|done].
  - by eapply same_conn_inv; [|exact Hi].
  - apply bool_decide_eq_true in He. by apply on_error_inv with i.
  - apply bool_decide_eq_true in He. by apply timeout_inv.
  - eapply same_conn_inv; [apply flush_conn|done].
  - apply set_paused_inv; [done|]. by destruct (ts_life s).
  - apply set_paused_inv; [done|]. by destruct (ts_life s).
  - apply andb_true_iff in He as [Hm He%bool_decide_eq_true]. apply reconnect_inv; [done|done|].
    destruct (ts_life s); try done. by eexists.
  - by eapply same_conn_inv; [|exact Hi].
Qed.

Lemma conn_inv_initial : conn_inv initial_tail.
Proof. split; try done; cbn; try lia. intros t. rewrite lookup_empty. by intros []. Qed.

Lemma reachable_conn s : reachable s -> conn_inv s.
Proof. induction 1 as [|s ev s' _ IH Hs]; [apply conn_inv_initial|by eapply conn_inv_step]. Qed.

(** ** Rows *)

Lemma ordered_suffix n l l' : l' `suffix_of` l -> ordered n l -> ordered n l'.
Proof.
  intros [k ->] [Hs Hf]. rewrite fmap_app in Hs. apply Forall_app in Hf as [_ Hf]. split; [|done].
  clear Hf. induction k as [|x k IH]; [done|]. apply IH. cbn in Hs. by apply StronglySorted_inv in Hs as [].
Qed.

Lemma gapped_suffix o l l' : l' `suffix_of` l -> gapped o l -> gapped o l'.
Proof.
  intros [k ->] Hg pre a mid b post ->. apply (Hg (k ++ pre) a mid b post). by rewrite app_assoc.
Qed.

Lemma run_of_suffix o i l l' : l' `suffix_of` l -> run_of o i l -> run_of o i l'.
Proof. intros [k ->] Hr pre a post ->. apply (Hr (k ++ pre) a post). by rewrite app_assoc. Qed.

Lemma ordered_push n l x : ordered n l -> item_seq x = n -> ordered (S n) (l ++ [x]).
Proof.
  intros [Hs Hf] Hx. split.
  - rewrite fmap_app. cbn [fmap list_fmap]. rewrite Hx.
    induction l as [|y l IH]; cbn [fmap list_fmap app] in *; [repeat constructor|].
    apply StronglySorted_inv in Hs as [Hs Hy]. apply Forall_cons in Hf as [Hyn Hf].
    constructor; [by apply IH|]. apply Forall_app. split; [done|by repeat constructor].
  - apply Forall_app. split; [|constructor; [lia|constructor]]. eapply Forall_impl; [exact Hf|]. cbn. lia.
Qed.

(** The last element of a decomposed list. *)
Lemma split_last {A} (l pre post : list A) a x :
  l ++ [x] = pre ++ a :: post -> (post = [] /\ l = pre /\ a = x) \/ exists post', post = post' ++ [x] /\ l = pre ++ a :: post'.
Proof.
  destruct post as [|y post _] using rev_ind; intros E.
  - left. by apply app_inj_tail in E as [-> ->].
  - right. exists post. rewrite app_comm_cons, app_assoc in E. by apply app_inj_tail in E as [-> ->].
Qed.

(** Appending an item that is separated from the logs of other sources. *)
Lemma gapped_push o l x :
  gapped o l ->
  (is_log x = true -> forall pre a mid, l = pre ++ a :: mid -> is_log a = true ->
     o !! item_seq a <> o !! item_seq x -> Exists (fun i => is_log i = false) mid) ->
  gapped o (l ++ [x]).
Proof.
  intros Hg Hx pre a mid b post E Ha Hb Ho. rewrite app_comm_cons, app_assoc in E.
  apply split_last in E as [(-> & -> & ->)|(post' & -> & ->)].
  - by apply (Hx Hb pre a mid).
  - apply (Hg pre a mid b post'); try done. by rewrite <-app_assoc.
Qed.

Lemma gapped_push_gap o l x : gapped o l -> is_log x = false -> gapped o (l ++ [x]).
Proof. intros Hg Hx. apply gapped_push; [done|congruence]. Qed.

Lemma run_of_gap o i l x : is_log x = false -> run_of o i (l ++ [x]).
Proof.
  intros Hx pre a post E HF. apply split_last in E as [(-> & _ & ->)|(post' & -> & _)].
  - apply Forall_cons in HF as [HF _]. congruence.
  - apply Forall_cons in HF as [_ HF]. apply Forall_app in HF as [_ HF]. apply Forall_cons in HF as [HF _]. congruence.
Qed.

(** A new origin does not concern the old rows. *)
Lemma origin_fresh n i (o : gmap nat nat) l a : Forall (fun x => item_seq x < n) l -> a ∈ l -> <[n := i]> o !! item_seq a = o !! item_seq a.
Proof. intros Hf Ha. rewrite Forall_forall in Hf. specialize (Hf a Ha). rewrite lookup_insert_ne; [done|lia]. Qed.

Lemma gapped_fresh n i o l : Forall (fun x => item_seq x < n) l -> gapped o l -> gapped (<[n := i]> o) l.
Proof.
  intros Hf Hg pre a mid b post E Ha Hb. rewrite !(origin_fresh n i o l) by (done || (rewrite E; set_solver)).
  by apply (Hg pre a mid b post).
Qed.

Lemma run_of_fresh n i j o l : Forall (fun x => item_seq x < n) l -> run_of o j l -> run_of (<[n := i]> o) j l.
Proof.
  intros Hf Hr pre a post E HF. rewrite (origin_fresh n i o l) by (done || (rewrite E; set_solver)).
  by apply (Hr pre a post).
Qed.

Lemma push_log n i o l x :
  ordered n l -> gapped o l -> run_of o i l -> is_log x = true -> item_seq x = n ->
  gapped (<[n := i]> o) (l ++ [x]) /\ run_of (<[n := i]> o) i (l ++ [x]).
Proof.
  intros [_ Hf] Hg Hr Hx <-. set (o' := <[item_seq x := i]> o).
  assert (Hr' : run_of o' i l) by by apply run_of_fresh. assert (Hx' : o' !! item_seq x = Some i) by apply lookup_insert_eq.
  split.
  - apply gapped_push; [by apply gapped_fresh|]. intros _ pre a mid E Ha Ho.
    destruct (decide (Forall (fun y => is_log y = true) mid)) as [Hm|Hm].
    + destruct Ho. rewrite Hx'. apply (Hr' pre a mid E). by constructor.
    + apply not_Forall_Exists in Hm; [|apply _]. eapply Exists_impl; [exact Hm|]. cbn. intros y. by destruct (is_log y).
  - intros pre a post E HF. apply split_last in E as [(-> & -> & ->)|(post' & -> & ->)]; [done|].
    apply (Hr' pre a post'); [done|]. apply Forall_cons in HF as [Ha HF]. apply Forall_app in HF as [HF _]. by constructor.
Qed.

Record rows_inv (s : tail_state) : Prop := {
  ri_len : length (ts_items s) <= op_maxItems cfg;
  ri_ordered : ordered (ts_seq s) (rows s);
  ri_gapped : gapped (ts_origin s) (rows s);
  ri_run i : ts_sources s !! i = Some true -> run_of (ts_origin s) i (rows s);
  ri_want : ts_stopped s = false -> ts_wantGapOnOpen s = false ->
            (exists i, ts_sources s !! i = Some true) \/ ts_sawOpen s = false;
  ri_saw i : ts_sources s !! i = Some true -> ts_sawOpen s = true;
  ri_none : ts_sawOpen s = false -> Forall (fun i => is_log i = false) (rows s)
}.

Lemma run_of_none o i l : Forall (fun x => is_log x = false) l -> run_of o i l.
Proof.
  intros Hn pre a post -> HF. apply Forall_app in Hn as [_ Hn]. apply Forall_cons in Hn as [Hn _].
  apply Forall_cons in HF as [HF _]. congruence.
Qed.

(** No new rows. *)
Definition no_push (s s' : tail_state) : Prop :=
  ts_seq s' = ts_seq s /\ ts_origin s' = ts_origin s /\ ts_sawOpen s' = ts_sawOpen s /\
  rows s' `suffix_of` rows s /\ (length (ts_items s) <= op_maxItems cfg -> length (ts_items s') <= op_maxItems cfg).

Lemma no_push_trans s1 s2 s3 : no_push s1 s2 -> no_push s2 s3 -> no_push s1 s3.
Proof.
  intros (E1 & E2 & E3 & H1 & H2) (E4 & E5 & E6 & H3 & H4). split_and!; try congruence; [by trans (rows s2)|auto].
Qed.

Lemma no_push_same s s' :
  ts_items s' = ts_items s -> ts_pending s' = ts_pending s -> ts_seq s' = ts_seq s -> ts_origin s' = ts_origin s ->
  ts_sawOpen s' = ts_sawOpen s -> no_push s s'.
Proof. intros E1 E2 E3 E4 E5. unfold no_push, rows. by rewrite E1, E2. Qed.

Lemma keep_last_spec {A} max (l : list A) : keep_last max l `suffix_of` l /\ length (keep_last max l) <= max.
Proof.
  unfold keep_last. destruct (Nat.ltb_spec max (length l)).
  - split; [|rewrite length_drop; lia]. exists (take (length l - max) l). by rewrite take_drop.
  - split; [done|lia].
Qed.

Lemma flush_no_push s : no_push s (flush s).
Proof.
  unfold flush, no_push, rows. destruct (ts_pending s) as [|x l] eqn:E; cbn [length Nat.ltb Nat.leb]; tcbn.
  - by split_and!.
  - destruct (keep_last_spec (op_maxItems cfg) (ts_items s ++ x :: l)) as [H1 H2]. rewrite app_nil_r. by split_and!.
Qed.

Lemma stop_no_push s : no_push s (stop s).
Proof.
  unfold stop. eapply no_push_trans; [|apply flush_no_push]. unfold closeSource, clear_reconnectTimer. tcbn.
  destruct (ts_reconnectTimer s); tcbn; destruct (ts_flushTimer s); tcbn; destruct (ts_es s); by apply no_push_same.
Qed.

Lemma cleanup_no_push s : no_push s (cleanup s).
Proof. unfold cleanup. case_bool_decide; [apply stop_no_push|by apply no_push_same]. Qed.

Lemma effect_no_push s : no_push s (effect s).
Proof.
  unfold effect, connect, start_flushTimer. tcbn. destruct (ts_paused s); [by apply no_push_same|].
  destruct (ts_sawOpen s); by apply no_push_same.
Qed.

Lemma on_error_no_push s : no_push s (on_error s).
Proof.
  unfold on_error, closeSource. destruct (ts_stopped s); [by apply no_push_same|].
  destruct (ts_es s); tcbn; destruct (_ <=? _); by apply no_push_same.
Qed.

Lemma connect_no_push s : no_push s (connect s).
Proof. unfold connect. destruct (ts_stopped s); by apply no_push_same. Qed.

Lemma reconnect_no_push s : no_push s (reconnect s).
Proof.
  unfold reconnect, clear_reconnectTimer. destruct (ts_stopped s); [by apply no_push_same|].
  destruct (ts_reconnectTimer s), (ts_flushTimer s) eqn:E; tcbn; rewrite ?E;
    (eapply no_push_trans; [|apply connect_no_push]); by apply no_push_same.
Qed.

Lemma rows_inv_no_push s s' :
  rows_inv s -> no_push s s' ->
  (forall i, ts_sources s' !! i = Some true -> ts_sources s !! i = Some true) ->
  (ts_stopped s' = false -> ts_wantGapOnOpen s' = false ->
   (exists i, ts_sources s' !! i = Some true) \/ ts_sawOpen s = false) ->
  rows_inv s'.
Proof.
  intros [] (E1 & E2 & E3 & Hs & Hl) Hsrc Hw. split; rewrite ?E1, ?E2, ?E3; try done.
  - auto.
  - by eapply ordered_suffix.
  - by eapply gapped_suffix.
  - intros i Hi. eapply run_of_suffix; [done|auto].
  - intros i Hi. by eapply ri_saw0, Hsrc.
  - intros Ho. destruct Hs as [k Ek]. specialize (ri_none0 Ho). rewrite Ek in ri_none0. by apply Forall_app in ri_none0 as [].
Qed.

(** A connection that has opened has done so before. *)
Lemma connect_sources s i : ts_sources (connect s) !! i = Some true -> ts_sources s !! i = Some true.
Proof.
  unfold connect. destruct (ts_stopped s); [done|]. tcbn. rewrite lookup_insert_Some. by intros [[_ ?]|[_ ?]].
Qed.

Lemma effect_sources s i : ts_sources (effect s) !! i = Some true -> ts_sources s !! i = Some true.
Proof.
  unfold effect. tcbn. destruct (ts_paused s); [done|]. intros Hi%connect_sources. by destruct (ts_sawOpen s).
Qed.

Lemma effect_want s :
  (ts_paused s = true -> ts_stopped s = true) -> ts_stopped (effect s) = false -> ts_wantGapOnOpen (effect s) = false ->
  ts_sawOpen s = false.
Proof.
  intros Hp. unfold effect, connect, start_flushTimer. tcbn. destruct (ts_paused s); tcbn.
  - intros E. rewrite Hp in E; done.
  - destruct (ts_sawOpen s); tcbn; done.
Qed.

Lemma rows_inv_open s i : conn_inv s -> rows_inv s -> ts_sources s !! i = Some false -> rows_inv (on_open i s).
Proof.
  intros Hc [Hl Ho Hg Hr Hw Hsw Hn] Hi. apply (ci_one _ Hc) in Hi as He.
  assert (Hst : ts_stopped s = false).
  { destruct (ts_stopped s) eqn:E; [|done]. apply (ci_stop _ Hc) in E as [E _]. congruence. }
  assert (Hi' : forall j, <[i := true]> (ts_sources s) !! j = Some true -> j = i).
  { intros j. rewrite lookup_insert_Some. intros [[<- _]|[_ Hj%(ci_one _ Hc)]]; [done|congruence]. }
  unfold on_open, rows in *. tcbn. destruct (ts_wantGapOnOpen s) eqn:Ew; unfold pushItem; tcbn.
  - split; unfold rows; tcbn; rewrite ?app_assoc; try done.
    + by apply ordered_push.
    + by apply gapped_push_gap.
    + intros j _. by apply run_of_gap.
    + intros _ _. left. exists i. apply lookup_insert_eq.
  - assert (Hsaw : ts_sawOpen s = false).
    { destruct (Hw Hst eq_refl) as [[j Hj]|?]; [|done]. apply (ci_one _ Hc) in Hj as Ej. congruence. }
    split; unfold rows; tcbn; try done.
    + intros j _. by apply run_of_none, Hn.
    + intros _ _. left. exists i. apply lookup_insert_eq.
Qed.

Lemma rows_inv_message s i data : rows_inv s -> ts_sources s !! i = Some true -> conn_inv s -> rows_inv (on_message i data s).
Proof.
  intros [Hl Ho Hg Hr Hw Hsw Hn] Hi Hc. unfold on_message. destruct (parseLogFrame data) as [log|]; [|done].
  unfold rows, pushItem in *. tcbn.
  destruct (push_log (ts_seq s) i (ts_origin s) (ts_items s ++ ts_pending s) (item_log (ts_seq s) log)) as [H1 H2];
    [done|done|by apply Hr|done|done|].
  split; unfold rows; tcbn; rewrite ?app_assoc; try done.
  - by apply ordered_push.
  - intros j Hj%(ci_one _ Hc). apply (ci_one _ Hc) in Hi. assert (j = i) as -> by congruence. done.
  - intros Hsaw. rewrite (Hsw i Hi) in Hsaw. done.
Qed.

Lemma rows_inv_gap s data : rows_inv s -> rows_inv (on_gap data s).
Proof.
  intros [Hl Ho Hg Hr Hw Hsw Hn]. unfold on_gap, rows, pushItem in *.
  split; unfold rows; tcbn; rewrite ?app_assoc; try done.
  - by apply ordered_push.
  - by apply gapped_push_gap.
  - intros i _. by apply run_of_gap.
  - intros Hsaw. apply Forall_app. split; [by apply Hn|by repeat constructor].
Qed.

Lemma rows_inv_step s ev s' : conn_inv s -> rows_inv s -> tail_step s ev s' -> rows_inv s'.
Proof.
  intros Hc Hi Hstep. destruct Hstep as [s ev He].
  destruct ev as [| | |i|i data|i data|i|t|t| | | |]; cbn [react enabled] in *.
  - apply bool_decide_eq_true in He. pose proof (ci_life _ Hc) as Hl. rewrite He in Hl. destruct Hl as (_ & _ & _ & Hp).
    eapply rows_inv_no_push; [exact Hi|apply effect_no_push|apply effect_sources|].
    intros H1 H2. right. apply (effect_want s); [congruence|done..].
  - apply andb_true_iff in He as [Hm _]. destruct (cleanup_idle s Hc Hm) as ((_ & Hs & _) & Hst & _).
    pose proof (cleanup_no_push s) as Hnp.
    eapply rows_inv_no_push; [exact Hi|eapply no_push_trans; [apply Hnp|apply effect_no_push]| |].
    + intros i Hsrc%effect_sources. by rewrite Hs, lookup_empty in Hsrc.
    + intros H1 H2. right. destruct Hnp as (_ & _ & <- & _). by apply (effect_want (cleanup s)).
  - destruct (cleanup_idle s Hc He) as ((_ & Hs & _) & Hst & _).
    eapply rows_inv_no_push; [exact Hi|eapply no_push_trans; [apply cleanup_no_push|by apply no_push_same]| |].
    + intros i. tcbn. by rewrite Hs, lookup_empty.
    + tcbn. congruence.
  - apply rows_inv_open; [done|done|by apply bool_decide_eq_true in He].
  - apply rows_inv_message; [done|by apply bool_decide_eq_true in He|done].
  - by apply rows_inv_gap.
  - apply bool_decide_eq_true in He as [b Hb]. apply (ci_one _ Hc) in Hb as Hes.
    assert (Hst : ts_stopped s = false).
    { destruct (ts_stopped s) eqn:E; [|done]. apply (ci_stop _ Hc) in E as [E _]. congruence. }
    eapply rows_inv_no_push; [exact Hi|apply on_error_no_push| |].
    + intros j. unfold on_error, closeSource. rewrite Hst, Hes. tcbn.
      destruct (_ <=? _); tcbn; rewrite (sources_one _ _ Hc Hes), lookup_empty; done.
    + unfold on_error, closeSource. rewrite Hst, Hes. tcbn. destruct (_ <=? _); done.
  - apply bool_decide_eq_true in He.
    assert (Hes : ts_es s = None).
    { destruct (ts_es s) eqn:E; [|done]. rewrite (ci_idle _ Hc), lookup_empty in He by congruence. by destruct He. }
    pose proof (sources_closed _ Hc Hes) as Hs.
    eapply rows_inv_no_push; [exact Hi|eapply no_push_trans; [|apply connect_no_push]; by apply no_push_same| |].
    + intros j Hj%connect_sources. done.
    + intros H1 H2. right. destruct (ri_want _ Hi) as [[j Hj]|?]; [| |by rewrite Hs, lookup_empty in Hj|done];
        unfold connect in *; tcbn; destruct (ts_stopped s) eqn:Est; tcbn; congruence.
  - destruct (flush_conn s) as (_ & _ & _ & _ & E5 & E6 & _).
    eapply rows_inv_no_push; [exact Hi|apply flush_no_push|by rewrite E6|].
    rewrite E5, E6. assert (Ew : ts_wantGapOnOpen (flush s) = ts_wantGapOnOpen s) by (unfold flush; by destruct (0 <? _)).
    rewrite Ew. apply Hi.
  - eapply rows_inv_no_push; [exact Hi|by apply no_push_same|done|apply Hi].
  - eapply rows_inv_no_push; [exact Hi|by apply no_push_same|done|apply Hi].
  - apply andb_true_iff in He as [_ Ho%bool_decide_eq_true]. destruct (ci_offline _ Hc Ho) as [Hes Ht].
    eapply rows_inv_no_push; [exact Hi|apply reconnect_no_push| |]; unfold reconnect; destruct (ts_stopped s) eqn:Est; try done.
    + intros j Hj%connect_sources. unfold clear_reconnectTimer in Hj.
      destruct (ts_reconnectTimer s), (ts_flushTimer s) eqn:Ef; tcbn; rewrite ?Ef in Hj; done.
    + congruence.
    + intros _. unfold clear_reconnectTimer, connect, start_flushTimer.
      destruct (ts_reconnectTimer s); tcbn; destruct (ts_flushTimer s); tcbn; rewrite Est; done.
  - eapply rows_inv_no_push; [exact Hi| |done|apply Hi]. split_and!; try done; [|cbn; lia].
    unfold rows. cbn. apply suffix_nil.
Qed.

Lemma rows_inv_initial : rows_inv initial_tail.
Proof.
  split; unfold rows; cbn; try done; try lia.
  - split; constructor.
  - intros [] a mid b post E; discriminate E.
Qed.

Lemma reachable_rows s : reachable s -> rows_inv s.
Proof.
  induction 1 as [|s ev s' Hr IH Hs]; [apply rows_inv_initial|].
  eapply rows_inv_step; [by apply reachable_conn|done|done].
Qed.

(** ** Retries *)

(** A step of a server that does not answer: the connection fails, or a retry is due. *)
Inductive failing_step : tail_state -> tail_state -> Prop :=
| fail_error s i : enabled (ev_error i) s = true -> failing_step s (react (ev_error i) s)
| fail_timeout s t : enabled (ev_timeout t) s = true -> failing_step s (react (ev_timeout t) s).

(** How many such steps are left. *)
Definition retries_left (s : tail_state) : nat :=
  if bool_decide (ts_status s = offline) then 0
  else 2 * (op_maxReconnectAttempts cfg - ts_attempt s) + if decide (is_Some (ts_es s)) then 1 else 2.

Lemma failing_step_spec s s' :
  reachable s -> failing_step s s' ->
  reachable s' /\ ts_life s' = ts_life s /\ ts_status s <> offline /\ retries_left s = S (retries_left s') /\
  (ts_status s' = offline -> ts_exhausted s' = S (ts_exhausted s)) /\
  (ts_status s' <> offline -> ts_exhausted s' = ts_exhausted s).
Proof.
  intros Hr Hf. pose proof (reachable_conn _ Hr) as Hc.
  assert (Hr' : reachable s') by (destruct Hf; by eapply reachable_step; [|constructor]).
  split; [done|]. destruct Hf as [s i He|s t He]; cbn [react enabled] in *; apply bool_decide_eq_true in He.
  - destruct He as [b Hb]. apply (ci_one _ Hc) in Hb as Hes.
    assert (Hst : ts_stopped s = false).
    { destruct (ts_stopped s) eqn:E; [|done]. apply (ci_stop _ Hc) in E as [E _]. congruence. }
    assert (Ho : ts_status s <> offline) by (intros E; destruct (ci_offline _ Hc E); congruence).
    unfold retries_left, on_error, closeSource. rewrite Hst, Hes. tcbn. rewrite (bool_decide_eq_false_2 _ Ho).
    destruct (Nat.leb_spec (op_maxReconnectAttempts cfg) (ts_attempt s)) as [Hm|Hm]; tcbn.
    + rewrite bool_decide_eq_true_2 by done. rewrite decide_True by done. split_and!; try done. lia.
    + rewrite bool_decide_eq_false_2 by done. rewrite decide_True, decide_False by (done || by intros []).
      split_and!; try done. lia.
  - pose proof (timeout_inv s t Hc He) as Hc'.
    assert (Hne : ts_timeouts s <> ∅) by (intros E; rewrite E, lookup_empty in He; by destruct He).
    assert (Hes : ts_es s = None).
    { destruct (ts_es s) eqn:E; [|done]. destruct Hne. apply (ci_idle _ Hc). congruence. }
    assert (Hst : ts_stopped s = false).
    { destruct (ts_stopped s) eqn:E; [|done]. destruct Hne. by apply (ci_stop _ Hc). }
    assert (Ho : ts_status s <> offline) by (intros E; destruct Hne; by apply (ci_offline _ Hc)).
    unfold retries_left, connect. tcbn. rewrite Hst. tcbn. rewrite Hes, !(bool_decide_eq_false_2 _ Ho).
    rewrite decide_False by (by intros []). rewrite decide_True by done. split_and!; (done || lia).
Qed.

Lemma running_can_fail s :
  conn_inv s -> ts_life s = effect_ran false -> ts_status s <> offline -> exists s', failing_step s s'.
Proof.
  intros Hc Hl Ho. destruct (ci_live _ Hc Hl) as [?|[[i Hi]|Hne]]; [done| |].
  - eexists. apply (fail_error _ i). cbn. apply bool_decide_eq_true. by apply (ci_es _ Hc).
  - apply map_choose in Hne as (t & d & Ht). eexists. apply (fail_timeout _ t). cbn. apply bool_decide_eq_true. by rewrite Ht.
Qed.

Lemma failing_run n s s' :
  reachable s -> nsteps failing_step n s s' ->
  reachable s' /\ ts_life s' = ts_life s /\ retries_left s = n + retries_left s' /\
  (ts_status s <> offline ->
   ts_exhausted s' = ts_exhausted s + if bool_decide (ts_status s' = offline) then 1 else 0).
Proof.
  intros Hr Hn. induction Hn as [s|n s s1 s' Hs Hn IH].
  - split_and!; try done. intros Ho. rewrite bool_decide_eq_false_2 by done. lia.
  - destruct (failing_step_spec s s1 Hr Hs) as (Hr1 & Hl1 & Ho & He & Hx1 & Hx2). destruct (IH Hr1) as (Hr' & Hl' & He' & Hx).
    split_and!; [done|congruence|lia|]. intros _.
    destruct (decide (ts_status s1 = offline)) as [Ho1|Ho1]; [|rewrite Hx, Hx2; done].
    assert (s' = s1) as ->.
    { inversion Hn as [|? ? s2 ? Hs2]; [done|]. destruct (failing_step_spec s1 s2 Hr1 Hs2) as (_ & _ & ? & _). done. }
    rewrite bool_decide_eq_true_2 by done. rewrite Hx1 by done. lia.
Qed.

Lemma retries_left_offline s : retries_left s = 0 <-> ts_status s = offline.
Proof. unfold retries_left. case_bool_decide; [done|]. destruct (decide _); split; (done || lia). Qed.

(** A sequence of events, if each can happen when its turn comes. *)
Fixpoint play (evs : list tail_event) (s : tail_state) : option tail_state :=
  match evs with
  | [] => Some s
  | ev :: rest => if enabled ev s then play rest (react ev s) else None
  end.

Lemma play_reachable evs s s' : reachable s -> play evs s = Some s' -> reachable s'.
Proof.
  revert s. induction evs as [|ev evs IH]; intros s Hr; cbn [play]; [by intros [= ->]|].
  destruct (enabled ev s) eqn:E; [|done]. apply IH. eapply reachable_step; [done|by constructor].
Qed.

Definition is_failure (ev : tail_event) : bool :=
  match ev with ev_error _ | ev_timeout _ => true | _ => false end.

Lemma play_failing evs s s' :
  forallb is_failure evs = true -> play evs s = Some s' -> nsteps failing_step (length evs) s s'.
Proof.
  revert s. induction evs as [|ev evs IH]; intros s Hf; cbn [play length]; [intros [= ->]; constructor|].
  destruct (enabled ev s) eqn:E; [|done]. apply andb_prop in Hf as [Hev Hf]. intros Hp.
  econstructor; [|by apply IH]. destruct ev; try done; by constructor.
Qed.

End Tail.

(** ** Theorems *)

(** C17. The live tail keeps its house in order, whatever arrives and whatever the user
    does.  There is at most one open event source, and none while a retry is pending;
    paused or unmounted there is no source, no retry and no interval left; the shown
    rows never exceed the limit; all rows are in stream order; and between two logs of
    different connections there is a gap marker. *)
Theorem tail_safe `{Zod} cfg s (Hr : reachable cfg s) :
  (forall i j, is_Some (ts_sources s !! i) -> is_Some (ts_sources s !! j) -> i = j /\ ts_timeouts s = ∅) /\
  (forall t u, is_Some (ts_timeouts s !! t) -> is_Some (ts_timeouts s !! u) -> t = u) /\
  (ts_life s = effect_ran true \/ ts_life s = unmounted ->
   ts_sources s = ∅ /\ ts_timeouts s = ∅ /\ ts_intervals s = ∅) /\
  length (ts_items s) <= op_maxItems cfg /\
  ordered (ts_seq s) (rows s) /\
  gapped (ts_origin s) (rows s).
Proof.
  pose proof (reachable_conn _ _ Hr) as Hc. pose proof (reachable_rows _ _ Hr) as Hi. split_and!.
  - intros i j [b Hb] [b' Hb']. apply (ci_one _ _ Hc) in Hb, Hb'. split; [congruence|].
    apply (ci_idle _ _ Hc). congruence.
  - intros t u Ht%(ci_timer _ _ Hc) Hu%(ci_timer _ _ Hc). congruence.
  - intros Hl. assert (Hst : ts_stopped s = true).
    { pose proof (ci_life _ _ Hc) as E. by destruct Hl as [El|El]; rewrite El in E. }
    destruct (ci_stop _ _ Hc Hst) as (He & Ht & Hn). split_and!; try done. by apply (sources_closed cfg).
  - apply Hi.
  - apply Hi.
  - apply Hi.
Qed.

(** C18. Retrying ends.  While the tail runs and the server does not answer (every
    connection fails, every retry comes due), it is never stuck before it is offline,
    every such run is at most [2 * maxReconnectAttempts + 2] steps long, it is offline
    exactly when the steps are used up, and its owner has then been told once. *)
Theorem tail_gives_up `{Zod} cfg s n s'
    (Hr : reachable cfg s) (Hl : ts_life s = effect_ran false) (Hn : nsteps (failing_step cfg) n s s') :
  n <= retries_left cfg s /\ retries_left cfg s <= 2 * op_maxReconnectAttempts cfg + 2 /\
  (ts_status s' = offline <-> n = retries_left cfg s) /\
  (ts_status s' <> offline -> exists s'', failing_step cfg s' s'') /\
  (ts_status s <> offline -> ts_exhausted s' = ts_exhausted s + if bool_decide (ts_status s' = offline) then 1 else 0).
Proof.
  destruct (failing_run cfg n s s' Hr Hn) as (Hr' & Hl' & He & Hx). split_and!; try done.
  - lia.
  - clear. unfold retries_left. case_bool_decide; [lia|]. destruct (decide _); lia.
  - rewrite <-(retries_left_offline cfg). lia.
  - intros Ho. apply (running_can_fail cfg); [by apply reachable_conn|congruence|done].
Qed.

(** ** Runs *)

Definition demo_frame : jsstr :=
  (λ c, if (c =? 39)%N then 34%N else c) <$>
    js "{'tenant_id':'t1','ts':'2026-01-01T00:00:00Z','service':'api','level':'info','message':'hello','labels':{'env':'prod'}}".

(** A log, a dropped connection, the retry, another log; then a second failure. *)
Definition demo_events : list tail_event :=
  [ev_mount; ev_open 1; ev_message 1 demo_frame; ev_error 1; ev_timeout 2; ev_open 3;
   ev_message 3 demo_frame; ev_interval 0; ev_error 3].

Definition demo_tail : tail_state :=
  default initial_tail (@play demo_formats demo_zod default_options demo_events initial_tail).

Lemma demo_tail_reachable : @reachable demo_formats demo_zod default_options demo_tail.
Proof. eapply (play_reachable _ demo_events); [constructor|vm_compute; reflexivity]. Qed.

Lemma tail_safe_witness :
  length (ts_items demo_tail) = 3 /\ gapped (ts_origin demo_tail) (rows demo_tail).
Proof.
  split; [vm_compute; reflexivity|].
  apply (@tail_safe demo_formats demo_zod default_options demo_tail demo_tail_reachable).
Defined.

(** Every retry from there on fails too. *)
Definition demo_failures : list tail_event :=
  [ev_timeout 4; ev_error 5; ev_timeout 6; ev_error 7; ev_timeout 8; ev_error 9; ev_timeout 10; ev_error 11;
   ev_timeout 12; ev_error 13].

Definition demo_offline : tail_state :=
  default initial_tail (@play demo_formats demo_zod default_options demo_failures demo_tail).

Lemma tail_gives_up_witness :
  ts_status demo_tail = reconnecting /\ ts_status demo_offline = offline /\ (ts_status demo_tail <> offline -> ts_exhausted demo_offline = ts_exhausted demo_tail + 1).
Proof.
  split; [reflexivity|].
  assert (Hn : nsteps (@failing_step demo_formats demo_zod default_options) 10 demo_tail demo_offline).
  { apply (play_failing _ demo_failures); [reflexivity|]. vm_compute. reflexivity. }
  destruct (@tail_gives_up demo_formats demo_zod default_options demo_tail 10 demo_offline demo_tail_reachable
    eq_refl Hn) as (_ & _ & Ho & _ & Hx).
  split; [apply Ho; vm_compute; reflexivity|exact Hx].
Defined.

(** [reconnect] itself only looks at [stoppedRef]: called while a stream is open it
    opens a second one, and the teardown closes only the last.  The toolbar's guard, in
    [enabled], is what keeps the tail from it. *)
Example reconnect_needs_offline :
  let s := default initial_tail (@play demo_formats demo_zod default_options [ev_mount; ev_open 1] initial_tail) in
  size (ts_sources (reconnect s)) = 2 /\
  size (ts_sources (cleanup default_options (reconnect s))) = 1.
Proof. vm_compute. done. Qed.
