(* ===== verification/Utf8.v ===== *)
(** * Reading encoded text

    The inverses of the encodings of [Text]: [Buffer.from(s, 'base64')] and
    [buf.toString('utf8')] as node implements them, total on every input, with the
    round trips the session cookies depend on. *)

From stdpp Require Import base list option numbers strings.
From S2P Require Import Prelude Tokens Text Entities Google Json.

(** ** Base64 *)

(** Both alphabets are read. *)
Definition sextet (c : N) : option N :=
  if ((65 <=? c) && (c <=? 90))%N then Some (c - 65)%N
  else if ((97 <=? c) && (c <=? 122))%N then Some (c - 71)%N
  else if ((48 <=? c) && (c <=? 57))%N then Some (c + 4)%N
  else if ((c =? 43) || (c =? 45))%N then Some 62%N
  else if ((c =? 47) || (c =? 95))%N then Some 63%N
  else None.

Fixpoint from_sextets (vs : list N) : list N :=
  match vs with
  | a :: b :: c :: d :: vs' =>
      (a * 4 + b / 16) :: ((b mod 16) * 16 + c / 4) :: ((c mod 4) * 64 + d) :: from_sextets vs'
  | [a; b; c] => [a * 4 + b / 16; (b mod 16) * 16 + c / 4]
  | [a; b] => [a * 4 + b / 16]
  | _ => []
  end%N.

(** [Buffer.from(s, 'base64')]: characters outside the alphabet are skipped. *)
Definition buffer_of_base64 (s : jsstr) : list N := from_sextets (omap sextet s).

(** ** UTF-8 *)

(** A sequence that has begun: the bits so far, the bytes still needed, and the range
    of the next one. *)
Record utf8_state := mkUtf8 { us_bits : N; us_needed : nat; us_lower : N; us_upper : N }.

(** What a byte begins. *)
Definition lead_byte (b : N) : option N + utf8_state :=
  if (b <? 0x80)%N then inl (Some b)
  else if ((0xC2 <=? b) && (b <=? 0xDF))%N then inr (mkUtf8 (b - 0xC0) 1 0x80 0xBF)
  else if ((0xE0 <=? b) && (b <=? 0xEF))%N then
    inr (mkUtf8 (b - 0xE0) 2 (if (b =? 0xE0)%N then 0xA0 else 0x80) (if (b =? 0xED)%N then 0x9F else 0xBF))
  else if ((0xF0 <=? b) && (b <=? 0xF4))%N then
    inr (mkUtf8 (b - 0xF0) 3 (if (b =? 0xF0)%N then 0x90 else 0x80) (if (b =? 0xF4)%N then 0x8F else 0xBF))
  else inl None.

(** The code points; every ill-formed part is a replacement character. *)
Fixpoint utf8_points (st : option utf8_state) (bs : list N) : list N :=
  match bs with
  | [] => match st with Some _ => [0xFFFD%N] | None => [] end
  | b :: bs' =>
      let start :=
        match lead_byte b with
        | inl c => default 0xFFFD%N c :: utf8_points None bs'
        | inr st' => utf8_points (Some st') bs'
        end in
      match st with
      | None => start
      | Some (mkUtf8 bits needed lower upper) =>
          if ((lower <=? b) && (b <=? upper))%N then
            let bits' := (bits * 64 + (b - 0x80))%N in
            match needed with
            | S (S n) => utf8_points (Some (mkUtf8 bits' (S n) 0x80 0xBF)) bs'
            | _ => bits' :: utf8_points None bs'
            end
          else 0xFFFD%N :: start
      end
  end.

(** The UTF-16 units of a code point. *)
Definition utf16_units (cp : N) : jsstr :=
  if (cp <? 0x10000)%N then [cp]
  else [0xD800 + (cp - 0x10000) / 0x400; 0xDC00 + (cp - 0x10000) mod 0x400]%N.

(** [buf.toString('utf8')]. *)
Definition utf8_decode (bs : list N) : jsstr := concat (map utf16_units (utf8_points None bs)).

(** * Lemmas *)

Lemma sextet_char n : (n < 64)%N -> sextet (base64url_char n) = Some n.
Proof.
  intros Hn. assert (Hall : Forall (fun k => sextet (base64url_char (N.of_nat k)) = Some (N.of_nat k)) (seq 0 64)).
  { apply (bool_decide_unpack _). vm_compute. done. }
  rewrite Forall_forall in Hall. rewrite <-(N2Nat.id n). apply Hall, elem_of_seq. lia.
Qed.

(** Bounds of quotients and remainders by the numeral [k], for [lia]. *)
Ltac split_by x k :=
  let H1 := fresh in let H2 := fresh in
  pose proof (N.div_mod' x k) as H1; pose proof (N.mod_lt x k ltac:(done)) as H2.

Lemma buffer_of_base64url bs :
  Forall (fun b => (b < 256)%N) bs -> buffer_of_base64 (base64url bs) = bs.
Proof.
  unfold buffer_of_base64.
  induction bs as [|a|a b|a b c l IH] using list_ind3; intros HF; decompose_Forall_hyps; [done|..];
    cbn [base64url omap list_omap];
    split_by a 4%N; try split_by b 16%N; try split_by c 64%N;
    rewrite !sextet_char by div_lia; cbn [from_sextets]; rewrite ?IH by done;
    repeat match goal with
    | |- context [((?q * ?k + ?r) / ?k)%N] =>
        rewrite (N.div_add_l q k r), (N.div_small r k) by div_lia
    | |- context [((?q * ?k + ?r) mod ?k)%N] =>
        rewrite (N.add_comm (q * k) r), (N.Div0.mod_add r q k), (N.mod_small r k) by div_lia
    | |- context [((?q * ?k) / ?k)%N] => rewrite (N.div_mul q k) by done
    end; repeat f_equal; div_lia.
Qed.

Definition scalar (cp : N) : Prop := (cp < 0xD800 \/ 0xE000 <= cp < 0x110000)%N.

Lemma points_continue bits needed lower upper b bs :
  (lower <= b <= upper)%N ->
  utf8_points (Some (mkUtf8 bits needed lower upper)) (b :: bs) =
  match needed with
  | S (S n) => utf8_points (Some (mkUtf8 (bits * 64 + (b - 0x80)) (S n) 0x80 0xBF)) bs
  | _ => (bits * 64 + (b - 0x80))%N :: utf8_points None bs
  end.
Proof. intros [H1 H2]. cbn [utf8_points]. by rewrite (proj2 (N.leb_le _ _) H1), (proj2 (N.leb_le _ _) H2). Qed.

Lemma points_start b bs :
  utf8_points None (b :: bs) =
  match lead_byte b with
  | inl c => default 0xFFFD%N c :: utf8_points None bs
  | inr st => utf8_points (Some st) bs
  end.
Proof. done. Qed.

Lemma lead_2 b : (0xC2 <= b <= 0xDF)%N -> lead_byte b = inr (mkUtf8 (b - 0xC0) 1 0x80 0xBF).
Proof.
  intros Hb. unfold lead_byte. rewrite (proj2 (N.ltb_ge _ _)) by lia.
  by rewrite (proj2 (andb_true_iff _ _)) by (rewrite !N.leb_le; lia).
Qed.

Lemma lead_3 b :
  (0xE0 <= b <= 0xEF)%N ->
  lead_byte b = inr (mkUtf8 (b - 0xE0) 2 (if (b =? 0xE0)%N then 0xA0 else 0x80) (if (b =? 0xED)%N then 0x9F else 0xBF)).
Proof.
  intros Hb. unfold lead_byte. rewrite (proj2 (N.ltb_ge _ _)) by lia.
  rewrite (proj2 (N.leb_gt b 0xDF)), andb_false_r by lia.
  by rewrite (proj2 (andb_true_iff _ _)) by (rewrite !N.leb_le; lia).
Qed.

Lemma lead_4 b :
  (0xF0 <= b <= 0xF4)%N ->
  lead_byte b = inr (mkUtf8 (b - 0xF0) 3 (if (b =? 0xF0)%N then 0x90 else 0x80) (if (b =? 0xF4)%N then 0x8F else 0xBF)).
Proof.
  intros Hb. unfold lead_byte. rewrite (proj2 (N.ltb_ge _ _)) by lia.
  rewrite (proj2 (N.leb_gt b 0xDF)), (proj2 (N.leb_gt b 0xEF)), !andb_false_r by lia.
  by rewrite (proj2 (andb_true_iff _ _)) by (rewrite !N.leb_le; lia).
Qed.

(** A code point written is a code point read. *)
Lemma points_bytes cp bs : scalar cp -> utf8_points None (utf8_bytes cp ++ bs) = cp :: utf8_points None bs.
Proof.
  intros Hs. unfold utf8_bytes, scalar in *.
  destruct (N.ltb_spec cp 0x80) as [Hc1|Hc1].
  { cbn [app]. rewrite points_start. unfold lead_byte. by rewrite (proj2 (N.ltb_lt _ _)) by lia. }
  split_by cp 64%N. replace 4096%N with (64 * 64)%N by done. replace 262144%N with (64 * (64 * 64))%N by done.
  destruct (N.ltb_spec cp 0x800) as [Hc2|Hc2].
  { cbn [app]. rewrite points_start, lead_2, points_continue by div_lia. f_equal. div_lia. }
  split_by (cp / 64)%N 64%N. rewrite <-!N.Div0.div_div.
  destruct (N.ltb_spec cp 0x10000) as [Hc3|Hc3].
  { cbn [app]. rewrite points_start, lead_3, points_continue, points_continue by
      (repeat (match goal with |- context [(?a =? ?b)%N] => destruct (N.eqb_spec a b) end); div_lia).
    f_equal. div_lia. }
  split_by (cp / 64 / 64)%N 64%N.
  cbn [app]. rewrite points_start, lead_4, !points_continue by
      (repeat (match goal with |- context [(?a =? ?b)%N] => destruct (N.eqb_spec a b) end); div_lia).
  f_equal. div_lia.
Qed.

Inductive well_formed : jsstr -> Prop :=
| wf_nil : well_formed []
| wf_unit c s : is_high c = false -> is_low c = false -> (c < 0x10000)%N -> well_formed s -> well_formed (c :: s)
| wf_pair h l s : is_high h = true -> is_low l = true -> well_formed s -> well_formed (h :: l :: s).

(** Text without lone surrogates survives [Buffer.from(s).toString('utf8')]. *)
Lemma utf8_round_trip s : well_formed s -> utf8_decode (utf8 s) = s.
Proof.
  unfold utf8_decode, utf8. induction 1 as [|c s Hh Hl Hc Hw IH|h l s Hh Hl Hw IH]; [done|..]; cbn [code_points].
  - rewrite Hh, Hl. cbn [map concat]. rewrite points_bytes.
    + cbn [map concat]. rewrite IH. unfold utf16_units. by rewrite (proj2 (N.ltb_lt _ _)) by lia.
    + unfold is_high, is_low, scalar in *. rewrite andb_false_iff, !N.leb_gt in *. lia.
  - rewrite Hh, Hl. cbn [map concat]. unfold is_high, is_low in *. rewrite andb_true_iff, !N.leb_le in *.
    rewrite points_bytes by (unfold scalar; lia). cbn [map concat]. rewrite IH.
    unfold utf16_units. rewrite (proj2 (N.ltb_ge _ _)) by lia.
    replace (65536 + (h - 55296) * 1024 + (l - 56320) - 65536)%N with ((h - 55296) * 1024 + (l - 56320))%N by lia.
    rewrite N.div_add_l, N.div_small by lia.
    rewrite (N.add_comm ((h - 55296) * 1024)), N.Div0.mod_add, N.mod_small by lia.
    cbn [app]. f_equal; [lia|f_equal; lia].
Qed.

(** ** Printed JSON has no lone surrogates *)

Lemma well_formed_app a b : well_formed a -> well_formed b -> well_formed (a ++ b).
Proof. induction 1; intros Hb; cbn [app]; [done|by constructor; auto|by constructor; auto]. Qed.

Lemma wf_plain s : Forall (fun c => (c < 0xD800)%N) s -> well_formed s.
Proof.
  induction 1 as [|c s Hc Hs IH]; [constructor|]. constructor; [..|lia|done].
  - unfold is_high. apply andb_false_iff. left. apply N.leb_gt. lia.
  - unfold is_low. apply andb_false_iff. left. apply N.leb_gt. lia.
Qed.

Lemma hex_digit_bound n : (n < 16)%N -> (hex_digit n < 0xD800)%N.
Proof. intros Hn. unfold hex_digit. destruct (n <? 10)%N; lia. Qed.

Lemma escape_unit_wf c : (c < 0x10000)%N -> well_formed (escape_unit c).
Proof.
  intros Hc. apply wf_plain. unfold escape_unit.
  repeat constructor; apply hex_digit_bound;
    first [apply N.mod_lt; done | apply N.Div0.div_lt_upper_bound; lia].
Qed.

Lemma quote_unit_wf c : is_high c = false -> is_low c = false -> (c < 0x10000)%N -> well_formed (quote_unit c).
Proof.
  intros Hh Hl Hc. unfold quote_unit.
  change (List.filter _ escapes) with [(34, 34); (92, 92); (98, 8); (102, 12); (110, 10); (114, 13); (116, 9)]%N.
  cbn [find fst snd].
  repeat match goal with |- context [(?a =? c)%N] => destruct (N.eqb_spec a c) as [<-|] end;
    try (apply wf_plain; repeat constructor; lia).
  destruct (N.ltb_spec c 32); [apply escape_unit_wf; lia|]. by repeat constructor.
Qed.

Definition utf16 (s : jsstr) : Prop := Forall (fun c => (c < 0x10000)%N) s.

Lemma quote_chars_wf s : utf16 s -> well_formed (quote_chars s).
Proof.
  assert (Hn : forall n s, length s <= n -> utf16 s -> well_formed (quote_chars s)); [|by apply (Hn (length s))].
  clear s. induction n as [|n IH]; intros [|c s] Hl Hs; cbn [length] in Hl; try (lia || constructor).
  apply Forall_cons in Hs as [Hc Hs]. specialize (IH s ltac:(lia) Hs) as IHs. cbn [quote_chars].
  destruct (is_high c) eqn:Eh.
  - destruct s as [|d s]; [by apply escape_unit_wf|]. destruct (is_low d) eqn:Ed.
    + constructor; [done|done|]. apply Forall_cons in Hs as [_ Hs]. apply IH; [cbn in Hl; lia|done].
    + apply well_formed_app; [by apply escape_unit_wf|done].
  - destruct (is_low c) eqn:El; apply well_formed_app; try done; [by apply escape_unit_wf|by apply quote_unit_wf].
Qed.

Lemma quote_wf s : utf16 s -> well_formed (quote s).
Proof.
  intros Hs. unfold quote. apply well_formed_app; [apply wf_plain; by repeat constructor|].
  apply well_formed_app; [by apply quote_chars_wf|apply wf_plain; by repeat constructor].
Qed.

Lemma print_int_wf z : well_formed (print_int z).
Proof.
  apply wf_plain. unfold print_int. apply Forall_app. split; [destruct (z <? 0)%Z; by repeat constructor|].
  eapply List.Forall_impl; [|apply forallb_True; rewrite print_nat_digits; done].
  intros c Hc. apply Is_true_true in Hc. unfold is_digit in Hc. rewrite andb_true_iff, !N.leb_le in Hc. lia.
Qed.

(** A value all of whose strings are sequences of 16-bit units. *)
Inductive json16 : json -> Prop :=
| j16_null : json16 JNull
| j16_bool b : json16 (JBool b)
| j16_num n : json16 (JNum n)
| j16_str s : utf16 s -> json16 (JStr s)
| j16_arr l : Forall json16 l -> json16 (JArr l)
| j16_obj l : Forall (fun kv => utf16 kv.1) l -> Forall (fun kv => json16 kv.2) l -> json16 (JObj l).

Lemma join_wf ts : Forall well_formed ts -> well_formed (join ts [44%N]).
Proof.
  induction 1 as [|t ts Ht Hts IH]; [constructor|]. destruct ts as [|t' ts]; [done|]. rewrite join_cons2.
  apply well_formed_app; [done|]. apply well_formed_app; [apply wf_plain; by repeat constructor|done].
Qed.

Lemma stringify_well_formed v t : json16 v -> JSON_stringify v = Some t -> well_formed t.
Proof.
  revert t. induction v as [|b|[z e]|s|l IH|l IH] using json_ind_nested; intros t Hv Ht.
  - injection Ht as <-. apply wf_plain. by repeat constructor.
  - injection Ht as <-. apply wf_plain. destruct b; by repeat constructor.
  - destruct e; try done. cbn [JSON_stringify] in Ht. destruct (_ <=? _)%Z; [|done]. injection Ht as <-. apply print_int_wf.
  - injection Ht as <-. inversion Hv. by apply quote_wf.
  - apply stringify_arr in Ht as (ts & Hp & ->). inversion Hv as [| | | |? Hl|]; subst.
    apply well_formed_app; [apply wf_plain; by repeat constructor|].
    apply well_formed_app; [|apply wf_plain; by repeat constructor]. apply join_wf.
    clear Hv. induction Hp as [|v t l ts Hx Hp IHp]; [constructor|]. decompose_Forall_hyps. constructor; auto.
  - apply stringify_obj in Ht as (ts & Hp & ->). inversion Hv as [| | | | |? Hk Hl]; subst.
    apply well_formed_app; [apply wf_plain; by repeat constructor|].
    apply well_formed_app; [|apply wf_plain; by repeat constructor]. apply join_wf.
    clear Hv. induction Hp as [|[k v] t l ts (x & Hx & ->) Hp IHp]; [constructor|]. decompose_Forall_hyps.
    constructor; [|by auto]. apply (well_formed_app (quote k) (58%N :: x)); [by apply quote_wf|].
    apply (well_formed_app [58%N] x); [apply wf_plain; by repeat constructor|by auto].
Qed.
