(* ===== verification/WebSession.v ===== *)
(** * Sessions in the web application

    [server/session.ts] of [apps/web]: the session cookies' names and attributes, the
    claims the backend-for-frontend reads in an access token without verifying it, and
    the two ways a cookie is written, through the framework or as a raw header.  What
    jose writes into a token is its documented compact form (RFC 7515): three base64url
    segments, of which the second is the UTF-8 of the claims' JSON. *)

From stdpp Require Import base list option numbers strings gmap.
From S2P Require Import Prelude Errors Tokens Text Rbac Entities Ports Uuid World Adapters Google Zod Contracts Wire Json.
From S2P Require Import Sql Integrity Utf8.

Definition ACCESS_COOKIE : jsstr := js "lg_at".
Definition REFRESH_COOKIE : jsstr := js "lg_rt".

Record ClientSession := mkClientSession {
  cs_userId : jsstr;
  cs_tenantId : jsstr;
  cs_role : Role;
  cs_expiresAt : Z
}.

(** The inferred type of [accessClaimsSchema]. *)
Record AccessClaims := mkAccessClaims {
  ac_sub : jsstr;
  ac_tenant_id : jsstr;
  ac_role : Role;
  ac_iat : Z;
  ac_exp : Z
}.

(** [s.split(c)] for a single character. *)
Fixpoint split_on (c : N) (s : jsstr) : list jsstr :=
  match s with
  | [] => [[]]
  | d :: s' =>
      if (d =? c)%N then [] :: split_on c s'
      else match split_on c s' with
           | p :: ps => (d :: p) :: ps
           | [] => [[d]]
           end
  end.

(** [segment.replace(/-/g, '+').replace(/_/g, '/')], one character. *)
Definition standard_alphabet (c : N) : N := if (c =? 45)%N then 43%N else if (c =? 95)%N then 47%N else c.

Definition base64UrlDecode (segment : jsstr) : jsstr :=
  utf8_decode (buffer_of_base64 (standard_alphabet <$> segment)).

Definition decodeAccessClaims `{Zod} (token : option jsstr) : option AccessClaims :=
  match token with
  | None | Some [] => None
  | Some token =>
      match split_on 46 token with
      | [_; payload; _] =>
          v ← JSON_parse (base64UrlDecode payload);
          (fun '(sub, (tenant_id, (role, (iat, (exp, _))))) => mkAccessClaims sub tenant_id role iat exp)
            <$> parsed accessClaimsSchema (Some v)
      | _ => None
      end
  end.

Definition SKEW_SECONDS : Z := 30.

Definition isExpired (claims : AccessClaims) (nowMs : Z) : bool :=
  (ac_exp claims <=? nowMs / 1000 + SKEW_SECONDS)%Z.

Definition sessionFromClaims (claims : AccessClaims) : ClientSession :=
  mkClientSession (ac_sub claims) (ac_tenant_id claims) (ac_role claims) (ac_exp claims).

(** ** Cookies *)

Definition SESSION_COOKIE_MAX_AGE : Z := 60 * 60 * 24 * 7.

(** What is read of [process.env]. *)
Record WebEnv := mkWebEnv { env_COOKIE_SECURE : option jsstr; env_NODE_ENV : option jsstr }.

Record CookieAttributes := mkCookieAttributes {
  ca_httpOnly : bool;
  ca_secure : bool;
  ca_sameSite : jsstr;
  ca_path : jsstr;
  ca_maxAge : Z
}.

Section Cookies.
Context (env : WebEnv).

Definition sessionCookieSecure : bool :=
  if bool_decide (env_COOKIE_SECURE env = Some (js "true")) then true
  else if bool_decide (env_COOKIE_SECURE env = Some (js "false")) then false
  else negb (bool_decide (env_NODE_ENV env = Some (js "development"))).

Definition sessionCookieAttributes : CookieAttributes :=
  {| ca_httpOnly := true;
     ca_secure := sessionCookieSecure;
     ca_sameSite := js "lax";
     ca_path := js "/";
     ca_maxAge := SESSION_COOKIE_MAX_AGE |}.

Definition serializeSessionCookie (name value : jsstr) : jsstr :=
  let a := sessionCookieAttributes in
  join ([name ++ js "=" ++ value; js "Max-Age=" ++ print_int (ca_maxAge a); js "Path=" ++ ca_path a;
         js "HttpOnly"; js "SameSite=Lax"] ++ if ca_secure a then [js "Secure"] else []) (js "; ").

End Cookies.

(** ** Tokens as text *)

Definition payload_object (p : JwtPayload) : jsobject :=
  if_defined (js "tenant_id") JStr (jp_tenant_id p) ++ if_defined (js "sub") JStr (jp_sub p)
  ++ if_defined (js "role") JStr (jp_role p)
  ++ [(js "iss", JStr (jp_iss p)); (js "aud", JStr (jp_aud p)); (js "iat", json_int (jp_iat p));
      (js "exp", json_int (jp_exp p))].

Class JwtTextLaws `{Jose} : Prop := {
  jwt_compact secret p :
    exists o header signature,
      o ≡ₚ payload_object p /\ forallb is_base64url header = true /\ forallb is_base64url signature = true /\
      forall t, JSON_stringify (JObj o) = Some t ->
        jwt_sign secret p = header ++ js "." ++ base64url (utf8 t) ++ js "." ++ signature
}.

(** * Lemmas *)

Lemma split_on_app c a b : c ∉ a -> split_on c (a ++ c :: b) = a :: split_on c b.
Proof.
  induction a as [|d a IH]; intros Hn; cbn [app split_on].
  - by rewrite N.eqb_refl.
  - apply not_elem_of_cons in Hn as [Hd Hn]. rewrite (proj2 (N.eqb_neq d c)) by congruence. by rewrite IH.
Qed.

Lemma split_on_none c a : c ∉ a -> split_on c a = [a].
Proof.
  induction a as [|d a IH]; intros Hn; cbn [split_on]; [done|].
  apply not_elem_of_cons in Hn as [Hd Hn]. rewrite (proj2 (N.eqb_neq d c)) by congruence. by rewrite IH.
Qed.

Lemma base64url_no c s : forallb is_base64url s = true -> is_base64url c = false -> c ∉ s.
Proof.
  intros Hs Hc Hin. rewrite forallb_Forall, Forall_forall in Hs. specialize (Hs c Hin). cbn in Hs. congruence.
Qed.

Lemma sextet_standard c : sextet (standard_alphabet c) = sextet c.
Proof.
  unfold standard_alphabet. destruct (N.eqb_spec c 45) as [->|]; [done|]. by destruct (N.eqb_spec c 95) as [->|].
Qed.

Lemma utf8_byte_range s : well_formed s -> Forall (fun b => (b < 256)%N) (utf8 s).
Proof.
  intros Hs. assert (Hcp : Forall (fun cp => (cp < 0x110000)%N) (code_points s)).
  { induction Hs as [|c s Hh Hl Hc Hw IH|h l s Hh Hl Hw IH]; cbn [code_points]; [done|rewrite Hh, Hl..];
      (constructor; [|exact IH]).
    - lia.
    - unfold is_high, is_low in *. rewrite andb_true_iff, !N.leb_le in *. lia. }
  unfold utf8. apply Forall_concat, Forall_map. eapply Forall_impl; [exact Hcp|]. intros cp Hb. cbn in Hb.
  unfold utf8_bytes.
  assert (forall k, (cp mod 0x40 < 0x40)%N /\ ((cp / k) mod 0x40 < 0x40)%N).
  { intros k. split; by apply N.mod_lt. }
  pose proof (proj1 (H 1%N)). pose proof (proj2 (H 0x40%N)). pose proof (proj2 (H 0x1000%N)).
  destruct (N.ltb_spec cp 0x80), (N.ltb_spec cp 0x800), (N.ltb_spec cp 0x10000); repeat constructor; try lia.
  all: assert (cp / 0x40 < 0x20 \/ 0x800 <= cp)%N by
    (destruct (N.ltb_spec cp 0x800); [left; apply N.Div0.div_lt_upper_bound; lia|by right]);
    assert (cp / 0x1000 < 0x10 \/ 0x10000 <= cp)%N by
    (destruct (N.ltb_spec cp 0x10000); [left; apply N.Div0.div_lt_upper_bound; lia|by right]);
    assert (cp / 0x40000 < 5)%N by (apply N.Div0.div_lt_upper_bound; lia); div_lia.
Qed.

(** A segment jose wrote is the text it came from. *)
Lemma decode_segment t : well_formed t -> base64UrlDecode (base64url (utf8 t)) = t.
Proof.
  intros Ht. unfold base64UrlDecode.
  assert (E : buffer_of_base64 (standard_alphabet <$> base64url (utf8 t)) = buffer_of_base64 (base64url (utf8 t))).
  { unfold buffer_of_base64. f_equal. induction (base64url (utf8 t)) as [|c s IH]; [done|].
    cbn [fmap list_fmap omap list_omap]. by rewrite sextet_standard, IH. }
  rewrite E, buffer_of_base64url by by apply utf8_byte_range. by apply utf8_round_trip.
Qed.

(** ** What the schemas accept *)

Lemma get_elem o k v : NoDup o.*1 -> (k, v) ∈ o -> get o k = Some v.
Proof.
  induction o as [|[k' v'] o IH]; intros Hn Hin; [by apply not_elem_of_nil in Hin|].
  cbn [fmap list_fmap fst] in Hn. apply NoDup_cons in Hn as [Hk Hn]. rewrite get_cons.
  apply elem_of_cons in Hin as [[= <- <-]|Hin]; [|by rewrite IH].
  rewrite (proj2 (get_None o k) Hk). by rewrite bool_decide_eq_true_2.
Qed.

Section Accepted.
Context `{ZodLaws}.

Lemma uuid_parsed s : uuid_regex s = true -> parsed uuidSchema (Some (JStr s)) = Some s.
Proof. intros Hs. unfold uuidSchema. rewrite parsed_string. cbn [string_checks]. by rewrite Hs. Qed.

Lemma role_parsed r : parsed roleSchema (Some (JStr (role_str r))) = Some r.
Proof. unfold roleSchema. rewrite parsed_enum. by destruct r. Qed.

Lemma int_parsed cs z :
  (Z.abs z <= MAX_SAFE_INTEGER)%Z -> forallb (fun c => number_ok c (mkNum z 0)) cs = true ->
  parsed (int_of cs) (Some (json_int z)) = Some z.
Proof.
  intros Hz Hcs. unfold int_of, json_int. rewrite parsed_view, parsed_number.
  unfold number_checks. cbn [forallb].
  assert (Hi : int_value (mkNum z 0) = Some z).
  { unfold int_value. cbn [jn_exp jn_mant Z.leb Z.compare]. change (2 ^ 0)%Z with 1%Z. by rewrite Z.mul_1_r. }
  assert (Hok : number_ok NInt (mkNum z 0) = true).
  { cbn [number_ok]. rewrite Hi. apply andb_true_iff. rewrite !Z.leb_le. lia. }
  rewrite Hok, Hcs. cbn [andb fmap option_fmap option_map]. by rewrite Hi.
Qed.

(** The claims of an access token, whatever their order. *)
Lemma claims_parsed p tenant sub role o :
  o ≡ₚ payload_object p -> jp_tenant_id p = Some tenant -> jp_sub p = Some sub -> jp_role p = Some (role_str role) ->
  uuid_regex tenant = true -> uuid_regex sub = true ->
  (Z.abs (jp_iat p) <= MAX_SAFE_INTEGER)%Z -> (Z.abs (jp_exp p) <= MAX_SAFE_INTEGER)%Z ->
  parsed accessClaimsSchema (Some (JObj o)) = Some (sub, (tenant, (role, (jp_iat p, (jp_exp p, tt))))).
Proof.
  intros Ho Ht Hs Hr Htu Hsu Hi He. unfold payload_object in Ho. rewrite Ht, Hs, Hr in Ho. cbn [if_defined app] in Ho.
  assert (Hk : o.*1 ≡ₚ [js "tenant_id"; js "sub"; js "role"; js "iss"; js "aud"; js "iat"; js "exp"]) by by rewrite Ho.
  assert (Hn : NoDup o.*1) by (rewrite Hk; apply (bool_decide_unpack _); vm_compute; done).
  assert (Hg : forall k v, (k, v) ∈ payload_object p -> get o k = Some v).
  { intros k v Hin. apply get_elem; [done|]. rewrite Ho. unfold payload_object in Hin. by rewrite Ht, Hs, Hr in Hin. }
  unfold payload_object in Hg. rewrite Ht, Hs, Hr in Hg. cbn [if_defined app] in Hg.
  apply object_complete; [|done|].
  - unfold plain_keys. rewrite Ho. by repeat constructor.
  - cbn [parsed_fields].
    rewrite (Hg (js "sub") (JStr sub)) by set_solver. rewrite uuid_parsed by done. cbn [mbind option_bind].
    rewrite (Hg (js "tenant_id") (JStr tenant)) by set_solver. rewrite uuid_parsed by done. cbn [mbind option_bind].
    rewrite (Hg (js "role") (JStr (role_str role))) by set_solver. rewrite role_parsed. cbn [mbind option_bind].
    rewrite (Hg (js "iat") (json_int (jp_iat p))) by set_solver. rewrite int_parsed by done. cbn [mbind option_bind].
    rewrite (Hg (js "exp") (json_int (jp_exp p))) by set_solver. rewrite int_parsed by done. done.
Qed.

End Accepted.

Lemma stringify_obj_Some (l : jsobject) :
  Forall (fun kv => is_Some (JSON_stringify kv.2)) l -> is_Some (JSON_stringify (JObj l)).
Proof.
  intros Hl. cbn [JSON_stringify]. match goal with |- context [?f l ≫= _] => assert (Hs : is_Some (f l)) end.
  { induction Hl as [|[k v] l [t Ht] Hl [ts Hts]]; [by eexists|]. cbn [snd] in Ht.
    rewrite Ht. cbn [mbind option_bind]. rewrite Hts. by eexists. }
  destruct Hs as [ts ->]. by eexists.
Qed.

Lemma uuid_chars s : uuid_regex s = true -> Forall (fun c => is_hex c = true \/ c = 45%N) s.
Proof.
  unfold uuid_regex. rewrite andb_true_iff. intros [_ Hf]. rewrite forallb_Forall in Hf.
  apply Forall_lookup. intros i c Hc. rewrite Forall_forall in Hf.
  specialize (Hf (i, c)). cbn beta iota in Hf.
  assert (Hin : (i, c) ∈ zip (seq 0 (length s)) s).
  { apply list_elem_of_lookup. exists i. apply lookup_zip_with_Some. exists i, c. split_and!; try done.
    apply lookup_seq. split; [done|]. by apply lookup_lt_Some in Hc. }
  specialize (Hf Hin). destruct (existsb _ _); [right; by apply N.eqb_eq|by left].
Qed.

Lemma hex_range c : is_hex c = true -> (48 <= c <= 57 \/ 97 <= c <= 102 \/ 65 <= c <= 70)%N.
Proof. unfold is_hex. rewrite !orb_true_iff, !andb_true_iff, !N.leb_le. lia. Qed.

Lemma uuid_utf16 s : uuid_regex s = true -> utf16 s.
Proof.
  intros Hs%uuid_chars. eapply Forall_impl; [exact Hs|]. intros c [?%hex_range| ->]; cbn; lia.
Qed.

Lemma utf16_js s : utf16 (js s).
Proof.
  induction s as [|c s IH]; constructor; [|exact IH]. destruct c as [[] [] [] [] [] [] [] []]; done.
Qed.

Lemma role_utf16 r : utf16 (role_str r).
Proof. destruct r; apply utf16_js. Qed.

(** The text of an access token. *)
Lemma access_token_text `{JwtTextLaws} jwt t u role now :
  uuid_regex t = true -> uuid_regex u = true -> (Z.abs (now / 1000) <= MAX_SAFE_INTEGER)%Z ->
  (Z.abs (now / 1000 + jc_accessTtlSeconds jwt) <= MAX_SAFE_INTEGER)%Z ->
  let p := access_payload jwt (mkSessionClaims t u role) now in
  exists o text header signature,
    o ≡ₚ payload_object p /\ JSON_stringify (JObj o) = Some text /\ well_formed text /\
    forallb is_base64url header = true /\ forallb is_base64url signature = true /\
    jwt_sign (jc_secret jwt) p = header ++ js "." ++ base64url (utf8 text) ++ js "." ++ signature.
Proof.
  intros Ht Hu Hi He p. destruct (jwt_compact (jc_secret jwt) p) as (o & header & signature & Ho & Hh & Hs & Htext).
  assert (Hst : is_Some (JSON_stringify (JObj o))).
  { apply stringify_obj_Some. rewrite Ho. unfold payload_object, p. cbn [if_defined app jp_tenant_id jp_sub jp_role
      access_payload sc_tenantId sc_principalId sc_role jp_iss jp_aud jp_iat jp_exp].
    assert (Hn : forall z, (Z.abs z <= MAX_SAFE_INTEGER)%Z -> is_Some (JSON_stringify (json_int z))).
    { intros z Hz. unfold json_int. cbn [JSON_stringify]. unfold MAX_SAFE_INTEGER in Hz.
      rewrite (proj2 (Z.leb_le _ _)) by lia. by eexists. }
    repeat constructor; try (by eexists); by apply Hn. }
  destruct Hst as [text Hst]. exists o, text, header, signature. split_and!; try done; [|by apply Htext].
  apply (stringify_well_formed (JObj o)); [|done]. constructor; rewrite Ho; unfold payload_object, p;
    cbn [if_defined app jp_tenant_id jp_sub jp_role access_payload sc_tenantId sc_principalId sc_role jp_iss jp_aud
      jp_iat jp_exp]; rewrite !Forall_cons, Forall_nil; cbn [fst snd]; split_and!; try done;
    try apply utf16_js; constructor; first [by apply uuid_utf16|apply role_utf16|apply utf16_js].
Qed.

(** The claims the control plane signs are the claims the web application reads. *)
Lemma token_claims `{ZodLaws, JwtTextLaws} jwt t u role now :
  uuid_regex t = true -> uuid_regex u = true -> (Z.abs (now / 1000) <= MAX_SAFE_INTEGER)%Z ->
  (Z.abs (now / 1000 + jc_accessTtlSeconds jwt) <= MAX_SAFE_INTEGER)%Z ->
  decodeAccessClaims (Some (jwt_sign (jc_secret jwt) (access_payload jwt (mkSessionClaims t u role) now)))
  = Some (mkAccessClaims u t role (now / 1000) (now / 1000 + jc_accessTtlSeconds jwt)).
Proof.
  intros Ht Hu Hi He. set (p := access_payload jwt (mkSessionClaims t u role) now).
  destruct (access_token_text jwt t u role now Ht Hu Hi He) as (o & text & header & signature & Ho & Hst & Hw & Hh & Hs & E0).
  fold p in Ho, E0. rewrite E0. assert (Hdot : is_base64url 46 = false) by done. unfold decodeAccessClaims.
  assert (Hne : exists c s, header ++ js "." ++ base64url (utf8 text) ++ js "." ++ signature = c :: s)
    by (destruct header; eexists _, _; done).
  destruct Hne as (c & s & E). rewrite E. rewrite <-E. change (js ".") with [46%N]. cbn [app].
  rewrite split_on_app by by apply base64url_no.
  rewrite split_on_app by (apply base64url_no; [by apply base64url_safe, utf8_byte_range|done]).
  rewrite split_on_none by by apply base64url_no.
  rewrite decode_segment, (JSON_round_trip _ _ Hst) by done. cbn [mbind option_bind].
  by rewrite (claims_parsed p t u role).
Qed.

(** Characters of tokens. *)
Definition token_char (c : N) : bool := is_base64url c || (c =? 46)%N.

Lemma access_token_chars `{JwtTextLaws} jwt t u role now :
  uuid_regex t = true -> uuid_regex u = true -> (Z.abs (now / 1000) <= MAX_SAFE_INTEGER)%Z ->
  (Z.abs (now / 1000 + jc_accessTtlSeconds jwt) <= MAX_SAFE_INTEGER)%Z ->
  let token := jwt_sign (jc_secret jwt) (access_payload jwt (mkSessionClaims t u role) now) in
  token <> [] /\ forallb token_char token = true.
Proof.
  intros Ht Hu Hi He token.
  destruct (access_token_text jwt t u role now Ht Hu Hi He) as (o & text & header & signature & _ & _ & Hw & Hh & Hs & E).
  subst token. rewrite E. split; [by destruct header|].
  assert (Himp : forall s, forallb is_base64url s = true -> forallb token_char s = true).
  { intros s. rewrite !forallb_forall. intros Hc c Hin. unfold token_char. by rewrite Hc. }
  rewrite !forallb_app, (Himp header), (Himp signature), (Himp (base64url (utf8 text)))
    by (done || by apply base64url_safe, utf8_byte_range). done.
Qed.

Lemma hex_token_char c : is_hex c = true -> token_char c = true.
Proof.
  intros Hc%hex_range. unfold token_char, is_base64url, is_alnum.
  apply orb_true_iff. left. apply orb_true_iff. left.
  rewrite !orb_true_iff, !andb_true_iff, !N.leb_le. lia.
Qed.

Lemma uuid_token_chars s : uuid_regex s = true -> forallb token_char s = true.
Proof.
  intros Hs%uuid_chars. apply forallb_Forall. eapply Forall_impl; [exact Hs|].
  intros c [Hc| ->]; [by apply hex_token_char|done].
Qed.

Lemma token_char_range c : token_char c = true -> (45 <= c <= 122)%N /\ c <> 59%N /\ c <> 61%N.
Proof.
  unfold token_char, is_base64url, is_alnum.
  rewrite !orb_true_iff, !andb_true_iff, !N.leb_le, N.eqb_eq, bool_decide_eq_true, !elem_of_cons, elem_of_nil. lia.
Qed.

Lemma solid_trim s : forallb token_char s = true -> trim s = s.
Proof.
  assert (Hstart : forall s, forallb token_char s = true -> trimStart s = s).
  { intros [|c s']; [done|]. cbn [forallb trimStart]. intros [[Hc _]%token_char_range _]%andb_true_iff.
    assert (is_js_space c = false) as ->; [|done]. unfold is_js_space. apply orb_false_iff. split.
    - apply bool_decide_eq_false. rewrite !elem_of_cons, elem_of_nil. lia.
    - apply andb_false_iff. left. apply N.leb_gt. lia. }
  intros Hs. unfold trim. rewrite (Hstart s Hs). rewrite Hstart; [by rewrite reverse_involutive|].
  rewrite forallb_Forall in *. by apply Forall_reverse.
Qed.
