(* ===== verification/Bff.v ===== *)
(** * The backend for the frontend

    [server/control-plane.ts] and [server/auth.ts] of [apps/web].  A server function is
    a computation over the state of the services behind it, [W], that may fail and that
    leaves effects on its response: cookies and headers.  The services are reached
    through [fetch], a parameter: the theorems that do not name an instance hold for
    any service. *)

From stdpp Require Import base list option numbers strings gmap.
From S2P Require Import Prelude Errors Tokens Rbac Entities Ports AuthService Services Oidc Google Zod Contracts Wire Json WebSession.

(** ** Server functions *)

Inductive cookie_op :=
| SetCookie (name value : jsstr) (attrs : CookieAttributes)
| DeleteCookie (name : jsstr).

(** What a response carries besides its value. *)
Record reply := mkReply { rp_cookies : list cookie_op; rp_headers : list (jsstr * jsstr) }.

Inductive web_exn :=
| ControlPlaneError (status : Z) (code message : jsstr)
| ZodError
| RedirectTo (path : jsstr).

Definition web (W A : Type) : Type := W * reply -> result web_exn A * (W * reply).

#[export] Instance web_ret {W} : MRet (web W) := fun A a s => (Ok a, s).
#[export] Instance web_bind {W} : MBind (web W) := fun A B f p s =>
  match p s with
  | (Ok a, s') => f a s'
  | (Err e, s') => (Err e, s')
  end.

Definition raise {W A} (e : web_exn) : web W A := fun s => (Err e, s).

(** [try { p } catch (err) { h(err) }]. *)
Definition attempt {W A} (p : web W A) (h : web_exn -> web W A) : web W A := fun s =>
  match p s with
  | (Ok a, s') => (Ok a, s')
  | (Err e, s') => h e s'
  end.

(** [getCookie(name)] reads the request's cookies, not the response's. *)
Abbreviation jar := (gmap jsstr jsstr).

Definition getCookie (cookies : jar) (name : jsstr) : option jsstr := cookies !! name.

(** A cookie that is there and not empty. *)
Definition usable (cookie : option jsstr) : option jsstr :=
  match cookie with Some v => if truthy v then Some v else None | None => None end.

Definition setCookie {W} (name value : jsstr) (attrs : CookieAttributes) : web W unit := fun '(w, r) =>
  (Ok tt, (w, mkReply (rp_cookies r ++ [SetCookie name value attrs]) (rp_headers r))).

Definition deleteCookie {W} (name : jsstr) : web W unit := fun '(w, r) =>
  (Ok tt, (w, mkReply (rp_cookies r ++ [DeleteCookie name]) (rp_headers r))).

Definition setResponseHeader {W} (name value : jsstr) : web W unit := fun '(w, r) =>
  (Ok tt, (w, mkReply (rp_cookies r) (rp_headers r ++ [(name, value)]))).

(** What the browser's cookies are after a response. *)
Definition apply_op (op : cookie_op) (cookies : jar) : jar :=
  match op with
  | SetCookie name value _ => <[name := value]> cookies
  | DeleteCookie name => delete name cookies
  end.

Definition browser (cookies : jar) (r : reply) : jar := foldl (fun c op => apply_op op c) cookies (rp_cookies r).

(** The validator of a server function. *)
Definition validated {W A B} `{Zod} (s : schema A) (handler : A -> web W B) (input : option json) : web W B :=
  match parsed s input with Some data => handler data | None => raise ZodError end.

(** ** The services *)

Inductive Method := GET | POST | PUT | PATCH | DELETE.

Record FetchInit := mkFetch {
  fi_method : Method;
  fi_path : jsstr;
  fi_authorization : option jsstr;
  fi_body : option json                 (* [JSON.stringify] of it is sent *)
}.

(** [fr_text] is [None] when reading the body fails. *)
Record FetchResponse := mkFetchResponse {
  fr_status : Z;
  fr_statusText : jsstr;
  fr_text : option jsstr
}.

Class Backend (W : Type) := {
  fetch : FetchInit -> W -> option FetchResponse * W
}.

Definition res_ok (res : FetchResponse) : bool := ((200 <=? fr_status res) && (fr_status res <=? 299))%Z.

(** [body?.key] when it is a string. *)
Definition body_string (body : option json) (key : jsstr) : option jsstr :=
  match body with Some (JObj o) => string_field o key | _ => None end.

Section ControlPlane.
Context {W : Type} `{Backend W, Zod}.

Definition cpFetch (init : FetchInit) : web W (option json) := fun '(w, r) =>
  match fetch init w with
  | (None, w') =>
      (Err (ControlPlaneError 503 (js "upstream_unreachable") (js "control-plane is unreachable")), (w', r))
  | (Some res, w') =>
      let raw := default [] (fr_text res) in
      let body := if truthy raw then Some <$> JSON_parse raw else Some None in
      (match body with
       | None =>
           Err (ControlPlaneError (if res_ok res then 502 else fr_status res) (js "invalid_response")
                  (js "control-plane returned a non-JSON response"))
       | Some body =>
           if res_ok res then Ok body
           else Err (ControlPlaneError (fr_status res) (default (js "error") (body_string body (js "error")))
                       (default (fr_statusText res) (body_string body (js "message"))))
       end, (w', r))
  end.

(** [schema.parse(body)]. *)
Definition schema_parse {A} (s : schema A) (body : option json) : web W A :=
  match parsed s body with Some a => mret a | None => raise ZodError end.

Definition post (path : jsstr) (body : json) : FetchInit := mkFetch POST path None (Some body).

Definition login_json (c : LoginCommand) : json :=
  JObj [(js "tenantSlug", JStr (lc_tenantSlug c)); (js "email", JStr (lc_email c));
        (js "password", JStr (lc_password c))].

Definition cpLogin (body : LoginCommand) : web W SessionTokens :=
  b ← cpFetch (post (js "/v1/auth/login") (login_json body)); schema_parse tokenPairSchema b.

Definition token_json (refreshToken : jsstr) : json := JObj [(js "refreshToken", JStr refreshToken)].

Definition cpRefresh (refreshToken : jsstr) : web W SessionTokens :=
  b ← cpFetch (post (js "/v1/auth/refresh") (token_json refreshToken)); schema_parse tokenPairSchema b.

Definition cpLogout (refreshToken : jsstr) : web W unit :=
  _ ← cpFetch (post (js "/v1/auth/logout") (token_json refreshToken)); mret tt.

Definition bearer (accessToken : jsstr) : option jsstr := Some (js "Bearer " ++ accessToken).

Definition cpAuthedFetch {A} (accessToken path : jsstr) (s : schema A) : web W A :=
  b ← cpFetch (mkFetch GET path (bearer accessToken) None); schema_parse s b.

Definition cpAuthedSend {A} (accessToken : jsstr) (method : Method) (path : jsstr) (s : schema A)
    (body : option json) : web W A :=
  b ← cpFetch (mkFetch method path (bearer accessToken) body); schema_parse s b.

Definition authorize_request_json (c : OidcAuthorizeCommand) : json :=
  JObj ([(js "tenantSlug", JStr (oa_tenantSlug c))] ++ if_defined (js "returnTo") JStr (oa_returnTo c)).

Definition cpOidcAuthorize (body : OidcAuthorizeCommand) : web W OidcAuthorizeResult :=
  b ← cpFetch (post (js "/v1/auth/oidc/google/authorize") (authorize_request_json body));
  schema_parse oidcAuthorizeResponseSchema b.

Definition callback_request_json (c : OidcCallbackRequest) : json :=
  JObj ([(js "tenantSlug", JStr (or_tenantSlug c)); (js "code", JStr (or_code c)); (js "state", JStr (or_state c))]
        ++ if_defined (js "inviteToken") JStr (or_inviteToken c)).

Definition cpOidcCallback (body : OidcCallbackRequest) : web W SessionTokens :=
  b ← cpFetch (post (js "/v1/auth/oidc/google/callback") (callback_request_json body));
  schema_parse tokenPairSchema b.

(** ** Sessions *)

Section Auth.
Context (env : WebEnv).

Definition writeSessionCookies (pair : SessionTokens) : web W unit :=
  _ ← setCookie ACCESS_COOKIE (st_accessToken pair) (sessionCookieAttributes env);
  setCookie REFRESH_COOKIE (st_refreshToken pair) (sessionCookieAttributes env).

Definition clearSessionCookies : web W unit :=
  _ ← deleteCookie ACCESS_COOKIE; deleteCookie REFRESH_COOKIE.

Inductive LoginResult := login_ok (session : ClientSession) | login_failed (message : jsstr).

Definition client_error (status : Z) : bool := ((400 <=? status) && (status <? 500))%Z.

Definition unavailable : jsstr := js "Sign-in is temporarily unavailable. Please try again.".

Definition loginFn : option json -> web W LoginResult :=
  validated loginRequestSchema (fun data =>
    attempt
      (pair ← cpLogin data;
       match decodeAccessClaims (Some (st_accessToken pair)) with
       | None => mret (login_failed (js "Login failed"))
       | Some claims => _ ← writeSessionCookies pair; mret (login_ok (sessionFromClaims claims))
       end)
      (fun err =>
         match err with
         | ControlPlaneError status _ _ =>
             mret (login_failed (if client_error status then js "Invalid credentials" else unavailable))
         | _ => raise err
         end)).

Definition logoutFn (cookies : jar) : web W unit :=
  _ ← match usable (getCookie cookies REFRESH_COOKIE) with
      | Some refreshToken => attempt (cpLogout refreshToken) (fun _ => mret tt)
      | None => mret tt
      end;
  clearSessionCookies.

Definition getSession (cookies : jar) (nowMs : Z) : web W (option ClientSession) :=
  let refresh :=
    match usable (getCookie cookies REFRESH_COOKIE) with
    | None => _ ← clearSessionCookies; mret None
    | Some refreshToken =>
        attempt
          (pair ← cpRefresh refreshToken;
           match decodeAccessClaims (Some (st_accessToken pair)) with
           | None => _ ← clearSessionCookies; mret None
           | Some fresh => _ ← writeSessionCookies pair; mret (Some (sessionFromClaims fresh))
           end)
          (fun _ => _ ← clearSessionCookies; mret None)
    end in
  match decodeAccessClaims (getCookie cookies ACCESS_COOKIE) with
  | Some claims => if isExpired claims nowMs then refresh else mret (Some (sessionFromClaims claims))
  | None => refresh
  end.

End Auth.
End ControlPlane.

(** * Lemmas *)

Lemma web_bind_run {W A B} (p : web W A) (f : A -> web W B) s :
  (p ≫= f) s = match p s with (Ok a, s') => f a s' | (Err e, s') => (Err e, s') end.
Proof. done. Qed.

Lemma writeSessionCookies_run {W} env pair (w : W) r :
  writeSessionCookies env pair (w, r) =
  (Ok tt, (w, mkReply (rp_cookies r ++ [SetCookie ACCESS_COOKIE (st_accessToken pair) (sessionCookieAttributes env);
                                        SetCookie REFRESH_COOKIE (st_refreshToken pair) (sessionCookieAttributes env)])
                (rp_headers r))).
Proof. unfold writeSessionCookies. rewrite web_bind_run. cbn [setCookie rp_cookies rp_headers]. by rewrite <-app_assoc. Qed.

Lemma clearSessionCookies_run {W} (w : W) r :
  clearSessionCookies (w, r) =
  (Ok tt, (w, mkReply (rp_cookies r ++ [DeleteCookie ACCESS_COOKIE; DeleteCookie REFRESH_COOKIE]) (rp_headers r))).
Proof. unfold clearSessionCookies. rewrite web_bind_run. cbn [deleteCookie rp_cookies rp_headers]. by rewrite <-app_assoc. Qed.

(** Cookies of a browser after a response. *)
Ltac jar_simpl :=
  unfold browser; cbn [rp_cookies foldl apply_op app fmap list_fmap];
  repeat first [rewrite lookup_delete_eq | rewrite lookup_insert_eq
               | rewrite lookup_delete_ne by done | rewrite lookup_insert_ne by done].
