(* ===== verification/WebUrl.v ===== *)
(** * Reading query strings

    [new URL(url).searchParams.get(name)] of the platform (WHATWG URL), for a text that
    is a URL, and that it reads back what [URLSearchParams.toString()] of [Text]
    wrote. *)

From stdpp Require Import base list option numbers strings.
From S2P Require Import Prelude Errors Tokens Text Rbac Entities Uuid Schema World Sql Integrity Google Authorize Json Utf8 WebSession.

(** The part of [s] before the first [c]. *)
Definition before_char (c : N) (s : jsstr) : jsstr :=
  match indexOf s [c] with Some i => take i s | None => s end.

(** The part after it. *)
Definition after_char (c : N) (s : jsstr) : option jsstr :=
  (fun i => drop (S i) s) <$> indexOf s [c].

(** [application/x-www-form-urlencoded] bytes. *)
Fixpoint percent_decode (bs : list N) : list N :=
  match bs with
  | [] => []
  | b :: bs' =>
      if (b =? 43)%N then 32%N :: percent_decode bs'
      else match bs' with
           | h :: l :: rest =>
               if (b =? 37)%N && is_hex h && is_hex l
               then (hex_value h * 16 + hex_value l)%N :: percent_decode rest
               else b :: percent_decode bs'
           | _ => b :: percent_decode bs'
           end
  end.

Definition form_decode (s : jsstr) : jsstr := utf8_decode (percent_decode (utf8 s)).

Definition form_pair (s : jsstr) : jsstr * jsstr :=
  (form_decode (before_char 61 s), form_decode (default [] (after_char 61 s))).

(** The pairs of a URL's query. *)
Definition searchParams (url : jsstr) : list (jsstr * jsstr) :=
  match after_char 63 (before_char 35 url) with
  | Some query => form_pair <$> List.filter truthy (split_on 38 query)
  | None => []
  end.

(** [searchParams.get(name)]: the first value. *)
Definition searchParam (url name : jsstr) : option jsstr :=
  snd <$> find (fun kv => bool_decide (kv.1 = name)) (searchParams url).

(** * Lemmas *)

Lemma utf8_ascii s : Forall (fun c => (c < 128)%N) s -> utf8 s = s.
Proof.
  unfold utf8. induction 1 as [|c s Hc Hs IH]; [done|]. cbn [code_points]. unfold is_high, is_low.
  rewrite (proj2 (N.leb_gt 0xD800 c)), (proj2 (N.leb_gt 0xDC00 c)) by lia. cbn [andb map concat].
  unfold utf8_bytes at 1. rewrite (proj2 (N.ltb_lt c 0x80)) by lia. cbn [app]. by rewrite IH.
Qed.

(** The characters the encoding writes. *)
Definition form_char (c : N) : bool := form_safe c || bool_decide (c ∈ [37; 43]%N).

Lemma form_safe_bound c : form_safe c = true -> (c < 128)%N /\ c <> 37%N /\ c <> 43%N.
Proof.
  unfold form_safe, is_alnum. rewrite !orb_true_iff, !andb_true_iff, !N.leb_le, bool_decide_eq_true,
    !elem_of_cons, elem_of_nil. lia.
Qed.

Lemma form_char_bound c : form_char c = true -> (c < 128)%N.
Proof.
  unfold form_char. rewrite orb_true_iff, bool_decide_eq_true, !elem_of_cons, elem_of_nil.
  intros [[? _]%form_safe_bound|]; lia.
Qed.

Lemma upper_hex_facts n :
  (n < 16)%N -> form_char (upper_hex_digit n) = true /\ is_hex (upper_hex_digit n) = true /\ hex_value (upper_hex_digit n) = n.
Proof.
  intros Hn. assert (Hall : Forall (fun k => form_char (upper_hex_digit (N.of_nat k)) = true /\
      is_hex (upper_hex_digit (N.of_nat k)) = true /\ hex_value (upper_hex_digit (N.of_nat k)) = N.of_nat k) (seq 0 16)).
  { apply (bool_decide_unpack _). vm_compute. done. }
  rewrite Forall_forall in Hall. rewrite <-(N2Nat.id n). apply Hall, elem_of_seq. lia.
Qed.

Lemma byte_nibbles b : (b < 256)%N -> (b / 16 < 16)%N /\ (b mod 16 < 16)%N.
Proof. intros Hb. split; [apply N.Div0.div_lt_upper_bound; lia|by apply N.mod_lt]. Qed.

Lemma form_byte_chars b : (b < 256)%N -> Forall (fun c => form_char c = true) (form_byte b).
Proof.
  intros Hb. destruct (byte_nibbles b Hb) as [Hh Hl]. unfold form_byte. destruct (form_safe b) eqn:E.
  - repeat constructor. unfold form_char. by rewrite E.
  - destruct (b =? 32)%N; repeat constructor; by apply upper_hex_facts.
Qed.

Lemma form_byte_decode b rest : (b < 256)%N -> percent_decode (form_byte b ++ rest) = b :: percent_decode rest.
Proof.
  intros Hb. destruct (byte_nibbles b Hb) as [Hh Hl]. unfold form_byte. destruct (form_safe b) eqn:E.
  - apply form_safe_bound in E as (_ & H37 & H43). cbn [app percent_decode].
    rewrite (proj2 (N.eqb_neq _ _) H43), (proj2 (N.eqb_neq _ _) H37). by destruct rest as [|? [|? ?]].
  - destruct (N.eqb_spec b 32) as [->|Hn]; [done|]. cbn [app percent_decode].
    change (37 =? 43)%N with false. change (37 =? 37)%N with true. cbn match.
    destruct (upper_hex_facts _ Hh) as (_ & -> & ->), (upper_hex_facts _ Hl) as (_ & -> & ->). cbn [andb].
    f_equal. pose proof (N.div_mod' b 16). lia.
Qed.

Lemma form_encode_chars s : well_formed s -> Forall (fun c => form_char c = true) (form_encode s).
Proof.
  intros Hs%utf8_byte_range. unfold form_encode. apply Forall_concat, Forall_map.
  eapply Forall_impl; [exact Hs|]. apply form_byte_chars.
Qed.

Lemma form_round_trip s : well_formed s -> form_decode (form_encode s) = s.
Proof.
  intros Hs. unfold form_decode. rewrite utf8_ascii.
  2: { eapply Forall_impl; [by apply form_encode_chars|]. intros c Hc. by apply form_char_bound. }
  assert (E : percent_decode (form_encode s) = utf8 s); [|by rewrite E; apply utf8_round_trip].
  apply utf8_byte_range in Hs. unfold form_encode. induction Hs as [|b bs Hb Hbs IH]; [done|].
  cbn [map concat]. by rewrite form_byte_decode, IH.
Qed.

Lemma form_encode_no c s : well_formed s -> form_char c = false -> c ∉ form_encode s.
Proof.
  intros Hs%form_encode_chars Hc Hin. rewrite Forall_forall in Hs. specialize (Hs c Hin). cbn in Hs. congruence.
Qed.

Lemma before_char_app c a b : c ∉ a -> before_char c (a ++ c :: b) = a.
Proof. intros Ha. unfold before_char. rewrite indexOf_char_app by done. by rewrite take_app_length. Qed.

Lemma before_char_none c a : c ∉ a -> before_char c a = a.
Proof. intros Ha%indexOf_char_None. unfold before_char. by rewrite Ha. Qed.

Lemma after_char_app c a b : c ∉ a -> after_char c (a ++ c :: b) = Some b.
Proof.
  intros Ha. unfold after_char. rewrite indexOf_char_app by done. cbn [fmap option_fmap option_map].
  replace (S (length a)) with (length a + 1) by lia. by rewrite drop_app_add.
Qed.

Definition encoded_pair (kv : jsstr * jsstr) : jsstr := form_encode kv.1 ++ 61%N :: form_encode kv.2.

Lemma form_pair_encoded kv : well_formed kv.1 -> well_formed kv.2 -> form_pair (encoded_pair kv) = kv.
Proof.
  intros Hk Hv. destruct kv as [k v]. unfold form_pair, encoded_pair. cbn [fst snd] in *.
  rewrite before_char_app, after_char_app by (by apply form_encode_no). cbn [default from_option id].
  by rewrite !form_round_trip.
Qed.

Lemma encoded_pair_no c kv :
  well_formed kv.1 -> well_formed kv.2 -> form_char c = false -> c <> 61%N -> c ∉ encoded_pair kv.
Proof.
  intros Hk Hv Hc Hn. unfold encoded_pair. rewrite elem_of_app, elem_of_cons.
  intros [Hin|[->|Hin]]; [by eapply form_encode_no in Hin|done|by eapply form_encode_no in Hin].
Qed.

Lemma split_join c ts : ts <> [] -> Forall (fun t => c ∉ t) ts -> split_on c (join ts [c]) = ts.
Proof.
  intros Hne Hts. induction Hts as [|t ts Ht Hts IH]; [done|]. destruct ts as [|t' ts].
  - by apply split_on_none.
  - rewrite join_cons2. cbn [app]. by rewrite split_on_app, IH.
Qed.

Lemma join_no c d ts : c <> d -> Forall (fun t => c ∉ t) ts -> c ∉ join ts [d].
Proof.
  intros Hcd. induction 1 as [|t ts Ht Hts IH]; [apply not_elem_of_nil|]. destruct ts as [|t' ts]; [done|].
  rewrite join_cons2, !elem_of_app, list_elem_of_singleton. naive_solver.
Qed.

(** What was written into a query is what is read. *)
Lemma searchParams_round_trip base pairs :
  35%N ∉ base -> 63%N ∉ base -> Forall (fun kv => well_formed kv.1 /\ well_formed kv.2) pairs ->
  searchParams (base ++ js "?" ++ urlSearchParams pairs) = pairs.
Proof.
  intros Hh Hq Hp. assert (E : urlSearchParams pairs = join (encoded_pair <$> pairs) [38%N]).
  { unfold urlSearchParams. f_equal. apply map_ext. by intros [k v]. }
  assert (Hno : forall c, form_char c = false -> c <> 61%N -> Forall (fun t => c ∉ t) (encoded_pair <$> pairs)).
  { intros c Hc Hn. apply Forall_fmap. eapply Forall_impl; [exact Hp|]. intros kv [Hk Hv]. by apply encoded_pair_no. }
  unfold searchParams. rewrite E. change (js "?") with [63%N]. cbn [app].
  rewrite before_char_none.
  2: { rewrite elem_of_app, elem_of_cons. intros [?|[?|Hin]]; [done|done|].
       by apply (join_no 35%N 38%N) in Hin; [|done|apply Hno]. }
  rewrite after_char_app by done. destruct pairs as [|kv pairs]; [done|].
  rewrite split_join by (done || by apply Hno).
  assert (Ht : List.filter truthy (encoded_pair <$> kv :: pairs) = encoded_pair <$> kv :: pairs).
  { apply filter_keeps. apply forallb_Forall, Forall_fmap, Forall_true. intros [k v].
    unfold compose, encoded_pair. cbn [fst]. by destruct (form_encode k). }
  rewrite Ht, <-list_fmap_compose. clear -Hp. induction Hp as [|x l [Hk Hv] Hl IH]; [done|].
  rewrite fmap_cons, IH. unfold compose. by rewrite form_pair_encoded.
Qed.
