(* ===== verification/BffOidc.v ===== *)
(** * Signing in with Google from the browser

    [server/oidc.ts] of [apps/web], the relay between the browser and the control
    plane's OIDC endpoints, and the routes that call it: [routes/auth/google/callback.tsx],
    [routes/invite/accept.tsx] and the guard of [routes/_authed.tsx].  What ties the two
    halves of a flow to one browser are the handshake cookies. *)

From stdpp Require Import base list option numbers strings gmap.
From S2P Require Import Prelude Errors Effects Tokens Text Rbac Email Entities Ports Uuid Schema World Sql.
From S2P Require Import AuthService Services Oidc OidcFlow Authorize Google Zod Contracts Wire Json WebSession Bff WebUrl.

Definition OIDC_TENANT_COOKIE : jsstr := js "lg_oidc_tenant".
Definition OIDC_RETURN_COOKIE : jsstr := js "lg_oidc_return".
Definition OIDC_STATE_COOKIE : jsstr := js "lg_oidc_state".
Definition INVITE_TOKEN_COOKIE : jsstr := js "lg_invite_token".

Section Oidc.
Context {W : Type} `{Backend W, Zod} (env : WebEnv).

Definition oidcCookieAttributes : CookieAttributes :=
  {| ca_httpOnly := true;
     ca_sameSite := js "lax";
     ca_path := js "/";
     ca_maxAge := 60 * 10;
     ca_secure := ca_secure (sessionCookieAttributes env) |}.

Definition clearOidcCookies : web W unit :=
  _ ← deleteCookie OIDC_TENANT_COOKIE;
  _ ← deleteCookie OIDC_RETURN_COOKIE;
  _ ← deleteCookie OIDC_STATE_COOKIE;
  deleteCookie INVITE_TOKEN_COOKIE.

Inductive StartGoogleSigninResult := start_ok (redirectUrl : jsstr) | start_failed (message : jsstr).

Definition startGoogleSignin : option json -> web W StartGoogleSigninResult :=
  validated oidcAuthorizeRequestSchema (fun data =>
    attempt
      (res ← cpOidcAuthorize data;
       let redirectUrl := oar_redirectUrl res in
       match usable (searchParam redirectUrl (js "state")) with
       | None => mret (start_failed unavailable)
       | Some oidcState =>
           _ ← setCookie OIDC_STATE_COOKIE oidcState oidcCookieAttributes;
           _ ← setCookie OIDC_TENANT_COOKIE (oa_tenantSlug data) oidcCookieAttributes;
           _ ← match usable (oa_returnTo data) with
               | Some returnTo => setCookie OIDC_RETURN_COOKIE returnTo oidcCookieAttributes
               | None => mret tt
               end;
           mret (start_ok redirectUrl)
       end)
      (fun err =>
         match err with
         | ControlPlaneError status _ _ =>
             mret (start_failed (if client_error status
                                 then js "Sign-in with Google is unavailable for this workspace."
                                 else unavailable))
         | _ => raise err
         end)).

Inductive CompleteGoogleSigninResult :=
| complete_ok (session : ClientSession) (returnTo : option jsstr)
| complete_failed (message : jsstr).

(** The body is built from the fields of [data] and the invite cookie. *)
Definition callback_body (cookies : jar) (data : OidcCallbackRequest) : OidcCallbackRequest :=
  mkOidcCallbackRequest (or_tenantSlug data) (or_code data) (or_state data)
    (usable (getCookie cookies INVITE_TOKEN_COOKIE)).

Definition signin_failed : CompleteGoogleSigninResult := complete_failed (js "Sign-in failed").

Definition complete (cookies : jar) (data : OidcCallbackRequest) : web W CompleteGoogleSigninResult :=
  let returnTo := getCookie cookies OIDC_RETURN_COOKIE in
  if negb (bool_decide (usable (getCookie cookies OIDC_STATE_COOKIE) = Some (or_state data)))
  then _ ← clearOidcCookies; mret signin_failed
  else
    attempt
      (pair ← cpOidcCallback (callback_body cookies data);
       match decodeAccessClaims (Some (st_accessToken pair)) with
       | None => _ ← clearOidcCookies; mret signin_failed
       | Some claims =>
           _ ← writeSessionCookies env pair;
           _ ← clearOidcCookies;
           mret (complete_ok (sessionFromClaims claims) returnTo)
       end)
      (fun err =>
         _ ← clearOidcCookies;
         match err with
         | ControlPlaneError status _ _ =>
             mret (if client_error status then signin_failed else complete_failed unavailable)
         | _ => raise err
         end).

Definition completeGoogleSignin (cookies : jar) : option json -> web W CompleteGoogleSigninResult :=
  validated oidcCallbackClientRequestSchema (complete cookies).

Definition getOidcTenantSlug (cookies : jar) : option jsstr := getCookie cookies OIDC_TENANT_COOKIE.

(** [z.object({ token: z.string().min(1).max(512) })]. *)
Definition stashSchema : schema jsstr := ZView fst (ZObject strip (FField (js "token") (ZString [CMin 1; CMax 512]) FEnd)).

Definition stashInviteToken : option json -> web W bool :=
  validated stashSchema (fun token =>
    _ ← setResponseHeader (js "Referrer-Policy") (js "no-referrer");
    match parseInviteTenantSlug token with
    | None => mret false
    | Some _ => _ ← setCookie INVITE_TOKEN_COOKIE token oidcCookieAttributes; mret true
    end).

Definition getInviteTenantSlug (cookies : jar) : option jsstr :=
  usable (getCookie cookies INVITE_TOKEN_COOKIE) ≫= parseInviteTenantSlug.

(** ** Routes *)

(** The search parameters of the callback URL, [''] when absent. *)
Record CallbackSearch := mkCallbackSearch { sr_code : jsstr; sr_state : jsstr; sr_error : option jsstr }.

Definition hasControlChar (s : jsstr) : bool := existsb (fun c => (c <=? 0x1f)%N || (c =? 0x7f)%N) s.

Definition destination (returnTo : option jsstr) : jsstr :=
  match usable returnTo with
  | Some v => if single_slash v && negb (hasControlChar v) then v else js "/app"
  | None => js "/app"
  end.

(** [data: { tenantSlug, code, state }]. *)
Definition callback_input (tenantSlug code state : jsstr) : json :=
  JObj [(js "tenantSlug", JStr tenantSlug); (js "code", JStr code); (js "state", JStr state)].

(** The loader of [/auth/google/callback]: a message, or a redirect. *)
Definition callback_loader (cookies : jar) (deps : CallbackSearch) : web W jsstr :=
  if bool_decide (is_Some (usable (sr_error deps))) then mret (js "Sign-in was cancelled or denied.")
  else if negb (truthy (sr_code deps)) || negb (truthy (sr_state deps)) then mret (js "Invalid callback parameters.")
  else
    match usable (getOidcTenantSlug cookies) with
    | None => mret (js "Sign-in session expired. Please try signing in again.")
    | Some tenantSlug =>
        result ← completeGoogleSignin cookies (Some (callback_input tenantSlug (sr_code deps) (sr_state deps)));
        match result with
        | complete_failed message => mret message
        | complete_ok _ returnTo => raise (RedirectTo (destination returnTo))
        end
    end.

(** [/invite/accept]: with a token in the URL, the token moves to the cookie and the
    browser comes back without it. *)
Definition accept_before_load (token : option jsstr) : web W unit :=
  match usable token with
  | Some t =>
      _ ← stashInviteToken (Some (JObj [(js "token", JStr t)]));
      raise (RedirectTo (js "/invite/accept"))
  | None => mret tt
  end.

(** Then the page starts the flow of the invite's tenant: where it goes, or an error. *)
Definition accept_page (tenantSlug : option jsstr) : web W (jsstr + jsstr) :=
  match usable tenantSlug with
  | None => mret (inr (js "This invite link is invalid or has expired."))
  | Some slug =>
      result ← startGoogleSignin (Some (JObj [(js "tenantSlug", JStr slug)]));
      mret (match result with start_ok url => inl url | start_failed message => inr message end)
  end.

(** The guard of every route under [_authed]. *)
Definition authed_before_load (cookies : jar) (nowMs : Z) : web W ClientSession :=
  session ← getSession env cookies nowMs;
  match session with
  | None => raise (RedirectTo (js "/login"))
  | Some s => mret s
  end.

End Oidc.

(** * Lemmas *)

Definition no_reply : reply := mkReply [] [].

Definition handshake : list jsstr := [OIDC_TENANT_COOKIE; OIDC_RETURN_COOKIE; OIDC_STATE_COOKIE; INVITE_TOKEN_COOKIE].

Definition sets_cookie (r : reply) : Prop := exists name value attrs, SetCookie name value attrs ∈ rp_cookies r.

Lemma usable_Some c v : usable c = Some v <-> c = Some v /\ v <> [].
Proof.
  destruct c as [[|x c]|]; cbn; (split; [intros [=]|intros [[=] Hne]]); subst; try done.
Qed.

Lemma control_chars v : negb (hasControlChar v) = no_control v.
Proof. exact (containsControlChar_spec v). Qed.

Lemma destination_safe returnTo : stays_on_origin (destination returnTo) = true.
Proof.
  unfold destination. destruct (usable returnTo) as [v|]; [|done]. rewrite control_chars.
  destruct (single_slash v) eqn:Es, (no_control v) eqn:Ec; cbn [andb]; try done. by apply single_slash_stays.
Qed.

Section Facts.
Context {W : Type} `{Backend W, Zod} (env : WebEnv).

(** The client never redirects and leaves the response alone. *)
Definition not_redirect (e : web_exn) : Prop := match e with RedirectTo _ => False | _ => True end.

Lemma cpFetch_frame init (w : W) r :
  exists out w', cpFetch init (w, r) = (out, (w', r)) /\ w' = (fetch init w).2 /\ forall e, out = Err e -> not_redirect e.
Proof.
  unfold cpFetch. destruct (fetch init w) as [[res|] w'].
  - eexists _, w'. split; [done|]. split; [done|]. intros e. repeat case_match; intros [= <-]; done.
  - eexists _, w'. split; [done|]. split; [done|]. by intros e [= <-].
Qed.

Lemma fetch_parse_frame {A} init (s : schema A) (w : W) r :
  exists out, (b ← cpFetch init; schema_parse s b) (w, r) = (out, ((fetch init w).2, r)) /\
    forall e, out = Err e -> not_redirect e.
Proof.
  destruct (cpFetch_frame init w r) as (out & w' & E & -> & He). unfold mbind, web_bind. rewrite E.
  destruct out as [b|e].
  2: { eexists. split; [done|]. intros e' [= <-]. by apply He. }
  unfold schema_parse. destruct (parsed s b).
  - eexists. split; [done|]. by intros e [=].
  - eexists. split; [done|]. by intros e [= <-].
Qed.

(** The request the relay sends. *)
Definition callback_fetch (cookies : jar) (data : OidcCallbackRequest) : FetchInit :=
  post (js "/v1/auth/oidc/google/callback") (callback_request_json (callback_body cookies data)).

Definition clear_ops : list cookie_op := DeleteCookie <$> handshake.

Lemma clearOidcCookies_run (w : W) r :
  clearOidcCookies (w, r) = (Ok tt, (w, mkReply (rp_cookies r ++ clear_ops) (rp_headers r))).
Proof.
  unfold clearOidcCookies. rewrite web_bind_run. unfold deleteCookie at 1. rewrite web_bind_run. unfold deleteCookie at 1.
  rewrite web_bind_run. cbn [deleteCookie rp_cookies rp_headers]. by rewrite <-!app_assoc.
Qed.

(** What completing a flow does, in each case. *)
Lemma complete_cases cookies data (w : W) :
  let '(res, (w', r')) := complete env cookies data (w, no_reply) in
  (usable (cookies !! OIDC_STATE_COOKIE) <> Some (or_state data) ->
   res = Ok signin_failed /\ w' = w /\ r' = mkReply clear_ops []) /\
  (usable (cookies !! OIDC_STATE_COOKIE) = Some (or_state data) ->
   w' = (fetch (callback_fetch cookies data) w).2 /\
   match res with
   | Ok (complete_ok session returnTo) =>
       exists pair claims,
         (cpOidcCallback (callback_body cookies data) (w, no_reply)).1 = Ok pair /\
         decodeAccessClaims (Some (st_accessToken pair)) = Some claims /\ session = sessionFromClaims claims /\
         returnTo = cookies !! OIDC_RETURN_COOKIE /\
         r' = mkReply ([SetCookie ACCESS_COOKIE (st_accessToken pair) (sessionCookieAttributes env);
                        SetCookie REFRESH_COOKIE (st_refreshToken pair) (sessionCookieAttributes env)] ++ clear_ops) []
   | Ok (complete_failed _) => r' = mkReply clear_ops []
   | Err e => r' = mkReply clear_ops [] /\ not_redirect e
   end).
Proof.
  unfold complete, getCookie. destruct (decide (usable (cookies !! OIDC_STATE_COOKIE) = Some (or_state data))) as [Es|Es].
  2: { rewrite bool_decide_eq_false_2 by done. cbn [negb]. rewrite web_bind_run, clearOidcCookies_run.
       by split; [|intros ?]. }
  rewrite bool_decide_eq_true_2 by done. cbn [negb].
  destruct (fetch_parse_frame (callback_fetch cookies data) tokenPairSchema w no_reply) as (out & E & He).
  change (cpOidcCallback (callback_body cookies data) (w, no_reply) =
          (out, ((fetch (callback_fetch cookies data) w).2, no_reply))) in E.
  unfold attempt. rewrite web_bind_run, E. destruct out as [pair|e].
  - destruct (decodeAccessClaims (Some (st_accessToken pair))) as [claims|] eqn:Ec.
    + rewrite web_bind_run, writeSessionCookies_run, web_bind_run, clearOidcCookies_run.
      split; [done|]. intros _. split; [done|]. by exists pair, claims.
    + rewrite web_bind_run, clearOidcCookies_run. by split; [|intros _].
  - specialize (He e eq_refl). rewrite web_bind_run, clearOidcCookies_run.
    destruct e as [status ? ?| |]; [|by split; [|intros _]|done].
    split; [done|]. intros _. by destruct (client_error status).
Qed.

End Facts.

(** The relay's input is the three texts, unchanged. *)
Lemma client_input `{ZodLaws} t c s data :
  parsed oidcCallbackClientRequestSchema (Some (callback_input t c s)) = Some data ->
  data = mkOidcCallbackRequest t c s None.
Proof.
  intros Hp. unfold oidcCallbackClientRequestSchema in Hp. repeat schema_inv. subst.
  match goal with H : Some _ = Some (JObj _) |- _ => injection H as <- end.
  repeat match goal with
  | H : parsed slugSchema _ = Some _ |- _ => unfold slugSchema in H
  | H : parsed (ZString _) _ = Some _ |- _ =>
      let E := fresh in apply string_inv in H as (? & E & H); vm_compute in E; injection E as <-;
      cbn [string_checks] in H; repeat case_match; simplify_eq
  end. done.
Qed.

(** ** The theorem *)

(** C14. Signing in with Google is bound to the browser that began it, whatever the
    control plane answers.  Unless the state in the callback URL is the one in this
    browser's handshake cookie, no request is sent, no cookie is set and nobody is
    signed in.  When it signs in, the one request had the invite token of the cookie
    and of nowhere else, the session cookies are the tokens it was answered, the
    handshake cookies are gone, and the browser is sent to a path of this site. *)
Theorem signin_bound_to_browser {W} `{Backend W} `{ZodLaws} env cookies deps (w : W) :
  let '(res, (w', r')) := callback_loader env cookies deps (w, no_reply) in
  (usable (cookies !! OIDC_STATE_COOKIE) <> Some (sr_state deps) ->
   w' = w /\ ~ sets_cookie r' /\ forall path, res <> Err (RedirectTo path)) /\
  (forall path, res = Err (RedirectTo path) ->
     stays_on_origin path = true /\
     exists tenantSlug pair,
       let data := mkOidcCallbackRequest tenantSlug (sr_code deps) (sr_state deps) (usable (cookies !! INVITE_TOKEN_COOKIE)) in
       cookies !! OIDC_TENANT_COOKIE = Some tenantSlug /\
       cpOidcCallback data (w, no_reply) = (Ok pair, (w', no_reply)) /\
       is_Some (decodeAccessClaims (Some (st_accessToken pair))) /\
       browser cookies r' !! ACCESS_COOKIE = Some (st_accessToken pair) /\
       browser cookies r' !! REFRESH_COOKIE = Some (st_refreshToken pair) /\
       Forall (fun name => browser cookies r' !! name = None) handshake).
Proof.
  assert (Hquiet : forall msg : jsstr, (usable (cookies !! OIDC_STATE_COOKIE) <> Some (sr_state deps) ->
      w = w /\ ~ sets_cookie no_reply /\ forall path, Ok (E := web_exn) msg <> Err (RedirectTo path))).
  { intros msg _. split_and!; [done| |done]. intros (? & ? & ? & Hin). by apply not_elem_of_nil in Hin. }
  unfold callback_loader. destruct (bool_decide _); [by split; [apply Hquiet|]|].
  destruct (negb _ || negb _); [by split; [apply Hquiet|]|].
  destruct (usable (getOidcTenantSlug cookies)) as [slug|] eqn:Eslug; [|by split; [apply Hquiet|]].
  rewrite web_bind_run. unfold completeGoogleSignin, validated.
  destruct (parsed _ _) as [data|] eqn:Ep.
  2: { cbn. split; [|done]. intros _. split_and!; [done| |done].
       intros (? & ? & ? & Hin). by apply not_elem_of_nil in Hin. }
  apply client_input in Ep as ->. apply usable_Some in Eslug as [Eslug _].
  set (data := mkOidcCallbackRequest slug (sr_code deps) (sr_state deps) None).
  pose proof (complete_cases env cookies data w) as Hc.
  destruct (complete env cookies data (w, no_reply)) as [res [w' r']].
  assert (Hclear : ~ sets_cookie (mkReply clear_ops [])).
  { intros (? & ? & ? & Hin). cbn in Hin. by repeat (apply elem_of_cons in Hin as [?|Hin]; [done|]); apply not_elem_of_nil in Hin. }
  destruct Hc as [Hbad Hgood]. destruct res as [[session returnTo|msg]|e].
  - split; [intros Hs; by destruct (Hbad Hs) as ([=] & _)|]. intros path [= <-]. split; [apply destination_safe|].
    destruct (decide (usable (cookies !! OIDC_STATE_COOKIE) = Some (sr_state deps))) as [Hs|Hs];
      [|by destruct (Hbad Hs) as ([=] & _)].
    destruct (Hgood Hs) as (-> & pair & claims & Hrun & Hdec & _ & _ & ->). exists slug, pair.
    split; [done|]. split; [|split; [by eexists|]].
    + destruct (fetch_parse_frame (callback_fetch cookies data) tokenPairSchema w no_reply) as (out & E & _).
      change (cpOidcCallback (callback_body cookies data) (w, no_reply) =
          (out, ((fetch (callback_fetch cookies data) w).2, no_reply))) in E.
      rewrite E in Hrun. cbn [fst] in Hrun. subst out. exact E.
    + unfold clear_ops, handshake. split_and!; [by jar_simpl..|]. repeat constructor; by jar_simpl.
  - split; [|done]. intros Hs. destruct (Hbad Hs) as (_ & -> & ->). done.
  - split.
    + intros Hs. destruct (Hbad Hs) as ([=] & _).
    + intros path [= ->]. destruct (decide (usable (cookies !! OIDC_STATE_COOKIE) = Some (sr_state deps))) as [Hs|Hs];
        [|by destruct (Hbad Hs) as ([=] & _)]. destruct (Hgood Hs) as (_ & _ & []).
Qed.
