(* ===== verification/TailProxy.v ===== *)
(** * The live-tail proxy

    [server/tail-proxy.ts] of [apps/web]: the route an event source connects to.  Its
    response is a stream, so cookies leave it as raw [Set-Cookie] headers, and arrive
    as the raw [Cookie] header.  The query service is a parameter. *)

From stdpp Require Import base list option numbers strings gmap.
From S2P Require Import Prelude Errors Tokens Text Rbac Entities Uuid Schema World Sql Integrity Ports AuthService Google.
From S2P Require Import Zod Contracts Wire Json Utf8 WebSession Bff WebUrl.

(** [part.indexOf('=')] and the two sides of it, trimmed. *)
Definition name_value (part : jsstr) : option (jsstr * jsstr) :=
  v ← after_char 61 part; Some (trim (before_char 61 part), trim v).

(** Assigning [__proto__] on an object does not make a property. *)
Definition parseCookieHeader (header : option jsstr) : jar :=
  match usable header with
  | None => ∅
  | Some header =>
      foldl (fun out part =>
               match name_value part with
               | Some (name, v) =>
                   if truthy name && negb (bool_decide (name = js "__proto__")) then <[name := v]> out else out
               | None => out
               end) ∅ (split_on 59 header)
  end.

Record TailAuth := mkTailAuth { ta_ok : bool; ta_token : option jsstr; ta_setCookies : list jsstr }.

(** The query service's answer to [GET /v1/tail]: a status, and whether there is a body. *)
Class QueryService (W : Type) := {
  tail_fetch : jsstr -> W -> option (Z * bool) * W
}.

Inductive tail_body := body_json (error : jsstr) | body_stream.

Record TailResponse := mkTailResponse { tp_status : Z; tp_body : tail_body; tp_setCookies : list jsstr }.

Section Proxy.
Context {W : Type} `{Backend W, QueryService W, Zod} (env : WebEnv).

Definition sessionSetCookies (pair : SessionTokens) : list jsstr :=
  [serializeSessionCookie env ACCESS_COOKIE (st_accessToken pair);
   serializeSessionCookie env REFRESH_COOKIE (st_refreshToken pair)].

Definition resolveTailAuth (cookie_header : option jsstr) (nowMs : Z) : web W TailAuth :=
  let cookies := parseCookieHeader cookie_header in
  let access := cookies !! ACCESS_COOKIE in
  let valid := match decodeAccessClaims access with Some claims => negb (isExpired claims nowMs) | None => false end in
  match usable access, valid with
  | Some token, true => mret (mkTailAuth true (Some token) [])
  | _, _ =>
      match usable (cookies !! REFRESH_COOKIE) with
      | None => mret (mkTailAuth false None [])
      | Some refreshToken =>
          attempt
            (pair ← cpRefresh refreshToken;
             mret (mkTailAuth true (Some (st_accessToken pair)) (sessionSetCookies pair)))
            (fun _ => mret (mkTailAuth false None []))
      end
  end.

Definition jsonError (status : Z) (error : jsstr) : TailResponse := mkTailResponse status (body_json error) [].

(** The upstream connection, and what becomes of its answer. *)
Definition pipe_upstream (token : jsstr) (setCookies : list jsstr) : web W TailResponse := fun '(w, r) =>
  match tail_fetch token w with
  | (None, w') => (Ok (jsonError 502 (js "tail_unavailable")), (w', r))
  | (Some (status, body), w') =>
      (Ok (if negb ((200 <=? status) && (status <=? 299))%Z || negb body
           then jsonError (if (status =? 401)%Z then 401 else 502) (js "tail_unavailable")
           else mkTailResponse 200 body_stream setCookies), (w', r))
  end.

Definition tailProxy (cookie_header : option jsstr) (nowMs : Z) : web W TailResponse :=
  auth ← resolveTailAuth cookie_header nowMs;
  match ta_ok auth, usable (ta_token auth) with
  | true, Some token => pipe_upstream token (ta_setCookies auth)
  | _, _ => mret (jsonError 401 (js "unauthorized"))
  end.

End Proxy.

(** ** The browser's side *)

(** The [Cookie] header of a jar (RFC 6265, section 5.4). *)
Definition cookie_text (kv : jsstr * jsstr) : jsstr := kv.1 ++ js "=" ++ kv.2.
Definition cookie_header (cookies : jar) : option jsstr :=
  match map_to_list cookies with
  | [] => None
  | l => Some (join (cookie_text <$> l) (js "; "))
  end.

(** A raw [Set-Cookie] header (section 5.2): the pair before the first semicolon. *)
Definition apply_raw (cookies : jar) (header : jsstr) : jar :=
  match name_value (before_char 59 header) with
  | Some (name, v) => <[name := v]> cookies
  | None => cookies
  end.

Definition browser_raw (cookies : jar) (res : TailResponse) : jar := foldl apply_raw cookies (tp_setCookies res).

(** * Lemmas *)

(** A name and a value that need no quoting. *)
Record clean (name value : jsstr) : Prop := {
  cl_name : truthy name = true /\ name <> js "__proto__";
  cl_semicolon : 59%N ∉ name /\ 59%N ∉ value;
  cl_equals : 61%N ∉ name;
  cl_trim : trim name = name /\ trim value = value
}.

Lemma name_value_text name value : clean name value -> name_value (cookie_text (name, value)) = Some (name, value).
Proof.
  intros [_ _ He [Hn Hv]]. unfold name_value, cookie_text. change (js "=") with [61%N]. cbn [fst snd app].
  rewrite after_char_app, before_char_app by done. cbn [mbind option_bind]. by rewrite Hn, Hv.
Qed.

Lemma trim_space s : trim (32%N :: s) = trim s.
Proof. unfold trim. cbn [trimStart]. by change (is_js_space 32) with true. Qed.

Lemma name_value_space s : name_value (32%N :: s) = name_value s.
Proof.
  unfold name_value, after_char, before_char.
  assert (E : indexOf (32%N :: s) [61%N] = S <$> indexOf s [61%N]) by done. rewrite E.
  destruct (indexOf s [61%N]) as [i|]; cbn [fmap option_fmap option_map mbind option_bind]; [|done].
  cbn [take drop]. by rewrite trim_space.
Qed.

Lemma text_no_semicolon name value : clean name value -> 59%N ∉ cookie_text (name, value).
Proof.
  intros [_ [Hn Hv] _ _]. unfold cookie_text. change (js "=") with [61%N]. cbn [fst snd].
  rewrite !elem_of_app, list_elem_of_singleton. naive_solver.
Qed.

Lemma split_pairs t ts :
  59%N ∉ t -> Forall (fun t => 59%N ∉ t) ts ->
  split_on 59 (join (t :: ts) (js "; ")) = t :: (cons 32%N <$> ts).
Proof.
  intros Ht Hts. change (js "; ") with [59%N; 32%N]. revert t Ht.
  induction Hts as [|t' ts Ht' Hts IH]; intros t Ht; [by apply split_on_none|].
  rewrite join_cons2. cbn [app]. rewrite split_on_app by done. f_equal. rewrite fmap_cons.
  assert (H32 : forall x : jsstr, split_on 59 (32%N :: x) =
    match split_on 59 x with p :: ps => (32%N :: p) :: ps | [] => [[32%N]] end) by done.
  by rewrite H32, IH.
Qed.

Lemma insert_fold (l : list (jsstr * jsstr)) (m : jar) :
  NoDup l.*1 -> (forall k, k ∈ l.*1 -> m !! k = None) ->
  foldl (fun out kv => <[kv.1 := kv.2]> out) m l = list_to_map l ∪ m.
Proof.
  revert m. induction l as [|[k v] l IH]; intros m Hnd Hm; cbn [foldl fmap list_fmap fst snd list_to_map foldr] in *.
  - by rewrite (left_id_L ∅ (∪)).
  - apply NoDup_cons in Hnd as [Hk Hnd]. rewrite IH; [|done|].
    + rewrite <-insert_union_r by (by apply not_elem_of_list_to_map_1). cbn. by rewrite insert_union_l.
    + intros k' Hk'. rewrite lookup_insert_ne by (intros ->; done). apply Hm. by constructor.
Qed.

(** The cookies a browser sends are the cookies the proxy reads. *)
Lemma cookies_round_trip cookies :
  map_Forall clean cookies -> parseCookieHeader (cookie_header cookies) = cookies.
Proof.
  intros Hc. unfold cookie_header.
  assert (Hl : Forall (fun kv => clean kv.1 kv.2) (map_to_list cookies)).
  { apply Forall_forall. intros [k v] Hin%elem_of_map_to_list. by apply (Hc k v). }
  pose proof (NoDup_fst_map_to_list cookies) as Hnd.
  assert (Hm : list_to_map (map_to_list cookies) = cookies) by apply list_to_map_to_list.
  destruct (map_to_list cookies) as [|[k v] l]; [done|]. apply Forall_cons in Hl as [Hkv Hl]. cbn [fst snd] in Hkv.
  unfold parseCookieHeader, usable. assert (Ht : exists c s, join (cookie_text <$> (k, v) :: l) (js "; ") = c :: s).
  { destruct Hkv as [[Hk _] _ _ _]. destruct k as [|c k]; [done|]. destruct l; by eexists _, _. }
  destruct Ht as (c & s & E). rewrite E. cbn [truthy]. rewrite <-E, fmap_cons, split_pairs.
  2: { by apply text_no_semicolon. }
  2: { apply Forall_fmap. eapply Forall_impl; [exact Hl|]. intros [? ?]. by apply text_no_semicolon. }
  rewrite <-Hm, <-(right_id_L ∅ (∪) (list_to_map _)), <-insert_fold by (done || set_solver).
  cbn [foldl]. rewrite name_value_text by done. destruct Hkv as [[-> Hp] _ _ _].
  rewrite bool_decide_eq_false_2 by done. cbn [andb negb fst snd]. clear -Hl.
  generalize (<[k := v]> (∅ : jar)). induction Hl as [|[k' v'] l Hkv Hl IH]; intros m; [done|].
  cbn [fmap list_fmap foldl fst snd]. cbn [fst snd] in Hkv. rewrite name_value_space, name_value_text by done.
  destruct Hkv as [[-> Hp] _ _ _]. rewrite bool_decide_eq_false_2 by done. cbn [andb negb]. apply IH.
Qed.

(** A raw header sets the cookie. *)
Lemma apply_raw_session env cookies name value :
  clean name value -> apply_raw cookies (serializeSessionCookie env name value) = <[name := value]> cookies.
Proof.
  intros Hc. unfold apply_raw, serializeSessionCookie.
  assert (E : exists rest, join ([name ++ js "=" ++ value; js "Max-Age=" ++ print_int (ca_maxAge (sessionCookieAttributes env));
       js "Path=" ++ ca_path (sessionCookieAttributes env); js "HttpOnly"; js "SameSite=Lax"] ++
       if ca_secure (sessionCookieAttributes env) then [js "Secure"] else []) (js "; ") = cookie_text (name, value) ++ 59%N :: rest).
  { eexists. cbn [app]. rewrite join_cons2. change (js "; ") with [59%N; 32%N] at 1. reflexivity. }
  destruct E as [rest ->]. rewrite before_char_app by by apply text_no_semicolon. by rewrite name_value_text.
Qed.
