(* ===== verification/WebFlows.v ===== *)
(** * The web application and the control plane together

    The server functions of [apps/web] over the control plane's HTTP server and its
    database: what a browser sees of logging in, of the silent refresh, of the tail
    proxy and of logging out.  Between the two are Fastify's routing and the text of
    JSON bodies, parameters with their documented behaviour. *)

From stdpp Require Import base list option numbers strings gmap relations.
From S2P Require Import Prelude Errors Effects Tokens Text Rbac Email Entities Ports Uuid Schema World Sql.
From S2P Require Import Integrity Eval Demo PgUsers PgTokens PgInvites PgContent Calls Credentials Adapters.
From S2P Require Import Google AuthService Sessions Services UseCases Invites Oidc OidcFlow Authorize Zod Contracts Wire.
From S2P Require Import Http Requests Json Utf8 WebSession Bff WebUrl BffOidc TailProxy.
Import PgRefreshTokenRepository.

(** ** Paths *)

(** Method and path of a route; [None] is the segment [:id]. *)
Definition endpoint (r : route) : Method * list (option jsstr) :=
  let p := fmap (M := list) (fun s => Some (js s)) in
  let id := [None] in
  match r with
  | GET_healthz => (GET, p ["healthz"])
  | GET_readyz => (GET, p ["readyz"])
  | POST_oidc_authorize => (POST, p ["v1"; "auth"; "oidc"; "google"; "authorize"])
  | POST_oidc_callback => (POST, p ["v1"; "auth"; "oidc"; "google"; "callback"])
  | POST_login => (POST, p ["v1"; "auth"; "login"])
  | POST_refresh => (POST, p ["v1"; "auth"; "refresh"])
  | POST_logout => (POST, p ["v1"; "auth"; "logout"])
  | POST_tenants => (POST, p ["v1"; "tenants"])
  | GET_tenants => (GET, p ["v1"; "tenants"])
  | GET_tenant => (GET, p ["v1"; "tenants"] ++ id)
  | PATCH_tenant => (PATCH, p ["v1"; "tenants"] ++ id)
  | DELETE_tenant => (DELETE, p ["v1"; "tenants"] ++ id)
  | POST_tenant_admin => (POST, p ["v1"; "tenants"] ++ id ++ p ["admin"])
  | POST_users => (POST, p ["v1"; "users"])
  | GET_users => (GET, p ["v1"; "users"])
  | GET_user => (GET, p ["v1"; "users"] ++ id)
  | PATCH_user => (PATCH, p ["v1"; "users"] ++ id)
  | DELETE_user => (DELETE, p ["v1"; "users"] ++ id)
  | POST_api_keys => (POST, p ["v1"; "api-keys"])
  | GET_api_keys => (GET, p ["v1"; "api-keys"])
  | DELETE_api_key => (DELETE, p ["v1"; "api-keys"] ++ id)
  | GET_retention => (GET, p ["v1"; "retention"])
  | PUT_retention => (PUT, p ["v1"; "retention"])
  | POST_alert_rules => (POST, p ["v1"; "alert-rules"])
  | GET_alert_rules => (GET, p ["v1"; "alert-rules"])
  | GET_alert_rule => (GET, p ["v1"; "alert-rules"] ++ id)
  | PATCH_alert_rule => (PATCH, p ["v1"; "alert-rules"] ++ id)
  | DELETE_alert_rule => (DELETE, p ["v1"; "alert-rules"] ++ id)
  | POST_saved_queries => (POST, p ["v1"; "saved-queries"])
  | GET_saved_queries => (GET, p ["v1"; "saved-queries"])
  | GET_saved_query => (GET, p ["v1"; "saved-queries"] ++ id)
  | PATCH_saved_query => (PATCH, p ["v1"; "saved-queries"] ++ id)
  | DELETE_saved_query => (DELETE, p ["v1"; "saved-queries"] ++ id)
  | POST_dashboards => (POST, p ["v1"; "dashboards"])
  | GET_dashboards => (GET, p ["v1"; "dashboards"])
  | GET_dashboard => (GET, p ["v1"; "dashboards"] ++ id)
  | PATCH_dashboard => (PATCH, p ["v1"; "dashboards"] ++ id)
  | DELETE_dashboard => (DELETE, p ["v1"; "dashboards"] ++ id)
  | POST_invites => (POST, p ["v1"; "invites"])
  | GET_invites => (GET, p ["v1"; "invites"])
  | POST_invite_revoke => (POST, p ["v1"; "invites"] ++ id ++ p ["revoke"])
  end.

Definition path_of (segments : list (option jsstr)) (id : jsstr) : jsstr :=
  concat ((fun s => js "/" ++ default id s) <$> segments).

Definition params_of (segments : list (option jsstr)) (id : jsstr) : jsobject :=
  if existsb (fun s => match s with None => true | Some _ => false end) segments then [(js "id", JStr id)] else [].

(** ** Between the two *)

(** Fastify, and the text of a JSON body. *)
Class HttpServer := {
  router : Method -> jsstr -> option (route * jsobject);
  router_miss : FetchResponse;
  print_json : json -> jsstr;
  reason_phrase : Z -> jsstr
}.

Class HttpServerLaws `{HttpServer} : Prop := {
  router_endpoint r id :
    id <> [] -> forallb is_base64url id = true ->
    router (endpoint r).1 (path_of (endpoint r).2 id) = Some (r, params_of (endpoint r).2 id);
  print_json_text j t : JSON_stringify j = Some t -> print_json j = t
}.

Section ControlPlane.
Context `{HttpServer, Zod, Crypto, Unicode, Entropy} (deps : RouteDeps).

(** The response as it arrives. *)
Definition as_response (resp : Response) : FetchResponse :=
  mkFetchResponse (rs_status resp) (reason_phrase (rs_status resp)) (Some (default [] (print_json <$> rs_body resp))).

Definition control_plane : Backend world :=
  {| fetch init w :=
       match router (fi_method init) (fi_path init) with
       | None => (Some router_miss, w)
       | Some (r, params) =>
           match run (serve deps r (mkRequest (fi_authorization init) params (fi_body init) None)) w with
           | (Ok resp, w') => (Some (as_response resp), w')
           | (Err _, w') => (None, w')
           end
       end |}.

End ControlPlane.

(** * Lemmas *)

Lemma literal_path segments id id' : params_of segments id = [] -> path_of segments id = path_of segments id'.
Proof.
  unfold params_of, path_of. destruct (existsb _ segments) eqn:E; [intros [=]|intros _].
  induction segments as [|[s|] segments IH]; [reflexivity| |discriminate E].
  cbn [existsb orb] in E. rewrite !fmap_cons. cbn [concat]. by rewrite IH.
Qed.

Lemma literal_params segments id id' : params_of segments id = [] -> params_of segments id' = [].
Proof. unfold params_of. destruct (existsb _ segments); [intros [=]|reflexivity]. Qed.

Lemma literal_route `{HttpServerLaws} r : params_of (endpoint r).2 [] = [] ->
  router (endpoint r).1 (path_of (endpoint r).2 []) = Some (r, []).
Proof.
  intros Hp. rewrite (literal_path _ [] (js "x") Hp), router_endpoint by (intros [=] || reflexivity).
  by rewrite (literal_params _ [] (js "x") Hp).
Qed.

Section Transport.
Context `{HttpServerLaws, Zod, Crypto, Unicode, Entropy} (deps : RouteDeps).

(** A request to a path without parameters, answered with a JSON body. *)
Lemma cpFetch_served r init w w' rep resp j t :
  (endpoint r).1 = fi_method init -> path_of (endpoint r).2 [] = fi_path init -> params_of (endpoint r).2 [] = [] ->
  run (serve deps r (mkRequest (fi_authorization init) [] (fi_body init) None)) w = (Ok resp, w') ->
  rs_body resp = Some j -> JSON_stringify j = Some t ->
  @cpFetch world (control_plane deps) init (w, rep) =
  (if ((200 <=? rs_status resp) && (rs_status resp <=? 299))%Z then Ok (Some j)
   else Err (ControlPlaneError (rs_status resp) (default (js "error") (body_string (Some j) (js "error")))
               (default (reason_phrase (rs_status resp)) (body_string (Some j) (js "message")))), (w', rep)).
Proof.
  intros Hm Hp Hps Hrun Hb Ht. unfold cpFetch. cbn [fetch control_plane].
  rewrite <-Hm, <-Hp, literal_route, Hrun by exact Hps. unfold as_response. rewrite Hb. cbn [fr_text default from_option fmap option_fmap option_map id].
  rewrite (print_json_text j t Ht). destruct (stringify_opens j t Ht) as (c & t' & -> & _).
  cbn [truthy]. rewrite (JSON_round_trip j _ Ht). cbn [fmap option_fmap option_map]. done.
Qed.

(** A response without a body. *)
Lemma cpFetch_empty r init w w' rep resp :
  (endpoint r).1 = fi_method init -> path_of (endpoint r).2 [] = fi_path init -> params_of (endpoint r).2 [] = [] ->
  run (serve deps r (mkRequest (fi_authorization init) [] (fi_body init) None)) w = (Ok resp, w') ->
  rs_body resp = None -> rs_status resp = 204%Z ->
  @cpFetch world (control_plane deps) init (w, rep) = (Ok None, (w', rep)).
Proof.
  intros Hm Hp Hps Hrun Hb Hs. unfold cpFetch. cbn [fetch control_plane].
  rewrite <-Hm, <-Hp, literal_route, Hrun by exact Hps. unfold as_response, res_ok. rewrite Hb, Hs. done.
Qed.

End Transport.

(** ** Bodies *)

Lemma strings_text (l : list jsstr) : is_Some (JSON_stringify (JArr (JStr <$> l))).
Proof.
  cbn [JSON_stringify]. match goal with |- context [?f (JStr <$> l) ≫= _] => assert (Hs : is_Some (f (JStr <$> l))) end.
  { induction l as [|s l [ts Hts]]; [by eexists|]. cbn [fmap list_fmap] in *. rewrite Hts. by eexists. }
  destruct Hs as [ts ->]. by eexists.
Qed.

Lemma error_text e : exists l t, rs_body (error_response e) = Some (JObj l) /\ JSON_stringify (JObj l) = Some t.
Proof.
  assert (Hl : exists l, rs_body (error_response e) = Some (JObj l) /\ Forall (fun kv => is_Some (JSON_stringify kv.2)) l).
  { destruct e as [d| | |]; (eexists; split; [reflexivity|]); try (repeat constructor; by eexists).
    apply Forall_app. split; [repeat constructor; by eexists|].
    unfold if_defined. destruct (de_details d) as [l|]; [|constructor]. constructor; [apply strings_text|constructor]. }
  destruct Hl as (l & Hl & Hs). destruct (stringify_obj_Some l Hs) as [t Ht]. by exists l, t.
Qed.

Lemma session_text s : (0 < st_expiresIn s <= MAX_SAFE_INTEGER)%Z -> is_Some (JSON_stringify (JObj (session_object s))).
Proof.
  intros He. apply stringify_obj_Some. unfold session_object. repeat constructor; try (by eexists). cbn [snd].
  unfold json_int. cbn [JSON_stringify]. unfold MAX_SAFE_INTEGER in He. rewrite (proj2 (Z.leb_le _ _)) by lia. by eexists.
Qed.

Record valid_session (s : SessionTokens) : Prop := {
  vs_tenant : is_uuid (st_tenantId s) = true;
  vs_user : is_uuid (st_userId s) = true;
  vs_type : st_tokenType s = js "Bearer";
  vs_expires : (0 < st_expiresIn s <= MAX_SAFE_INTEGER)%Z
}.

Lemma parse_parsed `{Zod} {A} (s : schema A) v a : parsed s v = Some a -> parse s v = mret a.
Proof. unfold parsed, parse. destruct (safeParse s v); [by intros [= ->]|done]. Qed.

Lemma token_json_parsed `{ZodLaws} raw s :
  raw <> [] -> s = refreshRequestSchema \/ s = logoutRequestSchema -> parsed s (Some (token_json raw)) = Some raw.
Proof.
  intros Hr Hs. assert (Hp : parsed refreshRequestSchema (Some (token_json raw)) = Some raw); [|by destruct Hs as [->| ->]].
  unfold refreshRequestSchema, token_json. rewrite parsed_view, (object_complete strict _ _ (raw, tt)); [done| | |].
  - by repeat constructor.
  - done.
  - cbn [parsed_fields token_json get]. change (get _ _) with (Some (JStr raw)). rewrite parsed_string.
    cbn [string_checks]. by destruct raw.
Qed.

Lemma checks_kept `{ZodLaws} cs v s :
  Forall (fun c => match c with CTest _ | CMin _ | CMax _ | CEmail => True | _ => False end) cs ->
  parsed (ZString cs) v = Some s -> parsed (ZString cs) (Some (JStr s)) = Some s.
Proof.
  intros Hcs (t & -> & Hs)%string_inv. rewrite parsed_string.
  assert (E : t = s); [|by subst]. clear -Hcs Hs. induction Hcs as [|c cs Hc _ IH]; cbn [string_checks] in Hs; [by injection Hs|].
  destruct c; try done; case_match; (done || by apply IH).
Qed.

(** What the contract accepted, sent on, is accepted again. *)
Lemma login_json_parsed `{ZodLaws} input cmd :
  parsed loginRequestSchema input = Some cmd -> parsed loginRequestSchema (Some (login_json cmd)) = Some cmd.
Proof.
  intros Hp. unfold loginRequestSchema in *. repeat schema_inv. subst. cbn [lc_tenantSlug lc_email lc_password].
  unfold login_json. cbn [lc_tenantSlug lc_email lc_password].
  match goal with
  | H1 : parsed slugSchema _ = Some ?a, H2 : parsed emailSchema _ = Some ?b, H3 : parsed (ZString _) _ = Some ?c |- _ =>
      apply checks_kept in H1; [|by repeat constructor]; apply checks_kept in H2; [|by repeat constructor];
      apply checks_kept in H3; [|by repeat constructor];
      rewrite parsed_view, (object_complete strict _ _ (a, (b, (c, tt)))); [done|by repeat constructor|done|]
  end.
  repeat apply parsed_fields_cons; done.
Qed.

Section Flows.
Context `{HttpServerLaws, ZodLaws, CryptoLaws, Unicode, EntropyLaws, Bcrypt, JwtTextLaws, Net}.
Context (cost : Z) (jwt : JoseTokenConfig) (ttl : Z) (email : EmailSender world) (invites : InviteConfig)
  (store : OAuthStateStore world) (google : GoogleConfig) (ping : prog world bool).

#[local] Abbreviation deps := (pg_route_deps cost jwt ttl email invites store google ping).
#[local] Instance cp : Backend world := control_plane deps.

(** A session the control plane sends is the session the client reads. *)
Lemma pair_fetched r init w w' rep s :
  (endpoint r).1 = fi_method init -> path_of (endpoint r).2 [] = fi_path init -> params_of (endpoint r).2 [] = [] ->
  run (serve deps r (mkRequest (fi_authorization init) [] (fi_body init) None)) w
    = (Ok (mkResponse 200 (Some (JObj (session_object s)))), w') ->
  valid_session s ->
  (b ← cpFetch init; schema_parse tokenPairSchema b) (w, rep) = (Ok s, (w', rep)).
Proof.
  intros Hm Hp Hps Hrun [Ht Hu Hk He]. destruct (session_text s He) as [t Hst].
  rewrite web_bind_run. unfold cp. rewrite (cpFetch_served deps r init w w' rep _ _ t Hm Hp Hps Hrun eq_refl Hst).
  cbn [rs_status]. change ((200 <=? 200) && (200 <=? 299))%Z with true. cbn match.
  unfold schema_parse. rewrite (session_read s); [done| |repeat constructor; done|done|done|done|done].
  by repeat constructor.
Qed.

Lemma pair_refused {A} r init w w' rep e (s : schema A) :
  (endpoint r).1 = fi_method init -> path_of (endpoint r).2 [] = fi_path init -> params_of (endpoint r).2 [] = [] ->
  run (serve deps r (mkRequest (fi_authorization init) [] (fi_body init) None)) w = (Ok (error_response e), w') ->
  (299 < rs_status (error_response e))%Z ->
  exists code message, (b ← cpFetch init; schema_parse s b) (w, rep)
    = (Err (ControlPlaneError (rs_status (error_response e)) code message), (w', rep)).
Proof.
  intros Hm Hp Hps Hrun Hst. destruct (error_text e) as (l & t & Hb & Ht). eexists _, _.
  rewrite web_bind_run. unfold cp. rewrite (cpFetch_served deps r init w w' rep _ _ t Hm Hp Hps Hrun Hb Ht).
  rewrite (proj2 (Z.leb_gt (rs_status (error_response e)) 299)), andb_false_r by done. done.
Qed.

Lemma serve_refresh raw w :
  raw <> [] ->
  run (serve deps POST_refresh (mkRequest None [] (Some (token_json raw)) None)) w =
  match run (refresh (pg_auth_deps cost jwt ttl) raw) w with
  | (Ok s, w') => (Ok (mkResponse 200 (Some (JObj (session_object s)))), w')
  | (Err e, w') => (Ok (error_response e), w')
  end.
Proof.
  intros Hr. unfold serve, handle. cbn [route_operation]. rewrite run_catch. cbn [public_handler]. unfold post_refresh.
  rewrite run_bind. cbn [req_body]. rewrite (parse_parsed _ _ raw) by (apply token_json_parsed; auto).
  cbn [run mret prog_ret]. rewrite run_bind. change (rd_auth _) with (pg_auth_deps cost jwt ttl).
  destruct (run (refresh _ raw) w) as [[s|e] w']; done.
Qed.

Lemma serve_login input cmd w :
  parsed loginRequestSchema input = Some cmd ->
  run (serve deps POST_login (mkRequest None [] (Some (login_json cmd)) None)) w =
  match run (login (pg_auth_deps cost jwt ttl) cmd) w with
  | (Ok s, w') => (Ok (mkResponse 200 (Some (JObj (session_object s)))), w')
  | (Err e, w') => (Ok (error_response e), w')
  end.
Proof.
  intros Hp%login_json_parsed. unfold serve, handle. cbn [route_operation]. rewrite run_catch. cbn [public_handler].
  unfold post_login. rewrite run_bind. cbn [req_body]. rewrite (parse_parsed _ _ cmd Hp).
  cbn [run mret prog_ret]. rewrite run_bind. change (rd_auth _) with (pg_auth_deps cost jwt ttl).
  destruct (run (login _ cmd) w) as [[s|e] w']; done.
Qed.

Lemma serve_logout raw w :
  raw <> [] ->
  run (serve deps POST_logout (mkRequest None [] (Some (token_json raw)) None)) w =
  match run (logout (pg_auth_deps cost jwt ttl) raw) w with
  | (Ok _, w') => (Ok (mkResponse 204 None), w')
  | (Err e, w') => (Ok (error_response e), w')
  end.
Proof.
  intros Hr. unfold serve, handle. cbn [route_operation]. rewrite run_catch. cbn [public_handler]. unfold post_logout.
  rewrite run_bind. cbn [req_body]. rewrite (parse_parsed _ _ raw) by (apply token_json_parsed; auto).
  cbn [run mret prog_ret]. rewrite run_bind. change (rd_auth _) with (pg_auth_deps cost jwt ttl).
  destruct (run (logout _ raw) w) as [[s|e] w']; done.
Qed.

(** A refresh token as the control plane writes it. *)
Record refresh_text (raw : jsstr) (p : ParsedRefreshToken) : Prop := {
  rt_parse : parseRefreshToken raw = Ok p;
  rt_tenant : is_uuid (pr_tenantId p) = true;
  rt_token : is_uuid (pr_tokenId p) = true
}.

Lemma refresh_text_ne raw p : refresh_text raw p -> raw <> [].
Proof. intros [Hp _ _] ->. discriminate Hp. Qed.

(** What the client gets for a refresh token, by the control plane's verdict. *)
Definition granted (p : ParsedRefreshToken) (row : refresh_tokens_row) (role : Role) (w : world) : SessionTokens :=
  session jwt (pr_tenantId p) (rtr_user_id row) role (pg_uuid (w_pgseq w)) (node_hex (w_rand w) REFRESH_SECRET_BYTES)
    (w_now w).

Definition judged (p : ParsedRefreshToken) (w : world) : Sessions.verdict :=
  judge (w_db w) (w_now w) (pr_tenantId p) (pr_tokenId p) (pr_secret p).

Lemma cpRefresh_run raw p w rep :
  refresh_text raw p -> db_ok (w_db w) -> uuid_columns (w_db w) -> (grants (judged p w) = true -> fresh_token_id w) ->
  (0 < jc_accessTtlSeconds jwt <= MAX_SAFE_INTEGER)%Z ->
  match judged p w with
  | Grant row role => cpRefresh raw (w, rep) = (Ok (granted p row role w), (rotated ttl row w, rep))
  | Reject => exists code message, cpRefresh raw (w, rep) = (Err (ControlPlaneError 401 code message), (w, rep))
  | Revoke f => exists code message,
      cpRefresh raw (w, rep) = (Err (ControlPlaneError 401 code message), (family_revoked (pr_tenantId p) f w, rep))
  end.
Proof.
  intros Hraw Hok Hty Hfr Httl. pose proof Hraw as [Hp Ht Hi]. apply is_uuid_spec in Ht as Hu, Hi as Hj.
  pose proof (serve_refresh raw w (refresh_text_ne raw p Hraw)) as Hs.
  rewrite (run_refresh cost jwt ttl raw p _ _ w Hp Hu Hj Hok Hty Hfr) in Hs. fold (judged p w) in Hs.
  unfold cpRefresh. destruct (judged p w) as [|f|row role] eqn:Ej; cbn [refresh_outcome] in Hs.
  - by apply (pair_refused POST_refresh _ _ _ _ (UnauthorizedError invalid_refresh_token)).
  - by apply (pair_refused POST_refresh _ _ _ _ (UnauthorizedError invalid_refresh_token)).
  - apply (pair_fetched POST_refresh); [done..| |].
    + exact Hs.
    + apply judge_grant in Ej as [(Hin & _ & _)%token_of_Some _]. destruct Hty as (_ & _ & HK).
      destruct (Forall_In _ _ _ HK Hin) as (_ & _ & Huid & _). by split.
Qed.

(** ** Sessions in the browser *)

Definition expiry (w : world) : Z := (w_now w / 1000 + jc_accessTtlSeconds jwt)%Z.

(** The clock is one JavaScript numbers can tell. *)
Definition clock_ok (w : world) : Prop := (Z.abs (w_now w / 1000) <= MAX_SAFE_INTEGER /\ Z.abs (expiry w) <= MAX_SAFE_INTEGER)%Z.

(** No access token, or one that is no longer good. *)
Definition stale (cookies : jar) (nowMs : Z) : Prop :=
  match decodeAccessClaims (cookies !! ACCESS_COOKIE) with
  | Some claims => isExpired claims nowMs = true
  | None => True
  end.

Definition with_pair (s : SessionTokens) (cookies : jar) : jar :=
  <[REFRESH_COOKIE := st_refreshToken s]> (<[ACCESS_COOKIE := st_accessToken s]> cookies).

Definition signed_out (cookies : jar) : jar := delete REFRESH_COOKIE (delete ACCESS_COOKIE cookies).

Lemma session_claims t u role id secret w :
  is_uuid t = true -> is_uuid u = true -> clock_ok w ->
  decodeAccessClaims (Some (st_accessToken (session jwt t u role id secret (w_now w))))
  = Some (mkAccessClaims u t role (w_now w / 1000) (expiry w)).
Proof.
  intros Ht Hu [Hi He]. cbn [st_accessToken session]. apply token_claims; try done; by apply uuid_regex_canonical.
Qed.

Lemma getSession_current env cookies nowMs claims (w : world) rep :
  decodeAccessClaims (cookies !! ACCESS_COOKIE) = Some claims -> isExpired claims nowMs = false ->
  getSession env cookies nowMs (w, rep) = (Ok (Some (sessionFromClaims claims)), (w, rep)).
Proof. intros Hd He. unfold getSession, getCookie. by rewrite Hd, He. Qed.

Lemma getSession_stale env cookies nowMs raw (w : world) rep :
  stale cookies nowMs -> cookies !! REFRESH_COOKIE = Some raw -> raw <> [] ->
  getSession env cookies nowMs (w, rep) =
  attempt
    (pair ← cpRefresh raw;
     match decodeAccessClaims (Some (st_accessToken pair)) with
     | None => _ ← clearSessionCookies; mret None
     | Some fresh => _ ← writeSessionCookies env pair; mret (Some (sessionFromClaims fresh))
     end)
    (fun _ => _ ← clearSessionCookies; mret None) (w, rep).
Proof.
  intros Hs Hc Hr. unfold stale in Hs. unfold getSession, getCookie. rewrite Hc.
  assert (usable (Some raw) = Some raw) as -> by (by destruct raw).
  destruct (decodeAccessClaims (cookies !! ACCESS_COOKIE)); [by rewrite Hs|done].
Qed.

Lemma granted_sound p row role w :
  judged p w = Grant row role -> uuid_columns (w_db w) -> is_uuid (rtr_user_id row) = true.
Proof.
  intros [(Hin & _ & _)%token_of_Some _]%judge_grant (_ & _ & HK). by destruct (Forall_In _ _ _ HK Hin) as (_ & _ & ? & _).
Qed.

(** *** After a rotation *)

Lemma rotated_sound p row role w :
  refresh_text (assembleRefreshToken (pr_tenantId p) (pr_tokenId p) (pr_secret p)) p -> judged p w = Grant row role ->
  db_ok (w_db w) -> uuid_columns (w_db w) -> fresh_token_id w ->
  db_ok (w_db (rotated ttl row w)) /\ uuid_columns (w_db (rotated ttl row w)).
Proof.
  intros [_ Ht _] Hj Hok Hty Hfr. apply is_uuid_spec in Ht. apply judge_grant in Hj as [Hrow Hlive].
  apply token_of_Some in Hrow as Hin. destruct Hin as (Hin & _ & Hid). pose proof Hty as (_ & _ & HK).
  pose proof (Forall_In _ _ _ HK Hin) as Htyped. rewrite <-Hid in Hrow.
  pose proof (run_rotated cost jwt ttl _ _ row w Ht Hok Hfr Htyped Hrow Hlive) as Hrun. cbv zeta in Hrun.
  change (refresh_rotate (ad_refreshTokens (pg_auth_deps cost jwt ttl))) with PgRefreshTokenRepository.rotate in Hrun.
  pose proof (busy_call (set_w_rand (S (w_rand w)) w) (RefreshRotate (pr_tenantId p) (rtr_id row) (w_now w)
    (mkNewRefreshToken (rtr_family_id row) (rtr_user_id row) (sha256 (node_hex (w_rand w) REFRESH_SECRET_BYTES))
       (w_now w + ttl * 1000)))) as Hb. cbn [perform] in Hb. rewrite Hrun in Hb. cbn [snd] in Hb.
  split; [by apply (db_ok_busy _ _ Hb)|by apply (uuid_columns_busy _ _ Hb)].
Qed.

Lemma refresh_text_eq raw p :
  refresh_text raw p -> raw = assembleRefreshToken (pr_tenantId p) (pr_tokenId p) (pr_secret p).
Proof. intros [Hp _ _]. by apply parseRefreshToken_Ok in Hp as (-> & _). Qed.

(** The token that was exchanged is from then on a reused one. *)
Lemma rotated_judged raw p row role w w2 :
  refresh_text raw p -> judged p w = Grant row role ->
  db_ok (w_db w) -> uuid_columns (w_db w) -> fresh_token_id w -> w_db w2 = w_db (rotated ttl row w) ->
  judged p w2 = Revoke (rtr_family_id row) /\ db_ok (w_db w2) /\ uuid_columns (w_db w2).
Proof.
  intros Hraw Hj Hok Hty Hfr Hdb. pose proof Hraw as Hraw'. rewrite (refresh_text_eq raw p Hraw) in Hraw'.
  destruct (rotated_sound p row role w Hraw' Hj Hok Hty Hfr) as [Hok2 Hty2]. rewrite Hdb. split_and!; try done.
  unfold judged in *. rewrite Hdb. assert (Hh : constantTimeEqual (sha256 (pr_secret p)) (rtr_token_hash row) = true).
  { unfold judge in Hj. apply judge_grant in Hj as Hg. destruct Hg as [Hrow _]. rewrite Hrow in Hj.
    by destruct (constantTimeEqual _ _). }
  apply judge_grant in Hj as [(Hin & Ht & Hi)%token_of_Some Hlive].
  assert (Htok : token_of (w_db (rotated ttl row w)) (pr_tenantId p) (pr_tokenId p) = Some (set_rotated (w_now w) row)).
  { rewrite <-Ht, <-Hi. apply (token_of_in _ (set_rotated (w_now w) row)); [exact Hok2|]. apply in_app_iff. left.
    apply in_map_iff. exists row. split; [|done]. unfold rotate_in. rewrite !bool_decide_eq_true_2, Hlive by done. done. }
  unfold judge. rewrite Htok. cbn [rtr_token_hash set_rotated]. rewrite Hh. cbn [negb]. done.
Qed.

(** The successor of a reused token is dead with its family. *)
Lemma successor_dead raw p row role w :
  refresh_text raw p -> judged p w = Grant row role ->
  db_ok (w_db w) -> uuid_columns (w_db w) -> fresh_token_id w ->
  (run (refresh (pg_auth_deps cost jwt ttl) (st_refreshToken (granted p row role w)))
     (family_revoked (pr_tenantId p) (rtr_family_id row) (rotated ttl row w))).1
  = Err (UnauthorizedError invalid_refresh_token).
Proof.
  intros Hraw Hj Hok Hty Hfr.
  destruct (rotated_judged raw p row role w (rotated ttl row w) Hraw Hj Hok Hty Hfr eq_refl) as (_ & Hok2 & Hty2).
  pose proof Hraw as [Hp Ht _]. apply judge_grant in Hj as [(Hin & Htn & _)%token_of_Some _].
  set (r := new_token (pg_uuid (w_pgseq w)) (rtr_tenant_id row) (rtr_user_id row) (rtr_family_id row)
    (sha256 (node_hex (w_rand w) REFRESH_SECRET_BYTES)) (w_dbnow w) (w_now w + ttl * 1000)).
  assert (Hr : In r (d_refresh_tokens (w_db (rotated ttl row w)))) by (apply in_app_iff; right; by left).
  assert (Hb : busy_env (rotated ttl row w) (family_revoked (pr_tenantId p) (rtr_family_id row) (rotated ttl row w))).
  { apply family_revoked_busy; try done. destruct Hty as (_ & _ & HK). by destruct (Forall_In _ _ _ HK Hin) as (_ & _ & _ & ?). }
  apply (dead_refused cost jwt ttl _ (mkParsedRefreshToken (pr_tenantId p) (pg_uuid (w_pgseq w))
    (node_hex (w_rand w) REFRESH_SECRET_BYTES)) (pr_tenantId p) (pg_uuid (w_pgseq w))).
  - apply parseRefreshToken_Ok. cbn [pr_tenantId pr_tokenId pr_secret].
    destruct (is_uuid_component _ Ht), (is_uuid_component _ (pg_uuid_form (w_pgseq w))).
    split_and!; try done. intros E. pose proof (node_hex_length (w_rand w) REFRESH_SECRET_BYTES) as Hl. by rewrite E in Hl.
  - by apply is_uuid_spec.
  - apply is_uuid_spec, pg_uuid_form.
  - by apply (db_ok_busy _ _ Hb).
  - by apply (uuid_columns_busy _ _ Hb).
  - by apply (family_revoked_dead (pr_tenantId p) (rtr_family_id row) r (rotated ttl row w)).
Qed.

(** *** Tokens in cookie headers *)

Lemma token_clean name value : name = ACCESS_COOKIE \/ name = REFRESH_COOKIE -> forallb token_char value = true -> clean name value.
Proof.
  intros Hn Hv. assert (Hno : forall c, token_char c = false -> c ∉ value).
  { intros c Hc Hin. rewrite forallb_Forall, Forall_forall in Hv. specialize (Hv c Hin). cbn in Hv. congruence. }
  destruct Hn as [->| ->]; (split; [split; [reflexivity|intros [=]]|split; [|by apply Hno]| |split; [reflexivity|by apply solid_trim]]);
    apply (bool_decide_unpack _); vm_compute; exact I.
Qed.

Lemma granted_clean raw p row role w :
  refresh_text raw p -> judged p w = Grant row role -> uuid_columns (w_db w) -> clock_ok w ->
  let s := granted p row role w in
  clean ACCESS_COOKIE (st_accessToken s) /\ clean REFRESH_COOKIE (st_refreshToken s) /\ st_accessToken s <> [].
Proof.
  intros [_ Ht _] Hj Hty [Hi He] s. pose proof (granted_sound p row role w Hj Hty) as Hu.
  apply uuid_regex_canonical in Ht, Hu.
  destruct (access_token_chars jwt (pr_tenantId p) (rtr_user_id row) role (w_now w) Ht Hu Hi He) as [Hne Hc].
  split_and!; [apply token_clean; auto| |done]. apply token_clean; [by right|]. unfold s, granted.
  cbn [st_refreshToken session]. unfold assembleRefreshToken. cbn [join].
  rewrite !forallb_app, (uuid_token_chars _ Ht), (uuid_token_chars _ (uuid_regex_canonical _ (pg_uuid_form _))).
  assert (Hx : forallb token_char (node_hex (w_rand w) REFRESH_SECRET_BYTES) = true); [|by rewrite Hx].
  pose proof (node_hex_chars (w_rand w) REFRESH_SECRET_BYTES) as Hh. rewrite forallb_Forall in *.
  eapply Forall_impl; [exact Hh|]. intros c Hl. apply hex_token_char. unfold is_lower_hex in Hl. unfold is_hex.
  by rewrite Hl.
Qed.

(** What the proxy knows of a stale session. *)
Lemma resolve_granted env cookies nowMs raw p row role w rep :
  map_Forall clean cookies -> cookies !! REFRESH_COOKIE = Some raw -> refresh_text raw p -> stale cookies nowMs ->
  judged p w = Grant row role -> db_ok (w_db w) -> uuid_columns (w_db w) -> fresh_token_id w ->
  (0 < jc_accessTtlSeconds jwt <= MAX_SAFE_INTEGER)%Z ->
  let s := granted p row role w in
  resolveTailAuth env (cookie_header cookies) nowMs (w, rep) =
  (Ok (mkTailAuth true (Some (st_accessToken s)) (sessionSetCookies env s)), (rotated ttl row w, rep)).
Proof.
  intros Hclean Hc Hraw Hs Hj Hok Hty Hfr Httl s. unfold resolveTailAuth. rewrite cookies_round_trip by done.
  unfold stale in Hs. pose proof (cpRefresh_run raw p w rep Hraw Hok Hty (fun _ => Hfr) Httl) as Hrun. rewrite Hj in Hrun.
  assert (Hu : usable (cookies !! REFRESH_COOKIE) = Some raw).
  { rewrite Hc. apply usable_Some. split; [done|]. by eapply refresh_text_ne. }
  assert (Hv : match decodeAccessClaims (cookies !! ACCESS_COOKIE) with
               | Some claims => negb (isExpired claims nowMs) | None => false end = false).
  { destruct (decodeAccessClaims _); [by rewrite Hs|done]. }
  rewrite Hv, Hu. destruct (usable (cookies !! ACCESS_COOKIE)); unfold attempt; by rewrite web_bind_run, Hrun.
Qed.

(** ** Theorems *)

(** C15. The silent refresh, through both services.  With no usable access token in the
    cookies and a refresh token the control plane grants, the browser gets a session of
    the token's user, tenant and current role and the successor pair of tokens, and
    asking again before it expires answers the same session without contacting anyone.
    Any other token leaves the browser without session cookies; a reused one has its
    family revoked. *)
Theorem silent_refresh env cookies nowMs raw p w
    (Hc : cookies !! REFRESH_COOKIE = Some raw) (Hraw : refresh_text raw p) (Hstale : stale cookies nowMs)
    (Hok : db_ok (w_db w)) (Hty : uuid_columns (w_db w)) (Hfr : fresh_token_id w) (Hclk : clock_ok w)
    (Httl : (0 < jc_accessTtlSeconds jwt <= MAX_SAFE_INTEGER)%Z) :
  let '(res, (w', r')) := getSession env cookies nowMs (w, no_reply) in
  match judged p w with
  | Grant row role =>
      let session := mkClientSession (rtr_user_id row) (pr_tenantId p) role (expiry w) in
      res = Ok (Some session) /\ w' = rotated ttl row w /\
      browser cookies r' = with_pair (granted p row role w) cookies /\
      forall later w2, (later / 1000 + SKEW_SECONDS < expiry w)%Z ->
        getSession env (browser cookies r') later (w2, no_reply) = (Ok (Some session), (w2, no_reply))
  | Revoke f => res = Ok None /\ w' = family_revoked (pr_tenantId p) f w /\ browser cookies r' = signed_out cookies
  | Reject => res = Ok None /\ w' = w /\ browser cookies r' = signed_out cookies
  end.
Proof.
  rewrite (getSession_stale env cookies nowMs raw) by (done || by eapply refresh_text_ne).
  pose proof (cpRefresh_run raw p w no_reply Hraw Hok Hty (fun _ => Hfr) Httl) as Hrun.
  unfold attempt. rewrite web_bind_run. destruct (judged p w) as [|f|row role] eqn:Ej.
  - destruct Hrun as (code & message & ->). by rewrite web_bind_run, clearSessionCookies_run.
  - destruct Hrun as (code & message & ->). by rewrite web_bind_run, clearSessionCookies_run.
  - pose proof (granted_sound p row role w Ej Hty) as Hu. pose proof Hraw as [_ Ht _].
    pose proof (session_claims (pr_tenantId p) (rtr_user_id row) role (pg_uuid (w_pgseq w))
      (node_hex (w_rand w) REFRESH_SECRET_BYTES) w Ht Hu Hclk) as Hd. fold (granted p row role w) in Hd.
    rewrite Hrun, Hd, web_bind_run, writeSessionCookies_run. cbv zeta. split_and!; try done.
    intros later w2 Hl. refine (getSession_current env (with_pair (granted p row role w) cookies) later
      (mkAccessClaims _ _ _ _ _) w2 no_reply _ _).
    + unfold with_pair. jar_simpl. exact Hd.
    + unfold isExpired. apply Z.leb_gt. exact Hl.
Qed.

(** C16. Logging in from the browser.  Input the contract refuses never leaves the web
    application.  Credentials that do not authenticate are answered with one message,
    and no cookie is set.  Credentials that do sign the browser in: the session shown is
    the user, tenant and role the control plane found; until it expires it is shown
    again without contacting anyone, and its access token gets the same caller past the
    control plane's own checks. *)
Theorem web_login `{!JoseLaws} env input cookies w
    (Hty : uuid_columns (w_db w)) (Hfr : fresh_token_id w) (Hm : memo_ok w) (Hclk : clock_ok w)
    (Httl : (0 < jc_accessTtlSeconds jwt <= MAX_SAFE_INTEGER)%Z) :
  let out := loginFn env input (w, no_reply) in
  match parsed loginRequestSchema input with
  | None => out = (Err ZodError, (w, no_reply))
  | Some cmd =>
      match authenticates (w_db w) cmd with
      | None => exists w', quiet w w' /\ out = (Ok (login_failed (js "Invalid credentials")), (w', no_reply))
      | Some (t, u, role) =>
          let session := mkClientSession (ur_id u) (tr_id t) role (expiry w) in
          exists r' token,
            out = (Ok (login_ok session), (logged_in ttl (tr_id t) (ur_id u) w, r')) /\
            browser cookies r' !! ACCESS_COOKIE = Some token /\
            (forall later w2, (later / 1000 + SKEW_SECONDS < expiry w)%Z ->
               getSession env (browser cookies r') later (w2, no_reply) = (Ok (Some session), (w2, no_reply))) /\
            (forall now, (now / 1000 < expiry w)%Z ->
               caller_of jwt now token = Some (mkTenantContext (tr_id t) (ur_id u) role None))
      end
  end.
Proof.
  intros out. subst out. unfold loginFn, validated. destruct (parsed loginRequestSchema input) as [cmd|] eqn:Ep; [|done].
  pose proof (serve_login input cmd w Ep) as Hs. unfold attempt. rewrite web_bind_run. unfold cpLogin.
  destruct (authenticates (w_db w) cmd) as [[[t u] role]|] eqn:Ea.
  - rewrite (run_login_ok cost jwt ttl cmd w t u role) in Hs by done.
    apply authenticates_Some in Ea as (Ht & _ & _ & Hu & _). destruct Hty as (HT & HU & _).
    pose proof (Forall_In _ _ _ HT Ht) as Htu. destruct (Forall_In _ _ _ HU Hu) as [Huu _].
    rewrite (pair_fetched POST_login (post (js "/v1/auth/login") (login_json cmd)) _ _ no_reply _ eq_refl eq_refl eq_refl Hs) by by split.
    rewrite session_claims by done. rewrite web_bind_run, writeSessionCookies_run. cbv zeta.
    set (s := session _ _ _ _ _ _ _). exists (mkReply (rp_cookies no_reply ++
      [SetCookie ACCESS_COOKIE (st_accessToken s) (sessionCookieAttributes env);
       SetCookie REFRESH_COOKIE (st_refreshToken s) (sessionCookieAttributes env)]) []), (st_accessToken s).
    split_and!; [done| | |].
    + change (browser cookies _) with (with_pair s cookies). unfold with_pair. by jar_simpl.
    + intros later w2 Hl. refine (getSession_current env (with_pair s cookies) later (mkAccessClaims _ _ _ _ _) w2 no_reply _ _).
      * unfold with_pair. jar_simpl. by apply session_claims.
      * unfold isExpired. apply Z.leb_gt. exact Hl.
    + intros now Hnow. unfold caller_of, s. cbn [st_accessToken session]. rewrite jwt_verify_sign by done.
      cbn [mbind option_bind jp_tenant_id jp_sub jp_role access_payload sc_tenantId sc_principalId sc_role].
      by rewrite (proj2 (isRole_spec _ role) eq_refl).
  - destruct (run_login_bad cost jwt ttl cmd w Hty Hm Ea) as (w' & Hrun & Hq). rewrite Hrun in Hs.
    destruct (pair_refused POST_login (post (js "/v1/auth/login") (login_json cmd)) _ _ no_reply _ tokenPairSchema
      eq_refl eq_refl eq_refl Hs) as (code & message & ->); [done|]. by exists w'.
Qed.

(** C20. The tail proxy keeps the session of a browser whose access token has expired:
    it reads the cookies the browser sent, exchanges the refresh token, connects to the
    query service as the user, and the raw headers on the stream leave the browser with
    the successor pair. *)
Theorem tail_keeps_session `{!QueryService world} env cookies nowMs raw p row role status w w2
    (Hclean : map_Forall clean cookies) (Hc : cookies !! REFRESH_COOKIE = Some raw) (Hraw : refresh_text raw p)
    (Hstale : stale cookies nowMs) (Hj : judged p w = Grant row role)
    (Hok : db_ok (w_db w)) (Hty : uuid_columns (w_db w)) (Hfr : fresh_token_id w) (Hclk : clock_ok w)
    (Httl : (0 < jc_accessTtlSeconds jwt <= MAX_SAFE_INTEGER)%Z)
    (Hup : tail_fetch (st_accessToken (granted p row role w)) (rotated ttl row w) = (Some (status, true), w2))
    (Hst : (200 <= status <= 299)%Z) :
  exists res,
    tailProxy env (cookie_header cookies) nowMs (w, no_reply) = (Ok res, (w2, no_reply)) /\
    tp_status res = 200%Z /\ tp_body res = body_stream /\
    browser_raw cookies res = with_pair (granted p row role w) cookies.
Proof.
  destruct (granted_clean raw p row role w Hraw Hj Hty Hclk) as (Ha & Hr & Hne).
  eexists. split.
  - unfold tailProxy. rewrite web_bind_run, (resolve_granted env cookies nowMs raw p row role) by done.
    cbn [ta_ok ta_token ta_setCookies]. rewrite (proj2 (usable_Some _ _) (conj eq_refl Hne)).
    unfold pipe_upstream. rewrite Hup, !(proj2 (Z.leb_le _ _)) by lia. reflexivity.
  - split; [done|]. split; [done|]. unfold browser_raw. cbn [andb orb negb tp_setCookies sessionSetCookies foldl].
    by rewrite !apply_raw_session.
Qed.

(** C19. When the query service cannot be reached, or refuses, after the refresh, the
    rotated tokens are lost: the error response sets no cookie, so the browser keeps
    the refresh token that was just used up.  The next time it is presented that is a
    reuse: the browser is signed out and the whole family is revoked. *)
Theorem tail_failure_loses_session `{!QueryService world} env cookies nowMs raw p row role answer w w2
    (Hclean : map_Forall clean cookies) (Hc : cookies !! REFRESH_COOKIE = Some raw) (Hraw : refresh_text raw p)
    (Hstale : stale cookies nowMs) (Hj : judged p w = Grant row role)
    (Hok : db_ok (w_db w)) (Hty : uuid_columns (w_db w)) (Hfr : fresh_token_id w) (Hclk : clock_ok w)
    (Httl : (0 < jc_accessTtlSeconds jwt <= MAX_SAFE_INTEGER)%Z)
    (Hup : tail_fetch (st_accessToken (granted p row role w)) (rotated ttl row w) = (answer, w2))
    (Hdown : match answer with Some (status, _) => (299 < status)%Z | None => True end)
    (Hdb : w_db w2 = w_db (rotated ttl row w)) :
  exists res,
    tailProxy env (cookie_header cookies) nowMs (w, no_reply) = (Ok res, (w2, no_reply)) /\
    browser_raw cookies res = cookies /\
    forall later w3, w_db w3 = w_db w2 -> stale cookies later ->
      let '(out, (w4, r')) := getSession env cookies later (w3, no_reply) in
      out = Ok None /\ w4 = family_revoked (pr_tenantId p) (rtr_family_id row) w3 /\
      browser cookies r' = signed_out cookies.
Proof.
  destruct (granted_clean raw p row role w Hraw Hj Hty Hclk) as (_ & _ & Hne).
  assert (Htail : exists status, tailProxy env (cookie_header cookies) nowMs (w, no_reply)
      = (Ok (jsonError status (js "tail_unavailable")), (w2, no_reply))).
  { unfold tailProxy. rewrite web_bind_run, (resolve_granted env cookies nowMs raw p row role) by done.
    cbn [ta_ok ta_token ta_setCookies]. rewrite (proj2 (usable_Some _ _) (conj eq_refl Hne)).
    unfold pipe_upstream. rewrite Hup. destruct answer as [[status body]|]; [|by eexists].
    rewrite (proj2 (Z.leb_gt status 299)), andb_false_r by lia. by eexists. }
  destruct Htail as [status Htail]. eexists. split; [exact Htail|]. split; [done|].
  - intros later w3 Hdb3 Hl.
    destruct (rotated_judged raw p row role w w3 Hraw Hj Hok Hty Hfr) as (Hj3 & Hok3 & Hty3); [congruence|].
    rewrite (getSession_stale env cookies later raw) by (done || by eapply refresh_text_ne).
    pose proof (cpRefresh_run raw p w3 no_reply Hraw Hok3 Hty3) as Hrun. rewrite Hj3 in Hrun.
    destruct Hrun as (code & message & Hrun); [done|done|]. unfold attempt.
    rewrite web_bind_run, Hrun, web_bind_run, clearSessionCookies_run. done.
Qed.

(** C21. Two requests of one browser that both find the access token expired (two tabs,
    say) present the same refresh token.  The first is given a session; the second is
    taken for a thief: it is signed out, and the pair the first was given is refused
    from then on as well. *)
Theorem concurrent_refresh_signs_out env cookies nowMs raw p row role w
    (Hc : cookies !! REFRESH_COOKIE = Some raw) (Hraw : refresh_text raw p) (Hstale : stale cookies nowMs)
    (Hj : judged p w = Grant row role)
    (Hok : db_ok (w_db w)) (Hty : uuid_columns (w_db w)) (Hfr : fresh_token_id w) (Hclk : clock_ok w)
    (Httl : (0 < jc_accessTtlSeconds jwt <= MAX_SAFE_INTEGER)%Z) :
  let s := granted p row role w in
  exists session r1 w1 r2 w2,
    getSession env cookies nowMs (w, no_reply) = (Ok (Some session), (w1, r1)) /\
    browser cookies r1 !! REFRESH_COOKIE = Some (st_refreshToken s) /\
    getSession env cookies nowMs (w1, no_reply) = (Ok None, (w2, r2)) /\
    browser cookies r2 = signed_out cookies /\
    (run (refresh (pg_auth_deps cost jwt ttl) (st_refreshToken s)) w2).1 = Err (UnauthorizedError invalid_refresh_token).
Proof.
  intros s. pose proof (refresh_text_ne raw p Hraw) as Hne.
  pose proof (cpRefresh_run raw p w no_reply Hraw Hok Hty (fun _ => Hfr) Httl) as Hrun. rewrite Hj in Hrun.
  destruct (rotated_judged raw p row role w (rotated ttl row w) Hraw Hj Hok Hty Hfr eq_refl) as (Hj2 & Hok2 & Hty2).
  pose proof (cpRefresh_run raw p (rotated ttl row w) no_reply Hraw Hok2 Hty2) as Hrun2. rewrite Hj2 in Hrun2.
  destruct Hrun2 as (code & message & Hrun2); [done|done|].
  pose proof (granted_sound p row role w Hj Hty) as Hu. pose proof Hraw as [_ Ht _].
  pose proof (session_claims (pr_tenantId p) (rtr_user_id row) role (pg_uuid (w_pgseq w))
    (node_hex (w_rand w) REFRESH_SECRET_BYTES) w Ht Hu Hclk) as Hd. fold (granted p row role w) in Hd.
  eexists _, _, _, _, _. split; [|split; [|split; [|split]]].
  - rewrite (getSession_stale env cookies nowMs raw) by done. unfold attempt.
    rewrite web_bind_run, Hrun, Hd, web_bind_run, writeSessionCookies_run. reflexivity.
  - unfold no_reply. jar_simpl. done.
  - rewrite (getSession_stale env cookies nowMs raw) by done. unfold attempt.
    rewrite web_bind_run, Hrun2, web_bind_run, clearSessionCookies_run. reflexivity.
  - done.
  - by eapply successor_dead.
Qed.

(** C39. Logging out ends the session in the browser whatever the control plane
    answers; when it can be reached and the browser's refresh token is a token of the
    control plane, its family is revoked. *)
Theorem web_logout env cookies raw p w
    (Hc : cookies !! REFRESH_COOKIE = Some raw) (Hraw : refresh_text raw p)
    (Hok : db_ok (w_db w)) (Hty : uuid_columns (w_db w)) :
  (forall (B : Backend world) w0, exists w1 r', @logoutFn world B cookies (w0, no_reply) = (Ok tt, (w1, r')) /\
     browser cookies r' = signed_out cookies /\
     forall nowMs, @getSession world B _ _ env (browser cookies r') nowMs (w1, no_reply)
                   = (Ok None, (w1, mkReply [DeleteCookie ACCESS_COOKIE; DeleteCookie REFRESH_COOKIE] []))) /\
  (logoutFn cookies (w, no_reply)).2.1 =
  match token_of (w_db w) (pr_tenantId p) (pr_tokenId p) with
  | Some row => if constantTimeEqual (sha256 (pr_secret p)) (rtr_token_hash row)
                then family_revoked (pr_tenantId p) (rtr_family_id row) w else w
  | None => w
  end.
Proof.
  assert (Hu : usable (cookies !! REFRESH_COOKIE) = Some raw).
  { rewrite Hc. apply usable_Some. split; [done|]. by eapply refresh_text_ne. }
  split.
  - intros B w0. unfold logoutFn, getCookie. rewrite Hu, web_bind_run. unfold attempt.
    assert (Hx : exists out w1, cpLogout raw (w0, no_reply) = (out, (w1, no_reply))).
    { unfold cpLogout. rewrite web_bind_run. destruct (cpFetch_frame (post (js "/v1/auth/logout") (token_json raw)) w0 no_reply)
        as (out & w1 & E & _ & _). rewrite E. destruct out; by eexists _, _. }
    destruct Hx as (out & w1 & E). exists w1, (mkReply [DeleteCookie ACCESS_COOKIE; DeleteCookie REFRESH_COOKIE] []).
    split; [rewrite E; by destruct out|]. split; [done|]. intros nowMs.
    change (browser cookies _) with (signed_out cookies). unfold getSession, getCookie, signed_out.
    rewrite lookup_delete_eq, (lookup_delete_ne _ REFRESH_COOKIE ACCESS_COOKIE), lookup_delete_eq by done. done.
  - pose proof Hraw as [Hp Ht Hi]. apply is_uuid_spec in Ht, Hi.
    pose proof (serve_logout raw w (refresh_text_ne raw p Hraw)) as Hs.
    rewrite (run_logout cost jwt ttl raw p _ _ w Hp Ht Hi Hok Hty) in Hs.
    unfold logoutFn, getCookie. rewrite Hu, web_bind_run. unfold attempt, cpLogout. rewrite web_bind_run. unfold cp.
    rewrite (cpFetch_empty deps POST_logout (post (js "/v1/auth/logout") (token_json raw)) w _ no_reply _
      eq_refl eq_refl eq_refl Hs eq_refl eq_refl).
    cbn [mret web_ret]. by rewrite clearSessionCookies_run.
Qed.

End Flows.
