(* ===== verification/WebGoogle.v ===== *)
(** * Google sign-in across the two services

    [startGoogleSignin] of the web application over [beginAuthorize] of the control
    plane: the state that is bound to the browser is the state the control plane
    stored, and the one Google is given. *)

From stdpp Require Import base list option numbers strings gmap relations.
From S2P Require Import Prelude Errors Effects Tokens Text Rbac Email Entities Ports Uuid Schema World Sql.
From S2P Require Import Integrity Eval Demo PgUsers PgTokens PgInvites PgContent Calls Credentials Adapters.
From S2P Require Import Google AuthService Sessions Services UseCases Invites Oidc OidcFlow Authorize Zod Contracts Wire.
From S2P Require Import Http Requests Json Utf8 WebSession Bff WebUrl BffOidc TailProxy WebFlows.

(** ** Lemmas *)

Lemma base64url_wf s : forallb is_base64url s = true -> well_formed s.
Proof.
  intros Hs. apply wf_plain. rewrite forallb_Forall in Hs. eapply Forall_impl; [exact Hs|]. intros c Hc.
  assert (Ht : token_char c = true) by (unfold token_char; cbn in Hc; by rewrite Hc).
  apply token_char_range in Ht as [? _]. lia.
Qed.

Lemma js_wf s : well_formed (js s).
Proof.
  apply wf_plain. induction s as [|c s IH]; constructor; [|exact IH]. destruct c as [[] [] [] [] [] [] [] []]; done.
Qed.

(** The return path the contract accepted is accepted again. *)
Lemma returnTo_kept `{ZodLaws} v s : parsed returnToSchema v = Some s -> parsed returnToSchema (Some (JStr s)) = Some s.
Proof.
  unfold returnToSchema. intros (t & -> & Hs)%string_inv. rewrite parsed_string. cbn [string_checks] in *.
  assert (E : trim t = s) by (repeat case_match; by simplify_eq). subst s. rewrite trim_idem. exact Hs.
Qed.

Lemma authorize_json_parsed `{ZodLaws} input cmd :
  parsed oidcAuthorizeRequestSchema input = Some cmd ->
  parsed oidcAuthorizeRequestSchema (Some (authorize_request_json cmd)) = Some cmd.
Proof.
  intros Hp. unfold oidcAuthorizeRequestSchema in *. repeat schema_inv. subst. unfold authorize_request_json.
  cbn [oa_tenantSlug oa_returnTo].
  match goal with
  | H1 : parsed slugSchema _ = Some ?a, H2 : parsed (ZOptional _) _ = Some ?b |- _ =>
      rename H1 into Ha; rename H2 into Hb; set (slug := a) in *; set (back := b) in *; clearbody slug back
  end.
  apply checks_kept in Ha; [|by repeat constructor]. rewrite parsed_view.
  assert (Hf : forall o, get o (js "tenantSlug") = Some (JStr slug) ->
    get o (js "returnTo") = JStr <$> back -> plain_keys o -> keys_known [js "tenantSlug"; js "returnTo"] o = true ->
    parsed (ZObject strict (FField (js "tenantSlug") slugSchema (FField (js "returnTo") (ZOptional returnToSchema) FEnd)))
      (Some (JObj o)) = Some (slug, (back, tt))).
  { intros o Ho1 Ho2 Hpl Hk. apply object_complete; [done|done|].
    apply parsed_fields_cons; [by rewrite Ho1|]. apply parsed_fields_cons; [|done]. rewrite Ho2, parsed_optional.
    destruct back as [v|]; [|done]. apply optional_inv, returnTo_kept in Hb. cbn [fmap option_fmap option_map]. by rewrite Hb. }
  destruct back as [v|]; (rewrite Hf; [done|reflexivity|reflexivity|by repeat constructor|reflexivity]).
Qed.

(** The state in the authorization URL. *)
Lemma authorization_state `{EntropyLaws, CryptoLaws} deps t cmd w :
  35%N ∉ od_authEndpoint deps -> 63%N ∉ od_authEndpoint deps ->
  well_formed (od_clientId deps) -> well_formed (od_redirectUri deps) ->
  searchParam (od_authEndpoint deps ++ js "?" ++ authorization_query deps (authorization t cmd w)) (js "state")
  = Some (drawn 0 w).
Proof.
  intros H35 H63 Hid Huri. unfold searchParam. rewrite <-authorize_params_text, searchParams_round_trip; [done|done|done|].
  unfold authorize_params. repeat (constructor; [split; try apply js_wf; try done|]); try done.
  - apply base64url_wf, drawn_safe.
  - apply base64url_wf, drawn_safe.
  - apply base64url_wf, challenge_safe.
Qed.

Section Google.
Context `{HttpServerLaws, ZodLaws, CryptoLaws, Unicode, EntropyLaws, Bcrypt, Jose, Net} `{StateStoreSpec store live}.
Context (cost : Z) (jwt : JoseTokenConfig) (ttl : Z) (email : EmailSender world) (invites : InviteConfig)
  (google : GoogleConfig) (ping : prog world bool).

#[local] Abbreviation deps := (pg_route_deps cost jwt ttl email invites store google ping).
#[local] Abbreviation oidc := (pg_oidc_deps store google jwt ttl).
#[local] Instance cp_google : Backend world := control_plane deps.

Lemma serve_authorize input cmd w :
  parsed oidcAuthorizeRequestSchema input = Some cmd ->
  run (serve deps POST_oidc_authorize (mkRequest None [] (Some (authorize_request_json cmd)) None)) w =
  match run (beginAuthorize oidc cmd) w with
  | (Ok res, w') => (Ok (mkResponse 200 (Some (authorize_json res))), w')
  | (Err e, w') => (Ok (error_response e), w')
  end.
Proof.
  intros Hp%authorize_json_parsed. unfold serve, handle. cbn [route_operation]. rewrite run_catch. cbn [public_handler].
  unfold post_oidc_authorize. rewrite run_bind. cbn [req_body]. rewrite (parse_parsed _ _ cmd Hp).
  cbn [run mret prog_ret]. rewrite run_bind. change (rd_oidcAuthenticator _) with oidc.
  assert (Ec : mkOidcAuthorizeCommand (oa_tenantSlug cmd) (oa_returnTo cmd) = cmd) by (by destruct cmd). rewrite Ec.
  destruct (run (beginAuthorize _ cmd) w) as [[s|e] w']; done.
Qed.

Lemma authorize_refused env input cmd message w :
  parsed oidcAuthorizeRequestSchema input = Some cmd -> run (beginAuthorize oidc cmd) w = (Err (NotFoundError message), w) ->
  startGoogleSignin env input (w, no_reply)
  = (Ok (start_failed (js "Sign-in with Google is unavailable for this workspace.")), (w, no_reply)).
Proof.
  intros Hp Hn. pose proof (serve_authorize input cmd w Hp) as Hs. rewrite Hn in Hs.
  unfold startGoogleSignin, validated. rewrite Hp. unfold attempt. rewrite web_bind_run. unfold cpOidcAuthorize.
  destruct (pair_refused cost jwt ttl email invites store google ping POST_oidc_authorize
    (post (js "/v1/auth/oidc/google/authorize") (authorize_request_json cmd)) w w no_reply _ oidcAuthorizeResponseSchema
    eq_refl eq_refl eq_refl Hs) as (code & text & E); [done|].
  change (WebFlows.cp cost jwt ttl email invites store google ping) with cp_google in E. by rewrite E.
Qed.

Lemma authorize_fetched input cmd url w w' :
  parsed oidcAuthorizeRequestSchema input = Some cmd ->
  run (beginAuthorize oidc cmd) w = (Ok (mkOidcAuthorizeResult url), w') ->
  z_url url = Some url -> URL_hostname url = Some (js "accounts.google.com") ->
  cpOidcAuthorize cmd (w, no_reply) = (Ok (mkOidcAuthorizeResult url), (w', no_reply)).
Proof.
  intros Hp Hrun Hz Hh. pose proof (serve_authorize input cmd w Hp) as Hs. rewrite Hrun in Hs.
  unfold cpOidcAuthorize. rewrite web_bind_run.
  destruct (stringify_obj_Some [(js "redirectUrl", JStr url)]) as [text Ht]; [repeat constructor; by eexists|].
  unfold cp_google. rewrite (cpFetch_served deps POST_oidc_authorize
    (post (js "/v1/auth/oidc/google/authorize") (authorize_request_json cmd)) w w' no_reply _ _ text
    eq_refl eq_refl eq_refl Hs eq_refl Ht). cbn [rs_status]. change ((200 <=? 200) && (200 <=? 299))%Z with true. cbn match.
  unfold schema_parse, oidcAuthorizeResponseSchema, authorize_json. cbn [oar_redirectUrl].
  rewrite parsed_view, (object_complete strict _ _ (url, tt)); [done|by repeat constructor|done|].
  apply parsed_fields_cons; [|done]. change (get _ _) with (Some (JStr url)). rewrite parsed_string.
  cbn [string_checks]. rewrite Hz. cbn [mbind option_bind]. by rewrite bool_decide_eq_true_2.
Qed.

(** Starting the Google flow from the browser.  For an active tenant the control
    plane stores one live state for that tenant; the URL the browser is sent to carries
    this state, and the browser's handshake cookies hold it, the tenant, and the return
    path if one was asked for.  For an unknown or inactive tenant the browser is told
    the same for both, and no cookie is set.  (The platform is to read the configured
    endpoint as a URL of Google, as the contract requires.) *)
Theorem google_state_bound env input cmd cookies w
    (Hp : parsed oidcAuthorizeRequestSchema input = Some cmd) (Hpos : (0 < go_stateTtlSeconds google)%Z)
    (H35 : 35%N ∉ od_authEndpoint oidc) (H63 : 63%N ∉ od_authEndpoint oidc)
    (Hid : well_formed (od_clientId oidc)) (Huri : well_formed (od_redirectUri oidc))
    (Hurl : forall q, z_url (od_authEndpoint oidc ++ js "?" ++ q) = Some (od_authEndpoint oidc ++ js "?" ++ q) /\
                      URL_hostname (od_authEndpoint oidc ++ js "?" ++ q) = Some (js "accounts.google.com")) :
  match tenant_by_slug (w_db w) (oa_tenantSlug cmd) with
  | Some t =>
      if bool_decide (tr_status t = t_active) then
        exists url w' r' stored,
          startGoogleSignin env input (w, no_reply) = (Ok (start_ok url), (w', r')) /\
          live w' (os_state stored) = Some stored /\ os_tenantId stored = tr_id t /\ w_db w' = w_db w /\
          searchParam url (js "state") = Some (os_state stored) /\
          browser cookies r' !! OIDC_STATE_COOKIE = Some (os_state stored) /\
          browser cookies r' !! OIDC_TENANT_COOKIE = Some (oa_tenantSlug cmd) /\
          browser cookies r' !! OIDC_RETURN_COOKIE
            = match usable (oa_returnTo cmd) with Some v => Some v | None => cookies !! OIDC_RETURN_COOKIE end
      else startGoogleSignin env input (w, no_reply)
           = (Ok (start_failed (js "Sign-in with Google is unavailable for this workspace.")), (w, no_reply))
  | None => startGoogleSignin env input (w, no_reply)
            = (Ok (start_failed (js "Sign-in with Google is unavailable for this workspace.")), (w, no_reply))
  end.
Proof.
  pose proof (run_beginAuthorize google jwt ttl cmd w Hpos) as Hb. cbv zeta in Hb.
  destruct (tenant_by_slug _ _) as [t|]; [|by eapply authorize_refused].
  destruct (bool_decide _); [|by eapply authorize_refused].
  destruct Hb as (w' & Hrun & Hfr & Hl & _). set (r := authorization (tr_id t) cmd w) in *.
  destruct (Hurl (authorization_query oidc r)) as [Hz Hh].
  set (url := od_authEndpoint oidc ++ js "?" ++ authorization_query oidc r) in *.
  pose proof (authorize_fetched input cmd url w w' Hp Hrun Hz Hh) as Hcp.
  pose proof (authorization_state oidc (tr_id t) cmd w H35 H63 Hid Huri) as Hstate. fold r url in Hstate.
  assert (Hne : drawn 0 w <> []) by (pose proof (drawn_truthy 0 w); by destruct (drawn 0 w)).
  unfold startGoogleSignin, validated. rewrite Hp. unfold attempt. rewrite web_bind_run, Hcp. cbn [oar_redirectUrl].
  rewrite Hstate, (proj2 (usable_Some _ _) (conj eq_refl Hne)).
  rewrite !web_bind_run. cbn [setCookie rp_cookies rp_headers app]. rewrite web_bind_run. cbn [setCookie rp_cookies rp_headers app].
  exists url. destruct (usable (oa_returnTo cmd)) as [v|]; rewrite web_bind_run; cbn [setCookie rp_cookies rp_headers app mret web_ret].
  - eexists w', _, r. split; [reflexivity|]. split_and!; try done; try (unfold no_reply; by jar_simpl).
    by destruct (store_frame_split _ _ Hfr) as (x & y & ->).
  - eexists w', _, r. split; [reflexivity|]. split_and!; try done; try (unfold no_reply; by jar_simpl).
    by destruct (store_frame_split _ _ Hfr) as (x & y & ->).
Qed.

End Google.
