(* ===== verification/WebDemo.v ===== *)
(** * Concrete parameters for the web application

    A router of the registered paths, a printer of JSON and a signer of tokens that
    satisfy the laws the theorems assume, so that the theorems can be run. *)

From stdpp Require Import base list option numbers strings gmap countable.
From S2P Require Import Prelude Errors Effects Tokens Text Rbac Email Entities Ports Uuid Schema World Sql.
From S2P Require Import Integrity Eval Demo PgUsers PgTokens PgInvites PgContent Calls Credentials Adapters.
From S2P Require Import Google AuthService Sessions Services UseCases Invites Oidc OidcFlow Authorize Zod Contracts Wire.
From S2P Require Import Http Requests Json Utf8 WebSession Bff WebUrl BffOidc TailProxy WebFlows WebGoogle.

(** ** Routing *)

Definition ROUTES : list route :=
  [GET_healthz; GET_readyz; POST_oidc_authorize; POST_oidc_callback; POST_login; POST_refresh; POST_logout;
   POST_tenants; GET_tenants; GET_tenant; PATCH_tenant; DELETE_tenant; POST_tenant_admin;
   POST_users; GET_users; GET_user; PATCH_user; DELETE_user; POST_api_keys; GET_api_keys; DELETE_api_key;
   GET_retention; PUT_retention; POST_alert_rules; GET_alert_rules; GET_alert_rule; PATCH_alert_rule; DELETE_alert_rule;
   POST_saved_queries; GET_saved_queries; GET_saved_query; PATCH_saved_query; DELETE_saved_query;
   POST_dashboards; GET_dashboards; GET_dashboard; PATCH_dashboard; DELETE_dashboard;
   POST_invites; GET_invites; POST_invite_revoke].

#[export] Instance Method_eq_dec : EqDecision Method.
Proof. solve_decision. Defined.

(** The parameters of a path that matches, segment by segment. *)
Fixpoint match_segments (pattern : list (option jsstr)) (segments : list jsstr) : option jsobject :=
  match pattern, segments with
  | [], [] => Some []
  | Some lit :: pattern', s :: segments' =>
      if bool_decide (lit = s) then match_segments pattern' segments' else None
  | None :: pattern', s :: segments' =>
      params ← match_segments pattern' segments';
      if truthy s then Some ((js "id", JStr s) :: params) else None
  | _, _ => None
  end.

Definition table_router (m : Method) (path : jsstr) : option (route * jsobject) :=
  match split_on 47 path with
  | [] :: segments =>
      foldr (fun r found =>
               let '(method, pattern) := endpoint r in
               if bool_decide (method = m) then
                 match match_segments pattern segments with Some params => Some (r, params) | None => found end
               else found) None ROUTES
  | _ => None
  end.

Definition demo_http : HttpServer :=
  {| router := table_router;
     router_miss := mkFetchResponse 404 (js "Not Found") (Some []);
     print_json j := default [] (JSON_stringify j);
     reason_phrase := fun _ => [] |}.

Lemma split_path pattern id :
  Forall (fun s => 47%N ∉ default id s) pattern ->
  split_on 47 (path_of pattern id) = match pattern with [] => [[]] | _ => [] :: (default id <$> pattern) end.
Proof.
  unfold path_of. change (js "/") with [47%N]. intros Hp.
  assert (Hc : forall a : jsstr, 47%N ∉ a ->
    split_on 47 (a ++ concat ((fun s => [47%N] ++ default id s) <$> pattern)) = a :: (default id <$> pattern)).
  { induction Hp as [|s pattern Hs Hp IH]; intros a Ha; [rewrite app_nil_r; by apply split_on_none|].
    rewrite !fmap_cons. cbn [concat]. rewrite <-app_assoc. cbn [app]. rewrite split_on_app by done. by rewrite IH. }
  destruct pattern as [|s pattern]; [done|]. apply (Hc []). apply not_elem_of_nil.
Qed.

Lemma endpoint_segments r id : 47%N ∉ id -> Forall (fun s => 47%N ∉ default id s) (endpoint r).2.
Proof.
  intros Hid. assert (Hl : forallb (fun r => forallb (fun s => match s with Some lit => bool_decide (47%N ∉ lit) | None => true end)
    (endpoint r).2) ROUTES = true) by (vm_compute; reflexivity).
  rewrite forallb_forall in Hl. specialize (Hl r ltac:(destruct r; cbn; tauto)).
  rewrite forallb_Forall, Forall_forall in Hl. apply Forall_forall. intros [lit|] Hin; [|done].
  apply Hl in Hin. by apply bool_decide_eq_true in Hin.
Qed.

Lemma demo_http_laws : @HttpServerLaws demo_http.
Proof.
  split.
  - intros r id Hne Hid. cbn [router demo_http]. unfold table_router.
    rewrite split_path by (apply endpoint_segments, base64url_no; done).
    destruct id as [|c id]; [done|]. clear. destruct r; vm_compute; reflexivity.
  - intros j t Ht. cbn [print_json demo_http]. by rewrite Ht.
Qed.

(** ** Tokens *)

Fixpoint bits (p : positive) : jsstr :=
  match p with xH => [] | xO p => 48%N :: bits p | xI p => 49%N :: bits p end.

Fixpoint unbits (s : jsstr) : positive :=
  match s with [] => xH | c :: s => if (c =? 48)%N then xO (unbits s) else xI (unbits s) end.

Lemma unbits_bits p : unbits (bits p) = p.
Proof. induction p as [p IH|p IH|]; cbn; [by rewrite IH|by rewrite IH|done]. Qed.

Lemma bits_safe p : forallb is_base64url (bits p) = true.
Proof. by induction p. Qed.

Definition demo_segment (p : JwtPayload) : jsstr :=
  match JSON_stringify (JObj (payload_object p)) with Some t => base64url (utf8 t) | None => [] end.

Definition text_jose : Jose :=
  {| jwt_sign := fun secret p => js "e30" ++ js "." ++ demo_segment p ++ js "." ++ bits (encode (secret, p));
     jwt_verify := fun secret iss aud now token =>
       match split_on 46 token with
       | [_; _; signature] =>
           match decode (A := jsstr * JwtPayload) (unbits signature) with
           | Some (s, p) =>
               if bool_decide (s = secret) && bool_decide (jp_iss p = iss)
                  && bool_decide (jp_aud p = aud) && (now <? jp_exp p)%Z
               then Some p else None
           | None => None
           end
       | _ => None
       end |}.

Lemma base64url_char_any n : is_base64url (base64url_char n) = true.
Proof.
  destruct (N.ltb_spec n 64) as [Hn|Hn]; [by apply base64url_char_safe|]. unfold base64url_char.
  rewrite !(proj2 (N.ltb_ge _ _)), (proj2 (N.eqb_neq _ _)) by lia. done.
Qed.

Lemma base64url_any bs : forallb is_base64url (base64url bs) = true.
Proof.
  induction bs as [|a|a b|a b c l IH] using list_ind3; cbn [base64url forallb];
    rewrite ?base64url_char_any, ?IH; done.
Qed.

Lemma demo_segment_safe p : forallb is_base64url (demo_segment p) = true.
Proof. unfold demo_segment. destruct (JSON_stringify _); [apply base64url_any|done]. Qed.

Lemma text_jose_laws : @JoseLaws text_jose.
Proof.
  split. intros secret iss aud now p <- <- Hnow. cbn [jwt_sign jwt_verify text_jose]. change (js ".") with [46%N]. cbn [app].
  rewrite split_on_app by (apply base64url_no; done).
  rewrite split_on_app by (apply base64url_no; [apply demo_segment_safe|done]).
  rewrite split_on_none by (apply base64url_no; [apply bits_safe|done]).
  rewrite unbits_bits, decode_encode, !bool_decide_eq_true_2 by done. by rewrite (proj2 (Z.ltb_lt _ _) Hnow).
Qed.

Lemma text_jose_text_laws : @JwtTextLaws text_jose.
Proof.
  split. intros secret p. exists (payload_object p), (js "e30"), (bits (encode (secret, p))).
  split_and!; [done|done|apply bits_safe|]. intros t Ht. cbn [jwt_sign text_jose]. unfold demo_segment. by rewrite Ht.
Qed.

(** ** The theorems at work *)

#[local] Existing Instances demo_http demo_http_laws demo_formats demo_zod demo_zod_laws demo_crypto demo_crypto_laws
  ascii_unicode demo_entropy demo_entropy_laws demo_bcrypt text_jose text_jose_laws text_jose_text_laws demo_net.

#[local] Abbreviation with_demo_deps thm :=
  (thm 10%Z demo_jwt 1000%Z NoOpEmailSender demo_config InMemoryOAuthStateStore.store demo_google (mret true)) (only parsing).

#[local] Instance demo_cp : Backend world :=
  control_plane (pg_route_deps 10 demo_jwt 1000 NoOpEmailSender demo_config InMemoryOAuthStateStore.store demo_google (mret true)).

Definition demo_env : WebEnv := mkWebEnv None (Some (js "production")).

Definition demo_cookies : jar := {[ REFRESH_COOKIE := demo_raw ]}.

Lemma demo_text : refresh_text demo_raw demo_parsed.
Proof. split; [exact demo_parse|by vm_compute|by vm_compute]. Qed.

Lemma demo_clock : clock_ok demo_jwt demo_world.
Proof. by vm_compute. Qed.

Definition demo_row : refresh_tokens_row :=
  mk_refresh_tokens alice_token acme alice alice_family (pad_digest (js "s3cret")) 0 1000000 None None.

Lemma demo_judged : judged demo_parsed demo_world = Grant demo_row tenant_admin.
Proof. vm_compute. reflexivity. Qed.

Lemma demo_ttl : (0 < jc_accessTtlSeconds demo_jwt <= MAX_SAFE_INTEGER)%Z.
Proof. by vm_compute. Qed.

Lemma demo_clean : map_Forall clean demo_cookies.
Proof.
  apply map_Forall_singleton. split.
  - split; [by vm_compute|]. discriminate.
  - split; apply (bool_decide_unpack _); by vm_compute.
  - apply (bool_decide_unpack _); by vm_compute.
  - split; by vm_compute.
Qed.

Lemma silent_refresh_witness : exists w' r',
  getSession demo_env demo_cookies 5000 (demo_world, no_reply)
  = (Ok (Some (mkClientSession alice acme tenant_admin 905)), (w', r')).
Proof.
  pose proof (with_demo_deps (@silent_refresh _ _ _ _ _ _ _ _ _ _ _ _ _ _) demo_env demo_cookies 5000%Z demo_raw demo_parsed demo_world
    eq_refl demo_text I demo_db_ok demo_uuid_columns demo_fresh demo_clock demo_ttl) as Hs.
  rewrite demo_judged in Hs. change (WebFlows.cp _ _ _ _ _ _ _ _) with demo_cp in Hs.
  destruct (getSession demo_env demo_cookies 5000 (demo_world, no_reply)) as [res [w' r']].
  destruct Hs as [-> _]. exists w', r'. reflexivity.
Defined.

(** A query service that streams, and one that is down. *)
Definition tail_up : QueryService world := {| tail_fetch := fun _ w => (Some (200%Z, true), w) |}.
Definition tail_down : QueryService world := {| tail_fetch := fun _ w => (None, w) |}.

Lemma tail_keeps_session_witness : exists res w2,
  @tailProxy world demo_cp tail_up _ _ demo_env (cookie_header demo_cookies) 5000 (demo_world, no_reply) = (Ok res, (w2, no_reply)) /\
  tp_body res = body_stream /\ 
  browser_raw demo_cookies res = with_pair (granted demo_jwt demo_parsed demo_row tenant_admin demo_world) demo_cookies.
Proof.
  destruct (@tail_keeps_session _ _ _ _ _ _ _ _ _ _ _ _ _ _ 10%Z demo_jwt 1000%Z NoOpEmailSender demo_config
    InMemoryOAuthStateStore.store demo_google (mret true) tail_up demo_env demo_cookies 5000%Z demo_raw
    demo_parsed demo_row tenant_admin 200%Z demo_world (rotated 1000 demo_row demo_world) demo_clean eq_refl demo_text I demo_judged demo_db_ok
    demo_uuid_columns demo_fresh demo_clock demo_ttl eq_refl ltac:(lia)) as (res & Hr & _ & Hb & Hj).
  exists res. eexists. split; [exact Hr|]. split; [exact Hb|exact Hj].
Defined.

Lemma tail_failure_loses_session_witness : exists res w2 w4 r',
  @tailProxy world demo_cp tail_down _ _ demo_env (cookie_header demo_cookies) 5000 (demo_world, no_reply) = (Ok res, (w2, no_reply)) /\
  browser_raw demo_cookies res = demo_cookies /\
  getSession demo_env demo_cookies 6000 (w2, no_reply) = (Ok None, (w4, r')).
Proof.
  destruct (@tail_failure_loses_session _ _ _ _ _ _ _ _ _ _ _ _ _ _ 10%Z demo_jwt 1000%Z NoOpEmailSender demo_config
    InMemoryOAuthStateStore.store demo_google (mret true) tail_down demo_env demo_cookies 5000%Z demo_raw
    demo_parsed demo_row tenant_admin None demo_world (rotated 1000 demo_row demo_world) demo_clean eq_refl demo_text I demo_judged demo_db_ok
    demo_uuid_columns demo_fresh demo_clock demo_ttl eq_refl I eq_refl) as (res & Hr & Hb & Hl).
  specialize (Hl 6000%Z _ eq_refl I). change (WebFlows.cp _ _ _ _ _ _ _ _) with demo_cp in Hl.
  destruct (getSession demo_env demo_cookies 6000 _) as [out [w4 r']] eqn:E in Hl. destruct Hl as (-> & _).
  eexists res, _, w4, r'. split; [exact Hr|]. split; [exact Hb|exact E].
Defined.

Lemma concurrent_refresh_signs_out_witness : exists session r1 w1 r2 w2,
  getSession demo_env demo_cookies 5000 (demo_world, no_reply) = (Ok (Some session), (w1, r1)) /\
  getSession demo_env demo_cookies 5000 (w1, no_reply) = (Ok None, (w2, r2)).
Proof.
  destruct (with_demo_deps (@concurrent_refresh_signs_out _ _ _ _ _ _ _ _ _ _ _ _ _ _) demo_env demo_cookies 5000%Z demo_raw
    demo_parsed demo_row tenant_admin demo_world eq_refl demo_text I demo_judged demo_db_ok
    demo_uuid_columns demo_fresh demo_clock demo_ttl) as (session & r1 & w1 & r2 & w2 & H1 & _ & H2 & _).
  exists session, r1, w1, r2, w2. split; [exact H1|exact H2].
Defined.

Lemma web_logout_witness :
  map rtr_revoked_at (d_refresh_tokens (w_db (logoutFn demo_cookies (demo_world, no_reply)).2.1)) = [Some 5000%Z].
Proof.
  destruct (with_demo_deps (@web_logout _ _ _ _ _ _ _ _ _ _ _) demo_env demo_cookies demo_raw demo_parsed demo_world
    eq_refl demo_text demo_db_ok demo_uuid_columns) as [_ Hl].
  change (WebFlows.cp _ _ _ _ _ _ _ _) with demo_cp in Hl. rewrite Hl. vm_compute. reflexivity.
Defined.

Lemma web_login_witness : exists w' r',
  loginFn demo_env (Some demo_login_body) (demo_world, no_reply)
  = (Ok (login_ok (mkClientSession alice acme tenant_admin 905)), (w', r')).
Proof.
  pose proof (with_demo_deps (@web_login _ _ _ _ _ _ _ _ _ _ _ _ _ _) demo_env (Some demo_login_body) demo_cookies demo_world
    demo_uuid_columns demo_fresh demo_memo_ok demo_clock demo_ttl) as Hl. cbv zeta in Hl.
  assert (E : exists cmd, parsed loginRequestSchema (Some demo_login_body) = Some cmd /\
    exists t u, authenticates (w_db demo_world) cmd = Some (t, u, tenant_admin) /\ ur_id u = alice /\ tr_id t = acme).
  { eexists. split; [vm_compute; reflexivity|]. eexists _, _. split; [vm_compute; reflexivity|done]. }
  destruct E as (cmd & Ec & t & u & Ea & Eu & Et). rewrite Ec, Ea, Eu, Et in Hl.
  destruct Hl as (r' & token & Hl & _). eexists _, r'. exact Hl.
Defined.

(** A service that answers every request with one session. *)
Definition demo_session : SessionTokens :=
  mkSessionTokens (js "e30." ++ demo_segment alice_payload ++ js ".sig") demo_raw 900 (js "Bearer") tenant_admin acme alice.

Definition one_session : Backend unit :=
  {| fetch := fun _ w => (Some (mkFetchResponse 200 [] (JSON_stringify (JObj (session_object demo_session)))), w) |}.

Definition demo_handshake : jar :=
  {[ OIDC_STATE_COOKIE := js "st"; OIDC_TENANT_COOKIE := js "acme"; OIDC_RETURN_COOKIE := js "/logs" ]}.

(** The browser that began the flow, and another one. *)
Lemma signin_bound_to_browser_witness :
  let run state := @callback_loader unit one_session _ _ demo_env demo_handshake (mkCallbackSearch (js "code") state None) (tt, no_reply) in
  stays_on_origin (js "/logs") = true /\
  browser demo_handshake (run (js "st")).2.2 !! REFRESH_COOKIE <> None /\
  ~ sets_cookie (run (js "other")).2.2.
Proof.
  intros run.
  pose proof (@signin_bound_to_browser unit one_session _ _ _ demo_env demo_handshake (mkCallbackSearch (js "code") (js "st") None) tt) as Hs.
  pose proof (@signin_bound_to_browser unit one_session _ _ _ demo_env demo_handshake (mkCallbackSearch (js "code") (js "other") None) tt) as Ho.
  change (@callback_loader _ _ _ _ _ _ _ _) with (run (js "st")) in Hs.
  change (@callback_loader _ _ _ _ _ _ _ _) with (run (js "other")) in Ho.
  assert (E : (run (js "st")).1 = Err (RedirectTo (js "/logs"))) by (vm_compute; reflexivity).
  destruct (run (js "st")) as [res [w' r']]. destruct (run (js "other")) as [res2 [w2 r2]].
  destruct Hs as [_ Hs]. destruct (Hs _ E) as (Hp & slug & pair & _ & _ & _ & _ & Hr & _). cbn [fst snd].
  split; [exact Hp|]. split; [rewrite Hr; discriminate|]. apply Ho. vm_compute. discriminate.
Defined.

(** A platform that reads the configured endpoint as a URL of Google. *)
Definition google_formats : Formats :=
  {| z_email := @z_email demo_formats; z_url := @z_url demo_formats; z_datetime := @z_datetime demo_formats;
     js_Date := @js_Date demo_formats; URL_hostname := fun _ => Some (js "accounts.google.com");
     js_Number := @js_Number demo_formats |}.

Definition google_cp : Backend world :=
  @control_plane demo_http google_formats (@interpreter google_formats) _ _ _
    (pg_route_deps 10 demo_jwt 1000 NoOpEmailSender demo_config InMemoryOAuthStateStore.store demo_google (mret true)).

Lemma google_state_bound_witness : exists url w' r' stored,
  @startGoogleSignin world google_cp google_formats (@interpreter google_formats) demo_env
    (Some (JObj [(js "tenantSlug", JStr (js "acme"))])) (demo_world, no_reply) = (Ok (start_ok url), (w', r')) /\
  memory_live w' (os_state stored) = Some stored /\ searchParam url (js "state") = Some (os_state stored) /\
  browser ∅ r' !! OIDC_STATE_COOKIE = Some (os_state stored).
Proof.
  pose proof (@google_state_bound demo_http _ google_formats (@interpreter google_formats) (@interpreter_laws google_formats)
    _ _ _ _ _ _ _ _ InMemoryOAuthStateStore.store memory_live memory_store_spec 10%Z demo_jwt 1000%Z NoOpEmailSender demo_config
    demo_google (mret true) demo_env (Some (JObj [(js "tenantSlug", JStr (js "acme"))]))
    (mkOidcAuthorizeCommand (js "acme") None) ∅ demo_world) as Hg.
  destruct Hg as (url & w' & r' & stored & Hr & Hl & _ & _ & Hs & Hc & _).
  - vm_compute. reflexivity.
  - reflexivity.
  - apply (bool_decide_unpack _). by vm_compute.
  - apply (bool_decide_unpack _). by vm_compute.
  - apply js_wf.
  - apply js_wf.
  - intros q. split; reflexivity.
  - exists url, w', r', stored. split; [exact Hr|]. split; [exact Hl|]. split; [exact Hs|exact Hc].
Defined.

