(* ===== verification/LogSearch.v ===== *)
(** * Historical search

    [features/log-search/] of the web application: the filters and the query string
    ([search-query.ts]) and the paged result list ([use-log-search.ts]) as a state
    machine.  The state has the hook's React state and refs and the requests that are
    out.  React renders updates of its state some time after they are made: [sh_updates]
    are the updates made since the last render, in order.  The user may act while
    updates wait; an answer comes after them, a request being slower than a render. *)

From stdpp Require Import base list option numbers strings gmap relations.
From S2P Require Import Prelude Tokens Text Email Rbac Entities Zod Contracts Json TailEvent.
Open Scope zod_scope.

(** ** Filters *)

Record SearchFilters := mkSearchFilters {
  sf_text : jsstr;
  sf_service : jsstr;
  sf_level : jsstr;                     (* a level, or empty *)
  sf_labels : list jsstr;
  sf_from : jsstr;
  sf_to : jsstr
}.

Definition EMPTY_SEARCH_FILTERS : SearchFilters := mkSearchFilters [] [] [] [] [] [].

Definition SEARCH_PAGE_LIMIT : Z := 100.
Definition MAX_SEARCH_RESULTS : nat := 1000.
#[global] Arguments MAX_SEARCH_RESULTS : simpl never.

Definition searchFiltersActive (f : SearchFilters) : bool :=
  truthy (trim (sf_text f)) || truthy (trim (sf_service f)) || truthy (sf_level f) || truthy (trim (sf_from f))
  || truthy (trim (sf_to f)) || existsb (fun l => truthy (trim l)) (sf_labels f).

(** [new Date(text).getTime()] where it is a number: the format, and for a text without
    a zone the zone, are the platform's.  A time value is within 8.64e15 ms of 1970. *)
Class Dates := { Date_parse : jsstr -> option Z }.

(** [p.set(name, value)]: the first of that name gets the value and the others go. *)
Fixpoint param_set (name value : jsstr) (p : list (jsstr * jsstr)) : list (jsstr * jsstr) :=
  match p with
  | [] => [(name, value)]
  | (k, v) :: p =>
      if bool_decide (k = name) then (k, value) :: filter (fun kv => kv.1 <> name) p
      else (k, v) :: param_set name value p
  end.

Definition param_append (name value : jsstr) (p : list (jsstr * jsstr)) : list (jsstr * jsstr) := p ++ [(name, value)].

Section Query.
Context `{Dates}.

Definition toRfc3339 (value : jsstr) : jsstr :=
  let v := trim value in
  if negb (truthy v) then []
  else match Date_parse v with
       | None => v
       | Some t => toISOString t
       end.

(** [if (value !== '') p.set(name, value)]. *)
Definition set_filter (name value : jsstr) (p : list (jsstr * jsstr)) : list (jsstr * jsstr) :=
  if truthy value then param_set name value p else p.

Definition buildSearchParams (f : SearchFilters) (cursor : option jsstr) (limit : option Z) : list (jsstr * jsstr) :=
  let p := set_filter (js "q") (trim (sf_text f)) [] in
  let p := set_filter (js "service") (trim (sf_service f)) p in
  let p := set_filter (js "level") (sf_level f) p in
  let p := set_filter (js "from") (toRfc3339 (sf_from f)) p in
  let p := set_filter (js "to") (toRfc3339 (sf_to f)) p in
  let p := foldl (fun p raw => let label := trim raw in if truthy label then param_append (js "label") label p else p)
             p (sf_labels f) in
  let p := match limit with Some n => param_set (js "limit") (print_int n) p | None => p end in
  match cursor with Some c => set_filter (js "cursor") c p | None => p end.

End Query.

Record SearchQueryState := mkSearchQueryState {
  sq_q : jsstr;
  sq_service : jsstr;
  sq_level : option jsstr;
  sq_labels : list jsstr;
  sq_from : jsstr;
  sq_to : jsstr
}.

Definition filtersFromQuery (s : SearchQueryState) : SearchFilters :=
  mkSearchFilters (sq_q s) (sq_service s) (default [] (sq_level s)) (sq_labels s) (sq_from s) (sq_to s).

Definition queryFromFilters (f : SearchFilters) : SearchQueryState :=
  mkSearchQueryState (sf_text f) (sf_service f) (if truthy (sf_level f) then Some (sf_level f) else None)
    (sf_labels f) (sf_from f) (sf_to f).

(** ** Answers *)

Record SearchResult := mkSearchResult { sr_events : list TailLogEvent; sr_nextCursor : option jsstr }.

Definition searchResponseSchema : schema SearchResult :=
  ZView (fun '(events, (next, _)) => mkSearchResult events next)
    (ZObject strip
       ("events" ~> ZArray [] tailLogEventSchema ;;
        "nextCursor" ~> ZView (fun v => match v with Some c => if truthy c then Some c else None | None => None end)
                          (ZOptional (ZString [])) ;; FEnd)).

Inductive SearchOutcome :=
| search_ok (events : list TailLogEvent) (nextCursor : option jsstr)
| search_failed (message : jsstr).

(** ** The hook *)

Module UseLogSearch.

Inductive SearchStatus := idle | loading | success | loadingMore | search_error.

#[export] Instance SearchStatus_eq_dec : EqDecision SearchStatus.
Proof. solve_decision. Defined.

Record State := mkState {
  ss_status : SearchStatus;
  ss_events : list TailLogEvent;
  ss_nextCursor : option jsstr;
  ss_error : option jsstr;
  ss_hasSearched : bool;
  ss_capped : bool
}.

Definition INITIAL : State := mkState idle [] None None false false.

(** The argument of a [setState]: a state, or a function of the previous one; the
    function that appends a page also sets [cursorRef]. *)
Inductive update :=
| set_state (s : State)
| set_loadingMore
| append_page (events : list TailLogEvent) (nextCursor : option jsstr)
| keep_pages (message : jsstr).

Definition bounded (events : list TailLogEvent) : list TailLogEvent :=
  if MAX_SEARCH_RESULTS <=? length events then take MAX_SEARCH_RESULTS events else events.

Definition page_cursor (events : list TailLogEvent) (nextCursor : option jsstr) : option jsstr :=
  if MAX_SEARCH_RESULTS <=? length events then None else nextCursor.

Definition page_state (events : list TailLogEvent) (nextCursor : option jsstr) : State :=
  mkState success (bounded events) (page_cursor events nextCursor) None true (MAX_SEARCH_RESULTS <=? length events).

(** React calls the functions in order when it renders. *)
Definition apply_update (u : update) (sc : State * option jsstr) : State * option jsstr :=
  let '(s, cursorRef) := sc in
  match u with
  | set_state s' => (s', cursorRef)
  | set_loadingMore =>
      (mkState loadingMore (ss_events s) (ss_nextCursor s) None (ss_hasSearched s) (ss_capped s), cursorRef)
  | append_page events nextCursor =>
      let combined := ss_events s ++ events in
      (page_state combined nextCursor, page_cursor combined nextCursor)
  | keep_pages message =>
      (mkState success (ss_events s) (ss_nextCursor s) (Some message) (ss_hasSearched s) (ss_capped s), cursorRef)
  end.

(** A call of the executor that has not been answered. *)
Record request := mkSearchRequest { rq_id : nat; rq_filters : SearchFilters; rq_cursor : option jsstr }.

Record search_hook := mkSearchHook {
  sh_state : State;                     (* as last rendered *)
  sh_updates : list update;
  sh_reqId : nat;
  sh_lastFilters : option SearchFilters;
  sh_cursorRef : option jsstr;
  sh_inFlight : bool;
  sh_requests : list request
}.

Definition initial_search : search_hook := mkSearchHook INITIAL [] 0 None None false [].

Definition run (filters : SearchFilters) (h : search_hook) : search_hook :=
  let id := S (sh_reqId h) in
  mkSearchHook (sh_state h) (sh_updates h ++ [set_state (mkState loading [] None None false false)]) id
    (Some filters) None true (sh_requests h ++ [mkSearchRequest id filters None]).

Definition loadMore (h : search_hook) : search_hook :=
  match sh_lastFilters h, sh_cursorRef h with
  | Some filters, Some cursor =>
      if negb (truthy cursor) || sh_inFlight h then h
      else
        let id := S (sh_reqId h) in
        mkSearchHook (sh_state h) (sh_updates h ++ [set_loadingMore]) id (sh_lastFilters h) (sh_cursorRef h) true
          (sh_requests h ++ [mkSearchRequest id filters (Some cursor)])
  | _, _ => h
  end.

(** The callback of [search(filters).then]. *)
Definition first_page (id : nat) (out : SearchOutcome) (h : search_hook) : search_hook :=
  if negb (id =? sh_reqId h) then h
  else
    match out with
    | search_ok events nextCursor =>
        mkSearchHook (sh_state h) (sh_updates h ++ [set_state (page_state events nextCursor)]) (sh_reqId h)
          (sh_lastFilters h) (page_cursor events nextCursor) false (sh_requests h)
    | search_failed message =>
        mkSearchHook (sh_state h) (sh_updates h ++ [set_state (mkState search_error [] None (Some message) true false)])
          (sh_reqId h) (sh_lastFilters h) None false (sh_requests h)
    end.

(** The callback of [search(filters, cursor).then]. *)
Definition further_page (id : nat) (out : SearchOutcome) (h : search_hook) : search_hook :=
  if negb (id =? sh_reqId h) then h
  else
    mkSearchHook (sh_state h)
      (sh_updates h ++ [match out with search_ok events next => append_page events next
                                     | search_failed message => keep_pages message end])
      (sh_reqId h) (sh_lastFilters h) (sh_cursorRef h) false (sh_requests h).

Definition answered (rq : request) (out : SearchOutcome) (h : search_hook) : search_hook :=
  let h' := mkSearchHook (sh_state h) (sh_updates h) (sh_reqId h) (sh_lastFilters h) (sh_cursorRef h) (sh_inFlight h)
              (filter (fun r => rq_id r <> rq_id rq) (sh_requests h)) in
  match rq_cursor rq with
  | None => first_page (rq_id rq) out h'
  | Some _ => further_page (rq_id rq) out h'
  end.

(** A promise that is rejected calls neither callback. *)
Definition rejected (rq : request) (h : search_hook) : search_hook :=
  mkSearchHook (sh_state h) (sh_updates h) (sh_reqId h) (sh_lastFilters h) (sh_cursorRef h) (sh_inFlight h)
    (filter (fun r => rq_id r <> rq_id rq) (sh_requests h)).

Definition render (h : search_hook) : search_hook :=
  let '(s, c) := foldl (fun sc u => apply_update u sc) (sh_state h, sh_cursorRef h) (sh_updates h) in
  mkSearchHook s [] (sh_reqId h) (sh_lastFilters h) c (sh_inFlight h) (sh_requests h).

(** The surface ([log-search.tsx]): a run on mount for a link with filters, and a
    "Load more" button below the results. *)
Definition mount_run (runOnMount : bool) (filters : SearchFilters) (h : search_hook) : search_hook :=
  if runOnMount && searchFiltersActive filters then run filters h else h.

Definition load_more_enabled (s : State) : bool :=
  match ss_status s with loading | search_error => false | _ => true end
  && (1 <=? length (ss_events s)) && negb (ss_capped s) && bool_decide (is_Some (ss_nextCursor s))
  && negb (bool_decide (ss_status s = loadingMore)).

Section Steps.
Context (answers : SearchFilters -> option jsstr -> SearchOutcome -> Prop).

Inductive search_step : search_hook -> search_hook -> Prop :=
| step_run filters h : search_step h (run filters h)
| step_loadMore h : load_more_enabled (sh_state h) = true -> search_step h (loadMore h)
| step_answered rq out h :
    rq ∈ sh_requests h -> sh_updates h = [] -> answers (rq_filters rq) (rq_cursor rq) out ->
    search_step h (answered rq out h)
| step_rejected rq h : rq ∈ sh_requests h -> search_step h (rejected rq h)
| step_render h : search_step h (render h).

Definition search_reachable (h : search_hook) : Prop := rtc search_step initial_search h.

End Steps.

(** * Lemmas *)

(** ** What a paged service answers *)

Section Paged.
Context (L : SearchFilters -> list TailLogEvent) (pos : SearchFilters -> jsstr -> nat).

(** The results of a query are a fixed list, [L]; a cursor stands for a position in it,
    and a page is the part of the list from its position on, up to the position of the
    next cursor or to the end.  A request may also fail. *)
Definition pages (f : SearchFilters) (cursor : option jsstr) (out : SearchOutcome) : Prop :=
  match out with
  | search_failed _ => True
  | search_ok events next =>
      let rest := drop (match cursor with Some c => pos f c | None => 0 end) (L f) in
      match next with
      | None => events = rest
      | Some c => truthy c = true /\ events `prefix_of` rest /\
                  pos f c = match cursor with Some c => pos f c | None => 0 end + length events
      end
  end.

(** A state that shows results of [f]. *)
Record shows (f : SearchFilters) (s : State) : Prop := {
  sh_prefix : ss_events s `prefix_of` L f;
  sh_bound : length (ss_events s) <= MAX_SEARCH_RESULTS;
  sh_cursor c : ss_nextCursor s = Some c -> truthy c = true /\ pos f c = length (ss_events s) /\
                                         length (ss_events s) < MAX_SEARCH_RESULTS /\ ss_capped s = false;
  sh_busy : ss_status s = idle \/ ss_status s = loading \/ ss_status s = search_error -> ss_events s = [] /\ ss_nextCursor s = None;
  sh_end : ss_status s = success \/ ss_status s = loadingMore -> ss_nextCursor s = None ->
           ss_events s = take MAX_SEARCH_RESULTS (L f)
}.

(** What the state and the cursor will be when the updates are rendered. *)
Definition upcoming (h : search_hook) : State * option jsstr :=
  foldl (fun sc u => apply_update u sc) (sh_state h, sh_cursorRef h) (sh_updates h).

Definition waits (f : SearchFilters) (sc : State * option jsstr) (rq : request) : Prop :=
  rq_filters rq = f /\
  match rq_cursor rq with
  | None => ss_status sc.1 = loading
  | Some c => ss_status sc.1 = loadingMore /\ ss_nextCursor sc.1 = Some c /\ sc.2 = Some c
  end.

Record search_inv (f : SearchFilters) (h : search_hook) : Prop := {
  si_rendered : exists f, shows f (sh_state h);
  si_upcoming : shows f (upcoming h).1;
  si_last : sh_lastFilters h = Some f;
  si_quiet : sh_inFlight h = false -> (upcoming h).2 = ss_nextCursor (upcoming h).1 /\ ss_status (upcoming h).1 <> loadingMore;
  si_pending : sh_inFlight h = false -> sh_updates h <> [] -> ss_status (sh_state h) = loading \/ ss_status (sh_state h) = loadingMore;
  si_ids : Forall (fun rq => rq_id rq <= sh_reqId h) (sh_requests h);
  si_latest : Forall (fun rq => rq_id rq = sh_reqId h -> sh_inFlight h = true /\ waits f (upcoming h) rq) (sh_requests h)
}.

Lemma prefix_take_bounded (events l : list TailLogEvent) :
  events `prefix_of` l -> bounded events `prefix_of` l /\ length (bounded events) <= MAX_SEARCH_RESULTS.
Proof.
  unfold bounded. intros [k ->]. destruct (Nat.leb_spec MAX_SEARCH_RESULTS (length events)).
  - split; [|rewrite length_take; lia]. exists (drop MAX_SEARCH_RESULTS events ++ k). by rewrite app_assoc, take_drop.
  - split; [by eexists|lia].
Qed.

(** A page appended to what is shown. *)
Lemma page_shows f cursor before events next :
  before `prefix_of` L f -> match cursor with Some c => pos f c | None => 0 end = length before ->
  pages f cursor (search_ok events next) -> shows f (page_state (before ++ events) next).
Proof.
  intros [k Hk] Hpos Hp. unfold pages in Hp. rewrite Hpos, Hk, drop_app_length in Hp.
  assert (Hpre : before ++ events `prefix_of` L f).
  { rewrite Hk. apply prefix_app. destruct next; [by destruct Hp as (_ & ? & _)|by subst]. }
  destruct (prefix_take_bounded _ _ Hpre) as [Hb Hl]. split; cbn; try done.
  - intros c. unfold page_cursor, bounded. destruct (Nat.leb_spec MAX_SEARCH_RESULTS (length (before ++ events))); [done|].
    intros ->. destruct Hp as (Ht & _ & Hc). rewrite length_app in *. by rewrite Hc.
  - by intros [?|[?|?]].
  - intros _. unfold page_cursor, bounded. destruct (Nat.leb_spec MAX_SEARCH_RESULTS (length (before ++ events))) as [H1|H1].
    + intros _. destruct Hpre as [m ->]. symmetry. by apply take_app_le.
    + intros ->. subst events. rewrite Hk. symmetry. apply take_ge. lia.
Qed.

Lemma upcoming_snoc s us u i l c b rqs :
  upcoming (mkSearchHook s (us ++ [u]) i l c b rqs) = apply_update u (foldl (fun sc u => apply_update u sc) (s, c) us).
Proof. unfold upcoming. cbn. by rewrite foldl_app. Qed.

Lemma empty_shows f s :
  ss_events s = [] -> ss_nextCursor s = None -> ss_status s <> success -> ss_status s <> loadingMore -> shows f s.
Proof.
  intros He Hn H1 H2. split; rewrite ?He, ?Hn; try done.
  - apply prefix_nil.
  - cbn. lia.
  - by intros [?|?].
Qed.

Lemma upcoming_none h : sh_updates h = [] -> upcoming h = (sh_state h, sh_cursorRef h).
Proof. unfold upcoming. by intros ->. Qed.

(** *** Every step keeps the invariant *)

Lemma run_inv filters h :
  (exists f, shows f (sh_state h)) -> Forall (fun rq => rq_id rq <= sh_reqId h) (sh_requests h) ->
  search_inv filters (run filters h).
Proof.
  intros Hr Hi. unfold run.
  set (h' := mkSearchHook _ _ _ _ _ _ _).
  assert (E : ss_status (upcoming h').1 = loading /\ shows filters (upcoming h').1).
  { unfold h'. rewrite upcoming_snoc. destruct (foldl _ _ _). split; [done|by apply empty_shows]. }
  destruct E as [Es Ew]. split; try done; cbn [h' sh_requests sh_reqId].
  - apply Forall_app. split; [|by repeat constructor; cbn; lia]. eapply Forall_impl; [exact Hi|]. cbn. lia.
  - apply Forall_app. split; [eapply Forall_impl; [exact Hi|]; cbn; lia|]. by repeat constructor.
Qed.

Lemma loadMore_inv f h : load_more_enabled (sh_state h) = true -> search_inv f h -> search_inv f (loadMore h).
Proof.
  intros He Hinv. pose proof Hinv as [Hr Hu Hl Hq Hp Hi Ha]. unfold loadMore. rewrite Hl.
  destruct (sh_cursorRef h) as [c|] eqn:Ec; [|done]. destruct (truthy c) eqn:Et; cbn [negb orb]; [|done].
  destruct (sh_inFlight h) eqn:Ef; [done|]. destruct (decide (sh_updates h = [])) as [Eu|Eu].
  2: { exfalso. unfold load_more_enabled in He. destruct (Hp eq_refl Eu) as [E|E]; rewrite E in He; cbn in He; rewrite ?andb_false_r in He; done. }
  rewrite (upcoming_none h Eu) in *. destruct (Hq eq_refl) as [Hc Hn]. cbn [fst snd] in *. rewrite Ec in Hc.
  rewrite Eu. destruct Hu as [Hpre Hb Hcu Hbu He']. split; try done; unfold upcoming; cbn.
  - split; cbn; try done. by intros [?|[?|?]]. rewrite <-Hc. done.
  - apply Forall_app. split; [|by repeat constructor; cbn; lia]. eapply Forall_impl; [exact Hi|]. cbn. lia.
  - apply Forall_app. split.
    + eapply Forall_impl; [exact Hi|]. cbn. lia.
    + repeat constructor; cbn; done.
Qed.

Definition without (rq : request) (h : search_hook) : search_hook :=
  mkSearchHook (sh_state h) (sh_updates h) (sh_reqId h) (sh_lastFilters h) (sh_cursorRef h) (sh_inFlight h)
    (filter (fun r => rq_id r <> rq_id rq) (sh_requests h)).

Lemma filter_Forall (P : request -> Prop) rq rqs : Forall P rqs -> Forall P (filter (fun r => rq_id r <> rq_id rq) rqs).
Proof. rewrite !Forall_forall. intros HP r [_ Hr]%list_elem_of_filter. by apply HP. Qed.

Lemma without_inv f rq h : search_inv f h -> search_inv f (without rq h).
Proof. intros [Hr Hu Hl Hq Hp Hi Ha]. split; try done; by apply filter_Forall. Qed.

(** The answer to the latest request. *)
Lemma latest_inv f rq h u c :
  search_inv f h -> rq_id rq = sh_reqId h -> sh_updates h = [] ->
  ss_status (sh_state h) = loading \/ ss_status (sh_state h) = loadingMore ->
  let '(s', c') := apply_update u (sh_state h, c) in
  shows f s' -> c' = ss_nextCursor s' -> ss_status s' <> loadingMore ->
  search_inv f (mkSearchHook (sh_state h) (sh_updates h ++ [u]) (sh_reqId h) (sh_lastFilters h) c false
                  (filter (fun r => rq_id r <> rq_id rq) (sh_requests h))).
Proof.
  intros [Hr _ Hl _ _ Hi _] Eid Eu Hst. rewrite Eu.
  destruct (apply_update u (sh_state h, c)) as [s' c'] eqn:E. intros Hs -> Hn.
  split; try done; unfold upcoming; cbn [sh_state sh_cursorRef sh_updates sh_inFlight sh_requests sh_reqId app foldl]; rewrite ?E; try done.
  - by apply filter_Forall.
  - apply Forall_forall. intros r [Hne _]%list_elem_of_filter E'. by rewrite <-Eid in E'.
Qed.

Lemma answered_inv f rq out h :
  rq ∈ sh_requests h -> sh_updates h = [] -> pages (rq_filters rq) (rq_cursor rq) out ->
  search_inv f h -> search_inv f (answered rq out h).
Proof.
  intros Hin Eu Hp Hinv. unfold answered, first_page, further_page. cbn [sh_reqId sh_updates sh_state sh_cursorRef sh_requests sh_lastFilters].
  destruct (Nat.eqb_spec (rq_id rq) (sh_reqId h)) as [Eid|Eid]; cbn [negb].
  2: { destruct (rq_cursor rq); by apply without_inv. }
  pose proof Hinv as [_ Hu _ _ _ _ Ha]. rewrite Forall_forall in Ha. destruct (Ha rq Hin Eid) as [_ [Ef Hc]].
  rewrite (upcoming_none h Eu) in *. cbn [fst snd] in *. rewrite Ef in Hp.
  assert (Hst : ss_status (sh_state h) = loading \/ ss_status (sh_state h) = loadingMore).
  { destruct (rq_cursor rq); [by right; apply Hc|by left]. }
  destruct (rq_cursor rq) as [c|].
  - destruct Hc as (Es & En & Ec). destruct out as [events next|message].
    + apply (latest_inv f rq h (append_page events next) _ Hinv Eid Eu Hst); [|done|done].
      apply (page_shows f (Some c)); [apply Hu|by apply (sh_cursor _ _ Hu c En)|done].
    + apply (latest_inv f rq h (keep_pages message) _ Hinv Eid Eu Hst); [|by rewrite Ec, En|done].
      destruct Hu as [? ? ? _ He]. split; try done; cbn; [by intros [?|[?|?]]|]. intros _. apply He. by right.
  - destruct (sh_busy _ _ Hu (or_intror (or_introl Hc))) as [E1 E2]. destruct out as [events next|message].
    + apply (latest_inv f rq h (set_state _) _ Hinv Eid Eu Hst); [|done|done].
      apply (page_shows f None []); [apply prefix_nil|done|done].
    + apply (latest_inv f rq h (set_state _) _ Hinv Eid Eu Hst); [by apply empty_shows|done|done].
Qed.

Lemma render_inv f h : search_inv f h -> search_inv f (render h).
Proof.
  intros [Hr Hu Hl Hq Hp Hi Ha]. unfold render. fold (upcoming h). destruct (upcoming h) as [s c] eqn:E.
  split; try done. by exists f.
Qed.

Definition search_ok_hook (h : search_hook) : Prop := h = initial_search \/ exists f, search_inv f h.

Lemma search_step_ok h h' : search_step pages h h' -> search_ok_hook h -> search_ok_hook h'.
Proof.
  intros Hs [->|[f Hi]].
  - inversion Hs as [filters|h0 He|rq out h0 Hin|rq h0 Hin|]; subst; try (by apply not_elem_of_nil in Hin); [|done|by left].
    right. exists filters. apply run_inv; [exists filters; by apply empty_shows|constructor].
  - right. destruct Hs as [filters h|h He|rq out h Hin Hu Hp|rq h Hin|h].
    + exists filters. apply run_inv; apply Hi.
    + exists f. by apply loadMore_inv.
    + exists f. by apply answered_inv.
    + exists f. by apply without_inv.
    + exists f. by apply render_inv.
Qed.

Lemma search_reachable_ok h : search_reachable pages h -> search_ok_hook h.
Proof. apply rtc_ind_r; [by left|]. intros x y _ Hs. by apply search_step_ok. Qed.

(** ** Paging to the end *)

Section Press.
Context (search : SearchFilters -> option jsstr -> SearchOutcome).

(** The latest request is answered. *)
Definition respond (h : search_hook) : search_hook :=
  match last (sh_requests h) with
  | Some rq => answered rq (search (rq_filters rq) (rq_cursor rq)) h
  | None => h
  end.

Definition search_for (filters : SearchFilters) (h : search_hook) : search_hook := render (respond (render (run filters h))).

Definition press_once (h : search_hook) : search_hook := render (respond (render (loadMore h))).

(** "Load more", as long as there is a button, at most [n] times. *)
Fixpoint press (n : nat) (h : search_hook) : search_hook :=
  match n with
  | 0 => h
  | S n => if load_more_enabled (sh_state h) then press n (press_once h) else h
  end.

Context (Hok : forall f c, exists events next, search f c = search_ok events next /\ pages f c (search_ok events next) /\
                                             (is_Some next -> events <> [])).

Record settled (f : SearchFilters) (h : search_hook) : Prop := {
  sd_inv : search_inv f h;
  sd_updates : sh_updates h = [];
  sd_inFlight : sh_inFlight h = false;
  sd_status : ss_status (sh_state h) = success;
  sd_nonempty : is_Some (ss_nextCursor (sh_state h)) -> ss_events (sh_state h) <> []
}.

Lemma page_cursor_Some events next :
  is_Some (page_cursor events next) -> is_Some next /\ bounded events = events.
Proof. unfold page_cursor, bounded. destruct (_ <=? _); [by intros [? ?]|done]. Qed.

(** The latest request is answered and the answer rendered. *)
Lemma respond_settled f h rq :
  search_inv f h -> sh_updates h = [] -> last (sh_requests h) = Some rq -> rq_id rq = sh_reqId h ->
  settled f (render (respond h)) /\
  (is_Some (ss_nextCursor (sh_state (render (respond h)))) ->
   length (ss_events (sh_state h)) < length (ss_events (sh_state (render (respond h))))).
Proof.
  intros Hi Eu El Eid. assert (Hin : rq ∈ sh_requests h) by (by apply last_Some_elem_of).
  pose proof (si_latest _ _ Hi) as Hl. rewrite Forall_forall in Hl. destruct (Hl rq Hin Eid) as [_ [Ef Hw]].
  destruct (Hok (rq_filters rq) (rq_cursor rq)) as (events & next & Es & Hp & Hne).
  pose proof (render_inv _ _ (answered_inv f rq (search_ok events next) h Hin Eu Hp Hi)) as Ha.
  pose proof (si_upcoming _ _ Hi) as Hs. rewrite (upcoming_none h Eu) in Hs, Hw. cbn [fst snd] in Hs, Hw.
  set (h' := render (answered rq (search_ok events next) h)) in *.
  assert (Hr : sh_state h' = page_state (ss_events (sh_state h) ++ events) next /\ sh_updates h' = [] /\ sh_inFlight h' = false).
  { unfold h', answered, first_page, further_page, render. cbn [sh_reqId]. rewrite (proj2 (Nat.eqb_eq _ _) Eid). cbn [negb sh_updates].
    rewrite Eu. destruct (rq_cursor rq) as [c|]; [done|].
    by destruct (sh_busy _ _ Hs (or_intror (or_introl Hw))) as [-> _]. }
  replace (render (respond h)) with h' by (unfold respond; by rewrite El, Es).
  destruct Hr as (Hst & Hu & Hf).
  assert (Hg : is_Some (ss_nextCursor (sh_state h')) -> length (ss_events (sh_state h)) < length (ss_events (sh_state h'))).
  { rewrite Hst. cbn. intros [Hn ->]%page_cursor_Some. apply Hne in Hn. rewrite length_app. destruct events; [done|cbn; lia]. }
  split; [|done]. split; try done; [by rewrite Hst|]. intros Hc E. apply Hg in Hc. rewrite E in Hc. cbn in Hc. lia.
Qed.

Lemma search_for_settled filters h : search_ok_hook h -> settled filters (search_for filters h).
Proof.
  intros Hh. assert (Hi : search_inv filters (run filters h)).
  { destruct Hh as [->|[f Hf]]; apply run_inv; try apply Hf; [exists filters; by apply empty_shows|constructor]. }
  apply render_inv in Hi. unfold search_for.
  apply (respond_settled filters _ (mkSearchRequest (S (sh_reqId h)) filters None)); [done|..];
    unfold render, run; cbn; destruct (foldl _ _ _); cbn; [done|apply last_snoc|done].
Qed.

Lemma press_settled f h :
  settled f h -> load_more_enabled (sh_state h) = true ->
  settled f (press_once h) /\
  (is_Some (ss_nextCursor (sh_state (press_once h))) -> length (ss_events (sh_state h)) < length (ss_events (sh_state (press_once h)))).
Proof.
  intros Hd He. pose proof Hd as [Hi Eu Ef Es Hn].
  assert (Hc : exists c, ss_nextCursor (sh_state h) = Some c).
  { unfold load_more_enabled in He. destruct (ss_nextCursor (sh_state h)); [by eexists|]. by rewrite !andb_false_r in He. }
  destruct Hc as [c Hc]. pose proof (si_quiet _ _ Hi Ef) as [Hq _]. pose proof (si_upcoming _ _ Hi) as Hs.
  rewrite (upcoming_none h Eu) in Hq, Hs. cbn [fst snd] in Hq, Hs. destruct (sh_cursor _ _ Hs c Hc) as [Ht _].
  pose proof (render_inv _ _ (loadMore_inv f h He Hi)) as Hi'.
  assert (El : render (loadMore h) = mkSearchHook (mkState loadingMore (ss_events (sh_state h)) (Some c) None
      (ss_hasSearched (sh_state h)) (ss_capped (sh_state h))) [] (S (sh_reqId h)) (Some f) (Some c) true
      (sh_requests h ++ [mkSearchRequest (S (sh_reqId h)) f (Some c)])).
  { unfold loadMore. by rewrite (si_last _ _ Hi), Hq, Hc, Ht, Ef, Eu; cbn; rewrite Hc. }
  unfold press_once. rewrite El in *.
  exact (respond_settled f _ (mkSearchRequest (S (sh_reqId h)) f (Some c)) Hi' eq_refl (last_snoc _ _) eq_refl).
Qed.

(** There is a button exactly when there is a cursor. *)
Lemma settled_button f h :
  settled f h ->
  if load_more_enabled (sh_state h) then length (ss_events (sh_state h)) < MAX_SEARCH_RESULTS
  else ss_nextCursor (sh_state h) = None.
Proof.
  intros [Hi Eu _ Es Hn]. unfold load_more_enabled. rewrite Es. cbn [andb].
  pose proof (si_upcoming _ _ Hi) as Hs. rewrite (upcoming_none h Eu) in Hs. cbn [fst] in Hs.
  destruct (ss_nextCursor (sh_state h)) as [c|] eqn:Ec; [|by rewrite !andb_false_r].
  destruct (sh_cursor _ _ Hs c Ec) as (_ & _ & Hl & ->).
  destruct (ss_events (sh_state h)); [|done]. destruct Hn; [by eexists|done].
Qed.

Lemma press_done f n h :
  settled f h -> MAX_SEARCH_RESULTS <= n + length (ss_events (sh_state h)) ->
  settled f (press n h) /\ load_more_enabled (sh_state (press n h)) = false.
Proof.
  revert h. induction n as [|n IH]; intros h Hd Hn; cbn [press]; pose proof (settled_button f h Hd) as Hb;
    destruct (load_more_enabled (sh_state h)) eqn:He; try done; [lia|].
  destruct (press_settled f h Hd He) as [Hd' Hg]. pose proof (settled_button f _ Hd') as Hb'.
  destruct (load_more_enabled (sh_state (press_once h))) eqn:He'.
  - apply IH; [done|]. apply Nat.lt_le_incl in Hb'. assert (Hc : is_Some (ss_nextCursor (sh_state (press_once h)))).
    { unfold load_more_enabled in He'. destruct (ss_nextCursor _); [by eexists|]. by rewrite !andb_false_r in He'. }
    apply Hg in Hc. lia.
  - replace (press n (press_once h)) with (press_once h) by (destruct n; cbn; by rewrite ?He'). done.
Qed.

Lemma settled_complete f h :
  settled f h -> load_more_enabled (sh_state h) = false -> ss_events (sh_state h) = take MAX_SEARCH_RESULTS (L f).
Proof.
  intros Hd He. pose proof (settled_button f h Hd) as Hb. rewrite He in Hb. destruct Hd as [Hi Eu _ Es _].
  pose proof (si_upcoming _ _ Hi) as Hs. rewrite (upcoming_none h Eu) in Hs. apply (sh_end _ _ Hs); [by left|done].
Qed.

End Press.

(** ** The theorems *)

(** The result list is never torn.  Whatever the user does and however answers
    arrive, fail or get lost, what is shown is a prefix of the results of one query, the
    one last run once everything is rendered; it has no more than 1000 entries, the
    cursor for "Load more" stands where the list ends, and without a cursor the list is
    complete up to the 1000. *)
Theorem search_results_exact h (Hr : search_reachable pages h) :
  exists f, let s := sh_state h in
    (sh_updates h = [] -> sh_lastFilters h = Some f \/ s = INITIAL) /\
    ss_events s `prefix_of` L f /\ length (ss_events s) <= MAX_SEARCH_RESULTS /\
    (forall c, ss_nextCursor s = Some c -> pos f c = length (ss_events s)) /\
    (ss_status s = success -> ss_nextCursor s = None -> ss_events s = take MAX_SEARCH_RESULTS (L f)).
Proof.
  destruct (search_reachable_ok h Hr) as [->|[f Hi]].
  - exists EMPTY_SEARCH_FILTERS. split_and!; try done; [by right|apply prefix_nil|cbn; lia].
  - assert (Hs : exists f', (sh_updates h = [] -> f' = f) /\ shows f' (sh_state h)).
    { destruct (decide (sh_updates h = [])) as [Eu|Eu].
      - exists f. split; [done|]. pose proof (si_upcoming _ _ Hi) as Hs. by rewrite (upcoming_none h Eu) in Hs.
      - destruct (si_rendered _ _ Hi) as [f' Hs]. by exists f'. }
    destruct Hs as (f' & Hf & [Hp Hb Hc _ He]). exists f'. split_and!; try done.
    + intros Eu. left. rewrite (Hf Eu). apply Hi.
    + intros c Ec. by apply (Hc c Ec).
    + intros Es. apply He. by left.
Qed.

(** C37. Paging ends.  With a service that answers every request and sends no empty page
    but the last, pressing "Load more" as long as there is a button stops within 1000
    presses, and then the list has all the results up to the 1000. *)
Theorem paging_finishes search filters h
    (Hok : forall f c, exists events next, search f c = search_ok events next /\
             pages f c (search_ok events next) /\ (is_Some next -> events <> []))
    (Hr : search_reachable pages h) :
  let h' := press search MAX_SEARCH_RESULTS (search_for search filters h) in
  load_more_enabled (sh_state h') = false /\ ss_status (sh_state h') = success /\
  ss_events (sh_state h') = take MAX_SEARCH_RESULTS (L filters).
Proof.
  pose proof (search_for_settled search Hok filters h (search_reachable_ok h Hr)) as Hd.
  destruct (press_done search Hok filters MAX_SEARCH_RESULTS _ Hd) as [Hd' He]; [lia|].
  cbv zeta. split; [done|]. split; [apply Hd'|]. by apply settled_complete.
Qed.

End Paged.

(** An executor that rejects leaves the surface loading: nothing but a new search gets
    it out of that state. *)
Example lost_answer_hangs answers f h' :
  let h := rejected (mkSearchRequest 1 f None) (render (run f initial_search)) in
  search_step answers h h' -> ss_status (sh_state h) = loading /\ (h' = h \/ exists f', h' = run f' h).
Proof.
  intros h Hs. split; [done|]. inversion Hs as [f'| |? ? ? Hin|? ? Hin|]; subst.
  - right. by exists f'.
  - by left.
  - by apply not_elem_of_nil in Hin.
  - by apply not_elem_of_nil in Hin.
  - by left.
Qed.

(** ** Witnesses *)

(** Three results, two to a page. *)
Definition demo_hit : TailLogEvent := mkTailLogEvent [] [] None (js "api") (js "info") (js "hello") [] None None.

Definition demo_results : SearchFilters -> list TailLogEvent := fun _ => replicate 3 demo_hit.

Definition demo_pos : SearchFilters -> jsstr -> nat := fun _ _ => 2.

Definition demo_search (f : SearchFilters) (cursor : option jsstr) : SearchOutcome :=
  match cursor with
  | None => search_ok (replicate 2 demo_hit) (Some (js "c"))
  | Some _ => search_ok [demo_hit] None
  end.

Lemma demo_search_pages f c : exists events next, demo_search f c = search_ok events next /\
  pages demo_results demo_pos f c (search_ok events next) /\ (is_Some next -> events <> []).
Proof.
  destruct c as [c|]; eexists _, _; (split; [reflexivity|]).
  - split; [done|]. by intros [? ?].
  - split; [|done]. split; [done|]. split; [by exists [demo_hit]|done].
Qed.

Definition demo_first_page : search_hook :=
  render (answered (mkSearchRequest 1 EMPTY_SEARCH_FILTERS None) (demo_search EMPTY_SEARCH_FILTERS None)
            (render (run EMPTY_SEARCH_FILTERS initial_search))).

Lemma demo_first_page_reachable : search_reachable (pages demo_results demo_pos) demo_first_page.
Proof.
  eapply rtc_l; [apply (step_run _ EMPTY_SEARCH_FILTERS)|]. eapply rtc_l; [apply step_render|].
  eapply rtc_l; [|eapply rtc_l; [apply step_render|apply rtc_refl]].
  apply step_answered; [apply list_elem_of_here|done|].
  destruct (demo_search_pages EMPTY_SEARCH_FILTERS None) as (? & ? & [= <- <-] & Hp & _). exact Hp.
Qed.

Lemma search_results_exact_witness : ss_events (sh_state demo_first_page) `prefix_of` replicate 3 demo_hit.
Proof.
  destruct (search_results_exact demo_results demo_pos demo_first_page demo_first_page_reachable) as (f & _ & Hp & _).
  exact Hp.
Defined.

Lemma paging_finishes_witness :
  ss_events (sh_state (press demo_search MAX_SEARCH_RESULTS (search_for demo_search EMPTY_SEARCH_FILTERS demo_first_page)))
  = replicate 3 demo_hit.
Proof.
  destruct (paging_finishes demo_results demo_pos demo_search EMPTY_SEARCH_FILTERS demo_first_page demo_search_pages
    demo_first_page_reachable) as (_ & _ & He).
  exact He.
Defined.

End UseLogSearch.
