(* ===== verification/Relays.v ===== *)
(** * Search through the web application

    [server/search.ts]: the relay from the search surface to the query service, and the
    pieces it shares with the panel-data relay.  The theorem is about the request that
    the query service gets. *)

From stdpp Require Import base list option numbers strings gmap.
From S2P Require Import Prelude Errors Tokens Text Rbac Email Entities Ports AuthService Services Google Zod Contracts Wire.
From S2P Require Import Requests Json Utf8 TailEvent WebSession Bff WebUrl BffOidc WebGoogle LogSearch.
Open Scope zod_scope.

Definition login_path : jsstr := js "/login".

(** ** The query service *)

(** GET of a path with its query string and an [Authorization] header. *)
Class QueryApi (W : Type) := {
  query_get : jsstr -> jsstr -> W -> option FetchResponse * W
}.

(** [const raw = await res.text().catch(() => '')] and [JSON.parse(raw)]: [None] when
    the text is not JSON. *)
Definition response_body (res : FetchResponse) : option (option json) :=
  let raw := default [] (fr_text res) in
  if truthy raw then Some <$> JSON_parse raw else Some None.

(** [typeof body?.message === 'string' && body.message.trim() !== '' ? body.message : other]. *)
Definition own_message (body : option json) (other : jsstr) : jsstr :=
  match body_string body (js "message") with
  | Some m => if truthy (trim m) then m else other
  | None => other
  end.

Inductive UpstreamOutcome (A : Type) :=
| upstream_ok (a : A)
| upstream_failed (status : Z) (message : jsstr).
Arguments upstream_ok {A} _.
Arguments upstream_failed {A} _ _.

Section Query.
Context {W : Type} `{QueryApi W, Zod, Dates}.

Definition search_unavailable : jsstr := js "Search is temporarily unavailable.".

Definition searchUpstream (token : option jsstr) (filters : SearchFilters) (cursor : option jsstr)
    : web W (UpstreamOutcome SearchResult) :=
  match usable token with
  | None => mret (upstream_failed 401 (js "Your session has ended."))
  | Some token =>
      let qs := buildSearchParams filters cursor (Some SEARCH_PAGE_LIMIT) in
      fun '(w, r) =>
        match query_get (js "/v1/search?" ++ urlSearchParams qs) (js "Bearer " ++ token) w with
        | (None, w') => (Ok (upstream_failed 502 search_unavailable), (w', r))
        | (Some res, w') =>
            (Ok match response_body res with
                | None => upstream_failed (if res_ok res then 502 else fr_status res) search_unavailable
                | Some body =>
                    if negb (res_ok res) then
                      if bool_decide (fr_status res = 400%Z) then
                        upstream_failed 400 (own_message body (js "Your search filters are invalid. Please adjust them."))
                      else if bool_decide (fr_status res = 401%Z) then
                        upstream_failed 401 (js "Your session has ended.")
                      else upstream_failed (fr_status res) search_unavailable
                    else
                      match parsed searchResponseSchema body with
                      | Some result => upstream_ok result
                      | None => upstream_failed 502 search_unavailable
                      end
                end, (w', r))
        end
  end.

(** [z.union([levelSchema, z.literal('')])]. *)
Definition searchInputSchema : schema (SearchFilters * option jsstr) :=
  ZView (fun '(filters, (cursor, _)) => (filters, cursor))
    (ZObject strip
       ("filters" ~> ZView (fun '(text, (service, (level, (labels, (from, (to, _)))))) =>
                              mkSearchFilters text service level labels from to)
          (ZObject strip
             ("text" ~> ZString [] ;; "service" ~> ZString [] ;;
              "level" ~> ZUnion logLevelSchema (enum_of [[]]) ;; "labels" ~> ZArray [] (ZString []) ;;
              "from" ~> ZString [] ;; "to" ~> ZString [] ;; FEnd)) ;;
        "cursor" ~> ZOptional (ZString []) ;; FEnd)).

Definition search_handler (cookies : jar) (data : SearchFilters * option jsstr) : web W SearchOutcome :=
  match usable (getCookie cookies ACCESS_COOKIE) with
  | None => raise (RedirectTo login_path)
  | Some token =>
      out ← searchUpstream (Some token) data.1 data.2;
      match out with
      | upstream_ok result => mret (search_ok (sr_events result) (sr_nextCursor result))
      | upstream_failed status message =>
          if bool_decide (status = 401%Z) then raise (RedirectTo login_path) else mret (search_failed message)
      end
  end.

Definition searchFn (cookies : jar) : option json -> web W SearchOutcome := validated searchInputSchema (search_handler cookies).

Definition search_input (filters : SearchFilters) (cursor : option jsstr) : json :=
  JObj ([(js "filters", JObj [(js "text", JStr (sf_text filters)); (js "service", JStr (sf_service filters));
           (js "level", JStr (sf_level filters)); (js "labels", JArr (JStr <$> sf_labels filters));
           (js "from", JStr (sf_from filters)); (js "to", JStr (sf_to filters))])]
        ++ if_defined (js "cursor") JStr cursor).

Definition defaultSearchExecutor (cookies : jar) (filters : SearchFilters) (cursor : option jsstr) : web W SearchOutcome :=
  searchFn cookies (Some (search_input filters cursor)).

End Query.

(** * Lemmas *)

Lemma param_set_new name value p : name ∉ p.*1 -> param_set name value p = p ++ [(name, value)].
Proof.
  induction p as [|[k v] p IH]; [done|]. cbn [fmap list_fmap fst param_set]. rewrite not_elem_of_cons. intros [Hk Hp].
  rewrite bool_decide_eq_false_2 by done. by rewrite IH.
Qed.

(** A parameter that is there when its value is not empty. *)
Definition given (name value : jsstr) : list (jsstr * jsstr) := if truthy value then [(name, value)] else [].

Lemma set_filter_new name value p : name ∉ p.*1 -> set_filter name value p = p ++ given name value.
Proof. intros Hn. unfold set_filter, given. destruct (truthy value); [by apply param_set_new|by rewrite app_nil_r]. Qed.

Lemma given_names name value k : k ∈ (given name value).*1 -> k = name.
Proof. unfold given. destruct (truthy value); cbn; [by intros ?%list_elem_of_singleton|by intros ?%not_elem_of_nil]. Qed.

Section Request.
Context `{Dates}.

(** What a search asks for. *)
Definition search_params (f : SearchFilters) (cursor : option jsstr) (limit : Z) : list (jsstr * jsstr) :=
  given (js "q") (trim (sf_text f)) ++ given (js "service") (trim (sf_service f)) ++ given (js "level") (sf_level f)
  ++ given (js "from") (toRfc3339 (sf_from f)) ++ given (js "to") (toRfc3339 (sf_to f))
  ++ (pair (js "label") <$> filter (fun l => truthy l = true) (trim <$> sf_labels f))
  ++ [(js "limit", print_int limit)] ++ given (js "cursor") (default [] cursor).

Lemma labels_appended labels p :
  foldl (fun p raw => let label := trim raw in if truthy label then param_append (js "label") label p else p) p labels
  = p ++ (pair (js "label") <$> filter (fun l => truthy l = true) (trim <$> labels)).
Proof.
  revert p. induction labels as [|l labels IH]; intros p; cbn [foldl fmap list_fmap]; [by rewrite app_nil_r|].
  rewrite IH. destruct (truthy (trim l)) eqn:E.
  - rewrite filter_cons_True by done. unfold param_append. by rewrite <-app_assoc.
  - rewrite filter_cons_False by (by rewrite E). done.
Qed.

Definition named (names : list jsstr) (p : list (jsstr * jsstr)) : Prop := Forall (fun kv => kv.1 ∈ names) p.

Lemma named_app names p q : named names p -> named names q -> named names (p ++ q).
Proof. intros. by apply Forall_app. Qed.

Lemma named_given names name value : name ∈ names -> named names (given name value).
Proof. intros Hn. unfold given. destruct (truthy value); by repeat constructor. Qed.

Lemma named_new names name p : named names p -> bool_decide (name ∈ names) = false -> name ∉ p.*1.
Proof.
  intros Hp Hn%bool_decide_eq_false Hin. apply list_elem_of_fmap in Hin as (kv & -> & Hkv).
  apply Hn. unfold named in Hp. rewrite Forall_forall in Hp. by apply Hp.
Qed.

Definition NAMES : list jsstr := [js "q"; js "service"; js "level"; js "from"; js "to"; js "label"; js "limit"].

(** The names are set in turn, each for the first time. *)
Lemma buildSearchParams_exact f cursor limit : buildSearchParams f cursor (Some limit) = search_params f cursor limit.
Proof.
  assert (Hl : forall p, named (take 5 NAMES) p ->
    named (take 6 NAMES) (p ++ (pair (js "label") <$> filter (fun l => truthy l = true) (trim <$> sf_labels f)))).
  { intros p Hp. apply named_app; [eapply Forall_impl; [exact Hp|]; intros ? ?; by apply (elem_of_app (take 5 NAMES)); left|].
    apply Forall_fmap, Forall_true. intros l. cbn. set_solver. }
  assert (Hg : forall n name v p, named (take n NAMES) p -> NAMES !! n = Some name ->
    set_filter name v p = p ++ given name v /\ named (take (S n) NAMES) (p ++ given name v)).
  { intros n name v p Hp Hn. assert (Hnew : bool_decide (name ∈ take n NAMES) = false).
    { do 7 (destruct n as [|n]; [by injection Hn as <-; vm_compute|]). done. }
    split; [by eapply set_filter_new, named_new|]. rewrite (take_S_r _ _ _ Hn).
    apply named_app; [eapply Forall_impl; [exact Hp|]; set_solver|apply named_given; set_solver]. }
  unfold buildSearchParams, search_params.
  destruct (Hg 0 (js "q") (trim (sf_text f)) [] (Forall_nil_2 _) eq_refl) as [-> H1].
  destruct (Hg 1 (js "service") (trim (sf_service f)) _ H1 eq_refl) as [-> H2].
  destruct (Hg 2 (js "level") (sf_level f) _ H2 eq_refl) as [-> H3].
  destruct (Hg 3 (js "from") (toRfc3339 (sf_from f)) _ H3 eq_refl) as [-> H4].
  destruct (Hg 4 (js "to") (toRfc3339 (sf_to f)) _ H4 eq_refl) as [-> H5].
  rewrite labels_appended. pose proof (Hl _ H5) as H6.
  rewrite param_set_new by (by eapply named_new; [exact H6|vm_compute]).
  assert (H7 : named NAMES ((((((([] ++ given (js "q") (trim (sf_text f))) ++ given (js "service") (trim (sf_service f)))
    ++ given (js "level") (sf_level f)) ++ given (js "from") (toRfc3339 (sf_from f))) ++ given (js "to") (toRfc3339 (sf_to f)))
    ++ (pair (js "label") <$> filter (fun l => truthy l = true) (trim <$> sf_labels f))) ++ [(js "limit", print_int limit)])).
  { apply named_app; [eapply Forall_impl; [exact H6|]; intros ? ?; by apply (elem_of_app (take 6 NAMES)); left|].
    repeat constructor. }
  destruct cursor as [c|]; cbn [default from_option id].
  - rewrite set_filter_new by (by eapply named_new; [exact H7|vm_compute]). by rewrite <-!app_assoc.
  - by rewrite <-!app_assoc, ?app_nil_r.
Qed.

Lemma search_names_wf f cursor limit : Forall (fun kv => well_formed kv.1) (search_params f cursor limit).
Proof.
  assert (Hg : forall name value, Forall (fun kv => well_formed kv.1) (given (js name) value)).
  { intros name value. unfold given. destruct (truthy value); repeat constructor. apply js_wf. }
  unfold search_params. repeat (apply Forall_app; split); try apply Hg.
  - apply Forall_fmap, Forall_true. intros l. apply js_wf.
  - by repeat constructor.
Qed.

End Request.

(** The hook's arguments are what the handler gets. *)
Lemma search_input_parsed `{ZodLaws} f cursor :
  sf_level f ∈ [] :: LOG_LEVELS -> parsed searchInputSchema (Some (search_input f cursor)) = Some (f, cursor).
Proof.
  intros Hlv. assert (Hlevel : parsed (ZUnion logLevelSchema (enum_of [[]])) (Some (JStr (sf_level f))) = Some (sf_level f)).
  { rewrite parsed_union. unfold logLevelSchema, enum_of. rewrite !parsed_enum.
    repeat (apply elem_of_cons in Hlv as [->|Hlv]; [by vm_compute|]). by apply not_elem_of_nil in Hlv. }
  assert (Hlabels : parsed (ZArray [] (ZString [])) (Some (JArr (JStr <$> sf_labels f))) = Some (sf_labels f)).
  { rewrite parsed_array. assert (E : mapM (fun j => parsed (ZString []) (Some j)) (JStr <$> sf_labels f) = Some (sf_labels f)).
    { apply mapM_Some_2. rewrite Forall2_fmap_l. induction (sf_labels f); constructor; [apply parsed_text|done]. }
    by rewrite E. }
  unfold searchInputSchema, search_input. rewrite parsed_view.
  assert (Hf : parsed (ZView (fun '(text, (service, (level, (labels, (from, (to, _)))))) => mkSearchFilters text service level labels from to)
      (ZObject strip ("text" ~> ZString [] ;; "service" ~> ZString [] ;; "level" ~> ZUnion logLevelSchema (enum_of [[]]) ;;
        "labels" ~> ZArray [] (ZString []) ;; "from" ~> ZString [] ;; "to" ~> ZString [] ;; FEnd)))
      (Some (JObj [(js "text", JStr (sf_text f)); (js "service", JStr (sf_service f)); (js "level", JStr (sf_level f));
        (js "labels", JArr (JStr <$> sf_labels f)); (js "from", JStr (sf_from f)); (js "to", JStr (sf_to f))])) = Some f).
  { rewrite parsed_view. erewrite (object_complete strip); cycle 1; [by repeat constructor|done| |].
    - repeat (apply parsed_fields_cons; [first [exact Hlevel|exact Hlabels|apply parsed_text]|]). reflexivity.
    - by destruct f. }
  destruct cursor as [c|]; (erewrite (object_complete strip); cycle 1; [by repeat constructor|done| |]).
  - apply parsed_fields_cons; [exact Hf|]. apply parsed_fields_cons; [|reflexivity]. rewrite parsed_optional.
    change (get _ _) with (Some (JStr c)). by rewrite parsed_text.
  - reflexivity.
  - apply parsed_fields_cons; [exact Hf|]. apply parsed_fields_cons; [by rewrite parsed_optional|reflexivity].
  - reflexivity.
Qed.

(** * The theorem *)

(** A search is sent as it was entered.  A page's request makes one request of the
    query service, as the user of the access cookie; its query string reads back as the
    filters that are not empty, trimmed, one "label" for each label, the page size and
    the cursor as it was given. *)
Theorem search_request_exact {W} `{QueryApi W, ZodLaws, Dates} cookies f cursor token (w : W) r
    (Hc : cookies !! ACCESS_COOKIE = Some token) (Hne : token <> []) (Hlv : sf_level f ∈ [] :: LOG_LEVELS)
    (Hwf : Forall (fun kv => well_formed kv.2) (search_params f cursor SEARCH_PAGE_LIMIT)) :
  exists url out,
    defaultSearchExecutor cookies f cursor (w, r) = (out, ((query_get url (js "Bearer " ++ token) w).2, r)) /\
    searchParams url = search_params f cursor SEARCH_PAGE_LIMIT.
Proof.
  set (qs := urlSearchParams (search_params f cursor SEARCH_PAGE_LIMIT)).
  exists (js "/v1/search?" ++ qs).
  unfold defaultSearchExecutor, searchFn, validated. rewrite (search_input_parsed f cursor Hlv).
  unfold search_handler, getCookie. rewrite Hc, (proj2 (usable_Some (Some token) token) (conj eq_refl Hne)), web_bind_run.
  cbn [fst snd]. unfold searchUpstream. rewrite (proj2 (usable_Some (Some token) token) (conj eq_refl Hne)), buildSearchParams_exact.
  fold qs. set (url := js "/v1/search?" ++ qs).
  assert (Hs : searchParams url = search_params f cursor SEARCH_PAGE_LIMIT).
  { apply (searchParams_round_trip (js "/v1/search")); [apply (bool_decide_unpack _); by vm_compute..|].
    pose proof (search_names_wf f cursor SEARCH_PAGE_LIMIT) as Hn. rewrite Forall_forall in Hn, Hwf. apply Forall_forall.
    intros kv Hin. split; [by apply Hn|by apply Hwf]. }
  destruct (query_get url (js "Bearer " ++ token) w) as [[res|] w'].
  - destruct (match response_body res with Some _ => _ | None => _ end) as [result|status message]; [by eexists|].
    destruct (bool_decide _); by eexists.
  - by eexists.
Qed.

(** ** Witness *)

Definition token_jar : jar := {[ ACCESS_COOKIE := js "tok" ]}.

Definition silent_api : QueryApi unit := {| query_get := fun _ _ w => (None, w) |}.

Definition no_dates : Dates := {| Date_parse := fun _ => None |}.

Definition demo_filters : SearchFilters :=
  mkSearchFilters (js " oops ") [] (js "error") [js "env=prod"; js " "] [] [].

Lemma search_request_exact_witness : exists url,
  searchParams url = [(js "q", js "oops"); (js "level", js "error"); (js "label", js "env=prod"); (js "limit", js "100");
                      (js "cursor", js "c")].
Proof.
  destruct (@search_request_exact unit silent_api demo_formats demo_zod demo_zod_laws no_dates
    token_jar demo_filters (Some (js "c")) (js "tok") tt no_reply eq_refl) as (url & out & _ & Hs).
  - discriminate.
  - apply (bool_decide_unpack _). by vm_compute.
  - repeat constructor; apply wf_plain; vm_compute; repeat constructor.
  - exists url. rewrite Hs. vm_compute. reflexivity.
Defined.
