(* ===== verification/Panels.v ===== *)
(** * Dashboard panels

    [features/dashboards/] of the web application, without its components: the request
    and the response of a panel, the dense series the chart draws ([panel-data.ts]), the
    hook that loads it ([use-panel-data.ts]) and the edits of a layout ([types.ts]); and
    [server/panel-data.ts], the relay to the query service.  Numbers are doubles. *)

From stdpp Require Import base list option numbers strings gmap sorting relations.
From S2P Require Import Prelude Errors Tokens Text Rbac Email Entities Zod Contracts Json TailEvent WebSession Bff LogSearch.
From S2P Require Import Relays.
Open Scope zod_scope.

(** ** Doubles *)

(** The double nearest to [n / d], for [0 < d]; integers up to 2^53 are exact. *)
Definition rounded (n d : Z) : jsnum :=
  if (n mod d =? 0)%Z && (Z.abs (n / d) <=? 2 ^ 53)%Z then mkNum (n / d) 0
  else if (n <? 0)%Z then negate (nearest (- n) d) else nearest n d.

Definition numerator (a : jsnum) : Z := (jn_mant a * 2 ^ Z.max (jn_exp a) 0)%Z.
Definition denominator (a : jsnum) : Z := (2 ^ Z.max (- jn_exp a) 0)%Z.

Definition num_add (a b : jsnum) : jsnum :=
  rounded (numerator a * denominator b + numerator b * denominator a) (denominator a * denominator b).

Definition num_mul (a b : jsnum) : jsnum := rounded (numerator a * numerator b) (denominator a * denominator b).

Definition num_sub (a b : jsnum) : jsnum := num_add a (negate b).

(** [a / b] for [0 < b]. *)
Definition num_div (a b : jsnum) : jsnum := rounded (numerator a * denominator b) (denominator a * numerator b).

Definition num_lt (a b : jsnum) : bool := (numerator a * denominator b <? numerator b * denominator a)%Z.

(** [Math.round], and the truncation of [new Date(n)]. *)
Definition num_round (a : jsnum) : Z := ((2 * numerator a + denominator a) / (2 * denominator a))%Z.
Definition num_trunc (a : jsnum) : Z := Z.quot (numerator a) (denominator a).

Definition int_num (z : Z) : jsnum := mkNum z 0.

(** ** Requests *)

Record PanelBucket := mkPanelBucket { pb_bucketStart : jsstr; pb_count : jsnum }.

Record PanelDataResult := mkPanelDataResult {
  pd_totalCount : jsnum;
  pd_buckets : list PanelBucket;
  pd_recentLogs : list TailLogEvent
}.

Definition countSchema : schema jsnum := ZView int_num (int_of [NMin 0]).

Definition panelDataResponseSchema : schema PanelDataResult :=
  ZView (fun '(total, (buckets, (logs, _))) => mkPanelDataResult total buckets logs)
    (ZObject strip
       ("totalCount" ~> countSchema ;;
        "buckets" ~> ZArray [] (ZView (fun '(start, (count, _)) => mkPanelBucket start count)
                                  (ZObject strip ("bucketStart" ~> ZString [] ;; "count" ~> countSchema ;; FEnd))) ;;
        "recentLogs" ~> ZArray [] tailLogEventSchema ;; FEnd)).

Definition MAX_PANEL_BUCKETS : Z := 100.

(** For a finite number. *)
Definition clampBuckets (n : jsnum) : Z :=
  if negb (num_lt (int_num 0) n) then 1%Z else Z.min MAX_PANEL_BUCKETS (num_round n).

Record PanelDataParamsInput := mkPanelDataParamsInput {
  pi_savedQueryId : jsstr;
  pi_from : option jsstr;
  pi_to : option jsstr;
  pi_buckets : option jsnum
}.

Section Requests.
Context `{Dates}.

Definition buildPanelDataParams (input : PanelDataParamsInput) : list (jsstr * jsstr) :=
  let p := param_set (js "savedQueryId") (pi_savedQueryId input) [] in
  let p := match pi_from input with Some v => set_filter (js "from") (toRfc3339 v) p | None => p end in
  let p := match pi_to input with Some v => set_filter (js "to") (toRfc3339 v) p | None => p end in
  match pi_buckets input with
  | Some n => param_set (js "buckets") (print_int (clampBuckets n)) p
  | None => p
  end.

(** ** The dense series *)

(** [sort((a, b) => a.ms - b.ms)]: stable. *)
Fixpoint insert_ms (x : Z * jsnum) (l : list (Z * jsnum)) : list (Z * jsnum) :=
  match l with
  | [] => [x]
  | y :: l' => if (x.1 <=? y.1)%Z then x :: l else y :: insert_ms x l'
  end.

Definition sort_ms (l : list (Z * jsnum)) : list (Z * jsnum) := foldr insert_ms [] l.

(** The [while] loop: the count, and what the cursor has not passed. *)
Fixpoint fill_slot (slotStart slotEnd count : jsnum) (l : list (Z * jsnum)) : jsnum * list (Z * jsnum) :=
  match l with
  | [] => (count, [])
  | (ms, c) :: l' =>
      if num_lt (int_num ms) slotEnd then
        fill_slot slotStart slotEnd (if negb (num_lt (int_num ms) slotStart) then num_add count c else count) l'
      else (count, l)
  end.

(** The [for] loop, from the slot [i] on, for [k] more slots. *)
Fixpoint fill_slots (fromMs : Z) (size : jsnum) (k : nat) (i : Z) (l : list (Z * jsnum)) : list PanelBucket :=
  match k with
  | 0 => []
  | S k =>
      let slotStart := num_add (int_num fromMs) (num_mul (int_num i) size) in
      let slotEnd := num_add slotStart size in
      let '(count, l') := fill_slot slotStart slotEnd (int_num 0) l in
      mkPanelBucket (toISOString (num_trunc slotStart)) count :: fill_slots fromMs size k (i + 1) l'
  end.

Definition timed (b : PanelBucket) : option (Z * jsnum) := ms ← Date_parse (pb_bucketStart b); Some (ms, pb_count b).

(** For an integer [n]. *)
Definition gapFillBuckets (buckets : list PanelBucket) (from to : jsstr) (n : Z) : list PanelBucket :=
  if (n <=? 0)%Z then []
  else
    match Date_parse from, Date_parse to with
    | Some fromMs, Some toMs =>
        if (toMs <=? fromMs)%Z then []
        else
          let size := num_div (num_sub (int_num toMs) (int_num fromMs)) (int_num n) in
          fill_slots fromMs size (Z.to_nat n) 0 (sort_ms (omap timed buckets))
    | _, _ => []
    end.

End Requests.

(** ** The relay *)

Section Relay.
Context {W : Type} `{QueryApi W, Zod, Dates}.

Definition panel_unavailable : jsstr := js "Panel data is temporarily unavailable.".

Definition panelDataUpstream (token : option jsstr) (params : PanelDataParamsInput)
    : web W (UpstreamOutcome PanelDataResult) :=
  match usable token with
  | None => mret (upstream_failed 401 (js "Your session has ended."))
  | Some token =>
      let qs := buildPanelDataParams params in
      fun '(w, r) =>
        match query_get (js "/v1/panel-data?" ++ urlSearchParams qs) (js "Bearer " ++ token) w with
        | (None, w') => (Ok (upstream_failed 502 panel_unavailable), (w', r))
        | (Some res, w') =>
            (Ok match response_body res with
                | None => upstream_failed (if res_ok res then 502 else fr_status res) panel_unavailable
                | Some body =>
                    if negb (res_ok res) then
                      if bool_decide (fr_status res = 400%Z) then
                        upstream_failed 400 (own_message body (js "This panel query is invalid."))
                      else if bool_decide (fr_status res = 401%Z) then
                        upstream_failed 401 (js "Your session has ended.")
                      else if bool_decide (fr_status res = 404%Z) then upstream_failed 404 (js "panel query not found")
                      else upstream_failed (fr_status res) panel_unavailable
                    else
                      match parsed panelDataResponseSchema body with
                      | Some data => upstream_ok data
                      | None => upstream_failed 502 panel_unavailable
                      end
                end, (w', r))
        end
  end.

Inductive PanelDataOutcome := panel_ok (data : PanelDataResult) | panel_failed (message : jsstr).

Definition panelDataInputSchema : schema PanelDataParamsInput :=
  ZView (fun '(id, (from, (to, (buckets, _)))) => mkPanelDataParamsInput id from to (int_num <$> buckets))
    (ZObject strip
       ("savedQueryId" ~> uuidSchema ;; "from" ~> ZOptional (ZString []) ;; "to" ~> ZOptional (ZString []) ;;
        "buckets" ~> ZOptional (int_of [NPositive]) ;; FEnd)).

Definition panel_handler (cookies : jar) (data : PanelDataParamsInput) : web W PanelDataOutcome :=
  match usable (getCookie cookies ACCESS_COOKIE) with
  | None => raise (RedirectTo login_path)
  | Some token =>
      out ← panelDataUpstream (Some token) data;
      match out with
      | upstream_ok result => mret (panel_ok result)
      | upstream_failed status message =>
          if bool_decide (status = 401%Z) then raise (RedirectTo login_path) else mret (panel_failed message)
      end
  end.

Definition loadPanelDataFn (cookies : jar) : option json -> web W PanelDataOutcome :=
  validated panelDataInputSchema (panel_handler cookies).

End Relay.

(** ** The hook *)

Inductive PanelDataState := panel_loading | panel_default | panel_error.

(** What a load is for. *)
Record panel_key := mkPanelKey { pk_savedQueryId : jsstr; pk_from : jsstr; pk_to : jsstr; pk_buckets : Z }.

(** [ph_current]: the load that is not cancelled. *)
Record panel_hook := mkPanelHook {
  ph_state : PanelDataState;
  ph_series : list PanelBucket;
  ph_totalCount : jsnum;
  ph_errorMessage : option jsstr;
  ph_current : option panel_key
}.

Definition initial_panel : panel_hook := mkPanelHook panel_loading [] (int_num 0) None None.

(** The effect, run for a new key after the cleanup of the last one. *)
Definition panel_effect (key : panel_key) (h : panel_hook) : panel_hook :=
  mkPanelHook panel_loading (ph_series h) (ph_totalCount h) None (Some key).

(** The callback of a load that has not been cancelled. *)
Definition panel_answered `{Dates} (key : panel_key) (outcome : PanelDataOutcome) (h : panel_hook) : panel_hook :=
  match outcome with
  | panel_failed message => mkPanelHook panel_error (ph_series h) (ph_totalCount h) (Some message) (ph_current h)
  | panel_ok data =>
      mkPanelHook panel_default (gapFillBuckets (pd_buckets data) (pk_from key) (pk_to key) (pk_buckets key))
        (pd_totalCount data) (ph_errorMessage h) (ph_current h)
  end.

Section PanelSteps.
Context `{Dates} (answers : panel_key -> PanelDataOutcome -> Prop).

(** A cancelled load has no effect, nor has one that is rejected. *)
Inductive panel_step : panel_hook -> panel_hook -> Prop :=
| panel_changes key h : panel_step h (panel_effect key h)
| panel_answers key outcome h :
    ph_current h = Some key -> answers key outcome -> panel_step h (panel_answered key outcome h).

End PanelSteps.

(** ** Layouts *)

Definition defaultGrid : PanelGrid := mkPanelGrid 0 0 4 2.

Definition upsertPanel (panels : list Panel) (panel : Panel) : list Panel :=
  match list_find (fun p => pn_id p = pn_id panel) panels with
  | None => panels ++ [panel]
  | Some (index, _) => imap (fun i p => if i =? index then panel else p) panels
  end.

Definition removePanelById (panels : list Panel) (id : jsstr) : list Panel := filter (fun p => pn_id p <> id) panels.

Definition savedQuerySubtitle (panel : Panel) (savedQueries : list (jsstr * jsstr)) : jsstr :=
  match list_find (fun q => q.1 = pn_savedQueryId panel) savedQueries with
  | Some (_, (_, name)) => name
  | None => take 8 (pn_savedQueryId panel) ++ [0x2026%N]
  end.

(** * Lemmas *)

(** ** Integers *)

Lemma rounded_int z : (Z.abs z <= 2 ^ 53)%Z -> rounded z 1 = int_num z.
Proof. intros Hz. unfold rounded. rewrite Z.mod_1_r, Z.div_1_r. by rewrite (proj2 (Z.leb_le _ _)) by done. Qed.

Lemma num_int z : numerator (int_num z) = z /\ denominator (int_num z) = 1%Z.
Proof. unfold numerator, denominator. cbn [jn_mant jn_exp int_num]. change (2 ^ Z.max 0 0)%Z with 1%Z. by rewrite Z.mul_1_r. Qed.

Lemma num_add_int a b : (Z.abs (a + b) <= 2 ^ 53)%Z -> num_add (int_num a) (int_num b) = int_num (a + b).
Proof.
  intros Hz. unfold num_add. destruct (num_int a) as [-> ->], (num_int b) as [-> ->]. rewrite !Z.mul_1_r. by apply rounded_int.
Qed.

Lemma num_mul_int a b : (Z.abs (a * b) <= 2 ^ 53)%Z -> num_mul (int_num a) (int_num b) = int_num (a * b).
Proof. intros Hz. unfold num_mul. destruct (num_int a) as [-> ->], (num_int b) as [-> ->]. by apply rounded_int. Qed.

Lemma num_sub_int a b : (Z.abs (a - b) <= 2 ^ 53)%Z -> num_sub (int_num a) (int_num b) = int_num (a - b).
Proof. intros Hz. unfold num_sub. change (negate (int_num b)) with (int_num (- b)). rewrite num_add_int; [f_equal; lia|lia]. Qed.

Lemma num_div_int q b : (0 < b)%Z -> (Z.abs q <= 2 ^ 53)%Z -> num_div (int_num (b * q)) (int_num b) = int_num q.
Proof.
  intros Hb Hq. unfold num_div. destruct (num_int b) as [-> ->], (num_int (b * q)) as [-> ->].
  rewrite Z.mul_1_r, Z.mul_1_l. unfold rounded. rewrite (Z.mul_comm b q), Z.mod_mul, Z.div_mul by lia.
  by rewrite (proj2 (Z.leb_le _ _)) by done.
Qed.

Lemma num_lt_int a b : num_lt (int_num a) (int_num b) = (a <? b)%Z.
Proof. unfold num_lt. destruct (num_int a) as [-> ->], (num_int b) as [-> ->]. by rewrite !Z.mul_1_r. Qed.

Lemma num_trunc_int z : num_trunc (int_num z) = z.
Proof. unfold num_trunc. destruct (num_int z) as [-> ->]. apply Z.quot_1_r. Qed.

(** ** Counts *)

Definition in_slot (lo hi ms : Z) : bool := ((lo <=? ms) && (ms <? hi))%Z.

(** The counts of a slot, added up. *)
Definition slot_sum (lo hi : Z) (l : list (Z * jsnum)) : Z :=
  foldr (fun x n => if in_slot lo hi x.1 then (jn_mant x.2 + n)%Z else n) 0%Z l.

Definition total (l : list (Z * jsnum)) : Z := foldr (fun x n => (jn_mant x.2 + n)%Z) 0%Z l.

Definition counts (l : list (Z * jsnum)) : Prop := Forall (fun x => x.2 = int_num (jn_mant x.2) /\ (0 <= jn_mant x.2)%Z) l.

Definition earlier (x y : Z * jsnum) : Prop := (x.1 <= y.1)%Z.

Lemma slot_sum_cons lo hi x l :
  slot_sum lo hi (x :: l) = ((if in_slot lo hi x.1 then jn_mant x.2 else 0) + slot_sum lo hi l)%Z.
Proof. cbn [slot_sum foldr]. by destruct (in_slot _ _ _). Qed.

Lemma total_cons x l : total (x :: l) = (jn_mant x.2 + total l)%Z.
Proof. done. Qed.

Lemma slot_sum_bounds lo hi l : counts l -> (0 <= slot_sum lo hi l <= total l)%Z.
Proof. induction 1 as [|x l [_ Hx] _ IH]; [done|]. rewrite slot_sum_cons, total_cons. destruct (in_slot _ _ _); lia. Qed.

Lemma insert_perm x l : insert_ms x l ≡ₚ x :: l.
Proof.
  induction l as [|y l IH]; cbn; [done|]. destruct (_ <=? _)%Z; [done|]. rewrite IH. apply Permutation_swap.
Qed.

Lemma sort_perm l : sort_ms l ≡ₚ l.
Proof. induction l as [|x l IH]; cbn; [done|]. unfold sort_ms in *. by rewrite insert_perm, IH. Qed.

Lemma insert_sorted x l : StronglySorted earlier l -> StronglySorted earlier (insert_ms x l).
Proof.
  induction 1 as [|y l Hs IH Hy]; cbn; [by repeat constructor|]. destruct (Z.leb_spec x.1 y.1) as [Hle|Hgt].
  - constructor; [by constructor|]. constructor; [done|]. eapply Forall_impl; [exact Hy|]. unfold earlier. cbn. lia.
  - constructor; [done|]. rewrite insert_perm. constructor; [unfold earlier; lia|done].
Qed.

Lemma sort_sorted l : StronglySorted earlier (sort_ms l).
Proof. induction l; [constructor|]. by apply insert_sorted. Qed.

#[export] Instance slot_sum_perm lo hi : Proper (Permutation ==> eq) (slot_sum lo hi).
Proof.
  intros l l' Hp. induction Hp as [|x l l' _ IH|x y l|l l' l'' _ IH1 _ IH2]; rewrite ?slot_sum_cons; lia.
Qed.

#[export] Instance total_perm : Proper (Permutation ==> eq) total.
Proof. intros l l' Hp. induction Hp; rewrite ?total_cons; lia. Qed.

(** ** One slot, all slots *)

Definition from_on (hi : Z) (l : list (Z * jsnum)) : list (Z * jsnum) := filter (fun x => (hi <= x.1)%Z) l.

Lemma from_on_all hi l : Forall (fun x => hi <= x.1)%Z l -> from_on hi l = l /\ forall lo, slot_sum lo hi l = 0%Z.
Proof.
  induction 1 as [|x l Hx _ [IH1 IH2]]; [done|]. unfold from_on in *. rewrite filter_cons_True by done. split; [by rewrite IH1|].
  intros lo. rewrite slot_sum_cons, IH2. unfold in_slot. by rewrite (proj2 (Z.ltb_ge x.1 hi)), andb_false_r by lia.
Qed.

Lemma fill_slot_exact lo hi a l :
  (0 <= a)%Z -> counts l -> (a + total l <= 2 ^ 53)%Z -> StronglySorted earlier l ->
  fill_slot (int_num lo) (int_num hi) (int_num a) l = (int_num (a + slot_sum lo hi l), from_on hi l).
Proof.
  intros Ha Hc Hb Hs. revert a Ha Hb. induction Hs as [|[ms c] l Hs IH Hle]; intros a Ha Hb; cbn [fill_slot].
  - by rewrite Z.add_0_r.
  - inversion Hc as [|? ? [Ec Hp] Hc']; subst. rewrite total_cons in Hb. cbn [fst snd] in *.
    rewrite num_lt_int. destruct (Z.ltb_spec ms hi) as [Hlt|Hge].
    + pose proof (slot_sum_bounds lo hi l Hc') as Hsb. rewrite num_lt_int, slot_sum_cons. cbn [fst snd].
      unfold in_slot. rewrite (proj2 (Z.ltb_lt _ _) Hlt), andb_true_r, Z.leb_antisym.
      unfold from_on. rewrite filter_cons_False by (cbn; lia). fold (from_on hi l).
      destruct (ms <? lo)%Z; cbn [negb]; [by apply IH; (done || lia)|].
      rewrite Ec, num_add_int by lia. rewrite IH by (done || lia). cbn [jn_mant int_num]. f_equal. f_equal. lia.
    + destruct (from_on_all hi ((ms, c) :: l)) as [-> ->]; [|by rewrite Z.add_0_r].
      constructor; [done|]. eapply Forall_impl; [exact Hle|]. unfold earlier. cbn. lia.
Qed.

(** Passing a slot changes nothing for the later ones. *)
Lemma from_on_slot hi lo' hi' l : (hi <= lo')%Z -> slot_sum lo' hi' (from_on hi l) = slot_sum lo' hi' l.
Proof.
  intros Hle. induction l as [|x l IH]; [done|]. unfold from_on. destruct (decide (hi <= x.1)%Z) as [Hx|Hx].
  - rewrite filter_cons_True, !slot_sum_cons by done. fold (from_on hi l). by rewrite IH.
  - rewrite filter_cons_False, slot_sum_cons by done. fold (from_on hi l). unfold in_slot.
    by rewrite (proj2 (Z.leb_gt lo' x.1)) by lia.
Qed.

Lemma from_on_kept hi l :
  counts l -> StronglySorted earlier l ->
  counts (from_on hi l) /\ (total (from_on hi l) <= total l)%Z /\ StronglySorted earlier (from_on hi l).
Proof.
  intros Hc Hs. induction Hs as [|x l Hs IH Hle]; [by repeat constructor|].
  inversion Hc as [|? ? [Ex Hx] Hc']; subst. destruct (IH Hc') as (I1 & I2 & I3). unfold from_on in *.
  destruct (decide (hi <= x.1)%Z).
  - rewrite filter_cons_True, !total_cons by done. split_and!; [by constructor|lia|]. constructor; [done|].
    apply Forall_forall. intros y [_ Hy]%list_elem_of_filter. rewrite Forall_forall in Hle. by apply Hle.
  - rewrite filter_cons_False, total_cons by done. split_and!; [done|lia|done].
Qed.

Definition slot_bucket (fromMs size : Z) (l : list (Z * jsnum)) (i : Z) : PanelBucket :=
  mkPanelBucket (toISOString (fromMs + i * size)) (int_num (slot_sum (fromMs + i * size) (fromMs + (i + 1) * size) l)).

Lemma fill_slots_exact fromMs size k i l :
  (0 < size)%Z -> (0 <= i)%Z -> ((i + Z.of_nat k) * size <= 2 ^ 53)%Z ->
  (Z.abs fromMs <= 2 ^ 53)%Z -> (Z.abs (fromMs + (i + Z.of_nat k) * size) <= 2 ^ 53)%Z ->
  counts l -> (total l <= 2 ^ 53)%Z -> StronglySorted earlier l ->
  fill_slots fromMs (int_num size) k i l = slot_bucket fromMs size l <$> seqZ i (Z.of_nat k).
Proof.
  intros Hsz. revert i l. induction k as [|k IH]; intros i l Hi Hr Hf Ht Hc Hb Hs; [done|].
  assert (Hi' : (i * size <= 2 ^ 53)%Z) by nia. assert (H0 : (0 <= i * size)%Z) by nia.
  assert (H1 : ((i + 1) * size <= (i + Z.of_nat (S k)) * size)%Z) by nia.
  rewrite seqZ_cons, fmap_cons by lia. cbn [fill_slots].
  rewrite num_mul_int by lia. rewrite num_add_int by lia. rewrite num_add_int by lia.
  replace (fromMs + i * size + size)%Z with (fromMs + (i + 1) * size)%Z by lia.
  rewrite fill_slot_exact by (done || lia). rewrite num_trunc_int.
  destruct (from_on_kept (fromMs + (i + 1) * size) l Hc Hs) as (Hc' & Hb' & Hs').
  rewrite IH by (done || lia || nia). f_equal. replace (Z.succ i) with (i + 1)%Z by lia.
  replace (Z.pred (Z.of_nat (S k))) with (Z.of_nat k) by lia.
  apply list_fmap_ext. intros n j Hj. apply lookup_seqZ in Hj as [-> _]. unfold slot_bucket. f_equal. f_equal.
  apply from_on_slot. nia.
Qed.

Lemma slot_split lo mid hi l : (lo <= mid <= hi)%Z -> (slot_sum lo mid l + slot_sum mid hi l)%Z = slot_sum lo hi l.
Proof.
  intros Hm. induction l as [|x l IH]; [done|]. rewrite !slot_sum_cons. unfold in_slot.
  destruct (Z.leb_spec lo x.1), (Z.leb_spec mid x.1), (Z.ltb_spec x.1 mid), (Z.ltb_spec x.1 hi); cbn [andb]; lia.
Qed.

Definition series_total (series : list PanelBucket) : Z := foldr (fun b n => (jn_mant (pb_count b) + n)%Z) 0%Z series.

Lemma series_conserved fromMs size l k i :
  (0 < size)%Z ->
  series_total (slot_bucket fromMs size l <$> seqZ i (Z.of_nat k))
  = slot_sum (fromMs + i * size) (fromMs + (i + Z.of_nat k) * size) l.
Proof.
  intros Hs. revert i. induction k as [|k IH]; intros i.
  - rewrite Z.add_0_r. induction l as [|x l IHl]; [done|]. rewrite slot_sum_cons. unfold in_slot.
    destruct (Z.leb_spec (fromMs + i * size) x.1), (Z.ltb_spec x.1 (fromMs + i * size)); cbn [andb]; (lia || exact IHl).
  - rewrite seqZ_cons, fmap_cons by lia. cbn [series_total foldr pb_count slot_bucket jn_mant int_num].
    fold (series_total (slot_bucket fromMs size l <$> seqZ (Z.succ i) (Z.pred (Z.of_nat (S k))))).
    replace (Z.pred (Z.of_nat (S k))) with (Z.of_nat k) by lia. rewrite IH.
    replace (Z.succ i) with (i + 1)%Z by lia. replace (i + 1 + Z.of_nat k)%Z with (i + Z.of_nat (S k))%Z by lia.
    apply slot_split. nia.
Qed.

(** ** The theorem *)

(** C40. The chart's series.  When the slots of the range are whole milliseconds, the
    series has one bucket for each slot, in order, with the slot's start and the sum of
    the counts that fall into it, zero if none do; so nothing within the range is lost
    or counted twice, and what lies outside is left out.  (The arithmetic is that of
    doubles: up to 2^53 no rounding happens on the way.) *)
Theorem gap_fill_exact `{Dates} buckets from to fromMs size n
    (Hf : Date_parse from = Some fromMs) (Ht : Date_parse to = Some (fromMs + n * size)%Z)
    (Hn : (0 < n)%Z) (Hs : (0 < size)%Z) (Hr : (n * size <= 2 ^ 53)%Z)
    (Hfb : (Z.abs fromMs <= 2 ^ 53)%Z) (Htb : (Z.abs (fromMs + n * size) <= 2 ^ 53)%Z)
    (Hc : counts (omap timed buckets)) (Hb : (total (omap timed buckets) <= 2 ^ 53)%Z) :
  gapFillBuckets buckets from to n = slot_bucket fromMs size (omap timed buckets) <$> seqZ 0 n /\
  series_total (gapFillBuckets buckets from to n) = slot_sum fromMs (fromMs + n * size) (omap timed buckets).
Proof.
  assert (E : gapFillBuckets buckets from to n = slot_bucket fromMs size (omap timed buckets) <$> seqZ 0 n).
  { unfold gapFillBuckets. rewrite (proj2 (Z.leb_gt n 0)), Hf, Ht by lia. rewrite (proj2 (Z.leb_gt _ _)) by nia.
    replace (n * size)%Z with (fromMs + n * size - fromMs)%Z in Hr by lia.
    rewrite num_sub_int by lia. replace (fromMs + n * size - fromMs)%Z with (n * size)%Z in * by lia.
    rewrite num_div_int by nia. rewrite fill_slots_exact; rewrite ?Z2Nat.id; try lia; try done.
    - apply list_fmap_ext. intros k j _. unfold slot_bucket. by rewrite sort_perm.
    - unfold counts. by rewrite sort_perm.
    - by rewrite sort_perm.
    - apply sort_sorted. }
  split; [done|]. rewrite E. replace n with (Z.of_nat (Z.to_nat n)) at 1 by lia. rewrite series_conserved by done.
  rewrite Z2Nat.id by lia. by rewrite Z.mul_0_l, Z.add_0_r, Z.add_0_l.
Qed.

(** ** The hook *)

(** A chart that is shown as loaded is that of the current query and range. *)
Lemma panel_shows_current `{Dates} answers h :
  rtc (panel_step answers) initial_panel h -> ph_state h = panel_default ->
  exists key data, ph_current h = Some key /\ answers key (panel_ok data) /\ ph_totalCount h = pd_totalCount data /\
    ph_series h = gapFillBuckets (pd_buckets data) (pk_from key) (pk_to key) (pk_buckets key).
Proof.
  intros Hr. revert h Hr. refine (rtc_ind_r _ _ _ _); [done|]. intros x y _ Hs IH. destruct Hs as [key h'|key [data|message] h' Hk Ha]; try done. intros _. by exists key, data.
Qed.

(** ** Layouts *)

(** Saving a panel keeps the ids of a layout distinct, and the panel is in it. *)
Lemma upsert_distinct panels panel :
  NoDup (pn_id <$> panels) -> NoDup (pn_id <$> upsertPanel panels panel) /\ panel ∈ upsertPanel panels panel.
Proof.
  intros Hn. unfold upsertPanel. destruct (list_find _ panels) as [[index p]|] eqn:Ef.
  - apply list_find_Some in Ef as (Hi & Hp & _). assert (E : pn_id <$> imap (fun i p => if i =? index then panel else p) panels = pn_id <$> panels).
    { apply list_eq. intros i. rewrite !list_lookup_fmap, list_lookup_imap. destruct (panels !! i) as [q|] eqn:Eq; [|done].
      cbn. destruct (Nat.eqb_spec i index) as [->|]; [|done]. rewrite Hi in Eq. injection Eq as <-. by rewrite Hp. }
    rewrite E. split; [done|]. apply list_elem_of_lookup. exists index. rewrite list_lookup_imap, Hi. cbn. by rewrite Nat.eqb_refl.
  - apply list_find_None in Ef. split; [|set_solver]. rewrite fmap_app. apply NoDup_app. split_and!; [done| |apply NoDup_singleton].
    intros x (q & -> & Hq)%list_elem_of_fmap Hx. rewrite Forall_forall in Ef. apply (Ef q Hq). by apply list_elem_of_singleton in Hx.
Qed.

(** ** Witness *)

(** A clock that reads three marks. *)
Definition demo_dates : Dates :=
  {| Date_parse s := if bool_decide (s = js "a") then Some 0%Z else if bool_decide (s = js "b") then Some 60%Z
                     else if bool_decide (s = js "c") then Some 25%Z else None |}.

Definition demo_buckets : list PanelBucket := [mkPanelBucket (js "c") (int_num 7); mkPanelBucket (js "a") (int_num 2)].

Lemma demo_counts : counts (omap (@timed demo_dates) demo_buckets).
Proof. repeat constructor; vm_compute; discriminate. Qed.

Lemma gap_fill_exact_witness :
  pb_count <$> @gapFillBuckets demo_dates demo_buckets (js "a") (js "b") 3 = [int_num 2; int_num 7; int_num 0].
Proof.
  destruct (@gap_fill_exact demo_dates demo_buckets (js "a") (js "b") 0%Z 20%Z 3%Z eq_refl eq_refl eq_refl eq_refl
    ltac:(vm_compute; discriminate) ltac:(vm_compute; discriminate) ltac:(vm_compute; discriminate) demo_counts
    ltac:(vm_compute; discriminate)) as [E _].
  rewrite E. vm_compute. reflexivity.
Defined.
