(* ===== verification/AdminBff.v ===== *)
(** * Administration and dashboards in the web application

    [server/admin.ts] and [server/dashboards.ts]: server functions that relay to the
    control plane with the session's access token, and the load of the admin page.
    Requests that the code starts together are modelled in the order it starts them in.
    The composition with the control plane is at the end. *)

From stdpp Require Import base list option numbers strings gmap.
From S2P Require Import Prelude Errors Effects Tokens Text Rbac Email Entities Ports Uuid Schema World Sql.
From S2P Require Import Integrity Eval Demo PgUsers PgTokens PgInvites PgContent Calls Credentials Adapters.
From S2P Require Import Google AuthService Sessions Services UseCases Invites Oidc OidcFlow Authorize Zod Contracts Wire.
From S2P Require Import Http Requests Json WebSession Bff BffOidc WebFlows WebDemo LogSearch Relays Panels.
Open Scope zod_scope.

(** ** Request bodies *)

(** [JSON.stringify] of what a validator returned. *)
Definition create_user_body (c : CreateUserCommand) : json :=
  JObj ([(js "email", JStr (cu_email c)); (js "password", JStr (cu_password c))]
        ++ if_defined (js "displayName") JStr (cu_displayName c) ++ [(js "role", JStr (membership_str (cu_role c)))]).

Definition update_user_body (c : UpdateUserCommand) : json :=
  JObj (if_defined (js "displayName") (nullable JStr) (uu_displayName c) ++ if_defined (js "status") JStr (uu_status c)
        ++ if_defined (js "role") (fun r => JStr (membership_str r)) (uu_role c)
        ++ if_defined (js "password") JStr (uu_password c)).

Definition create_api_key_body (c : CreateApiKeyRequest) : json :=
  JObj ([(js "name", JStr (kq_name c)); (js "scopes", JArr (JStr <$> kq_scopes c))]
        ++ if_defined (js "expiresAt") JStr (kq_expiresAt c)).

Definition create_invite_body (c : CreateInviteCommand) : json :=
  JObj [(js "email", JStr (cv_email c)); (js "role", JStr (cv_role c))].

Definition retention_body (c : UpsertRetentionCommand) : json :=
  JObj [(js "hotDays", json_int (ur_hotDays c)); (js "coldDays", json_int (ur_coldDays c))].

Definition create_rule_body (c : CreateAlertRuleRequest) : json :=
  JObj ([(js "name", JStr (aq_name c))] ++ if_defined (js "savedQueryId") JStr (aq_savedQueryId c)
        ++ [(js "query", rule_query_json (aq_query c)); (js "comparator", JStr (comparator_str (aq_comparator c)));
            (js "threshold", JNum (aq_threshold c)); (js "windowSeconds", json_int (aq_windowSeconds c));
            (js "severity", JStr (aq_severity c)); (js "enabled", JBool (aq_enabled c));
            (js "notifyChannels", JArr (channel_json <$> aq_notifyChannels c))]).

Definition update_rule_body (c : AlertRulePatch) : json :=
  JObj (if_defined (js "name") JStr (ap_name c) ++ if_defined (js "savedQueryId") (nullable JStr) (ap_savedQueryId c)
        ++ if_defined (js "query") rule_query_json (ap_query c)
        ++ if_defined (js "comparator") (fun v => JStr (comparator_str v)) (ap_comparator c)
        ++ if_defined (js "threshold") JNum (ap_threshold c) ++ if_defined (js "windowSeconds") json_int (ap_windowSeconds c)
        ++ if_defined (js "severity") JStr (ap_severity c) ++ if_defined (js "enabled") JBool (ap_enabled c)
        ++ if_defined (js "notifyChannels") (fun l => JArr (channel_json <$> l)) (ap_notifyChannels c)).

Definition create_dashboard_body (c : CreateDashboardRequest) : json :=
  JObj ([(js "name", JStr (dq_name c))] ++ if_defined (js "description") JStr (dq_description c)
        ++ [(js "layout", layout_json (dq_layout c))]).

Definition update_dashboard_body (c : DashboardPatch) : json :=
  JObj (if_defined (js "name") JStr (dp_name c) ++ if_defined (js "description") (nullable JStr) (dp_description c)
        ++ if_defined (js "layout") layout_json (dp_layout c)).

(** ** Outcomes *)

Inductive AdminErrorKind := unauthorized | forbidden_kind | invalid_kind | unavailable.

#[export] Instance AdminErrorKind_eq_dec : EqDecision AdminErrorKind.
Proof. solve_decision. Defined.

Record AdminError := mkAdminError { ae_kind : AdminErrorKind; ae_message : jsstr }.

Inductive AdminOutcome (A : Type) := admin_ok (data : A) | admin_failed (error : AdminError).
Arguments admin_ok {A} _.
Arguments admin_failed {A} _.

Definition session_ended : AdminError := mkAdminError unauthorized (js "Your session has ended.").
Definition something_wrong : AdminError := mkAdminError unavailable (js "Something went wrong. Please try again.").

Definition mapAdminError (err : web_exn) : AdminError :=
  match err with
  | ControlPlaneError status _ message =>
      if bool_decide (status = 401%Z) then session_ended
      else if bool_decide (status = 403%Z) then mkAdminError forbidden_kind (js "You do not have permission to do that.")
      else if ((400 <=? status) && (status <? 500))%Z
        then mkAdminError invalid_kind (if truthy message then message else js "That request was invalid.")
      else something_wrong
  | _ => something_wrong
  end.

(** The type a schema describes. *)
Definition infer {A} (s : schema A) : Type := A.

Definition alertRuleListSchema := ZView fst (ZObject strip ("alertRules" ~> ZArray [] alertRuleResponseSchema ;; FEnd)).
Definition apiKeyListSchema := ZView fst (ZObject strip ("apiKeys" ~> ZArray [] apiKeyResponseSchema ;; FEnd)).
Definition userListSchema := ZView fst (ZObject strip ("users" ~> ZArray [] userResponseSchema ;; FEnd)).
Definition invitesSchema := ZView fst inviteListSchema.

(** [z.undefined()]. *)
Definition noContentSchema : schema unit := ZView (fun _ => tt) (ZOptional (ZNever (A := unit))).

Section Admin.
Context {W : Type} `{Backend W, Zod}.

(** [run] of [admin.ts]. *)
Definition run_admin {A} (token : option jsstr) (call : jsstr -> web W A) : web W (AdminOutcome A) :=
  match usable token with
  | None => mret (admin_failed session_ended)
  | Some t => attempt (a ← call t; mret (admin_ok a)) (fun err => mret (admin_failed (mapAdminError err)))
  end.

Definition listAlertRulesUpstream (token : option jsstr) :=
  run_admin token (fun t => cpAuthedFetch t (js "/v1/alert-rules") alertRuleListSchema).

Definition createAlertRuleUpstream (token : option jsstr) (body : CreateAlertRuleRequest) :=
  run_admin token (fun t => cpAuthedSend t POST (js "/v1/alert-rules") alertRuleResponseSchema (Some (create_rule_body body))).

Definition updateAlertRuleUpstream (token : option jsstr) (id : jsstr) (body : AlertRulePatch) :=
  run_admin token (fun t => cpAuthedSend t PATCH (js "/v1/alert-rules/" ++ id) alertRuleResponseSchema (Some (update_rule_body body))).

Definition deleteAlertRuleUpstream (token : option jsstr) (id : jsstr) :=
  run_admin token (fun t => cpAuthedSend t DELETE (js "/v1/alert-rules/" ++ id) noContentSchema None).

Definition listApiKeysUpstream (token : option jsstr) :=
  run_admin token (fun t => cpAuthedFetch t (js "/v1/api-keys") apiKeyListSchema).

Definition createApiKeyUpstream (token : option jsstr) (body : CreateApiKeyRequest) :=
  run_admin token (fun t => cpAuthedSend t POST (js "/v1/api-keys") apiKeyCreatedResponseSchema (Some (create_api_key_body body))).

Definition revokeApiKeyUpstream (token : option jsstr) (id : jsstr) :=
  run_admin token (fun t => cpAuthedSend t DELETE (js "/v1/api-keys/" ++ id) noContentSchema None).

Definition listInvitesUpstream (token : option jsstr) :=
  run_admin token (fun t => cpAuthedFetch t (js "/v1/invites") invitesSchema).

Definition createInviteUpstream (token : option jsstr) (body : CreateInviteCommand) :=
  run_admin token (fun t => cpAuthedSend t POST (js "/v1/invites") inviteCreatedResponseSchema (Some (create_invite_body body))).

Definition revokeInviteUpstream (token : option jsstr) (id : jsstr) :=
  run_admin token (fun t => cpAuthedSend t POST (js "/v1/invites/" ++ id ++ js "/revoke") noContentSchema None).

Definition listUsersUpstream (token : option jsstr) :=
  run_admin token (fun t => cpAuthedFetch t (js "/v1/users") userListSchema).

Definition createUserUpstream (token : option jsstr) (body : CreateUserCommand) :=
  run_admin token (fun t => cpAuthedSend t POST (js "/v1/users") userResponseSchema (Some (create_user_body body))).

Definition updateUserUpstream (token : option jsstr) (id : jsstr) (body : UpdateUserCommand) :=
  run_admin token (fun t => cpAuthedSend t PATCH (js "/v1/users/" ++ id) userResponseSchema (Some (update_user_body body))).

Definition deleteUserUpstream (token : option jsstr) (id : jsstr) :=
  run_admin token (fun t => cpAuthedSend t DELETE (js "/v1/users/" ++ id) noContentSchema None).

Definition getTenantUpstream (token : option jsstr) (tenantId : jsstr) :=
  run_admin token (fun t => cpAuthedFetch t (js "/v1/tenants/" ++ tenantId) tenantResponseSchema).

Definition getRetentionUpstream (token : option jsstr) :=
  run_admin token (fun t =>
    attempt (v ← cpAuthedFetch t (js "/v1/retention") retentionResponseSchema; mret (Some v))
      (fun err => match err with
                  | ControlPlaneError 404 _ _ => mret None
                  | _ => raise err
                  end)).

Definition updateRetentionUpstream (token : option jsstr) (body : UpsertRetentionCommand) :=
  run_admin token (fun t => cpAuthedSend t PUT (js "/v1/retention") retentionResponseSchema (Some (retention_body body))).

(** ** The admin page *)

Record AdminData := mkAdminData {
  ad_role : Role;
  ad_tenant : AdminOutcome (infer tenantResponseSchema);
  ad_retention : AdminOutcome (option (infer retentionResponseSchema));
  ad_users : option (AdminOutcome (infer userListSchema));
  ad_apiKeys : option (AdminOutcome (infer apiKeyListSchema));
  ad_invites : option (AdminOutcome (infer invitesSchema))
}.

(** [can(role, op) ? load : Promise.resolve(null)]. *)
Definition if_can {A} (role : Role) (op : Operation) (load : web W A) : web W (option A) :=
  if ui_can role op then a ← load; mret (Some a) else mret None.

Definition loadAdminData (token : option jsstr) : web W (option AdminData) :=
  match usable token, decodeAccessClaims token with
  | Some _, Some claims =>
      let role := ac_role claims in
      let tenantId := ac_tenant_id claims in
      tenant ← getTenantUpstream token tenantId;
      retention ← getRetentionUpstream token;
      users ← if_can role user_list (listUsersUpstream token);
      apiKeys ← if_can role apikey_list (listApiKeysUpstream token);
      invites ← if_can role invite_list (listInvitesUpstream token);
      mret (Some (mkAdminData role tenant retention users apiKeys invites))
  | _, _ => mret None
  end.

(** ** Server functions *)

Definition ensureSession {A} (out : AdminOutcome A) : web W (AdminOutcome A) :=
  match out with
  | admin_failed error => if bool_decide (ae_kind error = unauthorized) then raise (RedirectTo login_path) else mret out
  | admin_ok _ => mret out
  end.

Section Functions.
Context (cookies : jar).

#[local] Abbreviation token := (getCookie cookies ACCESS_COOKIE).

Definition idInput : schema jsstr := ZView fst (ZObject strip ("id" ~> uuidSchema ;; FEnd)).
Definition apiKeyIdInput : schema jsstr := ZView fst (ZObject strip ("id" ~> ZString [CMin 1] ;; FEnd)).

(** [z.object({ id: uuidSchema, patch: s })]. *)
Definition patchInput {A} (s : schema A) : schema (jsstr * A) :=
  ZView (fun '(id, (patch, _)) => (id, patch)) (ZObject strip ("id" ~> uuidSchema ;; "patch" ~> s ;; FEnd)).

Definition loadAlertRulesFn := out ← listAlertRulesUpstream token; ensureSession out.

Definition createAlertRuleFn :=
  validated createAlertRuleRequestSchema (fun data => out ← createAlertRuleUpstream token data; ensureSession out).

Definition updateAlertRuleFn :=
  validated (patchInput updateAlertRuleRequestSchema)
    (fun data => out ← updateAlertRuleUpstream token data.1 data.2; ensureSession out).

Definition deleteAlertRuleFn :=
  validated idInput (fun id => out ← deleteAlertRuleUpstream token id; ensureSession out).

Definition loadAdminFn : web W AdminData :=
  data ← loadAdminData token;
  match data with Some d => mret d | None => raise (RedirectTo login_path) end.

Definition createApiKeyFn :=
  validated createApiKeyRequestSchema (fun data => out ← createApiKeyUpstream token data; ensureSession out).

Definition revokeApiKeyFn :=
  validated apiKeyIdInput (fun id => out ← revokeApiKeyUpstream token id; ensureSession out).

Definition cpListInvites := out ← listInvitesUpstream token; ensureSession out.

Definition cpCreateInvite :=
  validated createInviteRequestSchema (fun data => out ← createInviteUpstream token data; ensureSession out).

Definition cpRevokeInvite :=
  validated idInput (fun id => out ← revokeInviteUpstream token id; ensureSession out).

Definition createUserFn :=
  validated createUserRequestSchema (fun data => out ← createUserUpstream token data; ensureSession out).

Definition updateUserFn :=
  validated (patchInput updateUserRequestSchema)
    (fun data => out ← updateUserUpstream token data.1 data.2; ensureSession out).

Definition deleteUserFn :=
  validated idInput (fun id => out ← deleteUserUpstream token id; ensureSession out).

Definition updateRetentionFn :=
  validated upsertRetentionRequestSchema (fun data => out ← updateRetentionUpstream token data; ensureSession out).

End Functions.

End Admin.

(** ** Dashboards *)

Module Dashboards.

Definition mapDashboardError (err : web_exn) : AdminError :=
  match err with
  | ControlPlaneError status _ message =>
      if bool_decide (status = 401%Z) then session_ended
      else if bool_decide (status = 403%Z) then mkAdminError forbidden_kind (js "You do not have permission to do that.")
      else if ((400 <=? status) && (status <? 500))%Z
        then mkAdminError invalid_kind (if truthy message then message else js "That request was invalid.")
      else something_wrong
  | _ => something_wrong
  end.

Definition dashboardListSchema := ZView fst (ZObject strip ("dashboards" ~> ZArray [] dashboardResponseSchema ;; FEnd)).
Definition savedQueryListSchema := ZView fst (ZObject strip ("savedQueries" ~> ZArray [] savedQueryResponseSchema ;; FEnd)).

Section Relay.
Context {W : Type} `{Backend W, Zod}.

(** [run] of [dashboards.ts]. *)
Definition run_dashboards {A} (token : option jsstr) (call : jsstr -> web W A) : web W (AdminOutcome A) :=
  match usable token with
  | None => mret (admin_failed session_ended)
  | Some t => attempt (a ← call t; mret (admin_ok a)) (fun err => mret (admin_failed (mapDashboardError err)))
  end.

Definition listDashboardsUpstream (token : option jsstr) :=
  run_dashboards token (fun t => cpAuthedFetch t (js "/v1/dashboards") dashboardListSchema).

Definition getDashboardUpstream (token : option jsstr) (id : jsstr) :=
  run_dashboards token (fun t => cpAuthedFetch t (js "/v1/dashboards/" ++ id) dashboardResponseSchema).

Definition createDashboardUpstream (token : option jsstr) (body : CreateDashboardRequest) :=
  run_dashboards token (fun t => cpAuthedSend t POST (js "/v1/dashboards") dashboardResponseSchema (Some (create_dashboard_body body))).

Definition updateDashboardUpstream (token : option jsstr) (id : jsstr) (body : DashboardPatch) :=
  run_dashboards token (fun t => cpAuthedSend t PATCH (js "/v1/dashboards/" ++ id) dashboardResponseSchema (Some (update_dashboard_body body))).

Definition deleteDashboardUpstream (token : option jsstr) (id : jsstr) :=
  run_dashboards token (fun t => cpAuthedSend t DELETE (js "/v1/dashboards/" ++ id) noContentSchema None).

Definition listSavedQueriesUpstream (token : option jsstr) :=
  run_dashboards token (fun t => cpAuthedFetch t (js "/v1/saved-queries") savedQueryListSchema).

Section Functions.
Context (cookies : jar).

#[local] Abbreviation token := (getCookie cookies ACCESS_COOKIE).

Definition loadDashboardsFn := out ← listDashboardsUpstream token; ensureSession out.

Definition loadDashboardFn :=
  validated idInput (fun id => out ← getDashboardUpstream token id; ensureSession out).

Definition createDashboardFn :=
  validated createDashboardRequestSchema (fun data => out ← createDashboardUpstream token data; ensureSession out).

Definition updateDashboardFn :=
  validated (patchInput updateDashboardRequestSchema)
    (fun data => out ← updateDashboardUpstream token data.1 data.2; ensureSession out).

Definition deleteDashboardFn :=
  validated idInput (fun id => out ← deleteDashboardUpstream token id; ensureSession out).

Definition loadSavedQueriesFn := out ← listSavedQueriesUpstream token; ensureSession out.

End Functions.
End Relay.
End Dashboards.

(** * Lemmas *)

(** ** What a contract accepted, sent on, is accepted again *)

(** An object read again, field by field. *)
Ltac read_again :=
  erewrite (object_complete strict); cycle 1;
    [by repeat constructor|done|repeat (apply parsed_fields_cons; [eassumption|]); reflexivity|].

Section Kept.
Context `{ZodLaws}.

Definition kept {A} (s : schema A) (enc : A -> json) : Prop :=
  forall v a, parsed s v = Some a -> parsed s (Some (enc a)) = Some a.

Lemma kept_checks cs :
  Forall (fun c => match c with CTest _ | CMin _ | CMax _ | CEmail | CDatetime => True | _ => False end) cs ->
  kept (ZString cs) JStr.
Proof.
  intros Hcs v s (t & -> & Hs)%string_inv. rewrite parsed_string.
  assert (E : t = s); [|by subst]. clear -Hcs Hs. induction Hcs as [|c cs Hc _ IH]; cbn [string_checks] in Hs; [by injection Hs|].
  destruct c; try done; case_match; (done || by apply IH).
Qed.

Lemma kept_trimmed lo hi : kept (ZString [CTrim; CMin lo; CMax hi]) JStr.
Proof.
  intros v s (t & -> & Hs)%string_inv. rewrite parsed_string. cbn [string_checks] in *.
  assert (E : trim t = s) by (repeat case_match; by simplify_eq). subst s. by rewrite trim_idem.
Qed.

Lemma kept_enum_of l : kept (enum_of l) JStr.
Proof.
  intros v s. unfold enum_of. rewrite !parsed_enum. destruct v as [[]|]; try done. unfold lookup_tag.
  intros Hf. assert (E : s0 = s); [|by subst]. destruct (find _ _) as [[k a]|] eqn:Ef; [|done].
  apply find_some in Ef as [Hl Hk%bool_decide_eq_true]. apply in_map_iff in Hl as (x & Hx & _). cbn in *. by simplify_eq.
Qed.

Lemma parsed_membership r : parsed membershipRoleSchema (Some (JStr (membership_str r))) = Some r.
Proof. unfold membershipRoleSchema. rewrite parsed_enum. by destruct r; vm_compute. Qed.

Lemma kept_membership : kept membershipRoleSchema (fun r => JStr (membership_str r)).
Proof. intros v r _. apply parsed_membership. Qed.

Lemma kept_default {A} (d : A) s enc : kept s enc -> parsed s (Some (enc d)) = Some d -> kept (ZDefault d s) enc.
Proof. intros Hk Hd v a Ha%default_inv. rewrite parsed_default. destruct Ha as [->|Ha]; [done|by eapply Hk]. Qed.

Lemma kept_array {A} cs (s : schema A) enc : kept s enc -> kept (ZArray cs s) (fun l => JArr (enc <$> l)).
Proof.
  intros Hk v l [Hl Hc]%array_inv. rewrite parsed_array.
  assert (E : mapM (fun j => parsed s (Some j)) (enc <$> l) = Some l); [|rewrite E; cbn [mbind option_bind]; by rewrite Hc].
  apply mapM_Some_2. rewrite Forall2_fmap_l. clear Hc. induction Hl as [|a l [j Hj] _ IH]; constructor; [by eapply Hk|done].
Qed.

Lemma number_ok_int c n z : int_value n = Some z -> number_ok c n = number_ok c (mkNum z 0).
Proof.
  intros Hz. assert (Ei : int_value (mkNum z 0) = Some z) by (unfold int_value; cbn; f_equal; lia).
  destruct c as [| |k| |k]; cbn [number_ok]; try done; rewrite ?Hz, ?Ei; try done;
    [destruct (int_value_le n z k Hz) as [_ ->], (int_value_le _ z k Ei) as [_ ->]
    |destruct (int_value_le n z 0 Hz) as [-> _], (int_value_le _ z 0 Ei) as [-> _]
    |destruct (int_value_le n z k Hz) as [-> _], (int_value_le _ z k Ei) as [-> _]]; done.
Qed.

Lemma kept_int cs : kept (int_of cs) json_int.
Proof.
  intros v z Hz. unfold int_of in Hz. apply view_inv in Hz as (n & -> & Hn). apply number_inv in Hn as [-> Hc].
  cbn [forallb] in Hc. apply andb_prop in Hc as [Hi Hc]. unfold number_ok in Hi.
  destruct (int_value n) as [z|] eqn:Ez; [|done]. apply andb_prop in Hi as [Hlo%Z.leb_le Hhi%Z.leb_le].
  change (default 0%Z (Some z)) with z. apply parsed_int; [done|]. rewrite forallb_forall in *. intros c Hin. rewrite <-(number_ok_int c n z Ez). by apply Hc.
Qed.

(** A field that may be absent. *)
Lemma kept_optional {A} (s : schema A) enc v a :
  kept s enc -> parsed (ZOptional s) v = Some a -> parsed (ZOptional s) (enc <$> a) = Some a.
Proof.
  intros Hk Ha. rewrite parsed_optional. destruct a as [a|]; [|done]. apply optional_inv, Hk in Ha.
  cbn [fmap option_fmap option_map]. by rewrite Ha.
Qed.

Lemma kept_name : kept nameSchema JStr.
Proof. apply kept_trimmed. Qed.

Lemma kept_email : kept emailSchema JStr.
Proof. apply kept_checks. by repeat constructor. Qed.

Lemma kept_password : kept passwordSchema JStr.
Proof. apply kept_checks. by repeat constructor. Qed.

Lemma create_user_kept : kept createUserRequestSchema create_user_body.
Proof.
  intros v c Hp. unfold createUserRequestSchema in *. repeat schema_inv. subst. unfold create_user_body.
  cbn [cu_email cu_password cu_displayName cu_role].
  match goal with
  | H1 : parsed emailSchema _ = Some ?a, H2 : parsed passwordSchema _ = Some ?b,
    H3 : parsed (ZOptional _) _ = Some ?d, H4 : parsed (ZDefault _ _) _ = Some ?e |- _ =>
      apply kept_email in H1; apply kept_password in H2; apply (kept_optional _ JStr _ _ kept_name) in H3;
      apply (kept_default _ _ (fun r => JStr (membership_str r)) kept_membership) in H4; [|apply parsed_membership];
      rewrite parsed_view; destruct d
  end; read_again; reflexivity.
Qed.

Lemma create_invite_kept : kept createInviteRequestSchema create_invite_body.
Proof.
  intros v c Hp. unfold createInviteRequestSchema in *. repeat schema_inv. subst. unfold create_invite_body.
  cbn [cv_email cv_role].
  match goal with
  | H1 : parsed emailSchema _ = Some ?a, H4 : parsed (ZDefault _ _) _ = Some ?e |- _ =>
      apply kept_email in H1;
      apply (kept_default _ _ JStr (kept_enum_of _)) in H4; [|by unfold enum_of; rewrite parsed_enum; vm_compute];
      rewrite parsed_view
  end; read_again; reflexivity.
Qed.

Lemma create_api_key_kept : kept createApiKeyRequestSchema create_api_key_body.
Proof.
  intros v c Hp. unfold createApiKeyRequestSchema in *. repeat schema_inv. subst. unfold create_api_key_body.
  cbn [kq_name kq_scopes kq_expiresAt].
  match goal with
  | H1 : parsed nameSchema _ = Some ?a, H3 : parsed (ZOptional _) _ = Some ?d, H4 : parsed (ZDefault _ _) _ = Some ?e |- _ =>
      apply kept_name in H1; apply (kept_optional _ JStr _ _ (kept_checks [CDatetime] ltac:(by repeat constructor))) in H3;
      apply (kept_default _ _ (fun l => JArr (JStr <$> l)) (kept_array _ _ JStr (kept_enum_of _))) in H4;
        [|rewrite parsed_array; cbn [fmap list_fmap mapM]; unfold scopeSchema, enum_of; rewrite parsed_enum; by vm_compute];
      rewrite parsed_view; destruct d
  end; read_again; reflexivity.
Qed.

Lemma retention_kept : kept upsertRetentionRequestSchema retention_body.
Proof.
  intros v c Hp. unfold upsertRetentionRequestSchema in *. repeat schema_inv. subst. unfold retention_body.
  cbn [ur_hotDays ur_coldDays] in *.
  repeat match goal with H : parsed (int_of _) ?v = Some _ |- _ => lazymatch v with get _ _ => apply kept_int in H end end.
  rewrite parsed_refine, parsed_view. read_again.
  cbn [fmap option_fmap option_map mbind option_bind ur_hotDays ur_coldDays].
  by match goal with E : (_ <=? _)%Z = true |- _ => rewrite E end.
Qed.

End Kept.

(** ** Without a session *)

Section Closed.
Context {W : Type} `{Backend W, QueryApi W, Zod, Dates}.

(** Every relay of the web application. *)
Definition admin_relays (cookies : jar) (input : option json) : list {A : Type & web W (AdminOutcome A)} :=
  [existT _ (loadAlertRulesFn cookies); existT _ (createAlertRuleFn cookies input);
   existT _ (updateAlertRuleFn cookies input); existT _ (deleteAlertRuleFn cookies input);
   existT _ (createApiKeyFn cookies input); existT _ (revokeApiKeyFn cookies input);
   existT _ (cpListInvites cookies); existT _ (cpCreateInvite cookies input); existT _ (cpRevokeInvite cookies input);
   existT _ (createUserFn cookies input); existT _ (updateUserFn cookies input); existT _ (deleteUserFn cookies input);
   existT _ (updateRetentionFn cookies input); existT _ (Dashboards.loadDashboardsFn cookies);
   existT _ (Dashboards.loadDashboardFn cookies input); existT _ (Dashboards.createDashboardFn cookies input);
   existT _ (Dashboards.updateDashboardFn cookies input); existT _ (Dashboards.deleteDashboardFn cookies input);
   existT _ (Dashboards.loadSavedQueriesFn cookies)].

Definition other_relays (cookies : jar) (input : option json) : list {A : Type & web W A} :=
  [existT _ (loadAdminFn cookies); existT _ (searchFn cookies input); existT _ (loadPanelDataFn cookies input)].

(** Refused, with no request sent and nothing set. *)
Definition refused {A} (p : web W A) : Prop :=
  forall s, exists e, p s = (Err e, s) /\ (e = RedirectTo login_path \/ e = ZodError).

Lemma refused_validated {A B} (s : schema A) (handler : A -> web W B) input :
  (forall data, refused (handler data)) -> refused (validated s handler input).
Proof.
  intros Hh st. unfold validated. destruct (parsed s input) as [data|]; [apply Hh|]. eexists. split; [done|by right].
Qed.

Lemma ended_refused {A} : refused (ensureSession (A := A) (admin_failed session_ended)).
Proof. intros st. eexists. split; [done|by left]. Qed.

(** [ensureSession] lets no ended session through. *)
Lemma ensured {A} (p : web W (AdminOutcome A)) s error s' :
  (out ← p; ensureSession out) s = (Ok (admin_failed error), s') -> ae_kind error <> unauthorized.
Proof.
  rewrite web_bind_run. destruct (p s) as [[[data|e]|e] s1]; cbn [ensureSession]; try done.
  case_bool_decide; [done|]. by intros [= <- _].
Qed.

Lemma ensured_validated {A B} (sc : schema A) (p : A -> web W (AdminOutcome B)) input s error s' :
  validated sc (fun data => out ← p data; ensureSession out) input s = (Ok (admin_failed error), s') ->
  ae_kind error <> unauthorized.
Proof. unfold validated. destruct (parsed sc input); [apply ensured|done]. Qed.

Lemma usable_usable cookie t : usable cookie = Some t -> usable (Some t) = Some t.
Proof. destruct cookie as [v|]; cbn; [|done]. destruct (truthy v) eqn:E; [|done]. intros [= <-]. by rewrite E. Qed.

(** *** A session the services no longer accept *)

(** Both services answer every request 401. *)
Definition turned_away : Prop :=
  (forall i w, exists res w', fetch i w = (Some res, w') /\ fr_status res = 401%Z) /\
  (forall path auth w, exists res w', query_get path auth w = (Some res, w') /\ fr_status res = 401%Z).

(** Not an outcome: a redirect to the login page, or a refused input. *)
Definition redirected {A} (p : web W A) : Prop :=
  forall s, exists e s', p s = (Err e, s') /\ (e = RedirectTo login_path \/ e = ZodError).

Definition answers_401 {A} (p : web W A) : Prop :=
  forall s, exists code message s', p s = (Err (ControlPlaneError 401 code message), s').

Lemma cpFetch_401 i : turned_away -> answers_401 (cpFetch i).
Proof.
  intros [Hf _] [w r]. unfold cpFetch. destruct (Hf i w) as (res & w' & -> & Hs). unfold res_ok. rewrite Hs.
  destruct (if truthy _ then _ else _); by eexists _, _, _.
Qed.

Lemma send_401 {A} t m path (s : schema A) body : turned_away -> answers_401 (cpAuthedSend t m path s body).
Proof.
  intros Ht st. unfold cpAuthedSend. rewrite web_bind_run.
  destruct (cpFetch_401 (mkFetch m path (bearer t) body) Ht st) as (c & msg & s' & ->). by eexists _, _, _.
Qed.

Lemma fetch_401 {A} t path (s : schema A) : turned_away -> answers_401 (cpAuthedFetch t path s).
Proof. apply (send_401 t GET path s None). Qed.

(** A call answered 401, or without a token, is the ended session. *)
Lemma run_admin_401 {A} token (call : jsstr -> web W A) s :
  (forall t, answers_401 (call t)) -> exists s', run_admin token call s = (Ok (admin_failed session_ended), s').
Proof.
  intros Hc. unfold run_admin. destruct (usable token) as [t|]; [|by eexists].
  unfold attempt. rewrite web_bind_run. destruct (Hc t s) as (c & msg & s' & ->). by eexists.
Qed.

Lemma admin_redirected {A} token (call : jsstr -> web W A) :
  (forall t, answers_401 (call t)) -> redirected (out ← run_admin token call; ensureSession out).
Proof.
  intros Hc s. rewrite web_bind_run. destruct (run_admin_401 token call s Hc) as [s' ->]. eexists _, _. split; [done|by left].
Qed.

Lemma dashboards_redirected {A} token (call : jsstr -> web W A) :
  (forall t, answers_401 (call t)) -> redirected (out ← Dashboards.run_dashboards token call; ensureSession out).
Proof. apply (admin_redirected token call). Qed.

Lemma redirected_validated {A B} (s : schema A) (handler : A -> web W B) input :
  (forall data, redirected (handler data)) -> redirected (validated s handler input).
Proof.
  intros Hh st. unfold validated. destruct (parsed s input) as [data|]; [apply Hh|]. eexists _, _. split; [done|by right].
Qed.

Lemma search_redirected cookies input : turned_away -> redirected (searchFn cookies input).
Proof.
  intros [_ Hq]. apply redirected_validated. intros data [w r]. unfold search_handler.
  destruct (usable (getCookie cookies ACCESS_COOKIE)) as [t|] eqn:Et; [|eexists _, _; split; [done|by left]].
  rewrite web_bind_run. unfold searchUpstream. rewrite (usable_usable _ _ Et).
  match goal with |- context [query_get ?p ?a w] => destruct (Hq p a w) as (res & w' & -> & Hs) end.
  unfold res_ok. rewrite Hs. destruct (response_body res); eexists _, _; (split; [done|by left]).
Qed.

Lemma panel_redirected cookies input : turned_away -> redirected (loadPanelDataFn cookies input).
Proof.
  intros [_ Hq]. apply redirected_validated. intros data [w r]. unfold panel_handler.
  destruct (usable (getCookie cookies ACCESS_COOKIE)) as [t|] eqn:Et; [|eexists _, _; split; [done|by left]].
  rewrite web_bind_run. unfold panelDataUpstream. rewrite (usable_usable _ _ Et).
  match goal with |- context [query_get ?p ?a w] => destruct (Hq p a w) as (res & w' & -> & Hs) end.
  unfold res_ok. rewrite Hs. destruct (response_body res); eexists _, _; (split; [done|by left]).
Qed.

(** The load of the admin page keeps the answers, the ended session among them. *)
Lemma load_admin_401 cookies claims s :
  turned_away -> usable (cookies !! ACCESS_COOKIE) <> None -> decodeAccessClaims (cookies !! ACCESS_COOKIE) = Some claims ->
  exists d s', loadAdminFn cookies s = (Ok d, s') /\
    ad_tenant d = admin_failed session_ended /\ ad_retention d = admin_failed session_ended.
Proof.
  intros Ht Hu Hc. unfold loadAdminFn, loadAdminData, getCookie. destruct (usable _); [|done]. rewrite Hc, !web_bind_run.
  destruct (run_admin_401 (cookies !! ACCESS_COOKIE) (fun t => cpAuthedFetch t (js "/v1/tenants/" ++ ac_tenant_id claims)
    tenantResponseSchema) s) as [s1 E1]; [intros; by apply fetch_401|].
  unfold getTenantUpstream. rewrite E1, web_bind_run.
  assert (Hret : forall s, exists s', getRetentionUpstream (cookies !! ACCESS_COOKIE) s = (Ok (admin_failed session_ended), s')).
  { intros s0. apply run_admin_401. intros t st. unfold attempt. rewrite web_bind_run.
    destruct (fetch_401 t (js "/v1/retention") retentionResponseSchema Ht st) as (c & msg & s' & ->). by eexists _, _, _. }
  destruct (Hret s1) as [s2 ->].
  assert (Hlist : forall A role op (call : jsstr -> web W A) s, (forall t, answers_401 (call t)) ->
    exists o s', if_can role op (run_admin (cookies !! ACCESS_COOKIE) call) s = (Ok o, s')).
  { intros A role op call s0 Hcall. unfold if_can. destruct (ui_can role op); [|by eexists _, _].
    rewrite web_bind_run. destruct (run_admin_401 (cookies !! ACCESS_COOKIE) call s0 Hcall) as [s' ->]. by eexists _, _. }
  unfold listUsersUpstream, listApiKeysUpstream, listInvitesUpstream.
  repeat (rewrite web_bind_run; match goal with |- context [if_can ?role ?op (run_admin _ ?call) ?s] =>
    destruct (Hlist _ role op call s) as (? & ? & ->); [intros; by apply fetch_401|] end).
  by eexists _, _.
Qed.

(** C38. The relays fail closed, whatever the services are.  Without an access cookie
    every server function sends no request and sets nothing: it redirects to the login
    page or refuses its input.  No relay that answers an outcome answers the ended session
    as one.  When both services answer 401, every relay but one redirects to the login
    page or refuses its input.  The exception is the load of the admin page: there the
    ended session comes back inside the data, for the sections of the page to show. *)
Theorem relays_fail_closed cookies input :
  (usable (cookies !! ACCESS_COOKIE) = None ->
   Forall (fun p : {A : Type & web W (AdminOutcome A)} => refused (projT2 p)) (admin_relays cookies input) /\
   Forall (fun p => refused (projT2 p)) (other_relays cookies input)) /\
  Forall (fun p : {A : Type & web W (AdminOutcome A)} => forall s error s', projT2 p s = (Ok (admin_failed error), s') -> ae_kind error <> unauthorized)
    (admin_relays cookies input) /\
  (turned_away ->
   Forall (fun p : {A : Type & web W (AdminOutcome A)} => redirected (projT2 p)) (admin_relays cookies input) /\
   redirected (searchFn cookies input) /\ redirected (loadPanelDataFn cookies input) /\
   forall claims s, usable (cookies !! ACCESS_COOKIE) <> None -> decodeAccessClaims (cookies !! ACCESS_COOKIE) = Some claims ->
     exists d s', loadAdminFn cookies s = (Ok d, s') /\
       ad_tenant d = admin_failed session_ended /\ ad_retention d = admin_failed session_ended).
Proof.
  split; [|split].
  - intros Hno.
    assert (Hrun : forall A (call : jsstr -> web W A), refused (out ← run_admin (cookies !! ACCESS_COOKIE) call; ensureSession out)).
    { intros A call s. rewrite web_bind_run. unfold run_admin. rewrite Hno. apply ended_refused. }
    assert (Hdash : forall A (call : jsstr -> web W A), refused (out ← Dashboards.run_dashboards (cookies !! ACCESS_COOKIE) call; ensureSession out)).
    { intros A call s. rewrite web_bind_run. unfold Dashboards.run_dashboards. rewrite Hno. apply ended_refused. }
    split; unfold admin_relays, other_relays; repeat constructor; cbn [projT2];
      first [apply Hrun | apply Hdash | apply refused_validated; intros data; (apply Hrun || apply Hdash) | idtac].
    + intros s. unfold loadAdminFn. rewrite web_bind_run. unfold loadAdminData, getCookie. rewrite Hno. eexists. split; [done|by left].
    + apply refused_validated. intros data s. unfold search_handler, getCookie. rewrite Hno. eexists. split; [done|by left].
    + apply refused_validated. intros data s. unfold panel_handler, getCookie. rewrite Hno. eexists. split; [done|by left].
  - unfold admin_relays. repeat constructor; cbn [projT2]; intros s error s'; (apply ensured || apply ensured_validated).
  - intros Ht. split_and!; [|by apply search_redirected|by apply panel_redirected|intros; by eapply load_admin_401].
    unfold admin_relays. repeat constructor; cbn [projT2];
      try (apply redirected_validated; intros data);
      (apply admin_redirected || apply dashboards_redirected); intros t; (by apply fetch_401) || (by apply send_401).
Qed.

End Closed.

(** ** Through the control plane *)

Lemma bearer_text t :
  t <> [] -> forallb (fun c => negb (is_line_terminator c)) t = true ->
  forall body params, bearer_of (mkRequest (bearer t) params body None) = Some t.
Proof.
  intros Hne Hl body params. unfold bearer_of, bearer. cbn [req_authorization mbind option_bind].
  change (truthy (js "Bearer " ++ t)) with true. unfold BEARER. change (startsWith (js "Bearer " ++ t) (js "Bearer ")) with true.
  cbn match. change (drop 7 (js "Bearer " ++ t)) with t. rewrite Hl. by destruct t.
Qed.

Section Composed.
Context `{HttpServerLaws, ZodLaws, Crypto, Unicode, Entropy, Bcrypt, Jose, Net}.
Context (cost : Z) (jwt : JoseTokenConfig) (ttl : Z) (email : EmailSender world) (invites : InviteConfig)
  (store : OAuthStateStore world) (google : GoogleConfig) (ping : prog world bool).

#[local] Abbreviation deps := (pg_route_deps cost jwt ttl email invites store google ping).
#[local] Instance cp_admin : Backend world := control_plane deps.

(** A request, relayed: the effect is the control plane's. *)
Lemma relay_effect {A} route params m path (s : schema A) t body w r :
  router m path = Some (route, params) -> t <> [] ->
  exists out, (out ← run_admin (Some t) (fun t => cpAuthedSend t m path s body); ensureSession out) (w, r)
    = (out, ((run (serve deps route (mkRequest (bearer t) params body None)) w).2, r)).
Proof.
  intros Hr Hne. unfold run_admin. rewrite (proj2 (usable_Some (Some t) t) (conj eq_refl Hne)), web_bind_run.
  unfold attempt. rewrite web_bind_run. unfold cpAuthedSend.
  destruct (fetch_parse_frame (mkFetch m path (bearer t) body) s w r) as (out & -> & _).
  assert (Ef : (fetch (mkFetch m path (bearer t) body) w).2
    = (run (serve deps route (mkRequest (bearer t) params body None)) w).2).
  { cbn [fetch cp_admin control_plane fi_method fi_path fi_authorization fi_body].
    rewrite Hr. by destruct (run (serve deps route _) w) as [[?|?] ?]. }
  rewrite Ef. set (w' := (run _ w).2). clearbody w'. destruct out as [a|e]; cbn [mret web_ret ensureSession].
  - by eexists.
  - unfold ensureSession. destruct (bool_decide _); by eexists.
Qed.

Lemma serve_effect {A} route op params t ctx body w (c : use_case A) reply :
  route_operation route = Some op -> t <> [] -> forallb (fun c => negb (is_line_terminator c)) t = true ->
  caller_of jwt (w_now w) t = Some ctx ->
  protected_handler route (set_tenantContext ctx (mkRequest (bearer t) params body None)) = mret (Call c reply) ->
  (run (serve deps route (mkRequest (bearer t) params body None)) w).2
  = if can (ctx_role ctx) op then (run (perform_as (pg_ports cost email invites) ctx c) w).2 else w.
Proof.
  intros Hop Hne Hl Hcl Hc. pose proof (bearer_text t Hne Hl body params) as Hb. destruct (can (ctx_role ctx) op) eqn:Ecan.
  - rewrite (serve_call cost jwt ttl email invites store google ping route op _ t ctx w c reply Hop Hb Hcl Ecan Hc).
    destruct (run (perform_as _ ctx c) w) as [[a|e] w']; [|done].
    by destruct (handler_reply route _ (Call c reply) Hc a) as [resp ->].
  - unfold serve, handle. rewrite run_catch, Hop. change (rd_tokenService _) with (JoseTokenService jwt).
    by rewrite run_gate, Hb, Hcl, Ecan.
Qed.

(** A call of a page: its request, served. *)
Lemma call_effect {A B} route params op m path (s : schema A) t ctx body w r (c : use_case B) reply :
  router m path = Some (route, params) -> route_operation route = Some op ->
  t <> [] -> forallb (fun c => negb (is_line_terminator c)) t = true -> caller_of jwt (w_now w) t = Some ctx ->
  protected_handler route (set_tenantContext ctx (mkRequest (bearer t) params body None)) = mret (Call c reply) ->
  exists out, (out ← run_admin (Some t) (fun t => cpAuthedSend t m path s body); ensureSession out) (w, r)
    = (out, (if can (ctx_role ctx) op then (run (perform_as (pg_ports cost email invites) ctx c) w).2 else w, r)).
Proof.
  intros Hr Hop Hne Hl Hcl Hc. destruct (relay_effect route params m path s t body w r Hr Hne) as [out ->].
  exists out. by rewrite (serve_effect route op params t ctx body w c reply).
Qed.

(** ** The theorem *)

(** The forms of the admin page do what they say.  Sent by a caller the control
    plane accepts, what the form's contract accepted reaches the service unchanged, and
    the effect on everything stored is that of the use case run as this caller, or none
    if the role does not allow it: for users, invitations, API keys and retention. *)
Theorem admin_forms_run cookies input t ctx w r
    (Hc : cookies !! ACCESS_COOKIE = Some t) (Hne : t <> [])
    (Hl : forallb (fun c => negb (is_line_terminator c)) t = true) (Hcl : caller_of jwt (w_now w) t = Some ctx) :
  let effect op {A} (c : use_case A) :=
    if can (ctx_role ctx) op then (run (perform_as (pg_ports cost email invites) ctx c) w).2 else w in
  (forall cmd, parsed createUserRequestSchema input = Some cmd ->
     exists out, createUserFn cookies input (w, r) = (out, (effect user_create (UserCreate cmd), r))) /\
  (forall cmd, parsed createInviteRequestSchema input = Some cmd ->
     exists out, cpCreateInvite cookies input (w, r) = (out, (effect invite_create (InviteCreate cmd), r))) /\
  (forall cmd, parsed createApiKeyRequestSchema input = Some cmd ->
     let expiresAt := e ← kq_expiresAt cmd; if truthy e then Some (js_Date e) else None in
     exists out, createApiKeyFn cookies input (w, r) =
       (out, (effect apikey_create (ApiKeyIssue (mkIssueApiKeyCommand (kq_name cmd) (Some (kq_scopes cmd)) (Some expiresAt))), r))) /\
  (forall cmd, parsed upsertRetentionRequestSchema input = Some cmd ->
     exists out, updateRetentionFn cookies input (w, r) = (out, (effect retention_update (RetentionSet cmd), r))).
Proof.
  intros effect. split_and!; intros cmd Hp.
  - unfold createUserFn, validated, createUserUpstream, getCookie. rewrite Hp, Hc.
    eapply (call_effect POST_users); [by apply (literal_route POST_users)|try done..]. cbn [protected_handler]. unfold post_users. cbn [req_body set_tenantContext].
    by rewrite (parse_Some _ _ cmd (create_user_kept _ _ Hp)).
  - unfold cpCreateInvite, validated, createInviteUpstream, getCookie. rewrite Hp, Hc.
    eapply (call_effect POST_invites); [by apply (literal_route POST_invites)|try done..]. cbn [protected_handler]. unfold post_invites. cbn [req_body set_tenantContext].
    by rewrite (parse_Some _ _ cmd (create_invite_kept _ _ Hp)).
  - unfold createApiKeyFn, validated, createApiKeyUpstream, getCookie. rewrite Hp, Hc.
    eapply (call_effect POST_api_keys); [by apply (literal_route POST_api_keys)|try done..]. cbn [protected_handler]. unfold post_api_keys. cbn [req_body set_tenantContext].
    by rewrite (parse_Some _ _ cmd (create_api_key_kept _ _ Hp)).
  - unfold updateRetentionFn, validated, updateRetentionUpstream, getCookie. rewrite Hp, Hc.
    eapply (call_effect PUT_retention); [by apply (literal_route PUT_retention)|try done..]. cbn [protected_handler]. unfold put_retention. cbn [req_body set_tenantContext].
    by rewrite (parse_Some _ _ cmd (retention_kept _ _ Hp)).
Qed.

End Composed.

(** ** Witness *)

Definition demo_user_form : json :=
  JObj [(js "email", JStr (js "dan@acme.io")); (js "password", JStr (js "correct horse"))].

(** Alice, the administrator, adds a user. *)
Lemma admin_forms_run_witness : exists out w',
  @createUserFn world (@control_plane demo_http demo_formats demo_zod demo_crypto ascii_unicode demo_entropy (demo_deps_of one_token))
    demo_formats demo_zod token_jar (Some demo_user_form) (demo_world, no_reply) = (out, (w', no_reply)) /\
  length (d_users (w_db w')) = 3.
Proof.
  destruct (@admin_forms_run demo_http demo_http_laws demo_formats demo_zod demo_zod_laws demo_crypto ascii_unicode demo_entropy
    demo_bcrypt one_token demo_net 10 demo_jwt 1000 NoOpEmailSender demo_config InMemoryOAuthStateStore.store demo_google
    (mret true) token_jar (Some demo_user_form) (js "tok") demo_ctx demo_world no_reply eq_refl) as (Hu & _).
  - discriminate.
  - vm_compute. reflexivity.
  - vm_compute. reflexivity.
  - assert (E : exists cmd, @parsed demo_formats demo_zod _ createUserRequestSchema (Some demo_user_form) = Some cmd /\
      length (d_users (w_db (if can (ctx_role demo_ctx) user_create
        then (run (@perform_as demo_crypto ascii_unicode (@pg_ports demo_entropy demo_bcrypt 10 NoOpEmailSender demo_config)
                demo_ctx _ (UserCreate cmd)) demo_world).2 else demo_world))) = 3)
      by (eexists; split; [vm_compute; reflexivity|vm_compute; reflexivity]).
    destruct E as (cmd & Ec & El). destruct (Hu cmd Ec) as [out E].
    eexists out, _. split; [exact E|exact El].
Defined.

(** Services that no longer accept the session. *)
Definition refusing_backend : Backend unit := {| fetch := fun _ w => (Some (mkFetchResponse 401 [] None), w) |}.
Definition refusing_query_api : QueryApi unit := {| query_get := fun _ _ w => (Some (mkFetchResponse 401 [] None), w) |}.

Definition ended_token : jsstr := js "e30." ++ demo_segment (access_payload demo_jwt (mkSessionClaims acme alice member) 1000) ++ js ".sig".

(** The list of rules redirects; the load of the admin page does not. *)
Lemma relays_fail_closed_witness :
  let cookies := {[ ACCESS_COOKIE := ended_token ]} in
  (exists e s', @loadAlertRulesFn unit refusing_backend demo_formats demo_zod cookies (tt, no_reply) = (Err e, s') /\
     (e = RedirectTo login_path \/ e = ZodError)) /\
  exists d s', @loadAdminFn unit refusing_backend demo_formats demo_zod cookies (tt, no_reply) = (Ok d, s') /\
    ad_tenant d = admin_failed session_ended.
Proof.
  intros cookies.
  destruct (@relays_fail_closed unit refusing_backend refusing_query_api demo_formats demo_zod no_dates cookies None)
    as (_ & _ & Ht).
  destruct Ht as (Hr & _ & _ & Hl); [by split; intros; eexists _, _|]. split.
  - exact (Forall_inv Hr (tt, no_reply)).
  - assert (Ed : exists c, @decodeAccessClaims demo_formats demo_zod (cookies !! ACCESS_COOKIE) = Some c)
      by (eexists; vm_compute; reflexivity).
    destruct Ed as [c Ed]. destruct (Hl c (tt, no_reply)) as (d & s' & E & Hd & _); [by vm_compute|exact Ed|].
    exists d, s'. split; [exact E|exact Hd].
Defined.
