(* ===== verification/React.v ===== *)
(** * Interactive pages

    What the components of the web application are to the browser: a state, a view of
    the state, and event handlers.  A handler sets state and awaits calls; while a call
    is pending the page stays responsive, so that handlers interleave at every await.
    The form and dialog libraries are the environment: a form calls its [onSubmit] with
    any values at any time, a dialog may be dismissed at any time, and the data a
    component is given may change between any two events.  A logic for handlers turns
    facts about every handler a view offers into facts about every run. *)

From stdpp Require Import base list option numbers relations.
From S2P Require Import Prelude.

(** ** Handlers *)

(** A settled promise; the reason of a rejection is never looked at. *)
Inductive settled (A : Type) := Fulfilled (a : A) | Rejected.
Arguments Fulfilled {A} _.
Arguments Rejected {A}.

(** The parts of a form: how each reads and writes the form's values. *)
Inductive control (V : Type) :=
| TextField (label : jsstr) (value : V -> jsstr) (onChange : jsstr -> V -> V)
| SelectField {A : Type} (label : jsstr) (options : list (A * jsstr)) (value : V -> A) (onChange : A -> V -> V)
| CheckboxField (label : jsstr) (checked : V -> bool) (onChange : bool -> V -> V)
| ValueButton (label : jsstr) (onClick : V -> V)
| Caption (s : jsstr).
Arguments TextField {V} _ _ _.
Arguments SelectField {V A} _ _ _ _.
Arguments CheckboxField {V} _ _ _.
Arguments ValueButton {V} _ _.
Arguments Caption {V} _.

Section React.
Context {call : Type} {answer : call -> Type}.

(** [S] is the state of the component. *)
Inductive handler (S : Type) :=
| Return
| SetState (f : S -> S) (k : handler S)
| Await (c : call) (k : settled (answer c) -> handler S).
Arguments Return {S}.
Arguments SetState {S} _ _.
Arguments Await {S} _ _.

(** [const x = await c; ...]: a rejection ends the handler. *)
Definition await {S} (c : call) (k : answer c -> handler S) : handler S :=
  Await c (fun r => match r with Fulfilled a => k a | Rejected => Return end).

(** [try { const x = await c; ... } catch { ... }]. *)
Definition try_await {S} (c : call) (k : answer c -> handler S) (catch : handler S) : handler S :=
  Await c (fun r => match r with Fulfilled a => k a | Rejected => catch end).

(** ** Views *)

Inductive tone := neutral | brand | success | warning | danger | info.

(** What a component shows, in document order; layout and style are left out. *)
Inductive widget (S : Type) :=
| Text (s : jsstr)
| Badge (t : tone) (s : jsstr)
| Alert (t : tone) (title body : jsstr)
| Link (to : jsstr) (s : jsstr)
| Button (label : jsstr) (disabled : bool) (onClick : handler S)
| ClickAt (label : jsstr) (onClick : Z -> handler S)         (* a button whose handler reads the clock *)
| Input (value : jsstr) (onChange : jsstr -> handler S)
| Dismiss (onClose : handler S)                             (* of a dialog: Escape, the backdrop *)
| Form {V : Type} (defaultValues : V) (fields : V -> list (control V)) (submit : jsstr) (onSubmit : V -> handler S).
Arguments Text {S} _.
Arguments Badge {S} _ _.
Arguments Alert {S} _ _ _.
Arguments Link {S} _ _.
Arguments Button {S} _ _ _.
Arguments ClickAt {S} _ _.
Arguments Input {S} _ _.
Arguments Dismiss {S} _.
Arguments Form {S} {V} _ _ _ _.

(** [{cond ? widgets : null}]. *)
Definition shown {S} (cond : bool) (ws : list (widget S)) : list (widget S) := if cond then ws else [].

Definition shown_with {S A} (o : option A) (ws : A -> list (widget S)) : list (widget S) :=
  match o with Some a => ws a | None => [] end.

(** A page, and the dialogs open over it: modal, the page below does not react. *)
Record rendered S := mkRendered { page : list (widget S); dialogs : list (list (widget S)) }.
Arguments mkRendered {S} _ _.
Arguments page {S} _.
Arguments dialogs {S} _.

Definition actionable {S} (r : rendered S) : list (widget S) :=
  match dialogs r with [] => page r | ds => concat ds end.

(** The clock: a time value of the language, after 1970. *)
Definition clock (now : Z) : Prop := (0 <= now <= 8640000000000000)%Z.

(** The handlers that a widget may start. *)
Definition starts {S} (w : widget S) (h : handler S) : Prop :=
  match w with
  | Button _ disabled onClick => disabled = false /\ h = onClick
  | ClickAt _ onClick => exists now, clock now /\ h = onClick now
  | Input _ onChange => exists v, h = onChange v
  | Dismiss onClose => h = onClose
  | Form _ _ _ onSubmit => exists v, h = onSubmit v
  | _ => False
  end.

(** ** Runs *)

Record component := mkComponent {
  State : Type;
  Props : Type;
  initial : State;
  view : Props -> State -> rendered State
}.

Inductive suspended (S : Type) := Suspended (c : call) (k : settled (answer c) -> handler S).
Arguments Suspended {S} _ _.

Definition awaited {S} (p : suspended S) : call := match p with Suspended c _ => c end.

(** The state, the pending handlers, and every call made so far. *)
Record run_state S := mkRun { state : S; pending : list (suspended S); calls : list call }.
Arguments mkRun {S} _ _ _.
Arguments state {S} _.
Arguments pending {S} _.
Arguments calls {S} _.

(** A handler, up to its next await. *)
Fixpoint advance {S} (h : handler S) (r : run_state S) : run_state S :=
  match h with
  | Return => r
  | SetState f k => advance k (mkRun (f (state r)) (pending r) (calls r))
  | Await c k => mkRun (state r) (pending r ++ [Suspended c k]) (calls r ++ [c])
  end.

Definition resume {S} (i : nat) (h : handler S) (r : run_state S) : run_state S :=
  advance h (mkRun (state r) (delete i (pending r)) (calls r)).

Inductive step (C : component) : relation (run_state (State C)) :=
| step_event props w h r :
    w ∈ actionable (view C props (state r)) -> starts w h -> step C r (advance h r)
| step_settled i c k a r :
    pending r !! i = Some (Suspended c k) -> step C r (resume i (k a) r).

Definition mounted (C : component) : run_state (State C) := mkRun (initial C) [] [].

Definition reachable (C : component) (r : run_state (State C)) : Prop := rtc (step C) (mounted C) r.

(** ** A logic of handlers *)

(** Every state change keeps [I], every call satisfies [P]. *)
Fixpoint keeps {S} (I : S -> Prop) (P : call -> Prop) (h : handler S) : Prop :=
  match h with
  | Return => True
  | SetState f k => (forall s, I s -> I (f s)) /\ keeps I P k
  | Await c k => P c /\ forall a, keeps I P (k a)
  end.

(** Every handler that a widget may start. *)
Definition offers {S} (R : handler S -> Prop) (w : widget S) : Prop := forall h, starts w h -> R h.

Definition suspended_keeps {S} (I : S -> Prop) (P : call -> Prop) (p : suspended S) : Prop :=
  match p with Suspended c k => forall a, keeps I P (k a) end.

(** The invariant of runs. *)
Record run_keeps {S} (I : S -> Prop) (P : call -> Prop) (r : run_state S) : Prop := {
  rk_state : I (state r);
  rk_pending : Forall (suspended_keeps I P) (pending r);
  rk_calls : Forall P (calls r)
}.

(** Widgets of a view, one by one. *)
Section Widgets.
Context {S : Type} (R : handler S -> Prop).

Lemma offers_text s : offers R (Text s).
Proof. by intros h []. Qed.

Lemma offers_badge t s : offers R (Badge t s).
Proof. by intros h []. Qed.

Lemma offers_alert t a b : offers R (Alert t a b).
Proof. by intros h []. Qed.

Lemma offers_link a b : offers R (Link a b).
Proof. by intros h []. Qed.

Lemma offers_button l b h : (b = false -> R h) -> offers R (Button l b h).
Proof. intros Hh h' [Hb ->]. by apply Hh. Qed.

Lemma offers_click_at l f : (forall now, clock now -> R (f now)) -> offers R (ClickAt l f).
Proof. intros Hf h (now & Hn & ->). by apply Hf. Qed.

Lemma offers_input v f : (forall v, R (f v)) -> offers R (Input v f).
Proof. intros Hf h [x ->]. apply Hf. Qed.

Lemma offers_dismiss h : R h -> offers R (Dismiss h).
Proof. by intros Hh h' ->. Qed.

Lemma offers_form {V} (d : V) fields l f : (forall v, R (f v)) -> offers R (Form d fields l f).
Proof. intros Hf h [v ->]. apply Hf. Qed.

Lemma offers_shown b ws : (b = true -> Forall (offers R) ws) -> Forall (offers R) (shown b ws).
Proof. intros Hw. destruct b; [by apply Hw|constructor]. Qed.

Lemma offers_shown_with {A} (o : option A) ws : (forall a, o = Some a -> Forall (offers R) (ws a)) -> Forall (offers R) (shown_with o ws).
Proof. intros Hw. destruct o; [by apply Hw|constructor]. Qed.

Lemma offers_each {A} (f : A -> list (widget S)) l : (forall a, Forall (offers R) (f a)) -> Forall (offers R) (flat_map f l).
Proof. intros Hf. induction l as [|a l IH]; [constructor|]. by apply Forall_app. Qed.

End Widgets.

Lemma advance_keeps {S} (I : S -> Prop) P h r : keeps I P h -> run_keeps I P r -> run_keeps I P (advance h r).
Proof.
  revert r. induction h as [|f k IH|c k IH]; intros r Hh [Hs Hp Hc]; cbn [advance keeps] in *; [done| |].
  - destruct Hh as [Hf Hk]. apply IH; [done|]. by split; [apply Hf|..].
  - destruct Hh as [HP Hk]. split; [done|..]; apply Forall_app; split; try done; by constructor.
Qed.

Lemma resume_keeps {S} (I : S -> Prop) P i h r : keeps I P h -> run_keeps I P r -> run_keeps I P (resume i h r).
Proof. intros Hh [Hs Hp Hc]. apply advance_keeps; [done|]. split; cbn; [done| |done]. by apply Forall_delete. Qed.

(** Views of states that satisfy [I] offer only handlers that keep it. *)
Definition view_keeps (C : component) (I : State C -> Prop) (P : call -> Prop) : Prop :=
  forall props s, I s -> Forall (offers (keeps I P)) (actionable (view C props s)).

Lemma step_keeps C I P r r' : view_keeps C I P -> run_keeps I P r -> step C r r' -> run_keeps I P r'.
Proof.
  intros Hv Hr Hst. revert Hr. destruct Hst as [props w h r Hw Hst|i c k a r Hi]; intros Hr.
  - apply advance_keeps; [|done]. eapply Forall_forall in Hw; [|apply Hv, Hr]. by apply Hw.
  - apply resume_keeps; [|done]. eapply Forall_lookup_1 in Hi; [|apply Hr]. apply Hi.
Qed.

Lemma reachable_keeps C I P r : I (initial C) -> view_keeps C I P -> reachable C r -> run_keeps I P r.
Proof.
  intros Hi Hv Hr. revert r Hr. refine (rtc_ind_r _ _ _ _).
  - split; cbn; [done|constructor..].
  - intros r r' _ Hst IH. by eapply step_keeps.
Qed.

End React.

(** The widgets of a view, reduced to the handlers they start. *)
Ltac widgets :=
  repeat first
    [ apply Forall_nil_2 | apply Forall_cons_2 | apply Forall_app_2
    | apply offers_shown; intros ? | apply offers_shown_with; intros ? ? | apply offers_each; intros ?
    | apply offers_text | apply offers_badge | apply offers_alert | apply offers_link
    | apply offers_button; intros ? | apply offers_click_at; intros ? ? | apply offers_input; intros ?
    | apply offers_dismiss | apply offers_form; intros ? ].

Arguments Return {call answer S}.
Arguments SetState {call answer S} _ _.
Arguments Await {call answer S} _ _.
Arguments Text {call answer S} _.
Arguments Badge {call answer S} _ _.
Arguments Alert {call answer S} _ _ _.
Arguments Link {call answer S} _ _.
Arguments Button {call answer S} _ _ _.
Arguments ClickAt {call answer S} _ _.
Arguments Input {call answer S} _ _.
Arguments Dismiss {call answer S} _.
Arguments Form {call answer S} {V} _ _ _ _.
Arguments mkRendered {call answer S} _ _.
Arguments Suspended {call answer S} _ _.
Arguments mkRun {call answer S} _ _ _.
Arguments handler {call} answer S.
Arguments widget {call} answer S.
Arguments rendered {call} answer S.
Arguments component {call} answer.
Arguments run_state {call} answer S.
Arguments page {call answer S} _.
Arguments dialogs {call answer S} _.
Arguments state {call answer S} _.
Arguments pending {call answer S} _.
Arguments calls {call answer S} _.
Arguments suspended {call} answer S.
Arguments awaited {call answer S} _.
