(* ===== verification/Pages.v ===== *)
(** * Calls of the pages, and the confirmation of removals

    The components under [features/] reach the server functions through callbacks that
    the routes pass to them ([routes/_authed/admin.tsx], [alerts.tsx], [dashboards/]).
    [page_call] lists these callbacks.  Five components repeat one piece of code word for
    word: a dialog that asks before something is removed.  It is defined here once, over
    the part of a component's state that it uses, with what holds of every run. *)

From stdpp Require Import base list option relations strings gmap.
From S2P Require Import Prelude Errors Rbac Email Entities Ports Services UseCases Invites Zod Contracts AdminBff React.

(** ** Calls *)

Abbreviation UserResponse := (infer userResponseSchema).
Abbreviation ApiKeyResponse := (infer apiKeyResponseSchema).
Abbreviation ApiKeyCreatedResponse := (infer apiKeyCreatedResponseSchema).
Abbreviation InviteResponse := (infer inviteResponseSchema).
Abbreviation InviteCreatedResponse := (infer inviteCreatedResponseSchema).
Abbreviation RetentionResponse := (infer retentionResponseSchema).
Abbreviation TenantResponse := (infer tenantResponseSchema).
Abbreviation AlertRuleResponse := (infer alertRuleResponseSchema).
Abbreviation DashboardResponse := (infer dashboardResponseSchema).
Abbreviation SavedQueryResponse := (infer savedQueryResponseSchema).

Inductive page_call :=
| IssueApiKey (body : CreateApiKeyRequest)
| RevokeApiKey (id : jsstr)
| CreateUser (body : CreateUserCommand)
| UpdateUser (id : jsstr) (patch : UpdateUserCommand)
| DeleteUser (id : jsstr)
| UpdateRetention (body : UpsertRetentionCommand)
| CreateInvite (body : CreateInviteCommand)
| RevokeInvite (id : jsstr)
| CreateAlertRule (body : CreateAlertRuleRequest)
| UpdateAlertRule (id : jsstr) (patch : AlertRulePatch)
| DeleteAlertRule (id : jsstr)
| CreateDashboard (body : CreateDashboardRequest)
| UpdateDashboard (id : jsstr) (patch : DashboardPatch)
| DeleteDashboard (id : jsstr)
| Invalidate                                                (* router.invalidate() *)
| WriteText (text : jsstr).                                 (* navigator.clipboard.writeText(text) *)

Definition page_answer (c : page_call) : Type :=
  match c with
  | IssueApiKey _ => AdminOutcome ApiKeyCreatedResponse
  | RevokeApiKey _ | DeleteUser _ | RevokeInvite _ | DeleteAlertRule _ | DeleteDashboard _ => AdminOutcome unit
  | CreateUser _ | UpdateUser _ _ => AdminOutcome UserResponse
  | UpdateRetention _ => AdminOutcome RetentionResponse
  | CreateInvite _ => AdminOutcome InviteCreatedResponse
  | CreateAlertRule _ | UpdateAlertRule _ _ => AdminOutcome AlertRuleResponse
  | CreateDashboard _ | UpdateDashboard _ _ => AdminOutcome DashboardResponse
  | Invalidate | WriteText _ => unit
  end.

(** The operation that the control plane checks for a call. *)
Definition call_operation (c : page_call) : option Operation :=
  match c with
  | IssueApiKey _ => Some apikey_create
  | RevokeApiKey _ => Some apikey_revoke
  | CreateUser _ => Some user_create
  | UpdateUser _ _ => Some user_update
  | DeleteUser _ => Some user_delete
  | UpdateRetention _ => Some retention_update
  | CreateInvite _ => Some invite_create
  | RevokeInvite _ => Some invite_revoke
  | CreateAlertRule _ => Some alert_create
  | UpdateAlertRule _ _ => Some alert_update
  | DeleteAlertRule _ => Some alert_delete
  | CreateDashboard _ => Some dashboard_create
  | UpdateDashboard _ _ => Some dashboard_update
  | DeleteDashboard _ => Some dashboard_delete
  | Invalidate | WriteText _ => None
  end.

(** What is removed for good. *)
Definition removal (c : page_call) : bool :=
  match c with
  | RevokeApiKey _ | DeleteUser _ | RevokeInvite _ | DeleteAlertRule _ | DeleteDashboard _ => true
  | _ => false
  end.

Abbreviation page_handler := (handler page_answer).
Abbreviation page_widget := (widget page_answer).
Abbreviation page_component := (component page_answer).
Abbreviation page_run := (run_state page_answer).

(** [setX(...)], as the last thing a handler does. *)
Definition set_state {S} (f : S -> S) : page_handler S := SetState f Return.

(** [await onChanged()], as the last thing a handler does. *)
Definition on_changed {S} : page_handler S := await (answer := page_answer) Invalidate (fun _ => Return).

(** [issues.map((i) => i.message).join('. ')]. *)
Definition issue_text (messages : list jsstr) : jsstr := join messages (js ". ").

(** Characters outside ASCII. *)
Definition ellipsis : jsstr := [8230%N].
Definition quoted (t : jsstr) : jsstr := [8220%N] ++ t ++ [8221%N].
Definition middle_dot : jsstr := [32; 183; 32]%N.

(** ** The confirmation of a removal *)

Record confirm (T : Type) := mkConfirm { cf_target : option T; cf_busy : bool; cf_error : option jsstr }.
Arguments mkConfirm {T} _ _ _.
Arguments cf_target {T} _.
Arguments cf_busy {T} _.
Arguments cf_error {T} _.

Definition no_confirm {T} : confirm T := mkConfirm None false None.

Section Setters.
Context {T : Type}.
Definition set_target (t : option T) (c : confirm T) : confirm T := mkConfirm t (cf_busy c) (cf_error c).
Definition set_busy (b : bool) (c : confirm T) : confirm T := mkConfirm (cf_target c) b (cf_error c).
Definition set_error (e : option jsstr) (c : confirm T) : confirm T := mkConfirm (cf_target c) (cf_busy c) e.
End Setters.

(** The part of a component's state that a confirmation uses. *)
Class Part (S T : Type) := { part : S -> confirm T; on_part : (confirm T -> confirm T) -> S -> S }.
Class PartLaws S T `{Part S T} : Prop := { part_on_part f s : part (on_part f s) = f (part s) }.

Section Confirm.
Context {S T : Type} `{Part S T} (remove : T -> page_call) (failure : forall t, page_answer (remove t) -> option AdminError).

(** The click on a row's button. *)
Definition ask (t : T) : page_handler S :=
  SetState (on_part (set_error None)) (set_state (on_part (set_target (Some t)))).

Definition close_confirm : page_handler S := set_state (on_part (set_target None)).

(** After the answer. *)
Definition confirmed (t : T) (outcome : page_answer (remove t)) : page_handler S :=
  SetState (on_part (set_busy false))
    match failure t outcome with
    | None => SetState (on_part (set_target None)) on_changed
    | Some error => set_state (on_part (set_error (Some (ae_message error))))
    end.

(** [onDelete], [onRevoke]: the click on the dialog's button. *)
Definition onConfirm (s : S) : page_handler S :=
  match cf_target (part s) with
  | None => Return
  | Some t =>
      SetState (on_part (set_busy true)) (SetState (on_part (set_error None))
        (await (answer := page_answer) (remove t) (confirmed t)))
  end.

Definition confirm_dialog (title : jsstr) (description : T -> jsstr) (failed label busy : jsstr) (s : S) : list (page_widget S) :=
  shown_with (cf_target (part s)) (fun t =>
    [Dismiss close_confirm; Text title; Text (description t)]
    ++ shown_with (cf_error (part s)) (fun e => [Alert danger failed e])
    ++ [Button (js "Cancel") false close_confirm;
        Button (if cf_busy (part s) then busy else label) (cf_busy (part s)) (onConfirm s)]).

End Confirm.

(** The dialogs that are open. *)
Definition open_dialogs {S} (ds : list (list (page_widget S))) : list (list (page_widget S)) :=
  List.filter (fun d => match d with [] => false | _ => true end) ds.

(** ** Lemmas *)

Lemma offers_actionable {S} (R : page_handler S -> Prop) pg ds :
  Forall (offers R) pg -> Forall (Forall (offers R)) ds -> Forall (offers R) (actionable (mkRendered pg (open_dialogs ds))).
Proof.
  intros Hp Hd. unfold actionable. cbn [dialogs page]. assert (Hc : Forall (offers R) (concat (open_dialogs ds))).
  { induction Hd as [|d ds Hd _ IH]; [constructor|]. unfold open_dialogs in *. cbn [List.filter]. destruct d; [done|]. cbn [concat]. by apply Forall_app. }
  by destruct (open_dialogs ds).
Qed.

Lemma offers_confirm {S T} `{Part S T} (R : page_handler S -> Prop) remove failure title description failed label busy s :
  R close_confirm -> (cf_busy (part s) = false -> R (onConfirm remove failure s)) ->
  Forall (offers R) (confirm_dialog remove failure title description failed label busy s).
Proof. intros Hc Ho. unfold confirm_dialog. widgets; auto. Qed.

(** The role may ask for it. *)
Definition permitted (role : Role) (c : page_call) : Prop :=
  match call_operation c with Some op => ui_can role op = true | None => True end.

(** What a confirmation needs of an invariant. *)
Lemma confirm_keeps {S T} `{Part S T} I P remove failure s :
  (forall f s, (forall c, cf_target (f c) = cf_target c \/ cf_target (f c) = None) -> I s -> I (on_part f s)) ->
  (forall t, cf_target (part s) = Some t -> P (remove t)) -> P Invalidate ->
  keeps I P (onConfirm remove failure s).
Proof.
  intros Hf Hr Hi. unfold onConfirm. destruct (cf_target (part s)) as [t|]; [|done].
  cbn [keeps await]. split_and!; [intros s' ?; apply Hf; auto..|by apply Hr|]. intros [o|]; [|done]. unfold confirmed. cbn [keeps].
  split; [intros s' ?; apply Hf; auto|]. destruct (failure t o); cbn [keeps set_state on_changed await];
    (split; [intros s' ?; apply Hf; auto|]); [done|]. split; [done|]. by intros [].
Qed.

Section Once.
Context (C : page_component) (T : Type) `{PartLaws (State C) T} (remove : T -> page_call)
  (failure : forall t, page_answer (remove t) -> option AdminError).

#[local] Abbreviation busy s := (cf_busy (part (S := State C) (T := T) s)).

(** No removal, and the dialog's button is left alone. *)
Fixpoint quiet (h : page_handler (State C)) : Prop :=
  match h with
  | Return => True
  | SetState f k => (forall s, busy (f s) = busy s) /\ quiet k
  | Await c k => removal c = false /\ forall a, quiet (k a)
  end.

(** Only the dialog's button removes anything, and only when it is enabled. *)
Definition confirms : Prop :=
  forall props s, Forall (offers (fun h => quiet h \/ busy s = false /\ h = onConfirm remove failure s)) (actionable (view C props s)).

(** A pending handler: quiet, or a removal that frees the button first. *)
Definition waits (p : suspended page_answer (State C)) : Prop :=
  match p with
  | Suspended c k =>
      removal c = false /\ (forall a, quiet (k a)) \/
      removal c = true /\ k Rejected = Return /\
        forall a, exists k', k (Fulfilled a) = SetState (on_part (set_busy (T := T) false)) k' /\ quiet k'
  end.

Definition removing (r : page_run (State C)) : nat := length (List.filter (fun p => removal (awaited p)) (pending r)).
Definition removed (r : page_run (State C)) : nat := length (List.filter removal (calls r)).

Record once (r : page_run (State C)) : Prop := {
  on_waits : Forall waits (pending r);
  on_once : removing r <= 1;
  on_free : busy (state r) = false -> removing r = 0
}.

Lemma advance_quiet h r :
  quiet h ->
  busy (state (advance h r)) = busy (state r) /\ removing (advance h r) = removing r /\ removed (advance h r) = removed r /\
  (Forall waits (pending r) -> Forall waits (pending (advance h r))).
Proof.
  revert r. induction h as [|f k IH|c k IH]; intros r Hq; cbn [advance quiet] in *; [done| |].
  - destruct Hq as [Hf Hq]. destruct (IH (mkRun (f (state r)) (pending r) (calls r)) Hq) as (-> & -> & -> & Hw).
    split_and!; [apply Hf|done..].
  - destruct Hq as [Hc Hq]. unfold removing, removed. cbn [state pending calls].
    rewrite !List.filter_app, !length_app. cbn [List.filter awaited]. rewrite Hc. cbn [length]. split_and!; [done|lia..|].
    intros Hw. apply Forall_app. split; [done|]. constructor; [|constructor]. left. done.
Qed.

Lemma removing_delete (r : page_run (State C)) i p :
  pending r !! i = Some p ->
  removing (mkRun (state r) (delete i (pending r)) (calls r)) + (if removal (awaited p) then 1 else 0) = removing r.
Proof.
  unfold removing. cbn [pending]. generalize (pending r). intros l Hi.
  rewrite (delete_take_drop l i). rewrite <-(take_drop_middle l i p Hi) at 3.
  rewrite !List.filter_app, !length_app. cbn [List.filter]. destruct (removal (awaited p)); cbn [length]; lia.
Qed.

Hypothesis Hconfirms : confirms.
Hypothesis Hremoval : forall t, removal (remove t) = true.
Hypothesis Hidle : busy (initial C) = false.

Lemma confirm_waits t : waits (Suspended (remove t) (fun r => match r with Fulfilled a => confirmed (S := State C) remove failure t a | Rejected => Return end)).
Proof.
  right. split_and!; [apply Hremoval|done|]. intros a. eexists. split; [reflexivity|].
  destruct (failure t a); cbn [quiet set_state on_changed await]; split_and!; try done;
    try (intros s; by rewrite part_on_part). by intros [].
Qed.

Lemma once_event r h : once r -> busy (state r) = false -> h = onConfirm remove failure (state r) -> once (advance h r).
Proof.
  intros [Hw _ Hf] Hb ->. unfold onConfirm. destruct (cf_target (part (state r))) as [t|]; [|split; cbn [advance]; [done|rewrite (Hf Hb); lia|done]].
  cbn [advance await]. specialize (Hf Hb). unfold removing in Hf. split; unfold removing; cbn [pending state].
  - apply Forall_app. split; [done|]. constructor; [apply confirm_waits|constructor].
  - rewrite List.filter_app, length_app, Hf. cbn [List.filter awaited]. rewrite Hremoval. cbn [length]. lia.
  - by rewrite !part_on_part.
Qed.

Lemma once_settled r i c k a : once r -> pending r !! i = Some (Suspended c k) -> once (resume i (k a) r).
Proof.
  intros [Hw Ho Hf] Hi. pose proof (removing_delete r i _ Hi) as Hd. cbn [awaited] in Hd. unfold resume.
  set (r0 := mkRun _ _ _) in *. assert (Hw0 : Forall waits (pending r0)) by by apply Forall_delete.
  eapply Forall_lookup_1 in Hi; [|exact Hw]. destruct Hi as [[Hc Hq]|(Hc & Hl & Hk)]; rewrite Hc in Hd.
  - destruct (advance_quiet (k a) r0 (Hq a)) as (Hb & Hr & _ & Hw'). split; [by apply Hw'|lia|]. rewrite Hb, Hr. intros Hb0. specialize (Hf Hb0). lia.
  - destruct a as [a|]; [|rewrite Hl; split; cbn [advance]; [done|lia|intros _; lia]].
    destruct (Hk a) as (k' & -> & Hq). cbn [advance].
    set (r1 := mkRun _ _ _). destruct (advance_quiet k' r1 Hq) as (Hb & Hr & _ & Hw').
    assert (E : removing r1 = removing r0) by done. split; [by apply Hw'|lia|]. intros _. lia.
Qed.

Lemma once_step r r' : once r -> step C r r' -> once r'.
Proof.
  intros Hr Hst. revert Hr. destruct Hst as [props w h r Hw Hst|i c k a r Hi]; intros Hr; [|by eapply once_settled].
  destruct (proj1 (Forall_forall _ _) (Hconfirms props _) w Hw h Hst) as [Hq|[Hb Hh]]; [|by apply once_event].
  destruct Hr as [Hwt Ho Hf], (advance_quiet h r Hq) as (Hb & Hn & _ & Hw'). split; [by apply Hw'|lia|]. rewrite Hb, Hn. done.
Qed.

(** One removal at a time, and none while the button is enabled. *)
Lemma reachable_once r : reachable C r -> once r.
Proof.
  revert r. refine (rtc_ind_r _ _ _ _); [|intros r r' _ Hst IH; by eapply once_step].
  split; cbn; [constructor|lia|done].
Qed.

(** The removal was lost: the button is never enabled again. *)
Definition stuck (r : page_run (State C)) : Prop := busy (state r) = true /\ removing r = 0.

Lemma stuck_step r r' : once r -> stuck r -> step C r r' -> stuck r' /\ removed r' = removed r.
Proof.
  intros Hr Hs Hst. revert Hr Hs. destruct Hst as [props w h r Hw Hst|i c k a r Hi]; intros Hr [Hb Hn].
  - destruct (proj1 (Forall_forall _ _) (Hconfirms props _) w Hw h Hst) as [Hq|[Hb' _]]; [|by rewrite Hb in Hb'].
    destruct (advance_quiet h r Hq) as (Hb' & Hn' & Hd & _). split; [split; congruence|done].
  - pose proof (removing_delete r i _ Hi) as Hd. cbn [awaited] in Hd. destruct Hr as [Hwt _ _].
    eapply Forall_lookup_1 in Hi; [|exact Hwt]. destruct Hi as [[Hc Hq]|[Hc _]]; rewrite Hc in Hd; [|lia].
    unfold resume. set (r0 := mkRun _ _ _) in *. destruct (advance_quiet (k a) r0 (Hq a)) as (Hb' & Hn' & Hd' & _).
    split; [split; [by rewrite Hb'|lia]|done].
Qed.

(** The answer to a removal never arrives. *)
Lemma removal_lost r i c k :
  reachable C r -> pending r !! i = Some (Suspended c k) -> removal c = true ->
  stuck (resume i (k Rejected) r) /\ removed (resume i (k Rejected) r) = removed r.
Proof.
  intros Hr Hi Hc. destruct (reachable_once r Hr) as [Hw Ho Hf]. pose proof (removing_delete r i _ Hi) as Hd. cbn [awaited] in Hd. rewrite Hc in Hd.
  eapply Forall_lookup_1 in Hi; [|exact Hw]. destruct Hi as [[Hc' _]|(_ & Hl & _)]; [congruence|].
  rewrite Hl. unfold resume. cbn [advance]. split; [|done]. split; [|lia]. cbn [state]. destruct (busy (state r)); [done|]. specialize (Hf eq_refl). lia.
Qed.

Lemma stuck_forever r r' : reachable C r -> stuck r -> rtc (step C) r r' -> stuck r' /\ removed r' = removed r.
Proof.
  intros Hr Hs Hst. induction Hst as [|r r1 r' Hst _ IH]; [done|].
  destruct (stuck_step r r1 (reachable_once r Hr) Hs Hst) as [Hs1 E]. rewrite <-E. apply IH; [|done]. by eapply rtc_r.
Qed.

(** At most one removal is under way, none while the button is enabled, and one whose
    answer is lost is the last. *)
Definition guarded : Prop :=
  forall r, reachable C r ->
    removing r <= 1 /\ (busy (state r) = false -> removing r = 0) /\
    forall i c k r', pending r !! i = Some (Suspended c k) -> removal c = true -> rtc (step C) (resume i (k Rejected) r) r' ->
      busy (state r') = true /\ removed r' = removed r.

Lemma confirms_guarded : guarded.
Proof.
  intros r Hr. destruct (reachable_once r Hr) as [_ Ho Hf]. split_and!; [done..|]. intros i c k r' Hi Hc Hst.
  destruct (removal_lost r i c k Hr Hi Hc) as [Hs Ed].
  assert (Hr1 : reachable C (resume i (k Rejected) r)) by (eapply rtc_r; [exact Hr|]; by eapply step_settled).
  destruct (stuck_forever _ r' Hr1 Hs Hst) as [[Hb _] E]. by rewrite E, Ed.
Qed.

End Once.

(** The page, and every dialog. *)
Ltac rendered_view := apply offers_actionable; [|repeat (apply Forall_cons_2); [..|apply Forall_nil_2]].

(** A handler, reduced to its state changes and its calls. *)
Create HintDb pages.

Ltac handlers :=
  repeat first
    [ done
    | match goal with
      | |- _ /\ _ => split
      | |- forall a : settled _, _ => intros [?|]
      | |- ?R (match ?x with _ => _ end) => destruct x eqn:?
      | |- forall _, _ => intros ?
      end
    | progress cbn [keeps quiet set_state on_changed await try_await ask close_confirm]
    | solve [eauto with pages] ].

