(* ===== verification/Fields.v ===== *)
(** * Text of form fields

    The conversions of the language between the text of an input and a number:
    [Number(s)] and [String(n)] (ECMAScript, StringToNumber and Number::toString).
    Reading undoes printing. *)

From stdpp Require Import base list option numbers strings.
From S2P Require Import Prelude Tokens Text Rbac Entities Json.

(** ** [Number(s)] *)

(** 2^1024 stands for the infinity. *)
Definition finite (n : jsnum) : option jsnum := if bool_decide (n = mkNum 1 1024) then None else Some n.

(** Digits, a point and digits, not both empty, and an exponent. *)
Definition unsigned_literal (s : jsstr) : option jsnum :=
  let '(int, s) := span is_digit s in
  let '(frac, s) := match accept 46 s with Some r => span is_digit r | None => ([], s) end in
  if truthy (int ++ frac) then
    '(exp, rest) ← exponent s;
    match rest with
    | [] => finite (decimal (digits_value (int ++ frac)) (exp - Z.of_nat (length frac)))
    | _ => None
    end
  else None.

Definition radix_digit (radix c : N) : bool := is_hex c && (hex_value c <? radix)%N.

Definition radix_value (radix : N) (s : jsstr) : Z := foldl (fun n c => n * Z.of_N radix + Z.of_N (hex_value c))%Z 0%Z s.

(** [0x], [0o] and [0b]: the radix, and the digits. *)
Definition radix_prefix (s : jsstr) : option (N * jsstr) :=
  match s with
  | 48 :: 120 :: r | 48 :: 88 :: r => Some (16, r)
  | 48 :: 111 :: r | 48 :: 79 :: r => Some (8, r)
  | 48 :: 98 :: r | 48 :: 66 :: r => Some (2, r)
  | _ => None
  end%N.

Definition signed_literal (s : jsstr) : option jsnum :=
  match accept 45 s, accept 43 s with
  | Some r, _ => negate <$> unsigned_literal r
  | None, Some r => unsigned_literal r
  | None, None => unsigned_literal s
  end.

(** [Number(s)], when it is finite. *)
Definition to_number (s : jsstr) : option jsnum :=
  let t := trim s in
  if truthy t then
    match radix_prefix t with
    | Some (radix, digits) =>
        if truthy digits && forallb (radix_digit radix) digits
        then finite (decimal (radix_value radix digits) 0) else None
    | None => signed_literal t
    end
  else Some (mkNum 0 0).

(** ** [String(n)] *)

(** The least [j] from [j0] on with [1 <= n / d * 10 ^ j]; [fuel] covers the doubles. *)
Fixpoint leading_zeros (fuel : nat) (j n d : Z) : Z :=
  match fuel with
  | 0 => j
  | S fuel => if (d <=? n * 10 ^ j)%Z then j else leading_zeros fuel (j + 1) n d
  end.

(** The place of the point: [10 ^ (p - 1) <= n / d < 10 ^ p]. *)
Definition point_place (n d : Z) : Z :=
  if (d <=? n)%Z then Z.of_nat (length (print_nat (Z.to_N (n / d)))) else (1 - leading_zeros 330 1 n d)%Z.

(** A numeral [s * 10 ^ e] of [k] digits that denotes [x], the closest one if there are two. *)
Definition numeral (x : jsnum) (n d p k : Z) : option (Z * Z) :=
  let e := (p - k)%Z in
  let '(a, b) := if (0 <=? e)%Z then (n, d * 10 ^ e)%Z else (n * 10 ^ (- e), d)%Z in
  let s := (a / b)%Z in
  let closer := if (2 * (a mod b) =? b)%Z then Z.even s else (2 * (a mod b) <? b)%Z in
  let up := if (s + 1 =? 10 ^ k)%Z then (1, e + k)%Z else (s + 1, e)%Z in
  let fits c := bool_decide (0 < c.1 /\ decimal c.1 c.2 = x)%Z in
  if fits (s, e) && (negb (fits up) || closer) then Some (s, e) else if fits up then Some up else None.

(** With as few digits as possible. *)
Fixpoint shortest (fuel : nat) (x : jsnum) (n d p k : Z) : option (Z * Z) :=
  match fuel with
  | 0 => None
  | S fuel => match numeral x n d p k with Some r => Some r | None => shortest fuel x n d p (k + 1) end
  end.

(** The layout of the digits of [s * 10 ^ e]. *)
Definition number_layout (s e : Z) : jsstr :=
  let digits := print_nat (Z.to_N s) in
  let k := length digits in
  let p := (e + Z.of_nat k)%Z in
  let zeros n := replicate (Z.to_nat n) 48%N in
  if (0 <=? e)%Z && (p <=? 21)%Z then digits ++ zeros e
  else if (0 <? p)%Z && (p <=? 21)%Z then take (Z.to_nat p) digits ++ js "." ++ drop (Z.to_nat p) digits
  else if (-6 <? p)%Z && (p <=? 0)%Z then js "0." ++ zeros (- p)%Z ++ digits
  else take 1 digits ++ (if 1 <? k then js "." ++ drop 1 digits else []) ++ js "e"
       ++ (if (p - 1 <? 0)%Z then js "-" else js "+") ++ print_nat (Z.abs_N (p - 1)).

(** A magnitude as the language holds it. *)
Definition canonical (x : jsnum) : jsnum :=
  let n := (jn_mant x * 2 ^ Z.max (jn_exp x) 0)%Z in
  let d := (2 ^ Z.max (- jn_exp x) 0)%Z in
  if (n mod d =? 0)%Z && (n / d <=? 2 ^ 53)%Z then mkNum (n / d) 0 else nearest n d.

(** Seventeen digits are enough for a double. *)
Definition magnitude_text (x : jsnum) : option jsstr :=
  if bool_decide (canonical x = mkNum 0 0) then Some (js "0")
  else
    let n := (jn_mant x * 2 ^ Z.max (jn_exp x) 0)%Z in
    let d := (2 ^ Z.max (- jn_exp x) 0)%Z in
    '(s, e) ← shortest 17 (canonical x) n d (point_place n d) 1;
    Some (number_layout s e).

(** [String(n)]. *)
Definition number_text (x : jsnum) : option jsstr :=
  if (jn_mant x <? 0)%Z then (js "-" ++.) <$> magnitude_text (negate x) else magnitude_text x.

(** A number in a request body that is not sent yet; null stands for one that is not finite. *)
Definition number_json (n : option jsnum) : json := match n with Some x => JNum x | None => JNull end.

(** * Lemmas *)

Lemma trimStart_solid s : forallb (fun c => negb (is_js_space c)) s = true -> trimStart s = s.
Proof. destruct s as [|c s]; [done|]. cbn [forallb]. intros [Hc%negb_true_iff _]%andb_true_iff. by apply trimStart_id. Qed.

Lemma trim_solid s : forallb (fun c => negb (is_js_space c)) s = true -> trim s = s.
Proof.
  intros Hs. unfold trim. rewrite (trimStart_solid s Hs). rewrite trimStart_solid; [apply reverse_involutive|].
  apply Is_true_true. apply Is_true_true in Hs. rewrite forallb_True in *. by apply Forall_reverse.
Qed.

(** The units a number is written with. *)
Definition numeric (c : N) : bool := is_digit c || bool_decide (c ∈ [43; 45; 46; 101]%N).

Lemma digit_numeric s : forallb is_digit s = true -> forallb numeric s = true.
Proof. rewrite !forallb_forall. intros Hs c Hc. unfold numeric. by rewrite (Hs c Hc). Qed.

Lemma numeric_solid s : forallb numeric s = true -> trim s = s.
Proof.
  intros Hs. apply trim_solid. rewrite forallb_forall in *. intros c Hc%Hs. unfold numeric, is_digit in Hc. unfold is_js_space.
  rewrite bool_decide_eq_false_2, orb_false_l; [|rewrite !elem_of_cons, elem_of_nil].
  - apply negb_true_iff, andb_false_iff. left. apply N.leb_gt. revert Hc. rewrite orb_true_iff, andb_true_iff, !N.leb_le, bool_decide_eq_true.
    rewrite !elem_of_cons, elem_of_nil. lia.
  - revert Hc. rewrite orb_true_iff, andb_true_iff, !N.leb_le, bool_decide_eq_true. rewrite !elem_of_cons, elem_of_nil. lia.
Qed.

Lemma digits_value_app a b : digits_value (a ++ b) = (digits_value a * 10 ^ Z.of_nat (length b) + digits_value b)%Z.
Proof.
  unfold digits_value. rewrite foldl_app. generalize (foldl (fun n c => n * 10 + (Z.of_N c - 48))%Z 0%Z a). intros n.
  revert n. induction b as [|c b IH] using rev_ind; intros n; [cbn; lia|].
  rewrite !foldl_app, length_app. cbn [foldl length]. rewrite IH, Nat2Z.inj_add, Z.pow_add_r by lia. change (10 ^ Z.of_nat 1)%Z with 10%Z. lia.
Qed.

Lemma digits_value_zeros n : digits_value (replicate n 48%N) = 0%Z.
Proof. induction n as [|n IH]; [done|]. change (replicate (S n) 48%N) with ([48%N] ++ replicate n 48%N). rewrite digits_value_app, IH. done. Qed.

Lemma zeros_digits n : forallb is_digit (replicate n 48%N) = true.
Proof. by induction n. Qed.

Lemma numeral_value z : (0 <= z)%Z -> digits_value (print_nat (Z.to_N z)) = z.
Proof. intros Hz. rewrite print_nat_value. lia. Qed.

(** A positive numeral has no leading zero. *)
Lemma print_nat_head n : (0 < n)%N -> exists d r, print_nat n = d :: r /\ is_digit d = true /\ d <> 48%N.
Proof.
  intros Hn. destruct (print_nat_cons n) as (d & r & E & Hd). exists d, r. split_and!; [done..|].
  destruct (N.ltb_spec n 10) as [Hlt|Hge].
  - pose proof (print_nat_value n) as Hv. rewrite E in Hv. assert (Hr : r = []).
    { assert (Hl : length (print_nat n) = 1).
      { unfold print_nat. rewrite digitsN_length. destruct (N.size_nat n) eqn:En; [done|]. cbn [width]. by rewrite (proj2 (N.ltb_lt _ _)). }
      rewrite E in Hl. by destruct r. }
    subst r. cbn in Hv. lia.
  - destruct (width_head (N.size_nat n) n Hge (size_nat_bound n)) as (d' & r' & E' & Hd'). unfold print_nat in E. congruence.
Qed.

(** Text that begins with a digit, and not with a radix. *)
Lemma to_number_plain s c t :
  s = c :: t -> is_digit c = true -> (c <> 48%N \/ match t with d :: _ => is_digit d = true \/ d = 46%N | [] => True end) ->
  forallb numeric s = true -> to_number s = unsigned_literal s.
Proof.
  intros -> Hc Ht Hs. unfold to_number. rewrite numeric_solid by done. cbn [truthy].
  assert (Hd : (48 <= c <= 57)%N) by (unfold is_digit in Hc; rewrite andb_true_iff, !N.leb_le in Hc; lia).
  assert (Hr : radix_prefix (c :: t) = None).
  { destruct Ht as [Hne|Ht]; [|destruct t as [|d t]].
    - unfold radix_prefix. destruct c as [|c]; [done|]. by do 6 (destruct c as [c|c|]; try done).
    - unfold radix_prefix. destruct c as [|c]; [done|]. by do 6 (destruct c as [c|c|]; try done).
    - assert (Hd' : (46 <= d <= 57)%N) by (destruct Ht as [Ht| ->]; [unfold is_digit in Ht; rewrite andb_true_iff, !N.leb_le in Ht; lia|lia]).
      unfold radix_prefix. destruct c as [|c]; [done|]. do 6 (destruct c as [c|c|]; try done).
      destruct d as [|d]; [done|]. by do 7 (destruct d as [d|d|]; try done). }
  rewrite Hr. unfold signed_literal. by rewrite !accept_ne by lia.
Qed.

(** What follows the digits: nothing, or an exponent. *)
Definition exponent_text (x : Z) : jsstr := js "e" ++ (if (x <? 0)%Z then js "-" else js "+") ++ print_nat (Z.abs_N x).

Definition tail_of (o : option Z) : jsstr := match o with Some x => exponent_text x | None => [] end.

Lemma exponent_tail o : exponent (tail_of o) = Some (default 0%Z o, []).
Proof.
  destruct o as [x|]; [|done]. cbn [tail_of default]. unfold exponent_text. change (js "e") with [101%N]. cbn [app].
  unfold exponent. rewrite accept_refl.
  assert (Hs : span is_digit (print_nat (Z.abs_N x)) = (print_nat (Z.abs_N x), [])).
  { rewrite <-(app_nil_r (print_nat (Z.abs_N x))) at 1. by rewrite span_app by (apply print_nat_digits || done). }
  assert (Hd : some_digits (print_nat (Z.abs_N x)) = Some (print_nat (Z.abs_N x), [])).
  { unfold some_digits. rewrite Hs. destruct (print_nat_cons (Z.abs_N x)) as (d & r & -> & _). done. }
  destruct (Z.ltb_spec x 0).
  - change (js "-") with [45%N]. cbn [app]. rewrite accept_refl, Hd. cbn [mbind option_bind]. rewrite print_nat_value. unfold id. do 2 f_equal. lia.
  - change (js "+") with [43%N]. cbn [app]. rewrite accept_ne, accept_refl, Hd by done. cbn [mbind option_bind]. rewrite print_nat_value. unfold id. do 2 f_equal. lia.
Qed.

Lemma tail_head o : match tail_of o with c :: _ => is_digit c = false /\ c <> 46%N | [] => True end.
Proof. by destruct o. Qed.

Lemma tail_numeric o : forallb numeric (tail_of o) = true.
Proof.
  destruct o as [x|]; [|done]. cbn [tail_of]. unfold exponent_text. rewrite !forallb_app, (digit_numeric _ (print_nat_digits _)).
  by destruct (x <? 0)%Z.
Qed.

Lemma read_integer int o :
  forallb is_digit int = true -> int <> [] ->
  unsigned_literal (int ++ tail_of o) = finite (decimal (digits_value int) (default 0%Z o)).
Proof.
  intros Hi Hne. unfold unsigned_literal. pose proof (tail_head o) as Ht. rewrite span_app; [|done|by destruct (tail_of o); [|apply Ht]].
  assert (Ha : accept 46 (tail_of o) = None) by (destruct (tail_of o); [done|apply accept_ne, Ht]).
  rewrite Ha, app_nil_r. destruct int as [|c int]; [done|]. cbn [truthy]. rewrite exponent_tail. cbn [mbind option_bind length].
  by rewrite Z.sub_0_r.
Qed.

Lemma read_fraction int frac o :
  forallb is_digit int = true -> forallb is_digit frac = true -> int ++ frac <> [] ->
  unsigned_literal (int ++ 46%N :: frac ++ tail_of o)
  = finite (decimal (digits_value (int ++ frac)) (default 0%Z o - Z.of_nat (length frac))).
Proof.
  intros Hi Hf Hne. unfold unsigned_literal. pose proof (tail_head o) as Ht. rewrite span_app by done.
  rewrite accept_refl, span_app; [|done|by destruct (tail_of o); [|apply Ht]].
  destruct (int ++ frac) as [|c l] eqn:E; [done|]. cbn [truthy]. rewrite exponent_tail. done.
Qed.

Lemma read_integer_end int :
  forallb is_digit int = true -> int <> [] -> unsigned_literal int = finite (decimal (digits_value int) 0).
Proof. intros Hi Hne. pose proof (read_integer int None Hi Hne) as Hr. cbn [tail_of] in Hr. by rewrite app_nil_r in Hr. Qed.

Lemma read_fraction_end int frac :
  forallb is_digit int = true -> forallb is_digit frac = true -> int ++ frac <> [] ->
  unsigned_literal (int ++ 46%N :: frac) = finite (decimal (digits_value (int ++ frac)) (- Z.of_nat (length frac))).
Proof. intros Hi Hf Hne. pose proof (read_fraction int frac None Hi Hf Hne) as Hr. cbn [tail_of] in Hr. by rewrite app_nil_r in Hr. Qed.

Lemma decimal_shift s j : (0 <= j)%Z -> decimal (s * 10 ^ j) 0 = decimal s j.
Proof.
  intros Hj. unfold decimal. cbn [Z.leb Z.compare]. change (10 ^ 0)%Z with 1%Z. rewrite !Z.mul_1_r.
  by rewrite (proj2 (Z.leb_le 0 j)) by done.
Qed.

Lemma layout_read s e : (0 < s)%Z -> to_number (number_layout s e) = finite (decimal s e).
Proof.
  intros Hs. unfold number_layout. destruct (print_nat_head (Z.to_N s)) as (c & r & E & Hc & Hc0); [lia|].
  pose proof (print_nat_digits (Z.to_N s)) as Hd. pose proof (numeral_value s ltac:(lia)) as Hv.
  set (digits := print_nat (Z.to_N s)) in *. set (p := (e + Z.of_nat (length digits))%Z).
  assert (Hlen : 1 <= length digits) by (rewrite E; cbn; lia).
  destruct ((0 <=? e)%Z && (p <=? 21)%Z) eqn:E1; [|destruct ((0 <? p)%Z && (p <=? 21)%Z) eqn:E2; [|destruct ((-6 <? p)%Z && (p <=? 0)%Z) eqn:E3]].
  - apply andb_true_iff in E1 as [He%Z.leb_le _].
    assert (Hall : forallb is_digit (digits ++ replicate (Z.to_nat e) 48%N) = true) by by rewrite forallb_app, Hd, zeros_digits.
    rewrite (to_number_plain _ c (r ++ replicate (Z.to_nat e) 48%N)); [|by rewrite E|done|by left|by apply digit_numeric].
    rewrite (read_integer_end _ Hall) by (rewrite E; done).
    rewrite digits_value_app, digits_value_zeros, Hv, length_replicate, Z2Nat.id, Z.add_0_r by done. by rewrite decimal_shift.
  - apply andb_true_iff in E2 as [Hp%Z.ltb_lt Hp21%Z.leb_le].
    assert (Hle : (p < Z.of_nat (length digits))%Z).
    { apply andb_false_iff in E1 as [He%Z.leb_gt|He%Z.leb_gt]; lia. }
    assert (Hap : take (Z.to_nat p) digits ++ drop (Z.to_nat p) digits = digits) by apply take_drop.
    assert (Hal : forallb is_digit (take (Z.to_nat p) digits) = true /\ forallb is_digit (drop (Z.to_nat p) digits) = true)
      by (rewrite <-Hap, forallb_app, andb_true_iff in Hd; exact Hd).
    destruct Hal as [Hi Hf]. change (js ".") with [46%N]. cbn [app].
    assert (Et : take (Z.to_nat p) digits = c :: take (Z.to_nat p - 1) r) by (rewrite E; destruct (Z.to_nat p) eqn:Ep; [lia|cbn; by rewrite Nat.sub_0_r]).
    rewrite (to_number_plain _ c (take (Z.to_nat p - 1) r ++ 46%N :: drop (Z.to_nat p) digits));
      [|by rewrite Et|done|by left|by rewrite forallb_app; cbn [forallb]; rewrite !digit_numeric].
    rewrite (read_fraction_end _ _ Hi Hf) by (rewrite Hap, E; done).
    rewrite Hap, Hv. do 2 f_equal. rewrite length_drop. lia.
  - apply andb_true_iff in E3 as [_ Hp%Z.leb_le]. change (js "0.") with ([48%N] ++ [46%N]). cbn [app].
    assert (Hf : forallb is_digit (replicate (Z.to_nat (- p)) 48%N ++ digits) = true) by by rewrite forallb_app, zeros_digits.
    rewrite (to_number_plain _ 48%N (46%N :: replicate (Z.to_nat (- p)) 48%N ++ digits)); [|done|done|right; by right|by cbn [forallb]; rewrite digit_numeric].
    pose proof (read_fraction_end [48%N] _ eq_refl Hf ltac:(done)) as Hr. cbn [app] in Hr. rewrite Hr. clear Hr.
    change (48%N :: ?l) with ([48%N] ++ l). rewrite digits_value_app, digits_value_app, digits_value_zeros, Hv.
    change (digits_value [48%N]) with 0%Z. rewrite length_app, length_replicate. do 2 f_equal; lia.
  - change (js "e" ++ _) with (exponent_text (p - 1)). change (exponent_text (p - 1)) with (tail_of (Some (p - 1)%Z)).
    rewrite E. cbn [take drop length app].
    assert (Hdr : is_digit c = true /\ forallb is_digit r = true) by (rewrite E in Hd; by apply andb_true_iff in Hd).
    destruct Hdr as [_ Hr]. destruct r as [|c' r]; cbn [length Nat.ltb Nat.leb take drop app].
    + rewrite (to_number_plain _ c (tail_of (Some (p - 1)%Z))); [|done|done|by left|apply andb_true_iff; split; [unfold numeric; by rewrite Hc|apply tail_numeric]].
      pose proof (read_integer [c] (Some (p - 1)%Z)) as Hrd. cbn [app] in Hrd. rewrite Hrd by (done || by cbn; rewrite Hc).
      rewrite <-E, Hv. cbn [default]. do 2 f_equal. unfold p, id. rewrite E. cbn. lia.
    + change (js ".") with [46%N]. cbn [app].
      rewrite (to_number_plain _ c (46%N :: c' :: r ++ tail_of (Some (p - 1)%Z))); [|done|done|by left|].
      2: { change (forallb numeric ([c] ++ [46%N] ++ (c' :: r) ++ tail_of (Some (p - 1)%Z)) = true).
           rewrite !forallb_app, tail_numeric, (digit_numeric (c' :: r) Hr), (digit_numeric [c]) by (cbn; by rewrite Hc). done. }
      pose proof (read_fraction [c] (c' :: r) (Some (p - 1)%Z)) as Hrd. cbn [app] in Hrd. rewrite Hrd by (done || by cbn; rewrite Hc).
      rewrite <-E, Hv. cbn [default]. do 2 f_equal. unfold p, id. rewrite E. cbn. lia.
Qed.

Lemma numeral_fits x n d p k c : numeral x n d p k = Some c -> (0 < c.1)%Z /\ decimal c.1 c.2 = x.
Proof.
  unfold numeral. destruct (if (0 <=? p - k)%Z then _ else _) as [a b]. set (up := if (_ =? _)%Z then _ else _).
  set (lo := ((a / b)%Z, (p - k)%Z)).
  clearbody up lo.
  destruct (bool_decide (0 < lo.1 /\ decimal lo.1 lo.2 = x)%Z) eqn:E1, (bool_decide (0 < up.1 /\ decimal up.1 up.2 = x)%Z) eqn:E2; cbn [negb andb orb];
    try apply bool_decide_eq_true in E1; try apply bool_decide_eq_true in E2;
    try destruct (if (_ =? _)%Z then _ else _); intros Hc; congruence.
Qed.

Lemma shortest_fits fuel x n d p k c : shortest fuel x n d p k = Some c -> (0 < c.1)%Z /\ decimal c.1 c.2 = x.
Proof.
  revert k. induction fuel as [|fuel IH]; intros k; [done|]. cbn [shortest].
  destruct (numeral x n d p k) as [c'|] eqn:E; [|apply IH]. intros [= <-]. by eapply numeral_fits.
Qed.

(** Reading undoes printing. *)
Lemma number_round_trip x t :
  number_text x = Some t -> (0 <= jn_mant x)%Z -> canonical x <> mkNum 1 1024 -> to_number t = Some (canonical x).
Proof.
  intros Ht Hx Hf. unfold number_text in Ht. rewrite (proj2 (Z.ltb_ge _ _)) in Ht by done. unfold magnitude_text in Ht.
  case_bool_decide as E0; [by injection Ht as <-; rewrite E0; vm_compute|].
  destruct (shortest _ _ _ _ _ _) as [[s e]|] eqn:Es; [|done]. cbn [mbind option_bind] in Ht.
  injection Ht as <-. apply shortest_fits in Es as [Hs Es]. cbn [fst snd] in *.
  rewrite layout_read, Es by done. unfold finite. by rewrite bool_decide_eq_false_2.
Qed.

(** An integer as the form writes it. *)
Lemma canonical_int z : (0 <= z <= 2 ^ 53)%Z -> canonical (mkNum z 0) = mkNum z 0.
Proof.
  intros Hz. unfold canonical. cbn [jn_mant jn_exp]. change (2 ^ Z.max 0 0)%Z with 1%Z. change (2 ^ Z.max (- 0) 0)%Z with 1%Z.
  rewrite Z.mul_1_r, Z.mod_1_r, Z.div_1_r. by rewrite (proj2 (Z.leb_le z (2 ^ 53))) by lia.
Qed.

Lemma digits_value_nonneg s : forallb is_digit s = true -> (0 <= digits_value s)%Z.
Proof.
  induction s as [|c s IH] using rev_ind; [done|]. rewrite forallb_app, andb_true_iff. intros [Hs Hc].
  rewrite digits_value_app. cbn [length]. change (10 ^ Z.of_nat 1)%Z with 10%Z. specialize (IH Hs).
  cbn [forallb] in Hc. unfold is_digit in Hc. rewrite !andb_true_iff, !N.leb_le in Hc. cbn. lia.
Qed.

Lemma numeral_length z : (0 < z)%Z -> (10 ^ (Z.of_nat (length (print_nat (Z.to_N z))) - 1) <= z)%Z.
Proof.
  intros Hz. destruct (print_nat_head (Z.to_N z)) as (d & r & E & Hd & Hd0); [lia|].
  pose proof (numeral_value z ltac:(lia)) as Hv. pose proof (print_nat_digits (Z.to_N z)) as Hds. rewrite E in *.
  change (d :: r) with ([d] ++ r) in Hv. rewrite digits_value_app in Hv. cbn [forallb] in Hds. apply andb_true_iff in Hds as [_ Hr].
  pose proof (digits_value_nonneg r Hr). unfold is_digit in Hd. rewrite andb_true_iff, !N.leb_le in Hd.
  cbn [length]. replace (Z.of_nat (S (length r)) - 1)%Z with (Z.of_nat (length r)) by lia.
  change (digits_value [d]) with (0 * 10 + (Z.of_N d - 48))%Z in Hv. pose proof (Z.pow_pos_nonneg 10 (Z.of_nat (length r))). nia.
Qed.

Lemma shortest_found x n d p k0 fuel k :
  is_Some (numeral x n d p k) -> (k0 <= k < k0 + Z.of_nat fuel)%Z -> is_Some (shortest fuel x n d p k0).
Proof.
  intros Hk. revert k0. induction fuel as [|fuel IH]; intros k0 Hf; [lia|]. cbn [shortest].
  destruct (numeral x n d p k0) eqn:E; [by eexists|]. apply IH. destruct (decide (k = k0)) as [->|]; [|lia].
  rewrite E in Hk. by destruct Hk.
Qed.

Lemma numeral_found x n p : (0 < n)%Z -> decimal n 0 = x -> is_Some (numeral x n 1 p p).
Proof.
  intros Hn Hx. unfold numeral. rewrite Z.sub_diag. cbn [Z.leb Z.compare]. change (1 * 10 ^ 0)%Z with 1%Z. rewrite Z.div_1_r.
  set (up := if (_ =? _)%Z then _ else _). cbn [fst snd]. rewrite (bool_decide_eq_true_2 (0 < n /\ decimal n 0 = x)%Z) by done.
  destruct (bool_decide (0 < up.1 /\ decimal up.1 up.2 = x)%Z); cbn [andb negb orb]; [|by eexists].
  clearbody up. repeat case_match; by eexists.
Qed.

(** An integer has a text, and it is read back. *)
Lemma int_text z : (0 <= z <= 2 ^ 53)%Z -> exists t, number_text (mkNum z 0) = Some t /\ to_number t = Some (mkNum z 0).
Proof.
  intros Hz. assert (Hs : is_Some (number_text (mkNum z 0))).
  { unfold number_text. cbn [jn_mant]. rewrite (proj2 (Z.ltb_ge _ _)) by lia. unfold magnitude_text. rewrite canonical_int by done.
    case_bool_decide as E0; [by eexists|]. cbn [jn_mant jn_exp]. change (2 ^ Z.max 0 0)%Z with 1%Z. change (2 ^ Z.max (- 0) 0)%Z with 1%Z.
    rewrite Z.mul_1_r. assert (Hpos : (0 < z)%Z) by (destruct (decide (z = 0%Z)) as [->|]; [done|lia]).
    unfold point_place. rewrite (proj2 (Z.leb_le 1 z)), Z.div_1_r by lia. pose proof (numeral_length z Hpos) as Hl.
    set (p := Z.of_nat (length (print_nat (Z.to_N z)))) in *.
    assert (Hp : (1 <= p < 1 + Z.of_nat 17)%Z).
    { split; [unfold p; destruct (print_nat_cons (Z.to_N z)) as (? & ? & -> & _); cbn; lia|].
      destruct (Z_lt_le_dec p (1 + Z.of_nat 17)) as [|Hge]; [done|]. exfalso.
      pose proof (Z.pow_le_mono_r 10 17 (p - 1) ltac:(lia) ltac:(lia)) as Hm. assert (2 ^ 53 < 10 ^ 17)%Z by done. lia. }
    destruct (shortest_found (mkNum z 0) z 1 p 1 17 p) as [[s e] Es]; [|done|rewrite Es; by eexists].
    apply numeral_found; [done|]. apply decimal_int. lia. }
  destruct Hs as [t Ht]. exists t. split; [done|]. rewrite (number_round_trip _ _ Ht); [by rewrite canonical_int|cbn; lia|].
  by rewrite canonical_int.
Qed.
