(* ===== verification/AdminPages.v ===== *)
(** * The admin page

    [features/admin/]: the users, API key, invitation and retention sections, each a
    component of [React.v]; the page that composes them is in [PageFlows.v].  A dialog with a form has its own state, the error it shows, from when it is opened
    until it is closed; a set of that state from a handler of a closed dialog is lost.
    [mount] numbers the times a dialog was opened. *)

From stdpp Require Import base list option numbers strings gmap relations.
From S2P Require Import Prelude Errors Tokens Text Rbac Email Entities Ports Services UseCases Invites Zod Contracts Json.
From S2P Require Import LogSearch AdminBff React Pages Fields.

(** ** Dialogs with a form *)

Record form_dialog := mkFormDialog { fd_mount : nat; fd_error : option jsstr }.

(** [setFormError(e)], in the dialog opened as number [mount]. *)
Definition set_form_error (mount : nat) (e : option jsstr) (d : form_dialog) : form_dialog :=
  if bool_decide (fd_mount d = mount) then mkFormDialog mount e else d.

(** [formError ? <Alert tone="danger" title={title}>{formError}</Alert> : null]. *)
Definition form_alert {S} (title : jsstr) (d : form_dialog) : list (page_widget S) :=
  shown_with (fd_error d) (fun e => [Alert danger title e]).

(** The page shows what the role may do: [useCan()]. *)
Definition useCan (role : Role) (operation : Operation) : bool := ui_can role operation.

(** ** Users ([users-section.tsx]) *)

Module Users.

Section Fields.
Context (u : UserResponse).
Definition usr_id : jsstr := u.1.
Definition usr_email : jsstr := u.2.2.1.
Definition usr_displayName : option jsstr := u.2.2.2.1.
Definition usr_status : jsstr := u.2.2.2.2.1.
Definition usr_role : MembershipRole := u.2.2.2.2.2.1.
End Fields.

Inductive DialogState :=
| closed
| creating (d : form_dialog)
| editing (user : UserResponse) (d : form_dialog).

Record users_state := mkUsers { dialog : DialogState; deleting : confirm UserResponse; mounts : nat }.

Definition setDialog (d : DialogState) (s : users_state) : users_state := mkUsers d (deleting s) (mounts s).

(** A dialog that opens gets the next number. *)
Definition openDialog (d : form_dialog -> DialogState) (s : users_state) : users_state :=
  mkUsers (d (mkFormDialog (mounts s) None)) (deleting s) (S (mounts s)).

Definition on_form (mount : nat) (e : option jsstr) (s : users_state) : users_state :=
  mkUsers match dialog s with
          | closed => closed
          | creating d => creating (set_form_error mount e d)
          | editing user d => editing user (set_form_error mount e d)
          end (deleting s) (mounts s).

#[export] Instance users_part : Part users_state UserResponse := {|
  part := deleting;
  on_part f s := mkUsers (dialog s) (f (deleting s)) (mounts s)
|}.

#[export] Instance users_part_laws : PartLaws users_state UserResponse.
Proof. by split. Qed.

Definition remove (u : UserResponse) : page_call := DeleteUser (usr_id u).
Definition remove_failure (u : UserResponse) (o : AdminOutcome unit) : option AdminError :=
  match o with admin_ok _ => None | admin_failed e => Some e end.

Definition onDelete : users_state -> page_handler users_state := onConfirm remove remove_failure.

Section Forms.
Context `{Zod}.

Definition onSaved : page_handler users_state := SetState (setDialog closed) on_changed.
Definition onClose : page_handler users_state := set_state (setDialog closed).

(** The answer of [create] or [update]. *)
Definition saved (mount : nat) (outcome : AdminOutcome UserResponse) : page_handler users_state :=
  match outcome with
  | admin_ok _ => onSaved
  | admin_failed error => set_state (on_form mount (Some (ae_message error)))
  end.

Record CreateValues := mkCreateValues { cv_email : jsstr; cv_password : jsstr; cv_displayName : jsstr; cv_role : MembershipRole }.

Definition create_defaults : CreateValues := mkCreateValues [] [] [] m_member.

Definition create_body (v : CreateValues) : json :=
  JObj ([(js "email", JStr (trim (cv_email v))); (js "password", JStr (cv_password v)); (js "role", JStr (membership_str (cv_role v)))]
        ++ (if truthy (trim (cv_displayName v)) then [(js "displayName", JStr (trim (cv_displayName v)))] else [])).

Definition create_onSubmit (mount : nat) (v : CreateValues) : page_handler users_state :=
  SetState (on_form mount None)
    match safeParse createUserRequestSchema (Some (create_body v)) with
    | Err messages => set_state (on_form mount (Some (issue_text messages)))
    | Ok data => await (answer := page_answer) (CreateUser data) (saved mount)
    end.

Definition roleOptions : list (MembershipRole * jsstr) := (fun r => (r, membership_str r)) <$> [m_tenant_admin; m_member].
Definition statusOptions : list (jsstr * jsstr) := (fun s => (s, s)) <$> [js "active"; js "suspended"].

Definition create_fields (_ : CreateValues) : list (control CreateValues) :=
  [TextField (js "Email") cv_email (fun t v => mkCreateValues t (cv_password v) (cv_displayName v) (cv_role v));
   TextField (js "Display name (optional)") cv_displayName (fun t v => mkCreateValues (cv_email v) (cv_password v) t (cv_role v));
   TextField (js "Temporary password") cv_password (fun t v => mkCreateValues (cv_email v) t (cv_displayName v) (cv_role v));
   SelectField (js "Role") roleOptions cv_role (fun r v => mkCreateValues (cv_email v) (cv_password v) (cv_displayName v) r)].

Definition CreateUserDialog (d : form_dialog) : list (page_widget users_state) :=
  [Dismiss onClose; Text (js "Add user"); Text (js "Invite a person to this workspace.")]
  ++ form_alert (js "Couldn't add the user") d
  ++ [Form create_defaults create_fields (js "Add user") (create_onSubmit (fd_mount d)); Button (js "Cancel") false onClose].

Record EditValues := mkEditValues { ev_displayName : jsstr; ev_role : MembershipRole; ev_status : jsstr; ev_password : jsstr }.

Definition edit_defaults (user : UserResponse) : EditValues :=
  mkEditValues (default [] (usr_displayName user)) (usr_role user) (usr_status user) [].

(** Only what changed. *)
Definition edit_body (user : UserResponse) (v : EditValues) : jsobject :=
  let displayName := trim (ev_displayName v) in
  (if truthy displayName && negb (bool_decide (displayName = default [] (usr_displayName user)))
   then [(js "displayName", JStr displayName)] else [])
  ++ (if bool_decide (ev_role v = usr_role user) then [] else [(js "role", JStr (membership_str (ev_role v)))])
  ++ (if bool_decide (ev_status v = usr_status user) then [] else [(js "status", JStr (ev_status v))])
  ++ (if truthy (ev_password v) then [(js "password", JStr (ev_password v))] else []).

Definition edit_onSubmit (user : UserResponse) (mount : nat) (v : EditValues) : page_handler users_state :=
  SetState (on_form mount None)
    match edit_body user v with
    | [] => set_state (on_form mount (Some (js "Nothing to update.")))
    | body =>
        match safeParse updateUserRequestSchema (Some (JObj body)) with
        | Err messages => set_state (on_form mount (Some (issue_text messages)))
        | Ok data => await (answer := page_answer) (UpdateUser (usr_id user) data) (saved mount)
        end
    end.

Definition edit_fields (_ : EditValues) : list (control EditValues) :=
  [TextField (js "Display name") ev_displayName (fun t v => mkEditValues t (ev_role v) (ev_status v) (ev_password v));
   SelectField (js "Role") roleOptions ev_role (fun r v => mkEditValues (ev_displayName v) r (ev_status v) (ev_password v));
   SelectField (js "Status") statusOptions ev_status (fun t v => mkEditValues (ev_displayName v) (ev_role v) t (ev_password v));
   TextField (js "Reset password (optional)") ev_password (fun t v => mkEditValues (ev_displayName v) (ev_role v) (ev_status v) t)].

Definition EditUserDialog (user : UserResponse) (d : form_dialog) : list (page_widget users_state) :=
  [Dismiss onClose; Text (js "Edit user"); Text (usr_email user)]
  ++ form_alert (js "Couldn't update the user") d
  ++ [Form (edit_defaults user) edit_fields (js "Save changes") (edit_onSubmit user (fd_mount d)); Button (js "Cancel") false onClose].

Section View.
Context (role : Role).

#[local] Abbreviation can := (useCan role).

Definition row (user : UserResponse) : list (page_widget users_state) :=
  [Text (default (usr_email user) (usr_displayName user)); Badge brand (membership_str (usr_role user));
   Badge (if bool_decide (usr_status user = js "active") then success else warning) (usr_status user); Text (usr_email user)]
  ++ shown (can user_update) [Button (js "Edit") false (set_state (openDialog (editing user)))]
  ++ shown (can user_delete) [Button (js "Remove") false (ask user)].

Definition users_page (users : list UserResponse) : list (page_widget users_state) :=
  [Text (js "Users"); Text (js "People who can sign in to this workspace.")]
  ++ shown (can user_create) [Button (js "Add user") false (set_state (openDialog creating))]
  ++ match users with [] => [Text (js "No users")] | _ => flat_map row users end.

Definition UsersSection : page_component := {|
  State := users_state;
  Props := list UserResponse;
  initial := mkUsers closed no_confirm 0;
  view users s :=
    mkRendered (users_page users) (open_dialogs
      [match dialog s with creating d => CreateUserDialog d | _ => [] end;
       match dialog s with editing user d => EditUserDialog user d | _ => [] end;
       confirm_dialog remove remove_failure (js "Remove user")
         (fun u => usr_email u ++ js " will lose access to this workspace.") (js "Couldn't remove the user")
         (js "Remove user") (js "Removing" ++ ellipsis) s])
|}.

End View.
End Forms.
End Users.

(** ** API keys ([api-keys-section.tsx]) *)

Module ApiKeys.

Section Fields.
Context (k : ApiKeyResponse).
Definition akr_id : jsstr := k.1.
Definition akr_name : jsstr := k.2.2.1.
Definition akr_scopes : list jsstr := k.2.2.2.1.
Definition akr_createdAt : jsstr := k.2.2.2.2.2.1.
Definition akr_lastUsedAt : option jsstr := k.2.2.2.2.2.2.1.
Definition akr_expiresAt : option jsstr := k.2.2.2.2.2.2.2.1.
Definition akr_revokedAt : option jsstr := k.2.2.2.2.2.2.2.2.1.
End Fields.

Definition created_name (k : ApiKeyCreatedResponse) : jsstr := k.2.2.1.
Definition created_plaintext (k : ApiKeyCreatedResponse) : jsstr := k.2.2.2.2.2.2.2.2.2.1.

(** [issued] is the only place the secret is held in.  [reveal] numbers the times the
    dialog that shows it was opened, and [copied] is that dialog's state. *)
Record keys_state := mkKeys {
  issuing : option form_dialog;
  issued : option ApiKeyCreatedResponse;
  reveal : nat;
  copied : bool;
  revoking : confirm ApiKeyResponse;
  mounts : nat
}.

Definition setIssuing_false (s : keys_state) : keys_state :=
  mkKeys None (issued s) (reveal s) (copied s) (revoking s) (mounts s).

Definition setIssuing_true (s : keys_state) : keys_state :=
  mkKeys (Some (mkFormDialog (mounts s) None)) (issued s) (reveal s) (copied s) (revoking s) (S (mounts s)).

(** A dialog that is already open keeps its state. *)
Definition setIssued (k : option ApiKeyCreatedResponse) (s : keys_state) : keys_state :=
  match issued s, k with
  | None, Some _ => mkKeys (issuing s) k (S (reveal s)) false (revoking s) (mounts s)
  | _, _ => mkKeys (issuing s) k (reveal s) (copied s) (revoking s) (mounts s)
  end.

Definition setCopied (n : nat) (b : bool) (s : keys_state) : keys_state :=
  if bool_decide (issued s <> None) && bool_decide (reveal s = n)
  then mkKeys (issuing s) (issued s) (reveal s) b (revoking s) (mounts s) else s.

Definition on_form (mount : nat) (e : option jsstr) (s : keys_state) : keys_state :=
  mkKeys (set_form_error mount e <$> issuing s) (issued s) (reveal s) (copied s) (revoking s) (mounts s).

#[export] Instance keys_part : Part keys_state ApiKeyResponse := {|
  part := revoking;
  on_part f s := mkKeys (issuing s) (issued s) (reveal s) (copied s) (f (revoking s)) (mounts s)
|}.

#[export] Instance keys_part_laws : PartLaws keys_state ApiKeyResponse.
Proof. by split. Qed.

Definition remove (k : ApiKeyResponse) : page_call := RevokeApiKey (akr_id k).
Definition remove_failure (k : ApiKeyResponse) (o : AdminOutcome unit) : option AdminError :=
  match o with admin_ok _ => None | admin_failed e => Some e end.

Definition onRevoke : keys_state -> page_handler keys_state := onConfirm remove remove_failure.

Section Forms.
Context `{Zod, Dates}.

(** [now] is [Date.now()]. *)
Definition statusOf (now : Z) (key : ApiKeyResponse) : tone * jsstr :=
  if truthy (default [] (akr_revokedAt key)) then (neutral, js "Revoked")
  else match akr_expiresAt key with
       | Some e =>
           if truthy e && match Date_parse e with Some t => (t <? now)%Z | None => false end
           then (warning, js "Expired") else (success, js "Active")
       | None => (success, js "Active")
       end.

Definition onIssued (created : ApiKeyCreatedResponse) : page_handler keys_state :=
  SetState setIssuing_false (SetState (setIssued (Some created)) on_changed).

Definition onClose : page_handler keys_state := set_state setIssuing_false.

Record IssueValues := mkIssueValues { iv_name : jsstr; iv_expiresAt : jsstr; iv_scopes : list jsstr }.

Definition issue_defaults : IssueValues := mkIssueValues [] [] [js "ingest:write"].

(** The [onChange] of a scope's checkbox. *)
Definition toggle_scope (checked : bool) (scope : jsstr) (value : list jsstr) : list jsstr :=
  if checked then value ++ [scope] else filter (.≠ scope) value.

(** The body, or the message for a date that is none. *)
Definition issue_body (v : IssueValues) : result jsstr json :=
  let fields := [(js "name", JStr (trim (iv_name v))); (js "scopes", JArr (JStr <$> iv_scopes v))] in
  if truthy (iv_expiresAt v) then
    match Date_parse (iv_expiresAt v) with
    | None => Err (js "Expiry is not a valid date.")
    | Some ms => Ok (JObj (fields ++ [(js "expiresAt", JStr (toISOString ms))]))
    end
  else Ok (JObj fields).

Definition issue_onSubmit (mount : nat) (v : IssueValues) : page_handler keys_state :=
  SetState (on_form mount None)
    match iv_scopes v with
    | [] => set_state (on_form mount (Some (js "At least one scope is required.")))
    | _ =>
        match issue_body v with
        | Err message => set_state (on_form mount (Some message))
        | Ok body =>
            match safeParse createApiKeyRequestSchema (Some body) with
            | Err messages => set_state (on_form mount (Some (issue_text messages)))
            | Ok data =>
                await (answer := page_answer) (IssueApiKey data) (fun outcome =>
                  match outcome with
                  | admin_ok created => onIssued created
                  | admin_failed error => set_state (on_form mount (Some (ae_message error)))
                  end)
            end
        end
    end.

Definition SCOPE_OPTIONS : list (jsstr * (jsstr * jsstr)) :=
  (fun s => if bool_decide (s = js "ingest:write") then (s, (js "ingest:write", js "Send logs to this tenant."))
            else (s, (js "logs:read", js "Read logs, search, and live-tail."))) <$> SCOPES.

Definition issue_fields (_ : IssueValues) : list (control IssueValues) :=
  [TextField (js "Name") iv_name (fun t v => mkIssueValues t (iv_expiresAt v) (iv_scopes v));
   TextField (js "Expires (optional)") iv_expiresAt (fun t v => mkIssueValues (iv_name v) t (iv_scopes v));
   Caption (js "Scopes")]
  ++ flat_map (fun '(scope, (label, description)) =>
       [CheckboxField label (fun v => bool_decide (scope ∈ iv_scopes v))
          (fun checked v => mkIssueValues (iv_name v) (iv_expiresAt v) (toggle_scope checked scope (iv_scopes v)));
        Caption description]) SCOPE_OPTIONS.

Definition IssueKeyDialog (d : form_dialog) : list (page_widget keys_state) :=
  [Dismiss onClose; Text (js "Issue API key"); Text (js "The secret is shown once and cannot be retrieved later.")]
  ++ form_alert (js "Couldn't issue the key") d
  ++ [Form issue_defaults issue_fields (js "Issue key") (issue_onSubmit (fd_mount d)); Button (js "Cancel") false onClose].

Definition onCopy (n : nat) (created : ApiKeyCreatedResponse) : page_handler keys_state :=
  try_await (answer := page_answer) (WriteText (created_plaintext created))
    (fun _ => set_state (setCopied n true)) (set_state (setCopied n false)).

Definition SecretRevealDialog (s : keys_state) (created : ApiKeyCreatedResponse) : list (page_widget keys_state) :=
  [Dismiss (set_state (setIssued None)); Text (js "Copy your API key now"); Text (js "Secret for " ++ quoted (created_name created) ++ js ".");
   Alert warning (js "You won't be able to see this again")
     (js "Store it somewhere safe. If you lose it, revoke this key and issue a new one.");
   Text (created_plaintext created);
   Button (if copied s then js "Copied" else js "Copy") false (onCopy (reveal s) created);
   Button (js "Done") false (set_state (setIssued None))].

Section View.
Context (role : Role).

#[local] Abbreviation can := (useCan role).

Definition row (now : Z) (key : ApiKeyResponse) : list (page_widget keys_state) :=
  let '(t, label) := statusOf now key in
  [Text (akr_name key); Badge t label;
   Text (join (akr_scopes key) (js ", ") ++ middle_dot ++ js "created " ++ take 10 (akr_createdAt key)
         ++ middle_dot ++ match akr_lastUsedAt key with
                          | Some at_ => if truthy at_ then js "last used " ++ take 10 at_ else js "never used"
                          | None => js "never used"
                          end)]
  ++ shown (can apikey_revoke && negb (truthy (default [] (akr_revokedAt key)))) [Button (js "Revoke") false (ask key)].

Definition keys_page (now : Z) (apiKeys : list ApiKeyResponse) : list (page_widget keys_state) :=
  [Text (js "API keys"); Text (js "Ingest credentials for sending logs to this tenant.")]
  ++ shown (can apikey_create) [Button (js "Issue key") false (set_state setIssuing_true)]
  ++ match apiKeys with
     | [] => Text (js "No API keys") :: shown (can apikey_create) [Text (js "Issue a key to start ingesting logs.")]
     | _ => flat_map (row now) apiKeys
     end.

Definition ApiKeysSection : page_component := {|
  State := keys_state;
  Props := Z * list ApiKeyResponse;
  initial := mkKeys None None 0 false no_confirm 0;
  view '(now, apiKeys) s :=
    mkRendered (keys_page now apiKeys) (open_dialogs
      [match issuing s with Some d => IssueKeyDialog d | None => [] end;
       match issued s with Some created => SecretRevealDialog s created | None => [] end;
       confirm_dialog remove remove_failure (js "Revoke API key")
         (fun k => quoted (akr_name k) ++ js " will stop working immediately. Any client using it will be rejected.")
         (js "Couldn't revoke the key") (js "Revoke key") (js "Revoking" ++ ellipsis) s])
|}.

End View.
End Forms.
End ApiKeys.

(** ** Invitations ([invites-section.tsx]) *)

Module Invitations.

Section Fields.
Context (i : InviteResponse).
Definition ivr_id : jsstr := i.1.
Definition ivr_email : jsstr := i.2.2.1.
Definition ivr_role : jsstr := i.2.2.2.1.
Definition ivr_status : InviteStatus := i.2.2.2.2.1.
Definition ivr_expiresAt : jsstr := i.2.2.2.2.2.1.
End Fields.

Definition created_email (i : InviteCreatedResponse) : jsstr := i.2.2.1.
Definition created_inviteUrl (i : InviteCreatedResponse) : jsstr := i.2.2.2.2.2.2.2.2.2.2.1.

(** As for API keys: [created] is the only place the link is held in. *)
Record invites_state := mkInvites {
  inviting : option form_dialog;
  created : option InviteCreatedResponse;
  reveal : nat;
  copied : bool;
  revoking : confirm InviteResponse;
  mounts : nat
}.

Definition setInviting_false (s : invites_state) : invites_state :=
  mkInvites None (created s) (reveal s) (copied s) (revoking s) (mounts s).

Definition setInviting_true (s : invites_state) : invites_state :=
  mkInvites (Some (mkFormDialog (mounts s) None)) (created s) (reveal s) (copied s) (revoking s) (S (mounts s)).

Definition setCreated (i : option InviteCreatedResponse) (s : invites_state) : invites_state :=
  match created s, i with
  | None, Some _ => mkInvites (inviting s) i (S (reveal s)) false (revoking s) (mounts s)
  | _, _ => mkInvites (inviting s) i (reveal s) (copied s) (revoking s) (mounts s)
  end.

Definition setCopied (n : nat) (b : bool) (s : invites_state) : invites_state :=
  if bool_decide (created s <> None) && bool_decide (reveal s = n)
  then mkInvites (inviting s) (created s) (reveal s) b (revoking s) (mounts s) else s.

Definition on_form (mount : nat) (e : option jsstr) (s : invites_state) : invites_state :=
  mkInvites (set_form_error mount e <$> inviting s) (created s) (reveal s) (copied s) (revoking s) (mounts s).

#[export] Instance invites_part : Part invites_state InviteResponse := {|
  part := revoking;
  on_part f s := mkInvites (inviting s) (created s) (reveal s) (copied s) (f (revoking s)) (mounts s)
|}.

#[export] Instance invites_part_laws : PartLaws invites_state InviteResponse.
Proof. by split. Qed.

Definition remove (i : InviteResponse) : page_call := RevokeInvite (ivr_id i).
Definition remove_failure (i : InviteResponse) (o : AdminOutcome unit) : option AdminError :=
  match o with admin_ok _ => None | admin_failed e => Some e end.

Definition onRevoke : invites_state -> page_handler invites_state := onConfirm remove remove_failure.

Section Forms.
Context `{Zod, Dates}.

Definition statusOf (now : Z) (invite : InviteResponse) : tone * jsstr :=
  match ivr_status invite with
  | i_revoked => (neutral, js "Revoked")
  | i_consumed => (success, js "Consumed")
  | i_pending =>
      if match Date_parse (ivr_expiresAt invite) with Some t => (t <? now)%Z | None => false end
      then (warning, js "Expired") else (success, js "Pending")
  end.

Definition onCreated (invite : InviteCreatedResponse) : page_handler invites_state :=
  SetState setInviting_false (SetState (setCreated (Some invite)) on_changed).

Definition onClose : page_handler invites_state := set_state setInviting_false.

Record InviteValues := mkInviteValues { nv_email : jsstr; nv_role : jsstr }.

Definition invite_defaults : InviteValues := mkInviteValues [] (js "member").

Definition invite_body (v : InviteValues) : json :=
  JObj [(js "email", JStr (trim (nv_email v))); (js "role", JStr (nv_role v))].

Definition invite_onSubmit (mount : nat) (v : InviteValues) : page_handler invites_state :=
  SetState (on_form mount None)
    match safeParse createInviteRequestSchema (Some (invite_body v)) with
    | Err messages => set_state (on_form mount (Some (issue_text messages)))
    | Ok data =>
        await (answer := page_answer) (CreateInvite data) (fun outcome =>
          match outcome with
          | admin_ok invite => onCreated invite
          | admin_failed error => set_state (on_form mount (Some (ae_message error)))
          end)
    end.

Definition ROLE_OPTIONS : list (jsstr * jsstr) := [(js "member", js "member"); (js "admin", js "admin")].

Definition invite_fields (_ : InviteValues) : list (control InviteValues) :=
  [TextField (js "Email") nv_email (fun t v => mkInviteValues t (nv_role v));
   SelectField (js "Role") ROLE_OPTIONS nv_role (fun t v => mkInviteValues (nv_email v) t)].

Definition CreateInviteDialog (d : form_dialog) : list (page_widget invites_state) :=
  [Dismiss onClose; Text (js "Invite someone");
   Text (js "They'll receive a one-time link (also shown here) to join this workspace.")]
  ++ form_alert (js "Couldn't send the invite") d
  ++ [Form invite_defaults invite_fields (js "Send invite") (invite_onSubmit (fd_mount d)); Button (js "Cancel") false onClose].

Definition onCopy (n : nat) (i : InviteCreatedResponse) : page_handler invites_state :=
  try_await (answer := page_answer) (WriteText (created_inviteUrl i))
    (fun _ => set_state (setCopied n true)) (set_state (setCopied n false)).

Definition InviteLinkDialog (s : invites_state) (i : InviteCreatedResponse) : list (page_widget invites_state) :=
  [Dismiss (set_state (setCreated None)); Text (js "Copy the invite link now"); Text (js "Link for " ++ quoted (created_email i) ++ js ".");
   Alert warning (js "You won't be able to see this again")
     (js "Share it with " ++ created_email i ++ js ". If it's lost, revoke this invite and send a new one.");
   Text (created_inviteUrl i);
   Button (if copied s then js "Copied" else js "Copy") false (onCopy (reveal s) i);
   Button (js "Done") false (set_state (setCreated None))].

Section View.
Context (role : Role).

#[local] Abbreviation can := (useCan role).

Definition row (now : Z) (invite : InviteResponse) : list (page_widget invites_state) :=
  let '(t, label) := statusOf now invite in
  [Text (ivr_email invite); Badge brand (ivr_role invite); Badge t label;
   Text (js "expires " ++ take 10 (ivr_expiresAt invite))]
  ++ shown (can invite_revoke && bool_decide (ivr_status invite = i_pending)) [Button (js "Revoke") false (ask invite)].

Definition invites_page (now : Z) (invites : list InviteResponse) : list (page_widget invites_state) :=
  [Text (js "Invites"); Text (js "Invite people to join this workspace.")]
  ++ shown (can invite_create) [Button (js "Invite") false (set_state setInviting_true)]
  ++ match invites with
     | [] => Text (js "No invites") :: shown (can invite_create) [Text (js "Invite someone to get them started.")]
     | _ => flat_map (row now) invites
     end.

Definition InvitesSection : page_component := {|
  State := invites_state;
  Props := Z * list InviteResponse;
  initial := mkInvites None None 0 false no_confirm 0;
  view '(now, invites) s :=
    mkRendered (invites_page now invites) (open_dialogs
      [match inviting s with Some d => CreateInviteDialog d | None => [] end;
       match created s with Some i => InviteLinkDialog s i | None => [] end;
       confirm_dialog remove remove_failure (js "Revoke invite")
         (fun i => js "The invite to " ++ quoted (ivr_email i) ++ js " will no longer be usable.")
         (js "Couldn't revoke the invite") (js "Revoke invite") (js "Revoking" ++ ellipsis) s])
|}.

End View.
End Forms.
End Invitations.

(** ** Retention ([retention-card.tsx]) *)

Module Retention.

Definition rtr_hotDays (r : RetentionResponse) : jsnum := r.2.1.
Definition rtr_coldDays (r : RetentionResponse) : jsnum := r.2.2.1.

Record retention_state := mkRetention { editing : option form_dialog; mounts : nat }.

Definition setEditing_false (s : retention_state) : retention_state := mkRetention None (mounts s).
Definition setEditing_true (s : retention_state) : retention_state :=
  mkRetention (Some (mkFormDialog (mounts s) None)) (S (mounts s)).
Definition on_form (mount : nat) (e : option jsstr) (s : retention_state) : retention_state :=
  mkRetention (set_form_error mount e <$> editing s) (mounts s).

Section Forms.
Context `{Zod}.

Definition onSaved : page_handler retention_state := SetState setEditing_false on_changed.

Record RetentionValues := mkRetentionValues { rv_hotDays : jsstr; rv_coldDays : jsstr }.

Definition retention_defaults (retention : option RetentionResponse) : RetentionValues :=
  mkRetentionValues (default [] (number_text (default (mkNum 30 0) (rtr_hotDays <$> retention))))
    (default [] (number_text (default (mkNum 365 0) (rtr_coldDays <$> retention)))).

Definition retention_form_body (v : RetentionValues) : json :=
  JObj [(js "hotDays", number_json (to_number (rv_hotDays v))); (js "coldDays", number_json (to_number (rv_coldDays v)))].

Definition retention_onSubmit (mount : nat) (v : RetentionValues) : page_handler retention_state :=
  SetState (on_form mount None)
    match safeParse upsertRetentionRequestSchema (Some (retention_form_body v)) with
    | Err messages => set_state (on_form mount (Some (issue_text messages)))
    | Ok data =>
        await (answer := page_answer) (UpdateRetention data) (fun outcome =>
          match outcome with
          | admin_ok _ => onSaved
          | admin_failed error => set_state (on_form mount (Some (ae_message error)))
          end)
    end.

Definition retention_fields (_ : RetentionValues) : list (control RetentionValues) :=
  [TextField (js "Hot store (days)") rv_hotDays (fun t v => mkRetentionValues t (rv_coldDays v));
   TextField (js "Cold archive (days)") rv_coldDays (fun t v => mkRetentionValues (rv_hotDays v) t)].

Definition RetentionForm (retention : option RetentionResponse) (d : form_dialog) : list (page_widget retention_state) :=
  form_alert (js "Couldn't save retention") d
  ++ [Form (retention_defaults retention) retention_fields (js "Save retention") (retention_onSubmit (fd_mount d));
      Button (js "Cancel") false (set_state setEditing_false)].

Definition days (n : jsnum) : jsstr := default [] (number_text n) ++ js " days".

Section View.
Context (role : Role).

#[local] Abbreviation canEdit := (useCan role retention_update).

Definition RetentionCard : page_component := {|
  State := retention_state;
  Props := option RetentionResponse;
  initial := mkRetention None 0;
  view retention s :=
    mkRendered
      ([Text (js "Retention"); Text (js "How long logs stay in the hot store and cold archive.")]
       ++ shown (canEdit && bool_decide (editing s = None))
            [Button (if bool_decide (retention = None) then js "Set policy" else js "Edit") false (set_state setEditing_true)]
       ++ match editing s, retention with
          | Some d, _ => RetentionForm retention d
          | None, Some r => [Text (js "Hot store"); Text (days (rtr_hotDays r)); Text (js "Cold archive"); Text (days (rtr_coldDays r))]
          | None, None =>
              Text (js "No retention policy configured yet.")
              :: shown (negb canEdit) [Text (js " A workspace admin can set one.")]
          end) []
|}.

End View.
End Forms.
End Retention.

(** * Lemmas *)

(** ** Users *)

Section UsersRuns.
Context `{Zod} (role : Role).
Import Users.

Definition users_may (s : users_state) : Prop :=
  match dialog s with
  | closed => True
  | creating _ => useCan role user_create = true
  | editing _ _ => useCan role user_update = true
  end /\ (cf_target (deleting s) <> None -> useCan role user_delete = true).

Lemma users_on_form mount e s : users_may s -> users_may (on_form mount e s).
Proof. unfold users_may, on_form. cbn [dialog deleting]. by destruct (dialog s). Qed.

Lemma users_close s : users_may s -> users_may (setDialog closed s).
Proof. intros [_ Hd]. by split. Qed.

Lemma users_part_may f s :
  (forall c, cf_target (f c) = cf_target c \/ cf_target (f c) = None) -> users_may s -> users_may (on_part f s).
Proof. intros Hf [Ha Hb]. split; [done|]. cbn [deleting on_part users_part]. by destruct (Hf (deleting s)) as [->| ->]. Qed.

#[local] Hint Resolve users_on_form users_close : pages.

Lemma users_keep : view_keeps (UsersSection role) users_may (permitted role).
Proof.
  intros users s Hs. rendered_view.
  - unfold users_page, row. destruct users; widgets; handlers.
    all: try (match goal with H : users_may _ |- _ => destruct H end; by split).
  - destruct (dialog s) as [|d|u d] eqn:E; [constructor| |constructor]. unfold CreateUserDialog, form_alert, onClose, create_onSubmit, saved, onSaved. widgets; handlers.
    destruct Hs as [Hs _]. by rewrite E in Hs.
  - destruct (dialog s) as [|d|u d] eqn:E; [constructor..|]. unfold EditUserDialog, form_alert, onClose, edit_onSubmit, saved, onSaved. widgets; handlers.
    destruct Hs as [Hs _]. by rewrite E in Hs.
  - apply offers_confirm; [handlers; apply users_part_may; [by right|done]|].
    intros _. apply confirm_keeps; [apply users_part_may|..|done].
    intros t Ht. destruct Hs as [_ Hs]. apply Hs. cbn in Ht. by rewrite Ht.
Qed.

Lemma users_confirm : confirms (UsersSection role) UserResponse remove remove_failure.
Proof.
  intros users s. rendered_view.
  - unfold users_page, row. destruct users; widgets; left; handlers.
  - destruct (dialog s) as [|d|u d]; [constructor| |constructor].
    unfold CreateUserDialog, form_alert, onClose, create_onSubmit, saved, onSaved. widgets; left; handlers.
  - destruct (dialog s) as [|d|u d]; [constructor..|].
    unfold EditUserDialog, form_alert, onClose, edit_onSubmit, saved, onSaved. widgets; left; handlers.
  - apply offers_confirm; [left; handlers|by right].
Qed.

End UsersRuns.

(** ** API keys *)

Section KeysRuns.
Context `{Zod, Dates} (role : Role).
Import ApiKeys.

Definition keys_may (s : keys_state) : Prop :=
  (issuing s <> None -> useCan role apikey_create = true) /\ (cf_target (revoking s) <> None -> useCan role apikey_revoke = true).

Lemma keys_on_form mount e s : keys_may s -> keys_may (on_form mount e s).
Proof. unfold keys_may, on_form. cbn [issuing revoking]. rewrite fmap_None. done. Qed.

Lemma keys_close s : keys_may s -> keys_may (setIssuing_false s).
Proof. intros [_ Hd]. by split. Qed.

Lemma keys_issued k s : keys_may s -> keys_may (setIssued k s).
Proof. unfold keys_may, setIssued. by destruct (issued s), k. Qed.

Lemma keys_copied n b s : keys_may s -> keys_may (setCopied n b s).
Proof. unfold keys_may, setCopied. by destruct (bool_decide _ && bool_decide _). Qed.

Lemma keys_part_may f s :
  (forall c, cf_target (f c) = cf_target c \/ cf_target (f c) = None) -> keys_may s -> keys_may (on_part f s).
Proof. intros Hf [Ha Hb]. split; [done|]. cbn [revoking on_part keys_part]. by destruct (Hf (revoking s)) as [->| ->]. Qed.

#[local] Hint Resolve keys_on_form keys_close keys_issued keys_copied : pages.

Lemma keys_keep : view_keeps (ApiKeysSection role) keys_may (permitted role).
Proof.
  intros [now keys] s Hs. rendered_view.
  - unfold keys_page. destruct keys; widgets; handlers.
    all: try (match goal with H : keys_may _ |- _ => destruct H end; by split).
    all: unfold row; destruct (statusOf now _); widgets; handlers.
    all: match goal with H : andb _ _ = true |- _ => apply andb_true_iff in H as [? _] end;
      match goal with H : keys_may _ |- _ => destruct H end; by split.
  - destruct (issuing s) as [d|] eqn:E; [|constructor]. unfold IssueKeyDialog, form_alert, onClose, issue_onSubmit, onIssued. widgets; handlers.
    destruct Hs as [Hs _]. apply Hs. by rewrite E.
  - destruct (issued s) as [k|]; [|constructor]. unfold SecretRevealDialog, onCopy. widgets; handlers.
  - apply offers_confirm; [handlers; apply keys_part_may; [by right|done]|].
    intros _. apply confirm_keeps; [apply keys_part_may|..|done].
    intros t Ht. destruct Hs as [_ Hs]. apply Hs. cbn in Ht. by rewrite Ht.
Qed.

Lemma keys_busy_issued k s : cf_busy (revoking (setIssued k s)) = cf_busy (revoking s).
Proof. unfold setIssued. by destruct (issued s), k. Qed.

Lemma keys_busy_copied n b s : cf_busy (revoking (setCopied n b s)) = cf_busy (revoking s).
Proof. unfold setCopied. by destruct (bool_decide _ && bool_decide _). Qed.

#[local] Hint Resolve keys_busy_issued keys_busy_copied : pages.

Lemma keys_confirm : confirms (ApiKeysSection role) ApiKeyResponse remove remove_failure.
Proof.
  intros [now keys] s. rendered_view.
  - unfold keys_page. destruct keys; widgets; try (left; handlers).
    all: unfold row; destruct (statusOf now _); widgets; left; handlers.
  - destruct (issuing s) as [d|]; [|constructor]. unfold IssueKeyDialog, form_alert, onClose, issue_onSubmit, onIssued. widgets; left; handlers.
  - destruct (issued s) as [k|]; [|constructor]. unfold SecretRevealDialog, onCopy. widgets; left; handlers.
  - apply offers_confirm; [left; handlers|by right].
Qed.

End KeysRuns.

(** ** Invitations *)

Section InvitesRuns.
Context `{Zod, Dates} (role : Role).
Import Invitations.

Definition invites_may (s : invites_state) : Prop :=
  (inviting s <> None -> useCan role invite_create = true) /\ (cf_target (revoking s) <> None -> useCan role invite_revoke = true).

Lemma invites_on_form mount e s : invites_may s -> invites_may (on_form mount e s).
Proof. unfold invites_may, on_form. cbn [inviting revoking]. rewrite fmap_None. done. Qed.

Lemma invites_close s : invites_may s -> invites_may (setInviting_false s).
Proof. intros [_ Hd]. by split. Qed.

Lemma invites_issued k s : invites_may s -> invites_may (setCreated k s).
Proof. unfold invites_may, setCreated. by destruct (created s), k. Qed.

Lemma invites_copied n b s : invites_may s -> invites_may (setCopied n b s).
Proof. unfold invites_may, setCopied. by destruct (bool_decide _ && bool_decide _). Qed.

Lemma invites_part_may f s :
  (forall c, cf_target (f c) = cf_target c \/ cf_target (f c) = None) -> invites_may s -> invites_may (on_part f s).
Proof. intros Hf [Ha Hb]. split; [done|]. cbn [revoking on_part invites_part]. by destruct (Hf (revoking s)) as [->| ->]. Qed.

#[local] Hint Resolve invites_on_form invites_close invites_issued invites_copied : pages.

Lemma invites_keep : view_keeps (InvitesSection role) invites_may (permitted role).
Proof.
  intros [now invites] s Hs. rendered_view.
  - unfold invites_page. destruct invites; widgets; handlers.
    all: try (match goal with H : invites_may _ |- _ => destruct H end; by split).
    all: unfold row; destruct (statusOf now _); widgets; handlers.
    all: match goal with H : andb _ _ = true |- _ => apply andb_true_iff in H as [? _] end;
      match goal with H : invites_may _ |- _ => destruct H end; by split.
  - destruct (inviting s) as [d|] eqn:E; [|constructor]. unfold CreateInviteDialog, form_alert, onClose, invite_onSubmit, onCreated. widgets; handlers.
    destruct Hs as [Hs _]. apply Hs. by rewrite E.
  - destruct (created s) as [k|]; [|constructor]. unfold InviteLinkDialog, onCopy. widgets; handlers.
  - apply offers_confirm; [handlers; apply invites_part_may; [by right|done]|].
    intros _. apply confirm_keeps; [apply invites_part_may|..|done].
    intros t Ht. destruct Hs as [_ Hs]. apply Hs. cbn in Ht. by rewrite Ht.
Qed.

Lemma invites_busy_issued k s : cf_busy (revoking (setCreated k s)) = cf_busy (revoking s).
Proof. unfold setCreated. by destruct (created s), k. Qed.

Lemma invites_busy_copied n b s : cf_busy (revoking (setCopied n b s)) = cf_busy (revoking s).
Proof. unfold setCopied. by destruct (bool_decide _ && bool_decide _). Qed.

#[local] Hint Resolve invites_busy_issued invites_busy_copied : pages.

Lemma invites_confirm : confirms (InvitesSection role) InviteResponse remove remove_failure.
Proof.
  intros [now invites] s. rendered_view.
  - unfold invites_page. destruct invites; widgets; try (left; handlers).
    all: unfold row; destruct (statusOf now _); widgets; left; handlers.
  - destruct (inviting s) as [d|]; [|constructor]. unfold CreateInviteDialog, form_alert, onClose, invite_onSubmit, onCreated. widgets; left; handlers.
  - destruct (created s) as [k|]; [|constructor]. unfold InviteLinkDialog, onCopy. widgets; left; handlers.
  - apply offers_confirm; [left; handlers|by right].
Qed.

End InvitesRuns.

(** ** Retention *)

Section RetentionRuns.
Context `{Zod} (role : Role).
Import Retention.

Definition retention_may (s : retention_state) : Prop := editing s <> None -> useCan role retention_update = true.

Lemma retention_on_form mount e s : retention_may s -> retention_may (on_form mount e s).
Proof. unfold retention_may, on_form. cbn [editing]. by rewrite fmap_None. Qed.

Lemma retention_close s : retention_may s -> retention_may (setEditing_false s).
Proof. by intros _ Hd. Qed.

#[local] Hint Resolve retention_on_form retention_close : pages.

Lemma retention_keep : view_keeps (RetentionCard role) retention_may (permitted role).
Proof.
  intros retention s Hs. unfold actionable. cbn [dialogs page view RetentionCard]. widgets.
  - handlers. intros _. match goal with H : andb _ _ = true |- _ => by apply andb_true_iff in H as [? _] end.
  - destruct (editing s) as [d|] eqn:E; [|destruct retention; widgets]. unfold RetentionForm, form_alert, retention_onSubmit, onSaved.
    widgets; handlers. apply Hs. by rewrite E.
Qed.

End RetentionRuns.
