(* ===== verification/AlertPages.v ===== *)
(** * Alert rules in the browser

    [features/alerts/]: the form that edits a rule ([alert-rule-form.tsx]), with the
    assembly of a request from the text of its fields and back, and the list of rules
    ([alert-manager.tsx], [alert-state-badge.tsx]).  What the form makes of a rule that
    is opened and saved unchanged is proved at the end. *)

From stdpp Require Import base list option numbers strings gmap relations.
From S2P Require Import Prelude Errors Tokens Text Rbac Email Entities Ports Services UseCases Invites Google Zod Contracts Wire Json WebSession.
From S2P Require Import Requests LogSearch AdminBff React Pages Fields AdminPages.

(** ** Form values *)

Inductive ChannelKind := k_webhook | k_email.

Record NotifyChannelDraft := mkDraft { nd_type : ChannelKind; nd_value : jsstr }.

Record AlertRuleFormValues := mkRuleValues {
  fv_name : jsstr;
  fv_text : jsstr;
  fv_service : jsstr;
  fv_level : jsstr;                     (* a level, or empty *)
  fv_labels : jsstr;
  fv_comparator : AlertComparator;
  fv_threshold : jsstr;
  fv_windowSeconds : jsstr;
  fv_severity : jsstr;
  fv_enabled : bool;
  fv_notifyChannels : list NotifyChannelDraft
}.

Definition EMPTY_ALERT_RULE_VALUES : AlertRuleFormValues :=
  mkRuleValues [] [] [] [] [] c_gt (js "0") (js "300") (js "warning") true [].

Definition set_channels (l : list NotifyChannelDraft) (v : AlertRuleFormValues) : AlertRuleFormValues :=
  mkRuleValues (fv_name v) (fv_text v) (fv_service v) (fv_level v) (fv_labels v) (fv_comparator v) (fv_threshold v) (fv_windowSeconds v)
    (fv_severity v) (fv_enabled v) l.

(** An object used as a dictionary: its own keys, once each; nothing here depends on their
    order. *)
Abbreviation dict := (list (jsstr * jsstr)).

(** [out[key] = value]; the assignment of a string to [__proto__] has no effect. *)
Fixpoint assign (key value : jsstr) (out : dict) : dict :=
  match out with
  | [] => [(key, value)]
  | (k, v) :: out' => if bool_decide (k = key) then (k, value) :: out' else (k, v) :: assign key value out'
  end.

Definition dict_set (key value : jsstr) (out : dict) : dict :=
  if bool_decide (key = js "__proto__") then out else assign key value out.

(** One line of the labels. *)
Definition parse_label (out : dict) (line : jsstr) : dict :=
  let trimmed := trim line in
  match indexOf trimmed (js "=") with
  | None | Some 0 => out
  | Some eq =>
      let key := trim (take eq trimmed) in
      let value := trim (drop (S eq) trimmed) in
      if truthy key then dict_set key value out else out
  end.

Definition parseLabels (raw : jsstr) : dict := foldl parse_label [] (split_on 10 raw).

(** ** Requests *)

Definition channel_body (c : NotifyChannelDraft) : json :=
  match nd_type c with
  | k_webhook => JObj [(js "type", JStr (js "webhook")); (js "url", JStr (trim (nd_value c)))]
  | k_email => JObj [(js "type", JStr (js "email")); (js "to", JStr (trim (nd_value c)))]
  end.

Definition query_body (values : AlertRuleFormValues) : jsobject :=
  (if truthy (trim (fv_text values)) then [(js "text", JStr (trim (fv_text values)))] else [])
  ++ (if truthy (trim (fv_service values)) then [(js "service", JStr (trim (fv_service values)))] else [])
  ++ (if truthy (fv_level values) then [(js "level", JStr (fv_level values))] else [])
  ++ match parseLabels (fv_labels values) with
     | [] => []
     | labels => [(js "labels", JObj (prod_map id JStr <$> labels))]
     end.

Definition assembleAlertRuleBody (values : AlertRuleFormValues) : json :=
  JObj [(js "name", JStr (trim (fv_name values))); (js "query", JObj (query_body values));
        (js "comparator", JStr (comparator_str (fv_comparator values)));
        (js "threshold", number_json (to_number (fv_threshold values)));
        (js "windowSeconds", number_json (to_number (fv_windowSeconds values)));
        (js "severity", JStr (fv_severity values)); (js "enabled", JBool (fv_enabled values));
        (js "notifyChannels", JArr (channel_body <$> List.filter (fun c => truthy (trim (nd_value c))) (fv_notifyChannels values)))].

(** ** Rules *)

Section Fields.
Context (r : AlertRuleResponse).
Definition rr_id : jsstr := r.1.
Definition rr_name : jsstr := r.2.2.1.
Definition rr_savedQueryId : option jsstr := r.2.2.2.1.
Definition rr_query : RuleQuery := r.2.2.2.2.1.
Definition rr_comparator : AlertComparator := r.2.2.2.2.2.1.
Definition rr_threshold : jsnum := r.2.2.2.2.2.2.1.
Definition rr_windowSeconds : jsnum := r.2.2.2.2.2.2.2.1.
Definition rr_severity : jsstr := r.2.2.2.2.2.2.2.2.1.
Definition rr_enabled : bool := r.2.2.2.2.2.2.2.2.2.1.
Definition rr_notifyChannels : list NotifyChannel := r.2.2.2.2.2.2.2.2.2.2.1.
Definition rr_state : AlertState := r.2.2.2.2.2.2.2.2.2.2.2.1.
Definition rr_lastTriggeredAt : option jsstr := r.2.2.2.2.2.2.2.2.2.2.2.2.2.1.
End Fields.

(** [Object.entries(labels)]: the model's maps have no order, the object has one. *)
Class Entries := { object_entries : gmap jsstr jsstr -> dict }.
Class EntriesLaws `{Entries} : Prop := { entries_perm m : object_entries m ≡ₚ map_to_list m }.

Definition label_line (kv : jsstr * jsstr) : jsstr := kv.1 ++ js "=" ++ kv.2.

Definition draft_of (c : NotifyChannel) : NotifyChannelDraft :=
  match c with webhook u => mkDraft k_webhook u | email_channel t => mkDraft k_email t end.

Section Rules.
Context `{Zod, Entries}.

Definition valuesFromRule (rule : AlertRuleResponse) : AlertRuleFormValues :=
  mkRuleValues (rr_name rule) (default [] (rq_text (rr_query rule))) (default [] (rq_service (rr_query rule)))
    (default [] (rq_level (rr_query rule)))
    (join (label_line <$> object_entries (default ∅ (rq_labels (rr_query rule)))) [10%N])
    (rr_comparator rule) (default [] (number_text (rr_threshold rule))) (default [] (number_text (rr_windowSeconds rule)))
    match safeParse alertSeveritySchema (Some (JStr (rr_severity rule))) with Ok s => s | Err _ => js "warning" end
    (rr_enabled rule) (draft_of <$> rr_notifyChannels rule).

Inductive Mode := m_create | m_edit.

(** [[...new Set(messages)]]. *)
Fixpoint unique (seen messages : list jsstr) : list jsstr :=
  match messages with
  | [] => []
  | m :: messages => if bool_decide (m ∈ seen) then unique seen messages else m :: unique (m :: seen) messages
  end.

Definition validateAlertRule (mode : Mode) (values : AlertRuleFormValues) : result (list jsstr) (CreateAlertRuleRequest + AlertRulePatch) :=
  let body := assembleAlertRuleBody values in
  match mode with
  | m_create =>
      match safeParse createAlertRuleRequestSchema (Some body) with
      | Ok data => Ok (inl data)
      | Err messages => Err (unique [] messages)
      end
  | m_edit =>
      match safeParse updateAlertRuleRequestSchema (Some body) with
      | Ok data => Ok (inr data)
      | Err messages => Err (unique [] messages)
      end
  end.

End Rules.

(** ** The list of rules *)

Definition COMPARATOR_SYMBOL (c : AlertComparator) : jsstr :=
  match c with
  | c_gt => js ">" | c_gte => [8805%N] | c_lt => js "<" | c_lte => [8804%N] | c_eq => js "="
  end.

Definition AlertStateBadge {S} (state : AlertState) (enabled : bool) : page_widget S :=
  if enabled then
    match state with
    | a_firing => Badge danger (js "Firing")
    | a_ok => Badge success (js "OK")
    | a_no_data => Badge warning (js "No data")
    end
  else Badge neutral (js "Paused").

Module AlertManager.

Inductive DialogState :=
| closed
| creating (d : form_dialog)
| editing (rule : AlertRuleResponse) (d : form_dialog).

Record alerts_state := mkAlerts { dialog : DialogState; deleting : confirm AlertRuleResponse; mounts : nat }.

Definition setDialog (d : DialogState) (s : alerts_state) : alerts_state := mkAlerts d (deleting s) (mounts s).

Definition openDialog (d : form_dialog -> DialogState) (s : alerts_state) : alerts_state :=
  mkAlerts (d (mkFormDialog (mounts s) None)) (deleting s) (S (mounts s)).

Definition on_form (mount : nat) (e : option jsstr) (s : alerts_state) : alerts_state :=
  mkAlerts match dialog s with
           | closed => closed
           | creating d => creating (set_form_error mount e d)
           | editing rule d => editing rule (set_form_error mount e d)
           end (deleting s) (mounts s).

#[export] Instance alerts_part : Part alerts_state AlertRuleResponse := {|
  part := deleting;
  on_part f s := mkAlerts (dialog s) (f (deleting s)) (mounts s)
|}.

#[export] Instance alerts_part_laws : PartLaws alerts_state AlertRuleResponse.
Proof. by split. Qed.

Definition remove (r : AlertRuleResponse) : page_call := DeleteAlertRule (rr_id r).
Definition remove_failure (r : AlertRuleResponse) (o : AdminOutcome unit) : option AdminError :=
  match o with admin_ok _ => None | admin_failed e => Some e end.

Definition onDelete : alerts_state -> page_handler alerts_state := onConfirm remove remove_failure.

Section Manager.
Context `{Zod, Entries}.

Definition summarizeQuery (query : RuleQuery) (savedQueryId : option jsstr) : jsstr :=
  if truthy (default [] savedQueryId) then js "Saved query " ++ take 8 (default [] savedQueryId) ++ ellipsis
  else
    let part (prefix suffix : jsstr) (o : option jsstr) :=
      if truthy (default [] o) then [prefix ++ default [] o ++ suffix] else [] in
    let parts :=
      part (js "text:" ++ [34%N]) [34%N] (rq_text query) ++ part (js "service:") [] (rq_service query)
      ++ part (js "level:") [] (rq_level query) ++ (label_line <$> object_entries (default ∅ (rq_labels query))) in
    match parts with [] => js "all logs" | _ => join parts (js "  ") end.

(** The answer of [submit]; [onSaved()] is not awaited. *)
Definition answered (mount : nat) (outcome : AdminOutcome AlertRuleResponse) : page_handler alerts_state :=
  match outcome with
  | admin_ok _ => SetState (setDialog closed) on_changed
  | admin_failed error => set_state (on_form mount (Some (ae_message error)))
  end.

(** [submit(body)]: to [update] while the dialog edits a rule, to [create] otherwise.  What
    was validated for the one mode is never sent in the other. *)
Definition submit (rule : option AlertRuleResponse) (mount : nat) (body : CreateAlertRuleRequest + AlertRulePatch) : page_handler alerts_state :=
  match rule, body with
  | Some r, inr patch => await (answer := page_answer) (UpdateAlertRule (rr_id r) patch) (answered mount)
  | None, inl create => await (answer := page_answer) (CreateAlertRule create) (answered mount)
  | _, _ => Return
  end.

Definition form_onSubmit (rule : option AlertRuleResponse) (mount : nat) (values : AlertRuleFormValues) : page_handler alerts_state :=
  SetState (on_form mount None)
    match validateAlertRule (match rule with Some _ => m_edit | None => m_create end) values with
    | Err messages => set_state (on_form mount (Some (join messages (js ". "))))
    | Ok body => submit rule mount body
    end.

Definition COMPARATOR_LABELS (c : AlertComparator) : jsstr :=
  match c with
  | c_gt => js "greater than (>)"
  | c_gte => js "greater than or equal (" ++ [8805%N] ++ js ")"
  | c_lt => js "less than (<)"
  | c_lte => js "less than or equal (" ++ [8804%N] ++ js ")"
  | c_eq => js "equal to (=)"
  end.

Definition on_channel (i : nat) (f : NotifyChannelDraft -> NotifyChannelDraft) (v : AlertRuleFormValues) : AlertRuleFormValues :=
  set_channels (alter f i (fv_notifyChannels v)) v.

(** The rows of the channels: their type, their destination, and a button. *)
Definition channel_fields (v : AlertRuleFormValues) : list (control AlertRuleFormValues) :=
  [Caption (js "Notify channels"); ValueButton (js "Add channel") (fun v => set_channels (fv_notifyChannels v ++ [mkDraft k_webhook []]) v)]
  ++ (if length (fv_notifyChannels v) =? 0 then [Caption (js "No channels " ++ [8212%N] ++ js " the rule still tracks state, just won't notify.")] else [])
  ++ concat (imap (fun i c =>
       [SelectField (js "Type") [(k_webhook, js "Webhook"); (k_email, js "Email")] (fun _ => nd_type c) (fun k => on_channel i (fun c => mkDraft k (nd_value c)));
        TextField (js "Destination") (fun _ => nd_value c) (fun t => on_channel i (fun c => mkDraft (nd_type c) t));
        ValueButton (js "Remove") (fun v => set_channels (delete i (fv_notifyChannels v)) v)]) (fv_notifyChannels v)).

Definition rule_fields (v : AlertRuleFormValues) : list (control AlertRuleFormValues) :=
  [TextField (js "Name") fv_name (fun t v => mkRuleValues t (fv_text v) (fv_service v) (fv_level v) (fv_labels v) (fv_comparator v) (fv_threshold v) (fv_windowSeconds v) (fv_severity v) (fv_enabled v) (fv_notifyChannels v));
   Caption (js "Match query");
   TextField (js "Text contains") fv_text (fun t v => mkRuleValues (fv_name v) t (fv_service v) (fv_level v) (fv_labels v) (fv_comparator v) (fv_threshold v) (fv_windowSeconds v) (fv_severity v) (fv_enabled v) (fv_notifyChannels v));
   TextField (js "Service") fv_service (fun t v => mkRuleValues (fv_name v) (fv_text v) t (fv_level v) (fv_labels v) (fv_comparator v) (fv_threshold v) (fv_windowSeconds v) (fv_severity v) (fv_enabled v) (fv_notifyChannels v));
   SelectField (js "Level") (([], js "Any level") :: ((fun l => (l, l)) <$> LOG_LEVELS)) fv_level (fun t v => mkRuleValues (fv_name v) (fv_text v) (fv_service v) t (fv_labels v) (fv_comparator v) (fv_threshold v) (fv_windowSeconds v) (fv_severity v) (fv_enabled v) (fv_notifyChannels v));
   TextField (js "Labels") fv_labels (fun t v => mkRuleValues (fv_name v) (fv_text v) (fv_service v) (fv_level v) t (fv_comparator v) (fv_threshold v) (fv_windowSeconds v) (fv_severity v) (fv_enabled v) (fv_notifyChannels v));
   Caption (js "One key=value per line.");
   SelectField (js "Comparator") ((fun c => (c, COMPARATOR_LABELS c)) <$> [c_gt; c_gte; c_lt; c_lte; c_eq]) fv_comparator (fun c v => mkRuleValues (fv_name v) (fv_text v) (fv_service v) (fv_level v) (fv_labels v) c (fv_threshold v) (fv_windowSeconds v) (fv_severity v) (fv_enabled v) (fv_notifyChannels v));
   TextField (js "Threshold") fv_threshold (fun t v => mkRuleValues (fv_name v) (fv_text v) (fv_service v) (fv_level v) (fv_labels v) (fv_comparator v) t (fv_windowSeconds v) (fv_severity v) (fv_enabled v) (fv_notifyChannels v));
   TextField (js "Window (seconds)") fv_windowSeconds (fun t v => mkRuleValues (fv_name v) (fv_text v) (fv_service v) (fv_level v) (fv_labels v) (fv_comparator v) (fv_threshold v) t (fv_severity v) (fv_enabled v) (fv_notifyChannels v));
   SelectField (js "Severity") ((fun s => (s, s)) <$> [js "info"; js "warning"; js "critical"]) fv_severity (fun t v => mkRuleValues (fv_name v) (fv_text v) (fv_service v) (fv_level v) (fv_labels v) (fv_comparator v) (fv_threshold v) (fv_windowSeconds v) t (fv_enabled v) (fv_notifyChannels v));
   CheckboxField (js "Enabled") fv_enabled (fun b v => mkRuleValues (fv_name v) (fv_text v) (fv_service v) (fv_level v) (fv_labels v) (fv_comparator v) (fv_threshold v) (fv_windowSeconds v) (fv_severity v) b (fv_notifyChannels v))]
  ++ channel_fields v.

Definition AlertRuleFormDialog (rule : option AlertRuleResponse) (d : form_dialog) : list (page_widget alerts_state) :=
  [Dismiss (set_state (setDialog closed));
   Text (match rule with Some _ => js "Edit alert rule" | None => js "New alert rule" end);
   Text (js "Alerts evaluate a query over a rolling window and fire when the match count crosses your threshold.")]
  ++ form_alert (js "Couldn't save the rule") d
  ++ [Form (match rule with Some r => valuesFromRule r | None => EMPTY_ALERT_RULE_VALUES end) rule_fields
        (match rule with Some _ => js "Save changes" | None => js "Create rule" end) (form_onSubmit rule (fd_mount d));
      Button (js "Cancel") false (set_state (setDialog closed))].

Section View.
Context (role : Role).

#[local] Abbreviation can := (useCan role).

Definition row (rule : AlertRuleResponse) : list (page_widget alerts_state) :=
  [Text (rr_name rule); AlertStateBadge (rr_state rule) (rr_enabled rule); Badge neutral (rr_severity rule);
   Text (summarizeQuery (rr_query rule) (rr_savedQueryId rule))]
  ++ shown (can alert_update)
       [Button (js "Edit") (bool_decide (rr_savedQueryId rule <> None)) (set_state (openDialog (editing rule)))]
  ++ shown (can alert_delete) [Button (js "Delete") false (ask rule)]
  ++ [Text (js "Fires when count " ++ COMPARATOR_SYMBOL (rr_comparator rule) ++ js " " ++ default [] (number_text (rr_threshold rule))
            ++ js " over " ++ default [] (number_text (rr_windowSeconds rule)) ++ js "s");
      Text (default [] (number_text (mkNum (Z.of_nat (length (rr_notifyChannels rule))) 0))
            ++ (if bool_decide (length (rr_notifyChannels rule) = 1) then js " channel" else js " channels"))]
  ++ shown_with (rr_lastTriggeredAt rule) (fun t => shown (truthy t) [Text (js "Last fired " ++ t)]).

Definition alerts_page (rules : list AlertRuleResponse) : list (page_widget alerts_state) :=
  [Text (default [] (number_text (mkNum (Z.of_nat (length rules)) 0)) ++ js " alert "
         ++ (if bool_decide (length rules = 1) then js "rule" else js "rules"))]
  ++ shown (can alert_create) [Button (js "New rule") false (set_state (openDialog creating))]
  ++ match rules with
     | [] =>
         [Text (js "No alert rules yet");
          Text (if can alert_create then js "Create a rule to start watching your logs for conditions that matter."
                else js "A workspace admin can create alert rules.")]
         ++ shown (can alert_create) [Button (js "New rule") false (set_state (openDialog creating))]
     | _ => flat_map row rules
     end.

Definition AlertManager : page_component := {|
  State := alerts_state;
  Props := list AlertRuleResponse;
  initial := mkAlerts closed no_confirm 0;
  view rules s :=
    mkRendered (alerts_page rules) (open_dialogs
      [match dialog s with
       | closed => []
       | creating d => AlertRuleFormDialog None d
       | editing rule d => AlertRuleFormDialog (Some rule) d
       end;
       confirm_dialog remove remove_failure (js "Delete alert rule")
         (fun r => quoted (rr_name r) ++ js " will stop being evaluated. This cannot be undone.") (js "Couldn't delete the rule")
         (js "Delete rule") (js "Deleting" ++ ellipsis) s])
|}.

End View.
End Manager.
End AlertManager.

(** * Lemmas *)

Section AlertRuns.
Context `{Zod, Entries} (role : Role).
Import AlertManager.

Definition alerts_may (s : alerts_state) : Prop :=
  match dialog s with
  | closed => True
  | creating _ => useCan role alert_create = true
  | editing _ _ => useCan role alert_update = true
  end /\ (cf_target (deleting s) <> None -> useCan role alert_delete = true).

Lemma alerts_on_form mount e s : alerts_may s -> alerts_may (on_form mount e s).
Proof. unfold alerts_may, on_form. cbn [dialog deleting]. by destruct (dialog s). Qed.

Lemma alerts_close s : alerts_may s -> alerts_may (setDialog closed s).
Proof. intros [_ Hd]. by split. Qed.

Lemma alerts_part_may f s :
  (forall c, cf_target (f c) = cf_target c \/ cf_target (f c) = None) -> alerts_may s -> alerts_may (on_part f s).
Proof. intros Hf [Ha Hb]. split; [done|]. cbn [deleting on_part alerts_part]. by destruct (Hf (deleting s)) as [->| ->]. Qed.

#[local] Hint Resolve alerts_on_form alerts_close : pages.

Lemma alert_badge {S} (R : page_handler S -> Prop) st en : offers R (AlertStateBadge st en).
Proof. unfold AlertStateBadge. destruct en, st; apply offers_badge. Qed.

Lemma alerts_keep : view_keeps (AlertManager role) alerts_may (permitted role).
Proof.
  intros rules s Hs. rendered_view.
  - unfold alerts_page, row. destruct rules; widgets; try apply alert_badge; handlers.
    all: try (match goal with H : alerts_may _ |- _ => destruct H end; by split).
  - destruct (dialog s) as [|d|r d] eqn:E; [constructor|..]; unfold AlertRuleFormDialog, form_alert, form_onSubmit, submit, answered;
      widgets; handlers; destruct Hs as [Hs _]; by rewrite E in Hs.
  - apply offers_confirm; [handlers; apply alerts_part_may; [by right|done]|].
    intros _. apply confirm_keeps; [apply alerts_part_may|..|done].
    intros t Ht. destruct Hs as [_ Hs]. apply Hs. cbn in Ht. by rewrite Ht.
Qed.

Lemma alerts_confirm : confirms (AlertManager role) AlertRuleResponse remove remove_failure.
Proof.
  intros rules s. rendered_view.
  - unfold alerts_page, row. destruct rules; widgets; try apply alert_badge; left; handlers.
  - destruct (dialog s) as [|d|r d]; [constructor|..]; unfold AlertRuleFormDialog, form_alert, form_onSubmit, submit, answered;
      widgets; left; handlers.
  - apply offers_confirm; [left; handlers|by right].
Qed.

End AlertRuns.

(** ** Labels *)

(** A label that one line of text can hold. *)
Record plain_label (kv : jsstr * jsstr) : Prop := {
  pl_key : kv.1 <> [];
  pl_line : 10%N ∉ kv.1 /\ 10%N ∉ kv.2;
  pl_eq : 61%N ∉ kv.1;
  pl_trim : trim kv.1 = kv.1 /\ trim kv.2 = kv.2;
  pl_proto : kv.1 <> js "__proto__"
}.

Definition solid_head (s : jsstr) : Prop := match s with c :: _ => is_js_space c = false | [] => True end.

Lemma trim_ends s : trim s = s <-> solid_head s /\ solid_head (reverse s).
Proof.
  unfold solid_head. rewrite <-!trimStart_id. split.
  - intros Ht. assert (Hs : trimStart s = s).
    { destruct (trim_prefix s) as [p Hp], (trimStart_suffix s) as [q Hq]. rewrite Ht in Hp.
      apply (f_equal length) in Hp as Hl, Hq as Hl'. rewrite length_app in Hl, Hl'. destruct p; [by rewrite Hp, app_nil_r|cbn in Hl; lia]. }
    split; [done|]. unfold trim in Ht. rewrite Hs in Ht. by rewrite <-Ht at 2; rewrite reverse_involutive.
  - intros [Hs Hr]. unfold trim. by rewrite Hs, Hr, reverse_involutive.
Qed.

Lemma trim_label kv : plain_label kv -> trim (label_line kv) = label_line kv.
Proof.
  intros [Hk _ _ [Hk1%trim_ends Hv%trim_ends] _]. apply trim_ends. unfold label_line. change (js "=") with [61%N]. split.
  - destruct kv as [[|c k] v]; [done|]. apply Hk1.
  - rewrite !reverse_app, reverse_singleton. destruct (reverse kv.2) as [|c r]; [done|]. apply Hv.
Qed.

Lemma indexOf_label k v : 61%N ∉ k -> indexOf (k ++ 61%N :: v) (js "=") = Some (length k).
Proof.
  change (js "=") with [61%N]. induction k as [|c k IH]; intros Hn; [by destruct v|]. apply not_elem_of_cons in Hn as [Hc Hn].
  cbn [app indexOf startsWith length]. rewrite bool_decide_eq_false_2 by done. cbn [andb]. by rewrite (IH Hn).
Qed.

Lemma parse_label_line out kv : plain_label kv -> parse_label out (label_line kv) = assign kv.1 kv.2 out.
Proof.
  intros Hp. unfold parse_label. rewrite trim_label by done. destruct kv as [k v]. destruct Hp as [Hk _ He [Hk1 Hv] Hpr]. cbn [fst snd] in *.
  unfold label_line. cbn [fst snd]. change (js "=" ++ v) with (61%N :: v). rewrite indexOf_label by done.
  destruct k as [|c k]; [done|]. cbn [length]. rewrite take_app_length', drop_app_ge by (cbn; lia).
  replace (S (S (length k)) - length (c :: k)) with 1 by (cbn; lia). cbn [drop]. rewrite drop_0, Hk1, Hv. cbn [truthy].
  unfold dict_set. by rewrite bool_decide_eq_false_2.
Qed.

Lemma assign_fresh k v (out : dict) : k ∉ out.*1 -> assign k v out = out ++ [(k, v)].
Proof.
  induction out as [|[k' v'] out IH]; [done|]. cbn [fmap list_fmap fst]. intros [Hk Hn]%not_elem_of_cons. cbn [assign app].
  rewrite bool_decide_eq_false_2 by done. by rewrite IH.
Qed.

Lemma parse_lines (out l : dict) :
  Forall plain_label l -> NoDup (out ++ l).*1 -> foldl parse_label out (label_line <$> l) = out ++ l.
Proof.
  intros Hl. revert out. induction Hl as [|kv l Hkv Hl IH]; intros out Hd; [by rewrite app_nil_r|].
  cbn [fmap list_fmap foldl]. rewrite parse_label_line by done. rewrite fmap_app, NoDup_app in Hd. destruct Hd as (Ho & Hx & Hd).
  rewrite assign_fresh by (intros Hin; by apply (Hx _ Hin); left). replace (kv.1, kv.2) with kv by (by destruct kv).
  rewrite IH, <-app_assoc; [done|]. rewrite <-app_assoc, fmap_app, NoDup_app. done.
Qed.

Lemma split_lines (l : list jsstr) : l <> [] -> Forall (fun s => 10%N ∉ s) l -> split_on 10 (join l [10%N]) = l.
Proof.
  intros Hne Hl. destruct l as [|s l]; [done|]. clear Hne. revert s Hl. induction l as [|t l IH]; intros s Hl.
  - apply split_on_none. by apply Forall_inv in Hl.
  - rewrite join_cons2. change ([10%N] ++ ?x) with (10%N :: x). apply Forall_cons in Hl as [Hs Hl]. by rewrite split_on_app, IH.
Qed.

(** Written line by line, the labels are read back. *)
Lemma labels_round_trip (l : dict) :
  Forall plain_label l -> NoDup l.*1 -> parseLabels (join (label_line <$> l) [10%N]) = l.
Proof.
  intros Hl Hd. unfold parseLabels. destruct l as [|kv l]; [done|]. rewrite split_lines; [by apply parse_lines|done|].
  apply Forall_fmap. eapply Forall_impl; [exact Hl|]. intros x [_ [Hk Hv] _ _ _]. cbn. unfold label_line.
  rewrite !elem_of_app. change (js "=") with [61%N]. rewrite elem_of_cons, elem_of_nil. intros [?|[[?|[]]|?]]; done.
Qed.

(** ** A rule, opened and saved *)

Section Unchanged.
Context `{ZodLaws, EntriesLaws}.

(** A rule with an inline query, as the API accepts it. *)
Definition accepted_rule (rule : AlertRuleResponse) : Prop :=
  exists v req, parsed createAlertRuleRequestSchema v = Some req /\ aq_savedQueryId req = None /\
    rr_name rule = aq_name req /\ rr_query rule = aq_query req /\ rr_comparator rule = aq_comparator req /\
    rr_threshold rule = aq_threshold req /\ rr_windowSeconds rule = mkNum (aq_windowSeconds req) 0 /\
    rr_severity rule = aq_severity req /\ rr_enabled rule = aq_enabled req /\ rr_notifyChannels rule = aq_notifyChannels req.

(** An empty filter is no filter. *)
Definition nonempty (o : option jsstr) : option jsstr := t ← o; if truthy t then Some t else None.

Definition normal_query (q : RuleQuery) : RuleQuery :=
  mkRuleQuery (nonempty (rq_text q)) (nonempty (rq_service q)) (rq_level q)
    (m ← rq_labels q; if bool_decide (m = ∅) then None else Some m).

Definition channel_value (c : NotifyChannel) : jsstr := match c with webhook u => u | email_channel t => t end.

Definition plain_channel (c : NotifyChannel) : Prop :=
  parsed notifyChannelSchema (Some (channel_json c)) = Some c /\ trim (channel_value c) = channel_value c /\ channel_value c <> [].

(** A number that has a decimal text, as the finite doubles do. *)
Definition writable (n : jsnum) : Prop := canonical n = n /\ n <> mkNum 1 1024 /\ is_Some (number_text n).

Lemma kept_trim_max hi : kept (ZString [CTrim; CMax hi]) JStr.
Proof.
  intros v s (t & -> & Hs)%string_inv. rewrite parsed_string. cbn [string_checks] in *.
  assert (E : trim t = s) by (repeat case_match; by simplify_eq). subst s. by rewrite trim_idem.
Qed.

Lemma trimmed_text {hi} o : parsed (ZOptional (ZString [CTrim; CMax hi])) (JStr <$> o) = Some o -> trim (default [] o) = default [] o.
Proof.
  destruct o as [t|]; [|done]. cbn [fmap option_fmap option_map default]. rewrite parsed_optional, parsed_string. cbn [string_checks].
  case_match; [|done]. cbn. by intros [= E].
Qed.

Lemma query_facts v q :
  parsed (ZDefault empty_query ruleQuerySchema) v = Some q ->
  parsed (ZOptional (ZString [CTrim; CMax 1000])) (JStr <$> rq_text q) = Some (rq_text q) /\
  parsed (ZOptional (ZString [CTrim; CMax 200])) (JStr <$> rq_service q) = Some (rq_service q) /\
  parsed (ZOptional logLevelSchema) (JStr <$> rq_level q) = Some (rq_level q).
Proof.
  intros [->|Hq]%default_inv; [cbn; by rewrite !parsed_optional|]. unfold ruleQuerySchema in Hq. repeat schema_inv. subst. cbn [rq_text rq_service rq_level].
  split_and!; (eapply kept_optional; [|eassumption]); (apply kept_trim_max || apply kept_enum_of).
Qed.

Lemma default_parsed {A} (d : A) s enc v a :
  kept s enc -> parsed s (Some (enc d)) = Some d -> parsed (ZDefault d s) v = Some a -> parsed s (Some (enc a)) = Some a.
Proof. intros Hk Hd Ha. apply (kept_default d s enc Hk Hd) in Ha. by rewrite parsed_default in Ha. Qed.

Lemma accepted_facts v req :
  parsed createAlertRuleRequestSchema v = Some req -> aq_savedQueryId req = None ->
  parsed nameSchema (Some (JStr (aq_name req))) = Some (aq_name req) /\
  (parsed (ZOptional (ZString [CTrim; CMax 1000])) (JStr <$> rq_text (aq_query req)) = Some (rq_text (aq_query req)) /\
   parsed (ZOptional (ZString [CTrim; CMax 200])) (JStr <$> rq_service (aq_query req)) = Some (rq_service (aq_query req)) /\
   parsed (ZOptional logLevelSchema) (JStr <$> rq_level (aq_query req)) = Some (rq_level (aq_query req))) /\
  contract_hasInlineQuery (Some (aq_query req)) = true /\
  parsed thresholdSchema (Some (JNum (aq_threshold req))) = Some (aq_threshold req) /\
  parsed windowSecondsSchema (Some (json_int (aq_windowSeconds req))) = Some (aq_windowSeconds req) /\
  parsed alertSeveritySchema (Some (JStr (aq_severity req))) = Some (aq_severity req) /\
  length (aq_notifyChannels req) <= 20.
Proof.
  intros Hp Hno. unfold createAlertRuleRequestSchema in Hp. repeat schema_inv. subst.
  cbn [aq_name aq_savedQueryId aq_query aq_threshold aq_windowSeconds aq_severity aq_notifyChannels] in *. subst.
  split_and!.
  - by eapply kept_name.
  - by eapply query_facts.
  - by eapply query_facts.
  - by eapply query_facts.
  - by destruct (contract_hasInlineQuery _).
  - match goal with Ht : parsed thresholdSchema _ = Some _ |- _ => by apply number_inv in Ht as Ht'; destruct Ht' as [E _]; rewrite E in Ht end.
  - eapply default_parsed; [apply kept_int| |eassumption]. apply parsed_int; [split; vm_compute; discriminate|vm_compute; reflexivity].
  - eapply default_parsed; [apply kept_enum_of| |eassumption]. unfold alertSeveritySchema, enum_of. rewrite parsed_enum. by vm_compute.
  - match goal with Hc : parsed (ZDefault [] notifyChannelsSchema) _ = Some _ |- _ => apply default_inv in Hc as [->|Hc]; [cbn; lia|] end.
    match goal with Hc : parsed notifyChannelsSchema _ = Some _ |- _ => apply array_inv in Hc as [_ Hc]; by apply andb_true_iff in Hc as [Hc%Nat.leb_le _] end.
Qed.

(** The text of a query, read. *)
Lemma query_parsed t q l lj m :
  parsed (ZOptional (ZString [CTrim; CMax 1000])) (JStr <$> t) = Some t ->
  parsed (ZOptional (ZString [CTrim; CMax 200])) (JStr <$> q) = Some q ->
  parsed (ZOptional logLevelSchema) (JStr <$> l) = Some l -> parsed (ZOptional labelsSchema) lj = Some m ->
  parsed ruleQuerySchema (Some (JObj (if_defined (js "text") JStr t ++ if_defined (js "service") JStr q
    ++ if_defined (js "level") JStr l ++ if_defined (js "labels") id lj))) = Some (mkRuleQuery t q l m).
Proof.
  intros Ht Hq Hl Hm. unfold ruleQuerySchema. rewrite parsed_view.
  destruct t, q, l, lj; read_again; reflexivity.
Qed.

Lemma labels_parsed (l : dict) :
  Forall plain_label l -> NoDup l.*1 -> parsed labelsSchema (Some (JObj (prod_map id JStr <$> l))) = Some (list_to_map l).
Proof.
  intros Hl Hd. unfold labelsSchema. rewrite parsed_view. erewrite (record_complete _ _ l); [done|..].
  - apply Forall_fmap. eapply Forall_impl; [exact Hl|]. by intros [k v] [].
  - rewrite <-list_fmap_compose. by erewrite list_fmap_ext; [exact Hd|intros ? [] _].
  - apply mapM_Some_2, Forall2_fmap_l. clear Hl Hd. induction l as [|[k v] l IH]; constructor; [|done]. cbn. by rewrite parsed_string.
Qed.

Lemma safeParse_parsed {A} (s : schema A) v a : parsed s v = Some a -> safeParse s v = Ok a.
Proof. unfold parsed. destruct (safeParse s v); [|done]. by intros [= ->]. Qed.

Lemma nonempty_optional {hi} o :
  parsed (ZOptional (ZString [CTrim; CMax hi])) (JStr <$> o) = Some o ->
  parsed (ZOptional (ZString [CTrim; CMax hi])) (JStr <$> nonempty o) = Some (nonempty o).
Proof. destruct o as [[|c t]|]; [|done..]. intros _. by rewrite parsed_optional. Qed.

Lemma threshold_nonneg t : parsed thresholdSchema (Some (JNum t)) = Some t -> (0 <= jn_mant t)%Z.
Proof.
  intros [_ Hc]%number_inv. cbn [forallb number_ok] in Hc. rewrite andb_true_r in Hc. unfold num_ge in Hc. cbn [andb] in Hc.
  destruct (Z.leb_spec 0 (jn_exp t)) as [He|He]; apply Z.leb_le in Hc; [|lia].
  pose proof (Z.pow_pos_nonneg 2 (jn_exp t) ltac:(lia) He). nia.
Qed.

Lemma level_nonempty l : parsed (ZOptional logLevelSchema) (JStr <$> l) = Some l -> nonempty l = l.
Proof.
  destruct l as [[|c l]|]; [|done..]. cbn [fmap option_fmap option_map]. rewrite parsed_optional. unfold logLevelSchema, enum_of. rewrite parsed_enum. by vm_compute.
Qed.

Lemma channels_read (cs : list NotifyChannel) :
  Forall plain_channel cs -> length cs <= 20 ->
  parsed notifyChannelsSchema (Some (JArr (channel_body <$> List.filter (fun c => truthy (trim (nd_value c))) (draft_of <$> cs)))) = Some cs.
Proof.
  intros Hc Hl.
  assert (E : channel_body <$> List.filter (fun c => truthy (trim (nd_value c))) (draft_of <$> cs) = channel_json <$> cs).
  { clear Hl. induction Hc as [|c cs (_ & Ht & Hne) _ IH]; [done|]. cbn [fmap list_fmap List.filter].
    assert (Ev : nd_value (draft_of c) = channel_value c) by (by destruct c). rewrite Ev, Ht.
    assert (Eb : channel_body (draft_of c) = channel_json c) by (destruct c; cbn [channel_value] in Ht; unfold channel_body; cbn [draft_of nd_type nd_value]; by rewrite Ht).
    destruct (channel_value c); [done|]. cbn [truthy fmap list_fmap]. by rewrite Eb, IH. }
  rewrite E. unfold notifyChannelsSchema. rewrite parsed_array. rewrite (mapM_Some_2 _ _ cs).
  - cbn [mbind option_bind forallb array_ok]. by rewrite (proj2 (Nat.leb_le _ _)).
  - apply Forall2_fmap_l. clear E Hl. induction Hc as [|c cs [Hp _] _ IH]; by constructor.
Qed.

Lemma optional_some {A} (s : schema A) j a : parsed s (Some j) = Some a -> parsed (ZOptional s) (Some j) = Some (Some a).
Proof. intros Hj. by rewrite parsed_optional, Hj. Qed.

Lemma optional_none {A} (s : schema A) : parsed (ZOptional s) None = Some None.
Proof. by rewrite parsed_optional. Qed.

Lemma name_trimmed n : parsed nameSchema (Some (JStr n)) = Some n -> trim n = n.
Proof. unfold nameSchema. rewrite parsed_string. cbn [string_checks]. repeat case_match; try done. by intros [= E]. Qed.

Lemma text_body key o : trim (default [] o) = default [] o ->
  (if truthy (trim (default [] o)) then [(key, JStr (trim (default [] o)))] else []) = if_defined key JStr (nonempty o).
Proof. intros E. rewrite E. by destruct o as [[|c t]|]. Qed.

(** The text of the labels. *)
Lemma labels_body (m : gmap jsstr jsstr) :
  (forall k v, m !! k = Some v -> plain_label (k, v)) ->
  exists lj, match parseLabels (join (label_line <$> object_entries m) [10%N]) with
             | [] => []
             | labels => [(js "labels", JObj (prod_map id JStr <$> labels))]
             end = if_defined (js "labels") id lj /\
    parsed (ZOptional labelsSchema) lj = Some (if bool_decide (m = ∅) then None else Some m).
Proof.
  intros Hm. pose proof (entries_perm m) as Hp. set (l := object_entries m) in *.
  assert (Hl : Forall plain_label l).
  { rewrite Hp. apply Forall_forall. intros [k v] Hin%elem_of_map_to_list. by apply Hm. }
  assert (Hd : NoDup l.*1) by (rewrite Hp; apply NoDup_fst_map_to_list).
  assert (Em : list_to_map l = m) by (rewrite (list_to_map_proper l (map_to_list m)) by done; apply list_to_map_to_list).
  rewrite labels_round_trip by done. destruct l as [|kv l'] eqn:El.
  - exists None. split; [done|]. rewrite parsed_optional. subst m. by rewrite bool_decide_eq_true_2.
  - exists (Some (JObj (prod_map id JStr <$> kv :: l'))). split; [done|]. rewrite parsed_optional, labels_parsed by done.
    rewrite bool_decide_eq_false_2; [by rewrite Em|]. intros ->. destruct kv. cbn in Em. by apply insert_non_empty in Em.
Qed.

Lemma normal_labels q : (m ← rq_labels q; if bool_decide (m = ∅) then None else Some m)
  = if bool_decide (default ∅ (rq_labels q) = ∅) then None else Some (default ∅ (rq_labels q)).
Proof. by destruct (rq_labels q) as [m|]. Qed.

Lemma hasInline_normal q : contract_hasInlineQuery (Some (normal_query q)) = contract_hasInlineQuery (Some q).
Proof.
  unfold contract_hasInlineQuery, normal_query. cbn [rq_text rq_service rq_level rq_labels]. f_equal; [f_equal; f_equal|].
  - by destruct (rq_text q) as [[|c t]|].
  - by destruct (rq_service q) as [[|c t]|].
  - destruct (rq_labels q) as [m|]; [|done]. cbn [mbind option_bind]. case_bool_decide as E; [|done]. subst. by rewrite map_size_empty.
Qed.

(** The patch that changes nothing. *)
Definition same_rule (rule : AlertRuleResponse) : AlertRulePatch :=
  mkAlertRulePatch (Some (rr_name rule)) None (Some (normal_query (rr_query rule))) (Some (rr_comparator rule))
    (Some (rr_threshold rule)) (Some (jn_mant (rr_windowSeconds rule))) (Some (rr_severity rule)) (Some (rr_enabled rule))
    (Some (rr_notifyChannels rule)).

(** What the form assembles of a rule. *)
Lemma assembled rule req v lj :
  parsed createAlertRuleRequestSchema v = Some req -> aq_savedQueryId req = None -> rr_name rule = aq_name req ->
  rr_query rule = aq_query req -> rr_threshold rule = aq_threshold req -> rr_windowSeconds rule = mkNum (aq_windowSeconds req) 0 ->
  rr_severity rule = aq_severity req -> writable (rr_threshold rule) ->
  match parseLabels (join (label_line <$> object_entries (default ∅ (rq_labels (rr_query rule)))) [10%N]) with
  | [] => []
  | labels => [(js "labels", JObj (prod_map id JStr <$> labels))]
  end = if_defined (js "labels") id lj ->
  assembleAlertRuleBody (valuesFromRule rule) =
  JObj [(js "name", JStr (rr_name rule));
        (js "query", JObj (if_defined (js "text") JStr (nonempty (rq_text (rr_query rule)))
           ++ if_defined (js "service") JStr (nonempty (rq_service (rr_query rule)))
           ++ if_defined (js "level") JStr (rq_level (rr_query rule)) ++ if_defined (js "labels") id lj));
        (js "comparator", JStr (comparator_str (rr_comparator rule))); (js "threshold", JNum (rr_threshold rule));
        (js "windowSeconds", JNum (rr_windowSeconds rule)); (js "severity", JStr (rr_severity rule)); (js "enabled", JBool (rr_enabled rule));
        (js "notifyChannels", JArr (channel_body <$> List.filter (fun c => truthy (trim (nd_value c))) (draft_of <$> rr_notifyChannels rule)))].
Proof.
  intros Hp Hno En Eq Et Ew Es (Hcan & Hfin & [tx Htx]) Hlj. destruct (accepted_facts v req Hp Hno) as (Hname & (Hte & Hsv & Hlv) & _ & Hth & Hwin & Hsev & _).
  unfold assembleAlertRuleBody, query_body, valuesFromRule.
  cbn [fv_name fv_text fv_service fv_level fv_labels fv_comparator fv_threshold fv_windowSeconds fv_severity fv_enabled fv_notifyChannels].
  rewrite Hlj. rewrite !text_body by (rewrite Eq; eapply trimmed_text; eassumption).
  assert (El : (if truthy (default [] (rq_level (rr_query rule))) then [(js "level", JStr (default [] (rq_level (rr_query rule))))] else [])
    = if_defined (js "level") JStr (rq_level (rr_query rule))).
  { rewrite Eq. apply level_nonempty in Hlv. destruct (rq_level (aq_query req)) as [[|c l]|]; [by cbn in Hlv|done..]. }
  rewrite El. rewrite (name_trimmed (rr_name rule)) by by rewrite En. rewrite (safeParse_parsed _ _ (rr_severity rule)) by by rewrite Es.
  apply int_range in Hwin. destruct (int_text (aq_windowSeconds req)) as (wt & Ewt & Hwt); [lia|].
  rewrite Ew, Ewt, Htx. change (default [] (Some ?x)) with x. rewrite Hwt, (number_round_trip _ _ Htx), Hcan; [done| |by rewrite Hcan].
  apply threshold_nonneg. by rewrite Et.
Qed.

(** C36. A rule that is opened in the editor and saved unchanged is sent as it is: for every
    rule with an inline query that the API accepts, if its labels fit a line each, its
    channels have no surrounding blanks and its threshold is a finite number, the text of
    the form's fields is read back to the rule's own name, query, comparator, threshold,
    window, severity, state and channels. *)
Theorem edit_unchanged rule
    (Hacc : accepted_rule rule) (Hlabels : forall k v, default ∅ (rq_labels (rr_query rule)) !! k = Some v -> plain_label (k, v))
    (Hch : Forall plain_channel (rr_notifyChannels rule)) (Ht : writable (rr_threshold rule)) :
  validateAlertRule m_edit (valuesFromRule rule) = Ok (inr (same_rule rule)).
Proof.
  destruct Hacc as (v & req & Hp & Hno & En & Eq & Ec & Et & Ew & Es & Ee & Ech).
  destruct (accepted_facts v req Hp Hno) as (Hname & (Htx & Hsv & Hlv) & Hinl & Hth & Hwin & Hsev & Hlen).
  destruct (labels_body _ Hlabels) as (lj & Elj & Hlj). rewrite <-normal_labels in Hlj.
  unfold validateAlertRule. rewrite (assembled rule req v lj) by done. unfold same_rule. rewrite Ew, Eq in *. cbn [jn_mant].
  rewrite <-En in Hname. rewrite <-Et in Hth. rewrite <-Es in Hsev. rewrite <-Ech in Hlen.
  pose proof (query_parsed _ _ _ _ _ (nonempty_optional _ Htx) (nonempty_optional _ Hsv) Hlv Hlj) as Hq.
  pose proof (channels_read _ Hch Hlen) as Hcs. set (cs := JArr _) in *. set (qj := JObj (_ ++ _)) in *.
  assert (Hcmp : parsed alertComparatorSchema (Some (JStr (comparator_str (rr_comparator rule)))) = Some (rr_comparator rule))
    by (unfold alertComparatorSchema; rewrite parsed_enum; destruct (rr_comparator rule); by vm_compute).
  assert (Hen : parsed ZBoolean (Some (JBool (rr_enabled rule))) = Some (rr_enabled rule)) by by rewrite parsed_boolean.
  erewrite (safeParse_parsed updateAlertRuleRequestSchema); [reflexivity|]. unfold updateAlertRuleRequestSchema.
  rewrite !parsed_refine, parsed_view.
  erewrite (object_complete strict); cycle 1; [by repeat constructor|done| |].
  { repeat (apply parsed_fields_cons; [first [apply optional_some; eassumption|apply optional_none]|]). reflexivity. }
  fold (normal_query (aq_query req)) in *. cbn [fmap option_fmap option_map mbind option_bind]. unfold rule_patch_nonempty. cbn [ap_name ap_query ap_savedQueryId].
  rewrite bool_decide_eq_true_2 by done. cbn [orb mbind option_bind ap_query ap_savedQueryId].
  by rewrite hasInline_normal, Hinl, orb_true_r.
Qed.

End Unchanged.

(** ** Witnesses *)

Definition map_entries : Entries := {| object_entries := map_to_list |}.

Lemma map_entries_laws : @EntriesLaws map_entries.
Proof. by split. Qed.

Definition demo_labels (v : jsstr) : gmap jsstr jsstr := {[ js "env" := v ]}.

Definition demo_rule (label : jsstr) : AlertRuleResponse :=
  (js "r1", (js "t1", (js "High error rate", (None, (mkRuleQuery (Some (js "timeout")) None (Some (js "error")) (Some (demo_labels label)),
   (c_gte, (mkNum 5 0, (mkNum 300 0, (js "critical", (true, ([webhook (js "https://hooks.acme.io/x")],
   (a_ok, (None, (None, (None, (js "2026-01-01", (js "2026-01-01", tt))))))))))))))))).

Definition demo_rule_json (label : jsstr) : json :=
  JObj [(js "name", JStr (js "High error rate"));
        (js "query", JObj [(js "text", JStr (js "timeout")); (js "level", JStr (js "error"));
                           (js "labels", JObj [(js "env", JStr label)])]);
        (js "comparator", JStr (js "gte")); (js "threshold", JNum (mkNum 5 0)); (js "windowSeconds", JNum (mkNum 300 0));
        (js "severity", JStr (js "critical")); (js "enabled", JBool true);
        (js "notifyChannels", JArr [channel_json (webhook (js "https://hooks.acme.io/x"))])].

Lemma demo_rule_accepted label : @accepted_rule demo_formats demo_zod (demo_rule label).
Proof.
  exists (Some (demo_rule_json label)). eexists. split; [vm_compute; reflexivity|]. split_and!; reflexivity.
Qed.

Lemma edit_unchanged_witness :
  @validateAlertRule demo_formats demo_zod m_edit (@valuesFromRule demo_formats demo_zod map_entries (demo_rule (js "prod")))
  = Ok (inr (same_rule (demo_rule (js "prod")))).
Proof.
  apply (@edit_unchanged demo_formats demo_zod demo_zod_laws map_entries map_entries_laws).
  - apply demo_rule_accepted.
  - intros k v Hkv. change (demo_labels (js "prod") !! k = Some v) in Hkv. unfold demo_labels in Hkv. apply lookup_singleton_Some in Hkv as [<- <-].
    split; cbn [fst snd]; repeat split; try done; (vm_compute; reflexivity) || (apply (bool_decide_unpack _); vm_compute; exact I).
  - repeat constructor; done.
  - split_and!; [vm_compute; reflexivity|done|vm_compute; eexists; reflexivity].
Defined.

(** A value of two lines is read back as two labels: the rule that was opened is not the
    rule that is saved, and it watches other logs. *)
Lemma edit_splits_label : exists rule patch,
  @accepted_rule demo_formats demo_zod rule /\
  @validateAlertRule demo_formats demo_zod m_edit (@valuesFromRule demo_formats demo_zod map_entries rule) = Ok (inr patch) /\
  (rq_labels (rr_query rule)) = Some (demo_labels (js "a" ++ [10%N] ++ js "b=c")) /\
  (q ← ap_query patch; rq_labels q) = Some (<[ js "env" := js "a" ]> {[ js "b" := js "c" ]}).
Proof.
  exists (demo_rule (js "a" ++ [10%N] ++ js "b=c")). eexists. split; [apply demo_rule_accepted|]. split; [vm_compute; reflexivity|].
  split; [reflexivity|vm_compute; reflexivity].
Qed.
