(* ===== verification/DashboardPages.v ===== *)
(** * Dashboards in the browser

    [features/dashboards/]: the list of dashboards ([dashboard-list.tsx]), a dashboard
    with its panels ([dashboard-detail.tsx], [panel-grid.tsx], [stat-panel.tsx]), the
    panel dialog ([panel-dialog.tsx]) and the time range ([time-range-picker.tsx]).  The
    hook of a panel's data is in [Panels.v]; here its state is given.  The time zone and
    the locale are the platform's. *)

From stdpp Require Import base list option numbers strings gmap relations.
From S2P Require Import Prelude Errors Tokens Text Rbac Email Entities Ports Services UseCases Invites Zod Contracts Wire Json.
From S2P Require Import LogSearch AdminBff Panels React Pages Fields AdminPages.

Section Fields.
Context (d : DashboardResponse).
Definition dsh_id : jsstr := d.1.
Definition dsh_name : jsstr := d.2.2.1.
Definition dsh_description : option jsstr := d.2.2.2.1.
Definition dsh_layout : DashboardLayout := d.2.2.2.2.1.
End Fields.

Definition dsh_panels (d : DashboardResponse) : list Panel := dl_panels (dsh_layout d).

(** A saved query, as an option of a select: its id and its name. *)
Definition query_option (q : SavedQueryResponse) : jsstr * jsstr := (q.1, q.2.2.1).

(** [text.trim() || undefined]. *)
Definition trimmed_or_none (t : jsstr) : option jsstr := if truthy (trim t) then Some (trim t) else None.

Definition counted (n : nat) (one many : jsstr) : jsstr :=
  default [] (number_text (mkNum (Z.of_nat n) 0)) ++ js " " ++ (if bool_decide (n = 1) then one else many).

Definition outcome_failure {A} (o : AdminOutcome A) : option AdminError :=
  match o with admin_ok _ => None | admin_failed e => Some e end.

(** ** The list *)

Module DashboardList.

Record list_state := mkList { creating : option form_dialog; deleting : confirm DashboardResponse; mounts : nat }.

Definition setCreating_false (s : list_state) : list_state := mkList None (deleting s) (mounts s).
Definition setCreating_true (s : list_state) : list_state := mkList (Some (mkFormDialog (mounts s) None)) (deleting s) (S (mounts s)).
Definition on_form (mount : nat) (e : option jsstr) (s : list_state) : list_state :=
  mkList (set_form_error mount e <$> creating s) (deleting s) (mounts s).

#[export] Instance list_part : Part list_state DashboardResponse := {|
  part := deleting;
  on_part f s := mkList (creating s) (f (deleting s)) (mounts s)
|}.

#[export] Instance list_part_laws : PartLaws list_state DashboardResponse.
Proof. by split. Qed.

Definition remove (d : DashboardResponse) : page_call := DeleteDashboard (dsh_id d).
Definition remove_failure (d : DashboardResponse) (o : AdminOutcome unit) : option AdminError := outcome_failure o.

Definition onDelete : list_state -> page_handler list_state := onConfirm remove remove_failure.

Definition onCreated : page_handler list_state := SetState setCreating_false on_changed.
Definition onClose : page_handler list_state := set_state setCreating_false.

Record CreateValues := mkCreateValues { dv_name : jsstr; dv_description : jsstr }.

Definition create_request (v : CreateValues) : CreateDashboardRequest :=
  mkCreateDashboardRequest (trim (dv_name v)) (trimmed_or_none (dv_description v)) (mkDashboardLayout []).

(** The request is not checked against the contract here. *)
Definition create_onSubmit (mount : nat) (v : CreateValues) : page_handler list_state :=
  SetState (on_form mount None)
    (if truthy (trim (dv_name v)) then
       await (answer := page_answer) (CreateDashboard (create_request v)) (fun outcome =>
         match outcome with
         | admin_ok _ => onCreated
         | admin_failed error => set_state (on_form mount (Some (ae_message error)))
         end)
     else set_state (on_form mount (Some (js "Name is required.")))).

Definition name_fields (_ : CreateValues) : list (control CreateValues) :=
  [TextField (js "Name") dv_name (fun t v => mkCreateValues t (dv_description v));
   TextField (js "Description (optional)") dv_description (fun t v => mkCreateValues (dv_name v) t)].

Definition CreateDashboardDialog (d : form_dialog) : list (page_widget list_state) :=
  [Dismiss onClose; Text (js "New dashboard"); Text (js "Give it a name to get started.")]
  ++ form_alert (js "Couldn't create the dashboard") d
  ++ [Form (mkCreateValues [] []) name_fields (js "Create dashboard") (create_onSubmit (fd_mount d)); Button (js "Cancel") false onClose].

Section View.
Context (role : Role).

#[local] Abbreviation can := (useCan role).

Definition row (d : DashboardResponse) : list (page_widget list_state) :=
  [Link (js "/dashboards/" ++ dsh_id d) (dsh_name d)]
  ++ shown_with (dsh_description d) (fun t => shown (truthy t) [Text t])
  ++ shown (can dashboard_delete) [Button (js "Delete") false (ask d)]
  ++ [Badge neutral (counted (length (dsh_panels d)) (js "panel") (js "panels"))].

Definition list_page (dashboards : list DashboardResponse) : list (page_widget list_state) :=
  [Text (counted (length dashboards) (js "dashboard") (js "dashboards"))]
  ++ shown (can dashboard_create) [Button (js "New dashboard") false (set_state setCreating_true)]
  ++ match dashboards with
     | [] =>
         [Text (js "No dashboards yet");
          Text (if can dashboard_create then js "Create a dashboard to start visualizing your logs."
                else js "A workspace admin can create dashboards.")]
         ++ shown (can dashboard_create) [Button (js "New dashboard") false (set_state setCreating_true)]
     | _ => flat_map row dashboards
     end.

Definition DashboardList : page_component := {|
  State := list_state;
  Props := list DashboardResponse;
  initial := mkList None no_confirm 0;
  view dashboards s :=
    mkRendered (list_page dashboards) (open_dialogs
      [match creating s with Some d => CreateDashboardDialog d | None => [] end;
       confirm_dialog remove remove_failure (js "Delete dashboard")
         (fun d => quoted (dsh_name d) ++ js " and its panels will be permanently removed. This cannot be undone.")
         (js "Couldn't delete the dashboard") (js "Delete dashboard") (js "Deleting" ++ ellipsis) s])
|}.

End View.
End DashboardList.

(** ** The time range *)

Record TimeRange := mkTimeRange { tr_from : jsstr; tr_to : jsstr }.

(** The fields of a local time, the month counted from 0, and the locale's text. *)
Class LocalTime := { local_fields : Z -> Z * Z * Z * Z * Z; toLocaleString : Z -> jsstr }.

Record Preset := mkPreset { ps_label : jsstr; ps_ms : Z }.

Definition TIME_RANGE_PRESETS : list Preset :=
  [mkPreset (js "5m") (5 * 60 * 1000); mkPreset (js "15m") (15 * 60 * 1000); mkPreset (js "1h") (60 * 60 * 1000);
   mkPreset (js "24h") (24 * 60 * 60 * 1000); mkPreset (js "7d") (7 * 24 * 60 * 60 * 1000);
   mkPreset (js "30d") (30 * 24 * 60 * 60 * 1000)].

Definition HOT_WINDOW_MS : Z := 30 * 24 * 60 * 60 * 1000.

(** [DEFAULT_RANGE_MS] and [computeDefaultRange] of [dashboard-detail.tsx]. *)
Definition DEFAULT_RANGE_MS : Z := 60 * 60 * 1000.

Definition computeDefaultRange (now : Z) : TimeRange := mkTimeRange (toISOString (now - DEFAULT_RANGE_MS)) (toISOString now).

Section Range.
Context `{Dates, LocalTime}.

Definition isColdRange (from : jsstr) (now : Z) : bool :=
  match Date_parse from with Some fromMs => (fromMs <? now - HOT_WINDOW_MS)%Z | None => false end.

Definition formatRange (r : TimeRange) : jsstr :=
  let format v := match Date_parse v with Some ms => toLocaleString ms | None => v end in
  if negb (truthy (tr_from r)) && negb (truthy (tr_to r)) then js "Select time range"
  else format (tr_from r) ++ [32; 8211; 32]%N ++ format (tr_to r).

(** [String(n).padStart(2, '0')]. *)
Definition pad (n : Z) : jsstr := let t := print_int n in replicate (2 - length t) 48%N ++ t.

Definition toLocalDateTimeInput (value : jsstr) : jsstr :=
  match Date_parse value with
  | None => []
  | Some ms =>
      let '(year, month, date, hours, minutes) := local_fields ms in
      print_int year ++ js "-" ++ pad (month + 1) ++ js "-" ++ pad date ++ js "T" ++ pad hours ++ js ":" ++ pad minutes
  end.

Definition activePresetFor (value : TimeRange) (now : Z) : option Preset :=
  match Date_parse (tr_from value), Date_parse (tr_to value) with
  | Some fromMs, Some toMs =>
      if (60000 <? Z.abs (now - toMs))%Z then None
      else find (fun preset => (Z.abs (ps_ms preset - (toMs - fromMs)) <? 1000)%Z) TIME_RANGE_PRESETS
  | _, _ => None
  end.

(** The picker's own state. *)
Record picker := mkPicker { pk_open : bool; pk_fromDraft : jsstr; pk_toDraft : jsstr; pk_error : option jsstr }.

Definition onOpenChange (value : TimeRange) (next : bool) (p : picker) : picker :=
  if next then mkPicker true (toLocalDateTimeInput (tr_from value)) (toLocalDateTimeInput (tr_to value)) None
  else mkPicker false (pk_fromDraft p) (pk_toDraft p) (pk_error p).

(** The picker after a choice, and the range passed to [onChange]. *)
Definition applyPreset (preset : Preset) (now : Z) (p : picker) : option TimeRange * picker :=
  (Some (mkTimeRange (toISOString (now - ps_ms preset)) (toISOString now)),
   mkPicker false (pk_fromDraft p) (pk_toDraft p) (pk_error p)).

Definition applyAbsolute (p : picker) : option TimeRange * picker :=
  let from := toRfc3339 (pk_fromDraft p) in
  let to := toRfc3339 (pk_toDraft p) in
  let failed message := (None, mkPicker (pk_open p) (pk_fromDraft p) (pk_toDraft p) (Some message)) in
  match Date_parse from, Date_parse to with
  | Some fromMs, Some toMs =>
      if negb (truthy from) || negb (truthy to) then failed (js "Enter a valid from and to time.")
      else if (toMs <=? fromMs)%Z then failed ([34%N] ++ js "From" ++ [34%N] ++ js " must be before " ++ [34%N] ++ js "to" ++ [34%N] ++ js ".")
      else (Some (mkTimeRange from to), mkPicker false (pk_fromDraft p) (pk_toDraft p) None)
  | _, _ => failed (js "Enter a valid from and to time.")
  end.

End Range.

(** ** A dashboard *)

Module DashboardDetail.

(** [panelDialog]: closed, adding ([Some (None, _)]) or editing a panel.  [url] is the
    query of the address, empty where it has no range. *)
Record detail_state := mkDetail {
  editing : option form_dialog;
  panelDialog : option (option Panel * form_dialog);
  removing : confirm Panel;
  url : TimeRange;
  range_picker : picker;
  mounts : nat
}.

Definition setEditing (d : option form_dialog) (s : detail_state) : detail_state :=
  mkDetail d (panelDialog s) (removing s) (url s) (range_picker s) (mounts s).
Definition setPanelDialog (d : option (option Panel * form_dialog)) (s : detail_state) : detail_state :=
  mkDetail (editing s) d (removing s) (url s) (range_picker s) (mounts s).

Definition open_editing (s : detail_state) : detail_state :=
  mkDetail (Some (mkFormDialog (mounts s) None)) (panelDialog s) (removing s) (url s) (range_picker s) (S (mounts s)).
Definition open_panel (p : option Panel) (s : detail_state) : detail_state :=
  mkDetail (editing s) (Some (p, mkFormDialog (mounts s) None)) (removing s) (url s) (range_picker s) (S (mounts s)).

Definition on_editing (mount : nat) (e : option jsstr) (s : detail_state) : detail_state :=
  setEditing (set_form_error mount e <$> editing s) s.
Definition on_panel (mount : nat) (e : option jsstr) (s : detail_state) : detail_state :=
  setPanelDialog (prod_map id (set_form_error mount e) <$> panelDialog s) s.

(** A choice in the picker: [onRangeChange] writes the range to the address. *)
Definition on_picker (f : picker -> option TimeRange * picker) (s : detail_state) : detail_state :=
  let '(chosen, p) := f (range_picker s) in
  mkDetail (editing s) (panelDialog s) (removing s) (default (url s) chosen) p (mounts s).

#[export] Instance detail_part : Part detail_state Panel := {|
  part := removing;
  on_part f s := mkDetail (editing s) (panelDialog s) (f (removing s)) (url s) (range_picker s) (mounts s)
|}.

#[export] Instance detail_part_laws : PartLaws detail_state Panel.
Proof. by split. Qed.

(** A patch of the layout alone. *)
Definition layout_patch (panels : list Panel) : DashboardPatch := mkDashboardPatch None None (Some (mkDashboardLayout panels)).

Definition remove (dashboard : DashboardResponse) (p : Panel) : page_call :=
  UpdateDashboard (dsh_id dashboard) (layout_patch (removePanelById (dsh_panels dashboard) (pn_id p))).
Definition remove_failure (dashboard : DashboardResponse) (p : Panel) (o : AdminOutcome DashboardResponse) : option AdminError :=
  outcome_failure o.

Definition onRemovePanel (dashboard : DashboardResponse) : detail_state -> page_handler detail_state :=
  onConfirm (remove dashboard) (remove_failure dashboard).

Definition edit_close : page_handler detail_state := set_state (setEditing None).
Definition edit_onSaved : page_handler detail_state := SetState (setEditing None) on_changed.

Definition edit_patch (v : DashboardList.CreateValues) : DashboardPatch :=
  mkDashboardPatch (Some (trim (DashboardList.dv_name v))) (Some (trimmed_or_none (DashboardList.dv_description v))) None.

Definition edit_onSubmit (dashboard : DashboardResponse) (mount : nat) (v : DashboardList.CreateValues) : page_handler detail_state :=
  SetState (on_editing mount None)
    (if truthy (trim (DashboardList.dv_name v)) then
       await (answer := page_answer) (UpdateDashboard (dsh_id dashboard) (edit_patch v)) (fun outcome =>
         match outcome with
         | admin_ok _ => edit_onSaved
         | admin_failed error => set_state (on_editing mount (Some (ae_message error)))
         end)
     else set_state (on_editing mount (Some (js "Name is required.")))).

Definition EditDashboardDialog (dashboard : DashboardResponse) (d : form_dialog) : list (page_widget detail_state) :=
  [Dismiss edit_close; Text (js "Edit dashboard"); Text (js "Update its name or description.")]
  ++ form_alert (js "Couldn't update the dashboard") d
  ++ [Form (DashboardList.mkCreateValues (dsh_name dashboard) (default [] (dsh_description dashboard))) DashboardList.name_fields
        (js "Save changes") (edit_onSubmit dashboard (fd_mount d));
      Button (js "Cancel") false edit_close].

(** *** The panel dialog *)

(** The types that the editor offers. *)
Inductive UiPanelType := ui_timeseries | ui_stat.

Definition ui_type (t : UiPanelType) : PanelType := match t with ui_timeseries => p_timeseries | ui_stat => p_stat end.

Record PanelValues := mkPanelValues { pv_title : jsstr; pv_type : UiPanelType; pv_savedQueryId : jsstr }.

Definition panel_defaults (savedQueries : list SavedQueryResponse) (editing : option Panel) : PanelValues :=
  mkPanelValues (default [] (pn_title <$> editing))
    match pn_type <$> editing with Some p_stat => ui_stat | _ => ui_timeseries end
    match editing, savedQueries with
    | Some p, _ => pn_savedQueryId p
    | None, q :: _ => (query_option q).1
    | None, [] => []
    end.

(** [newPanelId] is what the function of that name returned. *)
Definition edited_panel (editing : option Panel) (newPanelId : jsstr) (v : PanelValues) : Panel :=
  mkPanel (default newPanelId (pn_id <$> editing)) (ui_type (pv_type v)) (trim (pv_title v)) (pv_savedQueryId v)
    (default [] (pn_viz <$> editing)) (default defaultGrid (pn_grid <$> editing)).

Definition panel_close : page_handler detail_state := set_state (setPanelDialog None).
Definition panel_onSaved : page_handler detail_state := SetState (setPanelDialog None) on_changed.

Definition panel_onSubmit (dashboard : DashboardResponse) (editing : option Panel) (mount : nat) (v : PanelValues * jsstr) : page_handler detail_state :=
  SetState (on_panel mount None)
    (if truthy (trim (pv_title v.1)) then
       if truthy (pv_savedQueryId v.1) then
         await (answer := page_answer)
           (UpdateDashboard (dsh_id dashboard) (layout_patch (upsertPanel (dsh_panels dashboard) (edited_panel editing v.2 v.1))))
           (fun outcome =>
              match outcome with
              | admin_ok _ => panel_onSaved
              | admin_failed error => set_state (on_panel mount (Some (ae_message error)))
              end)
       else set_state (on_panel mount (Some (js "A saved query is required.")))
     else set_state (on_panel mount (Some (js "Title is required.")))).

Definition PANEL_TYPE_OPTIONS : list (UiPanelType * jsstr) := [(ui_timeseries, js "Timeseries"); (ui_stat, js "Stat")].

Definition panel_fields (savedQueries : list SavedQueryResponse) (_ : PanelValues * jsstr) : list (control (PanelValues * jsstr)) :=
  [TextField (js "Title") (fun v => pv_title v.1) (fun t v => (mkPanelValues t (pv_type v.1) (pv_savedQueryId v.1), v.2));
   SelectField (js "Type") PANEL_TYPE_OPTIONS (fun v => pv_type v.1) (fun t v => (mkPanelValues (pv_title v.1) t (pv_savedQueryId v.1), v.2));
   SelectField (js "Saved query") (query_option <$> savedQueries) (fun v => pv_savedQueryId v.1)
     (fun t v => (mkPanelValues (pv_title v.1) (pv_type v.1) t, v.2))].

Definition PanelDialog (dashboard : DashboardResponse) (savedQueries : list SavedQueryResponse) (editing : option Panel) (d : form_dialog) :
    list (page_widget detail_state) :=
  [Dismiss panel_close; Text (match editing with Some _ => js "Edit panel" | None => js "Add panel" end);
   Text (js "Pick a saved query to visualize and how to display it.")]
  ++ form_alert (js "Couldn't save the panel") d
  ++ [Form (panel_defaults savedQueries editing, []) (panel_fields savedQueries)
        (match editing with Some _ => js "Save changes" | None => js "Add panel" end) (panel_onSubmit dashboard editing (fd_mount d)); Button (js "Cancel") false panel_close].

(** *** The view *)

(** [new Intl.NumberFormat('en-US').format(n)], of a count. *)
Fixpoint grouped (fuel : nat) (digits : jsstr) : jsstr :=
  match fuel with
  | 0 => digits
  | S fuel =>
      if length digits <=? 3 then digits
      else grouped fuel (take (length digits - 3) digits) ++ js "," ++ drop (length digits - 3) digits
  end.

Definition en_US (n : jsnum) : jsstr := let digits := print_nat (Z.to_N (num_trunc n)) in grouped (length digits) digits.

Definition no_data {S} : list (page_widget S) := [Text (js "No data"); Text (js "No matching events in this range.")].

Definition failed_panel {S} (errorMessage : option jsstr) : list (page_widget S) :=
  Text (js "Something went wrong") :: shown_with errorMessage (fun m => shown (truthy m) [Text m]).

Definition StatPanel {S} (value : jsnum) (state : PanelDataState) (errorMessage : option jsstr) : list (page_widget S) :=
  match state with
  | panel_loading => [Text (js "Loading stat" ++ ellipsis)]
  | panel_error => failed_panel errorMessage
  | panel_default => [Text (en_US value)]
  end.

(** The chart by its label; its bars are not modelled. *)
Definition TimeseriesChart {S} (series : list PanelBucket) (state : PanelDataState) (errorMessage : option jsstr) : list (page_widget S) :=
  match state, series with
  | panel_loading, _ => [Text (js "Loading chart" ++ ellipsis)]
  | panel_error, _ => failed_panel errorMessage
  | panel_default, [] => no_data
  | panel_default, _ => [Text (js "Event count over time")]
  end.

Definition panel_body {S} (p : Panel) (h : panel_hook) : list (page_widget S) :=
  match pn_type p with
  | p_timeseries => TimeseriesChart (ph_series h) (ph_state h) (ph_errorMessage h)
  | p_stat => StatPanel (ph_totalCount h) (ph_state h) (ph_errorMessage h)
  | p_logs => [Text (js "Unsupported panel"); Text (js "Panel type " ++ [34%N] ++ js "logs" ++ [34%N] ++ js " isn't supported yet.")]
  end.

Record detail_props := mkDetailProps {
  dp_dashboard : DashboardResponse;
  dp_savedQueries : list SavedQueryResponse;
  dp_now : Z;
  dp_data : jsstr -> panel_hook                 (* by the id of the panel *)
}.

Section View.
Context `{Dates, LocalTime} (role : Role) (mounted_at : Z) (address : TimeRange).

#[local] Abbreviation canEdit := (useCan role dashboard_update).

(** The range of the address, or that of the last hour before the page was opened. *)
Definition current_range (s : detail_state) : TimeRange :=
  if truthy (tr_from (url s)) && truthy (tr_to (url s)) then url s else computeDefaultRange mounted_at.

Definition TimeRangePicker (now : Z) (s : detail_state) : list (page_widget detail_state) :=
  let value := current_range s in
  let p := range_picker s in
  [Button (formatRange value) false (set_state (on_picker (fun p => (None, onOpenChange value (negb (pk_open p)) p))))]
  ++ shown (isColdRange (tr_from value) now) [Badge info (js "cold")]
  ++ shown (pk_open p)
       ([Dismiss (set_state (on_picker (fun p => (None, onOpenChange value false p)))); Text (js "Quick ranges")]
        ++ ((fun preset => ClickAt (ps_label preset) (fun now => set_state (on_picker (applyPreset preset now)))) <$> TIME_RANGE_PRESETS)
        ++ [Text (js "Absolute range");
            Input (pk_fromDraft p) (fun v => set_state (on_picker (fun p => (None, mkPicker (pk_open p) v (pk_toDraft p) (pk_error p)))));
            Input (pk_toDraft p) (fun v => set_state (on_picker (fun p => (None, mkPicker (pk_open p) (pk_fromDraft p) v (pk_error p)))))]
        ++ shown_with (pk_error p) (fun e => [Text e])
        ++ [Button (js "Apply") false (set_state (on_picker applyAbsolute))]).

Definition DashboardPanelCard (props : detail_props) (panel : Panel) : list (page_widget detail_state) :=
  [Text (pn_title panel); Text (savedQuerySubtitle panel (query_option <$> dp_savedQueries props))]
  ++ shown canEdit [Button (js "Edit") false (set_state (open_panel (Some panel))); Button (js "Remove") false (ask panel)]
  ++ panel_body panel (dp_data props (pn_id panel)).

Definition PanelGrid (props : detail_props) : list (page_widget detail_state) :=
  match dsh_panels (dp_dashboard props) with
  | [] => [Text (js "No panels yet"); Text (js "Add a panel to start visualizing a saved query.")]
  | panels => flat_map (DashboardPanelCard props) panels
  end.

Definition detail_page (props : detail_props) (s : detail_state) : list (page_widget detail_state) :=
  [Text (dsh_name (dp_dashboard props))]
  ++ shown_with (dsh_description (dp_dashboard props)) (fun t => shown (truthy t) [Text t])
  ++ shown canEdit [Button (js "Edit dashboard") false (set_state open_editing)]
  ++ shown canEdit [Button (js "Add panel") false (set_state (open_panel None))]
  ++ TimeRangePicker (dp_now props) s
  ++ PanelGrid props.

Definition DashboardDetail : page_component := {|
  State := detail_state;
  Props := detail_props;
  initial := mkDetail None None no_confirm address (mkPicker false [] [] None) 0;
  view props s :=
    mkRendered (detail_page props s) (open_dialogs
      [match editing s with Some d => EditDashboardDialog (dp_dashboard props) d | None => [] end;
       match panelDialog s with Some (p, d) => PanelDialog (dp_dashboard props) (dp_savedQueries props) p d | None => [] end;
       confirm_dialog (remove (dp_dashboard props)) (remove_failure (dp_dashboard props)) (js "Remove panel")
         (fun p => quoted (pn_title p) ++ js " will be removed from this dashboard.")
         (js "Couldn't remove the panel") (js "Remove panel") (js "Removing" ++ ellipsis) s])
|}.

End View.
End DashboardDetail.

(** * Lemmas *)

Section ListRuns.
Context (role : Role).
Import DashboardList.

Definition list_may (s : list_state) : Prop :=
  (creating s <> None -> useCan role dashboard_create = true) /\ (cf_target (deleting s) <> None -> useCan role dashboard_delete = true).

Lemma list_on_form mount e s : list_may s -> list_may (on_form mount e s).
Proof. unfold list_may, on_form. cbn [creating deleting]. by rewrite fmap_None. Qed.

Lemma list_close s : list_may s -> list_may (setCreating_false s).
Proof. intros [_ Hd]. by split. Qed.

Lemma list_part_may f s :
  (forall c, cf_target (f c) = cf_target c \/ cf_target (f c) = None) -> list_may s -> list_may (on_part f s).
Proof. intros Hf [Ha Hb]. split; [done|]. cbn [deleting on_part list_part]. by destruct (Hf (deleting s)) as [->| ->]. Qed.

#[local] Hint Resolve list_on_form list_close : pages.

Lemma list_keep : view_keeps (DashboardList role) list_may (permitted role).
Proof.
  intros dashboards s Hs. rendered_view.
  - unfold list_page, row. destruct dashboards; widgets; handlers.
    all: try (match goal with H : list_may _ |- _ => destruct H end; by split).
  - destruct (creating s) as [d|] eqn:E; [|constructor]. unfold CreateDashboardDialog, form_alert, onClose, create_onSubmit, onCreated. widgets; handlers.
    destruct Hs as [Hs _]. apply Hs. by rewrite E.
  - apply offers_confirm; [handlers; apply list_part_may; [by right|done]|].
    intros _. apply confirm_keeps; [apply list_part_may|..|done].
    intros t Ht. destruct Hs as [_ Hs]. apply Hs. cbn in Ht. by rewrite Ht.
Qed.

Lemma list_confirm : confirms (DashboardList role) DashboardResponse remove remove_failure.
Proof.
  intros dashboards s. rendered_view.
  - unfold list_page, row. destruct dashboards; widgets; left; handlers.
  - destruct (creating s) as [d|]; [|constructor]. unfold CreateDashboardDialog, form_alert, onClose, create_onSubmit, onCreated. widgets; left; handlers.
  - apply offers_confirm; [left; handlers|by right].
Qed.

End ListRuns.

Section DetailRuns.
Context `{Dates, LocalTime} (role : Role) (mounted_at : Z) (address : TimeRange).
Import DashboardDetail.

#[local] Abbreviation detail := (DashboardDetail role mounted_at address).

(** Without the permission no dialog opens. *)
Definition detail_may (s : detail_state) : Prop :=
  editing s <> None \/ panelDialog s <> None \/ cf_target (removing s) <> None -> useCan role dashboard_update = true.

Lemma detail_body {S} (R : page_handler S -> Prop) p h : Forall (offers R) (panel_body p h).
Proof. unfold panel_body, TimeseriesChart, StatPanel, failed_panel, no_data. destruct (pn_type p), (ph_state h), (ph_series h); widgets. Qed.

Lemma detail_sets s s' :
  (editing s' <> None -> editing s <> None) -> (panelDialog s' <> None -> panelDialog s <> None) ->
  (cf_target (removing s') <> None -> cf_target (removing s) <> None) -> detail_may s -> detail_may s'.
Proof. unfold detail_may. naive_solver. Qed.

Lemma detail_edit_error mount e s : detail_may s -> detail_may (on_editing mount e s).
Proof. apply detail_sets; cbn; rewrite ?fmap_None; done. Qed.

Lemma detail_panel_error mount e s : detail_may s -> detail_may (on_panel mount e s).
Proof. apply detail_sets; cbn; rewrite ?fmap_None; done. Qed.

Lemma detail_close_editing s : detail_may s -> detail_may (setEditing None s).
Proof. by apply detail_sets. Qed.

Lemma detail_close_panel s : detail_may s -> detail_may (setPanelDialog None s).
Proof. by apply detail_sets. Qed.

Lemma detail_pick f s : detail_may s -> detail_may (on_picker f s).
Proof. unfold on_picker. destruct (f (range_picker s)). by apply detail_sets. Qed.

Lemma detail_part_may f s :
  (forall c, cf_target (f c) = cf_target c \/ cf_target (f c) = None) -> detail_may s -> detail_may (on_part f s).
Proof. intros Hf. apply detail_sets; [done..|]. cbn. by destruct (Hf (removing s)) as [->| ->]. Qed.

#[local] Hint Resolve detail_edit_error detail_panel_error detail_close_editing detail_close_panel detail_pick : pages.

Lemma picker_offers (R : page_handler detail_state -> Prop) now s :
  (forall g, R (set_state (on_picker (fun p => (None, g p))))) ->
  (forall preset now, preset ∈ TIME_RANGE_PRESETS -> clock now -> R (set_state (on_picker (applyPreset preset now)))) ->
  R (set_state (on_picker applyAbsolute)) -> Forall (offers R) (TimeRangePicker mounted_at now s).
Proof.
  intros Hg Hp Ha. unfold TimeRangePicker. apply Forall_cons_2; [apply offers_button; intros _; apply (Hg (fun p => _))|].
  apply Forall_app_2; [widgets|]. apply offers_shown. intros _. apply Forall_app_2; [widgets; apply (Hg (fun p => _))|].
  apply Forall_app_2; [apply Forall_fmap, Forall_forall; intros preset Hin h (n & Hn & ->); by apply Hp|].
  widgets; auto; apply (Hg (fun p => _)).
Qed.

Lemma grid_offers (R : page_handler detail_state -> Prop) props :
  (useCan role dashboard_update = true -> forall p, R (set_state (open_panel (Some p))) /\ R (ask p)) ->
  Forall (offers R) (PanelGrid role props).
Proof.
  intros Hp. unfold PanelGrid. destruct (dsh_panels (dp_dashboard props)); [widgets|]. unfold DashboardPanelCard.
  widgets; try apply detail_body; by apply Hp.
Qed.

Lemma detail_keep : view_keeps detail detail_may (permitted role).
Proof.
  intros props s Hs. rendered_view.
  - unfold detail_page. apply Forall_cons_2; [apply offers_text|]. apply Forall_app_2; [widgets|]. apply Forall_app_2; [widgets; handlers; by intros _|].
    apply Forall_app_2; [widgets; handlers; by intros _|]. apply Forall_app_2; [apply picker_offers; intros; handlers|].
    apply grid_offers. intros Hc p. split; handlers; by intros _.
  - destruct (editing s) as [d|] eqn:E; [|constructor]. unfold EditDashboardDialog, form_alert, edit_close, edit_onSubmit, edit_onSaved. widgets; handlers.
    apply Hs. left. by rewrite E.
  - destruct (panelDialog s) as [[p d]|] eqn:E; [|constructor]. unfold PanelDialog, form_alert, panel_close, panel_onSubmit, panel_onSaved. widgets; handlers.
    apply Hs. right. left. by rewrite E.
  - apply offers_confirm; [handlers; apply detail_part_may; [by right|done]|].
    intros _. apply confirm_keeps; [apply detail_part_may|..|done].
    intros t Ht. apply Hs. right. right. cbn in Ht. by rewrite Ht.
Qed.

(** A range that may be in the address. *)
Definition picked (r : TimeRange) : Prop :=
  r = address \/
  (exists preset now, preset ∈ TIME_RANGE_PRESETS /\ clock now /\ r = mkTimeRange (toISOString (now - ps_ms preset)) (toISOString now)) \/
  exists a b, Date_parse (tr_from r) = Some a /\ Date_parse (tr_to r) = Some b /\ (a < b)%Z.

Lemma picked_pick f s : (forall r, (f (range_picker s)).1 = Some r -> picked r) -> picked (url s) -> picked (url (on_picker f s)).
Proof. unfold on_picker. destruct (f (range_picker s)) as [[r|] p]; cbn; auto. Qed.

Lemma absolute_picked p r : (applyAbsolute p).1 = Some r -> picked r.
Proof.
  unfold applyAbsolute. destruct (Date_parse (toRfc3339 (pk_fromDraft p))) as [a|] eqn:Ea; [|done].
  destruct (Date_parse (toRfc3339 (pk_toDraft p))) as [b|] eqn:Eb; [|done]. destruct (_ || _); [done|].
  destruct (Z.leb_spec b a); [done|]. cbn. intros [= <-]. right. right. by exists a, b.
Qed.

Lemma detail_ranges : view_keeps detail (fun s => picked (url s)) (fun _ => True).
Proof.
  intros props s Hs. rendered_view.
  - unfold detail_page. apply Forall_cons_2; [apply offers_text|]. apply Forall_app_2; [widgets|]. apply Forall_app_2; [widgets; handlers|].
    apply Forall_app_2; [widgets; handlers|]. apply Forall_app_2.
    + apply picker_offers; intros; handlers; apply picked_pick; try done.
      * intros r [= <-]. right. left. eauto.
      * apply absolute_picked.
    + apply grid_offers. intros Hc p. split; handlers.
  - destruct (editing s) as [d|]; [|constructor]. unfold EditDashboardDialog, form_alert, edit_close, edit_onSubmit, edit_onSaved. widgets; handlers.
  - destruct (panelDialog s) as [[p d]|]; [|constructor]. unfold PanelDialog, form_alert, panel_close, panel_onSubmit, panel_onSaved. widgets; handlers.
  - apply offers_confirm; [handlers|]. intros _. by apply confirm_keeps.
Qed.

End DetailRuns.
