(* ===== verification/PageFlows.v ===== *)
(** * From a page to the stored data

    What the routes under [routes/_authed/] put together: the admin page's sections, the
    server function behind each callback of a page, and, through the control plane, what
    a click does to the data.  The theorems about whole runs of the pages are here. *)

From stdpp Require Import base list option relations numbers strings gmap.
From S2P Require Import Prelude Errors Effects Tokens Text Rbac Email Entities Ports Uuid Schema World Sql.
From S2P Require Import Integrity Eval Demo PgUsers PgTokens PgInvites PgContent Calls Credentials Adapters.
From S2P Require Import Google AuthService Sessions Services UseCases Invites Oidc OidcFlow Authorize Zod Contracts Wire.
From S2P Require Import Http Requests Json WebSession Bff BffOidc WebFlows WebDemo LogSearch Relays Panels AdminBff.
From S2P Require Import React Pages Fields AdminPages AlertPages DashboardPages.

(** ** The admin page *)

Definition tnr_publicId (t : TenantResponse) : jsstr := t.2.1.
Definition tnr_name (t : TenantResponse) : jsstr := t.2.2.1.
Definition tnr_status (t : TenantResponse) : TenantStatus := t.2.2.2.1.

Definition TenantInfoCard {S} (tenant : TenantResponse) : list (page_widget S) :=
  [Text (js "Workspace");
   Badge (if bool_decide (tnr_status tenant = t_active) then success else warning) (tenant_status_str (tnr_status tenant));
   Text (js "Name"); Text (tnr_name tenant); Text (js "Slug"); Text (tnr_publicId tenant)].

Definition SectionError {S A} (title : jsstr) (outcome : AdminOutcome A) : list (page_widget S) :=
  match outcome with
  | admin_ok _ => []
  | admin_failed error =>
      [Text title; Alert (if bool_decide (ae_kind error = forbidden_kind) then info else danger) [] (ae_message error)]
  end.

(** A part of the page: a card of text, or a section with the data it is given. *)
Inductive admin_part :=
| card (ws : list (page_widget Empty_set))
| retention_card (retention : option RetentionResponse)
| users_section (users : list UserResponse)
| keys_section (apiKeys : list ApiKeyResponse)
| invites_section (invites : list InviteResponse).

Definition loaded {A} (title : jsstr) (section : A -> admin_part) (outcome : AdminOutcome A) : admin_part :=
  match outcome with admin_ok data => section data | admin_failed _ => card (SectionError title outcome) end.

Definition AdminDashboard (data : AdminData) : list admin_part :=
  [loaded (js "Workspace") (fun t => card (TenantInfoCard t)) (ad_tenant data);
   loaded (js "Retention") retention_card (ad_retention data)]
  ++ option_list (loaded (js "Users") users_section <$> ad_users data)
  ++ option_list (loaded (js "API keys") keys_section <$> ad_apiKeys data)
  ++ option_list (loaded (js "Invites") invites_section <$> ad_invites data).

(** ** The callbacks *)

(** [JSON.stringify({ id })] and [{ id, patch }]. *)
Definition id_json (id : jsstr) : json := JObj [(js "id", JStr id)].
Definition patch_json (id : jsstr) (patch : json) : json := JObj [(js "id", JStr id); (js "patch", patch)].

Section Executors.
Context {W : Type} `{Backend W, Zod} (cookies : jar).

(** What a callback sends, and to which server function; the browser's own are not sent. *)
Definition executor (c : page_call) : option (web W (page_answer c)) :=
  match c with
  | IssueApiKey body => Some (createApiKeyFn cookies (Some (create_api_key_body body)))
  | RevokeApiKey id => Some (revokeApiKeyFn cookies (Some (id_json id)))
  | CreateUser body => Some (createUserFn cookies (Some (create_user_body body)))
  | UpdateUser id patch => Some (updateUserFn cookies (Some (patch_json id (update_user_body patch))))
  | DeleteUser id => Some (deleteUserFn cookies (Some (id_json id)))
  | UpdateRetention body => Some (updateRetentionFn cookies (Some (retention_body body)))
  | CreateInvite body => Some (cpCreateInvite cookies (Some (create_invite_body body)))
  | RevokeInvite id => Some (cpRevokeInvite cookies (Some (id_json id)))
  | CreateAlertRule body => Some (createAlertRuleFn cookies (Some (create_rule_body body)))
  | UpdateAlertRule id patch => Some (updateAlertRuleFn cookies (Some (patch_json id (update_rule_body patch))))
  | DeleteAlertRule id => Some (deleteAlertRuleFn cookies (Some (id_json id)))
  | CreateDashboard body => Some (Dashboards.createDashboardFn cookies (Some (create_dashboard_body body)))
  | UpdateDashboard id patch => Some (Dashboards.updateDashboardFn cookies (Some (patch_json id (update_dashboard_body patch))))
  | DeleteDashboard id => Some (Dashboards.deleteDashboardFn cookies (Some (id_json id)))
  | Invalidate | WriteText _ => None
  end.

(** The contracts read the call's data as it is; an id is one segment of a path. *)
Definition accepted (c : page_call) : Prop :=
  match c with
  | IssueApiKey body => parsed createApiKeyRequestSchema (Some (create_api_key_body body)) = Some body
  | RevokeApiKey id => id <> [] /\ forallb is_base64url id = true
  | CreateUser body => parsed createUserRequestSchema (Some (create_user_body body)) = Some body
  | UpdateUser id patch => uuid_regex id = true /\ parsed updateUserRequestSchema (Some (update_user_body patch)) = Some patch
  | UpdateRetention body => parsed upsertRetentionRequestSchema (Some (retention_body body)) = Some body
  | CreateInvite body => parsed createInviteRequestSchema (Some (create_invite_body body)) = Some body
  | CreateAlertRule body => parsed createAlertRuleRequestSchema (Some (create_rule_body body)) = Some body
  | UpdateAlertRule id patch => uuid_regex id = true /\ parsed updateAlertRuleRequestSchema (Some (update_rule_body patch)) = Some patch
  | CreateDashboard body => parsed createDashboardRequestSchema (Some (create_dashboard_body body)) = Some body
  | UpdateDashboard id patch => uuid_regex id = true /\ parsed updateDashboardRequestSchema (Some (update_dashboard_body patch)) = Some patch
  | DeleteUser id | RevokeInvite id | DeleteAlertRule id | DeleteDashboard id => uuid_regex id = true
  | Invalidate | WriteText _ => True
  end.

(** The contract of the call's server function refuses its data. *)
Definition declined (c : page_call) : Prop :=
  match c with
  | IssueApiKey body => parsed createApiKeyRequestSchema (Some (create_api_key_body body)) = None
  | RevokeApiKey id => id = []
  | CreateUser body => parsed createUserRequestSchema (Some (create_user_body body)) = None
  | UpdateUser id patch => uuid_regex id = false \/ parsed updateUserRequestSchema (Some (update_user_body patch)) = None
  | UpdateRetention body => parsed upsertRetentionRequestSchema (Some (retention_body body)) = None
  | CreateInvite body => parsed createInviteRequestSchema (Some (create_invite_body body)) = None
  | CreateAlertRule body => parsed createAlertRuleRequestSchema (Some (create_rule_body body)) = None
  | UpdateAlertRule id patch => uuid_regex id = false \/ parsed updateAlertRuleRequestSchema (Some (update_rule_body patch)) = None
  | CreateDashboard body => parsed createDashboardRequestSchema (Some (create_dashboard_body body)) = None
  | UpdateDashboard id patch => uuid_regex id = false \/ parsed updateDashboardRequestSchema (Some (update_dashboard_body patch)) = None
  | DeleteUser id | RevokeInvite id | DeleteAlertRule id | DeleteDashboard id => uuid_regex id = false
  | Invalidate | WriteText _ => False
  end.

(** The id in a call is one that the service gave out. *)
Definition well_addressed (c : page_call) : Prop :=
  match c with
  | RevokeApiKey id => id <> [] /\ forallb is_base64url id = true
  | UpdateUser id _ | DeleteUser id | RevokeInvite id | UpdateAlertRule id _ | DeleteAlertRule id
  | UpdateDashboard id _ | DeleteDashboard id => uuid_regex id = true
  | _ => True
  end.

(** What a page checked itself is what the contracts accept. *)
Definition fits (c : page_call) : Prop := well_addressed c -> accepted c.

End Executors.

(** ** What a callback does *)

Lemma uuid_segment id : uuid_regex id = true -> id <> [] /\ forallb is_base64url id = true.
Proof.
  unfold uuid_regex. rewrite andb_true_iff, Nat.eqb_eq. intros [Hl Hc]. split; [by intros ->|].
  rewrite forallb_forall in Hc. apply forallb_forall. intros c Hin. apply list_elem_of_In, list_elem_of_lookup in Hin as [i Hi].
  assert (Hz : (i, c) ∈ zip (seq 0 (length id)) id).
  { apply list_elem_of_lookup. exists i. rewrite lookup_zip_with. apply lookup_lt_Some in Hi as Hlt.
    rewrite (lookup_seq_lt 0 _ i Hlt), Hi. done. }
  apply list_elem_of_In, Hc in Hz. unfold is_base64url, is_alnum, is_hex in *.
  destruct (existsb _ _); [apply N.eqb_eq in Hz as ->; by vm_compute|].
  apply orb_true_iff. left. rewrite !orb_true_iff, !andb_true_iff, !N.leb_le in *. lia.
Qed.

(** A path that ends in an id. *)
Lemma id_route `{HttpServerLaws} route id path :
  id <> [] /\ forallb is_base64url id = true -> path_of (endpoint route).2 id = path ++ id ++ [] ->
  router (endpoint route).1 (path ++ id) = Some (route, params_of (endpoint route).2 id).
Proof. rewrite app_nil_r. intros [Hne Hc] <-. by apply router_endpoint. Qed.

Section Contracts.
Context `{ZodLaws}.

Lemma id_parsed (s : schema jsstr) id :
  parsed s (Some (JStr id)) = Some id ->
  parsed (ZView fst (ZObject strip (FField (js "id") s FEnd))) (Some (id_json id)) = Some id.
Proof.
  intros Hid. rewrite parsed_view. unfold id_json.
  rewrite (object_complete strip _ _ (id, tt)); [done|by repeat constructor|done|]. by apply parsed_fields_cons.
Qed.

Lemma patch_parsed {A} (s : schema A) id j a :
  uuid_regex id = true -> parsed s (Some j) = Some a -> parsed (patchInput s) (Some (patch_json id j)) = Some (id, a).
Proof.
  intros Hid Hj. unfold patchInput, patch_json. rewrite parsed_view.
  rewrite (object_complete strip _ _ (id, (a, tt))); [done|by repeat constructor|done|].
  apply parsed_fields_cons; [|by apply parsed_fields_cons]. change (get _ _) with (Some (JStr id)).
  unfold uuidSchema. rewrite parsed_string. cbn [string_checks]. by rewrite Hid.
Qed.

Lemma uuid_id_parsed id : uuid_regex id = true -> parsed uuidSchema (Some (JStr id)) = Some id.
Proof. intros Hid. unfold uuidSchema. rewrite parsed_string. cbn [string_checks]. by rewrite Hid. Qed.

Lemma key_id_parsed id : id <> [] -> parsed (ZString [CMin 1]) (Some (JStr id)) = Some id.
Proof. intros Hid. rewrite parsed_string. by destruct id. Qed.

Lemma id_declined (s : schema jsstr) id :
  parsed s (Some (JStr id)) = None ->
  parsed (ZView fst (ZObject strip (FField (js "id") s FEnd))) (Some (id_json id)) = None.
Proof.
  intros Hid. destruct (parsed (ZView _ _) _) eqn:E; [|done]. exfalso. repeat schema_inv. unfold id_json in *. simplify_eq.
  match goal with E : parsed s ?v = Some _ |- _ => change v with (Some (JStr id)) in E; congruence end.
Qed.

Lemma uuid_declined id : uuid_regex id = false -> parsed uuidSchema (Some (JStr id)) = None.
Proof. intros Hid. unfold uuidSchema. rewrite parsed_string. cbn [string_checks]. by rewrite Hid. Qed.

Lemma patch_declined {A} (s : schema A) id j :
  uuid_regex id = false \/ parsed s (Some j) = None -> parsed (patchInput s) (Some (patch_json id j)) = None.
Proof.
  intros Hd. destruct (parsed (patchInput s) _) eqn:E; [|done]. exfalso. unfold patchInput in E. repeat schema_inv.
  unfold patch_json in *. simplify_eq. destruct Hd as [Hid%uuid_declined|Hj].
  - match goal with E : parsed uuidSchema ?v = Some _ |- _ => change v with (Some (JStr id)) in E; congruence end.
  - match goal with E : parsed s ?v = Some _ |- _ => change v with (Some j) in E; congruence end.
Qed.

Lemma update_user_kept : kept updateUserRequestSchema update_user_body.
Proof.
  intros v c Hp. unfold updateUserRequestSchema in *. repeat schema_inv. subst. unfold update_user_body.
  cbn [uu_displayName uu_status uu_role uu_password] in *.
  repeat match goal with
  | Hf : parsed (ZOptional nameSchema) _ = Some _ |- _ => apply (kept_optional _ JStr _ _ kept_name) in Hf; revert Hf
  | Hf : parsed (ZOptional userStatusSchema) _ = Some _ |- _ => apply (kept_optional _ JStr _ _ (kept_enum_of _)) in Hf; revert Hf
  | Hf : parsed (ZOptional membershipRoleSchema) _ = Some _ |- _ => apply (kept_optional _ (fun r => JStr (membership_str r)) _ _ kept_membership) in Hf; revert Hf
  | Hf : parsed (ZOptional passwordSchema) _ = Some _ |- _ => apply (kept_optional _ JStr _ _ kept_password) in Hf; revert Hf
  end.
  rewrite parsed_refine, parsed_view. intros.
  match goal with |- context [mkUpdateUserCommand (Some <$> ?d) ?s ?r ?p] => destruct d, s, r, p end; try done; read_again; reflexivity.
Qed.

End Contracts.

(** ** What the admin page sends *)

Section AdminFits.
Context `{ZodLaws, Dates} (role : Role).

#[local] Abbreviation always := (fun _ => True).

Lemma safeParse_kept {A} (s : schema A) enc v a : kept s enc -> safeParse s v = Ok a -> parsed s (Some (enc a)) = Some a.
Proof. intros Hk E. apply (Hk v). unfold parsed. by rewrite E. Qed.

Lemma confirm_fits {S T} `{Part S T} remove failure s :
  (forall t, removal (remove t) = true) -> keeps always fits (onConfirm remove failure s).
Proof. intros Hr. apply confirm_keeps; [done| |done]. intros t _ Hw. specialize (Hr t). by destruct (remove t). Qed.

#[local] Hint Extern 1 (fits _) => (intros _; solve [eapply safeParse_kept; [apply create_user_kept|eassumption]
  | eapply safeParse_kept; [apply create_api_key_kept|eassumption] | eapply safeParse_kept; [apply create_invite_kept|eassumption]
  | eapply safeParse_kept; [apply retention_kept|eassumption]]) : pages.

Lemma users_fit : view_keeps (Users.UsersSection role) always fits.
Proof.
  intros users s _. rendered_view.
  - unfold Users.users_page, Users.row. destruct users; widgets; handlers.
  - destruct (Users.dialog s) as [|d|u d]; [constructor| |constructor].
    unfold Users.CreateUserDialog, form_alert, Users.onClose, Users.create_onSubmit, Users.saved, Users.onSaved. widgets; handlers.
  - destruct (Users.dialog s) as [|d|u d]; [constructor..|].
    unfold Users.EditUserDialog, form_alert, Users.onClose, Users.edit_onSubmit, Users.saved, Users.onSaved. widgets; handlers.
    intros Hid. split; [done|]. by eapply safeParse_kept; [apply update_user_kept|].
  - apply offers_confirm; [handlers|]. intros _. by apply confirm_fits.
Qed.

Lemma keys_fit : view_keeps (ApiKeys.ApiKeysSection role) always fits.
Proof.
  intros [now keys] s _. rendered_view.
  - unfold ApiKeys.keys_page. destruct keys; widgets; handlers; unfold ApiKeys.row; destruct (ApiKeys.statusOf now _); widgets; handlers.
  - destruct (ApiKeys.issuing s) as [d|]; [|constructor].
    unfold ApiKeys.IssueKeyDialog, form_alert, ApiKeys.onClose, ApiKeys.issue_onSubmit, ApiKeys.onIssued. widgets; handlers.
  - destruct (ApiKeys.issued s) as [k|]; [|constructor]. unfold ApiKeys.SecretRevealDialog, ApiKeys.onCopy. widgets; handlers.
  - apply offers_confirm; [handlers|]. intros _. by apply confirm_fits.
Qed.

Lemma invites_fit : view_keeps (Invitations.InvitesSection role) always fits.
Proof.
  intros [now invites] s _. rendered_view.
  - unfold Invitations.invites_page. destruct invites; widgets; handlers; unfold Invitations.row; destruct (Invitations.statusOf now _); widgets; handlers.
  - destruct (Invitations.inviting s) as [d|]; [|constructor].
    unfold Invitations.CreateInviteDialog, form_alert, Invitations.onClose, Invitations.invite_onSubmit, Invitations.onCreated. widgets; handlers.
  - destruct (Invitations.created s) as [k|]; [|constructor]. unfold Invitations.InviteLinkDialog, Invitations.onCopy. widgets; handlers.
  - apply offers_confirm; [handlers|]. intros _. by apply confirm_fits.
Qed.

Lemma retention_fit : view_keeps (Retention.RetentionCard role) always fits.
Proof.
  intros retention s _. unfold actionable. cbn [dialogs page view Retention.RetentionCard]. widgets; [handlers|].
  destruct (Retention.editing s) as [d|]; [|destruct retention; widgets].
  unfold Retention.RetentionForm, form_alert, Retention.retention_onSubmit, Retention.onSaved. widgets; handlers.
Qed.

(** The sections of the admin page, and those of every page. *)
Definition admin_sections : list page_component :=
  [Users.UsersSection role; ApiKeys.ApiKeysSection role; Invitations.InvitesSection role; Retention.RetentionCard role].

Definition page_sections `{Entries, LocalTime} (mounted_at : Z) (address : TimeRange) : list page_component :=
  admin_sections ++ [AlertManager.AlertManager role; DashboardList.DashboardList role; DashboardDetail.DashboardDetail role mounted_at address].

Lemma admin_fit C r : C ∈ admin_sections -> reachable C r -> Forall fits (calls r).
Proof.
  intros Hin Hr. assert (Hv : view_keeps C always fits).
  { unfold admin_sections in Hin. repeat (apply elem_of_cons in Hin as [->|Hin]); [apply users_fit|apply keys_fit|apply invites_fit|apply retention_fit|].
    by apply elem_of_nil in Hin. }
  by destruct (reachable_keeps C always fits r I Hv Hr).
Qed.

Lemma sections_permitted `{Entries, LocalTime} mounted_at address C r :
  C ∈ page_sections mounted_at address -> reachable C r -> Forall (permitted role) (calls r).
Proof.
  intros Hin Hr. unfold page_sections, admin_sections in Hin. cbn [app] in Hin.
  repeat (apply elem_of_cons in Hin as [->|Hin]); [..|by apply elem_of_nil in Hin].
  - eapply rk_calls, reachable_keeps; [|exact (users_keep role)|done]. by split.
  - eapply rk_calls, reachable_keeps; [|exact (keys_keep role)|done]. by split.
  - eapply rk_calls, reachable_keeps; [|exact (invites_keep role)|done]. by split.
  - eapply rk_calls, reachable_keeps; [|exact (retention_keep role)|done]. by intros [].
  - eapply rk_calls, reachable_keeps; [|exact (alerts_keep role)|done]. by split.
  - eapply rk_calls, reachable_keeps; [|exact (list_keep role)|done]. by split.
  - eapply rk_calls, reachable_keeps; [|exact (detail_keep role mounted_at address)|done]. by intros [?|[?|?]].
Qed.

End AdminFits.

Section Composed.
Context `{HttpServerLaws, ZodLaws, Crypto, Unicode, Entropy, Bcrypt, Jose, Net}.
Context (cost : Z) (jwt : JoseTokenConfig) (ttl : Z) (email : EmailSender world) (invites : InviteConfig)
  (store : OAuthStateStore world) (google : GoogleConfig) (ping : prog world bool).

#[local] Abbreviation deps := (pg_route_deps cost jwt ttl email invites store google ping).
#[local] Instance cp_pages : Backend world := control_plane deps.

(** The data after the use case behind a call, run as [ctx]. *)
Definition carried_out (ctx : TenantContext) (c : page_call) (w : world) : world :=
  let after {A} (u : use_case A) := (run (perform_as (pg_ports cost email invites) ctx u) w).2 in
  match c with
  | IssueApiKey body =>
      after (ApiKeyIssue (mkIssueApiKeyCommand (kq_name body) (Some (kq_scopes body))
               (Some (e ← kq_expiresAt body; if truthy e then Some (js_Date e) else None))))
  | RevokeApiKey id => after (ApiKeyRevoke id)
  | CreateUser body => after (UserCreate body)
  | UpdateUser id patch => after (UserUpdate id patch)
  | DeleteUser id => after (UserRemove id)
  | UpdateRetention body => after (RetentionSet body)
  | CreateInvite body => after (InviteCreate body)
  | RevokeInvite id => after (InviteRevoke id)
  | CreateAlertRule body => after (RuleCreate (rule_command body))
  | UpdateAlertRule id patch => after (RuleUpdate id patch)
  | DeleteAlertRule id => after (RuleRemove id)
  | CreateDashboard body => after (DashCreate (dashboard_command body))
  | UpdateDashboard id patch => after (DashUpdate id patch)
  | DeleteDashboard id => after (DashRemove id)
  | Invalidate | WriteText _ => w
  end.

Section Caller.
Context (cookies : jar) (t : jsstr) (ctx : TenantContext) (w : world) (r : reply).
Hypothesis (Hc : cookies !! ACCESS_COOKIE = Some t) (Hne : t <> [])
  (Hl : forallb (fun c => negb (is_line_terminator c)) t = true) (Hcl : caller_of jwt (w_now w) t = Some ctx).

(** The handler of a route, up to what it reads. *)
#[local] Ltac opened :=
  cbn [protected_handler req_body set_tenantContext];
  unfold post_api_keys, delete_api_key, post_users, patch_user, delete_user, put_retention, post_invites, post_invite_revoke,
    post_alert_rules, patch_alert_rule, delete_alert_rule, post_dashboards, patch_dashboard, delete_dashboard;
  cbn [req_body set_tenantContext].

#[local] Ltac posted route Ha :=
  unfold getCookie; rewrite Hc;
  eapply (call_effect cost jwt ttl email invites store google ping route); [by apply (literal_route route)|done..|];
  opened; by rewrite (parse_Some _ _ _ Ha).

#[local] Ltac addressed route id Hseg :=
  unfold getCookie; rewrite Hc;
  eapply (call_effect cost jwt ttl email invites store google ping route); [by apply (id_route route id _ Hseg)|done..|];
  opened.

Lemma id_param_parsed id auth body :
  uuid_regex id = true -> id_param (set_tenantContext ctx (mkRequest auth [(js "id", JStr id)] body None)) = mret id.
Proof. intros Hid. apply parse_Some, (id_parsed uuidSchema), uuid_id_parsed, Hid. Qed.

#[local] Ltac patched route id Hid Ha :=
  rewrite (patch_parsed _ _ _ _ Hid Ha); cbn [fst snd]; addressed route id (uuid_segment id Hid);
  rewrite (id_param_parsed id) by done; cbn [mbind prog_bind]; by rewrite (parse_Some _ _ _ Ha).

#[local] Ltac deleted route id Ha :=
  rewrite (id_parsed uuidSchema id (uuid_id_parsed id Ha)); addressed route id (uuid_segment id Ha); by rewrite (id_param_parsed id).

(** A call whose data its contract refuses goes nowhere. *)
Lemma executor_declined c p : declined c -> executor cookies c = Some p -> p (w, r) = (Err ZodError, (w, r)).
Proof.
  intros Hd Hp. destruct c; cbn [declined executor] in *; try done; injection Hp as <-;
    unfold createApiKeyFn, revokeApiKeyFn, createUserFn, updateUserFn, deleteUserFn, updateRetentionFn, cpCreateInvite,
      cpRevokeInvite, createAlertRuleFn, updateAlertRuleFn, deleteAlertRuleFn, Dashboards.createDashboardFn,
      Dashboards.updateDashboardFn, Dashboards.deleteDashboardFn, validated;
    first [by rewrite Hd | by rewrite (patch_declined _ _ _ Hd) | idtac];
    try (by rewrite (id_declined uuidSchema _ (uuid_declined _ Hd))).
  subst. by rewrite (id_declined (ZString [CMin 1]) []) by by rewrite parsed_string.
Qed.

(** A call that is sent: its use case if the role allows it, and nothing otherwise. *)
Lemma executor_effect c op p :
  accepted c -> executor cookies c = Some p -> call_operation c = Some op ->
  exists out, p (w, r) = (out, (if can (ctx_role ctx) op then carried_out ctx c w else w, r)).
Proof.
  intros Ha Hp Hop. destruct c as [body|id|body|id patch|id|body|body|id|body|id patch|id|body|id patch|id| |]; cbn [accepted executor call_operation carried_out] in *;
    try done; injection Hp as <-; injection Hop as <-.
  - unfold createApiKeyFn, validated, createApiKeyUpstream. rewrite Ha. posted POST_api_keys Ha.
  - unfold revokeApiKeyFn, validated, revokeApiKeyUpstream. rewrite (id_parsed (ZString [CMin 1]) id (key_id_parsed id (proj1 Ha))).
    addressed DELETE_api_key id Ha. by erewrite parse_Some by (apply (id_parsed (ZString [CMin 1])), key_id_parsed, Ha).
  - unfold createUserFn, validated, createUserUpstream. rewrite Ha. posted POST_users Ha.
  - destruct Ha as [Hid Ha]. unfold updateUserFn, validated, updateUserUpstream. patched PATCH_user id Hid Ha.
  - unfold deleteUserFn, validated, deleteUserUpstream. deleted DELETE_user id Ha.
  - unfold updateRetentionFn, validated, updateRetentionUpstream. rewrite Ha. posted PUT_retention Ha.
  - unfold cpCreateInvite, validated, createInviteUpstream. rewrite Ha. posted POST_invites Ha.
  - unfold cpRevokeInvite, validated, revokeInviteUpstream. rewrite (id_parsed uuidSchema id (uuid_id_parsed id Ha)).
    unfold getCookie. rewrite Hc. destruct (uuid_segment id Ha).
    eapply (call_effect cost jwt ttl email invites store google ping POST_invite_revoke); [by apply (router_endpoint POST_invite_revoke id)|done..|].
    opened. by rewrite (id_param_parsed id).
  - unfold createAlertRuleFn, validated, createAlertRuleUpstream. rewrite Ha. posted POST_alert_rules Ha.
  - destruct Ha as [Hid Ha]. unfold updateAlertRuleFn, validated, updateAlertRuleUpstream. patched PATCH_alert_rule id Hid Ha.
  - unfold deleteAlertRuleFn, validated, deleteAlertRuleUpstream. deleted DELETE_alert_rule id Ha.
  - unfold Dashboards.createDashboardFn, validated, Dashboards.createDashboardUpstream. rewrite Ha. posted POST_dashboards Ha.
  - destruct Ha as [Hid Ha]. unfold Dashboards.updateDashboardFn, validated, Dashboards.updateDashboardUpstream. patched PATCH_dashboard id Hid Ha.
  - unfold Dashboards.deleteDashboardFn, validated, Dashboards.deleteDashboardUpstream. deleted DELETE_dashboard id Ha.
Qed.

End Caller.

(** ** The theorems *)

(** C11. A click does what it says.  Take any run of a section of the admin, alerts or
    dashboard pages, shown for a role, and a caller the control plane accepts with that
    role.  A call of the run whose data the contracts read back as it was sent has, when
    it reaches the data, exactly the effect of its use case, run as this caller: nothing
    that a page offers is refused because of the role.  A call whose data its contract
    refuses is rejected by its server function, and no request is sent.  The sections of
    the admin page check what they send themselves: there every call with an id the
    service gave out is of the first kind. *)
Theorem clicks_carried_out `{Dates, Entries, LocalTime} mounted_at address cookies t ctx w rep C r c p
    (Hc : cookies !! ACCESS_COOKIE = Some t) (Hne : t <> [])
    (Hl : forallb (fun c => negb (is_line_terminator c)) t = true) (Hcl : caller_of jwt (w_now w) t = Some ctx)
    (Hsection : C ∈ page_sections (ctx_role ctx) mounted_at address) (Hr : reachable C r) (Hin : c ∈ calls r)
    (Hsent : executor cookies c = Some p) :
  (accepted c -> exists out, p (w, rep) = (out, (carried_out ctx c w, rep))) /\
  (declined c -> p (w, rep) = (Err ZodError, (w, rep))) /\
  (C ∈ admin_sections (ctx_role ctx) -> well_addressed c -> accepted c).
Proof.
  split_and!.
  - intros Ha. pose proof (proj1 (Forall_forall _ _) (sections_permitted _ _ _ C r Hsection Hr) c Hin) as Hp.
    unfold permitted in Hp. destruct (call_operation c) as [op|] eqn:Eop; [|by destruct c].
    destruct (executor_effect cookies t ctx w rep Hc Hne Hl Hcl c op p Ha Hsent Eop) as [out E]. exists out.
    rewrite ui_can_mirrors in Hp. apply andb_true_iff in Hp as [Hcan _]. by rewrite Hcan in E.
  - intros Hd. by apply (executor_declined cookies w rep c p).
  - intros Hadm. exact (proj1 (Forall_forall _ _) (admin_fit _ C r Hadm Hr) c Hin).
Qed.

End Composed.

#[local] Existing Instances Users.users_part ApiKeys.keys_part Invitations.invites_part AlertManager.alerts_part
  DashboardList.list_part Users.users_part_laws ApiKeys.keys_part_laws Invitations.invites_part_laws
  AlertManager.alerts_part_laws DashboardList.list_part_laws.

(** C32. Removals are confirmed one at a time.  In every run of the five sections that
    remove something, whatever the user clicks, in whatever order answers arrive and
    whatever the section is given meanwhile: at most one removal is under way, and none
    while the dialog's button is enabled.  The guard has a price: a removal whose answer
    is lost leaves the button disabled for good, for every row of the section. *)
Theorem removals_guarded `{Zod, Dates, Entries} role :
  guarded (Users.UsersSection role) UserResponse /\
  guarded (ApiKeys.ApiKeysSection role) ApiKeyResponse /\
  guarded (Invitations.InvitesSection role) InviteResponse /\
  guarded (AlertManager.AlertManager role) AlertRuleResponse /\
  guarded (DashboardList.DashboardList role) DashboardResponse.
Proof.
  split_and!.
  - eapply confirms_guarded; [apply _|apply users_confirm|done..].
  - eapply confirms_guarded; [apply _|apply keys_confirm|done..].
  - eapply confirms_guarded; [apply _|apply invites_confirm|done..].
  - eapply confirms_guarded; [apply _|apply alerts_confirm|done..].
  - eapply confirms_guarded; [apply _|apply list_confirm|done..].
Qed.

(** The range of a dashboard's panels.  In every run of the dashboard page the range
    in the address is the one the page was opened with, a preset's (its length, ending
    when it was clicked), or an interval of two valid dates that begins before it ends. *)
Theorem ranges_picked `{Dates, LocalTime} role mounted_at address r
    (Hr : reachable (DashboardDetail.DashboardDetail role mounted_at address) r) :
  picked address (DashboardDetail.url (state r)).
Proof. eapply rk_state, reachable_keeps; [|apply detail_ranges|exact Hr]. by left. Qed.

(** ** What the admin page loads *)

Section Loads.
Context {W : Type} `{Backend W, Zod}.

(** The same service, with the requests it was sent. *)
#[local] Instance logged : Backend (W * list FetchInit) :=
  {| fetch init w := ((fetch init w.1).1, ((fetch init w.1).2, w.2 ++ [init])) |}.

Definition gets (t path : jsstr) : FetchInit := mkFetch GET path (bearer t) None.

Lemma run_logged {A} t (call : jsstr -> web (W * list FetchInit) A) w log reqs rep :
  t <> [] -> (exists o w', call t ((w, log), rep) = (o, ((w', log ++ reqs), rep))) ->
  exists out w', run_admin (Some t) call ((w, log), rep) = (Ok out, ((w', log ++ reqs), rep)).
Proof.
  intros Hne (o & w' & E). unfold run_admin, attempt. rewrite (proj2 (usable_Some (Some t) t) (conj eq_refl Hne)), web_bind_run, E.
  destruct o; by eexists _, _.
Qed.

Lemma fetch_logged {A} t path (s : schema A) w log rep :
  exists o w', cpAuthedFetch t path s ((w, log), rep) = (o, ((w', log ++ [gets t path]), rep)).
Proof. destruct (fetch_parse_frame (gets t path) s (w, log) rep) as (out & E & _). exists out, (fetch (gets t path) w).2. exact E. Qed.

Lemma relay_logged {A} t path (s : schema A) w log rep :
  t <> [] ->
  exists out w', run_admin (Some t) (fun t => cpAuthedFetch t path s) ((w, log), rep) = (Ok out, ((w', log ++ [gets t path]), rep)).
Proof. intros Hne. apply run_logged; [done|]. apply fetch_logged. Qed.

Lemma retention_logged t w log rep :
  t <> [] ->
  exists out w', getRetentionUpstream (Some t) ((w, log), rep) = (Ok out, ((w', log ++ [gets t (js "/v1/retention")]), rep)).
Proof.
  intros Hne. apply run_logged; [done|]. unfold attempt. rewrite web_bind_run.
  destruct (fetch_logged t (js "/v1/retention") retentionResponseSchema w log rep) as (o & w' & ->).
  destruct o as [a|e]; [by eexists _, _|]. destruct e; try by eexists _, _. repeat case_match; by eexists _, _.
Qed.

Lemma if_can_logged {A} role op t path (s : schema A) w log rep :
  t <> [] ->
  exists out w', if_can role op (run_admin (Some t) (fun t => cpAuthedFetch t path s)) ((w, log), rep)
    = (Ok out, ((w', log ++ if ui_can role op then [gets t path] else []), rep)) /\ (out <> None -> ui_can role op = true).
Proof.
  intros Hne. unfold if_can. destruct (ui_can role op).
  - rewrite web_bind_run. destruct (relay_logged t path s w log rep Hne) as (out & w' & ->). by eexists _, _.
  - eexists None, w. by rewrite app_nil_r.
Qed.

(** What a part of the page needs. *)
Definition part_operation (p : admin_part) : option Operation :=
  match p with
  | users_section _ => Some user_list
  | keys_section _ => Some apikey_list
  | invites_section _ => Some invite_list
  | card _ | retention_card _ => None
  end.

Lemma loaded_operation {A} title section (o : option (AdminOutcome A)) role op p :
  (forall a, part_operation (section a) = Some op) -> (o <> None -> ui_can role op = true) ->
  p ∈ option_list (loaded title section <$> o) -> forall op', part_operation p = Some op' -> can role op' = true.
Proof.
  intros Hs Ho Hp op'. destruct o as [out|]; [|by apply elem_of_nil in Hp]. apply list_elem_of_singleton in Hp as ->.
  destruct out as [a|e]; cbn [loaded part_operation]; [|done]. rewrite Hs. intros [= <-]. specialize (Ho ltac:(done)).
  rewrite ui_can_mirrors in Ho. by apply andb_true_iff in Ho as [-> _].
Qed.

(** C31. The admin page loads what the role may see.  For a browser with a session, the
    load asks for the workspace and its retention, and for users, API keys and invitations
    exactly when the role of the session may list them; and the page has no section for
    what the role may not list. *)
Theorem admin_page_gated cookies t claims w log rep
    (Hc : cookies !! ACCESS_COOKIE = Some t) (Hd : decodeAccessClaims (Some t) = Some claims) :
  let role := ac_role claims in
  let listing op path := if can role op then [gets t (js path)] else [] in
  exists data w', loadAdminFn cookies ((w, log), rep) =
    (Ok data, ((w', log ++ [gets t (js "/v1/tenants/" ++ ac_tenant_id claims); gets t (js "/v1/retention")]
                    ++ listing user_list "/v1/users" ++ listing apikey_list "/v1/api-keys" ++ listing invite_list "/v1/invites"), rep)) /\
    ad_role data = role /\
    forall p op, p ∈ AdminDashboard data -> part_operation p = Some op -> can role op = true.
Proof.
  intros role listing. assert (Hne : t <> []) by by intros ->.
  unfold loadAdminFn, loadAdminData, getCookie. rewrite Hc, Hd, (proj2 (usable_Some (Some t) t) (conj eq_refl Hne)), !web_bind_run.
  fold role.
  unfold getTenantUpstream, listUsersUpstream, listApiKeysUpstream, listInvitesUpstream.
  destruct (relay_logged t (js "/v1/tenants/" ++ ac_tenant_id claims) tenantResponseSchema w log rep Hne) as (d1 & w1 & ->).
  rewrite web_bind_run. edestruct (retention_logged t w1) as (d2 & w2 & ->); [done|].
  rewrite web_bind_run. edestruct (if_can_logged role user_list t (js "/v1/users") userListSchema w2) as (d3 & w3 & -> & H3); [done|].
  rewrite web_bind_run. edestruct (if_can_logged role apikey_list t (js "/v1/api-keys") apiKeyListSchema w3) as (d4 & w4 & -> & H4); [done|].
  rewrite web_bind_run. edestruct (if_can_logged role invite_list t (js "/v1/invites") invitesSchema w4) as (d5 & w5 & -> & H5); [done|].
  eexists _, w5. split; [|split].
  - cbn [mret web_ret]. rewrite <-!app_assoc. unfold listing. rewrite !ui_can_mirrors, !andb_true_r. reflexivity.
  - done.
  - intros p op Hp. unfold AdminDashboard in Hp. cbn [ad_tenant ad_retention ad_users ad_apiKeys ad_invites] in Hp.
    rewrite !elem_of_app in Hp. destruct Hp as [Hp|[Hp|[Hp|Hp]]];
      [|exact (loaded_operation _ users_section d3 role user_list p ltac:(done) H3 Hp op)
       |exact (loaded_operation _ keys_section d4 role apikey_list p ltac:(done) H4 Hp op)
       |exact (loaded_operation _ invites_section d5 role invite_list p ltac:(done) H5 Hp op)].
    apply elem_of_cons in Hp as [->|Hp]; [by destruct d1|]. apply list_elem_of_singleton in Hp as ->. by destruct d2.
Qed.

End Loads.

(** ** Witnesses *)

#[local] Existing Instances demo_http demo_http_laws demo_formats demo_zod demo_zod_laws demo_crypto ascii_unicode demo_entropy
  demo_bcrypt one_token demo_net demo_dates map_entries.

#[local] Instance still_clock : LocalTime := {| local_fields := fun _ => (1970, 1, 1, 0, 0)%Z; toLocaleString := fun _ => [] |}.

Definition demo_values : Users.CreateValues := Users.mkCreateValues (js "dan@acme.io") (js "correct horse") [] m_member.
Definition demo_command : CreateUserCommand := mkCreateUserCommand (js "dan@acme.io") (js "correct horse") None m_member.

#[local] Abbreviation users_section_of := (Users.UsersSection tenant_admin).

(** Alice opens the dialog, and submits it. *)
Definition demo_users_run : page_run (State users_section_of) :=
  advance (S := State users_section_of) (Users.create_onSubmit 0 demo_values)
    (advance (S := State users_section_of) (set_state (Users.openDialog Users.creating)) (mounted users_section_of)).

Lemma demo_users_reached : reachable users_section_of demo_users_run.
Proof.
  eapply rtc_l; [|eapply rtc_once].
  - eapply (step_event users_section_of [] (Button (js "Add user") false _)); [|done]. apply list_elem_of_lookup. by exists 2.
  - eapply (step_event users_section_of [] (Form Users.create_defaults Users.create_fields (js "Add user") (Users.create_onSubmit 0))); [|by exists demo_values].
    apply list_elem_of_lookup. by exists 3.
Qed.

(** A run of the administrator's, and the user it adds. *)
Lemma clicks_carried_out_witness : exists out w',
  @createUserFn world (@control_plane demo_http demo_formats demo_zod demo_crypto ascii_unicode demo_entropy (demo_deps_of one_token))
    demo_formats demo_zod token_jar (Some (create_user_body demo_command)) (demo_world, no_reply) = (out, (w', no_reply)) /\
  length (d_users (w_db w')) = 3.
Proof.
  destruct (clicks_carried_out 10 demo_jwt 1000 NoOpEmailSender demo_config InMemoryOAuthStateStore.store demo_google (mret true)
    0 (mkTimeRange [] []) token_jar (js "tok") demo_ctx demo_world no_reply users_section_of demo_users_run (CreateUser demo_command)
    (@createUserFn world (control_plane (demo_deps_of one_token)) _ _ token_jar (Some (create_user_body demo_command))) eq_refl)
    as (Hdone & _ & Hadm).
  - discriminate.
  - vm_compute. reflexivity.
  - vm_compute. reflexivity.
  - left.
  - exact demo_users_reached.
  - assert (E : calls demo_users_run = [CreateUser demo_command]) by (vm_compute; reflexivity). rewrite E. left.
  - reflexivity.
  - destruct (Hdone (Hadm ltac:(left) I)) as [out E]. eexists out, _. split; [exact E|]. vm_compute. reflexivity.
Defined.

(** A member's token. *)
Definition member_token : jsstr := js "e30." ++ demo_segment (access_payload demo_jwt (mkSessionClaims acme alice member) 1000) ++ js ".sig".
Definition member_jar : jar := {[ ACCESS_COOKIE := member_token ]}.

(** A member's page asks for the workspace and its retention, and for nothing else. *)
Lemma admin_page_gated_witness : exists data log,
  @loadAdminFn (unit * list FetchInit) (@logged unit one_session) demo_formats demo_zod member_jar ((tt, []), no_reply)
    = (Ok data, ((tt, log), no_reply)) /\ fi_path <$> log = [js "/v1/tenants/" ++ acme; js "/v1/retention"].
Proof.
  assert (Ed : exists c, decodeAccessClaims (Some member_token) = Some c /\ ac_role c = member /\ ac_tenant_id c = acme)
    by (eexists; split; [vm_compute; reflexivity|split; vm_compute; reflexivity]).
  destruct Ed as (c & Hd & Hr & Ht).
  destruct (@admin_page_gated unit one_session demo_formats demo_zod member_jar member_token c tt [] no_reply eq_refl Hd) as (data & [] & E & _).
  rewrite Hr, Ht in E. eexists data, _. split; [exact E|]. reflexivity.
Defined.

(** A member opens the picker, and picks the first preset at some time. *)
Definition demo_props : DashboardDetail.detail_props :=
  DashboardDetail.mkDetailProps (([], (acme, (js "Errors", (None, (mkDashboardLayout [], (None, ([], ([], tt)))))))) : DashboardResponse) [] 0
    (fun _ => initial_panel).

#[local] Abbreviation detail_of := (DashboardDetail.DashboardDetail member 0 (mkTimeRange (js "now") (js "now"))).

Definition demo_range_run : page_run (State detail_of) :=
  advance (S := State detail_of) (set_state (DashboardDetail.on_picker (applyPreset (mkPreset (js "5m") 300000) 900000)))
    (advance (S := State detail_of)
       (set_state (DashboardDetail.on_picker (fun p => (None, onOpenChange (mkTimeRange (js "now") (js "now")) (negb (pk_open p)) p))))
       (mounted detail_of)).

Lemma ranges_picked_witness :
  DashboardDetail.url (state demo_range_run) = mkTimeRange (js "1970-01-01T00:10:00.000Z") (js "1970-01-01T00:15:00.000Z") /\
  picked (mkTimeRange (js "now") (js "now")) (DashboardDetail.url (state demo_range_run)).
Proof.
  split; [vm_compute; reflexivity|]. apply (ranges_picked member 0).
  eapply rtc_l; [|eapply rtc_once].
  - eapply (step_event detail_of demo_props (Button _ false _)); [|done]. apply list_elem_of_lookup. by exists 1.
  - eapply (step_event detail_of demo_props (ClickAt (js "5m") (fun now => set_state (DashboardDetail.on_picker (applyPreset (mkPreset (js "5m") 300000) now)))));
      [|exists 900000%Z; split; [by split|done]].
    apply list_elem_of_lookup. by exists 4.
Defined.
