(* ===== verification/ExplorerPages.v ===== *)
(** * The explorer page

    [routes/_authed/explorer.tsx] and what it shows: the live tail ([log-explorer.tsx],
    [filter-bar.tsx], [tail-toolbar.tsx], [log-list.tsx], [log-row.tsx], [scroll.ts]) and
    the search ([log-search.tsx], [search-bar.tsx]).  The two hooks are those of [LogTail]
    and [LogSearch]; here they get their page.  The address is the state of [nuqs]: a key
    that was set is read back, and a key that was set to [null] is gone; how it is printed,
    parsed and throttled is left out.  What the service finds for a query is one list,
    the same for the whole run. *)

From Stdlib Require Import QArith.
From stdpp Require Import base list option relations numbers strings gmap sorting.
From S2P Require Import Prelude Tokens Text Email Rbac Entities Zod Contracts Wire Json TailEvent LogTail LogSearch React.
Close Scope Q_scope.

(** ** The address *)

Inductive Mode := tail | search.

#[export] Instance Mode_eq_dec : EqDecision Mode.
Proof. solve_decision. Defined.

(** The keys of the address that the page uses; [None] is a key that is not there. *)
Record explorer_query := mkExplorerQuery {
  q_mode : option Mode;
  q_text : option jsstr;
  q_service : option jsstr;
  q_label : option jsstr;
  q_levels : option (list jsstr);
  q_q : option jsstr;
  q_level : option jsstr;
  q_labels : option (list jsstr);
  q_from : option jsstr;
  q_to : option jsstr
}.

(** [x || null] and [xs.length > 0 ? xs : null]. *)
Definition or_null (x : jsstr) : option jsstr := if truthy x then Some x else None.
Definition list_or_null {A} (xs : list A) : option (list A) := match xs with [] => None | _ => Some xs end.

Definition explorer_mode (q : explorer_query) : Mode := default tail (q_mode q).

Definition setMode (m : Mode) (q : explorer_query) : explorer_query :=
  mkExplorerQuery (Some m) (q_text q) (q_service q) (q_label q) (q_levels q) (q_q q) (q_level q) (q_labels q) (q_from q) (q_to q).

(** [TailMode]: the filters of the tail, read and written. *)
Definition tail_filters (q : explorer_query) : LogFilters :=
  mkLogFilters (default [] (q_service q)) (default [] (q_levels q)) (default [] (q_label q)) (default [] (q_text q)).

Definition tail_onFiltersChange (next : LogFilters) (q : explorer_query) : explorer_query :=
  mkExplorerQuery (q_mode q) (or_null (lf_text next)) (or_null (lf_service next)) (or_null (lf_label next))
    (list_or_null (lf_levels next)) (q_q q) (q_level q) (q_labels q) (q_from q) (q_to q).

(** [SearchMode]: the filters of the search. *)
Definition search_query (q : explorer_query) : SearchQueryState :=
  mkSearchQueryState (default [] (q_q q)) (default [] (q_service q)) (q_level q) (default [] (q_labels q))
    (default [] (q_from q)) (default [] (q_to q)).

Definition search_filters (q : explorer_query) : SearchFilters := filtersFromQuery (search_query q).

Definition search_onFiltersChange (next : SearchFilters) (q : explorer_query) : explorer_query :=
  mkExplorerQuery (q_mode q) (q_text q) (or_null (sf_service next)) (q_label q) (q_levels q) (or_null (sf_text next))
    (if bool_decide (sf_level next = []) then None else Some (sf_level next)) (list_or_null (sf_labels next))
    (or_null (sf_from next)) (or_null (sf_to next)).

(** ** Rows *)

(** The handlers of this page only set state. *)
Abbreviation explorer_widget := (widget (call := Empty_set) (fun _ => unit)).
Abbreviation explorer_handler := (handler (call := Empty_set) (fun _ => unit)).

Definition sets {S} (f : S -> S) : explorer_handler S := SetState f Return.

(** [handler]s without calls, run. *)
Definition effect_of {S} (h : explorer_handler S) (s : S) : S := state (advance h (mkRun s [] [])).

(** The clock of the platform's zone: hours, minutes, seconds, milliseconds. *)
Class WallClock := { wall_clock : Z -> Z * Z * Z * Z }.

Definition pad (n : Z) (w : nat) : jsstr := let t := print_int n in replicate (w - length t) 48%N ++ t.

Definition formatTimestamp `{Dates, WallClock} (ts : jsstr) : jsstr :=
  match Date_parse ts with
  | None => ts
  | Some d => let '(h, m, s, ms) := wall_clock d in pad h 2 ++ js ":" ++ pad m 2 ++ js ":" ++ pad s 2 ++ js "." ++ pad ms 3
  end.

Definition plural (n : Z) (noun : jsstr) : jsstr := print_int n ++ js " " ++ noun ++ (if (n =? 1)%Z then [] else js "s").
Definition em_dash : jsstr := [8212%N].

Section Rows.
Context `{Dates, WallClock} {S : Type}.

Definition LogRow (event : TailLogEvent) : list (explorer_widget S) :=
  [Text (formatTimestamp (tl_ts event)); Badge neutral (tl_level event); Text (tl_service event); Text (tl_message event)]
  ++ ((fun '(k, v) => Text (k ++ js "=" ++ v)) <$> tl_labels event).

Definition GapRow (reason : gap_reason) (dropped : Z) : list (explorer_widget S) :=
  [Text match reason with
        | gap_dropped => plural dropped (js "event") ++ js " dropped (slow consumer)"
        | gap_reconnect => js "stream reconnected " ++ em_dash ++ js " some events may have been missed"
        end].

Definition LogList (items : list TailItem) : list (explorer_widget S) :=
  flat_map (fun item => match item with
                        | item_log _ event => LogRow event
                        | item_gap _ reason dropped => GapRow reason dropped
                        end) items.

End Rows.

(** ** The live tail *)

Section FilterBar.
Context {S : Type} (value : LogFilters) (onChange : LogFilters -> explorer_handler S).

Definition toggleLevel (level : jsstr) : list jsstr :=
  if bool_decide (level ∈ lf_levels value) then filter (fun l => l <> level) (lf_levels value) else lf_levels value ++ [level].

Definition FilterBar : list (explorer_widget S) :=
  [Input (lf_text value) (fun v => onChange (mkLogFilters (lf_service value) (lf_levels value) (lf_label value) v));
   Input (lf_service value) (fun v => onChange (mkLogFilters v (lf_levels value) (lf_label value) (lf_text value)));
   Input (lf_label value) (fun v => onChange (mkLogFilters (lf_service value) (lf_levels value) v (lf_text value)))]
  ++ ((fun level => Button level false (onChange (mkLogFilters (lf_service value) (toggleLevel level) (lf_label value) (lf_text value))))
        <$> LOG_LEVELS)
  ++ shown (filtersActive value) [Button (js "Clear filters") false (onChange EMPTY_FILTERS)].

End FilterBar.

Definition NEAR_BOTTOM_PX : Z := 24.

(** Heights are whole pixels; the offset need not be. *)
Definition isNearBottom (scrollTop : Q) (scrollHeight clientHeight threshold : Z) : bool :=
  negb (Qle_bool (inject_Z threshold) (inject_Z scrollHeight - scrollTop - inject_Z clientHeight)%Q).

Definition nextAutoscroll (current atBottom : bool) : bool :=
  if negb atBottom && current then false else if atBottom && negb current then true else current.

Definition STATUS_LABEL (status : TailStatus) : jsstr :=
  match status with
  | connecting => js "Connecting" ++ [8230%N]
  | streaming => js "Live"
  | reconnecting => js "Reconnecting" ++ [8230%N]
  | paused_status => js "Paused"
  | offline => js "Disconnected"
  end.

(** The state of the page in the tail's mode. *)
Record tail_page := mkTailPage { tp_query : explorer_query; tp_tail : tail_state; tp_autoscroll : bool }.

Definition on_query (f : explorer_query -> explorer_query) (s : tail_page) : tail_page :=
  mkTailPage (f (tp_query s)) (tp_tail s) (tp_autoscroll s).
Definition on_tail (f : tail_state -> tail_state) (s : tail_page) : tail_page :=
  mkTailPage (tp_query s) (f (tp_tail s)) (tp_autoscroll s).
Definition on_autoscroll (f : bool -> bool) (s : tail_page) : tail_page :=
  mkTailPage (tp_query s) (tp_tail s) (f (tp_autoscroll s)).

Definition count (n : nat) : jsstr := print_int (Z.of_nat n).

Definition TailToolbar (s : tail_page) (visibleCount bufferedCount : nat) : list (explorer_widget tail_page) :=
  let t := tp_tail s in
  let stats := ts_stats t in
  [Text (STATUS_LABEL (ts_status t));
   Text (if visibleCount =? bufferedCount then count bufferedCount ++ js " rows"
         else count visibleCount ++ js " of " ++ count bufferedCount ++ js " rows")]
  ++ shown (0 <? st_dropped stats)%Z [Text (print_int (st_dropped stats) ++ js " dropped")]
  ++ shown (0 <? st_reconnects stats) [Text (plural (Z.of_nat (st_reconnects stats)) (js "reconnect"))]
  ++ [Button (if tp_autoscroll s then js "Autoscroll on" else js "Autoscroll off") false (sets (on_autoscroll negb));
      if bool_decide (ts_status t = offline) then Button (js "Reconnect") false (sets (on_tail LogTail.reconnect))
      else if ts_paused t then Button (js "Resume") false (sets (on_tail LogTail.resume))
      else Button (js "Pause") false (sets (on_tail LogTail.pause));
      Button (js "Clear") false (sets (on_tail LogTail.clear))].

Section LogExplorer.
Context `{Dates, WallClock, Unicode}.

Definition visible (filters : LogFilters) (items : list TailItem) : list TailItem :=
  List.filter (fun it => match it with item_gap _ _ _ => true | item_log _ event => matchesFilters event filters end) items.

Definition LogExplorer (s : tail_page) : list (explorer_widget tail_page) :=
  let filters := tail_filters (tp_query s) in
  let items := ts_items (tp_tail s) in
  let filtered := visible filters items in
  let logCount := length (List.filter is_log filtered) in
  FilterBar filters (fun next => sets (on_query (tail_onFiltersChange next)))
  ++ TailToolbar s logCount (length (List.filter is_log items))
  ++ (if (0 <? logCount) || existsb (fun i => negb (is_log i)) filtered then LogList filtered
      else match items with
           | [] => [Text (js "Waiting for logs"); Text (js "New logs for your tenant will stream in here as they arrive.")]
           | _ => if filtersActive filters
                  then [Text (js "No matching logs"); Text (js "No buffered logs match the current filters. Adjust or clear them.")]
                  else [Text (js "No logs yet"); Text (js "The stream is connected and waiting.")]
           end).

(** [onScroll]. *)
Definition onScroll (scrollTop : Q) (scrollHeight clientHeight : Z) (s : tail_page) : tail_page :=
  on_autoscroll (fun current => nextAutoscroll current (isNearBottom scrollTop scrollHeight clientHeight NEAR_BOTTOM_PX)) s.

(** [ModeToggle]. *)
Definition ModeToggle {S} (onChange : Mode -> explorer_handler S) : list (explorer_widget S) :=
  [Button (js "Live tail") false (onChange tail); Button (js "Search") false (onChange search)].

End LogExplorer.

(** ** Search *)

(** The state of the page in the search's mode. *)
Record search_page := mkSearchPage { sp_query : explorer_query; sp_labelDraft : jsstr; sp_hook : UseLogSearch.search_hook }.

Definition set_filters (next : SearchFilters) (s : search_page) : search_page :=
  mkSearchPage (search_onFiltersChange next (sp_query s)) (sp_labelDraft s) (sp_hook s).
Definition setLabelDraft (d : jsstr) (s : search_page) : search_page := mkSearchPage (sp_query s) d (sp_hook s).
Definition on_hook (f : UseLogSearch.search_hook -> UseLogSearch.search_hook) (s : search_page) : search_page :=
  mkSearchPage (sp_query s) (sp_labelDraft s) (f (sp_hook s)).

Section SearchBar.
Context (value : SearchFilters) (onSearch : explorer_handler search_page) (disabled : bool) (labelDraft : jsstr).

#[local] Abbreviation onChange next := (sets (set_filters next)).

Definition selectLevel (level : jsstr) : SearchFilters :=
  mkSearchFilters (sf_text value) (sf_service value) (if bool_decide (sf_level value = level) then [] else level) (sf_labels value)
    (sf_from value) (sf_to value).

Definition with_labels (labels : list jsstr) : SearchFilters :=
  mkSearchFilters (sf_text value) (sf_service value) (sf_level value) labels (sf_from value) (sf_to value).

Definition addLabel : explorer_handler search_page :=
  let draft := trim labelDraft in
  if negb (truthy draft) then Return
  else SetState (set_filters (with_labels (sf_labels value ++ [draft]))) (sets (setLabelDraft [])).

Definition removeLabel (index : nat) : explorer_handler search_page := onChange (with_labels (delete index (sf_labels value))).

(** A control that [disabled] turns off; a key press is one more way to start a handler. *)
Definition field (text : jsstr) (f : jsstr -> explorer_handler search_page) : list (explorer_widget search_page) :=
  if disabled then [Text text] else [Input text f].
Definition enter (h : explorer_handler search_page) : explorer_widget search_page := Button (js "Enter") disabled h.

Definition SearchBar : list (explorer_widget search_page) :=
  field (sf_text value) (fun v => onChange (mkSearchFilters v (sf_service value) (sf_level value) (sf_labels value) (sf_from value) (sf_to value)))
  ++ [enter onSearch]
  ++ field (sf_service value) (fun v => onChange (mkSearchFilters (sf_text value) v (sf_level value) (sf_labels value) (sf_from value) (sf_to value)))
  ++ [Button (js "Search") disabled onSearch]
  ++ shown (searchFiltersActive value)
       [Button (js "Clear filters") disabled (SetState (set_filters EMPTY_SEARCH_FILTERS) (sets (setLabelDraft [])))]
  ++ ((fun level => Button level disabled (onChange (selectLevel level))) <$> LOG_LEVELS)
  ++ field (sf_from value) (fun v => onChange (mkSearchFilters (sf_text value) (sf_service value) (sf_level value) (sf_labels value) v (sf_to value)))
  ++ field (sf_to value) (fun v => onChange (mkSearchFilters (sf_text value) (sf_service value) (sf_level value) (sf_labels value) (sf_from value) v))
  ++ field labelDraft (fun v => sets (setLabelDraft v))
  ++ [enter addLabel; Button (js "Add label") disabled addLabel]
  ++ concat (imap (fun i label => [Text label; Button (js "Remove label " ++ label) disabled (removeLabel i)]) (sf_labels value)).

End SearchBar.

Section LogSearch.
Context `{Dates, WallClock}.
Import UseLogSearch.

Definition Footer (s : UseLogSearch.State) : list (explorer_widget search_page) :=
  let n := length (ss_events s) in
  shown_with (ss_error s) (fun e => shown (truthy e) [Alert danger [] e])
  ++ (if ss_capped s
      then [Text (js "Showing the first " ++ count n ++ js " results " ++ em_dash ++ js " refine your filters to narrow the search.")]
      else match ss_nextCursor s with
           | Some _ => [Button (js "Load more") (bool_decide (ss_status s = loadingMore)) (sets (on_hook loadMore))]
           | None => [Text (plural (Z.of_nat n) (js "result") ++ js " " ++ em_dash ++ js " end of results")]
           end).

Definition LogSearch (p : search_page) : list (explorer_widget search_page) :=
  let filters := search_filters (sp_query p) in
  let s := sh_state (sp_hook p) in
  let submit := sets (on_hook (run filters)) in
  SearchBar filters submit (bool_decide (ss_status s = loading)) (sp_labelDraft p)
  ++ match ss_status s with
     | loading => [Text (js "Searching" ++ [8230%N])]
     | search_error => [Text (js "Search failed")] ++ shown_with (ss_error s) (fun e => shown (truthy e) [Text e]) ++ [Button (js "Try again") false submit]
     | _ =>
         match ss_events s with
         | [] =>
             if ss_hasSearched s then
               [Text (js "No matching logs");
                Text (if searchFiltersActive filters then js "No logs match these filters in the selected range. Adjust or clear them."
                      else js "No logs found for your tenant yet.")]
             else [Text (js "Search your logs"); Text (js "Enter a query and press Search to look through your tenant's history.")]
         | events => LogList (imap item_log events) ++ Footer s
         end
     end.

End LogSearch.

(** ** The page *)

Inductive explorer := in_tail (p : tail_page) | in_search (p : search_page).

Definition address_of (e : explorer) : explorer_query := match e with in_tail p => tp_query p | in_search p => sp_query p end.

Section ExplorerPage.
Context `{Zod, Dates, WallClock, Unicode} (cfg : UseLogTailOptions)
  (answers : SearchFilters -> option jsstr -> SearchOutcome -> Prop).

(** The page, opened at an address: a mode starts afresh when it is shown. *)
Definition open_page (q : explorer_query) : explorer :=
  match explorer_mode q with
  | tail => in_tail (mkTailPage q (react cfg ev_mount initial_tail) true)
  | search => in_search (mkSearchPage q [] (UseLogSearch.mount_run true (search_filters q) UseLogSearch.initial_search))
  end.

(** The address changes, and with it perhaps the mode. *)
Definition at_address (q : explorer_query) (e : explorer) : explorer :=
  match explorer_mode q, e with
  | tail, in_tail p => in_tail (mkTailPage q (tp_tail p) (tp_autoscroll p))
  | search, in_search p => in_search (mkSearchPage q (sp_labelDraft p) (sp_hook p))
  | _, _ => open_page q
  end.

(** What reaches the tail without the user. *)
Definition platform_event (ev : tail_event) : bool :=
  match ev with ev_mount | ev_unmount | ev_pause | ev_resume | ev_reconnect | ev_clear => false | _ => true end.

Inductive explorer_step : explorer -> explorer -> Prop :=
| x_toggle w h e :
    w ∈ ModeToggle (fun m => sets (fun e => at_address (setMode m (address_of e)) e)) -> starts w h -> explorer_step e (effect_of h e)
| x_address q e : explorer_step e (at_address q e)
| x_tail w h p : w ∈ LogExplorer p -> starts w h -> explorer_step (in_tail p) (in_tail (effect_of h p))
| x_event ev p :
    platform_event ev = true -> enabled ev (tp_tail p) = true -> explorer_step (in_tail p) (in_tail (on_tail (react cfg ev) p))
| x_scroll top height client p : explorer_step (in_tail p) (in_tail (onScroll top height client p))
| x_search w h p : w ∈ LogSearch p -> starts w h -> explorer_step (in_search p) (in_search (effect_of h p))
| x_answered rq out p :
    rq ∈ UseLogSearch.sh_requests (sp_hook p) -> UseLogSearch.sh_updates (sp_hook p) = [] ->
    answers (UseLogSearch.rq_filters rq) (UseLogSearch.rq_cursor rq) out ->
    explorer_step (in_search p) (in_search (on_hook (UseLogSearch.answered rq out) p))
| x_rejected rq p :
    rq ∈ UseLogSearch.sh_requests (sp_hook p) -> explorer_step (in_search p) (in_search (on_hook (UseLogSearch.rejected rq) p))
| x_render p : explorer_step (in_search p) (in_search (on_hook UseLogSearch.render p)).

Definition explored (q : explorer_query) (e : explorer) : Prop := rtc explorer_step (open_page q) e.

(** * Lemmas *)

#[local] Abbreviation tail_keeps t := (fun h : explorer_handler tail_page =>
  exists f, h = sets f /\ (forall p, explorer_mode (tp_query (f p)) = explorer_mode (tp_query p)) /\
    forall p, tp_tail p = t -> tp_tail (f p) = t \/ exists ev, enabled ev t = true /\ ev <> ev_unmount /\ tp_tail (f p) = react cfg ev t).

Definition mounted_tail (t : tail_state) : Prop := exists b, ts_life t = effect_ran b.

Lemma life_connect t : ts_life (connect t) = ts_life t.
Proof. unfold connect. by destruct (ts_stopped t). Qed.

Lemma life_flush t : ts_life (flush cfg t) = ts_life t.
Proof. unfold flush. by destruct (0 <? _). Qed.

Lemma life_close t : ts_life (closeSource t) = ts_life t.
Proof. unfold closeSource. by destruct (ts_es t). Qed.

Lemma life_error t : ts_life (on_error cfg t) = ts_life t.
Proof. unfold on_error. destruct (ts_stopped t); [done|]. destruct (_ <=? _); cbn; apply life_close. Qed.

Lemma life_reconnect t : ts_life (LogTail.reconnect t) = ts_life t.
Proof.
  unfold LogTail.reconnect. destruct (ts_stopped t); [done|]. rewrite life_connect. unfold clear_reconnectTimer.
  destruct (ts_reconnectTimer t); cbn; by destruct (ts_flushTimer t).
Qed.

Lemma mounted_effect t : mounted_tail (effect t).
Proof. unfold effect. cbn. destruct (ts_paused t); [by eexists|]. exists false. rewrite life_connect. cbn. by destruct (ts_sawOpen t). Qed.

Lemma mounted_react ev t : ev <> ev_unmount -> mounted_tail t -> mounted_tail (react cfg ev t).
Proof.
  intros Hev [b Hb]. destruct ev; cbn [react]; try done; try apply mounted_effect; exists b.
  - unfold on_open. cbn. by destruct (ts_wantGapOnOpen t).
  - unfold on_message. by destruct (parseLogFrame data).
  - done.
  - by rewrite life_error.
  - by rewrite life_connect.
  - by rewrite life_flush.
  - done.
  - done.
  - by rewrite life_reconnect.
  - done.
Qed.

Lemma toolbar_offers p v b : mounted_tail (tp_tail p) -> Forall (offers (tail_keeps (tp_tail p))) (TailToolbar p v b).
Proof.
  intros [l Hl]. unfold TailToolbar. widgets.
  - eexists. split_and!; [done..|]. by left.
  - case_bool_decide as Eo; [|destruct (ts_paused (tp_tail p)) eqn:Ep]; apply offers_button; intros _; eexists; (split_and!; [done..|]); intros p' E; right.
    + exists ev_reconnect. cbn. rewrite E, Hl. split_and!; try done. by case_bool_decide.
    + exists ev_resume. cbn. rewrite E, Hl, Ep. split_and!; try done. by case_bool_decide.
    + exists ev_pause. cbn. rewrite E, Hl, Ep. split_and!; try done. by case_bool_decide.
  - eexists. split_and!; [done..|]. intros p' E. right. exists ev_clear. cbn. by rewrite E, Hl.
Qed.

Lemma rows_offer {S} (R : explorer_handler S -> Prop) items : Forall (offers R) (LogList items).
Proof. unfold LogList. apply Forall_flat_map, Forall_true. intros [n ev|n r d]; unfold LogRow, GapRow; widgets. apply Forall_fmap, Forall_true. intros []. apply offers_text. Qed.

Lemma explorer_offers p : mounted_tail (tp_tail p) -> Forall (offers (tail_keeps (tp_tail p))) (LogExplorer p).
Proof.
  intros Hm. assert (Hq : forall next, tail_keeps (tp_tail p) (sets (on_query (tail_onFiltersChange next)))).
  { intros next. eexists. split_and!; [done..|]. by left. }
  unfold LogExplorer. apply Forall_app_2; [|apply Forall_app_2; [by apply toolbar_offers|]].
  - unfold FilterBar. widgets; apply Hq.
  - destruct (_ || _); [apply rows_offer|]. destruct (ts_items _); [widgets|]. destruct (filtersActive _); widgets.
Qed.

(** A handler of the search's page: a run of the hook. *)
#[local] Abbreviation search_runs p := (fun h : explorer_handler search_page =>
  explorer_mode (sp_query (effect_of h p)) = explorer_mode (sp_query p) /\
  rtc (UseLogSearch.search_step answers) (sp_hook p) (sp_hook (effect_of h p))).

Lemma bar_offers value onSearch disabled draft p : search_runs p onSearch -> Forall (offers (search_runs p)) (SearchBar value onSearch disabled draft).
Proof.
  intros Hs. assert (Hl : search_runs p (addLabel value draft)) by (unfold addLabel; by destruct (truthy _)).
  unfold SearchBar, field, enter. repeat apply Forall_app_2; try (destruct disabled; widgets; done); try (widgets; done).
  apply Forall_concat. apply Forall_lookup_2. intros i l Hi. apply list_lookup_imap_Some in Hi as (x & _ & ->). widgets. done.
Qed.

Lemma search_offers p : Forall (offers (search_runs p)) (LogSearch p).
Proof.
  assert (Hs : search_runs p (sets (on_hook (UseLogSearch.run (search_filters (sp_query p)))))) by (split; [done|apply rtc_once; constructor]).
  unfold LogSearch. apply Forall_app_2; [by apply bar_offers|].
  destruct (UseLogSearch.ss_status _) eqn:Es; [|widgets| | |widgets; done].
  all: destruct (UseLogSearch.ss_events _) as [|ev evs] eqn:Ee; [destruct (UseLogSearch.ss_hasSearched _); widgets|].
  all: apply Forall_app_2; [apply rows_offer|]; unfold Footer; apply Forall_app_2; [widgets|];
    destruct (UseLogSearch.ss_capped _) eqn:Ec; [widgets|]; destruct (UseLogSearch.ss_nextCursor _) as [c|] eqn:En; widgets.
  all: split; [done|]; apply rtc_once; constructor; unfold UseLogSearch.load_more_enabled; rewrite Es, Ee, Ec, En; try done; by case_bool_decide.
Qed.

Definition explorer_ok (e : explorer) : Prop :=
  match e with
  | in_tail p => explorer_mode (tp_query p) = tail /\ LogTail.reachable cfg (tp_tail p) /\ mounted_tail (tp_tail p)
  | in_search p => explorer_mode (sp_query p) = search /\ UseLogSearch.search_reachable answers (sp_hook p)
  end.

Lemma open_page_ok q : explorer_ok (open_page q).
Proof.
  unfold open_page. destruct (explorer_mode q) eqn:Em; (split; [done|]).
  - split; [|apply mounted_effect]. eapply reachable_step; [apply reachable_initial|]. by constructor.
  - unfold UseLogSearch.mount_run, UseLogSearch.search_reachable. cbn [andb]. destruct (searchFiltersActive _); [|done]. apply rtc_once. constructor.
Qed.

Lemma at_address_ok q e : explorer_ok e -> explorer_ok (at_address q e).
Proof. intros He. unfold at_address. destruct (explorer_mode q) eqn:Em, e; try apply open_page_ok; split; (done || apply He). Qed.

Lemma explorer_step_ok e e' : explorer_ok e -> explorer_step e e' -> explorer_ok e'.
Proof.
  intros He Hst. revert He. destruct Hst as [w h e Hw Hst|q e|w h p Hw Hst|ev p Hp He|top height client p|w h p Hw Hst|rq out p Hrq Hu Ha|rq p Hrq|p]; intros Hok.
  - unfold ModeToggle in Hw. repeat (apply elem_of_cons in Hw as [->|Hw]); [..|by apply elem_of_nil in Hw];
      destruct Hst as [_ ->]; by apply at_address_ok.
  - by apply at_address_ok.
  - destruct Hok as (Hm & Hr & Hl). destruct (proj1 (Forall_forall _ _) (explorer_offers p Hl) w Hw h Hst) as (f & -> & Hf & Hk).
    change (effect_of (sets f) p) with (f p). split; [by rewrite Hf|]. destruct (Hk p eq_refl) as [->|(ev & Hev & Hnu & ->)]; [done|].
    split; [|by apply mounted_react]. eapply reachable_step; [done|]. by constructor.
  - destruct Hok as (Hm & Hr & Hl). split_and!; [done| |apply mounted_react; [by intros ->|done]]. eapply reachable_step; [done|]. by constructor.
  - done.
  - destruct Hok as [Hm Hr]. destruct (proj1 (Forall_forall _ _) (search_offers p) w Hw h Hst) as [Hf Hk]. split; [by rewrite Hf|]. unfold UseLogSearch.search_reachable in *. by etrans.
  - destruct Hok as [Hm Hr]. split; [done|]. eapply rtc_r; [exact Hr|]. by constructor.
  - destruct Hok as [Hm Hr]. split; [done|]. eapply rtc_r; [exact Hr|]. by constructor.
  - destruct Hok as [Hm Hr]. split; [done|]. eapply rtc_r; [exact Hr|]. by constructor.
Qed.

Lemma explored_ok q e : explored q e -> explorer_ok e.
Proof.
  unfold explored. revert e. refine (rtc_ind_r _ _ _ _); [apply open_page_ok|]. intros x y _ Hs Hx. by eapply explorer_step_ok.
Qed.

End ExplorerPage.

(** ** Rows that are shown *)

Lemma visible_sublist `{Unicode} f l : sublist (visible f l) l.
Proof. unfold visible. induction l as [|i l IH]; cbn [List.filter]; [constructor|]. destruct (match i with item_log _ _ => _ | _ => _ end); by constructor. Qed.

Lemma filter_split {A} (P : A -> bool) l xs a ys :
  List.filter P l = xs ++ a :: ys -> exists l1 l2, l = l1 ++ a :: l2 /\ List.filter P l1 = xs /\ List.filter P l2 = ys.
Proof.
  revert xs. induction l as [|i l IH]; intros xs; cbn [List.filter]; [by destruct xs|]. destruct (P i) eqn:Ei.
  - destruct xs as [|x xs]; intros E; injection E as -> E; [by exists [], l|].
    destruct (IH xs E) as (l1 & l2 & -> & <- & Ey). exists (x :: l1), l2. cbn [List.filter]. by rewrite Ei.
  - intros E. destruct (IH xs E) as (l1 & l2 & -> & <- & Ey). exists (i :: l1), l2. cbn [List.filter]. by rewrite Ei.
Qed.

(** Filters hide logs, never markers. *)
Lemma gapped_visible `{Unicode} o f l : gapped o l -> gapped o (visible f l).
Proof.
  intros Hg pre a mid b post E Ha Hb Ho. unfold visible in E. apply filter_split in E as (l1 & l2 & -> & _ & E).
  apply filter_split in E as (l3 & l4 & -> & <- & _). specialize (Hg l1 a l3 b l4 eq_refl Ha Hb Ho).
  apply List.Exists_exists in Hg as (i & Hi & Hn). apply List.Exists_exists. exists i. split; [|done]. apply List.filter_In. split; [done|]. by destruct i.
Qed.

Lemma sorted_visible `{Unicode} f l : StronglySorted lt (item_seq <$> l) -> StronglySorted lt (item_seq <$> visible f l).
Proof.
  induction l as [|i l IH]; [done|]. cbn [fmap list_fmap]. intros [Hs Hf]%StronglySorted_inv. unfold visible in *. cbn [List.filter].
  destruct (match i with item_log _ _ => _ | _ => _ end); [|by apply IH]. cbn [fmap list_fmap]. constructor; [by apply IH|].
  rewrite Forall_fmap, Forall_forall in *. intros x [Hx _]%list_elem_of_In%List.filter_In. by apply Hf, list_elem_of_In.
Qed.

Lemma gapped_prefix o l k : gapped o (l ++ k) -> gapped o l.
Proof. intros Hg pre a mid b post ->. apply (Hg pre a mid b (post ++ k)). by rewrite <-!app_assoc, <-app_comm_cons, <-app_assoc. Qed.

(** Rows, when there are any, are listed. *)
Lemma rows_listed (rows : list TailItem) :
  rows <> [] -> (0 <? length (List.filter is_log rows)) || existsb (fun i => negb (is_log i)) rows = true.
Proof. destruct rows as [|[n ev|n r d] rows]; [done|..]; intros _; cbn [List.filter is_log existsb negb orb length]; [done|by rewrite orb_true_r]. Qed.

(** ** The theorems *)

(** C33. What the tail's page shows.  In every run of the explorer page, whatever is
    filtered, paused, cleared or switched: the rows shown are some of the rows received,
    in stream order and no more than the limit; a row is hidden only if it is a log that
    does not match the filters in the address; and between two logs that came from
    different connections a marker is shown, also when the filters hide every log that
    was next to it. *)
Theorem tail_page_rows `{Zod, Dates, WallClock, Unicode} cfg answers q p (Hr : explored cfg answers q (in_tail p)) :
  let t := tp_tail p in
  let rows := visible (tail_filters (tp_query p)) (ts_items t) in
  (exists above below, LogExplorer p = above ++ below /\ (rows <> [] -> below = LogList rows)) /\
  sublist rows (ts_items t) /\ length rows <= op_maxItems cfg /\ StronglySorted lt (item_seq <$> rows) /\
  (forall i, i ∈ ts_items t -> i ∈ rows \/ exists n ev, i = item_log n ev /\ matchesFilters ev (tail_filters (tp_query p)) = false) /\
  gapped (ts_origin t) rows.
Proof.
  intros t rows. destruct (explored_ok _ _ _ _ Hr) as (_ & Ht & _). pose proof (reachable_rows _ _ Ht) as Hi.
  split_and!.
  - eexists (_ ++ _), _. split; [unfold LogExplorer; by rewrite app_assoc|]. intros Hne. fold rows. by rewrite rows_listed.
  - apply visible_sublist.
  - etrans; [apply sublist_length, visible_sublist|]. apply Hi.
  - apply sorted_visible. destruct (ri_ordered _ _ Hi) as [Ho _]. unfold LogTail.rows in Ho. rewrite fmap_app in Ho. by apply StronglySorted_app_1_l in Ho.
  - intros i Hin. destruct i as [n ev|n r d].
    + destruct (matchesFilters ev (tail_filters (tp_query p))) eqn:Em; [left|right; by exists n, ev].
      apply list_elem_of_In, List.filter_In. split; [by apply list_elem_of_In|done].
    + left. apply list_elem_of_In, List.filter_In. split; [by apply list_elem_of_In|done].
  - eapply gapped_visible, gapped_prefix, Hi.
Qed.

Lemma or_null_default x : default [] (or_null x) = x.
Proof. by destruct x. Qed.

Lemma list_or_null_default {A} (xs : list A) : default [] (list_or_null xs) = xs.
Proof. by destruct xs. Qed.

Lemma search_filters_written next q : search_filters (search_onFiltersChange next q) = next.
Proof.
  unfold search_filters, filtersFromQuery, search_query, search_onFiltersChange. cbn [q_q q_service q_level q_labels q_from q_to sq_q sq_service sq_level sq_labels sq_from sq_to].
  rewrite !or_null_default, list_or_null_default. destruct next as [t s l ls f u]. cbn [sf_text sf_service sf_level sf_labels sf_from sf_to]. by case_bool_decide as E; [rewrite E|].
Qed.

(** C34. What the search's page shows, and what its address says.  With a service that
    pages through the results of a query, in every run of the explorer page: what is
    listed is a prefix of the results of one query, without a torn or repeated page, of
    at most 1000 entries; without a further page it is all of them.  The filters that
    were set are the filters in the address, and opening the address elsewhere starts
    exactly the search of these filters, if there are any. *)
Theorem search_page_exact `{Zod, Dates, WallClock, Unicode} L pos cfg q p
    (Hr : explored cfg (UseLogSearch.pages L pos) q (in_search p)) :
  let s := UseLogSearch.sh_state (sp_hook p) in
  (exists f, (UseLogSearch.sh_updates (sp_hook p) = [] -> UseLogSearch.sh_lastFilters (sp_hook p) = Some f \/ s = UseLogSearch.INITIAL) /\
     UseLogSearch.ss_events s `prefix_of` L f /\ length (UseLogSearch.ss_events s) <= MAX_SEARCH_RESULTS /\
     (UseLogSearch.ss_status s = UseLogSearch.success -> UseLogSearch.ss_nextCursor s = None ->
      UseLogSearch.ss_events s = take MAX_SEARCH_RESULTS (L f))) /\
  (forall next, search_filters (sp_query (set_filters next p)) = next) /\
  exists p', open_page cfg (sp_query p) = in_search p' /\
    UseLogSearch.sh_requests (sp_hook p') =
      if searchFiltersActive (search_filters (sp_query p)) then [UseLogSearch.mkSearchRequest 1 (search_filters (sp_query p)) None] else [].
Proof.
  intros s. destruct (explored_ok _ _ _ _ Hr) as [Hm Hh]. split_and!.
  - destruct (UseLogSearch.search_results_exact L pos _ Hh) as (f & Hf & Hp & Hb & _ & He). by exists f.
  - intros next. apply search_filters_written.
  - unfold open_page. rewrite Hm. eexists. split; [done|]. cbn [sp_hook]. unfold UseLogSearch.mount_run. cbn [andb]. by destruct (searchFiltersActive _).
Qed.

(** ** Witnesses *)

#[local] Existing Instances demo_formats demo_zod ascii_unicode.
#[local] Instance no_dates : Dates := {| Date_parse := fun _ => None |}.
#[local] Instance stopped_clock : WallClock := {| wall_clock := fun _ => (0, 0, 0, 0)%Z |}.

Lemma play_explored cfg answers evs p t :
  forallb platform_event evs = true -> play cfg evs (tp_tail p) = Some t ->
  rtc (explorer_step cfg answers) (in_tail p) (in_tail (on_tail (fun _ => t) p)).
Proof.
  revert p. induction evs as [|ev evs IH]; intros p; cbn [forallb play].
  - intros _ [= <-]. by destruct p.
  - intros [Hp Hps]%andb_true_iff. destruct (enabled ev (tp_tail p)) eqn:Ee; [|done]. intros Hpl. eapply rtc_l; [by apply x_event|].
    apply (IH (on_tail (react cfg ev) p) Hps Hpl).
Qed.

Definition no_query : explorer_query := mkExplorerQuery None None None None None None None None None None.

(** Two logs from two connections, and a filter that hides both. *)
Definition filtered_query : explorer_query := tail_onFiltersChange (mkLogFilters [] [] [] (js "bye")) no_query.

Definition demo_tail_page : tail_page := mkTailPage filtered_query demo_tail true.

Lemma tail_page_rows_witness :
  length (ts_items demo_tail) = 3 /\ is_log <$> visible (tail_filters filtered_query) (ts_items demo_tail) = [false] /\
  gapped (ts_origin (tp_tail demo_tail_page)) (visible (tail_filters (tp_query demo_tail_page)) (ts_items (tp_tail demo_tail_page))).
Proof.
  split; [vm_compute; reflexivity|]. split; [vm_compute; reflexivity|].
  assert (Hr : explored default_options (fun _ _ _ => True) filtered_query (in_tail demo_tail_page)).
  { refine (play_explored default_options _ (drop 1 demo_events) (mkTailPage filtered_query (react default_options ev_mount initial_tail) true) demo_tail _ _);
      [reflexivity|]. vm_compute. reflexivity. }
  destruct (tail_page_rows default_options (fun _ _ _ => True) filtered_query demo_tail_page Hr) as (_ & _ & _ & _ & _ & Hg). exact Hg.
Defined.

(** A link with a text to look for, opened; the first page of the results is listed. *)
Definition link_filters : SearchFilters := mkSearchFilters (js "hello") [] [] [] [] [].
Definition link_query : explorer_query := setMode search (search_onFiltersChange link_filters no_query).

Definition link_page : search_page :=
  mkSearchPage link_query []
    (UseLogSearch.render (UseLogSearch.answered (UseLogSearch.mkSearchRequest 1 link_filters None) (UseLogSearch.demo_search link_filters None)
      (UseLogSearch.render (UseLogSearch.run link_filters UseLogSearch.initial_search)))).

Lemma link_opened :
  open_page default_options link_query = in_search (mkSearchPage link_query [] (UseLogSearch.run link_filters UseLogSearch.initial_search)).
Proof. vm_compute. reflexivity. Qed.

Lemma search_page_exact_witness :
  length (UseLogSearch.ss_events (UseLogSearch.sh_state (sp_hook link_page))) = 2 /\
  UseLogSearch.ss_events (UseLogSearch.sh_state (sp_hook link_page)) `prefix_of` replicate 3 UseLogSearch.demo_hit.
Proof.
  split; [vm_compute; reflexivity|].
  assert (Hr : explored default_options (UseLogSearch.pages UseLogSearch.demo_results UseLogSearch.demo_pos) link_query (in_search link_page)).
  { unfold explored. rewrite link_opened. refine (rtc_l _ _ _ _ (x_render default_options _ _) _).
    refine (rtc_l _ _ _ _ (x_answered default_options _ (UseLogSearch.mkSearchRequest 1 link_filters None) (UseLogSearch.demo_search link_filters None) _ _ _ _)
      (rtc_once _ _ (x_render default_options _ _))); [left|done|].
    destruct (UseLogSearch.demo_search_pages link_filters None) as (? & ? & [= <- <-] & Hp & _). exact Hp. }
  destruct (search_page_exact UseLogSearch.demo_results UseLogSearch.demo_pos default_options link_query link_page Hr) as ((f & _ & Hp & _) & _). exact Hp.
Defined.
