(* ===== verification/SignInPages.v ===== *)
(** * The sign-in page and the frame of the signed-in pages

    [routes/login.tsx], [routes/_authed.tsx] and [components/shell/app-shell.tsx], as
    components of [React].  The form library validates what is submitted with the contract
    of the control plane before it calls [onSubmit]. *)

From stdpp Require Import base list option relations numbers strings gmap.
From S2P Require Import Prelude Errors Tokens Text Rbac Email Entities Ports AuthService Zod Contracts Json WebSession Bff BffOidc React.

(** ** Calls *)

Inductive sign_in_call :=
| LoginFn (data : LoginCommand)
| StartGoogleSignin (tenantSlug : jsstr)
| LogoutFn
| InvalidateRouter                                    (* router.invalidate() *)
| Navigate (to : jsstr)                               (* router.navigate({ to }) *)
| SetLocation (href : jsstr).                         (* window.location.href = href *)

Definition sign_in_answer (c : sign_in_call) : Type :=
  match c with
  | LoginFn _ => LoginResult
  | StartGoogleSignin _ => StartGoogleSigninResult
  | LogoutFn | InvalidateRouter | Navigate _ | SetLocation _ => unit
  end.

Abbreviation sign_in_handler := (handler sign_in_answer).
Abbreviation sign_in_widget := (widget sign_in_answer).

(** ** The sign-in page *)

Record login_state := mkLogin {
  formError : option jsstr;
  googleError : option jsstr;
  googlePending : bool;
  tenantSlug : jsstr
}.

Definition setFormError (e : option jsstr) (s : login_state) : login_state := mkLogin e (googleError s) (googlePending s) (tenantSlug s).
Definition setGoogleError (e : option jsstr) (s : login_state) : login_state := mkLogin (formError s) e (googlePending s) (tenantSlug s).
Definition setGooglePending (b : bool) (s : login_state) : login_state := mkLogin (formError s) (googleError s) b (tenantSlug s).
Definition setTenantSlug (t : jsstr) (s : login_state) : login_state := mkLogin (formError s) (googleError s) (googlePending s) t.

(** A message for a field: its errors, texts or objects with a message. *)
Definition fieldError (errors : list (option jsstr)) : option jsstr :=
  match List.filter truthy (omap id errors) with [] => None | messages => Some (join messages (js ", ")) end.

Section Login.
Context `{Zod}.

Definition onSubmit (value : LoginCommand) : sign_in_handler login_state :=
  match parsed loginRequestSchema (Some (login_json value)) with
  | None => Return
  | Some _ =>
      SetState (setFormError None)
        (await (answer := sign_in_answer) (LoginFn value) (fun result =>
           match result with
           | login_ok _ =>
               await (answer := sign_in_answer) InvalidateRouter (fun _ =>
                 await (answer := sign_in_answer) (Navigate (js "/app")) (fun _ => Return))
           | login_failed message => SetState (setFormError (Some message)) Return
           end))
  end.

(** After the answer to [startGoogleSignin], or after it failed. *)
Definition google_answered (result : StartGoogleSigninResult) : sign_in_handler login_state :=
  match result with
  | start_ok redirectUrl => await (answer := sign_in_answer) (SetLocation redirectUrl) (fun _ => Return)
  | start_failed message => SetState (setGoogleError (Some message)) (SetState (setGooglePending false) Return)
  end.

Definition google_failed : sign_in_handler login_state :=
  SetState (setGoogleError (Some (js "Something went wrong. Please try again."))) (SetState (setGooglePending false) Return).

Definition handleGoogleSignin (s : login_state) : sign_in_handler login_state :=
  let slug := trim (tenantSlug s) in
  SetState (setGoogleError None)
    (if negb (truthy slug)
     then SetState (setGoogleError (Some (js "Enter your workspace name to sign in with Google."))) Return
     else SetState (setGooglePending true)
            (try_await (answer := sign_in_answer) (StartGoogleSignin slug) google_answered google_failed)).

Definition login_fields (_ : LoginCommand) : list (control LoginCommand) :=
  [TextField (js "Workspace") lc_tenantSlug (fun t v => mkLoginCommand t (lc_email v) (lc_password v));
   TextField (js "Email") lc_email (fun t v => mkLoginCommand (lc_tenantSlug v) t (lc_password v));
   TextField (js "Password") lc_password (fun t v => mkLoginCommand (lc_tenantSlug v) (lc_email v) t)].

Definition LoginPage : component sign_in_answer := {|
  State := login_state;
  Props := unit;
  initial := mkLogin None None false [];
  view _ s :=
    mkRendered
      ([Text (js "Sign in to Logalot"); Text (js "Use your tenant workspace credentials.")]
       ++ shown_with (formError s) (fun e => shown (truthy e) [Alert danger (js "Sign-in failed") e])
       ++ [Input (tenantSlug s) (fun v => SetState (setTenantSlug v) Return);
           Form (mkLoginCommand [] [] []) login_fields (js "Sign in") onSubmit]
       ++ shown_with (googleError s) (fun e => shown (truthy e) [Alert danger (js "Sign-in with Google failed") e])
       ++ [Button (if googlePending s then js "Redirecting" ++ [8230%N] else js "Sign in with Google") (googlePending s)
             (handleGoogleSignin s)]) []
|}.

End Login.

(** ** The frame *)

Record shell_state := mkShell { mobileOpen : bool }.

Definition setMobileOpen (b : bool) (_ : shell_state) : shell_state := mkShell b.

(** [onLogout] of [_authed.tsx]. *)
Definition onLogout : sign_in_handler shell_state :=
  await (answer := sign_in_answer) LogoutFn (fun _ =>
    await (answer := sign_in_answer) InvalidateRouter (fun _ =>
      await (answer := sign_in_answer) (Navigate (js "/login")) (fun _ => Return))).

(** A link that runs [onNavigate] when it is clicked. *)
Definition nav_link (to label : jsstr) (onNavigate : option (sign_in_handler shell_state)) : list (sign_in_widget shell_state) :=
  match onNavigate with Some h => [Button label false h] | None => [Link to label] end.

Definition NavLinks (onNavigate : option (sign_in_handler shell_state)) : list (sign_in_widget shell_state) :=
  flat_map (fun '(to, label) => nav_link to label onNavigate)
    [(js "/app", js "Overview"); (js "/explorer", js "Log Explorer"); (js "/explorer?mode=search", js "Search");
     (js "/dashboards", js "Dashboards"); (js "/alerts", js "Alerts"); (js "/admin", js "Admin")].

Definition SessionFooter (session : ClientSession) : list (sign_in_widget shell_state) :=
  [Text (take 8 (cs_userId session) ++ [8230%N]); Badge brand (role_str (cs_role session)); Button (js "Sign out") false onLogout].

Definition AppShell : component sign_in_answer := {|
  State := shell_state;
  Props := ClientSession;
  initial := mkShell false;
  view session s :=
    mkRendered
      (NavLinks None ++ SessionFooter session
       ++ [Button (js "Open navigation menu") false (SetState (setMobileOpen true) Return)]
       ++ shown (mobileOpen s)
            ([Button (js "Close navigation menu") false (SetState (setMobileOpen false) Return)]
             ++ NavLinks (Some (SetState (setMobileOpen false) Return)) ++ SessionFooter session)) []
|}.

(** * Lemmas *)

Section LoginRuns.
Context `{Zod}.

#[local] Abbreviation run := (run_state sign_in_answer login_state).

(** What the page may send. *)
Definition well_formed (c : sign_in_call) : Prop :=
  match c with
  | LoginFn data => is_Some (parsed loginRequestSchema (Some (login_json data)))
  | StartGoogleSignin slug => slug <> [] /\ trim slug = slug
  | _ => True
  end.

Definition is_start (c : sign_in_call) : bool := match c with StartGoogleSignin _ => true | _ => false end.
Definition is_leave (c : sign_in_call) : bool := match c with SetLocation _ => true | _ => false end.

(** Handlers that have nothing to do with Google. *)
Fixpoint calm (h : sign_in_handler login_state) : Prop :=
  match h with
  | Return => True
  | SetState f k => (forall s, googlePending (f s) = googlePending s) /\ calm k
  | Await c k => is_start c = false /\ is_leave c = false /\ well_formed c /\ forall a, calm (k a)
  end.

Definition pending_ok (p : suspended sign_in_answer login_state) : Prop :=
  match p with
  | Suspended c k =>
      match c return (settled (sign_in_answer c) -> sign_in_handler login_state) -> Prop with
      | StartGoogleSignin _ => fun k => (forall a, k (Fulfilled a) = google_answered a) /\ k Rejected = google_failed
      | _ => fun k => forall a, calm (k a)
      end k
  end.

Definition waiting (r : run) : nat := length (List.filter (fun p => is_start (awaited p)) (pending r)).
Definition left_page (r : run) : nat := length (List.filter is_leave (calls r)).

Record login_inv (r : run) : Prop := {
  li_pending : Forall pending_ok (pending r);
  li_calls : Forall well_formed (calls r);
  li_button : waiting r + left_page r = if googlePending (state r) then 1 else 0
}.

Lemma calm_pending c k : is_start c = false -> (forall a, calm (k a)) -> pending_ok (Suspended c k).
Proof. by destruct c. Qed.

Lemma advance_calm h r : calm h -> login_inv r -> login_inv (advance h r).
Proof.
  revert r. induction h as [|f k IH|c k IH]; intros r Hh Hr; cbn [advance calm] in *; [done| |].
  - destruct Hh as [Hf Hk], Hr as [Hp Hc Hb]. apply IH; [done|]. split; cbn; [done..|]. rewrite Hf. exact Hb.
  - destruct Hh as (Hs & Hl & Hw & Hk), Hr as [Hp Hc Hb]. split; cbn.
    + apply Forall_app. split; [done|]. constructor; [by apply calm_pending|constructor].
    + apply Forall_app. split; [done|]. by constructor.
    + unfold waiting, left_page in *. cbn [pending calls]. rewrite !List.filter_app, !length_app. cbn [List.filter awaited]. rewrite Hs, Hl. cbn. lia.
Qed.

Lemma submit_calm v : calm (onSubmit v).
Proof.
  unfold onSubmit. destruct (parsed loginRequestSchema _) as [d|] eqn:Ed; [|done]. cbn [calm await]. split_and!; try done; [by eexists|].
  intros [[s|m]|]; cbn [calm await]; try done. split_and!; try done. intros [[]|]; cbn [calm await]; try done. split_and!; try done. by intros [[]|].
Qed.

Lemma google_clicked s r : state r = s -> googlePending s = false -> login_inv r -> login_inv (advance (handleGoogleSignin s) r).
Proof.
  intros Es Hg [Hp Hc Hb]. unfold handleGoogleSignin. destruct (truthy (trim (tenantSlug s))) eqn:Et; cbn [negb advance].
  - rewrite Es in Hb. cbn in Hb. rewrite Hg in Hb. cbn [try_await advance]. split; cbn.
    + apply Forall_app. split; [done|]. by constructor.
    + apply Forall_app. split; [done|]. constructor; [|constructor]. split; [by intros E; rewrite E in Et|apply trim_idem].
    + unfold waiting, left_page in *. cbn [pending calls]. rewrite !List.filter_app, !length_app. cbn. lia.
  - by split.
Qed.

Lemma waiting_delete (r : run) i p :
  pending r !! i = Some p -> waiting (mkRun (state r) (delete i (pending r)) (calls r)) + (if is_start (awaited p) then 1 else 0) = waiting r.
Proof.
  unfold waiting. cbn [pending]. generalize (pending r). intros l Hi. rewrite (delete_take_drop l i). rewrite <-(take_drop_middle l i p Hi) at 3.
  rewrite !List.filter_app, !length_app. cbn [List.filter]. destruct (is_start (awaited p)); cbn [length]; lia.
Qed.

Lemma login_settled r i c k a : login_inv r -> pending r !! i = Some (Suspended c k) -> login_inv (resume i (k a) r).
Proof.
  intros [Hp Hc Hb] Hi. pose proof (waiting_delete r i _ Hi) as Hd. cbn [awaited] in Hd. unfold resume. set (r0 := mkRun _ _ _) in *.
  assert (Hp0 : Forall pending_ok (pending r0)) by by apply Forall_delete. eapply Forall_lookup_1 in Hi; [|exact Hp].
  destruct (is_start c) eqn:Es.
  - destruct c as [|slug| | | |]; try done. destruct Hi as [Hok Hno].
    assert (Hfree : googlePending (state r) = true) by (destruct (googlePending (state r)); [done|lia]). rewrite Hfree in Hb.
    destruct a as [[url|m]|]; rewrite ?Hok, ?Hno; cbn [google_answered google_failed advance await].
    + split; cbn; [apply Forall_app; split; [done|]; constructor; [|constructor]; by intros [[]|]|apply Forall_app; split; [done|by constructor]|].
      rewrite Hfree. unfold waiting, left_page in *. cbn [pending calls r0] in *. rewrite !List.filter_app, !length_app. cbn. lia.
    + split; cbn; [done..|]. unfold waiting, left_page in *. cbn in *. lia.
    + split; cbn; [done..|]. unfold waiting, left_page in *. cbn in *. lia.
  - apply advance_calm; [by destruct c|]. split; [done..|]. unfold left_page in *. cbn [calls state r0]. lia.
Qed.

Lemma login_offers s :
  Forall (offers (fun h => calm h \/ googlePending s = false /\ h = handleGoogleSignin s)) (actionable (view LoginPage tt s)).
Proof. unfold actionable. cbn [dialogs page view LoginPage]. widgets; [by left|left; apply submit_calm|by right]. Qed.

Lemma login_reachable r : reachable LoginPage r -> login_inv r.
Proof.
  revert r. refine (rtc_ind_r _ _ _ _); [by split|]. intros r r' _ Hst IH. revert IH.
  destruct Hst as [[] w h r Hw Hst|i c k a r Hi]; intros Hr; [|by eapply login_settled].
  destruct (proj1 (Forall_forall _ _) (login_offers (state r)) w Hw h Hst) as [Hc|[Hg ->]]; [by apply advance_calm|by apply google_clicked].
Qed.

(** C35. The sign-in page never locks itself, and sends no empty or, for a password,
    refused input.  In every run: credentials are sent only when the login contract
    accepts them; a workspace is sent to Google without spaces around it and not empty,
    though the page does not hold it against the contract of that call; at most one
    sign-in with Google is started at a time; and while the button for it is disabled
    either one is under way or the browser is on its way to Google, whichever way an
    earlier attempt ended, a refused workspace or a lost connection included. *)
Theorem login_page_recovers r (Hr : reachable LoginPage r) :
  Forall well_formed (calls r) /\ waiting r + left_page r <= 1 /\
  (googlePending (state r) = true ->
   (exists i slug k, pending r !! i = Some (Suspended (StartGoogleSignin slug) k)) \/ exists url, SetLocation url ∈ calls r).
Proof.
  destruct (login_reachable r Hr) as [Hp Hc Hb]. split_and!; [done|destruct (googlePending _); lia|].
  intros Hg. cbn [State LoginPage] in *. rewrite Hg in Hb. unfold waiting, left_page in Hb. destruct (List.filter (fun p => is_start (awaited p)) (pending r)) as [|p l] eqn:Ef.
  - right. destruct (List.filter is_leave (calls r)) as [|c l] eqn:El; [done|].
    assert (Hin : List.In c (List.filter is_leave (calls r))) by (rewrite El; by left). apply List.filter_In in Hin as [Hin Hc'].
    destruct c; try done. eexists. by apply list_elem_of_In.
  - left. assert (Hin : List.In p (List.filter (fun p => is_start (awaited p)) (pending r))) by (rewrite Ef; by left).
    apply List.filter_In in Hin as [Hin Hs]. apply list_elem_of_In, list_elem_of_lookup in Hin as [i Hi]. destruct p as [c k]. destruct c; try done. by eexists i, _, k.
Qed.

End LoginRuns.

(** ** Witness *)

(** A click on the button with a workspace typed in. *)
#[local] Existing Instances demo_formats demo_zod.

Definition demo_login_run : run_state sign_in_answer login_state :=
  advance (handleGoogleSignin (mkLogin None None false (js " acme ")))
    (advance (answer := sign_in_answer) (SetState (setTenantSlug (js " acme ")) Return) (mkRun (mkLogin None None false []) [] [])).

Lemma login_page_recovers_witness :
  calls demo_login_run = [StartGoogleSignin (js "acme")] /\ Forall well_formed (calls demo_login_run).
Proof.
  split; [vm_compute; reflexivity|]. destruct (login_page_recovers demo_login_run) as [Hc _]; [|exact Hc].
  refine (rtc_l _ _ _ _ (step_event LoginPage tt (Input [] (fun v => SetState (setTenantSlug v) Return)) _ _ _ _) (rtc_once _ _
    (step_event LoginPage tt (Button (js "Sign in with Google") false (handleGoogleSignin (mkLogin None None false (js " acme ")))) _ _ _ _))).
  - apply list_elem_of_lookup. by exists 2.
  - by exists (js " acme ").
  - apply list_elem_of_lookup. by exists 4.
  - done.
Defined.
